(* ===== verification/_CoqProject ===== *)
-Q . S2P
Prelude.v
Effects.v
Memory.v
CString.v
CStdlib.v
CStdio.v
Printf.v
Spinlock.v
Kmalloc.v
Vfs.v
Sched.v
BlockDev.v
Ports.v
Ata.v
Fat32Fat.v
Fat32Dir.v
Fat32Vol.v
Fat32Vfs.v
Fat12.v
Fat12Vfs.v
Ext2.v
Ext2Vfs.v
Mount.v
System.v
CharDev.v
Cpu.v
Fdd.v
Timer.v
Boot.v
Paging.v
Pci.v
Usb.v
Video.v
History.v
Kb.v
LineEdit.v
Command.v
Net.v
NetProto.v
NetDhcp.v
Ne2000.v
E1000.v
Rtl8139.v
Vmxnet3.v
Font.v
Framebuffer.v
Loader.v
NetCmd.v
Kernel.v
SelfTest.v
KbSetup.v
Stdio.v
ShellCmd.v
