(* ===== verification/Prelude.v ===== *)
(** Verification of the x86 micro kernel (rudolfstepan/x86_micro_kernel): a 32-bit
    kernel written in C with its heap, tasks, file systems, drivers, network stack,
    shell and C library.

    * The program and this development

    The boot loader leaves a description of the memory (arch/x86/boot); the kernel
    (kernel/init) sets up descriptor tables and interrupts (arch/x86/cpu), paging
    (arch/x86/mm), timers (kernel/time) and a heap (mm/kmalloc.c), scans the PCI bus,
    finds the ATA and floppy drives (drivers/block) and mounts FAT32, FAT12 or EXT2
    volumes on them through a virtual file system (fs/), switches round robin between
    tasks on the timer interrupt (kernel/sched), loads programs (kernel/proc), talks to
    the network through one of four cards (drivers/net), and runs a shell
    (kernel/shell) on keyboard and console (drivers/char, drivers/video).  All parts use
    the same small C library (lib/libc).  The C functions are translated into Rocq
    functions of the same name, one file per part.

    Shared by all parts:

    - Prelude.v: machine integers as [Z] with their wrap-around written out, byte
      buffers with bounds-checked access, little-endian fields, tactics.
      Effects.v: the state monad of the stateful parts, counted loops with their
      invariant rules, the store of allocated structures.  Memory.v: physical memory as
      bytes, with loads and stores.  Ports.v: port I/O as a class.
    - CString.v: lib/libc/string.c.  CStdlib.v: memmove, 64-bit division, atoi and
      aligned allocation of lib/libc/stdlib.c.  CStdio.v: number formatting, printf,
      sprintf and snprintf of lib/libc/stdio.c, and normalize_path of string.c.
      Printf.v: the check of a format against its arguments.  Stdio.v: the dumps, the
      speaker and the file functions of stdio.c.

    Processor, memory and tasks:

    - Boot.v: arch/x86/boot/multiboot_parser.c.  Cpu.v: arch/x86/cpu (descriptor tables,
      interrupt controllers, interrupts, exceptions) and kernel/syscall.  Paging.v:
      arch/x86/mm/paging.c.  Timer.v: kernel/time (interval timer, APIC, HPET).
      Kernel.v: panic, banner and the order of the start-up in kernel/init.
    - Spinlock.v: include/lib/spinlock.h with the interrupt flag, for one processor
      and as a step relation over several.
    - Kmalloc.v: mm/kmalloc.c.  [kheap] is the block headers in memory, the frame
      bitmap and the lock; [k_malloc], [k_free], [k_realloc] are the C functions,
      pointer by pointer; [ff_alloc] and [ff_free] specify them on a list of tiles.
      SelfTest.v: the tests of the heap at start-up.
    - Sched.v: kernel/sched/scheduler.c, switch.asm and kernel/proc/process.c, with the
      stacks in memory.  Loader.v: kernel/init/prg.c and the program loading of
      process.c: programs with the kernel's header, and ELF files.

    Storage:

    - Vfs.v: fs/vfs/vfs.c over drivers given as tables of operations ([vfs_ops]).
    - BlockDev.v: what ata_read_sector and ata_write_sector promise, as a class, with
      a disk in memory as an instance.  Ata.v: drivers/block/ata.c over ports, with the
      register protocol of the drives as a class and a simulated bus as instance;
      [ata_blockdev] discharges the interface that the file systems are proved against.
      Fdd.v: drivers/block/fdd.c over ports, memory and the interrupt line, which
      discharges the interface [Floppy] in the same way.
    - Fat32Fat.v: boot sector, FSInfo and the file allocation table of fs/fat32.
      Fat32Dir.v: names, time stamps, directories and files.  Fat32Vol.v: theorems
      about the two on the contents of clusters.  Fat12.v: fs/fat12/fat12.c over the
      interface [Floppy].  Ext2.v: fs/ext2/ext2.c.  Fat32Vfs.v, Fat12Vfs.v, Ext2Vfs.v:
      the adapters, each as a table of VFS operations.
    - Mount.v: fs/vfs/filesystem.c, the detection and mounting of all drives.
      System.v: the three drivers on one set of disks under one VFS.

    Devices, network and shell:

    - Pci.v: drivers/bus/pci.c.  Usb.v: the search for controllers in
      drivers/usb/usb_core.c.  CharDev.v: drivers/char/rtc.c and serial.c.  Kb.v and
      KbSetup.v: drivers/char/kb.c.  Video.v: drivers/video/video.c and display.c of the
      text-mode build.  Font.v and Framebuffer.v: drivers/video/framebuffer.c and
      display.c of the frame-buffer build.
    - Net.v: byte order, checksums, the ARP cache and the frames of
      drivers/net/netstack.c, with the card as the frames that it takes and delivers.
      NetProto.v: ARP, ICMP and UDP.  NetDhcp.v: DHCP.  Ne2000.v, E1000.v, Rtl8139.v,
      Vmxnet3.v: the drivers of the cards.
    - History.v, LineEdit.v, Command.v: kernel/shell/command.c, its history, its line
      editor with the main loop, and the parsing, dispatch and commands of the shell's
      own state.  NetCmd.v: the network commands.  ShellCmd.v: the commands for files,
      processes, the clock, waiting and dumps.

    * Conventions

    A C function becomes a function with the state it changes as argument and result.
    [None] is undefined behaviour: an access outside an object, a use of a pointer
    that does not address an object, a trap, or a loop that does not end.  Error
    returns are values.  NULL is [None] for a pointer to a buffer and 0 for an
    address.  Loops without a structural bound take fuel; where the function itself
    supplies it, the bound is stated at the definition (the digits of a number, the
    number of headers, of tasks, of clusters), and where the caller supplies it the
    theorem says how much is enough.  A loop that waits for a device takes fuel too,
    and the laws of the device bound the wait.  A loop that never ends (the shell's)
    runs along a schedule of the events that arrive, and so does a wait for the timer
    (Timer.v); the drivers that only pause use [pit_delay] as time that passes, which
    supposes that the timer runs.

    Hardware is a parameter with the laws the driver relies on, in a class, and every
    such class has an instance in which they hold: [AtaDevice], [FdcDevice], [PicDevice],
    [PitDevice], [PciBus], [Cmos], [KeyboardPorts], [KbcDevice], [Terminal],
    [Ne2kDevice], [E1000Device], [RtlDevice].  The contents of uninitialized arrays and
    the success of allocations are parameters.  Interrupt handlers run between the calls
    of a driver, except where a wait gives them time.  Texts printed for diagnosis are
    left out, except where they are the result of the function.

    * What the theorems show

    - Heap (Kmalloc.v, SelfTest.v): allocation and release implement first fit with
      coalescing on the tiles of the heap and preserve their invariant; allocated blocks
      are disjoint, within the heap and large enough; release undoes allocation; the
      contents survive a reallocation; frames are handed out once, lowest first.
    - Tasks (Sched.v): a timer interrupt goes to the next unfinished task and every one
      of them is reached; a task starts at its entry point and resumes where it was
      interrupted; a created process is listed until it is terminated.
    - Programs (Loader.v): a program is loaded from its cluster chain, relocated and
      entered; an ELF file's segments come to their addresses.
    - Locks (Spinlock.v): at most one processor is in the critical section.
    - Processor (Cpu.v, Paging.v, Timer.v, Boot.v, Kernel.v): the tables that start-up
      builds decode to the intended segments and gates; interrupts reach their handlers
      and are acknowledged; exceptions of the kernel panic with their text; the first
      4 MB are mapped to themselves; a delay ends, and not too early; the memory that the
      boot loader reports is summed up; a panic shows its message and halts.
    - Disks (Ata.v, Fdd.v): a sector that was written is read back, other sectors keep
      their contents, the driver does not wait for a disk for ever, detected drives are
      found; FAT12 reads files through the floppy controller, its DMA and its interrupt.
    - VFS (Vfs.v): a path goes to the file system with the longest matching mount
      path, with the rest of the path; registration and mounting keep the tables.
    - FAT32: an update of the table changes one entry in all copies and nothing else;
      free clusters are found wherever the hint points; releasing a chain ends on
      every table, also a cyclic one, and frees exactly the chain; names, entries and
      FSInfo survive being written and read; a created file is found; a file read
      returns the bytes of its chain within the caller's buffer.
    - FAT12, EXT2: files are read as the 12-bit entries of the FAT (where the code reads
      them right) or the block list says, inodes survive being written and read,
      directories are searched by name.
    - Adapters and mounting: opening, reading and closing a file through the VFS gives
      the bytes of the file on the volume, for each of the three drivers; after the
      mounting of all drives the first one is at the root and the others below /mnt.
    - Keyboard, console, shell: the interrupt handler implements a translation of scan
      codes into a bounded queue; the consoles, in text mode and in the frame buffer,
      implement rows of characters under output and scrolling; keys typed at the prompt
      give the text edited at a cursor, on screen and in the buffer, and Enter hands it
      to the command interpreter and to the history, which is a list of at most 50 lines;
      a line is split into words and the command it starts with is run with the words as
      arguments, in upper or lower case; the list of commands shows each of them once.
    - Network: two hosts that run this stack resolve addresses by ARP, an echo request is
      answered and a datagram arrives, within the card's limit of 1500 bytes; the DHCP
      client takes a lease only from matching answers and stays within its buffers
      whatever arrives.
    - Cards (Ne2000.v, E1000.v, Rtl8139.v, Vmxnet3.v): NE2000 and E1000 with their
      interrupt handlers deliver the frames that arrive in order and put on the wire what
      is sent, which is what Net.v builds on; the RTL8139 sends what it is given.
    - Bus (Pci.v, Usb.v): the scan finds the functions of the devices present, and
      drivers are offered the devices that match.
    - C library: tokens, searches, numbers and memory functions against their
      mathematical definitions, the bounds of what they write, the safety of printf, and
      the layout of a dump.
    - Theorems that state a defect of the code say so in their comment: the frame of a
      new task lies outside its stack, the strict validation rejects every volume, a
      full directory is never extended, an arrow key types text, an echo request can
      overflow a buffer, a dump prints an unterminated string, and others.

    * Not modelled

    The user programs: the BASIC interpreter (userspace/bin/basic.c) calls functions that
    the repository does not contain, and the others make system calls and print.  The
    shell commands that switch to a disk by its kind (cmd_hdd, cmd_fdd) and that start
    the interpreter.  Functions that only print registers, packets or sectors, and stubs
    that only print (TCP, USB hub and keyboard).  The assembly files except the context
    switch and the frames that the interrupt stubs leave.  The code of a loaded program.
    The allocator's calls to the lock use the one-processor view; memory ordering is that
    of the atomic exchange.  Pointers to code are numbers. *)

From stdpp Require Export base numbers list gmap.
#[global] Open Scope Z_scope.

(** * Machine integers

    C integers are [Z] values; an operation of a fixed width is followed by the
    conversion of its result to that width. *)

Definition wrap (w z : Z) : Z := z mod 2 ^ w.

Abbreviation u8 := (wrap 8).
Abbreviation u16 := (wrap 16).
Abbreviation u32 := (wrap 32).
Abbreviation u64 := (wrap 64).

(** Two's complement reading of the low [w] bits (conversion to a signed type). *)
Definition swrap (w z : Z) : Z := wrap w (z + 2 ^ (w - 1)) - 2 ^ (w - 1).

Abbreviation s8 := (swrap 8).
Abbreviation s32 := (swrap 32).

(** [~x] at width [w]. *)
Definition unot (w z : Z) : Z := wrap w (Z.lnot z).

(** Comparison results as C integers. *)
Definition b2z (b : bool) : Z := if b then 1 else 0.

(** Case analysis on the integer comparisons of the code, closing the
    contradictory cases arithmetically. *)
Ltac zcase_step :=
  match goal with
  | |- context [?a =? ?b] => destruct (Z.eqb_spec a b)
  | |- context [?a <? ?b] => destruct (Z.ltb_spec a b)
  | |- context [?a <=? ?b] => destruct (Z.leb_spec a b)
  | H : context [?a =? ?b] |- _ => destruct (Z.eqb_spec a b)
  | H : context [?a <? ?b] |- _ => destruct (Z.ltb_spec a b)
  | H : context [?a <=? ?b] |- _ => destruct (Z.leb_spec a b)
  end.
Ltac zcase := repeat (zcase_step; cbn [negb andb orb Bool.eqb] in *; try (exfalso; lia)).

Ltac zlia := Z.div_mod_to_equations; lia.
Ltac znia := Z.div_mod_to_equations; nia.

Create Rewrite HintDb width.

Lemma wrap_range w z : 0 <= w -> 0 <= wrap w z < 2 ^ w.
Proof. intros. unfold wrap. apply Z.mod_pos_bound. lia. Qed.

Lemma wrap_small w z : 0 <= z < 2 ^ w -> wrap w z = z.
Proof. apply Z.mod_small. Qed.

Lemma wrap_idemp w z : wrap w (wrap w z) = wrap w z.
Proof. unfold wrap. apply Zmod_mod. Qed.

Lemma wrap_land w z : 0 <= w -> wrap w z = Z.land z (Z.ones w).
Proof. intros. unfold wrap. rewrite Z.land_ones; lia. Qed.

Lemma wrap_add_l w a b : wrap w (wrap w a + b) = wrap w (a + b).
Proof. unfold wrap. apply Zplus_mod_idemp_l. Qed.

Lemma wrap_add_r w a b : wrap w (a + wrap w b) = wrap w (a + b).
Proof. unfold wrap. apply Zplus_mod_idemp_r. Qed.

Lemma swrap_small w z : 0 < w -> - 2 ^ (w - 1) <= z < 2 ^ (w - 1) -> swrap w z = z.
Proof.
  intros Hw Hz. unfold swrap. rewrite wrap_small; [lia|].
  replace (2 ^ w) with (2 * 2 ^ (w - 1)); [lia|].
  rewrite <- Z.pow_succ_r by lia. f_equal. lia.
Qed.

Lemma testbit_above (n w i : Z) : 0 <= n < 2 ^ w -> 0 <= w <= i -> Z.testbit n i = false.
Proof.
  intros Hn Hi. rewrite <- (Z.mod_small n (2 ^ w)) by lia.
  apply Z.mod_pow2_bits_high. lia.
Qed.

#[export] Hint Rewrite wrap_idemp wrap_add_l wrap_add_r : width.

(** Bit fields as sums. *)
Lemma lor_shiftl_add a k b : 0 <= k -> 0 <= b < 2 ^ k -> Z.lor (Z.shiftl a k) b = a * 2 ^ k + b.
Proof.
  intros Hk Hb.
  assert (Z.land (Z.shiftl a k) b = 0) as H0.
  { apply Z.bits_inj'. intros i Hi. rewrite Z.land_spec, Z.bits_0. destruct (Z.ltb_spec i k).
    - by rewrite Z.shiftl_spec_low.
    - rewrite <- (Z.mod_small b (2 ^ k)), Z.mod_pow2_bits_high by lia. apply andb_false_r. }
  rewrite <- Z.shiftl_mul_pow2, <- Z.lxor_lor, <- Z.add_nocarry_lxor by done. done.
Qed.

(** Fields at disjoint places add up. *)
Lemma lor_low k a b : 0 <= k -> a mod 2 ^ k = 0 -> 0 <= b < 2 ^ k -> Z.lor a b = a + b.
Proof.
  intros Hk Ha Hb. pose proof (Z.div_mod a (2 ^ k) ltac:(lia)) as E. rewrite Ha, Z.add_0_r, Z.mul_comm in E.
  rewrite E, <- Z.shiftl_mul_pow2 by done. rewrite lor_shiftl_add by done. by rewrite Z.shiftl_mul_pow2.
Qed.

Lemma land_field x w k : 0 <= k -> 0 <= w -> Z.land x (Z.shiftl (Z.ones w) k) = Z.shiftl (x / 2 ^ k mod 2 ^ w) k.
Proof.
  intros Hk Hw. apply Z.bits_inj'. intros i Hi. rewrite Z.land_spec, !Z.shiftl_spec by done.
  destruct (Z.ltb_spec i k).
  - rewrite !(Z.testbit_neg_r _ (i - k)) by lia. apply andb_false_r.
  - rewrite Z.testbit_ones_nonneg by lia. destruct (Z.ltb_spec (i - k) w).
    + rewrite Z.mod_pow2_bits_low, Z.div_pow2_bits, andb_true_r by lia. f_equal. lia.
    + by rewrite Z.mod_pow2_bits_high, andb_false_r by lia.
Qed.

Lemma land_byte x k : 0 <= k -> Z.land x (Z.shiftl 255 k) = Z.shiftl (x / 2 ^ k mod 256) k.
Proof. intros Hk. by apply (land_field x 8). Qed.

(** * Buffers

    A C array of bytes is the list of its bytes; an access outside the array is
    undefined behaviour and is [None]. *)

Abbreviation buf := (list Z).

Definition byte_ok (c : Z) : Prop := 0 <= c < 256.
Definition bytes_ok (b : buf) : Prop := Forall byte_ok b.
Lemma land_byte_ok x : byte_ok (Z.land x 255).
Proof. change 255 with (Z.ones 8). rewrite Z.land_ones by lia. unfold byte_ok. pose proof (Z.mod_pos_bound x (2 ^ 8)). change (2 ^ 8) with 256 in *. lia. Qed.

Definition blen (b : buf) : Z := Z.of_nat (length b).

Definition rd (b : buf) (i : Z) : option Z :=
  if i <? 0 then None else b !! Z.to_nat i.

Definition wr (b : buf) (i v : Z) : option buf :=
  if (0 <=? i) && (i <? blen b) then Some (<[Z.to_nat i := u8 v]> b) else None.

(** Little-endian loads and stores of the machine. *)
Fixpoint le_get (b : buf) : Z :=
  match b with
  | [] => 0
  | c :: b' => c + 256 * le_get b'
  end.

Fixpoint le_put (n : nat) (v : Z) : buf :=
  match n with
  | O => []
  | S n' => v mod 256 :: le_put n' (v / 256)
  end.

(** The [n] bytes at offset [i], and their replacement. *)
Definition slice (b : buf) (i n : nat) : buf := take n (drop i b).
Definition blit (b : buf) (i : nat) (s : buf) : buf :=
  take i b ++ s ++ drop (i + length s) b.

Lemma length_le_put n v : length (le_put n v) = n.
Proof. revert v; induction n; intros; simpl; auto. Qed.

Lemma le_put_ok n v : bytes_ok (le_put n v).
Proof.
  revert v; induction n as [|n IH]; intros; simpl; constructor; [|apply IH].
  unfold byte_ok. zlia.
Qed.

Lemma le_get_range b : bytes_ok b -> 0 <= le_get b < 256 ^ Z.of_nat (length b).
Proof.
  induction 1 as [|c b Hc Hb IH]; simpl length; [simpl; lia|].
  rewrite Nat2Z.inj_succ, Z.pow_succ_r by lia. cbn [le_get]. unfold byte_ok in Hc. lia.
Qed.

Lemma le_get_put n v : le_get (le_put n v) = v mod 256 ^ Z.of_nat n.
Proof.
  revert v; induction n as [|n IH]; intros v.
  - simpl. rewrite Z.mod_1_r. reflexivity.
  - cbn [le_put le_get]. rewrite IH, Nat2Z.inj_succ, Z.pow_succ_r by lia.
    rewrite Z.rem_mul_r by lia. lia.
Qed.

Lemma le_put_get b : bytes_ok b -> le_put (length b) (le_get b) = b.
Proof.
  induction 1 as [|c b Hc Hb IH]; simpl; [done|]. unfold byte_ok in Hc.
  replace (c + 256 * le_get b) with (c + le_get b * 256) by lia.
  rewrite Z.mod_add, Z.mod_small, Z.div_add, Z.div_small, Z.add_0_l by lia.
  by rewrite IH.
Qed.

(** Arithmetic on list lengths. *)
Create Rewrite HintDb lens.
#[export] Hint Rewrite @length_app @length_take @length_drop @length_replicate
  @length_insert @length_reverse @length_fmap length_le_put : lens.
Ltac list_lia :=
  repeat first [progress (autorewrite with lens in * ) | progress (cbn [length] in * )]; lia.

Lemma length_blit b i s :
  (i + length s <= length b)%nat -> length (blit b i s) = length b.
Proof.
  intros H. unfold blit. rewrite !length_app, length_take, length_drop. lia.
Qed.

Lemma slice_blit b i s :
  (i + length s <= length b)%nat -> slice (blit b i s) i (length s) = s.
Proof.
  intros H. unfold slice, blit.
  rewrite drop_app_ge by (rewrite length_take; lia).
  rewrite length_take, Nat.min_l by lia.
  rewrite Nat.sub_diag, drop_0. by rewrite take_app_length.
Qed.

Lemma lookup_slice b i n k :
  (k < n)%nat -> slice b i n !! k = b !! (i + k)%nat.
Proof. intros H. unfold slice. by rewrite lookup_take_lt, lookup_drop by lia. Qed.

Lemma lookup_blit_out b i s k :
  (i + length s <= length b)%nat -> (k < i \/ i + length s <= k)%nat ->
  blit b i s !! k = b !! k.
Proof.
  intros Hl [Hk|Hk]; unfold blit.
  - rewrite lookup_app_l by (rewrite length_take; lia).
    by rewrite lookup_take_lt by lia.
  - rewrite lookup_app_r by (rewrite length_take; lia).
    rewrite lookup_app_r by (rewrite length_take; lia).
    rewrite lookup_drop, length_take. f_equal. lia.
Qed.

Lemma slice_blit_disjoint b i s j n :
  (i + length s <= length b)%nat -> (j + n <= i \/ i + length s <= j)%nat ->
  slice (blit b i s) j n = slice b j n.
Proof.
  intros Hl Hd. apply list_eq. intros k.
  destruct (decide (k < n)%nat).
  - rewrite !lookup_slice by lia. apply lookup_blit_out; lia.
  - unfold slice. rewrite !lookup_take_ge by lia. done.
Qed.

(** Overwriting the middle of a list. *)
Lemma blit_mid (p m m' q : buf) n : length p = n -> length m' = length m -> blit (p ++ m ++ q) n m' = p ++ m' ++ q.
Proof.
  intros <- Hm. unfold blit. rewrite take_app_length, drop_app_ge by lia.
  do 2 f_equal. rewrite Hm. replace (length p + length m - length p)%nat with (length m) by lia. by rewrite drop_app_length.
Qed.

Lemma bytes_ok_app a b : bytes_ok (a ++ b) <-> bytes_ok a /\ bytes_ok b.
Proof. apply Forall_app. Qed.

Lemma bytes_ok_slice b i n : bytes_ok b -> bytes_ok (slice b i n).
Proof. intros. by apply Forall_take, Forall_drop. Qed.

Lemma bytes_ok_blit b i s : bytes_ok b -> bytes_ok s -> bytes_ok (blit b i s).
Proof.
  intros. apply bytes_ok_app; split; [by apply Forall_take|].
  apply bytes_ok_app; split; [done|by apply Forall_drop].
Qed.

(** Concrete bytes are checked by evaluation. *)
Lemma bytes_check b : forallb (fun c => (0 <=? c) && (c <? 256)) b = true -> bytes_ok b.
Proof.
  intros H. apply Forall_forall. intros c Hc%list_elem_of_In. rewrite forallb_forall in H. specialize (H c Hc). unfold byte_ok. lia.
Qed.

(** Parts of parts. *)
Lemma blit_blit (b u v : buf) (i j : nat) : j = (i + length u)%nat -> (j + length v <= length b)%nat -> blit (blit b i u) j v = blit b i (u ++ v).
Proof.
  intros -> Hl. unfold blit. rewrite take_app_add' by (rewrite length_take; lia). rewrite take_app_length.
  rewrite <- !app_assoc. do 3 f_equal. rewrite drop_app_ge by list_lia. rewrite drop_app_ge by list_lia. rewrite drop_drop. f_equal. list_lia.
Qed.

Lemma slice_split (b : buf) (i n m : nat) : slice b i (n + m) = slice b i n ++ slice b (i + n) m.
Proof. unfold slice. rewrite <- drop_drop. symmetry. apply take_take_drop. Qed.

Lemma slice_cons (b : buf) (i n : nat) v : b !! i = Some v -> slice b i (S n) = v :: slice b (S i) n.
Proof. intros E. unfold slice. by rewrite (drop_S b v i E). Qed.

Lemma slice_one (b : buf) (i : nat) v : b !! i = Some v -> slice b i 1 = [v].
Proof. intros E. rewrite (slice_cons _ _ 0 v E). unfold slice. by rewrite take_0. Qed.

Lemma length_slice (b : buf) (i n : nat) : (i + n <= length b)%nat -> length (slice b i n) = n.
Proof. intros. unfold slice. list_lia. Qed.

Lemma blit_one (b : buf) (i : nat) v : (i < length b)%nat -> blit b i [v] = <[i := v]> b.
Proof. intros. symmetry. rewrite insert_take_drop by done. unfold blit. cbn. by rewrite Nat.add_1_r. Qed.

Lemma blit_nil (b : buf) (i : nat) : blit b i [] = b.
Proof. unfold blit. cbn. rewrite Nat.add_0_r. apply take_drop. Qed.

Lemma blit_insert (b u : buf) (i : nat) v : (i + length u < length b)%nat -> blit (<[i := v]> b) (S i) u = blit b i (v :: u).
Proof. intros. rewrite <- blit_one by lia. rewrite (blit_blit b [v] u) by (cbn; lia). done. Qed.

Lemma slice_insert_out (b : buf) (i j n : nat) v : (j < i \/ i + n <= j)%nat -> slice (<[j := v]> b) i n = slice b i n.
Proof.
  intros Hj. apply list_eq. intros k. destruct (decide (k < n)%nat).
  - rewrite !lookup_slice by lia. rewrite list_lookup_insert_ne by lia. done.
  - unfold slice. rewrite !lookup_take_ge by lia. done.
Qed.

Lemma lookup_blit (b r : buf) (i k : nat) : (i + length r <= length b)%nat ->
  blit b i r !! k = if (i <=? k)%nat && (k <? i + length r)%nat then r !! (k - i)%nat else b !! k.
Proof.
  intros Hl. destruct (Nat.leb_spec i k); destruct (Nat.ltb_spec k (i + length r)); cbn [andb]; try (apply lookup_blit_out; lia).
  unfold blit. rewrite lookup_app_r by list_lia. rewrite length_take, Nat.min_l by lia. by rewrite lookup_app_l by lia.
Qed.

Create HintDb bytes discriminated.
#[export] Hint Resolve le_put_ok bytes_ok_slice bytes_ok_blit : bytes.
