(* ===== verification/Effects.v ===== *)
(** State passing with undefined behaviour, as a monad.

    [M S A] is a computation on the state [S] with result [A]; [None] is undefined
    behaviour.  The file systems and the network stack are written in it.  [objects]
    is the store of the structures that a driver allocates, as far as their identity
    and lifetime are concerned. *)

From S2P Require Import Prelude.

Definition M (S A : Type) : Type := S -> option (A * S).

#[global] Instance M_ret S : MRet (M S) := fun A a s => Some (a, s).
#[global] Instance M_bind S : MBind (M S) := fun A B k m s =>
  match m s with Some (a, s') => k a s' | None => None end.

Definition undef {S A} : M S A := fun _ => None.
Definition gets {S A} (f : S -> A) : M S A := fun s => Some (f s, s).
Definition modify {S} (f : S -> S) : M S unit := fun s => Some (tt, f s).
(** An expression that may be undefined. *)
Definition lift {S A} (o : option A) : M S A := fun s => match o with Some a => Some (a, s) | None => None end.

Lemma bind_eq {S A B} (m : M S A) (k : A -> M S B) s a s' :
  m s = Some (a, s') -> (m ≫= k) s = k a s'.
Proof. intros E. unfold mbind, M_bind. by rewrite E. Qed.

Lemma bind_inv {S A B} (m : M S A) (k : A -> M S B) s b s' :
  (m ≫= k) s = Some (b, s') -> exists a s1, m s = Some (a, s1) /\ k a s1 = Some (b, s').
Proof. unfold mbind, M_bind. destruct (m s) as [[a s1]|]; intros; [eauto|done]. Qed.

Lemma gets_bind {S A B} (f : S -> A) (k : A -> M S B) s : (gets f ≫= k) s = k (f s) s.
Proof. done. Qed.
Lemma modify_bind {S B} (f : S -> S) (k : unit -> M S B) s : (modify f ≫= k) s = k tt (f s).
Proof. done. Qed.
Lemma lift_bind {S A B} (o : option A) a (k : A -> M S B) s : o = Some a -> (lift o ≫= k) s = k a s.
Proof. by intros ->. Qed.
Lemma bind_assoc {S A B C} (m : M S A) (k : A -> M S B) (l : B -> M S C) s :
  ((m ≫= k) ≫= l) s = (m ≫= fun x => k x ≫= l) s.
Proof. unfold mbind, M_bind. by destruct (m s) as [[a s']|]. Qed.

(** ** Counting loops *)

(** [for (i = ..; n more rounds; i++)] *)
Fixpoint for_up {S} (i : Z) (n : nat) (body : Z -> M S unit) : M S unit :=
  match n with
  | O => mret tt
  | S n' => _ ← body i; for_up (i + 1) n' body
  end.
(** [for (i = ..; n more rounds; i--)] *)
Fixpoint for_down {S} (i : Z) (n : nat) (body : Z -> M S unit) : M S unit :=
  match n with
  | O => mret tt
  | S n' => _ ← body i; for_down (i - 1) n' body
  end.

Lemma for_up_ext {S} (body body' : Z -> M S unit) n : (forall j, body j = body' j) -> forall i, for_up i n body = for_up i n body'.
Proof. intros E. induction n as [|n IH]; intros i; cbn [for_up]; [done|]. by rewrite E, IH. Qed.

Lemma for_down_ext {S} (body body' : Z -> M S unit) n : (forall j, body j = body' j) -> forall i, for_down i n body = for_down i n body'.
Proof. intros E. induction n as [|n IH]; intros i; cbn [for_down]; [done|]. by rewrite E, IH. Qed.

(** The invariant rules: every round of the loop keeps [P], so the loop ends with it. *)
Lemma for_up_rule {S} (P : Z -> S -> Prop) body n : forall i s,
  P i s ->
  (forall j s, i <= j < i + Z.of_nat n -> P j s -> exists s', body j s = Some (tt, s') /\ P (j + 1) s') ->
  exists s', for_up i n body s = Some (tt, s') /\ P (i + Z.of_nat n) s'.
Proof.
  induction n as [|n IH]; intros i s Hi Hb; cbn [for_up].
  - exists s. by rewrite Z.add_0_r.
  - destruct (Hb i s) as (s1 & E & H1); [lia|done|]. rewrite (bind_eq _ _ _ _ _ E).
    destruct (IH (i + 1) s1 H1) as (s2 & E2 & H2); [intros; apply Hb; [lia|done]|].
    exists s2. split; [done|]. by replace (i + Z.of_nat (Datatypes.S n)) with (i + 1 + Z.of_nat n) by lia.
Qed.

Lemma for_down_rule {S} (P : Z -> S -> Prop) body n : forall i s,
  P i s ->
  (forall j s, i - Z.of_nat n < j <= i -> P j s -> exists s', body j s = Some (tt, s') /\ P (j - 1) s') ->
  exists s', for_down i n body s = Some (tt, s') /\ P (i - Z.of_nat n) s'.
Proof.
  induction n as [|n IH]; intros i s Hi Hb; cbn [for_down].
  - exists s. by rewrite Z.sub_0_r.
  - destruct (Hb i s) as (s1 & E & H1); [lia|done|]. rewrite (bind_eq _ _ _ _ _ E).
    destruct (IH (i - 1) s1 H1) as (s2 & E2 & H2); [intros; apply Hb; [lia|done]|].
    exists s2. split; [done|]. by replace (i - Z.of_nat (Datatypes.S n)) with (i - 1 - Z.of_nat n) by lia.
Qed.

(** ** Loops over an array

    [arr] is an array in the state, [get] and [set] its access in the code; [ok] are the
    values that fit an element. *)

Section Arrays.
Context {S : Type} (arr : S -> buf) (upd : S -> buf -> S) (get : Z -> M S Z) (set : Z -> Z -> M S unit) (ok : Z -> Prop).
Context (arr_upd : forall s b, arr (upd s b) = b) (upd_upd : forall s b c, upd (upd s b) c = upd s c) (upd_same : forall s, upd s (arr s) = s).
Context (get_ok : forall s i v, arr s !! i = Some v -> get (Z.of_nat i) s = Some (v, s)).
Context (set_ok : forall s i v, ok v -> (i < length (arr s))%nat -> set (Z.of_nat i) v s = Some (tt, upd s (<[i := v]> (arr s)))).

Lemma fill_loop (k v : Z) n : ok v -> forall i s lo, k + i = Z.of_nat lo -> (lo + n <= length (arr s))%nat ->
  for_up i n (fun x => set (k + x) v) s = Some (tt, upd s (blit (arr s) lo (replicate n v))).
Proof using arr_upd upd_upd upd_same set_ok.
  intros Hv. induction n as [|n IH]; intros i s lo Hk Hn; cbn [for_up replicate].
  - by rewrite blit_nil, upd_same.
  - rewrite Hk, (bind_eq _ _ _ _ _ (set_ok s lo v Hv ltac:(lia))).
    rewrite (IH _ _ (Datatypes.S lo)) by (rewrite ?arr_upd, ?length_insert; lia). rewrite arr_upd, upd_upd.
    rewrite blit_insert by (rewrite length_replicate; lia). done.
Qed.

(** Elements moved towards the start, lowest first. *)
Lemma copy_down_loop (k : Z) (d : nat) n : forall i s lo, Forall ok (arr s) -> (0 < d)%nat -> k + i = Z.of_nat lo -> (lo + d + n <= length (arr s))%nat ->
  for_up i n (fun x => v ← get (k + x + Z.of_nat d); set (k + x) v) s = Some (tt, upd s (blit (arr s) lo (slice (arr s) (lo + d) n))).
Proof using arr_upd upd_upd upd_same get_ok set_ok.
  induction n as [|n IH]; intros i s lo Hok Hd Hk Hn; cbn [for_up].
  - unfold slice. by rewrite take_0, blit_nil, upd_same.
  - destruct (lookup_lt_is_Some_2 (arr s) (lo + d)) as [v Ev]; [lia|]. pose proof (Forall_lookup_1 _ _ _ _ Hok Ev) as Hv.
    assert (get (k + i + Z.of_nat d) s = Some (v, s)) as E by (rewrite Hk, <- Nat2Z.inj_add; by apply get_ok).
    rewrite bind_assoc, (bind_eq _ _ _ _ _ E), Hk, (bind_eq _ _ _ _ _ (set_ok s lo v Hv ltac:(lia))).
    rewrite (IH _ _ (Datatypes.S lo)) by (rewrite ?arr_upd, ?length_insert; first [lia | by apply Forall_insert]). rewrite arr_upd, upd_upd.
    rewrite slice_insert_out by lia. rewrite blit_insert by (rewrite length_slice; lia).
    rewrite (slice_cons _ _ _ _ Ev). done.
Qed.

(** Elements moved towards the end, highest first. *)
Lemma copy_up_loop (k : Z) n : forall i s hi, Forall ok (arr s) -> k + i = Z.of_nat hi -> (n <= hi)%nat -> (hi < length (arr s))%nat ->
  for_down i n (fun x => v ← get (k + x - 1); set (k + x) v) s = Some (tt, upd s (blit (arr s) (hi + 1 - n) (slice (arr s) (hi - n) n))).
Proof using arr_upd upd_upd upd_same get_ok set_ok.
  induction n as [|n IH]; intros i s hi Hok Hk Hn Hh; cbn [for_down].
  - unfold slice. by rewrite take_0, blit_nil, upd_same.
  - destruct (lookup_lt_is_Some_2 (arr s) (hi - 1)) as [v Ev]; [lia|]. pose proof (Forall_lookup_1 _ _ _ _ Hok Ev) as Hv.
    assert (get (k + i - 1) s = Some (v, s)) as E by (replace (k + i - 1) with (Z.of_nat (hi - 1)) by lia; by apply get_ok).
    rewrite bind_assoc, (bind_eq _ _ _ _ _ E), Hk, (bind_eq _ _ _ _ _ (set_ok s hi v Hv ltac:(lia))).
    rewrite (IH _ _ (hi - 1)%nat) by (rewrite ?arr_upd, ?length_insert; first [lia | by apply Forall_insert]). rewrite arr_upd, upd_upd.
    rewrite slice_insert_out by lia. do 3 f_equal. clear - Ev Hn Hh.
    replace (hi + 1 - Datatypes.S n)%nat with (hi - n)%nat by lia. replace (hi - Datatypes.S n)%nat with (hi - 1 - n)%nat by lia.
    replace (hi - 1 + 1 - n)%nat with (hi - n)%nat by lia.
    replace (Datatypes.S n) with (n + 1)%nat by lia. rewrite slice_split. replace (hi - 1 - n + n)%nat with (hi - 1)%nat by lia.
    assert (length (slice (arr s) (hi - 1 - n) n) = n) as Hl by (apply length_slice; lia).
    rewrite <- (blit_blit _ _ _ (hi - n) hi); [|lia|rewrite length_slice; lia].
    rewrite (slice_one _ _ v Ev), blit_one by (rewrite length_blit by lia; lia).
    apply list_eq. intros j. rewrite lookup_blit by (rewrite length_insert; lia). destruct (decide (j = hi)) as [->|].
    + rewrite (proj2 (Nat.ltb_ge hi _)), andb_false_r by lia.
      by rewrite !list_lookup_insert_eq by (rewrite ?length_blit; lia).
    + rewrite (list_lookup_insert_ne (blit _ _ _)) by done. rewrite lookup_blit by lia. by rewrite (list_lookup_insert_ne (arr s)) by done.
Qed.
End Arrays.

(** ** Allocated structures *)

(** The addresses in use, and the next one: addresses are never reused, so that a use
    after [free] cannot go unnoticed. *)
Record objects := Mk_objects { o_live : gset Z; o_next : Z }.

Definition new_object (o : objects) : Z * objects := (o_next o, Mk_objects ({[o_next o]} ∪ o_live o) (o_next o + 1)).
(** [None]: the address is not that of an allocated structure. *)
Definition free_object (p : Z) (o : objects) : option objects :=
  if decide (p ∈ o_live o) then Some (Mk_objects (o_live o ∖ {[p]}) (o_next o)) else None.

(** 0 is NULL, and the next address is fresh. *)
Definition objects_ok (o : objects) : Prop := 0 < o_next o /\ forall p, p ∈ o_live o -> 0 < p < o_next o.

Lemma new_object_ok o : objects_ok o -> objects_ok (snd (new_object o)) /\ fst (new_object o) <> 0 /\ fst (new_object o) ∉ o_live o.
Proof. intros [Hn Hl]. cbn. split_and!; [split; cbn; [lia|set_solver by lia]|lia|]. intros Hin. apply Hl in Hin. lia. Qed.

Lemma free_object_ok p o : objects_ok o -> p ∈ o_live o ->
  exists o', free_object p o = Some o' /\ objects_ok o' /\ o_live o' = o_live o ∖ {[p]}.
Proof.
  intros [Hn Hl] Hp. unfold free_object. rewrite decide_True by done. eexists. split; [done|]. split; [|done].
  split; [done|]. cbn. set_solver.
Qed.

(** A state with such a store, and [malloc] and [free] on it; [alloc_ok] says which
    requests are granted. *)
Class HasObjects (W : Type) := { objs : W -> objects; with_objs : W -> objects -> W; objs_with : forall w o, objs (with_objs w o) = o }.

Definition allocate {W} `{HasObjects W} (alloc_ok : Z -> bool) (size : Z) : M W (option Z) := fun w =>
  if alloc_ok size then let '(p, o) := new_object (objs w) in Some (Some p, with_objs w o) else Some (None, w).
Definition deallocate {W} `{HasObjects W} (p : Z) : M W unit := fun w =>
  match free_object p (objs w) with Some o => Some (tt, with_objs w o) | None => None end.
