(* ===== verification/Memory.v ===== *)
(** Physical memory as a function from addresses to bytes, with the loads and stores of
    the machine: what the network card, the frame buffer and the program loader share. *)

From S2P Require Import Prelude.

(** [n] bytes of the memory, and bytes put there. *)
Definition ram_bytes (m : Z -> Z) (a : Z) (n : nat) : buf := map (fun k => u8 (m (a + Z.of_nat k))) (seq 0 n).
Definition mem_put (m : Z -> Z) (a : Z) (l : buf) : Z -> Z := fun x => if a <=? x then default (m x) (l !! Z.to_nat (x - a)) else m x.

Lemma mem_put_in m a l k v : l !! k = Some v -> mem_put m a l (a + Z.of_nat k) = v.
Proof. intros Hk. unfold mem_put. rewrite (proj2 (Z.leb_le _ _)) by lia. replace (Z.to_nat (a + Z.of_nat k - a)) with k by lia. by rewrite Hk. Qed.
Lemma mem_put_out m a l x : x < a \/ a + blen l <= x -> mem_put m a l x = m x.
Proof. intros Hx. unfold mem_put, blen in *. destruct (Z.leb_spec a x); [|done]. rewrite lookup_ge_None_2 by lia. done. Qed.
Lemma ram_bytes_put m a l : bytes_ok l -> ram_bytes (mem_put m a l) a (length l) = l.
Proof.
  intros Hb. apply list_eq. intros i. unfold ram_bytes. rewrite list_lookup_fmap. destruct (decide (i < length l)%nat) as [Hi|].
  - rewrite lookup_seq_lt by done. cbn [fmap option_fmap option_map]. destruct (lookup_lt_is_Some_2 l i Hi) as [v Ev]. rewrite (mem_put_in _ _ _ _ v Ev), Ev. f_equal. apply wrap_small. exact (Forall_lookup_1 _ _ _ _ Hb Ev).
  - rewrite lookup_seq_ge by lia. symmetry. apply lookup_ge_None. lia.
Qed.
Lemma ram_bytes_other m a l b n : b + Z.of_nat n <= a \/ a + blen l <= b -> ram_bytes (mem_put m a l) b n = ram_bytes m b n.
Proof. intros Hd. apply map_ext_in. intros k Hk%in_seq. f_equal. apply mem_put_out. lia. Qed.

(** A 32-bit store and load. *)
Definition store32 (m : Z -> Z) (a v : Z) : Z -> Z := mem_put m a (le_put 4 v).
Definition load32 (m : Z -> Z) (a : Z) : Z := le_get (ram_bytes m a 4).

Lemma length_ram_bytes m a n : length (ram_bytes m a n) = n.
Proof. unfold ram_bytes. by rewrite length_map, length_seq. Qed.

Lemma load_store_same m a v : 0 <= v < 2 ^ 32 -> load32 (store32 m a v) a = v.
Proof.
  intros Hv. unfold load32, store32. pose proof (ram_bytes_put m a (le_put 4 v) (le_put_ok 4 v)) as E. rewrite length_le_put in E.
  rewrite E, le_get_put. apply Z.mod_small. exact Hv.
Qed.

Lemma load_store_other m a b v : a + 4 <= b \/ b + 4 <= a -> load32 (store32 m a v) b = load32 m b.
Proof. intros Hd. unfold load32, store32. f_equal. apply ram_bytes_other. unfold blen. rewrite length_le_put. lia. Qed.

Lemma store32_out m a v x : x < a \/ a + 4 <= x -> store32 m a v x = m x.
Proof. intros Hx. apply mem_put_out. unfold blen. rewrite length_le_put. lia. Qed.

Lemma ram_bytes_ok m a n : bytes_ok (ram_bytes m a n).
Proof. apply Forall_map, Forall_true. intros k. unfold byte_ok. pose proof (Z.mod_pos_bound (m (a + Z.of_nat k)) (2 ^ 8)). unfold wrap. change (2 ^ 8) with 256 in *. lia. Qed.

Lemma load32_range m a : 0 <= load32 m a < 2 ^ 32.
Proof. pose proof (le_get_range _ (ram_bytes_ok m a 4)) as Hr. rewrite length_ram_bytes in Hr. exact Hr. Qed.

(** ** Loops *)

(** [for (i = ..; n more rounds; i++)] over a body that changes the state. *)
Fixpoint rounds {S} (i : Z) (n : nat) (body : Z -> S -> S) (s : S) : S :=
  match n with
  | O => s
  | S n' => rounds (i + 1) n' body (body i s)
  end.

Lemma rounds_rule {S} (P : Z -> S -> Prop) body n : forall i s,
  P i s -> (forall j s, i <= j < i + Z.of_nat n -> P j s -> P (j + 1) (body j s)) -> P (i + Z.of_nat n) (rounds i n body s).
Proof.
  induction n as [|n IH]; intros i s Hi Hb; cbn [rounds]; [by rewrite Z.add_0_r|].
  replace (i + Z.of_nat (Datatypes.S n)) with (i + 1 + Z.of_nat n) by lia. apply IH; [apply Hb; [lia|done]|].
  intros j s' Hj. apply Hb. lia.
Qed.

Lemma rounds_same {S} (body : Z -> S -> S) n : forall i s, (forall j, i <= j < i + Z.of_nat n -> body j s = s) -> rounds i n body s = s.
Proof. induction n as [|n IH]; intros i s Hb; cbn [rounds]; [done|]. rewrite Hb by lia. apply IH. intros j Hj. apply Hb. lia. Qed.

(** ** Copying and filling, a byte at a time

    [while (n--) *d++ = *s++] and [while (n--) *p++ = v]. *)
Fixpoint copy_bytes (m : Z -> Z) (d s : Z) (n : nat) : Z -> Z :=
  match n with
  | O => m
  | S n' => copy_bytes (fun x => if x =? d then u8 (m s) else m x) (u32 (d + 1)) (u32 (s + 1)) n'
  end.
Fixpoint set_bytes (m : Z -> Z) (p v : Z) (n : nat) : Z -> Z :=
  match n with
  | O => m
  | S n' => set_bytes (fun x => if x =? p then u8 v else m x) (u32 (p + 1)) v n'
  end.

Definition within (a n x : Z) : bool := (a <=? x) && (x <? a + n).

Lemma within_spec a n x : within a n x = true <-> a <= x < a + n.
Proof. unfold within. rewrite andb_true_iff, Z.leb_le, Z.ltb_lt. done. Qed.

(** A store at the end of the address space is followed by one at 0, which the callers of
    these lemmas exclude. *)
Lemma copy_bytes_spec n : forall m d s x, 0 <= d -> 0 <= s -> d + Z.of_nat n <= 2 ^ 32 -> s + Z.of_nat n <= 2 ^ 32 ->
  d + Z.of_nat n <= s \/ s + Z.of_nat n <= d -> copy_bytes m d s n x = if within d (Z.of_nat n) x then u8 (m (s + (x - d))) else m x.
Proof.
  induction n as [|n IH]; intros m d s x Hd Hs Hde Hse Hdis; cbn [copy_bytes].
  - destruct (within d (Z.of_nat 0) x) eqn:E; [|done]. apply within_spec in E. lia.
  - destruct n as [|n].
    + cbn [copy_bytes]. unfold within. destruct (Z.eqb_spec x d) as [Ex|], (Z.leb_spec d x), (Z.ltb_spec x (d + Z.of_nat 1)); try lia; cbn; try done.
      replace (s + (x - d)) with s by lia. done.
    + rewrite !(wrap_small 32) by lia. rewrite IH by lia. unfold within.
      destruct (Z.eqb_spec x d) as [Ex|], (Z.leb_spec (d + 1) x), (Z.ltb_spec x (d + 1 + Z.of_nat (S n))), (Z.leb_spec d x), (Z.ltb_spec x (d + Z.of_nat (S (S n)))); try lia; cbn [andb]; try done.
      * replace (s + (x - d)) with s by lia. done.
      * destruct (Z.eqb_spec (s + 1 + (x - (d + 1))) d); [lia|]. do 2 f_equal. lia.
Qed.

Lemma set_bytes_spec n : forall m p v x, 0 <= p -> p + Z.of_nat n <= 2 ^ 32 -> set_bytes m p v n x = if within p (Z.of_nat n) x then u8 v else m x.
Proof.
  induction n as [|n IH]; intros m p v x Hp He; cbn [set_bytes].
  - destruct (within p (Z.of_nat 0) x) eqn:E; [|done]. apply within_spec in E. lia.
  - destruct n as [|n].
    + cbn [set_bytes]. unfold within. destruct (Z.eqb_spec x p), (Z.leb_spec p x), (Z.ltb_spec x (p + Z.of_nat 1)); try lia; done.
    + rewrite (wrap_small 32) by lia. rewrite IH by lia. unfold within.
      destruct (Z.eqb_spec x p), (Z.leb_spec (p + 1) x), (Z.ltb_spec x (p + 1 + Z.of_nat (S n))), (Z.leb_spec p x), (Z.ltb_spec x (p + Z.of_nat (S (S n)))); try lia; done.
Qed.

(** ** [memcpy] and [memset] on memory *)

(** The size has type [uint16_t]. *)
Definition mem_memcpy (m : Z -> Z) (d s n : Z) : Z -> Z := if (d =? 0) || (s =? 0) then m else copy_bytes m d s (Z.to_nat (u16 n)).
Definition mem_memset (m : Z -> Z) (p v n : Z) : Z -> Z := if p =? 0 then m else set_bytes m p v (Z.to_nat (u32 n)).
