(* ===== verification/CString.v ===== *)
(** lib/libc/string.c: character classes, string and memory routines.

    A [char*] into an object is the list of the object's bytes from the pointer
    on; running past the end of the object (a missing terminator, a destination
    that is too small) is undefined behaviour and yields [None].  A [char] is
    stored as a byte in [0..255] and read as a signed value ([s8]) where the code
    promotes it to [int].  Routines with two pointers are modelled for pointers
    into different objects; overlap is covered by [memmove] in CStdlib.v. *)

From stdpp Require Import strings.
From S2P Require Import Prelude.

(** A string literal with its terminating NUL. *)
Fixpoint lit_bytes (s : string) : buf :=
  match s with
  | EmptyString => []
  | String a s' => Z.of_N (Ascii.N_of_ascii a) :: lit_bytes s'
  end.
Definition lit (s : string) : buf := lit_bytes s ++ [0].

(** ** Character classes *)

Definition tolower (ch : Z) : Z :=
  if (65 (* 'A' *) <=? ch) && (ch <=? 90 (* 'Z' *)) then ch - 65 + 97 else ch.

Definition toupper (ch : Z) : Z :=
  if (97 (* 'a' *) <=? ch) && (ch <=? 122 (* 'z' *)) then ch - 97 + 65 else ch.

Definition isdigit (c : Z) : bool := (48 <=? c) && (c <=? 57).

Definition isalpha (c : Z) : bool :=
  ((65 <=? c) && (c <=? 90)) || ((97 <=? c) && (c <=? 122)).

Definition isalnum (c : Z) : bool :=
  ((65 <=? c) && (c <=? 90)) || ((97 <=? c) && (c <=? 122)) || ((48 <=? c) && (c <=? 57)).

Definition isspace (c : Z) : bool :=
  (c =? 32) || (c =? 9) || (c =? 10) || (c =? 13).

(** ** Length, copy, concatenation *)

Fixpoint strlen (str : buf) : option Z :=
  match str with
  | [] => None
  | c :: str' => if c =? 0 then Some 0 else len ← strlen str'; Some (len + 1)
  end.

Fixpoint strcpy (dest src : buf) : option buf :=
  match src, dest with
  | c :: src', _ :: dest' =>
      if c =? 0 then Some (0 :: dest') else cons c <$> strcpy dest' src'
  | _, _ => None
  end.

(** The second loop of [strncpy]: [dest[i] = 0] for the remaining positions. *)
Fixpoint zero_pad (dest : buf) (num : nat) {struct num} : option buf :=
  match num, dest with
  | O, _ => Some dest
  | S n, _ :: dest' => cons 0 <$> zero_pad dest' n
  | S _, [] => None
  end.

Fixpoint strncpy (dest src : buf) (num : nat) {struct num} : option buf :=
  match num with
  | O => Some dest
  | S n =>
      match src, dest with
      | c :: src', _ :: dest' =>
          if c =? 0 then zero_pad dest num else cons c <$> strncpy dest' src' n
      | _, _ => None
      end
  end.

Fixpoint strcat (dest src : buf) : option buf :=
  match dest with
  | [] => None
  | d :: dest' => if d =? 0 then strcpy dest src else cons d <$> strcat dest' src
  end.

(** [*ptr = '\0'] *)
Definition terminate (ptr : buf) : option buf :=
  match ptr with [] => None | _ :: rest => Some (0 :: rest) end.

(** The copy loop of [strncat], with [ptr] at the end of [dest]. *)
Fixpoint strncat_copy (ptr src : buf) (n : nat) : option buf :=
  match src with
  | [] => None
  | c :: src' =>
      if c =? 0 then terminate ptr else
      match n with
      | O => terminate ptr
      | S n' => match ptr with
                | [] => None
                | _ :: ptr' => cons c <$> strncat_copy ptr' src' n'
                end
      end
  end.

Definition strncat (dest src : buf) (n : nat) : option buf :=
  len ← strlen dest;
  ptr' ← strncat_copy (drop (Z.to_nat len) dest) src n;
  Some (take (Z.to_nat len) dest ++ ptr').

(** ** Comparison *)

Fixpoint strcmp (str1 str2 : buf) : option Z :=
  match str1, str2 with
  | c1 :: str1', c2 :: str2' =>
      if negb (c1 =? 0) && (c1 =? c2) then strcmp str1' str2' else Some (c1 - c2)
  | _, _ => None
  end.

Fixpoint strncmp (str1 str2 : buf) (n : nat) {struct n} : option Z :=
  match n with
  | O => Some 0
  | S n' =>
      match str1, str2 with
      | c1 :: str1', c2 :: str2' =>
          if negb (c1 =? 0) && (c1 =? c2) then strncmp str1' str2' n' else Some (c1 - c2)
      | _, _ => None
      end
  end.

Fixpoint strncasecmp (str1 str2 : buf) (n : nat) {struct n} : option Z :=
  match n with
  | O => Some 0
  | S n' =>
      match str1, str2 with
      | c1 :: str1', c2 :: str2' =>
          if negb (c1 =? 0) && (tolower c1 =? tolower c2)
          then strncasecmp str1' str2' n' else Some (tolower c1 - tolower c2)
      | _, _ => None
      end
  end.

(** ** Searching; the result is the offset of the returned pointer, or NULL *)

Fixpoint strchr (str : buf) (c : Z) : option (option Z) :=
  match str with
  | [] => None
  | x :: str' =>
      if x =? 0 then Some (if c =? 0 then Some 0 else None)
      else if s8 x =? c then Some (Some 0)
      else r ← strchr str' c; Some (option_map Z.succ r)
  end.

(** The inner loops of [strspn] and [strcspn]: does [c] occur in [str2]? *)
Fixpoint in_set (c : Z) (str2 : buf) : option bool :=
  match str2 with
  | [] => None
  | a :: str2' => if a =? 0 then Some false else if c =? a then Some true else in_set c str2'
  end.

Fixpoint strspn (str1 str2 : buf) : option Z :=
  match str1 with
  | [] => None
  | p :: str1' =>
      if p =? 0 then Some 0 else
      found ← in_set p str2;
      if (found : bool) then n ← strspn str1' str2; Some (n + 1) else Some 0
  end.

Fixpoint strcspn (str1 str2 : buf) : option Z :=
  match str1 with
  | [] => None
  | p :: str1' =>
      if p =? 0 then Some 0 else
      found ← in_set p str2;
      if (found : bool) then Some 0 else n ← strcspn str1' str2; Some (n + 1)
  end.

(** The match loop of [strstr]: [Some true] when the end of the needle is reached. *)
Fixpoint strstr_match (h_iter n_iter : buf) : option bool :=
  match n_iter with
  | [] => None
  | n :: n_iter' =>
      match h_iter with
      | [] => None
      | h :: h_iter' =>
          if negb (h =? 0) && negb (n =? 0) && (h =? n)
          then strstr_match h_iter' n_iter' else Some (n =? 0)
      end
  end.

Fixpoint strstr_from (h needle : buf) : option (option Z) :=
  match h with
  | [] => None
  | c :: h' =>
      if c =? 0 then Some None else
      found ← strstr_match h needle;
      if (found : bool) then Some (Some 0) else r ← strstr_from h' needle; Some (option_map Z.succ r)
  end.

Definition strstr (haystack needle : buf) : option (option Z) :=
  match needle with
  | [] => None
  | n :: _ => if n =? 0 then Some (Some 0) else strstr_from haystack needle
  end.

(** ** Case conversion in place *)

Fixpoint map_cstr (f : Z -> Z) (str : buf) : option buf :=
  match str with
  | [] => None
  | c :: str' => if c =? 0 then Some str else cons (u8 (f (s8 c))) <$> map_cstr f str'
  end.

(** [str = None] is the NULL pointer. *)
Definition str_to_lower (str : option buf) : option (option buf) :=
  match str with None => Some None | Some b => Some <$> map_cstr tolower b end.

Definition str_to_upper (str : option buf) : option (option buf) :=
  match str with None => Some None | Some b => Some <$> map_cstr toupper b end.

(** ** Tokenizers

    The object holding the string is [b]; pointers into it are offsets. *)

Definition from (b : buf) (p : Z) : buf := drop (Z.to_nat p) b.

Definition strtok_r (b : buf) (str : option Z) (delim : buf) (saveptr : Z)
  : option (option Z * buf * Z) :=
  let str := default saveptr str in
  n ← strspn (from b str) delim;
  let str := str + n in
  c ← rd b str;
  if c =? 0 then Some (None, b, str) else
  m ← strcspn (from b str) delim;
  let end_ := str + m in
  ce ← rd b end_;
  if ce =? 0 then Some (Some str, b, end_) else
  b' ← wr b end_ 0;
  Some (Some str, b', end_ + 1).

(** [while ( *last && strchr(delimiters, *last)) last++] and its complement
    ([want] is the wanted outcome of [strchr]); counts the steps. *)
Fixpoint strtok_skip (want : bool) (last delimiters : buf) : option Z :=
  match last with
  | [] => None
  | c :: last' =>
      if c =? 0 then Some 0 else
      r ← strchr delimiters (s8 c);
      if Bool.eqb (match r with Some _ => true | None => false end) want
      then n ← strtok_skip want last' delimiters; Some (n + 1)
      else Some 0
  end.

(** [last] is the static variable of the function; the result carries its new value. *)
Definition strtok (b : buf) (str : option Z) (delimiters : buf) (last : option Z)
  : option (option Z * buf * option Z) :=
  match (match str with Some _ => str | None => last end) with
  | None => Some (None, b, None)
  | Some last =>
      n ← strtok_skip true (from b last) delimiters;
      let last := last + n in
      c ← rd b last;
      if c =? 0 then Some (None, b, None) else
      let token_start := last in
      m ← strtok_skip false (from b last) delimiters;
      let last := last + m in
      c ← rd b last;
      if c =? 0 then Some (Some token_start, b, None) else
      b' ← wr b last 0;
      Some (Some token_start, b', Some (last + 1))
  end.

(** ** Numbers *)

Definition ULONG_MAX : Z := 4294967295.

Fixpoint skip_spaces (str : buf) : option buf :=
  match str with
  | [] => None
  | c :: str' => if isspace c then skip_spaces str' else Some str
  end.

(** The digit loop of [strtoul]; [str] is left at the first unread character. *)
Fixpoint strtoul_digits (base cutoff cutlim result : Z) (str : buf) : option (Z * buf) :=
  match str with
  | [] => None
  | c :: str' =>
      if c =? 0 then Some (result, str) else
      let digit := if isdigit c then Some (s8 c - 48)
                   else if isalpha c then Some (toupper c - 65 + 10) else None in
      match digit with
      | None => Some (result, str)
      | Some digit =>
          if base <=? digit then Some (result, str) else
          if (cutoff <? result) || ((result =? cutoff) && (cutlim <? digit))
          then Some (s32 ULONG_MAX, str)
          else strtoul_digits base cutoff cutlim (s32 (result * base + digit)) str'
      end
  end.

(** The prefix that selects the base when [base] is 0. *)
Definition strtoul_prefix (base : Z) (str : buf) : option (Z * buf) :=
  if negb (base =? 0) then Some (base, str) else
  match str with
  | [] => None
  | c :: str1 =>
      if c =? 48 then
        match str1 with
        | [] => None
        | x :: str2 => if (x =? 120) || (x =? 88) then Some (16, str2) else Some (8, str1)
        end
      else Some (10, str)
  end.

(** Result and the string at [*endptr].  The division [ULONG_MAX / base] comes
    before the base is determined, and traps when [base] is 0. *)
Definition strtoul (str : buf) (base : Z) : option (Z * buf) :=
  if negb (base =? 0) && ((base <? 2) || (36 <? base)) then Some (0, str) else
  if base =? 0 then None (* division by zero *) else
  let cutoff := s32 (ULONG_MAX / base) in
  let cutlim := s32 (ULONG_MAX mod base) in
  str ← skip_spaces str;
  '(base, str) ← strtoul_prefix base str;
  '(result, str) ← strtoul_digits base cutoff cutlim 0 str;
  Some (u32 result, str).

(** The do-while loops that produce the digits of a 32-bit value, least
    significant first, into [temp[32]]. *)
Definition hex_digit (uppercase : bool) (d : Z) : Z :=
  if d <? 10 then 48 + d else (if uppercase then 65 else 97) + (d - 10).

Fixpoint hex_temp (fuel : nat) (uppercase : bool) (value : Z) : option (list Z) :=
  match fuel with
  | O => None
  | S fuel' =>
      let d := hex_digit uppercase (value mod 16) in
      let value := value / 16 in
      if negb (value =? 0) then cons d <$> hex_temp fuel' uppercase value else Some [d]
  end.

(** Bytes stored into a buffer that is large enough from its start. *)
Definition put_bytes (buffer : buf) (s : buf) : option buf :=
  if (length s <=? length buffer)%nat then Some (blit buffer 0 s) else None.

Definition int_to_hex_str2 (value : Z) (buffer : buf) (uppercase : bool) : option (Z * buf) :=
  temp ← hex_temp 32 uppercase value;
  buffer' ← put_bytes buffer (reverse temp ++ [0]);
  Some (Z.of_nat (length temp), buffer').

Definition int_to_hex_str (value : Z) (buffer : buf) (width : Z) (zero_padding : bool)
  : option buf :=
  temp ← hex_temp 32 true value;
  let index := Z.of_nat (length temp) in
  let padding := if index <? width then width - index else 0 in
  put_bytes buffer
    (replicate (Z.to_nat padding) (if zero_padding then 48 else 32) ++ reverse temp ++ [0]).

(** ** Trimming *)

(** [while (len > 0 && p(str[len-1])) str[--len] = 0] *)
Fixpoint trim_back (p : Z -> bool) (str : buf) (len : nat) : option buf :=
  match len with
  | O => Some str
  | S k => c ← str !! k; if p c then trim_back p (<[k := 0]> str) k else Some str
  end.

Definition trim_trailing_spaces (str : buf) : option buf :=
  len ← strlen str; trim_back isspace str (Z.to_nat len).

Definition str_trim_end (str : buf) (ch : Z) : option buf :=
  len ← strlen str; trim_back (fun c => s8 c =? ch) str (Z.to_nat len).

Definition normalize_string (dest src : buf) (length_ : nat) : option buf :=
  if (length_ <=? length src)%nat && (length_ <? length dest)%nat then
    dest1 ← trim_back (fun c => c =? 32) (blit dest 0 (take length_ src)) length_;
    wr dest1 (Z.of_nat length_) 0
  else None.

(** The kept characters of [str_trim_spaces]: the loop does not stop at a NUL. *)
Definition nonblank (c : Z) : bool := negb (c =? 32) && negb (c =? 0).

Definition str_trim_spaces (input output : buf) (max_len : nat) : option buf :=
  if (max_len <=? length input)%nat then
    put_bytes output (List.filter nonblank (take max_len input) ++ [0])
  else None.

(** ** Memory blocks in different objects ([None] is NULL) *)

(** [while (n--) *d++ = *s++] *)
Fixpoint copy_loop (d s : buf) (n : nat) {struct n} : option buf :=
  match n with
  | O => Some d
  | S n' => match d, s with
            | _ :: d', x :: s' => cons x <$> copy_loop d' s' n'
            | _, _ => None
            end
  end.

(** The parameter [n] has type [uint16_t]: the caller's size is converted. *)
Definition memcpy (dest src : option buf) (n : Z) : option (option buf) :=
  match dest, src with
  | Some d, Some s => Some <$> copy_loop d s (Z.to_nat (u16 n))
  | _, _ => Some None
  end.

Fixpoint memcmp_loop (p1 p2 : buf) (n : nat) {struct n} : option Z :=
  match n with
  | O => Some 0
  | S n' => match p1, p2 with
            | c1 :: p1', c2 :: p2' => if negb (c1 =? c2) then Some (c1 - c2)
                                      else memcmp_loop p1' p2' n'
            | _, _ => None
            end
  end.

Definition memcmp (s1 s2 : option buf) (n : nat) : option Z :=
  match s1, s2 with
  | Some p1, Some p2 => memcmp_loop p1 p2 n
  | _, _ => Some (-1)
  end.

Fixpoint set_loop (p : buf) (value : Z) (num : nat) {struct num} : option buf :=
  match num with
  | O => Some p
  | S n' => match p with
            | [] => None
            | _ :: p' => cons (u8 value) <$> set_loop p' value n'
            end
  end.

Definition memset (ptr : option buf) (value : Z) (num : nat) : option (option buf) :=
  match ptr with
  | Some p => Some <$> set_loop p value num
  | None => Some None
  end.

(** * Specifications *)

(** The contents of a C string: bytes other than the terminator. *)
Definition nonul (s : buf) : Prop := Forall (fun c => 0 < c < 256) s.

(** Lexicographic order on byte strings. *)
Fixpoint lex_lt (a b : buf) : Prop :=
  match a, b with
  | _, [] => False
  | [], _ :: _ => True
  | x :: a', y :: b' => x < y \/ (x = y /\ lex_lt a' b')
  end.

(** The words of [s] separated by characters of [d]; [cur] is the word being read. *)
Fixpoint words (d cur s : buf) : list buf :=
  match s with
  | [] => match cur with [] => [] | _ => [cur] end
  | c :: s' =>
      if existsb (Z.eqb c) d
      then match cur with [] => words d [] s' | _ => cur :: words d [] s' end
      else words d (cur ++ [c]) s'
  end.

(** Value of a digit list, most significant digit first. *)
Definition digits_value (base : Z) (ds : list Z) : Z := foldl (fun v d => v * base + d) 0 ds.

(** All tokens delivered by repeated calls of [strtok_r], the first with [str],
    the others with NULL, as the callers iterate it. *)
Fixpoint strtok_r_all (fuel : nat) (b : buf) (str : option Z) (delim : buf) (saveptr : Z)
  : option (list buf) :=
  match fuel with
  | O => None
  | S fuel' =>
      '(tok, b', saveptr') ← strtok_r b str delim saveptr;
      match tok with
      | None => Some []
      | Some p =>
          n ← strlen (from b' p);
          rest ← strtok_r_all fuel' b' None delim saveptr';
          Some (take (Z.to_nat n) (from b' p) :: rest)
      end
  end.

(** * Lemmas *)

Lemma nonul_app a b : nonul (a ++ b) <-> nonul a /\ nonul b.
Proof. apply Forall_app. Qed.

Lemma strlen_spec s r : nonul s -> strlen (s ++ 0 :: r) = Some (Z.of_nat (length s)).
Proof.
  induction 1 as [|c s Hc Hs IH]; [done|]. simpl. zcase. rewrite IH. simpl. f_equal. lia.
Qed.

Lemma strcpy_spec d s r :
  nonul s -> strcpy d (s ++ 0 :: r) =
    if decide (length s < length d)%nat then Some (s ++ 0 :: drop (S (length s)) d) else None.
Proof.
  intros Hs. revert d. induction Hs as [|c s Hc Hs IH]; intros [|x d]; try done. simpl. zcase.
  rewrite IH. by repeat case_decide; try lia.
Qed.

Lemma zero_pad_spec d n :
  (n <= length d)%nat -> zero_pad d n = Some (replicate n 0 ++ drop n d).
Proof.
  revert d. induction n as [|n IH]; intros [|x d] H; simpl in *; try done; try lia.
  rewrite IH by lia. done.
Qed.

Lemma copy_loop_spec d s n :
  (n <= length d)%nat -> (n <= length s)%nat ->
  copy_loop d s n = Some (take n s ++ drop n d).
Proof.
  revert d s. induction n as [|n IH]; intros [|x d] [|y s] ? ?; simpl in *; try done; try lia.
  rewrite IH by lia. done.
Qed.

Lemma set_loop_spec p v n :
  (n <= length p)%nat -> set_loop p v n = Some (replicate n (u8 v) ++ drop n p).
Proof.
  revert p. induction n as [|n IH]; intros [|x p] H; simpl in *; try done; try lia.
  rewrite IH by lia. done.
Qed.

Lemma memcmp_loop_spec a b n :
  (n <= length a)%nat -> (n <= length b)%nat ->
  exists r, memcmp_loop a b n = Some r /\ (r = 0 <-> take n a = take n b).
Proof.
  revert a b. induction n as [|n IH]; intros a b Ha Hb.
  - exists 0. split; [done|]. by rewrite !take_0.
  - destruct a as [|x a], b as [|y b]; simpl in *; try lia. zcase.
    + destruct (IH a b) as (r & -> & Hr); [lia..|]. exists r. split; [done|].
      rewrite Hr. split; intros; simplify_eq; congruence.
    + exists (x - y). split; [done|]. split; [lia|]. intros; simplify_eq.
Qed.

Lemma in_set_spec c d r : nonul d -> 0 < c -> in_set c (d ++ 0 :: r) = Some (existsb (Z.eqb c) d).
Proof. intros Hd Hc. induction Hd as [|x d Hx Hd IH]; [done|]. simpl. zcase; done. Qed.

Lemma strspn_spec d r s2 s1 rest :
  nonul d -> nonul s1 -> Forall (fun c => existsb (Z.eqb c) d = true) s1 ->
  (match s2 with [] => True | c :: _ => 0 < c /\ existsb (Z.eqb c) d = false end) ->
  strspn (s1 ++ s2 ++ 0 :: rest) (d ++ 0 :: r) = Some (Z.of_nat (length s1)).
Proof.
  intros Hd Hs1 Hin Hs2. induction Hs1 as [|c s1 Hc Hs1 IH].
  - destruct s2 as [|c s2]; [done|]. destruct Hs2 as [Hc Hn]. simpl. zcase.
    rewrite in_set_spec by done. by rewrite Hn.
  - apply Forall_cons in Hin as [Hc' Hin]. simpl. zcase.
    rewrite in_set_spec, Hc' by (done || lia). simpl. rewrite IH by done.
    simpl. f_equal. lia.
Qed.

Lemma strcspn_spec d r s2 s1 rest :
  nonul d -> nonul s1 -> Forall (fun c => existsb (Z.eqb c) d = false) s1 ->
  (match s2 with [] => True | c :: _ => 0 < c /\ existsb (Z.eqb c) d = true end) ->
  strcspn (s1 ++ s2 ++ 0 :: rest) (d ++ 0 :: r) = Some (Z.of_nat (length s1)).
Proof.
  intros Hd Hs1 Hin Hs2. induction Hs1 as [|c s1 Hc Hs1 IH].
  - destruct s2 as [|c s2]; [done|]. destruct Hs2 as [Hc Hn]. simpl. zcase.
    rewrite in_set_spec by done. by rewrite Hn.
  - apply Forall_cons in Hin as [Hc' Hin]. simpl. zcase.
    rewrite in_set_spec, Hc' by (done || lia). simpl. rewrite IH by done.
    simpl. f_equal. lia.
Qed.

(** Every string splits into its longest prefix satisfying [p] and a rest that
    does not begin with such a character. *)
Lemma span_exists (p : Z -> bool) (s : buf) :
  exists s1 s2, s = s1 ++ s2 /\ Forall (fun c => p c = true) s1 /\
    match s2 with [] => True | c :: _ => p c = false end.
Proof.
  induction s as [|c s (s1 & s2 & -> & H1 & H2)]; [by exists [], []|].
  destruct (p c) eqn:E.
  - exists (c :: s1), s2. split_and!; [done|by constructor|done].
  - by exists [], (c :: s1 ++ s2).
Qed.

Lemma words_skip d s1 s2 :
  Forall (fun c => existsb (Z.eqb c) d = true) s1 -> words d [] (s1 ++ s2) = words d [] s2.
Proof. induction 1 as [|c s1 Hc H IH]; [done|]. simpl. by rewrite Hc. Qed.

Lemma words_word d cur s1 s2 :
  Forall (fun c => existsb (Z.eqb c) d = false) s1 ->
  words d cur (s1 ++ s2) = words d (cur ++ s1) s2.
Proof.
  intros H. revert cur. induction H as [|c s1 Hc H IH]; intros cur; simpl.
  - by rewrite app_nil_r.
  - rewrite Hc, IH. by rewrite <- app_assoc.
Qed.

Lemma from_app pre s : from (pre ++ s) (Z.of_nat (length pre)) = s.
Proof. unfold from. by rewrite Nat2Z.id, drop_app_length. Qed.

Lemma rd_app pre c s : rd (pre ++ c :: s) (Z.of_nat (length pre)) = Some c.
Proof. unfold rd. zcase. by rewrite Nat2Z.id, list_lookup_middle. Qed.

(** The three outcomes of one [strtok_r] call on [pre ++ s1 ++ ...], where the
    scan starts behind [pre] and [s1] are the leading delimiters. *)
Section StrtokR.
Context (d : buf) (Hd : nonul d).
Let delim (c : Z) : Prop := existsb (Z.eqb c) d = true.
Let plain (c : Z) : Prop := existsb (Z.eqb c) d = false.

Lemma strtok_r_none pre s1 str save rest :
  nonul s1 -> Forall delim s1 -> default save str = Z.of_nat (length pre) ->
  strtok_r (pre ++ s1 ++ 0 :: rest) str (d ++ [0]) save =
    Some (None, pre ++ s1 ++ 0 :: rest, Z.of_nat (length (pre ++ s1))).
Proof.
  intros Hs1 Hin Hp. unfold strtok_r. rewrite Hp, from_app.
  change (s1 ++ 0 :: rest) with (s1 ++ [] ++ 0 :: rest).
  rewrite (strspn_spec d [] [] s1 rest) by done. simpl.
  rewrite <- Nat2Z.inj_add, <- length_app, app_assoc, rd_app. done.
Qed.

Lemma strtok_r_last pre s1 t str save rest :
  nonul s1 -> nonul t -> t <> [] -> Forall delim s1 -> Forall plain t ->
  default save str = Z.of_nat (length pre) ->
  strtok_r (pre ++ s1 ++ t ++ 0 :: rest) str (d ++ [0]) save =
    Some (Some (Z.of_nat (length (pre ++ s1))), pre ++ s1 ++ t ++ 0 :: rest,
          Z.of_nat (length (pre ++ s1 ++ t))).
Proof.
  intros Hs1 Ht Hne Hin Hpl Hp. unfold strtok_r. rewrite Hp, from_app.
  rewrite (strspn_spec d [] t s1 rest); [|done..|].
  2:{ destruct t as [|c t]; [done|]. apply Forall_cons in Ht as [? _].
      apply Forall_cons in Hpl as [? _]. by split; [lia|]. }
  simpl. rewrite <- Nat2Z.inj_add, <- length_app, app_assoc.
  destruct t as [|c t]; [done|]. simpl. rewrite rd_app. simpl.
  apply Forall_cons in Ht as Ht'. destruct Ht' as [Hc _]. zcase.
  change (c :: t ++ 0 :: rest) with ((c :: t) ++ 0 :: rest). rewrite from_app.
  change ((c :: t) ++ 0 :: rest) with ((c :: t) ++ [] ++ 0 :: rest).
  rewrite (strcspn_spec d [] [] (c :: t) rest) by done. cbn [mbind option_bind].
  change ([] ++ 0 :: rest) with (0 :: rest).
  rewrite <- Nat2Z.inj_add, <- length_app, (app_assoc (pre ++ s1)), rd_app.
  cbn. by rewrite <- (app_assoc pre).
Qed.

Lemma strtok_r_more pre s1 t c rest str save :
  nonul s1 -> nonul t -> t <> [] -> Forall delim s1 -> Forall plain t ->
  0 < c -> delim c -> default save str = Z.of_nat (length pre) ->
  strtok_r (pre ++ s1 ++ t ++ c :: rest ++ [0]) str (d ++ [0]) save =
    Some (Some (Z.of_nat (length (pre ++ s1))), pre ++ s1 ++ t ++ 0 :: rest ++ [0],
          Z.of_nat (length (pre ++ s1 ++ t ++ [c]))).
Proof.
  intros Hs1 Ht Hne Hin Hpl Hc Hdc Hp. unfold strtok_r. rewrite Hp, from_app.
  replace (s1 ++ t ++ c :: rest ++ [0]) with (s1 ++ (t ++ c :: rest) ++ 0 :: [])
    by (by rewrite <- app_assoc).
  rewrite (strspn_spec d [] (t ++ c :: rest) s1 []); [|done..|].
  2:{ destruct t as [|c' t]; [done|]. apply Forall_cons in Ht as [? _].
      apply Forall_cons in Hpl as [? _]. by split; [lia|]. }
  cbn [mbind option_bind]. rewrite <- Nat2Z.inj_add, <- length_app, app_assoc.
  destruct t as [|c' t]; [done|]. cbn [app]. rewrite rd_app. cbn [mbind option_bind].
  apply Forall_cons in Ht as Ht'. destruct Ht' as [Hc' _]. destruct (Z.eqb_spec c' 0); [lia|].
  replace (c' :: (t ++ c :: rest) ++ [0]) with ((c' :: t) ++ (c :: rest) ++ 0 :: [])
    by (simpl; by rewrite <- app_assoc).
  rewrite from_app, (strcspn_spec d [] (c :: rest) (c' :: t) []) by done.
  cbn [mbind option_bind]. rewrite <- Nat2Z.inj_add, <- length_app, app_assoc.
  cbn [app]. rewrite rd_app. cbn [mbind option_bind]. destruct (Z.eqb_spec c 0); [lia|].
  unfold wr, blen. zcase.
  2:{ exfalso. list_lia. }
  rewrite Nat2Z.id, insert_app_r_alt, Nat.sub_diag by lia. cbn [list_insert insert].
  cbn [mbind option_bind]. do 2 f_equal; [f_equal|]; rewrite <- ?app_assoc; [done|].
  list_lia.
Qed.

Lemma strtok_r_all_spec fuel s pre str save :
  nonul s -> (length s < fuel)%nat -> default save str = Z.of_nat (length pre) ->
  strtok_r_all fuel (pre ++ s ++ [0]) str (d ++ [0]) save = Some (words d [] s).
Proof.
  revert s pre str save. induction fuel as [|fuel IH]; intros s pre str save Hs Hf Hp; [lia|].
  destruct (span_exists (fun c => existsb (Z.eqb c) d) s) as (s1 & s2 & -> & H1 & H2).
  apply nonul_app in Hs as [Hs1 Hs2]. rewrite words_skip, <- app_assoc by done.
  destruct (span_exists (fun c => negb (existsb (Z.eqb c) d)) s2) as (t & t2 & -> & H3 & H4).
  apply nonul_app in Hs2 as [Ht Ht2].
  assert (Forall plain t) as Hpl.
  { eapply Forall_impl; [exact H3|]. intros x Hx. by apply negb_true_iff. }
  destruct (decide (t = [])) as [->|Hne].
  - destruct t2 as [|c t2].
    + simpl. by rewrite strtok_r_none.
    + simpl in H2, H4. by rewrite H2 in H4.
  - rewrite <- app_assoc, words_word by done. destruct t2 as [|c t2]; simpl.
    + rewrite strtok_r_last by done. cbn [mbind option_bind].
      rewrite app_assoc, from_app, strlen_spec by done. cbn [mbind option_bind].
      rewrite Nat2Z.id, take_app_length.
      replace ((pre ++ s1) ++ t ++ [0]) with ((pre ++ s1 ++ t) ++ [] ++ [0])
        by (by rewrite <- !app_assoc).
      rewrite IH by (done || (rewrite !length_app in Hf; destruct t; simpl in *; done || lia)).
      by destruct t.
    + apply Forall_cons in Ht2 as [Hc Ht2]. rewrite negb_false_iff in H4.
      rewrite strtok_r_more by (done || lia). cbn [mbind option_bind].
      rewrite app_assoc, from_app, strlen_spec by done. cbn [mbind option_bind].
      rewrite Nat2Z.id, take_app_length.
      replace ((pre ++ s1) ++ t ++ 0 :: t2 ++ [0]) with ((pre ++ s1 ++ t ++ [0]) ++ t2 ++ [0])
        by (by rewrite <- !app_assoc).
      rewrite IH; [by rewrite H4; destruct t|done| |].
      * rewrite !length_app in Hf. destruct t; simpl in *; [done|lia].
      * simpl. list_lia.
Qed.
End StrtokR.

(** ** Numbers *)

Lemma u32_s32 v : u32 (s32 v) = u32 v.
Proof.
  unfold swrap, wrap. change (2 ^ (32 - 1)) with 2147483648. change (2 ^ 32) with 4294967296.
  rewrite Zminus_mod_idemp_l. f_equal. lia.
Qed.

Lemma foldl_digits_ge base ds a :
  1 <= base -> 0 <= a -> Forall (fun d => 0 <= d < base) ds ->
  a <= foldl (fun v d => v * base + d) a ds.
Proof.
  intros Hb Ha Hds. revert a Ha. induction Hds as [|d ds Hd Hds IH]; intros a Ha; simpl; [lia|].
  etrans; [|apply IH; nia]. nia.
Qed.

(** The character of a digit, and how the digit loop reads it back. *)
Lemma hex_digit_class u d :
  0 <= d < 36 ->
  let c := hex_digit u d in
  0 < c < 128 /\ isspace c = false /\
  (if isdigit c then Some (s8 c - 48) else if isalpha c then Some (toupper c - 65 + 10) else None)
    = Some d.
Proof.
  intros Hd. unfold hex_digit, isdigit, isalpha, isspace, toupper.
  destruct u; zcase; (split; [lia|split; [done|f_equal]]); try lia;
    rewrite swrap_small by lia; lia.
Qed.

Lemma strtoul_digits_spec base u ds a rest :
  2 <= base <= 36 -> Forall (fun d => 0 <= d < base) ds -> 0 <= a ->
  foldl (fun v d => v * base + d) a ds < 2 ^ 32 ->
  strtoul_digits base (s32 (ULONG_MAX / base)) (s32 (ULONG_MAX mod base)) (s32 a)
      (map (hex_digit u) ds ++ 0 :: rest)
    = Some (s32 (foldl (fun v d => v * base + d) a ds), 0 :: rest).
Proof.
  intros Hb Hds. revert a. induction Hds as [|d ds Hd Hds IH]; intros a Ha Hv; [done|].
  destruct (hex_digit_class u d) as (Hc & _ & Hdig); [lia|].
  cbn [map app strtoul_digits]. cbv zeta in Hdig. rewrite Hdig.
  destruct (Z.eqb_spec (hex_digit u d) 0); [lia|]. destruct (Z.leb_spec base d); [lia|].
  cbn [foldl] in Hv.
  pose proof (foldl_digits_ge base ds (a * base + d) ltac:(lia) ltac:(nia) Hds) as Hge.
  assert (a <= ULONG_MAX / base) as Hcut.
  { apply Z.div_le_lower_bound; [lia|]. unfold ULONG_MAX. lia. }
  assert (0 <= ULONG_MAX / base < 2 ^ 31) as Hq.
  { unfold ULONG_MAX. split; [apply Z.div_pos; lia|]. apply Z.div_lt_upper_bound; lia. }
  assert (a = ULONG_MAX / base -> d <= ULONG_MAX mod base) as Hlim.
  { intros ->. pose proof (Z.div_mod ULONG_MAX base). unfold ULONG_MAX in *. lia. }
  pose proof (Z.mod_pos_bound ULONG_MAX base).
  rewrite !swrap_small by lia.
  destruct (Z.ltb_spec (ULONG_MAX / base) a); [lia|].
  destruct (Z.eqb_spec a (ULONG_MAX / base)); destruct (Z.ltb_spec (ULONG_MAX mod base) d);
    cbn [andb orb]; try lia; rewrite <- (swrap_small 32 (ULONG_MAX / base)) at 1 by lia;
    rewrite <- (swrap_small 32 (ULONG_MAX mod base)) at 1 by lia; apply IH; lia || nia.
Qed.

Lemma skip_spaces_spec sp c rest :
  Forall (fun x => isspace x = true) sp -> isspace c = false ->
  skip_spaces (sp ++ c :: rest) = Some (c :: rest).
Proof. intros Hsp Hc. induction Hsp as [|x sp Hx Hsp IH]; simpl; [by rewrite Hc|by rewrite Hx]. Qed.

Lemma strtoul_spaces_digits base u sp ds rest :
  2 <= base <= 36 -> Forall (fun x => isspace x = true) sp ->
  Forall (fun d => 0 <= d < base) ds -> digits_value base ds < 2 ^ 32 ->
  strtoul (sp ++ map (hex_digit u) ds ++ 0 :: rest) base
    = Some (digits_value base ds, 0 :: rest).
Proof.
  intros Hb Hsp Hds Hv. unfold strtoul, strtoul_prefix. zcase.
  assert (skip_spaces (sp ++ map (hex_digit u) ds ++ 0 :: rest)
          = Some (map (hex_digit u) ds ++ 0 :: rest)) as ->.
  { destruct Hds as [|d ds Hd Hds]; [by apply skip_spaces_spec|].
    apply skip_spaces_spec; [done|]. apply hex_digit_class. lia. }
  cbn [mbind option_bind]. change 0 with (s32 0) at 1.
  rewrite strtoul_digits_spec by (done || lia). cbn [mbind option_bind].
  rewrite u32_s32, wrap_small; [done|]. split; [|done].
  by apply (foldl_digits_ge base ds 0); [lia..|].
Qed.

Lemma digits_value_snoc base ds d :
  digits_value base (ds ++ [d]) = digits_value base ds * base + d.
Proof. unfold digits_value. by rewrite foldl_app. Qed.

Lemma hex_temp_spec n fuel u v :
  0 <= v < 16 ^ Z.of_nat (S n) -> (n < fuel)%nat ->
  exists ds, hex_temp fuel u v = Some (map (hex_digit u) ds) /\ (length ds <= S n)%nat /\
    Forall (fun d => 0 <= d < 16) ds /\ digits_value 16 (reverse ds) = v.
Proof.
  revert fuel v. induction n as [|n IH]; intros [|fuel] v Hv Hf; try lia.
  - exists [v]. simpl. rewrite Z.mod_small, Z.div_small by lia. simpl.
    split_and!; [done|lia|by repeat constructor; lia|unfold digits_value; simpl; lia].
  - rewrite Nat2Z.inj_succ, Z.pow_succ_r in Hv by lia. cbn [hex_temp].
    pose proof (Z.mod_pos_bound v 16). pose proof (Z.div_mod v 16).
    destruct (Z.eqb_spec (v / 16) 0) as [E|E]; cbn [negb].
    + exists [v mod 16]. split_and!; [done|simpl; lia|by repeat constructor; lia|].
      unfold digits_value. simpl. lia.
    + destruct (IH fuel (v / 16)) as (ds & Heq & Hl & Hds & Hval); [zlia|lia|].
      exists (v mod 16 :: ds). rewrite Heq. split_and!; [done|simpl; lia|by constructor; [lia|]|].
      rewrite reverse_cons, digits_value_snoc, Hval. lia.
Qed.

Lemma digits_value_zeros base n ds :
  digits_value base (replicate n 0 ++ ds) = digits_value base ds.
Proof.
  unfold digits_value. rewrite foldl_app. f_equal. induction n; [done|]. simpl. done.
Qed.

Lemma reverse_map (f : Z -> Z) l : reverse (map f l) = map f (reverse l).
Proof. symmetry. apply (fmap_reverse f l). Qed.

(** ** Substring search *)

Lemma strstr_match_spec h n r1 r2 :
  nonul h -> nonul n ->
  strstr_match (h ++ 0 :: r1) (n ++ 0 :: r2) = Some (bool_decide (n `prefix_of` h)).
Proof.
  intros Hh Hn. revert h Hh. induction Hn as [|c n Hc Hn IH]; intros h Hh.
  - rewrite bool_decide_true by apply prefix_nil. simpl.
    destruct h as [|x h]; simpl; by rewrite ?andb_false_r.
  - destruct Hh as [|x h Hx Hh]; cbn [app strstr_match].
    + rewrite bool_decide_false by apply prefix_nil_not. zcase; done.
    + destruct (Z.eqb_spec x 0), (Z.eqb_spec c 0), (Z.eqb_spec x c); try lia; cbn [negb andb].
      * rewrite IH by done. f_equal. subst. apply bool_decide_ext.
        split; [apply prefix_cons|apply prefix_cons_inv_2].
      * rewrite bool_decide_false; [done|]. intros Hp. by apply prefix_cons_inv_1 in Hp.
Qed.

(** What a search result means: the first offset at which the needle is a prefix. *)
Definition first_occurrence (h n : buf) (res : option Z) : Prop :=
  match res with
  | Some k => exists i : nat, k = Z.of_nat i /\ n `prefix_of` drop i h /\
                forall j : nat, (j < i)%nat -> ~ n `prefix_of` drop j h
  | None => forall j : nat, ~ n `prefix_of` drop j h
  end.

Lemma strstr_from_spec h n r1 r2 :
  nonul h -> nonul n -> n <> [] ->
  exists res, strstr_from (h ++ 0 :: r1) (n ++ 0 :: r2) = Some res /\ first_occurrence h n res.
Proof.
  intros Hh Hn Hne. induction Hh as [|c h Hc Hh IH].
  - exists None. split; [done|]. intros j Hp. rewrite drop_nil in Hp.
    destruct n; [done|]. by apply prefix_nil_not in Hp.
  - cbn [app strstr_from]. destruct (Z.eqb_spec c 0); [lia|].
    change (c :: h ++ 0 :: r1) with ((c :: h) ++ 0 :: r1).
    rewrite strstr_match_spec by (done || by constructor). cbn [mbind option_bind].
    case_bool_decide as Hp.
    + exists (Some 0). split; [done|]. exists 0%nat. split_and!; [done|done|lia].
    + destruct IH as (res & -> & Hres). exists (option_map Z.succ res). split; [done|].
      destruct res as [k|].
      * destruct Hres as (i & -> & Hi & Hmin). exists (S i). split_and!; [simpl; lia|done|].
        intros [|j] Hj; [done|]. apply Hmin. lia.
      * intros [|j]; [done|]. apply Hres.
Qed.

(** * Properties *)

(** [strcmp] on two terminated strings always returns, returns 0 exactly for
    equal strings, and its sign is the lexicographic order of the unsigned bytes. *)
Theorem strcmp_order (a b x y : buf) :
  nonul a -> nonul b ->
  exists r, strcmp (a ++ 0 :: x) (b ++ 0 :: y) = Some r /\
    (r = 0 <-> a = b) /\ (r < 0 <-> lex_lt a b).
Proof.
  intros Ha. revert b. induction Ha as [|c a Hc Ha IH]; intros b Hb; destruct Hb as [|d b Hd Hb].
  - exists 0. simpl. split; [done|]. split; split; done || lia.
  - exists (0 - d). simpl. split; [done|]. split; split; done || lia.
  - exists c. simpl. zcase. split; [f_equal; lia|]. split; split; intros; done || lia.
  - simpl. zcase.
    + subst d. destruct (IH b Hb) as (r & -> & Heq & Hlt). exists r. split; [done|].
      rewrite Heq, Hlt. split; [split; congruence|]. split; [by right|intros [?|[_ ?]]; [lia|done]].
    + exists (c - d). split; [done|]. split; split; [lia|congruence|lia|].
      intros [?|[? _]]; lia.
Qed.

Lemma strcmp_order_witness :
  exists r, strcmp (lit "fat12") (lit "fat32") = Some r /\
    (r = 0 <-> lit_bytes "fat12" = lit_bytes "fat32") /\
    (r < 0 <-> lex_lt (lit_bytes "fat12") (lit_bytes "fat32")).
Proof.
  apply (strcmp_order (lit_bytes "fat12") (lit_bytes "fat32") [] []);
    repeat constructor; done.
Defined.

(** [strcat] on a destination object of [length a + 1 + length rest] bytes
    holding the string [a]: if the source fits, the result is the concatenation
    with its terminator and every byte behind it is unchanged; otherwise the
    call runs past the destination object. *)
Theorem strcat_bounds (a b rest y : buf) :
  nonul a -> nonul b ->
  strcat (a ++ 0 :: rest) (b ++ 0 :: y) =
    if decide (length b <= length rest)%nat
    then Some (a ++ b ++ 0 :: drop (length b) rest) else None.
Proof.
  intros Ha Hb. induction Ha as [|c a Hc Ha IH].
  - cbn [app strcat]. rewrite Z.eqb_refl, strcpy_spec by done. simpl length.
    by repeat case_decide; try lia.
  - cbn [app strcat]. destruct (Z.eqb_spec c 0); [lia|]. rewrite IH. by case_decide.
Qed.

Lemma strcat_bounds_witness :
  strcat (lit "/mnt" ++ [7; 7; 7; 7; 7]) (lit "/hdd") =
    Some (lit_bytes "/mnt" ++ lit_bytes "/hdd" ++ 0 :: [7]).
Proof.
  etransitivity; [apply (strcat_bounds (lit_bytes "/mnt") (lit_bytes "/hdd") [7; 7; 7; 7; 7] []);
                  repeat constructor; done|reflexivity].
Defined.

(** The tokens obtained by calling [strtok_r] until it answers NULL, as the
    path walks of the file systems do, are exactly the nonempty words between
    delimiters, and [length s + 1] calls are enough. *)
Theorem strtok_r_tokens (s d : buf) (saveptr : Z) :
  nonul s -> nonul d ->
  strtok_r_all (S (length s)) (s ++ [0]) (Some 0) (d ++ [0]) saveptr = Some (words d [] s).
Proof. intros Hs Hd. apply (strtok_r_all_spec d Hd _ s [] (Some 0)); done || lia. Qed.

Lemma strtok_r_tokens_witness :
  strtok_r_all 12 (lit "//usr/bin//") (Some 0) (lit "/") 0
    = Some [lit_bytes "usr"; lit_bytes "bin"].
Proof.
  etransitivity; [apply (strtok_r_tokens (lit_bytes "//usr/bin//") (lit_bytes "/") 0);
                  repeat constructor; done|reflexivity].
Defined.

(** [strstr] returns the offset of the first occurrence of the needle, and
    NULL exactly when there is none. *)
Theorem strstr_first (h n r1 r2 : buf) :
  nonul h -> nonul n ->
  exists res, strstr (h ++ 0 :: r1) (n ++ 0 :: r2) = Some res /\ first_occurrence h n res.
Proof.
  intros Hh Hn. destruct n as [|c n].
  - exists (Some 0). split; [done|]. exists 0%nat. split_and!; [done|apply prefix_nil|lia].
  - unfold strstr. cbn [app]. apply Forall_cons in Hn as Hn'. destruct Hn' as [Hc _].
    destruct (Z.eqb_spec c 0); [lia|].
    by apply (strstr_from_spec h (c :: n) r1 r2).
Qed.

Lemma strstr_first_witness :
  exists res, strstr (lit "aab") (lit "ab") = Some res /\
    first_occurrence (lit_bytes "aab") (lit_bytes "ab") res.
Proof.
  apply (strstr_first (lit_bytes "aab") (lit_bytes "ab") [] []); repeat constructor; done.
Defined.

(** A value printed by [int_to_hex_str] at any width, padded with zeros or
    with blanks, into a buffer that holds it, is read back by [strtoul] in base
    16, and the end pointer is at the terminator. *)
Theorem hex_roundtrip (value width : Z) (zero_padding : bool) (buffer : buf) :
  0 <= value < 2 ^ 32 -> (9 <= length buffer)%nat -> width < blen buffer ->
  exists b rest, int_to_hex_str value buffer width zero_padding = Some b /\
    strtoul b 16 = Some (value, 0 :: rest).
Proof.
  intros Hv Hb Hw. destruct (hex_temp_spec 7 32 true value) as (ds & Heq & Hl & Hds & Hval); [done|lia|].
  unfold int_to_hex_str. rewrite Heq. cbn [mbind option_bind]. rewrite length_map, reverse_map.
  set (pad := if _ <? width then _ else 0).
  assert (Z.to_nat pad + length ds < length buffer)%nat as Hfit.
  { subst pad. unfold blen in *. zcase; lia. }
  unfold put_bytes. rewrite (proj2 (Nat.leb_le _ _))
    by (rewrite !length_app, length_replicate, length_map, length_reverse; simpl; lia).
  assert (Forall (fun d => 0 <= d < 16) (reverse ds)) as Hrev by by apply Forall_reverse.
  destruct zero_padding; do 2 eexists; (split; [done|]); unfold blit;
    rewrite take_0; cbn [app]; rewrite <- !app_assoc; cbn [app].
  - change 48 with (hex_digit true 0). rewrite <- fmap_replicate, app_assoc.
    change (hex_digit true <$> replicate (Z.to_nat pad) 0)
      with (map (hex_digit true) (replicate (Z.to_nat pad) 0)). rewrite <- map_app.
    etransitivity; [apply (strtoul_spaces_digits 16 true []); [lia|done| |]|].
    + apply Forall_app; split; [|done]. apply Forall_replicate. lia.
    + rewrite digits_value_zeros, Hval. lia.
    + by rewrite digits_value_zeros, Hval.
  - etransitivity; [apply strtoul_spaces_digits; [lia| |done|rewrite Hval; lia]|by rewrite Hval].
    by apply Forall_replicate.
Qed.

Lemma hex_roundtrip_witness :
  exists b rest, int_to_hex_str 48879 (replicate 32 0) 8 false = Some b /\
    strtoul b 16 = Some (48879, 0 :: rest).
Proof.
  apply (hex_roundtrip 48879 8 false (replicate 32 0)); [lia|simpl; lia|unfold blen; simpl; lia].
Defined.

(** [strtoul] converts every digit string whose value fits 32 bits, in any
    base from 2 to 36, after any white space; the 32-bit signed accumulator of
    the code never spoils such a value. *)
Theorem strtoul_correct (base : Z) (u : bool) (sp ds rest : buf) :
  2 <= base <= 36 -> Forall (fun x => isspace x = true) sp ->
  Forall (fun d => 0 <= d < base) ds -> digits_value base ds < 2 ^ 32 ->
  strtoul (sp ++ map (hex_digit u) ds ++ 0 :: rest) base = Some (digits_value base ds, 0 :: rest).
Proof. apply strtoul_spaces_digits. Qed.

Lemma strtoul_correct_witness :
  strtoul (lit " 4294967295") 10 = Some (4294967295, [0]).
Proof.
  apply (strtoul_correct 10 true [32] [4; 2; 9; 4; 9; 6; 7; 2; 9; 5] []);
    [lia|repeat constructor|repeat constructor; lia|reflexivity].
Defined.

(** Automatic base detection never works: with base 0 the division that
    computes the overflow limit traps, whatever the string is. *)
Theorem strtoul_base0_traps (str : buf) : strtoul str 0 = None.
Proof. reflexivity. Qed.

(** [memcpy] takes its size as [uint16_t]: it copies [n mod 65536] bytes and
    leaves the rest of the destination as it was; a NULL argument is refused. *)
Theorem memcpy_size_mod_64k (d s : buf) (n : Z) :
  0 <= n -> (Z.to_nat n <= length d)%nat -> (Z.to_nat n <= length s)%nat ->
  memcpy (Some d) (Some s) n =
    Some (Some (take (Z.to_nat (n mod 65536)) s ++ drop (Z.to_nat (n mod 65536)) d)) /\
  memcpy None (Some s) n = Some None /\ memcpy (Some d) None n = Some None.
Proof.
  intros Hn Hd Hs. split; [|done]. unfold memcpy, wrap. change (2 ^ 16) with 65536.
  assert (n mod 65536 <= n) by (apply Z.mod_le; lia).
  pose proof (Z.mod_pos_bound n 65536). rewrite copy_loop_spec by lia. done.
Qed.

Lemma memcpy_size_mod_64k_witness :
  memcpy (Some (replicate 5 1)) (Some (replicate 5 9)) 3 = Some (Some [9; 9; 9; 1; 1]) /\
  memcpy None (Some (replicate 5 9)) 3 = Some None /\ memcpy (Some (replicate 5 1)) None 3 = Some None.
Proof. apply (memcpy_size_mod_64k (replicate 5 1) (replicate 5 9) 3); simpl; lia. Defined.
