(* ===== verification/CStdlib.v ===== *)
(** lib/libc/stdlib.c: overlapping copies, 64-bit division for a 32-bit target,
    [atoi], and the aligned allocator built on [malloc].

    [memmove] works on one object, with both pointers given as offsets into it,
    so that every overlap of source and destination is covered.  The program's
    heap is an argument of [aligned_alloc]; the words it stores in front of its
    results are a finite map from addresses to values. *)

From S2P Require Import Prelude CString.

(** ** Overlapping copies *)

(** [for (i = 0; i < n; i++) d[i] = s[i]] *)
Fixpoint copy_forward (b : buf) (d s n : nat) : option buf :=
  match n with
  | O => Some b
  | S n' =>
      x ← b !! s;
      if (d <? length b)%nat then copy_forward (<[d := x]> b) (S d) (S s) n' else None
  end.

(** [for (i = n; i > 0; i--) d[i-1] = s[i-1]] *)
Fixpoint copy_backward (b : buf) (d s n : nat) : option buf :=
  match n with
  | O => Some b
  | S n' =>
      x ← b !! (s + n')%nat;
      if (d + n' <? length b)%nat then copy_backward (<[(d + n')%nat := x]> b) d s n' else None
  end.

Definition memmove (b : buf) (d s n : nat) : option buf :=
  if (d =? s)%nat || (n =? 0)%nat then Some b
  else if (d <? s)%nat || (s + n <=? d)%nat then copy_forward b d s n
  else copy_backward b d s n.

(** ** 64-bit division *)

(** The loops over the bits [i = n-1 .. 0] of the dividend. *)
Fixpoint udiv_loop (n : nat) (dividend divisor quotient remainder : Z) : Z * Z :=
  match n with
  | O => (quotient, remainder)
  | S i =>
      let remainder := Z.lor (u64 (Z.shiftl remainder 1)) (Z.land (Z.shiftr dividend (Z.of_nat i)) 1) in
      if divisor <=? remainder
      then udiv_loop i dividend divisor (Z.lor quotient (u64 (Z.shiftl 1 (Z.of_nat i)))) (remainder - divisor)
      else udiv_loop i dividend divisor quotient remainder
  end.

(** [None]: division by zero spins forever. *)
Definition __udivdi3 (dividend divisor : Z) : option Z :=
  if divisor =? 0 then None
  else if dividend <? divisor then Some 0
  else Some (fst (udiv_loop 64 dividend divisor 0 0)).

Fixpoint umod_loop (n : nat) (dividend divisor remainder : Z) : Z :=
  match n with
  | O => remainder
  | S i =>
      let remainder := Z.lor (u64 (Z.shiftl remainder 1)) (Z.land (Z.shiftr dividend (Z.of_nat i)) 1) in
      umod_loop i dividend divisor (if divisor <=? remainder then remainder - divisor else remainder)
  end.

Definition __umoddi3 (dividend divisor : Z) : option Z :=
  if divisor =? 0 then None
  else if dividend <? divisor then Some dividend
  else Some (umod_loop 64 dividend divisor 0).

(** ** atoi *)

Fixpoint atoi_skip (str : buf) : option buf :=
  match str with
  | [] => None
  | c :: str' => if (c =? 32) || (c =? 9) || (c =? 10) then atoi_skip str' else Some str
  end.

Fixpoint atoi_digits (result : Z) (str : buf) : option Z :=
  match str with
  | [] => None
  | c :: str' => if (48 <=? c) && (c <=? 57) then atoi_digits (s32 (result * 10 + (c - 48))) str'
                 else Some result
  end.

(** [str = None] is the NULL pointer. *)
Definition atoi (str : option buf) : option Z :=
  match str with
  | None => Some 0
  | Some str =>
      str ← atoi_skip str;
      match str with
      | [] => None
      | c :: str' =>
          let '(sign, str) := if c =? 45 (* '-' *) then (-1, str')
                              else if c =? 43 (* '+' *) then (1, str') else (1, str) in
          result ← atoi_digits 0 str;
          Some (s32 (sign * result))
      end
  end.

(** ** Aligned allocation *)

Definition sizeof_ptr : Z := 4.

(** [malloc size] is the address it returns, 0 for NULL; the result is the
    address handed out and the updated words. *)
Definition aligned_alloc (malloc : Z -> Z) (words : gmap Z Z) (alignment size : Z)
  : Z * gmap Z Z :=
  if (alignment =? 0) || negb (Z.land alignment (u32 (alignment - 1)) =? 0) then (0, words) else
  let total_size := u32 (size + alignment - 1 + sizeof_ptr) in
  let raw_memory := malloc total_size in
  if raw_memory =? 0 then (0, words) else
  let raw_address := u32 (raw_memory + sizeof_ptr) in
  let aligned_address := Z.land (u32 (raw_address + alignment - 1)) (unot 32 (alignment - 1)) in
  (aligned_address, <[aligned_address - sizeof_ptr := raw_memory]> words).

(** The address [aligned_free] passes to [free], [None] when it frees nothing. *)
Definition aligned_free (words : gmap Z Z) (ptr : Z) : option Z :=
  if ptr =? 0 then None else words !! (ptr - sizeof_ptr).

(** * Lemmas *)

Lemma copy_forward_spec n b d s :
  (d + n <= length b)%nat -> (s + n <= length b)%nat -> (d <= s \/ s + n <= d)%nat ->
  copy_forward b d s n = Some (blit b d (slice b s n)).
Proof.
  revert b d s. induction n as [|n IH]; intros b d s Hd Hs Hov; simpl.
  - unfold blit, slice. rewrite take_0. simpl. by rewrite Nat.add_0_r, take_drop.
  - destruct (lookup_lt_is_Some_2 b s) as [x Hx]; [lia|]. rewrite Hx. simpl.
    rewrite (proj2 (Nat.ltb_lt d (length b))) by lia.
    rewrite IH by (rewrite ?length_insert; lia). f_equal.
    apply list_eq. intros k. unfold blit.
    assert (length (slice b s (S n)) = S n) as L1 by (unfold slice; list_lia).
    assert (length (slice (<[d:=x]> b) (S s) n) = n) as L2 by (unfold slice; list_lia).
    rewrite L1, L2.
    destruct (decide (k < d)%nat).
    { rewrite !lookup_app_l by list_lia. rewrite !lookup_take_lt by lia.
      by rewrite list_lookup_insert_ne by lia. }
    destruct (decide (k = d)) as [->|].
    { rewrite lookup_app_l by list_lia. rewrite lookup_take_lt by lia.
      rewrite list_lookup_insert_eq by lia. symmetry.
      rewrite lookup_app_r by list_lia. rewrite lookup_app_l by list_lia.
      rewrite lookup_slice by list_lia. rewrite <- Hx. f_equal. list_lia. }
    rewrite (lookup_app_r (take (S d) _)) by list_lia.
    rewrite (lookup_app_r (take d _)) by list_lia.
    destruct (decide (k < d + S n)%nat).
    { rewrite !lookup_app_l by list_lia. rewrite !lookup_slice by list_lia.
      rewrite list_lookup_insert_ne by list_lia. f_equal. list_lia. }
    rewrite !lookup_app_r by list_lia. rewrite !lookup_drop.
    rewrite list_lookup_insert_ne by list_lia. f_equal. list_lia.
Qed.

Lemma copy_backward_spec n b d s :
  (d + n <= length b)%nat -> (s + n <= length b)%nat -> (s < d)%nat ->
  copy_backward b d s n = Some (blit b d (slice b s n)).
Proof.
  revert b. induction n as [|n IH]; intros b Hd Hs Hov; simpl.
  - unfold blit, slice. rewrite take_0. simpl. by rewrite Nat.add_0_r, take_drop.
  - destruct (lookup_lt_is_Some_2 b (s + n)) as [x Hx]; [lia|]. rewrite Hx. simpl.
    rewrite (proj2 (Nat.ltb_lt (d + n) (length b))) by lia.
    rewrite IH by (rewrite ?length_insert; lia). f_equal.
    apply list_eq. intros k. unfold blit.
    assert (length (slice b s (S n)) = S n) as L1 by (unfold slice; list_lia).
    assert (length (slice (<[(d + n)%nat:=x]> b) s n) = n) as L2 by (unfold slice; list_lia).
    rewrite L1, L2.
    destruct (decide (k < d)%nat).
    { rewrite !lookup_app_l by list_lia. rewrite !lookup_take_lt by lia.
      by rewrite list_lookup_insert_ne by lia. }
    rewrite !(lookup_app_r (take d _)) by list_lia.
    destruct (decide (k < d + n)%nat).
    { rewrite !lookup_app_l by list_lia. rewrite !lookup_slice by list_lia.
      rewrite list_lookup_insert_ne by list_lia. f_equal. list_lia. }
    destruct (decide (k = d + n)%nat) as [->|].
    { rewrite lookup_app_r by list_lia. rewrite lookup_drop.
      rewrite lookup_app_l by list_lia. rewrite lookup_slice by list_lia.
      replace (d + n + _)%nat with (d + n)%nat by list_lia.
      rewrite list_lookup_insert_eq by lia. rewrite <- Hx. f_equal. list_lia. }
    rewrite !lookup_app_r by list_lia. rewrite !lookup_drop.
    rewrite list_lookup_insert_ne by list_lia. f_equal. list_lia.
Qed.

Lemma lor_low_bit a b : 0 <= b < 2 -> Z.lor (2 * a) b = 2 * a + b.
Proof.
  intros Hb. assert (Z.land (2 * a) b = 0) as H0.
  { apply Z.bits_inj'. intros i Hi. rewrite Z.land_spec, Z.bits_0.
    destruct (decide (i = 0)) as [->|]; [by rewrite Z.testbit_even_0|].
    rewrite (testbit_above b 1 i) by lia. apply andb_false_r. }
  by rewrite <- Z.lxor_lor, <- Z.add_nocarry_lxor.
Qed.

(** One step of the division loops: shifting in the next bit. *)
Lemma shift_in_bit a r n :
  0 <= a < 2 ^ 64 -> 0 <= r <= Z.shiftr a (Z.of_nat (S n)) ->
  Z.lor (u64 (Z.shiftl r 1)) (Z.land (Z.shiftr a (Z.of_nat n)) 1)
    = 2 * r + Z.shiftr a (Z.of_nat n) mod 2.
Proof.
  intros Ha Hr.
  assert (Z.shiftr a (Z.of_nat (S n)) = Z.shiftr a (Z.of_nat n) / 2) as E.
  { rewrite Nat2Z.inj_succ, <- Z.add_1_r, <- Z.shiftr_shiftr by lia.
    by rewrite (Z.shiftr_div_pow2 _ 1) by lia. }
  assert (0 <= Z.shiftr a (Z.of_nat n) < 2 ^ 64) as Hn.
  { rewrite Z.shiftr_div_pow2 by lia.
    assert (0 < 2 ^ Z.of_nat n) by (apply Z.pow_pos_nonneg; lia).
    split; [apply Z.div_pos; lia|]. apply Z.div_lt_upper_bound; nia. }
  rewrite (Z.shiftl_mul_pow2 r 1) by lia. change (2 ^ 1) with 2.
  rewrite wrap_small by zlia.
  change 1 with (Z.ones 1) at 1. rewrite Z.land_ones by lia. change (2 ^ 1) with 2.
  rewrite (Z.mul_comm r 2). apply lor_low_bit. zlia.
Qed.

(** The state of the loops before bit [n-1] is processed: the quotient of the
    bits read so far, in place, and its remainder. *)
Lemma udiv_loop_spec n a b :
  0 <= a < 2 ^ 64 -> 0 < b < 2 ^ 64 -> (n <= 64)%nat ->
  udiv_loop n a b (Z.shiftl (Z.shiftr a (Z.of_nat n) / b) (Z.of_nat n)) (Z.shiftr a (Z.of_nat n) mod b)
    = (a / b, a mod b).
Proof.
  intros Ha Hb. induction n as [|n IH]; intros Hn.
  - simpl. by rewrite Z.shiftl_0_r, Z.shiftr_0_r.
  - set (x := Z.shiftr a (Z.of_nat n)).
    assert (Z.shiftr a (Z.of_nat (S n)) = x / 2) as E.
    { unfold x. rewrite Nat2Z.inj_succ, <- Z.add_1_r, <- Z.shiftr_shiftr by lia.
      by rewrite (Z.shiftr_div_pow2 _ 1) by lia. }
    assert (0 <= x) as Hx by (apply Z.shiftr_nonneg; lia).
    pose proof (Z.mod_pos_bound (x / 2) b ltac:(lia)) as Hr.
    pose proof (Z.div_pos (x / 2) b ltac:(zlia) ltac:(lia)) as Hq.
    cbn [udiv_loop]. rewrite shift_in_bit, E by (rewrite ?E; lia || (split; [lia|]; apply Z.mod_le; zlia)).
    fold x. specialize (IH ltac:(lia)). fold x in IH.
    assert (x = b * (2 * (x / 2 / b)) + (2 * ((x / 2) mod b) + x mod 2)) as Hdec.
    { pose proof (Z.div_mod (x / 2) b). pose proof (Z.div_mod x 2). lia. }
    rewrite Nat2Z.inj_succ. unfold wrap.
    destruct (Z.leb_spec b (2 * ((x / 2) mod b) + x mod 2)).
    + rewrite <- IH. f_equal.
      * rewrite <- (Z.div_unique x b (2 * (x / 2 / b) + 1) (2 * ((x / 2) mod b) + x mod 2 - b));
          [|zlia|lia].
        rewrite Z.mod_small.
        2:{ rewrite Z.shiftl_mul_pow2, Z.mul_1_l by lia. split; [lia|]. apply Z.pow_lt_mono_r; lia. }
        rewrite <- Z.add_1_r, Z.add_comm, <- Z.shiftl_shiftl, <- Z.shiftl_lor by lia.
        f_equal. rewrite (Z.shiftl_mul_pow2 _ 1), Z.mul_comm by lia. change (2 ^ 1) with 2.
        apply lor_low_bit. lia.
      * apply (Z.mod_unique x b (2 * (x / 2 / b) + 1)); [zlia|lia].
    + rewrite <- IH. f_equal.
      * rewrite <- (Z.div_unique x b (2 * (x / 2 / b)) (2 * ((x / 2) mod b) + x mod 2));
          [|zlia|lia].
        rewrite <- Z.add_1_r, Z.add_comm, <- Z.shiftl_shiftl by lia. by f_equal.
      * apply (Z.mod_unique x b (2 * (x / 2 / b))); [zlia|lia].
Qed.

Lemma umod_loop_udiv n a b q r : umod_loop n a b r = snd (udiv_loop n a b q r).
Proof.
  revert q r. induction n as [|n IH]; intros q r; [done|]. cbn [umod_loop udiv_loop].
  case_match; apply IH.
Qed.

Lemma udiv_loop_start a b :
  0 <= a < 2 ^ 64 -> 0 < b < 2 ^ 64 -> udiv_loop 64 a b 0 0 = (a / b, a mod b).
Proof.
  intros Ha Hb. rewrite <- (udiv_loop_spec 64 a b) by lia.
  rewrite (Z.shiftr_div_pow2 a) by lia. change (2 ^ Z.of_nat 64) with (2 ^ 64).
  by rewrite (Z.div_small a (2 ^ 64)), Z.div_0_l, Z.mod_0_l, Z.shiftl_0_l by lia.
Qed.

(** A mask with the complement of [2^k - 1] rounds down to a multiple of [2^k]. *)
Lemma land_unot_pow2 z k :
  0 <= z < 2 ^ 32 -> 0 <= k <= 31 -> Z.land z (unot 32 (2 ^ k - 1)) = z / 2 ^ k * 2 ^ k.
Proof.
  intros Hz Hk. unfold unot. rewrite wrap_land by lia.
  rewrite <- Z.shiftr_div_pow2, <- Z.shiftl_mul_pow2 by lia.
  rewrite <- Z.ldiff_ones_r by lia. rewrite Z.sub_1_r, <- Z.ones_equiv.
  apply Z.bits_inj'. intros i Hi.
  rewrite !Z.land_spec, Z.ldiff_spec, Z.lnot_spec by lia.
  destruct (decide (i < 32)).
  - rewrite (Z.ones_spec_low 32) by lia. by rewrite andb_true_r.
  - by rewrite (testbit_above z 32 i) by lia.
Qed.

(** A value passing the power-of-two test of the code is a power of two. *)
Lemma land_pred_pow2 n : 0 < n -> Z.land n (n - 1) = 0 -> exists k, 0 <= k /\ n = 2 ^ k.
Proof.
  intros Hn H. exists (Z.log2 n). split; [apply Z.log2_nonneg|].
  destruct (Z.log2_spec n Hn) as [Hlo Hhi].
  destruct (decide (n = 2 ^ Z.log2 n)) as [|Hne]; [done|exfalso].
  assert (Z.log2 (n - 1) = Z.log2 n) as Hl.
  { apply Z.log2_unique; [apply Z.log2_nonneg|lia]. }
  assert (Z.testbit (Z.land n (n - 1)) (Z.log2 n) = true) as Hb.
  { rewrite Z.land_spec, Z.bit_log2 by lia. rewrite <- Hl at 1.
    rewrite Z.bit_log2; [done|]. pose proof (Z.pow_pos_nonneg 2 (Z.log2 n)).
    pose proof (Z.log2_nonneg n). lia. }
  by rewrite H, Z.bits_0 in Hb.
Qed.

(** * Properties *)

(** [memmove] is correct for every placement of source and destination in
    the object: the destination range afterwards holds the bytes the source range
    held before, and no other byte changes. *)
Theorem memmove_correct (b : buf) (d s n : nat) :
  (d + n <= length b)%nat -> (s + n <= length b)%nat ->
  exists b', memmove b d s n = Some b' /\ length b' = length b /\
    slice b' d n = slice b s n /\
    (forall k, (k < d \/ d + n <= k)%nat -> b' !! k = b !! k).
Proof.
  intros Hd Hs.
  assert (length (slice b s n) = n) as L by (unfold slice; list_lia).
  assert (memmove b d s n = Some (blit b d (slice b s n))) as ->.
  { unfold memmove. destruct (Nat.eqb_spec d s) as [->|]; [|destruct (Nat.eqb_spec n 0) as [->|]]; simpl.
    - f_equal. unfold blit, slice. rewrite length_take, length_drop, Nat.min_l by lia.
      rewrite <- drop_drop, take_drop, take_drop. done.
    - f_equal. unfold blit, slice. rewrite take_0. simpl. by rewrite Nat.add_0_r, take_drop.
    - destruct (Nat.ltb_spec d s), (Nat.leb_spec (s + n) d); simpl;
        try (apply copy_forward_spec; lia). apply copy_backward_spec; lia. }
  exists (blit b d (slice b s n)). split; [done|]. split; [apply length_blit; lia|].
  split; [rewrite <- L at 2; apply slice_blit; lia|].
  intros k Hk. apply lookup_blit_out; lia.
Qed.

Lemma memmove_correct_witness :
  exists b', memmove [1; 2; 3; 4; 5; 6] 2 0 4 = Some b' /\ length b' = 6%nat /\
    slice b' 2 4 = [1; 2; 3; 4] /\
    (forall k, (k < 2 \/ 2 + 4 <= k)%nat -> b' !! k = [1; 2; 3; 4; 5; 6] !! k).
Proof. apply (memmove_correct [1; 2; 3; 4; 5; 6] 2 0 4); simpl; lia. Defined.

(** C38: the shift-and-subtract routines compute the quotient and the remainder of
    every pair of 64-bit operands with a nonzero divisor, without overflowing 64
    bits in between; a zero divisor never returns. *)
Theorem udivmod_correct (a b : Z) :
  0 <= a < 2 ^ 64 -> 0 <= b < 2 ^ 64 ->
  __udivdi3 a b = (if b =? 0 then None else Some (a / b)) /\
  __umoddi3 a b = (if b =? 0 then None else Some (a mod b)).
Proof.
  intros Ha Hb. unfold __udivdi3, __umoddi3. destruct (Z.eqb_spec b 0); [done|].
  destruct (Z.ltb_spec a b).
  - by rewrite Z.div_small, Z.mod_small by lia.
  - rewrite (umod_loop_udiv 64 a b 0 0), udiv_loop_start by lia. done.
Qed.

Lemma udivmod_correct_witness :
  __udivdi3 18446744073709551615 9223372036854775809 = Some 1 /\
  __umoddi3 18446744073709551615 9223372036854775809 = Some 9223372036854775806.
Proof.
  exact (udivmod_correct 18446744073709551615 9223372036854775809
           ltac:(lia) ltac:(lia)).
Defined.

(** For a power-of-two alignment, when [malloc] delivers a block that does
    not wrap around the address space, [aligned_alloc] returns an aligned
    address, the caller's [size] bytes and the stored pointer lie inside the
    block, and [aligned_free] hands exactly the block's address back to [free]. *)
Theorem aligned_alloc_correct (malloc : Z -> Z) (words : gmap Z Z) (alignment size : Z) :
  0 < alignment < 2 ^ 31 -> Z.land alignment (alignment - 1) = 0 -> 0 <= size ->
  let total := size + alignment - 1 + sizeof_ptr in
  let raw := malloc total in
  total < 2 ^ 32 -> 0 < raw -> raw + total < 2 ^ 32 ->
  let '(p, words') := aligned_alloc malloc words alignment size in
  p mod alignment = 0 /\ raw <= p - sizeof_ptr /\ p + size <= raw + total /\
  aligned_free words' p = Some raw.
Proof.
  intros Hal Hpow Hsz total raw Htot Hraw Hend. unfold aligned_alloc.
  rewrite (wrap_small 32 (alignment - 1)) by lia. rewrite Hpow.
  destruct (Z.eqb_spec alignment 0); [lia|]. cbn [negb orb Z.eqb].
  rewrite (wrap_small 32 (size + alignment - 1 + sizeof_ptr)) by (unfold total, sizeof_ptr in *; lia).
  fold total. fold raw. destruct (Z.eqb_spec raw 0); [lia|].
  unfold sizeof_ptr in *. rewrite (wrap_small 32 (raw + 4)) by lia.
  rewrite (wrap_small 32 (raw + 4 + alignment - 1)) by lia.
  destruct (land_pred_pow2 alignment ltac:(lia) Hpow) as (k & Hk & ->).
  assert (k <= 31) by (apply (Z.pow_le_mono_r_iff 2); lia).
  rewrite land_unot_pow2 by lia. set (q := (raw + 4 + 2 ^ k - 1) / 2 ^ k).
  assert (raw + 4 <= q * 2 ^ k <= raw + 4 + 2 ^ k - 1) by (unfold q; znia).
  split; [by rewrite Z.mod_mul by lia|]. split; [lia|]. split; [lia|].
  unfold aligned_free, sizeof_ptr. destruct (Z.eqb_spec (q * 2 ^ k) 0); [lia|].
  by rewrite lookup_insert_eq.
Qed.

Lemma aligned_alloc_correct_witness :
  let '(p, words') := aligned_alloc (fun _ => 1000) ∅ 64 100 in
  p mod 64 = 0 /\ 1000 <= p - sizeof_ptr /\ p + 100 <= 1000 + (100 + 64 - 1 + sizeof_ptr) /\
  aligned_free words' p = Some 1000.
Proof.
  apply (aligned_alloc_correct (fun _ => 1000) ∅ 64 100); unfold sizeof_ptr; done || lia.
Defined.
