(* ===== verification/CStdio.v ===== *)
(** lib/libc/stdio.c: number formatting, printf, sprintf, snprintf, and the path
    normalization of lib/libc/string.c that is built on snprintf.

    Console output is the list of the characters printed.  The variable arguments
    are the words on the stack: a 32-bit integer or a string pointer ([None] is
    NULL); a 64-bit integer is passed as two words, the low one first.  Reading an
    argument at the wrong type is undefined behaviour and yields [None]. *)

From stdpp Require Import strings.
From S2P Require Import Prelude CString CStdlib.

(** ** Characters *)

Definition isprint (c : Z) : bool := (32 <=? c) && (c <=? 126).
Definition is_printable (ch : Z) : bool := (32 <=? ch) && (ch <? 127).
Definition to_printable_char (ch : Z) : Z := if is_printable ch then ch else 46 (* '.' *).

(** ** Numbers to strings *)

(** The swap loop of [reverse]; [end - start] halves at least every two rounds. *)
Fixpoint reverse_loop (fuel : nat) (str : buf) (start end_ : Z) : option buf :=
  match fuel with
  | O => None
  | S fuel' =>
      if start <? end_ then
        a ← rd str start; b ← rd str end_;
        str ← wr str start b; str ← wr str end_ a;
        reverse_loop fuel' str (start + 1) (end_ - 1)
      else Some str
  end.

Definition reverse_str (str : buf) (length_ : Z) : option buf :=
  reverse_loop (S (Z.to_nat length_)) str 0 (length_ - 1).

(** [(rem > 9) ? (rem - 10) + 'a' : rem + '0'], stored as a [char] *)
Definition digit_char (rem : Z) : Z := u8 (if 9 <? rem then rem - 10 + 97 else rem + 48).

(** The digits of [num], least significant first.  A 32-bit number has at most 32
    digits. *)
Fixpoint int_digits (fuel : nat) (num base : Z) : option (list Z) :=
  match fuel with
  | O => None
  | S fuel' =>
      if num =? 0 then Some [] else
      if base =? 0 then None else
      cons (digit_char (Z.rem num base)) <$> int_digits fuel' (Z.quot num base) base
  end.

(** [-num] wraps for INT_MIN. *)
Definition int_to_str (num : Z) (str : buf) (base : Z) : option (Z * buf) :=
  if num =? 0 then str ← put_bytes str [48; 0]; Some (1, str) else
  let is_negative := (num <? 0) && (base =? 10) in
  let num := if is_negative then s32 (- num) else num in
  ds ← int_digits 33 num base;
  let ds := ds ++ (if is_negative then [45] else []) in
  let i := Z.of_nat (length ds) in
  str ← put_bytes str (ds ++ [0]);
  str ← reverse_str str i;
  Some (i, str).

Definition unsigned_int_to_str (value : Z) (buffer : buf) (base : Z) : option buf :=
  if value =? 0 then put_bytes buffer [48; 0] else
  ds ← int_digits 33 value base;
  str ← put_bytes buffer (ds ++ [0]);
  reverse_str str (Z.of_nat (length ds)).

(** The characters of the literal "0123456789ABCDEF" and of its lower-case form;
    an index outside the literal is undefined behaviour. *)
Definition digit_of (lower : bool) (d : Z) : option Z :=
  if (0 <=? d) && (d <? 16) then Some (hex_digit (negb lower) d) else None.

Fixpoint table_digits (fuel : nat) (lower : bool) (value base : Z) : option (list Z) :=
  match fuel with
  | O => None
  | S fuel' =>
      if value =? 0 then Some [] else
      if base =? 0 then None else
      d ← digit_of lower (Z.rem value base);
      rest ← table_digits fuel' lower (Z.quot value base) base; Some (d :: rest)
  end.

Definition int_to_str2 (value : Z) (str : buf) (base : Z) : option buf :=
  if value =? 0 then put_bytes str [48; 0] else
  let isNegative := (value <? 0) && (base =? 10) in
  let value := if isNegative then s32 (- value) else value in
  temp ← table_digits 32 false value base;
  let temp := temp ++ (if isNegative then [45] else []) in
  if (length temp <? 32)%nat then put_bytes str (reverse temp ++ [0]) else None.

Definition uint64_t_to_str (value : Z) (buffer : buf) (base : Z) : option buf :=
  if (base <? 2) || (16 <? base) then put_bytes buffer [0] else
  temp ← (if value =? 0 then Some [48] else table_digits 65 false value base);
  put_bytes buffer (reverse temp ++ [0]).

(** ** Output *)

(** The digits go down from [buffer[30]]; at most 30 of them are kept. *)
Definition print_unsigned (value base : Z) : option buf :=
  if value =? 0 then Some [48] else
  ds ← table_digits 33 true value base; Some (reverse (take 30 ds)).

(** [n] hexadecimal digits from the low end. *)
Fixpoint hex_low (n : nat) (value : Z) : buf :=
  match n with
  | O => []
  | S n' => hex_low n' (Z.shiftr value 4) ++ [hex_digit true (Z.land value 15)]
  end.

Definition print_hex (value : Z) : buf := [48; 120] ++ hex_low 8 value.
Definition print_hex64 (value : Z) : buf := hex_low 16 value.

Definition print_hex_padded (value width : Z) : option buf :=
  ds ← hex_temp 32 true value;
  Some (replicate (Z.to_nat (width - Z.of_nat (length ds))) 48 ++ reverse ds).

Definition pad_out (count : Z) (zero : bool) : buf := replicate (Z.to_nat count) (if zero then 48 else 32).

Inductive va_word := VInt (z : Z) | VStr (s : option buf).

Definition va_int (args : list va_word) : option (Z * list va_word) :=
  match args with VInt z :: l => Some (z, l) | _ => None end.
Definition va_str (args : list va_word) : option (option buf * list va_word) :=
  match args with VStr s :: l => Some (s, l) | _ => None end.

(** The characters of a C string. *)
Fixpoint chars (s : buf) : option buf :=
  match s with
  | [] => None
  | c :: s' => if c =? 0 then Some [] else cons c <$> chars s'
  end.

Record flags := Mk_flags { left_align : bool; zero_padding : bool; width_specified : bool; width : Z; precision : Z }.

(** The padding around [body] that the 's' and 'u' conversions print. *)
Definition padded (f : flags) (body : buf) : buf :=
  let len := Z.of_nat (length body) in
  let pad := if width_specified f && (len <? width f) then width f - len else 0 in
  (if left_align f then [] else pad_out pad (zero_padding f)) ++ body ++
  (if left_align f then pad_out pad false else []).

Definition conv_c (f : flags) (args : list va_word) : option (buf * list va_word) :=
  '(c, args) ← va_int args;
  let wide := width_specified f && (1 <? width f) in
  Some ((if negb (left_align f) && wide then pad_out (width f - 1) (zero_padding f) else []) ++ [u8 c] ++
        (if left_align f && wide then pad_out (width f - 1) false else []), args).

Definition conv_s (f : flags) (args : list va_word) : option (buf * list va_word) :=
  '(s, args) ← va_str args;
  s ← chars (match s with Some s => s | None => lit "(null)" end);
  let len := Z.of_nat (length s) in
  let len := if (0 <=? precision f) && (precision f <? len) then precision f else len in
  Some (padded f (take (Z.to_nat len) s), args).

(** The padding is computed with the sign; for a negative number and the '0' flag
    both the spaces in front of the sign and the zeros behind it are printed. *)
Definition conv_d (f : flags) (args : list va_word) : option (buf * list va_word) :=
  '(v, args) ← va_int args;
  let v := s32 v in
  let neg := v <? 0 in
  let uv := u32 (if neg then s32 (- v) else v) in
  '(_, b) ← int_to_str (s32 uv) (replicate 32 0) 10;
  digits ← chars b;
  let len := Z.of_nat (length digits) + b2z neg in
  let pad := if width_specified f && (len <? width f) then width f - len else 0 in
  Some ((if left_align f then [] else pad_out pad (zero_padding f && negb neg)) ++
        (if neg then [45] else []) ++
        (if zero_padding f && negb (left_align f) && (0 <? pad) && neg then pad_out pad true else []) ++
        digits ++ (if left_align f then pad_out pad false else []), args).

Definition conv_u (f : flags) (args : list va_word) : option (buf * list va_word) :=
  '(u, args) ← va_int args;
  b ← unsigned_int_to_str (u32 u) (replicate 32 0) 10;
  digits ← chars b; Some (padded f digits, args).

(** 'X' and 'p': the result with its padding goes through [char buf[32]]. *)
Definition conv_X (f : flags) (args : list va_word) : option (buf * list va_word) :=
  '(x, args) ← va_int args;
  b ← int_to_hex_str (u32 x) (replicate 32 0) (if width_specified f then width f else 0) (zero_padding f);
  digits ← chars b; Some (digits, args).

(** The decimal number at the front of the format; [None] inside: no digit. *)
Fixpoint fmt_number (acc : Z) (seen : bool) (format : buf) : option (Z * bool * buf) :=
  match format with
  | [] => None
  | c :: format' =>
      if (48 <=? c) && (c <=? 57) then fmt_number (s32 (acc * 10 + (c - 48))) true format'
      else Some (acc, seen, format)
  end.

Definition skip_char (c : Z) (format : buf) : option (bool * buf) :=
  match format with [] => None | x :: format' => Some (if x =? c then (true, format') else (false, format)) end.

(** Flags, width, precision and length modifier behind a '%'. *)
Definition fmt_flags (format : buf) (args : list va_word) : option (flags * bool * buf * list va_word) :=
  '(la, format) ← skip_char 45 format;
  '(zero, format) ← (if la : bool then Some (false, format) else skip_char 48 format);
  '(star, format) ← skip_char 42 format;
  '(w, spec, format, args) ←
    (if star : bool then '(w, args) ← va_int args; Some (s32 w, true, format, args)
     else '(w, spec, format) ← fmt_number 0 false format; Some (w, spec, format, args));
  '(dot, format) ← skip_char 46 format;
  '(prec, format) ←
    (if dot : bool then '(p, _, format) ← fmt_number 0 false format; Some (p, format) else Some (-1, format));
  '(l1, format1) ← skip_char 108 format;
  '(is_ll, format) ←
    (if l1 : bool then '(l2, format2) ← skip_char 108 format1; Some (l2, if l2 : bool then format2 else format)
     else Some (false, format));
  Some (Mk_flags la zero spec w prec, is_ll, format, args).

(** The switch: 'X' and 'u' are handled by their own cases also behind "ll", so
    the 64-bit branches of [default] are never taken. *)
Definition conversion (f : flags) (is_ll : bool) (c : Z) (args : list va_word)
  : option (buf * list va_word) :=
  if c =? 99 (* 'c' *) then conv_c f args
  else if c =? 115 (* 's' *) then conv_s f args
  else if c =? 100 (* 'd' *) then conv_d f args
  else if c =? 117 (* 'u' *) then conv_u f args
  else if (c =? 88) || (c =? 112) (* 'X', 'p' *) then conv_X f args
  else Some ([37] ++ (if is_ll then [108; 108] else []) ++ (if c =? 0 then [] else [c]), args).

(** [printf]: the characters printed.  Every round consumes a character of the
    format. *)
Fixpoint printf_loop (fuel : nat) (format : buf) (args : list va_word) : option buf :=
  match fuel with
  | O => None
  | S fuel' =>
      match format with
      | [] => None
      | c :: format' =>
          if c =? 0 then Some [] else
          if negb (c =? 37) then cons c <$> printf_loop fuel' format' args else
          '(f, is_ll, format, args) ← fmt_flags format' args;
          match format with
          | [] => None
          | c :: format' =>
              if c =? 37 then cons 37 <$> printf_loop fuel' format' args else
              '(out, args) ← conversion f is_ll c args;
              rest ← printf_loop fuel' format' args; Some (out ++ rest)
          end
      end
  end.

Definition printf (format : buf) (args : list va_word) : option buf :=
  printf_loop (S (length format)) format args.

(** ** sprintf

    The text produced, without its terminator. *)
Fixpoint sprintf_text (p : buf) (args : list va_word) : option buf :=
  match p with
  | [] => None
  | c :: p' =>
      if c =? 0 then Some [] else
      if negb (c =? 37) then cons c <$> sprintf_text p' args else
      match p' with
      | [] => None
      | k :: p'' =>
          if k =? 115 then
            '(s, args) ← va_str args; s ← s; t ← chars s; rest ← sprintf_text p'' args; Some (t ++ rest)
          else if (k =? 100) || (k =? 120) then
            '(v, args) ← va_int args;
            '(len, t) ← int_to_str (s32 v) (replicate 20 0) (if k =? 100 then 10 else 16);
            rest ← sprintf_text p'' args; Some (take (Z.to_nat len) t ++ rest)
          else rest ← sprintf_text p'' args; Some (37 :: k :: rest)
      end
  end.

(** [written] and the buffer. *)
Definition sprintf (buffer : buf) (format : buf) (args : list va_word) : option (Z * buf) :=
  t ← sprintf_text format args;
  buffer ← put_bytes buffer (t ++ [0]);
  Some (Z.of_nat (length t), buffer).

(** ** snprintf *)

(** [while ( *arg && written < size) str[written++] = *arg++] *)
Fixpoint put_arg (arg str : buf) (written size : Z) : option (buf * Z) :=
  match arg with
  | [] => None
  | c :: arg' =>
      if negb (c =? 0) && (written <? size) then
        str ← wr str written c; put_arg arg' str (written + 1) size
      else Some (str, written)
  end.

(** The digits of [temp] into [num_buffer[12]], least significant first. *)
Fixpoint num_digits (n : nat) (temp : Z) : list Z :=
  match n with
  | O => []
  | S n' =>
      let d := u8 (Z.rem temp 10 + 48) in
      let temp := Z.quot temp 10 in
      if 0 <? temp then d :: num_digits n' temp else [d]
  end.

Fixpoint put_list (l : list Z) (str : buf) (written size : Z) : option (buf * Z) :=
  match l with
  | [] => Some (str, written)
  | c :: l' => if written <? size then str ← wr str written c; put_list l' str (written + 1) size
               else Some (str, written)
  end.

Definition put_num (word : Z) (str : buf) (written size : Z) : option (buf * Z) :=
  let num := s32 word in   (* va_arg(args, int) *)
  '(str, written) ← (if (num <? 0) && (written <? size)
                     then str ← wr str written 45; Some (str, written + 1) else Some (str, written));
  let num := if num <? 0 then s32 (- num) else num in
  put_list (reverse (num_digits 12 num)) str written size.

Fixpoint snprintf_loop (p : buf) (args : list va_word) (str : buf) (written size : Z) : option (buf * Z) :=
  match p with
  | [] => None
  | c :: p' =>
      if negb (c =? 0) && (written <? size) then
        if c =? 37 then
          match p' with
          | [] => None
          | k :: p'' =>
              if k =? 115 then
                '(s, args) ← va_str args; s ← s;
                '(str, written) ← put_arg s str written size; snprintf_loop p'' args str written size
              else if k =? 100 then
                '(v, args) ← va_int args;
                '(str, written) ← put_num v str written size; snprintf_loop p'' args str written size
              else snprintf_loop p'' args str written size   (* dropped *)
          end
        else str ← wr str written c; snprintf_loop p' args str (written + 1) size
      else Some (str, written)
  end.

Definition snprintf (str : buf) (size : Z) (format : buf) (args : list va_word) : option (Z * buf) :=
  '(str, written) ← snprintf_loop format args str 0 size;
  str ← (if 0 <? size then wr str (if written <? size then written else size - 1) 0 else Some str);
  Some (written, str).

(** ** normalize_path (lib/libc/string.c) *)

Definition MAX_PATH_LENGTH : Z := 256.

Definition normalize_path (input_path normalized_path current_path : buf) : option buf :=
  c ← rd input_path 0;
  out ← (if c =? 47 then strncpy normalized_path input_path (Z.to_nat (MAX_PATH_LENGTH - 1))
         else root ← strcmp current_path (lit "/");
              if root =? 0
              then snd <$> snprintf normalized_path MAX_PATH_LENGTH (lit "/%s") [VStr (Some input_path)]
              else snd <$> snprintf normalized_path MAX_PATH_LENGTH (lit "%s/%s")
                             [VStr (Some current_path); VStr (Some input_path)]);
  wr out (MAX_PATH_LENGTH - 1) 0.

Lemma chars_ok (nm r : buf) : nonul nm -> chars (nm ++ 0 :: r) = Some nm.
Proof. induction 1 as [|c nm Hc Hn IH]; [done|]. cbn. destruct (Z.eqb_spec c 0); [lia|]. by rewrite IH. Qed.

(** * snprintf *)

(** The text a format stands for, without a size limit. *)
Fixpoint snprintf_text (p : buf) (args : list va_word) : option buf :=
  match p with
  | [] => None
  | c :: p' =>
      if c =? 0 then Some [] else
      if negb (c =? 37) then cons c <$> snprintf_text p' args else
      match p' with
      | [] => None
      | k :: p'' =>
          if k =? 115 then
            '(s, args) ← va_str args; s ← s; t ← chars s; rest ← snprintf_text p'' args; Some (t ++ rest)
          else if k =? 100 then
            '(v, args) ← va_int args; rest ← snprintf_text p'' args; let v := s32 v in
            Some ((if v <? 0 then [45] else []) ++ reverse (num_digits 12 (if v <? 0 then s32 (- v) else v)) ++ rest)
          else snprintf_text p'' args
      end
  end.

Lemma wr_blit b w c :
  (w < length b)%nat -> byte_ok c -> wr b (Z.of_nat w) c = Some (blit b w [c]).
Proof.
  intros Hw Hc. unfold wr, blen. destruct (Z.leb_spec 0 (Z.of_nat w)), (Z.ltb_spec (Z.of_nat w) (Z.of_nat (length b))); try lia.
  cbn [andb]. rewrite Nat2Z.id, wrap_small by (unfold byte_ok in Hc; lia). f_equal.
  unfold blit. simpl. rewrite insert_take_drop by lia. do 2 f_equal. f_equal. lia.
Qed.

Lemma blit_app b w s t :
  (w + length s + length t <= length b)%nat -> blit (blit b w s) (w + length s) t = blit b w (s ++ t).
Proof.
  intros H. unfold blit. rewrite take_app_ge by list_lia. rewrite length_take, Nat.min_l by lia.
  replace (w + length s - w)%nat with (length s) by lia. rewrite take_app_length, <- !app_assoc.
  do 3 f_equal. rewrite drop_app_ge by list_lia. rewrite length_take, Nat.min_l by lia.
  rewrite drop_app_ge by list_lia. rewrite drop_drop. f_equal. list_lia.
Qed.

(** What the output loops do: append a text as far as it fits. *)
Definition appended (str : buf) (w size : nat) (t : buf) : buf * Z :=
  (blit str w (take (size - w) t), Z.of_nat (size `min` (w + length t))).

Lemma appended_cons str w size c t :
  (w < size)%nat -> (size <= length str)%nat -> 
  appended (blit str w [c]) (S w) size t = appended str w size (c :: t).
Proof.
  intros Hw Hs. unfold appended. f_equal; [|simpl length; lia].
  replace (S w) with (w + length [c])%nat by (simpl; lia).
  rewrite blit_app by list_lia. replace (size - w)%nat with (S (size - (w + length [c]))) by (simpl; lia). done.
Qed.

Lemma appended_full str w t : (w <= length str)%nat -> appended str w w t = (str, Z.of_nat w).
Proof. intros. unfold appended. rewrite Nat.sub_diag, take_0, blit_nil. f_equal. lia. Qed.

Lemma appended_nil str w size : (w <= size)%nat -> appended str w size [] = (str, Z.of_nat w).
Proof. intros. unfold appended. rewrite take_nil, blit_nil. f_equal. simpl. lia. Qed.

Lemma put_list_spec l str w size :
  bytes_ok l -> (w <= size)%nat -> (size <= length str)%nat ->
  put_list l str (Z.of_nat w) (Z.of_nat size) = Some (appended str w size l).
Proof.
  revert str w. induction l as [|c l IH]; intros str w Hl Hw Hs; cbn [put_list]; [by rewrite appended_nil|].
  apply Forall_cons in Hl as [Hc Hl]. destruct (Z.ltb_spec (Z.of_nat w) (Z.of_nat size)).
  - rewrite wr_blit by (done || lia). cbn [mbind option_bind].
    replace (Z.of_nat w + 1) with (Z.of_nat (S w)) by lia.
    rewrite IH, appended_cons by (done || lia || (rewrite length_blit; simpl; lia)). done.
  - assert (w = size) as -> by lia. by rewrite appended_full.
Qed.

Lemma put_arg_spec s t str w size :
  chars s = Some t -> bytes_ok t -> (w <= size)%nat -> (size <= length str)%nat ->
  put_arg s str (Z.of_nat w) (Z.of_nat size) = Some (appended str w size t).
Proof.
  revert t str w. induction s as [|c s IH]; intros t str w Ht Hok Hw Hs; [done|]. cbn [chars put_arg] in *.
  destruct (Z.eqb_spec c 0); [injection Ht as <-; cbn [negb andb]; by rewrite appended_nil|].
  destruct (chars s) as [t'|]; [|done]. injection Ht as <-. apply Forall_cons in Hok as [Hc Hok]. cbn [negb andb].
  destruct (Z.ltb_spec (Z.of_nat w) (Z.of_nat size)).
  - rewrite wr_blit by (done || lia). cbn [mbind option_bind].
    replace (Z.of_nat w + 1) with (Z.of_nat (S w)) by lia.
    rewrite (IH t'), appended_cons by (done || lia || (rewrite length_blit; simpl; lia)). done.
  - assert (w = size) as -> by lia. by rewrite appended_full.
Qed.

(** Appending one text after another. *)
Lemma appended_app str w size s t :
  (w <= size)%nat -> (size <= length str)%nat ->
  appended (fst (appended str w size s)) (size `min` (w + length s)) size t = appended str w size (s ++ t).
Proof.
  intros Hw Hs. unfold appended at 1 2. cbn [fst]. destruct (decide (w + length s <= size)%nat).
  - rewrite Nat.min_r, (take_ge s) by lia. unfold appended. rewrite take_app_ge by lia. f_equal.
    + rewrite blit_app by list_lia. f_equal. f_equal. f_equal. lia.
    + list_lia.
  - rewrite Nat.min_l by lia. unfold appended. rewrite Nat.sub_diag, take_0, blit_nil, take_app_le by lia.
    f_equal. list_lia.
Qed.

Lemma length_appended str w size t :
  (w <= size)%nat -> (size <= length str)%nat -> length (fst (appended str w size t)) = length str.
Proof. intros. unfold appended. simpl. apply length_blit. list_lia. Qed.

Lemma num_digits_ok n v : bytes_ok (num_digits n v).
Proof.
  revert v. induction n as [|n IH]; intros v; [constructor|]. cbn [num_digits].
  assert (byte_ok (u8 (Z.rem v 10 + 48))) by (apply wrap_range; lia).
  destruct (0 <? _); (constructor; [done|]); [apply IH|constructor].
Qed.

Lemma bytes_ok_reverse l : bytes_ok l -> bytes_ok (reverse l).
Proof. intros. by apply Forall_reverse. Qed.

Lemma put_num_spec v str w size :
  (w <= size)%nat -> (size <= length str)%nat ->
  put_num v str (Z.of_nat w) (Z.of_nat size) =
    Some (appended str w size ((if s32 v <? 0 then [45] else []) ++
            reverse (num_digits 12 (if s32 v <? 0 then s32 (- s32 v) else s32 v)))).
Proof.
  intros Hw Hs. unfold put_num. set (ds := reverse _).
  assert (bytes_ok ds) by apply bytes_ok_reverse, num_digits_ok. destruct (s32 v <? 0); cbn [andb].
  - destruct (Z.ltb_spec (Z.of_nat w) (Z.of_nat size)).
    + rewrite wr_blit by (done || lia). cbn [mbind option_bind].
      replace (Z.of_nat w + 1) with (Z.of_nat (S w)) by lia.
      rewrite put_list_spec by (done || lia || (rewrite length_blit; simpl; lia)). by rewrite appended_cons by lia.
    + cbn [mbind option_bind]. assert (w = size) as -> by lia. rewrite put_list_spec by (done || lia).
      by rewrite !appended_full by lia.
  - cbn [mbind option_bind]. by apply put_list_spec.
Qed.

Lemma bytes_ok_cons c l : bytes_ok (c :: l) <-> byte_ok c /\ bytes_ok l.
Proof. apply Forall_cons. Qed.

Lemma snprintf_loop_spec n p args str w size t :
  (length p <= n)%nat -> snprintf_text p args = Some t -> bytes_ok t -> (w <= size)%nat -> (size <= length str)%nat ->
  snprintf_loop p args str (Z.of_nat w) (Z.of_nat size) = Some (appended str w size t).
Proof.
  revert p args str w t. induction n as [|n IH]; intros p args str w t Hn Ht Hok Hw Hs;
    (destruct p as [|c p]; [done|]); [simpl in Hn; lia|]. cbn [snprintf_text snprintf_loop length] in *.
  destruct (Z.eqb_spec c 0); [injection Ht as <-; cbn [negb andb]; by rewrite appended_nil|]. cbn [negb andb] in *.
  destruct (Z.ltb_spec (Z.of_nat w) (Z.of_nat size)).
  2: { assert (w = size) as -> by lia. by rewrite appended_full by lia. }
  assert (forall x args' rest, bytes_ok x -> bytes_ok rest -> snprintf_text (match p with k :: p'' => p'' | [] => [] end) args' = Some rest ->
    let '(str', w') := appended str w size x in
    snprintf_loop (match p with k :: p'' => p'' | [] => [] end) args' str' w' (Z.of_nat size) =
      Some (appended str w size (x ++ rest))) as Hnext.
  { intros x args' rest Hx Hr Hp. unfold appended at 1. rewrite IH with (t := rest).
    - f_equal. rewrite <- appended_app by lia. done.
    - clear - Hn. destruct p; cbn [length] in *; lia.
    - done.
    - done.
    - lia.
    - rewrite length_blit; [lia|]. list_lia. }
  destruct (Z.eqb_spec c 37) as [->|]; cbn [negb] in Ht.
  - destruct p as [|k p]; [done|]. destruct (k =? 115).
    + destruct (va_str args) as [[s args']|]; [|done]. cbn [mbind option_bind] in *. destruct s as [s|]; [|done].
      cbn [mbind option_bind] in *. destruct (chars s) as [x|] eqn:Ex; [|done]. cbn [mbind option_bind] in *.
      destruct (snprintf_text p args') as [rest|] eqn:Er; [|done]. injection Ht as <-.
      apply bytes_ok_app in Hok as [Hx Hr]. rewrite (put_arg_spec s x) by (done || lia). cbn [mbind option_bind].
      specialize (Hnext x args' rest Hx Hr Er). by destruct (appended str w size x).
    + destruct (k =? 100).
      * destruct (va_int args) as [[v args']|]; [|done]. cbn [mbind option_bind] in *.
        destruct (snprintf_text p args') as [rest|] eqn:Er; [|done]. apply (inj Some) in Ht. subst t. rewrite app_assoc in Hok. rewrite app_assoc.
        apply bytes_ok_app in Hok as [Hx Hr]. rewrite put_num_spec by lia. cbn [mbind option_bind].
        specialize (Hnext _ args' rest Hx Hr Er). by destruct (appended str w size _).
      * apply IH; (done || lia || (cbn [length] in Hn; lia)).
  - destruct (snprintf_text p args) as [rest|] eqn:Er; [|done]. injection Ht as <-.
    apply bytes_ok_cons in Hok as [Hc Hr]. rewrite wr_blit by (done || lia). cbn [mbind option_bind].
    replace (Z.of_nat w + 1) with (Z.of_nat (S w)) by lia.
    rewrite (IH p args _ (S w) rest) by (done || lia || (rewrite length_blit; simpl; lia)).
    by rewrite appended_cons by lia.
Qed.

Lemma snprintf_spec (str : buf) (size : nat) (format : buf) (args : list va_word) (t : buf) :
  (0 < size <= length str)%nat -> snprintf_text format args = Some t -> bytes_ok t ->
  exists rest, snprintf str (Z.of_nat size) format args =
      Some (Z.of_nat (size `min` length t), take (size - 1) t ++ 0 :: rest) /\
    length (take (size - 1) t ++ 0 :: rest) = length str /\
    forall i, (size <= i)%nat -> (take (size - 1) t ++ 0 :: rest) !! i = str !! i.
Proof.
  intros Hs Ht Hok. unfold snprintf.
  pose proof (snprintf_loop_spec (length format) format args str 0 size t) as Hl. change (Z.of_nat 0) with 0 in Hl.
  rewrite Hl by (done || lia). clear Hl. unfold appended. cbn [mbind option_bind]. destruct (Z.ltb_spec 0 (Z.of_nat size)); [|lia].
  rewrite Nat.add_0_l, Nat.sub_0_r. set (k := (size `min` length t)%nat).
  set (pos := if Z.of_nat k <? Z.of_nat size then Z.of_nat k else Z.of_nat size - 1).
  assert (pos = Z.of_nat ((size - 1) `min` length t)) as -> by (unfold pos, k; zcase; lia).
  set (j := ((size - 1) `min` length t)%nat).
  rewrite wr_blit; [|rewrite length_blit; list_lia|done]. cbn [mbind option_bind].
  set (out := blit (blit str 0 (take size t)) j [0]).
  assert (length out = length str) as Hlen by (unfold out; rewrite !length_blit by (rewrite ?length_blit; list_lia); done).
  assert (take j out = take (size - 1) t) as Htake.
  { unfold out, blit. rewrite take_app_le by list_lia. rewrite take_take, Nat.min_id, take_0. cbn [app].
    rewrite take_app_le by list_lia. rewrite take_take. unfold j.
    destruct (decide (size - 1 <= length t)%nat); [by rewrite Nat.min_l, Nat.min_l by lia|].
    rewrite !take_ge by lia. done. }
  assert (drop j out = 0 :: drop (S j) (blit str 0 (take size t))) as Hdrop.
  { unfold out, blit at 1. rewrite drop_app_ge by (rewrite length_take, length_blit by list_lia; list_lia).
    rewrite length_take, length_blit by list_lia. replace (j - j `min` length str)%nat with 0%nat by lia.
    rewrite drop_0. cbn [app length]. do 2 f_equal. lia. }
  exists (drop (S j) (blit str 0 (take size t))).
  assert (take (size - 1) t ++ 0 :: drop (S j) (blit str 0 (take size t)) = out) as ->
    by (rewrite <- Htake, <- Hdrop; apply take_drop).
  split_and!; [done|done|]. intros i Hi. unfold out.
  rewrite !lookup_blit_out; rewrite ?length_blit; list_lia || done.
Qed.

(** C39: [snprintf] stays within its buffer: it writes the text its format and
    arguments stand for, cut to [size - 1] characters, followed by a terminator, it
    changes no byte at or behind position [size], and returns the number of
    characters stored before the cut for the terminator (at most [size]). *)
Theorem snprintf_bounded (str : buf) (size : nat) (format : buf) (args : list va_word) (t : buf) :
  (0 < size <= length str)%nat -> snprintf_text format args = Some t -> bytes_ok t ->
  exists rest, snprintf str (Z.of_nat size) format args =
      Some (Z.of_nat (size `min` length t), take (size - 1) t ++ 0 :: rest) /\
    length (take (size - 1) t ++ 0 :: rest) = length str /\
    forall i, (size <= i)%nat -> (take (size - 1) t ++ 0 :: rest) !! i = str !! i.
Proof. apply snprintf_spec. Qed.

Lemma snprintf_bounded_witness :
  exists rest, snprintf (replicate 8 255) (Z.of_nat 6) (lit "%s-%d") [VStr (Some (lit "ab")); VInt (-1234)] =
    Some (6, lit_bytes "ab--1" ++ 0 :: rest) /\ length (lit_bytes "ab--1" ++ 0 :: rest) = 8%nat.
Proof.
  destruct (snprintf_bounded (replicate 8 255) 6 (lit "%s-%d") [VStr (Some (lit "ab")); VInt (-1234)] (lit_bytes "ab--1234"))
    as (rest & E & Hl & _); [simpl; lia|by vm_compute|by repeat constructor|]. by exists rest.
Defined.

(** ** Number formatting *)

(** Swapping from both ends reverses the middle. *)
Lemma reverse_loop_spec fuel (pre s post : buf) :
  bytes_ok s -> (length s < fuel)%nat ->
  reverse_loop fuel (pre ++ s ++ post) (Z.of_nat (length pre)) (Z.of_nat (length pre) + Z.of_nat (length s) - 1) =
    Some (pre ++ reverse s ++ post).
Proof.
  revert pre s post. induction fuel as [|fuel IH]; intros pre s post Hok Hf; [lia|]. cbn [reverse_loop].
  destruct s as [|a s]; [|destruct s as [|b s _] using rev_ind].
  - destruct (Z.ltb_spec (Z.of_nat (length pre)) (Z.of_nat (length pre) + Z.of_nat (length (@nil Z)) - 1)); [simpl in *; lia|done].
  - destruct (Z.ltb_spec (Z.of_nat (length pre)) (Z.of_nat (length pre) + Z.of_nat (length [a]) - 1)); [simpl in *; lia|done].
  - clear IHs || idtac. apply bytes_ok_cons in Hok as [Ha Hok]. apply bytes_ok_app in Hok as [Hs Hb].
    apply bytes_ok_cons in Hb as [Hb _]. set (i := length pre).
    replace (Z.of_nat i + Z.of_nat (length (a :: s ++ [b])) - 1) with (Z.of_nat (i + 1 + length s)) by list_lia.
    destruct (Z.ltb_spec (Z.of_nat i) (Z.of_nat (i + 1 + length s))); [|lia].
    set (l := pre ++ (a :: s ++ [b]) ++ post).
    assert (rd l (Z.of_nat i) = Some a) as ->.
    { unfold rd, l. destruct (Z.ltb_spec (Z.of_nat i) 0); [lia|]. rewrite Nat2Z.id, lookup_app_r by (unfold i; lia).
      by replace (i - length pre)%nat with 0%nat by (unfold i; lia). }
    assert (rd l (Z.of_nat (i + 1 + length s)) = Some b) as ->.
    { unfold rd, l. destruct (Z.ltb_spec (Z.of_nat (i + 1 + length s)) 0); [lia|].
      rewrite Nat2Z.id, lookup_app_r by (unfold i; lia).
      replace (i + 1 + length s - length pre)%nat with (S (length s)) by (unfold i; lia).
      change (((s ++ [b]) ++ post) !! length s = Some b).
      rewrite <- app_assoc. rewrite lookup_app_r, Nat.sub_diag by lia. done. }
    cbn [mbind option_bind].
    rewrite (wr_blit l i b) by (done || (unfold l, i; list_lia)). cbn [mbind option_bind].
    rewrite wr_blit by (done || (rewrite length_blit; unfold l, i; list_lia)). cbn [mbind option_bind].
    assert (blit (blit l i [b]) (i + 1 + length s) [a] = (pre ++ [b]) ++ s ++ ([a] ++ post)) as ->.
    { unfold l, blit at 2. rewrite take_app_length' by done. rewrite drop_app_ge by list_lia.
      replace (i + length [b] - length pre)%nat with 1%nat by (unfold i; list_lia). cbn [app drop]. rewrite drop_0.
      replace (pre ++ b :: (s ++ [b]) ++ post) with ((pre ++ b :: s) ++ b :: post) by (rewrite <- !app_assoc; done).
      unfold blit. rewrite take_app_length' by (unfold i; list_lia).
      rewrite drop_app_ge by (unfold i; list_lia). replace (_ - _)%nat with 1%nat by (unfold i; list_lia).
      cbn [drop]. rewrite ?drop_0, <- !app_assoc. done. }
    replace (Z.of_nat i + 1) with (Z.of_nat (length (pre ++ [b]))) by (unfold i; list_lia).
    replace (Z.of_nat (i + 1 + length s) - 1) with (Z.of_nat (length (pre ++ [b])) + Z.of_nat (length s) - 1) by (unfold i; list_lia).
    rewrite IH by (done || list_lia). f_equal. rewrite reverse_cons, reverse_app. simpl. by rewrite <- !app_assoc.
Qed.

Lemma reverse_str_spec s post :
  bytes_ok s -> reverse_str (s ++ post) (Z.of_nat (length s)) = Some (reverse s ++ post).
Proof.
  intros Hok. unfold reverse_str. pose proof (reverse_loop_spec (S (length s)) [] s post Hok ltac:(lia)) as H.
  simpl in H. rewrite Nat2Z.id. exact H.
Qed.

Definition digit_ok (c : Z) : Prop := 48 <= c <= 57.

(** The digit loop and the accumulation of [atoi] are inverse. *)
Lemma int_digits_atoi fuel n :
  0 <= n < 10 ^ Z.of_nat fuel ->
  exists ds, int_digits (S fuel) n 10 = Some ds /\ Forall digit_ok ds /\ (length ds <= fuel)%nat /\
    (0 < n -> ds <> []) /\
    forall acc tail, 0 <= acc -> acc * 10 ^ Z.of_nat (length ds) + n < 2 ^ 31 ->
      atoi_digits acc (reverse ds ++ tail) = atoi_digits (acc * 10 ^ Z.of_nat (length ds) + n) tail.
Proof.
  revert n. induction fuel as [|fuel IH]; intros n Hn.
  - replace n with 0 by lia. exists []. split; [done|]. split; [by apply Forall_nil|]. split; [simpl; lia|]. split; [lia|].
    intros acc tail _ _. simpl. f_equal. lia.
  - rewrite Nat2Z.inj_succ, Z.pow_succ_r in Hn by lia. remember (S fuel) as f1. cbn [int_digits]. subst f1.
    destruct (Z.eqb_spec n 0) as [->|Hne].
    { exists []. split; [done|]. split; [by apply Forall_nil|]. split; [simpl; lia|]. split; [lia|]. intros acc tail _ _. simpl. f_equal. lia. }
    rewrite Z.quot_div_nonneg, Z.rem_mod_nonneg by lia.
    destruct (IH (n / 10)) as (ds & -> & Hd & Hl & _ & Hat); [zlia|].
    assert (digit_char (n mod 10) = n mod 10 + 48) as Edc.
    { unfold digit_char. destruct (Z.ltb_spec 9 (n mod 10)); [zlia|]. apply wrap_small. zlia. }
    exists (digit_char (n mod 10) :: ds). rewrite Edc. cbn [fmap option_fmap option_map length].
    split; [done|]. split; [apply Forall_cons; split; [unfold digit_ok; zlia|done]|]. split; [lia|]. split; [done|].
    intros acc tail Ha Hlt. rewrite reverse_cons, <- app_assoc. rewrite Nat2Z.inj_succ, Z.pow_succ_r in * by lia.
    set (q := 10 ^ Z.of_nat (length ds)) in *. rewrite Hat by (try done; znia).
    cbn [app atoi_digits]. destruct (Z.leb_spec 48 (n mod 10 + 48)), (Z.leb_spec (n mod 10 + 48) 57); try zlia.
    cbn [andb]. f_equal. assert (0 <= q) by (apply Z.pow_nonneg; lia). rewrite swrap_small; [znia|lia|znia].
Qed.

(** [int_to_str] prints every [int] except INT_MIN in decimal so that [atoi]
    reads it back, into any buffer of at least 12 bytes; the returned length is
    that of the string. *)
Theorem int_to_str_atoi (n : Z) (str : buf) :
  - 2 ^ 31 < n < 2 ^ 31 -> (12 <= length str)%nat ->
  exists s rest, int_to_str n str 10 = Some (Z.of_nat (length s), s ++ 0 :: rest) /\
    length (s ++ 0 :: rest) = length str /\ nonul s /\ atoi (Some (s ++ 0 :: rest)) = Some n.
Proof.
  intros Hn Hl. unfold int_to_str. destruct (Z.eqb_spec n 0) as [->|Hne].
  { unfold put_bytes. destruct (Nat.leb_spec (length [48; 0]) (length str)); [|simpl in *; lia].
    cbn [mbind option_bind]. exists [48], (drop 2 str). split_and!; [done|list_lia|by repeat constructor|done]. }
  rewrite andb_true_r. set (m := if n <? 0 then s32 (- n) else n).
  assert (m = Z.abs n) as Em by (unfold m; destruct (Z.ltb_spec n 0); [rewrite swrap_small by lia; lia|lia]).
  destruct (int_digits_atoi 10 m ltac:(lia)) as (ds & Hds & Hd & Hlen & Hnil & Hat).
  assert (int_digits 33 m 10 = Some ds) as ->.
  { clear - Hds. assert (forall f k x r, int_digits f x 10 = Some r -> int_digits (f + k) x 10 = Some r) as Hm.
    { induction f as [|f IH]; intros k x r H; [done|]. cbn [int_digits Nat.add] in *. destruct (x =? 0); [done|].
      destruct (int_digits f _ 10) as [r'|] eqn:E; [|done]. by rewrite (IH k _ _ E). }
    apply (Hm 11%nat 22%nat _ _ Hds). }
  cbn [mbind option_bind]. specialize (Hnil ltac:(lia)). set (sg := if n <? 0 then [45] else []).
  assert (bytes_ok (ds ++ sg) /\ nonul (ds ++ sg)) as [Hok Hnn].
  { assert (Forall digit_ok sg \/ sg = [45]) as Hsg by (unfold sg; destruct (n <? 0); [by right|left; constructor]).
    split; apply Forall_app; split; try (eapply Forall_impl; [exact Hd|]; unfold digit_ok, byte_ok; simpl; lia);
      destruct Hsg as [Hsg| ->]; try (eapply Forall_impl; [exact Hsg|]; unfold digit_ok, byte_ok; simpl; lia);
      (constructor; [unfold byte_ok; lia|constructor]). }
  assert (length (ds ++ sg) <= 11)%nat as Hl2 by (unfold sg; destruct (n <? 0); list_lia).
  unfold put_bytes. destruct (Nat.leb_spec (length ((ds ++ sg) ++ [0])) (length str)); [|list_lia].
  cbn [mbind option_bind]. unfold blit. rewrite take_0. cbn [app]. rewrite <- app_assoc.
  rewrite reverse_str_spec by done. cbn [mbind option_bind]. set (rest := drop _ str).
  exists (reverse (ds ++ sg)), rest. rewrite length_reverse. split; [done|].
  split; [unfold rest; list_lia|]. split; [by apply Forall_reverse|].
  assert (forall l acc, Forall digit_ok l -> l <> [] -> atoi_skip (reverse l ++ acc) = Some (reverse l ++ acc) /\
            exists c l', reverse l ++ acc = c :: l' /\ digit_ok c) as Hhead.
  { intros l acc Hdl Hln. apply Forall_reverse in Hdl. destruct (reverse l) as [|c l'] eqn:E.
    { by apply reverse_nil_inv in E || (apply (f_equal reverse) in E; rewrite reverse_involutive in E; done). }
    apply Forall_cons in Hdl as [Hc _]. unfold digit_ok in Hc. split; [|by exists c, (l' ++ acc)].
    cbn [app atoi_skip]. by zcase. }
  specialize (Hat 0 (0 :: rest) ltac:(lia) ltac:(lia)). rewrite Z.mul_0_l, Z.add_0_l in Hat.
  destruct (Hhead ds (0 :: rest) Hd Hnil) as (Hskip & c & l' & Ec & Hc). unfold digit_ok in Hc.
  unfold sg, atoi. destruct (Z.ltb_spec n 0).
  - rewrite reverse_app. change (reverse [45]) with [45]. rewrite <- app_assoc. cbn [app atoi_skip Z.eqb Pos.eqb orb mbind option_bind].
    rewrite Hat. cbn [atoi_digits Z.leb andb mbind option_bind]. change (0 <=? _) with true || idtac. simpl.
    f_equal. rewrite swrap_small by lia. lia.
  - rewrite app_nil_r, Hskip. cbn [mbind option_bind]. rewrite Ec in *. destruct (Z.eqb_spec c 45), (Z.eqb_spec c 43); try lia.
    rewrite Hat. simpl. f_equal. rewrite swrap_small by lia. lia.
Qed.

Lemma int_to_str_atoi_witness :
  exists s rest, int_to_str (-4096) (replicate 12 7) 10 = Some (Z.of_nat (length s), s ++ 0 :: rest) /\
    atoi (Some (s ++ 0 :: rest)) = Some (-4096).
Proof.
  destruct (int_to_str_atoi (-4096) (replicate 12 7)) as (s & rest & E & _ & _ & H); [lia|simpl; lia|].
  exists s, rest. exact (conj E H).
Defined.

Lemma printf_conv n fmt args f ll c fmt' args' :
  fmt_flags fmt args = Some (f, ll, c :: fmt', args') -> c <> 37 ->
  printf_loop (S n) (37 :: fmt) args =
    ('(out, args) ← conversion f ll c args'; rest ← printf_loop n fmt' args; Some (out ++ rest)).
Proof.
  intros Hf Hc. cbn [printf_loop]. change (37 =? 0) with false. change (negb (37 =? 37)) with false. cbv iota.
  rewrite Hf. cbn [mbind option_bind]. by destruct (Z.eqb_spec c 37).
Qed.

Definition plain : flags := Mk_flags false false false 0 (-1).

(** Behind the length modifier "ll", [printf] still takes the 32-bit
    conversions: for every 64-bit argument %llu and %llX print its low word only. *)
Theorem printf_ll_is_32_bit (lo hi : Z) :
  printf (lit "%llu") [VInt lo; VInt hi] = printf (lit "%u") [VInt lo] /\
  printf (lit "%llX") [VInt lo; VInt hi] = printf (lit "%X") [VInt lo].
Proof.
  unfold printf. change (lit "%llu") with [37; 108; 108; 117; 0]. change (lit "%u") with [37; 117; 0].
  change (lit "%llX") with [37; 108; 108; 88; 0]. change (lit "%X") with [37; 88; 0].
  split_and!; erewrite (printf_conv _ _ _ plain true); [|reflexivity|done| |reflexivity|done];
    erewrite (printf_conv _ _ _ plain false); try reflexivity; try done;
    unfold conversion; cbn [Z.eqb Pos.eqb orb];
    unfold conv_u, conv_X; cbn [va_int mbind option_bind];
    try destruct (unsigned_int_to_str (u32 lo) _ _) as [b|]; try destruct (int_to_hex_str (u32 lo) _ _ _) as [b|];
    cbn [mbind option_bind]; try done; destruct (chars b); cbn [mbind option_bind]; try done.
Qed.

(** The '0' flag with a negative number pads twice: spaces in front of the sign and
    zeros behind it. *)
Lemma printf_negative_zero_padded : printf (lit "%05d") [VInt (-42)] = Some (lit_bytes "  -0042").
Proof. vm_compute. reflexivity. Qed.

(** INT_MIN has no printable magnitude: the digits become characters below '0'. *)
Lemma int_to_str_int_min :
  int_to_str (- 2 ^ 31) (replicate 16 0) 10 = Some (11, lit_bytes "-./,),(-*,(" ++ replicate 5 0).
Proof. vm_compute. reflexivity. Qed.
