(* ===== verification/Printf.v ===== *)
(** [printf] stays within defined behaviour (lib/libc/stdio.c).

    [fits] checks a format against the kinds of its arguments, the way a compiler checks a
    call: the conversions take words of the right kind, the ones that print hexadecimal do
    it within their buffer of 32 bytes, no width is taken from the arguments, and the
    format does not end within a conversion.  [printf_safe] shows that a call that passes
    the check prints; the components that print use it for their messages. *)

From stdpp Require Import strings.
From S2P Require Import Prelude CString CStdlib CStdio.

Inductive va_kind := KInt | KStr.
#[global] Instance va_kind_eq : EqDecision va_kind.
Proof. solve_decision. Defined.

Definition kind_of (w : va_word) : va_kind := match w with VInt _ => KInt | VStr _ => KStr end.

(** A string argument is NULL or ends. *)
Definition terminated (w : va_word) : Prop :=
  match w with VStr (Some s) => is_Some (chars s) | _ => True end.

(** What a conversion takes. *)
Definition takes (c : Z) : option va_kind :=
  if c =? 115 then Some KStr
  else if (c =? 99) || (c =? 100) || (c =? 117) || (c =? 88) || (c =? 112) then Some KInt else None.

(** The result of a hexadecimal conversion goes through 32 bytes. *)
Definition width_fits (f : flags) (c : Z) : bool :=
  negb ((c =? 88) || (c =? 112)) || negb (width_specified f) || (width f <=? 31).

Fixpoint fits (n : nat) (format : buf) (kinds : list va_kind) : bool :=
  match n with
  | O => false
  | S n' =>
      match format with
      | [] => false
      | c :: format' =>
          if c =? 0 then true else
          if negb (c =? 37) then fits n' format' kinds else
          match fmt_flags format' [] with
          | Some (f, _, c :: format', _) =>
              if c =? 0 then false else if c =? 37 then fits n' format' kinds else
              match takes c, kinds with
              | None, _ => fits n' format' kinds
              | Some k, k' :: kinds => bool_decide (k = k') && width_fits f c && fits n' format' kinds
              | Some _, [] => false
              end
          | _ => false
          end
      end
  end.

(** ** The conversions *)

Lemma int_digits_total fuel n : Z.abs n < 10 ^ Z.of_nat fuel ->
  exists ds, int_digits (S fuel) n 10 = Some ds /\ Forall (fun c => 39 <= c <= 57) ds /\ (length ds <= fuel)%nat.
Proof.
  revert n. induction fuel as [|fuel IH]; intros n Hn.
  - exists []. replace n with 0 by lia. split_and!; [done|constructor|done].
  - rewrite Nat2Z.inj_succ, Z.pow_succ_r in Hn by lia. remember (S fuel) as f1. cbn [int_digits]. subst f1.
    destruct (Z.eqb_spec n 0) as [->|Hne]; [exists []; split_and!; [done|constructor|simpl; lia]|].
    pose proof (Z.quot_rem n 10 ltac:(lia)) as Hq. pose proof (Z.rem_bound_abs n 10 ltac:(lia)) as Hr.
    destruct (IH (Z.quot n 10)) as (ds & -> & Hd & Hl); [|].
    { rewrite <- (Z.quot_abs n 10) by lia. change (Z.abs 10) with 10. rewrite Z.quot_div_nonneg by lia. zlia. }
    eexists. split; [done|]. split; [|simpl; lia]. apply Forall_cons. split; [|done].
    unfold digit_char. destruct (Z.ltb_spec 9 (Z.rem n 10)); [lia|]. rewrite wrap_small by lia. lia.
Qed.

Lemma int_digits_more f k x r : int_digits f x 10 = Some r -> int_digits (f + k) x 10 = Some r.
Proof.
  revert x r. induction f as [|f IH]; intros x r H; [done|]. cbn [int_digits Nat.add] in *. destruct (x =? 0); [done|].
  destruct (int_digits f _ 10) as [r'|] eqn:E; [|done]. by rewrite (IH _ _ E).
Qed.

(** The digits of any 32-bit number, signed or not. *)
Lemma digits_word n : - 2 ^ 31 <= n < 2 ^ 32 ->
  exists ds, int_digits 33 n 10 = Some ds /\ Forall (fun c => 39 <= c <= 57) ds /\ (length ds <= 10)%nat.
Proof.
  intros Hn. destruct (int_digits_total 10 n) as (ds & E & Hd & Hl); [change (10 ^ Z.of_nat 10) with 10000000000; lia|].
  exists ds. split; [exact (int_digits_more 11 22 _ _ E)|done].
Qed.

(** Digits and what follows them, reversed in the buffer of a conversion. *)
Lemma digits_printed ds sg : Forall (fun c => 39 <= c <= 57) (ds ++ sg) -> (length (ds ++ sg) <= 31)%nat ->
  exists str str' out, put_bytes (replicate 32 0) ((ds ++ sg) ++ [0]) = Some str /\
    reverse_str str (Z.of_nat (length (ds ++ sg))) = Some str' /\ chars str' = Some out.
Proof.
  intros Hd Hl. unfold put_bytes. rewrite (proj2 (Nat.leb_le _ _)) by (rewrite length_app, length_replicate; simpl; lia).
  eexists. unfold blit at 1. rewrite take_0. cbn [app]. rewrite <- app_assoc. rewrite reverse_str_spec.
  2: { eapply Forall_impl; [exact Hd|]. intros c Hc. unfold byte_ok. simpl in Hc. lia. }
  eexists. eexists. split; [reflexivity|]. split; [reflexivity|]. cbn [app]. apply chars_ok.
  apply Forall_reverse. eapply Forall_impl; [exact Hd|]. intros c Hc. simpl in *. lia.
Qed.

Lemma conv_u_total f u args : exists out, conv_u f (VInt u :: args) = Some (out, args).
Proof.
  unfold conv_u. cbn [va_int mbind option_bind]. unfold unsigned_int_to_str. destruct (u32 u =? 0) eqn:E0; [by eexists|].
  pose proof (wrap_range 32 u ltac:(lia)). destruct (digits_word (u32 u)) as (ds & -> & Hd & Hl); [lia|].
  destruct (digits_printed ds []) as (str & str' & out & E1 & E2 & E3); rewrite ?app_nil_r in *; [done|lia|].
  cbn [mbind option_bind]. rewrite E1. cbn [mbind option_bind]. rewrite E2. cbn [mbind option_bind]. rewrite E3. by eexists.
Qed.

Lemma int_to_str_total n : - 2 ^ 31 <= n < 2 ^ 31 -> exists i b out, int_to_str n (replicate 32 0) 10 = Some (i, b) /\ chars b = Some out.
Proof.
  intros Hn. unfold int_to_str. destruct (n =? 0) eqn:E0; [by do 3 eexists|]. rewrite andb_true_r.
  set (m := if n <? 0 then s32 (- n) else n).
  assert (- 2 ^ 31 <= m < 2 ^ 32) as Hm.
  { unfold m. destruct (n <? 0); [|lia]. unfold s32, swrap. pose proof (wrap_range 32 (- n + 2 ^ (32 - 1)) ltac:(lia)). lia. }
  destruct (digits_word m Hm) as (ds & -> & Hd & Hl). cbn [mbind option_bind].
  destruct (digits_printed ds (if n <? 0 then [45] else [])) as (str & str' & out & E1 & E2 & E3).
  - apply Forall_app. split; [done|]. destruct (n <? 0); repeat constructor; lia.
  - destruct (n <? 0); list_lia.
  - rewrite E1. cbn [mbind option_bind]. rewrite E2. cbn [mbind option_bind]. by eauto.
Qed.

Lemma conv_d_total f v args : exists out, conv_d f (VInt v :: args) = Some (out, args).
Proof.
  unfold conv_d. cbn [va_int mbind option_bind]. set (x := u32 _).
  destruct (int_to_str_total (s32 x)) as (i & b & out & E & Ec).
  { unfold s32, swrap. pose proof (wrap_range 32 (x + 2 ^ (32 - 1)) ltac:(lia)). lia. }
  rewrite E. cbn [mbind option_bind]. rewrite Ec. by eexists.
Qed.

Lemma hex_digit_nonul u d : 0 <= d < 16 -> 0 < hex_digit u d < 256.
Proof. intros Hd. unfold hex_digit. destruct u; zcase; lia. Qed.

Lemma conv_X_total f x args : negb (width_specified f) || (width f <=? 31) = true -> exists out, conv_X f (VInt x :: args) = Some (out, args).
Proof.
  intros Hw. unfold conv_X. cbn [va_int mbind option_bind]. unfold int_to_hex_str.
  destruct (hex_temp_spec 7 32 true (u32 x)) as (ds & -> & Hl & Hds & _); [apply (wrap_range 32); lia|lia|]. cbn [mbind option_bind].
  set (w := if width_specified f then width f else 0). set (z := if zero_padding f then _ else _).
  rewrite length_map. set (pad := if Z.of_nat (length ds) <? w then _ else 0).
  assert (w <= 31) as Hw31 by (unfold w; destruct (width_specified f); [cbn [negb orb] in Hw|]; lia).
  assert (Z.to_nat pad + length ds <= 31)%nat as Hlen by (unfold pad; zcase; lia).
  unfold put_bytes. rewrite (proj2 (Nat.leb_le _ _)) by (rewrite !length_app, !length_replicate, length_reverse, length_map; simpl; lia).
  cbn [mbind option_bind]. unfold blit. rewrite take_0. cbn [app]. rewrite app_assoc, <- (app_assoc _ [0]). cbn [app].
  rewrite chars_ok; [by eexists|]. apply Forall_app. split.
  - apply Forall_replicate. unfold z. destruct (zero_padding f); lia.
  - apply Forall_reverse, Forall_map. eapply Forall_impl; [exact Hds|]. intros d Hd. simpl. by apply hex_digit_nonul.
Qed.

Lemma conversion_total f ll c w args : takes c = Some (kind_of w) -> width_fits f c = true -> terminated w ->
  exists out, conversion f ll c (w :: args) = Some (out, args).
Proof.
  unfold takes, width_fits, conversion. intros Ht Hw Hs.
  destruct (Z.eqb_spec c 115) as [->|_].
  - cbn. destruct w as [|[s|]]; [done| |]; unfold conv_s; cbn [va_str mbind option_bind]; [|by eexists].
    destruct Hs as [out ->]. by eexists.
  - destruct w as [z|]; [|by zcase]. cbn [kind_of] in Ht.
    destruct (Z.eqb_spec c 99); [eexists; reflexivity|]. destruct (Z.eqb_spec c 100); [apply conv_d_total|]. destruct (Z.eqb_spec c 117); [apply conv_u_total|].
    destruct ((c =? 88) || (c =? 112)) eqn:E; [exact (conv_X_total _ _ _ Hw)|]. cbn [orb] in Ht. by rewrite E in Ht.
Qed.

Lemma fmt_flags_args format f ll format' args' : fmt_flags format [] = Some (f, ll, format', args') ->
  forall args, fmt_flags format args = Some (f, ll, format', args).
Proof.
  unfold fmt_flags. intros H args. destruct (skip_char 45 format) as [[la f1]|]; [|done]. cbn [mbind option_bind] in *.
  destruct (if la : bool then _ else _) as [[z f2]|]; [|done]. cbn [mbind option_bind] in *.
  destruct (skip_char 42 f2) as [[st f3]|]; [|done]. cbn [mbind option_bind] in *. destruct st; [done|].
  destruct (fmt_number 0 false f3) as [[[w sp] f4]|]; [|done]. cbn [mbind option_bind] in *.
  destruct (skip_char 46 f4) as [[dt f5]|]; [|done]. cbn [mbind option_bind] in *.
  destruct (if dt : bool then _ else _) as [[pr f6]|]; [|done]. cbn [mbind option_bind] in *.
  destruct (skip_char 108 f6) as [[l1 f7]|]; [|done]. cbn [mbind option_bind] in *.
  destruct (if l1 : bool then _ else _) as [[l2 f8]|]; [|done]. cbn [mbind option_bind] in *. by simplify_eq.
Qed.

Lemma printf_loop_total n : forall format args, fits n format (map kind_of args) = true -> Forall terminated args ->
  exists out, printf_loop n format args = Some out.
Proof.
  induction n as [|n IH]; intros format args Hf Ha; [done|]. cbn [fits printf_loop] in *. destruct format as [|c format]; [done|].
  destruct (c =? 0); [by eexists|]. destruct (negb (c =? 37)).
  { destruct (IH _ _ Hf Ha) as [out ->]. by eexists. }
  destruct (fmt_flags format []) as [[[[f ll] format'] args']|] eqn:Ef; [|done]. rewrite (fmt_flags_args _ _ _ _ _ Ef). cbn [mbind option_bind].
  destruct format' as [|c' format']; [done|]. destruct (c' =? 0); [done|]. destruct (c' =? 37).
  { destruct (IH _ _ Hf Ha) as [out ->]. by eexists. }
  destruct (takes c') as [k|] eqn:Et.
  - destruct args as [|w args]; [done|]. cbn [map] in Hf. apply andb_prop in Hf as [Hf Hr]. apply andb_prop in Hf as [Hk Hw].
    apply bool_decide_eq_true in Hk. apply Forall_cons in Ha as [Hw' Ha]. subst k.
    destruct (conversion_total f ll c' w args Et Hw Hw') as [out ->]. cbn [mbind option_bind].
    destruct (IH _ _ Hr Ha) as [rest ->]. by eexists.
  - unfold takes in Et. unfold conversion. destruct (IH _ _ Hf Ha) as [rest Er].
    zcase; try done; cbn [mbind option_bind]; rewrite Er; by eexists.
Qed.

(** C34: [printf] prints for every call whose format fits the kinds of its arguments, with
    any numbers and any terminated strings: the conversions of all 32-bit numbers, INT_MIN
    included, stay in their buffers, and the format is read to its end and not further.  A
    format fits if every conversion finds an argument of its kind, the width of %X and %p is
    at most 31 (a larger one overruns the buffer), no width is given by a star, and no
    percent sign stands directly in front of the end. *)
Theorem printf_safe (format : buf) (args : list va_word) :
  fits (S (length format)) format (map kind_of args) = true -> Forall terminated args ->
  exists out, printf format args = Some out.
Proof. apply printf_loop_total. Qed.

Lemma printf_safe_witness : exists out, printf (lit "%-12p|%5d %s%%") [VInt 48879; VInt (- 2 ^ 31); VStr (Some (lit "abc"))] = Some out.
Proof. apply printf_safe; [reflexivity|repeat constructor; by eexists]. Defined.

(** ** Messages with a string *)

Lemma printf_plain pre : Forall (fun c => c <> 0 /\ c <> 37) pre -> forall fuel q args, printf_loop (length pre + fuel) (pre ++ q) args = (fun t => pre ++ t) <$> printf_loop fuel q args.
Proof.
  induction 1 as [|c pre [H0 H37] _ IH]; intros fuel q args; cbn [app length Nat.add printf_loop]; [by destruct (printf_loop fuel q args)|].
  destruct (Z.eqb_spec c 0); [done|]. destruct (Z.eqb_spec c 37); [done|]. cbn [negb]. rewrite IH. by destruct (printf_loop fuel q args).
Qed.

(** A format with one [%s]. *)
Lemma printf_string pre post w r : Forall (fun c => c <> 0 /\ c <> 37) pre -> Forall (fun c => c <> 0 /\ c <> 37) post -> nonul w ->
  printf (pre ++ 37 :: 115 :: post ++ [0]) [VStr (Some (w ++ 0 :: r))] = Some (pre ++ w ++ post).
Proof.
  intros Hpre Hpost Hw. unfold printf. replace (S (length (pre ++ 37 :: 115 :: post ++ [0]))) with (length pre + (S (length post + 3)))%nat by (rewrite length_app; cbn; rewrite length_app; cbn; lia).
  rewrite printf_plain by done. set (args := [VStr _]). cbn [printf_loop]. change (37 =? 0) with false. change (negb (37 =? 37)) with false. cbv iota.
  assert (fmt_flags (115 :: post ++ [0]) args = Some (Mk_flags false false false 0 (-1), false, 115 :: post ++ [0], args)) as -> by reflexivity.
  cbn [mbind option_bind]. change (115 =? 37) with false. cbv iota. unfold conversion. change (115 =? 99) with false. change (115 =? 115) with true. cbv iota.
  unfold conv_s, args, va_str. cbn [mbind option_bind]. rewrite chars_ok by done. cbn [mbind option_bind precision]. change (0 <=? -1) with false. cbn [andb]. rewrite Nat2Z.id, firstn_all.
  rewrite printf_plain by done. cbn [printf_loop fmap option_fmap option_map Z.eqb mbind option_bind Nat.add]. unfold padded. cbn [left_align zero_padding width_specified width andb pad_out Z.to_nat replicate app].
  by rewrite !app_nil_r.
Qed.
