(* ===== verification/Spinlock.v ===== *)
(** include/lib/spinlock.h with irq_save/irq_restore of arch/x86/include/interrupt.h.

    [irq_lock] is what one processor sees of a lock taken with
    [spinlock_acquire_irq]; it is the view used by the sequential models of the
    lock's clients.  [cpu_step] interleaves the processors of a multiprocessor at
    the granularity of the atomic exchange, which the mutual-exclusion theorem is
    about. *)

From S2P Require Import Prelude.

(** ** The lock as one processor uses it *)

Record irq_lock := Mk_irq_lock { lk : Z; if_flag : bool }.

(** [__sync_lock_test_and_set(&lock->lock, 1)]: old value and new lock word. *)
Definition test_and_set (lock : Z) : Z * Z := (lock, 1).

Definition spinlock_init (s : irq_lock) : irq_lock := Mk_irq_lock 0 (if_flag s).

Definition spinlock_trylock (s : irq_lock) : Z * irq_lock :=
  let '(old, new) := test_and_set (lk s) in
  (b2z (old =? 0), Mk_irq_lock new (if_flag s)).

Definition spinlock_is_locked (s : irq_lock) : Z := b2z (negb (lk s =? 0)).

(** [None]: the lock is held, and with interrupts off on this processor the
    acquisition spins for as long as no other processor releases it. *)
Definition spinlock_acquire_irq (s : irq_lock) : option (bool * irq_lock) :=
  let flags := if_flag s in
  let '(old, new) := test_and_set (lk s) in
  if old =? 0 then Some (flags, Mk_irq_lock new false) else None.

Definition spinlock_release_irq (s : irq_lock) (flags : bool) : irq_lock :=
  Mk_irq_lock 0 flags.

(** A processor that owns nothing and sees the lock free. *)
Definition unlocked (s : irq_lock) : Prop := lk s = 0.

Lemma acquire_release s :
  unlocked s ->
  exists s1, spinlock_acquire_irq s = Some (if_flag s, s1) /\
    lk s1 = 1 /\ if_flag s1 = false /\ spinlock_release_irq s1 (if_flag s) = s.
Proof.
  destruct s as [l f]. intros Hu. unfold unlocked in Hu. simpl in Hu. subst l.
  exists (Mk_irq_lock 1 false). done.
Qed.

(** ** Interleaved processors *)

(** Where a processor is: outside, spinning in [spinlock_acquire], inside the
    critical section, or between [spinlock_release] and [irq_restore].  The
    argument is the flags word returned by [irq_save]. *)
Inductive pc := Outside | Spinning (flags : bool) | Inside (flags : bool) | Restoring (flags : bool).

#[global] Instance pc_eq_dec : EqDecision pc.
Proof. solve_decision. Defined.

Record smp := Mk_smp { lock_word : Z; cpus : list (pc * bool) (* position, interrupt flag *) }.

Inductive cpu_step : smp -> smp -> Prop :=
  | step_irq_save l cs i f :
      cs !! i = Some (Outside, f) ->
      cpu_step (Mk_smp l cs) (Mk_smp l (<[i := (Spinning f, false)]> cs))
  | step_spin l cs i fl f :
      cs !! i = Some (Spinning fl, f) -> fst (test_and_set l) <> 0 ->
      cpu_step (Mk_smp l cs) (Mk_smp (snd (test_and_set l)) cs)
  | step_acquired l cs i fl f :
      cs !! i = Some (Spinning fl, f) -> fst (test_and_set l) = 0 ->
      cpu_step (Mk_smp l cs) (Mk_smp (snd (test_and_set l)) (<[i := (Inside fl, f)]> cs))
  | step_release l cs i fl f :
      cs !! i = Some (Inside fl, f) ->
      cpu_step (Mk_smp l cs) (Mk_smp 0 (<[i := (Restoring fl, f)]> cs))
  | step_irq_restore l cs i fl f :
      cs !! i = Some (Restoring fl, f) ->
      cpu_step (Mk_smp l cs) (Mk_smp l (<[i := (Outside, fl)]> cs)).

(** [n] processors with interrupts enabled, the lock statically initialized. *)
Definition smp_init (n : nat) : smp := Mk_smp 0 (replicate n (Outside, true)).

Definition inside (c : pc * bool) : bool := match fst c with Inside _ => true | _ => false end.

(** The lock word is 1 exactly while one processor is inside, and a processor
    that is not outside runs with interrupts disabled. *)
Definition smp_inv (s : smp) : Prop :=
  (lock_word s = 0 \/ lock_word s = 1) /\
  (forall i c, cpus s !! i = Some c -> inside c = true -> lock_word s = 1) /\
  (forall i j c d, cpus s !! i = Some c -> cpus s !! j = Some d ->
     inside c = true -> inside d = true -> i = j) /\
  (forall i p f, cpus s !! i = Some (p, f) -> p <> Outside -> f = false).

(** Reading a processor after an update of processor [i]. *)
Lemma lookup_cpu_insert (cs : list (pc * bool)) i j (c c0 d : pc * bool) :
  cs !! i = Some c0 -> <[i := c]> cs !! j = Some d ->
  (j = i /\ d = c) \/ (j <> i /\ cs !! j = Some d).
Proof.
  intros Hi Hj. destruct (decide (i = j)) as [->|Hne].
  - rewrite list_lookup_insert_eq in Hj by (eapply lookup_lt_Some; eauto).
    left. split; congruence.
  - rewrite list_lookup_insert_ne in Hj by done. by right.
Qed.

Lemma smp_inv_step s s' : smp_inv s -> cpu_step s s' -> smp_inv s'.
Proof.
  intros (Hw & Hin & Hone & Hif) Hstep.
  destruct Hstep as [l cs i f Hi|l cs i fl f Hi Hl|l cs i fl f Hi Hl|l cs i fl f Hi|l cs i fl f Hi];
    unfold smp_inv in *; simpl in *.
  2: { split_and!; [by right|done|done|done]. }
  all: split_and!; try (by auto).
  all: repeat match goal with
       | |- _ \/ _ => lia
       | |- forall _, _ => intros
       | H : <[_ := _]> _ !! _ = Some _ |- _ =>
           apply (lookup_cpu_insert _ _ _ _ _ _ Hi) in H as [[-> ?]|[? H]]
       end; simpl in *; simplify_eq; eauto; try done.
  all: exfalso; match goal with
       | H : _ !! _ = Some ?c, H1 : inside ?c = true |- _ =>
           first [pose proof (Hone _ _ _ _ H Hi H1 eq_refl); done
                 |specialize (Hin _ _ H H1); lia]
       end.
Qed.

Lemma smp_inv_init n : smp_inv (smp_init n).
Proof.
  unfold smp_inv, smp_init; simpl. split_and!; [by left|..];
    intros *; rewrite !lookup_replicate; intros; destruct_and?; by simplify_eq.
Qed.

Lemma smp_inv_reachable n s : rtc cpu_step (smp_init n) s -> smp_inv s.
Proof.
  revert s. apply (rtc_ind_r smp_inv (smp_init n) (R := cpu_step)); [apply smp_inv_init|].
  intros y z _ Hstep Hy. by apply (smp_inv_step y z).
Qed.

(** C37: on any number of processors, in every interleaving, two processors are
    never both between [spinlock_acquire_irq] and [spinlock_release_irq], and a
    processor in the critical section has its interrupts disabled. *)
Theorem spinlock_mutual_exclusion (n : nat) (s : smp) (i j : nat) (fi fj : bool) (gi gj : bool) :
  rtc cpu_step (smp_init n) s ->
  cpus s !! i = Some (Inside fi, gi) -> cpus s !! j = Some (Inside fj, gj) ->
  i = j /\ gi = false /\ lock_word s = 1.
Proof.
  intros Hr Hi Hj. destruct (smp_inv_reachable n s Hr) as (_ & Hin & Hone & Hif).
  split_and!; [by apply (Hone i j _ _ Hi Hj)|by apply (Hif i _ _ Hi)|by apply (Hin i _ Hi)].
Qed.

Lemma spinlock_mutual_exclusion_witness :
  0%nat = 0%nat /\ false = false /\
  lock_word (Mk_smp 1 [(Inside true, false); (Spinning true, false)]) = 1.
Proof.
  apply (spinlock_mutual_exclusion 2 (Mk_smp 1 [(Inside true, false); (Spinning true, false)])
           0 0 true true false false); [|reflexivity|reflexivity].
  eapply rtc_l; [apply (step_irq_save 0 [(Outside, true); (Outside, true)] 0 true); reflexivity|].
  eapply rtc_l; [apply (step_irq_save 0 [(Spinning true, false); (Outside, true)] 1 true); reflexivity|].
  eapply rtc_l; [apply (step_acquired 0 [(Spinning true, false); (Spinning true, false)] 0 true false);
                 reflexivity|].
  apply rtc_refl.
Defined.
