(* ===== verification/Kmalloc.v ===== *)
(** mm/kmalloc.c: the physical frame bitmap and the kernel heap.

    The block headers that the allocator keeps in front of each block are a
    finite map from header addresses to [memory_block] records (a header that
    is merged away stays in memory and hence in the map); [0] is the NULL
    pointer.  The bitmap that [initialize_memory_system] places at the start of
    the heap is the list of its bytes.  A pointer that does not address a header
    and an index outside the bitmap are undefined behaviour and yield [None], as
    does a walk that never ends.  Console output is not modelled.

    [tiles] is the abstract heap: the sizes and states of the blocks that tile
    the heap region; [ff_alloc] and [ff_free] specify allocation and release on
    it, and the refinement theorems relate the pointer code to them. *)

From S2P Require Import Prelude CStdlib Spinlock.

(** ** Constants and data *)

Definition HEAP_END : Z := 251658240. (* 0x0f000000 *)
Definition FRAME_SIZE : Z := 4096.
Definition BLOCK_SIZE : Z := 12. (* sizeof(memory_block): size, free, next *)

Definition ALIGN_UP (addr align : Z) : Z := Z.land (u32 (addr + (align - 1))) (unot 32 (align - 1)).

Record memory_block := Mk_block { mb_size : Z; mb_free : bool; mb_next : Z }.

#[global] Instance memory_block_eq_dec : EqDecision memory_block.
Proof. solve_decision. Defined.

Record kheap := Mk_kheap {
  blocks : gmap Z memory_block;   (* the headers in memory *)
  free_list : Z;
  frame_bitmap : buf;
  total_memory : Z;
  heap_lock : irq_lock
}.

Definition with_blocks (h : kheap) (m : gmap Z memory_block) : kheap :=
  Mk_kheap m (free_list h) (frame_bitmap h) (total_memory h) (heap_lock h).
Definition with_bitmap (h : kheap) (bm : buf) : kheap :=
  Mk_kheap (blocks h) (free_list h) bm (total_memory h) (heap_lock h).
Definition with_lock (h : kheap) (l : irq_lock) : kheap :=
  Mk_kheap (blocks h) (free_list h) (frame_bitmap h) (total_memory h) l.

(** ** Frames *)

Definition set_frame (bm : buf) (frame : Z) : option buf :=
  b ← rd bm (frame / 8); wr bm (frame / 8) (Z.lor b (Z.shiftl 1 (frame mod 8))).

Definition clear_frame (bm : buf) (frame : Z) : option buf :=
  b ← rd bm (frame / 8); wr bm (frame / 8) (Z.land b (Z.lnot (Z.shiftl 1 (frame mod 8)))).

Definition test_frame (bm : buf) (frame : Z) : option Z :=
  b ← rd bm (frame / 8); Some (Z.land b (Z.shiftl 1 (frame mod 8))).

(** The search loop of [allocate_frame], [n] frames from [i] on. *)
Fixpoint frame_scan (bm : buf) (i : Z) (n : nat) : option (Z * buf) :=
  match n with
  | O => Some (0, bm)
  | S n' =>
      used ← test_frame bm i;
      if used =? 0 then bm' ← set_frame bm i; Some (u32 (i * FRAME_SIZE), bm')
      else frame_scan bm (i + 1) n'
  end.

(** The frame's address, 0 when there is none. *)
Definition allocate_frame (h : kheap) : option (Z * kheap) :=
  let max_frames := total_memory h / FRAME_SIZE in
  '(addr, bm) ← frame_scan (frame_bitmap h) 1 (Z.to_nat (max_frames - 1));
  Some (addr, with_bitmap h bm).

Definition free_frame (h : kheap) (addr : Z) : option kheap :=
  bm ← clear_frame (frame_bitmap h) (addr / FRAME_SIZE); Some (with_bitmap h bm).

(** ** Initialization

    [kernel_end] is the address of the linker symbol [_kernel_end]. *)
Definition initialize_memory_system (kernel_end : Z) (h : kheap) : option kheap :=
  if total_memory h =? 0 then Some h else
  let heap_start := ALIGN_UP kernel_end 16 in
  let bitmap_size := ALIGN_UP ((total_memory h / FRAME_SIZE + 7) / 8) 16 in
  bm ← set_frame (replicate (Z.to_nat bitmap_size) 0) 0;
  let freelist_start := u32 (heap_start + bitmap_size) in
  let first := Mk_block (u32 (HEAP_END - freelist_start - BLOCK_SIZE)) true 0 in
  Some (Mk_kheap (<[freelist_start := first]> (blocks h)) freelist_start bm
                 (total_memory h) (heap_lock h)).

(** ** Allocation *)

(** The first-fit walk; 0 at the end of the list. *)
Fixpoint malloc_walk (fuel : nat) (m : gmap Z memory_block) (current size : Z) : option Z :=
  match fuel with
  | O => None
  | S fuel' =>
      if current =? 0 then Some 0 else
      b ← m !! current;
      if mb_free b && (size <=? mb_size b) then Some current
      else malloc_walk fuel' m (mb_next b) size
  end.

(** Marking a found block as used, splitting it if the rest can hold a header. *)
Definition malloc_take (m : gmap Z memory_block) (current size : Z)
  : option (gmap Z memory_block) :=
  b ← m !! current;
  if u32 (size + BLOCK_SIZE) <? mb_size b then
    let new_block := u32 (current + BLOCK_SIZE + size) in
    let rest := Mk_block (u32 (mb_size b - size - BLOCK_SIZE)) true (mb_next b) in
    Some (<[current := Mk_block size false new_block]> (<[new_block := rest]> m))
  else Some (<[current := Mk_block (mb_size b) false (mb_next b)]> m).

(** [while (last->next) last = last->next] *)
Fixpoint last_walk (fuel : nat) (m : gmap Z memory_block) (last : Z) : option Z :=
  match fuel with
  | O => None
  | S fuel' =>
      b ← m !! last;
      if mb_next b =? 0 then Some last else last_walk fuel' m (mb_next b)
  end.

(** Appending a fresh frame to the list. *)
Definition malloc_extend (m : gmap Z memory_block) (free_list frame : Z)
  : option (gmap Z memory_block) :=
  let m := <[frame := Mk_block (FRAME_SIZE - BLOCK_SIZE) true 0]> m in
  last ← last_walk (S (size m)) m free_list;
  b ← m !! last;
  Some (<[last := Mk_block (mb_size b) (mb_free b) frame]> m).

(** [fuel] bounds the recursive calls after an extension; a walk over a chain of
    distinct headers is shorter than the number of headers. *)
Fixpoint k_malloc (fuel : nat) (h : kheap) (sz : Z) : option (Z * kheap) :=
  match fuel with
  | O => None
  | S fuel' =>
      '(flags, lk1) ← spinlock_acquire_irq (heap_lock h);
      let release := spinlock_release_irq lk1 flags in
      current ← malloc_walk (S (size (blocks h))) (blocks h) (free_list h) sz;
      if negb (current =? 0) then
        m ← malloc_take (blocks h) current sz;
        Some (u32 (current + BLOCK_SIZE), with_lock (with_blocks h m) release)
      else
        '(new_heap_block, h1) ← allocate_frame (with_lock h lk1);
        if new_heap_block =? 0 then Some (0, with_lock h1 release) else
        m ← malloc_extend (blocks h1) (free_list h1) new_heap_block;
        k_malloc fuel' (with_lock (with_blocks h1 m) release) sz
  end.

(** ** Release *)

(** The search for the predecessor of [block], merging it when it is free. *)
Fixpoint free_walk (fuel : nat) (m : gmap Z memory_block) (current block : Z)
  : option (gmap Z memory_block) :=
  match fuel with
  | O => None
  | S fuel' =>
      if current =? 0 then Some m else
      c ← m !! current;
      if (mb_next c =? block) && mb_free c then
        b ← m !! block;
        Some (<[current := Mk_block (u32 (mb_size c + (mb_size b + BLOCK_SIZE))) true (mb_next b)]> m)
      else free_walk fuel' m (mb_next c) block
  end.

(** [block->free = 1] and the merge with a free successor. *)
Definition free_mark (m : gmap Z memory_block) (block : Z) : option (gmap Z memory_block) :=
  b ← m !! block;
  if mb_next b =? 0 then Some (<[block := Mk_block (mb_size b) true 0]> m) else
  n ← (<[block := Mk_block (mb_size b) true (mb_next b)]> m) !! mb_next b;
  if mb_free n
  then Some (<[block := Mk_block (u32 (mb_size b + (mb_size n + BLOCK_SIZE))) true (mb_next n)]> m)
  else Some (<[block := Mk_block (mb_size b) true (mb_next b)]> m).

Definition k_free (h : kheap) (ptr : Z) : option kheap :=
  if ptr =? 0 then Some h else
  '(flags, lk1) ← spinlock_acquire_irq (heap_lock h);
  let release := spinlock_release_irq lk1 flags in
  let block := u32 (ptr - BLOCK_SIZE) in
  b ← blocks h !! block;
  if mb_free b then Some (with_lock h release) (* double free: only reported *) else
  m ← free_mark (blocks h) block;
  m ← free_walk (S (size m)) m (free_list h) block;
  Some (with_lock (with_blocks h m) release).

(** ** Reallocation

    [mem] is the flat memory that holds the blocks' contents.  The source and the
    destination of the copy are different blocks; its effect is that of [memmove]
    ([memmove_correct] of CStdlib.v). *)
Definition mem_move (mem : Z -> Z) (dest src n : Z) : Z -> Z :=
  fun q => if (dest <=? q) && (q <? dest + n) then mem (src + (q - dest)) else mem q.

Definition k_realloc (fuel : nat) (h : kheap) (mem : Z -> Z) (ptr new_size : Z)
  : option (Z * kheap * (Z -> Z)) :=
  if ptr =? 0 then '(p, h1) ← k_malloc fuel h new_size; Some (p, h1, mem) else
  if new_size =? 0 then h1 ← k_free h ptr; Some (0, h1, mem) else
  b ← blocks h !! u32 (ptr - BLOCK_SIZE);
  let old_size := mb_size b in
  if new_size <=? old_size then Some (ptr, h, mem) else
  '(new_ptr, h1) ← k_malloc fuel h new_size;
  if new_ptr =? 0 then Some (0, h1, mem) else
  let copy_size := if old_size <? new_size then old_size else new_size in
  h2 ← k_free h1 ptr;
  Some (new_ptr, h2, mem_move mem new_ptr ptr copy_size).

(** ** The boot-time self tests of the heap *)

Definition test_realloc (fuel : nat) (h : kheap) (mem : Z -> Z) : option (bool * kheap * (Z -> Z)) :=
  '(ptr, h) ← k_malloc fuel h 10;
  if ptr =? 0 then Some (false, h, mem) else
  '(ptr, h, mem) ← k_realloc fuel h mem ptr 20;
  if ptr =? 0 then Some (false, h, mem) else
  '(ptr, h, mem) ← k_realloc fuel h mem ptr 5;
  if ptr =? 0 then Some (false, h, mem) else
  h ← k_free h ptr; Some (true, h, mem).

Definition test_reset_after_free (fuel : nat) (h : kheap) : option (bool * kheap) :=
  '(first_ptr, h) ← k_malloc fuel h 1;
  if first_ptr =? 0 then Some (false, h) else
  h ← k_free h first_ptr;
  '(second_ptr, h) ← k_malloc fuel h 1;
  Some (first_ptr =? second_ptr, h).

Definition test_multiple_frees (fuel : nat) (h : kheap) : option (bool * kheap) :=
  h ← k_free h 0;
  h ← k_free h 0;
  '(ptr, h) ← k_malloc fuel h 1;
  Some (negb (ptr =? 0), h).

(** * Abstract heap *)

(** A tile is a block: its size and whether it is free.  Tiles follow each other
    without gaps, each behind its header. *)
Abbreviation tile := (Z * bool)%type.

(** First fit: the new tiles and the offset of the header of the block taken. *)
Fixpoint ff_alloc (l : list tile) (size : Z) : option (list tile * Z) :=
  match l with
  | [] => None
  | (sz, fr) :: l' =>
      if fr && (size <=? sz) then
        Some (if size + BLOCK_SIZE <? sz
              then (size, false) :: (sz - size - BLOCK_SIZE, true) :: l'
              else (sz, false) :: l', 0)
      else '(l2, off) ← ff_alloc l' size; Some ((sz, fr) :: l2, off + (BLOCK_SIZE + sz))
  end.

(** Release of the used tile at offset [off], merged with a free successor. *)
Fixpoint ff_mark (l : list tile) (off : Z) : option (list tile) :=
  match l with
  | [] => None
  | (sz, fr) :: l' =>
      if off =? 0 then
        if fr then None else
        match l' with
        | (sz2, true) :: l2 => Some ((sz + (sz2 + BLOCK_SIZE), true) :: l2)
        | _ => Some ((sz, true) :: l')
        end
      else l2 ← ff_mark l' (off - (BLOCK_SIZE + sz)); Some ((sz, fr) :: l2)
  end.

(** Merge of the tile at offset [off] into a free predecessor. *)
Fixpoint ff_prev (l : list tile) (off : Z) : list tile :=
  match l with
  | [] => []
  | (sz, fr) :: l' =>
      match fr && (off =? BLOCK_SIZE + sz), l' with
      | true, (s2, _) :: l3 => (sz + (s2 + BLOCK_SIZE), true) :: l3
      | _, _ => (sz, fr) :: ff_prev l' (off - (BLOCK_SIZE + sz))
      end
  end.

Definition ff_free (l : list tile) (off : Z) : option (list tile) :=
  l1 ← ff_mark l off; Some (ff_prev l1 off).

(** The tile whose header is at offset [off]. *)
Fixpoint tile_at (l : list tile) (off : Z) : option tile :=
  match l with
  | [] => None
  | (sz, fr) :: l' => if off =? 0 then Some (sz, fr) else tile_at l' (off - (BLOCK_SIZE + sz))
  end.

Definition sizes_ok (l : list tile) : Prop := Forall (fun t => 0 <= fst t) l.

(** No two neighbouring tiles are free. *)
Definition head_free (l : list tile) : bool :=
  match l with (_, true) :: _ => true | _ => false end.

Fixpoint coalesced (l : list tile) : Prop :=
  match l with
  | [] => True
  | (_, fr) :: l' => (fr = true -> head_free l' = false) /\ coalesced l'
  end.

(** The headers in memory describe the tiles [l] from address [a] to the end of
    the heap, linked in address order. *)
Fixpoint tiling (m : gmap Z memory_block) (a : Z) (l : list tile) : Prop :=
  match l with
  | [] => a = HEAP_END
  | (sz, fr) :: l' =>
      0 <= sz /\
      m !! a = Some (Mk_block sz fr (match l' with [] => 0 | _ => a + (BLOCK_SIZE + sz) end)) /\
      tiling m (a + (BLOCK_SIZE + sz)) l'
  end.

(** The abstraction relation: heap state [h] represents the tiles [l]. *)
Definition heap_rep (h : kheap) (l : list tile) : Prop :=
  l <> [] /\ 0 < free_list h /\ tiling (blocks h) (free_list h) l /\
  coalesced l /\ unlocked (heap_lock h).

(** * Lemmas *)

Ltac hlia := unfold BLOCK_SIZE, HEAP_END, FRAME_SIZE in *; lia.

Lemma tiling_bound m a l : tiling m a l -> a <= HEAP_END.
Proof.
  revert a. induction l as [|[sz fr] l IH]; intros a H; simpl in H; [lia|].
  destruct H as (H0 & _ & H). apply IH in H. unfold BLOCK_SIZE in H. lia.
Qed.

Lemma tiling_sizes m a l : tiling m a l -> sizes_ok l.
Proof.
  revert a. induction l as [|[sz fr] l IH]; intros a H; [constructor|].
  destruct H as (H0 & _ & H). constructor; [done|]. by eapply IH.
Qed.

(** Only the headers in the tiled range matter. *)
Lemma tiling_frame m m' a l :
  tiling m a l -> (forall x, a <= x < HEAP_END -> m' !! x = m !! x) -> tiling m' a l.
Proof.
  revert a. induction l as [|[sz fr] l IH]; intros a H Heq; [done|].
  destruct H as (H0 & Hm & H). pose proof (tiling_bound _ _ _ H) as Hb.
  split_and!; [done|rewrite Heq by hlia; done|]. apply IH; [done|]. intros x Hx. apply Heq. hlia.
Qed.

Fixpoint tile_addrs (a : Z) (l : list tile) : list Z :=
  match l with [] => [] | (sz, _) :: l' => a :: tile_addrs (a + (BLOCK_SIZE + sz)) l' end.

Lemma tile_addrs_ge m a l x : tiling m a l -> x ∈ tile_addrs a l -> a <= x.
Proof.
  revert a. induction l as [|[sz fr] l IH]; intros a H Hx; simpl in *; [by apply not_elem_of_nil in Hx|].
  destruct H as (H0 & _ & H). apply elem_of_cons in Hx as [->|Hx]; [lia|].
  apply IH in Hx; [|done]. unfold BLOCK_SIZE in *. lia.
Qed.

(** A walk over the tiles is shorter than the number of headers in memory. *)
Lemma tiling_length m a l : tiling m a l -> (length l <= size m)%nat.
Proof.
  intros H.
  assert (NoDup (tile_addrs a l) /\ Forall (fun x => x ∈ dom m) (tile_addrs a l)) as [Hnd Hin].
  { revert a H. induction l as [|[sz fr] l IH]; intros a H; [by split; constructor|].
    destruct H as (H0 & Hm & H). destruct (IH _ H) as [IH1 IH2].
    split; constructor; [|done| |done].
    - intros Hx. apply (tile_addrs_ge _ _ _ _ H) in Hx. unfold BLOCK_SIZE in *. lia.
    - apply elem_of_dom. eauto. }
  assert (length (tile_addrs a l) = length l) as <-.
  { clear. revert a. induction l as [|[sz fr] l IH]; intros a; simpl; auto. }
  rewrite <- size_dom. rewrite <- (size_list_to_set (C := gset Z)) by done.
  apply subseteq_size. intros x Hx. apply elem_of_list_to_set in Hx.
  rewrite Forall_forall in Hin. by apply Hin.
Qed.

Lemma ff_alloc_nonempty l size l' off : ff_alloc l size = Some (l', off) -> l' <> [].
Proof.
  destruct l as [|[sz fr] l]; simpl; [done|].
  destruct (fr && (size <=? sz)); [destruct (_ <? _); intros; by simplify_eq|].
  destruct (ff_alloc l size) as [[l2 o]|]; simpl; intros; by simplify_eq.
Qed.

Lemma ff_mark_nonempty l off l' : ff_mark l off = Some l' -> l' <> [].
Proof.
  destruct l as [|[sz fr] l]; simpl; [done|].
  destruct (off =? 0); [|destruct (ff_mark l _); simpl; intros; by simplify_eq].
  intros. repeat case_match; by simplify_eq.
Qed.

(** *** Allocation *)

Lemma malloc_walk_spec m a l size fuel :
  tiling m a l -> 0 < a -> (length l < fuel)%nat -> 
  malloc_walk fuel m (match l with [] => 0 | _ => a end) size =
    Some (match ff_alloc l size with Some (_, off) => a + off | None => 0 end).
Proof.
  revert a fuel. induction l as [|[sz fr] l IH]; intros a [|fuel] H Ha Hf; simpl in Hf; try lia; [done|].
  destruct H as (H0 & Hm & H). cbn [malloc_walk ff_alloc].
  destruct (Z.eqb_spec a 0); [lia|]. rewrite Hm. cbn [mbind option_bind mb_free mb_size mb_next].
  destruct (fr && (size <=? sz)); [f_equal; lia|].
  rewrite IH by (done || hlia). destruct (ff_alloc l size) as [[l2 o]|]; simpl; f_equal; lia.
Qed.

(** Taking the found block turns the tiles into those of [ff_alloc], and touches
    no header below it. *)
Lemma malloc_take_spec m a l size l' off :
  tiling m a l -> 0 < a -> 0 <= size -> ff_alloc l size = Some (l', off) ->
  0 <= off /\ exists m', malloc_take m (a + off) size = Some m' /\ tiling m' a l' /\
    forall x, x < a + off -> m' !! x = m !! x.
Proof.
  revert a l' off. induction l as [|[sz fr] l IH]; intros a l' off H Ha Hs Hff; [done|].
  destruct H as (H0 & Hm & H). pose proof (tiling_bound _ _ _ H) as Hb. cbn [ff_alloc] in Hff.
  destruct (fr && (size <=? sz)) eqn:Hfit.
  - apply andb_true_iff in Hfit as [-> Hle]. apply Z.leb_le in Hle.
    injection Hff as <- <-. split; [lia|]. rewrite Z.add_0_r. unfold malloc_take. rewrite Hm.
    cbn [mbind option_bind mb_free mb_size mb_next]. rewrite wrap_small by hlia.
    destruct (Z.ltb_spec (size + BLOCK_SIZE) sz).
    + rewrite (wrap_small 32 (a + BLOCK_SIZE + size)), wrap_small by hlia. eexists. split; [done|].
      split; [|intros x Hx; rewrite !lookup_insert_ne by hlia; done].
      cbn [tiling]. split_and!; [done|by rewrite lookup_insert_eq, Z.add_assoc|hlia| |].
      * rewrite lookup_insert_ne by hlia. rewrite Z.add_assoc, lookup_insert_eq.
        do 2 f_equal. destruct l; [done|]. hlia.
      * replace (a + (BLOCK_SIZE + size) + (BLOCK_SIZE + (sz - size - BLOCK_SIZE)))
          with (a + (BLOCK_SIZE + sz)) by lia.
        apply (tiling_frame m); [done|]. intros x Hx. rewrite !lookup_insert_ne by hlia. done.
    + eexists. split; [done|]. split; [|intros x Hx; rewrite !lookup_insert_ne by hlia; done].
      split_and!; [done|by rewrite lookup_insert_eq|].
      apply (tiling_frame m); [done|]. intros x Hx. rewrite !lookup_insert_ne by hlia. done.
  - destruct (ff_alloc l size) as [[l2 o]|] eqn:Hff2; [|done]. injection Hff as <- <-.
    destruct (IH (a + (BLOCK_SIZE + sz)) l2 o H ltac:(hlia) Hs eq_refl) as (Ho & m' & Ht & Htil & Hfr).
    split; [hlia|]. exists m'. replace (a + (o + (BLOCK_SIZE + sz))) with (a + (BLOCK_SIZE + sz) + o) by lia.
    split; [done|]. split; [|intros; apply Hfr; hlia].
    split_and!; [done| |done]. rewrite Hfr by hlia. rewrite Hm. do 2 f_equal.
    pose proof (ff_alloc_nonempty _ _ _ _ Hff2). destruct l; [done|]. by destruct l2.
Qed.

(** *** Release *)

Lemma free_mark_spec m a l off l' :
  tiling m a l -> 0 < a -> ff_mark l off = Some l' ->
  0 <= off /\ (exists b, m !! (a + off) = Some b /\ mb_free b = false) /\
  exists m', free_mark m (a + off) = Some m' /\ tiling m' a l' /\
    forall x, x < a + off -> m' !! x = m !! x.
Proof.
  revert a l' off. induction l as [|[sz fr] l IH]; intros a l' off H Ha Hff; [done|].
  destruct H as (H0 & Hm & H). pose proof (tiling_bound _ _ _ H) as Hb. cbn [ff_mark] in Hff.
  destruct (Z.eqb_spec off 0) as [->|Hoff].
  - destruct fr; [done|]. split; [lia|]. rewrite Z.add_0_r. split; [eauto|].
    unfold free_mark. rewrite Hm. cbn [mbind option_bind mb_next mb_size].
    destruct l as [|[sz2 fr2] l2].
    + injection Hff as <-. eexists. split; [done|]. split.
      * split_and!; [done|by rewrite lookup_insert_eq|done].
      * intros x Hx. by rewrite lookup_insert_ne by lia.
    + destruct (Z.eqb_spec (a + (BLOCK_SIZE + sz)) 0); [hlia|]. rewrite lookup_insert_ne by hlia.
      destruct H as (H2 & Hm2 & H). pose proof (tiling_bound _ _ _ H) as Hb2. rewrite Hm2.
      cbn [mbind option_bind mb_free mb_size mb_next]. destruct fr2; injection Hff as <-.
      * rewrite wrap_small by hlia. eexists. split; [done|].
        split; [|intros x Hx; by rewrite lookup_insert_ne by lia].
        split_and!; [hlia| |].
        -- rewrite lookup_insert_eq. do 2 f_equal. destruct l2; [done|]. hlia.
        -- replace (a + (BLOCK_SIZE + (sz + (sz2 + BLOCK_SIZE))))
             with (a + (BLOCK_SIZE + sz) + (BLOCK_SIZE + sz2)) by lia.
           apply (tiling_frame m); [done|]. intros x Hx. by rewrite lookup_insert_ne by hlia.
      * eexists. split; [done|]. split; [|intros x Hx; by rewrite lookup_insert_ne by lia].
        split_and!; [done|by rewrite lookup_insert_eq|].
        apply (tiling_frame m); [done|]. intros x Hx. by rewrite lookup_insert_ne by hlia.
  - destruct (ff_mark l (off - (BLOCK_SIZE + sz))) as [l2|] eqn:Hff2; [|done]. injection Hff as <-.
    destruct (IH (a + (BLOCK_SIZE + sz)) l2 _ H ltac:(hlia) Hff2) as (Ho & Hb' & m' & Ht & Htil & Hfr).
    replace (a + (BLOCK_SIZE + sz) + (off - (BLOCK_SIZE + sz))) with (a + off) in * by lia.
    split; [hlia|]. split; [done|]. exists m'. split; [done|]. split; [|done].
    split_and!; [done| |done]. rewrite Hfr by hlia. rewrite Hm. do 2 f_equal.
    pose proof (ff_mark_nonempty _ _ _ Hff2). destruct l; [done|]. by destruct l2.
Qed.

(** The predecessor search ends and performs the merge of [ff_prev]. *)
Lemma free_walk_spec m a l off fuel :
  tiling m a l -> 0 < a -> 0 < a + off -> (length l < fuel)%nat ->
  exists m', free_walk fuel m (match l with [] => 0 | _ => a end) (a + off) = Some m' /\
    tiling m' a (ff_prev l off) /\ forall x, x < a -> m' !! x = m !! x.
Proof.
  revert a off fuel.
  induction l as [|[sz fr] l IH]; intros a off [|fuel] H Ha Hoff Hf; simpl in Hf; try lia; [by exists m|].
  destruct H as (H0 & Hm & H). pose proof (tiling_bound _ _ _ H) as Hb.
  cbn [free_walk]. destruct (Z.eqb_spec a 0); [lia|]. rewrite Hm.
  cbn [mbind option_bind mb_free mb_size mb_next ff_prev].
  destruct (IH (a + (BLOCK_SIZE + sz)) (off - (BLOCK_SIZE + sz)) fuel H ltac:(hlia) ltac:(hlia) ltac:(lia))
    as (m' & Hw & Htil & Hfr).
  replace (a + (BLOCK_SIZE + sz) + (off - (BLOCK_SIZE + sz))) with (a + off) in Hw by lia.
  assert (tiling m' a ((sz, fr) :: ff_prev l (off - (BLOCK_SIZE + sz)))) as Hstep.
  { split_and!; [done| |done]. rewrite Hfr by hlia. rewrite Hm. do 2 f_equal.
    destruct l as [|[s2 f2] l2]; [done|]. simpl. by repeat case_match. }
  assert (forall x, x < a -> m' !! x = m !! x) as Hlow by (intros; apply Hfr; hlia).
  destruct l as [|[s2 f2] l2].
  - destruct (Z.eqb_spec 0 (a + off)); [lia|]. cbn [andb]. exists m'.
    split; [done|]. split; [|done]. by destruct (fr && (off =? BLOCK_SIZE + sz)).
  - destruct (Z.eqb_spec (a + (BLOCK_SIZE + sz)) (a + off)) as [E|E].
    + rewrite (proj2 (Z.eqb_eq off (BLOCK_SIZE + sz))), andb_true_r by lia. cbn [andb].
      destruct fr; [|by exists m'].
      destruct H as (H2 & Hm2 & H). pose proof (tiling_bound _ _ _ H) as Hb2.
      rewrite <- E, Hm2. cbn [mbind option_bind mb_size mb_next]. rewrite wrap_small by hlia.
      eexists. split; [done|]. split; [|intros x Hx; by rewrite lookup_insert_ne by lia].
      split_and!; [hlia| |].
      * rewrite lookup_insert_eq. do 2 f_equal. destruct l2; [done|]. hlia.
      * replace (a + (BLOCK_SIZE + (sz + (s2 + BLOCK_SIZE))))
          with (a + (BLOCK_SIZE + sz) + (BLOCK_SIZE + s2)) by lia.
        apply (tiling_frame m); [done|]. intros x Hx. by rewrite lookup_insert_ne by hlia.
    + destruct (Z.eqb_spec off (BLOCK_SIZE + sz)); [lia|]. rewrite andb_false_r. cbn [andb].
      by exists m'.
Qed.

(** *** Facts about the abstract heap *)

Lemma ff_alloc_offset l size l' off :
  sizes_ok l -> ff_alloc l size = Some (l', off) ->
  0 <= off /\ (off = 0 -> head_free l = true) /\ head_free l' = head_free l && negb (off =? 0).
Proof.
  revert l' off. induction l as [|[sz fr] l IH]; intros l' off Hs Hff; [done|].
  apply Forall_cons in Hs as [H0 Hs]. simpl in H0. cbn [ff_alloc] in Hff.
  destruct (fr && (size <=? sz)) eqn:Hfit.
  - apply andb_true_iff in Hfit as [-> _]. injection Hff as <- <-.
    split; [lia|]. split; [done|]. by destruct (size + BLOCK_SIZE <? sz).
  - destruct (ff_alloc l size) as [[l2 o]|] eqn:E; [|done]. injection Hff as <- <-.
    destruct (IH l2 o Hs eq_refl) as (Ho & _). split; [hlia|]. split; [hlia|].
    destruct (Z.eqb_spec (o + (BLOCK_SIZE + sz)) 0); [hlia|]. by destruct fr.
Qed.

Lemma ff_alloc_coalesced l size l' off :
  sizes_ok l -> coalesced l -> ff_alloc l size = Some (l', off) -> coalesced l'.
Proof.
  revert l' off. induction l as [|[sz fr] l IH]; intros l' off Hs Hcc Hff; [done|destruct Hcc as [Hh Hc]].
  apply Forall_cons in Hs as [H0 Hs]. cbn [ff_alloc] in Hff.
  destruct (fr && (size <=? sz)) eqn:Hfit.
  - apply andb_true_iff in Hfit as [-> _]. injection Hff as <- _.
    destruct (size + BLOCK_SIZE <? sz); simpl; auto.
  - destruct (ff_alloc l size) as [[l2 o]|] eqn:E; [|done]. injection Hff as <- _.
    split; [|by eapply IH]. intros ->. destruct (ff_alloc_offset _ _ _ _ Hs E) as (_ & _ & ->).
    by rewrite Hh.
Qed.

Lemma ff_prev_nonpos l off : sizes_ok l -> off <= 0 -> ff_prev l off = l.
Proof.
  revert off. induction l as [|[sz fr] l IH]; intros off Hs Hoff; [done|].
  apply Forall_cons in Hs as [H0 Hs]. simpl in H0. cbn [ff_prev].
  destruct (Z.eqb_spec off (BLOCK_SIZE + sz)); [hlia|]. rewrite andb_false_r.
  rewrite IH by (done || hlia). done.
Qed.

Lemma ff_mark_sizes l off l' :
  sizes_ok l -> ff_mark l off = Some l' -> 0 <= off /\ sizes_ok l' /\ (off = 0 -> head_free l' = true).
Proof.
  revert off l'. induction l as [|[sz fr] l IH]; intros off l' Hs Hff; [done|].
  apply Forall_cons in Hs as [H0 Hs]. simpl in H0. cbn [ff_mark] in Hff.
  destruct (Z.eqb_spec off 0) as [->|Hne].
  - destruct fr; [done|]. split; [lia|]. destruct l as [|[s2 []] l2]; injection Hff as <-.
    + split; [by repeat constructor|done].
    + apply Forall_cons in Hs as [H2 Hs]. simpl in H2. split; [by constructor; [simpl; hlia|]|done].
    + split; [by constructor|done].
  - destruct (ff_mark l _) as [l2|] eqn:E; [|done]. injection Hff as <-.
    destruct (IH _ _ Hs E) as (Ho & Hs2 & _). split; [hlia|]. split; [by constructor|done].
Qed.

(** Releasing a tile keeps the heap coalesced. *)
Lemma ff_mark_prev_coalesced l off l' :
  sizes_ok l -> coalesced l -> ff_mark l off = Some l' ->
  coalesced (ff_prev l' off) /\ (head_free (ff_prev l' off) = true -> head_free l = true \/ off = 0).
Proof.
  revert off l'. induction l as [|[sz fr] l IH]; intros off l' Hs Hcc Hff; [done|destruct Hcc as [Hh Hc]].
  destruct (ff_mark_sizes _ _ _ Hs Hff) as (Hoff & Hs' & _).
  apply Forall_cons in Hs as [H0 Hs]. simpl in H0. cbn [ff_mark] in Hff.
  destruct (Z.eqb_spec off 0) as [->|Hne].
  - rewrite ff_prev_nonpos by done. destruct fr; [done|]. split; [|by right].
    destruct l as [|[s2 []] l2]; injection Hff as <-; simpl in *; naive_solver.
  - destruct (ff_mark l _) as [l2|] eqn:E; [|done]. injection Hff as <-.
    destruct (IH _ _ Hs Hc E) as (IHc & IHh). destruct (ff_mark_sizes _ _ _ Hs E) as (Ho & Hs2 & Hhd).
    cbn [ff_prev]. destruct (Z.eqb_spec off (BLOCK_SIZE + sz)) as [->|Hne2].
    + rewrite Z.sub_diag in *. rewrite ff_prev_nonpos in * by done. specialize (Hhd eq_refl).
      destruct l2 as [|[s2 []] l3]; try done. destruct fr; simpl in *; naive_solver.
    + rewrite andb_false_r. split; [|destruct fr; naive_solver].
      split; [|done]. intros ->. apply not_true_is_false. intros Hf.
      destruct (IHh Hf) as [|]; [|lia]. rewrite Hh in *; done.
Qed.

(** Allocating and releasing gives the same tiles back. *)
Lemma ff_alloc_free l size l' off :
  sizes_ok l -> coalesced l -> 0 <= size -> ff_alloc l size = Some (l', off) ->
  ff_free l' off = Some l.
Proof.
  unfold ff_free. revert l' off. induction l as [|[sz fr] l IH]; intros l' off Hs Hcc Hsz Hff; [done|destruct Hcc as [Hh Hc]].
  apply Forall_cons in Hs as Hs'. destruct Hs' as [H0 Hsl]. simpl in H0. cbn [ff_alloc] in Hff.
  destruct (fr && (size <=? sz)) eqn:Hfit.
  - apply andb_true_iff in Hfit as [-> _]. injection Hff as <- <-.
    assert (ff_prev ((sz, true) :: l) 0 = (sz, true) :: l) as Hid by by apply ff_prev_nonpos.
    destruct (size + BLOCK_SIZE <? sz); cbn [ff_mark Z.eqb mbind option_bind].
    + replace (size + (sz - size - BLOCK_SIZE + BLOCK_SIZE)) with sz by lia. by rewrite Hid.
    + specialize (Hh eq_refl). destruct l as [|[s2 []] l2]; try done; cbn [mbind option_bind]; by rewrite Hid.
  - destruct (ff_alloc l size) as [[l2 o]|] eqn:E; [|done]. injection Hff as <- <-.
    destruct (ff_alloc_offset _ _ _ _ Hsl E) as (Ho & Hz & _). cbn [ff_mark].
    destruct (Z.eqb_spec (o + (BLOCK_SIZE + sz)) 0); [hlia|].
    replace (o + (BLOCK_SIZE + sz) - (BLOCK_SIZE + sz)) with o by lia.
    specialize (IH l2 o Hsl Hc Hsz eq_refl).
    destruct (ff_mark l2 o) as [l1|]; [|done]. simpl in IH. injection IH as IH.
    cbn [mbind option_bind ff_prev]. rewrite Z.add_simpl_r, IH.
    destruct (Z.eqb_spec (o + (BLOCK_SIZE + sz)) (BLOCK_SIZE + sz)) as [E0|E0].
    + destruct fr; [|done]. rewrite Hh in Hz by done. by discriminate Hz; lia.
    + by rewrite andb_false_r.
Qed.

Lemma tile_at_nonneg l off t : sizes_ok l -> tile_at l off = Some t -> 0 <= off.
Proof.
  revert off. induction l as [|[sz fr] l IH]; intros off Hs Ht; [done|].
  apply Forall_cons in Hs as [H0 Hs]. simpl in H0. simpl in Ht.
  destruct (Z.eqb_spec off 0); [lia|]. specialize (IH _ Hs Ht). hlia.
Qed.

(** The block taken is large enough, was free, and no used block moves or
    overlaps it. *)
Lemma ff_alloc_disjoint l size l' off :
  sizes_ok l -> ff_alloc l size = Some (l', off) ->
  exists s1, tile_at l' off = Some (s1, false) /\ size <= s1 /\
    forall o s, tile_at l o = Some (s, false) ->
      tile_at l' o = Some (s, false) /\
      (o + (BLOCK_SIZE + s) <= off \/ off + (BLOCK_SIZE + s1) <= o).
Proof.
  revert l' off. induction l as [|[sz fr] l IH]; intros l' off Hs Hff; [done|].
  apply Forall_cons in Hs as [H0 Hs]. simpl in H0. cbn [ff_alloc] in Hff.
  destruct (fr && (size <=? sz)) eqn:Hfit.
  - apply andb_true_iff in Hfit as [-> Hle]. apply Z.leb_le in Hle. injection Hff as <- <-.
    destruct (Z.ltb_spec (size + BLOCK_SIZE) sz).
    + exists size. split; [done|]. split; [lia|]. intros o s Ho. simpl in *.
      destruct (Z.eqb_spec o 0); [done|].
      pose proof (tile_at_nonneg _ _ _ Hs Ho).
      destruct (Z.eqb_spec (o - (BLOCK_SIZE + size)) 0); [hlia|].
      replace (o - _ - _) with (o - (BLOCK_SIZE + sz)) by lia. split; [done|]. hlia.
    + exists sz. split; [done|]. split; [lia|]. intros o s Ho. simpl in *.
      destruct (Z.eqb_spec o 0); [done|]. split; [done|].
      pose proof (tile_at_nonneg _ _ _ Hs Ho). hlia.
  - destruct (ff_alloc l size) as [[l2 o2]|] eqn:E; [|done]. injection Hff as <- <-.
    destruct (IH l2 o2 Hs eq_refl) as (s1 & Hat & Hle & Hall).
    destruct (ff_alloc_offset _ _ _ _ Hs E) as (Ho2 & _).
    exists s1. simpl. destruct (Z.eqb_spec (o2 + (BLOCK_SIZE + sz)) 0); [hlia|].
    rewrite Z.add_simpl_r. split; [done|]. split; [done|]. intros o s Ho.
    destruct (Z.eqb_spec o 0) as [->|].
    + injection Ho as -> ->. split; [done|]. hlia.
    + destruct (Hall _ _ Ho) as [Hat' Hd]. split; [done|]. hlia.
Qed.

(** ** The code refines the abstract heap *)

Lemma heap_rep_walk h l size :
  heap_rep h l ->
  malloc_walk (S (base.size (blocks h))) (blocks h) (free_list h) size =
    Some (match ff_alloc l size with Some (_, off) => free_list h + off | None => 0 end).
Proof.
  intros (Hl & Hp & Ht & _). pose proof (tiling_length _ _ _ Ht).
  destruct l as [|t l]; [done|]. by apply (malloc_walk_spec _ _ (t :: l)); [done..|simpl in *; lia].
Qed.

Lemma tile_at_lookup m a l off sz fr :
  tiling m a l -> tile_at l off = Some (sz, fr) ->
  0 <= off /\ 0 <= sz /\ a + off + (BLOCK_SIZE + sz) <= HEAP_END /\
  exists nx, m !! (a + off) = Some (Mk_block sz fr nx).
Proof.
  intros Ht Hat. pose proof (tile_at_nonneg _ _ _ (tiling_sizes _ _ _ Ht) Hat).
  revert a off Ht Hat H. induction l as [|[s f] l IH]; intros a off Ht Hat Hoff; [done|].
  destruct Ht as (H0 & Hm & Ht). simpl in Hat. pose proof (tiling_bound _ _ _ Ht).
  destruct (Z.eqb_spec off 0) as [->|].
  - injection Hat as <- <-. rewrite Z.add_0_r. split_and!; [lia|lia|lia|eauto].
  - pose proof (tile_at_nonneg _ _ _ (tiling_sizes _ _ _ Ht) Hat) as Ho.
    destruct (IH _ _ Ht Hat Ho) as (_ & Hs & Hb & Hlk).
    replace (a + (BLOCK_SIZE + s) + (off - (BLOCK_SIZE + s))) with (a + off) in * by lia.
    split_and!; done.
Qed.

Lemma ff_mark_tile l off : is_Some (ff_mark l off) <-> exists sz, tile_at l off = Some (sz, false).
Proof.
  revert off. induction l as [|[s f] l IH]; intros off; simpl.
  - split; [intros [? H]; done|intros [? H]; done].
  - destruct (off =? 0).
    + destruct f; [split; [intros [? ?]; done|intros [? ?]; done]|].
      split; [eauto|]. intros _. repeat case_match; eauto.
    + rewrite <- IH. destruct (ff_mark l _); simpl; split; intros [? ?]; eauto; done.
Qed.

Lemma with_blocks_lock h m lk0 : lk0 = heap_lock h -> with_lock (with_blocks h m) lk0 = with_blocks h m.
Proof. by intros ->. Qed.

(** What [k_malloc] computes when first fit succeeds. *)
Lemma k_malloc_found fuel h l size l' off :
  heap_rep h l -> 0 <= size -> ff_alloc l size = Some (l', off) ->
  exists m', k_malloc (S fuel) h size = Some (free_list h + off + BLOCK_SIZE, with_blocks h m') /\
    tiling m' (free_list h) l' /\ heap_rep (with_blocks h m') l' /\ sizes_ok l.
Proof.
  intros Hrep Hs Hff. pose proof (heap_rep_walk h l size Hrep) as Hw. rewrite Hff in Hw.
  destruct Hrep as (Hl & Hp & Ht & Hc & Hu).
  destruct (acquire_release _ Hu) as (lk1 & Hacq & _ & _ & Hrel).
  pose proof (tiling_sizes _ _ _ Ht) as Hso.
  destruct (malloc_take_spec _ _ _ _ _ _ Ht Hp Hs Hff) as (Ho & m' & Htk & Ht' & _).
  destruct (ff_alloc_disjoint _ _ _ _ Hso Hff) as (s1 & Hat & _).
  destruct (tile_at_lookup _ _ _ _ _ _ Ht' Hat) as (_ & H0 & Hb & _).
  cbn [k_malloc]. rewrite Hacq. cbn [mbind option_bind]. rewrite Hw. cbn [mbind option_bind].
  destruct (Z.eqb_spec (free_list h + off) 0); [lia|]. cbn [negb]. rewrite Htk.
  cbn [mbind option_bind]. rewrite wrap_small by hlia. exists m'. rewrite with_blocks_lock by done.
  split_and!; [done|done| |done].
  split_and!; [by eapply ff_alloc_nonempty|done|done|by eapply ff_alloc_coalesced|done].
Qed.

(** What [k_free] computes on a header of the heap. *)
Lemma k_free_tile h l off sz fr :
  heap_rep h l -> tile_at l off = Some (sz, fr) ->
  if fr then k_free h (free_list h + off + BLOCK_SIZE) = Some h
  else exists l' m', ff_free l off = Some l' /\
         k_free h (free_list h + off + BLOCK_SIZE) = Some (with_blocks h m') /\
         heap_rep (with_blocks h m') l'.
Proof.
  intros (Hl & Hp & Ht & Hc & Hu) Hat.
  destruct (acquire_release _ Hu) as (lk1 & Hacq & _ & _ & Hrel).
  pose proof (tiling_sizes _ _ _ Ht) as Hso.
  destruct (tile_at_lookup _ _ _ _ _ _ Ht Hat) as (Ho & H0 & Hb & nx & Hlk).
  unfold k_free. destruct (Z.eqb_spec (free_list h + off + BLOCK_SIZE) 0); [hlia|].
  rewrite Hacq. cbn [mbind option_bind]. rewrite wrap_small by hlia.
  replace (free_list h + off + BLOCK_SIZE - BLOCK_SIZE) with (free_list h + off) by lia.
  rewrite Hlk, Hrel. cbn [mbind option_bind mb_free]. destruct fr; [by destruct h|].
  destruct (proj2 (ff_mark_tile l off) ltac:(eauto)) as [l1 Hmk].
  destruct (free_mark_spec _ _ _ _ _ Ht Hp Hmk) as (_ & _ & m1 & Hfm & Ht1 & _).
  pose proof (tiling_length _ _ _ Ht1) as Hlen. pose proof (ff_mark_nonempty _ _ _ Hmk) as Hne.
  destruct (free_walk_spec m1 (free_list h) l1 off (S (base.size m1)) Ht1 Hp ltac:(lia) ltac:(lia))
    as (m2 & Hfw & Ht2 & _).
  destruct l1 as [|t1 l1]; [done|]. rewrite Hfm. cbn [mbind option_bind]. rewrite Hfw.
  cbn [mbind option_bind]. exists (ff_prev (t1 :: l1) off), m2. unfold ff_free. rewrite Hmk.
  split_and!; [done|by rewrite with_blocks_lock|].
  split_and!; [|done|done|by eapply ff_mark_prev_coalesced|done].
  simpl. destruct t1 as [s1 f1]. by repeat case_match.
Qed.

(** C1: [k_malloc] implements first-fit allocation: whenever first fit finds a
    block in the abstract heap, [k_malloc] returns the address behind that block's
    header, the heap afterwards represents the abstract result (the block split
    if the rest can hold a header), still tiles the heap region without gaps and
    without two neighbouring free blocks, and the lock is released with the
    caller's interrupt flag. *)
Theorem k_malloc_refines (fuel : nat) (h : kheap) (l l' : list tile) (size off : Z) :
  heap_rep h l -> 0 <= size -> ff_alloc l size = Some (l', off) ->
  exists h', k_malloc (S fuel) h size = Some (free_list h + off + BLOCK_SIZE, h') /\
    heap_rep h' l' /\ free_list h' = free_list h /\ heap_lock h' = heap_lock h /\
    frame_bitmap h' = frame_bitmap h.
Proof.
  intros Hrep Hs Hff. destruct (k_malloc_found fuel _ _ _ _ _ Hrep Hs Hff) as (m' & Hk & _ & Hrep' & _).
  by exists (with_blocks h m').
Qed.

(** What first fit promises to the callers of [k_malloc]: the block returned
    is at least as large as requested, it lies inside the heap region, and it
    overlaps no block that was in use; every block in use keeps its place, its
    size and its header. *)
Theorem k_malloc_safe (fuel : nat) (h h' : kheap) (l l' : list tile) (size off p : Z) :
  heap_rep h l -> 0 <= size -> ff_alloc l size = Some (l', off) ->
  k_malloc (S fuel) h size = Some (p, h') ->
  exists s1 nx, blocks h' !! (p - BLOCK_SIZE) = Some (Mk_block s1 false nx) /\
    size <= s1 /\ free_list h + BLOCK_SIZE <= p /\ p + s1 <= HEAP_END /\
    forall o s, tile_at l o = Some (s, false) ->
      (exists nx', blocks h' !! (free_list h + o) = Some (Mk_block s false nx')) /\
      let q := free_list h + o + BLOCK_SIZE in q + s <= p - BLOCK_SIZE \/ p + s1 <= q - BLOCK_SIZE.
Proof.
  intros Hrep Hs Hff Hk.
  destruct (k_malloc_found fuel _ _ _ _ _ Hrep Hs Hff) as (m' & Hk' & Ht' & _ & Hso).
  rewrite Hk in Hk'. injection Hk' as -> ->.
  destruct (ff_alloc_disjoint _ _ _ _ Hso Hff) as (s1 & Hat & Hle & Hall).
  destruct (tile_at_lookup _ _ _ _ _ _ Ht' Hat) as (_ & H0 & Hb & nx & Hnx). exists s1, nx.
  replace (free_list h + off + BLOCK_SIZE - BLOCK_SIZE) with (free_list h + off) by lia.
  destruct (ff_alloc_offset _ _ _ _ Hso Hff) as [Ho _].
  split_and!; [done|done|lia|lia|]. intros o s Hat0. destruct (Hall _ _ Hat0) as [Hat1 Hd].
  destruct (tile_at_lookup _ _ _ _ _ _ Ht' Hat1) as (_ & _ & _ & Hlk). split; [done|]. lia.
Qed.

(** C2: [k_free] of a block in use implements the abstract release: the block
    becomes free and is merged with a free successor and a free predecessor, and
    the heap stays tiled and coalesced; a second [k_free] of a block that is
    already free, and [k_free] of NULL, leave the whole heap state unchanged. *)
Theorem k_free_refines (h : kheap) (l : list tile) (off : Z) (t : tile) :
  heap_rep h l -> tile_at l off = Some t ->
  k_free h 0 = Some h /\
  if snd t then k_free h (free_list h + off + BLOCK_SIZE) = Some h
  else exists l' h', ff_free l off = Some l' /\
         k_free h (free_list h + off + BLOCK_SIZE) = Some h' /\
         heap_rep h' l' /\ free_list h' = free_list h /\ heap_lock h' = heap_lock h.
Proof.
  intros Hrep Hat. destruct t as [sz fr]. split; [done|].
  pose proof (k_free_tile _ _ _ _ _ Hrep Hat) as Hk. simpl. destruct fr; [done|].
  destruct Hk as (l' & m' & ? & ? & ?). by exists l', (with_blocks h m').
Qed.

(** Releasing a block just allocated restores the abstract heap exactly: the
    splits [k_malloc] made are undone by the merges of [k_free]. *)
Theorem k_malloc_free_roundtrip (fuel : nat) (h h1 : kheap) (l l' : list tile) (size off p : Z) :
  heap_rep h l -> 0 <= size -> ff_alloc l size = Some (l', off) ->
  k_malloc (S fuel) h size = Some (p, h1) ->
  exists h2, k_free h1 p = Some h2 /\ heap_rep h2 l /\ free_list h2 = free_list h /\
    heap_lock h2 = heap_lock h.
Proof.
  intros Hrep Hs Hff Hk.
  destruct (k_malloc_found fuel _ _ _ _ _ Hrep Hs Hff) as (m' & Hk' & Ht' & Hrep' & Hso).
  rewrite Hk in Hk'. injection Hk' as -> ->.
  destruct (ff_alloc_disjoint _ _ _ _ Hso Hff) as (s1 & Hat & _).
  destruct (k_free_tile _ _ _ _ _ Hrep' Hat) as (l2 & m2 & Hf & Hk2 & Hrep2).
  rewrite (ff_alloc_free l size l' off Hso ltac:(apply Hrep) Hs Hff) in Hf. injection Hf as <-.
  by exists (with_blocks (with_blocks h m') m2).
Qed.

(** A growing reallocation, and one that fits. *)
Lemma k_realloc_grow fuel h l mem off old size l' off' :
  heap_rep h l -> tile_at l off = Some (old, false) -> ff_alloc l size = Some (l', off') -> old < size ->
  exists m' m2 l2,
    k_realloc (S fuel) h mem (free_list h + off + BLOCK_SIZE) size =
      Some (free_list h + off' + BLOCK_SIZE, with_blocks (with_blocks h m') m2,
            mem_move mem (free_list h + off' + BLOCK_SIZE) (free_list h + off + BLOCK_SIZE) old) /\
    ff_free l' off = Some l2 /\ heap_rep (with_blocks (with_blocks h m') m2) l2.
Proof.
  intros Hrep Hat Hff Hs. set (p := free_list h + off + BLOCK_SIZE). pose proof Hrep as (_ & Hp & Ht & _).
  destruct (tile_at_lookup _ _ _ _ _ _ Ht Hat) as (Ho1 & H0 & Hb & nx & Hlk).
  assert (0 <= size) as Hs0 by lia.
  destruct (k_malloc_found fuel _ _ _ _ _ Hrep Hs0 Hff) as (m' & Hk & Ht' & Hrep' & Hso).
  destruct (ff_alloc_disjoint _ _ _ _ Hso Hff) as (s1 & Hat1 & Hle & Hall).
  destruct (Hall _ _ Hat) as [Hat' _]. destruct (ff_alloc_offset _ _ _ _ Hso Hff) as [Ho _].
  destruct (k_free_tile _ _ _ _ _ Hrep' Hat') as (l2 & m2 & Hf & Hk2 & Hrep2).
  exists m', m2, l2. split; [|done]. unfold k_realloc.
  destruct (Z.eqb_spec p 0) as [E|_]; [unfold p in E; hlia|].
  destruct (Z.eqb_spec size 0); [lia|]. rewrite wrap_small by (unfold p; hlia).
  replace (p - BLOCK_SIZE) with (free_list h + off) by (unfold p; lia). rewrite Hlk.
  cbn [mbind option_bind mb_size]. destruct (Z.leb_spec size old); [lia|].
  rewrite Hk. cbn [mbind option_bind]. destruct (Z.eqb_spec (free_list h + off' + BLOCK_SIZE) 0); [hlia|].
  simpl free_list in Hk2. fold p in Hk2. rewrite Hk2. cbn [mbind option_bind].
  by destruct (Z.ltb_spec old size); [|lia].
Qed.

Lemma k_realloc_fits fuel h l mem off old size :
  heap_rep h l -> tile_at l off = Some (old, false) -> 0 < size <= old ->
  let p := free_list h + off + BLOCK_SIZE in k_realloc fuel h mem p size = Some (p, h, mem).
Proof.
  intros (_ & Hp & Ht & _) Hat Hs p. unfold k_realloc.
  destruct (tile_at_lookup _ _ _ _ _ _ Ht Hat) as (Ho1 & H0 & Hb & nx & Hlk).
  destruct (Z.eqb_spec p 0) as [E|_]; [unfold p in E; hlia|].
  destruct (Z.eqb_spec size 0); [lia|]. rewrite wrap_small by (unfold p; hlia).
  replace (p - BLOCK_SIZE) with (free_list h + off) by (unfold p; lia). rewrite Hlk.
  cbn [mbind option_bind mb_size]. by destruct (Z.leb_spec size old); [|lia].
Qed.

(** [k_realloc] of a block in use that has to grow moves it: the new block
    holds the old contents, the old block is released, and no byte outside the
    new block changes; a request that fits, and a request for zero bytes, return
    the same pointer and NULL as documented. *)
Theorem k_realloc_moves (fuel : nat) (h : kheap) (l l' : list tile) (mem : Z -> Z)
    (off old size off' : Z) :
  heap_rep h l -> tile_at l off = Some (old, false) -> ff_alloc l size = Some (l', off') ->
  0 < size ->
  let p := free_list h + off + BLOCK_SIZE in
  if size <=? old then k_realloc (S fuel) h mem p size = Some (p, h, mem)
  else exists h' l2 mem', 
    k_realloc (S fuel) h mem p size = Some (free_list h + off' + BLOCK_SIZE, h', mem') /\
    ff_free l' off = Some l2 /\ heap_rep h' l2 /\ heap_lock h' = heap_lock h /\
    (forall i, 0 <= i < old -> mem' (free_list h + off' + BLOCK_SIZE + i) = mem (p + i)) /\
    (forall q, q < free_list h + off' + BLOCK_SIZE \/ free_list h + off' + BLOCK_SIZE + size <= q ->
       mem' q = mem q).
Proof.
  intros Hrep Hat Hff Hs p. destruct (Z.leb_spec size old); [by apply (k_realloc_fits _ h l mem off old)|].
  destruct (k_realloc_grow fuel h l mem off old size l' off' Hrep Hat Hff) as (m' & m2 & l2 & Hk & Hf & Hrep2);
    [done|]. eexists _, l2, _. split; [apply Hk|]. split_and!; [done|done|done| |]; unfold mem_move.
  - intros i Hi. zcase. f_equal. unfold p. lia.
  - intros q Hq. by zcase.
Qed.

(** ** Frames *)

Definition frame_used (bm : buf) (i : Z) : bool := Z.testbit (default 0 (rd bm (i / 8))) (i mod 8).

Lemma frame_byte bm i :
  bytes_ok bm -> 0 <= i < 8 * blen bm -> exists b, rd bm (i / 8) = Some b /\ 0 <= b < 2 ^ 8.
Proof.
  intros Hok Hi. unfold rd, blen in *. destruct (Z.ltb_spec (i / 8) 0); [zlia|].
  destruct (lookup_lt_is_Some_2 bm (Z.to_nat (i / 8))) as [b Hb]; [zlia|].
  exists b. split; [done|]. eapply (Forall_lookup_1 _ _ _ _ Hok) in Hb. done.
Qed.

(** Replacing the byte of frame [i] by one with the bits [f]. *)
Lemma frame_update bm i v (f : Z -> bool) :
  bytes_ok bm -> 0 <= i < 8 * blen bm ->
  (forall k, 0 <= k < 8 -> Z.testbit v k = f k) ->
  exists bm', wr bm (i / 8) v = Some bm' /\ bytes_ok bm' /\ length bm' = length bm /\
    forall j, 0 <= j -> frame_used bm' j = if j / 8 =? i / 8 then f (j mod 8) else frame_used bm j.
Proof.
  intros Hok Hi Hv. unfold wr, blen in *. exists (<[Z.to_nat (i / 8) := u8 v]> bm).
  destruct (Z.leb_spec 0 (i / 8)), (Z.ltb_spec (i / 8) (Z.of_nat (length bm))); try zlia.
  split; [done|]. pose proof (wrap_range 8 v ltac:(lia)).
  split; [apply Forall_insert; [done|unfold byte_ok; lia]|]. split; [apply length_insert|].
  intros j Hj. unfold frame_used, rd. destruct (Z.ltb_spec (j / 8) 0); [zlia|].
  destruct (Z.eqb_spec (j / 8) (i / 8)) as [->|Hne].
  - rewrite list_lookup_insert_eq by lia. simpl. unfold wrap. rewrite Z.mod_pow2_bits_low by zlia.
    apply Hv. zlia.
  - rewrite list_lookup_insert_ne; [done|]. lia.
Qed.

Lemma frame_eqb i j : 0 <= i -> 0 <= j -> (j =? i) = (j / 8 =? i / 8) && (j mod 8 =? i mod 8).
Proof. intros. zcase; zlia. Qed.

Lemma set_frame_spec bm i :
  bytes_ok bm -> 0 <= i < 8 * blen bm ->
  exists bm', set_frame bm i = Some bm' /\ bytes_ok bm' /\ length bm' = length bm /\
    forall j, 0 <= j -> frame_used bm' j = (j =? i) || frame_used bm j.
Proof.
  intros Hok Hi. destruct (frame_byte bm i Hok Hi) as (b & Hb & Hr). unfold set_frame. rewrite Hb.
  destruct (frame_update bm i (Z.lor b (Z.shiftl 1 (i mod 8))) (fun k => (k =? i mod 8) || Z.testbit b k) Hok Hi)
    as (bm' & Hw & Hok' & Hlen & Hj).
  { intros k Hk. rewrite Z.lor_spec, Z.shiftl_1_l, Z.pow2_bits_eqb, orb_comm by zlia.
    f_equal. zcase; lia. }
  exists bm'. split_and!; [done..|]. intros j Hj0. rewrite Hj, (frame_eqb i j) by lia.
  destruct (Z.eqb_spec (j / 8) (i / 8)) as [E|]; [|done]. unfold frame_used. by rewrite E, Hb.
Qed.

Lemma clear_frame_spec bm i :
  bytes_ok bm -> 0 <= i < 8 * blen bm ->
  exists bm', clear_frame bm i = Some bm' /\ bytes_ok bm' /\ length bm' = length bm /\
    forall j, 0 <= j -> frame_used bm' j = negb (j =? i) && frame_used bm j.
Proof.
  intros Hok Hi. destruct (frame_byte bm i Hok Hi) as (b & Hb & Hr). unfold clear_frame. rewrite Hb.
  destruct (frame_update bm i (Z.land b (Z.lnot (Z.shiftl 1 (i mod 8))))
              (fun k => negb (k =? i mod 8) && Z.testbit b k) Hok Hi) as (bm' & Hw & Hok' & Hlen & Hj).
  { intros k Hk. rewrite Z.land_spec, Z.lnot_spec, Z.shiftl_1_l, Z.pow2_bits_eqb, andb_comm by zlia.
    do 2 f_equal. zcase; lia. }
  exists bm'. split_and!; [done..|]. intros j Hj0. rewrite Hj, (frame_eqb i j) by lia.
  destruct (Z.eqb_spec (j / 8) (i / 8)) as [E|]; [|done]. unfold frame_used. by rewrite E, Hb.
Qed.

Lemma test_frame_spec bm i :
  bytes_ok bm -> 0 <= i < 8 * blen bm ->
  exists v, test_frame bm i = Some v /\ (v =? 0) = negb (frame_used bm i).
Proof.
  intros Hok Hi. destruct (frame_byte bm i Hok Hi) as (b & Hb & Hr).
  unfold test_frame, frame_used. rewrite Hb. simpl. eexists. split; [done|].
  rewrite Z.shiftl_1_l. destruct (Z.testbit b (i mod 8)) eqn:Ht; simpl.
  - apply Z.eqb_neq. intros E. apply (f_equal (fun z => Z.testbit z (i mod 8))) in E.
    rewrite Z.land_spec, Ht, Z.pow2_bits_true, Z.bits_0 in E by zlia. done.
  - apply Z.eqb_eq, Z.bits_inj'. intros k Hk. rewrite Z.land_spec, Z.pow2_bits_eqb, Z.bits_0 by zlia.
    destruct (Z.eqb_spec (i mod 8) k) as [<-|]; [by rewrite Ht|by rewrite andb_false_r].
Qed.

(** A bitmap is determined by the frames it marks. *)
Lemma frame_bitmap_ext bm bm' :
  bytes_ok bm -> bytes_ok bm' -> length bm = length bm' ->
  (forall j, 0 <= j -> frame_used bm j = frame_used bm' j) -> bm = bm'.
Proof.
  intros H1 H2 Hlen Hj. apply list_eq_same_length with (length bm); [done..|].
  intros n x y Hn Hx Hy. apply Z.bits_inj'. intros k Hk.
  pose proof (Forall_lookup_1 _ _ _ _ H1 Hx). pose proof (Forall_lookup_1 _ _ _ _ H2 Hy).
  destruct (Z.ltb_spec k 8); [|by rewrite !(testbit_above _ 8)].
  specialize (Hj (Z.of_nat n * 8 + k) ltac:(lia)). unfold frame_used, rd in Hj.
  rewrite Z.div_add_l, Z.div_small, Z.add_0_r in Hj by lia.
  replace ((Z.of_nat n * 8 + k) mod 8) with k in Hj by zlia.
  destruct (Z.ltb_spec (Z.of_nat n) 0); [lia|]. by rewrite Nat2Z.id, Hx, Hy in Hj.
Qed.

Lemma frame_scan_spec bm i n :
  bytes_ok bm -> 0 < i -> i + Z.of_nat n <= 8 * blen bm -> (i + Z.of_nat n) * FRAME_SIZE < 2 ^ 32 ->
  (frame_scan bm i n = Some (0, bm) /\ forall j, i <= j < i + Z.of_nat n -> frame_used bm j = true) \/
  exists k bm', frame_scan bm i n = Some (k * FRAME_SIZE, bm') /\ i <= k < i + Z.of_nat n /\
    set_frame bm k = Some bm' /\ frame_used bm k = false /\
    forall j, i <= j < k -> frame_used bm j = true.
Proof.
  intros Hok. revert i. induction n as [|n IH]; intros i Hi Hb Hm; [left; split; [done|lia]|].
  cbn [frame_scan]. destruct (test_frame_spec bm i Hok ltac:(lia)) as (v & -> & Hv).
  cbn [mbind option_bind]. rewrite Hv. destruct (frame_used bm i) eqn:Hu; simpl negb; cbv iota.
  - destruct (IH (i + 1) ltac:(lia) ltac:(lia) ltac:(lia)) as [[-> Hall]|(k & bm' & -> & Hk & Hset & Hf & Hall)].
    + left. split; [done|]. intros j Hj. destruct (decide (j = i)) as [->|]; [done|]. apply Hall. lia.
    + right. exists k, bm'. split_and!; [done|lia|lia|done|done|].
      intros j Hj. destruct (decide (j = i)) as [->|]; [done|]. apply Hall. lia.
  - right. destruct (set_frame_spec bm i Hok ltac:(lia)) as (bm' & Hset & _). rewrite Hset.
    exists i, bm'. cbn [mbind option_bind]. rewrite wrap_small by hlia. split_and!; [done|lia|lia|done|done|lia].
Qed.

(** [allocate_frame] returns the lowest frame from 1 on that the bitmap marks
    free and marks exactly that frame used, or 0 with the bitmap unchanged when
    every frame is in use; [free_frame] of the address returned restores the
    bitmap. *)
Theorem allocate_frame_lowest (h : kheap) :
  bytes_ok (frame_bitmap h) -> 0 <= total_memory h < 2 ^ 32 ->
  total_memory h / FRAME_SIZE <= 8 * blen (frame_bitmap h) ->
  let max_frames := total_memory h / FRAME_SIZE in
  exists addr h', allocate_frame h = Some (addr, h') /\
    ((addr = 0 /\ h' = h /\ forall j, 1 <= j < max_frames -> frame_used (frame_bitmap h) j = true) \/
     exists k, addr = k * FRAME_SIZE /\ 1 <= k < max_frames /\
       frame_used (frame_bitmap h) k = false /\
       (forall j, 1 <= j < k -> frame_used (frame_bitmap h) j = true) /\
       (forall j, 0 <= j -> frame_used (frame_bitmap h') j = (j =? k) || frame_used (frame_bitmap h) j) /\
       free_frame h' addr = Some h).
Proof.
  intros Hok Ht Hb mf. destruct h as [m fl bm tm lk0]; simpl in *. unfold allocate_frame. simpl. fold mf.
  destruct (Z.leb_spec mf 1).
  { exists 0, (Mk_kheap m fl bm tm lk0). replace (Z.to_nat (mf - 1)) with 0%nat by lia.
    split; [done|]. left. split_and!; [done|done|lia]. }
  assert (mf * FRAME_SIZE <= tm) by (unfold mf, FRAME_SIZE; zlia).
  destruct (frame_scan_spec bm 1 (Z.to_nat (mf - 1)) Hok ltac:(lia) ltac:(lia) ltac:(hlia))
    as [[-> Hall]|(k & bm' & -> & Hk & Hset & Hf & Hall)]; cbn [mbind option_bind]; eexists _, _; (split; [done|]).
  - left. split_and!; [done|done|]. intros j Hj. apply Hall. lia.
  - right. exists k. destruct (set_frame_spec bm k Hok ltac:(lia)) as (bm1 & Hset1 & Hok1 & Hlen1 & Hj1).
    rewrite Hset in Hset1. injection Hset1 as <-.
    split_and!; [done|lia|lia|done|done|done|]. unfold free_frame, with_bitmap; simpl.
    rewrite Z.div_mul by done.
    destruct (clear_frame_spec bm' k Hok1) as (bm2 & -> & Hok2 & Hlen2 & Hj2); [unfold blen in *; lia|].
    simpl. replace bm2 with bm; [done|]. apply frame_bitmap_ext; [done|done|lia|].
    intros j Hj. rewrite Hj2, Hj1 by done. destruct (Z.eqb_spec j k) as [->|]; simpl; [done|done].
Qed.

(** ** Initialization and self tests *)

Lemma ALIGN_UP_16 a :
  0 <= a -> a + 15 < 2 ^ 32 -> a <= ALIGN_UP a 16 < a + 16 /\ ALIGN_UP a 16 mod 16 = 0.
Proof.
  intros H0 H1. unfold ALIGN_UP. rewrite wrap_small by lia.
  change (unot 32 (16 - 1)) with (unot 32 (2 ^ 4 - 1)). rewrite land_unot_pow2 by lia.
  change (2 ^ 4) with 16. zlia.
Qed.

(** [initialize_memory_system] establishes the heap invariant that the other
    operations keep: the heap region behind the bitmap is one free block ending at
    HEAP_END, 16-aligned and disjoint from the kernel image and from the bitmap,
    and the bitmap covers every frame of the memory with only frame 0 in use.
    Without a memory size nothing changes. *)
Theorem initialize_establishes (kernel_end : Z) (h : kheap) :
  0 < kernel_end -> total_memory h = 0 \/ FRAME_SIZE <= total_memory h < 2 ^ 32 ->
  unlocked (heap_lock h) ->
  kernel_end + total_memory h / (8 * FRAME_SIZE) + 64 <= HEAP_END ->
  if total_memory h =? 0 then initialize_memory_system kernel_end h = Some h
  else exists h', initialize_memory_system kernel_end h = Some h' /\
    heap_rep h' [(HEAP_END - free_list h' - BLOCK_SIZE, true)] /\
    free_list h' mod 16 = 0 /\ kernel_end + blen (frame_bitmap h') <= free_list h' /\
    bytes_ok (frame_bitmap h') /\ total_memory h / FRAME_SIZE <= 8 * blen (frame_bitmap h') /\
    (forall j, 0 <= j -> frame_used (frame_bitmap h') j = (j =? 0)) /\
    total_memory h' = total_memory h.
Proof.
  intros Hk Ht Hu Hfit. unfold initialize_memory_system.
  destruct (Z.eqb_spec (total_memory h) 0) as [|Hne]; [done|].
  rewrite (Z.mul_comm 8), <- Zdiv_Zdiv in Hfit by hlia. set (tf := total_memory h / FRAME_SIZE) in *.
  assert (1 <= tf) by (unfold tf, FRAME_SIZE in *; zlia). clearbody tf.
  assert (0 <= tf / 8 /\ 1 <= (tf + 7) / 8 /\ (tf + 7) / 8 <= tf / 8 + 1) as (Hq1 & Hq0 & Hq2) by zlia.
  destruct (ALIGN_UP_16 kernel_end ltac:(lia)) as [Hs1 Hs2]; [hlia|].
  destruct (ALIGN_UP_16 ((tf + 7) / 8)) as [Hb1 Hb2]; [zlia|hlia|].
  set (hs := ALIGN_UP kernel_end 16) in *. set (bs := ALIGN_UP ((tf + 7) / 8) 16) in *.
  assert (0 < bs <= tf / 8 + 17) by zlia.
  set (bm0 := replicate (Z.to_nat bs) 0).
  assert (bytes_ok bm0) as Hok0 by by apply Forall_replicate.
  assert (blen bm0 = bs) as Hl0 by (unfold blen, bm0; rewrite length_replicate; lia).
  destruct (set_frame_spec bm0 0 Hok0 ltac:(lia)) as (bm & -> & Hok & Hlen & Hj).
  cbn [mbind option_bind]. rewrite (wrap_small 32 (hs + bs)) by hlia.
  rewrite wrap_small by hlia. eexists. split; [done|]. unfold blen in *. simpl. rewrite Hlen, Hl0.
  split_and!; [|zlia|lia|done|zlia| |done].
  - split_and!; simpl; [done|lia| |done|done].
    split_and!; [hlia|by rewrite lookup_insert_eq|hlia].
  - intros j Hj0. rewrite Hj by done. replace (frame_used bm0 j) with false; [apply orb_false_r|].
    unfold frame_used, rd, bm0. destruct (j / 8 <? 0); [by rewrite Z.bits_0|].
    destruct (replicate _ _ !! _) as [b|] eqn:E; simpl; [|by rewrite Z.bits_0].
    apply lookup_replicate in E as [-> _]. by rewrite Z.bits_0.
Qed.

(** One fresh block gives its front to an allocation. *)
Lemma ff_alloc_fresh S size :
  size + BLOCK_SIZE < S ->
  ff_alloc [(S, true)] size = Some ([(size, false); (S - size - BLOCK_SIZE, true)], 0).
Proof. unfold BLOCK_SIZE. intros. cbn [ff_alloc andb]. unfold BLOCK_SIZE. by zcase. Qed.

(** On a freshly initialized heap with at least 100 bytes the kernel's own
    self tests report success, the reallocation test returns every byte it took. *)
Theorem heap_selftests_pass (fuel : nat) (h : kheap) (S : Z) (mem : Z -> Z) :
  heap_rep h [(S, true)] -> 100 <= S ->
  (exists h' mem' l', test_realloc (Datatypes.S fuel) h mem = Some (true, h', mem') /\
     heap_rep h' l' /\ l' = [(S, true)]) /\
  (exists h', test_reset_after_free (Datatypes.S fuel) h = Some (true, h') /\
     heap_rep h' [(1, false); (S - 1 - BLOCK_SIZE, true)]) /\
  (exists h', test_multiple_frees (Datatypes.S fuel) h = Some (true, h') /\
     heap_rep h' [(1, false); (S - 1 - BLOCK_SIZE, true)]).
Proof.
  intros Hrep HS. pose proof Hrep as (_ & Hp & _).
  destruct (k_malloc_found fuel h _ 1 _ _ Hrep ltac:(lia) (ff_alloc_fresh S 1 ltac:(hlia)))
    as (m1 & Hm1 & _ & Hrep1 & Hso). rewrite Z.add_0_r in Hm1.
  assert (free_list h + BLOCK_SIZE <> 0) as Hnz%Z.eqb_neq by hlia.
  split_and!.
  - destruct (k_malloc_found fuel h _ 10 _ _ Hrep ltac:(lia) (ff_alloc_fresh S 10 ltac:(hlia)))
      as (m2 & Hm2 & _ & Hrep2 & _). rewrite Z.add_0_r in Hm2.
    unfold test_realloc. rewrite Hm2. cbn [mbind option_bind]. rewrite Hnz.
    assert (ff_alloc [(10, false); (S - 10 - BLOCK_SIZE, true)] 20 =
            Some ([(10, false); (20, false); (S - 10 - BLOCK_SIZE - 20 - BLOCK_SIZE, true)], 22)) as Hff.
    { unfold BLOCK_SIZE. cbn [ff_alloc andb mbind option_bind]. unfold BLOCK_SIZE. by zcase. }
    destruct (k_realloc_grow fuel _ _ mem 0 10 20 _ _ Hrep2 eq_refl Hff ltac:(lia))
      as (m3 & m4 & l3 & Hk & Hf & Hrep3). rewrite Z.add_0_r in Hk. simpl free_list in Hk.
    rewrite Hk. cbn [mbind option_bind]. destruct (Z.eqb_spec (free_list h + 22 + BLOCK_SIZE) 0); [hlia|].
    unfold ff_free in Hf. cbn [ff_mark Z.eqb mbind option_bind] in Hf.
    rewrite ff_prev_nonpos in Hf by (done || (do 3 (apply Forall_cons_2; [simpl; hlia|]); constructor)). injection Hf as <-.
    set (mem1 := mem_move _ _ _ _).
    rewrite (k_realloc_fits _ _ _ mem1 22 20 5 Hrep3 eq_refl ltac:(lia)).
    cbn [mbind option_bind]. simpl free_list.
    destruct (Z.eqb_spec (free_list h + 22 + BLOCK_SIZE) 0); [hlia|].
    destruct (k_free_tile _ _ 22 20 false Hrep3 eq_refl) as (l4 & m5 & Hf4 & Hk4 & Hrep4).
    simpl free_list in Hk4. simpl free_list. rewrite Hk4. cbn [mbind option_bind].
    eexists _, _, l4. split; [done|]. split; [done|]. 
    change (Some [(10 + (20 + (S - 10 - BLOCK_SIZE - 20 - BLOCK_SIZE + BLOCK_SIZE) + BLOCK_SIZE), true)]
            = Some l4) in Hf4. injection Hf4 as <-. do 2 f_equal. lia.
  - destruct (k_free_tile _ _ 0 1 false Hrep1 eq_refl) as (l2 & m2 & Hf & Hk & Hrep2).
    rewrite (ff_alloc_free _ 1 _ _ Hso ltac:(done) ltac:(done) (ff_alloc_fresh S 1 ltac:(hlia))) in Hf.
    injection Hf as <-. rewrite Z.add_0_r in Hk.
    destruct (k_malloc_found fuel _ _ 1 _ _ Hrep2 ltac:(lia) (ff_alloc_fresh S 1 ltac:(hlia)))
      as (m3 & Hm3 & _ & Hrep3 & _). rewrite Z.add_0_r in Hm3. simpl free_list in *.
    unfold test_reset_after_free. rewrite Hm1. cbn [mbind option_bind]. rewrite Hnz, Hk.
    cbn [mbind option_bind]. rewrite Hm3. cbn [mbind option_bind]. rewrite Z.eqb_refl. eauto.
  - exists (with_blocks h m1). split; [|done]. unfold test_multiple_frees.
    do 2 (change (k_free h 0) with (Some h); cbn [mbind option_bind]). rewrite Hm1.
    cbn [mbind option_bind]. by rewrite Hnz.
Qed.

(** ** Witnesses *)

(** A heap with three blocks behind address 1000: one in use, one free, one in use. *)
Definition heap3 : kheap :=
  Mk_kheap (<[1000 := Mk_block 100 false 1112]> (<[1112 := Mk_block 64 true 1188]>
            (<[1188 := Mk_block (HEAP_END - 1200) false 0]> ∅)))
           1000 [1; 0] 65536 (Mk_irq_lock 0 true).
Definition tiles3 : list tile := [(100, false); (64, true); (HEAP_END - 1200, false)].

Lemma heap3_rep : heap_rep heap3 tiles3.
Proof. split_and!; simpl; split_and?; done. Qed.

Lemma k_malloc_refines_witness :
  exists h', k_malloc 1 heap3 20 = Some (1124, h') /\
    heap_rep h' [(100, false); (20, false); (32, true); (HEAP_END - 1200, false)] /\
    free_list h' = 1000 /\ heap_lock h' = heap_lock heap3 /\ frame_bitmap h' = frame_bitmap heap3.
Proof. apply (k_malloc_refines 0 heap3 tiles3 _ 20 112 heap3_rep); [done|reflexivity]. Defined.

Lemma k_malloc_safe_witness :
  exists p h' s1 nx, k_malloc 1 heap3 20 = Some (p, h') /\
    blocks h' !! (p - BLOCK_SIZE) = Some (Mk_block s1 false nx) /\ 20 <= s1.
Proof.
  destruct (k_malloc 1 heap3 20) as [[p h']|] eqn:E; [|by vm_compute in E].
  destruct (k_malloc_safe 0 heap3 h' tiles3 _ 20 112 p heap3_rep ltac:(done) eq_refl E)
    as (s1 & nx & Hb & Hs & _). exists p, h', s1, nx. done.
Defined.

Lemma k_free_refines_witness :
  k_free heap3 0 = Some heap3 /\
  exists l' h', ff_free tiles3 0 = Some l' /\ k_free heap3 (1000 + 0 + BLOCK_SIZE) = Some h' /\
    heap_rep h' l' /\ free_list h' = free_list heap3 /\ heap_lock h' = heap_lock heap3.
Proof. apply (k_free_refines heap3 tiles3 0 (100, false) heap3_rep). reflexivity. Defined.

Lemma k_malloc_free_roundtrip_witness :
  exists p h1 h2, k_malloc 1 heap3 20 = Some (p, h1) /\ k_free h1 p = Some h2 /\ heap_rep h2 tiles3.
Proof.
  destruct (k_malloc 1 heap3 20) as [[p h1]|] eqn:E; [|by vm_compute in E].
  destruct (k_malloc_free_roundtrip 0 heap3 h1 tiles3 _ 20 112 p heap3_rep ltac:(done) eq_refl E)
    as (h2 & Hk & Hr & _). exists p, h1, h2. done.
Defined.

(** A heap with room to move a block to. *)
Definition heap2 : kheap :=
  Mk_kheap (<[1000 := Mk_block 10 false 1022]> (<[1022 := Mk_block (HEAP_END - 1034) true 0]> ∅))
           1000 [1; 0] 65536 (Mk_irq_lock 0 true).

Lemma k_realloc_moves_witness :
  exists h' l2 mem', k_realloc 1 heap2 (fun a => a mod 256) 1012 20 = Some (1034, h', mem') /\
    heap_rep h' l2 /\ forall i, 0 <= i < 10 -> mem' (1034 + i) = (1012 + i) mod 256.
Proof.
  assert (heap_rep heap2 [(10, false); (HEAP_END - 1034, true)]) as Hr by (split_and!; simpl; split_and?; done).
  destruct (k_realloc_moves 0 heap2 _ _ (fun a => a mod 256) 0 10 20 22 Hr eq_refl eq_refl ltac:(done))
    as (h' & l2 & mem' & Hk & _ & Hr2 & _ & Hm & _).
  exists h', l2, mem'. split; [exact Hk|]. split; [done|]. exact Hm.
Defined.

Lemma allocate_frame_lowest_witness :
  exists addr h', allocate_frame heap3 = Some (addr, h') /\ addr = 4096.
Proof.
  destruct (allocate_frame_lowest heap3) as (addr & h' & E & _);
    [by repeat constructor|done|by vm_compute|].
  exists addr, h'. split; [done|]. vm_compute in E. by injection E as <- _.
Defined.

Definition boot_heap : kheap := Mk_kheap ∅ 0 [] 16777216 (Mk_irq_lock 0 false).

Lemma initialize_establishes_witness :
  exists h', initialize_memory_system 2097153 boot_heap = Some h' /\
    heap_rep h' [(HEAP_END - free_list h' - BLOCK_SIZE, true)].
Proof.
  destruct (initialize_establishes 2097153 boot_heap) as (h' & E & Hr & _);
    [done|right; done|done|by vm_compute|]. by exists h'.
Defined.

Definition heap1 : kheap :=
  Mk_kheap (<[1000 := Mk_block (HEAP_END - 1012) true 0]> ∅) 1000 [1; 0] 65536 (Mk_irq_lock 0 true).

Lemma heap_selftests_pass_witness :
  exists h', test_reset_after_free 1 heap1 = Some (true, h').
Proof.
  destruct (heap_selftests_pass 0 heap1 (HEAP_END - 1012) (fun _ => 0)) as (_ & (h' & E & _) & _);
    [split_and!; simpl; split_and?; done|done|]. by exists h'.
Defined.

(** ** Blocks that are neighbours in the list and not in memory

    A heap of 200 bytes in front of HEAP_END, and 64 KB of memory.  The second
    request does not fit and gets a block in frame 1 (address 4096), which
    [malloc_extend] links behind the last heap block. *)
Definition small_heap : kheap :=
  Mk_kheap (<[HEAP_END - 200 := Mk_block 188 true 0]> ∅) (HEAP_END - 200) [1; 0] 65536 (Mk_irq_lock 0 true).

Definition extend_then_merge : option (Z * Z * Z) :=
  '(p1, h) ← k_malloc 3 small_heap 188;
  '(p2, h) ← k_malloc 3 h 100;
  h ← k_free h p2;
  h ← k_free h p1;
  '(p3, h) ← k_malloc 3 h 4000;
  Some (p1, p2, p3).

(** [k_free] merges a block with its successor in the list without checking
    that they are adjacent: after the heap was extended by a frame, releasing both
    blocks makes one free block of more than 4000 bytes out of 188 bytes at the
    end of the heap, and the next large request is answered with memory behind
    HEAP_END. *)
Theorem k_free_merges_distant_blocks :
  heap_rep small_heap [(188, true)] /\
  exists p1 p2 p3, extend_then_merge = Some (p1, p2, p3) /\
    p1 + 188 = HEAP_END /\ p2 = 1 * FRAME_SIZE + BLOCK_SIZE /\ p3 = p1 /\ HEAP_END < p3 + 4000.
Proof.
  split; [by split_and!; simpl; split_and?|].
  exists (HEAP_END - 188), (FRAME_SIZE + BLOCK_SIZE), (HEAP_END - 188). by vm_compute.
Qed.
