(* ===== verification/Vfs.v ===== *)
(** fs/vfs/vfs.c and vfs.h: the virtual file system.

    A file-system driver is a table of function pointers, each of which may be
    NULL; it acts on a state [W] of its own (the disk, the driver's memory), of
    which the VFS only passes the value on.  [vfs_filesystem] objects live in a
    heap of objects indexed by their address, so that the pointer identity the
    code compares ([current->fs == fs]) and a use of a freed object (a failed
    lookup, [None]) are visible; tables are referred to by their address too, 0
    is NULL.  [malloc] and [free] are the C library's, as functions on [W].
    The mount list is the list of its nodes, newest first. *)

From stdpp Require Import strings.
From S2P Require Import Prelude Effects CString.

(** ** Error codes and constants *)

Definition VFS_OK : Z := 0.
Definition VFS_ERR_NOT_FOUND : Z := -1.
Definition VFS_ERR_NO_MEMORY : Z := -2.
Definition VFS_ERR_INVALID : Z := -3.
Definition VFS_ERR_IO : Z := -4.
Definition VFS_ERR_EXISTS : Z := -5.
Definition VFS_ERR_NOT_DIR : Z := -6.
Definition VFS_ERR_IS_DIR : Z := -7.
Definition VFS_ERR_READ_ONLY : Z := -9.
Definition VFS_ERR_UNSUPPORTED : Z := -10.

Definition MAX_FILESYSTEMS : Z := 10.

(** ** Data *)

Inductive vfs_node_type :=
  | VFS_FILE | VFS_DIRECTORY | VFS_CHARDEVICE | VFS_BLOCKDEVICE | VFS_PIPE | VFS_SYMLINK | VFS_MOUNTPOINT.

#[global] Instance vfs_node_type_eq_dec : EqDecision vfs_node_type.
Proof. solve_decision. Defined.

Record vfs_dir_entry := Mk_dirent {
  de_name : buf; de_type : vfs_node_type; de_size : Z; de_inode : Z;
  de_create_time : Z; de_modify_time : Z; de_access_time : Z; de_attributes : Z
}.

Record vfs_node := Mk_node {
  n_addr : Z;           (* the address of the node *)
  n_name : buf; n_type : vfs_node_type; n_inode : Z; n_size : Z; n_flags : Z;
  n_fs : Z;             (* pointer to the file system *)
  n_fs_specific : Z
}.

Record vfs_filesystem := Mk_fs {
  fs_name : buf;        (* char name[32] *)
  fs_drive : Z;
  fs_ops : Z;           (* pointer to the operations table *)
  fs_data : Z;
  fs_root : Z
}.

Record fs_registration := Mk_reg { r_name : buf; r_ops : Z; registered : bool }.

Record vfs_mount_t := Mk_mount { m_addr : Z; m_path : buf; m_fs : Z }.

(** The operations table.  An operation gets the pointer to the file system it
    is called for and the object behind it, an operation on a node the object behind the
    node's file system; [mount] may write to the object. *)
Record vfs_ops (W : Type) := Mk_ops {
  op_mount : W -> Z -> vfs_filesystem -> Z -> Z * vfs_filesystem * W;
  op_unmount : option (W -> Z -> vfs_filesystem -> Z * W);
  op_open : option (W -> Z -> vfs_filesystem -> buf -> Z * vfs_node * W);
  op_close : option (W -> vfs_filesystem -> vfs_node -> Z * W);
  op_read : option (W -> vfs_filesystem -> vfs_node -> Z -> Z -> buf -> Z * buf * W);
  op_write : option (W -> vfs_filesystem -> vfs_node -> Z -> Z -> buf -> Z * W);
  op_readdir : option (W -> vfs_filesystem -> vfs_node -> Z -> vfs_dir_entry -> Z * vfs_dir_entry * W);
  op_mkdir : option (W -> Z -> vfs_filesystem -> buf -> Z * W);
  op_rmdir : option (W -> Z -> vfs_filesystem -> buf -> Z * W);
  op_create : option (W -> Z -> vfs_filesystem -> buf -> Z * W);
  op_delete : option (W -> Z -> vfs_filesystem -> buf -> Z * W);
  op_stat : option (W -> Z -> vfs_filesystem -> buf -> vfs_dir_entry -> Z * vfs_dir_entry * W)
}.
Arguments Mk_ops {W}.
Arguments op_mount {W}. Arguments op_unmount {W}. Arguments op_open {W}. Arguments op_close {W}.
Arguments op_read {W}. Arguments op_write {W}. Arguments op_readdir {W}. Arguments op_mkdir {W}.
Arguments op_rmdir {W}. Arguments op_create {W}. Arguments op_delete {W}. Arguments op_stat {W}.

Record vfs_state (W : Type) := Mk_vfs {
  registered_filesystems : list fs_registration;
  mount_list : list vfs_mount_t;
  fs_count : Z;
  fs_heap : gmap Z vfs_filesystem;
  world : W
}.
Arguments Mk_vfs {W}. Arguments registered_filesystems {W}. Arguments mount_list {W}.
Arguments fs_count {W}. Arguments fs_heap {W}. Arguments world {W}.

Definition with_world {W} (v : vfs_state W) (w : W) : vfs_state W :=
  Mk_vfs (registered_filesystems v) (mount_list v) (fs_count v) (fs_heap v) w.

Section Vfs.
Context {W : Type}.
Context (ops_at : Z -> option (vfs_ops W)).   (* the table at an address *)
Context (malloc : W -> Z -> Z * W) (free : W -> Z -> W).

(** ** Initialization and registration *)

Definition vfs_init (v : vfs_state W) : vfs_state W :=
  Mk_vfs (map (fun r => Mk_reg (r_name r) (r_ops r) false) (registered_filesystems v))
         [] 0 (fs_heap v) (world v).

(** The first registered entry whose name compares equal. *)
Fixpoint find_registered (l : list fs_registration) (name : buf) : option (option Z) :=
  match l with
  | [] => Some None
  | r :: l' =>
      if registered r then
        c ← strcmp (r_name r) name;
        if c =? 0 then Some (Some (r_ops r)) else find_registered l' name
      else find_registered l' name
  end.

(** Filling the first free slot; [None] inside: there is none. *)
Fixpoint fill_slot (l : list fs_registration) (name : buf) (ops : Z)
  : option (option (list fs_registration)) :=
  match l with
  | [] => Some None
  | r :: l' =>
      if registered r then rest ← fill_slot l' name ops; Some (option_map (cons r) rest)
      else n ← strncpy (r_name r) name 31; n ← wr n 31 0; Some (Some (Mk_reg n ops true :: l'))
  end.

Definition vfs_register_filesystem (v : vfs_state W) (name : option buf) (ops : Z)
  : option (Z * vfs_state W) :=
  if MAX_FILESYSTEMS <=? fs_count v then Some (VFS_ERR_NO_MEMORY, v) else
  match name with
  | None => Some (VFS_ERR_INVALID, v)
  | Some name =>
      if ops =? 0 then Some (VFS_ERR_INVALID, v) else
      found ← find_registered (registered_filesystems v) name;
      match found with
      | Some _ => Some (VFS_ERR_EXISTS, v)
      | None =>
          slots ← fill_slot (registered_filesystems v) name ops;
          match slots with
          | Some regs => Some (VFS_OK, Mk_vfs regs (mount_list v) (fs_count v + 1) (fs_heap v) (world v))
          | None => Some (VFS_ERR_NO_MEMORY, v)
          end
      end
  end.

(** ** Mounting *)

Definition sizeof_filesystem : Z := 48.
Definition sizeof_mount : Z := 264.

(** A copy of [s] in a fresh [char[n + 1]], cut to [n] characters; every byte is
    written, so the initial contents do not matter. *)
Definition copy_name (n : nat) (s : buf) : option buf :=
  b ← strncpy (replicate (S n) 0) s n; wr b (Z.of_nat n) 0.

Definition vfs_mount (v : vfs_state W) (drive : Z) (fs_type mount_path : option buf)
  : option (Z * vfs_state W) :=
  match fs_type, mount_path with
  | Some fs_type, Some mount_path =>
      if drive =? 0 then Some (VFS_ERR_INVALID, v) else
      found ← find_registered (registered_filesystems v) fs_type;
      let ops := match found with Some ops => ops | None => 0 end in
      if ops =? 0 then Some (VFS_ERR_UNSUPPORTED, v) else
      let '(fs, w) := malloc (world v) sizeof_filesystem in
      if fs =? 0 then Some (VFS_ERR_NO_MEMORY, with_world v w) else
      name ← copy_name 31 fs_type;
      tbl ← ops_at ops;
      let '(result, obj, w) := op_mount tbl w fs (Mk_fs name drive ops 0 0) drive in
      if negb (result =? VFS_OK) then Some (result, with_world v (free w fs)) else
      let '(mount, w) := malloc w sizeof_mount in
      if mount =? 0 then
        unmount ← op_unmount tbl;   (* called without a NULL check *)
        let '(_, w) := unmount w fs obj in
        Some (VFS_ERR_NO_MEMORY, with_world v (free w fs))
      else
        path ← copy_name 255 mount_path;
        Some (VFS_OK, Mk_vfs (registered_filesystems v) (Mk_mount mount path fs :: mount_list v)
                             (fs_count v) (<[fs := obj]> (fs_heap v)) w)
  | _, _ => Some (VFS_ERR_INVALID, v)
  end.

(** The node with path [mount_path] and the list without it. *)
Fixpoint unlink_mount (l : list vfs_mount_t) (mount_path : buf)
  : option (option (vfs_mount_t * list vfs_mount_t)) :=
  match l with
  | [] => Some None
  | m :: l' =>
      c ← strcmp (m_path m) mount_path;
      if c =? 0 then Some (Some (m, l')) else
      rest ← unlink_mount l' mount_path;
      Some (option_map (fun '(x, k) => (x, m :: k)) rest)
  end.

Definition vfs_unmount (v : vfs_state W) (mount_path : option buf) : option (Z * vfs_state W) :=
  match mount_path with
  | None => Some (VFS_ERR_INVALID, v)
  | Some mount_path =>
      found ← unlink_mount (mount_list v) mount_path;
      match found with
      | None => Some (VFS_ERR_NOT_FOUND, v)
      | Some (m, rest) =>
          obj ← fs_heap v !! m_fs m;
          tbl ← ops_at (fs_ops obj);
          let w := match op_unmount tbl with
                   | Some unmount => snd (unmount (world v) (m_fs m) obj)
                   | None => world v
                   end in
          Some (VFS_OK, Mk_vfs (registered_filesystems v) rest (fs_count v)
                               (delete (m_fs m) (fs_heap v)) (free (free w (m_fs m)) (m_addr m)))
      end
  end.

(** ** Path resolution *)

(** The scan for the longest matching mount point. *)
Fixpoint best_mount (l : list vfs_mount_t) (path : buf) (best : option vfs_mount_t) (best_len : Z)
  : option (option vfs_mount_t) :=
  match l with
  | [] => Some best
  | m :: l' =>
      mount_len ← strlen (m_path m);
      c ← strncmp path (m_path m) (Z.to_nat mount_len);
      if (c =? 0) && (best_len <? mount_len) then best_mount l' path (Some m) mount_len
      else best_mount l' path best best_len
  end.

(** The pointer to the file system; [None] inside is NULL. *)
Definition vfs_get_filesystem (v : vfs_state W) (path : option buf) : option (option Z) :=
  match path with
  | None => Some None
  | Some path =>
      c ← rd path 0;
      if negb (c =? 47 (* '/' *)) then Some None else
      best ← best_mount (mount_list v) path None 0;
      Some (option_map m_fs best)
  end.

Fixpoint relative_from (l : list vfs_mount_t) (absolute_path : buf) (fs : Z) : option buf :=
  match l with
  | [] => Some absolute_path
  | m :: l' =>
      if m_fs m =? fs then
        mount_len ← strlen (m_path m);
        c ← strncmp absolute_path (m_path m) (Z.to_nat mount_len);
        if c =? 0 then
          let relative := from absolute_path mount_len in
          r ← rd relative 0;
          Some (if r =? 0 then [47; 0] else relative)
        else relative_from l' absolute_path fs
      else relative_from l' absolute_path fs
  end.

Definition vfs_get_relative_path (v : vfs_state W) (absolute_path : option buf) (fs : Z)
  : option (option buf) :=
  match absolute_path with
  | None => Some None
  | Some p => if fs =? 0 then Some None else option_map Some (relative_from (mount_list v) p fs)
  end.

(** ** Operations on paths *)

(** The common beginning of the path operations: the file system of the path, its
    object, its table and the path relative to its mount point. *)
Definition resolve (v : vfs_state W) (path : buf)
  : option (option (Z * vfs_filesystem * vfs_ops W * buf)) :=
  fs ← vfs_get_filesystem v (Some path);
  match fs with
  | None => Some None
  | Some fs =>
      relative_path ← vfs_get_relative_path v (Some path) fs;
      relative_path ← relative_path;
      obj ← fs_heap v !! fs;
      tbl ← ops_at (fs_ops obj);
      Some (Some (fs, obj, tbl, relative_path))
  end.

(** [node_ok]: the out parameter is not NULL. *)
Definition vfs_open (v : vfs_state W) (path : option buf) (node_ok : bool)
  : option (Z * option vfs_node * vfs_state W) :=
  match path with
  | None => Some (VFS_ERR_INVALID, None, v)
  | Some path =>
      if negb node_ok then Some (VFS_ERR_INVALID, None, v) else
      r ← resolve v path;
      match r with
      | None => Some (VFS_ERR_NOT_FOUND, None, v)
      | Some (fs, obj, tbl, rel) =>
          match op_open tbl with
          | None => Some (VFS_ERR_UNSUPPORTED, None, v)
          | Some open => let '(res, node, w) := open (world v) fs obj rel in
                         Some (res, Some node, with_world v w)
          end
      end
  end.

(** The table of a node's file system; [None] inside: node or its fs is NULL. *)
Definition node_ops (v : vfs_state W) (node : option vfs_node) : option (option (vfs_node * vfs_filesystem * vfs_ops W)) :=
  match node with
  | None => Some None
  | Some n => if n_fs n =? 0 then Some None else
              obj ← fs_heap v !! n_fs n; tbl ← ops_at (fs_ops obj); Some (Some (n, obj, tbl))
  end.

Definition vfs_close (v : vfs_state W) (node : option vfs_node) : option (Z * vfs_state W) :=
  r ← node_ops v node;
  match r with
  | None => Some (VFS_ERR_INVALID, v)
  | Some (n, obj, tbl) =>
      match op_close tbl with
      | None => Some (VFS_ERR_UNSUPPORTED, v)
      | Some close => let '(res, w) := close (world v) obj n in Some (res, with_world v w)
      end
  end.

Definition vfs_read (v : vfs_state W) (node : option vfs_node) (offset size : Z) (buffer : option buf)
  : option (Z * option buf * vfs_state W) :=
  match buffer with
  | None => Some (VFS_ERR_INVALID, None, v)
  | Some b =>
      r ← node_ops v node;
      match r with
      | None => Some (VFS_ERR_INVALID, buffer, v)
      | Some (n, obj, tbl) =>
          match op_read tbl with
          | None => Some (VFS_ERR_UNSUPPORTED, buffer, v)
          | Some read => let '(res, b', w) := read (world v) obj n offset size b in
                         Some (res, Some b', with_world v w)
          end
      end
  end.

Definition vfs_write (v : vfs_state W) (node : option vfs_node) (offset size : Z) (buffer : option buf)
  : option (Z * vfs_state W) :=
  match buffer with
  | None => Some (VFS_ERR_INVALID, v)
  | Some b =>
      r ← node_ops v node;
      match r with
      | None => Some (VFS_ERR_INVALID, v)
      | Some (n, obj, tbl) =>
          match op_write tbl with
          | None => Some (VFS_ERR_READ_ONLY, v)
          | Some write => let '(res, w) := write (world v) obj n offset size b in Some (res, with_world v w)
          end
      end
  end.

(** [if (fs->ops->close) fs->ops->close(dir_node)] *)
Definition close_if (tbl : vfs_ops W) (w : W) (obj : vfs_filesystem) (n : vfs_node) : W :=
  match op_close tbl with Some close => snd (close w obj n) | None => w end.

Definition vfs_readdir (v : vfs_state W) (path : option buf) (index : Z) (entry : option vfs_dir_entry)
  : option (Z * option vfs_dir_entry * vfs_state W) :=
  match path, entry with
  | Some path, Some e =>
      r ← resolve v path;
      match r with
      | None => Some (VFS_ERR_NOT_FOUND, entry, v)
      | Some (fs, obj, tbl, rel) =>
          match op_open tbl with
          | None => Some (VFS_ERR_UNSUPPORTED, entry, v)
          | Some open =>
              let '(result, dir_node, w) := open (world v) fs obj rel in
              if negb (result =? VFS_OK) then Some (result, entry, with_world v w) else
              if negb (bool_decide (n_type dir_node = VFS_DIRECTORY))
              then Some (VFS_ERR_NOT_DIR, entry, with_world v (close_if tbl w obj dir_node)) else
              match op_readdir tbl with
              | None => Some (VFS_ERR_UNSUPPORTED, entry, with_world v (close_if tbl w obj dir_node))
              | Some readdir =>
                  let '(result, e', w) := readdir w obj dir_node index e in
                  Some (result, Some e', with_world v (close_if tbl w obj dir_node))
              end
          end
      end
  | _, _ => Some (VFS_ERR_INVALID, entry, v)
  end.

(** The operations that only pass the relative path on to one table entry [sel]. *)
Definition path_op (sel : vfs_ops W -> option (W -> Z -> vfs_filesystem -> buf -> Z * W))
    (v : vfs_state W) (path : option buf) : option (Z * vfs_state W) :=
  match path with
  | None => Some (VFS_ERR_INVALID, v)
  | Some path =>
      r ← resolve v path;
      match r with
      | None => Some (VFS_ERR_NOT_FOUND, v)
      | Some (fs, obj, tbl, rel) =>
          match sel tbl with
          | None => Some (VFS_ERR_UNSUPPORTED, v)
          | Some op => let '(res, w) := op (world v) fs obj rel in Some (res, with_world v w)
          end
      end
  end.

Definition vfs_mkdir := path_op op_mkdir.
Definition vfs_rmdir := path_op op_rmdir.
Definition vfs_create := path_op op_create.
Definition vfs_delete := path_op op_delete.

Definition vfs_stat (v : vfs_state W) (path : option buf) (stat : option vfs_dir_entry)
  : option (Z * option vfs_dir_entry * vfs_state W) :=
  match path, stat with
  | Some path, Some s =>
      r ← resolve v path;
      match r with
      | None => Some (VFS_ERR_NOT_FOUND, stat, v)
      | Some (fs, obj, tbl, rel) =>
          match op_stat tbl with
          | None => Some (VFS_ERR_UNSUPPORTED, stat, v)
          | Some op => let '(res, s', w) := op (world v) fs obj rel s in Some (res, Some s', with_world v w)
          end
      end
  | _, _ => Some (VFS_ERR_INVALID, stat, v)
  end.
End Vfs.

(** ** What the file-system drivers share *)

Definition sizeof_node : Z := 280.
Definition no_node : vfs_node := Mk_node 0 [] VFS_FILE 0 0 0 0 0.

(** A leading slash is skipped. *)
Definition skip_slash (path : buf) : option buf :=
  match path with [] => None | c :: path' => Some (if c =? 47 then path' else path) end.

(** The characters before the first blank. *)
Fixpoint up_to_blank (l : buf) : buf :=
  match l with [] => [] | c :: l' => if c =? 32 then [] else c :: up_to_blank l' end.

(** A copy in a [char name[256]]. *)
Definition put_name256 (b s : buf) : option buf := n ← strncpy b s 255; wr n 255 0.

(** A driver's operation as an entry of its table: the state is [None] after undefined
    behaviour. *)
Definition run_op {W X} (m : M W X) (w : option W) (x : X) : X * option W :=
  match w with
  | None => (x, None)
  | Some w => match m w with Some (r, w') => (r, Some w') | None => (x, None) end
  end.

(** * Properties *)

(** The characters of a C string, and that it is terminated. *)
Fixpoint cstr (b : buf) : buf :=
  match b with [] => [] | c :: b' => if c =? 0 then [] else c :: cstr b' end.
Definition terminated (b : buf) : Prop := exists s r, nonul s /\ b = s ++ 0 :: r.

Lemma nonul_cons c s : nonul (c :: s) <-> 0 < c < 256 /\ nonul s.
Proof. unfold nonul. by rewrite Forall_cons. Qed.

Lemma cstr_app s r : nonul s -> cstr (s ++ 0 :: r) = s.
Proof.
  induction s as [|c s IH]; intros H; [done|]. apply nonul_cons in H as [H0 H]. simpl.
  destruct (Z.eqb_spec c 0); [lia|]. by rewrite IH.
Qed.

Lemma strncmp_prefix p m r r' :
  nonul p -> nonul m ->
  exists z, strncmp (p ++ 0 :: r) (m ++ 0 :: r') (length m) = Some z /\ (z =? 0) = bool_decide (m `prefix_of` p).
Proof.
  revert p. induction m as [|c m IH]; intros p Hp Hm; cbn [length app strncmp].
  - exists 0. split; [by destruct p|]. by rewrite bool_decide_true by apply prefix_nil.
  - apply nonul_cons in Hm as [Hc Hm]. destruct p as [|d p]; cbn [app strncmp].
    + exists (0 - c). split; [done|]. rewrite bool_decide_false by (by intros ?%prefix_nil_inv).
      apply Z.eqb_neq. lia.
    + apply nonul_cons in Hp as [Hd Hp]. destruct (Z.eqb_spec d 0); [lia|]. cbn [negb andb].
      destruct (Z.eqb_spec d c) as [->|Hne].
      * destruct (IH p Hp Hm) as (z & Hz & Hb). exists z. split; [done|]. rewrite Hb.
        apply bool_decide_ext. split; [apply prefix_cons|apply prefix_cons_inv_2].
      * exists (d - c). split; [done|]. rewrite bool_decide_false by (by intros ?%prefix_cons_inv_1).
        apply Z.eqb_neq. lia.
Qed.

Lemma strcmp_eq a b r r' :
  nonul a -> nonul b ->
  exists z, strcmp (a ++ 0 :: r) (b ++ 0 :: r') = Some z /\ (z =? 0) = bool_decide (a = b).
Proof.
  revert b. induction a as [|c a IH]; intros [|d b] Ha Hb; cbn [app strcmp].
  - by exists 0.
  - apply nonul_cons in Hb as [Hd _]. exists (0 - d). split; [done|].
    rewrite bool_decide_false by done. apply Z.eqb_neq. lia.
  - apply nonul_cons in Ha as [Hc _]. destruct (Z.eqb_spec c 0); [lia|]. cbn [negb andb]. exists (c - 0). split; [done|].
    rewrite bool_decide_false by done. apply Z.eqb_neq. lia.
  - apply nonul_cons in Ha as [Hc Ha]. apply nonul_cons in Hb as [Hd Hb].
    destruct (Z.eqb_spec c 0); [lia|]. cbn [negb andb]. destruct (Z.eqb_spec c d) as [->|Hne].
    + destruct (IH b Ha Hb) as (z & Hz & E). exists z. split; [done|]. rewrite E.
      apply bool_decide_ext. naive_solver.
    + exists (c - d). split; [done|]. rewrite bool_decide_false by naive_solver. apply Z.eqb_neq. lia.
Qed.

(** The mount points are C strings. *)
Definition mounts_ok (l : list vfs_mount_t) : Prop := Forall (fun m => terminated (m_path m)) l.

Abbreviation mpath m := (cstr (m_path m)).

Lemma mount_match m p r :
  terminated (m_path m) -> nonul p ->
  strlen (m_path m) = Some (Z.of_nat (length (mpath m))) /\
  exists z, strncmp (p ++ 0 :: r) (m_path m) (length (mpath m)) = Some z /\
    (z =? 0) = bool_decide (mpath m `prefix_of` p).
Proof.
  intros (s & r' & Hs & ->) Hp. rewrite cstr_app by done. split; [by apply strlen_spec|].
  by apply strncmp_prefix.
Qed.

(** The mount chosen by the scan: a longest match, the first of its length,
    better than the one carried in. *)
Lemma best_mount_spec l p r best n :
  mounts_ok l -> nonul p -> 0 <= n ->
  exists res, best_mount l (p ++ 0 :: r) best n = Some res /\
    ((res = best /\ forall m, m ∈ l -> mpath m `prefix_of` p -> Z.of_nat (length (mpath m)) <= n) \/
     exists m pre post, res = Some m /\ l = pre ++ m :: post /\ mpath m `prefix_of` p /\
       n < Z.of_nat (length (mpath m)) /\
       (forall m', m' ∈ l -> mpath m' `prefix_of` p -> (length (mpath m') <= length (mpath m))%nat) /\
       (forall m', m' ∈ pre -> mpath m' `prefix_of` p -> (length (mpath m') < length (mpath m))%nat)).
Proof.
  revert best n. induction l as [|m l IH]; intros best n Hok Hp Hn.
  - exists best. split; [done|]. left. split; [done|]. by intros m ?%elem_of_nil.
  - apply Forall_cons in Hok as [Hm Hok]. destruct (mount_match m p r Hm Hp) as (Hlen & z & Hz & Hb).
    cbn [best_mount]. rewrite Hlen. cbn [mbind option_bind]. rewrite Nat2Z.id, Hz. cbn [mbind option_bind].
    rewrite Hb. destruct (bool_decide_reflect (mpath m `prefix_of` p)) as [Hpre|Hpre]; cbn [andb].
    + destruct (Z.ltb_spec n (Z.of_nat (length (mpath m)))).
      * destruct (IH (Some m) (Z.of_nat (length (mpath m))) Hok Hp ltac:(lia)) as (res & Hres & Hcase).
        exists res. split; [done|]. right. destruct Hcase as [[-> Hall]|(m' & pre & post & -> & -> & Hp' & Hlt & Hall & Hfst)].
        -- exists m, [], l. split_and!; [done|done|done|done| |by intros ? ?%elem_of_nil].
           intros m' [->|Hin]%elem_of_cons Hpm; [done|]. specialize (Hall _ Hin Hpm). lia.
        -- exists m', (m :: pre), post. split_and!; [done|done|done|lia| |].
           ++ intros m2 [->|Hin]%elem_of_cons Hpm; [lia|by apply Hall].
           ++ intros m2 [->|Hin]%elem_of_cons Hpm; [lia|by apply Hfst].
      * destruct (IH best n Hok Hp Hn) as (res & Hres & Hcase). exists res. split; [done|].
        destruct Hcase as [[-> Hall]|(m' & pre & post & -> & -> & Hp' & Hlt & Hall & Hfst)].
        -- left. split; [done|]. intros m' [->|Hin]%elem_of_cons Hpm; [lia|by apply Hall].
        -- right. exists m', (m :: pre), post. split_and!; [done|done|done|lia| |];
           intros m2 [->|Hin]%elem_of_cons Hpm; (lia || (by apply Hall) || (by apply Hfst)).
    + destruct (IH best n Hok Hp Hn) as (res & Hres & Hcase). exists res. split; [done|].
      destruct Hcase as [[-> Hall]|(m' & pre & post & -> & -> & Hp' & Hlt & Hall & Hfst)].
      * left. split; [done|]. intros m' [->|Hin]%elem_of_cons Hpm; [done|by apply Hall].
      * right. exists m', (m :: pre), post. split_and!; [done|done|done|lia| |];
          intros m2 [->|Hin]%elem_of_cons Hpm; (done || (by apply Hall) || (by apply Hfst)).
Qed.

(** Path resolution picks a mount point that is a prefix of the path and that
    no other matching mount point is longer than; among equally long ones the most
    recently mounted one.  NULL is returned exactly when the path is not absolute
    or no (non-empty) mount point is a prefix of it. *)
Theorem vfs_get_filesystem_longest {W : Type} (v : vfs_state W) (p : buf) :
  mounts_ok (mount_list v) -> nonul p ->
  exists r, vfs_get_filesystem v (Some (p ++ [0])) = Some r /\
    match r with
    | Some fs => head p = Some 47 /\
        exists m pre post, mount_list v = pre ++ m :: post /\ m_fs m = fs /\
          mpath m `prefix_of` p /\ mpath m <> [] /\
          (forall m', m' ∈ mount_list v -> mpath m' `prefix_of` p ->
             (length (mpath m') <= length (mpath m))%nat) /\
          (forall m', m' ∈ pre -> mpath m' `prefix_of` p ->
             (length (mpath m') < length (mpath m))%nat)
    | None => head p = Some 47 -> forall m, m ∈ mount_list v -> mpath m `prefix_of` p -> mpath m = []
    end.
Proof.
  intros Hok Hp. unfold vfs_get_filesystem.
  destruct p as [|c p]; [exists None; done|]. change (rd ((c :: p) ++ [0]) 0) with (Some c). cbn [mbind option_bind].
  destruct (Z.eqb_spec c 47) as [->|Hne]; cbn [negb]; [|exists None; split; [done|]; simpl; intros; by simplify_eq].
  destruct (best_mount_spec (mount_list v) (47 :: p) [] None 0 Hok Hp ltac:(lia))
    as (res & -> & [[-> Hall]|(m & pre & post & -> & Hl & Hpre & Hlt & Hall & Hfst)]); cbn [mbind option_bind fmap option_fmap option_map].
  - exists None. split; [done|]. intros _ m Hin Hpm. specialize (Hall m Hin Hpm).
    apply nil_length_inv. lia.
  - exists (Some (m_fs m)). split; [done|]. split; [done|]. exists m, pre, post.
    split_and!; [done..| |done|done]. intros E. rewrite E in Hlt. simpl in Hlt. lia.
Qed.

(** A file system is reached under one mount point only. *)
Definition mounts_distinct (l : list vfs_mount_t) : Prop := NoDup (map m_fs l).

Lemma relative_from_spec l m p rel :
  mounts_ok l -> mounts_distinct l -> m ∈ l -> nonul p -> p = mpath m ++ rel ->
  relative_from l (p ++ [0]) (m_fs m) = Some (match rel with [] => [47; 0] | _ => rel ++ [0] end).
Proof.
  intros Hok Hd Hin Hp ->. induction l as [|m0 l IH]; [by apply elem_of_nil in Hin|].
  apply Forall_cons in Hok as [Hm Hok]. apply NoDup_cons in Hd as [Hnin Hd]. cbn [relative_from].
  destruct (Z.eqb_spec (m_fs m0) (m_fs m)) as [E|E].
  - assert (m0 = m) as ->.
    { apply elem_of_cons in Hin as [|Hin]; [done|]. exfalso. apply Hnin. rewrite E.
      apply list_elem_of_fmap. eauto. }
    destruct (mount_match m (mpath m ++ rel) [] Hm Hp) as (-> & z & Hz & Hb). cbn [mbind option_bind].
    rewrite Nat2Z.id, Hz. cbn [mbind option_bind]. rewrite Hb, bool_decide_true by by apply prefix_app_r.
    rewrite <- app_assoc, from_app. apply nonul_app in Hp as [_ Hrel].
    destruct rel as [|c rel]; [done|]. apply nonul_cons in Hrel as [Hc _]. simpl.
    destruct (Z.eqb_spec c 0); [lia|done].
  - apply elem_of_cons in Hin as [->|Hin]; [done|]. by apply IH.
Qed.

(** The path below a mount point leads to its file system, table and the rest of the path. *)
Lemma resolve_mount {W : Type} (ops_at : Z -> option (vfs_ops W)) (v : vfs_state W)
    (m : vfs_mount_t) (rel : buf) (obj : vfs_filesystem) (tbl : vfs_ops W) :
  mounts_ok (mount_list v) -> mounts_distinct (mount_list v) ->
  m ∈ mount_list v -> m_fs m <> 0 -> nonul (mpath m ++ rel) -> head (mpath m) = Some 47 ->
  (forall m', m' ∈ mount_list v -> mpath m' `prefix_of` mpath m ++ rel -> m' <> m ->
     (length (mpath m') < length (mpath m))%nat) ->
  fs_heap v !! m_fs m = Some obj -> ops_at (fs_ops obj) = Some tbl ->
  resolve ops_at v (mpath m ++ rel ++ [0]) = Some (Some (m_fs m, obj, tbl, match rel with [] => [47; 0] | _ => rel ++ [0] end)).
Proof.
  intros Hok Hd Hin Hnz Hp Hhd Hlong Hobj Htbl.
  unfold resolve, vfs_get_filesystem. rewrite app_assoc.
  destruct (mpath m ++ rel) as [|c p] eqn:E; [by destruct (mpath m)|].
  replace c with 47 in * by (destruct (mpath m); simpl in *; congruence).
  change (rd ((47 :: p) ++ [0]) 0) with (Some 47). cbn [mbind option_bind Z.eqb Pos.eqb negb].
  destruct (best_mount_spec (mount_list v) (47 :: p) [] None 0 Hok Hp ltac:(lia))
    as (res & -> & [[-> Hall]|(m' & pre & post & -> & Hl & Hpre & Hlt & Hall & Hfst)]).
  - exfalso. specialize (Hall m Hin). destruct (mpath m); [done|].
    rewrite <- E in Hall. specialize (Hall (prefix_app_r _ _ _ (reflexivity _))). simpl in Hall. lia.
  - assert (m' = m) as ->.
    { assert (mpath m `prefix_of` 47 :: p) as Hpm by (rewrite <- E; by apply prefix_app_r).
      specialize (Hall m Hin Hpm). destruct (decide (m_fs m' = m_fs m)) as [Ef|Ef].
      - assert (m' ∈ mount_list v) as Hin' by (rewrite Hl; apply elem_of_app; right; by left).
        apply list_elem_of_lookup in Hin as [i Hi]. apply list_elem_of_lookup in Hin' as [j Hj].
        assert (i = j) as ->; [|congruence].
        apply (NoDup_lookup (map m_fs (mount_list v)) _ _ (m_fs m) Hd); rewrite list_lookup_fmap;
          [by rewrite Hi|by rewrite Hj; simpl; rewrite Ef].
      - assert (m' <> m) as Hne by congruence.
        assert (m' ∈ mount_list v) as Hin' by (rewrite Hl; apply elem_of_app; right; by left).
        specialize (Hlong m' Hin' Hpre Hne). lia. }
    cbn [mbind option_bind fmap option_fmap option_map]. unfold vfs_get_relative_path.
    destruct (Z.eqb_spec (m_fs m) 0); [done|]. rewrite <- E in *.
    rewrite (relative_from_spec (mount_list v) m _ rel) by done.
    cbn [mbind option_bind fmap option_fmap option_map]. rewrite Hobj. cbn [mbind option_bind].
    rewrite Htbl. done.
Qed.

(** A path below a mount point that names a file is not "/". *)
Lemma skip_slash_rel (rel nm : buf) : skip_slash (rel ++ [0]) = Some (nm ++ [0]) -> nm <> [] -> rel <> [] /\ rel <> [47].
Proof.
  intros E Hn. split; intros ->; cbn in E; injection E as E; apply Hn; [by destruct nm as [|? [|]]|]. by destruct nm as [|? [|]].
Qed.

Lemma not_root_path (rel nm : buf) : nonul rel -> skip_slash (rel ++ [0]) = Some (nm ++ [0]) -> nm <> [] ->
  exists z, strcmp (rel ++ [0]) [47; 0] = Some z /\ (z =? 0) = false.
Proof.
  intros Hrel Esk Hne. destruct (skip_slash_rel rel nm Esk Hne) as [_ Hr2].
  destruct (strcmp_eq rel [47] [] [] Hrel ltac:(by repeat constructor)) as (z & Ez & Hz). exists z. split; [done|].
  rewrite Hz. by apply bool_decide_false.
Qed.

(** A file system [obj] with table [tbl], mounted at [m], that the path [mpath m ++ rel]
    leads to. *)
Record mounted_at {W : Type} (ops_at : Z -> option (vfs_ops W)) (v : vfs_state W) (m : vfs_mount_t) (rel : buf) (obj : vfs_filesystem)
    (tbl : vfs_ops W) : Prop := Mk_mounted_at {
  mt_ok : mounts_ok (mount_list v); mt_distinct : mounts_distinct (mount_list v);
  mt_in : m ∈ mount_list v; mt_fs : m_fs m <> 0; mt_path : nonul (mpath m ++ rel); mt_abs : head (mpath m) = Some 47;
  mt_longest : forall m', m' ∈ mount_list v -> mpath m' `prefix_of` mpath m ++ rel -> m' <> m -> (length (mpath m') < length (mpath m))%nat;
  mt_obj : fs_heap v !! m_fs m = Some obj; mt_ops : ops_at (fs_ops obj) = Some tbl
}.

Section Mounted.
Context {W : Type} (ops_at : Z -> option (vfs_ops W)) (v : vfs_state W) (m : vfs_mount_t) (rel : buf) (obj : vfs_filesystem) (tbl : vfs_ops W).
Context (Hm : mounted_at ops_at v m rel obj tbl).

Lemma mounted_resolve :
  resolve ops_at v (mpath m ++ rel ++ [0]) = Some (Some (m_fs m, obj, tbl, match rel with [] => [47; 0] | _ => rel ++ [0] end)).
Proof. destruct Hm. by apply resolve_mount. Qed.

(** What the driver answers is what the VFS returns. *)
Lemma mounted_open open res node w : rel <> [] -> op_open tbl = Some open -> open (world v) (m_fs m) obj (rel ++ [0]) = (res, node, w) ->
  vfs_open ops_at v (Some (mpath m ++ rel ++ [0])) true = Some (res, Some node, with_world v w).
Proof.
  intros Hr Ho E. unfold vfs_open. cbn [negb]. rewrite mounted_resolve. cbn [mbind option_bind]. rewrite Ho.
  replace (match rel with [] => [47; 0] | _ => rel ++ [0] end) with (rel ++ [0]) by (by destruct rel). by rewrite E.
Qed.

Lemma mounted_node w node : n_fs node = m_fs m -> node_ops ops_at (with_world v w) (Some node) = Some (Some (node, obj, tbl)).
Proof.
  intros Hf. destruct Hm. unfold node_ops. rewrite Hf. destruct (Z.eqb_spec (m_fs m) 0); [done|]. cbn [fs_heap with_world].
  rewrite mt_obj0. cbn [mbind option_bind]. by rewrite mt_ops0.
Qed.

Lemma mounted_read w node read offset size b res b' w' : n_fs node = m_fs m -> op_read tbl = Some read ->
  read w obj node offset size b = (res, b', w') ->
  vfs_read ops_at (with_world v w) (Some node) offset size (Some b) = Some (res, Some b', with_world v w').
Proof. intros Hf Hr E. unfold vfs_read. rewrite mounted_node by done. cbn [mbind option_bind]. by rewrite Hr; cbn [world with_world]; rewrite E. Qed.

Lemma mounted_close w node close res w' : n_fs node = m_fs m -> op_close tbl = Some close -> close w obj node = (res, w') ->
  vfs_close ops_at (with_world v w) (Some node) = Some (res, with_world v w').
Proof. intros Hf Hc E. unfold vfs_close. rewrite mounted_node by done. cbn [mbind option_bind]. by rewrite Hc; cbn [world with_world]; rewrite E. Qed.
End Mounted.

(** C7: an operation on a path reaches the driver of the longest matching mount
    point with the rest of the path behind that mount point ("/" when nothing
    is left), and returns the driver's answer; other mounted file systems are not
    called and the VFS tables do not change.  Shown for [vfs_open]; [vfs_mkdir],
    [vfs_rmdir], [vfs_create] and [vfs_delete] resolve the path the same way. *)
Theorem vfs_path_routes {W : Type} (ops_at : Z -> option (vfs_ops W)) (v : vfs_state W)
    (m : vfs_mount_t) (rel : buf) (obj : vfs_filesystem) (tbl : vfs_ops W) :
  mounts_ok (mount_list v) -> mounts_distinct (mount_list v) ->
  m ∈ mount_list v -> m_fs m <> 0 -> nonul (mpath m ++ rel) -> head (mpath m) = Some 47 ->
  (forall m', m' ∈ mount_list v -> mpath m' `prefix_of` mpath m ++ rel -> m' <> m ->
     (length (mpath m') < length (mpath m))%nat) ->
  fs_heap v !! m_fs m = Some obj -> ops_at (fs_ops obj) = Some tbl ->
  let path := Some (mpath m ++ rel ++ [0]) in
  let rpath := match rel with [] => [47; 0] | _ => rel ++ [0] end in
  vfs_open ops_at v path true =
    Some (match op_open tbl with
          | None => (VFS_ERR_UNSUPPORTED, None, v)
          | Some open => let '(res, n, w) := open (world v) (m_fs m) obj rpath in (res, Some n, with_world v w)
          end) /\
  forall sel : vfs_ops W -> option (W -> Z -> vfs_filesystem -> buf -> Z * W),
    path_op ops_at sel v path =
      Some (match sel tbl with
            | None => (VFS_ERR_UNSUPPORTED, v)
            | Some op => let '(res, w) := op (world v) (m_fs m) obj rpath in (res, with_world v w)
            end).
Proof.
  intros Hok Hd Hin Hnz Hp Hhd Hlong Hobj Htbl path rpath.
  pose proof (resolve_mount ops_at v m rel obj tbl Hok Hd Hin Hnz Hp Hhd Hlong Hobj Htbl) as Hres.
  unfold vfs_open, path_op, path. cbn [negb]. rewrite Hres. cbn [mbind option_bind].
  split; [|intros sel]; [destruct (op_open tbl) as [o|]|destruct (sel tbl) as [o|]]; try done.
  - by destruct (o _ _ _ _) as [[? ?] ?].
  - by destruct (o _ _ _ _) as [? ?].
Qed.

(** ** Registration *)

Lemma strncpy_spec (d n r : buf) (k : nat) :
  nonul n -> (k <= length d)%nat ->
  strncpy d (n ++ 0 :: r) k = Some (take k n ++ replicate (k - length n) 0 ++ drop k d).
Proof.
  revert d n. induction k as [|k IH]; intros d n Hn Hd; [by destruct n|].
  destruct d as [|x d]; [simpl in Hd; lia|]. destruct n as [|c n]; cbn [strncpy app].
  - cbn [Z.eqb]. rewrite zero_pad_spec by done. by rewrite Nat.sub_0_r.
  - apply nonul_cons in Hn as [Hc Hn]. destruct (Z.eqb_spec c 0); [lia|].
    rewrite IH by (done || simpl in Hd; lia). done.
Qed.

(** A name stored in a [char[S k]]: cut to [k] characters, terminated, padded. *)
Lemma store_name (d n r : buf) (k : nat) :
  nonul n -> length d = S k ->
  exists b, (x ← strncpy d (n ++ 0 :: r) k; wr x (Z.of_nat k) 0) = Some b /\
    length b = S k /\ terminated b /\ cstr b = take k n.
Proof.
  intros Hn Hd. rewrite strncpy_spec by (done || lia). cbn [mbind option_bind].
  assert (length (drop k d) = 1%nat) as Hl by list_lia.
  destruct (drop k d) as [|y [|]] eqn:E; try done.
  unfold wr, blen. assert (length (take k n ++ replicate (k - length n) 0 ++ [y]) = S k) as Hlen by list_lia.
  rewrite Hlen. destruct (Z.leb_spec 0 (Z.of_nat k)), (Z.ltb_spec (Z.of_nat k) (Z.of_nat (S k))); try lia.
  cbn [andb]. eexists. split; [done|]. rewrite length_insert. split; [done|].
  rewrite Nat2Z.id, app_assoc, insert_app_r_alt by list_lia.
  replace (k - length (take k n ++ replicate (k - length n) 0%Z))%nat with 0%nat by list_lia.
  cbn [insert list_insert]. change (u8 0) with 0. assert (nonul (take k n)) by by apply Forall_take.
  rewrite <- app_assoc. destruct (k - length n)%nat; cbn [replicate app].
  - split; [by exists (take k n), []|by apply cstr_app].
  - split; [by eexists (take k n), _|by apply cstr_app].
Qed.

Lemma copy_name_spec (k : nat) (n r : buf) :
  nonul n -> exists b, copy_name k (n ++ 0 :: r) = Some b /\ terminated b /\ cstr b = take k n.
Proof.
  intros Hn. destruct (store_name (replicate (S k) 0) n r k Hn (length_replicate _ _))
    as (b & Hb & _ & ? & ?). by exists b.
Qed.

Definition count_registered (l : list fs_registration) : Z := Z.of_nat (length (List.filter registered l)).

Definition reg_ok (r : fs_registration) : Prop :=
  length (r_name r) = 32%nat /\ (registered r = true -> terminated (r_name r) /\ r_ops r <> 0).

(** The table has ten entries with proper names, and [fs_count] counts the used ones. *)
Definition regs_ok {W} (v : vfs_state W) : Prop :=
  Z.of_nat (length (registered_filesystems v)) = MAX_FILESYSTEMS /\
  fs_count v = count_registered (registered_filesystems v) /\
  Forall reg_ok (registered_filesystems v).

Definition has_name (l : list fs_registration) (n : buf) : Prop :=
  exists r, r ∈ l /\ registered r = true /\ cstr (r_name r) = n.

Lemma find_registered_spec l n rest :
  Forall reg_ok l ->
  nonul n ->
  exists f, find_registered l (n ++ 0 :: rest) = Some f /\
    match f with Some o => has_name l n /\ o <> 0 | None => ~ has_name l n end.
Proof.
  intros Hok Hn. induction Hok as [|r l [Hl Hr] Hok IH]; cbn [find_registered].
  - exists None. split; [done|]. intros (r & Hr & _). by apply elem_of_nil in Hr.
  - destruct IH as (f & Hf & Hc). destruct (registered r) eqn:E.
    + destruct (Hr eq_refl) as ((s & s' & Hs & Hrs) & Hro). rewrite Hrs.
      destruct (strcmp_eq s n s' rest Hs Hn) as (z & -> & Hz). cbn [mbind option_bind]. rewrite Hz.
      destruct (bool_decide_reflect (s = n)) as [->|Hne].
      * eexists. split; [done|]. split; [|done]. exists r. split; [by left|]. split; [done|]. by rewrite Hrs, cstr_app.
      * exists f. split; [done|]. destruct f as [o|].
        -- destruct Hc as [(r' & H1 & H2) Ho]. split; [|done]. exists r'. split; [by right|done].
        -- intros (r' & [->|Hin]%elem_of_cons & H2 & H3); [|apply Hc; by exists r'].
           rewrite Hrs, cstr_app in H3 by done. done.
    + exists f. split; [done|]. destruct f as [o|].
      * destruct Hc as [(r' & H1 & H2) Ho]. split; [|done]. exists r'. split; [by right|done].
      * intros (r' & [->|Hin]%elem_of_cons & H2 & H3); [congruence|apply Hc; by exists r'].
Qed.

Lemma fill_slot_spec l n rest o :
  Forall reg_ok l ->
  nonul n -> o <> 0 -> (length n <= 31)%nat -> ~ has_name l n -> count_registered l < Z.of_nat (length l) ->
  exists l', fill_slot l (n ++ 0 :: rest) o = Some (Some l') /\ length l' = length l /\
    count_registered l' = count_registered l + 1 /\
    Forall reg_ok l' /\
    find_registered l' (n ++ 0 :: rest) = Some (Some o).
Proof.
  intros Hok Hn Ho Hln. unfold count_registered.
  induction Hok as [|r l [Hl Hr] Hok IH]; intros Hno Hc; cbn [fill_slot List.filter length] in *; [lia|].
  destruct (registered r) eqn:E; cbn [length] in *.
  - destruct IH as (l' & -> & Hlen & Hcnt & Hok' & Hfind); [intros (r' & ? & ?); apply Hno; exists r'; split; [by right|done]|lia|].
    cbn [mbind option_bind option_map]. eexists. split; [done|]. cbn [List.filter length find_registered]. rewrite E.
    cbn [length]. split; [lia|]. split; [lia|]. split; [by constructor; [split; [done|intros _; by apply Hr]|]|].
    destruct (Hr eq_refl) as ((s & s' & Hs & Hrs) & _). rewrite Hrs.
    destruct (strcmp_eq s n s' rest Hs Hn) as (z & -> & Hz). cbn [mbind option_bind]. rewrite Hz.
    rewrite bool_decide_false; [done|]. intros ->. apply Hno. exists r. split; [by left|]. by rewrite Hrs, cstr_app.
  - destruct (store_name (r_name r) n rest 31 Hn Hl) as (b & Hb & Hlb & (s & s' & Hs & Hbs) & Hcb).
    change (Z.of_nat 31) with 31 in Hb. destruct (strncpy (r_name r) (n ++ 0 :: rest) 31); [|done].
    cbn [mbind option_bind] in *. rewrite Hb. cbn [mbind option_bind]. eexists. split; [done|].
    cbn [List.filter registered length find_registered r_name]. split; [done|]. split; [lia|].
    split; [constructor; [|done]; simpl; split; [done|]; intros _; split; [by exists s, s'|done]|].
    rewrite take_ge in Hcb by lia. rewrite Hbs, cstr_app in Hcb by done. subst s. rewrite Hbs.
    destruct (strcmp_eq n n s' rest Hs Hn) as (z & -> & Hz). cbn [mbind option_bind]. rewrite Hz.
    by rewrite bool_decide_true.
Qed.

(** The registration table keeps its invariant.  A name that fits the 32-byte
    field is registered exactly when it is new and a slot is left, and a mount then
    finds the driver under that name; the other outcomes are the two error codes,
    with the table unchanged. *)
Theorem vfs_register_spec {W : Type} (v : vfs_state W) (n : buf) (ops : Z) :
  regs_ok v -> nonul n -> (length n <= 31)%nat -> ops <> 0 ->
  exists code v', vfs_register_filesystem v (Some (n ++ [0])) ops = Some (code, v') /\ regs_ok v' /\
    ((code = VFS_ERR_NO_MEMORY /\ v' = v /\ fs_count v = MAX_FILESYSTEMS) \/
     (code = VFS_ERR_EXISTS /\ v' = v /\ has_name (registered_filesystems v) n) \/
     (code = VFS_OK /\ ~ has_name (registered_filesystems v) n /\ fs_count v' = fs_count v + 1 /\
      find_registered (registered_filesystems v') (n ++ [0]) = Some (Some ops) /\
      mount_list v' = mount_list v)).
Proof.
  intros Hregs Hn Hln Ho. pose proof Hregs as (Hlen & Hcnt & Hok). unfold vfs_register_filesystem.
  assert (count_registered (registered_filesystems v) <= Z.of_nat (length (registered_filesystems v))) as Hle.
  { unfold count_registered. pose proof (List.filter_length_le registered (registered_filesystems v)). lia. }
  destruct (Z.leb_spec MAX_FILESYSTEMS (fs_count v)).
  { eexists _, v. split; [done|]. split; [done|]. left. split_and!; [done|done|lia]. }
  destruct (Z.eqb_spec ops 0); [done|].
  destruct (find_registered_spec _ n [] Hok Hn) as (f & -> & Hf). cbn [mbind option_bind].
  destruct f as [o|].
  { eexists _, v. split; [done|]. split; [done|]. right. left. by destruct Hf. }
  destruct (fill_slot_spec _ n [] ops Hok Hn Ho Hln Hf ltac:(lia)) as (l' & -> & Hl' & Hc' & Hok' & Hfind).
  cbn [mbind option_bind]. eexists _, _. split; [done|]. split.
  - split_and!; simpl; [lia|lia|done].
  - right. right. split_and!; done.
Qed.

(** A registration changes only what is found under its own name. *)
Lemma fill_slot_keeps l n m o l' o' : Forall reg_ok l -> nonul n -> nonul m -> n <> m -> (length n <= 31)%nat ->
  fill_slot l (n ++ [0]) o = Some (Some l') -> find_registered l (m ++ [0]) = Some o' -> find_registered l' (m ++ [0]) = Some o'.
Proof.
  intros Hok Hn Hm Hne Hlen. revert l'. induction Hok as [|r l [Hl Hr] Hok IH]; intros l'; cbn [fill_slot find_registered]; [done|].
  destruct (registered r) eqn:E.
  - destruct (fill_slot l (n ++ [0]) o) as [[k|]|] eqn:Ef; cbn [mbind option_bind option_map]; try done. intros [= <-]. cbn [find_registered]. rewrite E.
    destruct (strcmp (r_name r) (m ++ [0])) as [z|]; [|done]. cbn [mbind option_bind]. destruct (z =? 0); [done|]. by apply IH.
  - destruct (store_name (r_name r) n [] 31 Hn Hl) as (b & Hb & _ & (x & x' & Hx & Ebx) & Hcb). change (Z.of_nat 31) with 31 in Hb.
    destruct (strncpy (r_name r) (n ++ [0]) 31); [|done]. cbn [mbind option_bind] in *. rewrite Hb. cbn [mbind option_bind]. intros [= <-] Hf. cbn [find_registered registered r_name].
    rewrite take_ge, Ebx, cstr_app in Hcb by (done || lia). subst x. rewrite Ebx. destruct (strcmp_eq n m x' [] Hx Hm) as (z & -> & Hz). cbn [mbind option_bind].
    rewrite Hz, bool_decide_false by done. done.
Qed.

Lemma register_keeps {W} (v v' : vfs_state W) n ops c m o : regs_ok v -> nonul n -> nonul m -> n <> m -> (length n <= 31)%nat ->
  vfs_register_filesystem v (Some (n ++ [0])) ops = Some (c, v') -> find_registered (registered_filesystems v) (m ++ [0]) = Some o ->
  find_registered (registered_filesystems v') (m ++ [0]) = Some o.
Proof.
  intros (_ & _ & Hok) Hn Hm Hne Hl. unfold vfs_register_filesystem. destruct (_ <=? _); [by intros [= _ <-]|]. destruct (ops =? 0); [by intros [= _ <-]|].
  destruct (find_registered _ (n ++ [0])) as [[]|]; cbn [mbind option_bind]; [by intros [= _ <-]| |done].
  destruct (fill_slot _ _ _) as [[k|]|] eqn:Ef; cbn [mbind option_bind]; [|by intros [= _ <-]|done]. intros [= _ <-] Hf. exact (fill_slot_keeps _ n m ops k o Hok Hn Hm Hne Hl Ef Hf).
Qed.

(** ** Mounting *)

Definition same_tables {W} (v v' : vfs_state W) : Prop :=
  registered_filesystems v' = registered_filesystems v /\ mount_list v' = mount_list v /\
  fs_count v' = fs_count v /\ fs_heap v' = fs_heap v.

(** What a mount does to the tables, whatever the driver and the allocator answer. *)
Lemma mount_result {W : Type} (ops_at : Z -> option (vfs_ops W)) (malloc : W -> Z -> Z * W) (free : W -> Z -> W) (v : vfs_state W)
    (t p r : buf) (drive o : Z) (tbl : vfs_ops W) :
  nonul t -> nonul p -> (length p <= 255)%nat -> drive <> 0 -> find_registered (registered_filesystems v) (t ++ [0]) = Some (Some o) -> o <> 0 ->
  ops_at o = Some tbl -> is_Some (op_unmount tbl) ->
  exists code v1, vfs_mount ops_at malloc free v drive (Some (t ++ [0])) (Some (p ++ 0 :: r)) = Some (code, v1) /\
    registered_filesystems v1 = registered_filesystems v /\
    if code =? VFS_OK then exists m, mount_list v1 = m :: mount_list v /\ mpath m = p else mount_list v1 = mount_list v.
Proof.
  intros Ht Hp Hlp Hd Hfind Ho Htbl (um & Hum). unfold vfs_mount. destruct (Z.eqb_spec drive 0); [done|]. rewrite Hfind. cbn [mbind option_bind].
  destruct (Z.eqb_spec o 0); [done|]. destruct (malloc (world v) sizeof_filesystem) as [a w1]. destruct (Z.eqb_spec a 0); [by eexists _, _|].
  destruct (copy_name_spec 31 t [] Ht) as (nm & -> & _). cbn [mbind option_bind]. rewrite Htbl. cbn [mbind option_bind].
  destruct (op_mount tbl w1 a (Mk_fs nm drive o 0 0) drive) as [[res obj] w2]. destruct (Z.eqb_spec res VFS_OK) as [|Hres]; cbn [negb].
  2: { eexists res, _. split; [done|]. rewrite (proj2 (Z.eqb_neq _ _) Hres). done. }
  destruct (malloc w2 sizeof_mount) as [b w3]. destruct (Z.eqb_spec b 0).
  { rewrite Hum. cbn [mbind option_bind]. destruct (um w3 a obj) as [? w4]. by eexists _, _. }
  destruct (copy_name_spec 255 p r Hp) as (pm & -> & _ & Hcp). cbn [mbind option_bind]. eexists _, _. split; [done|]. split; [done|].
  rewrite take_ge in Hcp by lia. by exists (Mk_mount b pm a).
Qed.

(** [vfs_mount] either fails and leaves the mount list, the registration table
    and the set of live file-system objects as they were (nothing leaks on any
    error path, and the driver's own error code is passed on), or succeeds with the
    new mount point in front of the list; unmounting that path then restores the
    mount list and destroys exactly the object created.  The driver's table has an
    [unmount] entry and its [mount] does not change the object's table pointer. *)
Theorem vfs_mount_unmount {W : Type} (ops_at : Z -> option (vfs_ops W))
    (malloc : W -> Z -> Z * W) (free : W -> Z -> W) (v : vfs_state W)
    (t p : buf) (drive o : Z) (tbl : vfs_ops W) (um : W -> Z -> vfs_filesystem -> Z * W) :
  regs_ok v -> nonul t -> nonul p -> (length p <= 255)%nat -> drive <> 0 ->
  find_registered (registered_filesystems v) (t ++ [0]) = Some (Some o) -> o <> 0 ->
  ops_at o = Some tbl -> op_unmount tbl = Some um ->
  (forall w a obj d, fs_ops (snd (fst (op_mount tbl w a obj d))) = fs_ops obj) ->
  fs_heap v !! fst (malloc (world v) sizeof_filesystem) = None ->
  exists code v1, vfs_mount ops_at malloc free v drive (Some (t ++ [0])) (Some (p ++ [0])) = Some (code, v1) /\
    if code =? VFS_OK then
      (exists m, mount_list v1 = m :: mount_list v /\ mpath m = p /\ terminated (m_path m) /\
         is_Some (fs_heap v1 !! m_fs m)) /\
      exists v2, vfs_unmount ops_at free v1 (Some (p ++ [0])) = Some (VFS_OK, v2) /\ same_tables v v2
    else same_tables v v1.
Proof.
  intros Hregs Ht Hp Hlp Hd Hfind Ho Htbl Hum Hkeep Hfresh. unfold vfs_mount.
  destruct (Z.eqb_spec drive 0); [done|]. rewrite Hfind. cbn [mbind option_bind].
  destruct (Z.eqb_spec o 0); [done|].
  destruct (malloc (world v) sizeof_filesystem) as [a w1] eqn:Ea. simpl in Hfresh.
  destruct (Z.eqb_spec a 0); [eexists _, _; split; [done|]; by split_and!|].
  destruct (copy_name_spec 31 t [] Ht) as (nm & -> & _). cbn [mbind option_bind]. rewrite Htbl. cbn [mbind option_bind].
  pose proof (Hkeep w1 a (Mk_fs nm drive o 0 0) drive) as Hk.
  destruct (op_mount tbl w1 a (Mk_fs nm drive o 0 0) drive) as [[res obj] w2]. simpl in Hk.
  destruct (Z.eqb_spec res VFS_OK) as [|Hres]; cbn [negb].
  2: { eexists res, _. split; [done|]. rewrite (proj2 (Z.eqb_neq _ _) Hres). by split_and!. }
  destruct (malloc w2 sizeof_mount) as [b w3].
  destruct (Z.eqb_spec b 0).
  { rewrite Hum. cbn [mbind option_bind]. destruct (um w3 a obj) as [? w4]. eexists _, _. split; [done|]. by split_and!. }
  destruct (copy_name_spec 255 p [] Hp) as (pm & -> & Htp & Hcp). cbn [mbind option_bind]. eexists _, _. split; [done|].
  rewrite take_ge in Hcp by lia. cbn [Z.eqb VFS_OK]. split.
  - exists (Mk_mount b pm a). split_and!; [done|exact Hcp|exact Htp|]. exists obj. apply lookup_insert_eq.
  - destruct Htp as (s & s' & Hs & Epm). rewrite Epm, cstr_app in Hcp by done. subst s.
    unfold vfs_unmount. cbn [mount_list unlink_mount m_path].
    destruct (strcmp_eq p p s' [] Hs Hp) as (z & Hz & Hz0). rewrite Epm, Hz. cbn [mbind option_bind].
    rewrite Hz0, bool_decide_true by done. cbn [mbind option_bind m_fs fs_heap]. rewrite lookup_insert_eq.
    cbn [mbind option_bind]. rewrite Hk, Htbl. cbn [mbind option_bind]. eexists. split; [done|].
    unfold same_tables; simpl. split_and!; [done..|]. by rewrite delete_insert_id.
Qed.

(** ** Witnesses *)

(** A driver whose operations succeed; [mkdir] records the path it was given. *)
Definition ram_ops : vfs_ops (list buf) :=
  Mk_ops (fun w _ obj _ => (0, obj, w)) (Some (fun w _ _ => (0, w)))
         (Some (fun w fs _ p => (0, Mk_node 1 p VFS_FILE 0 0 0 fs 0, w)))
         None None None None (Some (fun w _ _ p => (0, w ++ [p]))) None None None None.
Definition ram_at (a : Z) : option (vfs_ops (list buf)) := if a =? 8 then Some ram_ops else None.
Definition bump_malloc (w : list buf) (n : Z) : Z * list buf := (4096 + n, w).
Definition no_free (w : list buf) (p : Z) : list buf := w.

Definition pad_name (s : string) : buf := lit_bytes s ++ replicate (32 - length (lit_bytes s)) 0.

Definition vfs0 : vfs_state (list buf) :=
  Mk_vfs (Mk_reg (pad_name "ram") 8 true :: replicate 9 (Mk_reg (replicate 32 0) 0 false)) [] 1 ∅ [].

Definition vfs2 : vfs_state (list buf) :=
  Mk_vfs (registered_filesystems vfs0)
         [Mk_mount 50 (lit "/mnt") 60; Mk_mount 30 (lit "/") 40] 1
         (<[60 := Mk_fs (pad_name "ram") 1 8 0 0]> (<[40 := Mk_fs (pad_name "ram") 2 8 0 0]> ∅)) [].

Lemma vfs2_mounts : mounts_ok (mount_list vfs2).
Proof.
  repeat constructor; [exists (lit_bytes "/mnt"), []|exists (lit_bytes "/"), []]; (split; [|done]); by repeat constructor.
Qed.

Lemma vfs0_regs : regs_ok vfs0.
Proof.
  split_and!; [done..|]. constructor.
  - split; [done|]. intros _. split; [|done]. exists (lit_bytes "ram"), (replicate 28 0).
    split; [by repeat constructor|done].
  - by apply Forall_replicate.
Qed.

Lemma vfs_get_filesystem_longest_witness :
  exists r, vfs_get_filesystem vfs2 (Some (lit "/mnt/a")) = Some r /\ r = Some 60.
Proof.
  destruct (vfs_get_filesystem_longest vfs2 (lit_bytes "/mnt/a") vfs2_mounts) as (r & E & _);
    [by repeat constructor|]. exists r. split; [done|]. vm_compute in E. by injection E as <-.
Defined.

Lemma vfs_path_routes_witness :
  path_op ram_at op_mkdir vfs2 (Some (lit "/mnt/a")) =
    Some (0, with_world vfs2 [lit "/a"]).
Proof.
  refine (proj2 (vfs_path_routes ram_at vfs2 (Mk_mount 50 (lit "/mnt") 60) (lit_bytes "/a")
            (Mk_fs (pad_name "ram") 1 8 0 0) ram_ops vfs2_mounts _ _ _ _ _ _ _ _) op_mkdir);
    try done; try (by repeat constructor).
  - apply NoDup_cons. split; [by intros ?%list_elem_of_singleton|apply NoDup_singleton].
  - intros m' Hin _ Hne. apply elem_of_cons in Hin as [->|Hin]; [done|].
    apply list_elem_of_singleton in Hin as ->. vm_compute. lia.
Defined.

Lemma vfs_register_spec_witness :
  exists code v', vfs_register_filesystem vfs0 (Some (lit "fat32")) 12 = Some (code, v') /\ code = VFS_OK.
Proof.
  destruct (vfs_register_spec vfs0 (lit_bytes "fat32") 12 vfs0_regs) as (c & v' & E & _);
    [by repeat constructor|vm_compute; lia|done|].
  exists c, v'. split; [done|]. vm_compute in E. by injection E as <- _.
Defined.

Lemma vfs_mount_unmount_witness :
  exists code v1, vfs_mount ram_at bump_malloc no_free vfs0 1 (Some (lit "ram")) (Some (lit "/r")) = Some (code, v1) /\
    code = VFS_OK.
Proof.
  destruct (vfs_mount_unmount ram_at bump_malloc no_free vfs0 (lit_bytes "ram") (lit_bytes "/r") 1 8 ram_ops
              (fun w _ _ => (0, w)) vfs0_regs) as (c & v1 & E & _);
    try done; try (by repeat constructor); try (vm_compute; lia).
  exists c, v1. split; [done|]. vm_compute in E. by injection E as <- _.
Defined.

(** The prefix test of the path resolution ignores component boundaries: with
    a file system mounted at /mnt, the path /mnt2/a, which is not below that mount
    point, is sent to it as the relative path 2/a. *)
Theorem vfs_prefix_ignores_boundary :
  resolve ram_at vfs2 (lit "/mnt2/a") =
    Some (Some (60, Mk_fs (pad_name "ram") 1 8 0 0, ram_ops, lit "2/a")).
Proof. vm_compute. reflexivity. Qed.
