(* ===== verification/Sched.v ===== *)
(** kernel/sched/scheduler.c, switch.asm and kernel/proc/process.c: tasks, processes, the
    context switch.

    The machine state is the task table, the callee-saved registers with the
    instruction pointer, and the words of memory that the stacks are made of.  A
    read of a word that was never written, an access outside the task table and a
    division by zero are undefined behaviour and yield [None], as does the search
    for a runnable task when there is none (it does not end).  The heap is that of
    Kmalloc.v; loading a program from disk is a parameter, and the subject of Loader.v. *)

From stdpp Require Import strings.
From S2P Require Import Prelude CString Spinlock Kmalloc.

Definition MAX_TASKS : Z := 8.
Definition TASK_READY : Z := 0.
Definition TASK_RUNNING : Z := 1.
Definition TASK_SLEEPING : Z := 2.
Definition TASK_FINISHED : Z := 3.
Definition STACK_SIZE : Z := 8192. (* 1024*8 *)
Definition MAX_PROGRAMS : Z := 256.
Definition PROGRAM_LOAD_ADDRESS : Z := 17825792. (* 0x01100000 *)

(** [uint32_t *] arithmetic: [p + n] is [n] words further. *)
Definition ptr_add (p n : Z) : Z := u32 (p + 4 * n).

Record context_t := Mk_context { esp : Z; ebp : Z; ebx : Z; esi : Z; edi : Z; eip : Z }.

Record task_t := Mk_task {
  kernel_stack : Z; context : context_t; status : Z; is_started : Z; task_process : Z
}.

Record sched := Mk_sched {
  tasks : list task_t; current_task : Z; num_tasks : Z;
  regs : context_t; mem : gmap Z Z
}.

(** The function [task_exit]'s address. *)
Section Scheduler.
Context (task_exit_addr : Z).

Definition task_at (s : sched) (i : Z) : option task_t :=
  if (0 <=? i) && (i <? MAX_TASKS) then tasks s !! Z.to_nat i else None.

Definition with_task (s : sched) (i : Z) (t : task_t) : sched :=
  Mk_sched (<[Z.to_nat i := t]> (tasks s)) (current_task s) (num_tasks s) (regs s) (mem s).

(** [swtch]: the registers are saved to the old context (its [eip] is not
    written), loaded from the new one, and [ret] pops the instruction pointer. *)
Definition save_context (r c : context_t) : context_t :=
  Mk_context (esp r) (ebp r) (ebx r) (esi r) (edi r) (eip c).

Definition load_context (c : context_t) (m : gmap Z Z) : option context_t :=
  ret ← m !! esp c;
  Some (Mk_context (u32 (esp c + 4)) (ebp c) (ebx c) (esi c) (edi c) ret).

Definition swtch (s : sched) (old : option Z) (new : Z) : option sched :=
  s ← match old with
      | None => Some s
      | Some i => t ← task_at s i;
                  Some (with_task s i (Mk_task (kernel_stack t) (save_context (regs s) (context t))
                                         (status t) (is_started t) (task_process t)))
      end;
  t ← task_at s new;
  r ← load_context (context t) (mem s);
  Some (Mk_sched (tasks s) (current_task s) (num_tasks s) r (mem s)).

(** [current_task = (current_task + 1) % num_tasks], a [uint8_t]. *)
Definition advance (s : sched) (cur : Z) : option Z :=
  if num_tasks s =? 0 then None else Some (u8 ((cur + 1) mod num_tasks s)).

(** [do advance while (tasks[current_task].status == TASK_FINISHED)]; every task
    has been looked at after [num_tasks] rounds. *)
Fixpoint next_task (fuel : nat) (s : sched) (cur : Z) : option Z :=
  match fuel with
  | O => None
  | S fuel' =>
      cur ← advance s cur;
      t ← task_at s cur;
      if status t =? TASK_FINISHED then next_task fuel' s cur else Some cur
  end.

Definition set_current (s : sched) (cur : Z) : sched :=
  Mk_sched (tasks s) cur (num_tasks s) (regs s) (mem s).

(** The first start of a task: its stack gets the entry point and, as the return
    address, [task_exit]. *)
Definition start_task (s : sched) (i : Z) (t : task_t) : sched :=
  let top := ptr_add (kernel_stack t) STACK_SIZE in
  let top1 := u32 (top - 4) in
  let top2 := u32 (top1 - 4) in
  let c := context t in
  let m := <[top2 := eip c]> (<[top1 := task_exit_addr]> (mem s)) in
  let t' := Mk_task (kernel_stack t) (Mk_context top2 (ebp c) (ebx c) (esi c) (edi c) (eip c))
              TASK_RUNNING 1 (task_process t) in
  Mk_sched (<[Z.to_nat i := t']> (tasks s)) (current_task s) (num_tasks s) (regs s) m.

Definition scheduler_interrupt_handler (s : sched) : option sched :=
  let current := current_task s in
  cur ← next_task (S (Z.to_nat (num_tasks s))) s current;
  let s := set_current s cur in
  next ← task_at s cur;
  let s := if is_started next =? 0 then start_task s cur next else s in
  swtch s (Some current) cur.

(** The number of unfinished tasks among the first [n]. *)
Fixpoint active_tasks (l : list task_t) (n : nat) : Z :=
  match n, l with
  | S n', t :: l' => b2z (negb (status t =? TASK_FINISHED)) + active_tasks l' n'
  | _, _ => 0
  end.

Inductive exit_result := Halted (s : sched) | Switched (s : sched).

Definition task_exit (s : sched) : option exit_result :=
  t ← task_at s (current_task s);
  let s := with_task s (current_task s)
             (Mk_task (kernel_stack t) (context t) TASK_FINISHED (is_started t) (task_process t)) in
  if active_tasks (tasks s) (Z.to_nat (num_tasks s)) =? 0 then Some (Halted s) else
  (* [while (finished) advance]: the current task is finished, so it advances first *)
  cur ← next_task (S (Z.to_nat (num_tasks s))) s (current_task s);
  Switched <$> swtch (set_current s cur) None cur.

Definition create_task (s : sched) (entry_point stack process : Z) : sched :=
  if MAX_TASKS <=? num_tasks s then s else
  let t := Mk_task stack (Mk_context (ptr_add stack STACK_SIZE) 0 0 0 0 entry_point) TASK_READY 0 process in
  Mk_sched (<[Z.to_nat (num_tasks s) := t]> (tasks s)) (current_task s) (u8 (num_tasks s + 1)) (regs s) (mem s).

End Scheduler.

(** ** Processes *)

Record Process := Mk_process { pid : Z; p_name : buf; is_running : bool }.

Record kernel := Mk_kernel { process_list : list Process; next_pid : Z; sch : sched; heap : kheap }.

(** The slot search of [create_process]. *)
Fixpoint free_slot (l : list Process) (i : Z) : option Z :=
  match l with
  | [] => None
  | p :: l' => if is_running p then free_slot l' (i + 1) else Some i
  end.

(** Creation in the first free slot, with the program's name and the entry point
    it has once the slot is taken.  The result is the process id, -1 on failure.
    [slot_addr i] is the address of [process_list[i]]. *)
Definition spawn (slot_addr : Z -> Z) (fuel : nat) (k : kernel) (name : buf) (entry : Z) : option (Z * kernel) :=
  match free_slot (process_list k) 0 with
  | None => Some (-1, k)
  | Some i =>
      p ← process_list k !! Z.to_nat i;
      nm ← strncpy (p_name p) name 31;
      nm ← wr nm 31 0;
      let new_pid := next_pid k in
      let pl run := <[Z.to_nat i := Mk_process new_pid nm run]> (process_list k) in
      '(stack, h) ← k_malloc fuel (heap k) STACK_SIZE;
      if stack =? 0 then Some (-1, Mk_kernel (pl false) (s32 (new_pid + 1)) (sch k) h) else
      Some (new_pid, Mk_kernel (pl true) (s32 (new_pid + 1)) (create_task (sch k) entry stack (slot_addr i)) h)
  end.

Definition create_process (slot_addr : Z -> Z) (fuel : nat) (k : kernel) (entry_point : Z) : option (Z * kernel) :=
  spawn slot_addr fuel k (lit "Unknown") entry_point.

(** [load name] is the [entry_point] field found in the header at
    PROGRAM_LOAD_ADDRESS after the attempt to load the file. *)
Definition create_process_for_file (slot_addr : Z -> Z) (load : buf -> Z) (fuel : nat) (k : kernel) (filename : buf)
  : option (Z * kernel) :=
  spawn slot_addr fuel k filename (u32 (load filename + PROGRAM_LOAD_ADDRESS)).

(** The processes [list_running_processes] prints. *)
Definition list_running_processes (k : kernel) : list (Z * buf) :=
  map (fun p => (pid p, p_name p)) (List.filter is_running (process_list k)).

Fixpoint find_pid (l : list Process) (i p : Z) : option Z :=
  match l with
  | [] => None
  | q :: l' => if is_running q && (pid q =? p) then Some i else find_pid l' (i + 1) p
  end.

(** The task that is finished is the one with the index of the process slot. *)
Definition terminate_process (k : kernel) (p : Z) : option kernel :=
  match find_pid (process_list k) 0 p with
  | None => Some k
  | Some i =>
      q ← process_list k !! Z.to_nat i;
      t ← task_at (sch k) i;
      Some (Mk_kernel (<[Z.to_nat i := Mk_process (pid q) (p_name q) false]> (process_list k)) (next_pid k)
              (with_task (sch k) i
                 (Mk_task (kernel_stack t) (context t) TASK_FINISHED (is_started t) (task_process t)))
              (heap k))
  end.

(** * Properties *)

(** The task table has its eight entries, and the current task is registered. *)
Definition sched_ok (s : sched) : Prop :=
  length (tasks s) = 8%nat /\ 1 <= num_tasks s <= MAX_TASKS /\ 0 <= current_task s < num_tasks s.

Definition finished (s : sched) (i : Z) : bool :=
  match tasks s !! Z.to_nat i with Some t => status t =? TASK_FINISHED | None => false end.

(** Some registered task can run. *)
Definition runnable (s : sched) (j : Z) : Prop := 0 <= j < num_tasks s /\ finished s j = false.

Lemma task_at_ok s i :
  length (tasks s) = 8%nat -> 0 <= i < 8 ->
  exists t, task_at s i = Some t /\ tasks s !! Z.to_nat i = Some t /\ finished s i = (status t =? TASK_FINISHED).
Proof.
  intros Hl Hi. destruct (lookup_lt_is_Some_2 (tasks s) (Z.to_nat i)) as [t Ht]; [lia|].
  exists t. unfold task_at, finished, MAX_TASKS. rewrite Ht. by zcase.
Qed.

Lemma advance_ok s cur n :
  num_tasks s = n -> 1 <= n <= 8 -> 0 <= cur -> advance s cur = Some ((cur + 1) mod n).
Proof.
  intros E Hn Hc. unfold advance. rewrite E. destruct (Z.eqb_spec n 0); [lia|].
  pose proof (Z.mod_pos_bound (cur + 1) n). rewrite wrap_small by lia. done.
Qed.

(** The search stops at the first unfinished task behind the current one. *)
Lemma next_task_spec s fuel cur k :
  length (tasks s) = 8%nat -> 1 <= num_tasks s <= MAX_TASKS -> 0 <= cur ->
  1 <= k -> (Z.to_nat k <= fuel)%nat ->
  (forall i, 1 <= i < k -> finished s ((cur + i) mod num_tasks s) = true) ->
  finished s ((cur + k) mod num_tasks s) = false ->
  next_task fuel s cur = Some ((cur + k) mod num_tasks s).
Proof.
  intros Hl Hn. unfold MAX_TASKS in Hn. remember (num_tasks s) as n eqn:E. symmetry in E.
  revert cur k. induction fuel as [|fuel IH]; intros cur k Hc Hk Hf Hfin Hun; [lia|].
  cbn [next_task]. rewrite (advance_ok s cur n) by done. cbn [mbind option_bind].
  pose proof (Z.mod_pos_bound (cur + 1) n ltac:(lia)) as Hb.
  destruct (task_at_ok s ((cur + 1) mod n) Hl ltac:(lia)) as (t & -> & _ & Hft). cbn [mbind option_bind].
  rewrite <- Hft. destruct (decide (k = 1)) as [->|Hne]; [by rewrite Hun|].
  rewrite Hfin by lia.
  assert (forall i, ((cur + 1) mod n + i) mod n = (cur + (i + 1)) mod n) as Hsh.
  { intros i. rewrite Zplus_mod_idemp_l. f_equal. lia. }
  rewrite (IH _ (k - 1)) by (try lia; try (intros i Hi; rewrite Hsh; apply Hfin; lia);
                             rewrite Hsh; by replace (k - 1 + 1) with k by lia).
  f_equal. rewrite Hsh. f_equal. lia.
Qed.

(** The least number of steps to an unfinished task. *)
Lemma least_step s cur d :
  1 <= d -> finished s ((cur + d) mod num_tasks s) = false ->
  exists k, 1 <= k <= d /\ finished s ((cur + k) mod num_tasks s) = false /\
    forall i, 1 <= i < k -> finished s ((cur + i) mod num_tasks s) = true.
Proof.
  intros Hd Hf.
  assert (forall m a, 1 <= a -> a + Z.of_nat m = d ->
    (forall i, 1 <= i < a -> finished s ((cur + i) mod num_tasks s) = true) ->
    exists k, 1 <= k <= d /\ finished s ((cur + k) mod num_tasks s) = false /\
      forall i, 1 <= i < k -> finished s ((cur + i) mod num_tasks s) = true) as Hgo.
  { induction m as [|m IH]; intros a Ha Hm Hall.
    - exists d. replace a with d in Hall by lia. split_and!; [lia|lia|done|done].
    - destruct (finished s ((cur + a) mod num_tasks s)) eqn:E.
      + apply (IH (a + 1)); [lia|lia|]. intros i Hi. destruct (decide (i = a)) as [->|]; [done|].
        apply Hall. lia.
      + exists a. split_and!; [lia|lia|done|done]. }
  apply (Hgo (Z.to_nat (d - 1)) 1); [lia|lia|lia].
Qed.

(** How many steps ahead of [cur] task [j] is, from 1 to [n]. *)
Definition steps_to (n cur j : Z) : Z := (j - cur - 1) mod n + 1.

Lemma steps_to_ok n cur j :
  1 <= n -> 0 <= j < n -> 1 <= steps_to n cur j <= n /\ (cur + steps_to n cur j) mod n = j.
Proof.
  intros Hn Hj. unfold steps_to. pose proof (Z.mod_pos_bound (j - cur - 1) n ltac:(lia)).
  split; [lia|]. replace (cur + ((j - cur - 1) mod n + 1)) with ((j - cur - 1) mod n + (cur + 1)) by lia.
  rewrite Zplus_mod_idemp_l. replace (j - cur - 1 + (cur + 1)) with j by lia. apply Z.mod_small. lia.
Qed.

Lemma steps_to_step n cur j k :
  1 <= n -> 0 <= j < n -> 1 <= k < steps_to n cur j ->
  steps_to n ((cur + k) mod n) j = steps_to n cur j - k.
Proof.
  intros Hn Hj Hk. unfold steps_to in *.
  replace ((j - (cur + k) mod n - 1) mod n) with ((j - cur - 1 - k) mod n).
  2: { rewrite <- (Zminus_mod_idemp_r (j - 1) (cur + k)) || idtac.
       replace (j - (cur + k) mod n - 1) with (j - 1 - (cur + k) mod n) by lia.
       rewrite Zminus_mod_idemp_r. f_equal. lia. }
  rewrite <- Zminus_mod_idemp_l, Z.mod_small by (pose proof (Z.mod_pos_bound (j - cur - 1) n ltac:(lia)); lia). lia.
Qed.

(** The saved stack pointers address words in memory: those of the suspended,
    started tasks and the one of the processor.  What the table holds for the current
    task is not used before it is overwritten. *)
Definition stacks_ok (s : sched) : Prop :=
  is_Some (mem s !! esp (regs s)) /\
  forall i t, tasks s !! i = Some t -> i <> Z.to_nat (current_task s) -> is_started t <> 0 -> is_Some (mem s !! esp (context t)).

Lemma finished_insert s i t s' :
  tasks s' = <[i := t]> (tasks s) ->
  (forall t0, tasks s !! i = Some t0 -> (status t =? TASK_FINISHED) = (status t0 =? TASK_FINISHED)) ->
  forall j, finished s' j = finished s j.
Proof.
  intros E Hst j. unfold finished. rewrite E. destruct (decide (i = Z.to_nat j)) as [->|Hne].
  - destruct (tasks s !! Z.to_nat j) as [t0|] eqn:El.
    + rewrite list_lookup_insert_eq by (by eapply lookup_lt_Some). by apply Hst.
    + rewrite list_insert_ge by (by apply lookup_ge_None). by rewrite El.
  - by rewrite list_lookup_insert_ne.
Qed.

Definition saved (t : task_t) (r : context_t) : task_t :=
  Mk_task (kernel_stack t) (save_context r (context t)) (status t) (is_started t) (task_process t).

Definition popped (c : context_t) (w : Z) : context_t :=
  Mk_context (u32 (esp c + 4)) (ebp c) (ebx c) (esi c) (edi c) w.

(** The context switch to another task, and to the running task itself. *)
Lemma swtch_other s i j ti tj w :
  length (tasks s) = 8%nat -> 0 <= i < 8 -> 0 <= j < 8 -> i <> j ->
  tasks s !! Z.to_nat i = Some ti -> tasks s !! Z.to_nat j = Some tj -> mem s !! esp (context tj) = Some w ->
  swtch s (Some i) j =
    Some (Mk_sched (<[Z.to_nat i := saved ti (regs s)]> (tasks s)) (current_task s) (num_tasks s)
            (popped (context tj) w) (mem s)).
Proof.
  intros Hl Hi Hj Hne Hti Htj Hw. unfold swtch.
  destruct (task_at_ok s i Hl Hi) as (t & -> & E & _). replace t with ti by congruence. cbn [mbind option_bind].
  set (s1 := with_task s i _). assert (task_at s1 j = Some tj) as ->.
  { unfold task_at, s1, MAX_TASKS. simpl. rewrite list_lookup_insert_ne by lia. by zcase. }
  cbn [mbind option_bind]. unfold load_context. simpl. by rewrite Hw.
Qed.

Lemma swtch_self s i t w :
  length (tasks s) = 8%nat -> 0 <= i < 8 -> tasks s !! Z.to_nat i = Some t -> mem s !! esp (regs s) = Some w ->
  swtch s (Some i) i =
    Some (Mk_sched (<[Z.to_nat i := saved t (regs s)]> (tasks s)) (current_task s) (num_tasks s)
            (popped (regs s) w) (mem s)).
Proof.
  intros Hl Hi Ht Hw. unfold swtch.
  destruct (task_at_ok s i Hl Hi) as (t' & -> & E & _). replace t' with t by congruence. cbn [mbind option_bind].
  set (s1 := with_task s i _). assert (task_at s1 i = Some (saved t (regs s))) as ->.
  { unfold task_at, s1, MAX_TASKS. simpl. rewrite list_lookup_insert_eq by lia. by zcase. }
  cbn [mbind option_bind]. unfold load_context. simpl. by rewrite Hw.
Qed.

Section Handler.
Context (task_exit_addr : Z).

(** What the processor runs after the interrupt: a task that was never started begins at its
    entry point, with [task_exit] as the return address on its stack; a suspended task
    resumes with its saved registers at the address on its stack; the current task itself,
    when no other can run, goes on where it was. *)
Definition switched_to (s s' : sched) (nx : Z) (t : task_t) : Prop :=
  if nx =? current_task s then exists w, mem s' !! esp (regs s) = Some w /\ regs s' = popped (regs s) w
  else if is_started t =? 0 then
    eip (regs s') = eip (context t) /\ mem s' !! esp (regs s') = Some task_exit_addr /\ esp (regs s') = u32 (ptr_add (kernel_stack t) STACK_SIZE - 4)
  else exists w, mem s !! esp (context t) = Some w /\ regs s' = popped (context t) w /\ mem s' = mem s.

(** The task table: the current task gets the registers, the next one is marked, no other
    changes. *)
Definition table_switched (s s' : sched) (nx : Z) : Prop :=
  (exists tc t', tasks s !! Z.to_nat (current_task s) = Some tc /\ tasks s' !! Z.to_nat (current_task s) = Some t' /\
     context t' = save_context (regs s) (context tc)) /\
  forall i, i <> Z.to_nat nx -> i <> Z.to_nat (current_task s) -> tasks s' !! i = tasks s !! i.

(** The first start of the task that follows. *)
Definition started (t : task_t) : task_t :=
  Mk_task (kernel_stack t) (Mk_context (u32 (u32 (ptr_add (kernel_stack t) STACK_SIZE - 4) - 4)) (ebp (context t)) (ebx (context t))
    (esi (context t)) (edi (context t)) (eip (context t))) TASK_RUNNING 1 (task_process t).

(** The handler once the next task [nx] is known: its result in each case. *)
Lemma handler_spec s nx t :
  sched_ok s -> stacks_ok s -> next_task (S (Z.to_nat (num_tasks s))) s (current_task s) = Some nx ->
  0 <= nx < num_tasks s -> tasks s !! Z.to_nat nx = Some t -> finished s nx = false ->
  exists s', scheduler_interrupt_handler task_exit_addr s = Some s' /\ sched_ok s' /\
    current_task s' = nx /\ num_tasks s' = num_tasks s /\ (forall j, finished s' j = finished s j) /\
    switched_to s s' nx t /\ table_switched s s' nx.
Proof.
  intros (Hl & Hn & Hc) [Hr Hst] Hnext Hnx Ht Hfin. unfold MAX_TASKS in Hn. unfold scheduler_interrupt_handler, switched_to, table_switched.
  rewrite Hnext. cbn [mbind option_bind]. set (s0 := set_current s nx).
  destruct (task_at_ok s0 nx Hl ltac:(lia)) as (t' & -> & E & _). simpl in E. replace t' with t by congruence. clear t' E.
  cbn [mbind option_bind]. set (cur := current_task s) in *.
  destruct (task_at_ok s cur Hl ltac:(lia)) as (tc & _ & Htc & _).
  assert (forall s', tasks s' = <[Z.to_nat cur := saved tc (regs s)]> (tasks s0) ->
            forall j, finished s' j = finished s j) as Hsame.
  { intros s' E. apply (finished_insert s (Z.to_nat cur) (saved tc (regs s))); [done|]. intros t0 E0. simpl. congruence. }
  set (s1 := start_task task_exit_addr s0 nx t). assert (tasks s1 = <[Z.to_nat nx := started t]> (tasks s)) as Et1 by done.
  assert (forall x, finished s1 x = finished s x) as Hf1.
  { apply (finished_insert s (Z.to_nat nx) (started t) s1 Et1). intros t0 Ht0. simpl. unfold finished in Hfin. rewrite Ht0 in Hfin. by rewrite Hfin. }
  destruct (Z.eqb_spec (is_started t) 0) as [E0|E0], (Z.eqb_spec nx cur) as [Eq|Hne].
  - rewrite Eq in *. replace tc with t by congruence. assert (is_Some (mem s1 !! esp (regs s))) as [w Hw].
    { unfold s1, start_task. simpl. apply lookup_insert_is_Some'. right. apply lookup_insert_is_Some'. by right. }
    assert (tasks s1 !! Z.to_nat cur = Some (started t)) as Ht1 by (rewrite Et1, list_lookup_insert_eq; [done|lia]).
    rewrite (swtch_self s1 cur (started t) w) by (done || lia || by rewrite Et1, length_insert). eexists. split; [done|]. simpl.
    split_and!; [unfold sched_ok, MAX_TASKS; simpl; rewrite !length_insert; lia|done|done| |by exists w| |].
    + intros j. rewrite <- Hf1. apply (finished_insert s1 (Z.to_nat cur) (saved (started t) (regs s))); [done|]. intros t0 E1. rewrite Ht1 in E1. by injection E1 as <-.
    + exists t, (saved (started t) (regs s)). split; [done|]. split; [by rewrite list_lookup_insert_eq by (rewrite length_insert; lia)|done].
    + intros i Hi _. by rewrite !list_lookup_insert_ne by lia.
  - set (top := ptr_add (kernel_stack t) STACK_SIZE).
    assert (u32 (u32 (top - 4) - 4) <> u32 (top - 4)) as Hw by (unfold wrap; zlia).
    rewrite (swtch_other s1 cur nx tc (started t) (eip (context t)));
      [|by rewrite Et1, length_insert|lia|lia|lia|by rewrite Et1, list_lookup_insert_ne by lia
       |by rewrite Et1, list_lookup_insert_eq by lia|unfold s1, start_task; simpl; by rewrite lookup_insert_eq].
    eexists. split; [done|]. simpl.
    split_and!; [unfold sched_ok, MAX_TASKS; simpl; rewrite !length_insert; lia|done|done| |done| | | |].
    + intros j. rewrite <- Hf1. apply (finished_insert s1 (Z.to_nat cur) (saved tc (regs s))); [done|]. rewrite Et1.
      rewrite list_lookup_insert_ne by lia. intros t0 Ht0. simpl. congruence.
    + fold top. replace (u32 (u32 (u32 (top - 4) - 4) + 4)) with (u32 (top - 4)) by (unfold wrap; zlia).
      rewrite lookup_insert_ne by done. by rewrite lookup_insert_eq.
    + fold top. unfold wrap. zlia.
    + exists tc, (saved tc (regs s)). split; [done|]. split; [by rewrite list_lookup_insert_eq by (rewrite !length_insert; lia)|done].
    + intros i Hi Hi2. by rewrite !list_lookup_insert_ne by lia.
  - rewrite Eq in *. destruct Hr as [w Hw]. rewrite (swtch_self s0 cur tc w) by (done || lia). eexists. split; [done|]. simpl.
    split_and!; [unfold sched_ok, MAX_TASKS; simpl; rewrite !length_insert; lia|done|done|by apply Hsame|by exists w| |].
    + exists tc, (saved tc (regs s)). split; [done|]. split; [by rewrite list_lookup_insert_eq by lia|done].
    + intros i Hi _. by rewrite list_lookup_insert_ne by lia.
  - destruct (Hst _ _ Ht ltac:(lia) E0) as [w Hw]. rewrite (swtch_other s0 cur nx tc t w) by (done || lia).
    eexists. split; [done|]. simpl.
    split_and!; [unfold sched_ok, MAX_TASKS; simpl; rewrite !length_insert; lia|done|done|by apply Hsame|by exists w| |].
    + exists tc, (saved tc (regs s)). split; [done|]. split; [by rewrite list_lookup_insert_eq by lia|done].
    + intros i _ Hi. by rewrite list_lookup_insert_ne by lia.
Qed.

(** Under [sched_ok] a runnable task makes the search succeed. *)
Lemma next_task_exists s j :
  sched_ok s -> runnable s j ->
  exists k, 1 <= k <= steps_to (num_tasks s) (current_task s) j /\
    next_task (S (Z.to_nat (num_tasks s))) s (current_task s) = Some ((current_task s + k) mod num_tasks s) /\
    finished s ((current_task s + k) mod num_tasks s) = false /\
    forall i, 1 <= i < k -> finished s ((current_task s + i) mod num_tasks s) = true.
Proof.
  intros (Hl & Hn & Hc) (Hj & Hf).
  destruct (steps_to_ok (num_tasks s) (current_task s) j ltac:(lia) Hj) as (Hd & E).
  destruct (least_step s (current_task s) (steps_to (num_tasks s) (current_task s) j)) as (k & Hk & Hkf & Hall);
    [lia|by rewrite E|].
  exists k. split_and!; [lia|lia| |done|done]. apply next_task_spec; (done || lia).
Qed.

(** C3: the timer interrupt performs one round-robin step.  When some task is not finished and
    the stack pointers of the processor and of the suspended tasks point to words in memory,
    the handler returns; the new current task is the first unfinished one behind the old one
    in cyclic order, whether the old one was ever started or not; the registers go into the
    old task's context (its entry point stays), no third task and no finished state changes,
    and the table invariant is kept.  A task that was never started begins at its entry point
    with [task_exit] as return address, a suspended one resumes with the registers saved for
    it, and when the old task is the only one that can run, the interrupted code goes on. *)
Theorem scheduler_round_robin (s : sched) (j : Z) :
  sched_ok s -> stacks_ok s -> runnable s j ->
  let n := num_tasks s in let cur := current_task s in
  exists s' k t, scheduler_interrupt_handler task_exit_addr s = Some s' /\ sched_ok s' /\
    1 <= k <= n /\ current_task s' = (cur + k) mod n /\ finished s (current_task s') = false /\
    (forall i, 1 <= i < k -> finished s ((cur + i) mod n) = true) /\
    (forall i, finished s' i = finished s i) /\
    tasks s !! Z.to_nat (current_task s') = Some t /\ switched_to s s' (current_task s') t /\ table_switched s s' (current_task s').
Proof.
  intros Hok Hst Hj n cur. destruct (next_task_exists s j Hok Hj) as (k & Hk & Hnext & Hf & Hall).
  pose proof Hok as (Hl & Hn & Hc). pose proof (Z.mod_pos_bound (cur + k) n ltac:(unfold n; lia)) as Hb.
  destruct (task_at_ok s ((cur + k) mod n) Hl ltac:(unfold n, MAX_TASKS in *; lia)) as (t & _ & Ht & _).
  destruct (handler_spec s _ t Hok Hst Hnext Hb Ht Hf) as (s' & Hs' & Hok' & Hc' & _ & Hfin & Hsw & Htab).
  exists s', k, t. destruct (steps_to_ok n cur j ltac:(unfold n; lia) ltac:(apply Hj)) as [Hd _]. rewrite Hc'.
  split_and!; [done|done|lia|unfold n, cur in *; lia|done|done|done|done|done|done|exact Htab].
Qed.

(** The processor between two interrupts: the running task changes the registers
    and the memory. *)
Definition run (s : sched) (e : context_t * gmap Z Z) : sched :=
  Mk_sched (tasks s) (current_task s) (num_tasks s) (fst e) (snd e).

(** The states after each of a sequence of time slices and interrupts. *)
Fixpoint run_ticks (s : sched) (es : list (context_t * gmap Z Z)) : option (list sched) :=
  match es with
  | [] => Some []
  | e :: es' =>
      s' ← scheduler_interrupt_handler task_exit_addr (run s e);
      l ← run_ticks s' es'; Some (s' :: l)
  end.

(** The stack pointers of the suspended tasks are among the addresses [A]. *)
Definition saved_in (A : Z -> Prop) (s : sched) : Prop :=
  forall i t, tasks s !! i = Some t -> i <> Z.to_nat (current_task s) -> is_started t <> 0 -> A (esp (context t)).

(** A time slice that ends with a stack pointer in [A] and leaves the words of [A] in memory. *)
Definition slice_ok (A : Z -> Prop) (e : context_t * gmap Z Z) : Prop := A (esp (fst e)) /\ forall a, A a -> is_Some (snd e !! a).

Lemma handler_step A s e j :
  sched_ok s -> saved_in A s -> slice_ok A e -> runnable s j ->
  exists s' k, scheduler_interrupt_handler task_exit_addr (run s e) = Some s' /\ sched_ok s' /\ saved_in A s' /\ runnable s' j /\ num_tasks s' = num_tasks s /\
    1 <= k <= steps_to (num_tasks s) (current_task s) j /\ current_task s' = (current_task s + k) mod num_tasks s.
Proof.
  intros Hok Hsv [He Hm] Hj. destruct (next_task_exists (run s e) j Hok Hj) as (k & Hk & Hnext & Hf & _). pose proof Hok as (Hl & Hn & Hc). cbn [run num_tasks current_task] in *.
  pose proof (Z.mod_pos_bound (current_task s + k) (num_tasks s) ltac:(lia)) as Hb. set (nx := (current_task s + k) mod num_tasks s) in *.
  destruct (task_at_ok s nx Hl ltac:(unfold MAX_TASKS in *; lia)) as (t & _ & Ht & _).
  destruct (handler_spec (run s e) nx t Hok) as (s' & Hs' & Hok' & Hc' & Hn' & Hfin & _ & (tc & t' & Htc & Ht' & Ec) & Hrest); [|done|done|done|done|].
  { split; [by apply Hm|]. intros i ti Hi Hne Hst. apply Hm. by apply (Hsv i ti). }
  exists s', k. cbn [run num_tasks current_task regs tasks] in *. split; [done|]. split; [done|]. split; [|split].
  - intros i ti Hi Hne Hst. rewrite Hc' in Hne. destruct (decide (i = Z.to_nat (current_task s))) as [->|Hic].
    + replace ti with t' by congruence. rewrite Ec. exact He.
    + rewrite Hrest in Hi by done. by apply (Hsv i ti).
  - unfold runnable. rewrite Hn', Hfin. exact Hj.
  - split; [done|]. split; [lia|done].
Qed.

(** Without a goal, the interrupts are served one after the other. *)
Lemma run_ticks_total A j es : forall s, sched_ok s -> saved_in A s -> Forall (slice_ok A) es -> runnable s j ->
  exists trace, run_ticks s es = Some trace /\ length trace = length es.
Proof.
  induction es as [|e es IH]; intros s Hok Hsv Hes Hj; [by exists []|]. apply Forall_cons in Hes as [He Hes].
  destruct (handler_step A s e j Hok Hsv He Hj) as (s1 & k & E & Hok1 & Hsv1 & Hj1 & _). destruct (IH s1 Hok1 Hsv1 Hes Hj1) as (l & El & Hl).
  exists (s1 :: l). cbn [run_ticks]. rewrite E. cbn [mbind option_bind]. rewrite El. split; [done|]. cbn. by rewrite Hl.
Qed.

Lemma run_ticks_reaches A j es : forall s, sched_ok s -> saved_in A s -> Forall (slice_ok A) es -> runnable s j ->
  steps_to (num_tasks s) (current_task s) j <= Z.of_nat (length es) ->
  exists trace i s', run_ticks s es = Some trace /\ length trace = length es /\ trace !! i = Some s' /\
    Z.of_nat i < steps_to (num_tasks s) (current_task s) j /\ current_task s' = j.
Proof.
  induction es as [|e es IH]; intros s Hok Hsv Hes Hj Hle; (destruct (steps_to_ok (num_tasks s) (current_task s) j) as [Hd Ed];
    [destruct Hok as (_ & ? & _); lia|apply Hj|]); [simpl in Hle; lia|].
  apply Forall_cons in Hes as [He Hes]. destruct (handler_step A s e j Hok Hsv He Hj) as (s1 & k & E & Hok1 & Hsv1 & Hj1 & Hn1 & Hk & Hc1).
  cbn [run_ticks]. rewrite E. cbn [mbind option_bind].
  destruct (decide (k = steps_to (num_tasks s) (current_task s) j)) as [->|Hne].
  - destruct (run_ticks_total A j es s1 Hok1 Hsv1 Hes Hj1) as (l & El & Hl). rewrite El. exists (s1 :: l), 0%nat, s1. cbn [length]. split_and!; [done|by rewrite Hl|done|lia|congruence].
  - assert (steps_to (num_tasks s1) (current_task s1) j = steps_to (num_tasks s) (current_task s) j - k) as Hst.
    { rewrite Hn1, Hc1. apply steps_to_step; [destruct Hok; lia|apply Hj|lia]. }
    destruct (IH s1 Hok1 Hsv1 Hes Hj1) as (l & i & s' & El & Hl & Hi & Hlt & Hs'); [cbn [length] in Hle; lia|].
    rewrite El. exists (s1 :: l), (S i), s'. cbn [length]. split_and!; [done|by rewrite Hl|done|lia|done].
Qed.

(** C36: no runnable task starves: whatever the tasks do in their time slices, as long as none
    finishes and their stack pointers stay in memory that remains addressable (the set [A]),
    every timer interrupt is served, and within [num_tasks] of them every unfinished task
    becomes the current one. *)
Theorem scheduler_no_starvation (A : Z -> Prop) (s : sched) (j : Z) (es : list (context_t * gmap Z Z)) :
  sched_ok s -> saved_in A s -> Forall (slice_ok A) es -> runnable s j -> num_tasks s <= Z.of_nat (length es) ->
  exists trace s', run_ticks s es = Some trace /\ length trace = length es /\ s' ∈ take (Z.to_nat (num_tasks s)) trace /\ current_task s' = j.
Proof.
  intros Hok Hsv Hes Hj Hlen. destruct (steps_to_ok (num_tasks s) (current_task s) j) as [Hd _];
    [destruct Hok as (_ & ? & _); lia|apply Hj|].
  assert (exists trace i s', run_ticks s es = Some trace /\ length trace = length es /\ trace !! i = Some s' /\ (Z.of_nat i < steps_to (num_tasks s) (current_task s) j) /\ current_task s' = j)
    as (trace & i & s' & E & El & Hi & Hlt & Hc).
  { apply run_ticks_reaches with A; (done || lia). }
  exists trace, s'. split_and!; [done|done| |done]. apply list_elem_of_lookup. exists i. rewrite lookup_take_lt by lia. done.
Qed.

(** The stack a task starts on does not lie in the block allocated for it:
    [kernel_stack + STACK_SIZE] adds 8192 words, not bytes, so both words pushed at
    the first start are more than 24 KB behind the 8192 bytes that [create_process]
    allocates. *)
Theorem first_stack_outside_block (s : sched) (i : Z) (t : task_t) :
  length (tasks s) = 8%nat -> 0 <= i < 8 -> 0 <= kernel_stack t -> kernel_stack t + 4 * STACK_SIZE < 2 ^ 32 ->
  exists t', tasks (start_task task_exit_addr s i t) !! Z.to_nat i = Some t' /\
    kernel_stack t' = kernel_stack t /\ kernel_stack t + STACK_SIZE + 24000 < esp (context t') /\
    mem (start_task task_exit_addr s i t) !! esp (context t') = Some (eip (context t)) /\
    forall a, kernel_stack t <= a < kernel_stack t + STACK_SIZE + 24000 ->
      mem (start_task task_exit_addr s i t) !! a = mem s !! a.
Proof.
  intros Hl Hi H0 Hb. unfold start_task, ptr_add, STACK_SIZE in *. cbn [tasks mem].
  rewrite list_lookup_insert_eq by lia. eexists. split; [done|]. cbn [kernel_stack context esp].
  rewrite (wrap_small 32 (kernel_stack t + 4 * 8192)) by lia.
  rewrite (wrap_small 32 (kernel_stack t + 4 * 8192 - 4)) by lia. rewrite wrap_small by lia. split; [done|]. split; [lia|]. split; [by rewrite lookup_insert_eq|].
  intros a Ha. by rewrite !lookup_insert_ne by lia.
Qed.

(** A task that is alone and current when its first interrupt arrives is
    never started: the handler marks it started, but the switch from the task to
    itself overwrites the prepared context with the interrupted registers, and
    control returns to the interrupted code. *)
Theorem single_task_not_entered (s : sched) (t : task_t) (w : Z) :
  sched_ok s -> num_tasks s = 1 -> tasks s !! 0%nat = Some t -> status t <> TASK_FINISHED -> is_started t = 0 ->
  mem s !! esp (regs s) = Some w ->
  (forall d, d = 4 \/ d = 8 -> esp (regs s) <> u32 (ptr_add (kernel_stack t) STACK_SIZE - d)) ->
  exists s' t', scheduler_interrupt_handler task_exit_addr s = Some s' /\
    regs s' = popped (regs s) w /\
    tasks s' !! 0%nat = Some t' /\ is_started t' = 1 /\ context t' = save_context (regs s) (context t).
Proof.
  intros (Hl & _ & Hc) Hn Ht Hun H0 Hw Hcl.
  assert (current_task s = 0) as Ec by lia. unfold scheduler_interrupt_handler. rewrite Ec.
  assert (finished s 0 = false) as Hf by (unfold finished; change (Z.to_nat 0) with 0%nat; rewrite Ht; by apply Z.eqb_neq).
  rewrite (next_task_spec s _ 0 1); rewrite ?Hn; try (done || lia || (by intros; lia)).
  change ((0 + 1) mod 1) with 0. cbn [mbind option_bind]. set (s0 := set_current s 0).
  destruct (task_at_ok s0 0 Hl ltac:(lia)) as (t' & -> & E & _).
  change (tasks s !! 0%nat = Some t') in E. replace t' with t by congruence. clear t' E.
  cbn [mbind option_bind]. rewrite H0. cbn [Z.eqb]. set (s1 := start_task task_exit_addr s0 0 t).
  assert (mem s1 !! esp (regs s1) = Some w) as Hw1.
  { unfold s1, start_task. simpl. set (top := ptr_add _ _) in *.
    rewrite (lookup_insert_ne _ (u32 (u32 (top - 4) - 4))), lookup_insert_ne; [done| |].
    - intros E. by apply (Hcl 4); [left|].
    - intros E. apply (Hcl 8); [by right|]. rewrite <- E. unfold wrap. zlia. }
  destruct (lookup_lt_is_Some_2 (tasks s1) 0) as [t1 Ht1]; [unfold s1; simpl; rewrite length_insert; lia|].
  rewrite (swtch_self s1 0 t1 w); [|unfold s1; simpl; rewrite length_insert; lia|lia|done|done].
  eexists _, _. split; [done|]. split; [done|]. simpl tasks. change (Z.to_nat 0) with 0%nat.
  rewrite list_lookup_insert_eq by (rewrite length_insert; lia). split; [done|].
  unfold s1, start_task in Ht1. simpl in Ht1. rewrite list_lookup_insert_eq in Ht1 by lia. by injection Ht1 as <-.
Qed.
End Handler.

(** ** Processes *)

(** Running processes have different process ids, all handed out already. *)
Definition pids_ok (k : kernel) : Prop :=
  (forall i j p q, process_list k !! i = Some p -> process_list k !! j = Some q ->
     is_running p = true -> is_running q = true -> pid p = pid q -> i = j) /\
  (forall p, p ∈ process_list k -> is_running p = true -> pid p < next_pid k).

Lemma free_slot_spec l a i :
  free_slot l a = Some i ->
  exists l1 p l2, l = l1 ++ p :: l2 /\ i = a + Z.of_nat (length l1) /\ is_running p = false /\
    Forall (fun q => is_running q = true) l1.
Proof.
  revert a. induction l as [|q l IH]; intros a H; [done|]. simpl in H. destruct (is_running q) eqn:E.
  - destruct (IH _ H) as (l1 & p & l2 & -> & -> & Hp & Hall). exists (q :: l1), p, l2.
    split_and!; [done|simpl; lia|done|by constructor].
  - injection H as <-. exists [], q, l. split_and!; [done|simpl; lia|done|constructor].
Qed.

Lemma find_pid_skip l1 p l2 a r :
  Forall (fun q => pid q <> r) l1 -> is_running p = true -> pid p = r ->
  find_pid (l1 ++ p :: l2) a r = Some (a + Z.of_nat (length l1)).
Proof.
  intros Hall Hp Hr. revert a. induction Hall as [|q l1 Hq Hall IH]; intros a; cbn [find_pid app].
  - rewrite Hp, Hr, Z.eqb_refl. simpl. f_equal. lia.
  - rewrite (proj2 (Z.eqb_neq _ _) Hq), andb_false_r, IH. f_equal. simpl length. lia.
Qed.

(** The shape of a successful creation. *)
Lemma spawn_spec slot_addr fuel k name entry r k' :
  next_pid k < 2 ^ 31 - 1 -> 0 < next_pid k -> spawn slot_addr fuel k name entry = Some (r, k') -> r <> -1 ->
  exists l1 p l2 nm, process_list k = l1 ++ p :: l2 /\ is_running p = false /\
    Forall (fun q => is_running q = true) l1 /\ r = next_pid k /\ next_pid k' = next_pid k + 1 /\
    process_list k' = l1 ++ Mk_process r nm true :: l2.
Proof.
  intros Hmax Hpos Hs Hr. unfold spawn in Hs. destruct (free_slot (process_list k) 0) as [i|] eqn:Ef.
  2: { injection Hs as <- _. done. }
  destruct (free_slot_spec _ _ _ Ef) as (l1 & p & l2 & El & -> & Hp & Hall). rewrite El in Hs.
  rewrite Z.add_0_l, Nat2Z.id in Hs. rewrite lookup_app_r, Nat.sub_diag in Hs by lia.
  change ((p :: l2) !! 0%nat) with (Some p) in Hs. cbn [mbind option_bind] in Hs.
  destruct (strncpy _ _ _) as [n1|]; [|done]. cbn [mbind option_bind] in Hs. destruct (wr n1 31 0) as [nm|]; [|done]. cbn [mbind option_bind] in Hs.
  destruct (k_malloc _ _ _) as [[st h]|]; [|done]. cbn [mbind option_bind] in Hs. destruct (st =? 0).
  { injection Hs as <- _. done. }
  injection Hs as <- <-. exists l1, p, l2, nm. simpl. rewrite swrap_small by lia.
  split_and!; [done..|]. rewrite insert_app_r_alt, Nat.sub_diag by lia. done.
Qed.

(** A process created successfully gets a process id no running process has,
    the ids of the running processes stay distinct, and terminating the process by
    that id removes exactly it from the list of running processes.  (Process ids
    are not exhausted; the slot is below 8, see below.) *)
Theorem create_terminate_process (slot_addr : Z -> Z) (fuel : nat) (k k1 k2 : kernel) (entry r : Z) :
  pids_ok k -> 0 < next_pid k < 2 ^ 31 - 1 ->
  create_process slot_addr fuel k entry = Some (r, k1) -> r <> -1 ->
  terminate_process k1 r = Some k2 ->
  (forall p, p ∈ process_list k -> is_running p = true -> pid p <> r) /\ pids_ok k1 /\ pids_ok k2 /\
  (exists nm, (r, nm) ∈ list_running_processes k1) /\
  list_running_processes k2 = list_running_processes k.
Proof.
  intros [Huniq Hlt] Hnp Hc Hr Ht.
  destruct (spawn_spec _ _ _ _ _ _ _ (proj2 Hnp) (proj1 Hnp) Hc Hr) as (l1 & p & l2 & nm & El & Hp & Hall & -> & Hn1 & El1).
  assert (forall q, q ∈ process_list k -> is_running q = true -> pid q <> next_pid k) as Hfresh.
  { intros q Hq Hrun. specialize (Hlt q Hq Hrun). lia. }
  assert (Forall (fun q => pid q <> next_pid k) l1) as Hl1.
  { apply Forall_forall. intros q Hq. apply Hfresh; [rewrite El; apply elem_of_app; by left|].
    by apply (Forall_forall (fun q => is_running q = true) l1). }
  assert (forall run, pids_ok (Mk_kernel (l1 ++ Mk_process (next_pid k) nm run :: l2) (next_pid k + 1) (sch k1) (heap k1))) as Hok.
  { intros run. split; simpl.
    - intros i j x y Hx Hy Hrx Hry Exy.
      assert (forall n z, (l1 ++ Mk_process (next_pid k) nm run :: l2) !! n = Some z -> is_running z = true ->
        (n = length l1 /\ pid z = next_pid k) \/ (n <> length l1 /\ process_list k !! n = Some z)) as Hsplit.
      { intros n z Hz Hrz. destruct (decide (n = length l1)) as [->|Hne].
        - rewrite lookup_app_r, Nat.sub_diag in Hz by lia. injection Hz as <-. by left.
        - right. split; [done|]. rewrite El. destruct (decide (n < length l1)%nat).
          + rewrite lookup_app_l in * by lia. done.
          + rewrite lookup_app_r in * by lia. by destruct (n - length l1)%nat eqn:En; [lia|]. }
      destruct (Hsplit i x Hx Hrx) as [[-> Ei]|[Hi Hi']], (Hsplit j y Hy Hry) as [[-> Ej]|[Hj Hj']]; [done| | |by eapply Huniq].
      + exfalso. apply (Hfresh y); [by eapply list_elem_of_lookup_2|done|congruence].
      + exfalso. apply (Hfresh x); [by eapply list_elem_of_lookup_2|done|congruence].
    - intros x [Hx|[->|Hx]%elem_of_cons]%elem_of_app Hrx; simpl; [|lia|];
        (assert (x ∈ process_list k) as Hin by (rewrite El; set_solver)); specialize (Hlt x Hin Hrx); lia. }
  unfold terminate_process in Ht. rewrite El1, find_pid_skip in Ht by done.
  rewrite Z.add_0_l, Nat2Z.id, lookup_app_r, Nat.sub_diag in Ht by lia. simpl in Ht.
  destruct (task_at (sch k1) _) as [t|]; [|done]. simpl in Ht. injection Ht as <-.
  rewrite insert_app_r_alt, Nat.sub_diag by lia. simpl insert.
  split; [done|]. split; [|split; [|split]].
  - destruct (Hok true) as [H1 H2]. unfold pids_ok. rewrite El1, Hn1. by split.
  - destruct (Hok false) as [H1 H2]. unfold pids_ok. simpl. rewrite Hn1. by split.
  - exists nm. unfold list_running_processes. rewrite El1, List.filter_app, map_app. apply elem_of_app. right. simpl. by left.
  - unfold list_running_processes. simpl. rewrite El, !List.filter_app. simpl. by rewrite Hp.
Qed.

(** ** Witnesses *)

Definition ctx0 : context_t := Mk_context 0 0 0 0 0 0.
Definition empty_task : task_t := Mk_task 0 ctx0 0 0 0.

(** Three tasks: 0 started and current, 1 finished, 2 not started yet. *)
Definition sched3 : sched :=
  Mk_sched (Mk_task 1000 (Mk_context 500 1 2 3 4 9) TASK_RUNNING 1 0 :: Mk_task 2000 ctx0 TASK_FINISHED 0 0
            :: Mk_task 300000 (Mk_context (ptr_add 300000 STACK_SIZE) 0 0 0 0 777) TASK_READY 0 0
            :: replicate 5 empty_task)
           0 3 (Mk_context 600 11 12 13 14 0) (<[500 := 5]> (<[600 := 6]> ∅)).

Lemma sched3_ok : sched_ok sched3 /\ stacks_ok sched3 /\ runnable sched3 2.
Proof.
  split_and!; [by split_and!| |by split_and!]. split; [by exists 6|].
  intros i t Hi _ Hs. do 8 (destruct i as [|i]; [injection Hi as <-; (done || by exists 5)|]). done.
Qed.

Lemma scheduler_round_robin_witness :
  exists s', scheduler_interrupt_handler 4242 sched3 = Some s' /\ current_task s' = 2 /\ eip (regs s') = 777 /\ mem s' !! esp (regs s') = Some 4242.
Proof.
  destruct sched3_ok as (H1 & H2 & H3).
  destruct (scheduler_round_robin 4242 sched3 2 H1 H2 H3) as (s' & k & t & E & _).
  exists s'. split; [done|]. vm_compute in E. by injection E as <-.
Defined.

Lemma scheduler_no_starvation_witness :
  exists trace s', run_ticks 4242 sched3 (replicate 3 (regs sched3, mem sched3)) = Some trace /\
    s' ∈ take 3 trace /\ current_task s' = 2.
Proof.
  destruct sched3_ok as (H1 & _ & H3).
  destruct (scheduler_no_starvation 4242 (fun a => a = 500 \/ a = 600) sched3 2 (replicate 3 (regs sched3, mem sched3)) H1) as (tr & s' & E & _ & Hin & Hc); [| |exact H3|done|].
  - intros i t Hi Hne Hs. do 8 (destruct i as [|i]; [injection Hi as <-; done|]). done.
  - apply (Forall_replicate _ 3). split; [by right|]. intros a [-> | ->]; [by exists 5|by exists 6].
  - exists tr, s'. exact (conj E (conj Hin Hc)).
Defined.

Lemma first_stack_outside_block_witness :
  exists t', tasks (start_task 4242 sched3 2 (Mk_task 300000 ctx0 TASK_READY 0 0)) !! 2%nat = Some t' /\
    300000 + STACK_SIZE + 24000 < esp (context t').
Proof.
  destruct (first_stack_outside_block 4242 sched3 2 (Mk_task 300000 ctx0 TASK_READY 0 0)) as (t' & ? & _ & ? & _);
    [done|lia|done|done|]. by exists t'.
Defined.

Definition sched1 : sched :=
  Mk_sched (Mk_task 1000 (Mk_context (ptr_add 1000 STACK_SIZE) 0 0 0 0 777) TASK_READY 0 0 :: replicate 7 empty_task)
           0 1 (Mk_context 600 11 12 13 14 0) (<[600 := 6]> ∅).

Lemma single_task_not_entered_witness :
  exists s' t', scheduler_interrupt_handler 4242 sched1 = Some s' /\ regs s' = popped (regs sched1) 6 /\
    tasks s' !! 0%nat = Some t' /\ is_started t' = 1.
Proof.
  destruct (single_task_not_entered 4242 sched1 (Mk_task 1000 (Mk_context (ptr_add 1000 STACK_SIZE) 0 0 0 0 777) TASK_READY 0 0) 6)
    as (s' & t' & ? & ? & ? & ? & _); try done; [by intros d [-> | ->]|]. by exists s', t'.
Defined.

Definition kernel0 : kernel :=
  Mk_kernel (replicate 4 (Mk_process 0 (replicate 32 0) false)) 1 (Mk_sched (replicate 8 empty_task) 0 0 ctx0 ∅) heap1.

Lemma create_terminate_process_witness :
  exists k1 k2, create_process (fun i => 40 * i) 1 kernel0 777 = Some (1, k1) /\
    terminate_process k1 1 = Some k2 /\ list_running_processes k2 = list_running_processes kernel0.
Proof.
  destruct (create_process (fun i => 40 * i) 1 kernel0 777) as [[r k1]|] eqn:E; [|by vm_compute in E].
  assert (r = 1) as -> by (vm_compute in E; congruence).
  destruct (terminate_process k1 1) as [k2|] eqn:E2.
  - assert (pids_ok kernel0) as Hk.
    { split; [|by intros p [-> _]%elem_of_replicate].
      intros i j p q [-> _]%lookup_replicate. done. }
    destruct (create_terminate_process (fun i => 40 * i) 1 kernel0 k1 k2 777 1 Hk ltac:(done) E ltac:(done) E2)
      as (_ & _ & _ & _ & H). by exists k1, k2.
  - exfalso. vm_compute in E. injection E as <-. by vm_compute in E2.
Defined.

(** ** The task of a terminated process *)

(** Create a process, terminate it, create another one and terminate that. *)
Definition terminate_twice : option (Z * Z * kernel) :=
  '(p1, k) ← create_process (fun i => 40 * i) 1 kernel0 777;
  k ← terminate_process k p1;
  '(p2, k) ← create_process (fun i => 40 * i) 1 k 888;
  k ← terminate_process k p2;
  Some (p1, p2, k).

(** [terminate_process] finishes the task with the index of the process slot,
    not the task of the process.  A process created after an earlier one was
    terminated reuses slot 0 but has task 1: terminating it leaves its task, with
    its entry point, ready to be scheduled although no process is running. *)
Theorem terminate_leaves_task_runnable :
  exists p1 p2 k, terminate_twice = Some (p1, p2, k) /\ list_running_processes k = [] /\
    runnable (sch k) 1 /\ (eip ∘ context <$> tasks (sch k) !! 1%nat) = Some 888.
Proof.
  destruct terminate_twice as [[[p1 p2] k]|] eqn:E; [|by vm_compute in E].
  exists p1, p2, k. split; [done|]. vm_compute in E. injection E as <- <- <-. by vm_compute.
Qed.
