(* ===== verification/BlockDev.v ===== *)
(** What the file systems use of the disk driver, as an interface.

    [BlockDev D] states what [ata_read_sector] and [ata_write_sector] of
    drivers/block/ata.c promise to their callers: on a device that responds, a read
    delivers the 512 bytes of the addressed sector and a write replaces exactly
    that sector, for 28-bit sector numbers and the base ports of its controllers.  [RamDisk] is a device in memory that
    keeps this promise and fails on demand. *)

From S2P Require Import Prelude Effects.

(** ** Block devices *)

Definition SECTOR_SIZE : nat := 512.
Definition LBA_LIMIT : Z := 2 ^ 28.

(** The arguments are those of the C functions: the controller's base port, the
    sector number, the data for a write, and whether the drive is the master.
    [None] and [false] are the error returns. *)
Class BlockDev (D : Type) := {
  ata_read_sector : Z -> Z -> bool -> D -> option buf * D;
  ata_write_sector : Z -> Z -> buf -> bool -> D -> bool * D;

  dev_ok : D -> Z -> Prop;                    (* the drives at the port respond *)
  sector : D -> Z -> bool -> Z -> buf;        (* the contents of a sector *)

  base_port : forall d b, dev_ok d b -> 0 <= b;
  sector_size : forall d b m lba, dev_ok d b -> length (sector d b m lba) = SECTOR_SIZE;
  sector_bytes : forall d b m lba, dev_ok d b -> bytes_ok (sector d b m lba);
  read_ok : forall d b m lba, dev_ok d b -> 0 <= lba < LBA_LIMIT ->
    exists d', ata_read_sector b lba m d = (Some (sector d b m lba), d') /\ (forall b', dev_ok d b' -> dev_ok d' b') /\
      forall b' m' lba', sector d' b' m' lba' = sector d b' m' lba';
  write_ok : forall d b m lba data, dev_ok d b -> 0 <= lba < LBA_LIMIT ->
    length data = SECTOR_SIZE -> bytes_ok data ->
    exists d', ata_write_sector b lba data m d = (true, d') /\ (forall b', dev_ok d b' -> dev_ok d' b') /\
      sector d' b m lba = data /\
      forall b' m' lba', (b', m', lba') <> (b, m, lba) -> sector d' b' m' lba' = sector d b' m' lba'
}.

(** ** A disk in memory *)

Record RamDisk := Mk_ramdisk { ram_sectors : gmap (Z * bool * Z) buf; ram_fails : bool }.

Definition ram_sector (d : RamDisk) (b : Z) (m : bool) (lba : Z) : buf :=
  match ram_sectors d !! (b, m, lba) with Some s => s | None => replicate SECTOR_SIZE 0 end.

Definition ram_read (b lba : Z) (m : bool) (d : RamDisk) : option buf * RamDisk :=
  (if ram_fails d then None else Some (ram_sector d b m lba), d).

Definition ram_write (b lba : Z) (data : buf) (m : bool) (d : RamDisk) : bool * RamDisk :=
  if ram_fails d then (false, d)
  else (true, Mk_ramdisk (<[(b, m, lba) := data]> (ram_sectors d)) (ram_fails d)).

Definition ram_ok (d : RamDisk) : Prop :=
  ram_fails d = false /\
  map_Forall (fun _ s => length s = SECTOR_SIZE /\ bytes_ok s) (ram_sectors d).

Lemma ram_sector_ok d b m lba :
  ram_ok d -> length (ram_sector d b m lba) = SECTOR_SIZE /\ bytes_ok (ram_sector d b m lba).
Proof.
  intros [_ H]. unfold ram_sector. destruct (_ !! _) as [s|] eqn:E; [by eapply (H _ _ E)|].
  split; [apply length_replicate|by apply Forall_replicate].
Qed.

#[global, refine] Instance ram_blockdev : BlockDev RamDisk := {|
  ata_read_sector := ram_read; ata_write_sector := ram_write; dev_ok d b := ram_ok d /\ 0 <= b; sector := ram_sector |}.
Proof.
  - by intros d b [_ Hb].
  - intros d b m lba [Hok _]. by apply ram_sector_ok.
  - intros d b m lba [Hok _]. by apply ram_sector_ok.
  - intros d b m lba [[Hf Hs] Hb] Hl. exists d. unfold ram_read. by rewrite Hf.
  - intros d b m lba data [[Hf Hs] Hb] Hl Hd Hok. unfold ram_write. rewrite Hf. eexists. split; [done|]. split; [|split].
    + intros b' [_ Hb']. split; [|done]. split; [done|]. by apply map_Forall_insert_2.
    + unfold ram_sector. simpl. by rewrite lookup_insert_eq.
    + intros b' m' lba' Hne. unfold ram_sector. simpl. by rewrite lookup_insert_ne by done.
Defined.
