(* ===== verification/Ports.v ===== *)
(** Port I/O, as drivers/char/io.h gives it to the drivers, over hardware that is a
    parameter.

    [Ports H] is the hardware as the processor sees it: reading and writing 8-bit
    ports, block transfers of 16-bit words, and time that passes.  What a device does
    with it is stated by laws, per device, where a driver relies on them. *)

From S2P Require Import Prelude Effects.

Class Ports (H : Type) := {
  dev_inb : Z -> H -> Z * H;
  dev_outb : Z -> Z -> H -> H;
  dev_insw : Z -> nat -> H -> buf * H;      (* the bytes of the words, low byte first *)
  dev_outsw : Z -> buf -> H -> H;
  dev_delay : Z -> H -> H                   (* milliseconds pass *)
}.

(** 16- and 32-bit ports. *)
Class WidePorts (H : Type) := {
  dev_inw : Z -> H -> Z * H;
  dev_outw : Z -> Z -> H -> H;
  dev_inl : Z -> H -> Z * H;
  dev_outl : Z -> Z -> H -> H
}.

(** A driver with state of its own: [hw] is the hardware in it. *)
Class Machine (S H : Type) := { hw : S -> H; with_hw : S -> H -> S }.

Section Io.
Context {S H} `{Ports H} `{!Machine S H}.

(** The port number is an unsigned short, the value an unsigned char. *)
Definition inb (port : Z) : M S Z := fun s =>
  let '(v, h) := dev_inb (u16 port) (hw s) in Some (u8 v, with_hw s h).
Definition outb (port val : Z) : M S unit := modify (fun s => with_hw s (dev_outb (u16 port) (u8 val) (hw s))).
Definition insw (port : Z) (count : nat) : M S buf := fun s =>
  let '(b, h) := dev_insw (u16 port) count (hw s) in Some (b, with_hw s h).
Definition outsw (port : Z) (b : buf) (count : nat) : M S unit :=
  if (length b <? 2 * count)%nat then undef
  else modify (fun s => with_hw s (dev_outsw (u16 port) (take (2 * count) b) (hw s))).
(** A pause of the drivers.  It is taken to end: the busy waiting that it is in pit.c, on the
    ticks that the timer's interrupts count, is [pit_delay_ticks] of Timer.v. *)
Definition pit_delay (ms : Z) : M S unit := modify (fun s => with_hw s (dev_delay ms (hw s))).
End Io.

Section WideIo.
Context {S H} `{WidePorts H} `{!Machine S H}.

Definition inw (port : Z) : M S Z := fun s => let '(v, h) := dev_inw (u16 port) (hw s) in Some (u16 v, with_hw s h).
Definition outw (port val : Z) : M S unit := modify (fun s => with_hw s (dev_outw (u16 port) (u16 val) (hw s))).
Definition inl (port : Z) : M S Z := fun s => let '(v, h) := dev_inl (u16 port) (hw s) in Some (u32 v, with_hw s h).
Definition outl (port val : Z) : M S unit := modify (fun s => with_hw s (dev_outl (u16 port) (u32 val) (hw s))).
End WideIo.
