(* ===== verification/Ata.v ===== *)
(** drivers/block/ata.c: reading, writing and finding ATA drives by port I/O, for the
    four builds that the source distinguishes.

    [AtaDevice H] states what the code relies on of the hardware, the register protocol
    of ATA disks: the status bits, the task file, the data phases and how long a drive
    may be busy.  On such hardware the driver keeps the promise [BlockDev] that the file
    systems are proved against ([ata_blockdev]). *)

From stdpp Require Import strings.
From S2P Require Import Prelude CString CStdio Effects BlockDev Ports.

(** ** Constants *)

Inductive build := QEMU_BUILD | VMWARE_BUILD | REAL_HARDWARE | DEFAULT_BUILD.

Definition ATA_WAIT_TIMEOUT_MS (c : build) : Z :=
  match c with QEMU_BUILD => 500 | VMWARE_BUILD => 5000 | REAL_HARDWARE => 5000 | DEFAULT_BUILD => 1000 end.
Definition ATA_POLL_DELAY_MS (c : build) : Z :=
  match c with QEMU_BUILD => 1 | VMWARE_BUILD => 10 | REAL_HARDWARE => 10 | DEFAULT_BUILD => 5 end.
Definition ATA_DETECTION_TIMEOUT_MS (c : build) : Z :=
  match c with QEMU_BUILD => 100 | VMWARE_BUILD => 2000 | REAL_HARDWARE => 500 | DEFAULT_BUILD => 200 end.

Definition ATA_READ_SECTORS : Z := 32.
Definition ATA_WRITE_SECTORS : Z := 48.
Definition ATA_FLUSH : Z := 231.
Definition ATA_IDENTIFY : Z := 236.
Definition ATA_PRIMARY_IO : Z := 496.
Definition ATA_SECONDARY_IO : Z := 368.
Definition ATA_MASTER : Z := 160.
Definition ATA_SLAVE : Z := 176.
Definition ATA_DATA (base : Z) : Z := base + 0.
Definition ATA_ERROR (base : Z) : Z := base + 1.
Definition ATA_SECTOR_CNT (base : Z) : Z := base + 2.
Definition ATA_LBA_LOW (base : Z) : Z := base + 3.
Definition ATA_LBA_MID (base : Z) : Z := base + 4.
Definition ATA_LBA_HIGH (base : Z) : Z := base + 5.
Definition ATA_DRIVE_HEAD (base : Z) : Z := base + 6.
Definition ATA_STATUS (base : Z) : Z := base + 7.
Definition ATA_COMMAND (base : Z) : Z := base + 7.
Definition ATA_ALT_STATUS (base : Z) : Z := base + 518.
Definition ATA_CONTROL (base : Z) : Z := base + 518.
Definition MAX_DRIVES : Z := 4.
Definition MAX_CONSECUTIVE_FAILURES : Z := 5.

(** ** State *)

Inductive drive_type_t := DRIVE_TYPE_NONE | DRIVE_TYPE_ATA | DRIVE_TYPE_FDD.

#[global] Instance drive_type_eq : EqDecision drive_type_t.
Proof. solve_decision. Defined.

Record drive_t := Mk_drive {
  type : drive_type_t; base_of : Z; is_master : bool; name : buf; model : buf; sectors : Z;
  cylinder : Z; head : Z; sector_ : Z; fdd_drive_no : Z; mount_point : buf
}.

(** The driver and the hardware; [first_read_attempted] is per controller. *)
Record ata (H : Type) := Mk_ata {
  ata_hw : H;
  first_primary : bool; first_secondary : bool;
  consecutive_read_failures : Z;
  detected_drives : list drive_t;     (* MAX_DRIVES slots *)
  drive_count : Z
}.
Arguments Mk_ata {H}. Arguments ata_hw {H}. Arguments first_primary {H}. Arguments first_secondary {H}.
Arguments consecutive_read_failures {H}. Arguments detected_drives {H}. Arguments drive_count {H}.

#[global] Instance ata_machine H : Machine (ata H) H := {|
  hw := ata_hw;
  with_hw s h := Mk_ata h (first_primary s) (first_secondary s) (consecutive_read_failures s) (detected_drives s) (drive_count s)
|}.

Definition with_failures {H} (s : ata H) (n : Z) : ata H :=
  Mk_ata (ata_hw s) (first_primary s) (first_secondary s) n (detected_drives s) (drive_count s).
Definition with_drives {H} (s : ata H) (l : list drive_t) (n : Z) : ata H :=
  Mk_ata (ata_hw s) (first_primary s) (first_secondary s) (consecutive_read_failures s) l n.
Definition attempted {H} (b : Z) (s : ata H) : bool :=
  if b =? ATA_PRIMARY_IO then first_primary s else first_secondary s.
Definition set_attempted {H} (b : Z) (s : ata H) : ata H :=
  if b =? ATA_PRIMARY_IO
  then Mk_ata (ata_hw s) true (first_secondary s) (consecutive_read_failures s) (detected_drives s) (drive_count s)
  else Mk_ata (ata_hw s) (first_primary s) true (consecutive_read_failures s) (detected_drives s) (drive_count s).

Definition bit (s k : Z) : bool := negb (Z.land s k =? 0).

Section Driver.
Context {H : Type} `{Ports H} (c : build).
Abbreviation A := (M (ata H)).

(** ** Waiting *)

(** Every round adds the poll delay to [elapsed_time], which ends at the timeout. *)
Definition polls (timeout_ms : Z) : nat := S (Z.to_nat (timeout_ms / ATA_POLL_DELAY_MS c + 1)).

Fixpoint ready_loop (fuel : nat) (base timeout_ms elapsed_time : Z) : A bool :=
  match fuel with
  | O => undef
  | S fuel' =>
      status ← inb (ATA_STATUS base);
      let again :=
        if timeout_ms <=? elapsed_time then mret false
        else _ ← pit_delay (ATA_POLL_DELAY_MS c);
             ready_loop fuel' base timeout_ms (u32 (elapsed_time + ATA_POLL_DELAY_MS c)) in
      match c with
      | QEMU_BUILD | VMWARE_BUILD => if negb (bit status 128) && bit status 64 then mret true else again
      | _ => if bit status 1 then mret false else if negb (bit status 128) then mret true else again
      end
  end.

Definition wait_for_drive_ready (base timeout_ms : Z) : A bool := ready_loop (polls timeout_ms) base timeout_ms 0.

(** QEMU, step 1: the busy bit; the result is the time that has elapsed, or failure. *)
Fixpoint busy_loop (fuel : nat) (base timeout_ms elapsed_time : Z) : A (option Z) :=
  match fuel with
  | O => undef
  | S fuel' =>
      status ← inb (ATA_STATUS base);
      if status =? 255 then mret None
      else if bit status 1 then _ ← inb (ATA_ERROR base); mret None
      else if negb (bit status 128) then mret (Some elapsed_time)
      else if timeout_ms <=? elapsed_time then mret None
      else _ ← pit_delay (ATA_POLL_DELAY_MS c);
           busy_loop fuel' base timeout_ms (u32 (elapsed_time + ATA_POLL_DELAY_MS c))
  end.

(** QEMU, step 2: the data request bit; every 50 ms the status is read once more. *)
Fixpoint drq_loop (fuel : nat) (base timeout_ms elapsed_time : Z) : A bool :=
  match fuel with
  | O => undef
  | S fuel' =>
      status ← inb (ATA_STATUS base);
      if bit status 8 then mret true
      else if timeout_ms <=? elapsed_time then _ ← inb (ATA_STATUS base); mret false
      else _ ← pit_delay (ATA_POLL_DELAY_MS c);
           let elapsed_time := u32 (elapsed_time + ATA_POLL_DELAY_MS c) in
           if elapsed_time mod 50 =? 0
           then _ ← inb (ATA_STATUS base); drq_loop fuel' base timeout_ms elapsed_time
           else drq_loop fuel' base timeout_ms elapsed_time
  end.

(** The other builds. *)
Fixpoint data_loop (fuel : nat) (base timeout_ms elapsed_time : Z) : A bool :=
  match fuel with
  | O => undef
  | S fuel' =>
      status ← inb (ATA_STATUS base);
      if bit status 1 then mret false
      else if bit status 32 then mret false
      else if bit status 8 && negb (bit status 128) then mret true
      else if timeout_ms <=? elapsed_time then mret false
      else _ ← pit_delay (ATA_POLL_DELAY_MS c);
           data_loop fuel' base timeout_ms (u32 (elapsed_time + ATA_POLL_DELAY_MS c))
  end.

Definition wait_for_drive_data_ready (base timeout_ms : Z) : A bool :=
  match c with
  | QEMU_BUILD =>
      e ← busy_loop (polls timeout_ms) base timeout_ms 0;
      match e with None => mret false | Some e => drq_loop (polls timeout_ms) base timeout_ms e end
  | _ => data_loop (polls timeout_ms) base timeout_ms 0
  end.

(** [for (i = 0; i < n; i++) inb(ATA_ALT_STATUS(base))] *)
Fixpoint alt_status_times (n : nat) (base : Z) : A unit :=
  match n with O => mret tt | S n' => _ ← inb (ATA_ALT_STATUS base); alt_status_times n' base end.

Fixpoint reset_poll (n : nat) (base : Z) : A unit :=
  match n with
  | O => mret tt
  | S n' =>
      status ← inb (ATA_STATUS base);
      if negb (status =? 0) && negb (status =? 255) && negb (bit status 128) then mret tt
      else _ ← pit_delay 10; reset_poll n' base
  end.

Definition ata_soft_reset (base : Z) (is_master : bool) : A unit :=
  _ ← outb (ATA_DRIVE_HEAD base) (if is_master then 160 else 176);
  _ ← alt_status_times 4 base;
  _ ← pit_delay 10;
  _ ← outb (ATA_CONTROL base) 4;
  _ ← pit_delay 10;
  _ ← outb (ATA_CONTROL base) 0;
  _ ← pit_delay 5;
  reset_poll 100 base.

(** ** Sectors *)

Definition drive_head (lba : Z) (is_master : bool) : Z :=
  Z.lor (Z.lor 224 (Z.land (Z.shiftr lba 24) 15)) (if is_master then 0 else 16).

Definition fail : A (bool * option buf) :=
  _ ← modify (fun s => with_failures s (u32 (consecutive_read_failures s + 1))); mret (false, None).

Definition first_attempt (base : Z) (is_master : bool) : A unit :=
  a ← gets (attempted base);
  if a : bool then mret tt else
  status ← inb (ATA_STATUS base);
  _ ← (if (status =? 0) || (status =? 255) then ata_soft_reset base is_master else mret tt);
  modify (set_attempted base).

(** The return value, and what has been stored in the buffer. *)
Definition ata_read_sector (base lba : Z) (is_master : bool) : A (bool * option buf) :=
  _ ← first_attempt base is_master;
  n ← gets consecutive_read_failures;
  if MAX_CONSECUTIVE_FAILURES <=? n then mret (false, None) else
  r ← wait_for_drive_ready base (ATA_WAIT_TIMEOUT_MS c);
  if negb r then fail else
  _ ← outb (ATA_DRIVE_HEAD base) (drive_head lba is_master);
  _ ← alt_status_times 4 base;
  _ ← (match c with VMWARE_BUILD => pit_delay 50 | _ => mret tt end);
  r ← wait_for_drive_ready base (ATA_WAIT_TIMEOUT_MS c);
  if negb r then fail else
  _ ← outb (ATA_SECTOR_CNT base) 1;
  _ ← outb (ATA_LBA_LOW base) (u8 (Z.land lba 255));
  _ ← outb (ATA_LBA_MID base) (u8 (Z.land (Z.shiftr lba 8) 255));
  _ ← outb (ATA_LBA_HIGH base) (u8 (Z.land (Z.shiftr lba 16) 255));
  _ ← outb (ATA_COMMAND base) ATA_READ_SECTORS;
  _ ← alt_status_times 4 base;
  r ← wait_for_drive_data_ready base (ATA_WAIT_TIMEOUT_MS c);
  if negb r then r ← fail; _ ← pit_delay 100; mret r else
  data ← insw (ATA_DATA base) (SECTOR_SIZE / 2);
  r ← (match c with REAL_HARDWARE => wait_for_drive_ready base (ATA_WAIT_TIMEOUT_MS c) | _ => mret true end);
  if negb r then _ ← fail; mret (false, Some data) else
  _ ← modify (fun s => with_failures s 0);
  mret (true, Some data).

Definition ata_reset_error_counter : A unit := modify (fun s => with_failures s 0).

Definition ata_write_sector (base lba : Z) (buffer : option buf) (is_master : bool) : A bool :=
  match buffer with
  | None => mret false
  | Some buffer =>
      r ← wait_for_drive_ready base (ATA_WAIT_TIMEOUT_MS c);
      if negb r then mret false else
      _ ← outb (ATA_SECTOR_CNT base) 1;
      _ ← outb (ATA_LBA_LOW base) (u8 (Z.land lba 255));
      _ ← outb (ATA_LBA_MID base) (u8 (Z.land (Z.shiftr lba 8) 255));
      _ ← outb (ATA_LBA_HIGH base) (u8 (Z.land (Z.shiftr lba 16) 255));
      _ ← outb (ATA_DRIVE_HEAD base) (drive_head lba is_master);
      _ ← outb (ATA_COMMAND base) ATA_WRITE_SECTORS;
      r ← wait_for_drive_data_ready base (ATA_WAIT_TIMEOUT_MS c);
      if negb r then mret false else
      _ ← outsw (ATA_DATA base) buffer (SECTOR_SIZE / 2);
      r ← wait_for_drive_ready base (ATA_WAIT_TIMEOUT_MS c);
      if negb r then mret false else
      _ ← outb (ATA_COMMAND base) ATA_FLUSH;
      _ ← wait_for_drive_ready base (ATA_WAIT_TIMEOUT_MS c);
      mret true
  end.

(** ** Detection *)

Definition word_at (data : buf) (i : nat) : Z := le_get (slice data (2 * i) 2).

(** The model name: the bytes of every word swapped. *)
Definition model_text (data : buf) : buf :=
  concat (map (fun i => [Z.shiftr (word_at data (27 + i)) 8; Z.land (word_at data (27 + i)) 255]) (seq 0 20)) ++ [0].

Definition printable (ch : Z) : bool := (ch =? 0) || negb ((ch <? 32) || (126 <? ch)).

(** [None]: false; else what is filled in. *)
Definition ata_identify_drive (base drive : Z) (info : drive_t) : A (option drive_t) :=
  _ ← outb (base + 6) drive;
  _ ← outb (base + 7) ATA_IDENTIFY;
  status ← inb (base + 7);
  if status =? 0 then mret None else
  r ← wait_for_drive_ready base (ATA_DETECTION_TIMEOUT_MS c);
  if negb r then mret None else
  r ← wait_for_drive_data_ready base (ATA_DETECTION_TIMEOUT_MS c);
  if negb r then mret None else
  identify_data ← insw base 256;
  if (word_at identify_data 0 =? 0) || (word_at identify_data 0 =? 65535) then mret None else
  let model := model_text identify_data in
  if negb (forallb printable (take 40 model)) then mret None else
  let sectors := u32 (Z.lor (word_at identify_data 60) (Z.shiftl (word_at identify_data 61) 16)) in
  if sectors <=? 0 then mret None else
  mret (Some (Mk_drive (type info) (base_of info) (is_master info) (name info) model sectors
    (cylinder info) (head info) (sector_ info) (fdd_drive_no info) (mount_point info))).

Context (temp : drive_t).   (* the uninitialised temporary on the stack *)

(** The body of the two loops for one drive; the flag tells whether to go on. *)
Definition detect_one (base drive : Z) (master : bool) (idx : Z) : A (bool * Z) :=
  n ← gets drive_count;
  if MAX_DRIVES <=? n then mret (false, idx) else
  r ← ata_identify_drive base drive
        (Mk_drive (type temp) base master (name temp) (model temp) (sectors temp)
           (cylinder temp) (head temp) (sector_ temp) (fdd_drive_no temp) (mount_point temp));
  match r with
  | None => mret (true, idx)
  | Some d =>
      m ← lift (trim_trailing_spaces (model d));
      n ← lift (snprintf (name d) 8 (lit "hdd%d") [VInt idx]);
      mp ← lift (if (length (mount_point d) =? 0)%nat then None else Some (<[0%nat := 0]> (mount_point d)));
      let d := Mk_drive DRIVE_TYPE_ATA (base_of d) (is_master d) (snd n) m (sectors d)
                 (cylinder d) (head d) (sector_ d) (fdd_drive_no d) mp in
      _ ← modify (fun s => with_drives s (<[Z.to_nat (drive_count s) := d]> (detected_drives s)) (swrap 16 (drive_count s + 1)));
      mret (true, swrap 32 (idx + 1))
  end.

Fixpoint detect_all (l : list (Z * Z * bool)) (idx : Z) : A unit :=
  match l with
  | [] => mret tt
  | (base, drive, master) :: l' =>
      r ← detect_one base drive master idx;
      if fst r : bool then detect_all l' (snd r) else mret tt
  end.

Definition ata_detect_drives : A unit :=
  _ ← modify (fun s => with_drives s (detected_drives s) 0);
  detect_all [(ATA_PRIMARY_IO, ATA_MASTER, true); (ATA_PRIMARY_IO, ATA_SLAVE, false);
              (ATA_SECONDARY_IO, ATA_MASTER, true); (ATA_SECONDARY_IO, ATA_SLAVE, false)] 0.

(** ** Looking up drives: the index of the drive, [None] for NULL. *)

Definition ata_get_drive (drive_index : Z) (s : ata H) : option nat :=
  if drive_count s <=? drive_index then None else Some (Z.to_nat drive_index).

Fixpoint find_type (l : list drive_t) (i n : nat) : option nat :=
  match n, l with
  | S n', d :: l' => if bool_decide (type d = DRIVE_TYPE_ATA) then Some i else find_type l' (S i) n'
  | _, _ => None
  end.

Definition ata_get_first_hdd (s : ata H) : option nat :=
  if (drive_count s <=? 0) || (MAX_DRIVES <? drive_count s) then None
  else find_type (detected_drives s) 0 (Z.to_nat (drive_count s)).

(** [None] outside: undefined behaviour in [strcmp]. *)
Fixpoint find_name (l : list drive_t) (nm : buf) (i n : nat) : option (option nat) :=
  match n, l with
  | S n', d :: l' =>
      r ← strcmp (name d) nm;
      if r =? 0 then Some (Some i) else find_name l' nm (S i) n'
  | _, _ => Some None
  end.

Definition get_drive_by_name (nm : buf) (s : ata H) : option (option nat) :=
  if (drive_count s <? 0) || (MAX_DRIVES <? drive_count s) then Some None
  else find_name (detected_drives s) nm 0 (Z.to_nat (drive_count s)).
End Driver.

(** * The hardware *)

Definition bus (b : Z) : Prop := b = ATA_PRIMARY_IO \/ b = ATA_SECONDARY_IO.

(** What a controller is doing, and its registers. *)
Inductive phase := Idle | DataIn (data : buf) | DataOut (master : bool) (lba : Z).

Record bus_view := Mk_view {
  v_phase : phase;
  v_busy : Z;                                        (* milliseconds until BSY clears *)
  v_count : Z; v_low : Z; v_mid : Z; v_high : Z; v_head : Z
}.

Definition set_reg (v : bus_view) (r x : Z) : bus_view :=
  Mk_view (v_phase v) (v_busy v)
    (if r =? 2 then x else v_count v) (if r =? 3 then x else v_low v) (if r =? 4 then x else v_mid v)
    (if r =? 5 then x else v_high v) (if r =? 6 then x else v_head v).

(** The drive and the 28-bit address in the registers. *)
Definition v_master (v : bus_view) : bool := negb (Z.testbit (v_head v) 4).
Definition v_lba (v : bus_view) : Z := v_low v + 2 ^ 8 * v_mid v + 2 ^ 16 * v_high v + 2 ^ 24 * (v_head v mod 16).

(** The status byte: error and fault clear; busy for a while, then ready, and asking for
    data in a data phase. *)
Record status_ok (v : bus_view) (s : Z) : Prop := Mk_status {
  st_range : 0 <= s < 256;
  st_err : bit s 1 = false;
  st_df : bit s 32 = false;
  st_bsy : bit s 128 = (0 <? v_busy v);
  st_rdy : v_busy v <= 0 -> bit s 64 = true;
  st_drq : v_busy v <= 0 -> bit s 8 = match v_phase v with Idle => false | _ => true end
}.

(** The register protocol of ATA disks with two drives on each controller: documented
    behaviour of the device, [ata_latency] being the longest time that it is busy. *)
Class AtaDevice (H : Type) `{Ports H} := {
  view : H -> Z -> bus_view;
  disk : H -> Z -> bool -> Z -> buf;
  ata_latency : Z;

  disk_sector : forall h b m lba, length (disk h b m lba) = SECTOR_SIZE /\ bytes_ok (disk h b m lba);
  read_status : forall h b, bus b ->
    status_ok (view h b) (dev_inb (ATA_STATUS b) h).1 /\
    (forall b', view (dev_inb (ATA_STATUS b) h).2 b' = view h b') /\
    (forall b' m l, disk (dev_inb (ATA_STATUS b) h).2 b' m l = disk h b' m l);
  read_alt : forall h b, bus b ->
    (forall b', view (dev_inb (ATA_ALT_STATUS b) h).2 b' = view h b') /\
    (forall b' m l, disk (dev_inb (ATA_ALT_STATUS b) h).2 b' m l = disk h b' m l);
  time_passes : forall h ms, 0 <= ms ->
    (forall b, exists t, t <= Z.max 0 (v_busy (view h b) - ms) /\
      view (dev_delay ms h) b =
      Mk_view (v_phase (view h b)) t (v_count (view h b)) (v_low (view h b)) (v_mid (view h b)) (v_high (view h b)) (v_head (view h b))) /\
    (forall b' m l, disk (dev_delay ms h) b' m l = disk h b' m l);
  write_reg : forall h b r x, bus b -> 2 <= r <= 6 -> 0 <= x < 256 -> v_phase (view h b) = Idle -> v_busy (view h b) <= 0 ->
    view (dev_outb (b + r) x h) b = set_reg (view h b) r x /\
    (forall b', b' <> b -> view (dev_outb (b + r) x h) b' = view h b') /\
    (forall b' m l, disk (dev_outb (b + r) x h) b' m l = disk h b' m l);
  command_read : forall h b, bus b -> v_phase (view h b) = Idle -> v_busy (view h b) <= 0 -> v_count (view h b) = 1 ->
    let h' := dev_outb (ATA_COMMAND b) ATA_READ_SECTORS h in
    v_phase (view h' b) = DataIn (disk h b (v_master (view h b)) (v_lba (view h b))) /\ v_busy (view h' b) <= ata_latency /\
    (forall b', b' <> b -> view h' b' = view h b') /\ (forall b' m l, disk h' b' m l = disk h b' m l);
  command_write : forall h b, bus b -> v_phase (view h b) = Idle -> v_busy (view h b) <= 0 -> v_count (view h b) = 1 ->
    let h' := dev_outb (ATA_COMMAND b) ATA_WRITE_SECTORS h in
    v_phase (view h' b) = DataOut (v_master (view h b)) (v_lba (view h b)) /\ v_busy (view h' b) <= ata_latency /\
    (forall b', b' <> b -> view h' b' = view h b') /\ (forall b' m l, disk h' b' m l = disk h b' m l);
  command_flush : forall h b, bus b -> v_phase (view h b) = Idle -> v_busy (view h b) <= 0 ->
    let h' := dev_outb (ATA_COMMAND b) ATA_FLUSH h in
    v_phase (view h' b) = Idle /\ v_busy (view h' b) <= ata_latency /\
    (forall b', b' <> b -> view h' b' = view h b') /\ (forall b' m l, disk h' b' m l = disk h b' m l);
  data_in : forall h b data, bus b -> v_phase (view h b) = DataIn data -> v_busy (view h b) <= 0 ->
    let h' := (dev_insw (ATA_DATA b) (SECTOR_SIZE / 2) h).2 in
    (dev_insw (ATA_DATA b) (SECTOR_SIZE / 2) h).1 = data /\ v_phase (view h' b) = Idle /\ v_busy (view h' b) <= ata_latency /\
    (forall b', b' <> b -> view h' b' = view h b') /\ (forall b' m l, disk h' b' m l = disk h b' m l);
  data_out : forall h b m lba data, bus b -> v_phase (view h b) = DataOut m lba -> v_busy (view h b) <= 0 ->
    length data = SECTOR_SIZE -> bytes_ok data ->
    let h' := dev_outsw (ATA_DATA b) data h in
    v_phase (view h' b) = Idle /\ v_busy (view h' b) <= ata_latency /\
    (forall b', b' <> b -> view h' b' = view h b') /\ disk h' b m lba = data /\
    (forall b' m' l, (b', m', l) <> (b, m, lba) -> disk h' b' m' l = disk h b' m' l)
}.

(** * Termination on any hardware *)

Section Total.
Context {H : Type} `{Ports H} (c : build).

Lemma poll_pos : 1 <= ATA_POLL_DELAY_MS c <= 10.
Proof. destruct c; simpl; lia. Qed.

Lemma polls_enough T : 0 <= T -> T + ATA_POLL_DELAY_MS c <= Z.of_nat (polls c T) * ATA_POLL_DELAY_MS c.
Proof.
  intros HT. pose proof poll_pos. assert (0 <= T / ATA_POLL_DELAY_MS c) by (apply Z.div_pos; lia).
  unfold polls. rewrite Nat2Z.inj_succ, Z2Nat.id by lia.
  pose proof (Z.div_mod T (ATA_POLL_DELAY_MS c) ltac:(lia)). pose proof (Z.mod_pos_bound T (ATA_POLL_DELAY_MS c) ltac:(lia)). nia.
Qed.

(** A computation that returns, whatever the hardware does. *)
Definition returns {A} (m : M (ata H) A) : Prop := forall s, exists a s', m s = Some (a, s').

Lemma ret_returns {A} (a : A) : returns (mret a).
Proof. intros s. by exists a, s. Qed.
Lemma bind_returns {A B} (m : M (ata H) A) (k : A -> M (ata H) B) : returns m -> (forall a, returns (k a)) -> returns (m ≫= k).
Proof. intros Hm Hk s. destruct (Hm s) as (a & s' & E). destruct (Hk a s') as (b & s'' & E'). exists b, s''. by rewrite (bind_eq _ _ _ _ _ E). Qed.
Lemma inb_returns p : returns (inb p).
Proof. intros s. unfold inb. destruct (dev_inb _ _). by eexists _, _. Qed.
Lemma insw_returns p n : returns (insw p n).
Proof. intros s. unfold insw. destruct (dev_insw _ _ _). by eexists _, _. Qed.
Lemma modify_returns f : returns (modify f).
Proof. intros s. by eexists _, _. Qed.
Lemma gets_returns {A} (f : ata H -> A) : returns (gets f).
Proof. intros s. by eexists _, _. Qed.
Lemma if_returns {A} (b : bool) (m m' : M (ata H) A) : returns m -> returns m' -> returns (if b then m else m').
Proof. by destruct b. Qed.

Create HintDb returns.
#[local] Hint Resolve ret_returns bind_returns inb_returns insw_returns modify_returns gets_returns if_returns : returns.

(** The round after a delay: time is left, and fuel. *)
Lemma poll_again (fuel : nat) T e :
  0 <= e -> e < T -> T < 2 ^ 31 -> T + ATA_POLL_DELAY_MS c <= e + Z.of_nat (S fuel) * ATA_POLL_DELAY_MS c ->
  u32 (e + ATA_POLL_DELAY_MS c) = e + ATA_POLL_DELAY_MS c /\ fuel <> 0%nat /\ T + ATA_POLL_DELAY_MS c <= e + ATA_POLL_DELAY_MS c + Z.of_nat fuel * ATA_POLL_DELAY_MS c.
Proof.
  pose proof poll_pos. intros Hz He HT Hf. rewrite Nat2Z.inj_succ in Hf. rewrite wrap_small by lia.
  split; [done|]. split; [|nia]. intros ->. nia.
Qed.

Lemma ready_loop_returns fuel b T e :
  0 <= e -> T < 2 ^ 31 -> fuel <> 0%nat -> T + ATA_POLL_DELAY_MS c <= e + Z.of_nat fuel * ATA_POLL_DELAY_MS c ->
  returns (ready_loop c fuel b T e).
Proof.
  pose proof poll_pos as Hp. revert e. induction fuel as [|fuel IH]; intros e He HT Hn Hf; [done|].
  cbn [ready_loop]. apply bind_returns; [apply inb_returns|intros st].
  assert (returns (if T <=? e then mret false else _ ← pit_delay (ATA_POLL_DELAY_MS c); ready_loop c fuel b T (u32 (e + ATA_POLL_DELAY_MS c)))) as Ha.
  { destruct (Z.leb_spec T e) as [|Hlt]; [apply ret_returns|]. apply bind_returns; [apply modify_returns|intros _].
    destruct (poll_again fuel T e He Hlt HT Hf) as (-> & Hn' & Hf'). apply IH; (done || lia). }
  destruct c; auto with returns.
Qed.

Lemma busy_loop_returns fuel b T e :
  0 <= e -> T < 2 ^ 31 -> fuel <> 0%nat -> T + ATA_POLL_DELAY_MS c <= e + Z.of_nat fuel * ATA_POLL_DELAY_MS c ->
  forall s, exists r s', busy_loop c fuel b T e s = Some (r, s') /\ forall e', r = Some e' -> 0 <= e'.
Proof.
  pose proof poll_pos as Hp. revert e. induction fuel as [|fuel IH]; intros e He HT Hn Hf s; [done|].
  cbn [busy_loop]. destruct (inb_returns (ATA_STATUS b) s) as (st & s1 & E). rewrite (bind_eq _ _ _ _ _ E).
  destruct (st =? 255); [by eexists None, _|].
  destruct (bit st 1); [destruct (inb_returns (ATA_ERROR b) s1) as (? & ? & E'); rewrite (bind_eq _ _ _ _ _ E'); by eexists None, _|].
  destruct (negb _); [eexists (Some e), _; split; [done|]; by intros ? [= <-]|].
  destruct (Z.leb_spec T e) as [|Hlt]; [by eexists None, _|]. unfold pit_delay. rewrite modify_bind.
  destruct (poll_again fuel T e He Hlt HT Hf) as (-> & Hn' & Hf'). apply IH; (done || lia).
Qed.

Lemma drq_loop_returns fuel b T e :
  0 <= e -> T < 2 ^ 31 -> fuel <> 0%nat -> T + ATA_POLL_DELAY_MS c <= e + Z.of_nat fuel * ATA_POLL_DELAY_MS c ->
  returns (drq_loop c fuel b T e).
Proof.
  pose proof poll_pos as Hp. revert e. induction fuel as [|fuel IH]; intros e He HT Hn Hf; [done|].
  cbn [drq_loop]. apply bind_returns; [apply inb_returns|intros st]. apply if_returns; [apply ret_returns|].
  destruct (Z.leb_spec T e) as [|Hlt]; [auto with returns|]. apply bind_returns; [apply modify_returns|intros _].
  destruct (poll_again fuel T e He Hlt HT Hf) as (-> & Hn' & Hf'). cbn zeta.
  assert (returns (drq_loop c fuel b T (e + ATA_POLL_DELAY_MS c))) by (apply IH; (done || lia)). auto with returns.
Qed.

Lemma data_loop_returns fuel b T e :
  0 <= e -> T < 2 ^ 31 -> fuel <> 0%nat -> T + ATA_POLL_DELAY_MS c <= e + Z.of_nat fuel * ATA_POLL_DELAY_MS c ->
  returns (data_loop c fuel b T e).
Proof.
  pose proof poll_pos as Hp. revert e. induction fuel as [|fuel IH]; intros e He HT Hn Hf; [done|].
  cbn [data_loop]. apply bind_returns; [apply inb_returns|intros st]. do 3 (apply if_returns; [apply ret_returns|]).
  destruct (Z.leb_spec T e) as [|Hlt]; [auto with returns|]. apply bind_returns; [apply modify_returns|intros _].
  destruct (poll_again fuel T e He Hlt HT Hf) as (-> & Hn' & Hf'). apply IH; (done || lia).
Qed.

Lemma wait_ready_returns b T : 0 <= T < 2 ^ 31 -> returns (wait_for_drive_ready c b T).
Proof. intros HT. pose proof (polls_enough T). apply ready_loop_returns; [lia|lia|done|lia]. Qed.

Lemma wait_data_returns b T : 0 <= T < 2 ^ 31 -> returns (wait_for_drive_data_ready c b T).
Proof.
  intros HT s. pose proof (polls_enough T) as Hp. unfold wait_for_drive_data_ready.
  assert (returns (data_loop c (polls c T) b T 0)) as Hd by (apply data_loop_returns; [lia|lia|done|lia]).
  assert (exists a s', (e ← busy_loop c (polls c T) b T 0;
    match e with None => mret false | Some e => drq_loop c (polls c T) b T e end) s = Some (a, s')) as Hq.
  { destruct (busy_loop_returns (polls c T) b T 0 ltac:(lia) ltac:(lia) ltac:(done) ltac:(lia) s) as (r & s1 & E & Hr).
    rewrite (bind_eq _ _ _ _ _ E).
    destruct r as [e|]; [|by eexists _, _]. apply drq_loop_returns; [by apply Hr|lia|done|]. specialize (Hr e eq_refl). lia. }
  destruct c; [exact Hq|apply Hd..].
Qed.

Lemma alt_times_returns n b : returns (alt_status_times n b).
Proof. induction n as [|n IH]; [apply ret_returns|]. apply bind_returns; [apply inb_returns|done]. Qed.

Lemma reset_poll_returns n b : returns (reset_poll n b).
Proof.
  induction n as [|n IH]; [apply ret_returns|]. cbn [reset_poll]. apply bind_returns; [apply inb_returns|intros st].
  apply if_returns; [apply ret_returns|]. apply bind_returns; [apply modify_returns|done].
Qed.

Lemma soft_reset_returns b m : returns (ata_soft_reset b m).
Proof.
  unfold ata_soft_reset. repeat (apply bind_returns; [first [apply modify_returns|apply alt_times_returns]|intros []]). apply reset_poll_returns.
Qed.

Lemma fail_returns : returns fail.
Proof. unfold fail. auto with returns. Qed.

Lemma first_attempt_returns b m : returns (first_attempt b m).
Proof.
  unfold first_attempt. apply bind_returns; [apply gets_returns|intros a]. apply if_returns; [apply ret_returns|].
  apply bind_returns; [apply inb_returns|intros st]. apply bind_returns; [|intros _; apply modify_returns].
  apply if_returns; [apply soft_reset_returns|apply ret_returns].
Qed.

Lemma timeout_range : 0 <= ATA_WAIT_TIMEOUT_MS c < 2 ^ 31.
Proof. destruct c; simpl; lia. Qed.

Lemma read_returns b lba m : returns (ata_read_sector c b lba m).
Proof.
  pose proof timeout_range as HT. unfold ata_read_sector.
  pose proof (wait_ready_returns b _ HT) as Hr. pose proof (wait_data_returns b _ HT) as Hd. pose proof fail_returns as Hf.
  apply bind_returns; [apply first_attempt_returns|intros []].
  apply bind_returns; [apply gets_returns|intros n]. apply if_returns; [apply ret_returns|].
  apply bind_returns; [done|intros r]. apply if_returns; [done|].
  apply bind_returns; [apply modify_returns|intros []]. apply bind_returns; [apply alt_times_returns|intros []].
  apply bind_returns; [destruct c; first [apply ret_returns|apply modify_returns]|intros []].
  apply bind_returns; [done|intros r']. apply if_returns; [done|].
  do 5 (apply bind_returns; [apply modify_returns|intros []]). apply bind_returns; [apply alt_times_returns|intros []].
  apply bind_returns; [done|intros r'']. apply if_returns.
  { apply bind_returns; [done|intros x]. apply bind_returns; [apply modify_returns|]. auto with returns. }
  apply bind_returns; [apply insw_returns|intros data].
  apply bind_returns; [destruct c; first [apply ret_returns|exact Hr]|intros r3]. apply if_returns; auto with returns.
Qed.

Lemma write_returns b lba data m : (SECTOR_SIZE <= length data)%nat -> returns (ata_write_sector c b lba (Some data) m).
Proof.
  intros Hl. pose proof timeout_range as HT. unfold ata_write_sector.
  pose proof (wait_ready_returns b _ HT) as Hr. pose proof (wait_data_returns b _ HT) as Hd.
  apply bind_returns; [done|intros r]. apply if_returns; [apply ret_returns|].
  do 6 (apply bind_returns; [apply modify_returns|intros []]).
  apply bind_returns; [done|intros r']. apply if_returns; [apply ret_returns|].
  apply bind_returns.
  { unfold outsw. destruct (Nat.ltb_spec (length data) (2 * (SECTOR_SIZE / 2))); [|apply modify_returns].
    unfold SECTOR_SIZE in *. simpl in *. lia. }
  intros []. apply bind_returns; [done|intros r'']. apply if_returns; [apply ret_returns|].
  apply bind_returns; [apply modify_returns|intros []]. apply bind_returns; [done|]. auto with returns.
Qed.
End Total.

(** C26: the driver does not wait for the disk for ever: on any hardware, whatever its ports
    deliver and however long it stays busy, reading and writing a sector return after
    finitely many polls, in each of the four builds; a write needs 512 bytes in its buffer.
    The pauses between the polls are taken to end, as [pit_delay] does while the timer's
    interrupts arrive. *)
Theorem ata_always_returns {H : Type} `{Ports H} (c : build) (b lba : Z) (m : bool) (data : buf) (s : ata H) :
  (SECTOR_SIZE <= length data)%nat ->
  (exists r s', ata_read_sector c b lba m s = Some (r, s')) /\
  (exists r s', ata_write_sector c b lba (Some data) m s = Some (r, s')).
Proof. intros Hl. split; [apply read_returns|by apply write_returns]. Qed.

(** * Correctness on hardware that keeps the protocol *)

Section Correct.
Context {H : Type} `{AtaDevice H} (c : build).
Context (fast : 0 <= ata_latency <= ATA_WAIT_TIMEOUT_MS c).

(** The same registers and phase, not busier than before. *)
Record later (v v' : bus_view) : Prop := Mk_later {
  lt_phase : v_phase v' = v_phase v;
  lt_busy : v_busy v' <= Z.max 0 (v_busy v);
  lt_count : v_count v' = v_count v; lt_low : v_low v' = v_low v; lt_mid : v_mid v' = v_mid v;
  lt_high : v_high v' = v_high v; lt_head : v_head v' = v_head v
}.

#[local] Instance later_preorder : PreOrder later.
Proof. split; [intros v; split; (done || lia)|]. intros u v w [] []. split; (congruence || lia). Qed.

Definition same_disk (h h' : H) : Prop := forall b m l, disk h' b m l = disk h b m l.

(** Nothing but time has passed. *)
Definition calm (h h' : H) : Prop := (forall b, later (view h b) (view h' b)) /\ same_disk h h'.

#[local] Instance calm_preorder : PreOrder calm.
Proof.
  split; [intros h; by split|]. intros h1 h2 h3 [A1 B1] [A2 B2]. split; [intros b; by transitivity (view h2 b)|].
  intros b m l. by rewrite B2.
Qed.

Lemma port_range b k : bus b -> 0 <= k <= 518 -> u16 (b + k) = b + k.
Proof. intros [-> | ->] Hk; apply wrap_small; unfold ATA_PRIMARY_IO, ATA_SECONDARY_IO; lia. Qed.

Lemma calm_views h h' : (forall b, view h' b = view h b) -> same_disk h h' -> calm h h'.
Proof. intros Hv Hd. split; [|done]. intros b. by rewrite Hv. Qed.

Lemma inb_status s b :
  bus b -> exists st h, inb (ATA_STATUS b) s = Some (st, with_hw s h) /\ status_ok (view (ata_hw s) b) st /\ calm (ata_hw s) h.
Proof.
  intros Hb. unfold inb, ATA_STATUS. rewrite port_range by (done || lia). fold (ATA_STATUS b). cbn [hw ata_machine].
  destruct (read_status (ata_hw s) b Hb) as (Hs & Hv & Hd). destruct (dev_inb (ATA_STATUS b) (ata_hw s)) as [st h]. cbn [fst snd] in *.
  exists (u8 st), h. split; [done|]. rewrite wrap_small by apply Hs. split; [done|by apply calm_views].
Qed.

Lemma inb_alt s b : bus b -> exists st h, inb (ATA_ALT_STATUS b) s = Some (st, with_hw s h) /\ calm (ata_hw s) h.
Proof.
  intros Hb. unfold inb, ATA_ALT_STATUS. rewrite port_range by (done || lia). fold (ATA_ALT_STATUS b). cbn [hw ata_machine].
  destruct (read_alt (ata_hw s) b Hb) as (Hv & Hd). destruct (dev_inb (ATA_ALT_STATUS b) (ata_hw s)) as [st h]. cbn [fst snd] in *.
  exists (u8 st), h. split; [done|by apply calm_views].
Qed.

Lemma delay_ok s ms :
  0 <= ms -> exists h, pit_delay ms s = Some (tt, with_hw s h) /\ calm (ata_hw s) h /\
    forall b, v_busy (view h b) <= Z.max 0 (v_busy (view (ata_hw s) b) - ms).
Proof.
  intros Hms. unfold pit_delay, modify. cbn [hw ata_machine]. eexists. split; [done|].
  destruct (time_passes (ata_hw s) ms Hms) as [Hv Hd]. split; [split; [|done]|].
  - intros b. destruct (Hv b) as (t & Ht & E). rewrite E. split; cbn; (done || lia).
  - intros b. destruct (Hv b) as (t & Ht & E). by rewrite E.
Qed.

Lemma alt_times_ok n s b : bus b -> exists h, alt_status_times n b s = Some (tt, with_hw s h) /\ calm (ata_hw s) h.
Proof.
  intros Hb. revert s. induction n as [|n IH]; intros s; cbn [alt_status_times].
  - exists (ata_hw s). split; [by destruct s|done].
  - destruct (inb_alt s b Hb) as (st & h & E & Hc). rewrite (bind_eq _ _ _ _ _ E).
    destruct (IH (with_hw s h)) as (h' & E' & Hc'). exists h'. split; [exact E'|]. by transitivity h.
Qed.

(** Waiting ends when the drive is ready, in time. *)
Lemma ready_loop_ok fuel s b T e :
  bus b -> 0 <= e -> T < 2 ^ 31 -> fuel <> 0%nat -> T + ATA_POLL_DELAY_MS c <= e + Z.of_nat fuel * ATA_POLL_DELAY_MS c ->
  v_busy (view (ata_hw s) b) <= Z.max 0 (T - e) ->
  exists h, ready_loop c fuel b T e s = Some (true, with_hw s h) /\ calm (ata_hw s) h /\ v_busy (view h b) <= 0.
Proof.
  intros Hb. revert s e. pose proof (poll_pos c) as Hp. induction fuel as [|fuel IH]; intros s e He HT Hn Hf Hbusy; [done|].
  cbn [ready_loop]. destruct (inb_status s b Hb) as (st & h & E & Hst & Hc). rewrite (bind_eq _ _ _ _ _ E). cbn zeta.
  destruct (Z.leb_spec (v_busy (view (ata_hw s) b)) 0) as [Hready|Hready].
  - exists h. assert (v_busy (view h b) <= 0) by (destruct Hc as [Hv _]; destruct (Hv b); lia).
    rewrite (st_err _ _ Hst), (st_bsy _ _ Hst), (st_rdy _ _ Hst Hready).
    destruct (Z.ltb_spec 0 (v_busy (view (ata_hw s) b))); [lia|]. cbn [negb andb]. by destruct c.
  - destruct (Z.leb_spec T e) as [|Hlt]; [lia|].
    destruct (delay_ok (with_hw s h) (ATA_POLL_DELAY_MS c) ltac:(lia)) as (h2 & E2 & Hc2 & Hb2).
    destruct (poll_again c fuel T e He Hlt HT Hf) as (Ew & Hn' & Hf').
    destruct (IH (with_hw s h2) (e + ATA_POLL_DELAY_MS c)) as (h3 & E3 & Hc3 & Hb3); [lia|lia|done|lia| |].
    { cbn. specialize (Hb2 b). cbn in Hb2. destruct Hc as [Hv _]. destruct (Hv b). lia. }
    exists h3. split; [|split; [transitivity h; [done|by transitivity h2]|done]].
    rewrite (st_err _ _ Hst), (st_bsy _ _ Hst). destruct (Z.ltb_spec 0 (v_busy (view (ata_hw s) b))); [|lia]. cbn [negb andb].
    assert ((_ ← pit_delay (ATA_POLL_DELAY_MS c); ready_loop c fuel b T (u32 (e + ATA_POLL_DELAY_MS c))) (with_hw s h) = Some (true, with_hw s h3)) as Ea
      by (rewrite Ew, (bind_eq _ _ _ _ _ E2); exact E3).
    destruct c; exact Ea.
Qed.

Lemma wait_ready_ok s b T :
  bus b -> 0 <= T < 2 ^ 31 -> v_busy (view (ata_hw s) b) <= T ->
  exists h, wait_for_drive_ready c b T s = Some (true, with_hw s h) /\ calm (ata_hw s) h /\ v_busy (view h b) <= 0.
Proof. intros Hb HT Hv. pose proof (polls_enough c T). apply ready_loop_ok; (done || lia). Qed.

(** The data phases. *)
Definition transfers (v : bus_view) : Prop := v_phase v <> Idle.

Lemma drq_set v st : status_ok v st -> transfers v -> v_busy v <= 0 -> bit st 8 = true.
Proof. intros Hs Ht Hb. rewrite (st_drq _ _ Hs Hb). unfold transfers in Ht. by destruct (v_phase v). Qed.

Lemma busy_loop_ok fuel s b T e :
  bus b -> 0 <= e -> T < 2 ^ 31 -> fuel <> 0%nat -> T + ATA_POLL_DELAY_MS c <= e + Z.of_nat fuel * ATA_POLL_DELAY_MS c ->
  v_busy (view (ata_hw s) b) <= Z.max 0 (T - e) ->
  exists h e', busy_loop c fuel b T e s = Some (Some e', with_hw s h) /\ calm (ata_hw s) h /\ v_busy (view h b) <= 0.
Proof.
  intros Hb. revert s e. pose proof (poll_pos c) as Hp. induction fuel as [|fuel IH]; intros s e He HT Hn Hf Hbusy; [done|].
  cbn [busy_loop]. destruct (inb_status s b Hb) as (st & h & E & Hst & Hc). rewrite (bind_eq _ _ _ _ _ E).
  destruct (Z.eqb_spec st 255) as [->|_]; [by pose proof (st_err _ _ Hst)|]. rewrite (st_err _ _ Hst), (st_bsy _ _ Hst).
  destruct (Z.ltb_spec 0 (v_busy (view (ata_hw s) b))) as [Hpos|Hpos]; cbn [negb].
  - destruct (Z.leb_spec T e) as [|Hlt]; [lia|].
    destruct (delay_ok (with_hw s h) (ATA_POLL_DELAY_MS c) ltac:(lia)) as (h2 & E2 & Hc2 & Hb2).
    destruct (poll_again c fuel T e He Hlt HT Hf) as (Ew & Hn' & Hf').
    destruct (IH (with_hw s h2) (e + ATA_POLL_DELAY_MS c)) as (h3 & e' & E3 & Hc3 & Hb3); [lia|lia|done|lia| |].
    { cbn. specialize (Hb2 b). cbn in Hb2. destruct Hc as [Hv _]. destruct (Hv b). lia. }
    exists h3, e'. split; [|split; [transitivity h; [done|by transitivity h2]|done]].
    rewrite Ew, (bind_eq _ _ _ _ _ E2). exact E3.
  - exists h, e. split; [done|]. split; [done|]. destruct Hc as [Hv _]. destruct (Hv b). lia.
Qed.

Lemma data_loop_ok fuel s b T e :
  bus b -> transfers (view (ata_hw s) b) ->
  0 <= e -> T < 2 ^ 31 -> fuel <> 0%nat -> T + ATA_POLL_DELAY_MS c <= e + Z.of_nat fuel * ATA_POLL_DELAY_MS c ->
  v_busy (view (ata_hw s) b) <= Z.max 0 (T - e) ->
  exists h, data_loop c fuel b T e s = Some (true, with_hw s h) /\ calm (ata_hw s) h /\ v_busy (view h b) <= 0.
Proof.
  intros Hb. revert s e. pose proof (poll_pos c) as Hp. induction fuel as [|fuel IH]; intros s e Htr He HT Hn Hf Hbusy; [done|].
  cbn [data_loop]. destruct (inb_status s b Hb) as (st & h & E & Hst & Hc). rewrite (bind_eq _ _ _ _ _ E).
  rewrite (st_err _ _ Hst), (st_df _ _ Hst), (st_bsy _ _ Hst).
  destruct (Z.ltb_spec 0 (v_busy (view (ata_hw s) b))) as [Hpos|Hpos]; cbn [negb].
  - rewrite andb_false_r. destruct (Z.leb_spec T e) as [|Hlt]; [lia|].
    destruct (delay_ok (with_hw s h) (ATA_POLL_DELAY_MS c) ltac:(lia)) as (h2 & E2 & Hc2 & Hb2).
    destruct (poll_again c fuel T e He Hlt HT Hf) as (Ew & Hn' & Hf').
    assert (calm (ata_hw s) h2) as Hc' by (by transitivity h).
    destruct (IH (with_hw s h2) (e + ATA_POLL_DELAY_MS c)) as (h3 & E3 & Hc3 & Hb3); [|lia|lia|done|lia| |].
    { unfold transfers. cbn. destruct Hc' as [Hv _]. destruct (Hv b) as [-> _ _ _ _ _ _]. done. }
    { cbn. specialize (Hb2 b). cbn in Hb2. destruct Hc as [Hv _]. destruct (Hv b). lia. }
    exists h3. split; [|split; [by transitivity h2|done]]. rewrite Ew, (bind_eq _ _ _ _ _ E2). exact E3.
  - rewrite (drq_set _ _ Hst Htr) by lia. exists h. split; [done|]. split; [done|]. destruct Hc as [Hv _]. destruct (Hv b). lia.
Qed.

Lemma wait_data_ok s b T :
  bus b -> transfers (view (ata_hw s) b) -> 0 <= T < 2 ^ 31 -> v_busy (view (ata_hw s) b) <= T ->
  exists h, wait_for_drive_data_ready c b T s = Some (true, with_hw s h) /\ calm (ata_hw s) h /\ v_busy (view h b) <= 0.
Proof.
  intros Hb Ht HT Hv. pose proof (polls_enough c T) as Hp. unfold wait_for_drive_data_ready.
  destruct (data_loop_ok (polls c T) s b T 0) as (hd & Ed & Hd); [done|done|lia|lia|done|lia|lia|].
  destruct (busy_loop_ok (polls c T) s b T 0) as (h & e & E & Hc & Hz); [done|lia|lia|done|lia|lia|].
  assert (transfers (view h b)) as Ht' by (unfold transfers; destruct Hc as [Hl _]; destruct (Hl b) as [-> _ _ _ _ _ _]; done).
  destruct (inb_status (with_hw s h) b Hb) as (st & h2 & E2 & Hst & Hc2).
  assert ((e ← busy_loop c (polls c T) b T 0; match e with None => mret false | Some e => drq_loop c (polls c T) b T e end) s = Some (true, with_hw s h2)) as Eq.
  { rewrite (bind_eq _ _ _ _ _ E). unfold polls. cbn [drq_loop]. rewrite (bind_eq _ _ _ _ _ E2). by rewrite (drq_set _ _ Hst Ht' Hz). }
  destruct c; [|exists hd; done..]. exists h2. split; [exact Eq|]. split; [by transitivity h|].
  destruct Hc2 as [Hl _]. destruct (Hl b). cbn in *. lia.
Qed.

(** The other controller is left alone. *)
Definition others (b : Z) (h h' : H) : Prop := forall b', b' <> b -> later (view h b') (view h' b').
Definition frame (b : Z) (h h' : H) : Prop := others b h h' /\ same_disk h h'.

#[local] Instance others_preorder b : PreOrder (others b).
Proof. split; [intros h b' _; done|]. intros h1 h2 h3 A1 A2 b' Hne. transitivity (view h2 b'); [by apply A1|by apply A2]. Qed.
#[local] Instance frame_preorder b : PreOrder (frame b).
Proof.
  split; [intros h; by split|]. intros h1 h2 h3 [A1 B1] [A2 B2]. split; [by transitivity h2|]. intros b' m l. by rewrite B2.
Qed.
Lemma calm_frame b h h' : calm h h' -> frame b h h'.
Proof. intros [A B]. split; [intros b' _; apply A|done]. Qed.

Lemma outb_reg s b r x :
  bus b -> 2 <= r <= 6 -> 0 <= x < 256 -> v_phase (view (ata_hw s) b) = Idle -> v_busy (view (ata_hw s) b) <= 0 ->
  exists h, outb (b + r) x s = Some (tt, with_hw s h) /\ view h b = set_reg (view (ata_hw s) b) r x /\ frame b (ata_hw s) h.
Proof.
  intros Hb Hr Hx Hp Hz. unfold outb, modify. rewrite port_range by (done || lia). rewrite (wrap_small 8 x) by lia. cbn [hw ata_machine].
  destruct (write_reg (ata_hw s) b r x Hb Hr Hx Hp Hz) as (E & Ho & Hd). eexists. split; [done|]. split; [done|]. split; [|done].
  intros b' Hne. by rewrite Ho.
Qed.

(** Ready for a command with the registers [v]. *)
Definition ready (v : bus_view) : Prop := v_phase v = Idle /\ v_busy v <= 0.

Definition lba_regs (lba : Z) (v : bus_view) : Prop :=
  v_count v = 1 /\ v_low v = u8 (Z.land lba 255) /\ v_mid v = u8 (Z.land (Z.shiftr lba 8) 255) /\ v_high v = u8 (Z.land (Z.shiftr lba 16) 255).

(** The four registers that both commands set. *)
Lemma outb_lba s b lba :
  bus b -> ready (view (ata_hw s) b) ->
  exists h, (forall A (k : unit -> M (ata H) A),
    (_ ← outb (ATA_SECTOR_CNT b) 1; _ ← outb (ATA_LBA_LOW b) (u8 (Z.land lba 255));
     _ ← outb (ATA_LBA_MID b) (u8 (Z.land (Z.shiftr lba 8) 255)); r ← outb (ATA_LBA_HIGH b) (u8 (Z.land (Z.shiftr lba 16) 255)); k r) s =
    k tt (with_hw s h)) /\ ready (view h b) /\ lba_regs lba (view h b) /\ v_head (view h b) = v_head (view (ata_hw s) b) /\ frame b (ata_hw s) h.
Proof.
  intros Hb [Hp Hz]. assert (forall x, 0 <= u8 x < 256) as Hw by (intros; apply wrap_range; lia).
  destruct (outb_reg s b 2 1 Hb ltac:(lia) ltac:(lia) Hp Hz) as (h1 & E1 & V1 & F1).
  destruct (outb_reg (with_hw s h1) b 3 (u8 (Z.land lba 255)) Hb ltac:(lia) (Hw _)) as (h2 & E2 & V2 & F2); [by cbn; rewrite V1|by cbn; rewrite V1|].
  cbn in V2. destruct (outb_reg (with_hw s h2) b 4 (u8 (Z.land (Z.shiftr lba 8) 255)) Hb ltac:(lia) (Hw _)) as (h3 & E3 & V3 & F3);
    [by cbn; rewrite V2, V1|by cbn; rewrite V2, V1|].
  cbn in V3. destruct (outb_reg (with_hw s h3) b 5 (u8 (Z.land (Z.shiftr lba 16) 255)) Hb ltac:(lia) (Hw _)) as (h4 & E4 & V4 & F4);
    [by cbn; rewrite V3, V2, V1|by cbn; rewrite V3, V2, V1|].
  cbn in V4. exists h4. split; [|rewrite V4, V3, V2, V1; split; [done|split; [done|split; [done|]]]].
  - intros A k'. unfold ATA_SECTOR_CNT, ATA_LBA_LOW, ATA_LBA_MID, ATA_LBA_HIGH.
    rewrite (bind_eq _ _ _ _ _ E1), (bind_eq _ _ _ _ _ E2), (bind_eq _ _ _ _ _ E3), (bind_eq _ _ _ _ _ E4). done.
  - transitivity h1; [done|]. transitivity h2; [done|]. by transitivity h3.
Qed.

Lemma head_value q (m : bool) :
  0 <= q < 16 ->
  let x := Z.lor (Z.lor 224 q) (if m then 0 else 16) in 0 <= x < 256 /\ x mod 16 = q /\ negb (Z.testbit x 4) = m.
Proof.
  intros Hq. assert (q = 0 \/ q = 1 \/ q = 2 \/ q = 3 \/ q = 4 \/ q = 5 \/ q = 6 \/ q = 7 \/ q = 8 \/ q = 9 \/ q = 10 \/
    q = 11 \/ q = 12 \/ q = 13 \/ q = 14 \/ q = 15) as Hc by lia.
  repeat (destruct Hc as [-> | Hc]; [by destruct m|]). subst q. by destruct m.
Qed.

Lemma drive_head_ok lba m :
  0 <= lba < LBA_LIMIT -> 0 <= drive_head lba m < 256 /\ drive_head lba m mod 16 = lba / 2 ^ 24 /\ negb (Z.testbit (drive_head lba m) 4) = m.
Proof.
  intros Hl. unfold LBA_LIMIT in Hl. unfold drive_head. change 15 with (Z.ones 4).
  rewrite Z.land_ones, Z.shiftr_div_pow2 by lia. rewrite Z.mod_small by zlia. apply head_value. zlia.
Qed.

(** The registers address the sector. *)
Lemma regs_address lba m v :
  0 <= lba < LBA_LIMIT -> lba_regs lba v -> v_head v = drive_head lba m -> v_master v = m /\ v_lba v = lba.
Proof.
  intros Hl (_ & E1 & E2 & E3) E4. unfold v_master, v_lba. rewrite E1, E2, E3, E4.
  destruct (drive_head_ok lba m Hl) as (_ & -> & ->). split; [done|]. unfold LBA_LIMIT in Hl.
  change 255 with (Z.ones 8). rewrite !Z.land_ones, !Z.shiftr_div_pow2 by lia.
  rewrite !(wrap_small 8) by (apply Z.mod_pos_bound; lia).
  pose proof (Z.div_mod lba 256 ltac:(lia)). pose proof (Z.div_mod (lba / 2 ^ 8) 256 ltac:(lia)).
  pose proof (Z.div_mod (lba / 2 ^ 16) 256 ltac:(lia)).
  assert (lba / 2 ^ 8 / 256 = lba / 2 ^ 16) by (by rewrite Z.div_div). assert (lba / 2 ^ 16 / 256 = lba / 2 ^ 24) by (by rewrite Z.div_div).
  change 256 with (2 ^ 8) in *. lia.
Qed.

(** Between calls: no command is under way, and no drive is busy for longer than it may be. *)
Definition quiet (h : H) : Prop := forall b, bus b -> v_phase (view h b) = Idle /\ v_busy (view h b) <= ata_latency.

Lemma frame_quiet b h h' :
  frame b h h' -> quiet h -> 0 <= ata_latency -> v_phase (view h' b) = Idle -> v_busy (view h' b) <= ata_latency -> quiet h'.
Proof.
  intros [Ho _] Hq Hlat Hp Hz b' Hb'. destruct (decide (b' = b)) as [->|Hne]; [done|].
  destruct (Hq b' Hb') as [Hp' Hz']. destruct (Ho b' Hne). split; [congruence|lia].
Qed.

(** The first status that is read shows a drive, so that it is not reset. *)
Lemma first_attempt_ok s b m :
  bus b -> exists s', first_attempt b m s = Some (tt, s') /\ calm (ata_hw s) (ata_hw s') /\
    consecutive_read_failures s' = consecutive_read_failures s.
Proof.
  intros Hb. unfold first_attempt. rewrite gets_bind. destruct (attempted b s); [by exists s|].
  destruct (inb_status s b Hb) as (st & h & E & Hst & Hc). rewrite (bind_eq _ _ _ _ _ E).
  destruct (Z.eqb_spec st 0) as [->|_].
  { exfalso. pose proof (st_bsy _ _ Hst) as Hbsy. pose proof (st_rdy _ _ Hst) as Hrdy. cbn in Hbsy, Hrdy.
    destruct (Z.ltb_spec 0 (v_busy (view (ata_hw s) b))); [done|]. by specialize (Hrdy ltac:(lia)). }
  destruct (Z.eqb_spec st 255) as [->|_]; [by pose proof (st_err _ _ Hst)|]. cbn [orb].
  exists (set_attempted b (with_hw s h)). split; [done|]. unfold set_attempted. by destruct (b =? ATA_PRIMARY_IO).
Qed.

(** Selecting the drive, and waiting for it. *)
Lemma select_ok s b lba m :
  bus b -> 0 <= lba < LBA_LIMIT -> ready (view (ata_hw s) b) ->
  exists h, (forall A (k : bool -> M (ata H) A),
    (_ ← outb (ATA_DRIVE_HEAD b) (drive_head lba m); _ ← alt_status_times 4 b;
     _ ← (match c with VMWARE_BUILD => pit_delay 50 | _ => mret tt end);
     r ← wait_for_drive_ready c b (ATA_WAIT_TIMEOUT_MS c); k r) s = k true (with_hw s h)) /\
    ready (view h b) /\ v_head (view h b) = drive_head lba m /\ frame b (ata_hw s) h.
Proof.
  intros Hb Hl [Hp Hz]. pose proof (timeout_range c) as HT. destruct (drive_head_ok lba m Hl) as (Hdh & _).
  destruct (outb_reg s b 6 (drive_head lba m) Hb ltac:(lia) Hdh Hp Hz) as (h2 & E2 & V2 & F2).
  destruct (alt_times_ok 4 (with_hw s h2) b Hb) as (h3 & E3 & C3).
  assert (exists h4, (match c with VMWARE_BUILD => pit_delay 50 | _ => mret tt end) (with_hw s h3) = Some (tt, with_hw s h4) /\ calm h3 h4) as (h4 & E4 & C4).
  { destruct (delay_ok (with_hw s h3) 50 ltac:(lia)) as (h4 & E4 & C4 & _). destruct c; [by exists h3|by exists h4|by exists h3..]. }
  assert (calm h2 h4) as C24 by (by transitivity h3). pose proof (proj1 C24 b) as L4. rewrite V2 in L4. destruct L4. cbn in *.
  destruct (wait_ready_ok (with_hw s h4) b (ATA_WAIT_TIMEOUT_MS c) Hb HT) as (h5 & E5 & C5 & Z5); [cbn; lia|].
  pose proof (proj1 C5 b) as L5. destruct L5. cbn in *.
  exists h5. split; [|split; [split; [congruence|done]|split; [congruence|]]].
  - intros A k. unfold ATA_DRIVE_HEAD. by rewrite (bind_eq _ _ _ _ _ E2), (bind_eq _ _ _ _ _ E3), (bind_eq _ _ _ _ _ E4), (bind_eq _ _ _ _ _ E5).
  - transitivity h2; [done|]. apply calm_frame. by transitivity h4.
Qed.

(** The command register, whatever the command. *)
Lemma outb_command s b cmd : bus b -> 0 <= cmd < 256 ->
  outb (ATA_COMMAND b) cmd s = Some (tt, with_hw s (dev_outb (ATA_COMMAND b) cmd (ata_hw s))).
Proof. intros Hb Hc. unfold outb, modify, ATA_COMMAND. rewrite port_range by (done || lia). by rewrite (wrap_small 8 cmd) by lia. Qed.

(** The read command, up to the point where the data can be fetched. *)
Lemma request_ok s b :
  bus b -> ready (view (ata_hw s) b) -> v_count (view (ata_hw s) b) = 1 ->
  let v := view (ata_hw s) b in
  exists h, (forall A (k : bool -> M (ata H) A),
    (_ ← outb (ATA_COMMAND b) ATA_READ_SECTORS; _ ← alt_status_times 4 b;
     r ← wait_for_drive_data_ready c b (ATA_WAIT_TIMEOUT_MS c); k r) s = k true (with_hw s h)) /\
    v_phase (view h b) = DataIn (disk (ata_hw s) b (v_master v) (v_lba v)) /\ v_busy (view h b) <= 0 /\ frame b (ata_hw s) h.
Proof.
  intros Hb [Hp Hz] Hcnt v. pose proof (timeout_range c) as HT.
  destruct (command_read (ata_hw s) b Hb Hp Hz Hcnt) as (P1 & Z1 & O1 & D1). cbn zeta in *.
  set (h1 := dev_outb (ATA_COMMAND b) ATA_READ_SECTORS (ata_hw s)) in *.
  destruct (alt_times_ok 4 (with_hw s h1) b Hb) as (h2 & E2 & C2). pose proof (proj1 C2 b) as L2. cbn in L2.
  assert (v_busy (view h2 b) <= ATA_WAIT_TIMEOUT_MS c) as Z2 by (pose proof (lt_busy _ _ L2); lia).
  destruct (wait_data_ok (with_hw s h2) b (ATA_WAIT_TIMEOUT_MS c) Hb) as (h3 & E3 & C3 & Z3); [|lia|done|].
  { unfold transfers. cbn. by rewrite (lt_phase _ _ L2), P1. }
  exists h3. split; [|split; [|split; [done|]]].
  - intros A k. rewrite (bind_eq _ _ _ _ _ (outb_command s b ATA_READ_SECTORS Hb ltac:(unfold ATA_READ_SECTORS; lia))).
    fold h1. by rewrite (bind_eq _ _ _ _ _ E2), (bind_eq _ _ _ _ _ E3).
  - rewrite (lt_phase _ _ (proj1 C3 b)). cbn. by rewrite (lt_phase _ _ L2).
  - transitivity h1; [split; [|done]; intros b' Hne; by rewrite O1|]. apply calm_frame. by transitivity h2.
Qed.

(** Fetching the data. *)
Lemma fetch_ok s b data :
  bus b -> v_phase (view (ata_hw s) b) = DataIn data -> v_busy (view (ata_hw s) b) <= 0 ->
  exists h, insw (ATA_DATA b) (SECTOR_SIZE / 2) s = Some (data, with_hw s h) /\
    v_phase (view h b) = Idle /\ v_busy (view h b) <= ata_latency /\ frame b (ata_hw s) h.
Proof.
  intros Hb Hp Hz. destruct (data_in (ata_hw s) b data Hb Hp Hz) as (Ed & P1 & Z1 & O1 & D1). unfold insw, ATA_DATA in *.
  rewrite port_range by (done || lia). cbn [hw ata_machine]. destruct (dev_insw (b + 0) (SECTOR_SIZE / 2) (ata_hw s)) as [d h]. cbn in *. subst d.
  exists h. split; [done|]. split; [done|]. split; [done|]. split; [|done]. intros b' Hne. by rewrite O1.
Qed.

Lemma read_sector_ok s b lba m :
  bus b -> 0 <= lba < LBA_LIMIT -> quiet (ata_hw s) -> consecutive_read_failures s < MAX_CONSECUTIVE_FAILURES ->
  exists s', ata_read_sector c b lba m s = Some ((true, Some (disk (ata_hw s) b m lba)), s') /\
    quiet (ata_hw s') /\ same_disk (ata_hw s) (ata_hw s') /\ consecutive_read_failures s' = 0.
Proof.
  intros Hb Hl Hq Hf. pose proof (timeout_range c) as HT. unfold ata_read_sector.
  destruct (first_attempt_ok s b m Hb) as (s0 & E0 & C0 & F0). rewrite (bind_eq _ _ _ _ _ E0), gets_bind, F0.
  destruct (Z.leb_spec MAX_CONSECUTIVE_FAILURES (consecutive_read_failures s)); [lia|].
  destruct (Hq b Hb) as [Hp Hz]. pose proof (proj1 C0 b) as L0. destruct L0.
  destruct (wait_ready_ok s0 b (ATA_WAIT_TIMEOUT_MS c) Hb HT) as (h1 & E1 & C1 & Z1); [lia|].
  rewrite (bind_eq _ _ _ _ _ E1). cbn [negb]. pose proof (proj1 C1 b) as L1. destruct L1.
  destruct (select_ok (with_hw s0 h1) b lba m Hb Hl) as (h2 & E2 & R2 & V2 & F2); [split; cbn; [congruence|done]|].
  rewrite E2. cbn [negb].
  destruct (outb_lba (with_hw s0 h2) b lba Hb) as (h3 & E3 & R3 & G3 & V3 & F3); [exact R2|]. rewrite E3.
  destruct (request_ok (with_hw s0 h3) b Hb) as (h4 & E4 & P4 & Z4 & F4); [exact R3|exact (proj1 G3)|]. rewrite E4. cbn [negb].
  destruct (regs_address lba m (view h3 b) Hl G3 ltac:(cbn in V3; congruence)) as [Em El]. cbn in P4. rewrite Em, El in P4.
  assert (frame b (ata_hw s) h4) as F04.
  { transitivity (ata_hw s0); [by apply calm_frame|]. transitivity h1; [by apply calm_frame|]. transitivity h2; [done|]. by transitivity h3. }
  replace (disk h3 b m lba) with (disk (ata_hw s) b m lba) in P4.
  2: { symmetry. rewrite (proj2 F3). cbn. rewrite (proj2 F2). cbn. rewrite (proj2 C1). apply C0. }
  destruct (fetch_ok (with_hw s0 h4) b (disk (ata_hw s) b m lba) Hb) as (h5 & E5 & P5 & Z5 & F5); [exact P4|exact Z4|]. rewrite (bind_eq _ _ _ _ _ E5).
  assert (exists h6, (match c with REAL_HARDWARE => wait_for_drive_ready c b (ATA_WAIT_TIMEOUT_MS c) | _ => mret true end) (with_hw s0 h5) =
    Some (true, with_hw s0 h6) /\ calm h5 h6) as (h6 & E6 & C6).
  { destruct (wait_ready_ok (with_hw s0 h5) b (ATA_WAIT_TIMEOUT_MS c) Hb HT) as (h6 & E6 & C6 & _); [cbn; lia|].
    destruct c; [by exists h5|by exists h5|by exists h6|by exists h5]. }
  rewrite (bind_eq _ _ _ _ _ E6). cbn [negb]. rewrite modify_bind. eexists. split; [done|].
  assert (frame b (ata_hw s) h6) as F06 by (transitivity h4; [done|]; transitivity h5; [done|by apply calm_frame]).
  pose proof (proj1 C6 b) as L6. destruct L6. split; [|split; [apply F06|done]].
  apply (frame_quiet b (ata_hw s)); cbn; try done; [lia|congruence|lia].
Qed.

(** The write command and the transfer of the data. *)
Lemma store_ok s b data :
  bus b -> ready (view (ata_hw s) b) -> v_count (view (ata_hw s) b) = 1 -> length data = SECTOR_SIZE -> bytes_ok data ->
  let v := view (ata_hw s) b in
  exists h, (forall A (k : bool -> M (ata H) A) (k' : M (ata H) A),
    (_ ← outb (ATA_COMMAND b) ATA_WRITE_SECTORS; r ← wait_for_drive_data_ready c b (ATA_WAIT_TIMEOUT_MS c);
     if negb r then k' else _ ← outsw (ATA_DATA b) data (SECTOR_SIZE / 2);
     r ← wait_for_drive_ready c b (ATA_WAIT_TIMEOUT_MS c); k r) s = k true (with_hw s h)) /\
    ready (view h b) /\ others b (ata_hw s) h /\ disk h b (v_master v) (v_lba v) = data /\
    (forall b' m' l, (b', m', l) <> (b, v_master v, v_lba v) -> disk h b' m' l = disk (ata_hw s) b' m' l).
Proof.
  intros Hb [Hp Hz] Hcnt Hl Hd v. pose proof (timeout_range c) as HT.
  destruct (command_write (ata_hw s) b Hb Hp Hz Hcnt) as (P1 & Z1 & O1 & D1). cbn zeta in *.
  set (h1 := dev_outb (ATA_COMMAND b) ATA_WRITE_SECTORS (ata_hw s)) in *.
  destruct (wait_data_ok (with_hw s h1) b (ATA_WAIT_TIMEOUT_MS c) Hb) as (h2 & E2 & C2 & Z2); [|lia|cbn; lia|].
  { unfold transfers. cbn. by rewrite P1. }
  pose proof (lt_phase _ _ (proj1 C2 b)) as P2. cbn in P2. rewrite P1 in P2.
  destruct (data_out h2 b _ _ data Hb P2 Z2 Hl Hd) as (P3 & Z3 & O3 & S3 & D3). cbn zeta in *.
  set (h3 := dev_outsw (ATA_DATA b) data h2) in *.
  destruct (wait_ready_ok (with_hw s h3) b (ATA_WAIT_TIMEOUT_MS c) Hb HT) as (h4 & E4 & C4 & Z4); [cbn; lia|].
  assert (outsw (ATA_DATA b) data (SECTOR_SIZE / 2) (with_hw s h2) = Some (tt, with_hw s h3)) as E3.
  { unfold outsw. destruct (Nat.ltb_spec (length data) (2 * (SECTOR_SIZE / 2))) as [Hlt|_]; [rewrite Hl in Hlt; unfold SECTOR_SIZE in Hlt; simpl in Hlt; lia|].
    unfold modify, ATA_DATA in *. rewrite port_range by (done || lia). rewrite take_ge by (rewrite Hl; unfold SECTOR_SIZE; simpl; lia). done. }
  exists h4. split; [|split; [split; [|done]|split; [|split]]].
  - intros A k k'. rewrite (bind_eq _ _ _ _ _ (outb_command s b ATA_WRITE_SECTORS Hb ltac:(unfold ATA_WRITE_SECTORS; lia))).
    fold h1. rewrite (bind_eq _ _ _ _ _ E2). cbn [negb]. by rewrite (bind_eq _ _ _ _ _ E3), (bind_eq _ _ _ _ _ E4).
  - rewrite (lt_phase _ _ (proj1 C4 b)). exact P3.
  - transitivity h1; [intros b' Hne; by rewrite O1|]. transitivity h2; [intros b' _; apply C2|].
    transitivity h3; [intros b' Hne; by rewrite O3|]. intros b' _. apply C4.
  - rewrite (proj2 C4). cbn. exact S3.
  - intros b' m' l Hne. rewrite (proj2 C4). cbn. rewrite D3 by done. rewrite (proj2 C2). cbn. apply D1.
Qed.

Lemma write_sector_ok s b lba m data :
  bus b -> 0 <= lba < LBA_LIMIT -> quiet (ata_hw s) -> length data = SECTOR_SIZE -> bytes_ok data ->
  exists s', ata_write_sector c b lba (Some data) m s = Some (true, s') /\ quiet (ata_hw s') /\
    disk (ata_hw s') b m lba = data /\
    (forall b' m' l, (b', m', l) <> (b, m, lba) -> disk (ata_hw s') b' m' l = disk (ata_hw s) b' m' l) /\
    consecutive_read_failures s' = consecutive_read_failures s.
Proof.
  intros Hb Hl Hq Hlen Hd. pose proof (timeout_range c) as HT. unfold ata_write_sector.
  destruct (Hq b Hb) as [Hp Hz]. destruct (wait_ready_ok s b (ATA_WAIT_TIMEOUT_MS c) Hb HT) as (h1 & E1 & C1 & Z1); [lia|].
  rewrite (bind_eq _ _ _ _ _ E1). cbn [negb]. pose proof (proj1 C1 b) as L1.
  destruct (outb_lba (with_hw s h1) b lba Hb) as (h2 & E2 & R2 & G2 & V2 & F2).
  { split; [cbn; by rewrite (lt_phase _ _ L1)|done]. }
  rewrite E2. destruct (drive_head_ok lba m Hl) as (Hdh & _).
  destruct (outb_reg (with_hw s h2) b 6 (drive_head lba m) Hb ltac:(lia) Hdh) as (h3 & E3 & V3 & F3); [apply R2|apply R2|].
  unfold ATA_DRIVE_HEAD. rewrite (bind_eq _ _ _ _ _ E3).
  assert (lba_regs lba (view h3 b) /\ v_head (view h3 b) = drive_head lba m /\ ready (view h3 b)) as (G3 & V3' & R3) by (rewrite V3; by split).
  destruct (regs_address lba m (view h3 b) Hl G3 V3') as [Em El].
  destruct (store_ok (with_hw s h3) b data Hb) as (h4 & E4 & R4 & O4 & S4 & D4); [exact R3|exact (proj1 G3)|done|done|].
  cbn in S4, D4, O4. rewrite Em, El in S4, D4. rewrite E4. cbn [negb].
  destruct (command_flush h4 b Hb) as (P5 & Z5 & O5 & D5); [apply R4|apply R4|]. cbn zeta in *.
  set (h5 := dev_outb (ATA_COMMAND b) ATA_FLUSH h4) in *.
  destruct (wait_ready_ok (with_hw s h5) b (ATA_WAIT_TIMEOUT_MS c) Hb HT) as (h6 & E6 & C6 & Z6); [cbn; lia|].
  change (with_hw (with_hw s h3) h4) with (with_hw s h4).
  rewrite (bind_eq _ _ _ _ _ (outb_command (with_hw s h4) b ATA_FLUSH Hb ltac:(unfold ATA_FLUSH; lia))).
  change (with_hw (with_hw s h4) (dev_outb (ATA_COMMAND b) ATA_FLUSH (ata_hw (with_hw s h4)))) with (with_hw s h5).
  rewrite (bind_eq _ _ _ _ _ E6). exists (with_hw s h6). split; [done|].
  assert (same_disk (ata_hw s) h3) as D03 by (intros b' m' l; rewrite (proj2 F3); cbn; rewrite (proj2 F2); cbn; apply C1).
  assert (same_disk h4 h6) as D46 by (intros b' m' l; rewrite (proj2 C6); cbn; apply D5).
  split; [|split; [|split; [|done]]].
  - intros b' Hb'. cbn. destruct (decide (b' = b)) as [->|Hne].
    + split; [|cbn in *; lia]. rewrite (lt_phase _ _ (proj1 C6 b)). exact P5.
    + assert (others b (ata_hw s) h6) as Ho.
      { transitivity h1; [intros x _; apply C1|]. transitivity h2; [apply F2|]. transitivity h3; [apply F3|].
        transitivity h4; [done|]. transitivity h5; [intros x Hx; by rewrite O5|]. intros x _. apply C6. }
      destruct (Ho b' Hne). destruct (Hq b' Hb'). split; [congruence|lia].
  - cbn. by rewrite D46.
  - intros b' m' l Hne. cbn. rewrite D46, D4 by done. apply D03.
Qed.

(** ** The driver keeps the promise of [BlockDev] *)

Definition read_sector (b lba : Z) (m : bool) (s : ata H) : option buf * ata H :=
  match ata_read_sector c b lba m s with
  | Some ((true, r), s') => (r, s')
  | Some (_, s') => (None, s')
  | None => (None, s)
  end.

Definition write_sector (b lba : Z) (data : buf) (m : bool) (s : ata H) : bool * ata H :=
  match ata_write_sector c b lba (Some data) m s with Some (r, s') => (r, s') | None => (false, s) end.

Definition ata_ok (s : ata H) : Prop := quiet (ata_hw s) /\ consecutive_read_failures s < MAX_CONSECUTIVE_FAILURES.

#[refine] Instance ata_blockdev : BlockDev (ata H) := {|
  BlockDev.ata_read_sector := read_sector; BlockDev.ata_write_sector := write_sector;
  dev_ok s b := bus b /\ ata_ok s; sector s := disk (ata_hw s) |}.
Proof.
  - intros s b [[-> | ->] _]; done.
  - intros. apply disk_sector.
  - intros. apply disk_sector.
  - intros s b m lba [Hb [Hq Hf]] Hl. destruct (read_sector_ok s b lba m Hb Hl Hq Hf) as (s' & E & Hq' & Hd & Hf').
    exists s'. unfold read_sector. rewrite E. split; [done|]. split; [|intros; apply Hd].
    intros b' [Hb' _]. split; [done|]. split; [done|]. rewrite Hf'. unfold MAX_CONSECUTIVE_FAILURES. lia.
  - intros s b m lba data [Hb [Hq Hf]] Hl Hlen Hok. destruct (write_sector_ok s b lba m data Hb Hl Hq Hlen Hok) as (s' & E & Hq' & Hd & Ho & Hf').
    exists s'. unfold write_sector. rewrite E. split; [done|]. split; [|done].
    intros b' [Hb' _]. split; [done|]. split; [done|]. by rewrite Hf'.
Defined.
End Correct.

(** ** A simulated controller *)

(** Two disks in memory on each controller, busy for 3 ms after every command. *)
Record sim := Mk_sim { sim_view : Z -> bus_view; sim_disk : Z -> bool -> Z -> buf }.

Definition sim_status (v : bus_view) : Z :=
  if 0 <? v_busy v then 128 else match v_phase v with Idle => 64 | _ => 72 end.
Definition sim_bus (p : Z) : Z := if p <? ATA_PRIMARY_IO then ATA_SECONDARY_IO else ATA_PRIMARY_IO.
Definition set_view (s : sim) (b : Z) (v : bus_view) : sim :=
  Mk_sim (fun b' => if b' =? b then v else sim_view s b') (sim_disk s).
Definition sim_phase (v : bus_view) (p : phase) : bus_view := Mk_view p 3 (v_count v) (v_low v) (v_mid v) (v_high v) (v_head v).

Definition sim_fit (data : buf) : buf :=
  if bool_decide (length data = SECTOR_SIZE /\ bytes_ok data) then data else replicate SECTOR_SIZE 0.

Definition sim_outb (p x : Z) (s : sim) : sim :=
  let b := sim_bus p in let v := sim_view s b in
  if p =? ATA_COMMAND b then
    if x =? ATA_READ_SECTORS then set_view s b (sim_phase v (DataIn (sim_fit (sim_disk s b (v_master v) (v_lba v)))))
    else if x =? ATA_WRITE_SECTORS then set_view s b (sim_phase v (DataOut (v_master v) (v_lba v)))
    else set_view s b (sim_phase v Idle)
  else set_view s b (set_reg v (p - b) x).

Definition sim_outsw (p : Z) (data : buf) (s : sim) : sim :=
  let b := sim_bus p in let v := sim_view s b in
  match v_phase v with
  | DataOut m lba =>
      Mk_sim (sim_view (set_view s b (sim_phase v Idle)))
        (fun b' m' l => if bool_decide ((b', m', l) = (b, m, lba)) then data else sim_disk s b' m' l)
  | _ => s
  end.

Definition sim_insw (p : Z) (n : nat) (s : sim) : buf * sim :=
  let b := sim_bus p in let v := sim_view s b in
  match v_phase v with DataIn data => (data, set_view s b (sim_phase v Idle)) | _ => (replicate (2 * n) 0, s) end.

Definition sim_delay (ms : Z) (s : sim) : sim :=
  Mk_sim (fun b => let v := sim_view s b in
    Mk_view (v_phase v) (Z.max 0 (v_busy v - ms)) (v_count v) (v_low v) (v_mid v) (v_high v) (v_head v)) (sim_disk s).

#[export] Instance sim_ports : Ports sim := {|
  dev_inb p s := (if p =? ATA_STATUS (sim_bus p) then sim_status (sim_view s (sim_bus p)) else 0, s);
  dev_outb := sim_outb; dev_insw := sim_insw; dev_outsw := sim_outsw; dev_delay := sim_delay |}.

Lemma sim_bus_of b r : bus b -> 0 <= r <= 7 -> sim_bus (b + r) = b.
Proof. intros [-> | ->] Hr; unfold sim_bus, ATA_PRIMARY_IO, ATA_SECONDARY_IO in *; case Z.ltb_spec; lia. Qed.

Lemma sim_fit_ok data : length (sim_fit data) = SECTOR_SIZE /\ bytes_ok (sim_fit data).
Proof.
  unfold sim_fit. case_bool_decide as E; [done|]. split; [apply length_replicate|by apply Forall_replicate].
Qed.

Lemma set_view_other s b b' v : b' <> b -> sim_view (set_view s b v) b' = sim_view s b'.
Proof. intros Hne. unfold set_view. cbn. by destruct (Z.eqb_spec b' b). Qed.
Lemma set_view_same s b v : sim_view (set_view s b v) b = v.
Proof. unfold set_view. cbn. by rewrite Z.eqb_refl. Qed.

Lemma sim_command s b x : bus b ->
  sim_outb (ATA_COMMAND b) x s =
  set_view s b (sim_phase (sim_view s b) (if x =? ATA_READ_SECTORS then DataIn (sim_fit (sim_disk s b (v_master (sim_view s b)) (v_lba (sim_view s b))))
    else if x =? ATA_WRITE_SECTORS then DataOut (v_master (sim_view s b)) (v_lba (sim_view s b)) else Idle)).
Proof.
  intros Hb. unfold sim_outb, ATA_COMMAND. rewrite (sim_bus_of b 7), Z.eqb_refl by (done || lia).
  destruct (x =? ATA_READ_SECTORS); [done|]. by destruct (x =? ATA_WRITE_SECTORS).
Qed.

Lemma sim_status_ok v : status_ok v (sim_status v).
Proof.
  unfold sim_status. destruct (Z.ltb_spec 0 (v_busy v)) as [Hb|Hb].
  - split; try done; [destruct (Z.ltb_spec 0 (v_busy v)); (done || lia)|lia|lia].
  - destruct (v_phase v) eqn:Ep; (split; try done; try (destruct (Z.ltb_spec 0 (v_busy v)); (done || lia)); by rewrite Ep).
Qed.

#[export, refine] Instance sim_device : AtaDevice sim := {|
  view := sim_view; disk s b m l := sim_fit (sim_disk s b m l); ata_latency := 3 |}.
Proof.
  - intros. apply sim_fit_ok.
  - intros h b Hb. cbn. unfold ATA_STATUS. rewrite sim_bus_of by (done || lia). rewrite Z.eqb_refl. split; [apply sim_status_ok|done].
  - intros h b Hb. done.
  - intros h ms Hms. split; [|done]. intros b. exists (Z.max 0 (v_busy (sim_view h b) - ms)). split; [lia|done].
  - intros h b r x Hb Hr Hx _ _. cbn. unfold sim_outb. rewrite sim_bus_of by (done || lia).
    destruct (Z.eqb_spec (b + r) (ATA_COMMAND b)) as [E|_]; [unfold ATA_COMMAND in E; lia|].
    replace (b + r - b) with r by lia. rewrite set_view_same. split; [done|]. split; [|done]. intros b' Hne. by apply set_view_other.
  - intros h b Hb Hp Hz Hc. cbn. rewrite sim_command, set_view_same by done. split; [done|]. split; [done|].
    split; [|done]. intros b' Hne. by apply set_view_other.
  - intros h b Hb Hp Hz Hc. cbn. rewrite sim_command, set_view_same by done. split; [done|]. split; [done|].
    split; [|done]. intros b' Hne. by apply set_view_other.
  - intros h b Hb Hp Hz. cbn. rewrite sim_command, set_view_same by done. split; [done|]. split; [done|].
    split; [|done]. intros b' Hne. by apply set_view_other.
  - intros h b data Hb Hp Hz. cbn. unfold sim_insw, ATA_DATA. rewrite sim_bus_of by (done || lia). rewrite Hp. cbn [fst snd].
    rewrite set_view_same. split; [done|]. split; [done|]. split; [done|]. split; [|done]. intros b' Hne. by apply set_view_other.
  - intros h b m lba data Hb Hp Hz Hl Hd. cbn. unfold sim_outsw, ATA_DATA. rewrite sim_bus_of by (done || lia). rewrite Hp. cbn [sim_view sim_disk].
    rewrite set_view_same. split; [done|]. split; [done|]. split; [intros b' Hne; by apply set_view_other|].
    split; [rewrite bool_decide_true by done; unfold sim_fit; by rewrite bool_decide_true|].
    intros b' m' l Hne. by rewrite bool_decide_false.
Defined.

(** ** Properties *)

(** C6: on hardware that keeps the ATA protocol and is never busy for longer than the
    timeout, in every build: writing a sector succeeds, and reading any sector of any
    drive afterwards succeeds and yields the data written, for the sector written, and
    the old contents for every other one. *)
Theorem ata_write_then_read {H : Type} `{AtaDevice H} (c : build) (s : ata H) (b b' lba lba' : Z) (m m' : bool) (data : buf) :
  0 <= ata_latency <= ATA_WAIT_TIMEOUT_MS c -> quiet (ata_hw s) -> consecutive_read_failures s < MAX_CONSECUTIVE_FAILURES ->
  bus b -> bus b' -> 0 <= lba < LBA_LIMIT -> 0 <= lba' < LBA_LIMIT -> length data = SECTOR_SIZE -> bytes_ok data ->
  exists s1 s2, ata_write_sector c b lba (Some data) m s = Some (true, s1) /\
    ata_read_sector c b' lba' m' s1 =
      Some ((true, Some (if bool_decide ((b', m', lba') = (b, m, lba)) then data else disk (ata_hw s) b' m' lba')), s2) /\
    quiet (ata_hw s2) /\ consecutive_read_failures s2 = 0.
Proof.
  intros Hlat Hq Hf Hb Hb' Hl Hl' Hlen Hd.
  destruct (write_sector_ok c Hlat s b lba m data Hb Hl Hq Hlen Hd) as (s1 & E1 & Hq1 & Hs & Ho & Hf1).
  destruct (read_sector_ok c Hlat s1 b' lba' m' Hb' Hl' Hq1 ltac:(lia)) as (s2 & E2 & Hq2 & _ & Hf2).
  exists s1, s2. split; [done|]. split; [|done]. rewrite E2. case_bool_decide as Hc; [|by rewrite Ho].
  injection Hc as -> -> ->. by rewrite Hs.
Qed.

Definition sim0 : ata sim :=
  Mk_ata (Mk_sim (fun _ => Mk_view Idle 2 0 0 0 0 0) (fun _ _ _ => replicate SECTOR_SIZE 7)) false false 0 [] 0.

Lemma sim0_quiet : quiet (ata_hw sim0).
Proof. intros b _. split; [done|]. cbn. lia. Qed.

Lemma ata_write_then_read_witness :
  exists s1 s2, ata_write_sector QEMU_BUILD 496 1000 (Some (replicate SECTOR_SIZE 5)) false sim0 = Some (true, s1) /\
    ata_read_sector QEMU_BUILD 496 1000 false s1 = Some ((true, Some (replicate SECTOR_SIZE 5)), s2).
Proof.
  destruct (ata_write_then_read QEMU_BUILD sim0 496 496 1000 1000 false false (replicate SECTOR_SIZE 5)) as (s1 & s2 & E1 & E2 & _);
    [cbn; lia|exact sim0_quiet|by vm_compute|by left|by left|unfold LBA_LIMIT; lia|unfold LBA_LIMIT; lia|apply length_replicate|by apply Forall_replicate|].
  exact (ex_intro _ s1 (ex_intro _ s2 (conj E1 E2))).
Defined.

Lemma ata_always_returns_witness :
  (exists r s', ata_read_sector REAL_HARDWARE 368 5 true sim0 = Some (r, s')) /\
  (exists r s', ata_write_sector REAL_HARDWARE 368 5 (Some (replicate SECTOR_SIZE 1)) true sim0 = Some (r, s')).
Proof. apply (ata_always_returns REAL_HARDWARE 368 5 true (replicate SECTOR_SIZE 1) sim0). rewrite length_replicate. lia. Defined.

(** ** A drive that does not answer *)

Section Stuck.
Context {H : Type} `{Ports H} (c : build) (b : Z).

(** The controller shows busy, for ever, and no error. *)
Definition stuck : Prop :=
  forall h : H, let st := u8 (dev_inb (u16 (ATA_STATUS b)) h).1 in bit st 128 = true /\ bit st 1 = false.

Context (Hstuck : stuck).

Lemma stuck_loop fuel T e s :
  0 <= e -> T < 2 ^ 31 -> fuel <> 0%nat -> T + ATA_POLL_DELAY_MS c <= e + Z.of_nat fuel * ATA_POLL_DELAY_MS c ->
  exists h, ready_loop c fuel b T e s = Some (false, with_hw s h).
Proof.
  pose proof (poll_pos c) as Hp. revert e s. induction fuel as [|fuel IH]; intros e s He HT Hn Hf; [done|]. cbn [ready_loop].
  pose proof (Hstuck (ata_hw s)) as Hs. unfold mbind at 1, M_bind at 1, inb. cbn [hw ata_machine].
  destruct (dev_inb (u16 (ATA_STATUS b)) (ata_hw s)) as [st h]. cbn [fst] in Hs. destruct Hs as [-> ->]. cbn [negb andb].
  destruct (Z.leb_spec T e) as [|Hlt]; [exists h; by destruct c|]. destruct (poll_again c fuel T e He Hlt HT Hf) as (-> & Hn' & Hf').
  set (s' := with_hw s (dev_delay (ATA_POLL_DELAY_MS c) h)).
  destruct (IH (e + ATA_POLL_DELAY_MS c) s' ltac:(lia) HT Hn' Hf') as [h' E']. exists h'.
  assert ((_ ← pit_delay (ATA_POLL_DELAY_MS c); ready_loop c fuel b T (e + ATA_POLL_DELAY_MS c)) (with_hw s h) = Some (false, with_hw s h')) as Ea
    by exact E'.
  destruct c; exact Ea.
Qed.

Lemma stuck_read lba m s :
  consecutive_read_failures s < MAX_CONSECUTIVE_FAILURES -> 0 <= consecutive_read_failures s ->
  exists s', ata_read_sector c b lba m s = Some ((false, None), s') /\
    consecutive_read_failures s' = consecutive_read_failures s + 1 /\ attempted b s' = true /\
    forall b', attempted b' s = true -> attempted b' s' = true.
Proof.
  intros Hf Hpos. unfold ata_read_sector.
  assert (exists s0, first_attempt b m s = Some (tt, s0) /\ consecutive_read_failures s0 = consecutive_read_failures s /\
    attempted b s0 = true /\ forall b', attempted b' s = true -> attempted b' s0 = true) as (s0 & E0 & F0 & A0 & B0).
  { unfold first_attempt. rewrite gets_bind. destruct (attempted b s) eqn:Ea; [by exists s|].
    pose proof (Hstuck (ata_hw s)) as Hs. unfold mbind at 1, M_bind at 1, inb. cbn [hw ata_machine].
    destruct (dev_inb (u16 (ATA_STATUS b)) (ata_hw s)) as [st h]. cbn [fst] in Hs. destruct Hs as [Hs1 Hs2].
    destruct (Z.eqb_spec (u8 st) 0) as [E|_]; [by rewrite E in Hs1|]. destruct (Z.eqb_spec (u8 st) 255) as [E|_]; [by rewrite E in Hs2|].
    exists (set_attempted b (with_hw s h)). split; [done|]. unfold set_attempted, attempted in *.
    destruct (b =? ATA_PRIMARY_IO) eqn:Eb; cbn; (split; [done|split; [by rewrite ?Eb|]]); intros b'; destruct (b' =? ATA_PRIMARY_IO); by cbn. }
  rewrite (bind_eq _ _ _ _ _ E0), gets_bind, F0. destruct (Z.leb_spec MAX_CONSECUTIVE_FAILURES (consecutive_read_failures s)); [lia|].
  pose proof (timeout_range c) as HT. pose proof (polls_enough c (ATA_WAIT_TIMEOUT_MS c)) as Hp.
  destruct (stuck_loop (polls c (ATA_WAIT_TIMEOUT_MS c)) (ATA_WAIT_TIMEOUT_MS c) 0 s0) as [h E]; [lia|lia|done|lia|].
  unfold wait_for_drive_ready. rewrite (bind_eq _ _ _ _ _ E). cbn [negb]. unfold fail. rewrite modify_bind. eexists. split; [done|].
  cbn. rewrite F0, wrap_small by (unfold MAX_CONSECUTIVE_FAILURES in *; lia). split; [done|]. split; [by destruct s0|].
  intros b' Hb'. specialize (B0 b' Hb'). by destruct s0.
Qed.

(** [n] reads one after the other, all of which fail. *)
Fixpoint failed_reads (n : nat) (lba : Z) (m : bool) (s s' : ata H) : Prop :=
  match n with
  | O => s = s'
  | S n' => exists s1, ata_read_sector c b lba m s = Some ((false, None), s1) /\ failed_reads n' lba m s1 s'
  end.
End Stuck.

(** A drive that stays busy is given up: every read fails after the timeout, the
    fifth failure in a row switches the driver off, and from then on every read, of any
    drive on a controller that has been used, fails without touching the hardware. *)
Theorem ata_gives_up {H : Type} `{Ports H} (c : build) (b lba : Z) (m : bool) (s : ata H) :
  stuck (H := H) b -> consecutive_read_failures s = 0 ->
  exists s5, failed_reads c b 5 lba m s s5 /\ consecutive_read_failures s5 = 5 /\
    forall b' lba' m', attempted b' s5 = true -> ata_read_sector c b' lba' m' s5 = Some ((false, None), s5).
Proof.
  intros Hst Hzero.
  assert (forall n s, consecutive_read_failures s = 5 - Z.of_nat n -> (n <= 5)%nat ->
    exists s', failed_reads c b n lba m s s' /\ consecutive_read_failures s' = 5) as Hn.
  { clear s Hzero. induction n as [|n IH]; intros s Hs Hn; [by exists s|].
    destruct (stuck_read c b Hst lba m s) as (s1 & E1 & F1 & _); [unfold MAX_CONSECUTIVE_FAILURES; lia|lia|].
    destruct (IH s1) as (s' & E' & F'); [lia|lia|]. exists s'. split; [|done]. by exists s1. }
  destruct (Hn 5%nat s) as (s5 & E & F); [lia|lia|]. exists s5. split; [done|]. split; [done|].
  intros b' lba' m' Ha. unfold ata_read_sector, first_attempt. 
  rewrite (bind_eq _ _ _ tt s5) by (by rewrite gets_bind, Ha). by rewrite gets_bind, F.
Qed.

(** A port that always reads busy. *)
Definition busy_ports : Ports unit := {|
  dev_inb _ _ := (128, tt); dev_outb _ _ _ := tt; dev_insw _ _ _ := ([], tt); dev_outsw _ _ _ := tt; dev_delay _ _ := tt |}.
Definition busy0 : ata unit := Mk_ata tt false false 0 [] 0.

Lemma ata_gives_up_witness :
  exists s5, failed_reads (H0 := busy_ports) DEFAULT_BUILD 496 5 0 true busy0 s5 /\ consecutive_read_failures s5 = 5.
Proof.
  destruct (ata_gives_up (H0 := busy_ports) DEFAULT_BUILD 496 0 true busy0 ltac:(intros h; split; by vm_compute) eq_refl) as (s5 & E & F & _).
  exact (ex_intro _ s5 (conj E F)).
Defined.

(** ** Detection *)

Lemma strlen_total l r : exists n, strlen (l ++ 0 :: r) = Some (Z.of_nat n) /\ (n <= length l)%nat.
Proof.
  induction l as [|x l (n & E & Hn)]; [by exists 0%nat|]. cbn [app strlen]. destruct (x =? 0); [exists 0%nat; split; [done|simpl; lia]|].
  exists (S n). rewrite E. cbn [mbind option_bind]. split; [f_equal; lia|simpl; lia].
Qed.

Lemma trim_back_total p str n : (n <= length str)%nat -> exists r, trim_back p str n = Some r.
Proof.
  revert str. induction n as [|n IH]; intros str Hn; [by exists str|]. cbn [trim_back].
  destruct (lookup_lt_is_Some_2 str n ltac:(lia)) as [x ->]. cbn [mbind option_bind]. destruct (p x); [|by eexists].
  apply IH. rewrite length_insert. lia.
Qed.

Lemma model_trimmed data : exists r, trim_trailing_spaces (model_text data) = Some r.
Proof.
  unfold trim_trailing_spaces, model_text. set (l := concat _). destruct (strlen_total l []) as (n & -> & Hn).
  cbn [mbind option_bind]. rewrite Nat2Z.id. apply trim_back_total. rewrite length_app. lia.
Qed.

(** The name of the drive with the number [i]. *)
Definition hdd (i : Z) : buf := [104; 100; 100; 48 + i; 0].

Lemma drive_name nm i :
  length nm = 8%nat -> 0 <= i < 4 -> exists r nm', snprintf nm 8 (lit "hdd%d") [VInt i] = Some (r, nm') /\ length nm' = 8%nat /\ take 5 nm' = hdd i.
Proof.
  intros Hl Hi. do 8 (destruct nm as [|? nm]; [done|]). destruct nm; [|done].
  assert (i = 0 \/ i = 1 \/ i = 2 \/ i = 3) as [-> | [-> | [-> | ->]]] by lia; eexists _, _; (split; [by vm_compute|done]).
Qed.

Lemma find_name_ok l n k (i : nat) :
  0 <= k -> (forall j, (j < n)%nat -> exists d, l !! j = Some d /\ length (name d) = 8%nat /\ take 5 (name d) = hdd (Z.of_nat (i + j))) ->
  find_name l (hdd k) i n = Some (if (i <=? Z.to_nat k)%nat && (Z.to_nat k <? i + n)%nat then Some (Z.to_nat k) else None).
Proof.
  intros Hk. revert l i. induction n as [|n IH]; intros l i Hl.
  { replace (find_name l (hdd k) i 0) with (Some (None (A := nat))) by (by destruct l).
    by destruct (Nat.leb_spec i (Z.to_nat k)), (Nat.ltb_spec (Z.to_nat k) (i + 0)); try lia. }
  destruct (Hl 0%nat ltac:(lia)) as (d & Hd & Ln & Tn). destruct l as [|d' l]; [done|]. injection Hd as ->. cbn [find_name].
  assert (strcmp (name d) (hdd k) = Some (Z.of_nat i - k)) as ->.
  { rewrite <- (take_drop 5 (name d)), Tn, Nat.add_0_r. unfold hdd. cbn [app strcmp].
    change (negb (104 =? 0) && (104 =? 104)) with true. change (negb (100 =? 0) && (100 =? 100)) with true. cbn iota.
    destruct (Z.eqb_spec (48 + Z.of_nat i) 0); [lia|]. cbn [negb andb].
    destruct (Z.eqb_spec (48 + Z.of_nat i) (48 + k)) as [E|E]; [|f_equal; lia]. change (negb (0 =? 0)) with false. cbn. f_equal. lia. }
  cbn [mbind option_bind]. destruct (Z.eqb_spec (Z.of_nat i - k) 0) as [E|E].
  - destruct (Nat.leb_spec i (Z.to_nat k)), (Nat.ltb_spec (Z.to_nat k) (i + S n)); try lia. do 2 f_equal. lia.
  - rewrite IH.
    + f_equal. destruct (Nat.leb_spec (S i) (Z.to_nat k)), (Nat.ltb_spec (Z.to_nat k) (S i + n)),
        (Nat.leb_spec i (Z.to_nat k)), (Nat.ltb_spec (Z.to_nat k) (i + S n)); (done || lia).
    + intros j Hj. destruct (Hl (S j) ltac:(lia)) as (d1 & Hd1 & L1 & T1). exists d1. split; [done|]. split; [done|].
      by replace (S i + j)%nat with (i + S j)%nat by lia.
Qed.
Section Detect.
Context {H : Type} `{Ports H} (c : build) (temp : drive_t).
Context (Hname : length (name temp) = 8%nat) (Hmount : (0 < length (mount_point temp))%nat).

(** The first [n] drives are listed, with their names in order. *)
Record listed (n : Z) (s : ata H) : Prop := Mk_listed {
  ls_count : drive_count s = n;
  ls_slots : length (detected_drives s) = 4%nat;
  ls_drives : forall i, 0 <= i < n -> exists d, detected_drives s !! Z.to_nat i = Some d /\
    type d = DRIVE_TYPE_ATA /\ bus (base_of d) /\ 0 < sectors d < 2 ^ 32 /\ length (name d) = 8%nat /\ take 5 (name d) = hdd i
}.

(** Computations that leave the list of drives alone. *)
Definition keeps {A} (m : M (ata H) A) : Prop :=
  forall s a s', m s = Some (a, s') -> drive_count s' = drive_count s /\ detected_drives s' = detected_drives s.

Lemma ret_keeps {A} (a : A) : keeps (mret a).
Proof. by intros s a' s' [= _ <-]. Qed.
Lemma undef_keeps {A} : keeps (undef (A := A)).
Proof. by intros s a s'. Qed.
Lemma bind_keeps {A B} (m : M (ata H) A) (k : A -> M (ata H) B) : keeps m -> (forall a, keeps (k a)) -> keeps (m ≫= k).
Proof.
  intros Hm Hk s b s' (a & s1 & E1 & E2)%bind_inv. destruct (Hm _ _ _ E1) as [C1 D1]. destruct (Hk _ _ _ _ E2) as [C2 D2].
  split; congruence.
Qed.
Lemma inb_keeps p : keeps (inb p).
Proof. intros s a s'. unfold inb. destruct (dev_inb _ _). by intros [= _ <-]. Qed.
Lemma insw_keeps p n : keeps (insw p n).
Proof. intros s a s'. unfold insw. destruct (dev_insw _ _ _). by intros [= _ <-]. Qed.
Lemma outb_keeps p x : keeps (outb p x).
Proof. by intros s a s' [= _ <-]. Qed.
Lemma delay_keeps ms : keeps (pit_delay ms).
Proof. by intros s a s' [= _ <-]. Qed.
Lemma if_keeps {A} (x : bool) (m m' : M (ata H) A) : keeps m -> keeps m' -> keeps (if x then m else m').
Proof. by destruct x. Qed.

Ltac keep := repeat first [assumption|apply ret_keeps|apply undef_keeps|apply inb_keeps|apply insw_keeps|apply outb_keeps|apply delay_keeps|
  apply if_keeps|apply bind_keeps; [|intros ?]|progress cbn zeta|done].

Lemma wait_ready_keeps b T : keeps (wait_for_drive_ready c b T).
Proof.
  unfold wait_for_drive_ready. generalize (polls c T) 0. intros fuel. induction fuel as [|fuel IH]; intros e; [apply undef_keeps|].
  cbn [ready_loop]. apply bind_keeps; [apply inb_keeps|intros st]. cbn zeta.
  assert (keeps (if T <=? e then mret false else _ ← pit_delay (ATA_POLL_DELAY_MS c); ready_loop c fuel b T (u32 (e + ATA_POLL_DELAY_MS c)))) by keep.
  destruct c; keep.
Qed.

Lemma wait_data_keeps b T : keeps (wait_for_drive_data_ready c b T).
Proof.
  assert (forall fuel e, keeps (busy_loop c fuel b T e)) as H1 by (induction fuel as [|fuel IH]; intros e; cbn [busy_loop]; keep).
  assert (forall fuel e, keeps (drq_loop c fuel b T e)) as H2 by (induction fuel as [|fuel IH]; intros e; cbn [drq_loop]; keep).
  assert (forall fuel e, keeps (data_loop c fuel b T e)) as H3 by (induction fuel as [|fuel IH]; intros e; cbn [data_loop]; keep).
  unfold wait_for_drive_data_ready.
  assert (keeps (e ← busy_loop c (polls c T) b T 0; match e with None => mret false | Some e => drq_loop c (polls c T) b T e end))
    by (apply bind_keeps; [done|intros [e|]; keep]).
  by destruct c.
Qed.

(** Identifying keeps the list; what it finds is a drive with sectors. *)
Lemma identify_ok b drive info s :
  exists r s', ata_identify_drive c b drive info s = Some (r, s') /\ drive_count s' = drive_count s /\ detected_drives s' = detected_drives s /\
    forall d, r = Some d -> base_of d = base_of info /\ name d = name info /\ mount_point d = mount_point info /\
      0 < sectors d < 2 ^ 32 /\ exists data, model d = model_text data.
Proof.
  assert (keeps (ata_identify_drive c b drive info)) as Hk.
  { unfold ata_identify_drive. pose proof (wait_ready_keeps b (ATA_DETECTION_TIMEOUT_MS c)). pose proof (wait_data_keeps b (ATA_DETECTION_TIMEOUT_MS c)). keep. }
  assert (0 <= ATA_DETECTION_TIMEOUT_MS c < 2 ^ 31) as HT by (destruct c; simpl; lia).
  assert (forall s, exists r s', ata_identify_drive c b drive info s = Some (r, s') /\
    forall d, r = Some d -> base_of d = base_of info /\ name d = name info /\ mount_point d = mount_point info /\
      0 < sectors d < 2 ^ 32 /\ exists data, model d = model_text data) as Hr.
  { clear s. intros s. unfold ata_identify_drive, outb. rewrite !modify_bind.
    destruct (inb_returns (b + 7) (with_hw (with_hw s (dev_outb (u16 (b + 6)) (u8 drive) (hw s)))
      (dev_outb (u16 (b + 7)) (u8 ATA_IDENTIFY) (hw (with_hw s (dev_outb (u16 (b + 6)) (u8 drive) (hw s))))))) as (st & s1 & E1).
    rewrite (bind_eq _ _ _ _ _ E1). destruct (st =? 0); [by eexists None, _|].
    destruct (wait_ready_returns c b _ HT s1) as (r2 & s2 & E2). rewrite (bind_eq _ _ _ _ _ E2). destruct (negb r2); [by eexists None, _|].
    destruct (wait_data_returns c b _ HT s2) as (r3 & s3 & E3). rewrite (bind_eq _ _ _ _ _ E3). destruct (negb r3); [by eexists None, _|].
    destruct (insw_returns b 256 s3) as (data & s4 & E4). rewrite (bind_eq _ _ _ _ _ E4).
    destruct (_ || _); [by eexists None, _|]. cbn zeta. destruct (negb _); [by eexists None, _|].
    destruct (Z.leb_spec (u32 (Z.lor (word_at data 60) (Z.shiftl (word_at data 61) 16))) 0); [by eexists None, _|].
    eexists (Some _), _. split; [done|]. intros d E. apply (inj Some) in E as <-. cbn [base_of name mount_point sectors model]. do 3 (split; [done|]). split; [|by exists data].
    split; [lia|]. apply wrap_range. lia. }
  destruct (Hr s) as (r & s' & E & Hd). exists r, s'. destruct (Hk _ _ _ E). done.
Qed.

Lemma detect_one_ok b drive m n s :
  bus b -> 0 <= n < 4 -> listed n s ->
  exists s' n', detect_one c temp b drive m n s = Some ((true, n'), s') /\ listed n' s' /\ (n' = n \/ n' = n + 1).
Proof.
  intros Hb Hn [Hc Hs Hd]. unfold detect_one. rewrite gets_bind, Hc. destruct (Z.leb_spec MAX_DRIVES n); [unfold MAX_DRIVES in *; lia|].
  set (info := Mk_drive _ b m _ _ _ _ _ _ _ _). destruct (identify_ok b drive info s) as (r & s1 & E & C1 & D1 & Hr).
  rewrite (bind_eq _ _ _ _ _ E). destruct r as [d|].
  2: { exists s1, n. split; [done|]. split; [|by left]. split; [congruence|congruence|]. by rewrite D1. }
  destruct (Hr d eq_refl) as (Eb & En & Em & Esec & data & Emod). destruct (model_trimmed data) as [mt Emt].
  rewrite Emod, (lift_bind _ _ _ _ Emt). destruct (drive_name (name d) n) as (r & nm & Enm & Lnm & Tnm); [by rewrite En|done|].
  rewrite (lift_bind _ _ _ _ Enm). rewrite (lift_bind _ (<[0%nat := 0]> (mount_point d))).
  2: { rewrite Em. cbn. destruct (Nat.eqb_spec (length (mount_point temp)) 0); [lia|done]. }
  rewrite modify_bind, C1, Hc. unfold swrap. rewrite !(wrap_small _ (n + 1 + _)) by lia.
  replace (n + 1 + 2 ^ (32 - 1) - 2 ^ (32 - 1)) with (n + 1) by lia.
  eexists _, (n + 1). split; [done|]. split; [|by right]. split; cbn.
  - lia.
  - by rewrite length_insert, D1.
  - intros i Hi. rewrite D1. destruct (decide (i = n)) as [->|Hne].
    + eexists. split; [apply list_lookup_insert_eq; lia|]. cbn. rewrite Eb. cbn. done.
    + rewrite list_lookup_insert_ne by lia. apply Hd. lia.
Qed.

Lemma detect_all_ok l n s :
  Forall (fun x => bus x.1.1) l -> 0 <= n -> n + Z.of_nat (length l) <= 4 -> listed n s ->
  exists s' n', detect_all c temp l n s = Some (tt, s') /\ listed n' s' /\ 0 <= n' <= 4.
Proof.
  intros Hl. revert n s. induction Hl as [|[[b drive] m] l Hb _ IH]; intros n s Hn Hlen Hs; cbn [detect_all].
  - exists s, n. simpl in Hlen. split; [done|]. split; [done|lia].
  - cbn [length] in Hlen. destruct (detect_one_ok b drive m n s Hb ltac:(lia) Hs) as (s1 & n1 & E1 & Hs1 & Hn1).
    rewrite (bind_eq _ _ _ _ _ E1). cbn [fst snd]. apply IH; [lia|lia|done].
Qed.

End Detect.

(** Detection, on any hardware: it ends, finds at most four drives, each an ATA
    drive with a sector count other than 0 on one of the two controllers, and afterwards
    exactly the names hdd0, hdd1, ... of the drives found lead to their entries; the
    first of them is the first hard disk. *)
Theorem ata_detect_lookup {H : Type} `{Ports H} (c : build) (temp : drive_t) (s : ata H) :
  length (name temp) = 8%nat -> (0 < length (mount_point temp))%nat -> length (detected_drives s) = 4%nat ->
  exists s' n, ata_detect_drives c temp s = Some (tt, s') /\ 0 <= n <= 4 /\ drive_count s' = n /\
    (forall i, 0 <= i < n -> exists d, detected_drives s' !! Z.to_nat i = Some d /\
      type d = DRIVE_TYPE_ATA /\ bus (base_of d) /\ 0 < sectors d < 2 ^ 32 /\ ata_get_drive i s' = Some (Z.to_nat i)) /\
    (forall k, 0 <= k -> get_drive_by_name (hdd k) s' = Some (if k <? n then Some (Z.to_nat k) else None)) /\
    ata_get_first_hdd s' = (if 0 <? n then Some 0%nat else None).
Proof.
  intros Hname Hmount Hs. unfold ata_detect_drives. rewrite modify_bind.
  destruct (detect_all_ok c temp Hname Hmount [(ATA_PRIMARY_IO, ATA_MASTER, true); (ATA_PRIMARY_IO, ATA_SLAVE, false);
              (ATA_SECONDARY_IO, ATA_MASTER, true); (ATA_SECONDARY_IO, ATA_SLAVE, false)] 0 (with_drives s (detected_drives s) 0))
    as (s' & n & E & [Hc Hl Hd] & Hn).
  { repeat constructor; cbn; by (left + right). } { lia. } { simpl. lia. } { split; [done|done|]. intros i Hi. lia. }
  exists s', n. split; [exact E|]. split; [done|]. split; [done|]. split; [|split].
  - intros i Hi. destruct (Hd i Hi) as (d & Hd1 & Ht & Hb & Hsec & _). exists d. do 4 (split; [done|]).
    unfold ata_get_drive. rewrite Hc. by destruct (Z.leb_spec n i); [lia|].
  - intros k Hk. unfold get_drive_by_name. rewrite Hc. destruct (Z.ltb_spec n 0); [lia|]. destruct (Z.ltb_spec MAX_DRIVES n); [unfold MAX_DRIVES in *; lia|].
    cbn [orb]. rewrite (find_name_ok (detected_drives s') (Z.to_nat n) k 0 Hk).
    + f_equal. destruct (Nat.leb_spec 0 (Z.to_nat k)); [|lia]. destruct (Nat.ltb_spec (Z.to_nat k) (0 + Z.to_nat n)), (Z.ltb_spec k n); (done || lia).
    + intros j Hj. destruct (Hd (Z.of_nat j) ltac:(lia)) as (d & Hd1 & _ & _ & _ & L & T). rewrite Nat2Z.id in Hd1. by exists d.
  - unfold ata_get_first_hdd. rewrite Hc. destruct (Z.leb_spec n 0), (Z.ltb_spec 0 n); try lia; [done|].
    destruct (Z.ltb_spec MAX_DRIVES n); [unfold MAX_DRIVES in *; lia|]. cbn [orb].
    destruct (Hd 0 ltac:(lia)) as (d & Hd1 & Ht & _). destruct (detected_drives s') as [|d' l]; [done|]. injection Hd1 as ->.
    destruct (Z.to_nat n) as [|k] eqn:En; [lia|]. cbn [find_type]. by rewrite bool_decide_true.
Qed.

Definition no_drive : drive_t := Mk_drive DRIVE_TYPE_NONE 0 false (replicate 8 0) (replicate 41 0) 0 0 0 0 0 (replicate 64 0).

Lemma ata_detect_lookup_witness :
  exists s' n, ata_detect_drives QEMU_BUILD no_drive (with_drives sim0 (replicate 4 no_drive) 0) = Some (tt, s') /\ 0 <= n <= 4 /\ drive_count s' = n.
Proof.
  destruct (ata_detect_lookup QEMU_BUILD no_drive (with_drives sim0 (replicate 4 no_drive) 0) eq_refl ltac:(simpl; lia) eq_refl)
    as (s' & n & E & Hn & Hc & _).
  exact (ex_intro _ s' (ex_intro _ n (conj E (conj Hn Hc)))).
Defined.
