(* ===== verification/Fat32Fat.v ===== *)
(** fs/fat32: the boot sector, the cluster geometry, FSInfo and the file allocation
    table (fat32.c, fat32_cluster.c, fat32.h).

    The state holds the disk behind the driver interface of BlockDev.v and the
    global variables of fat32.c.  Reads go to the drive [current_drive] selects,
    writes to the controller [ata_base_address].  The code keeps sectors in arrays
    of [bytes_per_sector] bytes, but the driver always transfers 512: any other
    value makes the accesses run outside the array or read uninitialized bytes and
    is treated as undefined behaviour ([undef]), as is the division by a zero
    [bytes_per_sector]. *)

From S2P Require Import Prelude CString Effects BlockDev.

(** ** Data *)

Record fat32_boot_sector := Mk_bs {
  bytes_per_sector : Z; sectors_per_cluster : Z; reserved_sector_count : Z;
  number_of_fats : Z; root_entry_count : Z; total_sectors_32 : Z; fat_size_32 : Z;
  root_cluster : Z; fs_info : Z; boot_signature : Z
}.

(** The fields the code uses, at their offsets in the packed structure. *)
Definition parse_boot_sector (b : buf) : fat32_boot_sector :=
  Mk_bs (le_get (slice b 11 2)) (le_get (slice b 13 1)) (le_get (slice b 14 2)) (le_get (slice b 16 1))
        (le_get (slice b 17 2)) (le_get (slice b 32 4)) (le_get (slice b 36 4)) (le_get (slice b 44 4))
        (le_get (slice b 48 2)) (le_get (slice b 66 1)).

Record fat32_fsinfo := Mk_fsinfo {
  lead_signature : Z; fi_reserved1 : buf; struct_signature : Z;
  free_cluster_count : Z; next_free_cluster : Z; fi_reserved2 : buf; trail_signature : Z
}.

Definition parse_fsinfo (b : buf) : fat32_fsinfo :=
  Mk_fsinfo (le_get (slice b 0 4)) (slice b 4 480) (le_get (slice b 484 4)) (le_get (slice b 488 4))
            (le_get (slice b 492 4)) (slice b 496 12) (le_get (slice b 508 4)).

Definition fsinfo_bytes (f : fat32_fsinfo) : buf :=
  le_put 4 (lead_signature f) ++ fi_reserved1 f ++ le_put 4 (struct_signature f) ++
  le_put 4 (free_cluster_count f) ++ le_put 4 (next_free_cluster f) ++ fi_reserved2 f ++
  le_put 4 (trail_signature f).

Definition FAT32_EOC_MIN : Z := 268435448. (* 0x0FFFFFF8 *)
Definition FAT32_EOC_MAX : Z := 268435455. (* 0x0FFFFFFF *)
Definition INVALID_CLUSTER : Z := 4294967295.
Definition DIRECTORY_ENTRY_SIZE : Z := 32.
Definition FAT_MASK : Z := 268435455.

Record fat32 (D : Type) := Mk_fat32 {
  dev : D;
  boot_sector : fat32_boot_sector;
  fsinfo : fat32_fsinfo;
  fsinfo_valid : bool;
  current_directory_cluster : Z;
  ata_base_address : Z;
  ata_is_master : bool;
  partition_lba_offset : Z;
  drive_base : Z;          (* current_drive->base; -1 when current_drive is NULL *)
  drive_master : bool      (* current_drive->is_master *)
}.
Arguments Mk_fat32 {D}. Arguments dev {D}. Arguments boot_sector {D}. Arguments fsinfo {D}.
Arguments fsinfo_valid {D}. Arguments current_directory_cluster {D}. Arguments ata_base_address {D}.
Arguments ata_is_master {D}. Arguments partition_lba_offset {D}. Arguments drive_base {D}. Arguments drive_master {D}.

Definition with_dev {D} (s : fat32 D) (d : D) : fat32 D :=
  Mk_fat32 d (boot_sector s) (fsinfo s) (fsinfo_valid s) (current_directory_cluster s) (ata_base_address s)
    (ata_is_master s) (partition_lba_offset s) (drive_base s) (drive_master s).
Definition with_fsinfo {D} (s : fat32 D) (f : fat32_fsinfo) (v : bool) : fat32 D :=
  Mk_fat32 (dev s) (boot_sector s) f v (current_directory_cluster s) (ata_base_address s)
    (ata_is_master s) (partition_lba_offset s) (drive_base s) (drive_master s).
Definition with_cwd {D} (s : fat32 D) (c : Z) : fat32 D :=
  Mk_fat32 (dev s) (boot_sector s) (fsinfo s) (fsinfo_valid s) c (ata_base_address s)
    (ata_is_master s) (partition_lba_offset s) (drive_base s) (drive_master s).

Definition with_boot {D} (s : fat32 D) (bs : fat32_boot_sector) : fat32 D :=
  Mk_fat32 (dev s) bs (fsinfo s) (fsinfo_valid s) (current_directory_cluster s) (ata_base_address s)
    (ata_is_master s) (partition_lba_offset s) (drive_base s) (drive_master s).

(** ** Geometry *)

Definition get_total_clusters (bs : fat32_boot_sector) : Z :=
  if sectors_per_cluster bs =? 0 then 2 else
  u32 (total_sectors_32 bs - reserved_sector_count bs - number_of_fats bs * fat_size_32 bs)
    / sectors_per_cluster bs.

Definition is_valid_cluster (bs : fat32_boot_sector) (cluster : Z) : bool :=
  if cluster <? 2 then false
  else if FAT32_EOC_MIN <=? cluster then true
  else if get_total_clusters bs <=? cluster then false
  else true.

Definition get_entries_per_cluster (bs : fat32_boot_sector) : Z :=
  if (bytes_per_sector bs =? 0) || (sectors_per_cluster bs =? 0) then 1 else
  bytes_per_sector bs * sectors_per_cluster bs / DIRECTORY_ENTRY_SIZE.

Definition is_end_of_cluster_chain (cluster : Z) : bool :=
  (FAT32_EOC_MIN <=? cluster) && (cluster <=? FAT32_EOC_MAX).

Definition get_first_data_sector (bs : fat32_boot_sector) (part : Z) : option Z :=
  if bytes_per_sector bs =? 0 then None else
  let root_dir_sectors := (root_entry_count bs * 32 + (bytes_per_sector bs - 1)) / bytes_per_sector bs in
  Some (u32 (part + reserved_sector_count bs + number_of_fats bs * fat_size_32 bs + root_dir_sectors)).

Definition cluster_to_sector (bs : fat32_boot_sector) (part cluster : Z) : Z :=
  if negb (is_valid_cluster bs cluster) then 0 else
  u32 (part + (cluster - 2) * sectors_per_cluster bs
       + (reserved_sector_count bs + number_of_fats bs * fat_size_32 bs)).

(** Where the FAT entry of a cluster is: the sector within the FAT and the offset. *)
Definition fat_offset (cluster : Z) : Z := u32 (cluster * 4).
Definition fat_index (bs : fat32_boot_sector) (cluster : Z) : Z := fat_offset cluster / bytes_per_sector bs.
Definition ent_offset (bs : fat32_boot_sector) (cluster : Z) : nat :=
  Z.to_nat (fat_offset cluster mod bytes_per_sector bs).

(** [*(unsigned int* )&buffer[off]] and its update. *)
Definition get32 (b : buf) (off : nat) : option Z :=
  if (off + 4 <=? length b)%nat then Some (le_get (slice b off 4)) else None.
Definition put32 (b : buf) (off : nat) (v : Z) : option buf :=
  if (off + 4 <=? length b)%nat then Some (blit b off (le_put 4 v)) else None.

Section Fat32.
Context {D : Type} `{BlockDev D}.
Abbreviation F := (M (fat32 D)).

(** The driver calls as the file system makes them, through [current_drive]. *)
Definition read_lba (lba : Z) : F (option buf) := fun s =>
  if drive_base s <? 0 then None else
  let '(r, d) := ata_read_sector (drive_base s) lba (drive_master s) (dev s) in Some (r, with_dev s d).
Definition write_lba (lba : Z) (data : buf) : F bool := fun s =>
  if drive_base s <? 0 then None else
  let '(r, d) := ata_write_sector (ata_base_address s) lba data (drive_master s) (dev s) in Some (r, with_dev s d).

(** The array [bytes_per_sector] long is filled by the 512 bytes of a sector. *)
Definition sector_array_ok (bs : fat32_boot_sector) : bool := bytes_per_sector bs =? 512.

(** ** FSInfo *)

Definition read_fsinfo : F bool :=
  fsinfo_sector ← gets (fun s => u32 (partition_lba_offset s + fs_info (boot_sector s)));
  r ← read_lba fsinfo_sector;
  match r with
  | None => mret false
  | Some b =>
      let fi := parse_fsinfo b in
      _ ← modify (fun s => with_fsinfo s fi (fsinfo_valid s));
      if negb (lead_signature fi =? 1096897106) || negb (struct_signature fi =? 1631679090)
         || negb (trail_signature fi =? 2857697280)
      then mret false
      else _ ← modify (fun s => with_fsinfo s fi true); mret true
  end.

Definition write_fsinfo : F bool :=
  valid ← gets fsinfo_valid;
  if negb valid then mret false else
  fsinfo_sector ← gets (fun s => u32 (partition_lba_offset s + fs_info (boot_sector s)));
  fi ← gets fsinfo;
  ok ← write_lba fsinfo_sector (fsinfo_bytes fi);
  if negb ok then mret false else
  r ← read_lba fsinfo_sector;
  match r with
  | None => mret false
  | Some b =>
      let v := parse_fsinfo b in
      mret ((lead_signature v =? lead_signature fi) && (struct_signature v =? struct_signature fi) &&
            (trail_signature v =? trail_signature fi) && (free_cluster_count v =? free_cluster_count fi) &&
            (next_free_cluster v =? next_free_cluster fi))
  end.

(** The count after an allocation (-1) or a release (+1). *)
Definition updated_free_count (count delta : Z) : Z :=
  if (delta <? 0) && (count <? u32 (- delta)) then 0 else u32 (s32 (s32 count + delta)).

Definition with_free_count (f : fat32_fsinfo) (n : Z) : fat32_fsinfo :=
  Mk_fsinfo (lead_signature f) (fi_reserved1 f) (struct_signature f) n (next_free_cluster f) (fi_reserved2 f)
    (trail_signature f).
Definition with_next_free (f : fat32_fsinfo) (n : Z) : fat32_fsinfo :=
  Mk_fsinfo (lead_signature f) (fi_reserved1 f) (struct_signature f) (free_cluster_count f) n (fi_reserved2 f)
    (trail_signature f).

Definition update_fsinfo_free_count (delta : Z) : F unit :=
  modify (fun s =>
    if negb (fsinfo_valid s) then s
    else if free_cluster_count (fsinfo s) =? 4294967295 then s
    else with_fsinfo s (with_free_count (fsinfo s) (updated_free_count (free_cluster_count (fsinfo s)) delta))
           (fsinfo_valid s)).

(** The checks that the build for real hardware (FAT32_STRICT_VALIDATION) makes; the
    signature field is the single byte at offset 66. *)
Definition strict_ok (bs : fat32_boot_sector) : bool :=
  (boot_signature bs =? 43605) &&   (* 0xAA55 *)
  ((bytes_per_sector bs =? 512) || (bytes_per_sector bs =? 1024) ||
   (bytes_per_sector bs =? 2048) || (bytes_per_sector bs =? 4096)) &&
  negb (sectors_per_cluster bs =? 0) &&
  (Z.land (sectors_per_cluster bs) (sectors_per_cluster bs - 1) =? 0) &&
  (2 <=? root_cluster bs).

Definition fat32_init_fs (strict : bool) (base : Z) (is_master : bool) : F Z :=
  r ← (fun s => let '(r, d) := ata_read_sector base 0 is_master (dev s) in Some (r, with_dev s d));
  match r with
  | None => mret (-1)
  | Some b =>
      let bs := parse_boot_sector b in
      _ ← modify (fun s => with_boot s bs);
      if strict && negb (strict_ok bs) then mret (-1) else
      _ ← modify (fun s => Mk_fat32 (dev s) bs (fsinfo s) (fsinfo_valid s) (root_cluster bs) base is_master
                             (partition_lba_offset s) (drive_base s) (drive_master s));
      if negb (fs_info bs =? 0) && negb (fs_info bs =? 65535)
      then _ ← read_fsinfo; mret 0
      else mret 0
  end.

(** ** The FAT *)

Definition fat_sector : F (fat32_boot_sector * Z) :=
  gets (fun s => (boot_sector s, partition_lba_offset s + reserved_sector_count (boot_sector s))).

Definition read_fat_entry (cluster : Z) : F Z :=
  bs ← gets boot_sector;
  if (cluster <? 2) || (get_total_clusters bs <=? cluster) then mret INVALID_CLUSTER else
  if negb (sector_array_ok bs) then undef else
  '(_, start) ← fat_sector;
  r ← read_lba (u32 (start + fat_index bs cluster));
  match r with
  | None => mret INVALID_CLUSTER
  | Some b => v ← lift (get32 b (ent_offset bs cluster)); mret (Z.land v FAT_MASK)
  end.

(** Writing a sector to all copies of the FAT from [fat_num] on, reading each back
    and comparing; [n] copies are left. *)
Fixpoint write_copies (bs : fat32_boot_sector) (start index : Z) (data : buf) (fat_num : Z) (n : nat) : F bool :=
  match n with
  | O => mret true
  | S n' =>
      let lba := u32 (start + fat_num * fat_size_32 bs + index) in
      ok ← write_lba lba data;
      if negb ok then mret false else
      r ← read_lba lba;
      match r with
      | None => mret false
      | Some v =>
          c ← lift (memcmp (Some data) (Some v) (Z.to_nat (bytes_per_sector bs)));
          if negb (c =? 0) then mret false else write_copies bs start index data (fat_num + 1) n'
      end
  end.

(** [( *entry & 0xF0000000) | (value & 0x0FFFFFFF)] *)
Definition set_entry (old value : Z) : Z := Z.lor (Z.land old 4026531840) (Z.land value FAT_MASK).

Definition write_fat_entry (cluster value : Z) : F bool :=
  '(bs, start) ← fat_sector;
  if negb (sector_array_ok bs) then undef else
  r ← read_lba (u32 (start + fat_index bs cluster));
  match r with
  | None => mret false
  | Some b =>
      old ← lift (get32 b (ent_offset bs cluster));
      b' ← lift (put32 b (ent_offset bs cluster) (set_entry old value));
      write_copies bs start (fat_index bs cluster) b' 0 (Z.to_nat (number_of_fats bs))
  end.

Definition mark_cluster_in_fat (cluster value : Z) : F bool :=
  bs ← gets boot_sector;
  if (cluster <? 2) || (get_total_clusters bs <=? cluster) then mret false else
  if negb (sector_array_ok bs) then undef else
  '(_, start) ← fat_sector;
  r ← read_lba (u32 (start + fat_index bs cluster));
  match r with
  | None => mret false
  | Some b =>
      old ← lift (get32 b (ent_offset bs cluster));
      let old_value := Z.land old FAT_MASK in
      b' ← lift (put32 b (ent_offset bs cluster) (set_entry old value));
      ok ← write_copies bs start (fat_index bs cluster) b' 0 (Z.to_nat (number_of_fats bs));
      if negb ok then mret false else
      _ ← (if (old_value =? 0) && negb (value =? 0) then update_fsinfo_free_count (-1)
           else if negb (old_value =? 0) && (value =? 0) then update_fsinfo_free_count 1
           else mret tt);
      mret true
  end.

(** The search loops of [find_free_cluster] and [allocate_new_cluster]. *)
Fixpoint scan_free (cluster : Z) (n : nat) : F (option Z) :=
  match n with
  | O => mret None
  | S n' => v ← read_fat_entry cluster; if v =? 0 then mret (Some cluster) else scan_free (cluster + 1) n'
  end.

Definition set_hint (cluster : Z) : F unit :=
  modify (fun s => if fsinfo_valid s then with_fsinfo s (with_next_free (fsinfo s) (u32 (cluster + 1))) true else s).

Definition find_free_cluster : F Z :=
  bs ← gets boot_sector;
  let total_clusters := get_total_clusters bs in
  start_cluster ← gets (fun s =>
    let hint := next_free_cluster (fsinfo s) in
    if fsinfo_valid s && negb (hint =? 4294967295) && (2 <=? hint) && (hint <? total_clusters) then hint else 2);
  r ← scan_free start_cluster (Z.to_nat (total_clusters - start_cluster));
  match r with
  | Some c => _ ← set_hint c; mret c
  | None =>
      if 2 <? start_cluster then
        r ← scan_free 2 (Z.to_nat (start_cluster - 2));
        match r with
        | Some c => _ ← set_hint c; mret c
        | None => mret INVALID_CLUSTER
        end
      else mret INVALID_CLUSTER
  end.

Definition allocate_new_cluster : F Z :=
  bs ← gets boot_sector;
  r ← scan_free 2 (Z.to_nat (get_total_clusters bs - 2));
  match r with
  | Some c => ok ← write_fat_entry c FAT32_EOC_MAX; mret (if ok : bool then c else INVALID_CLUSTER)
  | None => mret INVALID_CLUSTER
  end.

Definition get_next_cluster_in_chain (current_cluster : Z) : F Z :=
  '(bs, start) ← fat_sector;
  if negb (sector_array_ok bs) then undef else
  r ← read_lba (u32 (start + fat_index bs current_cluster));
  match r with
  | None => mret INVALID_CLUSTER
  | Some b =>
      v ← lift (get32 b (ent_offset bs current_cluster));
      let nextCluster := Z.land v FAT32_EOC_MAX in
      mret (if FAT32_EOC_MIN <=? nextCluster then INVALID_CLUSTER else nextCluster)
  end.

(** The walk to the last cluster of a chain; without fuel it follows a cycle forever. *)
Fixpoint last_in_chain (fuel : nat) (current : Z) : F Z :=
  match fuel with
  | O => undef
  | S fuel' =>
      next ← get_next_cluster_in_chain current;
      if next <? FAT32_EOC_MIN then last_in_chain fuel' next else mret current
  end.

Definition link_cluster_to_chain (fuel : nat) (parent_cluster new_cluster : Z) : F bool :=
  last ← last_in_chain fuel parent_cluster; mark_cluster_in_fat last new_cluster.

Fixpoint free_chain_loop (fuel : nat) (current : Z) : F bool :=
  match fuel with
  | O => undef
  | S fuel' =>
      next ← get_next_cluster_in_chain current;
      ok ← mark_cluster_in_fat current 0;
      if negb ok then mret false else
      if (next =? INVALID_CLUSTER) || is_end_of_cluster_chain next then mret true else
      bs ← gets boot_sector;
      if negb (is_valid_cluster bs next) then mret true else free_chain_loop fuel' next
  end.

(** Each round frees a cluster and stops at a free one: the number of clusters
    bounds the rounds. *)
Definition free_cluster_chain (start_cluster : Z) : F bool :=
  bs ← gets boot_sector;
  if negb (is_valid_cluster bs start_cluster) then mret false else
  free_chain_loop (S (S (Z.to_nat (get_total_clusters bs)))) start_cluster.

(** ** Clusters *)

(** Reading the sectors of a cluster, which are concatenated; a failed read leaves
    the old bytes of the buffer, here [old], in place. *)
Fixpoint read_sectors (lba : Z) (n : nat) (old : buf) : F buf :=
  match n with
  | O => mret []
  | S n' =>
      r ← read_lba (u32 lba);
      rest ← read_sectors (lba + 1) n' (drop SECTOR_SIZE old);
      mret ((match r with Some b => b | None => take SECTOR_SIZE old end) ++ rest)
  end.

(** The buffer after the call; unchanged when the cluster is not valid. *)
Definition read_cluster (cluster_number : Z) (buffer : buf) : F buf :=
  bs ← gets boot_sector;
  part ← gets partition_lba_offset;
  if negb (is_valid_cluster bs cluster_number) then mret buffer else
  let startSector := cluster_to_sector bs part cluster_number in
  if startSector =? 0 then mret buffer else
  let n := Z.to_nat (sectors_per_cluster bs) in
  if (length buffer <? n * SECTOR_SIZE)%nat then undef else
  b ← read_sectors startSector n buffer;
  mret (b ++ drop (n * SECTOR_SIZE) buffer).

Fixpoint write_sectors (bs : fat32_boot_sector) (lba : Z) (n : nat) (data : buf) : F bool :=
  match n with
  | O => mret true
  | S n' =>
      if negb (sector_array_ok bs) then undef else
      let chunk := take SECTOR_SIZE data in
      if (length chunk <? SECTOR_SIZE)%nat then undef else
      ok ← write_lba (u32 lba) chunk;
      if negb ok then mret false else
      r ← read_lba (u32 lba);
      match r with
      | None => mret false
      | Some v =>
          c ← lift (memcmp (Some chunk) (Some v) (Z.to_nat (bytes_per_sector bs)));
          if negb (c =? 0) then mret false else write_sectors bs (lba + 1) n' (drop SECTOR_SIZE data)
      end
  end.

(** [entries = None] is the NULL pointer. *)
Definition write_cluster (cluster : Z) (entries : option buf) : F bool :=
  match entries with
  | None => mret false
  | Some entries =>
      bs ← gets boot_sector;
      part ← gets partition_lba_offset;
      first_data ← lift (get_first_data_sector bs part);
      write_sectors bs (u32 ((cluster - 2) * sectors_per_cluster bs + first_data))
        (Z.to_nat (sectors_per_cluster bs)) entries
  end.
End Fat32.

(** * Properties *)

(** An FSInfo structure whose fields have their widths. *)
Definition word_ok (z : Z) : Prop := 0 <= z < 2 ^ 32.
Definition fsinfo_wf (f : fat32_fsinfo) : Prop :=
  word_ok (lead_signature f) /\ word_ok (struct_signature f) /\ word_ok (free_cluster_count f) /\
  word_ok (next_free_cluster f) /\ word_ok (trail_signature f) /\
  length (fi_reserved1 f) = 480%nat /\ bytes_ok (fi_reserved1 f) /\
  length (fi_reserved2 f) = 12%nat /\ bytes_ok (fi_reserved2 f).

Section Fat32_props.
Context {D : Type} `{BD : BlockDev D}.
Implicit Types s : fat32 D.

(** The sector of the current drive, the first sector of the first FAT, and the
    value of a FAT entry. *)
Definition sec s (lba : Z) : buf := sector (dev s) (drive_base s) (drive_master s) lba.
Definition fat_start s : Z := partition_lba_offset s + reserved_sector_count (boot_sector s).
Definition fat s (c : Z) : Z :=
  Z.land (le_get (slice (sec s (fat_start s + fat_index (boot_sector s) c)) (ent_offset (boot_sector s) c) 4)) FAT_MASK.

Abbreviation clusters s := (get_total_clusters (boot_sector s)).

(** A mounted FAT32 volume: the geometry is consistent, the FATs lie within the
    28-bit sector range and hold an entry for every cluster, the drive responds, and
    the copies of the FAT agree. *)
Record fat32_ok s : Prop := {
  ok_dev : dev_ok (dev s) (drive_base s);
  ok_base : ata_base_address s = drive_base s;
  ok_bps : bytes_per_sector (boot_sector s) = 512;
  ok_part : 0 <= partition_lba_offset s;
  ok_res : 0 <= reserved_sector_count (boot_sector s);
  ok_nf : 1 <= number_of_fats (boot_sector s);
  ok_fsz : 0 <= fat_size_32 (boot_sector s);
  ok_lba : fat_start s + number_of_fats (boot_sector s) * fat_size_32 (boot_sector s) <= LBA_LIMIT;
  ok_cl : clusters s <= FAT32_EOC_MIN;
  ok_room : clusters s * 4 <= fat_size_32 (boot_sector s) * 512;
  ok_mirror : forall k i, 0 <= k < number_of_fats (boot_sector s) -> 0 <= i < fat_size_32 (boot_sector s) ->
    sec s (fat_start s + k * fat_size_32 (boot_sector s) + i) = sec s (fat_start s + i)
}.

(** The part of the state that reads may change does not matter. *)
Definition dev_equiv (d d' : D) : Prop := forall b m lba, sector d' b m lba = sector d b m lba.

Lemma read_lba_ok s lba :
  dev_ok (dev s) (drive_base s) -> 0 <= lba < LBA_LIMIT ->
  exists d, read_lba lba s = Some (Some (sec s lba), with_dev s d) /\ dev_ok d (drive_base s) /\ dev_equiv (dev s) d.
Proof.
  intros Hd Hl. unfold read_lba. rewrite (proj2 (Z.ltb_ge _ _) (base_port _ _ Hd)).
  destruct (read_ok (dev s) (drive_base s) (drive_master s) lba Hd Hl) as (d & -> & Hd' & He). exists d. auto.
Qed.

Lemma write_lba_ok s lba data :
  dev_ok (dev s) (drive_base s) -> ata_base_address s = drive_base s -> 0 <= lba < LBA_LIMIT ->
  length data = SECTOR_SIZE -> bytes_ok data ->
  exists d, write_lba lba data s = Some (true, with_dev s d) /\ dev_ok d (drive_base s) /\ sec (with_dev s d) lba = data /\
    forall lba', lba' <> lba -> sec (with_dev s d) lba' = sec s lba'.
Proof.
  intros Hd Hb Hl Hlen Hok. unfold write_lba. rewrite (proj2 (Z.ltb_ge _ _) (base_port _ _ Hd)), Hb.
  destruct (write_ok (dev s) (drive_base s) (drive_master s) lba data Hd Hl Hlen Hok) as (d & -> & Hd' & He & Hne).
  exists d. split_and!; [done|by apply Hd'|done|]. intros lba' Hn. apply Hne. congruence.
Qed.

Lemma sec_equiv s d lba : dev_equiv (dev s) d -> sec (with_dev s d) lba = sec s lba.
Proof. intros He. apply He. Qed.

Lemma sec_size s lba : dev_ok (dev s) (drive_base s) -> length (sec s lba) = SECTOR_SIZE /\ bytes_ok (sec s lba).
Proof. intros. split; [by apply sector_size|by apply sector_bytes]. Qed.

(** Changing the device keeps the volume in order when the sectors agree. *)
Lemma fat32_ok_equiv s d : fat32_ok s -> dev_ok d (drive_base s) -> dev_equiv (dev s) d -> fat32_ok (with_dev s d).
Proof.
  intros [] Hd He. split; try done. intros k i Hk Hi. change (fat_start (with_dev s d)) with (fat_start s).
  simpl. rewrite !sec_equiv by done. by apply ok_mirror0.
Qed.

Lemma fat_equiv s d c : dev_equiv (dev s) d -> fat (with_dev s d) c = fat s c.
Proof. intros He. unfold fat. by rewrite sec_equiv. Qed.

(** The position of a valid cluster's entry. *)
Lemma fat_position s c :
  fat32_ok s -> 2 <= c < clusters s ->
  fat_offset c = 4 * c /\ fat_index (boot_sector s) c = 4 * c / 512 /\ 0 <= 4 * c / 512 < fat_size_32 (boot_sector s) /\
  ent_offset (boot_sector s) c = Z.to_nat (4 * c mod 512) /\ (ent_offset (boot_sector s) c + 4 <= 512)%nat.
Proof.
  intros Hok Hc. pose proof (ok_cl s Hok). pose proof (ok_room s Hok). pose proof (ok_bps s Hok) as Hb.
  unfold FAT32_EOC_MIN in *. assert (fat_offset c = 4 * c) as E by (unfold fat_offset; rewrite wrap_small; lia).
  unfold fat_index, ent_offset. rewrite E, Hb.
  replace (4 * c mod 512) with (4 * (c mod 128)) by (change 512 with (4 * 128); rewrite Z.mul_mod_distr_l; lia).
  split_and!; try done; try zlia.
Qed.

Lemma get32_ok b off : (off + 4 <= length b)%nat -> get32 b off = Some (le_get (slice b off 4)).
Proof. intros. unfold get32. by destruct (Nat.leb_spec (off + 4) (length b)); [|lia]. Qed.

Lemma put32_ok b off v : (off + 4 <= length b)%nat -> put32 b off v = Some (blit b off (le_put 4 v)).
Proof. intros. unfold put32. by destruct (Nat.leb_spec (off + 4) (length b)); [|lia]. Qed.

Lemma fat_lba s i :
  fat32_ok s -> 0 <= i < fat_size_32 (boot_sector s) ->
  0 <= fat_start s + i < LBA_LIMIT /\ u32 (fat_start s + i) = fat_start s + i.
Proof.
  intros Hok Hi. pose proof (ok_lba s Hok). pose proof (ok_nf s Hok). pose proof (ok_part s Hok).
  pose proof (ok_res s Hok). unfold fat_start, LBA_LIMIT in *.
  assert (fat_size_32 (boot_sector s) <= number_of_fats (boot_sector s) * fat_size_32 (boot_sector s)) by nia.
  split; [lia|]. apply wrap_small. lia.
Qed.

Lemma copy_lba s k i :
  fat32_ok s -> 0 <= k < number_of_fats (boot_sector s) -> 0 <= i < fat_size_32 (boot_sector s) ->
  0 <= fat_start s + k * fat_size_32 (boot_sector s) + i < LBA_LIMIT /\
  u32 (fat_start s + k * fat_size_32 (boot_sector s) + i) = fat_start s + k * fat_size_32 (boot_sector s) + i.
Proof.
  intros Hok Hk Hi. pose proof (ok_lba s Hok). pose proof (ok_part s Hok). pose proof (ok_res s Hok).
  unfold fat_start, LBA_LIMIT in *.
  assert (0 <= k * fat_size_32 (boot_sector s)) by nia.
  assert ((k + 1) * fat_size_32 (boot_sector s) <= number_of_fats (boot_sector s) * fat_size_32 (boot_sector s)) by nia.
  split; [lia|]. apply wrap_small. lia.
Qed.

(** Reading the FAT sector of a cluster and the cluster's entry. *)
Lemma read_fat_sector s c :
  fat32_ok s -> 2 <= c < clusters s ->
  let bs := boot_sector s in
  exists d, read_lba (u32 (fat_start s + fat_index bs c)) s =
      Some (Some (sec s (fat_start s + fat_index bs c)), with_dev s d) /\
    dev_ok d (drive_base s) /\ dev_equiv (dev s) d /\
    get32 (sec s (fat_start s + fat_index bs c)) (ent_offset bs c) =
      Some (le_get (slice (sec s (fat_start s + fat_index bs c)) (ent_offset bs c) 4)).
Proof.
  intros Hok Hc bs. destruct (fat_position s c Hok Hc) as (_ & Hi & Hr & _ & He). unfold bs. rewrite Hi.
  destruct (fat_lba s _ Hok Hr) as [Hl ->]. destruct (read_lba_ok s _ (ok_dev s Hok) Hl) as (d & -> & Hd & Heq).
  exists d. split_and!; [done..|]. apply get32_ok. destruct (sec_size s (fat_start s + 4 * c / 512) (ok_dev s Hok)) as [-> _].
  exact He.
Qed.

(** [read_fat_entry] returns the entry, and changes nothing. *)
Lemma read_fat_entry_ok s c :
  fat32_ok s -> 2 <= c < clusters s ->
  exists d, read_fat_entry c s = Some (fat s c, with_dev s d) /\ dev_ok d (drive_base s) /\ dev_equiv (dev s) d.
Proof.
  intros Hok Hc. unfold read_fat_entry. rewrite gets_bind.
  destruct (Z.ltb_spec c 2), (Z.leb_spec (clusters s) c); try lia. cbn [orb].
  unfold sector_array_ok. rewrite (ok_bps s Hok). cbn [Z.eqb Pos.eqb negb]. unfold fat_sector. rewrite gets_bind.
  destruct (read_fat_sector s c Hok Hc) as (d & Hr & Hd & Heq & Hg). fold (fat_start s).
  rewrite (bind_eq _ _ _ _ _ Hr), (lift_bind _ _ _ _ Hg). by exists d.
Qed.

Lemma get_next_ok s c :
  fat32_ok s -> 2 <= c < clusters s ->
  exists d, get_next_cluster_in_chain c s =
      Some (if FAT32_EOC_MIN <=? fat s c then INVALID_CLUSTER else fat s c, with_dev s d) /\
    dev_ok d (drive_base s) /\ dev_equiv (dev s) d.
Proof.
  intros Hok Hc. unfold get_next_cluster_in_chain, fat_sector. rewrite gets_bind.
  unfold sector_array_ok. rewrite (ok_bps s Hok). cbn [Z.eqb Pos.eqb negb].
  destruct (read_fat_sector s c Hok Hc) as (d & Hr & Hd & Heq & Hg). fold (fat_start s).
  rewrite (bind_eq _ _ _ _ _ Hr), (lift_bind _ _ _ _ Hg). by exists d.
Qed.

(** Writing the copies: every one gets the data, nothing else changes. *)
Lemma write_copies_ok s index data k n :
  fat32_ok s -> 0 <= index < fat_size_32 (boot_sector s) -> length data = SECTOR_SIZE -> bytes_ok data ->
  0 <= k -> k + Z.of_nat n <= number_of_fats (boot_sector s) ->
  let lba j := fat_start s + j * fat_size_32 (boot_sector s) + index in
  forall d, dev_ok d (drive_base s) -> exists d',
    write_copies (boot_sector s) (fat_start s) index data k n (with_dev s d) = Some (true, with_dev s d') /\ dev_ok d' (drive_base s) /\
    (forall j, k <= j < k + Z.of_nat n -> sec (with_dev s d') (lba j) = data) /\
    (forall x, (forall j, k <= j < k + Z.of_nat n -> x <> lba j) -> sec (with_dev s d') x = sec (with_dev s d) x).
Proof.
  intros Hok Hi Hlen Hby. revert k. induction n as [|n IH]; intros k Hk Hn lba d Hd; cbn [write_copies].
  { exists d. split_and!; [done|done|lia|done]. }
  destruct (copy_lba s k index Hok ltac:(lia) Hi) as [Hl ->]. fold (lba k) in *.
  destruct (write_lba_ok (with_dev s d) (lba k) data Hd (ok_base s Hok) Hl Hlen Hby) as (d1 & Hw & Hd1 & Hs1 & Ho1).
  rewrite (bind_eq _ _ _ _ _ Hw). cbn [negb].
  destruct (read_lba_ok (with_dev s d1) (lba k) Hd1 Hl) as (d2 & Hr & Hd2 & He2).
  rewrite (bind_eq _ _ _ _ _ Hr). change (with_dev (with_dev s d) d1) with (with_dev s d1) in *. rewrite Hs1, (ok_bps s Hok).
  destruct (memcmp_loop_spec data data (Z.to_nat 512)) as (r & Hm & Hr0);
    [rewrite Hlen; unfold SECTOR_SIZE; lia..|].
  rewrite (lift_bind _ r); [|exact Hm]. rewrite (proj2 Hr0 eq_refl). cbn [Z.eqb negb].
  destruct (IH (k + 1) ltac:(lia) ltac:(lia) d2 Hd2) as (d3 & Hrec & Hd3 & Hin & Hout).
  exists d3. split; [exact Hrec|]. split; [done|]. split.
  - intros j Hj. destruct (decide (j = k)) as [->|]; [|apply Hin; lia].
    rewrite Hout.
    + change (with_dev s d2) with (with_dev (with_dev s d1) d2). rewrite (sec_equiv (with_dev s d1)) by done. exact Hs1.
    + intros j Hj'. unfold lba. pose proof (ok_fsz s Hok). intros E. assert ((j - k) * fat_size_32 (boot_sector s) = 0) by lia.
      assert (0 < fat_size_32 (boot_sector s)) by lia. nia.
  - intros x Hx. rewrite Hout by (intros j Hj; apply Hx; lia).
    change (with_dev s d2) with (with_dev (with_dev s d1) d2). rewrite (sec_equiv (with_dev s d1)) by done.
    apply Ho1. apply Hx. lia.
Qed.

(** With the validation of the hardware build no volume can be mounted: whatever
    the boot sector holds, [fat32_init_fs] fails, because it compares a one-byte field
    with 0xAA55.  The boot sector is replaced all the same. *)
Theorem strict_init_always_fails s (base : Z) (is_master : bool) :
  dev_ok (dev s) base ->
  exists d, fat32_init_fs true base is_master s =
    Some (-1, with_boot (with_dev s d) (parse_boot_sector (sector (dev s) base is_master 0))).
Proof.
  intros Hd. unfold fat32_init_fs.
  destruct (read_ok (dev s) base is_master 0 Hd ltac:(unfold LBA_LIMIT; lia)) as (d & Hr & _ & _).
  unfold mbind at 1, M_bind at 1. rewrite Hr, modify_bind. cbn [andb]. exists d.
  assert (strict_ok (parse_boot_sector (sector (dev s) base is_master 0)) = false) as ->; [|done].
  unfold strict_ok. cbn [boot_signature parse_boot_sector].
  assert (le_get (slice (sector (dev s) base is_master 0) 66 1) < 256) as Hb.
  { destruct (le_get_range (slice (sector (dev s) base is_master 0) 66 1)) as [_ Hlt].
    - apply Forall_take, Forall_drop. by apply sector_bytes.
    - unfold slice in Hlt at 2. rewrite length_take, length_drop, sector_size in Hlt by done. exact Hlt. }
  by destruct (Z.eqb_spec (le_get (slice (sector (dev s) base is_master 0) 66 1)) 43605); [lia|].
Qed.

(** *** Entries *)

Lemma testbit_mask i : 0 <= i -> Z.testbit FAT_MASK i = (i <? 28).
Proof. intros. change FAT_MASK with (Z.ones 28). rewrite Z.testbit_ones by lia. by zcase. Qed.

Lemma set_entry_mask old v : Z.land (set_entry old v) FAT_MASK = Z.land v FAT_MASK.
Proof.
  apply Z.bits_inj'. intros i Hi. unfold set_entry. rewrite !Z.land_spec, Z.lor_spec, !Z.land_spec, testbit_mask by done.
  destruct (Z.ltb_spec i 28); rewrite ?andb_true_r, ?andb_false_r; [|done].
  change 4026531840 with (Z.shiftl 15 28). rewrite Z.shiftl_spec, (Z.testbit_neg_r 15) by lia.
  by rewrite andb_false_r.
Qed.

Lemma set_entry_range old v : 0 <= set_entry old v < 2 ^ 32.
Proof.
  unfold set_entry. assert (Z.land (Z.lor (Z.land old 4026531840) (Z.land v FAT_MASK)) (Z.ones 32) =
                            Z.lor (Z.land old 4026531840) (Z.land v FAT_MASK)) as <-.
  { rewrite Z.land_lor_distr_l, <- !Z.land_assoc. done. }
  rewrite Z.land_ones by lia. apply Z.mod_pos_bound. lia.
Qed.

Lemma land_mask_range z : 0 <= Z.land z FAT_MASK < 2 ^ 28.
Proof. change FAT_MASK with (Z.ones 28). rewrite Z.land_ones by lia. apply Z.mod_pos_bound. lia. Qed.

(** The entries of a FAT sector after one of them is replaced. *)
Lemma fat_sector_update s c v :
  fat32_ok s -> 2 <= c < clusters s ->
  let bs := boot_sector s in let x := fat_start s + fat_index bs c in
  let old := le_get (slice (sec s x) (ent_offset bs c) 4) in
  let data := blit (sec s x) (ent_offset bs c) (le_put 4 (set_entry old v)) in
  length data = SECTOR_SIZE /\ bytes_ok data /\
  forall c', 2 <= c' < clusters s -> fat_index bs c' = fat_index bs c ->
    Z.land (le_get (slice data (ent_offset bs c') 4)) FAT_MASK = if c' =? c then Z.land v FAT_MASK else fat s c'.
Proof.
  intros Hok Hc bs x old data. destruct (fat_position s c Hok Hc) as (_ & Hi & _ & He & Hle).
  destruct (sec_size s x (ok_dev s Hok)) as [Hsl Hsb]. unfold SECTOR_SIZE in *.
  assert (ent_offset bs c + length (le_put 4 (set_entry old v)) <= length (sec s x))%nat as Hfit
    by (rewrite length_le_put, Hsl; exact Hle).
  split; [unfold data; by rewrite length_blit|]. split; [unfold data; auto with bytes|].
  intros c' Hc' Hidx. destruct (fat_position s c' Hok Hc') as (_ & Hi' & _ & He' & Hle').
  destruct (Z.eqb_spec c' c) as [->|Hne].
  - unfold data. pose proof (slice_blit (sec s x) (ent_offset bs c) (le_put 4 (set_entry old v)) Hfit) as Hsb'.
    rewrite length_le_put in Hsb'. rewrite Hsb', le_get_put, Z.mod_small by apply set_entry_range. apply set_entry_mask.
  - unfold fat. fold bs x. rewrite Hidx. fold x. f_equal. f_equal. unfold data.
    apply slice_blit_disjoint; [done|]. rewrite length_le_put. unfold bs in *. rewrite Hi, Hi' in Hidx. rewrite He, He'. zlia.
Qed.

(** [s'] is the volume [s] with the entry of cluster [c] set to [v]. *)
Record fat_updated s (c v : Z) s' : Prop := {
  up_ok : fat32_ok s';
  up_bs : boot_sector s' = boot_sector s;
  up_part : partition_lba_offset s' = partition_lba_offset s;
  up_fat : forall c', 2 <= c' < clusters s -> fat s' c' = if c' =? c then Z.land v FAT_MASK else fat s c';
  up_frame : forall lba,
    lba < fat_start s \/ fat_start s + number_of_fats (boot_sector s) * fat_size_32 (boot_sector s) <= lba ->
    sec s' lba = sec s lba;
  up_valid : fsinfo_valid s' = fsinfo_valid s;
  up_cwd : current_directory_cluster s' = current_directory_cluster s;
  up_wf : fsinfo_wf (fsinfo s) -> fsinfo_wf (fsinfo s')
}.

(** The read-modify-write that [write_fat_entry] and [mark_cluster_in_fat] share. *)
Lemma update_entry_ok s c v :
  fat32_ok s -> 2 <= c < clusters s ->
  let bs := boot_sector s in let x := fat_start s + fat_index bs c in
  let old := le_get (slice (sec s x) (ent_offset bs c) 4) in
  let data := blit (sec s x) (ent_offset bs c) (le_put 4 (set_entry old v)) in
  exists d d', read_lba (u32 x) s = Some (Some (sec s x), with_dev s d) /\
    get32 (sec s x) (ent_offset bs c) = Some old /\ put32 (sec s x) (ent_offset bs c) (set_entry old v) = Some data /\
    write_copies bs (fat_start s) (fat_index bs c) data 0 (Z.to_nat (number_of_fats bs)) (with_dev s d) =
      Some (true, with_dev s d') /\ fat_updated s c v (with_dev s d').
Proof.
  intros Hok Hc bs x old data. destruct (read_fat_sector s c Hok Hc) as (d & Hr & Hd & Heq & Hg).
  destruct (fat_position s c Hok Hc) as (_ & Hi & Hir & He & Hle).
  destruct (fat_sector_update s c v Hok Hc) as (Hdl & Hdb & Hent). fold bs x old data in Hdl, Hdb, Hent.
  destruct (sec_size s x (ok_dev s Hok)) as [Hsl _]. pose proof (ok_nf s Hok) as Hnf.
  assert (0 <= fat_index bs c < fat_size_32 bs) as Hir' by (unfold bs in *; by rewrite Hi).
  destruct (write_copies_ok s (fat_index bs c) data 0 (Z.to_nat (number_of_fats bs)) Hok Hir' Hdl Hdb ltac:(lia)
              ltac:(unfold bs; lia) d Hd) as (d' & Hw & Hd' & Hin & Hout).
  exists d, d'. split; [exact Hr|]. split; [exact Hg|].
  split; [apply put32_ok; rewrite Hsl; exact Hle|]. split; [exact Hw|].
  rewrite Z2Nat.id in Hin, Hout by (unfold bs; lia). fold bs in Hin, Hout.
  assert (forall k i, 0 <= k < number_of_fats bs -> 0 <= i < fat_size_32 bs ->
    sec (with_dev s d') (fat_start s + k * fat_size_32 bs + i) =
      if i =? fat_index bs c then data else sec s (fat_start s + i)) as Hsec.
  { intros k i Hk Hi'. destruct (Z.eqb_spec i (fat_index bs c)) as [->|Hne]; [apply Hin; lia|].
    rewrite Hout; [rewrite sec_equiv by done; by apply (ok_mirror s Hok)|].
    intros j Hj E. apply Hne.
    assert ((k * fat_size_32 bs + i) mod fat_size_32 bs = (j * fat_size_32 bs + fat_index bs c) mod fat_size_32 bs) as Em
      by (f_equal; lia).
    rewrite !(Z.add_comm (_ * _)), !Z.mod_add, !Z.mod_small in Em by lia. done. }
  assert (forall i, 0 <= i < fat_size_32 bs ->
    sec (with_dev s d') (fat_start s + i) = if i =? fat_index bs c then data else sec s (fat_start s + i)) as Hsec0.
  { intros i Hi'. rewrite <- (Hsec 0 i) by (done || (unfold bs; lia)). f_equal. lia. }
  split; [|done|done| | |done|done|done].
  - destruct Hok. split; try done. intros k i Hk Hi'. change (fat_start (with_dev s d')) with (fat_start s).
    change (boot_sector (with_dev s d')) with bs in *. by rewrite Hsec, Hsec0.
  - intros c' Hc'. unfold fat. change (fat_start (with_dev s d')) with (fat_start s).
    change (boot_sector (with_dev s d')) with bs.
    destruct (fat_position s c' Hok Hc') as (_ & Hi' & Hir2 & _). fold bs in Hi'. rewrite Hi', Hsec0 by done.
    destruct (Z.eqb_spec (4 * c' / 512) (fat_index bs c)) as [E|E].
    + rewrite <- Hi' in E. specialize (Hent c' Hc' E). exact Hent.
    + destruct (Z.eqb_spec c' c) as [->|]; [by rewrite <- Hi' in E|]. unfold fat. fold bs. by rewrite Hi'.
  - intros lba Hlba. rewrite Hout; [by apply sec_equiv|]. intros j Hj.
    destruct (copy_lba s j (fat_index bs c) Hok Hj Hir') as [_ _]. fold bs.
    assert (0 <= j * fat_size_32 bs) by nia.
    assert ((j + 1) * fat_size_32 bs <= number_of_fats bs * fat_size_32 bs) by nia. unfold bs in *. lia.
Qed.

Lemma updated_count_word n delta : word_ok (updated_free_count n delta).
Proof. unfold updated_free_count, word_ok. destruct (_ && _); [lia|]. apply wrap_range. lia. Qed.

Lemma fat_updated_count s c v s' n delta :
  fat_updated s c v s' -> fat_updated s c v (with_fsinfo s' (with_free_count (fsinfo s') (updated_free_count n delta)) (fsinfo_valid s')).
Proof.
  intros [Hok Hb Hp Hf Hfr Hv Hc Hw]. split; try done; [destruct Hok; by split|].
  intros Hwf. destruct (Hw Hwf) as (H1 & H2 & H3 & H4 & H5 & H6). pose proof (updated_count_word n delta). done.
Qed.

(** The free count after an entry changes from [old] to [v]. *)
Definition count_after (f : fat32_fsinfo) (old v : Z) : Z :=
  if (old =? 0) && negb (v =? 0) then updated_free_count (free_cluster_count f) (-1)
  else if negb (old =? 0) && (v =? 0) then updated_free_count (free_cluster_count f) 1
  else free_cluster_count f.

Lemma mark_ok s c v :
  fat32_ok s -> 2 <= c < clusters s ->
  exists s', mark_cluster_in_fat c v s = Some (true, s') /\ fat_updated s c v s' /\
    next_free_cluster (fsinfo s') = next_free_cluster (fsinfo s) /\
    free_cluster_count (fsinfo s') =
      if fsinfo_valid s && negb (free_cluster_count (fsinfo s) =? 4294967295) then count_after (fsinfo s) (fat s c) v
      else free_cluster_count (fsinfo s).
Proof.
  intros Hok Hc. unfold mark_cluster_in_fat. rewrite gets_bind.
  destruct (Z.ltb_spec c 2), (Z.leb_spec (clusters s) c); try lia. cbn [orb].
  unfold sector_array_ok. rewrite (ok_bps s Hok). cbn [Z.eqb Pos.eqb negb]. unfold fat_sector. rewrite gets_bind.
  destruct (update_entry_ok s c v Hok Hc) as (d & d' & Hr & Hg & Hp & Hw & Hup). fold (fat_start s).
  rewrite (bind_eq _ _ _ _ _ Hr), (lift_bind _ _ _ _ Hg), (lift_bind _ _ _ _ Hp), (bind_eq _ _ _ _ _ Hw). cbn [negb].
  fold (fat s c). unfold count_after.
  destruct (fat s c =? 0), (v =? 0); cbn [andb negb];
    try (eexists; split; [reflexivity|]; split; [exact Hup|]; split; [reflexivity|]; by destruct (_ && _));
    unfold update_fsinfo_free_count; rewrite modify_bind; eexists; (split; [reflexivity|]); simpl;
    destruct (fsinfo_valid s) eqn:Ev; cbn [negb andb]; try done;
    destruct (free_cluster_count (fsinfo s) =? 4294967295) eqn:Ec; cbn [negb]; try done;
    (split; [|done]); pose proof (fat_updated_count s c v (with_dev s d')) as Hf; simpl in Hf; rewrite Ev in Hf; by apply Hf.
Qed.

(** C4: [mark_cluster_in_fat] updates exactly one entry of the table: on a volume
    that is in order it succeeds, the entry of the cluster reads back as the 28 bits
    written, every other cluster's entry is unchanged, all FAT copies agree again, no
    sector outside the FATs is touched, and the FSInfo free count follows. *)
Theorem mark_cluster_in_fat_ok s (c v : Z) :
  fat32_ok s -> 2 <= c < clusters s ->
  exists s', mark_cluster_in_fat c v s = Some (true, s') /\ fat32_ok s' /\ boot_sector s' = boot_sector s /\
    (forall c', 2 <= c' < clusters s -> fat s' c' = if c' =? c then Z.land v FAT_MASK else fat s c') /\
    (forall lba, lba < fat_start s \/ fat_start s + number_of_fats (boot_sector s) * fat_size_32 (boot_sector s) <= lba ->
       sec s' lba = sec s lba) /\
    (fsinfo_valid s = true -> free_cluster_count (fsinfo s) <> 4294967295 ->
       free_cluster_count (fsinfo s') = count_after (fsinfo s) (fat s c) v).
Proof.
  intros Hok Hc. destruct (mark_ok s c v Hok Hc) as (s' & Hm & [] & _ & Hcnt). exists s'. split_and!; try done.
  intros Hv Hne. by rewrite Hcnt, Hv, (proj2 (Z.eqb_neq _ _) Hne).
Qed.

(** *** Searching for free clusters *)

Lemma scan_free_ok s c n :
  fat32_ok s -> 2 <= c -> c + Z.of_nat n <= clusters s ->
  exists r d, scan_free c n s = Some (r, with_dev s d) /\ dev_ok d (drive_base s) /\ dev_equiv (dev s) d /\
    match r with
    | Some k => c <= k < c + Z.of_nat n /\ fat s k = 0 /\ forall j, c <= j < k -> fat s j <> 0
    | None => forall j, c <= j < c + Z.of_nat n -> fat s j <> 0
    end.
Proof.
  revert s c. induction n as [|n IH]; intros s c Hok Hc Hn; cbn [scan_free].
  { exists None, (dev s). split; [by destruct s|]. split_and!; [apply (ok_dev s Hok)|done|lia]. }
  destruct (read_fat_entry_ok s c Hok ltac:(lia)) as (d & Hr & Hd & He). rewrite (bind_eq _ _ _ _ _ Hr).
  destruct (Z.eqb_spec (fat s c) 0) as [E|E].
  - exists (Some c), d. split_and!; [done|done|done|lia|lia|done|lia].
  - destruct (IH (with_dev s d) (c + 1) (fat32_ok_equiv _ _ Hok Hd He) ltac:(lia) ltac:(simpl; lia))
      as (r & d' & -> & Hd' & He' & Hcase).
    exists r, d'. split; [done|]. split; [done|]. split; [intros b m l; rewrite He'; apply He|].
    destruct r as [k|].
    + destruct Hcase as (Hk & Hz & Hall). rewrite fat_equiv in Hz by done. split_and!; [lia|lia|done|].
      intros j Hj. destruct (decide (j = c)) as [->|]; [done|]. rewrite <- (fat_equiv s d) by done. apply Hall. lia.
    + intros j Hj. destruct (decide (j = c)) as [->|]; [done|]. rewrite <- (fat_equiv s d) by done. apply Hcase. lia.
Qed.

(** The search changes the hint and nothing on the disk. *)
Definition same_volume s s' : Prop :=
  dev_equiv (dev s) (dev s') /\ boot_sector s' = boot_sector s /\ partition_lba_offset s' = partition_lba_offset s /\
  drive_base s' = drive_base s /\ drive_master s' = drive_master s /\ ata_base_address s' = ata_base_address s /\
  current_directory_cluster s' = current_directory_cluster s /\ fsinfo_valid s' = fsinfo_valid s.

Lemma set_hint_ok s d c :
  fat32_ok s -> dev_ok d (drive_base s) -> dev_equiv (dev s) d ->
  exists s', set_hint c (with_dev s d) = Some (tt, s') /\ fat32_ok s' /\ same_volume s s' /\
    (fsinfo_wf (fsinfo s) -> fsinfo_wf (fsinfo s')).
Proof.
  intros Hok Hd He. unfold set_hint, modify. eexists. split; [done|]. pose proof (fat32_ok_equiv s d Hok Hd He) as [].
  destruct (fsinfo_valid (with_dev s d)) eqn:Ev; (split; [by split|split; [by split_and!|]]); [|done].
  intros (H1 & H2 & H3 & H4 & H5 & H6). assert (word_ok (u32 (c + 1))) by (apply wrap_range; lia). done.
Qed.

Lemma find_free_spec s :
  fat32_ok s ->
  exists r s', find_free_cluster s = Some (r, s') /\ fat32_ok s' /\ same_volume s s' /\ (fsinfo_wf (fsinfo s) -> fsinfo_wf (fsinfo s')) /\
    ((2 <= r < clusters s /\ fat s r = 0) \/
     (r = INVALID_CLUSTER /\ forall c, 2 <= c < clusters s -> fat s c <> 0)).
Proof.
  intros Hok. unfold find_free_cluster. rewrite !gets_bind. set (h := if _ && _ then _ else _).
  assert (2 <= h /\ (2 < h -> h < clusters s)) as [Hh1 Hh2] by (unfold h; destruct (fsinfo_valid s); cbn [andb]; zcase; lia).
  clearbody h. destruct (Z.leb_spec (clusters s) h) as [Hbig|Hsmall].
  - replace (Z.to_nat (clusters s - h)) with 0%nat by lia. cbn [scan_free].
    destruct (Z.ltb_spec 2 h); [lia|]. eexists _, s. split; [reflexivity|]. split; [done|].
    split; [by split_and!|]. split; [done|]. right. split; [done|]. lia.
  - destruct (scan_free_ok s h (Z.to_nat (clusters s - h)) Hok Hh1 ltac:(lia)) as (r & d & Hr & Hd & He & Hc).
    rewrite (bind_eq _ _ _ _ _ Hr). destruct r as [k|].
    { destruct (set_hint_ok s d k Hok Hd He) as (s' & Hs & Hok' & Hsame & Hwf). rewrite (bind_eq _ _ _ _ _ Hs).
      exists k, s'. split; [done|]. split; [done|]. split; [done|]. split; [done|]. left. split; [lia|]. apply Hc. }
    destruct (Z.ltb_spec 2 h).
    + pose proof (fat32_ok_equiv s d Hok Hd He) as Hok1.
      destruct (scan_free_ok (with_dev s d) 2 (Z.to_nat (h - 2)) Hok1 ltac:(lia) ltac:(simpl; lia)) as (r & d2 & Hr2 & Hd2 & He2 & Hc2).
      rewrite (bind_eq _ _ _ _ _ Hr2).
      assert (dev_equiv (dev s) d2) as He' by (intros b m l; rewrite He2; apply He). destruct r as [k|].
      * destruct (set_hint_ok s d2 k Hok Hd2 He') as (s' & Hs & Hok' & Hsame & Hwf).
        change (with_dev (with_dev s d) d2) with (with_dev s d2). rewrite (bind_eq _ _ _ _ _ Hs).
        exists k, s'. split; [done|]. split; [done|]. split; [done|]. split; [done|]. left. destruct Hc2 as (Hk & Hz & _).
        rewrite fat_equiv in Hz by done. split; [lia|done].
      * exists INVALID_CLUSTER, (with_dev s d2). split; [done|]. split; [by apply fat32_ok_equiv|]. split; [by split_and!|]. split; [done|].
        right. split; [done|]. intros c Hcr. destruct (decide (h <= c)); [apply Hc; lia|].
        rewrite <- (fat_equiv s d) by done. apply Hc2. lia.
    + exists INVALID_CLUSTER, (with_dev s d). split; [done|]. split; [by apply fat32_ok_equiv|]. split; [by split_and!|]. split; [done|].
      right. split; [done|]. intros c Hcr. apply Hc. lia.
Qed.

(** [find_free_cluster] returns a cluster whose FAT entry is 0 and in range
    whenever there is one, wherever the FSInfo hint points, and INVALID_CLUSTER
    exactly when every cluster is in use; the disk is not changed. *)
Theorem find_free_cluster_ok s :
  fat32_ok s ->
  exists r s', find_free_cluster s = Some (r, s') /\ fat32_ok s' /\ same_volume s s' /\
    ((2 <= r < clusters s /\ fat s r = 0) \/
     (r = INVALID_CLUSTER /\ forall c, 2 <= c < clusters s -> fat s c <> 0)).
Proof.
  intros Hok. destruct (find_free_spec s Hok) as (r & s' & Hr & Hok' & Hsame & _ & Hcase). by exists r, s'.
Qed.

(** [allocate_new_cluster] takes the lowest free cluster and marks it as the end
    of a chain, leaving every other entry alone; without a free cluster it returns
    INVALID_CLUSTER and changes nothing on the disk. *)
Theorem allocate_new_cluster_ok s :
  fat32_ok s ->
  exists r s', allocate_new_cluster s = Some (r, s') /\ fat32_ok s' /\ boot_sector s' = boot_sector s /\
    ((r = INVALID_CLUSTER /\ (forall c, 2 <= c < clusters s -> fat s c <> 0) /\ same_volume s s') \/
     (2 <= r < clusters s /\ fat s r = 0 /\ (forall c, 2 <= c < r -> fat s c <> 0) /\
      forall c, 2 <= c < clusters s -> fat s' c = if c =? r then FAT32_EOC_MAX else fat s c)).
Proof.
  intros Hok. unfold allocate_new_cluster. rewrite gets_bind.
  destruct (Z.leb_spec (clusters s) 2) as [Hsm|Hbig].
  { replace (Z.to_nat (clusters s - 2)) with 0%nat by lia. exists INVALID_CLUSTER, s. split; [done|]. split; [done|].
    split; [done|]. left. split; [done|]. split; [lia|by split_and!]. }
  destruct (scan_free_ok s 2 (Z.to_nat (clusters s - 2)) Hok ltac:(lia) ltac:(lia)) as (r & d & Hr & Hd & He & Hc).
  rewrite (bind_eq _ _ _ _ _ Hr). pose proof (fat32_ok_equiv s d Hok Hd He) as Hok1. destruct r as [k|].
  - destruct Hc as (Hk & Hz & Hall). unfold write_fat_entry, fat_sector. 
    destruct (update_entry_ok (with_dev s d) k FAT32_EOC_MAX Hok1 ltac:(simpl; lia)) as (d1 & d2 & Hr1 & Hg & Hp & Hw & Hup).
    assert (write_fat_entry k FAT32_EOC_MAX (with_dev s d) = Some (true, with_dev (with_dev s d) d2)) as Hwf.
    { unfold write_fat_entry, fat_sector. rewrite gets_bind. unfold sector_array_ok. rewrite (ok_bps _ Hok1). cbn [Z.eqb Pos.eqb negb].
      fold (fat_start (with_dev s d)). rewrite (bind_eq _ _ _ _ _ Hr1), (lift_bind _ _ _ _ Hg), (lift_bind _ _ _ _ Hp). exact Hw. }
    rewrite (bind_eq _ _ _ _ _ Hwf). exists k, (with_dev (with_dev s d) d2). destruct Hup as [Hu1 Hu2 Hu3 Hu4 Hu5 Hu6 _ _].
    split; [done|]. split; [done|]. split; [done|]. right. split_and!; [lia|lia|done|done|].
    intros c Hcr. rewrite Hu4 by done. destruct (Z.eqb_spec c k); [done|]. by apply fat_equiv.
  - exists INVALID_CLUSTER, (with_dev s d). split; [done|]. split; [done|]. split; [done|]. left. split; [done|].
    split; [intros c Hcr; apply Hc; lia|by split_and!].
Qed.

(** *** Releasing chains *)

(** The clusters of [l] follow each other in the table [f]. *)
Fixpoint linked (f : Z -> Z) (l : list Z) : Prop :=
  match l with
  | x :: (y :: _) as l' => f x = y /\ linked f l'
  | _ => True
  end.

(** A list of different clusters of the volume is not longer than their number. *)
Lemma clusters_bound (l : list Z) (n : Z) :
  NoDup l -> Forall (fun c => 2 <= c < n) l -> Z.of_nat (length l) <= Z.max 0 (n - 2).
Proof.
  intros Hnd Hall.
  assert (length l <= length (seqZ 2 (n - 2)))%nat as Hle.
  { apply submseteq_length, NoDup_submseteq; [done|]. intros c Hc. apply elem_of_seqZ.
    rewrite Forall_forall in Hall. specialize (Hall c Hc). lia. }
  rewrite length_seqZ in Hle. lia.
Qed.

(** One round of the loop: the cluster is freed, and the walk goes on exactly if
    the next cluster is a cluster of the volume. *)
Lemma free_step s c fuel :
  fat32_ok s -> 2 <= c < clusters s ->
  exists s2, fat_updated s c 0 s2 /\
    free_chain_loop (S fuel) c s =
      if (2 <=? fat s c) && (fat s c <? clusters s) then free_chain_loop fuel (fat s c) s2 else Some (true, s2).
Proof.
  intros Hok Hc. destruct (get_next_ok s c Hok Hc) as (d & Hn & Hd & He).
  destruct (mark_ok (with_dev s d) c 0 (fat32_ok_equiv s d Hok Hd He) Hc) as (s2 & Hm & [H1 H2 H3 H4 H5 H6 H7 H8] & _).
  simpl boot_sector in *. exists s2. split.
  { split; try done. intros c' Hc'. rewrite H4 by done. by rewrite fat_equiv.
    intros lba Hl. rewrite H5 by done. by apply sec_equiv. }
  cbn [free_chain_loop]. rewrite (bind_eq _ _ _ _ _ Hn), (bind_eq _ _ _ _ _ Hm). cbn beta. cbn [negb].
  assert (0 <= fat s c < 2 ^ 28) as Hr by apply land_mask_range. pose proof (ok_cl s Hok).
  unfold FAT32_EOC_MIN, INVALID_CLUSTER, is_end_of_cluster_chain, FAT32_EOC_MIN, FAT32_EOC_MAX in *.
  destruct (Z.leb_spec 268435448 (fat s c)) as [Hb|Hb].
  - cbn [Z.eqb Pos.eqb orb]. destruct (Z.ltb_spec (fat s c) (clusters s)); [lia|]. by rewrite andb_false_r.
  - destruct (Z.eqb_spec (fat s c) 4294967295); [lia|]. destruct (Z.leb_spec 268435448 (fat s c)); [lia|].
    cbn [andb orb]. rewrite gets_bind, H2. unfold is_valid_cluster, FAT32_EOC_MIN.
    by zcase.
Qed.

(** What a run of the loop has done: the clusters [l] are released in addition to
    those of [visited]. *)
Definition released s0 (visited : list Z) (c : Z) (l : list Z) s' : Prop :=
  fat32_ok s' /\ NoDup (visited ++ l) /\ Forall (fun c => 2 <= c < clusters s0) l /\
  (forall c', 2 <= c' < clusters s0 -> fat s' c' = if bool_decide (c' ∈ visited ++ l) then 0 else fat s0 c') /\
  (c ∉ visited -> head l = Some c) /\ (c ∈ visited -> l = []) /\ linked (fat s0) l /\
  (forall x, last l = Some x -> ~ (2 <= fat s0 x < clusters s0 /\ fat s0 x ∉ visited ++ l)).

Lemma bool_decide_app (x : Z) (a b : list Z) :
  bool_decide (x ∈ a ++ b) = bool_decide (x ∈ a) || bool_decide (x ∈ b).
Proof. repeat case_bool_decide; set_solver. Qed.

Lemma free_chain_loop_ok s0 fuel s visited c :
  fat32_ok s -> boot_sector s = boot_sector s0 -> NoDup visited -> Forall (fun c => 2 <= c < clusters s0) visited ->
  (forall c', 2 <= c' < clusters s0 -> fat s c' = if bool_decide (c' ∈ visited) then 0 else fat s0 c') ->
  2 <= c < clusters s0 -> clusters s0 <= Z.of_nat fuel + Z.of_nat (length visited) ->
  exists l s', free_chain_loop fuel c s = Some (true, s') /\ released s0 visited c l s'.
Proof.
  revert s visited c. induction fuel as [|fuel IH]; intros s visited c Hok Hbs Hnd Hrng Hfat Hc Hfuel.
  { pose proof (clusters_bound visited (clusters s0) Hnd Hrng). lia. }
  destruct (free_step s c fuel Hok ltac:(rewrite Hbs; lia)) as (s2 & [Hok2 Hbs2 _ Hf2 _ _ _ _] & ->). rewrite Hbs in *.
  destruct (decide (c ∈ visited)) as [Hin|Hnin].
  { (* already released: the entry is 0 and the walk ends *)
    rewrite (Hfat c Hc), bool_decide_true by done. cbn [Z.leb andb]. exists [], s2. split; [done|].
    unfold released. rewrite app_nil_r. split_and!; [done|done|done| |done|done|done|done].
    intros c' Hc'. rewrite Hf2 by done. destruct (Z.eqb_spec c' c) as [->|]; [|by apply Hfat].
    by rewrite bool_decide_true. }
  assert (forall c', 2 <= c' < clusters s0 -> fat s2 c' = if bool_decide (c' ∈ visited ++ [c]) then 0 else fat s0 c') as Hfat2.
  { intros c' Hc'. rewrite Hf2, bool_decide_app by done. destruct (Z.eqb_spec c' c) as [->|Hne].
    - rewrite (bool_decide_true (c ∈ [c])) by set_solver. by rewrite orb_true_r.
    - rewrite (bool_decide_false (c' ∈ [c])) by set_solver. rewrite orb_false_r. by apply Hfat. }
  assert (NoDup (visited ++ [c])) as Hnd2 by (apply NoDup_app; split_and!; [done|set_solver|apply NoDup_singleton]).
  assert (Forall (fun c => 2 <= c < clusters s0) (visited ++ [c])) as Hrng2 by (apply Forall_app; split; [done|by constructor]).
  assert (fat s c = fat s0 c) as Hfc by (rewrite (Hfat c Hc); by rewrite bool_decide_false).
  rewrite Hfc. destruct ((2 <=? fat s0 c) && (fat s0 c <? clusters s0)) eqn:Ev.
  - assert (2 <= fat s0 c < clusters s0) as Hnx by lia.
    destruct (IH s2 (visited ++ [c]) (fat s0 c) Hok2 ltac:(congruence) Hnd2 Hrng2 Hfat2 Hnx ltac:(list_lia))
      as (l & s' & Hrun & Hok' & Hnd' & Hrng' & Hfat' & Hhd & Hnil & Hlk & Hlast).
    exists (c :: l), s'. split; [done|]. rewrite <- app_assoc in *. simpl app in *.
    unfold released. split_and!; try done.
    + by constructor.
    + destruct l as [|y l]; [done|]. split; [|done]. destruct (decide (fat s0 c ∈ visited ++ [c])) as [Hi|Hi].
      * by specialize (Hnil Hi).
      * specialize (Hhd Hi). simpl in Hhd. congruence.
    + intros x. destruct l as [|y l]; [|exact (Hlast x)]. intros [= <-] [_ Hn].
      destruct (decide (fat s0 c ∈ visited ++ [c])) as [Hi|Hi]; [done|]. by specialize (Hhd Hi).
  - exists [c], s2. split; [done|]. unfold released. split_and!; try done.
    + by constructor.
    + intros x [= <-] [Hr _]. lia.
Qed.

(** C35: [free_cluster_chain] always returns, also on a damaged table with a cycle,
    and releases exactly the chain: the clusters reached from the start by following
    the table, up to the first entry that is not a cluster of the volume or was
    reached before.  Their entries read 0 afterwards, all other entries are
    unchanged. *)
Theorem free_cluster_chain_ok s (c : Z) :
  fat32_ok s -> 2 <= c < clusters s ->
  exists l s', free_cluster_chain c s = Some (true, s') /\ fat32_ok s' /\
    head l = Some c /\ NoDup l /\ Forall (fun x => 2 <= x < clusters s) l /\ linked (fat s) l /\
    (forall x, last l = Some x -> ~ (2 <= fat s x < clusters s /\ fat s x ∉ l)) /\
    forall c', 2 <= c' < clusters s -> fat s' c' = if bool_decide (c' ∈ l) then 0 else fat s c'.
Proof.
  intros Hok Hc. unfold free_cluster_chain. rewrite gets_bind.
  assert (is_valid_cluster (boot_sector s) c = true) as ->.
  { unfold is_valid_cluster. destruct (Z.ltb_spec c 2); [lia|]. destruct (FAT32_EOC_MIN <=? c); [done|].
    by destruct (Z.leb_spec (clusters s) c); [lia|]. }
  cbn [negb].
  destruct (free_chain_loop_ok s (S (S (Z.to_nat (clusters s)))) s [] c) as (l & s' & Hrun & Hrel);
    [done|done|apply NoDup_nil_2|by apply Forall_nil|intros; by rewrite bool_decide_false by apply not_elem_of_nil|done|lia|].
  destruct Hrel as (H1 & H2 & H3 & H4 & H5 & _ & H6 & H7).
  exists l, s'. split; [exact Hrun|]. split_and!; try done. apply H5, not_elem_of_nil.
Qed.
End Fat32_props.

(** ** FSInfo on disk *)

(** Cutting a field out of a concatenation. *)
Lemma slice_app_skip (a b : buf) (i n : nat) : (length a <= i)%nat -> slice (a ++ b) i n = slice b (i - length a) n.
Proof. intros. unfold slice. by rewrite drop_app_ge. Qed.
Lemma slice_app_front (a b : buf) : slice (a ++ b) 0 (length a) = a.
Proof. unfold slice. rewrite drop_0. apply take_app_length. Qed.

Lemma le_word v (b : buf) : word_ok v -> le_get (slice (le_put 4 v ++ b) 0 4) = v.
Proof.
  intros Hv. pose proof (slice_app_front (le_put 4 v) b) as E. rewrite length_le_put in E.
  rewrite E, le_get_put. apply Z.mod_small. exact Hv.
Qed.

Lemma parse_fsinfo_bytes f : fsinfo_wf f -> parse_fsinfo (fsinfo_bytes f) = f.
Proof.
  destruct f as [ls r1 ss fc nf r2 ts]. intros (H1 & H2 & H3 & H4 & H5 & L1 & B1 & L2 & B2).
  unfold parse_fsinfo, fsinfo_bytes. simpl lead_signature in *. simpl struct_signature in *. simpl free_cluster_count in *.
  simpl next_free_cluster in *. simpl trail_signature in *. simpl fi_reserved1 in *. simpl fi_reserved2 in *.
  assert (forall v, length (le_put 4 v) = 4%nat) as L by (intros; apply length_le_put).
  f_equal; repeat (rewrite slice_app_skip by (rewrite ?L, ?L1, ?L2; lia)); rewrite ?L, ?L1, ?L2; cbn [Nat.sub];
    try (by apply le_word).
  - rewrite <- L1 at 1. apply slice_app_front.
  - rewrite <- L2 at 1. apply slice_app_front.
Qed.

Lemma fsinfo_bytes_ok f : fsinfo_wf f -> length (fsinfo_bytes f) = SECTOR_SIZE /\ bytes_ok (fsinfo_bytes f).
Proof.
  intros (_ & _ & _ & _ & _ & L1 & B1 & L2 & B2). unfold fsinfo_bytes. split.
  - rewrite !length_app, !length_le_put, L1, L2. done.
  - repeat (apply bytes_ok_app; split); auto with bytes.
Qed.

Section Fsinfo.
Context {D : Type} `{BD : BlockDev D}.

(** The write succeeds and changes one sector. *)
Lemma write_fsinfo_ok (s : fat32 D) :
  dev_ok (dev s) (drive_base s) -> ata_base_address s = drive_base s -> fsinfo_valid s = true -> fsinfo_wf (fsinfo s) ->
  let lba := partition_lba_offset s + fs_info (boot_sector s) in 0 <= lba < LBA_LIMIT ->
  exists d, write_fsinfo s = Some (true, with_dev s d) /\ dev_ok d (drive_base s) /\
    sec (with_dev s d) lba = fsinfo_bytes (fsinfo s) /\ forall k, k <> lba -> sec (with_dev s d) k = sec s k.
Proof.
  intros Hd Hb Hv Hwf lba Hl. destruct (fsinfo_bytes_ok _ Hwf) as [Hlen Hok].
  unfold write_fsinfo. rewrite gets_bind, Hv. cbn [negb]. rewrite !gets_bind. fold lba.
  rewrite wrap_small by (unfold LBA_LIMIT in Hl; lia).
  destruct (write_lba_ok s lba _ Hd Hb Hl Hlen Hok) as (d1 & Hw & Hd1 & Hs1 & Ho1).
  rewrite (bind_eq _ _ _ _ _ Hw). cbn [negb].
  destruct (read_lba_ok (with_dev s d1) lba Hd1 Hl) as (d2 & Hr & Hd2 & He2). rewrite (bind_eq _ _ _ _ _ Hr).
  rewrite Hs1, parse_fsinfo_bytes by done. rewrite !Z.eqb_refl. cbn [andb]. exists d2. split; [reflexivity|].
  split; [done|]. split.
  - rewrite <- Hs1. apply (sec_equiv (with_dev s d1)). exact He2.
  - intros k Hk. rewrite <- (Ho1 k Hk). apply (sec_equiv (with_dev s d1)). exact He2.
Qed.

(** Writing the FSInfo sector succeeds with its verification, and reading it
    back (as the next mount does) restores the same record and validates it. *)
Theorem fsinfo_write_read (s : fat32 D) :
  dev_ok (dev s) (drive_base s) -> ata_base_address s = drive_base s -> fsinfo_valid s = true -> fsinfo_wf (fsinfo s) ->
  0 <= partition_lba_offset s + fs_info (boot_sector s) < LBA_LIMIT ->
  lead_signature (fsinfo s) = 1096897106 -> struct_signature (fsinfo s) = 1631679090 ->
  trail_signature (fsinfo s) = 2857697280 ->
  exists s1, write_fsinfo s = Some (true, s1) /\
    forall junk valid, exists s2, read_fsinfo (with_fsinfo s1 junk valid) = Some (true, s2) /\
      fsinfo s2 = fsinfo s /\ fsinfo_valid s2 = true.
Proof.
  intros Hd Hb Hv Hwf Hl E1 E2 E3. destruct (write_fsinfo_ok s Hd Hb Hv Hwf Hl) as (d & Hw & Hd1 & Hs & _).
  exists (with_dev s d). split; [exact Hw|]. intros junk valid. unfold read_fsinfo. rewrite gets_bind.
  set (s1 := with_fsinfo _ junk valid). set (lba := partition_lba_offset s + fs_info (boot_sector s)) in *.
  change (partition_lba_offset s1 + fs_info (boot_sector s1)) with lba. rewrite wrap_small by (unfold LBA_LIMIT in Hl; lia).
  destruct (read_lba_ok s1 lba Hd1 Hl) as (d3 & Hr3 & _ & _). rewrite (bind_eq _ _ _ _ _ Hr3).
  change (sec s1 lba) with (sec (with_dev s d) lba). rewrite Hs.
  cbn beta iota. rewrite parse_fsinfo_bytes by done. rewrite modify_bind, E1, E2, E3, !Z.eqb_refl. cbn [negb orb].
  rewrite modify_bind. eexists. split; [reflexivity|]. done.
Qed.
End Fsinfo.

(** ** Witnesses *)

(** A volume with 100 clusters of one sector and two FATs, all entries free. *)
Definition bs100 : fat32_boot_sector := Mk_bs 512 1 2 2 0 104 1 2 1 41.
Definition fsinfo0 : fat32_fsinfo :=
  Mk_fsinfo 1096897106 (replicate 480 0) 1631679090 98 2 (replicate 12 0) 2857697280.
Definition vol100 : fat32 RamDisk := Mk_fat32 (Mk_ramdisk ∅ false) bs100 fsinfo0 true 2 496 true 0 496 true.

Lemma vol100_ok : fat32_ok vol100.
Proof. by split. Qed.

Lemma strict_init_always_fails_witness :
  exists d, fat32_init_fs true 496 true vol100 =
    Some (-1, with_boot (with_dev vol100 d) (parse_boot_sector (sector (dev vol100) 496 true 0))).
Proof. apply (strict_init_always_fails vol100 496 true). exact (ok_dev _ vol100_ok). Defined.

Lemma mark_cluster_in_fat_ok_witness :
  exists s', mark_cluster_in_fat 5 FAT32_EOC_MAX vol100 = Some (true, s') /\ fat s' 5 = FAT32_EOC_MAX.
Proof.
  destruct (mark_cluster_in_fat_ok vol100 5 FAT32_EOC_MAX vol100_ok ltac:(split; [lia|reflexivity])) as (s' & E & _ & _ & Hf & _).
  exists s'. split; [exact E|]. exact (Hf 5 ltac:(split; [lia|reflexivity])).
Defined.

Lemma find_free_cluster_ok_witness :
  exists r s', find_free_cluster vol100 = Some (r, s') /\ r = 2.
Proof.
  destruct (find_free_cluster_ok vol100 vol100_ok) as (r & s' & E & _). exists r, s'. split; [exact E|].
  assert (option_map fst (find_free_cluster vol100) = Some 2) as E2 by by vm_compute. rewrite E in E2. by injection E2.
Defined.

Lemma allocate_new_cluster_ok_witness :
  exists r s', allocate_new_cluster vol100 = Some (r, s') /\ r = 2.
Proof.
  destruct (allocate_new_cluster_ok vol100 vol100_ok) as (r & s' & E & _). exists r, s'. split; [exact E|].
  assert (option_map fst (allocate_new_cluster vol100) = Some 2) as E2 by by vm_compute. rewrite E in E2. by injection E2.
Defined.

Lemma free_cluster_chain_ok_witness :
  exists l s', free_cluster_chain 5 vol100 = Some (true, s') /\ head l = Some 5 /\ NoDup l.
Proof.
  destruct (free_cluster_chain_ok vol100 5 vol100_ok ltac:(split; [lia|reflexivity])) as (l & s' & E & _ & Hh & Hnd & _).
  exists l, s'. exact (conj E (conj Hh Hnd)).
Defined.

Lemma fsinfo_write_read_witness : exists s1, write_fsinfo vol100 = Some (true, s1).
Proof.
  destruct (fsinfo_write_read vol100) as (s1 & E & _); try done; try by vm_compute.
  - split_and!; try done; by apply Forall_replicate.
  - by exists s1.
Defined.
