(* ===== verification/Fat32Dir.v ===== *)
(** fs/fat32: names, time stamps, directories and files (fat32.c, fat32_cluster.c,
    fat32_dir.c, fat32_files.c).

    A directory entry is its 32 bytes.  The clock readings of the RTC driver and
    the success of memory allocations ([alloc_ok], by size) are parameters, as are the
    initial contents of an array of a given size on the stack ([fresh]).  Texts
    printed to the console are left out; a directory listing is the list of the
    rows printed.  A chain walk that does not end runs out of fuel ([undef]). *)

From stdpp Require Import strings.
From S2P Require Import Prelude CString CStdio Effects BlockDev Fat32Fat.

(** ** 8.3 names *)

(** The first loop of [compare_names]: name part against [regular], the position
    [j] reached; [None] inside: mismatch. *)
Definition same_char (a b : Z) : bool := toupper (s8 a) =? toupper (s8 b).

Fixpoint compare_part (stop_dot : bool) (fat : buf) (regular : buf) (j : Z) : option (option Z) :=
  match fat with
  | [] => Some (Some j)
  | f :: fat' =>
      c ← rd regular j;
      if (c =? 0) || (stop_dot && (c =? 46)) then
        if negb (f =? 32) then Some None else compare_part stop_dot fat' regular j
      else if negb (same_char f c) then Some None else compare_part stop_dot fat' regular (j + 1)
  end.

Definition compare_names (fat_name regular_name : buf) : option Z :=
  r ← compare_part true (slice fat_name 0 8) regular_name 0;
  match r with
  | None => Some (-1)
  | Some j =>
      c ← rd regular_name j;
      let j := if c =? 46 then j + 1 else j in
      r ← compare_part false (slice fat_name 8 3) regular_name j;
      match r with
      | None => Some (-1)
      | Some j => c ← rd regular_name j; Some (if c =? 0 then 0 else -1)
      end
  end.

(** The copy loops of [convert_to_83_format]: at most [room] alphanumeric characters,
    in upper case, up to the end (or a dot); with the rest of the source. *)
Fixpoint conv_part (stop_dot : bool) (room : nat) (src : buf) : option (buf * buf) :=
  match src with
  | [] => None
  | c :: src' =>
      if (c =? 0) || (stop_dot && (c =? 46)) then Some ([], src) else
      match room with
      | O => Some ([], src)
      | S room' =>
          if isalnum c then '(out, rest) ← conv_part stop_dot room' src'; Some (u8 (toupper c) :: out, rest)
          else conv_part stop_dot room src'
      end
  end.

(** [while (src[i] != 0 && src[i] != '.') i++] *)
Fixpoint skip_to_dot (src : buf) : option buf :=
  match src with
  | [] => None
  | c :: src' => if (c =? 0) || (c =? 46) then Some src else skip_to_dot src'
  end.

(** The 11 bytes of the name. *)
Definition convert_to_83_format (src : buf) : option buf :=
  let dest := replicate 11 32 in
  dot ← strcmp src (lit ".");
  if dot =? 0 then Some (<[0%nat := 46]> dest) else
  dotdot ← strcmp src (lit "..");
  if dotdot =? 0 then Some (<[1%nat := 46]> (<[0%nat := 46]> dest)) else
  '(name, rest) ← conv_part true 8 src;
  rest ← skip_to_dot rest;
  let dest := blit dest 0 name in
  match rest with
  | c :: rest' =>
      if c =? 46 then '(ext, _) ← conv_part false 3 rest'; Some (blit dest 8 ext) else Some dest
  | [] => None
  end.

(** [for (i = n - 1; i >= 0 && s[i] == ' '; i--) s[i] = 0] *)
Fixpoint trim_spaces_back (s : buf) (n : nat) : buf :=
  match n with
  | O => s
  | S k => if bool_decide (s !! k = Some 32) then trim_spaces_back (<[k := 0]> s) k else s
  end.

(** [output] is the caller's [char[13]]. *)
Definition format_filename (output name : buf) : option buf :=
  filename ← strncpy (replicate 9 0) name 8;
  let filename := trim_spaces_back filename 8 in
  extension ← strncpy (replicate 4 0) (drop 8 name) 3;
  let extension := trim_spaces_back extension 3 in
  len ← strlen extension;
  if 0 <? len
  then option_map snd (snprintf output 13 (lit "%s.%s") [VStr (Some filename); VStr (Some extension)])
  else option_map snd (snprintf output 9 (lit "%s") [VStr (Some filename)]).

(** ** Time stamps *)

Record rtc := Mk_rtc { year : Z; month : Z; day : Z; hours : Z; minutes : Z; seconds : Z }.

(** The packed time and date for a clock reading. *)
Definition fat32_time (t : rtc) : Z :=
  u16 (Z.lor (Z.lor (Z.shiftl (hours t) 11) (Z.shiftl (minutes t) 5)) (Z.quot (seconds t) 2)).
Definition fat32_date (t : rtc) : Z :=
  let fat_year := year t - 1980 in
  let fat_year := if fat_year <? 0 then 0 else fat_year in
  let fat_year := if 127 <? fat_year then 127 else fat_year in
  u16 (Z.lor (Z.lor (Z.shiftl fat_year 9) (Z.shiftl (month t) 5)) (day t)).

(** [set_fat32_time]: the values stored through the non-NULL pointers. *)
Definition set_fat32_time (t : rtc) (time date : option Z) : option Z * option Z :=
  (match time with Some _ => Some (fat32_time t) | None => None end,
   match date with Some _ => Some (fat32_date t) | None => None end).

Definition extract_fat32_date (fat_date : Z) : Z * Z * Z :=
  (Z.land fat_date 31, Z.land (Z.shiftr fat_date 5) 15, Z.land (Z.shiftr fat_date 9) 127 + 1980).
Definition extract_fat32_time (fat_time : Z) : Z * Z * Z :=
  (Z.land (Z.shiftr fat_time 11) 31, Z.land (Z.shiftr fat_time 5) 63, Z.land fat_time 31 * 2).

(** ** Directory entries *)

Definition ATTR_DIRECTORY : Z := 16.
Definition ENTRY : nat := 32.

Definition e_first (e : buf) : Z := le_get (slice e 0 1).
Definition e_attr (e : buf) : Z := le_get (slice e 11 1).
Definition e_high (e : buf) : Z := le_get (slice e 20 2).
Definition e_write_time (e : buf) : Z := le_get (slice e 22 2).
Definition e_write_date (e : buf) : Z := le_get (slice e 24 2).
Definition e_low (e : buf) : Z := le_get (slice e 26 2).
Definition e_size (e : buf) : Z := le_get (slice e 28 4).

(** Entry [j] of a buffer of entries. *)
Definition entry_at (b : buf) (j : nat) : buf := slice b (j * ENTRY) ENTRY.

Definition read_start_cluster (e : buf) : Z := Z.lor (Z.shiftl (e_high e) 16) (e_low e).

(** The entry for a new file or directory; [clock k] is the [k]-th reading of the
    clock, and [set_fat32_time] is called three times. *)
Definition create_directory_entry (name : buf) (cluster attributes : Z) (clock : nat -> rtc) : option buf :=
  let '(t1, t2, t3) := (clock 0%nat, clock 1%nat, clock 2%nat) in
  n ← convert_to_83_format name;
  Some (n ++ le_put 1 attributes ++ [0] ++ [0] ++ le_put 2 (fat32_time t1) ++ le_put 2 (fat32_date t1) ++
        le_put 2 (fat32_date t2) ++ le_put 2 (Z.land (Z.shiftr cluster 16) 65535) ++ le_put 2 (fat32_time t3) ++
        le_put 2 (fat32_date t3) ++ le_put 2 (Z.land cluster 65535) ++ le_put 4 0).

Definition initialize_new_directory_entries (entries : buf) (new_dir_cluster parent_cluster : Z)
    (clock : nat -> rtc) : option buf :=
  e0 ← create_directory_entry (lit ".") new_dir_cluster ATTR_DIRECTORY clock;
  e1 ← create_directory_entry (lit "..") parent_cluster ATTR_DIRECTORY (fun k => clock (3 + k)%nat);
  if (length entries <? 2 * ENTRY)%nat then None else Some (blit (blit entries 0 e0) ENTRY e1).

(** Entries that the searches skip: deleted ones and long-name parts. *)
Definition skipped (e : buf) : bool := (e_first e =? 229) || (Z.land (e_attr e) 15 =? 15).

(** ** Searching a buffer of entries *)

Inductive scan := ScanEnd | ScanFound (e : buf) | ScanMore.

(** The scan of [n] entries from [j] on for a name; [dirs_only] restricts the match to
    directories. *)
Fixpoint scan_entries (dirs_only : bool) (b : buf) (name : buf) (j n : nat) : option scan :=
  match n with
  | O => Some ScanMore
  | S n' =>
      let e := entry_at b j in
      if e_first e =? 0 then Some ScanEnd
      else if skipped e then scan_entries dirs_only b name (S j) n'
      else if dirs_only && (Z.land (e_attr e) 16 =? 0) then scan_entries dirs_only b name (S j) n'
      else c ← compare_names (slice e 0 11) name;
           if c =? 0 then Some (ScanFound e) else scan_entries dirs_only b name (S j) n'
  end.

Section Dir.
Context {D : Type} `{BlockDev D} (alloc_ok : Z -> bool) (fresh : nat -> buf).
Abbreviation F := (M (fat32 D)).

(** The sectors of one cluster in [find_next_cluster]; [None] inside: go on to the
    next cluster of the chain. *)
Fixpoint find_in_sectors (dir_name : buf) (sector : Z) (n : nat) : F (option Z) :=
  match n with
  | O => mret None
  | S n' =>
      r ← read_lba (u32 sector);
      match r with
      | None => mret (Some INVALID_CLUSTER)
      | Some b =>
          sc ← lift (scan_entries true b dir_name 0 16);
          match sc with
          | ScanEnd => mret (Some INVALID_CLUSTER)
          | ScanFound e => mret (Some (read_start_cluster e))
          | ScanMore => find_in_sectors dir_name (sector + 1) n'
          end
      end
  end.

Fixpoint find_next_cluster (fuel : nat) (dir_name : buf) (current_cluster : Z) : F Z :=
  match fuel with
  | O => undef
  | S fuel' =>
      bs ← gets boot_sector;
      part ← gets partition_lba_offset;
      r ← find_in_sectors dir_name (cluster_to_sector bs part current_cluster) (Z.to_nat (sectors_per_cluster bs));
      match r with
      | Some c => mret c
      | None =>
          next ← get_next_cluster_in_chain current_cluster;
          if next <? FAT32_EOC_MIN then find_next_cluster fuel' dir_name next else mret INVALID_CLUSTER
      end
  end.

(** All sectors of a cluster into one buffer; [None]: a read failed. *)
Fixpoint read_all (sector : Z) (n : nat) : F (option buf) :=
  match n with
  | O => mret (Some [])
  | S n' =>
      r ← read_lba (u32 sector);
      match r with
      | None => mret None
      | Some b => rest ← read_all (sector + 1) n'; mret (option_map (app b) rest)
      end
  end.

(** A printed row: name, whether it is a directory, size, date and time. *)
Record row := Mk_row { row_name : buf; row_dir : bool; row_size : Z; row_date : Z * Z * Z; row_time : Z * Z * Z }.

Fixpoint list_rows (b : buf) (j n : nat) : option (list row) :=
  match n with
  | O => Some []
  | S n' =>
      let e := entry_at b j in
      if e_first e =? 0 then Some []
      else if skipped e then list_rows b (S j) n'
      else name ← format_filename (replicate 13 0) (slice e 0 11);
           rest ← list_rows b (S j) n';
           Some (Mk_row name (negb (Z.land (e_attr e) 16 =? 0)) (e_size e)
                   (extract_fat32_date (e_write_date e)) (extract_fat32_time (e_write_time e)) :: rest)
  end.

(** The rows printed; none when a sector cannot be read. *)
Definition read_cluster_dir_entries (current_cluster : Z) : F (list row) :=
  bs ← gets boot_sector;
  part ← gets partition_lba_offset;
  let spc := Z.to_nat (sectors_per_cluster bs) in
  b ← read_all (cluster_to_sector bs part current_cluster) spc;
  match b with None => mret [] | Some b => lift (list_rows b 0 (spc * 16)) end.

(** The walk over the components of a path, which [strtok_r] cuts out of
    [temp_path]; [None] inside: a component was not found.  [chain] bounds the walk
    along one directory's clusters. *)
Fixpoint walk_path (fuel chain : nat) (temp_path : buf) (str : option Z) (saveptr : Z) (cluster : Z) : F (option Z) :=
  match fuel with
  | O => undef
  | S fuel' =>
      '(tok, temp_path, saveptr) ← lift (strtok_r temp_path str (lit "/") saveptr);
      match tok with
      | None => mret (Some cluster)
      | Some p =>
          c ← find_next_cluster chain (from temp_path p) cluster;
          if c =? INVALID_CLUSTER then mret None
          else walk_path fuel' chain temp_path None saveptr c
      end
  end.

(** [temp_path] with the path copied into it. *)
Definition copy_path (path : buf) : option buf :=
  t ← strncpy (replicate 256 0) path 255; wr t 255 0.

(** The rows printed, or [None] for a path that does not exist.  A path of at most
    255 characters has fewer than 256 components. *)
Definition fat32_read_dir (chain : nat) (path : buf) : F (option (list row)) :=
  temp_path ← lift (copy_path path);
  c0 ← lift (rd temp_path 0);
  root ← gets (fun s => root_cluster (boot_sector s));
  target ← walk_path 256 chain temp_path (Some (if c0 =? 47 then 1 else 0)) 0 root;
  match target with
  | None => mret None
  | Some c => rows ← read_cluster_dir_entries c; mret (Some rows)
  end.

Definition fat32_change_directory (chain : nat) (path : buf) : F bool :=
  temp_path ← lift (copy_path path);
  c0 ← lift (rd temp_path 0);
  start ← gets (fun s => if c0 =? 47 then root_cluster (boot_sector s) else current_directory_cluster s);
  target ← walk_path 256 chain temp_path (Some (if c0 =? 47 then 1 else 0)) 0 start;
  match target with
  | None => mret false
  | Some c => _ ← modify (fun s => with_cwd s c); mret true
  end.

(** ** Changing directories *)

(** The first free or deleted entry of [n] from [j] on. *)
Fixpoint free_entry (b : buf) (j n : nat) : option nat :=
  match n with
  | O => None
  | S n' => if (e_first (entry_at b j) =? 0) || (e_first (entry_at b j) =? 229) then Some j
            else free_entry b (S j) n'
  end.

(** The loop over the clusters of the directory.  The buffer keeps its contents from
    one round to the next; after the extension branch the loop goes round again with
    [entry_added] set. *)
Fixpoint add_entry_loop (fuel : nat) (parent : Z) (new_entry entries : buf) (epc : nat) (current : Z)
    (entry_added : bool) : F bool :=
  match fuel with
  | O => undef
  | S fuel' =>
      if FAT32_EOC_MIN <=? current then mret entry_added else
      entries ← read_cluster current entries;
      match free_entry entries 0 epc with
      | Some i =>
          _ ← write_cluster current (Some (blit entries (i * ENTRY) new_entry));
          mret true
      | None =>
          if entry_added then mret true else
          next ← get_next_cluster_in_chain current;
          if is_end_of_cluster_chain next then
            c ← allocate_new_cluster;
            if c =? INVALID_CLUSTER then mret false else
            ok ← mark_cluster_in_fat parent c;
            if negb ok then mret false else
            let entries := blit (replicate (epc * ENTRY) 0) 0 new_entry in
            _ ← write_cluster c (Some entries);
            add_entry_loop fuel' parent new_entry entries epc c true
          else add_entry_loop fuel' parent new_entry entries epc next false
      end
  end.

Definition add_entry_to_directory (fuel : nat) (parent_cluster : Z) (dirname : buf) (new_cluster attributes : Z)
    (clock : nat -> rtc) : F bool :=
  new_entry ← lift (create_directory_entry dirname new_cluster attributes clock);
  bs ← gets boot_sector;
  let epc := Z.to_nat (get_entries_per_cluster bs) in
  add_entry_loop fuel parent_cluster new_entry (fresh (epc * ENTRY)) epc parent_cluster false.

(** The position of an entry equal to [entry]. *)
Fixpoint same_entry (b entry : buf) (j n : nat) : option nat :=
  match n with
  | O => None
  | S n' => if bool_decide (entry_at b j = entry) then Some j else same_entry b entry (S j) n'
  end.

Fixpoint remove_entry_loop (fuel : nat) (entry entries : buf) (epc : nat) (current : Z) : F bool :=
  match fuel with
  | O => undef
  | S fuel' =>
      if FAT32_EOC_MIN <=? current then mret false else
      entries ← read_cluster current entries;
      match same_entry entries entry 0 epc with
      | Some i =>
          _ ← write_cluster current (Some (blit entries (i * ENTRY) (replicate ENTRY 0)));
          mret true
      | None =>
          next ← get_next_cluster_in_chain current;
          remove_entry_loop fuel' entry entries epc next
      end
  end.

Definition remove_entry_from_directory (fuel : nat) (parent_cluster : Z) (entry : buf) : F bool :=
  bs ← gets boot_sector;
  let epc := Z.to_nat (get_entries_per_cluster bs) in
  remove_entry_loop fuel entry (fresh (epc * ENTRY)) epc parent_cluster.

(** [entries[i].name[1]] *)
Definition e_second (e : buf) : Z := le_get (slice e 1 1).

Fixpoint empty_entries (b : buf) (j n : nat) : bool :=
  match n with
  | O => true
  | S n' =>
      let e := entry_at b j in
      if e_first e =? 0 then true
      else if skipped e || (e_first e =? 46) || (e_second e =? 46) then empty_entries b (S j) n'
      else false
  end.

(** The array holds one sector: more than one sector per cluster overflows it. *)
Definition is_directory_empty (entry : buf) : F bool :=
  bs ← gets boot_sector;
  part ← gets partition_lba_offset;
  if negb (sectors_per_cluster bs =? 1) then undef else
  r ← read_lba (cluster_to_sector bs part (read_start_cluster entry));
  match r with None => undef | Some b => mret (empty_entries b 0 16) end.

(** ** Files *)

(** The sectors of the current directory's cluster are read and its entries compared. *)
Definition search_directory (filename : buf) : F (option buf) :=
  bs ← gets boot_sector;
  part ← gets partition_lba_offset;
  cwd ← gets current_directory_cluster;
  let spc := Z.to_nat (sectors_per_cluster bs) in
  b ← read_all (cluster_to_sector bs part cwd) spc;
  match b with
  | None => mret None
  | Some b =>
      sc ← lift (scan_entries false b filename 0 (spc * 16));
      mret (match sc with ScanFound e => Some e | _ => None end)
  end.

(** The entry that is returned is a copy; the store of allocated structures is that of the
    VFS adapter, whose [find_file_object] is this search with its [malloc]s and [free]s. *)
Definition find_file_in_directory (filename : buf) : F (option buf) :=
  bs ← gets boot_sector;
  if negb (alloc_ok (512 * sectors_per_cluster bs)) then mret None else
  e ← search_directory filename;
  match e with
  | None => mret None
  | Some e => mret (if alloc_ok 32 then Some e else None)
  end.

Definition fat32_create_file (fuel : nat) (filename : buf) (clock : nat -> rtc) : F bool :=
  c ← find_free_cluster;
  if c =? INVALID_CLUSTER then mret false else
  ok ← mark_cluster_in_fat c FAT32_EOC_MAX;
  if negb ok then mret false else
  cwd ← gets current_directory_cluster;
  ok ← add_entry_to_directory fuel cwd filename c 0 clock;
  if negb ok then _ ← mark_cluster_in_fat c 0; mret false else
  _ ← write_fsinfo; mret true.

Definition fat32_create_dir (fuel : nat) (dirname : buf) (clock : nat -> rtc) : F bool :=
  c ← find_free_cluster;
  if c =? INVALID_CLUSTER then mret false else
  ok ← mark_cluster_in_fat c FAT32_EOC_MAX;
  if negb ok then mret false else
  bs ← gets boot_sector;
  cwd ← gets current_directory_cluster;
  entries ← lift (initialize_new_directory_entries (replicate (Z.to_nat (get_entries_per_cluster bs) * ENTRY) 0) c cwd clock);
  ok ← write_cluster c (Some entries);
  if negb ok then _ ← mark_cluster_in_fat c 0; mret false else
  ok ← add_entry_to_directory fuel cwd dirname c ATTR_DIRECTORY (fun k => clock (6 + k)%nat);
  if negb ok then _ ← mark_cluster_in_fat c 0; mret false else
  _ ← write_fsinfo; mret true.

Definition fat32_delete_file (fuel : nat) (filename : buf) : F bool :=
  e ← find_file_in_directory filename;
  match e with
  | None => mret false
  | Some e =>
      ok ← free_cluster_chain (read_start_cluster e);
      if negb ok then mret false else
      cwd ← gets current_directory_cluster;
      ok ← remove_entry_from_directory fuel cwd e;
      if negb ok then mret false else _ ← write_fsinfo; mret true
  end.

Definition fat32_delete_dir (fuel : nat) (dirname : buf) : F bool :=
  e ← find_file_in_directory dirname;
  match e with
  | None => mret false
  | Some e =>
      empty ← is_directory_empty e;
      if negb empty then mret false else
      ok ← free_cluster_chain (read_start_cluster e);
      if negb ok then mret false else
      cwd ← gets current_directory_cluster;
      ok ← remove_entry_from_directory fuel cwd e;
      if negb ok then mret false else _ ← write_fsinfo; mret true
  end.

(** The inner loop of [read_file_data]: the bytes appended to [out], and whether a
    read failed.  [out] is what was stored in the caller's buffer so far. *)
Fixpoint read_file_sectors (sector : Z) (n : nat) (out : buf) (buffer_size bytes_to_read : Z) : F (buf * bool) :=
  match n with
  | O => mret (out, true)
  | S n' =>
      let total := Z.of_nat (length out) in
      let remaining := bytes_to_read - total in
      let now := if remaining <? 512 then remaining else 512 in
      if (buffer_size <? u32 (total + now)) && (buffer_size <=? total) then mret (out, true) else
      let now := if buffer_size <? u32 (total + now) then buffer_size - total else now in
      if now =? 0 then mret (out, true) else
      r ← read_lba (u32 sector);
      match r with
      | None => mret (out, false)
      | Some b =>
          let out := out ++ take (Z.to_nat now) b in
          if bytes_to_read <=? Z.of_nat (length out) then mret (out, true)
          else read_file_sectors (sector + 1) n' out buffer_size bytes_to_read
      end
  end.

Fixpoint read_file_loop (fuel : nat) (cluster : Z) (out : buf) (buffer_size bytes_to_read : Z) : F buf :=
  match fuel with
  | O => undef
  | S fuel' =>
      if bytes_to_read <=? Z.of_nat (length out) then mret out else
      bs ← gets boot_sector;
      part ← gets partition_lba_offset;
      '(out, ok) ← read_file_sectors (cluster_to_sector bs part cluster) (Z.to_nat (sectors_per_cluster bs))
                     out buffer_size bytes_to_read;
      if negb ok then mret out else
      next ← get_next_cluster_in_chain cluster;
      if is_end_of_cluster_chain next || (next =? INVALID_CLUSTER) then mret out
      else read_file_loop fuel' next out buffer_size bytes_to_read
  end.

(** The bytes stored at the start of the buffer; their number is the result. *)
Definition read_file_data (fuel : nat) (start_cluster : Z) (buffer_ok : bool) (buffer_size bytes_to_read : Z) : F buf :=
  if negb buffer_ok || (buffer_size =? 0) || (bytes_to_read =? 0) then mret [] else
  read_file_loop fuel start_cluster [] buffer_size bytes_to_read.

(** The inner loop of [read_file_data_to_address]: whole sectors. *)
Fixpoint load_sectors (sector : Z) (n : nat) (out : buf) (file_size : Z) : F (buf * bool) :=
  match n with
  | O => mret (out, true)
  | S n' =>
      r ← read_lba (u32 sector);
      match r with
      | None => mret (out, false)
      | Some b =>
          let out := out ++ b in
          if file_size <=? u32 (Z.of_nat (length out)) then mret (out, true)
          else load_sectors (sector + 1) n' out file_size
      end
  end.

Fixpoint load_loop (fuel : nat) (cluster : Z) (out : buf) (file_size : Z) : F buf :=
  match fuel with
  | O => undef
  | S fuel' =>
      if file_size <=? u32 (Z.of_nat (length out)) then mret out else
      bs ← gets boot_sector;
      part ← gets partition_lba_offset;
      if negb (is_valid_cluster bs cluster) then mret out else
      '(out, ok) ← load_sectors (cluster_to_sector bs part cluster) (Z.to_nat (sectors_per_cluster bs)) out file_size;
      if negb ok then mret out else
      next ← get_next_cluster_in_chain cluster;
      if is_end_of_cluster_chain next then mret out else load_loop fuel' next out file_size
  end.

(** The bytes stored at the load address. *)
Definition read_file_data_to_address (fuel : nat) (start_cluster file_size : Z) : F buf :=
  if file_size =? 0 then mret [] else
  bs ← gets boot_sector;
  if sectors_per_cluster bs =? 0 then mret [] else
  load_loop fuel start_cluster [] file_size.

Definition fat32_load_file (fuel : nat) (filename : buf) : F buf :=
  bs ← gets boot_sector;
  if (bytes_per_sector bs =? 0) || (sectors_per_cluster bs =? 0) then mret [] else
  e ← find_file_in_directory filename;
  match e with
  | None => mret []
  | Some e => if read_start_cluster e <? 2 then mret []
              else read_file_data_to_address fuel (read_start_cluster e) (e_size e)
  end.

(** An open file. *)
Record FILE := Mk_FILE { f_position : Z; f_size : Z; f_mode : buf; f_name : buf; f_start_cluster : Z }.

Definition fat32_open_file (filename mode : buf) : F (option FILE) :=
  e ← find_file_in_directory filename;
  match e with
  | None => mret None
  | Some e => if alloc_ok 28 then mret (Some (Mk_FILE 0 (e_size e) mode filename (read_start_cluster e))) else mret None
  end.

(** The position is not advanced. *)
Definition fat32_read_file (fuel : nat) (file : FILE) (buffer_size bytes_to_read : Z) : F buf :=
  c ← lift (strcmp (f_mode file) (lit "w"));
  if c =? 0 then mret [] else
  let n := if f_size file <? u32 (f_position file + bytes_to_read) then u32 (f_size file - f_position file)
           else bytes_to_read in
  read_file_data fuel (f_start_cluster file) true buffer_size n.
End Dir.

(** * Names *)

Definition alnum (c : Z) : Prop := isalnum c = true.
(** A name whose base and extension consist of letters and digits; it is stored
    without loss when they have at most 8 and 3 of them. *)
Definition dos_name (b e : buf) : Prop :=
  Forall alnum b /\ Forall alnum e /\ (0 < length b <= 8)%nat /\ (length e <= 3)%nat.
Definition name_str (b e : buf) : buf := b ++ (match e with [] => [] | _ => 46 :: e end) ++ [0].
Definition upper (s : buf) : buf := map toupper s.

Lemma alnum_range c : alnum c -> 48 <= c <= 122 /\ 48 <= toupper c <= 90 /\ u8 (toupper c) = toupper c /\ c <> 46.
Proof.
  unfold alnum, isalnum, toupper. intros Ha. assert (48 <= c <= 122) as Hc by (zcase; lia).
  assert (48 <= (if (97 <=? c) && (c <=? 122) then c - 97 + 65 else c) <= 90) as Hu by (zcase; lia).
  split; [done|]. split; [done|]. split; [apply wrap_small; lia|]. intros ->. done.
Qed.

Lemma same_char_upper a c : alnum a -> alnum c -> same_char (toupper a) c = (toupper a =? toupper c).
Proof.
  intros Ha Hc. destruct (alnum_range a Ha) as (Ra & Rua & _). destruct (alnum_range c Hc) as (Rc & _).
  unfold same_char. rewrite !swrap_small by lia. f_equal. revert Rua. unfold toupper. zcase; lia.
Qed.

Lemma conv_part_spec stop w room tail t :
  Forall alnum w -> (length w <= room)%nat -> (t = 0 \/ (stop = true /\ t = 46)) ->
  conv_part stop room (w ++ t :: tail) = Some (upper w, t :: tail).
Proof.
  intros Hw. revert room. induction Hw as [|c w Hc Hw IH]; intros room Hr Ht; cbn [conv_part app].
  - assert ((t =? 0) || (stop && (t =? 46)) = true) as -> by (destruct Ht as [->|[-> ->]]; done). done.
  - destruct (alnum_range c Hc) as (Rc & _ & Hu & Hd). destruct (Z.eqb_spec c 0); [lia|]. destruct (Z.eqb_spec c 46); [lia|].
    rewrite andb_false_r. cbn [orb]. destruct room as [|room]; [simpl in Hr; lia|]. unfold alnum in Hc. rewrite Hc.
    rewrite IH by (done || simpl in Hr; lia). cbn [mbind option_bind]. by rewrite Hu.
Qed.

Lemma compare_spaces stop k pre t tail :
  (t = 0 \/ (stop = true /\ t = 46)) ->
  compare_part stop (replicate k 32) (pre ++ t :: tail) (Z.of_nat (length pre)) = Some (Some (Z.of_nat (length pre))).
Proof.
  intros Ht. induction k as [|k IH]; [done|]. cbn [replicate compare_part]. rewrite rd_app. cbn [mbind option_bind].
  assert ((t =? 0) || (stop && (t =? 46)) = true) as -> by (destruct Ht as [->|[-> ->]]; done). exact IH.
Qed.

Lemma compare_part_spec stop w1 w2 k pre t tail :
  Forall alnum w1 -> Forall alnum w2 -> (length w2 <= length w1 + k)%nat -> (t = 0 \/ (stop = true /\ t = 46)) ->
  compare_part stop (upper w1 ++ replicate k 32) (pre ++ w2 ++ t :: tail) (Z.of_nat (length pre)) =
    Some (if bool_decide (upper w1 = upper w2) then Some (Z.of_nat (length (pre ++ w2))) else None).
Proof.
  intros H1. revert w2 pre. induction H1 as [|a w1 Ha H1 IH]; intros w2 pre H2 Hl Ht.
  - destruct H2 as [|c w2 Hc H2].
    + rewrite app_nil_r, bool_decide_true by done. by apply compare_spaces.
    + rewrite bool_decide_false by done. destruct k as [|k]; [simpl in Hl; lia|]. cbn [upper map app replicate compare_part].
      rewrite rd_app. cbn [mbind option_bind]. destruct (alnum_range c Hc) as (Rc & Ru & _ & Hd).
      destruct (Z.eqb_spec c 0); [lia|]. destruct (Z.eqb_spec c 46); [lia|]. rewrite andb_false_r. cbn [orb].
      unfold same_char. rewrite !swrap_small by lia. change (toupper 32) with 32.
      destruct (Z.eqb_spec 32 (toupper c)); [lia|]. done.
  - destruct (alnum_range a Ha) as (Ra & Rua & _ & _). destruct H2 as [|c w2 Hc H2].
    + rewrite bool_decide_false by done. cbn [upper map app compare_part]. rewrite rd_app. cbn [mbind option_bind].
      assert ((t =? 0) || (stop && (t =? 46)) = true) as -> by (destruct Ht as [->|[-> ->]]; done).
      destruct (Z.eqb_spec (toupper a) 32); [lia|]. done.
    + cbn [upper map app compare_part]. rewrite rd_app. cbn [mbind option_bind].
      destruct (alnum_range c Hc) as (Rc & _ & _ & Hd). destruct (Z.eqb_spec c 0); [lia|]. destruct (Z.eqb_spec c 46); [lia|].
      rewrite andb_false_r. cbn [orb]. rewrite same_char_upper by done.
      destruct (Z.eqb_spec (toupper a) (toupper c)) as [E|E]; cbn [negb].
      * replace (Z.of_nat (length pre) + 1) with (Z.of_nat (length (pre ++ [c]))) by list_lia.
        replace (pre ++ c :: w2 ++ t :: tail) with ((pre ++ [c]) ++ w2 ++ t :: tail) by (by rewrite <- app_assoc).
        fold (upper w1) (upper w2). rewrite IH by (done || (simpl in Hl; lia)). rewrite <- app_assoc. simpl app.
        f_equal. assert (bool_decide (upper w1 = upper w2) = bool_decide (toupper a :: upper w1 = toupper c :: upper w2)) as ->.
        { apply bool_decide_ext. split; [congruence|]. by intros [=]. }
        done.
      * rewrite bool_decide_false; [done|]. intros [=]. done.
Qed.

(** The stored form of a name. *)
Definition stored (b e : buf) : buf :=
  upper b ++ replicate (8 - length b) 32 ++ upper e ++ replicate (3 - length e) 32.

Lemma length_upper s : length (upper s) = length s.
Proof. apply length_map. Qed.

Lemma strcmp_head c1 c2 x y : c1 <> c2 -> strcmp (c1 :: x) (c2 :: y) = Some (c1 - c2).
Proof. intros Hne. cbn [strcmp]. destruct (Z.eqb_spec c1 c2); [done|]. by rewrite andb_false_r. Qed.

Lemma convert_to_83_ok b e : dos_name b e -> convert_to_83_format (name_str b e) = Some (stored b e).
Proof.
  intros (Hb & He & Hlb & Hle). unfold convert_to_83_format.
  assert (exists c b', b = c :: b' /\ 48 <= c) as (c & b' & Ec & Hc).
  { destruct Hb as [|c b' Hc Hb']; [simpl in Hlb; lia|]. exists c, b'. split; [done|]. by apply alnum_range. }
  assert (strcmp (name_str b e) (lit ".") = Some (c - 46)) as ->.
  { rewrite Ec. apply strcmp_head. lia. }
  assert (strcmp (name_str b e) (lit "..") = Some (c - 46)) as ->.
  { rewrite Ec. apply strcmp_head. lia. }
  cbn [mbind option_bind]. destruct (Z.eqb_spec (c - 46) 0); [lia|]. clear c b' Ec Hc n.
  assert (blit (replicate 11 32) 0 (upper b) = upper b ++ replicate (8 - length b) 32 ++ replicate 3 32) as Hblit.
  { unfold blit. rewrite take_0, drop_replicate, length_upper. simpl app at 1. f_equal.
    rewrite <- replicate_add. f_equal. lia. }
  unfold name_str, stored. destruct e as [|x e]; cbn [app].
  - rewrite (conv_part_spec true b 8 [] 0) by (done || lia || by left). cbn [mbind option_bind skip_to_dot Z.eqb orb].
    by rewrite Hblit.
  - rewrite (conv_part_spec true b 8 (x :: e ++ [0]) 46) by (done || lia || by right).
    cbn [mbind option_bind skip_to_dot Z.eqb Pos.eqb orb].
    change (x :: e ++ [0]) with ((x :: e) ++ [0]). rewrite (conv_part_spec false (x :: e) 3 [] 0) by (done || lia || by left). cbn [mbind option_bind]. rewrite Hblit.
    unfold blit. rewrite length_upper, (app_assoc (upper b) (replicate _ 32) (replicate 3 32)), take_app_length' by (rewrite length_app, length_upper, length_replicate; lia).
    rewrite drop_app_ge by (rewrite length_app, length_upper, length_replicate; lia).
    rewrite length_app, length_upper, length_replicate, drop_replicate, <- !app_assoc.
    repeat f_equal. cbn [length] in *. lia.
Qed.

Lemma length_stored b e : dos_name b e -> length (stored b e) = 11%nat.
Proof.
  intros (_ & _ & Hb & He). unfold stored. rewrite !length_app, !length_upper, !length_replicate. lia.
Qed.

Lemma stored_parts b e :
  dos_name b e ->
  slice (stored b e) 0 8 = upper b ++ replicate (8 - length b) 32 /\
  slice (stored b e) 8 3 = upper e ++ replicate (3 - length e) 32.
Proof.
  intros (_ & _ & Hb & He). unfold slice, stored. rewrite drop_0, app_assoc.
  assert (length (upper b ++ replicate (8 - length b) 32) = 8%nat) as Hl
    by (rewrite length_app, length_upper, length_replicate; lia).
  split; [by apply take_app_length'|]. rewrite drop_app_length' by done.
  apply take_ge. rewrite length_app, length_upper, length_replicate. lia.
Qed.

(** The comparison of a stored name with a name. *)
Lemma compare_stored b1 e1 b2 e2 :
  dos_name b1 e1 -> dos_name b2 e2 ->
  compare_names (stored b1 e1) (name_str b2 e2) =
    Some (if bool_decide (upper b1 = upper b2 /\ upper e1 = upper e2) then 0 else -1).
Proof.
  intros H1 H2. destruct (stored_parts b1 e1 H1) as [Hs1 Hs2].
  destruct H1 as (Hb1 & He1 & Hlb1 & Hle1), H2 as (Hb2 & He2 & Hlb2 & Hle2).
  unfold compare_names. rewrite Hs1.
  (* where the extension starts *)
  assert (exists t tail (pre : buf), name_str b2 e2 = b2 ++ t :: tail /\ (t = 0 \/ t = 46) /\
    length pre = (length b2 + if (t =? 46)%Z then 1 else 0)%nat /\ name_str b2 e2 = pre ++ e2 ++ [0])
    as (t & tail & pre & En & Ht & Hpl & Ep).
  { unfold name_str. destruct e2 as [|x e2].
    - exists 0, [], b2. split_and!; [done|by left|simpl; lia|done].
    - eexists 46, _, (b2 ++ [46]). split_and!; [reflexivity|by right|by rewrite length_app|by rewrite <- app_assoc]. }
  rewrite En. pose proof (compare_part_spec true b1 b2 (8 - length b1) [] t tail Hb1 Hb2 ltac:(lia)) as Hpart.
  change (Z.of_nat (length [])) with 0 in Hpart. cbn [app] in Hpart. rewrite Hpart by (destruct Ht; [by left|by right]). clear Hpart. cbn [mbind option_bind length Z.of_nat].
  destruct (bool_decide_reflect (upper b1 = upper b2)) as [Eb|Eb].
  2: { rewrite bool_decide_false; [done|]. by intros [? _]. }
  rewrite rd_app. cbn [mbind option_bind]. rewrite Hs2.
  assert ((if t =? 46 then Z.of_nat (length b2) + 1 else Z.of_nat (length b2)) = Z.of_nat (length pre)) as ->
    by (rewrite Hpl; destruct (t =? 46); lia).
  rewrite <- En, Ep, (compare_part_spec false e1 e2 _ pre 0 [] He1 He2) by (lia || by left). cbn [mbind option_bind].
  destruct (bool_decide_reflect (upper e1 = upper e2)) as [Ee|Ee].
  - rewrite app_assoc, rd_app. cbn [mbind option_bind]. by rewrite bool_decide_true.
  - rewrite bool_decide_false; [done|]. by intros [_ ?].
Qed.

(** ** Searching a directory

    The format of a directory says which entry a name stands for, independently of the
    search: [short_name] is a name of up to eight characters with an extension of up to
    three, [stored] the eleven bytes it has in an entry, in upper case and filled up with
    blanks. *)
Definition name_char (c : Z) : Prop := 0 < c < 256 /\ c <> 46.
Definition short_name (b e : buf) : Prop := Forall name_char b /\ Forall name_char e /\ (0 < length b <= 8)%nat /\ (length e <= 3)%nat.

(** An entry in use, with a name; entries of long names have the four lowest attributes set. *)
Definition live_entry (e : buf) : Prop := e_first e <> 0 /\ e_first e <> 229 /\ Z.land (e_attr e) 15 <> 15.
Definition has_name (e b x : buf) : Prop := upper (slice e 0 11) = stored b x.

(** No entry in front of number [k] ends the directory or is one in use with the name. *)
Definition nothing_before (dir b x : buf) (k : nat) : Prop :=
  forall i, (i < k)%nat -> e_first (entry_at dir i) <> 0 /\ (live_entry (entry_at dir i) -> ~ has_name (entry_at dir i) b x).
(** [e] is the first entry with the name among the [n] entries of [dir]. *)
Definition names_entry (dir : buf) (n : nat) (b x e : buf) : Prop :=
  exists k, (k < n)%nat /\ e = entry_at dir k /\ live_entry e /\ has_name e b x /\ nothing_before dir b x k.

Lemma dos_short b e : dos_name b e -> short_name b e.
Proof.
  assert (forall w, Forall alnum w -> Forall name_char w) as Hw by (intros w Hw; eapply Forall_impl; [exact Hw|]; intros c Hc; cbn in Hc; pose proof (alnum_range c Hc); split; lia).
  intros (Hb & He & Hl). split_and!; try apply Hl; auto.
Qed.

Lemma same_char_byte a c : byte_ok a -> 0 < c < 256 -> same_char a c = (toupper a =? toupper c).
Proof.
  unfold byte_ok. intros Ha Hc. unfold same_char, toupper, swrap, wrap. change (2 ^ 8) with 256. change (2 ^ (8 - 1)) with 128.
  assert ((a + 128) mod 256 - 128 = if a <? 128 then a else a - 256) as -> by (destruct (Z.ltb_spec a 128); zlia).
  assert ((c + 128) mod 256 - 128 = if c <? 128 then c else c - 256) as -> by (destruct (Z.ltb_spec c 128); zlia).
  apply eq_true_iff_eq. rewrite !Z.eqb_eq. zcase; lia.
Qed.

Lemma toupper_blank a : toupper a = 32 <-> a = 32.
Proof. unfold toupper. zcase; lia. Qed.

Lemma compare_part_any stop (f : buf) : bytes_ok f -> forall w pre t tail, Forall (fun c => 0 < c < 256 /\ (stop = true -> c <> 46)) w -> (length w <= length f)%nat ->
  (t = 0 \/ (stop = true /\ t = 46)) ->
  compare_part stop f (pre ++ w ++ t :: tail) (Z.of_nat (length pre)) =
    Some (if bool_decide (upper f = upper w ++ replicate (length f - length w) 32) then Some (Z.of_nat (length (pre ++ w))) else None).
Proof.
  induction 1 as [|a f Ha Hf IH]; intros w pre t tail Hw Hl Ht.
  - destruct w; [|simpl in Hl; lia]. cbn. by rewrite app_nil_r.
  - cbn [compare_part]. destruct Hw as [|c w [Hc H46] Hw].
    + cbn [app]. rewrite rd_app. cbn [mbind option_bind].
      assert ((t =? 0) || (stop && (t =? 46)) = true) as -> by (destruct Ht as [->|[-> ->]]; done).
      specialize (IH [] pre t tail (Forall_nil_2 _) ltac:(cbn; lia) Ht). cbn [app] in IH. rewrite IH. rewrite app_nil_r. cbn [upper map length app Nat.sub replicate]. rewrite Nat.sub_0_r.
      destruct (Z.eqb_spec a 32) as [->|Hne]; cbn [negb].
      * f_equal. change (toupper 32) with 32. fold (upper f). destruct (bool_decide_reflect (upper f = replicate (length f) 32)) as [E|E].
        { rewrite E, bool_decide_true by done. done. }
        { rewrite bool_decide_false; [done|]. by intros [=]. }
      * rewrite bool_decide_false; [done|]. intros Eq. injection Eq as E _. apply Hne. exact (proj1 (toupper_blank a) E).
    + cbn [app]. rewrite rd_app. cbn [mbind option_bind]. destruct (Z.eqb_spec c 0); [lia|].
      assert (stop && (c =? 46) = false) as -> by (destruct stop; [|done]; by apply Z.eqb_neq, H46). cbn [orb]. rewrite same_char_byte by done.
      replace (Z.of_nat (length pre) + 1) with (Z.of_nat (length (pre ++ [c]))) by list_lia.
      replace (pre ++ c :: w ++ t :: tail) with ((pre ++ [c]) ++ w ++ t :: tail) by (by rewrite <- app_assoc).
      rewrite IH by (first [assumption | simpl in Hl; lia]). rewrite <- app_assoc. cbn [upper map length app Nat.sub]. fold (upper f) (upper w).
      destruct (Z.eqb_spec (toupper a) (toupper c)) as [E|E]; cbn [negb].
      * f_equal. destruct (bool_decide_reflect (upper f = upper w ++ replicate (length f - length w) 32)) as [Ef|Ef].
        { rewrite Ef, E, bool_decide_true by done. done. }
        { rewrite bool_decide_false; [done|]. by intros [=]. }
      * rewrite bool_decide_false; [done|]. intros [=]. done.
Qed.

Lemma upper_app a b : upper (a ++ b) = upper a ++ upper b.
Proof. apply map_app. Qed.

(** The comparison decides whether the entry has the name. *)
Lemma compare_names_any (f b e : buf) : length f = 11%nat -> bytes_ok f -> short_name b e ->
  compare_names f (name_str b e) = Some (if bool_decide (upper f = stored b e) then 0 else -1).
Proof.
  intros Hlf Hf (Hb & He & Hlb & Hle).
  assert (exists f1 f2, f = f1 ++ f2 /\ length f1 = 8%nat /\ length f2 = 3%nat) as (f1 & f2 & -> & H1 & H2).
  { exists (take 8 f), (drop 8 f). rewrite take_drop, length_take, length_drop. split_and!; [done|lia|lia]. }
  apply Forall_app in Hf as [Hf1 Hf2]. unfold compare_names, slice. rewrite drop_0, take_app_length', drop_app_length' by done. rewrite (take_ge f2) by lia.
  assert (exists t tail (pre : buf), name_str b e = b ++ t :: tail /\ (t = 0 \/ t = 46) /\
    length pre = (length b + if (t =? 46)%Z then 1 else 0)%nat /\ name_str b e = pre ++ e ++ [0])
    as (t & tail & pre & En & Ht & Hpl & Ep).
  { unfold name_str. destruct e as [|x e].
    - exists 0, [], b. split_and!; [done|by left|simpl; lia|done].
    - eexists 46, _, (b ++ [46]). split_and!; [reflexivity|by right|by rewrite length_app|by rewrite <- app_assoc]. }
  rewrite En. pose proof (compare_part_any true f1 Hf1 b [] t tail) as Hpart. change (Z.of_nat (length [])) with 0 in Hpart. cbn [app] in Hpart.
  rewrite Hpart by ((eapply Forall_impl; [exact Hb|]; intros c [? ?]; done) || lia || (destruct Ht; [by left|by right])). clear Hpart. cbn [mbind option_bind].
  assert (upper (f1 ++ f2) = stored b e <-> upper f1 = upper b ++ replicate (8 - length b) 32 /\ upper f2 = upper e ++ replicate (3 - length e) 32) as Hsplit.
  { unfold stored. rewrite upper_app, app_assoc. split; [|by intros [-> ->]]. intros E. apply app_inj_1 in E; [done|].
    rewrite length_app, !length_upper, length_replicate. lia. }
  rewrite H1. destruct (bool_decide_reflect (upper f1 = upper b ++ replicate (8 - length b) 32)) as [E1|E1].
  2: { rewrite bool_decide_false; [done|]. intros E. by apply Hsplit in E as [? _]. }
  rewrite rd_app. cbn [mbind option_bind].
  assert ((if t =? 46 then Z.of_nat (length b) + 1 else Z.of_nat (length b)) = Z.of_nat (length pre)) as ->
    by (rewrite Hpl; destruct (t =? 46); lia).
  rewrite <- En, Ep, (compare_part_any false f2 Hf2 e pre 0 []) by ((eapply Forall_impl; [exact He|]; intros c [? ?]; done) || lia || by left). cbn [mbind option_bind]. rewrite H2.
  destruct (bool_decide_reflect (upper f2 = upper e ++ replicate (3 - length e) 32)) as [E2|E2].
  - rewrite app_assoc, rd_app. cbn [mbind option_bind]. rewrite bool_decide_true; [done|]. by apply Hsplit.
  - rewrite bool_decide_false; [done|]. intros E. by apply Hsplit in E as [_ ?].
Qed.

Lemma skipped_live e : e_first e <> 0 -> skipped e = false <-> live_entry e.
Proof. intros H0. unfold skipped, live_entry. rewrite orb_false_iff, !Z.eqb_neq. naive_solver. Qed.

Lemma entry_name (dir : buf) k : bytes_ok dir -> ((k + 1) * ENTRY <= length dir)%nat ->
  length (slice (entry_at dir k) 0 11) = 11%nat /\ bytes_ok (slice (entry_at dir k) 0 11).
Proof.
  intros Hd Hk. split; [|by apply bytes_ok_slice, bytes_ok_slice]. unfold entry_at, slice. rewrite !length_take, !length_drop, !length_take, !length_drop. unfold ENTRY in *. lia.
Qed.

(** The search over entries that the format passes over. *)
Lemma scan_nothing (dir b x : buf) (n : nat) : bytes_ok dir -> (n * ENTRY <= length dir)%nat -> short_name b x -> nothing_before dir b x n ->
  forall j k, (j + k <= n)%nat -> scan_entries false dir (name_str b x) j k = Some ScanMore.
Proof.
  intros Hd Hl Hn Hno j k. revert j. induction k as [|k IH]; intros j Hj; [done|]. cbn [scan_entries]. destruct (Hno j ltac:(lia)) as [H0 Hm].
  destruct (Z.eqb_spec (e_first (entry_at dir j)) 0); [done|]. destruct (skipped (entry_at dir j)) eqn:Es; [apply IH; lia|]. cbn [andb].
  destruct (entry_name dir j Hd ltac:(unfold ENTRY in *; lia)) as [Hl11 Hb11]. rewrite compare_names_any by done. cbn [mbind option_bind].
  rewrite bool_decide_false; [apply IH; lia|]. apply Hm. by apply skipped_live.
Qed.

Lemma scan_app d b name j i n :
  scan_entries d b name j (i + n) =
    match scan_entries d b name j i with
    | Some ScanMore => scan_entries d b name (j + i) n
    | r => r
    end.
Proof.
  revert j. induction i as [|i IH]; intros j; cbn [Nat.add scan_entries]; [by rewrite Nat.add_0_r|].
  rewrite !IH. replace (S j + i)%nat with (j + S i)%nat by lia.
  destruct (e_first (entry_at b j) =? 0); [done|]. destruct (skipped (entry_at b j)); [done|].
  destruct (d && _); [done|]. destruct (compare_names _ _) as [c|]; [|done]. cbn [mbind option_bind].
  by destruct (c =? 0).
Qed.

(** The search finds the entry that the format says. *)
Lemma scan_names (dir b x e : buf) (n : nat) : bytes_ok dir -> (n * ENTRY <= length dir)%nat -> short_name b x -> names_entry dir n b x e ->
  scan_entries false dir (name_str b x) 0 n = Some (ScanFound e).
Proof.
  intros Hd Hl Hn (k & Hk & -> & Hlive & Hname & Hno). replace n with (k + S (n - S k))%nat by lia. rewrite scan_app.
  rewrite (scan_nothing dir b x k Hd ltac:(unfold ENTRY in *; lia) Hn Hno) by lia. cbn [scan_entries Nat.add].
  destruct (Z.eqb_spec (e_first (entry_at dir k)) 0) as [E|H0]; [by destruct Hlive|]. rewrite (proj2 (skipped_live _ H0) Hlive). cbn [andb].
  destruct (entry_name dir k Hd ltac:(unfold ENTRY in *; lia)) as [Hl11 Hb11]. rewrite compare_names_any by done. cbn [mbind option_bind].
  by rewrite bool_decide_true.
Qed.

(** The first slot that can take a new entry. *)
Definition first_free (dir : buf) (n i : nat) : Prop :=
  (i < n)%nat /\ (e_first (entry_at dir i) = 0 \/ e_first (entry_at dir i) = 229) /\
  forall j, (j < i)%nat -> e_first (entry_at dir j) <> 0 /\ e_first (entry_at dir j) <> 229.

Lemma free_entry_first dir n i : first_free dir n i -> free_entry dir 0 n = Some i.
Proof.
  intros (Hi & Hf & Hno). assert (forall j m, (j <= i < j + m)%nat -> free_entry dir j m = Some i) as Hgo; [|by apply Hgo; lia].
  intros j m. revert j. induction m as [|m IH]; intros j Hj; [lia|]. cbn [free_entry]. destruct (decide (j = i)) as [->|Hne].
  - by destruct Hf as [-> | ->]; [|rewrite orb_true_r].
  - destruct (Hno j ltac:(lia)) as [H0 H1]. apply Z.eqb_neq in H0, H1. rewrite H0, H1. cbn [orb]. apply IH. lia.
Qed.

(** Names survive the directory format: for 8.3 names of letters and digits, the
    11 bytes [convert_to_83_format] stores match a name in [compare_names] exactly
    if it is the same name up to upper and lower case. *)
Theorem names_83_roundtrip (b1 e1 b2 e2 : buf) :
  dos_name b1 e1 -> dos_name b2 e2 ->
  exists raw r, convert_to_83_format (name_str b1 e1) = Some raw /\ length raw = 11%nat /\
    compare_names raw (name_str b2 e2) = Some r /\
    (r = 0 <-> upper b1 = upper b2 /\ upper e1 = upper e2).
Proof.
  intros H1 H2. eexists _, _. split; [by apply convert_to_83_ok|]. split; [by apply length_stored|].
  split; [by apply compare_stored|]. by case_bool_decide.
Qed.

Lemma names_83_roundtrip_witness :
  exists raw r, convert_to_83_format (lit "Kernel.bin") = Some raw /\ length raw = 11%nat /\
    compare_names raw (lit "KERNEL.BIN") = Some r /\
    (r = 0 <-> upper (lit_bytes "Kernel") = upper (lit_bytes "KERNEL") /\ upper (lit_bytes "bin") = upper (lit_bytes "BIN")).
Proof.
  apply (names_83_roundtrip (lit_bytes "Kernel") (lit_bytes "bin") (lit_bytes "KERNEL") (lit_bytes "BIN"));
    (split_and!; [by repeat constructor|by repeat constructor|simpl; lia|simpl; lia|simpl; lia]).
Defined.

(** ** Time stamps and entries *)

Definition clock_ok (t : rtc) : Prop :=
  1980 <= year t <= 2107 /\ 1 <= month t <= 12 /\ 1 <= day t <= 31 /\
  0 <= hours t <= 23 /\ 0 <= minutes t <= 59 /\ 0 <= seconds t <= 59.

Lemma pack3 a m k1 b k2 c :
  0 <= k2 <= k1 -> 0 <= a < 2 ^ m -> 0 <= b < 2 ^ (k1 - k2) -> 0 <= c < 2 ^ k2 ->
  let v := Z.lor (Z.lor (Z.shiftl a k1) (Z.shiftl b k2)) c in
  v = a * 2 ^ k1 + b * 2 ^ k2 + c.
Proof.
  intros Hk Ha Hb Hc v. unfold v. rewrite <- Z.lor_assoc, (lor_shiftl_add b k2 c) by lia.
  assert (2 ^ k1 = 2 ^ (k1 - k2) * 2 ^ k2) as E by (rewrite <- Z.pow_add_r by lia; f_equal; lia).
  rewrite lor_shiftl_add by (rewrite ?E; nia). lia.
Qed.

Ltac land_mod := rewrite ?Z.shiftr_div_pow2 by lia;
  change 31 with (Z.ones 5); change 63 with (Z.ones 6); change 15 with (Z.ones 4); change 127 with (Z.ones 7);
  rewrite ?Z.land_ones by lia.

Lemma date_roundtrip t : clock_ok t -> extract_fat32_date (fat32_date t) = (day t, month t, year t).
Proof.
  intros (Hy & Hm & Hd & _). unfold fat32_date, extract_fat32_date.
  destruct (Z.ltb_spec (year t - 1980) 0); [lia|]. destruct (Z.ltb_spec 127 (year t - 1980)); [lia|].
  rewrite (pack3 (year t - 1980) 7 9 (month t) 5 (day t)) by lia.
  rewrite wrap_small by lia. land_mod. f_equal; [f_equal|]; zlia.
Qed.

Lemma time_roundtrip t : clock_ok t -> extract_fat32_time (fat32_time t) = (hours t, minutes t, seconds t / 2 * 2).
Proof.
  intros (_ & _ & _ & Hh & Hm & Hs). unfold fat32_time, extract_fat32_time. rewrite Z.quot_div_nonneg by lia.
  rewrite (pack3 (hours t) 5 11 (minutes t) 5 (seconds t / 2)) by zlia.
  rewrite wrap_small by zlia. land_mod. f_equal; [f_equal|]; zlia.
Qed.

Lemma upper_bytes w : Forall alnum w -> bytes_ok (upper w).
Proof.
  intros Hw. apply Forall_fmap. eapply Forall_impl; [exact Hw|]. intros c Hc. destruct (alnum_range c Hc) as (_ & Hr & _).
  unfold byte_ok. simpl. lia.
Qed.

(** The entry made for a name, with its fields. *)
Lemma create_entry_ok b e c a clock :
  dos_name b e -> 0 <= c < 2 ^ 32 -> 0 <= a < 256 ->
  exists en, create_directory_entry (name_str b e) c a clock = Some en /\ length en = ENTRY /\ bytes_ok en /\
    slice en 0 11 = stored b e /\ e_attr en = a /\ read_start_cluster en = c /\ e_size en = 0 /\
    48 <= e_first en <= 90 /\
    e_write_date en = fat32_date (clock 2%nat) /\ e_write_time en = fat32_time (clock 2%nat).
Proof.
  intros Hn Hc Ha. unfold create_directory_entry. rewrite convert_to_83_ok by done. cbn [mbind option_bind].
  pose proof (length_stored b e Hn) as Hl.
  assert (exists x r, stored b e = x :: r /\ 48 <= x <= 90) as (x & r0 & Hh & Hx).
  { destruct Hn as ([|x b' Hx Hb'] & _ & Hlb & _); [simpl in Hlb; lia|]. by eexists _, _; split; [|apply (alnum_range x Hx)]. }
  set (n := stored b e) in *.
  set (w1 := fat32_time _). set (w2 := fat32_date _). set (w3 := fat32_date (clock 1%nat)).
  set (w4 := fat32_time (clock 2%nat)). set (w5 := fat32_date (clock 2%nat)).
  eexists. split; [reflexivity|].
  unfold read_start_cluster, e_attr, e_size, e_high, e_low, e_write_date, e_write_time, e_first, ENTRY.
  assert (forall r i m, (11 <= i)%nat -> slice (n ++ r) i m = slice r (i - 11) m) as Hskip
    by (intros; rewrite slice_app_skip by (rewrite Hl; lia); by rewrite Hl).
  split; [|split; [|split; [|split; [|split; [|split; [|split; [|split]]]]]]].
  - rewrite !length_app, !length_le_put, Hl. done.
  - unfold n, stored. destruct Hn as (Hb & He & _). rewrite !bytes_ok_app.
    split_and!; first [apply le_put_ok | by apply upper_bytes | by apply Forall_replicate | by repeat constructor].
  - rewrite <- Hl at 1. apply slice_app_front.
  - rewrite Hskip by lia. unfold slice. simpl. zlia.
  - rewrite !Hskip by lia.
    change (Z.lor (Z.shiftl (le_get (le_put 2 (Z.land (Z.shiftr c 16) 65535))) 16) (le_get (le_put 2 (Z.land c 65535))) = c).
    rewrite !le_get_put. change 65535 with (Z.ones 16). rewrite !Z.land_ones, Z.shiftr_div_pow2 by lia.
    change (256 ^ Z.of_nat 2) with (2 ^ 16). rewrite !Z.mod_mod, lor_shiftl_add by zlia. zlia.
  - by rewrite Hskip by lia.
  - rewrite Hh. unfold slice. simpl. lia.
  - rewrite Hskip by lia. change (le_get (le_put 2 w5) = w5). rewrite le_get_put. apply Z.mod_small. unfold w5, fat32_date. apply wrap_range. lia.
  - rewrite Hskip by lia. change (le_get (le_put 2 w4) = w4). rewrite le_get_put. apply Z.mod_small. unfold w4, fat32_time. apply wrap_range. lia.
Qed.

(** What [create_directory_entry] stores is what the readers of an entry get
    back: the cluster with its 32 bits, the attributes, size 0, the 8.3 name, and the
    date and the time (to two seconds) of a clock between 1980 and 2107. *)
Theorem dir_entry_roundtrip (b e : buf) (c a : Z) (clock : nat -> rtc) :
  dos_name b e -> 0 <= c < 2 ^ 32 -> 0 <= a < 256 -> clock_ok (clock 2%nat) ->
  exists en, create_directory_entry (name_str b e) c a clock = Some en /\ length en = ENTRY /\
    read_start_cluster en = c /\ e_attr en = a /\ e_size en = 0 /\
    compare_names (slice en 0 11) (name_str b e) = Some 0 /\
    extract_fat32_date (e_write_date en) = (day (clock 2%nat), month (clock 2%nat), year (clock 2%nat)) /\
    extract_fat32_time (e_write_time en) =
      (hours (clock 2%nat), minutes (clock 2%nat), seconds (clock 2%nat) / 2 * 2).
Proof.
  intros Hn Hc Ha Hclk. destruct (create_entry_ok b e c a clock Hn Hc Ha) as (en & He & Hl & _ & Hs & H1 & H2 & H3 & _ & Hd & Ht).
  exists en. rewrite Hs, Hd, Ht, compare_stored, bool_decide_true by done.
  split_and!; try done; [by apply date_roundtrip|by apply time_roundtrip].
Qed.

Lemma dir_entry_roundtrip_witness :
  exists en, create_directory_entry (lit "boot.cfg") 70000 32 (fun _ => Mk_rtc 2025 11 9 13 37 21) = Some en /\
    length en = ENTRY /\ read_start_cluster en = 70000 /\ e_attr en = 32 /\ e_size en = 0 /\
    compare_names (slice en 0 11) (lit "boot.cfg") = Some 0 /\
    extract_fat32_date (e_write_date en) = (9, 11, 2025) /\ extract_fat32_time (e_write_time en) = (13, 37, 21 / 2 * 2).
Proof.
  apply (dir_entry_roundtrip (lit_bytes "boot") (lit_bytes "cfg") 70000 32 (fun _ => Mk_rtc 2025 11 9 13 37 21));
    [split_and!; [by repeat constructor|by repeat constructor|simpl; lia..]|lia|lia|].
  unfold clock_ok. simpl. lia.
Defined.
