(* ===== verification/Fat32Vol.v ===== *)
(** Directories and files of a mounted FAT32 volume: theorems about the operations
    of Fat32Dir.v on the contents of clusters.

    [volume_ok] adds to the consistency of the table (Fat32Fat.v) that the data
    region lies within the 28-bit sector range; [data s c] are the bytes of cluster
    [c].  Reading and writing clusters is specified on [data], and the directory and
    file theorems are stated with it. *)

From stdpp Require Import strings.
From S2P Require Import Prelude CString Effects BlockDev Fat32Fat Fat32Dir.

Section Volume.
Context {D : Type} `{BD : BlockDev D}.
Implicit Types s : fat32 D.

Abbreviation clusters s := (get_total_clusters (boot_sector s)).
Abbreviation spc s := (Z.to_nat (sectors_per_cluster (boot_sector s))).

(** The first sector behind the FATs and the first sector of a cluster. *)
Definition fat_end s : Z := fat_start s + number_of_fats (boot_sector s) * fat_size_32 (boot_sector s).
Definition data_lba s (c : Z) : Z := fat_end s + (c - 2) * sectors_per_cluster (boot_sector s).

Record volume_ok s : Prop := {
  vol_fat : fat32_ok s;
  vol_root : root_entry_count (boot_sector s) = 0;
  vol_spc : 1 <= sectors_per_cluster (boot_sector s);
  vol_end : data_lba s (clusters s) <= LBA_LIMIT
}.

(** [n] consecutive sectors, and the contents of a cluster. *)
Fixpoint sectors s (lba : Z) (n : nat) : buf :=
  match n with
  | O => []
  | S n' => sec s lba ++ sectors s (lba + 1) n'
  end.
Definition data s (c : Z) : buf := sectors s (data_lba s c) (spc s).

(** ** Sectors and clusters *)

Lemma data_range s c :
  volume_ok s -> 2 <= c < clusters s ->
  0 < fat_end s <= data_lba s c /\ data_lba s c + Z.of_nat (spc s) <= LBA_LIMIT.
Proof.
  intros [[] Hroot Hspc Hend] Hc. unfold data_lba in *. unfold fat_end, fat_start in *.
  set (k := sectors_per_cluster (boot_sector s)) in *. set (n := clusters s) in *.
  assert (0 < fat_size_32 (boot_sector s)) by (unfold n in *; lia).
  assert (0 < number_of_fats (boot_sector s) * fat_size_32 (boot_sector s)) by nia.
  assert ((c - 2) * k + k <= (n - 2) * k) by nia. assert (0 <= (c - 2) * k) by nia. lia.
Qed.

Lemma cluster_sector s c :
  volume_ok s -> 2 <= c < clusters s ->
  is_valid_cluster (boot_sector s) c = true /\
  cluster_to_sector (boot_sector s) (partition_lba_offset s) c = data_lba s c /\
  get_first_data_sector (boot_sector s) (partition_lba_offset s) = Some (fat_end s) /\
  u32 ((c - 2) * sectors_per_cluster (boot_sector s) + fat_end s) = data_lba s c.
Proof.
  intros Hok Hc. destruct (data_range s c Hok Hc) as [Hlo Hhi]. pose proof Hok as [[] Hroot Hspc Hend].
  assert (is_valid_cluster (boot_sector s) c = true) as Hv.
  { unfold is_valid_cluster. destruct (Z.ltb_spec c 2); [lia|]. destruct (FAT32_EOC_MIN <=? c); [done|].
    by destruct (Z.leb_spec (clusters s) c); [lia|]. }
  split; [done|]. unfold cluster_to_sector, get_first_data_sector. rewrite Hv, Hroot, ok_bps. cbn [negb Z.eqb].
  change ((0 * 32 + (512 - 1)) / 512) with 0. unfold LBA_LIMIT in *.
  assert (data_lba s c = partition_lba_offset s + (c - 2) * sectors_per_cluster (boot_sector s)
    + (reserved_sector_count (boot_sector s) + number_of_fats (boot_sector s) * fat_size_32 (boot_sector s))) as E
    by (unfold data_lba, fat_end, fat_start; lia).
  split; [rewrite <- E; apply wrap_small; lia|]. split.
  - f_equal. rewrite Z.add_0_r. unfold fat_end, fat_start in *. apply wrap_small. lia.
  - unfold data_lba in *. rewrite Z.add_comm. apply wrap_small. lia.
Qed.

Lemma sectors_length s lba n : dev_ok (dev s) (drive_base s) -> length (sectors s lba n) = (n * SECTOR_SIZE)%nat /\ bytes_ok (sectors s lba n).
Proof.
  intros Hd. revert lba. induction n as [|n IH]; intros lba; cbn [sectors]; [split; [done|constructor]|].
  destruct (sec_size s lba Hd) as [Hl Hb], (IH (lba + 1)) as [Hl2 Hb2].
  split; [rewrite length_app, Hl, Hl2; lia|]. by apply bytes_ok_app.
Qed.

Lemma sectors_ext s s' lba n :
  (forall k, lba <= k < lba + Z.of_nat n -> sec s' k = sec s k) -> sectors s' lba n = sectors s lba n.
Proof.
  revert lba. induction n as [|n IH]; intros lba H; [done|]. cbn [sectors].
  rewrite H by lia. by rewrite IH by (intros; apply H; lia).
Qed.

(** States that differ in nothing the volume consists of. *)
Lemma volume_equiv s d : volume_ok s -> dev_ok d (drive_base s) -> dev_equiv (dev s) d -> volume_ok (with_dev s d).
Proof. intros [Hf Hr Hs He] Hd Heq. split; [by apply fat32_ok_equiv|done..]. Qed.

Lemma data_equiv s d c : dev_equiv (dev s) d -> data (with_dev s d) c = data s c.
Proof. intros Heq. apply sectors_ext. intros. by apply sec_equiv. Qed.

Lemma dev_equiv_trans (d1 d2 d3 : D) : dev_equiv d1 d2 -> dev_equiv d2 d3 -> dev_equiv d1 d3.
Proof. intros H1 H2 b m l. rewrite H2. apply H1. Qed.

Lemma read_all_ok s lba n :
  dev_ok (dev s) (drive_base s) -> 0 <= lba -> lba + Z.of_nat n <= LBA_LIMIT ->
  exists d, read_all lba n s = Some (Some (sectors s lba n), with_dev s d) /\ dev_ok d (drive_base s) /\ dev_equiv (dev s) d.
Proof.
  revert s lba. induction n as [|n IH]; intros s lba Hd Hlo Hhi; cbn [read_all].
  { exists (dev s). split; [by destruct s|]. done. }
  unfold LBA_LIMIT in *. rewrite (wrap_small 32) by lia.
  destruct (read_lba_ok s lba Hd ltac:(unfold LBA_LIMIT; lia)) as (d & Hr & Hd1 & He). rewrite (bind_eq _ _ _ _ _ Hr).
  destruct (IH (with_dev s d) (lba + 1) Hd1 ltac:(lia) ltac:(lia)) as (d2 & Hr2 & Hd2 & He2).
  rewrite (bind_eq _ _ _ _ _ Hr2). exists d2. split; [|split; [done|by eapply dev_equiv_trans]].
  cbn [option_map sectors]. by rewrite (sectors_ext s (with_dev s d)) by (intros; by apply sec_equiv).
Qed.

Lemma read_sectors_ok s lba n old :
  dev_ok (dev s) (drive_base s) -> 0 <= lba -> lba + Z.of_nat n <= LBA_LIMIT ->
  exists d, read_sectors lba n old s = Some (sectors s lba n, with_dev s d) /\ dev_ok d (drive_base s) /\ dev_equiv (dev s) d.
Proof.
  revert s lba old. induction n as [|n IH]; intros s lba old Hd Hlo Hhi; cbn [read_sectors].
  { exists (dev s). split; [by destruct s|]. done. }
  unfold LBA_LIMIT in *. rewrite (wrap_small 32) by lia.
  destruct (read_lba_ok s lba Hd ltac:(unfold LBA_LIMIT; lia)) as (d & Hr & Hd1 & He). rewrite (bind_eq _ _ _ _ _ Hr).
  destruct (IH (with_dev s d) (lba + 1) (drop SECTOR_SIZE old) Hd1 ltac:(lia) ltac:(lia)) as (d2 & Hr2 & Hd2 & He2).
  rewrite (bind_eq _ _ _ _ _ Hr2). exists d2. split; [|split; [done|by eapply dev_equiv_trans]].
  cbn [sectors]. by rewrite (sectors_ext s (with_dev s d)) by (intros; by apply sec_equiv).
Qed.

(** [read_cluster] fills a buffer of the cluster's size with the cluster. *)
Lemma read_cluster_ok s c b :
  volume_ok s -> 2 <= c < clusters s -> length b = (spc s * SECTOR_SIZE)%nat ->
  exists d, read_cluster c b s = Some (data s c, with_dev s d) /\ dev_ok d (drive_base s) /\ dev_equiv (dev s) d.
Proof.
  intros Hok Hc Hb. destruct (cluster_sector s c Hok Hc) as (Hv & Hs & _). destruct (data_range s c Hok Hc) as [Hlo Hhi].
  unfold read_cluster. rewrite !gets_bind, Hv, Hs. cbn [negb]. destruct (Z.eqb_spec (data_lba s c) 0); [lia|].
  rewrite Hb, Nat.ltb_irrefl.
  destruct (read_sectors_ok s (data_lba s c) (spc s) b (ok_dev _ (vol_fat s Hok)) ltac:(lia) Hhi) as (d & Hr & Hd & He).
  rewrite (bind_eq _ _ _ _ _ Hr). exists d. split; [|done]. rewrite <- Hb, drop_all, app_nil_r. done.
Qed.

(** Reading the directory cluster as a whole. *)
Lemma read_all_cluster s c :
  volume_ok s -> 2 <= c < clusters s ->
  exists d, read_all (cluster_to_sector (boot_sector s) (partition_lba_offset s) c) (spc s) s =
      Some (Some (data s c), with_dev s d) /\ dev_ok d (drive_base s) /\ dev_equiv (dev s) d.
Proof.
  intros Hok Hc. destruct (cluster_sector s c Hok Hc) as (_ & -> & _). destruct (data_range s c Hok Hc) as [Hlo Hhi].
  apply read_all_ok; [apply (ok_dev _ (vol_fat s Hok))|lia|done].
Qed.

Lemma write_sectors_ok s lba n b :
  dev_ok (dev s) (drive_base s) -> ata_base_address s = drive_base s -> bytes_per_sector (boot_sector s) = 512 ->
  0 <= lba -> lba + Z.of_nat n <= LBA_LIMIT -> length b = (n * SECTOR_SIZE)%nat -> bytes_ok b ->
  exists d, write_sectors (boot_sector s) lba n b s = Some (true, with_dev s d) /\ dev_ok d (drive_base s) /\
    sectors (with_dev s d) lba n = b /\
    forall k, k < lba \/ lba + Z.of_nat n <= k -> sec (with_dev s d) k = sec s k.
Proof.
  revert s lba b. induction n as [|n IH]; intros s lba b Hd Hbase Hbps Hlo Hhi Hlen Hb; cbn [write_sectors].
  { exists (dev s). assert (with_dev s (dev s) = s) as -> by (by destruct s). split_and!; [done|done| |done].
    destruct b; [done|simpl in Hlen; lia]. }
  unfold sector_array_ok. rewrite Hbps. cbn [Z.eqb Pos.eqb negb].
  assert (length (take SECTOR_SIZE b) = SECTOR_SIZE) as Ht by (rewrite length_take; lia).
  rewrite Ht, Nat.ltb_irrefl. unfold LBA_LIMIT in Hhi. rewrite !(wrap_small 32) by lia.
  destruct (write_lba_ok s lba (take SECTOR_SIZE b) Hd Hbase ltac:(unfold LBA_LIMIT; lia) Ht ltac:(by apply Forall_take))
    as (d1 & Hw & Hd1 & Hs1 & Ho1). rewrite (bind_eq _ _ _ _ _ Hw). cbn [negb].
  destruct (read_lba_ok (with_dev s d1) lba Hd1 ltac:(unfold LBA_LIMIT; lia)) as (d2 & Hr & Hd2 & He2).
  rewrite (bind_eq _ _ _ _ _ Hr), Hs1.
  destruct (memcmp_loop_spec (take SECTOR_SIZE b) (take SECTOR_SIZE b) (Z.to_nat 512)) as (r & Hm & Hr0);
    [rewrite Ht; unfold SECTOR_SIZE; lia..|].
  rewrite (lift_bind _ r); [|exact Hm]. rewrite (proj2 Hr0 eq_refl). cbn [Z.eqb negb].
  destruct (IH (with_dev s d2) (lba + 1) (drop SECTOR_SIZE b) Hd2 Hbase Hbps ltac:(lia) ltac:(unfold LBA_LIMIT; lia)
              ltac:(rewrite length_drop; lia) ltac:(by apply Forall_drop)) as (d3 & Hrec & Hd3 & Hin & Hout).
  exists d3. split; [exact Hrec|]. split; [done|]. change (with_dev (with_dev s d2) d3) with (with_dev s d3) in *.
  assert (forall k, sec (with_dev s d2) k = sec (with_dev s d1) k) as E by (intros k; by apply (sec_equiv (with_dev s d1))).
  split.
  - cbn [sectors]. rewrite Hin, Hout, E, Hs1 by lia. apply take_drop.
  - intros k Hk. rewrite Hout, E by lia. apply Ho1. lia.
Qed.

(** [s'] is [s] with the contents of cluster [c] replaced by [b]. *)
Record data_updated s (c : Z) (b : buf) s' : Prop := {
  du_ok : volume_ok s';
  du_bs : boot_sector s' = boot_sector s;
  du_part : partition_lba_offset s' = partition_lba_offset s;
  du_cwd : current_directory_cluster s' = current_directory_cluster s;
  du_info : fsinfo s' = fsinfo s /\ fsinfo_valid s' = fsinfo_valid s;
  du_data : data s' c = b;
  du_other : forall c', 2 <= c' < clusters s -> c' <> c -> data s' c' = data s c';
  du_fat : forall c', 2 <= c' < clusters s -> fat s' c' = fat s c'
}.

(** Writing outside the FATs leaves the table alone. *)
Lemma fat32_ok_frame s d :
  fat32_ok s -> dev_ok d (drive_base s) -> (forall k, fat_start s <= k < fat_end s -> sec (with_dev s d) k = sec s k) ->
  fat32_ok (with_dev s d) /\ forall c, 2 <= c < clusters s -> fat (with_dev s d) c = fat s c.
Proof.
  intros Hok Hd Hsec. split.
  - pose proof Hok as []. split; try done. intros k i Hk Hi. change (fat_start (with_dev s d)) with (fat_start s).
    cbn [boot_sector with_dev] in *. unfold fat_end in Hsec.
    rewrite !Hsec by nia. by apply ok_mirror.
  - intros c Hc. destruct (fat_position s c Hok Hc) as (_ & Hi & Hr & _). unfold fat.
    change (fat_start (with_dev s d)) with (fat_start s). cbn [boot_sector with_dev].
    rewrite Hsec; [done|]. rewrite Hi. pose proof (ok_nf s Hok). unfold fat_end. nia.
Qed.

(** Clusters do not overlap. *)
Lemma data_disjoint s c c' :
  1 <= sectors_per_cluster (boot_sector s) -> c <> c' ->
  data_lba s c + sectors_per_cluster (boot_sector s) <= data_lba s c' \/
  data_lba s c' + sectors_per_cluster (boot_sector s) <= data_lba s c.
Proof. intros Hs Hne. unfold data_lba. destruct (Z.lt_total c c') as [H|[H|H]]; [left|done|right]; nia. Qed.

Lemma write_cluster_ok s c b :
  volume_ok s -> 2 <= c < clusters s -> length b = (spc s * SECTOR_SIZE)%nat -> bytes_ok b ->
  exists s', write_cluster c (Some b) s = Some (true, s') /\ data_updated s c b s'.
Proof.
  intros Hok Hc Hlen Hb. destruct (cluster_sector s c Hok Hc) as (_ & _ & Hf & Hu). destruct (data_range s c Hok Hc) as [Hlo Hhi].
  unfold write_cluster. rewrite !gets_bind, (lift_bind _ _ _ _ Hf), Hu.
  pose proof (vol_fat s Hok) as Hfo. pose proof (vol_spc s Hok) as Hspc.
  destruct (write_sectors_ok s (data_lba s c) (spc s) b (ok_dev _ Hfo) (ok_base _ Hfo) (ok_bps _ Hfo) ltac:(lia) Hhi Hlen Hb)
    as (d & Hw & Hd & Hin & Hout).
  exists (with_dev s d). split; [exact Hw|].
  destruct (fat32_ok_frame s d Hfo Hd) as [Hok' Hfat]; [intros k Hk; apply Hout; lia|].
  split; try done.
  - split; [exact Hok'|apply (vol_root s Hok)|exact Hspc|apply (vol_end s Hok)].
  - intros c' Hc' Hne. apply sectors_ext. intros k Hk. apply Hout.
    change (data_lba (with_dev s d) c') with (data_lba s c') in Hk. cbn [boot_sector with_dev] in Hk.
    destruct (data_disjoint s c c' Hspc (not_eq_sym Hne)); lia.
Qed.

(** ** Directory buffers *)

Abbreviation dir_entries s := (spc s * 16)%nat.

Lemma entries_per_cluster s : volume_ok s -> Z.to_nat (get_entries_per_cluster (boot_sector s)) = dir_entries s.
Proof.
  intros Hok. pose proof (vol_spc s Hok). unfold get_entries_per_cluster, DIRECTORY_ENTRY_SIZE.
  rewrite (ok_bps _ (vol_fat s Hok)). cbn [Z.eqb orb]. destruct (Z.eqb_spec (sectors_per_cluster (boot_sector s)) 0); [lia|].
  replace (512 * sectors_per_cluster (boot_sector s)) with (sectors_per_cluster (boot_sector s) * 16 * 32) by lia.
  rewrite Z.div_mul by lia. lia.
Qed.

Lemma scan_ext d b b' name j n :
  (forall k, (j <= k < j + n)%nat -> entry_at b' k = entry_at b k) ->
  scan_entries d b' name j n = scan_entries d b name j n.
Proof.
  revert j. induction n as [|n IH]; intros j H; [done|]. cbn [scan_entries].
  rewrite (H j) by lia. by rewrite !IH by (intros; apply H; lia).
Qed.

Lemma free_entry_ok b j n i : free_entry b j n = Some i -> (j <= i < j + n)%nat.
Proof.
  revert j. induction n as [|n IH]; intros j; [done|]. cbn [free_entry]. destruct (_ || _).
  - intros [= <-]. lia.
  - intros H. apply IH in H. lia.
Qed.

Lemma same_entry_ok b en j n i : same_entry b en j n = Some i -> (j <= i < j + n)%nat /\ entry_at b i = en.
Proof.
  revert j. induction n as [|n IH]; intros j; [done|]. cbn [same_entry].
  destruct (bool_decide_reflect (entry_at b j = en)).
  - intros [= <-]. split; [lia|done].
  - intros H. apply IH in H. split; [lia|apply H].
Qed.

(** Replacing one entry. *)
Lemma entry_blit b i en k :
  length en = ENTRY -> ((i + 1) * ENTRY <= length b)%nat ->
  entry_at (blit b (i * ENTRY) en) k = if decide (k = i) then en else entry_at b k.
Proof.
  intros Hl Hb. unfold entry_at. destruct (decide (k = i)) as [->|Hne].
  - pose proof (slice_blit b (i * ENTRY) en ltac:(rewrite Hl; lia)) as E. by rewrite Hl in E.
  - apply slice_blit_disjoint; rewrite Hl; unfold ENTRY in *; lia.
Qed.

Lemma data_length s c : volume_ok s -> length (data s c) = (spc s * SECTOR_SIZE)%nat /\ bytes_ok (data s c).
Proof. intros Hok. apply sectors_length, (ok_dev _ (vol_fat s Hok)). Qed.

(** Searching the first cluster of the current directory. *)
Lemma directory_scan s (b e : buf) (i : nat) : volume_ok s -> short_name b e -> (i <= dir_entries s)%nat ->
  nothing_before (data s (current_directory_cluster s)) b e i ->
  scan_entries false (data s (current_directory_cluster s)) (name_str b e) 0 i = Some ScanMore.
Proof.
  intros Hok Hn Hi Hno. destruct (data_length s (current_directory_cluster s) Hok) as [Hl Hb].
  apply (scan_nothing _ b e i Hb); [|done..]. rewrite Hl. unfold ENTRY, SECTOR_SIZE. lia.
Qed.

Lemma directory_finds s (b x e : buf) : volume_ok s -> short_name b x ->
  names_entry (data s (current_directory_cluster s)) (dir_entries s) b x e ->
  scan_entries false (data s (current_directory_cluster s)) (name_str b x) 0 (dir_entries s) = Some (ScanFound e).
Proof.
  intros Hok Hn He. destruct (data_length s (current_directory_cluster s) Hok) as [Hl Hb].
  apply scan_names; [done| |done..]. rewrite Hl. unfold ENTRY, SECTOR_SIZE. lia.
Qed.

(** Replacing the entry [i] of a directory cluster on disk. *)
Lemma write_entry_ok s c i en :
  volume_ok s -> 2 <= c < clusters s -> (i < dir_entries s)%nat -> length en = ENTRY -> bytes_ok en ->
  exists s', write_cluster c (Some (blit (data s c) (i * ENTRY) en)) s = Some (true, s') /\
    data_updated s c (blit (data s c) (i * ENTRY) en) s' /\
    forall k, entry_at (data s' c) k = if decide (k = i) then en else entry_at (data s c) k.
Proof.
  intros Hok Hc Hi Hl Hb. destruct (data_length s c Hok) as [Hdl Hdb].
  assert ((i + 1) * ENTRY <= length (data s c))%nat as Hfit by (rewrite Hdl; unfold ENTRY, SECTOR_SIZE; lia).
  destruct (write_cluster_ok s c (blit (data s c) (i * ENTRY) en) Hok Hc) as (s' & Hw & Hu).
  - rewrite length_blit; [done|]. rewrite Hl. lia.
  - by apply bytes_ok_blit.
  - exists s'. split; [done|]. split; [done|]. intros k. rewrite (du_data _ _ _ _ Hu). by apply entry_blit.
Qed.

(** ** Adding, finding and removing entries *)

Context (alloc_ok : Z -> bool) (fresh : nat -> buf).
Hypothesis alloc_all : forall n, alloc_ok n = true.
Hypothesis fresh_size : forall n, length (fresh n) = n.

(** The search in the current directory is the scan of its cluster. *)
Lemma search_directory_ok s name r :
  volume_ok s -> 2 <= current_directory_cluster s < clusters s ->
  scan_entries false (data s (current_directory_cluster s)) name 0 (dir_entries s) = Some r ->
  exists d, search_directory name s =
      Some (match r with ScanFound e => Some e | _ => None end, with_dev s d) /\ dev_ok d (drive_base s) /\ dev_equiv (dev s) d.
Proof.
  intros Hok Hc Hscan. unfold search_directory. rewrite !gets_bind.
  destruct (read_all_cluster s _ Hok Hc) as (d & Hr & Hd & He). rewrite (bind_eq _ _ _ _ _ Hr), (lift_bind _ _ _ _ Hscan).
  exists d. by split.
Qed.

Lemma find_file_ok s name r :
  volume_ok s -> 2 <= current_directory_cluster s < clusters s ->
  scan_entries false (data s (current_directory_cluster s)) name 0 (dir_entries s) = Some r ->
  exists d, find_file_in_directory alloc_ok name s =
      Some (match r with ScanFound e => Some e | _ => None end, with_dev s d) /\ dev_ok d (drive_base s) /\ dev_equiv (dev s) d.
Proof.
  intros Hok Hc Hscan. unfold find_file_in_directory. rewrite !gets_bind, alloc_all. cbn [negb].
  destruct (search_directory_ok s name r Hok Hc Hscan) as (d & Hr & Hd & He). rewrite (bind_eq _ _ _ _ _ Hr).
  exists d. split; [|done]. rewrite alloc_all. by destruct r.
Qed.

(** Adding an entry to a directory cluster with a free slot. *)
Lemma add_entry_ok s fuel b e c newc a clock i :
  volume_ok s -> 2 <= c < clusters s -> dos_name b e -> 0 <= newc < 2 ^ 32 -> 0 <= a < 256 ->
  free_entry (data s c) 0 (dir_entries s) = Some i ->
  exists en s', create_directory_entry (name_str b e) newc a clock = Some en /\
    add_entry_to_directory fresh (S fuel) c (name_str b e) newc a clock s = Some (true, s') /\
    data_updated s c (blit (data s c) (i * ENTRY) en) s' /\
    forall k, entry_at (data s' c) k = if decide (k = i) then en else entry_at (data s c) k.
Proof.
  intros Hok Hc Hn Hnc Ha Hfree. destruct (create_entry_ok b e newc a clock Hn Hnc Ha) as (en & Hcr & Hl & Hb & _).
  pose proof (free_entry_ok _ _ _ _ Hfree) as Hi. unfold add_entry_to_directory.
  rewrite (lift_bind _ _ _ _ Hcr), gets_bind, entries_per_cluster by done. cbn [add_entry_loop].
  destruct (Z.leb_spec FAT32_EOC_MIN c) as [Hbad|_]; [pose proof (ok_cl _ (vol_fat s Hok)); lia|].
  destruct (read_cluster_ok s c (fresh (dir_entries s * ENTRY)) Hok Hc) as (d & Hr & Hd & He);
    [rewrite fresh_size; unfold ENTRY, SECTOR_SIZE; lia|].
  rewrite (bind_eq _ _ _ _ _ Hr), Hfree.
  destruct (write_entry_ok (with_dev s d) c i en (volume_equiv s d Hok Hd He) Hc ltac:(simpl; lia) Hl Hb) as (s' & Hw & Hu & Hent).
  rewrite data_equiv in Hw, Hu by done. rewrite (bind_eq _ _ _ _ _ Hw). exists en, s'.
  split; [done|]. split; [done|]. split; [|intros k; rewrite Hent, data_equiv by done; done].
  destruct Hu as [H1 H2 H3 H4 H5 H6 H7 H8]. split; try done.
  - intros c' Hc' Hne. rewrite H7 by done. by apply data_equiv.
  - intros c' Hc'. rewrite H8 by done. by apply fat_equiv.
Qed.

(** The scan finds an entry made for the name behind entries that do not match. *)
Lemma scan_added b e newc a clock en bf bf' i n :
  dos_name b e -> 0 <= newc < 2 ^ 32 -> 0 <= a < 256 -> Z.land a 15 <> 15 ->
  create_directory_entry (name_str b e) newc a clock = Some en ->
  (forall k, entry_at bf' k = if decide (k = i) then en else entry_at bf k) -> (i < n)%nat ->
  scan_entries false bf (name_str b e) 0 i = Some ScanMore ->
  scan_entries false bf' (name_str b e) 0 n = Some (ScanFound en) /\
  read_start_cluster en = newc /\ e_attr en = a /\ e_size en = 0.
Proof.
  intros Hn Hnc Ha Hlfn Hcr Hent Hi Hscan.
  destruct (create_entry_ok b e newc a clock Hn Hnc Ha) as (en' & Hcr' & _ & _ & Hname & Hat & Hcl & Hsz & Hfirst & _).
  rewrite Hcr in Hcr'. injection Hcr' as <-. split; [|done].
  replace n with (i + S (n - S i))%nat by lia. rewrite scan_app.
  rewrite (scan_ext false bf) by (intros k Hk; rewrite Hent; by destruct (decide (k = i)); [lia|]).
  rewrite Hscan. cbn [scan_entries Nat.add]. rewrite Hent. destruct (decide (i = i)); [|done].
  destruct (Z.eqb_spec (e_first en) 0); [lia|]. unfold skipped. rewrite Hat.
  destruct (Z.eqb_spec (e_first en) 229), (Z.eqb_spec (Z.land a 15) 15); try lia; try done. cbn [orb andb].
  rewrite Hname, compare_stored by done. by rewrite bool_decide_true.
Qed.

(** A file that was added to a directory is found there: when the directory's
    cluster has a free slot and no entry in front of it matches the name,
    [add_entry_to_directory] succeeds, and [find_file_in_directory] then returns the
    new entry with the start cluster, attributes and size given.  The table and the
    contents of all other clusters are unchanged. *)
Theorem add_entry_then_find s (fuel : nat) (b e : buf) (newc a : Z) (clock : nat -> rtc) (i : nat) :
  let c := current_directory_cluster s in
  volume_ok s -> 2 <= c < clusters s -> dos_name b e -> 0 <= newc < 2 ^ 32 -> 0 <= a < 256 -> Z.land a 15 <> 15 ->
  free_entry (data s c) 0 (dir_entries s) = Some i ->
  scan_entries false (data s c) (name_str b e) 0 i = Some ScanMore ->
  exists en s1 d, add_entry_to_directory fresh (S fuel) c (name_str b e) newc a clock s = Some (true, s1) /\
    find_file_in_directory alloc_ok (name_str b e) s1 = Some (Some en, with_dev s1 d) /\
    read_start_cluster en = newc /\ e_attr en = a /\ e_size en = 0 /\ volume_ok s1 /\
    (forall c', 2 <= c' < clusters s -> fat s1 c' = fat s c' /\ (c' <> c -> data s1 c' = data s c')).
Proof.
  intros c Hok Hc Hn Hnc Ha Hlfn Hfree Hscan.
  destruct (add_entry_ok s fuel b e c newc a clock i Hok Hc Hn Hnc Ha Hfree) as (en & s1 & Hcr & Hadd & Hu & Hent).
  pose proof (free_entry_ok _ _ _ _ Hfree) as Hi. destruct Hu as [Hok1 Hbs _ Hcwd _ _ Hoth Hfat].
  destruct (scan_added b e newc a clock en (data s c) (data s1 c) i (dir_entries s) Hn Hnc Ha Hlfn Hcr Hent ltac:(lia) Hscan)
    as [Hs1 Hfields].
  destruct (find_file_ok s1 (name_str b e) (ScanFound en) Hok1) as (d & Hf & _);
    [by rewrite Hcwd, Hbs|by rewrite Hcwd, Hbs|].
  exists en, s1, d. split; [done|]. split; [exact Hf|]. destruct Hfields as (? & ? & ?).
  split_and!; try done. intros c' Hc'. split; [by apply Hfat|by apply Hoth].
Qed.

(** Removing an entry hides the entries behind it: [remove_entry_from_directory]
    fills the slot with zeros, which the searches take for the end of the directory.
    Whatever name is not in front of the removed entry is not found any more. *)
Theorem remove_entry_hides_later s (fuel : nat) (en name : buf) (i : nat) :
  let c := current_directory_cluster s in
  volume_ok s -> 2 <= c < clusters s ->
  same_entry (data s c) en 0 (dir_entries s) = Some i ->
  scan_entries false (data s c) name 0 i = Some ScanMore ->
  exists s1 d, remove_entry_from_directory fresh (S fuel) c en s = Some (true, s1) /\ volume_ok s1 /\
    (forall k, k <> i -> entry_at (data s1 c) k = entry_at (data s c) k) /\
    find_file_in_directory alloc_ok name s1 = Some (None, with_dev s1 d).
Proof.
  intros c Hok Hc Hsame Hscan. destruct (same_entry_ok _ _ _ _ _ Hsame) as [Hi _].
  unfold remove_entry_from_directory. rewrite gets_bind, entries_per_cluster by done. cbn [remove_entry_loop].
  destruct (Z.leb_spec FAT32_EOC_MIN c) as [Hbad|_]; [pose proof (ok_cl _ (vol_fat s Hok)); lia|].
  destruct (read_cluster_ok s c (fresh (dir_entries s * ENTRY)) Hok Hc) as (d & Hr & Hd & He);
    [rewrite fresh_size; unfold ENTRY, SECTOR_SIZE; lia|].
  rewrite (bind_eq _ _ _ _ _ Hr), Hsame.
  destruct (write_entry_ok (with_dev s d) c i (replicate ENTRY 0) (volume_equiv s d Hok Hd He) Hc ltac:(simpl; lia))
    as (s1 & Hw & Hu & Hent); [apply length_replicate|by apply Forall_replicate|].
  rewrite data_equiv in Hw, Hu by done. rewrite (bind_eq _ _ _ _ _ Hw). destruct Hu as [Hok1 Hbs _ Hcwd _ _ _ _].
  assert (forall k, entry_at (data s1 c) k = if decide (k = i) then replicate ENTRY 0 else entry_at (data s c) k) as Hent'
    by (intros k; rewrite Hent, data_equiv by done; done).
  destruct (find_file_ok s1 name ScanEnd Hok1) as (d1 & Hf & _); [by rewrite Hcwd, Hbs| |].
  - rewrite Hcwd, Hbs. change (current_directory_cluster (with_dev s d)) with c. cbn [boot_sector with_dev].
    replace (dir_entries s) with (i + S (dir_entries s - S i))%nat by lia. rewrite scan_app.
    rewrite (scan_ext false (data s c)) by (intros k Hk; rewrite Hent'; by destruct (decide (k = i)); [lia|]).
    rewrite Hscan. cbn [scan_entries Nat.add]. rewrite Hent'. by destruct (decide (i = i)).
  - exists s1, d1. split; [done|]. split; [done|]. split; [|exact Hf]. intros k Hk. rewrite Hent'. by destruct (decide (k = i)).
Qed.

(** ** Creating files *)

Lemma volume_fat_updated s c v s' :
  volume_ok s -> fat_updated s c v s' ->
  volume_ok s' /\ forall c', 2 <= c' < clusters s -> data s' c' = data s c'.
Proof.
  intros Hok [H1 H2 H3 H4 H5 H6 H7 H8].
  assert (fat_end s' = fat_end s) as Ee by (unfold fat_end, fat_start; by rewrite H2, H3).
  split.
  - destruct Hok as [_ Hr Hs He]. split; [done|by rewrite H2..|]. unfold data_lba in *. by rewrite Ee, H2.
  - intros c' Hc'. destruct (data_range s c' Hok Hc') as [Hlo _]. unfold data, data_lba in *. rewrite Ee, H2.
    apply sectors_ext. intros k Hk. apply H5. right. unfold fat_end in *. lia.
Qed.

Lemma volume_same s s' :
  volume_ok s -> fat32_ok s' -> same_volume s s' ->
  volume_ok s' /\ (forall c, data s' c = data s c) /\ forall c, fat s' c = fat s c.
Proof.
  intros [_ Hr Hs He] Hok' (Hd & Hbs & Hp & Hb & Hm & _ & _ & _).
  assert (forall k, sec s' k = sec s k) as Hsec by (intros k; unfold sec; rewrite Hb, Hm; apply Hd).
  assert (fat_start s' = fat_start s) as Ef by (unfold fat_start; by rewrite Hbs, Hp).
  assert (forall c, data_lba s' c = data_lba s c) as El by (intros c; unfold data_lba, fat_end; by rewrite Ef, Hbs).
  split; [|split].
  - split; [done|by rewrite Hbs..|by rewrite El, Hbs].
  - intros c. unfold data. rewrite El, Hbs. by apply sectors_ext.
  - intros c. unfold fat. by rewrite Hsec, Ef, Hbs.
Qed.

(** Writing FSInfo, which lies in the reserved region. *)
Lemma write_fsinfo_volume s :
  volume_ok s -> fsinfo_wf (fsinfo s) -> 0 <= fs_info (boot_sector s) < reserved_sector_count (boot_sector s) ->
  exists r d, write_fsinfo s = Some (r, with_dev s d) /\ volume_ok (with_dev s d) /\
    forall c, 2 <= c < clusters s -> data (with_dev s d) c = data s c /\ fat (with_dev s d) c = fat s c.
Proof.
  intros Hok Hwf Hfi. destruct (fsinfo_valid s) eqn:Ev.
  2: { exists false, (dev s). assert (with_dev s (dev s) = s) as -> by (by destruct s).
       split; [|done]. unfold write_fsinfo. by rewrite gets_bind, Ev. }
  pose proof (vol_fat s Hok) as Hf. pose proof Hf as [].
  assert (0 <= number_of_fats (boot_sector s) * fat_size_32 (boot_sector s)) by nia. unfold fat_start in *.
  destruct (write_fsinfo_ok s ok_dev ok_base Ev Hwf ltac:(lia)) as (d & Hw & Hd & _ & Hfr).
  exists true, d. split; [done|].
  destruct (fat32_ok_frame s d Hf Hd) as [Hok' Hfat].
  { intros k Hk. apply Hfr. unfold fat_start in *. lia. }
  split.
  - destruct Hok as [_ Hr Hs He]. by split.
  - intros c Hc. destruct (data_range s c Hok Hc) as [Hlo _]. split; [|by apply Hfat].
    apply sectors_ext. intros k Hk. apply Hfr. change (data_lba (with_dev s d) c) with (data_lba s c) in Hk.
    unfold fat_end, fat_start in *. lia.
Qed.

(** C5: [fat32_create_file] creates the file.  On a volume with a free cluster, for a name of
    at most eight letters and digits with an extension of at most three, when the first
    cluster of the current directory has a free slot, no entry in use in front of it has the
    name, the FSInfo sector lies in the reserved area and memory is not exhausted: the call
    succeeds; it has taken a cluster that was free and marked it as a chain of one, left
    every other FAT entry and the contents of every cluster but the directory's alone, and
    the search of the directory then finds the file, with that cluster, no attributes and
    size 0. *)
Theorem create_file_then_find s (fuel : nat) (b e : buf) (clock : nat -> rtc) (i : nat) (free : Z) :
  let c := current_directory_cluster s in
  volume_ok s -> 2 <= c < clusters s -> dos_name b e -> fsinfo_wf (fsinfo s) ->
  0 <= fs_info (boot_sector s) < reserved_sector_count (boot_sector s) ->
  2 <= free < clusters s -> fat s free = 0 ->
  first_free (data s c) (dir_entries s) i -> nothing_before (data s c) b e i ->
  exists en newc s1 d, fat32_create_file fresh (S fuel) (name_str b e) clock s = Some (true, s1) /\ volume_ok s1 /\
    find_file_in_directory alloc_ok (name_str b e) s1 = Some (Some en, with_dev s1 d) /\
    read_start_cluster en = newc /\ e_attr en = 0 /\ e_size en = 0 /\
    2 <= newc < clusters s /\ fat s newc = 0 /\
    (forall c', 2 <= c' < clusters s -> fat s1 c' = if c' =? newc then FAT32_EOC_MAX else fat s c') /\
    (forall c', 2 <= c' < clusters s -> c' <> c -> data s1 c' = data s c').
Proof.
  intros c Hok Hc Hn Hwf Hfi Hfr Hfz Hfirst Hno. pose proof (free_entry_first _ _ _ Hfirst) as Hfree. unfold fat32_create_file.
  pose proof (directory_scan s b e i Hok (dos_short _ _ Hn) ltac:(unfold first_free in Hfirst; lia) Hno) as Hscan.
  (* a free cluster *)
  destruct (find_free_spec s (vol_fat s Hok)) as (newc & sA & HA & HokA & HsameA & HwfA & [[Hnc Hnz]|[_ Hfull]]).
  2: { by specialize (Hfull free Hfr). }
  rewrite (bind_eq _ _ _ _ _ HA). pose proof (ok_cl _ (vol_fat s Hok)) as Hcl. unfold FAT32_EOC_MIN in Hcl.
  destruct (Z.eqb_spec newc INVALID_CLUSTER); [unfold INVALID_CLUSTER in *; lia|].
  destruct (volume_same s sA Hok HokA HsameA) as (HvA & HdA & HfA). destruct HsameA as (_ & HbA & HpA & _ & _ & _ & HcA & _).
  (* the table *)
  destruct (mark_ok sA newc FAT32_EOC_MAX HokA ltac:(by rewrite HbA)) as (sB & HB & HupB & _).
  rewrite (bind_eq _ _ _ _ _ HB). cbn [negb]. rewrite gets_bind.
  destruct (volume_fat_updated sA newc _ sB HvA HupB) as [HvB HdB]. destruct HupB as [_ HbB _ HfB _ _ HcB HwfB].
  rewrite HbA in *. rewrite HcB, HcA. fold c.
  (* the directory *)
  assert (data sB c = data s c) as HdBc by (by rewrite HdB, HdA).
  destruct (add_entry_ok sB fuel b e c newc 0 clock i HvB ltac:(by rewrite HbB) Hn ltac:(lia) ltac:(lia)
              ltac:(by rewrite HdBc, HbB)) as (en & sC & Hcr & HC & [HvC HbC HpC HcC [HiC _] _ HoC HfC] & Hent).
  rewrite (bind_eq _ _ _ _ _ HC). cbn [negb]. rewrite HbB in *.
  (* FSInfo *)
  destruct (write_fsinfo_volume sC HvC ltac:(rewrite HiC; auto) ltac:(by rewrite HbC)) as (r & d & HD & HvD & HfrD).
  rewrite (bind_eq _ _ _ _ _ HD). rewrite HbC in *.
  pose proof (free_entry_ok _ _ _ _ Hfree) as Hi. rewrite HdBc in Hent.
  destruct (scan_added b e newc 0 clock en (data s c) (data sC c) i (dir_entries s) Hn ltac:(lia) ltac:(lia) ltac:(done)
              Hcr Hent ltac:(lia) Hscan) as [Hs1 (Hf1 & Hf2 & Hf3)].
  assert (current_directory_cluster (with_dev sC d) = c) as Hcwd by (unfold c; simpl; congruence).
  destruct (find_file_ok (with_dev sC d) (name_str b e) (ScanFound en) HvD) as (d' & Hf & _);
    [by rewrite Hcwd; simpl; rewrite HbC|rewrite Hcwd; simpl; rewrite HbC; by rewrite (proj1 (HfrD c Hc))|].
  exists en, newc, (with_dev sC d), d'. split; [done|]. split; [done|]. split; [exact Hf|].
  split_and!; try done; try lia.
  - intros c' Hc'. rewrite (proj2 (HfrD c' Hc')), HfC, HfB, HfA by done. by destruct (c' =? newc).
  - intros c' Hc' Hne. rewrite (proj1 (HfrD c' Hc')), HoC, HdB by done. apply HdA.
Qed.

(** ** Reading files *)

Lemma take_full {A} (l k : list A) n : length l = n -> take n (l ++ k) = l.
Proof. intros <-. apply take_app_length. Qed.

(** The inner loop appends the sectors up to the limit. *)
Lemma read_file_sectors_ok s lba n out size want :
  dev_ok (dev s) (drive_base s) -> 0 <= lba -> lba + Z.of_nat n <= LBA_LIMIT -> 0 <= size -> 0 <= want < 2 ^ 32 ->
  let limit := Z.to_nat (Z.min size want) in (length out <= limit)%nat ->
  exists d, read_file_sectors lba n out size want s = Some ((take limit (out ++ sectors s lba n), true), with_dev s d) /\
    dev_ok d (drive_base s) /\ dev_equiv (dev s) d.
Proof.
  revert s lba out. induction n as [|n IH]; intros s lba out Hd Hlo Hhi Hsz Hw limit Hout; cbn [read_file_sectors].
  { exists (dev s). split; [|done]. cbn [sectors]. rewrite app_nil_r, take_ge by done. by destruct s. }
  set (total := Z.of_nat (length out)). assert (total <= Z.min size want) as Ht by (unfold total, limit in *; lia).
  set (now0 := if want - total <? 512 then want - total else 512).
  assert (now0 = Z.min (want - total) 512) as En0 by (unfold now0; zcase; lia). clearbody now0.
  rewrite (wrap_small 32) by lia.
  assert (length out = limit ->
    exists d, Some ((out, true), s) = Some ((take limit (out ++ sectors s lba (S n)), true), with_dev s d) /\
      dev_ok d (drive_base s) /\ dev_equiv (dev s) d) as Hstop.
  { intros E. exists (dev s). rewrite take_full by done. by destruct s. }
  destruct ((size <? total + now0) && (size <=? total)) eqn:E1.
  { apply Hstop. unfold total, limit in *. lia. }
  set (now := if size <? total + now0 then size - total else now0).
  assert (now = Z.min 512 (Z.min size want - total)) as En by (unfold now; zcase; lia). clearbody now.
  destruct (Z.eqb_spec now 0).
  { apply Hstop. unfold total, limit in *. lia. }
  unfold LBA_LIMIT in Hhi. rewrite (wrap_small 32) by lia.
  destruct (read_lba_ok s lba Hd ltac:(unfold LBA_LIMIT; lia)) as (d & Hr & Hd1 & He). rewrite (bind_eq _ _ _ _ _ Hr).
  destruct (sec_size s lba Hd) as [Hsl _]. unfold SECTOR_SIZE in Hsl.
  assert (length (out ++ take (Z.to_nat now) (sec s lba)) = Z.to_nat (total + now)) as Hl2
    by (rewrite length_app, length_take, Hsl; unfold total; lia).
  assert (forall r, take limit (out ++ sec s lba ++ r) = take limit ((out ++ take (Z.to_nat now) (sec s lba)) ++ r)) as Hcut.
  { intros r. destruct (decide (now = 512)) as [->|Hne].
    - rewrite (take_ge (sec s lba)) by (rewrite Hsl; lia). by rewrite app_assoc.
    - rewrite (take_full (out ++ _)) by (unfold limit, total in *; lia). rewrite take_app_ge by done. f_equal.
      replace (limit - length out)%nat with (Z.to_nat now) by (unfold limit, total in *; lia).
      apply take_app_le. rewrite Hsl. lia. }
  rewrite Hl2, Z2Nat.id by (unfold total; lia). cbn [sectors]. rewrite Hcut.
  destruct (Z.leb_spec want (total + now)).
  - exists d. split; [|done]. rewrite take_full by (unfold limit, total in *; lia). done.
  - destruct (IH (with_dev s d) (lba + 1) (out ++ take (Z.to_nat now) (sec s lba)) Hd1 ltac:(lia)
                ltac:(unfold LBA_LIMIT; lia) Hsz Hw ltac:(rewrite Hl2; unfold total in *; lia)) as (d2 & Hrec & Hd2 & He2).
    exists d2. rewrite Hrec. rewrite (sectors_ext s (with_dev s d)) by (intros; by apply sec_equiv).
    split; [done|]. split; [done|by eapply dev_equiv_trans].
Qed.

(** A chain of clusters in the table: linked, and closed by an end mark. *)
Definition chain s (l : list Z) : Prop :=
  Forall (fun c => 2 <= c < clusters s) l /\ linked (fat s) l /\
  forall c, last l = Some c -> FAT32_EOC_MIN <= fat s c.

Lemma chain_equiv s d l : dev_equiv (dev s) d -> chain s l -> chain (with_dev s d) l.
Proof.
  intros He (H1 & H2 & H3). split; [done|]. split.
  - clear H1 H3. induction l as [|x [|y l] IH]; [done|done|]. destruct H2 as [E H2]. split; [by rewrite fat_equiv|by apply IH].
  - intros c Hc. rewrite fat_equiv by done. by apply H3.
Qed.

Lemma read_file_loop_ok s fuel c l out size want :
  volume_ok s -> chain s (c :: l) -> (S (length l) < fuel)%nat -> 0 <= size -> 0 <= want < 2 ^ 32 ->
  let limit := Z.to_nat (Z.min size want) in (length out <= limit)%nat ->
  exists d, read_file_loop fuel c out size want s =
      Some (take limit (out ++ concat (map (data s) (c :: l))), with_dev s d) /\ dev_ok d (drive_base s) /\ dev_equiv (dev s) d.
Proof.
  revert s c l out. induction fuel as [|fuel IH]; intros s c l out Hok Hch Hfuel Hsz Hw limit Hout; [lia|]. cbn [read_file_loop].
  assert (with_dev s (dev s) = s) as Es by (by destruct s).
  destruct (Z.leb_spec want (Z.of_nat (length out))).
  { exists (dev s). split; [|split; [apply (ok_dev _ (vol_fat s Hok))|done]]. rewrite take_full, Es; [done|]. unfold limit in *. lia. }
  pose proof Hch as (Hrng & Hlk & Hlast). apply Forall_cons in Hrng as [Hc Hl].
  destruct (cluster_sector s c Hok Hc) as (_ & Hcs & _). destruct (data_range s c Hok Hc) as [Hlo Hhi].
  rewrite !gets_bind, Hcs.
  destruct (read_file_sectors_ok s (data_lba s c) (spc s) out size want (ok_dev _ (vol_fat s Hok)) ltac:(lia) Hhi Hsz Hw Hout)
    as (d1 & Hr & Hd1 & He1). rewrite (bind_eq _ _ _ _ _ Hr). cbn [negb]. fold (data s c) limit.
  pose proof (volume_equiv s d1 Hok Hd1 He1) as Hok1.
  destruct (get_next_ok (with_dev s d1) c (vol_fat _ Hok1) Hc) as (d2 & Hn & Hd2 & He2). rewrite (bind_eq _ _ _ _ _ Hn).
  rewrite fat_equiv by done. cbn [map concat]. assert (dev_equiv (dev s) d2) as He12 by (by eapply dev_equiv_trans).
  destruct l as [|y l].
  - specialize (Hlast c eq_refl). destruct (Z.leb_spec FAT32_EOC_MIN (fat s c)); [|lia].
    cbn [Z.eqb]. rewrite orb_true_r. exists d2. cbn [map concat]. by rewrite app_nil_r.
  - destruct Hlk as [Hy Hlk]. apply Forall_cons in Hl as [Hyr Hl]. pose proof (ok_cl _ (vol_fat s Hok)) as Hcl. rewrite Hy.
    destruct (Z.leb_spec FAT32_EOC_MIN y); [lia|]. unfold is_end_of_cluster_chain.
    destruct (Z.leb_spec FAT32_EOC_MIN y); [lia|]. destruct (Z.eqb_spec y INVALID_CLUSTER);
      [unfold INVALID_CLUSTER, FAT32_EOC_MIN in *; lia|]. cbn [andb orb].
    change (with_dev (with_dev s d1) d2) with (with_dev s d2).
    assert (chain (with_dev s d2) (y :: l)) as Hch2.
    { apply chain_equiv; [done|]. split; [by constructor|]. split; [done|]. intros x Hx. apply Hlast. exact Hx. }
    destruct (IH (with_dev s d2) y l (take limit (out ++ data s c)) (volume_equiv s d2 Hok Hd2 He12) Hch2 ltac:(simpl in Hfuel; lia) Hsz Hw)
      as (d3 & Hrec & Hd3 & He3); [rewrite length_take; unfold limit; lia|].
    exists d3. rewrite Hrec. fold limit. split; [|split; [done|by eapply dev_equiv_trans]].
    rewrite (map_ext (data (with_dev s d2)) (data s)) by (intros; by apply data_equiv).
    do 2 f_equal. cbn [map concat]. rewrite (app_assoc out). generalize (out ++ data s c) as u. intros u.
    destruct (decide (length u <= limit)%nat).
    + by rewrite (take_ge u).
    + rewrite (take_app_le u) by lia. rewrite take_full by (rewrite length_take; lia). done.
Qed.

Lemma read_file_data_spec s (fuel : nat) (c : Z) (l : list Z) (size want : Z) :
  volume_ok s -> chain s (c :: l) -> (S (length l) < fuel)%nat -> 0 <= size < 2 ^ 32 -> 0 <= want < 2 ^ 32 ->
  exists out d, read_file_data fuel c true size want s = Some (out, with_dev s d) /\ dev_ok d (drive_base s) /\ dev_equiv (dev s) d /\
    out = take (Z.to_nat (Z.min size want)) (concat (map (data s) (c :: l))) /\ Z.of_nat (length out) <= size.
Proof.
  intros Hok Hch Hfuel Hs Hw. unfold read_file_data.
  destruct (Z.eqb_spec size 0) as [->|]; [|destruct (Z.eqb_spec want 0) as [->|]]; cbn [negb orb].
  - exists [], (dev s). assert (with_dev s (dev s) = s) as -> by (by destruct s).
    rewrite Z.min_l by lia. pose proof (ok_dev _ (vol_fat s Hok)). done.
  - exists [], (dev s). assert (with_dev s (dev s) = s) as -> by (by destruct s).
    rewrite Z.min_r by lia. pose proof (ok_dev _ (vol_fat s Hok)). split_and!; [done..|simpl; lia].
  - destruct (read_file_loop_ok s fuel c l [] size want Hok Hch Hfuel (proj1 Hs) Hw) as (d & Hr & Hd & He); [simpl; lia|].
    eexists _, d. split; [exact Hr|]. split; [done|]. split; [done|]. split; [done|]. rewrite length_take. lia.
Qed.

(** [read_file_data] returns the file: for a chain of clusters it stores exactly
    the first bytes of the clusters' contents, in chain order, as many as asked for,
    as fit into the buffer and as the chain has; it never stores more than the
    buffer's size, and the disk is unchanged. *)
Theorem read_file_data_ok s (fuel : nat) (c : Z) (l : list Z) (size want : Z) :
  volume_ok s -> chain s (c :: l) -> (S (length l) < fuel)%nat -> 0 <= size < 2 ^ 32 -> 0 <= want < 2 ^ 32 ->
  exists out d, read_file_data fuel c true size want s = Some (out, with_dev s d) /\ dev_equiv (dev s) d /\
    out = take (Z.to_nat (Z.min size want)) (concat (map (data s) (c :: l))) /\ Z.of_nat (length out) <= size.
Proof.
  intros Hok Hch Hfuel Hs Hw. destruct (read_file_data_spec s fuel c l size want Hok Hch Hfuel Hs Hw) as (out & d & E & _ & H).
  by exists out, d.
Qed.

(** ** A full directory *)

Lemma add_entry_loop_full s fuel parent en b c l :
  volume_ok s -> chain s (c :: l) -> Forall (fun x => free_entry (data s x) 0 (dir_entries s) = None) (c :: l) ->
  length b = (spc s * SECTOR_SIZE)%nat -> (S (length l) < fuel)%nat ->
  exists d, add_entry_loop fuel parent en b (dir_entries s) c false s = Some (false, with_dev s d) /\
    dev_ok d (drive_base s) /\ dev_equiv (dev s) d.
Proof.
  revert s b c l. induction fuel as [|fuel IH]; intros s b c l Hok Hch Hfull Hb Hfuel; [lia|]. cbn [add_entry_loop].
  pose proof Hch as (Hrng & Hlk & Hlast). apply Forall_cons in Hrng as [Hc Hl]. apply Forall_cons in Hfull as [Hf0 Hfull].
  pose proof (ok_cl _ (vol_fat s Hok)) as Hcl. destruct (Z.leb_spec FAT32_EOC_MIN c); [lia|].
  destruct (read_cluster_ok s c b Hok Hc Hb) as (d1 & Hr & Hd1 & He1). rewrite (bind_eq _ _ _ _ _ Hr), Hf0.
  pose proof (volume_equiv s d1 Hok Hd1 He1) as Hok1.
  destruct (get_next_ok (with_dev s d1) c (vol_fat _ Hok1) Hc) as (d2 & Hn & Hd2 & He2). rewrite (bind_eq _ _ _ _ _ Hn).
  rewrite fat_equiv by done. assert (dev_equiv (dev s) d2) as He12 by (by eapply dev_equiv_trans).
  change (with_dev (with_dev s d1) d2) with (with_dev s d2).
  destruct l as [|y l].
  - specialize (Hlast c eq_refl). destruct (Z.leb_spec FAT32_EOC_MIN (fat s c)); [|lia].
    change (is_end_of_cluster_chain INVALID_CLUSTER) with false. destruct fuel as [|fuel]; [simpl in Hfuel; lia|].
    exists d2. done.
  - destruct Hlk as [Hy Hlk]. apply Forall_cons in Hl as [Hyr Hl]. rewrite Hy.
    destruct (Z.leb_spec FAT32_EOC_MIN y); [lia|]. unfold is_end_of_cluster_chain.
    destruct (Z.leb_spec FAT32_EOC_MIN y); [lia|]. cbn [andb].
    assert (chain (with_dev s d2) (y :: l)) as Hch2.
    { apply chain_equiv; [done|]. split; [by constructor|]. split; [done|]. intros x Hx. apply Hlast. exact Hx. }
    destruct (IH (with_dev s d2) (data s c) y l (volume_equiv s d2 Hok Hd2 He12) Hch2) as (d3 & Hrec & Hd3 & He3).
    + eapply Forall_impl; [exact Hfull|]. intros x Hx. by rewrite data_equiv.
    + apply (data_length s c Hok).
    + simpl in Hfuel. lia.
    + exists d3. split; [exact Hrec|]. split; [done|by eapply dev_equiv_trans].
Qed.

(** A full directory is not extended, also when the volume has free clusters: when
    no cluster of the directory's chain has a free slot, [add_entry_to_directory]
    returns false and leaves the disk as it is.  (The end of the chain is reported as
    INVALID_CLUSTER, which the test in front of the extension does not accept.) *)
Theorem full_directory_not_extended s (fuel : nat) (c : Z) (l : list Z) (b e : buf) (newc a : Z) (clock : nat -> rtc) :
  volume_ok s -> chain s (c :: l) -> dos_name b e -> 0 <= newc < 2 ^ 32 -> 0 <= a < 256 ->
  Forall (fun x => free_entry (data s x) 0 (dir_entries s) = None) (c :: l) -> (S (length l) < fuel)%nat ->
  exists d, add_entry_to_directory fresh fuel c (name_str b e) newc a clock s = Some (false, with_dev s d) /\
    dev_equiv (dev s) d.
Proof.
  intros Hok Hch Hn Hnc Ha Hfull Hfuel. destruct (create_entry_ok b e newc a clock Hn Hnc Ha) as (en & Hcr & _).
  unfold add_entry_to_directory. rewrite (lift_bind _ _ _ _ Hcr), gets_bind, entries_per_cluster by done.
  destruct (add_entry_loop_full s fuel c en (fresh (dir_entries s * ENTRY)) c l Hok Hch Hfull) as (d & Hr & _ & He);
    [rewrite fresh_size; unfold ENTRY, SECTOR_SIZE; lia|done|]. by exists d.
Qed.
End Volume.

(** ** Witnesses *)

(** The 100-cluster volume with one-sector clusters, a FAT sector (both copies) and the
    contents of some clusters. *)
Fixpoint fill (l : list (Z * buf)) : gmap (Z * bool * Z) buf :=
  match l with
  | [] => ∅
  | (c, b) :: l' => <[(496, true, c + 2) := b]> (fill l')
  end.
Definition vol_with (f : buf) (l : list (Z * buf)) : fat32 RamDisk :=
  with_dev vol100 (Mk_ramdisk (<[(496, true, 2) := f]> (<[(496, true, 3) := f]> (fill l))) false).

Lemma vol_with_ok f l :
  length f = 512%nat -> bytes_ok f -> Forall (fun x => length (snd x) = 512%nat /\ bytes_ok (snd x)) l ->
  volume_ok (vol_with f l).
Proof.
  intros Hf Hb Hl.
  assert (map_Forall (fun _ b => length b = SECTOR_SIZE /\ bytes_ok b) (fill l)) as Hfill.
  { induction Hl as [|[c b] l [H1 H2] Hl IH]; [apply map_Forall_empty|]. by apply map_Forall_insert_2. }
  split; [|reflexivity|by vm_compute|by vm_compute].
  split; [|reflexivity|reflexivity|by vm_compute|by vm_compute|by vm_compute|by vm_compute|by vm_compute|by vm_compute|by vm_compute|].
  - split; [|by vm_compute]. split; [done|]. by repeat apply map_Forall_insert_2.
  - intros k i Hk Hi. assert (i = 0) as -> by (simpl in Hi; lia). assert (k = 0 \/ k = 1) as [-> | ->] by (simpl in Hk; lia); [done|].
    unfold sec, vol_with, fat_start. cbn -[insert lookup]. unfold ram_sector. cbn -[insert lookup].
    rewrite lookup_insert_ne, !lookup_insert_eq by done. done.
Qed.

Definition zeros (n : nat) : buf := replicate n 0.
Definition granted (n : Z) : bool := true.
Lemma zeros_size n : length (zeros n) = n.
Proof. apply length_replicate. Qed.
Definition noon (k : nat) : rtc := Mk_rtc 2025 1 1 12 0 0.

(** The root directory in cluster 2, one cluster long. *)
Definition fat_one : buf := blit (zeros 512) 8 (le_put 4 FAT32_EOC_MAX).
(** A file in the clusters 5 and 7. *)
Definition fat_file : buf := blit (blit (zeros 512) 20 (le_put 4 7)) 28 (le_put 4 FAT32_EOC_MAX).

Lemma fat_one_ok : length fat_one = 512%nat /\ bytes_ok fat_one.
Proof. split; [reflexivity|]. unfold fat_one. apply bytes_ok_blit; [by apply Forall_replicate|apply le_put_ok]. Qed.
Lemma fat_file_ok : length fat_file = 512%nat /\ bytes_ok fat_file.
Proof.
  split; [reflexivity|]. unfold fat_file.
  apply bytes_ok_blit; [apply bytes_ok_blit; [by apply Forall_replicate|apply le_put_ok]|apply le_put_ok].
Qed.

Definition vol_empty : fat32 RamDisk := vol_with fat_one [].
Lemma vol_empty_ok : volume_ok vol_empty.
Proof. apply vol_with_ok; [apply fat_one_ok..|constructor]. Qed.

Definition kernel_b : buf := Eval compute in lit_bytes "kernel".
Definition bin_e : buf := Eval compute in lit_bytes "bin".
Lemma kernel_bin : dos_name kernel_b bin_e.
Proof. split_and!; [by repeat constructor|by repeat constructor|simpl; lia..]. Qed.

Lemma add_entry_then_find_witness :
  exists en s1 d, add_entry_to_directory zeros 1 2 (name_str kernel_b bin_e) 9 32 noon vol_empty = Some (true, s1) /\
    find_file_in_directory granted (name_str kernel_b bin_e) s1 = Some (Some en, with_dev s1 d) /\
    read_start_cluster en = 9 /\ e_attr en = 32.
Proof.
  destruct (add_entry_then_find granted zeros (fun _ => eq_refl) zeros_size vol_empty 0 kernel_b bin_e 9 32 noon 0
              vol_empty_ok ltac:(by vm_compute) kernel_bin ltac:(lia) ltac:(lia) ltac:(done)
              ltac:(vm_compute; reflexivity) ltac:(reflexivity)) as (en & s1 & d & H1 & H2 & H3 & H4 & _).
  exact (ex_intro _ en (ex_intro _ s1 (ex_intro _ d (conj H1 (conj H2 (conj H3 H4)))))).
Defined.

Lemma create_file_then_find_witness :
  exists en newc s1 d, fat32_create_file zeros 1 (name_str kernel_b bin_e) noon vol_empty = Some (true, s1) /\
    find_file_in_directory granted (name_str kernel_b bin_e) s1 = Some (Some en, with_dev s1 d) /\
    read_start_cluster en = newc.
Proof.
  destruct (create_file_then_find granted zeros (fun _ => eq_refl) zeros_size vol_empty 0 kernel_b bin_e noon 0 3
              vol_empty_ok ltac:(by vm_compute) kernel_bin) as (en & newc & s1 & d & H1 & _ & H2 & H3 & _).
  - vm_compute. split_and!; try lia; try discriminate; try reflexivity; repeat apply Forall_cons_2; try apply Forall_nil_2; split; (discriminate || reflexivity).
  - vm_compute. split; [discriminate|reflexivity].
  - vm_compute. split; [discriminate|reflexivity].
  - vm_compute. reflexivity.
  - split; [apply Nat.ltb_lt; vm_compute; reflexivity|]. split; [left; vm_compute; reflexivity|]. intros j Hj. lia.
  - intros j Hj. lia.
  - exact (ex_intro _ en (ex_intro _ newc (ex_intro _ s1 (ex_intro _ d (conj H1 (conj H2 H3)))))).
Defined.

Definition page (c : Z) : buf := replicate 512 c.
Lemma page_ok c : byte_ok c -> length (page c) = 512%nat /\ bytes_ok (page c).
Proof. intros Hc. split; [apply length_replicate|by apply Forall_replicate]. Qed.

Definition vol_file : fat32 RamDisk := vol_with fat_file [(5, page 65); (7, page 66)].
Lemma vol_file_ok : volume_ok vol_file.
Proof.
  apply vol_with_ok; [apply fat_file_ok..|]. repeat apply Forall_cons_2; [..|apply Forall_nil_2]; apply page_ok; unfold byte_ok; lia.
Qed.

Lemma read_file_data_ok_witness :
  exists out d, read_file_data 3 5 true 600 700 vol_file = Some (out, with_dev vol_file d) /\
    out = take 600 (concat (map (data vol_file) [5; 7])).
Proof.
  destruct (read_file_data_ok vol_file 3 5 [7] 600 700 vol_file_ok) as (out & d & H1 & _ & H2 & _); [|simpl; lia|lia|lia|].
  - split; [repeat constructor; (lia || reflexivity)|]. split; [split; [vm_compute; reflexivity|done]|].
    intros c Hc. injection Hc as <-. vm_compute. discriminate.
  - exact (ex_intro _ out (ex_intro _ d (conj H1 H2))).
Defined.

Definition vol_full : fat32 RamDisk := vol_with fat_one [(2, page 65)].
Lemma vol_full_ok : volume_ok vol_full.
Proof. apply vol_with_ok; [apply fat_one_ok..|]. apply Forall_cons_2; [|apply Forall_nil_2]. apply page_ok. unfold byte_ok. lia. Qed.

Lemma full_directory_not_extended_witness :
  exists d, add_entry_to_directory zeros 2 2 (name_str kernel_b bin_e) 9 32 noon vol_full = Some (false, with_dev vol_full d) /\
    dev_equiv (dev vol_full) d.
Proof.
  apply (full_directory_not_extended zeros zeros_size vol_full 2 2 [] kernel_b bin_e 9 32 noon vol_full_ok);
    [|exact kernel_bin|lia|lia| |simpl; lia].
  - split; [repeat constructor; (lia || reflexivity)|]. split; [done|]. intros c Hc. injection Hc as <-. vm_compute. discriminate.
  - apply Forall_cons_2; [vm_compute; reflexivity|apply Forall_nil_2].
Defined.

(** Two files, "a" and then "b". *)
Definition two_files : buf :=
  stored [97] [] ++ zeros 21 ++ stored [98] [] ++ zeros 21 ++ zeros 448.
Lemma two_files_ok : length two_files = 512%nat /\ bytes_ok two_files.
Proof. split; [reflexivity|]. vm_compute. repeat constructor; discriminate. Qed.
Definition vol_two : fat32 RamDisk := vol_with fat_one [(2, two_files)].
Lemma vol_two_ok : volume_ok vol_two.
Proof. apply vol_with_ok; [apply fat_one_ok..|]. apply Forall_cons_2; [apply two_files_ok|apply Forall_nil_2]. Qed.

Lemma remove_entry_hides_later_witness :
  exists s1 d, remove_entry_from_directory zeros 1 2 (stored [97] [] ++ zeros 21) vol_two = Some (true, s1) /\
    entry_at (data s1 2) 1 = stored [98] [] ++ zeros 21 /\
    find_file_in_directory granted (name_str [98] []) s1 = Some (None, with_dev s1 d).
Proof.
  destruct (remove_entry_hides_later granted zeros (fun _ => eq_refl) zeros_size vol_two 0 (stored [97] [] ++ zeros 21)
              (name_str [98] []) 0 vol_two_ok ltac:(by vm_compute) ltac:(vm_compute; reflexivity) ltac:(reflexivity))
    as (s1 & d & H1 & _ & H2 & H3).
  exact (ex_intro _ s1 (ex_intro _ d (conj H1 (conj (H2 1%nat (Nat.neq_succ_0 0)) H3)))).
Defined.
