(* ===== verification/Fat32Vfs.v ===== *)
(** fs/fat32/fat32_vfs_adapter.c: FAT32 as a file system of the VFS.

    The state is that of the FAT32 driver, the store of allocated structures, and the
    root nodes that mounting creates and that every open of the root returns again.
    [drive_at] gives base port and master flag of the [drive_t] at an address. *)

From stdpp Require Import gmap strings.
From S2P Require Import Prelude Effects CString Vfs BlockDev Fat32Fat Fat32Dir Fat32Vol.

Definition sizeof_boot_sector : Z := 512.
Definition sizeof_dir_entry : Z := 32.

Record fat32_world (D : Type) := Mk_fworld { fw_fat : fat32 D; fw_objs : objects; fw_roots : gmap Z vfs_node }.
Arguments Mk_fworld {D}. Arguments fw_fat {D}. Arguments fw_objs {D}. Arguments fw_roots {D}.

#[global] Instance fat32_world_objects D : HasObjects (fat32_world D) := {|
  objs := fw_objs; with_objs w o := Mk_fworld (fw_fat w) o (fw_roots w); objs_with _ _ := eq_refl |}.

(** [current_drive] is set. *)
Definition with_current {D} (bm : Z * bool) (s : fat32 D) : fat32 D :=
  Mk_fat32 (dev s) (boot_sector s) (fsinfo s) (fsinfo_valid s) (current_directory_cluster s) (ata_base_address s)
    (ata_is_master s) (partition_lba_offset s) (fst bm) (snd bm).

(** ** Names *)

(** The 8.3 name as a string, in the array [char name[13]]. *)
Definition display_name (e : buf) : buf :=
  up_to_blank (slice e 0 8) ++ (if le_get (slice e 8 1) =? 32 then [] else 46 :: up_to_blank (slice e 8 3)) ++ [0].

Definition entry_type (e : buf) : vfs_node_type := if negb (Z.land (e_attr e) 16 =? 0) then VFS_DIRECTORY else VFS_FILE.

Definition fat32_entry_to_vfs_entry (e : buf) (v : vfs_dir_entry) : option vfs_dir_entry :=
  n ← put_name256 (de_name v) (display_name e);
  Some (Mk_dirent n (entry_type e) (e_size e) (read_start_cluster e) 0 0 0 (e_attr e)).

(** The entry at an index among those that are listed. *)
Fixpoint nth_listed (b : buf) (j n : nat) (current index : Z) : option buf :=
  match n with
  | O => None
  | S n' =>
      let e := entry_at b j in
      if e_first e =? 0 then None
      else if e_first e =? 229 then nth_listed b (S j) n' current index
      else if e_attr e =? 15 then nth_listed b (S j) n' current index
      else if negb (Z.land (e_attr e) 8 =? 0) then nth_listed b (S j) n' current index
      else if current =? index then Some e
      else nth_listed b (S j) n' (current + 1) index
  end.

Section Adapter.
Context {D : Type} `{BlockDev D} (strict : bool) (alloc_ok : Z -> bool) (fresh : nat -> buf).
Context (drive_at : Z -> option (Z * bool)).
Abbreviation A := (M (fat32_world D)).

(** An operation of the FAT32 driver. *)
Definition on_fat {X} (m : M (fat32 D) X) : A X := fun w =>
  match m (fw_fat w) with Some (x, s) => Some (x, Mk_fworld s (fw_objs w) (fw_roots w)) | None => None end.

Definition use_drive (p : Z) : A unit := bm ← lift (drive_at p); on_fat (modify (with_current bm)).

(** ** Mounting *)

Definition set_root (p : Z) (n : vfs_node) : A unit := modify (fun w => Mk_fworld (fw_fat w) (fw_objs w) (<[p := n]> (fw_roots w))).

Definition fat32_vfs_mount (fs : Z) (obj : vfs_filesystem) (drive : Z) : A (Z * vfs_filesystem) :=
  if drive =? 0 then mret (VFS_ERR_INVALID, obj) else
  bm ← lift (drive_at drive);
  result ← on_fat (fat32_init_fs strict (fst bm) (snd bm));
  if negb (result =? 0) then mret (VFS_ERR_IO, obj) else
  bs ← allocate alloc_ok sizeof_boot_sector;
  match bs with
  | None => mret (VFS_ERR_NO_MEMORY, obj)
  | Some bs =>
      let with_data r := Mk_fs (fs_name obj) (fs_drive obj) (fs_ops obj) bs r in
      root ← allocate alloc_ok sizeof_node;
      match root with
      | None => _ ← deallocate bs; mret (VFS_ERR_NO_MEMORY, with_data (fs_root obj))
      | Some root =>
          n ← lift (strcpy (fresh 256) [47; 0]);
          c ← on_fat (gets (fun s => root_cluster (boot_sector s)));
          _ ← set_root root (Mk_node root n VFS_DIRECTORY c 0 0 fs 0);
          mret (VFS_OK, with_data root)
      end
  end.

Definition fat32_vfs_unmount (obj : vfs_filesystem) : A Z :=
  _ ← (if negb (fs_data obj =? 0) then deallocate (fs_data obj) else mret tt);
  _ ← (if negb (fs_root obj =? 0) then
         _ ← deallocate (fs_root obj);
         modify (fun w => Mk_fworld (fw_fat w) (fw_objs w) (delete (fs_root obj) (fw_roots w)))
       else mret tt);
  mret VFS_OK.

(** ** Files *)

(** [*node = fs->root]. *)
Definition root_node (p : Z) : A vfs_node := r ← gets (fun w => fw_roots w !! p); lift r.

(** [find_file_in_directory] with the structures that it allocates: the buffer for the
    cluster, freed on every path, and the copy of the entry that it returns. *)
Definition find_file_object (filename : buf) : A (option (buf * Z)) :=
  bs ← on_fat (gets boot_sector);
  entries ← allocate alloc_ok (512 * sectors_per_cluster bs);
  match entries with
  | None => mret None
  | Some entries =>
      e ← on_fat (search_directory filename);
      match e with
      | None => _ ← deallocate entries; mret None
      | Some e =>
          found_entry ← allocate alloc_ok sizeof_dir_entry;
          _ ← deallocate entries;
          mret (option_map (pair e) found_entry)
      end
  end.

Definition fat32_vfs_open (fs : Z) (obj : vfs_filesystem) (path : buf) : A (Z * vfs_node) :=
  _ ← use_drive (fs_drive obj);
  c ← lift (strcmp path [47; 0]);
  if c =? 0 then n ← root_node (fs_root obj); mret (VFS_OK, n) else
  filename ← lift (skip_slash path);
  f ← find_file_object filename;
  match f with
  | None => mret (VFS_ERR_NOT_FOUND, no_node)
  | Some (e, fat_entry) =>
      a ← allocate alloc_ok sizeof_node;
      match a with
      | None => _ ← deallocate fat_entry; mret (VFS_ERR_NO_MEMORY, no_node)
      | Some a =>
          n ← lift (put_name256 (fresh 256) (display_name e));
          mret (VFS_OK, Mk_node a n (entry_type e) (read_start_cluster e) (e_size e) 0 fs fat_entry)
      end
  end.

Definition fat32_vfs_close (obj : vfs_filesystem) (node : vfs_node) : A Z :=
  if n_addr node =? fs_root obj then mret VFS_OK else
  _ ← (if negb (n_fs_specific node =? 0) then deallocate (n_fs_specific node) else mret tt);
  _ ← deallocate (n_addr node);
  mret VFS_OK.

(** The offset is not used. *)
Definition fat32_vfs_read (fuel : nat) (obj : vfs_filesystem) (node : vfs_node) (offset size : Z) (buffer : buf) : A (Z * buf) :=
  if negb (bool_decide (n_type node = VFS_FILE)) then mret (VFS_ERR_IS_DIR, buffer) else
  _ ← use_drive (fs_drive obj);
  let bytes_to_read := if size <? n_size node then size else n_size node in
  data ← on_fat (read_file_data fuel (n_inode node) true size bytes_to_read);
  buffer ← lift (if (length data <=? length buffer)%nat then Some (blit buffer 0 data) else None);
  mret (swrap 32 (Z.of_nat (length data)), buffer).

(** ** Directories *)

Definition fat32_vfs_readdir (obj : vfs_filesystem) (node : vfs_node) (index : Z) (entry : vfs_dir_entry) : A (Z * vfs_dir_entry) :=
  if negb (bool_decide (n_type node = VFS_DIRECTORY)) then mret (VFS_ERR_NOT_DIR, entry) else
  _ ← use_drive (fs_drive obj);
  bs ← on_fat (gets boot_sector);
  part ← on_fat (gets partition_lba_offset);
  entries ← allocate alloc_ok (512 * sectors_per_cluster bs);
  match entries with
  | None => mret (VFS_ERR_NO_MEMORY, entry)
  | Some entries =>
      b ← on_fat (read_all (cluster_to_sector bs part (n_inode node)) (Z.to_nat (sectors_per_cluster bs)));
      match b with
      | None => _ ← deallocate entries; mret (VFS_ERR_IO, entry)
      | Some b =>
          match nth_listed b 0 (Z.to_nat (sectors_per_cluster bs) * 16) 0 index with
          | None => _ ← deallocate entries; mret (VFS_ERR_NOT_FOUND, entry)
          | Some e => entry ← lift (fat32_entry_to_vfs_entry e entry); _ ← deallocate entries; mret (VFS_OK, entry)
          end
      end
  end.

Definition fat32_vfs_stat (fs : Z) (obj : vfs_filesystem) (path : buf) (st : vfs_dir_entry) : A (Z * vfs_dir_entry) :=
  r ← fat32_vfs_open fs obj path;
  let '(result, node) := r in
  if negb (result =? VFS_OK) then mret (result, st) else
  n ← lift (put_name256 (de_name st) (n_name node));
  _ ← fat32_vfs_close obj node;
  mret (VFS_OK, Mk_dirent n (n_type node) (n_size node) (n_inode node) (de_create_time st) (de_modify_time st) (de_access_time st) (de_attributes st)).

(** ** The table *)

Definition fat32_vfs_ops (fuel : nat) : vfs_ops (option (fat32_world D)) :=
  Mk_ops
    (fun w fs obj drive => run_op (fat32_vfs_mount fs obj drive) w (0, obj))
    (Some (fun w _ obj => run_op (fat32_vfs_unmount obj) w 0))
    (Some (fun w fs obj path => run_op (fat32_vfs_open fs obj path) w (0, no_node)))
    (Some (fun w obj node => run_op (fat32_vfs_close obj node) w 0))
    (Some (fun w obj node offset size buffer => run_op (fat32_vfs_read fuel obj node offset size buffer) w (0, buffer)))
    (Some (fun w _ _ _ _ _ => (VFS_ERR_UNSUPPORTED, w)))
    (Some (fun w obj node index entry => run_op (fat32_vfs_readdir obj node index entry) w (0, entry)))
    (Some (fun w _ _ _ => (VFS_ERR_UNSUPPORTED, w)))
    (Some (fun w _ _ _ => (VFS_ERR_UNSUPPORTED, w)))
    (Some (fun w _ _ _ => (VFS_ERR_UNSUPPORTED, w)))
    (Some (fun w _ _ _ => (VFS_ERR_UNSUPPORTED, w)))
    (Some (fun w fs obj path st => run_op (fat32_vfs_stat fs obj path st) w (0, st))).
End Adapter.

(** * Properties *)

(** ** Names *)

Lemma up_to_blank_app w k : Forall (fun c => c <> 32) w -> up_to_blank (w ++ replicate k 32) = w.
Proof.
  induction 1 as [|c w Hc Hw IH]; [by destruct k|]. cbn [up_to_blank app]. destruct (Z.eqb_spec c 32); [done|]. by rewrite IH.
Qed.

Lemma upper_nonblank w : Forall alnum w -> Forall (fun c => c <> 32) (upper w).
Proof. intros Hw. apply Forall_map. eapply Forall_impl; [exact Hw|]. intros c Hc. cbn. pose proof (alnum_range c Hc). lia. Qed.

(** The name that is shown for an entry is the one it was made for, in upper case. *)
Lemma display_stored b x en : dos_name b x -> slice en 0 11 = stored b x -> display_name en = upper b ++ (match x with [] => [] | _ => 46 :: upper x end) ++ [0].
Proof.
  intros Hn He. destruct (stored_parts b x Hn) as [S1 S2]. pose proof (length_stored b x Hn) as Hl. destruct Hn as (Hb & Hx & Hlb & Hlx).
  assert (forall i n, (i + n <= 11)%nat -> slice en i n = slice (stored b x) i n) as Hs.
  { intros i n Hin. rewrite <- He. unfold slice. rewrite drop_0, skipn_firstn_comm, take_take. f_equal. lia. }
  unfold display_name. rewrite !Hs, S1, S2 by lia. rewrite up_to_blank_app by (by apply upper_nonblank). f_equal. f_equal.
  assert (slice (stored b x) 8 1 = take 1 (upper x ++ replicate (3 - length x) 32)) as ->.
  { rewrite <- S2. unfold slice. by rewrite take_take. }
  destruct x as [|c x]; [done|]. rewrite up_to_blank_app by (by apply upper_nonblank). pose proof (upper_nonblank (c :: x) Hx) as Hne.
  apply Forall_cons in Hne as [Hc _]. change (le_get (take 1 (upper (c :: x) ++ replicate (3 - length (c :: x)) 32))) with (toupper c + 256 * 0).
  by destruct (Z.eqb_spec (toupper c + 256 * 0) 32); [lia|].
Qed.

(** ** The directory *)

(** The entries that are listed, in order. *)
Definition listed (e : buf) : bool := negb (e_first e =? 229) && negb (e_attr e =? 15) && (Z.land (e_attr e) 8 =? 0).
Fixpoint listing (b : buf) (j n : nat) : list buf :=
  match n with
  | O => []
  | S n' => let e := entry_at b j in
            if e_first e =? 0 then [] else if listed e then e :: listing b (S j) n' else listing b (S j) n'
  end.

Lemma nth_listed_ok b j n current index : 0 <= current <= index ->
  nth_listed b j n current index = listing b j n !! Z.to_nat (index - current).
Proof.
  revert j current. induction n as [|n IH]; intros j current Hi; [done|]. cbn [nth_listed listing].
  destruct (e_first (entry_at b j) =? 0); [done|]. unfold listed.
  destruct (e_first (entry_at b j) =? 229), (e_attr (entry_at b j) =? 15), (Z.land (e_attr (entry_at b j)) 8 =? 0); cbn [negb andb]; rewrite ?IH by lia; try done.
  destruct (Z.eqb_spec current index) as [->|]; [by rewrite Z.sub_diag|]. rewrite IH by lia.
  by replace (Z.to_nat (index - current)) with (S (Z.to_nat (index - (current + 1)))) by lia.
Qed.

Lemma listing_bytes b j n e : bytes_ok b -> e ∈ listing b j n -> bytes_ok e.
Proof.
  intros Hb. revert j. induction n as [|n IH]; intros j; cbn [listing]; [by intros ?%not_elem_of_nil|].
  destruct (e_first (entry_at b j) =? 0); [by intros ?%not_elem_of_nil|]. destruct (listed _); [|apply IH]. rewrite elem_of_cons.
  intros [->|]; [by apply bytes_ok_slice|by eapply IH].
Qed.

Lemma scan_found_entry d b name j n e : scan_entries d b name j n = Some (ScanFound e) -> exists k, e = entry_at b k.
Proof.
  revert j. induction n as [|n IH]; intros j; [done|]. cbn [scan_entries].
  destruct (e_first _ =? 0); [done|]. destruct (skipped _); [apply IH|]. destruct (d && _); [apply IH|].
  destruct (compare_names _ _) as [c|]; [|done]. cbn [mbind option_bind]. destruct (c =? 0); [|apply IH]. intros [= <-]. by exists j.
Qed.

(** ** Through the VFS *)

Lemma terminated_last (s : buf) : bytes_ok s -> terminated (s ++ [0]).
Proof.
  induction 1 as [|c s Hc Hs (n & r & Hn & E)]; [exists [], []; split; [constructor|done]|].
  destruct (decide (c = 0)) as [->|Hz]; [exists [], (s ++ [0]); split; [constructor|done]|].
  exists (c :: n), r. split; [constructor; [unfold byte_ok in Hc; lia|done]|]. cbn [app]. by rewrite E.
Qed.

Lemma up_to_blank_bytes w : bytes_ok w -> bytes_ok (up_to_blank w).
Proof. induction 1 as [|c w Hc Hw IH]; [constructor|]. cbn [up_to_blank]. destruct (c =? 32); by constructor. Qed.

Lemma put_name256_ok b e : length b = 256%nat -> bytes_ok e -> exists n, put_name256 b (display_name e) = Some n.
Proof.
  intros Hb He. unfold display_name. rewrite app_assoc.
  destruct (terminated_last (up_to_blank (slice e 0 8) ++ (if le_get (slice e 8 1) =? 32 then [] else 46 :: up_to_blank (slice e 8 3)))) as (n & r & Hn & E).
  { apply Forall_app. split; [by apply up_to_blank_bytes, bytes_ok_slice|]. destruct (_ =? 32); [constructor|]. constructor; [by vm_compute|].
    by apply up_to_blank_bytes, bytes_ok_slice. }
  rewrite E. unfold put_name256. rewrite strncpy_spec by (done || lia). cbn [mbind option_bind]. unfold wr, blen. list_simplifier.
  destruct (Z.leb_spec 0 255), (Z.ltb_spec 255 (Z.of_nat (length (take 255 n ++ replicate (255 - length n) 0 ++ drop 255 b)))) as [|Hbad]; try lia; [by eexists|].
  exfalso. rewrite !length_app, length_take, length_replicate, length_drop in Hbad. lia.
Qed.

Section Through.
Context {D : Type} `{BlockDev D} (strict : bool) (alloc_ok : Z -> bool) (fresh : nat -> buf) (fuel : nat).
Context (alloc_all : forall n, alloc_ok n = true) (Hfresh : forall n, length (fresh n) = n).
Context (drive_at : Z -> option (Z * bool)) (ops_at : Z -> option (vfs_ops (option (fat32_world D)))).
Implicit Types (w : fat32_world D) (s : fat32 D).

Definition with_fat w s : fat32_world D := Mk_fworld s (fw_objs w) (fw_roots w).

Lemma on_fat_ok {X} (m : M (fat32 D) X) w x s : m (fw_fat w) = Some (x, s) -> on_fat m w = Some (x, with_fat w s).
Proof. intros E. unfold on_fat. by rewrite E. Qed.

Lemma use_drive_ok p bm w : drive_at p = Some bm -> use_drive drive_at p w = Some (tt, with_fat w (with_current bm (fw_fat w))).
Proof. intros E. unfold use_drive. by rewrite (lift_bind _ _ _ _ E). Qed.

Lemma entry_size s c k : volume_ok s -> 0 <= e_size (entry_at (data s c) k) < 2 ^ 32.
Proof.
  intros Hok. unfold e_size. pose proof (le_get_range (slice (entry_at (data s c) k) 28 4) ltac:(apply bytes_ok_slice, bytes_ok_slice; by apply data_length)) as Hr4.
  pose proof (Z.pow_le_mono_r 256 (Z.of_nat (length (slice (entry_at (data s c) k) 28 4))) 4 ltac:(lia)) as Hp.
  unfold slice at 1 in Hp. rewrite length_take in Hp. lia.
Qed.

Lemma name_str_last (b x : buf) : short_name b x -> exists nm, name_str b x = nm ++ [0] /\ nm <> [].
Proof.
  intros (_ & _ & Hl & _). unfold name_str. destruct x as [|c x]; eexists; (split; [by rewrite ?app_comm_cons, ?app_assoc|]); destruct b; (done || (simpl in Hl; lia)).
Qed.

(** A FAT32 file system in the mount list, and the volume that its drive selects. *)
Record fat32_mounted (v : vfs_state (option (fat32_world D))) (m : vfs_mount_t) (rel : buf) (obj : vfs_filesystem) w s : Prop := Mk_fmounted {
  fm_at : mounted_at ops_at v m rel obj (fat32_vfs_ops strict alloc_ok fresh drive_at fuel);
  fm_world : world v = Some w; fm_objs : objects_ok (fw_objs w); fm_root : fs_root obj ∈ o_live (fw_objs w);
  fm_drive : exists bm, drive_at (fs_drive obj) = Some bm /\ s = with_current bm (fw_fat w);
  fm_volume : volume_ok s; fm_cwd : 2 <= current_directory_cluster s < get_total_clusters (boot_sector s)
}.

(** A file of the current directory, by the format of the volume: in the first cluster of
    the directory, [e] is the first entry in use with the name [b] and the extension [x];
    its clusters are the chain of the start cluster. *)
Record fat32_file s (b x e : buf) (l : list Z) : Prop := Mk_ffile {
  ff_name : short_name b x;
  ff_entry : names_entry (data s (current_directory_cluster s)) (Z.to_nat (sectors_per_cluster (boot_sector s)) * 16) b x e;
  ff_type : entry_type e = VFS_FILE; ff_chain : chain s (read_start_cluster e :: l); ff_fuel : (S (length l) < fuel)%nat
}.

(** The search with its structures is [find_file_in_directory], and leaves the copy of the
    entry as the only new one. *)
Lemma find_file_object_refines w name : objects_ok (fw_objs w) ->
  match find_file_in_directory alloc_ok name (fw_fat w) with
  | None => find_file_object alloc_ok name w = None
  | Some (e, s) => exists r o, find_file_object alloc_ok name w = Some (r, Mk_fworld s o (fw_roots w)) /\ option_map fst r = e /\ objects_ok o /\
      match r with
      | Some (_, p) => p <> 0 /\ p ∉ o_live (fw_objs w) /\ o_live o = ({[p]} ∪ o_live (fw_objs w))
      | None => o_live o = o_live (fw_objs w)
      end
  end.
Proof.
  destruct w as [s0 o0 roots]. cbn [fw_fat fw_objs fw_roots]. intros Ho. unfold find_file_in_directory, find_file_object, sizeof_dir_entry. rewrite gets_bind.
  erewrite (bind_eq (on_fat _)) by reflexivity. cbn [fw_fat fw_objs fw_roots].
  destruct (new_object_ok _ Ho) as (Ho1 & Hnz & Hf). set (o1 := snd (new_object o0)) in *.
  destruct (alloc_ok (512 * sectors_per_cluster (boot_sector s0))) eqn:E512; cbn [negb].
  2: { erewrite bind_eq by (unfold allocate; rewrite E512; reflexivity). eexists None, o0. done. }
  assert (forall k : option Z -> M (fat32_world D) (option (buf * Z)), (allocate alloc_ok (512 * sectors_per_cluster (boot_sector s0)) ≫= k) (Mk_fworld s0 o0 roots)
    = k (Some (o_next o0)) (Mk_fworld s0 o1 roots)) as -> by (intros k; apply bind_eq; unfold allocate; by rewrite E512).
  unfold mbind at 1, M_bind at 1. destruct (search_directory name s0) as [[e s]|] eqn:Es.
  2: { unfold mbind at 1, M_bind at 1, on_fat. cbn. by rewrite Es. }
  erewrite (bind_eq (on_fat _)) by (unfold on_fat; cbn; rewrite Es; reflexivity). cbn [fw_objs fw_roots].
  destruct (free_object_ok (o_next o0) o1 Ho1 ltac:(cbn; set_solver)) as (o2 & E2 & Ho2 & L2).
  assert (o_live o2 = o_live o0) as L by (rewrite L2; cbn in *; set_solver).
  assert (forall k : unit -> M (fat32_world D) (option (buf * Z)), (deallocate (o_next o0) ≫= k) (Mk_fworld s o1 roots) = k tt (Mk_fworld s o2 roots)) as Hdel
    by (intros k; apply bind_eq; unfold deallocate; cbn [objs with_objs fat32_world_objects fw_objs]; by rewrite E2).
  destruct e as [e|]; cbn beta iota.
  2: { rewrite Hdel. by eexists None, o2. }
  destruct (alloc_ok 32) eqn:E32.
  - erewrite (bind_eq (allocate _ _)) by (unfold allocate; rewrite E32; reflexivity). cbn [objs with_objs fat32_world_objects fw_objs fw_fat fw_roots].
    destruct (new_object_ok o1 Ho1) as (Ho3 & Hnz3 & Hf3).
    destruct (free_object_ok (o_next o0) (snd (new_object o1)) Ho3 ltac:(cbn; set_solver)) as (o4 & E4 & Ho4 & L4).
    erewrite (bind_eq (deallocate _)) by (unfold deallocate; cbn [objs with_objs fat32_world_objects fw_objs]; change (Mk_objects _ _) with (snd (new_object o1)); rewrite E4; reflexivity).
    eexists (Some (e, o_next o1)), o4. split; [done|]. split_and!; [done|done|exact Hnz3| |].
    + cbn in *. set_solver.
    + rewrite L4. cbn in *. pose proof (proj2 Ho). set_solver by lia.
  - erewrite (bind_eq (allocate _ _)) by (unfold allocate; rewrite E32; reflexivity). rewrite Hdel. by eexists None, o2.
Qed.

(** What an open leaves: the entry at [p] and the node at [a] are the only new structures. *)
Definition opened (o : objects) (p a : Z) (o' : objects) : Prop :=
  objects_ok o' /\ p <> 0 /\ p ∉ o_live o /\ a ∉ ({[p]} ∪ o_live o) /\ o_live o' = ({[a]} ∪ ({[p]} ∪ o_live o)).

Lemma fat32_open_ok fs obj rel w bm nm e k : let s := with_current bm (fw_fat w) in
  objects_ok (fw_objs w) -> drive_at (fs_drive obj) = Some bm -> nonul rel -> nm <> [] -> skip_slash (rel ++ [0]) = Some (nm ++ [0]) ->
  volume_ok s -> 2 <= current_directory_cluster s < get_total_clusters (boot_sector s) -> e = entry_at (data s (current_directory_cluster s)) k ->
  scan_entries false (data s (current_directory_cluster s)) (nm ++ [0]) 0 (Z.to_nat (sectors_per_cluster (boot_sector s)) * 16) = Some (ScanFound e) ->
  exists n d p a o, fat32_vfs_open alloc_ok fresh drive_at fs obj (rel ++ [0]) w =
      Some ((VFS_OK, Mk_node a n (entry_type e) (read_start_cluster e) (e_size e) 0 fs p), Mk_fworld (with_dev s d) o (fw_roots w)) /\
    opened (fw_objs w) p a o /\ dev_ok d (drive_base s) /\ dev_equiv (dev s) d.
Proof.
  intros s Ho Hbm Hrel Hne Esk Hok Hc Ek Hscan. unfold fat32_vfs_open. rewrite (bind_eq _ _ _ _ _ (use_drive_ok _ bm w Hbm)).
  destruct (not_root_path rel nm Hrel Esk Hne) as (z & Ez & Hz). rewrite (lift_bind _ _ _ _ Ez), Hz, (lift_bind _ _ _ _ Esk).
  destruct (find_file_ok alloc_ok alloc_all s (nm ++ [0]) (ScanFound e) Hok Hc Hscan) as (d & Ef & Hd & He).
  pose proof (find_file_object_refines (with_fat w s) (nm ++ [0]) Ho) as Hobj. cbn [fw_fat with_fat] in Hobj. rewrite Ef in Hobj.
  destruct Hobj as (r & o & Eo & Er & Hoo & Hr). rewrite (bind_eq _ _ _ _ _ Eo).
  destruct r as [[e' p]|]; [|done]. injection Er as ->. destruct Hr as (Hp & Hpo & Hlo). cbn [with_fat fw_objs] in Hpo, Hlo. cbn beta iota.
  erewrite bind_eq by (unfold allocate; rewrite alloc_all; reflexivity). cbn beta iota.
  destruct (put_name256_ok (fresh 256) e (Hfresh 256)) as (n & En).
  { rewrite Ek. apply bytes_ok_slice. by apply data_length. }
  rewrite (lift_bind _ _ _ _ En). destruct (new_object_ok o Hoo) as (Ho1 & _ & Hf1).
  exists n, d, p, (o_next o), (snd (new_object o)). split; [done|]. split; [|done]. split_and!; [done|done|done|by rewrite <- Hlo|]. cbn. by rewrite Hlo.
Qed.

Lemma current_again bm s d : with_current bm (with_dev (with_current bm s) d) = with_dev (with_current bm s) d.
Proof. done. Qed.

Lemma fat32_read_ok obj node w bm s d l (offset size : Z) (buffer : buf) :
  drive_at (fs_drive obj) = Some bm -> s = with_current bm s -> fw_fat w = with_dev s d -> volume_ok s -> dev_ok d (drive_base s) -> dev_equiv (dev s) d ->
  n_type node = VFS_FILE -> chain s (n_inode node :: l) -> (S (length l) < fuel)%nat -> 0 <= size < 2 ^ 31 -> 0 <= n_size node < 2 ^ 32 ->
  size <= Z.of_nat (length buffer) ->
  let out := take (Z.to_nat (Z.min size (n_size node))) (concat (map (data s) (n_inode node :: l))) in
  exists s', fat32_vfs_read drive_at fuel obj node offset size buffer w = Some ((Z.of_nat (length out), blit buffer 0 out), with_fat w s').
Proof.
  intros Hbm Es Ew Hok Hd He Ht Hch Hfuel Hsz Hn Hb out. unfold fat32_vfs_read. rewrite bool_decide_true by done. cbn [negb].
  rewrite (bind_eq _ _ _ _ _ (use_drive_ok _ bm w Hbm)). rewrite Ew, Es, current_again, <- Es.
  set (want := if size <? n_size node then size else n_size node). assert (want = Z.min size (n_size node)) as Ewant by (unfold want; destruct (Z.ltb_spec size (n_size node)); lia).
  destruct (read_file_data_spec (with_dev s d) fuel (n_inode node) l size want (volume_equiv s d Hok Hd He) (chain_equiv s d _ He Hch) Hfuel ltac:(lia) ltac:(lia))
    as (out' & d' & E & _ & _ & Eo & Hle).
  rewrite (bind_eq _ _ _ _ _ (on_fat_ok _ (with_fat w (with_dev s d)) _ _ E)).
  assert (out' = out) as ->.
  { rewrite Eo. unfold out. rewrite Ewant. replace (Z.min size (Z.min size (n_size node))) with (Z.min size (n_size node)) by lia.
    f_equal. f_equal. apply map_ext. intros c. by apply data_equiv. }
  rewrite (proj2 (Nat.leb_le _ _)) by lia. rewrite (lift_bind _ _ _ _ eq_refl). eexists. rewrite swrap_small by lia. done.
Qed.

(** Closing a node that is not the root frees it and its entry. *)
Lemma fat32_close_ok obj node w o : objects_ok o -> fs_root obj ∈ o_live o -> opened o (n_fs_specific node) (n_addr node) (fw_objs w) ->
  exists w', fat32_vfs_close obj node w = Some (VFS_OK, w') /\ o_live (fw_objs w') = o_live o.
Proof.
  intros Ho Hroot (Ho2 & Hp & Hpo & Ha & L). unfold fat32_vfs_close.
  destruct (Z.eqb_spec (n_addr node) (fs_root obj)) as [Heq|_]; [exfalso; apply Ha; rewrite Heq; by apply elem_of_union_r|].
  destruct (Z.eqb_spec (n_fs_specific node) 0); [done|]. cbn [negb].
  destruct (free_object_ok (n_fs_specific node) (fw_objs w)) as (o3 & E3 & Ho3 & L3); [done|rewrite L; by apply elem_of_union_r, elem_of_union_l, elem_of_singleton|].
  erewrite bind_eq by (unfold deallocate; cbn [objs fat32_world_objects]; rewrite E3; reflexivity).
  destruct (free_object_ok (n_addr node) o3 Ho3) as (o4 & E4 & Ho4 & L4); [rewrite L3, L; apply elem_of_difference; split; [by apply elem_of_union_l, elem_of_singleton|]; intros E%elem_of_singleton; apply Ha; rewrite E; by apply elem_of_union_l, elem_of_singleton|].
  erewrite bind_eq by (unfold deallocate; cbn [objs with_objs fat32_world_objects fw_objs]; rewrite E4; reflexivity).
  eexists. split; [done|]. cbn. rewrite L4, L3, L. clear -Hpo Ha. apply set_eq. intros q. rewrite !elem_of_difference, !elem_of_union, !elem_of_singleton in *. split; [naive_solver|]. intros Hq. split_and!; [by right; right|by intros ->|by intros ->; tauto].
Qed.

(** C9: a file of a FAT32 volume through the VFS.  For a volume mounted anywhere, and a file
    whose entry is the first in use with its 8.3 name in the first cluster of the volume's
    current directory, [vfs_open] with the absolute path succeeds with a node of the file's
    size; [vfs_read] on it returns the first bytes of the file's cluster chain, as many as
    asked for and as the size in the directory entry allows, whatever the offset; and
    [vfs_close] frees everything that was allocated on the way.  Allocations succeed. *)
Theorem vfs_reads_fat32 v m rel obj w s (b x e : buf) (l : list Z) (offset size : Z) (buffer : buf) :
  fat32_mounted v m rel obj w s -> fat32_file s b x e l -> skip_slash (rel ++ [0]) = Some (name_str b x) ->
  0 <= size < 2 ^ 31 -> size <= Z.of_nat (length buffer) ->
  let out := take (Z.to_nat (Z.min size (e_size e))) (concat (map (data s) (read_start_cluster e :: l))) in
  exists node v1 v2 v3,
    vfs_open ops_at v (Some (mpath m ++ rel ++ [0])) true = Some (VFS_OK, Some node, v1) /\ n_size node = e_size e /\
    vfs_read ops_at v1 (Some node) offset size (Some buffer) = Some (Z.of_nat (length out), Some (blit buffer 0 out), v2) /\
    vfs_close ops_at v2 (Some node) = Some (VFS_OK, v3) /\
    exists w', world v3 = Some w' /\ o_live (fw_objs w') = o_live (fw_objs w).
Proof.
  intros [Mat Mw Mo Mr (bm & Hbm & Es) Mv Mc] [Fn Fe Ft Fc Ff] Esk Hsz Hb out. destruct (name_str_last b x Fn) as (nm & Enm & Hne). rewrite Enm in Esk.
  destruct (skip_slash_rel rel nm Esk Hne) as [Hr _]. pose proof (directory_finds s b x e Mv Fn Fe) as Fs. rewrite Enm in Fs.
  pose proof (proj2 (proj1 (Forall_app _ _ _) (mt_path _ _ _ _ _ _ Mat))) as Hrel. destruct Fe as (k & _ & Ek & _).
  rewrite Es in Mv, Mc, Fs, Ek. destruct (fat32_open_ok (m_fs m) obj rel w bm nm e k Mo Hbm Hrel Hne Esk Mv Mc Ek Fs) as (n & d & p & a & o & E1 & Hop & Hd & He).
  rewrite <- Es in Mv, Mc, Fs, Ek, E1, Hd, He. set (node := Mk_node _ _ _ _ _ _ _ _) in E1. set (w1 := Mk_fworld _ _ _) in E1.
  assert (0 <= e_size e < 2 ^ 32) as Hes by (rewrite Ek; by apply (entry_size s)).
  destruct (fat32_read_ok obj node w1 bm s d l offset size buffer Hbm ltac:(by rewrite Es) eq_refl Mv Hd He Ft Fc Ff Hsz Hes Hb) as (s' & E2).
  destruct (fat32_close_ok obj node (with_fat w1 s') (fw_objs w) Mo Mr Hop) as (w4 & E4 & L4).
  exists node, (with_world v (Some w1)), (with_world v (Some (with_fat w1 s'))), (with_world v (Some w4)). split_and!; [|done| | |by exists w4].
  - eapply (mounted_open ops_at v m rel obj _ Mat); [done|done|]. cbn. unfold run_op. by rewrite Mw, E1.
  - eapply (mounted_read ops_at v m rel obj _ Mat); [done|done|]. cbn. unfold run_op. by rewrite E2.
  - eapply (mounted_close ops_at v m rel obj _ Mat); [done|done|]. cbn. unfold run_op. by rewrite E4.
Qed.

(** Listing a directory by index gives its visible entries, each once and in order: the
    result for an index is the entry at that place among those that are neither deleted
    nor parts of long names nor volume labels, and "not found" behind the last. *)
Theorem fat32_readdir_lists obj node w bm (index : Z) (entry : vfs_dir_entry) : let s := with_current bm (fw_fat w) in
  objects_ok (fw_objs w) -> drive_at (fs_drive obj) = Some bm -> n_type node = VFS_DIRECTORY -> volume_ok s -> 2 <= n_inode node < get_total_clusters (boot_sector s) ->
  0 <= index -> length (de_name entry) = 256%nat ->
  exists r w', fat32_vfs_readdir alloc_ok drive_at obj node index entry w = Some (r, w') /\ o_live (fw_objs w') = o_live (fw_objs w) /\
    match listing (data s (n_inode node)) 0 (Z.to_nat (sectors_per_cluster (boot_sector s)) * 16) !! Z.to_nat index with
    | Some e => exists n, put_name256 (de_name entry) (display_name e) = Some n /\
        r = (VFS_OK, Mk_dirent n (entry_type e) (e_size e) (read_start_cluster e) 0 0 0 (e_attr e))
    | None => r = (VFS_ERR_NOT_FOUND, entry)
    end.
Proof.
  intros s Ho Hbm Ht Hok Hc Hi Hn. unfold fat32_vfs_readdir. rewrite bool_decide_true by done. cbn [negb].
  rewrite (bind_eq _ _ _ _ _ (use_drive_ok _ bm w Hbm)). fold s. erewrite bind_eq by reflexivity. erewrite bind_eq by reflexivity.
  cbn [fw_fat with_fat]. erewrite bind_eq by (unfold allocate; rewrite alloc_all; reflexivity). cbn beta iota.
  destruct (new_object_ok _ Ho) as (Ho1 & _ & Hf). destruct (free_object_ok (o_next (fw_objs w)) _ Ho1 ltac:(cbn; set_solver)) as (o2 & E2 & _ & L2).
  assert (o_live o2 = o_live (fw_objs w)) as L by (rewrite L2; cbn in *; set_solver).
  assert (forall s', deallocate (o_next (fw_objs w)) (Mk_fworld s' (snd (new_object (fw_objs w))) (fw_roots w)) = Some (tt, Mk_fworld s' o2 (fw_roots w))) as Hfree.
  { intros s'. unfold deallocate. cbn [objs with_objs fat32_world_objects fw_objs]. by rewrite E2. }
  destruct (read_all_cluster s _ Hok Hc) as (d & Er & _ & _).
  erewrite bind_eq by (unfold on_fat; cbn [fw_fat with_objs fat32_world_objects with_fat]; rewrite Er; reflexivity). cbn beta iota. rewrite nth_listed_ok by lia. rewrite Z.sub_0_r.
  destruct (listing _ 0 _ !! Z.to_nat index) as [e|] eqn:El.
  2: { rewrite (bind_eq _ _ _ _ _ (Hfree _)). by eexists _, _. }
  pose proof (listing_bytes _ _ _ _ (proj2 (data_length s (n_inode node) Hok)) (list_elem_of_lookup_2 _ _ _ El)) as He.
  destruct (put_name256_ok _ e Hn He) as (n & En). unfold fat32_entry_to_vfs_entry. rewrite En. cbn [mbind option_bind].
  rewrite (lift_bind _ _ _ _ eq_refl), (bind_eq _ _ _ _ _ (Hfree _)). eexists _, _. split; [reflexivity|]. split; [done|]. by exists n.
Qed.
End Through.

(** ** Mounting at start-up *)

(** The first mount of a FAT32 volume that has an FSInfo sector is undefined: it is read
    through [current_drive], which is NULL until a mount has succeeded. *)
Theorem first_mount_undefined {D} `{BlockDev D} (alloc_ok : Z -> bool) (fresh : nat -> buf) (drive_at : Z -> option (Z * bool))
    (fs : Z) (obj : vfs_filesystem) (drive : Z) (bm : Z * bool) (w : fat32_world D) (b : buf) (d : D) :
  drive_base (fw_fat w) < 0 -> drive <> 0 -> drive_at drive = Some bm ->
  ata_read_sector (fst bm) 0 (snd bm) (dev (fw_fat w)) = (Some b, d) ->
  fs_info (parse_boot_sector b) <> 0 -> fs_info (parse_boot_sector b) <> 65535 ->
  fat32_vfs_mount false alloc_ok fresh drive_at fs obj drive w = None.
Proof.
  intros Hn Hd Hbm Er H0 H1. unfold fat32_vfs_mount. destruct (Z.eqb_spec drive 0); [done|]. rewrite (lift_bind _ _ _ _ Hbm).
  unfold mbind at 1, M_bind at 1. enough (fat32_init_fs false (fst bm) (snd bm) (fw_fat w) = None) as E by (unfold on_fat; by rewrite E).
  unfold fat32_init_fs. erewrite bind_eq by (cbn beta; rewrite Er; reflexivity). cbn iota.
  rewrite !modify_bind. cbn [andb]. rewrite modify_bind. destruct (Z.eqb_spec (fs_info (parse_boot_sector b)) 0), (Z.eqb_spec (fs_info (parse_boot_sector b)) 65535); try done.
  cbn [negb andb]. unfold read_fsinfo, read_lba, mbind, M_bind, gets. cbn. by rewrite (proj2 (Z.ltb_lt _ _) Hn).
Qed.

(** ** Witnesses *)

(** A directory with the file "KERNEL.BIN", 600 bytes in the clusters 5 and 7. *)
Definition kernel_entry : buf := stored kernel_b bin_e ++ [32] ++ zeros 8 ++ zeros 2 ++ zeros 4 ++ le_put 2 5 ++ le_put 4 600.
Definition kernel_dir : buf := kernel_entry ++ zeros 480.
Definition vol_kernel : fat32 RamDisk := vol_with fat_file [(2, kernel_dir); (5, page 65); (7, page 66)].
Lemma vol_kernel_ok : volume_ok vol_kernel.
Proof.
  apply vol_with_ok; [apply fat_file_ok..|]. repeat apply Forall_cons_2; [..|apply Forall_nil_2]; try (apply page_ok; unfold byte_ok; lia).
  split; [reflexivity|]. apply bytes_check. vm_compute. reflexivity.
Qed.

Definition hdd (a : Z) : option (Z * bool) := if a =? 1 then Some (496, true) else if a =? 2 then Some (496, false) else None.
Definition fat32_table : vfs_ops (option (fat32_world RamDisk)) := fat32_vfs_ops false granted zeros hdd 3.
Definition fat32_at (a : Z) : option (vfs_ops (option (fat32_world RamDisk))) := if a =? 8 then Some fat32_table else None.
Definition mnt_fs : vfs_filesystem := Mk_fs (replicate 32 0) 1 8 6 7.
Definition mnt : vfs_mount_t := Mk_mount 30 [47; 109; 110; 116; 0] 40.
Definition kernel_world : fat32_world RamDisk := Mk_fworld vol_kernel (Mk_objects {[6; 7]} 8) ∅.
Definition kernel_vfs : vfs_state (option (fat32_world RamDisk)) :=
  Mk_vfs [] [mnt] 1 (<[40 := mnt_fs]> ∅) (Some kernel_world).
Definition kernel_name : buf := Eval compute in lit_bytes "kernel.bin".

Lemma kernel_mounted : fat32_mounted false granted zeros 3 hdd fat32_at kernel_vfs mnt (47 :: kernel_name) mnt_fs kernel_world vol_kernel.
Proof.
  split; [split|..].
  - repeat constructor. exists [47; 109; 110; 116], []. split; [by repeat constructor|done].
  - apply NoDup_singleton.
  - by left.
  - done.
  - by repeat constructor.
  - done.
  - intros m' Hin. apply list_elem_of_singleton in Hin as ->. done.
  - done.
  - done.
  - done.
  - split; cbn; [lia|]. intros p Hp. apply elem_of_union in Hp as [Hp|Hp]; apply elem_of_singleton in Hp; lia.
  - apply elem_of_union. right. by apply elem_of_singleton.
  - by exists (496, true).
  - exact vol_kernel_ok.
  - by vm_compute.
Qed.

Lemma kernel_named : names_entry (data vol_kernel 2) 16 kernel_b bin_e kernel_entry.
Proof.
  exists 0%nat. split; [lia|]. split; [vm_compute; reflexivity|]. split; [vm_compute; split_and!; discriminate|]. split; [vm_compute; reflexivity|]. intros i Hi. lia.
Qed.

Lemma vfs_reads_fat32_witness :
  exists node v1 v2 v3 w',
    vfs_open fat32_at kernel_vfs (Some (lit "/mnt/kernel.bin")) true = Some (VFS_OK, Some node, v1) /\ n_size node = 600 /\
    vfs_read fat32_at v1 (Some node) 0 1000 (Some (replicate 1000 0)) = Some (600, Some (replicate 512 65 ++ replicate 88 66 ++ replicate 400 0), v2) /\
    vfs_close fat32_at v2 (Some node) = Some (VFS_OK, v3) /\ world v3 = Some w' /\ o_live (fw_objs w') = {[6; 7]}.
Proof.
  destruct (vfs_reads_fat32 false granted zeros 3 (fun _ => eq_refl) zeros_size hdd fat32_at kernel_vfs mnt (47 :: kernel_name) mnt_fs kernel_world vol_kernel
    kernel_b bin_e kernel_entry [7] 0 1000 (replicate 1000 0)) as (node & v1 & v2 & v3 & E1 & N & E2 & E3 & w' & E4 & L).
  - exact kernel_mounted.
  - split; [exact (dos_short _ _ kernel_bin)|exact kernel_named|reflexivity| |cbn; lia].
    replace (read_start_cluster kernel_entry) with 5 by (vm_compute; reflexivity).
    split; [repeat constructor; (lia || reflexivity)|]. split; [split; [vm_compute; reflexivity|done]|].
    intros c Hc. injection Hc as <-. vm_compute. discriminate.
  - reflexivity.
  - lia.
  - cbn. lia.
  - exists node, v1, v2, v3, w'. split; [exact E1|]. split; [exact N|]. split; [|split; [exact E3|split; [exact E4|exact L]]]. rewrite E2.
    match goal with |- Some (?a, Some ?b, _) = _ => replace a with 600 by (vm_compute; reflexivity);
      replace b with (replicate 512 65 ++ replicate 88 66 ++ replicate 400 0) by (vm_compute; reflexivity) end. reflexivity.
Defined.

(** *** Two volumes *)

(** A boot sector with the fields that are used. *)
Definition boot_bytes (bs : fat32_boot_sector) : buf :=
  zeros 11 ++ le_put 2 (bytes_per_sector bs) ++ le_put 1 (sectors_per_cluster bs) ++ le_put 2 (reserved_sector_count bs) ++ le_put 1 (number_of_fats bs) ++
  le_put 2 (root_entry_count bs) ++ zeros 13 ++ le_put 4 (total_sectors_32 bs) ++ le_put 4 (fat_size_32 bs) ++ zeros 4 ++ le_put 4 (root_cluster bs) ++
  le_put 2 (fs_info bs) ++ zeros 16 ++ le_put 1 (boot_signature bs) ++ zeros 445.

(** The second drive holds a volume whose root directory is cluster 3. *)
Definition bs_other : fat32_boot_sector := Mk_bs 512 1 2 2 0 104 1 3 0 41.
Definition two_drives : fat32_world RamDisk :=
  Mk_fworld (with_dev vol_kernel (Mk_ramdisk (<[(496, false, 0) := boot_bytes bs_other]> (ram_sectors (dev vol_kernel))) false)) (Mk_objects {[6; 7]} 8) ∅.

Lemma first_mount_undefined_witness :
  fat32_vfs_mount false granted zeros hdd 40 (Mk_fs (replicate 32 0) 1 8 0 0) 1
    (Mk_fworld (with_current (-1, false) (with_dev vol_kernel (Mk_ramdisk (<[(496, true, 0) := boot_bytes bs100]> ∅) false))) (Mk_objects ∅ 8) ∅) = None.
Proof.
  eapply (first_mount_undefined granted zeros hdd 40 _ 1 (496, true)); [by vm_compute|done|reflexivity|reflexivity| |]; vm_compute; discriminate.
Defined.

(** What an open of the file on the first drive returns. *)
Definition open_kernel (w : fat32_world RamDisk) : option Z :=
  match fat32_vfs_open granted zeros hdd 40 mnt_fs (47 :: kernel_name ++ [0]) w with Some ((r, _), _) => Some r | None => None end.
Definition mount_other (w : fat32_world RamDisk) : option (Z * fat32_world RamDisk) :=
  match fat32_vfs_mount false granted zeros hdd 41 (Mk_fs (replicate 32 0) 2 8 0 0) 2 w with Some ((r, _), w') => Some (r, w') | None => None end.

(** There is one set of variables for all FAT32 volumes: mounting a second drive makes
    the files of the first one inaccessible. *)
Theorem second_mount_hides_first :
  open_kernel two_drives = Some VFS_OK /\
  match mount_other two_drives with Some (r, w) => r = VFS_OK /\ open_kernel w = Some VFS_ERR_NOT_FOUND | None => False end.
Proof. split; [vm_compute; reflexivity|]. vm_compute. split; reflexivity. Qed.
