(* ===== verification/Fat12.v ===== *)
(** fs/fat12/fat12.c: the FAT12 driver for floppy disks.

    The floppy controller (drivers/block/fdd.c) is the interface [Floppy]: reading a
    sector by drive, head, track and sector number.  A directory entry is its 32 bytes.
    Pointers that the code keeps are modelled with what they point to: [current_dir] is
    an index into one allocation of the array [entries], and using it after that
    allocation has been freed is undefined behaviour; so is freeing [buffer] twice. *)

From stdpp Require Import strings.
From S2P Require Import Prelude CString Effects BlockDev.

(** The arguments are drive, head, track, sector; [None] is the error return. *)
Class Floppy (F : Type) := {
  fdc_read_sector : Z -> Z -> Z -> Z -> F -> option buf * F
}.

(** ** Constants *)

Definition FAT12_SECTOR_SIZE : nat := 512.
Definition FAT12_MAX_ROOT_ENTRIES : nat := 224.
Definition FAT12_MIN_CLUSTER : Z := 2.
Definition FAT12_MAX_CLUSTER : Z := 4087.
Definition FAT12_BAD_CLUSTER : Z := 4087.
Definition FAT12_EOC_MIN : Z := 4088.
Definition FAT12_EOC_MAX : Z := 4095.
Definition FAT12_FREE_CLUSTER : Z := 0.
Definition FAT12_RESERVED_CLUSTER : Z := 1.
Definition FAT12_BOOT_SIGNATURE : Z := 43605.
Definition FAT12_DEFAULT_SPT : Z := 18.
Definition FAT12_DEFAULT_HEADS : Z := 2.
Definition FAT12_ENTRY : nat := 32.

(** ** Data *)

Record fat12_boot_sector := Mk_boot12 {
  bytes_per_sector : Z; sectors_per_cluster : Z; reserved_sectors : Z; fat_count : Z; root_entry_count : Z;
  total_sectors : Z; sectors_per_fat : Z; sectors_per_track : Z; heads : Z; total_sectors_large : Z;
  boot_sector_signature : Z
}.

(** The fields of a 512-byte boot sector that the driver uses. *)
Definition parse_boot12 (b : buf) : fat12_boot_sector :=
  Mk_boot12 (le_get (slice b 11 2)) (le_get (slice b 13 1)) (le_get (slice b 14 2)) (le_get (slice b 16 1)) (le_get (slice b 17 2))
    (le_get (slice b 19 2)) (le_get (slice b 22 2)) (le_get (slice b 24 2)) (le_get (slice b 26 2)) (le_get (slice b 32 4))
    (le_get (slice b 510 2)).

Record fat12_t := Mk_fat12 {
  boot_sector : fat12_boot_sector; fat_start : Z; root_dir_start : Z; data_start : Z; fat : option buf
}.

(** The fields of a directory entry. *)
Definition filename (e : buf) : buf := slice e 0 8.
Definition extension (e : buf) : buf := slice e 8 3.
Definition attributes (e : buf) : Z := le_get (slice e 11 1).
Definition first_cluster_low (e : buf) : Z := le_get (slice e 26 2).
Definition file_size (e : buf) : Z := le_get (slice e 28 4).
Definition first_byte (e : buf) : Z := le_get (slice e 0 1).

(** NULL, allocated, or freed but still pointed to. *)
Inductive block := Null | Live | Dangling.

(** A pointer to a directory entry: into the [entries] of one allocation, or elsewhere. *)
Inductive dirptr := InEntries (generation index : nat) | Elsewhere (e : buf).

Record fs12 (F : Type) := Mk_fs12 {
  fat12 : option fat12_t;
  entries : option (list buf);      (* the entries that have been filled in *)
  generation : nat;                 (* of the array [entries] *)
  current_dir : option dirptr;
  buffer : block;
  current_fdd_drive : Z;
  fdd : F
}.
Arguments Mk_fs12 {F}. Arguments fat12 {F}. Arguments entries {F}. Arguments generation {F}. Arguments current_dir {F}.
Arguments buffer {F}. Arguments current_fdd_drive {F}. Arguments fdd {F}.

Definition with_fat12 {F} (s : fs12 F) (x : option fat12_t) : fs12 F :=
  Mk_fs12 x (entries s) (generation s) (current_dir s) (buffer s) (current_fdd_drive s) (fdd s).
Definition with_entries {F} (s : fs12 F) (x : option (list buf)) (g : nat) : fs12 F :=
  Mk_fs12 (fat12 s) x g (current_dir s) (buffer s) (current_fdd_drive s) (fdd s).
Definition with_dir {F} (s : fs12 F) (x : option dirptr) : fs12 F :=
  Mk_fs12 (fat12 s) (entries s) (generation s) x (buffer s) (current_fdd_drive s) (fdd s).
Definition with_buffer {F} (s : fs12 F) (x : block) : fs12 F :=
  Mk_fs12 (fat12 s) (entries s) (generation s) (current_dir s) x (current_fdd_drive s) (fdd s).
Definition with_drive {F} (s : fs12 F) (x : Z) : fs12 F :=
  Mk_fs12 (fat12 s) (entries s) (generation s) (current_dir s) (buffer s) x (fdd s).
Definition with_fdd {F} (s : fs12 F) (x : F) : fs12 F :=
  Mk_fs12 (fat12 s) (entries s) (generation s) (current_dir s) (buffer s) (current_fdd_drive s) x.

(** ** Geometry and clusters *)

(** Track, head and sector; [None]: the product overflows [int]. *)
Definition logical_to_chs (f : option fat12_t) (logical_sector : Z) : option (Z * Z * Z) :=
  if logical_sector <? 0 then Some (0, 0, 0) else
  let '(spt, hds) :=
    match f with
    | Some f => if (0 <? sectors_per_track (boot_sector f)) && (0 <? heads (boot_sector f))
                then (sectors_per_track (boot_sector f), heads (boot_sector f)) else (FAT12_DEFAULT_SPT, FAT12_DEFAULT_HEADS)
    | None => (FAT12_DEFAULT_SPT, FAT12_DEFAULT_HEADS)
    end in
  if 2 ^ 31 <=? spt * hds then None else
  Some (logical_sector / (spt * hds), logical_sector / spt mod hds, logical_sector mod spt + 1).

Definition is_valid_cluster_fat12 (cluster : Z) : bool := (FAT12_MIN_CLUSTER <=? cluster) && (cluster <=? FAT12_MAX_CLUSTER).
Definition is_end_of_chain_fat12 (cluster : Z) : bool := (FAT12_EOC_MIN <=? cluster) && (cluster <=? FAT12_EOC_MAX).

Definition root_dir_sectors (bs : fat12_boot_sector) : Z :=
  u32 (u32 (root_entry_count bs * 32) + u32 (bytes_per_sector bs - 1)) / bytes_per_sector bs.

Definition total_clusters (bs : fat12_boot_sector) : Z :=
  let total := if negb (total_sectors bs =? 0) then total_sectors bs else total_sectors_large bs in
  let root := (root_entry_count bs * 32 + (bytes_per_sector bs - 1)) / bytes_per_sector bs in
  u32 (total - u32 (reserved_sectors bs + fat_count bs * sectors_per_fat bs + root)) / sectors_per_cluster bs.

Definition validate_fat12_boot_sector (bs : option fat12_boot_sector) : bool :=
  match bs with
  | None => false
  | Some bs =>
      if negb (boot_sector_signature bs =? FAT12_BOOT_SIGNATURE) then false
      else if negb (bytes_per_sector bs =? 512) && negb (bytes_per_sector bs =? 1024)
              && negb (bytes_per_sector bs =? 2048) && negb (bytes_per_sector bs =? 4096) then false
      else if (sectors_per_cluster bs =? 0) || (128 <? sectors_per_cluster bs)
              || negb (Z.land (sectors_per_cluster bs) (sectors_per_cluster bs - 1) =? 0) then false
      else if (fat_count bs <? 1) || (2 <? fat_count bs) then false
      else if root_entry_count bs =? 0 then false
      else if 4085 <=? total_clusters bs then false
      else if total_clusters bs <? 2 then false
      else true
  end.

(** [length] characters at [filename]; [strchr] also finds the terminating NUL. *)
Definition is_valid_filename (filename : buf) (length_ : nat) : option bool :=
  if (length filename <? length_)%nat then None else
  Some (forallb (fun ch => isalnum ch || existsb (Z.eqb ch) (lit "!#$%&'()-@^_`{}~")) (take length_ filename)).

(** The successor of a cluster in the FAT in memory; -1 at the end and on errors. *)
Definition get_next_cluster (f : option fat12_t) (current_cluster : Z) : option Z :=
  match f with
  | None => Some (-1)
  | Some f =>
      match fat f with
      | None => Some (-1)
      | Some table =>
          if negb (is_valid_cluster_fat12 current_cluster) then Some (-1) else
          let offset := current_cluster * 3 / 2 in
          let fat_size := u32 (sectors_per_fat (boot_sector f) * Z.of_nat FAT12_SECTOR_SIZE) in
          if fat_size <=? offset + 1 then Some (-1) else
          lo ← table !! Z.to_nat offset;
          hi ← table !! Z.to_nat (offset + 1);
          let next_cluster :=
            if offset mod 2 =? 0 then Z.land (Z.lor lo (Z.shiftl hi 8)) 4095
            else Z.land (Z.lor (Z.shiftr lo 4) (Z.shiftl hi 4)) 4095 in
          if is_end_of_chain_fat12 next_cluster then Some (-1)
          else if next_cluster =? FAT12_BAD_CLUSTER then Some (-1)
          else if (next_cluster =? FAT12_FREE_CLUSTER) || (next_cluster =? FAT12_RESERVED_CLUSTER) then Some (-1)
          else Some next_cluster
      end
  end.

Definition extract_date (fat_date : Z) : Z * Z * Z :=
  (Z.land fat_date 31, Z.land (Z.shiftr fat_date 5) 15, Z.land (Z.shiftr fat_date 9) 127 + 1980).
Definition extract_time (fat_time : Z) : Z * Z * Z :=
  (Z.land (Z.shiftr fat_time 11) 31, Z.land (Z.shiftr fat_time 5) 63, Z.land fat_time 31 * 2).

Section Driver.
Context {F : Type} `{Floppy F} (alloc_ok : Z -> bool) (fresh : nat -> buf).
Abbreviation A := (M (fs12 F)).

(** ** Reading *)

(** The arguments of [fdc_read_sector] are [uint8_t]. *)
Definition fdc_read_with_fallback (drive head track sector : Z) : A (option buf) := fun s =>
  let '(r, f) := fdc_read_sector drive (u8 head) (u8 track) (u8 sector) (fdd s) in Some (r, with_fdd s f).

(** A logical sector into a buffer at an offset; [None] inside: an error. *)
Definition read_logical (f : option fat12_t) (drive ls : Z) (b : buf) (off : nat) : A (option buf) :=
  chs ← lift (logical_to_chs f ls);
  let '(track, head, sector) := chs in
  r ← fdc_read_with_fallback drive head track sector;
  match r with
  | None => mret None
  | Some data => b ← lift (if (off + length data <=? length b)%nat then Some (blit b off data) else None); mret (Some b)
  end.

(** [n] sectors from [ls] on, [step] bytes apart. *)
Fixpoint read_run (f : option fat12_t) (drive ls : Z) (b : buf) (off step n : nat) : A (option buf) :=
  match n with
  | O => mret (Some b)
  | S n' =>
      r ← read_logical f drive ls b off;
      match r with
      | None => mret None
      | Some b => read_run f drive (ls + 1) b (off + step) step n'
      end
  end.

(** ** Mounting *)

(** [f] is the zeroed structure that the caller has allocated. *)
Definition read_fat12 (drive : Z) : A bool :=
  f ← gets fat12;
  match f with
  | None => undef
  | Some f =>
      if boot_sector_signature (boot_sector f) =? 43605 then mret true else
      if negb (alloc_ok (Z.of_nat FAT12_SECTOR_SIZE)) then _ ← modify (fun s => with_buffer s Null); mret false else
      _ ← modify (fun s => with_buffer s Live);
      r ← fdc_read_with_fallback drive 0 0 1;
      _ ← modify (fun s => with_buffer s Dangling);
      match r with
      | None => mret false
      | Some b =>
          let bs := parse_boot12 b in
          _ ← modify (fun s => with_fat12 s (Some (Mk_fat12 bs (fat_start f) (root_dir_start f) (data_start f) (fat f))));
          if negb (validate_fat12_boot_sector (Some bs)) then mret false else
          let fs := reserved_sectors bs in
          let rs := swrap 32 (fs + fat_count bs * sectors_per_fat bs) in
          let ds := swrap 32 (rs + root_dir_sectors bs) in
          let size := u32 (sectors_per_fat bs * bytes_per_sector bs) in
          if negb (alloc_ok size) then
            _ ← modify (fun s => with_fat12 s (Some (Mk_fat12 bs fs rs ds None))); mret false else
          let g := Mk_fat12 bs fs rs ds (Some (fresh (Z.to_nat size))) in
          t ← read_run (Some g) drive fs (fresh (Z.to_nat size)) 0 (Z.to_nat (bytes_per_sector bs)) (Z.to_nat (sectors_per_fat bs));
          match t with
          | None => _ ← modify (fun s => with_fat12 s (Some (Mk_fat12 bs fs rs ds None))); mret false
          | Some t => _ ← modify (fun s => with_fat12 s (Some (Mk_fat12 bs fs rs ds (Some t)))); mret true
          end
      end
  end.

Definition zero_boot12 : fat12_boot_sector := Mk_boot12 0 0 0 0 0 0 0 0 0 0 0.
Definition sizeof_fat12 : Z := 528.

Definition fat12_init_fs (drive : Z) : A bool :=
  _ ← modify (fun s => with_fat12 (with_drive s drive) None);
  if negb (alloc_ok sizeof_fat12) then mret false else
  _ ← modify (fun s => with_fat12 s (Some (Mk_fat12 zero_boot12 0 0 0 None)));
  r ← read_fat12 drive;
  if negb r then _ ← modify (fun s => with_fat12 s None); mret false else mret true.

(** ** Directories *)

(** The entries of a block of [n] entries: those that are kept, at most [room] of them,
    and whether the end mark was met. *)
Fixpoint parse_entries (b : buf) (i n room : nat) : list buf * bool :=
  match n with
  | O => ([], false)
  | S n' =>
      match room with
      | O => ([], false)
      | S room' =>
          let e := slice b (i * FAT12_ENTRY) FAT12_ENTRY in
          if first_byte e =? 0 then ([], true)
          else if first_byte e =? 229 then parse_entries b (i + 1) n' room
          else if Z.land (attributes e) 15 =? 15 then parse_entries b (i + 1) n' room
          else let '(l, stop) := parse_entries b (i + 1) n' room' in (e :: l, stop)
      end
  end.

Definition set_entries (l : list buf) : A unit := modify (fun s => with_entries s (Some l) (generation s)).
Definition drop_entries : A unit := modify (fun s => with_entries s None (generation s)).

(** [entries = malloc(...)]: the array of an earlier call is gone. *)
Definition new_entries : A bool :=
  if alloc_ok (Z.of_nat (FAT12_MAX_ROOT_ENTRIES * FAT12_ENTRY))
  then _ ← modify (fun s => with_entries s (Some []) (S (generation s))); mret true
  else _ ← modify (fun s => with_entries s None (S (generation s))); mret false.

(** The entry behind a pointer; using a freed array is undefined. *)
Definition deref (p : dirptr) : A buf := fun s =>
  match p with
  | Elsewhere e => Some (e, s)
  | InEntries g i =>
      if (g =? generation s)%nat then
        match entries s with Some l => match l !! i with Some e => Some (e, s) | None => None end | None => None end
      else None
  end.

Definition read_root : A Z :=
  ok ← new_entries;
  if negb ok then mret (-1) else
  f ← gets fat12;
  match f with
  | None => undef
  | Some f =>
      let bs := boot_sector f in
      if bytes_per_sector bs =? 0 then undef else
      let n := root_dir_sectors bs in
      let root_bytes := u32 (n * bytes_per_sector bs) in
      if negb (alloc_ok root_bytes) then _ ← drop_entries; mret (-1) else
      drv ← gets current_fdd_drive;
      r ← read_run (Some f) drv (root_dir_start f) (fresh (Z.to_nat root_bytes)) 0 (Z.to_nat (bytes_per_sector bs)) (Z.to_nat n);
      match r with
      | None => _ ← drop_entries; mret (-1)
      | Some b =>
          let l := fst (parse_entries b 0 (Z.to_nat (root_bytes / 32)) FAT12_MAX_ROOT_ENTRIES) in
          _ ← set_entries l; mret (Z.of_nat (length l))
      end
  end.

(** The clusters of a subdirectory. *)
Fixpoint subdir_loop (fuel : nat) (f : fat12_t) (drv cluster : Z) (b : buf) (found : list buf) : A (option (list buf)) :=
  match fuel with
  | O => undef
  | S fuel' =>
      if negb (is_valid_cluster_fat12 cluster && (length found <? FAT12_MAX_ROOT_ENTRIES)%nat) then mret (Some found) else
      let bs := boot_sector f in let spc := sectors_per_cluster bs in
      r ← read_run (Some f) drv (data_start f + (cluster - 2) * spc) b 0 (Z.to_nat (bytes_per_sector bs)) (Z.to_nat spc);
      match r with
      | None => mret None
      | Some b =>
          let '(l, stop) := parse_entries b 0 (Z.to_nat (spc * bytes_per_sector bs / 32)) (FAT12_MAX_ROOT_ENTRIES - length found) in
          let found := found ++ l in
          if stop : bool then mret (Some found) else
          next ← lift (get_next_cluster (Some f) cluster);
          if next <? 0 then mret (Some found) else subdir_loop fuel' f drv next b found
      end
  end.

Definition read_subdir (fuel : nat) (p : dirptr) : A Z :=
  ok ← new_entries;
  if negb ok then mret (-1) else
  f ← gets fat12;
  match f with
  | None => undef
  | Some f =>
      let bs := boot_sector f in
      if bytes_per_sector bs =? 0 then undef else
      e ← deref p;
      let cluster := first_cluster_low e in
      if cluster =? 0 then _ ← drop_entries; read_root else
      if negb (is_valid_cluster_fat12 cluster) then _ ← drop_entries; mret (-1) else
      let size := sectors_per_cluster bs * bytes_per_sector bs in
      if negb (alloc_ok size) then _ ← drop_entries; mret (-1) else
      drv ← gets current_fdd_drive;
      r ← subdir_loop fuel f drv cluster (fresh (Z.to_nat size)) [];
      match r with
      | None => _ ← drop_entries; mret (-1)
      | Some l => _ ← set_entries l; mret (Z.of_nat (length l))
      end
  end.

Definition fat12_read_dir_entries (fuel : nat) (dir : option dirptr) : A Z :=
  match dir with None => read_root | Some p => read_subdir fuel p end.

Definition fat12_read_dir (fuel : nat) : A bool :=
  d ← gets current_dir;
  n ← fat12_read_dir_entries fuel d;
  mret (negb (n <? 0)).

(** The name of a directory as the code compares it, up to eight characters without
    blanks, in the array [trimmed_name]. *)
Definition dir_name (e : buf) : option buf :=
  entry_name ← strncpy (replicate 9 0) (filename e) 8;
  str_trim_spaces (<[8%nat := 0]> entry_name) (replicate 9 0) 8.

(** The loop over the entries found: the index of the first directory with the name. *)
Fixpoint find_dir (l : list buf) (i : nat) (relative_path : buf) : option (option nat) :=
  match l with
  | [] => Some None
  | e :: l' =>
      if first_byte e =? 0 then Some None
      else if (first_byte e =? 229) || (Z.land (attributes e) 16 =? 0) then find_dir l' (S i) relative_path
      else n ← dir_name e; r ← strcmp n relative_path;
           if r =? 0 then Some (Some i) else find_dir l' (S i) relative_path
  end.

Definition fat12_change_directory (fuel : nat) (relative_path : buf) : A bool :=
  d ← gets current_dir;
  n ← fat12_read_dir_entries fuel d;
  if n <? 0 then mret false else
  l ← gets entries;
  match l with
  | None => undef
  | Some l =>
      r ← lift (find_dir l 0 relative_path);
      match r with
      | None => mret false
      | Some i =>
          e ← lift (l !! i);
          t ← lift (dir_name e);
          e ← lift (put_bytes e (List.filter nonblank (take 8 t) ++ [0]));
          _ ← modify (fun s => with_dir (with_entries s (Some (<[i := e]> l)) (generation s)) (Some (InEntries (generation s) i)));
          mret true
      end
  end.

(** ** Files *)

Record fat12_file := Mk_file12 { f_start_cluster : Z; f_name : buf; f_size : Z; f_position : Z; f_mode : buf }.

(** The name of a file as the code compares it: the extension is not trimmed. *)
Definition file_name (e : buf) : option buf :=
  entry_name ← strncpy (replicate 9 0) (filename e) 8;
  entry_ext ← strncpy (replicate 4 0) (extension e) 3;
  t ← str_trim_spaces entry_name (replicate 13 0) 8;
  x ← head entry_ext;
  if negb (x =? 32) then t ← strncat t (lit ".") 1; strncat t entry_ext 3 else Some t.

Fixpoint find_file (l : list buf) (filename : buf) : option (option buf) :=
  match l with
  | [] => Some None
  | e :: l' =>
      if first_byte e =? 0 then Some None
      else if (first_byte e =? 229) || negb (Z.land (attributes e) 16 =? 0) then find_file l' filename
      else n ← file_name e; r ← strcmp n filename;
           if r =? 0 then Some (Some e) else find_file l' filename
  end.

Definition sizeof_file : Z := 44.

Definition fat12_open_file (fuel : nat) (filename mode : option buf) : A (option fat12_file) :=
  match filename, mode with
  | Some filename, Some mode =>
      f ← gets fat12;
      if negb (match f with Some f => match fat f with Some _ => true | None => false end | None => false end) then mret None else
      len ← lift (strlen filename);
      if (len =? 0) || (12 <? len) then mret None else
      d ← gets current_dir;
      n ← fat12_read_dir_entries fuel d;
      if n <? 0 then mret None else
      l ← gets entries;
      match l with
      | None => undef
      | Some l =>
          r ← lift (find_file l filename);
          match r with
          | None => mret None
          | Some e =>
              if negb (is_valid_cluster_fat12 (first_cluster_low e)) then mret None else
              if negb (alloc_ok sizeof_file) then mret None else
              if negb (alloc_ok (if 0 <? file_size e then file_size e else 1)) then mret None else
              nm ← lift (strncpy (replicate 13 0) filename 12);
              mret (Some (Mk_file12 (first_cluster_low e) (<[12%nat := 0]> nm) (file_size e) 0 mode))
          end
      end
  | _, _ => mret None
  end.

(** State of the read loops: bytes read, position, and the caller's buffer. *)
Definition progress12 : Type := Z * Z * buf.

(** The sectors of one cluster; [Some true] inside: go on, [Some false]: enough,
    [None]: a sector could not be read. *)
Fixpoint read_sectors12 (f : fat12_t) (drv first start_offset bytes_to_read : Z) (i n : nat) (st : progress12) : A (progress12 * option bool) :=
  let '(bytes_read, position, out) := st in
  match n with
  | O => mret (st, Some true)
  | S n' =>
      if negb (bytes_read <? bytes_to_read) then mret (st, Some true) else
      r ← read_logical (Some f) drv (swrap 32 (first + Z.of_nat i)) (fresh FAT12_SECTOR_SIZE) 0;
      match r with
      | None => mret (st, None)
      | Some sec =>
          let offset := if bytes_read =? 0 then start_offset else 0 in
          let remaining := u32 (Z.of_nat FAT12_SECTOR_SIZE - offset) in
          let copy := if bytes_to_read - bytes_read <? remaining then bytes_to_read - bytes_read else remaining in
          data ← lift (if (Z.to_nat (offset + copy) <=? length sec)%nat then Some (slice sec (Z.to_nat offset) (Z.to_nat copy)) else None);
          out ← lift (if (Z.to_nat (bytes_read + copy) <=? length out)%nat then Some (blit out (Z.to_nat bytes_read) data) else None);
          let st := (bytes_read + copy, u32 (position + copy), out) in
          if bytes_to_read <=? bytes_read + copy then mret (st, Some false)
          else read_sectors12 f drv first start_offset bytes_to_read (i + 1) n' st
      end
  end.

Fixpoint read_clusters12 (fuel : nat) (f : fat12_t) (drv start_offset bytes_to_read cluster : Z) (st : progress12) : A (progress12 * bool) :=
  match fuel with
  | O => undef
  | S fuel' =>
      let '(bytes_read, _, _) := st in
      if negb ((bytes_read <? bytes_to_read) && (FAT12_MIN_CLUSTER <=? cluster) && (cluster <? FAT12_MAX_CLUSTER)) then mret (st, true) else
      let spc := sectors_per_cluster (boot_sector f) in
      r ← read_sectors12 f drv (u32 (data_start f + (cluster - 2) * spc)) start_offset bytes_to_read 0 (Z.to_nat spc) st;
      let '(st, flag) := r in
      match flag with
      | None => mret (st, false)
      | Some _ =>
          next ← lift (get_next_cluster (Some f) cluster);
          if next <? 0 then mret (st, true) else read_clusters12 fuel' f drv start_offset bytes_to_read next st
      end
  end.

(** The number of bytes, the file and the buffer. *)
Definition fat12_read_file (fuel : nat) (file : fat12_file) (out : buf) (buffer_size bytes_to_read : Z) : A (Z * fat12_file * buf) :=
  f ← gets fat12;
  match f with
  | None => mret (0, file, out)
  | Some f =>
      match fat f with
      | None => mret (0, file, out)
      | Some _ =>
          if (buffer_size =? 0) || (bytes_to_read =? 0) then mret (0, file, out) else
          if negb (is_valid_cluster_fat12 (swrap 32 (f_start_cluster file))) then mret (0, file, out) else
          let n := if f_size file <? u32 (f_position file + bytes_to_read) then u32 (f_size file - f_position file) else bytes_to_read in
          let n := if buffer_size <? n then buffer_size else n in
          if n =? 0 then mret (0, file, out) else
          let cluster_size := Z.of_nat FAT12_SECTOR_SIZE * sectors_per_cluster (boot_sector f) in
          if cluster_size =? 0 then undef else
          if negb (alloc_ok (Z.of_nat FAT12_SECTOR_SIZE)) then mret (0, file, out) else
          drv ← gets current_fdd_drive;
          r ← read_clusters12 fuel f drv (f_position file mod cluster_size) n (f_start_cluster file) (0, f_position file, out);
          let '((k, pos, out), ok) := r in
          let file := Mk_file12 (f_start_cluster file) (f_name file) (f_size file) pos (f_mode file) in
          if negb ok then mret (k, file, out) else
          out ← lift (if k <? buffer_size then (if (Z.to_nat k <? length out)%nat then Some (<[Z.to_nat k := 0]> out) else None) else Some out);
          mret (k, file, out)
      end
  end.

(** Freeing memory twice is undefined. *)
Definition fat12_cleanup : A unit :=
  _ ← modify (fun s => with_entries (with_fat12 s None) None (generation s));
  b ← gets buffer;
  match b with
  | Dangling => undef
  | _ => modify (fun s => with_dir (with_buffer s Null) None)
  end.
End Driver.

(** * Properties *)

(** ** Geometry *)

(** The sector address is a bijection: a logical sector is mapped to a head and a
    sector within the geometry, numbered from 1, from which it can be computed back, and
    to which no other logical sector is mapped. *)
Theorem chs_bijective (f : fat12_t) (ls : Z) :
  let spt := sectors_per_track (boot_sector f) in let hds := heads (boot_sector f) in
  0 <= ls -> 0 < spt -> 0 < hds -> spt * hds < 2 ^ 31 ->
  exists t h s, logical_to_chs (Some f) ls = Some (t, h, s) /\ 0 <= t /\ 0 <= h < hds /\ 1 <= s <= spt /\
    (t * hds + h) * spt + (s - 1) = ls /\
    forall ls', 0 <= ls' -> logical_to_chs (Some f) ls' = Some (t, h, s) -> ls' = ls.
Proof.
  intros spt hds Hl Hs Hh Hp. unfold logical_to_chs. fold spt hds.
  assert (forall x, 0 <= x -> (x / (spt * hds) * hds + x / spt mod hds) * spt + (x mod spt + 1 - 1) = x) as Hback.
  { intros x Hx. rewrite <- Z.div_div by lia. pose proof (Z.div_mod x spt ltac:(lia)). pose proof (Z.div_mod (x / spt) hds ltac:(lia)). nia. }
  destruct (Z.ltb_spec ls 0); [lia|]. destruct (Z.ltb_spec 0 spt), (Z.ltb_spec 0 hds); try lia. cbn [andb].
  destruct (Z.leb_spec (2 ^ 31) (spt * hds)); [lia|]. eexists _, _, _. split; [done|].
  split; [apply Z.div_pos; nia|]. split; [apply Z.mod_pos_bound; lia|]. pose proof (Z.mod_pos_bound ls spt ltac:(lia)). split; [lia|].
  split; [by apply Hback|]. intros ls' Hl'. destruct (Z.ltb_spec ls' 0); [lia|]. intros [= E1 E2 E3].
  rewrite <- (Hback ls), <- (Hback ls') by done. rewrite E1, E2. lia.
Qed.

Definition geometry (spt hds : Z) : fat12_t := Mk_fat12 (Mk_boot12 512 1 1 2 224 2880 9 spt hds 0 43605) 1 19 33 None.

Lemma chs_bijective_witness :
  exists t h s, logical_to_chs (Some (geometry 18 2)) 2879 = Some (t, h, s) /\ 0 <= t /\ 0 <= h < 2 /\ 1 <= s <= 18 /\ (t * 2 + h) * 18 + (s - 1) = 2879.
Proof.
  destruct (chs_bijective (geometry 18 2) 2879) as (t & h & s & E & H1 & H2 & H3 & H4 & _); [lia|simpl; lia..|].
  exact (ex_intro _ t (ex_intro _ h (ex_intro _ s (conj E (conj H1 (conj H2 (conj H3 H4))))))).
Defined.

(** ** The FAT *)

Definition byte_at (table : buf) (i : Z) : Z := default 0 (table !! Z.to_nat i).

(** The 12-bit entries of a FAT: two of them in three bytes. *)
Definition entry12 (table : buf) (c : Z) : Z :=
  if c mod 2 =? 0 then byte_at table (c * 3 / 2) + 256 * (byte_at table (c * 3 / 2 + 1) mod 16)
  else byte_at table (c * 3 / 2) / 16 + 16 * byte_at table (c * 3 / 2 + 1).

(** What the code makes of the value of an entry. *)
Definition successor (v : Z) : Z := if (v <? 2) || (FAT12_BAD_CLUSTER <=? v) then -1 else v.

Lemma byte_at_ok table i : bytes_ok table -> byte_ok (byte_at table i).
Proof.
  intros Ht. unfold byte_at. destruct (table !! Z.to_nat i) eqn:E; [|unfold byte_ok; simpl; lia]. by apply (Forall_lookup_1 _ _ _ _ Ht E).
Qed.

Lemma low_entry lo hi : byte_ok lo -> byte_ok hi -> Z.land (Z.lor lo (Z.shiftl hi 8)) 4095 = lo + 256 * (hi mod 16).
Proof.
  intros Hlo Hhi. unfold byte_ok in *. rewrite Z.lor_comm, lor_shiftl_add by lia. change 4095 with (Z.ones 12).
  rewrite Z.land_ones by lia. zlia.
Qed.

Lemma high_entry lo hi : byte_ok lo -> byte_ok hi -> Z.land (Z.lor (Z.shiftr lo 4) (Z.shiftl hi 4)) 4095 = lo / 16 + 16 * hi.
Proof.
  intros Hlo Hhi. unfold byte_ok in *. rewrite Z.shiftr_div_pow2 by lia. change (2 ^ 4) with 16.
  rewrite Z.lor_comm, lor_shiftl_add by zlia. change 4095 with (Z.ones 12). rewrite Z.land_ones by lia. rewrite Z.mod_small by zlia. zlia.
Qed.

Lemma successor_spec v :
  0 <= v < 4096 ->
  (if is_end_of_chain_fat12 v then Some (-1) else if v =? FAT12_BAD_CLUSTER then Some (-1)
   else if (v =? FAT12_FREE_CLUSTER) || (v =? FAT12_RESERVED_CLUSTER) then Some (-1) else Some v) = Some (successor v).
Proof.
  intros Hv. unfold is_end_of_chain_fat12, successor, FAT12_EOC_MIN, FAT12_EOC_MAX, FAT12_BAD_CLUSTER, FAT12_FREE_CLUSTER, FAT12_RESERVED_CLUSTER.
  zcase; try done; try lia.
Qed.

(** A FAT in memory, as large as the boot sector says. *)
Record table_ok (f : fat12_t) (table : buf) : Prop := Mk_table_ok {
  to_fat : fat f = Some table;
  to_bytes : bytes_ok table;
  to_size : Z.of_nat (length table) = sectors_per_fat (boot_sector f) * 512;
  to_small : sectors_per_fat (boot_sector f) < 65536
}.

(** The value that the code takes for the entry of a cluster: the entry itself only for
    the clusters 0 and 1 modulo 4. *)
Definition entry_read (table : buf) (c : Z) : Z :=
  if c mod 4 <? 2 then entry12 table c
  else if c mod 4 =? 2 then entry12 table c / 16 + 256 * (entry12 table (c + 1) mod 16)
  else entry12 table (c - 1) / 256 + 16 * (entry12 table c mod 256).

Lemma entry_parity table c :
  bytes_ok table -> 0 <= c ->
  let o := c * 3 / 2 in
  (if o mod 2 =? 0 then byte_at table o + 256 * (byte_at table (o + 1) mod 16) else byte_at table o / 16 + 16 * byte_at table (o + 1)) =
  entry_read table c.
Proof.
  intros Ht Hc o. unfold entry_read, entry12.
  assert (forall i, byte_ok (byte_at table i)) as Hb by (intros; by apply byte_at_ok). unfold byte_ok in Hb.
  pose proof (Hb o) as B0. pose proof (Hb (o + 1)) as B1. fold o.
  assert (c mod 4 = 0 \/ c mod 4 = 1 \/ c mod 4 = 2 \/ c mod 4 = 3) as [E|[E|[E|E]]] by zlia; rewrite E.
  - assert (c mod 2 = 0 /\ o mod 2 = 0) as [-> ->] by (unfold o; zlia). done.
  - assert (c mod 2 = 1 /\ o mod 2 = 1) as [-> ->] by (unfold o; zlia). done.
  - assert (c mod 2 = 0 /\ o mod 2 = 1 /\ (c + 1) mod 2 = 1 /\ (c + 1) * 3 / 2 = o + 1) as (-> & -> & -> & ->) by (unfold o; zlia).
    change (2 <? 2) with false. change (2 =? 2) with true. change (1 =? 0) with false. change (0 =? 0) with true. cbn iota.
    pose proof (Hb (o + 1 + 1)). zlia.
  - assert (c mod 2 = 1 /\ o mod 2 = 0 /\ (c - 1) mod 2 = 0 /\ (c - 1) * 3 / 2 + 1 = o) as (-> & -> & -> & E1) by (unfold o; zlia).
    change (3 <? 2) with false. change (3 =? 2) with false. change (1 =? 0) with false. change (0 =? 0) with true. cbn iota.
    rewrite E1. pose proof (Hb ((c - 1) * 3 / 2)). zlia.
Qed.

Lemma next_value f table c :
  table_ok f table -> 2 <= c <= FAT12_MAX_CLUSTER -> c * 3 / 2 + 1 < Z.of_nat (length table) ->
  get_next_cluster (Some f) c = Some (successor (entry_read table c)).
Proof.
  intros [Hf Ht Hsz Hs] Hc Hin. unfold get_next_cluster. rewrite Hf.
  replace (is_valid_cluster_fat12 c) with true by (unfold is_valid_cluster_fat12, FAT12_MIN_CLUSTER; lia). cbn [negb].
  change (Z.of_nat FAT12_SECTOR_SIZE) with 512. rewrite <- Hsz, wrap_small by lia.
  destruct (Z.leb_spec (Z.of_nat (length table)) (c * 3 / 2 + 1)); [lia|].
  set (o := c * 3 / 2) in *. assert (0 <= o) by (unfold o; zlia).
  assert (forall i, 0 <= i -> i < Z.of_nat (length table) -> table !! Z.to_nat i = Some (byte_at table i)) as Hat.
  { intros i Hi Hlt. unfold byte_at. destruct (lookup_lt_is_Some_2 table (Z.to_nat i) ltac:(lia)) as [x ->]. done. }
  rewrite (Hat o), (Hat (o + 1)) by lia. cbn [mbind option_bind].
  pose proof (byte_at_ok table o Ht) as B0. pose proof (byte_at_ok table (o + 1) Ht) as B1.
  rewrite low_entry, high_entry by done. pose proof (entry_parity table c Ht ltac:(lia)) as Ep. cbn zeta in Ep. fold o in Ep.
  rewrite Ep. apply successor_spec. rewrite <- Ep. unfold byte_ok in *. destruct (o mod 2 =? 0); zlia.
Qed.

(** The FAT is read with the wrong parity: whether the low or the high 12 bits are
    taken depends on the byte offset instead of the cluster number.  For every second
    pair of clusters (2 and 3 modulo 4) the value mixes two entries; only for the others
    is the successor that of the entry. *)
Theorem next_cluster_parity (f : fat12_t) (table : buf) (c : Z) :
  table_ok f table -> 2 <= c <= FAT12_MAX_CLUSTER -> c * 3 / 2 + 1 < Z.of_nat (length table) ->
  get_next_cluster (Some f) c = Some (successor (
    if c mod 4 <? 2 then entry12 table c
    else if c mod 4 =? 2 then entry12 table c / 16 + 256 * (entry12 table (c + 1) mod 16)
    else entry12 table (c - 1) / 256 + 16 * (entry12 table c mod 256))).
Proof. apply next_value. Qed.

(** A chain 2, 3 in the FAT: entry 2 is 3, entry 3 ends the chain; the code goes to 3840. *)
Definition chain_2_3 : buf := [240; 255; 255; 3; 240; 255] ++ replicate 4602 0.

Lemma next_cluster_parity_witness :
  entry12 chain_2_3 2 = 3 /\ entry12 chain_2_3 3 = 4095 /\
  get_next_cluster (Some (Mk_fat12 (boot_sector (geometry 18 2)) 1 19 33 (Some chain_2_3))) 2 = Some 3840.
Proof.
  split; [done|]. split; [done|].
  apply (next_cluster_parity (Mk_fat12 (boot_sector (geometry 18 2)) 1 19 33 (Some chain_2_3)) chain_2_3 2).
  - split; [done| |done|simpl; lia]. unfold chain_2_3. apply bytes_ok_app. split; [by repeat constructor|by apply Forall_replicate].
  - unfold FAT12_MAX_CLUSTER. lia.
  - by vm_compute.
Defined.

(** ** Memory that has been freed *)

Section Freed.
Context {F : Type} `{Floppy F} (alloc_ok : Z -> bool) (fresh : nat -> buf).

Lemma change_directory_points fuel path (s s' : fs12 F) :
  fat12_change_directory alloc_ok fresh fuel path s = Some (true, s') ->
  exists i, current_dir s' = Some (InEntries (generation s') i).
Proof.
  unfold fat12_change_directory. intros E. rewrite gets_bind in E. apply bind_inv in E as (n & s1 & _ & E).
  destruct (n <? 0); [done|]. rewrite gets_bind in E. destruct (entries s1) as [l|]; [|done].
  apply bind_inv in E as ([i|] & s2 & E2 & E); [|done]. apply bind_inv in E as (e & s3 & _ & E). apply bind_inv in E as (t & s4 & _ & E).
  apply bind_inv in E as (e' & s5 & _ & E). rewrite modify_bind in E. injection E as <-. by exists i.
Qed.

(** After a directory has been entered, it cannot be used: [current_dir] points into
    the array of entries, which the next call frees before it looks at the entry.  With
    memory for the new array, listing the directory and opening a file in it are
    undefined behaviour, whatever the disk holds. *)
Theorem directory_used_after_free (fuel fuel' : nat) (path name mode : buf) (s s' : fs12 F) :
  alloc_ok (Z.of_nat (FAT12_MAX_ROOT_ENTRIES * FAT12_ENTRY)) = true ->
  fat12_change_directory alloc_ok fresh fuel path s = Some (true, s') ->
  fat12_read_dir alloc_ok fresh fuel' s' = None /\
  (forall f t len, fat12 s' = Some f -> fat f = Some t -> strlen name = Some len -> 0 < len <= 12 ->
     fat12_open_file alloc_ok fresh fuel' (Some name) (Some mode) s' = None).
Proof.
  intros Ha E. destruct (change_directory_points fuel path s s' E) as [i Hd].
  assert (fat12_read_dir_entries alloc_ok fresh fuel' (Some (InEntries (generation s') i)) s' = None) as Hr.
  { unfold fat12_read_dir_entries, read_subdir. rewrite (bind_eq _ _ _ true (with_entries s' (Some []) (S (generation s')))) by (unfold new_entries; by rewrite Ha).
    cbn [negb]. rewrite gets_bind. cbn [fat12 with_entries]. destruct (fat12 s') as [f|]; [|done]. cbn zeta. destruct (_ =? 0); [done|].
    unfold mbind at 1, M_bind at 1, deref. cbn [generation with_entries]. destruct (Nat.eqb_spec (generation s') (S (generation s'))); [lia|done]. }
  split.
  - unfold fat12_read_dir. rewrite gets_bind, Hd. unfold mbind, M_bind. by rewrite Hr.
  - intros f t len Hf Ht Hl Hr'. unfold fat12_open_file. rewrite gets_bind, Hf, Ht. cbn [negb]. rewrite (lift_bind _ _ _ _ Hl).
    destruct (Z.eqb_spec len 0), (Z.ltb_spec 12 len); try lia. cbn [orb]. rewrite gets_bind, Hd. unfold mbind at 1, M_bind at 1. by rewrite Hr.
Qed.

Lemma read_logical_keeps f drive ls b off r (s s' : fs12 F) :
  read_logical f drive ls b off s = Some (r, s') -> s' = with_fdd s (fdd s').
Proof.
  unfold read_logical. intros E. apply bind_inv in E as ([[t h] c] & s1 & E1 & E). unfold lift in E1.
  destruct (logical_to_chs f ls); [|done]. injection E1 as -> <-.
  apply bind_inv in E as (d & s2 & E2 & E). unfold fdc_read_with_fallback in E2. destruct (fdc_read_sector _ _ _ _ _) as [x y].
  injection E2 as <- <-. destruct x as [data|]; [|by injection E as _ <-]. apply bind_inv in E as (b' & s3 & E3 & E). unfold lift in E3.
  destruct (_ <=? _)%nat; [|done]. injection E3 as _ <-. by injection E as _ <-.
Qed.

(** Reading sectors changes the floppy controller and nothing else. *)
Lemma read_run_keeps f drive step n : forall ls b off r (s s' : fs12 F),
  read_run f drive ls b off step n s = Some (r, s') -> s' = with_fdd s (fdd s').
Proof.
  induction n as [|n IH]; intros ls b off r s s' E; [injection E as _ <-; by destruct s|].
  cbn [read_run] in E. apply bind_inv in E as (o & s1 & E1 & E). apply read_logical_keeps in E1.
  destruct o as [b'|]; [|injection E as _ <-; done]. apply IH in E. rewrite E, E1. done.
Qed.

(** A mounted disk cannot be cleaned up: the buffer of the boot sector is freed when the
    disk is mounted and a second time here. *)
Theorem cleanup_frees_twice (drive : Z) (s s' : fs12 F) :
  alloc_ok 512 = true -> fat12_init_fs alloc_ok fresh drive s = Some (true, s') -> fat12_cleanup s' = None.
Proof.
  intros Ha E. assert (buffer s' = Dangling) as Hb.
  { unfold fat12_init_fs in E. rewrite modify_bind in E. destruct (negb (alloc_ok sizeof_fat12)); [done|]. rewrite modify_bind in E.
    apply bind_inv in E as ([|] & s1 & E1 & E2); cbn [negb] in E2; [|done]. injection E2 as <-.
    unfold read_fat12 in E1. rewrite gets_bind in E1. cbn [fat12 with_fat12 boot_sector boot_sector_signature zero_boot12] in E1.
    change (0 =? 43605) with false in E1. cbn iota in E1. change (Z.of_nat FAT12_SECTOR_SIZE) with 512 in E1. rewrite Ha in E1. cbn [negb] in E1.
    rewrite modify_bind in E1. apply bind_inv in E1 as (r & s2 & _ & E1). rewrite modify_bind in E1. destruct r as [b|]; [|done].
    cbn zeta in E1. rewrite modify_bind in E1. destruct (negb (validate_fat12_boot_sector _)); [done|]. destruct (negb (alloc_ok _)); [done|].
    apply bind_inv in E1 as (t & s3 & E3 & E1). destruct t as [t|]; [|done]. rewrite modify_bind in E1. injection E1 as <-. cbn.
    apply read_run_keeps in E3. by rewrite E3. }
  unfold fat12_cleanup. rewrite modify_bind, gets_bind. cbn. by rewrite Hb.
Qed.
End Freed.

(** ** Files and directories on a disk that can be read *)

(** What the controller promises: [medium] is what is on the disks, and a sector of a
    drive that is [spinning] can be read and stays as it is.  A disk has 80 tracks, two
    heads and 18 sectors to the track. *)
Class FloppyLaws (F : Type) `{Floppy F} := {
  medium : F -> Z -> Z -> Z -> Z -> buf;
  spinning : F -> Z -> Prop;
  medium_length : forall x d h t c, length (medium x d h t c) = FAT12_SECTOR_SIZE;
  medium_read : forall x d h t c, spinning x d -> 0 <= h < 2 -> 0 <= t < 80 -> 1 <= c <= 18 ->
    exists x', fdc_read_sector d h t c x = (Some (medium x d h t c), x') /\ (forall d', spinning x d' -> spinning x' d') /\ medium x' = medium x
}.

(** The sectors from [ls] on, one after the other. *)
Fixpoint run_of (g : Z -> buf) (ls : Z) (n : nat) : buf :=
  match n with O => [] | S n' => g ls ++ run_of g (ls + 1) n' end.

Lemma length_run_of g ls n : (forall i, length (g i) = FAT12_SECTOR_SIZE) -> length (run_of g ls n) = (n * FAT12_SECTOR_SIZE)%nat.
Proof. intros Hg. revert ls. induction n as [|n IH]; intros ls; cbn [run_of]; [done|]. rewrite length_app, Hg, IH. lia. Qed.

Section Reading.
Context {F : Type} `{FloppyLaws F} (alloc_ok : Z -> bool) (fresh : nat -> buf).
Implicit Types s : fs12 F.

(** A logical sector, by track, head and sector as the geometry of the disk places it. *)
Definition sector12 (f : fat12_t) (drv : Z) (x : F) (ls : Z) : buf :=
  let spt := sectors_per_track (boot_sector f) in let hds := heads (boot_sector f) in
  medium x drv (ls / spt mod hds) (ls / (spt * hds)) (ls mod spt + 1).

Definition cluster12 (f : fat12_t) (drv : Z) (x : F) (c : Z) : buf :=
  let spc := sectors_per_cluster (boot_sector f) in
  run_of (sector12 f drv x) (data_start f + (c - 2) * spc) (Z.to_nat spc).

(** A geometry that the controller can address. *)
Definition geometry_ok (f : fat12_t) : Prop :=
  0 < sectors_per_track (boot_sector f) <= 18 /\ 0 < heads (boot_sector f) <= 2.
Definition capacity (f : fat12_t) : Z := 80 * (sectors_per_track (boot_sector f) * heads (boot_sector f)).

(** Only the controller has moved, and it has the same disks. *)
Definition same_disk (s s' : fs12 F) : Prop :=
  s' = with_fdd s (fdd s') /\ (forall d, spinning (fdd s) d -> spinning (fdd s') d) /\ medium (fdd s') = medium (fdd s).

Lemma same_disk_refl s : same_disk s s.
Proof. by destruct s. Qed.
Lemma same_disk_trans s1 s2 s3 : same_disk s1 s2 -> same_disk s2 s3 -> same_disk s1 s3.
Proof. intros (E1 & S1 & M1) (E2 & S2 & M2). split; [rewrite E2, E1; done|]. split; [by auto|congruence]. Qed.
Lemma same_disk_sector f drv s s' : same_disk s s' -> sector12 f drv (fdd s') = sector12 f drv (fdd s).
Proof. intros (_ & _ & E). unfold sector12. by rewrite E. Qed.

Lemma same_disk_cluster f drv s s' : same_disk s s' -> cluster12 f drv (fdd s') = cluster12 f drv (fdd s).
Proof. intros E. unfold cluster12. by rewrite (same_disk_sector f drv s s' E). Qed.

Lemma read_logical_ok f drv ls b off s :
  geometry_ok f -> 0 <= ls < capacity f -> spinning (fdd s) drv -> (off + FAT12_SECTOR_SIZE <= length b)%nat ->
  exists s', read_logical (Some f) drv ls b off s = Some (Some (blit b off (sector12 f drv (fdd s) ls)), s') /\ same_disk s s'.
Proof.
  intros [Hs Hh] Hls Hsp Hb. unfold capacity in Hls. unfold read_logical, logical_to_chs.
  set (spt := sectors_per_track (boot_sector f)) in *. set (hds := heads (boot_sector f)) in *.
  assert (0 < spt * hds < 2 ^ 31) as Hp by nia.
  destruct (Z.ltb_spec ls 0), (Z.ltb_spec 0 spt), (Z.ltb_spec 0 hds); try lia. cbn [andb].
  destruct (Z.leb_spec (2 ^ 31) (spt * hds)); [lia|]. rewrite (lift_bind _ _ _ _ eq_refl).
  assert (0 <= ls / (spt * hds) < 80) by (split; [apply Z.div_pos|apply Z.div_lt_upper_bound]; lia).
  pose proof (Z.mod_pos_bound (ls / spt) hds). pose proof (Z.mod_pos_bound ls spt).
  destruct (medium_read (fdd s) drv (ls / spt mod hds) (ls / (spt * hds)) (ls mod spt + 1)) as (x' & E & Hx & Hm); [done|lia..|].
  unfold mbind at 1, M_bind at 1, fdc_read_with_fallback. rewrite (wrap_small 8 (ls / spt mod hds)), (wrap_small 8 (ls / (spt * hds))), (wrap_small 8 (ls mod spt + 1)), E by lia.
  fold (sector12 f drv (fdd s) ls). exists (with_fdd s x'). split; [|done].
  erewrite lift_bind; [done|]. rewrite medium_length. by rewrite (proj2 (Nat.leb_le _ _) Hb).
Qed.

(** The disk behind a mounted file system is within reach. *)
Definition reach (f : fat12_t) : Prop := geometry_ok f /\ capacity f <= 2 ^ 31.

Lemma read_sectors12_ok f drv first want : reach f -> 0 <= first -> Z.of_nat want < 2 ^ 32 ->
  (forall n, length (fresh n) = n) ->
  forall m i data out s,
  spinning (fdd s) drv -> first + Z.of_nat (i + m) <= capacity f -> (want <= length out)%nat -> (length data <= want)%nat ->
  exists flag s', same_disk s s' /\
    let data' := take want (data ++ run_of (sector12 f drv (fdd s)) (first + Z.of_nat i) m) in
    read_sectors12 fresh f drv first 0 (Z.of_nat want) i m (Z.of_nat (length data), Z.of_nat (length data), data ++ drop (length data) out) s
    = Some ((Z.of_nat (length data'), Z.of_nat (length data'), data' ++ drop (length data') out, Some flag), s').
Proof.
  intros [Hg Hcap] Hf Hw Hfresh. induction m as [|m IH]; intros i data out s Hs Hr Ho Hd; cbn [read_sectors12 run_of].
  { exists true, s. split; [by apply same_disk_refl|]. cbn zeta. by rewrite app_nil_r, take_ge by lia. }
  destruct (Z.ltb_spec (Z.of_nat (length data)) (Z.of_nat want)); cbn [negb].
  2:{ exists true, s. split; [by apply same_disk_refl|]. cbn zeta. by rewrite take_app_le, take_ge by lia. }
  rewrite swrap_small by lia.
  destruct (read_logical_ok f drv (first + Z.of_nat i) (fresh FAT12_SECTOR_SIZE) 0 s Hg ltac:(lia) Hs) as (s1 & E1 & S1); [rewrite Hfresh; lia|].
  set (sec := sector12 f drv (fdd s) (first + Z.of_nat i)) in *. assert (length sec = FAT12_SECTOR_SIZE) as Hsec by apply medium_length.
  rewrite (bind_eq _ _ _ _ _ E1). replace (if _ =? 0 then 0 else 0) with 0 by (by destruct (_ =? 0)).
  replace (blit (fresh FAT12_SECTOR_SIZE) 0 sec) with sec.
  2:{ unfold blit. rewrite take_0, drop_ge, app_nil_r by (rewrite Hfresh, Hsec; lia). done. }
  change (u32 (Z.of_nat FAT12_SECTOR_SIZE - 0)) with 512. cbn zeta.
  set (k := (if _ <? 512 then _ else 512)). set (kn := Nat.min 512 (want - length data)).
  assert (k = Z.of_nat kn) as Hk by (subst k kn; destruct (Z.ltb_spec (Z.of_nat want - Z.of_nat (length data)) 512); lia).
  rewrite Hk, Z.add_0_l, Nat2Z.id. clear k Hk. unfold FAT12_SECTOR_SIZE in Hsec.
  erewrite lift_bind; [|rewrite (proj2 (Nat.leb_le _ _)) by lia; reflexivity].
  assert (slice sec (Z.to_nat 0) (Z.to_nat (Z.of_nat kn)) = take kn sec) as -> by (by rewrite Nat2Z.id).
  assert (blit (data ++ drop (length data) out) (length data) (take kn sec) = (data ++ take kn sec) ++ drop (length (data ++ take kn sec)) out) as Hb.
  { rewrite <- (take_drop (length (take kn sec)) (drop (length data) out)), blit_mid by (rewrite ?length_take, ?length_drop; lia).
    by rewrite <- app_assoc, drop_drop, length_app. }
  erewrite lift_bind.
  2:{ rewrite (proj2 (Nat.leb_le _ _)), Hb; [reflexivity|]. list_lia. }
  clear Hb. rewrite wrap_small by lia. rewrite <- Nat2Z.inj_add.
  replace (length data + kn)%nat with (length (data ++ take kn sec)) by (rewrite length_app, length_take; lia).
  destruct (Z.leb_spec (Z.of_nat want) (Z.of_nat (length (data ++ take kn sec)))) as [Hle|Hle].
  - exists false, s1. split; [done|]. rewrite (app_assoc data), (take_app_le (data ++ sec)) by list_lia.
    assert (take want (data ++ sec) = data ++ take kn sec) as ->; [|done].
    rewrite take_app_ge by lia. do 2 f_equal. list_lia.
  - assert (kn = 512)%nat as -> by list_lia. rewrite (take_ge sec) in * by lia.
    destruct (IH (i + 1)%nat (data ++ sec) out s1) as (flag & s2 & S2 & E2); [by apply S1|lia|done|list_lia|].
    exists flag, s2. split; [by eapply same_disk_trans|]. rewrite (same_disk_sector _ _ _ _ S1), <- (app_assoc data sec (run_of _ _ _)) in E2.
    replace (first + Z.of_nat i + 1) with (first + Z.of_nat (i + 1)) by lia. exact E2.
Qed.

Lemma take_take_app (w : nat) (a b : buf) : take w (take w a ++ b) = take w (a ++ b).
Proof.
  destruct (decide (length a <= w)%nat); [by rewrite (take_ge a) by lia|].
  rewrite !take_app_le by (rewrite ?length_take; lia). by rewrite take_take, Nat.min_id.
Qed.

(** A chain of the FAT [t], by the format: the 12-bit entry of each cluster is the next
    cluster, that of the last one an end mark.  All of the clusters are on the disk. *)
Fixpoint chain12 (f : fat12_t) (t : buf) (l : list Z) : Prop :=
  match l with
  | [] => True
  | c :: l' =>
      2 <= c < FAT12_MAX_CLUSTER /\ data_start f + (c - 1) * sectors_per_cluster (boot_sector f) <= capacity f /\
      c * 3 / 2 + 1 < Z.of_nat (length t) /\
      match l' with [] => FAT12_EOC_MIN <= entry12 t c | c' :: _ => entry12 t c = c' end /\ chain12 f t l'
  end.

(** The clusters whose entry the code reads: 0 and 1 modulo 4.  The chain can be followed if
    all but the last one, behind which nothing is needed, are such clusters. *)
Definition followed (l : list Z) : Prop := Forall (fun c => c mod 4 < 2) (removelast l).

Lemma next_total f t c : table_ok f t -> exists v, get_next_cluster (Some f) c = Some v.
Proof.
  intros [Hf _ Hsz Hs]. unfold get_next_cluster. rewrite Hf. destruct (is_valid_cluster_fat12 c) eqn:Hv; cbn [negb]; [|by eexists].
  unfold is_valid_cluster_fat12, FAT12_MIN_CLUSTER in Hv. change (Z.of_nat FAT12_SECTOR_SIZE) with 512. rewrite <- Hsz, wrap_small by lia.
  destruct (Z.leb_spec (Z.of_nat (length t)) (c * 3 / 2 + 1)); [by eexists|]. assert (0 <= c * 3 / 2) by zlia.
  destruct (lookup_lt_is_Some_2 t (Z.to_nat (c * 3 / 2)) ltac:(lia)) as [x ->]. destruct (lookup_lt_is_Some_2 t (Z.to_nat (c * 3 / 2 + 1)) ltac:(lia)) as [y ->].
  cbn [mbind option_bind]. repeat case_match; by eexists.
Qed.

Lemma next_in_chain f t c c' : table_ok f t -> 2 <= c < FAT12_MAX_CLUSTER -> c * 3 / 2 + 1 < Z.of_nat (length t) -> c mod 4 < 2 ->
  entry12 t c = c' -> 2 <= c' < FAT12_MAX_CLUSTER -> get_next_cluster (Some f) c = Some c'.
Proof.
  intros Ht Hc Hin Hm He Hc'. rewrite (next_value f t c Ht ltac:(lia) Hin). unfold entry_read. rewrite (proj2 (Z.ltb_lt _ _) Hm), He.
  unfold successor, FAT12_BAD_CLUSTER, FAT12_MAX_CLUSTER in *. destruct (Z.ltb_spec c' 2), (Z.leb_spec 4087 c'); try lia. done.
Qed.

Lemma length_cluster12 f drv x c : 0 < sectors_per_cluster (boot_sector f) -> Z.of_nat (length (cluster12 f drv x c)) = sectors_per_cluster (boot_sector f) * 512.
Proof. intros Hs. unfold cluster12. rewrite length_run_of by (intros; apply medium_length). unfold FAT12_SECTOR_SIZE. lia. Qed.

Lemma read_clusters12_ok f t drv want : table_ok f t -> reach f -> 0 <= data_start f -> 0 < sectors_per_cluster (boot_sector f) ->
  Z.of_nat want < 2 ^ 32 -> (forall n, length (fresh n) = n) ->
  forall l c fuel data out s,
  chain12 f t (c :: l) -> followed (c :: l) -> (S (length l) < fuel)%nat -> spinning (fdd s) drv -> (want <= length out)%nat -> (length data <= want)%nat ->
  (want <= length (data ++ concat (map (cluster12 f drv (fdd s)) (c :: l))))%nat ->
  exists s', same_disk s s' /\
    let data' := take want (data ++ concat (map (cluster12 f drv (fdd s)) (c :: l))) in
    read_clusters12 fresh fuel f drv 0 (Z.of_nat want) c (Z.of_nat (length data), Z.of_nat (length data), data ++ drop (length data) out) s
    = Some ((Z.of_nat (length data'), Z.of_nat (length data'), data' ++ drop (length data') out, true), s').
Proof.
  intros Ht Hr Hds Hspc Hw Hfresh. induction l as [|c' l IH]; intros c [|fuel] data out s (Hc & Hin & Htab & Hn & Hl) Hfo Hfl Hs Ho Hd Hall; cbn [length] in Hfl; try lia.
  all: cbn [read_clusters12]; destruct (Z.ltb_spec (Z.of_nat (length data)) (Z.of_nat want)) as [Hlt|Hge]; cbn [andb negb].
  2, 4: exists s; split; [by apply same_disk_refl|]; cbn zeta; rewrite take_app_le, take_ge by lia; done.
  all: replace ((FAT12_MIN_CLUSTER <=? c) && (c <? FAT12_MAX_CLUSTER)) with true by (unfold FAT12_MIN_CLUSTER in *; lia); cbn [negb].
  all: destruct Hr as [Hg Hcap]; rewrite wrap_small by nia.
  all: destruct (read_sectors12_ok f drv (data_start f + (c - 2) * sectors_per_cluster (boot_sector f)) want (conj Hg Hcap) ltac:(nia) Hw Hfresh
    (Z.to_nat (sectors_per_cluster (boot_sector f))) 0 data out s Hs ltac:(nia) Ho Hd) as (flag & s1 & S1 & E1).
  all: cbn zeta in E1; rewrite (bind_eq _ _ _ _ _ E1); rewrite Z.add_0_r; fold (cluster12 f drv (fdd s) c); cbn beta iota.
  - exists s1. split; [done|]. cbn [map concat] in *. rewrite app_nil_r in *. destruct (next_total f t c Ht) as [v Ev]. rewrite (lift_bind _ _ _ _ Ev).
    destruct (v <? 0); [done|]. destruct fuel as [|fuel]; [lia|]. cbn [read_clusters12]. rewrite length_take. rewrite (proj2 (Z.ltb_ge _ _)) by lia. done.
  - assert (get_next_cluster (Some f) c = Some c') as Enx by (apply (next_in_chain f t); [done|done|done|by inversion Hfo|done|by destruct Hl]). rewrite (lift_bind _ _ _ _ Enx).
    pose proof (proj1 Hl) as Hc'. destruct (Z.ltb_spec c' 0); [lia|].
    destruct (IH c' fuel (take want (data ++ cluster12 f drv (fdd s) c)) out s1) as (s2 & S2 & E2); [done|by inversion Hfo|lia|by apply S1|done|rewrite length_take; lia| |].
    { rewrite (same_disk_cluster _ _ _ _ S1). cbn [map concat] in Hall |- *. rewrite !length_app, ?length_take, ?length_app in *. lia. }
    exists s2. split; [by eapply same_disk_trans|]. cbn zeta in E2. rewrite E2. clear E2 E1.
    rewrite (same_disk_cluster _ _ _ _ S1). cbn zeta. cbn [map concat]. by rewrite !take_take_app, <- !app_assoc.
Qed.

Lemma read_file12_spec f t (file : fat12_file) (l : list Z) (fuel : nat) (out : buf) (buffer_size bytes_to_read : Z) s :
  fat12 s = Some f -> table_ok f t -> reach f -> spinning (fdd s) (current_fdd_drive s) ->
  0 <= data_start f -> 0 < sectors_per_cluster (boot_sector f) ->
  (forall n, length (fresh n) = n) -> alloc_ok (Z.of_nat FAT12_SECTOR_SIZE) = true ->
  chain12 f t (f_start_cluster file :: l) -> followed (f_start_cluster file :: l) -> (S (length l) < fuel)%nat ->
  f_position file = 0 -> 0 <= f_size file < 2 ^ 32 -> 0 <= bytes_to_read < 2 ^ 32 -> 0 <= buffer_size < 2 ^ 32 ->
  buffer_size <= Z.of_nat (length out) ->
  let content := concat (map (cluster12 f (current_fdd_drive s) (fdd s)) (f_start_cluster file :: l)) in
  let want := Z.min (Z.min (f_size file) bytes_to_read) buffer_size in
  0 < want <= Z.of_nat (length content) ->
  exists out' s',
    fat12_read_file alloc_ok fresh fuel file out buffer_size bytes_to_read s
    = Some ((want, Mk_file12 (f_start_cluster file) (f_name file) (f_size file) want (f_mode file), out'), s') /\
    same_disk s s' /\ length out' = length out /\
    take (Z.to_nat want) out' = take (Z.to_nat want) content /\
    (want < buffer_size -> out' !! Z.to_nat want = Some 0).
Proof.
  intros Hf Htab Hr Hs Hds Hspc Hfresh Ha Hch Hfo Hfl Hp Hsz Hbr Hbs Hout content want Hw. pose proof (to_fat _ _ Htab) as Ht.
  unfold fat12_read_file. rewrite gets_bind, Hf, Ht, Hp.
  destruct (Z.eqb_spec buffer_size 0), (Z.eqb_spec bytes_to_read 0); try lia. cbn [orb].
  pose proof (proj1 Hch) as Hc. unfold FAT12_MAX_CLUSTER in Hc. rewrite swrap_small by lia.
  replace (is_valid_cluster_fat12 (f_start_cluster file)) with true by (unfold is_valid_cluster_fat12, FAT12_MIN_CLUSTER, FAT12_MAX_CLUSTER; lia).
  cbn [negb]. rewrite Z.add_0_l, Z.sub_0_r, !wrap_small by lia.
  set (k := (if buffer_size <? _ then buffer_size else _)). replace k with want.
  2:{ subst k want. destruct (Z.ltb_spec (f_size file) bytes_to_read); [destruct (Z.ltb_spec buffer_size (f_size file))|destruct (Z.ltb_spec buffer_size bytes_to_read)]; lia. }
  assert (want <= buffer_size) by (subst want; lia). clearbody want k. destruct (Z.eqb_spec want 0); [lia|]. unfold FAT12_SECTOR_SIZE at 1.
  destruct (Z.eqb_spec (Z.of_nat 512 * sectors_per_cluster (boot_sector f)) 0); [lia|].
  rewrite Ha. cbn [negb]. rewrite gets_bind, Zmod_0_l.
  destruct (read_clusters12_ok f t (current_fdd_drive s) (Z.to_nat want) Htab Hr Hds Hspc ltac:(lia) Hfresh l (f_start_cluster file) fuel [] out s
    Hch Hfo Hfl Hs ltac:(lia) ltac:(cbn [length]; lia) ltac:(rewrite app_nil_l; fold content; lia)) as (s1 & S1 & E1).
  cbn zeta in E1. rewrite app_nil_l in E1. fold content in E1. rewrite Z2Nat.id in E1 by lia. cbn [length Z.of_nat drop] in E1.
  rewrite app_nil_l in E1. assert (length (take (Z.to_nat want) content) = Z.to_nat want) as Hl by (rewrite length_take; lia).
  rewrite Hl, Z2Nat.id in E1 by lia. rewrite (bind_eq _ _ _ _ _ E1). clear E1. cbn [negb].
  set (o := take (Z.to_nat want) content ++ drop (Z.to_nat want) out).
  assert (length o = length out) as Ho by (subst o; rewrite length_app, length_drop, Hl; lia).
  assert (take (Z.to_nat want) o = take (Z.to_nat want) content) as Hto by (subst o; by rewrite take_app_length').
  clearbody o. destruct (Z.ltb_spec want buffer_size).
  - exists (<[Z.to_nat want := 0]> o), s1. erewrite lift_bind; [|rewrite (proj2 (Nat.ltb_lt _ _)) by lia; reflexivity].
    split_and!; [done..|by rewrite length_insert| |intros _; apply list_lookup_insert_eq; lia]. by rewrite take_insert_ge by lia.
  - exists o, s1. split_and!; [done..|lia].
Qed.

(** Reading an opened file from its start.  For a mounted disk, a chain of the FAT
    that starts at the file's cluster, is as long as the file and can be followed, and a
    buffer as large as the caller says, [fat12_read_file] returns the first bytes of the chain's clusters --
    as many as are asked for, are in the file and fit the buffer -- and moves the position
    behind them; if the buffer has room left, a NUL follows. *)
Theorem fat12_read_file_ok f t (file : fat12_file) (l : list Z) (fuel : nat) (out : buf) (buffer_size bytes_to_read : Z) s :
  fat12 s = Some f -> table_ok f t -> reach f -> spinning (fdd s) (current_fdd_drive s) ->
  0 <= data_start f -> 0 < sectors_per_cluster (boot_sector f) ->
  (forall n, length (fresh n) = n) -> alloc_ok (Z.of_nat FAT12_SECTOR_SIZE) = true ->
  chain12 f t (f_start_cluster file :: l) -> followed (f_start_cluster file :: l) -> (S (length l) < fuel)%nat ->
  f_position file = 0 -> 0 <= f_size file < 2 ^ 32 -> 0 <= bytes_to_read < 2 ^ 32 -> 0 <= buffer_size < 2 ^ 32 ->
  buffer_size <= Z.of_nat (length out) ->
  let content := concat (map (cluster12 f (current_fdd_drive s) (fdd s)) (f_start_cluster file :: l)) in
  let want := Z.min (Z.min (f_size file) bytes_to_read) buffer_size in
  0 < want <= Z.of_nat (length content) ->
  exists out' s',
    fat12_read_file alloc_ok fresh fuel file out buffer_size bytes_to_read s
    = Some ((want, Mk_file12 (f_start_cluster file) (f_name file) (f_size file) want (f_mode file), out'), s') /\
    same_disk s s' /\ length out' = length out /\
    take (Z.to_nat want) out' = take (Z.to_nat want) content /\
    (want < buffer_size -> out' !! Z.to_nat want = Some 0).
Proof. apply read_file12_spec. Qed.

Lemma read_run_ok f drv : reach f -> forall n ls b off s,
  0 <= ls -> ls + Z.of_nat n <= capacity f -> spinning (fdd s) drv -> (length b = off + n * FAT12_SECTOR_SIZE)%nat ->
  exists s', read_run (Some f) drv ls b off FAT12_SECTOR_SIZE n s
    = Some (Some (take off b ++ run_of (sector12 f drv (fdd s)) ls n), s') /\ same_disk s s'.
Proof.
  intros [Hg Hcap]. induction n as [|n IH]; intros ls b off s Hls Hcp Hs Hb; cbn [read_run run_of].
  { exists s. split; [|by apply same_disk_refl]. by rewrite take_ge, app_nil_r by lia. }
  destruct (read_logical_ok f drv ls b off s Hg ltac:(lia) Hs ltac:(lia)) as (s1 & E1 & S1). rewrite (bind_eq _ _ _ _ _ E1).
  assert (length (sector12 f drv (fdd s) ls) = FAT12_SECTOR_SIZE) as Hl by apply medium_length.
  destruct (IH (ls + 1) (blit b off (sector12 f drv (fdd s) ls)) (off + FAT12_SECTOR_SIZE)%nat s1) as (s2 & E2 & S2); [lia..|by apply S1| |].
  { rewrite length_blit; lia. }
  exists s2. split; [|by eapply same_disk_trans]. rewrite E2, (same_disk_sector _ _ _ _ S1). do 3 f_equal. unfold blit.
  rewrite (app_assoc (take off b)), take_app_le, take_ge by list_lia. by rewrite <- app_assoc.
Qed.

(** The directory a reader of the disk sees: the slots up to the first unused one, less
    the deleted ones and the long-name fragments. *)
Fixpoint slots (b : buf) (i n : nat) : list buf :=
  match n with
  | O => []
  | S n' => let e := slice b (i * FAT12_ENTRY) FAT12_ENTRY in if first_byte e =? 0 then [] else e :: slots b (i + 1) n'
  end.
Definition visible (e : buf) : bool := negb (first_byte e =? 229) && negb (Z.land (attributes e) 15 =? 15).

Lemma parse_entries_spec b n : forall i room, fst (parse_entries b i n room) = take room (List.filter visible (slots b i n)).
Proof.
  induction n as [|n IH]; intros i [|room]; cbn [parse_entries slots]; [done..|].
  destruct (Z.eqb_spec (first_byte (slice b (i * FAT12_ENTRY) FAT12_ENTRY)) 0); [done|]. cbn [List.filter]. unfold visible at 1.
  destruct (Z.eqb_spec (first_byte (slice b (i * FAT12_ENTRY) FAT12_ENTRY)) 229); [by rewrite IH|].
  destruct (Z.eqb_spec (Z.land (attributes (slice b (i * FAT12_ENTRY) FAT12_ENTRY)) 15) 15); cbn [negb andb]; [by rewrite IH|].
  specialize (IH (i + 1)%nat room). destruct (parse_entries b (i + 1) n room) as [l stop]. cbn [fst] in *. by rewrite IH.
Qed.

(** Listing the root directory of a disk with 512-byte sectors.  The entries kept in
    memory are the first 224 visible slots of the root directory's sectors, and their
    number is returned. *)
Theorem root_listing f (fuel : nat) s :
  fat12 s = Some f -> reach f -> spinning (fdd s) (current_fdd_drive s) -> bytes_per_sector (boot_sector f) = 512 ->
  0 <= root_entry_count (boot_sector f) < 2 ^ 16 -> 0 <= root_dir_start f ->
  root_dir_start f + root_dir_sectors (boot_sector f) <= capacity f ->
  (forall n, length (fresh n) = n) -> (forall n, alloc_ok n = true) ->
  let n := root_dir_sectors (boot_sector f) in
  let root := run_of (sector12 f (current_fdd_drive s) (fdd s)) (root_dir_start f) (Z.to_nat n) in
  let listing := take FAT12_MAX_ROOT_ENTRIES (List.filter visible (slots root 0 (Z.to_nat (16 * n)))) in
  exists s', fat12_read_dir_entries alloc_ok fresh fuel None s = Some (Z.of_nat (length listing), s') /\
    entries s' = Some listing /\ same_disk (with_entries s (Some listing) (S (generation s))) s'.
Proof.
  intros Hf Hr Hs Hbps Hre Hrs Hcap Hfresh Ha n root listing. cbn [fat12_read_dir_entries]. unfold read_root.
  rewrite (bind_eq _ _ _ true (with_entries s (Some []) (S (generation s)))) by (unfold new_entries; by rewrite Ha).
  cbn [negb]. rewrite gets_bind. cbn [fat12 with_entries]. rewrite Hf. cbn zeta. rewrite !Hbps. cbn [Z.eqb].
  assert (0 <= n <= 4097) as Hn.
  { subst n. unfold root_dir_sectors. rewrite Hbps. rewrite (wrap_small 32 (root_entry_count _ * 32)), (wrap_small 32 (512 - 1)), wrap_small by lia.
    split; [apply Z.div_pos; lia|]. apply Z.div_le_upper_bound; lia. }
  rewrite Ha. cbn [negb]. rewrite gets_bind. cbn [current_fdd_drive with_entries]. fold n.
  rewrite wrap_small by lia.
  destruct (read_run_ok f (current_fdd_drive s) Hr (Z.to_nat n) (root_dir_start f) (fresh (Z.to_nat (n * 512))) 0
    (with_entries s (Some []) (S (generation s)))) as (s1 & E1 & S1).
  { done. } { lia. } { done. } { rewrite Hfresh. unfold FAT12_SECTOR_SIZE. lia. }
  change (Z.to_nat 512) with FAT12_SECTOR_SIZE. rewrite (bind_eq _ _ _ _ _ E1). rewrite take_0, app_nil_l.
  change (fdd (with_entries s (Some []) (S (generation s)))) with (fdd s). fold root.
  assert (n * 512 / 32 = 16 * n) as -> by (replace (n * 512) with (16 * n * 32) by lia; apply Z.div_mul; lia).
  rewrite parse_entries_spec. fold listing. clearbody listing root n. destruct S1 as (E & ? & ?). eexists (with_entries s1 (Some listing) (generation s1)).
  split; [done|]. split; [done|]. rewrite E. done.
Qed.
End Reading.

(** ** A disk to try the driver on *)

(** A drive with 18 sectors per track and two heads: the sectors that are not blank. *)
Definition image12 : Type := list (Z * buf).
Definition find12 (x : image12) (n : Z) : buf :=
  match List.find (fun p => fst p =? n) x with Some (_, b) => b | None => [] end.
Definition sector_of (x : image12) (n : Z) : buf := take FAT12_SECTOR_SIZE (find12 x n ++ replicate FAT12_SECTOR_SIZE 0).

#[global] Instance image_floppy : Floppy image12 := {|
  fdc_read_sector d h t c x := (Some (sector_of x (36 * t + 18 * h + c - 1)), x)
|}.
Lemma length_sector_of x n : length (sector_of x n) = FAT12_SECTOR_SIZE.
Proof. unfold sector_of. list_lia. Qed.
#[global, refine] Instance image_laws : FloppyLaws image12 := {|
  medium x d h t c := sector_of x (36 * t + 18 * h + c - 1);
  spinning _ _ := True
|}.
Proof. - intros. apply length_sector_of. - intros x **. by exists x. Defined.

(** One FAT of nine sectors, sixteen root entries: a directory SUB in cluster 2 and a
    file A.TXT of 700 bytes in clusters 4 and 5. *)
Definition boot_bytes : buf :=
  blit (replicate 512 0) 11 (le_put 2 512 ++ [1] ++ le_put 2 1 ++ [2] ++ le_put 2 16 ++ le_put 2 2880 ++ [240] ++ le_put 2 9 ++ le_put 2 18 ++ le_put 2 2).
Definition disk12 : image12 :=
  [(0, blit boot_bytes 510 [85; 170]);
   (1, [240; 255; 255; 255; 15; 0; 5; 240; 255]);
   (19, take 11 (lit "SUB        ") ++ [16] ++ replicate 14 0 ++ le_put 2 2 ++ le_put 4 0 ++
        take 11 (lit "A       TXT") ++ [32] ++ replicate 14 0 ++ le_put 2 4 ++ le_put 4 700);
   (22, replicate 512 65); (23, replicate 512 66)].

Definition always : Z -> bool := fun _ => true.
Definition zeroed (n : nat) : buf := replicate n 0.
Definition unmounted : fs12 image12 := Mk_fs12 None None 0 None Null 0 disk12.
Definition mounted : fs12 image12 :=
  match fat12_init_fs always zeroed 0 unmounted with Some (_, s) => s | None => unmounted end.
Definition in_sub : fs12 image12 :=
  match fat12_change_directory always zeroed 10 (lit "SUB") mounted with Some (_, s) => s | None => unmounted end.

Lemma directory_used_after_free_witness :
  fat12_change_directory always zeroed 10 (lit "SUB") mounted = Some (true, in_sub) /\
  fat12_read_dir always zeroed 10 in_sub = None.
Proof.
  assert (fat12_change_directory always zeroed 10 (lit "SUB") mounted = Some (true, in_sub)) as E by (vm_compute; reflexivity).
  split; [exact E|]. apply (proj1 (directory_used_after_free always zeroed 10 10 (lit "SUB") [0] [0] mounted in_sub eq_refl E)).
Defined.

Lemma cleanup_frees_twice_witness : fat12_cleanup mounted = None.
Proof. apply (cleanup_frees_twice always zeroed 0 unmounted mounted); [reflexivity|vm_compute; reflexivity]. Defined.

Definition disk_fs : fat12_t := match fat12 mounted with Some f => f | None => geometry 18 2 end.

Lemma disk_fs_eq : fat12 mounted = Some disk_fs.
Proof. vm_compute. reflexivity. Qed.
Lemma disk_fs_reach : reach disk_fs.
Proof. vm_compute. split; [by split|done]. Qed.
Lemma disk_fs_boot : boot_sector disk_fs = Mk_boot12 512 1 1 2 16 2880 9 18 2 0 43605 /\ root_dir_start disk_fs = 19 /\ data_start disk_fs = 20.
Proof. by vm_compute. Qed.
Lemma disk_fs_table : table_ok disk_fs (default [] (fat disk_fs)).
Proof. split; [vm_compute; reflexivity|apply bytes_check; vm_compute; reflexivity|vm_compute; reflexivity|by vm_compute]. Qed.
Lemma length_zeroed n : length (zeroed n) = n.
Proof. apply length_replicate. Qed.

Lemma root_listing_witness : exists s', fat12_read_dir_entries always zeroed 10 None mounted = Some (2, s') /\ is_Some (entries s').
Proof.
  destruct disk_fs_boot as (Hb & Hr & _).
  destruct (root_listing always zeroed disk_fs 10 mounted disk_fs_eq disk_fs_reach) as (s' & E & L & _); [exact I|..].
  - rewrite Hb. reflexivity.
  - rewrite Hb. cbn. lia.
  - rewrite Hr. lia.
  - unfold capacity. rewrite Hb, Hr. vm_compute. discriminate.
  - apply length_zeroed.
  - done.
  - exists s'. split; [|by eexists]. rewrite E. do 2 f_equal.
Defined.

Definition a_txt : fat12_file := Mk_file12 4 (lit "A.TXT" ++ replicate 7 0) 700 0 (lit "r").

Lemma fat12_read_file_ok_witness :
  exists out' s', fat12_read_file always zeroed 10 a_txt (replicate 600 0) 600 1000 mounted
    = Some ((600, Mk_file12 4 (lit "A.TXT" ++ replicate 7 0) 700 600 (lit "r"), out'), s') /\ take 600 out' = replicate 512 65 ++ replicate 88 66.
Proof.
  destruct disk_fs_boot as (Hb & _ & Hd).
  destruct (fat12_read_file_ok always zeroed disk_fs (default [] (fat disk_fs)) a_txt [5] 10 (replicate 600 0) 600 1000 mounted disk_fs_eq)
    as (out' & s' & E & _ & _ & T & _); [exact disk_fs_table|exact disk_fs_reach|exact I|rewrite Hd; lia|rewrite Hb; done|apply length_zeroed|done| | | | | | | | | |].
  - vm_compute. by split_and!.
  - by repeat constructor.
  - cbn. lia.
  - reflexivity.
  - cbn. lia.
  - lia.
  - lia.
  - rewrite length_replicate. lia.
  - vm_compute. by split.
  - exists out', s'. split; [exact E|]. etransitivity; [exact T|]. vm_compute. reflexivity.
Defined.
