(* ===== verification/Fat12Vfs.v ===== *)
(** fs/fat12/fat12_vfs_adapter.c: FAT12 as a file system of the VFS.

    The state is that of the FAT12 driver, the store of allocated structures, the root
    nodes, and the open files with the address of their buffer.  The driver's global array
    of directory entries, which it allocates and frees itself, is the field [entries] of
    the driver's state and not a structure of the store.  [fdd_at] gives the
    number of the floppy drive at an address, [fat12_addr] is the address of the
    driver's global structure. *)

From stdpp Require Import gmap strings.
From S2P Require Import Prelude Effects CString Vfs Fat12.

Definition FILE_ATTR_DIRECTORY : Z := 16.

Record fat12_world (F : Type) := Mk_tworld { tw_fat : fs12 F; tw_objs : objects; tw_roots : gmap Z vfs_node; tw_files : gmap Z (fat12_file * Z) }.
Arguments Mk_tworld {F}. Arguments tw_fat {F}. Arguments tw_objs {F}. Arguments tw_roots {F}. Arguments tw_files {F}.

#[global] Instance fat12_world_objects F : HasObjects (fat12_world F) := {|
  objs := tw_objs; with_objs w o := Mk_tworld (tw_fat w) o (tw_roots w) (tw_files w); objs_with _ _ := eq_refl |}.

(** The 8.3 name as a string. *)
Definition display_name12 (e : buf) : buf :=
  up_to_blank (filename e) ++ (if le_get (slice e 8 1) =? 32 then [] else 46 :: up_to_blank (extension e)) ++ [0].

Section Adapter.
Context {F : Type} `{Floppy F} (alloc_ok : Z -> bool) (fresh : nat -> buf) (fuel : nat).
Context (fdd_at : Z -> option Z) (fat12_addr : Z).
Abbreviation A := (M (fat12_world F)).

(** An operation of the FAT12 driver. *)
Definition on_fat12 {X} (m : M (fs12 F) X) : A X := fun w =>
  match m (tw_fat w) with Some (x, s) => Some (x, Mk_tworld s (tw_objs w) (tw_roots w) (tw_files w)) | None => None end.

Definition set_files (f : gmap Z (fat12_file * Z) -> gmap Z (fat12_file * Z)) : A unit :=
  modify (fun w => Mk_tworld (tw_fat w) (tw_objs w) (tw_roots w) (f (tw_files w))).
Definition set_roots (f : gmap Z vfs_node -> gmap Z vfs_node) : A unit :=
  modify (fun w => Mk_tworld (tw_fat w) (tw_objs w) (f (tw_roots w)) (tw_files w)).

(** ** Mounting *)

Definition fat12_vfs_mount (fs : Z) (obj : vfs_filesystem) (drive : Z) : A (Z * vfs_filesystem) :=
  if drive =? 0 then mret (VFS_ERR_INVALID, obj) else
  no ← lift (fdd_at drive);
  ok ← on_fat12 (fat12_init_fs alloc_ok fresh no);
  if negb ok then mret (VFS_ERR_IO, obj) else
  let with_data r := Mk_fs (fs_name obj) (fs_drive obj) (fs_ops obj) fat12_addr r in
  root ← allocate alloc_ok sizeof_node;
  match root with
  | None => mret (VFS_ERR_NO_MEMORY, with_data (fs_root obj))
  | Some root =>
      n ← lift (strcpy (fresh 256) [47; 0]);
      _ ← set_roots (insert root (Mk_node root n VFS_DIRECTORY 0 0 0 fs 0));
      mret (VFS_OK, with_data root)
  end.

Definition fat12_vfs_unmount (obj : vfs_filesystem) : A Z :=
  _ ← (if negb (fs_root obj =? 0) then _ ← deallocate (fs_root obj); set_roots (delete (fs_root obj)) else mret tt);
  mret VFS_OK.

(** ** Files *)

(** The structure of a file and its buffer are freed. *)
Definition fat12_close_file (p : Z) : A unit :=
  f ← gets (fun w => tw_files w !! p);
  f ← lift f;
  _ ← deallocate (snd f);
  _ ← deallocate p;
  set_files (delete p).

(** The structures that [fat12_open_file] has allocated for the file. *)
Definition place_file (f : fat12_file) : A Z :=
  p ← allocate (fun _ => true) sizeof_file;
  p ← lift p;
  base ← allocate (fun _ => true) (f_size f);
  base ← lift base;
  _ ← set_files (insert p (f, base));
  mret p.

Definition fat12_vfs_open (fs : Z) (obj : vfs_filesystem) (path : buf) : A (Z * vfs_node) :=
  c ← lift (strcmp path [47; 0]);
  if c =? 0 then n ← gets (fun w => tw_roots w !! fs_root obj); n ← lift n; mret (VFS_OK, n) else
  filename ← lift (skip_slash path);
  f ← on_fat12 (fat12_open_file alloc_ok fresh fuel (Some filename) (Some (lit "r")));
  match f with
  | None => mret (VFS_ERR_NOT_FOUND, no_node)
  | Some f =>
      p ← place_file f;
      a ← allocate alloc_ok sizeof_node;
      match a with
      | None => _ ← fat12_close_file p; mret (VFS_ERR_NO_MEMORY, no_node)
      | Some a =>
          n ← lift (put_name256 (fresh 256) filename);
          mret (VFS_OK, Mk_node a n VFS_FILE (f_start_cluster f) (f_size f) 0 fs p)
      end
  end.

Definition fat12_vfs_close (obj : vfs_filesystem) (node : vfs_node) : A Z :=
  if n_addr node =? fs_root obj then mret VFS_OK else
  _ ← (if negb (n_fs_specific node =? 0) then fat12_close_file (n_fs_specific node) else mret tt);
  _ ← deallocate (n_addr node);
  mret VFS_OK.

(** The offset is not used: a read goes on where the last one ended. *)
Definition fat12_vfs_read (obj : vfs_filesystem) (node : vfs_node) (offset size : Z) (buffer : buf) : A (Z * buf) :=
  if negb (bool_decide (n_type node = VFS_FILE)) then mret (VFS_ERR_IS_DIR, buffer) else
  if n_fs_specific node =? 0 then mret (VFS_ERR_INVALID, buffer) else
  f ← gets (fun w => tw_files w !! n_fs_specific node);
  f ← lift f;
  let bytes_to_read := if size <? n_size node then size else n_size node in
  r ← on_fat12 (fat12_read_file alloc_ok fresh fuel (fst f) buffer size bytes_to_read);
  let '(k, file, buffer) := r in
  _ ← set_files (insert (n_fs_specific node) (file, snd f));
  let bytes_read := swrap 32 k in
  if bytes_read <? 0 then mret (VFS_ERR_IO, buffer) else mret (bytes_read, buffer).

(** ** Directories *)

(** The entry is a variable that is never set: its indeterminate contents are those of
    [fresh].  It is passed as the directory to list, and returned as the result. *)
Definition fat12_vfs_readdir (node : vfs_node) (index : Z) (entry : vfs_dir_entry) : A (Z * vfs_dir_entry) :=
  if negb (bool_decide (n_type node = VFS_DIRECTORY)) then mret (VFS_ERR_NOT_DIR, entry) else
  let e := fresh FAT12_ENTRY in
  result ← on_fat12 (fat12_read_dir_entries alloc_ok fresh fuel (Some (Elsewhere e)));
  if result <? 0 then mret (VFS_ERR_IO, entry) else
  if 0 <? index then mret (VFS_ERR_NOT_FOUND, entry) else
  n ← lift (put_name256 (de_name entry) (display_name12 e));
  mret (VFS_OK, Mk_dirent n (if negb (Z.land (attributes e) FILE_ATTR_DIRECTORY =? 0) then VFS_DIRECTORY else VFS_FILE)
                 (file_size e) (first_cluster_low e) 0 0 0 (attributes e)).

Definition fat12_vfs_stat (fs : Z) (obj : vfs_filesystem) (path : buf) (st : vfs_dir_entry) : A (Z * vfs_dir_entry) :=
  r ← fat12_vfs_open fs obj path;
  let '(result, node) := r in
  if negb (result =? VFS_OK) then mret (result, st) else
  n ← lift (put_name256 (de_name st) (n_name node));
  _ ← fat12_vfs_close obj node;
  mret (VFS_OK, Mk_dirent n (n_type node) (n_size node) (n_inode node) (de_create_time st) (de_modify_time st) (de_access_time st) (de_attributes st)).

(** ** The table *)

Definition fat12_vfs_ops : vfs_ops (option (fat12_world F)) :=
  Mk_ops
    (fun w fs obj drive => run_op (fat12_vfs_mount fs obj drive) w (0, obj))
    (Some (fun w _ obj => run_op (fat12_vfs_unmount obj) w 0))
    (Some (fun w fs obj path => run_op (fat12_vfs_open fs obj path) w (0, no_node)))
    (Some (fun w obj node => run_op (fat12_vfs_close obj node) w 0))
    (Some (fun w obj node offset size buffer => run_op (fat12_vfs_read obj node offset size buffer) w (0, buffer)))
    (Some (fun w _ _ _ _ _ => (VFS_ERR_UNSUPPORTED, w)))
    (Some (fun w _ node index entry => run_op (fat12_vfs_readdir node index entry) w (0, entry)))
    (Some (fun w _ _ _ => (VFS_ERR_UNSUPPORTED, w)))
    (Some (fun w _ _ _ => (VFS_ERR_UNSUPPORTED, w)))
    (Some (fun w _ _ _ => (VFS_ERR_UNSUPPORTED, w)))
    (Some (fun w _ _ _ => (VFS_ERR_UNSUPPORTED, w)))
    (Some (fun w fs obj path st => run_op (fat12_vfs_stat fs obj path st) w (0, st))).
End Adapter.

(** * Properties *)

(** ** Names

    The format of the directory says which entry a name stands for, independently of the
    search: an entry has eight bytes for the name and three for the extension, filled up
    with blanks. *)

Definition plain (c : Z) : Prop := 0 < c < 256 /\ c <> 32 /\ c <> 46.
Record named12 (e b x : buf) : Prop := Mk_named12 {
  nm_name : filename e = b ++ replicate (8 - length b) 32; nm_ext : extension e = x ++ replicate (3 - length x) 32;
  nm_chars : Forall plain b /\ Forall plain x; nm_size : (0 < length b <= 8)%nat /\ (length x <= 3)%nat
}.
(** A name as it is given: with a dot in front of an extension. *)
Definition spelled (b x : buf) : buf := b ++ match x with [] => [] | _ => 46 :: x end.

(** [e] is the file with the name among the entries [l]: the first one; the entries in front
    of it have names of the format, and other ones. *)
Definition names12 (l : list buf) (b x e : buf) : Prop :=
  exists k, l !! k = Some e /\ Z.land (attributes e) 16 = 0 /\ named12 e b x /\
    forall i e', (i < k)%nat -> l !! i = Some e' -> exists b' x', named12 e' b' x' /\ (b', x') <> (b, x).

Lemma strncpy_exact (d n : buf) (k : nat) : nonul n -> length n = k -> (k <= length d)%nat -> strncpy d n k = Some (n ++ drop k d).
Proof.
  intros Hn. revert d k. induction Hn as [|c n Hc Hn IH]; intros d k <- Hd; [by destruct d|]. destruct d as [|y d]; [simpl in Hd; lia|].
  cbn [strncpy length app]. destruct (Z.eqb_spec c 0); [lia|]. rewrite (IH d (length n) eq_refl) by (simpl in Hd; lia). done.
Qed.

Lemma strncat_copy_ok (u r r' : buf) n z : nonul u -> (length u <= n)%nat -> (length u <= length r)%nat ->
  strncat_copy (z :: r) (u ++ 0 :: r') n = Some (u ++ 0 :: drop (length u) r).
Proof.
  intros Hu. revert r z n. induction Hu as [|c u Hc Hu IH]; intros r z n Hn Hr; [done|]. cbn [app strncat_copy length] in Hn, Hr |- *. destruct (Z.eqb_spec c 0); [lia|].
  destruct n as [|n]; [lia|]. destruct r as [|y r]; [simpl in Hr; lia|]. rewrite (IH r y n) by (simpl in Hr; lia). done.
Qed.

Lemma strncat_ok (s u r r' : buf) n : nonul s -> nonul u -> (length u <= n)%nat -> (length u <= length r)%nat ->
  strncat (s ++ 0 :: r) (u ++ 0 :: r') n = Some (s ++ u ++ 0 :: drop (length u) r).
Proof.
  intros Hs Hu Hn Hr. unfold strncat. rewrite strlen_spec by done. cbn [mbind option_bind]. rewrite Nat2Z.id, drop_app_length, take_app_length.
  by rewrite strncat_copy_ok.
Qed.

Lemma plain_nonul w : Forall plain w -> nonul w.
Proof. intros Hw. eapply Forall_impl; [exact Hw|]. intros c [Hc _]. cbn. lia. Qed.
Lemma blanks_nonul n : nonul (replicate n 32).
Proof. apply Forall_replicate. lia. Qed.

Lemma filter_plain (b : buf) n : Forall plain b -> List.filter nonblank (b ++ replicate n 32) = b.
Proof.
  intros Hb. rewrite List.filter_app. replace (List.filter nonblank (replicate n 32)) with (@nil Z) by (induction n; done). rewrite app_nil_r.
  induction Hb as [|c b [Hc [H32 _]] Hb IH]; [done|]. cbn [List.filter]. unfold nonblank at 1. destruct (Z.eqb_spec c 32), (Z.eqb_spec c 0); try lia. cbn. by rewrite IH.
Qed.

(** The name that the code makes of an entry. *)
Lemma file_name_ok e b x : named12 e b x ->
  exists r, file_name e = Some ((b ++ match x with [] => [] | _ => 46 :: x ++ replicate (3 - length x) 32 end) ++ 0 :: r).
Proof.
  intros [En Ex [Hb Hx] [Hlb Hlx]]. unfold file_name. rewrite En, Ex.
  rewrite strncpy_exact by (first [apply Forall_app; split; [by apply plain_nonul|apply blanks_nonul] | list_lia]). cbn [mbind option_bind].
  rewrite strncpy_exact by (first [apply Forall_app; split; [by apply plain_nonul|apply blanks_nonul] | list_lia]). cbn [mbind option_bind].
  unfold str_trim_spaces. rewrite (proj2 (Nat.leb_le _ _)) by list_lia.
  replace (take 8 ((b ++ replicate (8 - length b) 32) ++ drop 8 (replicate 9 0))) with (b ++ replicate (8 - length b) 32) by (rewrite take_app_le, take_ge by list_lia; done).
  rewrite filter_plain by done. unfold put_bytes. rewrite (proj2 (Nat.leb_le _ _)) by (rewrite length_app, length_replicate; cbn; lia). cbn [mbind option_bind].
  assert (blit (replicate 13 0) 0 (b ++ [0]) = b ++ 0 :: replicate (12 - length b) 0) as ->.
  { unfold blit. rewrite take_0, app_nil_l, <- app_assoc, drop_replicate, length_app. cbn [app length Nat.add]. do 2 f_equal. f_equal. lia. }
  destruct x as [|c x]; cbn [app head mbind option_bind length Nat.sub replicate].
  - cbn. rewrite app_nil_r. by eexists.
  - apply Forall_cons in Hx as [[Hc [H32 _]] Hx]. destruct (Z.eqb_spec c 32); [lia|]. cbn [negb].
    change (lit ".") with ([46] ++ 0 :: []). rewrite strncat_ok by (first [by apply plain_nonul | by repeat constructor | cbn; rewrite ?length_replicate; lia]). cbn [mbind option_bind].
    replace (b ++ [46] ++ 0 :: drop (length [46]) (replicate (12 - length b) 0)) with ((b ++ [46]) ++ 0 :: replicate (11 - length b) 0).
    2: { rewrite <- app_assoc. cbn [app length]. rewrite drop_replicate. do 3 f_equal. f_equal. lia. }
    replace (c :: (x ++ replicate (2 - length x) 32) ++ drop 3 [0; 0; 0; 0]) with ((c :: x ++ replicate (2 - length x) 32) ++ 0 :: []) by done.
    eexists. rewrite strncat_ok; [rewrite <- !app_assoc; cbn [app]; rewrite <- ?app_assoc; reflexivity| | | |].
    + apply Forall_app. split; [by apply plain_nonul|by repeat constructor].
    + constructor; [lia|]. apply Forall_app. split; [by apply plain_nonul|apply blanks_nonul].
    + cbn [length] in *. list_lia.
    + cbn [length] in *. list_lia.
Qed.

Lemma before_dot (b b' u u' : buf) : Forall plain b -> Forall plain b' -> (u = [] \/ exists v, u = 46 :: v) -> (u' = [] \/ exists v, u' = 46 :: v) ->
  b ++ u = b' ++ u' -> b = b' /\ u = u'.
Proof.
  intros Hb. revert b'. induction Hb as [|c b Hc Hb IH]; intros b' Hb' Hu Hu' E; destruct Hb' as [|c' b' Hc' Hb'].
  - done.
  - exfalso. cbn in E. destruct Hu as [->|(v & ->)]; [done|]. injection E as <- _. destruct Hc' as (_ & _ & ?). done.
  - exfalso. cbn in E. destruct Hu' as [->|(v & ->)]; [done|]. injection E as -> _. destruct Hc as (_ & _ & ?). done.
  - injection E as -> E. destruct (IH b' Hb' Hu Hu' E) as [-> ->]. done.
Qed.

Lemma padded_short (x x' : buf) n : Forall plain x -> x' ++ replicate n 32 = x -> n = 0%nat.
Proof.
  intros Hx <-. destruct n as [|n]; [done|]. exfalso. apply Forall_app in Hx as [_ Hx]. apply Forall_cons in Hx as [(_ & ? & _) _]. done.
Qed.

(** The search finds the file that the format says, if its extension has no blanks. *)
Lemma find_names12 (l : list buf) (b x e : buf) : Forall (fun e => first_byte e <> 0 /\ first_byte e <> 229) l -> names12 l b x e -> (x = [] \/ length x = 3%nat) ->
  find_file l (spelled b x ++ [0]) = Some (Some e).
Proof.
  intros Hl (k & Hk & Ha & Hn & Hbef) Hx. revert k Hk Hbef. induction Hl as [|e' l [H0 H229] Hl IH]; intros k Hk Hbef; [done|]. cbn [find_file].
  apply Z.eqb_neq in H0, H229. rewrite H0, H229. cbn [orb].
  assert (forall b' x', named12 e' b' x' -> exists z, (n ← file_name e'; r ← strcmp n (spelled b x ++ [0]); if r =? 0 then Some (Some e') else find_file l (spelled b x ++ [0]))
    = (if z =? 0 then Some (Some e') else find_file l (spelled b x ++ [0])) /\ ((z =? 0) = true <-> (b', x') = (b, x))) as Hcmp.
  { intros b' x' Hn'. destruct (file_name_ok e' b' x' Hn') as (r & ->). cbn [mbind option_bind]. destruct Hn as [_ _ [Hb Hxp] [Hlb _]], Hn' as [_ _ [Hb' Hx'] [Hlb' Hlx']].
    set (u' := match x' with [] => _ | _ => _ end). set (u := match x with [] => [] | _ => 46 :: x end).
    destruct (strcmp_eq (b' ++ u') (b ++ u) r []) as (z & Ez & Hz).
    - apply Forall_app. split; [by apply plain_nonul|]. subst u'. destruct x'; [constructor|]. constructor; [lia|]. apply Forall_app. split; [by apply plain_nonul|apply blanks_nonul].
    - apply Forall_app. split; [by apply plain_nonul|]. subst u. destruct x; [constructor|]. constructor; [lia|]. by apply plain_nonul.
    - unfold spelled. fold u. rewrite Ez. cbn [mbind option_bind]. exists z. split; [done|]. rewrite Hz, bool_decide_eq_true.
      split.
      + intros E. apply before_dot in E as [-> Eu]; [|done|done|subst u'; destruct x'; [by left|right; by eexists]|subst u; destruct x; [by left|right; by eexists]].
        subst u u'. destruct x' as [|c1 x'], x as [|c2 x]; try done.
        pose proof (f_equal (@tl Z) Eu : (c1 :: x') ++ replicate (3 - length (c1 :: x')) 32 = c2 :: x) as Ex.
        rewrite (padded_short _ _ _ Hxp Ex), app_nil_r in Ex. by rewrite Ex.
      + intros [= -> ->]. f_equal. subst u u'. destruct x; [done|]. destruct Hx as [Hx|Hx]; [done|]. rewrite Hx. cbn [Nat.sub replicate]. by rewrite app_nil_r. }
  destruct k as [|k].
  - injection Hk as ->. rewrite Ha. cbn [Z.eqb negb orb]. destruct (Hcmp b x Hn) as (z & -> & Hz). by rewrite (proj2 Hz eq_refl).
  - destruct (Hbef 0%nat e' ltac:(lia) eq_refl) as (b' & x' & Hn' & Hne). destruct (negb _).
    + apply (IH k); [done|]. intros i e2 Hi He2. apply (Hbef (S i) e2); [lia|done].
    + destruct (Hcmp b' x' Hn') as (z & -> & Hz). destruct (z =? 0); [by destruct (Hne (proj1 Hz eq_refl))|]. apply (IH k); [done|]. intros i e2 Hi He2. apply (Hbef (S i) e2); [lia|done].
Qed.

Lemma listed_entries (b : buf) n : forall i, Forall (fun e => first_byte e <> 0 /\ first_byte e <> 229) (List.filter visible (slots b i n)).
Proof.
  induction n as [|n IH]; intros i; cbn [slots]; [constructor|]. destruct (Z.eqb_spec (first_byte (slice b (i * FAT12_ENTRY) FAT12_ENTRY)) 0); [constructor|].
  cbn [List.filter]. unfold visible at 1. destruct (Z.eqb_spec (first_byte (slice b (i * FAT12_ENTRY) FAT12_ENTRY)) 229); [apply IH|]. destruct (negb (_ =? 15)); cbn [negb andb]; [|apply IH].
  constructor; [done|apply IH].
Qed.

Section Through.
Context {F : Type} `{FloppyLaws F} (alloc_ok : Z -> bool) (fresh : nat -> buf) (fuel : nat).
Context (alloc_all : forall n, alloc_ok n = true) (Hfresh : forall n, length (fresh n) = n).
Context (fdd_at : Z -> option Z) (fat12_addr : Z) (ops_at : Z -> option (vfs_ops (option (fat12_world F)))).
Implicit Types (w : fat12_world F) (s : fs12 F).

(** A mounted disk with 512-byte sectors whose root directory is the current one. *)
Record disk_ready s (f : fat12_t) (t : buf) : Prop := Mk_ready {
  dr_fat : fat12 s = Some f; dr_table : table_ok f t; dr_reach : reach f; dr_spin : spinning (fdd s) (current_fdd_drive s); dr_cwd : current_dir s = None;
  dr_bps : bytes_per_sector (boot_sector f) = 512; dr_spc : 0 < sectors_per_cluster (boot_sector f); dr_data : 0 <= data_start f;
  dr_count : 0 <= root_entry_count (boot_sector f) < 2 ^ 16; dr_root : 0 <= root_dir_start f;
  dr_room : root_dir_start f + root_dir_sectors (boot_sector f) <= capacity f
}.

(** The entries of the root directory, and the contents of a chain of clusters. *)
Definition root_entries s (f : fat12_t) : list buf :=
  let n := root_dir_sectors (boot_sector f) in
  take FAT12_MAX_ROOT_ENTRIES (List.filter visible
    (slots (run_of (sector12 f (current_fdd_drive s) (fdd s)) (root_dir_start f) (Z.to_nat n)) 0 (Z.to_nat (16 * n)))).
Definition contents s (f : fat12_t) (l : list Z) : buf := concat (map (cluster12 f (current_fdd_drive s) (fdd s)) l).

(** A file of the root directory, by the format of the disk; the extension has no or three
    characters, and the chain of the FAT is one that the code can follow. *)
Record disk_file s (f : fat12_t) (t b x e : buf) (l : list Z) : Prop := Mk_dfile {
  df_names : names12 (root_entries s f) b x e; df_ext : x = [] \/ length x = 3%nat;
  df_chain : chain12 f t (first_cluster_low e :: l); df_followed : followed (first_cluster_low e :: l); df_fuel : (S (length l) < fuel)%nat;
  df_size : 0 < file_size e < 2 ^ 31; df_content : file_size e <= Z.of_nat (length (contents s f (first_cluster_low e :: l)))
}.

Lemma disk_file_name s f t b x e l : disk_file s f t b x e l ->
  nonul (spelled b x) /\ (0 < length (spelled b x) <= 12)%nat /\ find_file (root_entries s f) (spelled b x ++ [0]) = Some (Some e).
Proof.
  intros [(k & Hk & Ha & Hn & Hbef) Hx _ _ _ _ _]. pose proof Hn as [_ _ [Hb Hxp] [Hlb Hlx]]. split_and!.
  - unfold spelled. apply Forall_app. split; [by apply plain_nonul|]. destruct x; [constructor|]. constructor; [lia|]. by apply plain_nonul.
  - unfold spelled. rewrite length_app. lia.
  - unfold spelled. rewrite length_app. destruct x; cbn [length] in *; lia.
  - apply find_names12; [apply Forall_take, listed_entries|by exists k|done].
Qed.

Definition opened (nm e : buf) (f : fat12_file) : Prop :=
  f_start_cluster f = first_cluster_low e /\ f_size f = file_size e /\ f_position f = 0.

Lemma open_file_ok s f t b x e l : let nm := spelled b x in disk_ready s f t -> disk_file s f t b x e l ->
  exists file s1, fat12_open_file alloc_ok fresh fuel (Some (nm ++ [0])) (Some (lit "r")) s = Some (Some file, s1) /\ opened nm e file /\
    fat12 s1 = Some f /\ current_fdd_drive s1 = current_fdd_drive s /\ spinning (fdd s1) (current_fdd_drive s1) /\ medium (fdd s1) = medium (fdd s) /\
    entries s1 = Some (root_entries s f).
Proof.
  intros nm [Hf Ht Hr Hs Hd Hb Hspc Hdt Hc Hrt Hrm] Hdf. destruct (disk_file_name _ _ _ _ _ _ _ Hdf) as (Hn & Hl & Hfind). fold nm in Hn, Hl, Hfind. destruct Hdf as [_ _ Hch _ _ _ _].
  unfold fat12_open_file. rewrite gets_bind, Hf, (to_fat _ _ Ht). cbn [negb].
  rewrite (lift_bind _ _ _ _ (strlen_spec nm [] Hn)). destruct (Z.eqb_spec (Z.of_nat (length nm)) 0), (Z.ltb_spec 12 (Z.of_nat (length nm))); try lia. cbn [orb].
  rewrite gets_bind, Hd. destruct (root_listing alloc_ok fresh f fuel s Hf Hr Hs Hb Hc Hrt Hrm Hfresh alloc_all) as (s1 & E1 & L1 & S1).
  fold (root_entries s f) in E1, L1, S1. rewrite (bind_eq _ _ _ _ _ E1). destruct (Z.ltb_spec (Z.of_nat (length (root_entries s f))) 0); [lia|].
  rewrite gets_bind, L1, (lift_bind _ _ _ _ Hfind). pose proof (proj1 Hch) as Hc1. unfold FAT12_MAX_CLUSTER in Hc1.
  replace (is_valid_cluster_fat12 (first_cluster_low e)) with true by (unfold is_valid_cluster_fat12, FAT12_MIN_CLUSTER, FAT12_MAX_CLUSTER; lia).
  rewrite !alloc_all. cbn [negb]. rewrite (lift_bind _ _ _ _ (strncpy_spec (replicate 13 0) nm [] 12 Hn ltac:(rewrite length_replicate; lia))).
  destruct S1 as (E & Hsp & Hm). eexists _, s1. split; [reflexivity|]. split; [done|]. rewrite E in L1 |- *. split_and!; [done|done| |done|done]. by apply Hsp.
Qed.

Lemma contents_medium s s1 f l : current_fdd_drive s1 = current_fdd_drive s -> medium (fdd s1) = medium (fdd s) -> contents s1 f l = contents s f l.
Proof. intros Hd Hm. unfold contents, cluster12, sector12. by rewrite Hd, Hm. Qed.

(** Reading a file that has just been opened, and reading on when all has been read. *)
Lemma first_read s f t (file : fat12_file) l (size : Z) (buffer : buf) :
  fat12 s = Some f -> table_ok f t -> reach f -> spinning (fdd s) (current_fdd_drive s) -> 0 <= data_start f -> 0 < sectors_per_cluster (boot_sector f) ->
  chain12 f t (f_start_cluster file :: l) -> followed (f_start_cluster file :: l) -> (S (length l) < fuel)%nat -> f_position file = 0 -> 0 < f_size file < 2 ^ 31 ->
  f_size file <= Z.of_nat (length (contents s f (f_start_cluster file :: l))) -> f_size file <= size < 2 ^ 31 -> size <= Z.of_nat (length buffer) ->
  exists out s', fat12_read_file alloc_ok fresh fuel file buffer size (f_size file) s
      = Some ((f_size file, Mk_file12 (f_start_cluster file) (f_name file) (f_size file) (f_size file) (f_mode file), out), s') /\
    take (Z.to_nat (f_size file)) out = take (Z.to_nat (f_size file)) (contents s f (f_start_cluster file :: l)) /\ fat12 s' = Some f /\ entries s' = entries s.
Proof.
  intros Hf Ht Hr Hs Hdt Hspc Hch Hfo Hfu Hp Hsz Hct Hb Hbuf.
  destruct (read_file12_spec alloc_ok fresh f t file l fuel buffer size (f_size file) s Hf Ht Hr Hs Hdt Hspc Hfresh (alloc_all _) Hch Hfo Hfu Hp ltac:(lia) ltac:(lia) ltac:(lia) Hbuf)
    as (out & s' & E & (Es & _) & _ & T & _).
  { fold (contents s f (f_start_cluster file :: l)). lia. }
  replace (Z.min (Z.min (f_size file) (f_size file)) size) with (f_size file) in * by lia. exists out, s'. split_and!; [done..| |]; by rewrite Es.
Qed.

Lemma next_read s f t (file : fat12_file) (size n : Z) (buffer : buf) : fat12 s = Some f -> fat f = Some t -> f_position file = f_size file ->
  0 <= f_size file < 2 ^ 31 -> 0 <= n <= f_size file -> 0 <= size ->
  exists r, fat12_read_file alloc_ok fresh fuel file buffer size n s = Some ((0, file, buffer), r) /\ r = s.
Proof.
  intros Hf Ht Hp Hsz Hn Hs. unfold fat12_read_file. rewrite gets_bind, Hf, Ht. destruct (_ || _) eqn:E0; [by eexists|]. destruct (negb _); [by eexists|].
  apply orb_false_iff in E0 as [_ En]. apply Z.eqb_neq in En. rewrite Hp, wrap_small by lia. destruct (Z.ltb_spec (f_size file) (f_size file + n)); [|lia].
  rewrite Z.sub_diag. change (u32 0) with 0. destruct (Z.ltb_spec size 0); [lia|]. by eexists.
Qed.

Lemma adapter_read12 obj node w file base offset size buffer k file' out s' : n_type node = VFS_FILE -> n_fs_specific node <> 0 ->
  tw_files w !! n_fs_specific node = Some (file, base) -> 0 <= k < 2 ^ 31 ->
  fat12_read_file alloc_ok fresh fuel file buffer size (if size <? n_size node then size else n_size node) (tw_fat w) = Some ((k, file', out), s') ->
  fat12_vfs_read alloc_ok fresh fuel obj node offset size buffer w =
    Some ((k, out), Mk_tworld s' (tw_objs w) (tw_roots w) (<[n_fs_specific node := (file', base)]> (tw_files w))).
Proof.
  intros Ht Hn Hl Hk E. unfold fat12_vfs_read. rewrite bool_decide_true by done. cbn [negb]. destruct (Z.eqb_spec (n_fs_specific node) 0); [done|].
  rewrite gets_bind, Hl, (lift_bind _ _ _ _ eq_refl). erewrite bind_eq by (unfold on_fat12; cbn [fst]; rewrite E; reflexivity).
  unfold set_files. rewrite modify_bind, swrap_small by lia. by destruct (Z.ltb_spec k 0); [lia|].
Qed.

(** The store after an open, and its release. *)
Lemma close_frees obj node w (file : fat12_file) o : objects_ok o -> fs_root obj ∈ o_live o ->
  let o1 := snd (new_object o) in let o2 := snd (new_object o1) in
  n_fs_specific node = o_next o -> n_addr node = o_next o2 -> tw_objs w = snd (new_object o2) -> tw_files w !! o_next o = Some (file, o_next o1) ->
  exists w', fat12_vfs_close obj node w = Some (VFS_OK, w') /\ o_live (tw_objs w') = o_live o /\ tw_fat w' = tw_fat w.
Proof.
  intros Ho Hroot o1 o2 Es Ea Ew Ef. pose proof (proj2 Ho _ Hroot) as Hrt. pose proof Ho as [Hpos Hlive].
  assert (objects_ok (tw_objs w)) as How by (rewrite Ew; apply (new_object_ok o2), (new_object_ok o1), (new_object_ok o Ho)). cbn in o1, o2.
  unfold fat12_vfs_close. destruct (Z.eqb_spec (n_addr node) (fs_root obj)) as [Heq|_]; [cbn in Ea; lia|].
  destruct (Z.eqb_spec (n_fs_specific node) 0); [lia|]. cbn [negb]. rewrite Es. unfold fat12_close_file. rewrite bind_assoc, gets_bind, Ef, bind_assoc, (lift_bind _ _ _ _ eq_refl).
  destruct (free_object_ok (o_next o1) (tw_objs w) How) as (o3 & E3 & Ho3 & L3); [rewrite Ew; cbn; set_solver|].
  cbn [snd]. rewrite bind_assoc. erewrite bind_eq by (unfold deallocate; cbn [objs fat12_world_objects]; rewrite E3; reflexivity).
  destruct (free_object_ok (o_next o) o3 Ho3) as (o4 & E4 & Ho4 & L4); [rewrite L3, Ew; cbn; set_solver by lia|].
  rewrite bind_assoc. erewrite bind_eq by (unfold deallocate; cbn [objs with_objs fat12_world_objects tw_objs]; rewrite E4; reflexivity).
  unfold set_files. rewrite modify_bind.
  destruct (free_object_ok (n_addr node) o4 Ho4) as (o5 & E5 & Ho5 & L5); [rewrite L4, L3, Ew, Ea; cbn; set_solver by lia|].
  erewrite bind_eq by (unfold deallocate; cbn [objs with_objs fat12_world_objects tw_objs]; rewrite E5; reflexivity).
  eexists. split; [done|]. split; [|done]. cbn. rewrite L5, L4, L3, Ew, Ea. cbn. apply set_eq. intros p. specialize (Hlive p). set_solver by lia.
Qed.

(** A FAT12 file system in the mount list. *)
Record fat12_mounted (v : vfs_state (option (fat12_world F))) (m : vfs_mount_t) (rel : buf) (obj : vfs_filesystem) w : Prop := Mk_tmounted {
  tm_at : mounted_at ops_at v m rel obj (fat12_vfs_ops alloc_ok fresh fuel fdd_at fat12_addr);
  tm_world : world v = Some w; tm_objs : objects_ok (tw_objs w); tm_root : fs_root obj ∈ o_live (tw_objs w)
}.

(** The node and the state that opening a file gives. *)
Lemma fat12_open_ok fs obj rel w f t b x e l : let nm := spelled b x in disk_ready (tw_fat w) f t -> disk_file (tw_fat w) f t b x e l -> nonul rel ->
  skip_slash (rel ++ [0]) = Some (nm ++ [0]) ->
  let o := tw_objs w in let o1 := snd (new_object o) in let o2 := snd (new_object o1) in
  exists n s1 file, fat12_vfs_open alloc_ok fresh fuel fs obj (rel ++ [0]) w =
      Some ((VFS_OK, Mk_node (o_next o2) n VFS_FILE (first_cluster_low e) (file_size e) 0 fs (o_next o)),
            Mk_tworld s1 (snd (new_object o2)) (tw_roots w) (<[o_next o := (file, o_next o1)]> (tw_files w))) /\
    opened nm e file /\ fat12 s1 = Some f /\ current_fdd_drive s1 = current_fdd_drive (tw_fat w) /\ spinning (fdd s1) (current_fdd_drive s1) /\ medium (fdd s1) = medium (fdd (tw_fat w)) /\
    entries s1 = Some (root_entries (tw_fat w) f).
Proof.
  intros nm Hr Hd Hrel Esk o o1 o2. unfold fat12_vfs_open. destruct (disk_file_name _ _ _ _ _ _ _ Hd) as (Hn & Hl & _). fold nm in Hn, Hl.
  destruct (not_root_path rel nm Hrel Esk) as (z & Ez & Hz); [intros ->; cbn in Hl; lia|].
  rewrite (lift_bind _ _ _ _ Ez), Hz, (lift_bind _ _ _ _ Esk).
  destruct (open_file_ok (tw_fat w) f t b x e l Hr Hd) as (file & s1 & E1 & (F1 & F2 & F3) & H1).
  fold nm in E1. erewrite bind_eq by (unfold on_fat12; rewrite E1; reflexivity). cbn iota. erewrite bind_eq by reflexivity.
  erewrite bind_eq by (unfold allocate; rewrite alloc_all; reflexivity). cbn iota.
  assert (exists n, put_name256 (fresh 256) (nm ++ [0]) = Some n) as (n & En).
  { unfold put_name256. rewrite strncpy_spec by (done || rewrite Hfresh; lia). cbn [mbind option_bind]. unfold wr, blen.
    destruct (Z.leb_spec 0 255), (Z.ltb_spec 255 (Z.of_nat (length (take 255 nm ++ replicate (255 - length nm) 0 ++ drop 255 (fresh 256))))) as [|Hbad]; try lia; [by eexists|].
    exfalso. rewrite !length_app, length_take, length_replicate, length_drop, Hfresh in Hbad. lia. }
  rewrite (lift_bind _ _ _ _ En). exists n, s1, file. split; [by rewrite F1, F2|]. by split.
Qed.

End Through.

(** The listing of a directory does not show the directory: the entry that is returned is
    made of the indeterminate bytes of a local variable, whatever the disk holds. *)
Theorem readdir_returns_garbage {F} `{Floppy F} (alloc_ok : Z -> bool) (fresh : nat -> buf) (fuel : nat) (node : vfs_node) (index : Z)
    (entry entry' : vfs_dir_entry) (w w' : fat12_world F) :
  fat12_vfs_readdir alloc_ok fresh fuel node index entry w = Some ((VFS_OK, entry'), w') ->
  de_size entry' = file_size (fresh FAT12_ENTRY) /\ de_inode entry' = first_cluster_low (fresh FAT12_ENTRY) /\
  put_name256 (de_name entry) (display_name12 (fresh FAT12_ENTRY)) = Some (de_name entry').
Proof.
  unfold fat12_vfs_readdir. destruct (negb _); [done|]. intros E. apply bind_inv in E as (r & w1 & _ & E). destruct (r <? 0); [done|].
  destruct (0 <? index); [done|]. apply bind_inv in E as (n & w2 & En & E). unfold lift in En. destruct (put_name256 _ _); [|done].
  injection En as <- <-. injection E as <- <-. done.
Qed.

(** ** Witnesses *)

Definition floppy_at (a : Z) : option Z := if a =? 3 then Some 0 else None.
Definition fat12_table : vfs_ops (option (fat12_world image12)) := fat12_vfs_ops always zeroed 10 floppy_at 5.
Definition fat12_at (a : Z) : option (vfs_ops (option (fat12_world image12))) := if a =? 9 then Some fat12_table else None.
Definition floppy_fs : vfs_filesystem := Mk_fs (replicate 32 0) 3 9 5 7.
Definition floppy_mnt : vfs_mount_t := Mk_mount 30 [47; 102; 0] 40.
Definition floppy_world : fat12_world image12 := Mk_tworld mounted (Mk_objects {[7]} 8) ∅ ∅.
Definition floppy_vfs : vfs_state (option (fat12_world image12)) := Mk_vfs [] [floppy_mnt] 1 (<[40 := floppy_fs]> ∅) (Some floppy_world).
Definition a_txt_name : buf := Eval compute in lit_bytes "A.TXT".
Definition a_txt_entry : buf := Eval compute in take 11 (lit "A       TXT") ++ [32] ++ replicate 14 0 ++ le_put 2 4 ++ le_put 4 700.

Lemma floppy_mounted : fat12_mounted always zeroed 10 floppy_at 5 fat12_at floppy_vfs floppy_mnt (47 :: a_txt_name) floppy_fs floppy_world.
Proof.
  split; [split|..].
  - repeat constructor. exists [47; 102], []. split; [by repeat constructor|done].
  - apply NoDup_singleton.
  - by left.
  - done.
  - by repeat constructor.
  - done.
  - intros m' Hin. apply list_elem_of_singleton in Hin as ->. done.
  - done.
  - done.
  - done.
  - split; cbn; [lia|]. intros p Hp. apply elem_of_singleton in Hp. lia.
  - cbn. by apply elem_of_singleton.
Qed.

Lemma floppy_ready : disk_ready mounted disk_fs (default [] (fat disk_fs)).
Proof.
  destruct disk_fs_boot as (Hb & Hr & Hd).
  split; [exact disk_fs_eq|exact disk_fs_table|exact disk_fs_reach|exact I|vm_compute; reflexivity|by rewrite Hb|by rewrite Hb|rewrite Hd; lia|rewrite Hb; cbn; lia|rewrite Hr; lia|].
  unfold capacity. rewrite Hb, Hr. vm_compute. discriminate.
Qed.

Lemma floppy_a_txt : disk_file 10 mounted disk_fs (default [] (fat disk_fs)) [65] [84; 88; 84] a_txt_entry [5].
Proof.
  split; [|right; reflexivity| |repeat constructor|cbn; lia|by vm_compute|by vm_compute].
  - exists 1%nat.
    assert (root_entries mounted disk_fs = [take 11 (lit "SUB        ") ++ [16] ++ replicate 14 0 ++ le_put 2 2 ++ le_put 4 0; a_txt_entry]) as -> by (vm_compute; reflexivity). split; [reflexivity|]. split; [reflexivity|]. split.
    + split; [reflexivity|reflexivity|split; repeat constructor; lia|cbn; lia].
    + intros [|i] e' Hi He'; [|lia]. injection He' as <-. exists [83; 85; 66], []. split; [|done].
      split; [reflexivity|reflexivity|split; repeat constructor; lia|cbn; lia].
  - vm_compute. by split_and!.
Qed.


Lemma readdir_returns_garbage_witness :
  exists r w', fat12_vfs_readdir always zeroed 10 (Mk_node 7 [] VFS_DIRECTORY 0 0 0 40 0) 0 (Mk_dirent (zeroed 256) VFS_FILE 0 0 0 0 0 0) floppy_world
    = Some ((VFS_OK, r), w') /\ de_size r = 0.
Proof.
  destruct (fat12_vfs_readdir always zeroed 10 (Mk_node 7 [] VFS_DIRECTORY 0 0 0 40 0) 0 (Mk_dirent (zeroed 256) VFS_FILE 0 0 0 0 0 0) floppy_world) as [[[c r] w']|] eqn:E;
    [|vm_compute in E; discriminate].
  assert (c = VFS_OK) as -> by (vm_compute in E; injection E as <- _ _; reflexivity).
  exists r, w'. split; [done|]. by destruct (readdir_returns_garbage always zeroed 10 _ 0 _ r floppy_world w' E) as (Hs & _ & _).
Defined.
