(* ===== verification/Ext2.v ===== *)
(** fs/ext2/ext2.c: the EXT2 driver.

    The state is the structure [ext2_fs_t] with the disk behind it, used through the
    interface of BlockDev.v.  An inode is its 128 bytes, the group descriptor table the
    bytes that were read.  Memory that the structure points to is a [ptr]: the heap
    blocks have the size they were allocated with, and an access outside of them, to a
    freed block or through NULL is undefined behaviour. *)

From S2P Require Import Prelude CString Effects BlockDev.

(** ** Constants and data *)

Definition EXT2_SIGNATURE : Z := 61267.
Definition EXT2_ROOT_INO : Z := 2.
Definition EXT2_S_IFDIR : Z := 16384.
Definition EXT2_NDIR_BLOCKS : Z := 12.
Definition EXT2_NAME_LEN : Z := 255.
Definition sizeof_inode : nat := 128.
Definition sizeof_group_desc : Z := 32.

Record ext2_superblock_t := Mk_super {
  s_inodes_count : Z; s_blocks_count : Z; s_first_data_block : Z; s_log_block_size : Z;
  s_blocks_per_group : Z; s_inodes_per_group : Z; s_magic : Z; s_inode_size : Z
}.

(** The fields that the driver uses, at their offsets in the packed structure. *)
Definition parse_superblock (b : buf) : ext2_superblock_t :=
  Mk_super (le_get (slice b 0 4)) (le_get (slice b 4 4)) (le_get (slice b 20 4)) (le_get (slice b 24 4))
    (le_get (slice b 32 4)) (le_get (slice b 40 4)) (le_get (slice b 56 2)) (le_get (slice b 88 2)).

Definition i_mode (ino : buf) : Z := le_get (slice ino 0 2).
Definition i_size (ino : buf) : Z := le_get (slice ino 4 4).
Definition i_block (ino : buf) (k : nat) : Z := le_get (slice ino (40 + 4 * k) 4).

(** [name] is what the code stores of the name, with the terminator. *)
Record ext2_dir_entry_t := Mk_entry { inode : Z; rec_len : Z; name_len : Z; file_type : Z; name : buf }.

Inductive ptr := Null | Live (b : buf) | Freed.

Record ext2_fs (D : Type) := Mk_ext2 {
  dev : D;
  superblock : ext2_superblock_t;
  group_desc_table : ptr;
  block_size : Z;
  num_block_groups : Z;
  inodes_per_block : Z;
  current_dir_inode : Z;
  block_buffer : ptr;
  ata_base : Z;
  ata_is_master : bool
}.
Arguments Mk_ext2 {D}. Arguments dev {D}. Arguments superblock {D}. Arguments group_desc_table {D}. Arguments block_size {D}.
Arguments num_block_groups {D}. Arguments inodes_per_block {D}. Arguments current_dir_inode {D}. Arguments block_buffer {D}.
Arguments ata_base {D}. Arguments ata_is_master {D}.

Definition with_dev {D} (s : ext2_fs D) (d : D) : ext2_fs D :=
  Mk_ext2 d (superblock s) (group_desc_table s) (block_size s) (num_block_groups s) (inodes_per_block s) (current_dir_inode s) (block_buffer s) (ata_base s) (ata_is_master s).
Definition with_super {D} (s : ext2_fs D) (x : ext2_superblock_t) : ext2_fs D :=
  Mk_ext2 (dev s) x (group_desc_table s) (block_size s) (num_block_groups s) (inodes_per_block s) (current_dir_inode s) (block_buffer s) (ata_base s) (ata_is_master s).
Definition with_table {D} (s : ext2_fs D) (p : ptr) : ext2_fs D :=
  Mk_ext2 (dev s) (superblock s) p (block_size s) (num_block_groups s) (inodes_per_block s) (current_dir_inode s) (block_buffer s) (ata_base s) (ata_is_master s).
Definition with_sizes {D} (s : ext2_fs D) (b n i : Z) : ext2_fs D :=
  Mk_ext2 (dev s) (superblock s) (group_desc_table s) b n i (current_dir_inode s) (block_buffer s) (ata_base s) (ata_is_master s).
Definition with_cwd {D} (s : ext2_fs D) (n : Z) : ext2_fs D :=
  Mk_ext2 (dev s) (superblock s) (group_desc_table s) (block_size s) (num_block_groups s) (inodes_per_block s) n (block_buffer s) (ata_base s) (ata_is_master s).
Definition with_block {D} (s : ext2_fs D) (p : ptr) : ext2_fs D :=
  Mk_ext2 (dev s) (superblock s) (group_desc_table s) (block_size s) (num_block_groups s) (inodes_per_block s) (current_dir_inode s) p (ata_base s) (ata_is_master s).
Definition with_drive {D} (s : ext2_fs D) (b : Z) (m : bool) : ext2_fs D :=
  Mk_ext2 (dev s) (superblock s) (group_desc_table s) (block_size s) (num_block_groups s) (inodes_per_block s) (current_dir_inode s) (block_buffer s) b m.

(** [memcpy(d + off, s + soff, n)]. *)
Definition memcpy_at (d : buf) (off : nat) (s : buf) (soff : nat) (n : Z) : option buf :=
  if (length d <? off)%nat || (length s <? soff)%nat then None else
  r ← memcpy (Some (drop off d)) (Some (drop soff s)) n;
  match r with Some x => Some (take off d ++ x) | None => None end.

Definition memset_at (d : buf) (off : nat) (v : Z) (n : Z) : option buf :=
  if (length d <? off)%nat then None else
  r ← memset (Some (drop off d)) v (Z.to_nat n);
  match r with Some x => Some (take off d ++ x) | None => None end.

Section Driver.
Context {D : Type} `{BlockDev D} (alloc_ok : Z -> bool) (fresh : nat -> buf).
Abbreviation A := (M (ext2_fs D)).

(** ** Blocks *)

Definition read_sector (lba : Z) : A (option buf) := fun s =>
  let '(r, d) := ata_read_sector (ata_base s) lba (ata_is_master s) (dev s) in Some (r, with_dev s d).
Definition write_sector (lba : Z) (data : buf) : A bool := fun s =>
  let '(r, d) := ata_write_sector (ata_base s) lba data (ata_is_master s) (dev s) in Some (r, with_dev s d).

(** [n] sectors into a buffer; what was read before a failure stays in it. *)
Fixpoint read_sectors (lba : Z) (b : buf) (off n : nat) : A (bool * buf) :=
  match n with
  | O => mret (true, b)
  | S n' =>
      r ← read_sector (u32 lba);
      match r with
      | None => mret (false, b)
      | Some data =>
          b ← lift (if (off + length data <=? length b)%nat then Some (blit b off data) else None);
          read_sectors (lba + 1) b (off + SECTOR_SIZE) n'
      end
  end.

Definition ext2_read_block (block_num : Z) (b : buf) (off : nat) : A (bool * buf) :=
  bs ← gets block_size;
  let sectors_per_block := bs / 512 in
  read_sectors (u32 (block_num * sectors_per_block)) b off (Z.to_nat sectors_per_block).

Fixpoint write_sectors (lba : Z) (b : buf) (off n : nat) : A bool :=
  match n with
  | O => mret true
  | S n' =>
      data ← lift (if (off + SECTOR_SIZE <=? length b)%nat then Some (slice b off SECTOR_SIZE) else None);
      r ← write_sector (u32 lba) data;
      if negb r then mret false else write_sectors (lba + 1) b (off + SECTOR_SIZE) n'
  end.

Definition ext2_write_block (block_num : Z) (b : buf) : A bool :=
  bs ← gets block_size;
  let sectors_per_block := bs / 512 in
  write_sectors (u32 (block_num * sectors_per_block)) b 0 (Z.to_nat sectors_per_block).

(** The block buffer of the file system; NULL is refused by the block operations. *)
Definition buffer_bytes : A (option buf) :=
  p ← gets block_buffer;
  match p with Null => mret None | Live b => mret (Some b) | Freed => undef end.

Definition read_to_buffer (block_num : Z) : A bool :=
  p ← buffer_bytes;
  match p with
  | None => mret false
  | Some b =>
      r ← ext2_read_block block_num b 0;
      _ ← modify (fun s => with_block s (Live (snd r)));
      mret (fst r)
  end.

(** ** Mounting *)

Fixpoint read_table (gdt_block : Z) (bs : nat) (b : buf) (off n : nat) : A (bool * buf) :=
  match n with
  | O => mret (true, b)
  | S n' =>
      r ← ext2_read_block (u32 gdt_block) b off;
      if negb (fst r) then mret r else read_table (gdt_block + 1) bs (snd r) (off + bs) n'
  end.

Definition ext2_init (base : Z) (is_master : bool) : A bool :=
  _ ← modify (fun s => with_drive s base is_master);
  r ← read_sector 2;
  match r with
  | None => mret false
  | Some b1 =>
      r ← read_sector 3;
      match r with
      | None => mret false
      | Some b2 =>
          let sb := parse_superblock (b1 ++ b2) in
          _ ← modify (fun s => with_super s sb);
          if negb (s_magic sb =? EXT2_SIGNATURE) then mret false else
          (* 1024 << n in int *)
          if 21 <=? s_log_block_size sb then undef else
          let bs := 1024 * 2 ^ s_log_block_size sb in
          _ ← modify (fun s => with_sizes s bs (num_block_groups s) (inodes_per_block s));
          if (bs =? 0) || (65536 <? bs) then mret false else
          if s_blocks_per_group sb =? 0 then undef else
          let groups := u32 (u32 (s_blocks_count sb + s_blocks_per_group sb) - 1) / s_blocks_per_group sb in
          let inode_size := if s_inode_size sb =? 0 then 128 else s_inode_size sb in
          _ ← modify (fun s => with_sizes s bs groups (bs / inode_size));
          let gdt_block := u32 (s_first_data_block sb + 1) in
          let gdt_size := u32 (groups * sizeof_group_desc) in
          if negb (alloc_ok gdt_size) then _ ← modify (fun s => with_table s Null); mret false else
          let gdt_blocks := u32 (u32 (gdt_size + bs) - 1) / bs in
          t ← read_table gdt_block (Z.to_nat bs) (fresh (Z.to_nat gdt_size)) 0 (Z.to_nat gdt_blocks);
          if negb (fst t) then _ ← modify (fun s => with_table s Freed); mret false else
          _ ← modify (fun s => with_table s (Live (snd t)));
          if negb (alloc_ok bs) then _ ← modify (fun s => with_block (with_table s Freed) Null); mret false else
          _ ← modify (fun s => with_block s (Live (fresh (Z.to_nat bs))));
          _ ← modify (fun s => with_cwd s EXT2_ROOT_INO);
          mret true
      end
  end.

Definition release (p : ptr) : option ptr := match p with Freed => None | _ => Some Null end.

Definition ext2_cleanup : A unit :=
  t ← gets group_desc_table;
  t ← lift (release t);
  _ ← modify (fun s => with_table s t);
  b ← gets block_buffer;
  b ← lift (release b);
  modify (fun s => with_block s b).

(** ** Inodes *)

Definition ext2_get_inode_block_group (inode_num : Z) : A Z :=
  sb ← gets superblock;
  if s_inodes_per_group sb =? 0 then undef else mret (u32 (inode_num - 1) / s_inodes_per_group sb).
Definition ext2_get_inode_table_index (inode_num : Z) : A Z :=
  sb ← gets superblock;
  if s_inodes_per_group sb =? 0 then undef else mret (u32 (inode_num - 1) mod s_inodes_per_group sb).

(** [group_desc_table[g].bg_inode_table]. *)
Definition bg_inode_table (g : Z) : A Z :=
  t ← gets group_desc_table;
  match t with
  | Live b => let off := Z.to_nat (g * sizeof_group_desc + 8) in
              if (off + 4 <=? length b)%nat then mret (le_get (slice b off 4)) else undef
  | _ => undef
  end.

(** Where an inode is: the block and the offset in it; [None]: no such group. *)
Definition inode_place (inode_num : Z) : A (option (Z * Z)) :=
  group ← ext2_get_inode_block_group inode_num;
  index ← ext2_get_inode_table_index inode_num;
  groups ← gets num_block_groups;
  if groups <=? group then mret None else
  table ← bg_inode_table group;
  sb ← gets superblock;
  bs ← gets block_size;
  let inode_size := if s_inode_size sb =? 0 then 128 else s_inode_size sb in
  if bs =? 0 then undef else
  mret (Some (u32 (table + u32 (index * inode_size) / bs), u32 (index * inode_size) mod bs)).

Definition live_buffer : A buf := p ← gets block_buffer; match p with Live b => mret b | _ => undef end.

Definition ext2_read_inode (inode_num : Z) : A (option buf) :=
  if inode_num =? 0 then mret None else
  p ← inode_place inode_num;
  match p with
  | None => mret None
  | Some (blk, off) =>
      ok ← read_to_buffer blk;
      if negb ok then mret None else
      b ← live_buffer;
      ino ← lift (memcpy_at (fresh sizeof_inode) 0 b (Z.to_nat off) (Z.of_nat sizeof_inode));
      mret (Some ino)
  end.

Definition ext2_write_inode (inode_num : Z) (ino : buf) : A bool :=
  if inode_num =? 0 then mret false else
  p ← inode_place inode_num;
  match p with
  | None => mret false
  | Some (blk, off) =>
      ok ← read_to_buffer blk;
      if negb ok then mret false else
      b ← live_buffer;
      b ← lift (memcpy_at b (Z.to_nat off) ino 0 (Z.of_nat sizeof_inode));
      _ ← modify (fun s => with_block s (Live b));
      ext2_write_block blk b
  end.

(** ** Files *)

(** The loop of [ext2_read_file]; every round but a failing one reads at least a byte. *)
Fixpoint read_file_loop (fuel : nat) (ino : buf) (size bytes_read current_offset : Z) (out : buf) : A (Z * buf) :=
  match fuel with
  | O => undef
  | S fuel' =>
      if negb (bytes_read <? size) then mret (bytes_read, out) else
      bs ← gets block_size;
      if bs =? 0 then undef else
      let block_index := current_offset / bs in
      let offset_in_block := current_offset mod bs in
      let left_in_block := u32 (bs - offset_in_block) in
      let bytes_in_block := if size - bytes_read <? left_in_block then size - bytes_read else left_in_block in
      if EXT2_NDIR_BLOCKS <=? block_index then mret (bytes_read, out) else
      let block_num := i_block ino (Z.to_nat block_index) in
      if block_num =? 0 then
        out ← lift (memset_at out (Z.to_nat bytes_read) 0 bytes_in_block);
        read_file_loop fuel' ino size (bytes_read + bytes_in_block) (u32 (current_offset + bytes_in_block)) out
      else
        ok ← read_to_buffer block_num;
        if negb ok then mret (bytes_read, out) else
        b ← live_buffer;
        out ← lift (memcpy_at out (Z.to_nat bytes_read) b (Z.to_nat offset_in_block) bytes_in_block);
        read_file_loop fuel' ino size (bytes_read + bytes_in_block) (u32 (current_offset + bytes_in_block)) out
  end.

(** A round ends at a block boundary, at the size or at the last direct block. *)
Definition file_rounds : nat := S (S 12).

Definition ext2_read_file (ino : buf) (offset size : Z) (out : buf) : A (Z * buf) :=
  if i_size ino <=? offset then mret (0, out) else
  let size := if i_size ino <? u32 (offset + size) then i_size ino - offset else size in
  read_file_loop file_rounds ino size 0 offset out.

(** ** Directories *)

(** The entry at an offset of the block buffer. *)
Definition entry_header (b : buf) (o : nat) : option (Z * Z * Z * Z) :=
  if (o + 8 <=? length b)%nat
  then Some (le_get (slice b o 4), le_get (slice b (o + 4) 2), le_get (slice b (o + 6) 1), le_get (slice b (o + 7) 1))
  else None.

(** The copy of an entry: [name[copy_len] = 0] with [copy_len] 255 is outside the array. *)
Definition copy_entry (b : buf) (o : nat) (h : Z * Z * Z * Z) : option ext2_dir_entry_t :=
  let '(ino, rl, nl, ft) := h in
  let copy_len := if EXT2_NAME_LEN <? nl then EXT2_NAME_LEN else nl in
  if EXT2_NAME_LEN <=? copy_len then None else
  if (length b <? o + 8 + Z.to_nat copy_len)%nat then None else
  Some (Mk_entry ino rl nl ft (slice b (o + 8) (Z.to_nat copy_len) ++ [0])).

(** The entries of a block. *)
Fixpoint parse_dir (fuel : nat) (b : buf) (bs isize max_entries block_offset offset : Z) (found : list ext2_dir_entry_t) : option (list ext2_dir_entry_t) :=
  match fuel with
  | O => None
  | S fuel' =>
      if negb ((block_offset <? bs) && (offset <? isize)) then Some found else
      h ← entry_header b (Z.to_nat block_offset);
      let '(ino, rl, nl, ft) := h in
      if (ino =? 0) || (rl =? 0) then Some found else
      if (bs <? rl) || (rl <? 8) then Some found else
      found ← (if Z.of_nat (length found) <? max_entries
               then e ← copy_entry b (Z.to_nat block_offset) h; Some (found ++ [e]) else Some found);
      parse_dir fuel' b bs isize max_entries (u32 (block_offset + rl)) (u32 (offset + rl)) found
  end.

Fixpoint dir_loop (fuel : nat) (ino : buf) (max_entries offset : Z) (found : list ext2_dir_entry_t) : A (bool * list ext2_dir_entry_t) :=
  match fuel with
  | O => undef
  | S fuel' =>
      if negb ((offset <? i_size ino) && (Z.of_nat (length found) <? max_entries)) then mret (true, found) else
      bs ← gets block_size;
      if bs =? 0 then undef else
      let block_index := offset / bs in
      if EXT2_NDIR_BLOCKS <=? block_index then mret (true, found) else
      let block_num := i_block ino (Z.to_nat block_index) in
      if block_num =? 0 then mret (true, found) else
      ok ← read_to_buffer block_num;
      if negb ok then mret (false, found) else
      b ← live_buffer;
      found ← lift (parse_dir (S (Z.to_nat bs)) b bs (i_size ino) max_entries 0 offset found);
      dir_loop fuel' ino max_entries (u32 ((block_index + 1) * bs)) found
  end.

Definition ext2_read_dir (inode_num max_entries : Z) : A (bool * list ext2_dir_entry_t) :=
  r ← ext2_read_inode inode_num;
  match r with
  | None => mret (false, [])
  | Some ino =>
      if negb (Z.land (i_mode ino) EXT2_S_IFDIR =? EXT2_S_IFDIR) then mret (false, [])
      else dir_loop file_rounds ino max_entries 0 []
  end.

Fixpoint find_loop (l : list ext2_dir_entry_t) (nm : buf) : option (option ext2_dir_entry_t) :=
  match l with
  | [] => Some None
  | e :: l' =>
      c ← strncmp (name e) nm (Z.to_nat (name_len e));
      if c =? 0 then
        n ← strlen nm;
        if n =? name_len e then Some (Some e) else find_loop l' nm
      else find_loop l' nm
  end.

Definition ext2_find_entry (dir_inode : Z) (nm : buf) : A (option ext2_dir_entry_t) :=
  r ← ext2_read_dir dir_inode 64;
  if negb (fst r) then mret None else lift (find_loop (snd r) nm).
End Driver.

(** * Properties *)

Lemma memcpy_at_ok d off s soff n : 0 <= n < 65536 -> (off + Z.to_nat n <= length d)%nat -> (soff + Z.to_nat n <= length s)%nat ->
  memcpy_at d off s soff n = Some (blit d off (slice s soff (Z.to_nat n))).
Proof.
  intros Hn Hd Hs. unfold memcpy_at. rewrite (proj2 (Nat.ltb_ge _ _)), (proj2 (Nat.ltb_ge (length s) _)) by lia. cbn [orb].
  unfold memcpy. rewrite wrap_small by lia. rewrite copy_loop_spec by (rewrite length_drop; lia). cbn. f_equal. unfold blit, slice. f_equal. f_equal.
  rewrite drop_drop. f_equal. rewrite length_take, length_drop. lia.
Qed.

Lemma memset_at_ok d off n : 0 <= n -> (off + Z.to_nat n <= length d)%nat -> memset_at d off 0 n = Some (blit d off (replicate (Z.to_nat n) 0)).
Proof.
  intros Hn Hd. unfold memset_at. rewrite (proj2 (Nat.ltb_ge _ _)) by lia. unfold memset. rewrite set_loop_spec by (rewrite length_drop; lia).
  cbn. f_equal. unfold blit. f_equal. f_equal. by rewrite drop_drop, length_replicate.
Qed.

(** A piece of one of several blocks of equal size. *)
Lemma slice_concat (g : nat -> buf) (w : nat) : (forall k, length (g k) = w) -> forall n st k o m,
  (k < n)%nat -> (o + m <= w)%nat -> slice (concat (map g (seq st n))) (k * w + o) m = slice (g (st + k)%nat) o m.
Proof.
  intros Hg. induction n as [|n IH]; intros st k o m Hk Hm; [lia|]. cbn [seq map concat]. unfold slice in *. destruct k as [|k].
  - rewrite Nat.add_0_r. cbn [Nat.mul Nat.add]. rewrite drop_app_le by (rewrite Hg; lia). rewrite take_app_le; [done|]. rewrite length_drop, Hg. lia.
  - rewrite drop_app_ge by (rewrite Hg; lia). rewrite Hg. replace (S k * w + o - w)%nat with (k * w + o)%nat by lia. rewrite IH by lia.
    by replace (S st + k)%nat with (st + S k)%nat by lia.
Qed.

Lemma length_concat_const (l : list buf) (w : nat) : (forall x, In x l -> length x = w) -> length (concat l) = (length l * w)%nat.
Proof. induction l as [|x l IH]; intros Hl; cbn; [done|]. rewrite length_app, IH, (Hl x); cbn; auto. intros; apply Hl. by right. Qed.

Lemma blit_app_r (a b x : buf) : blit (a ++ b) (length a) x = a ++ blit b 0 x.
Proof. unfold blit. rewrite take_app_length, drop_app_ge by lia. cbn [take app Nat.add]. by replace (length a + length x - length a)%nat with (length x) by lia. Qed.

(** ** Directory blocks *)

(** The bytes of a directory entry: the name without terminator, padded to [rec_len]. *)
Definition entry_bytes (e : ext2_dir_entry_t) (nm pad : buf) : buf :=
  le_put 4 (inode e) ++ le_put 2 (rec_len e) ++ [name_len e; file_type e] ++ nm ++ pad.

(** An entry in use, with a name of at most 254 characters. *)
Record entry_ok (bs : Z) (x : ext2_dir_entry_t * buf * buf) : Prop := Mk_entry_ok {
  e_inode : 0 < inode (fst (fst x)) < 2 ^ 32;
  e_rec : 8 <= rec_len (fst (fst x)) <= bs;
  e_name : name_len (fst (fst x)) = Z.of_nat (length (snd (fst x))) /\ name_len (fst (fst x)) < 255;
  e_pad : rec_len (fst (fst x)) = 8 + name_len (fst (fst x)) + Z.of_nat (length (snd x));
  e_type : byte_ok (file_type (fst (fst x)));
  e_chars : nonul (snd (fst x));
  e_stored : name (fst (fst x)) = snd (fst x) ++ [0]
}.

Definition entry_of (x : ext2_dir_entry_t * buf * buf) : ext2_dir_entry_t := fst (fst x).
Definition bytes_of (x : ext2_dir_entry_t * buf * buf) : buf := entry_bytes (fst (fst x)) (snd (fst x)) (snd x).
Definition dir_bytes (l : list (ext2_dir_entry_t * buf * buf)) : buf := concat (map bytes_of l).

Lemma length_bytes_of bs x : entry_ok bs x -> Z.of_nat (length (bytes_of x)) = rec_len (entry_of x).
Proof. intros [_ Hr [Hn _] Hp _ _ _]. unfold bytes_of, entry_bytes, entry_of in *. rewrite !length_app, !length_le_put. cbn [length]. lia. Qed.

Lemma slice_mid (pre x post : buf) k n : (k + n <= length x)%nat -> slice (pre ++ x ++ post) (length pre + k) n = slice x k n.
Proof.
  intros Hk. unfold slice. rewrite drop_app_ge by lia. replace (length pre + k - length pre)%nat with k by lia.
  rewrite drop_app_le by lia. rewrite take_app_le; [done|]. rewrite length_drop. lia.
Qed.

Lemma entry_read bs x (pre post : buf) : bs <= 65535 -> entry_ok bs x ->
  let b := pre ++ bytes_of x ++ post in let e := entry_of x in
  entry_header b (length pre) = Some (inode e, rec_len e, name_len e, file_type e) /\
  copy_entry b (length pre) (inode e, rec_len e, name_len e, file_type e) = Some e.
Proof.
  intros Hbs Hx b e. pose proof (length_bytes_of bs x Hx) as Hlen. destruct Hx as [Hi Hr [Hn Hn'] Hp Ht Hc Hs]. fold e in Hi, Hr, Hn, Hn', Hp, Ht, Hs.
  destruct x as [[e0 nm] pad]. cbn [entry_of fst snd] in *. subst e.
  assert (8 <= length (bytes_of (e0, nm, pad)))%nat as H8 by lia.
  assert (forall k n, (k + n <= length (bytes_of (e0, nm, pad)))%nat -> slice b (length pre + k) n = slice (bytes_of (e0, nm, pad)) k n) as Hsl by (intros; by apply slice_mid).
  assert (length b = length pre + (length (bytes_of (e0, nm, pad)) + length post))%nat as Hb by (subst b; by rewrite !length_app). split.
  - unfold entry_header. rewrite (proj2 (Nat.leb_le _ _)) by lia. rewrite <- (Nat.add_0_r (length pre)) at 1. rewrite !Hsl by lia.
    assert (slice (bytes_of (e0, nm, pad)) 0 4 = le_put 4 (inode e0)) as -> by done.
    assert (slice (bytes_of (e0, nm, pad)) 4 2 = le_put 2 (rec_len e0)) as -> by done.
    assert (slice (bytes_of (e0, nm, pad)) 6 1 = [name_len e0]) as -> by done.
    assert (slice (bytes_of (e0, nm, pad)) 7 1 = [file_type e0]) as -> by done.
    rewrite !le_get_put. cbn [le_get]. rewrite !Z.mod_small by (cbn; lia). do 2 f_equal; [f_equal|]; lia.
  - unfold copy_entry, EXT2_NAME_LEN. destruct (Z.ltb_spec 255 (name_len e0)); [lia|]. destruct (Z.leb_spec 255 (name_len e0)); [lia|].
    rewrite (proj2 (Nat.ltb_ge _ _)) by lia. f_equal. rewrite Hsl by lia. destruct e0 as [ino rl nl ft nme]. cbn in *. f_equal.
    rewrite Hs. f_equal. rewrite Hn, Nat2Z.id. unfold slice, bytes_of, entry_bytes. cbn [fst snd le_put app drop]. by rewrite drop_0, take_app_length.
Qed.

Lemma parse_dir_ok bs max_entries isize o : 1024 <= bs <= 65535 -> 0 <= o -> o + bs <= isize < 2 ^ 32 -> forall l (pre : buf) fuel found,
  Forall (entry_ok bs) l -> (length l < fuel)%nat -> Z.of_nat (length (pre ++ dir_bytes l)) = bs -> Z.of_nat (length found) <= max_entries ->
  parse_dir fuel (pre ++ dir_bytes l) bs isize max_entries (Z.of_nat (length pre)) (o + Z.of_nat (length pre)) found
  = Some (take (Z.to_nat max_entries) (found ++ map entry_of l)).
Proof.
  intros Hbs Ho Hsz. induction l as [|x l IH]; intros pre [|fuel] found Hl Hf Hlen Hm; cbn [length] in Hf; try lia; cbn [parse_dir].
  - unfold dir_bytes in *. cbn [map concat] in *. rewrite app_nil_r in *. destruct (Z.ltb_spec (Z.of_nat (length pre)) bs); [lia|]. cbn [negb andb]. by rewrite app_nil_r, take_ge by lia.
  - apply Forall_cons in Hl as [Hx Hl]. unfold dir_bytes in *. cbn [map concat] in *. rewrite Nat2Z.id.
    destruct (entry_read bs x pre (concat (map bytes_of l)) ltac:(lia) Hx) as [Eh Ec]. pose proof (length_bytes_of bs x Hx) as Hxl.
    rewrite !length_app in Hlen. destruct Hx as [Hi Hr [Hn Hn'] _ _ _ _]. fold (entry_of x) in *.
    destruct (Z.ltb_spec (Z.of_nat (length pre)) bs), (Z.ltb_spec (o + Z.of_nat (length pre)) isize); try lia. cbn [negb andb]. rewrite Eh. cbn [mbind option_bind].
    destruct (Z.eqb_spec (inode (entry_of x)) 0), (Z.eqb_spec (rec_len (entry_of x)) 0), (Z.ltb_spec bs (rec_len (entry_of x))), (Z.ltb_spec (rec_len (entry_of x)) 8); try lia. cbn [orb].
    rewrite !wrap_small by lia. rewrite Ec. replace (o + Z.of_nat (length pre) + rec_len (entry_of x)) with (o + Z.of_nat (length (pre ++ bytes_of x))) by (rewrite length_app; lia).
    replace (Z.of_nat (length pre) + rec_len (entry_of x)) with (Z.of_nat (length (pre ++ bytes_of x))) by (rewrite length_app; lia).
    rewrite (app_assoc pre). cbn [mbind option_bind].
    destruct (Z.ltb_spec (Z.of_nat (length found)) max_entries).
    + cbn [mbind option_bind]. rewrite IH; [|done|lia|rewrite !length_app; lia|list_lia]. by rewrite <- app_assoc.
    + cbn [mbind option_bind]. rewrite IH; [|done|lia|rewrite !length_app; lia|lia]. by rewrite !take_app_le by lia.
Qed.

Lemma strncmp_entry x y r r' : nonul x -> nonul y ->
  exists z, strncmp (x ++ 0 :: r) (y ++ 0 :: r') (length x) = Some z /\ (z =? 0) = bool_decide (x `prefix_of` y).
Proof.
  revert y. induction x as [|c x IH]; intros y Hx Hy; cbn [length strncmp app].
  - exists 0. split; [done|]. by rewrite bool_decide_true by apply prefix_nil.
  - apply Forall_cons in Hx as [Hc Hx]. destruct y as [|d y]; cbn [app].
    + destruct (Z.eqb_spec c 0), (Z.eqb_spec c 0); try lia. cbn [negb andb]. exists (c - 0). split; [done|].
      rewrite bool_decide_false by (by intros ?%prefix_nil_inv). apply Z.eqb_neq. lia.
    + apply Forall_cons in Hy as [Hd Hy]. destruct (Z.eqb_spec c 0); [lia|]. cbn [negb andb]. destruct (Z.eqb_spec c d) as [->|Hne].
      * destruct (IH y Hx Hy) as (z & Hz & Hb). exists z. split; [done|]. rewrite Hb. apply bool_decide_ext. split; [apply prefix_cons|apply prefix_cons_inv_2].
      * exists (c - d). split; [done|]. rewrite bool_decide_false by (by intros ?%prefix_cons_inv_1). apply Z.eqb_neq. lia.
Qed.

(** The search compares whole names. *)
Lemma find_loop_ok bs l nm r : Forall (entry_ok bs) l -> nonul nm ->
  find_loop (map entry_of l) (nm ++ 0 :: r) = Some (List.find (fun e => bool_decide (name e = nm ++ [0])) (map entry_of l)).
Proof.
  intros Hl Hnm. induction Hl as [|x l Hx Hl IH]; cbn [map find_loop List.find]; [done|]. destruct Hx as [_ _ [Hn _] _ _ Hc Hs]. fold (entry_of x) in *.
  destruct (strncmp_entry (snd (fst x)) nm [] r Hc Hnm) as (z & Ez & Hz). rewrite Hs, Hn, Nat2Z.id. cbn [mbind option_bind]. change (snd (fst x) ++ [0]) with (snd (fst x) ++ 0 :: []). rewrite Ez.
  cbn [mbind option_bind]. rewrite Hz, strlen_spec by done. cbn [mbind option_bind].
  case_bool_decide as Hp; case_bool_decide as He.
  - apply app_inv_tail in He. rewrite He, Z.eqb_refl. done.
  - destruct (Z.eqb_spec (Z.of_nat (length nm)) (Z.of_nat (length (snd (fst x))))) as [E|]; [|done]. exfalso. apply He. f_equal.
    apply prefix_length_eq in Hp; [done|lia].
  - apply app_inv_tail in He. exfalso. apply Hp. by rewrite He.
  - done.
Qed.

Section Blocks.
Context {D : Type} `{BlockDev D} (alloc_ok : Z -> bool) (fresh : nat -> buf).
Implicit Types s : ext2_fs D.

(** ** Blocks on the disk *)

Definition sect s (lba : Z) : buf := sector (dev s) (ata_base s) (ata_is_master s) lba.

Fixpoint run (g : Z -> buf) (lba : Z) (n : nat) : buf :=
  match n with O => [] | S n' => g lba ++ run g (lba + 1) n' end.

Lemma run_ext g g' n : forall lba, (forall i, lba <= i < lba + Z.of_nat n -> g i = g' i) -> run g lba n = run g' lba n.
Proof. induction n as [|n IH]; intros lba Hg; cbn [run]; [done|]. rewrite (Hg lba) by lia. f_equal. apply IH. intros i Hi. apply Hg. lia. Qed.

Definition spb s : nat := Z.to_nat (block_size s / 512).

(** The contents of a block. *)
Definition block_at s (n : Z) : buf := run (sect s) (n * Z.of_nat (spb s)) (spb s).
Definition on_disk s (n : Z) : Prop := 0 <= n /\ (n + 1) * Z.of_nat (spb s) <= LBA_LIMIT.

(** Mounted: the drive responds, the block size is one of EXT2's and its buffer is there. *)
Record ext2_ok s : Prop := Mk_ok {
  ok_dev : dev_ok (dev s) (ata_base s);
  ok_size : exists k, 0 <= k <= 6 /\ block_size s = 1024 * 2 ^ k;
  ok_buffer : exists b, block_buffer s = Live b /\ Z.of_nat (length b) = block_size s
}.

Lemma run_bytes g lba n : (forall i, bytes_ok (g i)) -> bytes_ok (run g lba n).
Proof. intros Hg. revert lba. induction n as [|n IH]; intros lba; cbn [run]; [constructor|]. apply bytes_ok_app. auto. Qed.

(** Only the device and the block buffer have changed, and the disk has the same contents. *)
Record same s s' : Prop := Mk_same {
  same_rest : exists d p, s' = with_block (with_dev s d) p;
  same_ok : ext2_ok s';
  same_sect : forall lba, sect s' lba = sect s lba
}.

Lemma same_refl s : ext2_ok s -> same s s.
Proof. intros. split; [|done..]. exists (dev s), (block_buffer s). by destruct s. Qed.
Lemma same_trans s1 s2 s3 : same s1 s2 -> same s2 s3 -> same s1 s3.
Proof.
  intros [(d & p & E) ? S1] [(d' & p' & E') ? S2]. split; [|done|intros; by rewrite S2]. exists d', p'. by rewrite E', E.
Qed.

Lemma same_block s s' n : same s s' -> block_at s' n = block_at s n.
Proof.
  intros [(d & p & E) _ Hs]. unfold block_at. replace (spb s') with (spb s) by (by rewrite E). apply run_ext. intros. apply Hs.
Qed.

Lemma bsize_range s : ext2_ok s -> 1024 <= block_size s <= 65536 /\ block_size s = 512 * Z.of_nat (spb s).
Proof.
  intros [_ (k & Hk & E) _]. unfold spb. rewrite E. assert (exists j, k = Z.of_nat j /\ (j <= 6)%nat) as (j & -> & Hj) by (exists (Z.to_nat k); lia).
  do 7 (destruct j as [|j]; [split; [split; by vm_compute|by vm_compute]|]). lia.
Qed.

Lemma length_run g lba n : (forall i, length (g i) = SECTOR_SIZE) -> length (run g lba n) = (n * SECTOR_SIZE)%nat.
Proof. intros Hg. revert lba. induction n as [|n IH]; intros lba; cbn [run]; [done|]. rewrite length_app, Hg, IH. lia. Qed.

Lemma length_block s n : ext2_ok s -> Z.of_nat (length (block_at s n)) = block_size s.
Proof.
  intros Hs. unfold block_at. rewrite length_run; [|intros; by apply sector_size, Hs]. pose proof (bsize_range s Hs). unfold SECTOR_SIZE. lia.
Qed.

(** A driver call does not touch the disk's contents when it reads. *)
Lemma ext2_read_sector_ok s lba : ext2_ok s -> 0 <= lba < LBA_LIMIT ->
  exists s', read_sector lba s = Some (Some (sect s lba), s') /\ same s s' /\ block_buffer s' = block_buffer s.
Proof.
  intros Hs Hl. destruct (read_ok (dev s) (ata_base s) (ata_is_master s) lba (ok_dev _ Hs) Hl) as (d & E & Hd & Hsec).
  exists (with_dev s d). unfold read_sector. rewrite E. split; [done|]. split; [|done]. destruct Hs as [H1 H2 H3].
  split; [exists d, (block_buffer s); by destruct s| |intros; apply Hsec]. split; [by apply Hd|done..].
Qed.

Lemma ext2_read_sectors_ok n : forall s lba b off, ext2_ok s -> 0 <= lba -> lba + Z.of_nat n <= LBA_LIMIT -> (off + n * SECTOR_SIZE <= length b)%nat ->
  exists s', read_sectors lba b off n s = Some ((true, blit b off (run (sect s) lba n)), s') /\ same s s' /\ block_buffer s' = block_buffer s.
Proof.
  induction n as [|n IH]; intros s lba b off Hs Hl Hr Hb; cbn [read_sectors run].
  { exists s. split; [|split; [by apply same_refl|done]]. unfold blit. cbn [length app]. rewrite Nat.add_0_r. by rewrite take_drop. }
  unfold LBA_LIMIT in *. rewrite wrap_small by lia.
  destruct (ext2_read_sector_ok s lba Hs) as (s1 & E1 & S1 & B1); [unfold LBA_LIMIT; lia|]. rewrite (bind_eq _ _ _ _ _ E1).
  assert (length (sect s lba) = SECTOR_SIZE) as Hsz by apply sector_size, Hs.
  erewrite lift_bind; [|rewrite (proj2 (Nat.leb_le _ _)) by lia; reflexivity].
  destruct (IH s1 (lba + 1) (blit b off (sect s lba)) (off + SECTOR_SIZE)%nat) as (s2 & E2 & S2 & B2); [by apply S1|lia..|rewrite length_blit; lia|].
  exists s2. rewrite E2. split; [|split; [by eapply same_trans|congruence]]. do 3 f_equal.
  rewrite (run_ext (sect s1) (sect s)) by (intros; by apply same_sect).
  set (r := run (sect s) (lba + 1) n). assert (length r = n * SECTOR_SIZE)%nat as Hr' by (apply length_run; intros; by apply sector_size, Hs).
  unfold blit. rewrite (app_assoc (take off b)), take_app_length' by list_lia.
  rewrite drop_app_ge by list_lia. rewrite drop_drop, <- !app_assoc. do 3 f_equal. f_equal. list_lia.
Qed.

(** Reading a block into the buffer of the file system. *)
Lemma read_to_buffer_ok s n : ext2_ok s -> on_disk s n ->
  exists s', read_to_buffer n s = Some (true, s') /\ same s s' /\ block_buffer s' = Live (block_at s n).
Proof.
  intros Hs [Hn Hd]. pose proof (bsize_range s Hs) as [Hbs E]. destruct (ok_buffer _ Hs) as (b & Eb & Hb). unfold read_to_buffer, buffer_bytes.
  rewrite bind_assoc, gets_bind, Eb. cbn [mret]. rewrite (bind_eq _ _ _ (Some b) s) by done. unfold ext2_read_block. rewrite bind_assoc, gets_bind.
  replace (block_size s / 512) with (Z.of_nat (spb s)) by (rewrite E, Z.mul_comm, Z.div_mul by lia; done). unfold LBA_LIMIT in Hd. rewrite wrap_small by nia.
  rewrite Nat2Z.id. destruct (ext2_read_sectors_ok (spb s) s (n * Z.of_nat (spb s)) b 0 Hs) as (s1 & E1 & S1 & B1); [nia|unfold LBA_LIMIT; nia|unfold SECTOR_SIZE; lia|].
  rewrite (bind_eq _ _ _ _ _ E1), modify_bind. fold (block_at s n). cbn [fst snd].
  assert (blit b 0 (block_at s n) = block_at s n) as ->.
  { unfold blit. rewrite take_0, drop_ge, app_nil_r by (pose proof (length_block s n Hs); lia). done. }
  eexists. split; [done|]. split; [|done]. eapply same_trans; [exact S1|]. destruct (same_ok _ _ S1) as [H1 H2 H3].
  split; [exists (dev s1), (Live (block_at s n)); by destruct s1| |done]. split; [done|done|].
  exists (block_at s n). split; [done|]. rewrite length_block by done. destruct S1 as [(d & p & ->) _ _]. done.
Qed.

Lemma live_buffer_ok s b : block_buffer s = Live b -> live_buffer s = Some (b, s).
Proof. intros E. unfold live_buffer. by rewrite gets_bind, E. Qed.

(** ** Writing *)

(** [s'] is [s] with other sectors. *)
Record updated s s' (g : Z -> buf) : Prop := Mk_upd {
  upd_rest : exists d, s' = with_dev s d;
  upd_ok : ext2_ok s';
  upd_sect : forall lba, sect s' lba = g lba
}.

Lemma ext2_write_sector_ok s lba data : ext2_ok s -> 0 <= lba < LBA_LIMIT -> length data = SECTOR_SIZE -> bytes_ok data ->
  exists s', write_sector lba data s = Some (true, s') /\ updated s s' (fun i => if i =? lba then data else sect s i).
Proof.
  intros Hs Hl Hd Hb. destruct (write_ok (dev s) (ata_base s) (ata_is_master s) lba data (ok_dev _ Hs) Hl Hd Hb) as (d & E & Hok & H1 & H2).
  exists (with_dev s d). unfold write_sector. rewrite E. split; [done|]. destruct Hs as [O1 O2 O3]. split; [by exists d|split; [by apply Hok|done..]|].
  intros i. unfold sect. cbn. destruct (Z.eqb_spec i lba) as [->|]; [done|]. apply H2. congruence.
Qed.

Lemma ext2_write_sectors_ok n : forall s lba b off, ext2_ok s -> 0 <= lba -> lba + Z.of_nat n <= LBA_LIMIT -> (off + n * SECTOR_SIZE <= length b)%nat -> bytes_ok b ->
  exists s', write_sectors lba b off n s = Some (true, s') /\
    updated s s' (fun i => if (lba <=? i) && (i <? lba + Z.of_nat n) then slice b (off + Z.to_nat (i - lba) * SECTOR_SIZE) SECTOR_SIZE else sect s i).
Proof.
  induction n as [|n IH]; intros s lba b off Hs Hl Hr Hb Hok; cbn [write_sectors].
  { exists s. split; [done|]. split; [exists (dev s); by destruct s|done|]. intros i. destruct (Z.leb_spec lba i), (Z.ltb_spec i (lba + Z.of_nat 0)); try done; lia. }
  unfold LBA_LIMIT in *. erewrite lift_bind; [|rewrite (proj2 (Nat.leb_le _ _)) by lia; reflexivity]. rewrite wrap_small by lia.
  destruct (ext2_write_sector_ok s lba (slice b off SECTOR_SIZE) Hs) as (s1 & E1 & [(d1 & R1) O1 U1]); [unfold LBA_LIMIT; lia|unfold slice; list_lia|by apply bytes_ok_slice|].
  rewrite (bind_eq _ _ _ _ _ E1). cbn [negb].
  destruct (IH s1 (lba + 1) b (off + SECTOR_SIZE)%nat O1) as (s2 & E2 & [(d2 & R2) O2 U2]); [lia..|done|].
  exists s2. split; [done|]. split; [exists d2; by rewrite R2, R1|done|]. intros i. rewrite U2, U1.
  destruct (Z.eqb_spec i lba) as [->|Hne].
  - destruct (Z.leb_spec (lba + 1) lba), (Z.leb_spec lba lba), (Z.ltb_spec lba (lba + Z.of_nat (S n))); try lia. cbn [andb]. rewrite Z.sub_diag. do 2 f_equal. lia.
  - destruct (Z.leb_spec (lba + 1) i), (Z.leb_spec lba i), (Z.ltb_spec i (lba + 1 + Z.of_nat n)), (Z.ltb_spec i (lba + Z.of_nat (S n))); try lia; cbn [andb]; try done.
    f_equal. replace (Z.to_nat (i - lba)) with (S (Z.to_nat (i - (lba + 1)))) by lia. lia.
Qed.

Lemma run_slices b lba n : forall off, (off + n * SECTOR_SIZE <= length b)%nat ->
  run (fun i => slice b (off + Z.to_nat (i - lba) * SECTOR_SIZE) SECTOR_SIZE) lba n = slice b off (n * SECTOR_SIZE).
Proof.
  revert lba. induction n as [|n IH]; intros lba off Hb; cbn [run]; [done|]. rewrite Z.sub_diag. cbn [Z.to_nat Nat.mul]. rewrite Nat.add_0_r.
  rewrite (run_ext _ (fun i => slice b (off + SECTOR_SIZE + Z.to_nat (i - (lba + 1)) * SECTOR_SIZE) SECTOR_SIZE)).
  - rewrite IH by lia. unfold slice. rewrite <- drop_drop. generalize (drop off b). intros l. by rewrite take_take_drop.
  - intros i Hi. f_equal. replace (Z.to_nat (i - lba)) with (S (Z.to_nat (i - (lba + 1)))) by lia. lia.
Qed.

(** Writing a block replaces that block and nothing else. *)
Lemma write_block_ok s n b : ext2_ok s -> on_disk s n -> Z.of_nat (length b) = block_size s -> bytes_ok b ->
  exists s', ext2_write_block n b s = Some (true, s') /\ (exists d, s' = with_dev s d) /\ ext2_ok s' /\
    block_at s' n = b /\ forall m, m <> n -> block_at s' m = block_at s m.
Proof.
  intros Hs [Hn Hd] Hl Hb. pose proof (bsize_range s Hs) as [Hbs E]. unfold ext2_write_block. rewrite gets_bind.
  replace (block_size s / 512) with (Z.of_nat (spb s)) by (rewrite E, Z.mul_comm, Z.div_mul by lia; done). unfold LBA_LIMIT in Hd. rewrite wrap_small by nia.
  rewrite Nat2Z.id. destruct (ext2_write_sectors_ok (spb s) s (n * Z.of_nat (spb s)) b 0 Hs) as (s1 & E1 & [(d & R) O U]); [nia|unfold LBA_LIMIT; nia|unfold SECTOR_SIZE; lia|done|].
  exists s1. split; [done|]. split; [by exists d|]. split; [done|]. unfold block_at. replace (spb s1) with (spb s) by (by rewrite R). split.
  - rewrite (run_ext _ (fun i => slice b (0 + Z.to_nat (i - n * Z.of_nat (spb s)) * SECTOR_SIZE) SECTOR_SIZE)).
    + rewrite run_slices by (unfold SECTOR_SIZE; lia). unfold slice. rewrite drop_0, take_ge; [done|unfold SECTOR_SIZE; lia].
    + intros i Hi. rewrite U. by destruct (Z.leb_spec (n * Z.of_nat (spb s)) i), (Z.ltb_spec i (n * Z.of_nat (spb s) + Z.of_nat (spb s))); try lia.
  - intros m Hm. apply run_ext. intros i Hi. rewrite U.
    destruct (Z.leb_spec (n * Z.of_nat (spb s)) i), (Z.ltb_spec i (n * Z.of_nat (spb s) + Z.of_nat (spb s))); try done. cbn [andb]. exfalso. apply Hm. nia.
Qed.

(** ** Inodes *)

Definition isize s : Z := if s_inode_size (superblock s) =? 0 then 128 else s_inode_size (superblock s).
Definition ipg s : Z := s_inodes_per_group (superblock s).
(** The first block of a group's inode table. *)
Definition table s (g : Z) : Z :=
  match group_desc_table s with Live b => le_get (slice b (Z.to_nat (g * 32 + 8)) 4) | _ => 0 end.

(** The inode tables of a volume: the descriptors are in memory, inodes fill blocks
    without crossing their ends, and the tables lie on the disk and apart. *)
Record tables_ok s : Prop := Mk_tables {
  t_groups : exists b, group_desc_table s = Live b /\ 32 * num_block_groups s <= Z.of_nat (length b);
  t_ipg : 0 < ipg s /\ ipg s * isize s < 2 ^ 32;
  t_isize : 128 <= isize s /\ (isize s | block_size s);
  t_disk : forall g k, 0 <= g < num_block_groups s -> 0 <= k <= (ipg s - 1) * isize s / block_size s -> on_disk s (table s g + k) /\ 0 <= table s g;
  t_apart : forall g g' k k', 0 <= g < num_block_groups s -> 0 <= g' < num_block_groups s -> g <> g' ->
    0 <= k <= (ipg s - 1) * isize s / block_size s -> 0 <= k' <= (ipg s - 1) * isize s / block_size s -> table s g + k <> table s g' + k'
}.

Definition valid_inode s (n : Z) : Prop := 0 < n < 2 ^ 32 /\ (n - 1) / ipg s < num_block_groups s.

(** Where an inode lies. *)
Definition iblock s (n : Z) : Z := table s ((n - 1) / ipg s) + (n - 1) mod ipg s * isize s / block_size s.
Definition ioffset s (n : Z) : Z := ((n - 1) mod ipg s * isize s) mod block_size s.

Lemma inode_place_ok s n : ext2_ok s -> tables_ok s -> valid_inode s n ->
  inode_place n s = Some (Some (iblock s n, ioffset s n), s) /\ on_disk s (iblock s n) /\ 0 <= ioffset s n /\ ioffset s n + 128 <= block_size s.
Proof.
  intros Hs [(b & Eb & Hb) [Hi Hii] [H128 Hdiv] Hdisk _] [Hn Hg]. pose proof (bsize_range s Hs) as [Hbs _].
  pose proof (Z.mod_pos_bound (n - 1) (ipg s) Hi) as Hm. assert (0 <= (n - 1) / ipg s) as Hg0 by (apply Z.div_pos; lia).
  assert (0 <= (n - 1) mod ipg s * isize s <= (ipg s - 1) * isize s) as Hr by nia.
  assert (0 <= (n - 1) mod ipg s * isize s / block_size s <= (ipg s - 1) * isize s / block_size s) as Hk
    by (split; [apply Z.div_pos; lia|apply Z.div_le_mono; lia]).
  destruct (Hdisk _ _ (conj Hg0 Hg) Hk) as [Hod Ht]. pose proof Hod as [_ Hlim]. fold (iblock s n) in Hlim, Hod. unfold LBA_LIMIT in Hlim.
  assert (0 < Z.of_nat (spb s)) by (pose proof (bsize_range s Hs); lia).
  split.
  - unfold inode_place, ext2_get_inode_block_group, ext2_get_inode_table_index. rewrite bind_assoc, gets_bind. fold (ipg s).
    destruct (Z.eqb_spec (ipg s) 0); [lia|]. rewrite (bind_eq _ _ _ _ _ eq_refl), bind_assoc, gets_bind. fold (ipg s).
    destruct (Z.eqb_spec (ipg s) 0); [lia|]. rewrite (bind_eq _ _ _ _ _ eq_refl), gets_bind. rewrite !(wrap_small 32 (n - 1)) by lia.
    destruct (Z.leb_spec (num_block_groups s) ((n - 1) / ipg s)); [lia|]. unfold bg_inode_table. rewrite bind_assoc, gets_bind, Eb. unfold sizeof_group_desc.
    rewrite (proj2 (Nat.leb_le _ _)) by lia. rewrite (bind_eq _ _ _ _ _ eq_refl), gets_bind, gets_bind. fold (isize s). destruct (Z.eqb_spec (block_size s) 0); [lia|].
    unfold iblock, ioffset. assert (table s ((n - 1) / ipg s) = le_get (slice b (Z.to_nat ((n - 1) / ipg s * 32 + 8)) 4)) as <- by (unfold table; by rewrite Eb).
    rewrite !(wrap_small 32 ((n - 1) mod ipg s * isize s)) by lia. unfold iblock in Hlim. rewrite wrap_small by nia. done.
  - split; [done|]. unfold ioffset. pose proof (Z.mod_pos_bound ((n - 1) mod ipg s * isize s) (block_size s) ltac:(lia)) as Ho. split; [lia|].
    destruct Hdiv as [q Hq]. assert (0 < q) by nia. rewrite Hq in *. rewrite Z.mul_mod_distr_r in * by lia.
    pose proof (Z.mod_pos_bound ((n - 1) mod ipg s) q ltac:(lia)). nia.
Qed.

(** Two inodes do not overlap. *)
Lemma inodes_apart s n m : ext2_ok s -> tables_ok s -> valid_inode s n -> valid_inode s m -> n <> m ->
  iblock s n <> iblock s m \/ ioffset s n + 128 <= ioffset s m \/ ioffset s m + 128 <= ioffset s n.
Proof.
  intros Hs [_ [Hi _] [H128 [q Hq]] _ Hap] [Hn Hgn] [Hm Hgm] Hne. pose proof (bsize_range s Hs) as [Hbs _]. assert (0 < q) by nia.
  pose proof (Z.mod_pos_bound (n - 1) (ipg s) Hi). pose proof (Z.mod_pos_bound (m - 1) (ipg s) Hi).
  assert (0 <= (n - 1) / ipg s) by (apply Z.div_pos; lia). assert (0 <= (m - 1) / ipg s) by (apply Z.div_pos; lia).
  assert (forall i, 0 <= i < ipg s -> 0 <= i * isize s / block_size s <= (ipg s - 1) * isize s / block_size s) as Hk.
  { intros i Hii. split; [apply Z.div_pos; nia|apply Z.div_le_mono; nia]. }
  destruct (Z.eq_dec ((n - 1) / ipg s) ((m - 1) / ipg s)) as [Eg|Eg].
  - unfold iblock, ioffset. rewrite <- Eg, Hq. set (i := (n - 1) mod ipg s) in *. set (j := (m - 1) mod ipg s) in *.
    assert (i <> j) as Hij. { intros E. apply Hne. pose proof (Z.div_mod (n - 1) (ipg s)). pose proof (Z.div_mod (m - 1) (ipg s)). subst i j. rewrite Eg, E in *. lia. }
    rewrite !Z.div_mul_cancel_r, !Z.mul_mod_distr_r by lia. destruct (Z.eq_dec (i / q) (j / q)) as [Ed|]; [right|left; lia].
    pose proof (Z.div_mod i q). pose proof (Z.div_mod j q). assert (i mod q <> j mod q) by (intros E; rewrite Ed, E in *; lia).
    destruct (Z_lt_ge_dec (i mod q) (j mod q)); [left|right]; nia.
  - left. unfold iblock. apply Hap; auto; lia.
Qed.

(** What only depends on the structure in memory is the same after block operations. *)
Definition geometry s := (superblock s, group_desc_table s, block_size s, num_block_groups s).

Lemma tables_geometry s s' : geometry s' = geometry s -> tables_ok s -> tables_ok s'.
Proof.
  unfold geometry. intros E. injection E as E1 E2 E3 E4. intros [A B C1 D1 E]. unfold ipg, isize, table, on_disk, spb in *.
  split; unfold ipg, isize, table, on_disk, spb; rewrite ?E1, ?E2, ?E3, ?E4; done.
Qed.
Lemma place_geometry s s' n : geometry s' = geometry s ->
  iblock s' n = iblock s n /\ ioffset s' n = ioffset s n /\ (valid_inode s n -> valid_inode s' n).
Proof. unfold geometry. intros E. injection E as E1 E2 E3 E4. unfold iblock, ioffset, valid_inode, ipg, isize, table. rewrite E1, E2, E3, E4. done. Qed.
Lemma same_geometry s s' : same s s' -> geometry s' = geometry s.
Proof. intros [(d & p & ->) _ _]. done. Qed.

Context (Hfresh : forall n, length (fresh n) = n).

(** The bytes of an inode on the disk. *)
Definition inode_at s (n : Z) : buf := slice (block_at s (iblock s n)) (Z.to_nat (ioffset s n)) 128.

Lemma same_inode s s' n : same s s' -> inode_at s' n = inode_at s n.
Proof. intros S. unfold inode_at. destruct (place_geometry s s' n (same_geometry _ _ S)) as (-> & -> & _). by rewrite (same_block s s'). Qed.

Lemma read_inode_ok s n : ext2_ok s -> tables_ok s -> valid_inode s n ->
  exists s', ext2_read_inode fresh n s = Some (Some (inode_at s n), s') /\ same s s'.
Proof.
  intros Hs Ht Hv. destruct (inode_place_ok s n Hs Ht Hv) as (E & Hd & Ho & Hl). destruct Hv as [Hn _]. unfold ext2_read_inode.
  destruct (Z.eqb_spec n 0); [lia|]. rewrite (bind_eq _ _ _ _ _ E).
  destruct (read_to_buffer_ok s _ Hs Hd) as (s1 & E1 & S1 & B1). rewrite (bind_eq _ _ _ _ _ E1). cbn [negb].
  rewrite (bind_eq _ _ _ _ _ (live_buffer_ok _ _ B1)). pose proof (length_block s (iblock s n) Hs) as Hlen.
  rewrite (lift_bind _ (inode_at s n)); [by exists s1|]. rewrite memcpy_at_ok by (rewrite ?Hfresh; unfold sizeof_inode; lia).
  f_equal. unfold blit. rewrite take_0, drop_ge, app_nil_r; [done|]. rewrite Hfresh. unfold slice, sizeof_inode. list_lia.
Qed.

Lemma write_inode_ok s n ino : ext2_ok s -> tables_ok s -> valid_inode s n -> length ino = sizeof_inode -> bytes_ok ino ->
  exists s', ext2_write_inode n ino s = Some (true, s') /\ ext2_ok s' /\ geometry s' = geometry s /\ inode_at s' n = ino /\
    (forall m, valid_inode s m -> m <> n -> inode_at s' m = inode_at s m) /\
    (forall b, b <> iblock s n -> block_at s' b = block_at s b).
Proof.
  intros Hs Ht Hv Hl Hb. destruct (inode_place_ok s n Hs Ht Hv) as (E & Hd & Ho & Hlim). pose proof Hv as [Hn _]. unfold ext2_write_inode.
  destruct (Z.eqb_spec n 0); [lia|]. rewrite (bind_eq _ _ _ _ _ E).
  destruct (read_to_buffer_ok s _ Hs Hd) as (s1 & E1 & S1 & B1). rewrite (bind_eq _ _ _ _ _ E1). cbn [negb].
  rewrite (bind_eq _ _ _ _ _ (live_buffer_ok _ _ B1)). pose proof (length_block s (iblock s n) Hs) as Hlen. unfold sizeof_inode in *.
  set (nb := blit (block_at s (iblock s n)) (Z.to_nat (ioffset s n)) ino).
  assert (length nb = length (block_at s (iblock s n))) as Hnb by (apply length_blit; lia).
  rewrite (lift_bind _ nb); [|rewrite memcpy_at_ok by lia; unfold slice; rewrite drop_0, take_ge by lia; done]. rewrite modify_bind.
  set (s2 := with_block s1 (Live nb)). assert (geometry s2 = geometry s) as G2 by (subst s2; rewrite <- (same_geometry s s1 S1); done).
  assert (block_size s2 = block_size s) as Bs2 by (unfold geometry in G2; congruence).
  assert (ext2_ok s2) as Hs2. { destruct (same_ok _ _ S1) as [O1 O2 O3]. split; [done|done|]. exists nb. split; [done|]. rewrite Hnb, Hlen. done. }
  assert (forall b, block_at s2 b = block_at s b) as Hblk by (intros b; rewrite <- (same_block s s1 b S1); done).
  destruct (write_block_ok s2 (iblock s n) nb Hs2) as (s3 & E3 & (d3 & R3) & O3 & W3 & F3).
  - unfold on_disk, spb in *. by rewrite Bs2.
  - rewrite Hnb, Hlen. done.
  - apply bytes_ok_blit; [|done]. unfold block_at. apply run_bytes. intros. by apply sector_bytes, Hs.
  - assert (geometry s3 = geometry s) as G3 by (rewrite R3; exact G2). exists s3. split_and!; [done..| | |].
    + unfold inode_at. destruct (place_geometry s s3 n G3) as (-> & -> & _). rewrite W3. subst nb. rewrite <- Hl. apply slice_blit. lia.
    + intros m Hvm Hne. unfold inode_at. destruct (place_geometry s s3 m G3) as (-> & -> & _).
      destruct (Z.eq_dec (iblock s m) (iblock s n)) as [Eb|Eb]; [|by rewrite F3, Hblk].
      rewrite Eb, W3. destruct (inode_place_ok s m Hs Ht Hvm) as (_ & _ & ? & ?). subst nb. apply slice_blit_disjoint; [lia|].
      destruct (inodes_apart s n m Hs Ht Hv Hvm ltac:(done)) as [?|[?|?]]; [congruence|lia|lia].
    + intros b Hne. by rewrite F3, Hblk.
Qed.

(** Inodes on the disk.  Writing a valid inode of a mounted volume succeeds; reading it
    back gives the bytes written, reading any other valid inode gives what it gave before,
    and every block of the disk but the one that holds the inode is as it was. *)
Theorem inode_write_read s n (ino : buf) :
  ext2_ok s -> tables_ok s -> valid_inode s n -> length ino = sizeof_inode -> bytes_ok ino ->
  exists s', ext2_write_inode n ino s = Some (true, s') /\ ext2_ok s' /\
    (exists s1, ext2_read_inode fresh n s' = Some (Some ino, s1)) /\
    (forall m, valid_inode s m -> m <> n -> exists s1 s2 x, ext2_read_inode fresh m s = Some (Some x, s1) /\ ext2_read_inode fresh m s' = Some (Some x, s2)) /\
    (forall b, b <> iblock s n -> block_at s' b = block_at s b).
Proof.
  intros Hs Ht Hv Hl Hb. destruct (write_inode_ok s n ino Hs Ht Hv Hl Hb) as (s' & E & O & G & W & Fm & Fb). exists s'.
  pose proof (tables_geometry s s' G Ht) as Ht'. split_and!; [done..| | |done].
  - destruct (read_inode_ok s' n O Ht' (proj2 (proj2 (place_geometry s s' n G)) Hv)) as (s1 & E1 & _). exists s1. by rewrite E1, W.
  - intros m Hvm Hne. destruct (read_inode_ok s m Hs Ht Hvm) as (s1 & E1 & _).
    destruct (read_inode_ok s' m O Ht' (proj2 (proj2 (place_geometry s s' m G)) Hvm)) as (s2 & E2 & _).
    exists s1, s2, (inode_at s m). split; [done|]. by rewrite E2, Fm.
Qed.

(** ** Files *)

(** The bytes of the direct blocks of a file; a block that is not allocated reads as 0. *)
Definition file_block s (ino : buf) (k : nat) : buf :=
  if i_block ino k =? 0 then replicate (Z.to_nat (block_size s)) 0 else block_at s (i_block ino k).
Definition content s (ino : buf) : buf := concat (map (file_block s ino) (seq 0 12)).

Definition blocks_on_disk s (ino : buf) : Prop := forall k, (k < 12)%nat -> on_disk s (i_block ino k).

Lemma length_file_block s ino k : ext2_ok s -> length (file_block s ino k) = Z.to_nat (block_size s).
Proof. intros Hs. unfold file_block. destruct (_ =? 0); [apply length_replicate|]. pose proof (length_block s (i_block ino k) Hs). lia. Qed.

Lemma same_content s s' ino : same s s' -> content s' ino = content s ino /\ block_size s' = block_size s /\ (blocks_on_disk s ino -> blocks_on_disk s' ino).
Proof.
  intros Hs. assert (block_size s' = block_size s) as Hb by (destruct Hs as [(d & p & ->) _ _]; done). split_and!; [|done|].
  - unfold content. f_equal. apply map_ext. intros k. unfold file_block. by rewrite Hb, (same_block s s').
  - unfold blocks_on_disk, on_disk, spb. by rewrite Hb.
Qed.

(** One round of the loop: a piece of one block. *)
Lemma file_round fuel s ino size r cur out :
  ext2_ok s -> blocks_on_disk s ino -> block_size s < 65536 -> 0 <= r < size -> size < 2 ^ 32 -> 0 <= cur -> cur / block_size s < 12 -> size <= Z.of_nat (length out) ->
  let m := Z.min (size - r) (block_size s - cur mod block_size s) in
  exists s', same s s' /\ read_file_loop (S fuel) ino size r cur out s
    = read_file_loop fuel ino size (r + m) (cur + m) (blit out (Z.to_nat r) (slice (content s ino) (Z.to_nat cur) (Z.to_nat m))) s'.
Proof.
  intros Hs Hd H64 Hr Hsz Hcur Hidx Hout m. pose proof (bsize_range s Hs) as [Hbs _]. cbn [read_file_loop].
  pose proof (Z.mod_pos_bound cur (block_size s) ltac:(lia)) as Hmod. assert (0 <= cur / block_size s) as Hdiv by (apply Z.div_pos; lia).
  pose proof (Z.div_mod cur (block_size s) ltac:(lia)) as Hdm.
  set (k := Z.to_nat (cur / block_size s)). assert (k < 12)%nat as Hk by lia.
  assert (slice (content s ino) (Z.to_nat cur) (Z.to_nat m) = slice (file_block s ino k) (Z.to_nat (cur mod block_size s)) (Z.to_nat m)) as ->.
  { replace (Z.to_nat cur) with (k * Z.to_nat (block_size s) + Z.to_nat (cur mod block_size s))%nat by nia. unfold content.
    apply (slice_concat (file_block s ino) _ (fun j => length_file_block s ino j Hs)); [done|lia]. }
  destruct (Z.ltb_spec r size); [|lia]. cbn [negb]. rewrite gets_bind. destruct (Z.eqb_spec (block_size s) 0); [lia|].
  rewrite (wrap_small 32 (block_size s - _)) by lia. replace (if _ <? block_size s - cur mod block_size s then _ else _) with m
    by (subst m; destruct (Z.ltb_spec (size - r) (block_size s - cur mod block_size s)); lia).
  unfold EXT2_NDIR_BLOCKS. destruct (Z.leb_spec 12 (cur / block_size s)); [lia|]. fold k. rewrite (wrap_small 32 (cur + m)) by nia.
  assert (length (file_block s ino k) = Z.to_nat (block_size s)) as Hfb by (by apply length_file_block). unfold file_block in *.
  destruct (Z.eqb_spec (i_block ino k) 0).
  - exists s. split; [by apply same_refl|]. rewrite (lift_bind _ _ _ _ (memset_at_ok out (Z.to_nat r) m ltac:(lia) ltac:(lia))).
    replace (slice (replicate _ 0) _ _) with (replicate (Z.to_nat m) 0); [done|]. unfold slice. rewrite drop_replicate, take_replicate. f_equal. lia.
  - destruct (read_to_buffer_ok s _ Hs (Hd k Hk)) as (s1 & E1 & S1 & B1). exists s1. split; [done|]. rewrite (bind_eq _ _ _ _ _ E1). cbn [negb].
    rewrite (bind_eq _ _ _ _ _ (live_buffer_ok _ _ B1)). erewrite lift_bind; [reflexivity|]. apply memcpy_at_ok; lia.
Qed.

Lemma ext2_read_file_loop_ok ino size offset : 0 <= offset -> 0 <= size -> offset + size < 2 ^ 32 ->
  forall fuel s r out rest, ext2_ok s -> blocks_on_disk s ino -> block_size s < 65536 ->
  let want := Z.min size (Z.max 0 (12 * block_size s - offset)) in
  0 <= r <= want -> (Z.to_nat (12 - (offset + r) / block_size s) < fuel)%nat \/ (r = size /\ (0 < fuel)%nat) ->
  length out = Z.to_nat r -> size <= Z.of_nat (length (out ++ rest)) ->
  exists s', same s s' /\ read_file_loop fuel ino size r (offset + r) (out ++ rest) s
    = Some ((want, out ++ blit rest 0 (slice (content s ino) (Z.to_nat (offset + r)) (Z.to_nat (want - r)))), s').
Proof.
  intros Ho Hsz Hos. induction fuel as [|fuel IH]; intros s r out rest Hs Hd H64 want Hr Hf Hl Hlen; [lia|].
  pose proof (bsize_range s Hs) as [Hbs _].
  assert (forall s0, s0 = s -> r = want -> same s s0 /\ (Some ((r, out ++ rest), s0) : option (Z * buf * ext2_fs D))
    = Some ((want, out ++ blit rest 0 (slice (content s ino) (Z.to_nat (offset + r)) (Z.to_nat (want - r)))), s0)) as Hdone.
  { intros s0 -> E. split; [by apply same_refl|]. rewrite <- E, Z.sub_diag. unfold slice, blit. cbn [Z.to_nat take length app Nat.add]. by rewrite drop_0. }
  destruct (Z_lt_ge_dec r size) as [Hlt|Hge].
  2:{ exists s. cbn [read_file_loop]. destruct (Z.ltb_spec r size); [lia|]. cbn [negb]. apply Hdone; [done|lia]. }
  destruct (Z_lt_ge_dec ((offset + r) / block_size s) 12) as [Hi|Hi].
  2:{ exists s. cbn [read_file_loop]. destruct (Z.ltb_spec r size); [|lia]. cbn [negb]. rewrite gets_bind. destruct (Z.eqb_spec (block_size s) 0); [lia|].
      unfold EXT2_NDIR_BLOCKS. destruct (Z.leb_spec 12 ((offset + r) / block_size s)); [|lia]. apply Hdone; [done|]. pose proof (Z.mul_div_le (offset + r) (block_size s)). nia. }
  destruct (file_round fuel s ino size r (offset + r) (out ++ rest) Hs Hd H64 ltac:(lia) ltac:(lia) ltac:(lia) Hi Hlen) as (s1 & S1 & E1). rewrite E1. clear E1.
  set (m := Z.min (size - r) (block_size s - (offset + r) mod block_size s)) in *.
  pose proof (Z.mod_pos_bound (offset + r) (block_size s) ltac:(lia)) as Hmod. pose proof (Z.div_mod (offset + r) (block_size s) ltac:(lia)) as Hdm.
  assert (0 <= (offset + r) / block_size s) by (apply Z.div_pos; lia). assert (offset + r + m <= 12 * block_size s) as Hm12 by nia.
  destruct (same_content s s1 ino S1) as (Ec & Eb & Hd1).
  assert (length (content s ino) = Z.to_nat (12 * block_size s)) as Hcl.
  { unfold content. rewrite (length_concat_const _ (Z.to_nat (block_size s))); [rewrite length_map, length_seq; lia|]. intros x (k & <- & _)%in_map_iff. by apply length_file_block. }
  set (piece := slice (content s ino) (Z.to_nat (offset + r)) (Z.to_nat m)). assert (length piece = Z.to_nat m) as Hpl by (apply length_slice; lia).
  rewrite length_app in Hlen. rewrite <- Hl. rewrite blit_app_r.
  replace (offset + r + m) with (offset + (r + m)) by lia. replace (blit rest 0 piece) with (piece ++ drop (length piece) rest) by done. rewrite app_assoc.
  destruct (IH s1 (r + m) (out ++ piece) (drop (length piece) rest)) as (s2 & S2 & E2); [apply S1|by apply Hd1|lia|rewrite Eb; fold want; lia| | |list_lia|].
  { destruct (Z.eq_dec (r + m) size); [right; lia|left]. rewrite Eb. assert (m = block_size s - (offset + r) mod block_size s) as E by lia.
    replace (offset + (r + m)) with (((offset + r) / block_size s + 1) * block_size s) by lia. rewrite Z.div_mul by lia. lia. }
  { list_lia. }
  rewrite Ec, Eb in E2. fold want in E2. exists s2. split; [by eapply same_trans|]. rewrite E2. do 3 f_equal. rewrite <- app_assoc. f_equal.
  replace (Z.to_nat (want - r)) with (Z.to_nat m + Z.to_nat (want - (r + m)))%nat by lia. rewrite slice_split. fold piece.
  replace (Z.to_nat (offset + r) + Z.to_nat m)%nat with (Z.to_nat (offset + (r + m))) by lia.
  unfold blit. cbn [take app Nat.add]. rewrite <- app_assoc, drop_drop, length_app. done.
Qed.

Lemma read_file_ok s (ino : buf) (offset size : Z) (out : buf) :
  ext2_ok s -> blocks_on_disk s ino -> block_size s < 65536 -> 0 <= offset -> 0 <= size -> offset + size < 2 ^ 32 -> i_size ino < 2 ^ 32 ->
  size <= Z.of_nat (length out) ->
  let n := Z.max 0 (Z.min (Z.min size (i_size ino - offset)) (12 * block_size s - offset)) in
  exists s', ext2_read_file ino offset size out s = Some ((n, blit out 0 (slice (content s ino) (Z.to_nat offset) (Z.to_nat n))), s') /\ same s s'.
Proof.
  intros Hs Hd H64 Ho Hsz Hos Hi Hout n. unfold ext2_read_file. destruct (Z.leb_spec (i_size ino) offset).
  { exists s. split; [|by apply same_refl]. replace n with 0 by lia. done. }
  rewrite (wrap_small 32 (offset + size)) by lia.
  set (size' := if i_size ino <? offset + size then i_size ino - offset else size).
  assert (size' = Z.min size (i_size ino - offset)) as Es by (subst size'; destruct (Z.ltb_spec (i_size ino) (offset + size)); lia). clearbody size'.
  destruct (ext2_read_file_loop_ok ino size' offset Ho ltac:(lia) ltac:(lia) file_rounds s 0 [] out Hs Hd H64) as (s' & S' & E); [lia| |done|cbn; lia|].
  { left. assert (0 <= (offset + 0) / block_size s) by (apply Z.div_pos; pose proof (bsize_range s Hs); lia). unfold file_rounds. lia. }
  exists s'. split; [|done]. rewrite Z.add_0_r, Z.sub_0_r in E. replace n with (Z.min size' (Z.max 0 (12 * block_size s - offset))) by lia. exact E.
Qed.

(** Reading a file.  For an inode whose direct blocks lie on the disk, a read at
    [offset] returns the bytes of the file from there: as many as are asked for and are in
    the file, but none behind the twelve direct blocks; holes read as zeros, nothing
    outside the returned bytes of the caller's buffer changes, and at or behind the end of
    the file nothing is read. *)
Theorem ext2_read_file_ok s (ino : buf) (offset size : Z) (out : buf) :
  ext2_ok s -> blocks_on_disk s ino -> block_size s < 65536 -> 0 <= offset -> 0 <= size -> offset + size < 2 ^ 32 -> i_size ino < 2 ^ 32 ->
  size <= Z.of_nat (length out) ->
  let n := Z.max 0 (Z.min (Z.min size (i_size ino - offset)) (12 * block_size s - offset)) in
  exists s', ext2_read_file ino offset size out s = Some ((n, blit out 0 (slice (content s ino) (Z.to_nat offset) (Z.to_nat n))), s') /\ same s s'.
Proof. apply read_file_ok. Qed.

(** ** Mounting *)

Lemma read_sector_dev s lba : dev_ok (dev s) (ata_base s) -> 0 <= lba < LBA_LIMIT ->
  exists d, read_sector lba s = Some (Some (sect s lba), with_dev s d) /\ dev_ok d (ata_base s) /\
    forall b m l, sector d b m l = sector (dev s) b m l.
Proof.
  intros Hs Hl. destruct (read_ok (dev s) (ata_base s) (ata_is_master s) lba Hs Hl) as (d & E & Hd & Hsec). exists d. unfold read_sector. rewrite E. auto.
Qed.

(** Sectors that fit the buffer are read, the one that does not is written outside. *)
Lemma read_sectors_fit n : forall s lba b off, dev_ok (dev s) (ata_base s) -> 0 <= lba -> lba + Z.of_nat n <= LBA_LIMIT -> (off <= length b)%nat ->
  if bool_decide (off + n * SECTOR_SIZE <= length b)%nat
  then exists b' d, read_sectors lba b off n s = Some ((true, b'), with_dev s d) /\ length b' = length b /\ dev_ok d (ata_base s)
  else read_sectors lba b off n s = None.
Proof.
  induction n as [|n IH]; intros s lba b off Hs Hl Hr Ho; cbn [read_sectors].
  { rewrite bool_decide_eq_true_2 by lia. exists b, (dev s). split; [by destruct s|done]. }
  unfold LBA_LIMIT in *. rewrite wrap_small by lia. destruct (read_sector_dev s lba Hs) as (d & E & Hd & _); [unfold LBA_LIMIT; lia|].
  rewrite (bind_eq _ _ _ _ _ E). assert (length (sect s lba) = SECTOR_SIZE) as Hsz by (by apply sector_size). unfold lift at 1. unfold mbind at 1 2, M_bind at 1 2. rewrite Hsz.
  destruct (Nat.leb_spec (off + SECTOR_SIZE) (length b)).
  - specialize (IH (with_dev s d) (lba + 1) (blit b off (sect s lba)) (off + SECTOR_SIZE)%nat Hd ltac:(lia) ltac:(lia)). rewrite length_blit in IH by lia.
    specialize (IH ltac:(lia)). case_bool_decide as Hc; case_bool_decide as Hc'; try (exfalso; lia); [|done].
    destruct IH as (b' & d' & E' & Hl' & Hd'). by exists b', d'.
  - by rewrite bool_decide_eq_false_2 by lia.
Qed.

Lemma read_table_overruns bs n : forall s blk b off, dev_ok (dev s) (ata_base s) -> block_size s = 512 * Z.of_nat bs -> 0 <= blk ->
  (blk + Z.of_nat n) * Z.of_nat bs <= LBA_LIMIT -> (0 < bs)%nat -> (off <= length b < off + n * (bs * SECTOR_SIZE))%nat ->
  read_table blk (bs * SECTOR_SIZE) b off n s = None.
Proof.
  induction n as [|n IH]; intros s blk b off Hs Hbs Hblk Hlim Hpos Hb; [lia|]. cbn [read_table]. unfold ext2_read_block. rewrite bind_assoc, gets_bind.
  unfold LBA_LIMIT in *.
  replace (block_size s / 512) with (Z.of_nat bs) by (rewrite Hbs, Z.mul_comm, Z.div_mul by lia; done). rewrite Nat2Z.id, (wrap_small 32 blk) by nia. rewrite wrap_small by nia.
  pose proof (read_sectors_fit bs s (blk * Z.of_nat bs) b off Hs ltac:(nia) ltac:(unfold LBA_LIMIT; nia) ltac:(lia)) as Hf.
  case_bool_decide as Hc; [|unfold mbind, M_bind; by rewrite Hf]. destruct Hf as (b' & d & E & Hl & Hd). rewrite (bind_eq _ _ _ _ _ E). cbn [fst snd negb].
  apply (IH (with_dev s d)); [done|done|lia|nia|done|lia].
Qed.

(** A group descriptor table that does not end with a block overruns its memory.  The
    table is allocated with its own size but read in whole blocks: whenever 32 bytes per
    block group are not a multiple of the block size, mounting a volume with a valid
    superblock is undefined behaviour (it writes behind the heap block). *)
Theorem ext2_init_overruns s (base : Z) (master : bool) :
  (forall n, alloc_ok n = true) -> dev_ok (dev s) base ->
  let sb := parse_superblock (sector (dev s) base master 2 ++ sector (dev s) base master 3) in
  let bs := 1024 * 2 ^ s_log_block_size sb in
  let groups := (s_blocks_count sb + s_blocks_per_group sb - 1) / s_blocks_per_group sb in
  s_magic sb = EXT2_SIGNATURE -> 0 <= s_log_block_size sb <= 6 -> 0 < s_blocks_per_group sb -> 0 < s_blocks_count sb ->
  s_blocks_count sb + s_blocks_per_group sb < 2 ^ 32 -> 0 <= s_first_data_block sb -> (s_first_data_block sb + 2 + groups) * (bs / 512) <= LBA_LIMIT -> groups < 2 ^ 26 ->
  (32 * groups) mod bs <> 0 ->
  ext2_init alloc_ok fresh base master s = None.
Proof.
  intros Ha Hdev sb bs groups Hmagic Hlog Hbpg Hbc Hsum Hfd Hlim Hgr Hmod. unfold ext2_init. rewrite modify_bind.
  set (s0 := with_drive s base master). destruct (read_sector_dev s0 2 Hdev) as (d1 & E1 & Hd1 & Hs1); [done|]. rewrite (bind_eq _ _ _ _ _ E1).
  destruct (read_sector_dev (with_dev s0 d1) 3 Hd1) as (d2 & E2 & Hd2 & _); [done|]. rewrite (bind_eq _ _ _ _ _ E2).
  replace (sect (with_dev s0 d1) 3) with (sector (dev s) base master 3) by (unfold sect; cbn; by rewrite Hs1).
  change (sect s0 2) with (sector (dev s) base master 2). fold sb. cbn zeta. rewrite modify_bind.
  rewrite Hmagic, Z.eqb_refl. cbn [negb]. destruct (Z.leb_spec 21 (s_log_block_size sb)); [lia|]. fold bs. rewrite modify_bind.
  assert (exists j, s_log_block_size sb = Z.of_nat j /\ (j <= 6)%nat) as (j & Ej & Hj) by (exists (Z.to_nat (s_log_block_size sb)); lia).
  assert (exists w, bs = 512 * Z.of_nat w /\ (1 <= w <= 128)%nat) as (w & Ew & Hw).
  { unfold bs. rewrite Ej. clear - Hj. exists (2 ^ S j)%nat. do 7 (destruct j as [|j]; [split; [done|cbn; lia]|]). lia. }
  destruct (Z.eqb_spec bs 0); [lia|]. destruct (Z.ltb_spec 65536 bs); [lia|]. cbn [orb]. destruct (Z.eqb_spec (s_blocks_per_group sb) 0); [lia|].
  rewrite modify_bind, Ha. cbn [negb]. rewrite (wrap_small 32 (s_blocks_count sb + _)), (wrap_small 32 (_ + _ - 1)) by lia. fold groups.
  assert (0 < groups) by (apply Z.div_str_pos; lia). clearbody groups bs.
  replace (bs / 512) with (Z.of_nat w) in Hlim by (rewrite Ew, Z.mul_comm, Z.div_mul by lia; done). unfold LBA_LIMIT in Hlim. unfold sizeof_group_desc.
  rewrite (wrap_small 32 (groups * 32)) by nia. rewrite (wrap_small 32 (groups * 32 + bs)), (wrap_small 32 (_ + bs - 1)), (wrap_small 32 (_ + 1)) by nia.
  set (nb := (groups * 32 + bs - 1) / bs). assert (groups * 32 <= nb * bs < groups * 32 + bs) as Hnb.
  { pose proof (Z.mul_div_le (groups * 32 + bs - 1) bs ltac:(lia)). pose proof (Z.mul_succ_div_gt (groups * 32 + bs - 1) bs ltac:(lia)). subst nb. lia. }
  assert (groups * 32 <> nb * bs) as Hne by (intros E; apply Hmod; rewrite (Z.mul_comm 32), E; apply Z.mod_mul; lia). assert (0 <= nb <= groups) by nia. clearbody nb.
  unfold mbind at 1, M_bind at 1. rewrite Ew. replace (Z.to_nat (512 * Z.of_nat w)) with (w * SECTOR_SIZE)%nat by (unfold SECTOR_SIZE; lia).
  rewrite read_table_overruns; [done|exact Hd2|by rewrite <- Ew|lia|unfold LBA_LIMIT; nia|lia|]. rewrite Hfresh. unfold SECTOR_SIZE. nia.
Qed.

(** ** Directories *)

(** A directory of at most twelve blocks, which hold the entries [ls], block by block. *)
Record directory s (n : Z) (ls : list (list (ext2_dir_entry_t * buf * buf))) : Prop := Mk_dir {
  d_mode : Z.land (i_mode (inode_at s n)) EXT2_S_IFDIR = EXT2_S_IFDIR;
  d_size : i_size (inode_at s n) = Z.of_nat (length ls) * block_size s;
  d_count : (length ls <= 12)%nat;
  d_blocks : forall k l, ls !! k = Some l -> let blk := i_block (inode_at s n) k in blk <> 0 /\ on_disk s blk /\ block_at s blk = dir_bytes l;
  d_entries : Forall (Forall (entry_ok (block_size s))) ls
}.

Lemma dir_bytes_length bs l : Forall (entry_ok bs) l -> (8 * length l <= length (dir_bytes l))%nat.
Proof.
  induction 1 as [|x l Hx Hl IH]; [done|]. unfold dir_bytes in *. cbn [map concat length]. rewrite length_app.
  pose proof (length_bytes_of bs x Hx). destruct Hx as [_ Hr _ _ _ _ _]. fold (entry_of x) in Hr. lia.
Qed.

Lemma dir_loop_ok ino max_entries : forall ls s k fuel found, ext2_ok s -> block_size s <= 65535 -> i_size ino = Z.of_nat (k + length ls) * block_size s ->
  (k + length ls <= 12)%nat -> (length ls < fuel)%nat -> Z.of_nat (length found) <= max_entries ->
  (forall j l, ls !! j = Some l -> let blk := i_block ino (k + j) in blk <> 0 /\ on_disk s blk /\ block_at s blk = dir_bytes l) -> Forall (Forall (entry_ok (block_size s))) ls ->
  exists s', dir_loop fuel ino max_entries (Z.of_nat k * block_size s) found s = Some ((true, take (Z.to_nat max_entries) (found ++ map entry_of (concat ls))), s') /\ same s s'.
Proof.
  induction ls as [|l ls IH]; intros s k [|fuel] found Hs H64 Hsz Hk Hf Hm Hb He; cbn [length] in *; try lia; cbn [dir_loop]; pose proof (bsize_range s Hs) as [Hbs _].
  { rewrite Hsz, Nat.add_0_r, Z.ltb_irrefl. cbn [andb negb concat map]. rewrite app_nil_r, take_ge by lia. exists s. by split; [|apply same_refl]. }
  destruct (Z.ltb_spec (Z.of_nat k * block_size s) (i_size ino)); [|nia].
  destruct (Z.ltb_spec (Z.of_nat (length found)) max_entries); cbn [andb negb].
  2: { exists s. split; [|by apply same_refl]. unfold mret, M_ret. do 3 f_equal. rewrite take_app_le, take_ge by lia. done. }
  rewrite gets_bind. destruct (Z.eqb_spec (block_size s) 0); [lia|]. rewrite Z.div_mul by lia. unfold EXT2_NDIR_BLOCKS. destruct (Z.leb_spec 12 (Z.of_nat k)); [lia|]. rewrite Nat2Z.id.
  destruct (Hb 0%nat l eq_refl) as (Hnz & Hd & Hbytes). rewrite Nat.add_0_r in Hnz, Hd, Hbytes. destruct (Z.eqb_spec (i_block ino k) 0); [done|].
  apply Forall_cons in He as [Hl He].
  destruct (read_to_buffer_ok s (i_block ino k) Hs Hd) as (s2 & E2 & S2 & B2). rewrite (bind_eq _ _ _ _ _ E2). cbn [negb]. rewrite (bind_eq _ _ _ _ _ (live_buffer_ok _ _ B2)), Hbytes.
  pose proof (length_block s (i_block ino k) Hs) as Hlb. rewrite Hbytes in Hlb. pose proof (dir_bytes_length _ _ Hl).
  pose proof (parse_dir_ok (block_size s) max_entries (i_size ino) (Z.of_nat k * block_size s) ltac:(lia) ltac:(nia) ltac:(nia) l [] (S (Z.to_nat (block_size s))) found Hl ltac:(lia) Hlb ltac:(lia)) as Hp.
  cbn [app length Z.of_nat] in Hp. rewrite Z.add_0_r in Hp. rewrite (lift_bind _ _ _ _ Hp), wrap_small by nia.
  assert (block_size s2 = block_size s) as Eb by (pose proof (same_geometry _ _ S2) as G; unfold geometry in G; congruence).
  destruct (IH s2 (S k) fuel (take (Z.to_nat max_entries) (found ++ map entry_of l)) (same_ok _ _ S2) ltac:(lia)) as (s3 & E3 & S3); [rewrite Eb, Hsz; f_equal; lia|lia|lia|list_lia| |by rewrite Eb|].
  { intros j l' Hj. destruct (Hb (S j) l' Hj) as (? & ? & Hby). replace (S k + j)%nat with (k + S j)%nat by lia. split_and!; [done|unfold on_disk, spb in *; by rewrite Eb|by rewrite (same_block s s2 _ S2)]. }
  exists s3. rewrite Eb in E3. replace ((Z.of_nat k + 1) * block_size s) with (Z.of_nat (S k) * block_size s) by lia. rewrite E3. split; [|by eapply same_trans].
  do 3 f_equal. cbn [concat]. rewrite map_app, app_assoc. generalize (found ++ map entry_of l). intros u. generalize (map entry_of (concat ls)). intros v.
  rewrite !take_app, take_take, Nat.min_id. f_equal. f_equal. rewrite length_take. lia.
Qed.

Lemma read_dir_ok s n ls max_entries : ext2_ok s -> tables_ok s -> valid_inode s n -> directory s n ls -> block_size s <= 65535 -> 0 <= max_entries ->
  exists s', ext2_read_dir fresh n max_entries s = Some ((true, take (Z.to_nat max_entries) (map entry_of (concat ls))), s') /\ same s s'.
Proof.
  intros Hs Ht Hv [Hm Hsz Hc Hb Hent] H64 Hmax. unfold ext2_read_dir.
  destruct (read_inode_ok s n Hs Ht Hv) as (s1 & E1 & S1). rewrite (bind_eq _ _ _ _ _ E1). set (ino := inode_at s n) in *. rewrite Hm. cbn [Z.eqb Pos.eqb negb EXT2_S_IFDIR].
  assert (block_size s1 = block_size s) as Eb by (pose proof (same_geometry _ _ S1) as G; unfold geometry in G; congruence).
  destruct (dir_loop_ok ino max_entries ls s1 0 file_rounds [] (same_ok _ _ S1)) as (s2 & E2 & S2); [lia|by rewrite Eb|lia|unfold file_rounds; lia|cbn; lia| |by rewrite Eb|].
  { intros j l Hj. destruct (Hb j l Hj) as (? & ? & Hby). cbn [Nat.add]. split_and!; [done|unfold on_disk, spb in *; by rewrite Eb|by rewrite (same_block s s1 _ S1)]. }
  exists s2. split; [exact E2|by eapply same_trans].
Qed.

Lemma find_entry_ok s n ls (nm rest : buf) : ext2_ok s -> tables_ok s -> valid_inode s n -> directory s n ls -> block_size s <= 65535 -> nonul nm ->
  exists s', ext2_read_dir fresh n 64 s = Some ((true, map entry_of (take 64 (concat ls))), s') /\
    ext2_find_entry fresh n (nm ++ 0 :: rest) s = Some (List.find (fun e => bool_decide (name e = nm ++ [0])) (map entry_of (take 64 (concat ls))), s') /\ same s s'.
Proof.
  intros Hs Ht Hv Hd H64 Hnm. destruct (read_dir_ok s n ls 64 Hs Ht Hv Hd H64 ltac:(lia)) as (s' & E & S').
  change (Z.to_nat 64) with 64%nat in E. rewrite firstn_map in E. exists s'. split; [done|]. split; [|done]. unfold ext2_find_entry. rewrite (bind_eq _ _ _ _ _ E). cbn [fst snd negb].
  unfold lift. by rewrite (find_loop_ok _ _ nm rest (Forall_take _ 64 _ (proj2 (Forall_concat _ _) (d_entries _ _ _ Hd))) Hnm).
Qed.

(** Directories.  In a directory of up to twelve blocks whose entries are all in use,
    [ext2_read_dir] lists the first 64 entries that the blocks encode, in their order, and
    [ext2_find_entry] returns the first of them with the name asked for -- the whole name,
    not a prefix of it -- or fails if there is none. *)
Theorem directory_lookup s n ls (nm rest : buf) :
  ext2_ok s -> tables_ok s -> valid_inode s n -> directory s n ls -> block_size s <= 65535 -> nonul nm ->
  exists s', ext2_read_dir fresh n 64 s = Some ((true, map entry_of (take 64 (concat ls))), s') /\
    ext2_find_entry fresh n (nm ++ 0 :: rest) s = Some (List.find (fun e => bool_decide (name e = nm ++ [0])) (map entry_of (take 64 (concat ls))), s') /\ same s s'.
Proof.
  apply find_entry_ok.
Qed.
End Blocks.

(** ** A volume to try the driver on *)

(** Blocks of 1024 bytes, one group with sixteen inodes from block 5 on; inode 2 is a
    directory in block 10 with two entries, inode 11 a file. *)
Definition dot : ext2_dir_entry_t * buf * buf := (Mk_entry 2 12 1 2 [46; 0], [46], [0; 0; 0]).
Definition readme : ext2_dir_entry_t * buf * buf := (Mk_entry 11 1012 6 1 [114; 101; 97; 100; 109; 101; 0], [114; 101; 97; 100; 109; 101], replicate 998 0).
Definition root_block : buf := dir_bytes [dot; readme].
Definition root_inode : buf := le_put 2 16877 ++ le_put 2 0 ++ le_put 4 1024 ++ replicate 32 0 ++ le_put 4 10 ++ replicate 84 0.

(** Five bytes in block 20. *)
Definition readme_inode : buf := le_put 2 33188 ++ le_put 2 0 ++ le_put 4 5 ++ replicate 32 0 ++ le_put 4 20 ++ replicate 84 0.

Definition small_super : buf :=
  blit (replicate 512 0) 0 (le_put 4 16 ++ le_put 4 100 ++ replicate 12 0 ++ le_put 4 1 ++ le_put 4 0 ++ replicate 4 0 ++ le_put 4 8192 ++ replicate 4 0 ++ le_put 4 16 ++ replicate 12 0 ++ le_put 2 61267).

Definition small_disk : RamDisk :=
  Mk_ramdisk (<[(496, true, 2) := small_super]> (<[(496, true, 10) := replicate 128 0 ++ root_inode ++ replicate 256 0]>
    (<[(496, true, 20) := take 512 root_block]> (<[(496, true, 21) := drop 512 root_block]>
    (<[(496, true, 12) := replicate 256 0 ++ readme_inode ++ replicate 128 0]> (<[(496, true, 40) := [104; 101; 108; 108; 111] ++ replicate 507 0]> ∅)))))) false.
Definition small_table : buf := le_put 4 3 ++ le_put 4 4 ++ le_put 4 5 ++ replicate 20 0.
Definition small : ext2_fs RamDisk :=
  Mk_ext2 small_disk (Mk_super 16 100 1 0 8192 16 61267 0) (Live small_table) 1024 1 8 2 (Live (replicate 1024 0)) 496 true.

Definition zeroed (n : nat) : buf := replicate n 0.
Lemma ext2_length_zeroed n : length (zeroed n) = n.
Proof. apply length_replicate. Qed.

Lemma small_disk_ok : ram_ok small_disk.
Proof.
  split; [done|]. unfold small_disk. cbn [ram_sectors].
  repeat (apply map_Forall_insert_2; [split; [vm_compute; reflexivity|apply bytes_check; vm_compute; reflexivity]|]). apply map_Forall_empty.
Qed.

Lemma small_ok : ext2_ok small.
Proof. split; [split; [apply small_disk_ok|by vm_compute]|by exists 0|]. by exists (replicate 1024 0). Qed.

Lemma small_tables : tables_ok small.
Proof.
  split.
  - exists small_table. split; [done|]. vm_compute. discriminate.
  - by vm_compute.
  - split; [by vm_compute|]. by exists 8.
  - intros g k Hg Hk. assert (g = 0) as -> by (cbn in Hg; lia). change ((ipg small - 1) * isize small / block_size small) with 1 in Hk.
    change (table small 0) with 5. unfold on_disk. change (spb small) with 2%nat. unfold LBA_LIMIT. lia.
  - intros g g' k k' Hg Hg' Hne _ _. cbn in Hg, Hg'. lia.
Qed.

Lemma small_valid n : 0 < n <= 16 -> valid_inode small n.
Proof. intros Hn. unfold valid_inode. change (ipg small) with 16. cbn [num_block_groups small]. split; [lia|]. apply Z.div_lt_upper_bound; lia. Qed.

Lemma inode_write_read_witness : exists s', ext2_write_inode 3 (replicate 128 7) small = Some (true, s') /\
  exists s1, ext2_read_inode zeroed 3 s' = Some (Some (replicate 128 7), s1).
Proof.
  destruct (inode_write_read zeroed ext2_length_zeroed small 3 (replicate 128 7)) as (s' & E & _ & R & _);
    [exact small_ok|exact small_tables|apply small_valid; lia|reflexivity|by apply Forall_replicate|]. exists s'. split; [exact E|exact R].
Defined.

(** A file with a block and a hole. *)
Definition holed : buf := replicate 4 0 ++ le_put 4 1500 ++ replicate 32 0 ++ le_put 4 10 ++ replicate 84 0.

Lemma ext2_read_file_ok_witness : exists s', ext2_read_file holed 1000 100 (replicate 100 9) small = Some ((100, replicate 100 0), s').
Proof.
  destruct (ext2_read_file_ok small holed 1000 100 (replicate 100 9)) as (s' & E & _).
  - exact small_ok.
  - intros k Hk. unfold on_disk. change (spb small) with 2%nat. unfold LBA_LIMIT. assert (i_block holed k = 10 \/ i_block holed k = 0) as [-> | ->]; [|lia|lia].
    do 12 (destruct k as [|k]; [vm_compute; auto|]). lia.
  - reflexivity.
  - lia.
  - lia.
  - lia.
  - reflexivity.
  - cbn. lia.
  - exists s'. rewrite E. vm_compute. reflexivity.
Defined.

Lemma ext2_init_overruns_witness : ext2_init (fun _ => true) zeroed 496 true small = None.
Proof.
  apply (ext2_init_overruns (fun _ => true) zeroed ext2_length_zeroed small 496 true); try (vm_compute; reflexivity); try (vm_compute; discriminate).
  - split; [apply small_disk_ok|done].
  - vm_compute. split; discriminate.
Defined.

Lemma small_dir : directory small 2 [[dot; readme]].
Proof.
  split.
  - by vm_compute.
  - by vm_compute.
  - cbn. lia.
  - intros [|k] l Hl; [|done]. injection Hl as <-. change (i_block (inode_at small 2) 0) with 10. split; [done|]. split; [split; [lia|by vm_compute]|]. vm_compute. reflexivity.
  - repeat constructor; cbn; lia.
Qed.

Lemma directory_lookup_witness : exists s', ext2_find_entry zeroed 2 ([114; 101; 97; 100; 109; 101] ++ [0]) small = Some (Some (fst (fst readme)), s').
Proof.
  destruct (directory_lookup zeroed ext2_length_zeroed small 2 [[dot; readme]] [114; 101; 97; 100; 109; 101] []) as (s' & _ & E & _).
  - exact small_ok.
  - exact small_tables.
  - apply small_valid. lia.
  - exact small_dir.
  - vm_compute. discriminate.
  - by repeat constructor.
  - exists s'. exact E.
Defined.
