(* ===== verification/Ext2Vfs.v ===== *)
(** fs/ext2/ext2_vfs_adapter.c: EXT2 behind the operations table of the VFS.

    The state the table acts on is the disk and the [ext2_fs_t] structures that have been
    allocated, by address; [fs->fs_data] is such an address.  The table entries run the
    adapter's functions and turn undefined behaviour into the state [None]. *)

From S2P Require Import Prelude CString Effects BlockDev Vfs Ext2.

Definition EXT2_S_IFREG : Z := 32768.
Definition EXT2_S_IFLNK : Z := 40960.
Definition EXT2_FT_REG_FILE : Z := 1.
Definition EXT2_FT_DIR : Z := 2.
Definition EXT2_FT_SYMLINK : Z := 7.
Definition sizeof_ext2_fs : Z := 1052.

(** A volume structure without the disk, and with it. *)
Definition attach {D} (s : ext2_fs unit) (d : D) : ext2_fs D :=
  Mk_ext2 d (superblock s) (group_desc_table s) (block_size s) (num_block_groups s) (inodes_per_block s) (current_dir_inode s) (block_buffer s) (ata_base s) (ata_is_master s).
Definition detach {D} (s : ext2_fs D) : ext2_fs unit :=
  Mk_ext2 tt (superblock s) (group_desc_table s) (block_size s) (num_block_groups s) (inodes_per_block s) (current_dir_inode s) (block_buffer s) (ata_base s) (ata_is_master s).

Record ext2_world (D : Type) := Mk_world { w_dev : D; w_vols : gmap Z (ext2_fs unit); w_objs : objects }.
Arguments Mk_world {D}. Arguments w_dev {D}. Arguments w_vols {D}. Arguments w_objs {D}.

#[global] Instance world_objects D : HasObjects (ext2_world D) := {|
  objs := w_objs; with_objs w o := Mk_world (w_dev w) (w_vols w) o; objs_with _ _ := eq_refl |}.

(** The structure after [memset] to zero. *)
Definition zero_fs : ext2_fs unit := Mk_ext2 tt (Mk_super 0 0 0 0 0 0 0 0) Null 0 0 0 0 Null 0 false.

Section Adapter.
Context {D : Type} `{BlockDev D} (alloc_ok : Z -> bool) (fresh : nat -> buf).
Context (drive_at : Z -> option (Z * bool)).    (* base and is_master of the drive_t at an address *)
Abbreviation A := (M (ext2_world D)).

(** An operation of the driver on the structure at an address. *)
Definition on_volume {X} (p : Z) (m : M (ext2_fs D) X) : A X := fun w =>
  match w_vols w !! p with
  | None => None
  | Some v =>
      match m (attach v (w_dev w)) with
      | Some (x, s) => Some (x, Mk_world (dev s) (<[p := detach s]> (w_vols w)) (w_objs w))
      | None => None
      end
  end.

(** The structure of a volume, cleared. *)
Definition new_volume : A (option Z) :=
  p ← allocate alloc_ok sizeof_ext2_fs;
  match p with
  | None => mret None
  | Some p => _ ← modify (fun w => Mk_world (w_dev w) (<[p := zero_fs]> (w_vols w)) (w_objs w)); mret (Some p)
  end.
Definition free_volume (p : Z) : A unit :=
  _ ← deallocate p; modify (fun w => Mk_world (w_dev w) (delete p (w_vols w)) (w_objs w)).

(** The name of an entry in a [char name[256]]. *)
Definition put_name (b : buf) (e : ext2_dir_entry_t) : A buf :=
  let name_len := if 255 <? name_len e then 255 else name_len e in
  b ← lift (memcpy_at b 0 (name e) 0 name_len);
  lift (wr b name_len 0).

Definition ext2_entry_to_vfs_entry (e : ext2_dir_entry_t) (v : vfs_dir_entry) : A vfs_dir_entry :=
  n ← put_name (de_name v) e;
  let t := if file_type e =? EXT2_FT_REG_FILE then VFS_FILE
           else if file_type e =? EXT2_FT_DIR then VFS_DIRECTORY
           else if file_type e =? EXT2_FT_SYMLINK then VFS_SYMLINK else VFS_FILE in
  mret (Mk_dirent n t 0 (inode e) (de_create_time v) (de_modify_time v) (de_access_time v) (de_attributes v)).

Definition ext2_vfs_mount (fs : vfs_filesystem) (drive : Z) : A (Z * vfs_filesystem) :=
  if drive =? 0 then mret (VFS_ERR_INVALID, fs) else
  p ← new_volume;
  match p with
  | None => mret (VFS_ERR_NO_MEMORY, fs)
  | Some p =>
      d ← lift (drive_at drive);
      ok ← on_volume p (ext2_init alloc_ok fresh (fst d) (snd d));
      if negb ok then _ ← free_volume p; mret (VFS_ERR_IO, fs)
      else mret (VFS_OK, Mk_fs (fs_name fs) (fs_drive fs) (fs_ops fs) p (fs_root fs))
  end.

(** [fs->fs_data = NULL] is a store to an object that [vfs_unmount] frees next. *)
Definition ext2_vfs_unmount (fs : vfs_filesystem) : A Z :=
  if fs_data fs =? 0 then mret VFS_ERR_INVALID else
  _ ← on_volume (fs_data fs) ext2_cleanup;
  _ ← free_volume (fs_data fs);
  mret VFS_OK.

Definition zero_name : buf := replicate 256 0.

(** The type by the mode bits. *)
Definition mode_is (m t : Z) : bool := Z.land m t =? t.
Definition node_type (m : Z) : vfs_node_type :=
  if mode_is m EXT2_S_IFDIR then VFS_DIRECTORY else if mode_is m EXT2_S_IFREG then VFS_FILE
  else if mode_is m EXT2_S_IFLNK then VFS_SYMLINK else VFS_FILE.

(** The node for an entry of a directory; shared by open and finddir. *)
Definition entry_node (fs : Z) (p dir : Z) (filename : buf) : A (Z * vfs_node) :=
  e ← on_volume p (ext2_find_entry fresh dir filename);
  match e with
  | None => mret (VFS_ERR_NOT_FOUND, no_node)
  | Some e =>
      i ← on_volume p (ext2_read_inode fresh (inode e));
      match i with
      | None => mret (VFS_ERR_IO, no_node)
      | Some ino =>
          a ← allocate alloc_ok sizeof_node;
          match a with
          | None => mret (VFS_ERR_NO_MEMORY, no_node)
          | Some a =>
              n ← put_name zero_name e;
              mret (VFS_OK, Mk_node a n (node_type (i_mode ino)) (inode e) (i_size ino) 0 fs 0)
          end
      end
  end.

Definition ext2_vfs_open (fs : Z) (obj : vfs_filesystem) (path : buf) : A (Z * vfs_node) :=
  if fs_data obj =? 0 then mret (VFS_ERR_INVALID, no_node) else
  c ← lift (strcmp path [47; 0]);
  if c =? 0 then
    a ← allocate alloc_ok sizeof_node;
    match a with
    | None => mret (VFS_ERR_NO_MEMORY, no_node)
    | Some a => n ← lift (strcpy zero_name [47; 0]); mret (VFS_OK, Mk_node a n VFS_DIRECTORY EXT2_ROOT_INO 0 0 fs 0)
    end
  else
    filename ← lift (skip_slash path);
    entry_node fs (fs_data obj) EXT2_ROOT_INO filename.

Definition ext2_vfs_close (node : vfs_node) : A Z := _ ← deallocate (n_addr node); mret VFS_OK.

Definition ext2_vfs_read (obj : vfs_filesystem) (node : vfs_node) (offset size : Z) (buffer : buf) : A (Z * buf) :=
  if fs_data obj =? 0 then mret (VFS_ERR_INVALID, buffer) else
  i ← on_volume (fs_data obj) (ext2_read_inode fresh (n_inode node));
  match i with
  | None => mret (VFS_ERR_IO, buffer)
  | Some ino =>
      r ← on_volume (fs_data obj) (ext2_read_file ino offset size buffer);
      let result := swrap 32 (fst r) in
      if result <? 0 then mret (VFS_ERR_IO, snd r) else mret (result, snd r)
  end.

(** The [index]-th entry in use. *)
Fixpoint nth_used (l : list ext2_dir_entry_t) (current index : Z) : option ext2_dir_entry_t :=
  match l with
  | [] => None
  | e :: l' => if inode e =? 0 then nth_used l' current index
               else if current =? index then Some e else nth_used l' (current + 1) index
  end.

Definition ext2_vfs_readdir (obj : vfs_filesystem) (node : vfs_node) (index : Z) (entry : vfs_dir_entry) : A (Z * vfs_dir_entry) :=
  if fs_data obj =? 0 then mret (VFS_ERR_INVALID, entry) else
  if negb (bool_decide (n_type node = VFS_DIRECTORY)) then mret (VFS_ERR_NOT_DIR, entry) else
  r ← on_volume (fs_data obj) (ext2_read_dir fresh (n_inode node) 64);
  if negb (fst r) then mret (VFS_ERR_IO, entry) else
  match nth_used (snd r) 0 index with
  | None => mret (VFS_ERR_NOT_FOUND, entry)
  | Some e =>
      v ← ext2_entry_to_vfs_entry e entry;
      i ← on_volume (fs_data obj) (ext2_read_inode fresh (inode e));
      let v := match i with
               | Some ino => Mk_dirent (de_name v) (de_type v) (i_size ino) (de_inode v) (de_create_time v) (de_modify_time v) (de_access_time v) (de_attributes v)
               | None => v
               end in
      mret (VFS_OK, v)
  end.

Definition ext2_vfs_finddir (obj : vfs_filesystem) (node : vfs_node) (nm : buf) : A (Z * vfs_node) :=
  if fs_data obj =? 0 then mret (VFS_ERR_INVALID, no_node) else
  if negb (bool_decide (n_type node = VFS_DIRECTORY)) then mret (VFS_ERR_NOT_DIR, no_node) else
  entry_node (n_fs node) (fs_data obj) (n_inode node) nm.

Definition ext2_vfs_stat (obj : vfs_filesystem) (path : buf) (st : vfs_dir_entry) : A (Z * vfs_dir_entry) :=
  if fs_data obj =? 0 then mret (VFS_ERR_INVALID, st) else
  filename ← lift (skip_slash path);
  c ← lift (rd filename 0);
  let with_fields n t sz ino := Mk_dirent n t sz ino (de_create_time st) (de_modify_time st) (de_access_time st) (de_attributes st) in
  if c =? 0 then
    n ← lift (strcpy (de_name st) [47; 0]);
    mret (VFS_OK, with_fields n VFS_DIRECTORY 0 EXT2_ROOT_INO)
  else
    e ← on_volume (fs_data obj) (ext2_find_entry fresh EXT2_ROOT_INO filename);
    match e with
    | None => mret (VFS_ERR_NOT_FOUND, st)
    | Some e =>
        i ← on_volume (fs_data obj) (ext2_read_inode fresh (inode e));
        match i with
        | None => mret (VFS_ERR_IO, st)
        | Some ino =>
            n ← put_name (de_name st) e;
            mret (VFS_OK, with_fields n (if mode_is (i_mode ino) EXT2_S_IFDIR then VFS_DIRECTORY else VFS_FILE) (i_size ino) (inode e))
        end
    end.

(** ** The table *)

(** The state of the table: [None] after undefined behaviour. *)
Definition W : Type := option (ext2_world D).

Definition ext2_vfs_ops : vfs_ops W :=
  Mk_ops
    (fun w _ obj drive => run_op (ext2_vfs_mount obj drive) w (0, obj))
    (Some (fun w _ obj => run_op (ext2_vfs_unmount obj) w 0))
    (Some (fun w fs obj path => run_op (ext2_vfs_open fs obj path) w (0, no_node)))
    (Some (fun w _ node => run_op (ext2_vfs_close node) w 0))
    (Some (fun w obj node offset size buffer => run_op (ext2_vfs_read obj node offset size buffer) w (0, buffer)))
    (Some (fun w _ _ _ _ _ => (VFS_ERR_UNSUPPORTED, w)))
    (Some (fun w obj node index entry => run_op (ext2_vfs_readdir obj node index entry) w (0, entry)))
    (Some (fun w _ _ _ => (VFS_ERR_UNSUPPORTED, w)))
    (Some (fun w _ _ _ => (VFS_ERR_UNSUPPORTED, w)))
    (Some (fun w _ _ _ => (VFS_ERR_UNSUPPORTED, w)))
    (Some (fun w _ _ _ => (VFS_ERR_UNSUPPORTED, w)))
    (Some (fun w _ obj path st => run_op (ext2_vfs_stat obj path st) w (0, st))).
End Adapter.

(** * Properties *)

Section Through.
Context {D : Type} `{BlockDev D} (alloc_ok : Z -> bool) (fresh : nat -> buf) (Hfresh : forall n, length (fresh n) = n).
Context (drive_at : Z -> option (Z * bool)) (ops_at : Z -> option (vfs_ops (W (D := D)))).

Lemma attach_detach (s : ext2_fs D) : attach (detach s) (dev s) = s.
Proof. by destruct s. Qed.

(** The volume structure at an address, with the disk. *)
Definition volume (w : ext2_world D) (p : Z) (s : ext2_fs D) : Prop := exists v, w_vols w !! p = Some v /\ s = attach v (w_dev w).

Lemma on_volume_ok {X} (p : Z) (m : M (ext2_fs D) X) w s x s' : volume w p s -> m s = Some (x, s') ->
  exists w', on_volume p m w = Some (x, w') /\ volume w' p s' /\ w_objs w' = w_objs w.
Proof.
  intros (v & E & ->) Em. unfold on_volume. rewrite E, Em. eexists. split; [done|]. split; [|done]. exists (detach s'). cbn. rewrite lookup_insert_eq.
  split; [done|]. by rewrite attach_detach.
Qed.

Lemma put_name_ok b e (nm : buf) (w : ext2_world D) : length b = 256%nat -> name e = nm ++ [0] -> name_len e = Z.of_nat (length nm) -> name_len e < 255 ->
  exists b', put_name b e w = Some (b', w).
Proof.
  intros Hb Hn Hl H255. unfold put_name. destruct (Z.ltb_spec 255 (name_len e)); [lia|].
  rewrite (lift_bind _ _ _ _ (memcpy_at_ok b 0 (name e) 0 (name_len e) ltac:(lia) ltac:(lia) ltac:(rewrite Hn, length_app; lia))).
  unfold lift, wr, blen. rewrite length_blit by (unfold slice; rewrite Hn; list_lia). rewrite Hb.
  destruct (Z.leb_spec 0 (name_len e)), (Z.ltb_spec (name_len e) (Z.of_nat 256)); try lia. cbn [andb]. by eexists.
Qed.

Lemma allocate_ok size w p s : volume w p s -> alloc_ok size = true ->
  exists w', allocate alloc_ok size w = Some (Some (o_next (w_objs w)), w') /\ volume w' p s /\ w_objs w' = snd (new_object (w_objs w)).
Proof. intros (v & E & ->) Ha. unfold allocate. rewrite Ha. cbn [objs world_objects]. eexists. split; [done|]. split; [by exists v|done]. Qed.

(** The root directory [ls] of a mounted volume has the file [e]: it is the first entry
    with the name, among the first 64. *)
Record has_file (s : ext2_fs D) (ls : list (list (ext2_dir_entry_t * buf * buf))) (nm : buf) (e : ext2_dir_entry_t) : Prop := Mk_has {
  h_ok : ext2_ok s; h_tables : tables_ok s; h_size : block_size s < 65536; h_root : valid_inode s EXT2_ROOT_INO;
  h_dir : directory s EXT2_ROOT_INO ls;
  h_find : exists k, (k < 64)%nat /\ map entry_of (concat ls) !! k = Some e /\ name e = nm ++ [0] /\
    forall j e', (j < k)%nat -> map entry_of (concat ls) !! j = Some e' -> name e' <> nm ++ [0];
  h_inode : valid_inode s (inode e); h_blocks : blocks_on_disk s (inode_at s (inode e))
}.

Lemma find_first {A} (f : A -> bool) (l : list A) k x : l !! k = Some x -> f x = true -> (forall j y, (j < k)%nat -> l !! j = Some y -> f y = false) -> List.find f l = Some x.
Proof.
  revert k. induction l as [|y l IH]; intros k Hk Hx Hb; [done|]. cbn [List.find]. destruct k as [|k]; [injection Hk as ->; by rewrite Hx|].
  rewrite (Hb 0%nat y ltac:(lia) eq_refl). apply (IH k); [done|done|]. intros j z Hj Hz. apply (Hb (S j) z); [lia|done].
Qed.

Lemma entry_node_ok fs p w s ls nm e : volume w p s -> has_file s ls nm e -> nonul nm -> alloc_ok sizeof_node = true ->
  exists node w' s', entry_node alloc_ok fresh fs p EXT2_ROOT_INO (nm ++ [0]) w = Some ((VFS_OK, node), w') /\ volume w' p s' /\ same s s' /\
    n_addr node = o_next (w_objs w) /\ w_objs w' = snd (new_object (w_objs w)) /\ n_fs node = fs /\ n_inode node = inode e /\ n_size node = i_size (inode_at s (inode e)) /\ n_type node = node_type (i_mode (inode_at s (inode e))).
Proof.
  intros Hv [Hs Ht H64 Hr Hd (k & Hk64 & Hk & Hnm' & Hbef) Hi _] Hnm Ha. unfold entry_node.
  destruct (find_entry_ok fresh Hfresh s EXT2_ROOT_INO ls nm [] Hs Ht Hr Hd ltac:(lia) Hnm) as (s1 & _ & E1 & S1).
  rewrite <- firstn_map in E1. rewrite (find_first _ _ k e) in E1; [|by rewrite lookup_take_lt by lia|by apply bool_decide_eq_true|].
  2: { intros j e' Hj He'. rewrite lookup_take_lt in He' by lia. apply bool_decide_eq_false. by apply (Hbef j). } destruct (on_volume_ok p _ w s _ _ Hv E1) as (w1 & Ew1 & V1 & O1). rewrite (bind_eq _ _ _ _ _ Ew1).
  pose proof (same_geometry _ _ S1) as G1.
  destruct (read_inode_ok fresh Hfresh s1 (inode e) (same_ok _ _ S1) (tables_geometry _ _ G1 Ht) (proj2 (proj2 (place_geometry _ _ _ G1)) Hi)) as (s2 & E2 & S2).
  rewrite (same_inode s s1 _ S1) in E2. destruct (on_volume_ok p _ w1 s1 _ _ V1 E2) as (w2 & Ew2 & V2 & O2). rewrite (bind_eq _ _ _ _ _ Ew2).
  destruct (allocate_ok sizeof_node w2 p s2 V2 Ha) as (w3 & Ew3 & V3 & O3). rewrite (bind_eq _ _ _ _ _ Ew3).
  rewrite list_lookup_fmap in Hk. destruct (concat ls !! k) as [x|] eqn:Hx; [|done]. cbn in Hk. injection Hk as <-.
  pose proof (Forall_lookup_1 _ _ _ _ (proj2 (Forall_concat _ _) (d_entries _ _ _ Hd)) Hx) as [_ _ [Hn H255] _ _ _ Hst]. fold (entry_of x) in *.
  destruct (put_name_ok zero_name (entry_of x) (snd (fst x)) w3) as (b & Eb); [apply length_replicate|done|done|lia|]. rewrite (bind_eq _ _ _ _ _ Eb).
  eexists _, w3, s2. split; [done|]. split; [done|]. split; [by eapply same_trans|]. rewrite O2, O1 in O3 |- *. done.
Qed.

(** An EXT2 volume in the mount list: the address of its structure, and the structure
    with the disk. *)
Record ext2_mounted (v : vfs_state (W (D := D))) (m : vfs_mount_t) (rel : buf) (obj : vfs_filesystem) (s : ext2_fs D) : Prop := Mk_mounted {
  mt_at : mounted_at ops_at v m rel obj (ext2_vfs_ops alloc_ok fresh drive_at);
  mt_data : fs_data obj <> 0; mt_volume : exists w, world v = Some w /\ volume w (fs_data obj) s /\ objects_ok (w_objs w)
}.

(** The adapter's open, called by the VFS. *)
Lemma open_ok fs obj rel w s ls nm e : fs_data obj <> 0 -> volume w (fs_data obj) s -> has_file s ls nm e -> nonul nm -> nonul rel -> nm <> [] ->
  skip_slash (rel ++ [0]) = Some (nm ++ [0]) -> alloc_ok sizeof_node = true ->
  exists node w' s', ext2_vfs_open alloc_ok fresh fs obj (rel ++ [0]) w = Some ((VFS_OK, node), w') /\ volume w' (fs_data obj) s' /\ same s s' /\
    n_addr node = o_next (w_objs w) /\ w_objs w' = snd (new_object (w_objs w)) /\ n_fs node = fs /\ n_inode node = inode e /\ n_size node = i_size (inode_at s (inode e)) /\ n_type node = node_type (i_mode (inode_at s (inode e))).
Proof.
  intros Hd Hv Hh Hnm Hrel Hne Esk Ha. unfold ext2_vfs_open. destruct (Z.eqb_spec (fs_data obj) 0); [done|].
  destruct (not_root_path rel nm Hrel Esk Hne) as (z & Ez & Hz). rewrite (lift_bind _ _ _ _ Ez), Hz. rewrite (lift_bind _ _ _ _ Esk). by apply (entry_node_ok fs (fs_data obj) w s ls nm e).
Qed.

Definition live_objects (w : W (D := D)) : option (gset Z) := option_map (fun w => o_live (w_objs w)) w.

(** Closing the node that has just been allocated. *)
Lemma close_ok node (w w3 : ext2_world D) : n_addr node = o_next (w_objs w) -> w_objs w3 = snd (new_object (w_objs w)) -> objects_ok (w_objs w) ->
  exists w4, ext2_vfs_close node w3 = Some (VFS_OK, w4) /\ o_live (w_objs w4) = o_live (w_objs w).
Proof.
  intros Ha Ho Hok. destruct (new_object_ok _ Hok) as (Hok' & _ & Hfresh').
  destruct (free_object_ok (n_addr node) (w_objs w3)) as (o & Eo & _ & Lo); [by rewrite Ho|rewrite Ho, Ha; cbn; set_solver|].
  unfold ext2_vfs_close, mbind, M_bind, deallocate. cbn [objs world_objects]. rewrite Eo.
  eexists. split; [done|]. cbn. rewrite Lo, Ho, Ha. cbn in *. set_solver.
Qed.

(** The adapter's read, on a volume that shows what [s] shows. *)
Lemma adapter_read_ok obj node w1 s s1 i (offset size : Z) (buffer : buf) :
  fs_data obj <> 0 -> volume w1 (fs_data obj) s1 -> same s s1 -> n_inode node = i -> tables_ok s -> valid_inode s i -> blocks_on_disk s (inode_at s i) ->
  block_size s < 65536 -> 0 <= offset -> 0 <= size -> offset + size < 2 ^ 31 -> i_size (inode_at s i) < 2 ^ 32 -> size <= Z.of_nat (length buffer) ->
  let ino := inode_at s i in let n := Z.max 0 (Z.min (Z.min size (i_size ino - offset)) (12 * block_size s - offset)) in
  exists w3, ext2_vfs_read fresh obj node offset size buffer w1 = Some ((n, blit buffer 0 (slice (content s ino) (Z.to_nat offset) (Z.to_nat n))), w3) /\
    w_objs w3 = w_objs w1.
Proof.
  intros Hd V1 S1 Hn Ht Hin Hblk H64 Ho Hsz Hos Hi Hb ino n. pose proof (same_geometry _ _ S1) as G1. unfold ext2_vfs_read. destruct (Z.eqb_spec (fs_data obj) 0); [done|]. rewrite Hn.
  destruct (read_inode_ok fresh Hfresh s1 i (same_ok _ _ S1) (tables_geometry _ _ G1 Ht) (proj2 (proj2 (place_geometry _ _ _ G1)) Hin)) as (s2 & E2 & S2).
  rewrite (same_inode s s1 _ S1) in E2. destruct (on_volume_ok _ _ w1 s1 _ _ V1 E2) as (w2 & Ew2 & V2 & O2). rewrite (bind_eq _ _ _ _ _ Ew2). fold ino.
  assert (same s s2) as S02 by (by eapply same_trans). destruct (same_content s s2 ino S02) as (Ec & Eb & Hd2).
  destruct (read_file_ok s2 ino offset size buffer (same_ok _ _ S02) (Hd2 Hblk) ltac:(lia) Ho Hsz ltac:(lia) Hi Hb) as (s3 & E3 & S3). rewrite Ec, Eb in E3. fold n in E3.
  destruct (on_volume_ok _ _ w2 s2 _ _ V2 E3) as (w3 & Ew3 & _ & O3). rewrite (bind_eq _ _ _ _ _ Ew3). cbn [fst snd]. rewrite swrap_small by lia.
  destruct (Z.ltb_spec n 0); [lia|]. exists w3. split; [done|]. by rewrite O3, O2.
Qed.

(** C8: a file of an EXT2 volume through the VFS.  For a volume mounted anywhere, with blocks
    of less than 64 KB, and a file of its root directory: [vfs_open] with the absolute path
    succeeds with a node of the file's size and type, and [vfs_read] on that node returns the
    file's bytes: those of the direct blocks of the inode that the directory entry names,
    from the offset on; [vfs_close] then succeeds, and no structure that was allocated on the
    way is left.  The directory has at most twelve blocks, its entries are all in use and
    have names of less than 255 characters, the file is among its first 64 entries, offset
    and size together are below 2 GB, and the node can be allocated. *)
Theorem vfs_reads_ext2 v m rel obj s ls (nm : buf) e (offset size : Z) (buffer : buf) :
  ext2_mounted v m rel obj s -> has_file s ls nm e -> nonul nm -> nm <> [] -> skip_slash (rel ++ [0]) = Some (nm ++ [0]) ->
  alloc_ok sizeof_node = true -> 0 <= offset -> 0 <= size -> offset + size < 2 ^ 31 -> i_size (inode_at s (inode e)) < 2 ^ 32 -> size <= Z.of_nat (length buffer) ->
  let ino := inode_at s (inode e) in
  let n := Z.max 0 (Z.min (Z.min size (i_size ino - offset)) (12 * block_size s - offset)) in
  exists node v1 v2 v3,
    vfs_open ops_at v (Some (mpath m ++ rel ++ [0])) true = Some (VFS_OK, Some node, v1) /\
    n_size node = i_size ino /\ n_type node = node_type (i_mode ino) /\
    vfs_read ops_at v1 (Some node) offset size (Some buffer) = Some (n, Some (blit buffer 0 (slice (content s ino) (Z.to_nat offset) (Z.to_nat n))), v2) /\
    vfs_close ops_at v2 (Some node) = Some (VFS_OK, v3) /\ live_objects (world v3) = live_objects (world v).
Proof.
  intros [Mat Mdata (w & Ew & Mv & Mo)] Hh Hnm Hne Esk Ha Ho Hsz Hos Hi Hb ino n.
  destruct (skip_slash_rel rel nm Esk Hne) as [Hr _]. pose proof (mt_path _ _ _ _ _ _ Mat) as Mp.
  destruct (open_ok (m_fs m) obj rel w s ls nm e Mdata Mv Hh Hnm (proj2 (proj1 (Forall_app _ _ _) Mp)) Hne Esk Ha) as (node & w1 & s1 & E1 & V1 & S1 & A1 & O1 & F1 & I1 & N1 & T1).
  destruct Hh as [Hs Ht H64 _ _ _ Hin Hblk].
  destruct (adapter_read_ok obj node w1 s s1 (inode e) offset size buffer) as (w3 & E3 & O3); [done..|lia|done|done|lia|done|done|]. fold ino n in E3.
  destruct (close_ok node w w3 A1 ltac:(by rewrite O3, O1) Mo) as (w4 & E4 & L4).
  exists node, (with_world v (Some w1)), (with_world v (Some w3)), (with_world v (Some w4)). split_and!; [|done..| | |].
  - eapply (mounted_open ops_at v m rel obj _ Mat); [done|done|]. cbn. unfold run_op. by rewrite Ew, E1.
  - eapply (mounted_read ops_at v m rel obj _ Mat); [done|done|]. cbn. unfold run_op. by rewrite E3.
  - eapply (mounted_close ops_at v m rel obj _ Mat); [done|done|]. cbn. unfold run_op. by rewrite E4.
  - cbn. rewrite Ew. cbn. by rewrite L4.
Qed.
End Through.

(** A symbolic link is never reported: its mode bits contain those of a regular file,
    which are tested first. *)
Theorem symlink_is_file (m : Z) : node_type m <> VFS_SYMLINK.
Proof.
  unfold node_type, mode_is. repeat case_match; try done. exfalso.
  match goal with H1 : (Z.land m EXT2_S_IFREG =? EXT2_S_IFREG) = false, H2 : (Z.land m EXT2_S_IFLNK =? EXT2_S_IFLNK) = true |- _ =>
    apply Z.eqb_eq in H2; apply Z.eqb_neq in H1; apply H1;
    replace EXT2_S_IFREG with (Z.land EXT2_S_IFLNK EXT2_S_IFREG) at 1 by done; rewrite Z.land_assoc, H2; done end.
Qed.

(** ** The small volume at the root *)

Definition ext2_table : vfs_ops (W (D := RamDisk)) := ext2_vfs_ops (fun _ => true) zeroed (fun _ => None).
Definition table_at (a : Z) : option (vfs_ops (W (D := RamDisk))) := if a =? 8 then Some ext2_table else None.
Definition root_fs : vfs_filesystem := Mk_fs (replicate 32 0) 1 8 7 0.
Definition small_vfs : vfs_state (W (D := RamDisk)) :=
  Mk_vfs [] [Mk_mount 30 [47; 0] 40] 1 (<[40 := root_fs]> ∅) (Some (Mk_world small_disk (<[7 := detach small]> ∅) (Mk_objects {[7]} 8))).

Definition readme_name : buf := [114; 101; 97; 100; 109; 101].

Lemma small_mounted : ext2_mounted (fun _ => true) zeroed (fun _ => None) table_at small_vfs (Mk_mount 30 [47; 0] 40) readme_name root_fs small.
Proof.
  split; [split|..]; try done.
  - repeat constructor. exists [47], []. split; [by repeat constructor|done].
  - apply NoDup_singleton.
  - by left.
  - by repeat constructor.
  - intros m' Hin. apply list_elem_of_singleton in Hin as ->. done.
  - exists (Mk_world small_disk (<[7 := detach small]> ∅) (Mk_objects {[7]} 8)). split; [done|]. split; [exists (detach small); split; [apply lookup_insert_eq|done]|].
    split; cbn; [lia|]. intros p Hp. apply elem_of_singleton in Hp. lia.
Qed.

Lemma small_readme : has_file small [[dot; readme]] readme_name (fst (fst readme)).
Proof.
  split.
  - exact small_ok.
  - exact small_tables.
  - by vm_compute.
  - apply small_valid. unfold EXT2_ROOT_INO. lia.
  - exact small_dir.
  - exists 1%nat. split; [lia|]. split; [reflexivity|]. split; [reflexivity|]. intros [|j] e' Hj He'; [|lia]. injection He' as <-. vm_compute. discriminate.
  - apply small_valid. cbn. lia.
  - intros k Hk. unfold on_disk. change (spb small) with 2%nat. unfold LBA_LIMIT.
    assert (i_block (inode_at small (inode (fst (fst readme)))) k = 20 \/ i_block (inode_at small (inode (fst (fst readme)))) k = 0) as [-> | ->]; [|lia|lia].
    do 12 (destruct k as [|k]; [vm_compute; auto|]). lia.
Qed.

Lemma vfs_reads_ext2_witness :
  exists node v1 v2 v3, vfs_open table_at small_vfs (Some ([47] ++ readme_name ++ [0])) true = Some (VFS_OK, Some node, v1) /\ n_size node = 5 /\
    vfs_read table_at v1 (Some node) 1 100 (Some (replicate 100 9)) = Some (4, Some ([101; 108; 108; 111] ++ replicate 96 9), v2) /\
    vfs_close table_at v2 (Some node) = Some (VFS_OK, v3) /\ live_objects (world v3) = Some {[7]}.
Proof.
  destruct (vfs_reads_ext2 (fun _ => true) zeroed ext2_length_zeroed (fun _ => None) table_at small_vfs (Mk_mount 30 [47; 0] 40) readme_name root_fs small
    [[dot; readme]] readme_name (fst (fst readme)) 1 100 (replicate 100 9)) as (node & v1 & v2 & v3 & E1 & N & _ & E2 & E3 & L).
  - exact small_mounted.
  - exact small_readme.
  - by repeat constructor.
  - done.
  - reflexivity.
  - reflexivity.
  - lia.
  - lia.
  - lia.
  - by vm_compute.
  - cbn. lia.
  - exists node, v1, v2, v3. split; [exact E1|]. split; [rewrite N; vm_compute; reflexivity|]. split; [|split; [exact E3|exact L]].
    rewrite E2. match goal with |- context [Some (?n, Some ?b, v2)] => replace b with ([101; 108; 108; 111] ++ replicate 96 9) by (vm_compute; reflexivity) end.
    do 3 f_equal.
Defined.
