(* ===== verification/Mount.v ===== *)
(** fs/vfs/filesystem.c: finding the file systems of the drives.

    [init_fs] looks at one drive and sets the variables of the FAT32 driver;
    [auto_mount_all_drives] registers the three drivers with the VFS and mounts every
    detected drive, the first one that can be mounted at "/" and the others below /mnt.
    The state of the drivers is any type [W] from which the disks can be taken; the
    drivers are the tables that [ops_at] gives, and [set_current] makes [current_drive]
    known to them.  [drive_addr] is the address of an
    element of [detected_drives], [fresh] the contents of an uninitialized array. *)

From stdpp Require Import strings.
From S2P Require Import Prelude Effects CString CStdio Vfs BlockDev Ports Ata Fat32Fat.

(** ** One drive *)

(** The fields of a boot sector. *)
Definition oem_name (b : buf) : buf := slice b 3 8.
Definition file_system_type (b : buf) : buf := slice b 82 8.

(** Trailing blanks of the eight characters are replaced by NUL. *)
Fixpoint trim_type (fs_type : buf) (len : nat) : buf :=
  match len with
  | O => fs_type
  | S n => match fs_type !! n with
           | Some c => if c =? 32 then trim_type (<[n := 0]> fs_type) n else fs_type
           | None => fs_type
           end
  end.

Definition type_string (b : buf) : buf := trim_type (file_system_type b ++ [0]) 8.

Section Init.
Context {D : Type} `{BlockDev D}.
Abbreviation F := (M (fat32 D)).

Definition read_drive (base lba : Z) (m : bool) : F (option buf) := fun s =>
  let '(r, d) := BlockDev.ata_read_sector base lba m (Fat32Fat.dev s) in Some (r, with_dev s d).

(** The boot sector, and the start of the partition it was found in. *)
Definition find_boot_sector (base : Z) (m : bool) : F (option (Z * buf)) :=
  r ← read_drive base 0 m;
  match r with
  | None => mret None
  | Some b =>
      if (le_get (slice b 510 1) =? 85) && (le_get (slice b 511 1) =? 170) && negb (le_get (slice b 450 1) =? 0) then
        let partition_lba := le_get (slice b 454 4) in
        r ← read_drive base partition_lba m;
        mret (option_map (pair partition_lba) r)
      else mret (Some (0, b))
  end.

Definition init_fs (drive : drive_t) : F unit :=
  if negb (bool_decide (type drive = DRIVE_TYPE_ATA)) then mret tt else
  r ← find_boot_sector (base_of drive) (is_master drive);
  match r with
  | None => mret tt
  | Some (partition_lba, b) =>
      let fs_type := type_string b in
      c12 ← lift (strcmp fs_type (lit "FAT12"));
      if c12 =? 0 then mret tt else
      c16 ← lift (strcmp fs_type (lit "FAT16"));
      if c16 =? 0 then mret tt else
      c32 ← lift (strcmp fs_type (lit "FAT32"));
      if c32 =? 0 then
        modify (fun s =>
          let bs := parse_boot_sector b in
          Mk_fat32 (Fat32Fat.dev s) bs (fsinfo s) (fsinfo_valid s) (root_cluster bs) (base_of drive) (is_master drive)
            partition_lba (drive_base s) (drive_master s))
      else mret tt
  end.
End Init.

(** ** All drives *)

Record mount_state (W : Type) := Mk_ms {
  ms_vfs : vfs_state W;
  ms_drives : list drive_t;       (* detected_drives *)
  ms_count : Z;                   (* drive_count *)
  ms_current : Z                  (* current_drive *)
}.
Arguments Mk_ms {W}. Arguments ms_vfs {W}. Arguments ms_drives {W}. Arguments ms_count {W}. Arguments ms_current {W}.

Definition with_mount_point (d : drive_t) (p : buf) : drive_t :=
  Mk_drive (type d) (base_of d) (is_master d) (name d) (model d) (Ata.sectors d) (cylinder d) (head d) (sector_ d) (fdd_drive_no d) p.

Section Mount.
Context {W D : Type} `{BlockDev D} (disk : W -> D) (with_disk : W -> D -> W).
Context (ops_at : Z -> option (vfs_ops W)) (malloc : W -> Z -> Z * W) (free : W -> Z -> W).
Context (set_current : Z -> W -> W) (drive_addr : nat -> Z) (fresh : nat -> buf) (fat32_ops fat12_ops ext2_ops : Z).
Abbreviation A := (M (mount_state W)).

Definition with_vfs (s : mount_state W) (v : vfs_state W) : mount_state W := Mk_ms v (ms_drives s) (ms_count s) (ms_current s).
(** The drivers see [current_drive] too. *)
Definition with_current_drive (s : mount_state W) (p : Z) : mount_state W :=
  Mk_ms (with_world (ms_vfs s) (set_current p (world (ms_vfs s)))) (ms_drives s) (ms_count s) p.

Definition read_boot (base lba : Z) (m : bool) : A (option buf) := fun s =>
  let w := world (ms_vfs s) in
  let '(r, d) := BlockDev.ata_read_sector base lba m (disk w) in
  Some (r, with_vfs s (with_world (ms_vfs s) (with_disk w d))).

(** The magic number of EXT2 in the second kilobyte. *)
Definition is_ext2 (base : Z) (m : bool) : A bool :=
  r ← read_boot base 2 m;
  match r with
  | None => mret false
  | Some b =>
      r ← read_boot base 3 m;
      match r with
      | None => mret false
      | Some _ => mret (le_get (slice b 56 2) =? 61267)
      end
  end.

Definition register (fs_name : buf) (ops : Z) : A unit := fun s =>
  match vfs_register_filesystem (ms_vfs s) (Some fs_name) ops with Some (_, v) => Some (tt, with_vfs s v) | None => None end.

(** In [char mount_path[32]]. *)
Definition mount_path_for (first_drive_set : bool) (drive : drive_t) : option buf :=
  if negb first_drive_set then strcpy (fresh 32) (lit "/")
  else snd <$> snprintf (fresh 32) 32 (lit "/mnt/%s") [VStr (Some (name drive))].

Definition mount_at (p : Z) (fs_type path : buf) : A Z := fun s =>
  match vfs_mount ops_at malloc free (ms_vfs s) p (Some fs_type) (Some path) with Some (r, v) => Some (r, with_vfs s v) | None => None end.

(** Mounting one drive and noting where; whether it has been mounted. *)
Definition try_mount (i : nat) (drive : drive_t) (fs_type : buf) (first_drive_set : bool) : A bool :=
  path ← lift (mount_path_for first_drive_set drive);
  result ← mount_at (drive_addr i) fs_type path;
  if negb (result =? VFS_OK) then mret false else
  mp ← lift (strncpy (mount_point drive) path 63);
  mp ← lift (wr mp 63 0);
  _ ← modify (fun s => Mk_ms (ms_vfs s) (<[i := with_mount_point drive mp]> (ms_drives s)) (ms_count s) (ms_current s));
  _ ← (if negb first_drive_set then modify (fun s => with_current_drive s (drive_addr i)) else mret tt);
  mret true.

(** One round of the loop: [Some b]: an attempt was made, and whether it succeeded. *)
Definition mount_drive (i : nat) (first_drive_set : bool) : A (option bool) :=
  drives ← gets ms_drives;
  drive ← lift (drives !! i);
  match type drive with
  | DRIVE_TYPE_ATA =>
      r ← read_boot (base_of drive) 0 (is_master drive);
      match r with
      | None => mret (Some false)
      | Some _ =>
          ext2 ← is_ext2 (base_of drive) (is_master drive);
          ok ← try_mount i drive (if ext2 : bool then lit "ext2" else lit "fat32") first_drive_set;
          mret (Some ok)
      end
  | DRIVE_TYPE_FDD => ok ← try_mount i drive (lit "fat12") first_drive_set; mret (Some ok)
  | DRIVE_TYPE_NONE => mret None
  end.

(** The number of drives mounted, and of those that failed. *)
Fixpoint mount_loop (i n : nat) (first_drive_set : bool) (mounted_count failed_count : Z) : A (Z * Z) :=
  match n with
  | O => mret (mounted_count, failed_count)
  | S n' =>
      r ← mount_drive i first_drive_set;
      match r with
      | Some true => mount_loop (S i) n' true (mounted_count + 1) failed_count
      | Some false => mount_loop (S i) n' first_drive_set mounted_count (failed_count + 1)
      | None => mount_loop (S i) n' first_drive_set mounted_count failed_count
      end
  end.

Definition auto_mount_all_drives : A unit :=
  count ← gets ms_count;
  if count =? 0 then mret tt else
  _ ← modify (fun s => with_vfs s (vfs_init (ms_vfs s)));
  _ ← register (lit "fat32") fat32_ops;
  _ ← register (lit "fat12") fat12_ops;
  _ ← register (lit "ext2") ext2_ops;
  r ← mount_loop 0 (Z.to_nat count) false 0 0;
  if fst r =? 0 then modify (fun s => with_current_drive s 0) else mret tt.
End Mount.

(** * Properties *)

(** ** Partitions *)

Section Partition.
Context {D : Type} `{BlockDev D}.

Lemma read_drive_ok base lba m (s : fat32 D) : dev_ok (Fat32Fat.dev s) base -> 0 <= lba < LBA_LIMIT ->
  exists d, read_drive base lba m s = Some (Some (sector (Fat32Fat.dev s) base m lba), with_dev s d) /\ dev_ok d base /\ dev_equiv (Fat32Fat.dev s) d.
Proof.
  intros Hd Hl. destruct (read_ok (Fat32Fat.dev s) base m lba Hd Hl) as (d & E & Hd' & He). exists d. unfold read_drive. rewrite E. split_and!; [done|by apply Hd'|done].
Qed.

(** A drive with a partition table whose first partition holds a FAT32 volume: the boot
    sector of the partition is taken, and every later access is relative to the start of
    the partition. *)
Theorem init_fs_partition (drive : drive_t) (s : fat32 D) :
  let b := sector (Fat32Fat.dev s) (base_of drive) (is_master drive) in let mbr := b 0 in let p := le_get (slice mbr 454 4) in
  type drive = DRIVE_TYPE_ATA -> dev_ok (Fat32Fat.dev s) (base_of drive) ->
  slice mbr 510 2 = [85; 170] -> slice mbr 450 1 <> [0] -> 0 <= p < LBA_LIMIT -> file_system_type (b p) = lit_bytes "FAT32   " ->
  exists d, init_fs drive s = Some (tt, Mk_fat32 d (parse_boot_sector (b p)) (fsinfo s) (fsinfo_valid s) (root_cluster (parse_boot_sector (b p)))
      (base_of drive) (is_master drive) p (drive_base s) (drive_master s)) /\ dev_equiv (Fat32Fat.dev s) d.
Proof.
  intros b mbr p Ht Hd Hsig Hpt Hp Hfs. unfold init_fs. rewrite bool_decide_true by done. cbn [negb].
  destruct (read_drive_ok (base_of drive) 0 (is_master drive) s Hd ltac:(unfold LBA_LIMIT; lia)) as (d1 & E1 & Hd1 & He1).
  destruct (read_drive_ok (base_of drive) p (is_master drive) (with_dev s d1) Hd1 Hp) as (d2 & E2 & Hd2 & He2). cbn [Fat32Fat.dev with_dev] in E2, He2.
  rewrite He1 in E2. fold b in E1, E2. fold mbr in E1.
  assert (length mbr = 512%nat) as Hl by (by apply sector_size).
  assert (find_boot_sector (base_of drive) (is_master drive) s = Some (Some (p, b p), with_dev s d2)) as Ef.
  { unfold find_boot_sector. rewrite (bind_eq _ _ _ _ _ E1). fold mbr.
    assert (slice mbr 510 1 = [85] /\ slice mbr 511 1 = [170]) as [-> ->].
    { pose proof (f_equal (take 1) Hsig) as H1. pose proof (f_equal (drop 1) Hsig) as H2. unfold slice in *. rewrite take_take in H1.
      rewrite skipn_firstn_comm, drop_drop in H2. done. }
    assert (negb (le_get (slice mbr 450 1) =? 0) = true) as ->.
    { assert (length (slice mbr 450 1) = 1%nat) as H1 by (unfold slice; list_lia). destruct (slice mbr 450 1) as [|c [|]]; try done.
      cbn [le_get]. destruct (Z.eqb_spec (c + 256 * 0) 0); [|done]. exfalso. apply Hpt. f_equal. lia. }
    cbn [le_get Z.eqb andb]. change (85 + 256 * 0 =? 85) with true. change (170 + 256 * 0 =? 170) with true. cbn [andb].
    rewrite (bind_eq _ _ _ _ _ E2). done. }
  rewrite (bind_eq _ _ _ _ _ Ef). unfold type_string. rewrite Hfs.
  change (trim_type (lit_bytes "FAT32   " ++ [0]) 8) with (lit_bytes "FAT32" ++ [0; 0; 0; 0]).
  do 2 (rewrite (lift_bind _ 2) by reflexivity; cbn [Z.eqb]). rewrite (lift_bind _ 0) by reflexivity. cbn [Z.eqb].
  exists d2. split; [done|]. intros b0 m0 l0. rewrite He2. apply He1.
Qed.
End Partition.

(** ** Mounting all drives *)

Section AutoMount.
Context {W D : Type} `{BlockDev D} (disk : W -> D) (with_disk : W -> D -> W).
Context (ops_at : Z -> option (vfs_ops W)) (malloc : W -> Z -> Z * W) (free : W -> Z -> W).
Context (set_current : Z -> W -> W) (drive_addr : nat -> Z) (fresh : nat -> buf) (fat32_ops fat12_ops ext2_ops : Z).
Context (Hfresh : forall n, length (fresh n) = n) (Haddr : forall i, drive_addr i <> 0).

(** A driver's table, with an unmount operation. *)
Definition has_table (o : Z) : Prop := o <> 0 /\ exists tbl, ops_at o = Some tbl /\ is_Some (op_unmount tbl).
Context (H32 : has_table fat32_ops) (H12 : has_table fat12_ops) (H2 : has_table ext2_ops).
Implicit Types (s : mount_state W) (v : vfs_state W).

(** A name of at most seven characters. *)
Definition drive_ok (d : drive_t) : Prop :=
  (exists nm r, nonul nm /\ name d = nm ++ 0 :: r /\ (length nm <= 7)%nat) /\ length (mount_point d) = 64%nat.

Definition mnt_path (d : drive_t) : buf := lit_bytes "/mnt/" ++ cstr (name d).
Definition path_of (first_drive_set : bool) (d : drive_t) : buf := if first_drive_set then mnt_path d else lit_bytes "/".

Lemma path_of_ok b d : drive_ok d -> nonul (path_of b d) /\ (length (path_of b d) <= 12)%nat.
Proof.
  intros ((nm & r & Hn & E & Hl) & _). unfold path_of, mnt_path. rewrite E, cstr_app by done. destruct b; [|split; [by repeat constructor|cbn; lia]].
  split; [by repeat constructor|]. rewrite length_app. cbn. lia.
Qed.

Lemma mount_path_ok b d : drive_ok d -> exists r, mount_path_for fresh b d = Some (path_of b d ++ 0 :: r).
Proof.
  intros Hd. destruct (path_of_ok b d Hd) as [Hp Hl]. destruct Hd as ((nm & r & Hn & E & Hln) & _). unfold mount_path_for. destruct b; cbn [negb].
  - destruct (snprintf_spec (fresh 32) 32 (lit "/mnt/%s") [VStr (Some (name d))] (path_of true d)) as (rest & Es & _).
    + rewrite Hfresh. lia.
    + unfold path_of, mnt_path. rewrite E, cstr_app by done. cbn. rewrite chars_ok by done. cbn. by rewrite app_nil_r.
    + eapply Forall_impl; [exact Hp|]. unfold byte_ok. cbn. lia.
    + change (Z.of_nat 32) with 32 in Es. rewrite Es. exists rest. cbn [fmap option_fmap option_map snd]. rewrite take_ge by lia. done.
  - pose proof (Hfresh 32) as Hf. destruct (fresh 32) as [|x [|y f]]; try (cbn in Hf; lia). by exists f.
Qed.

(** The three drivers are found under their names. *)
Definition drivers_found v : Prop :=
  find_registered (registered_filesystems v) (lit "fat32") = Some (Some fat32_ops) /\
  find_registered (registered_filesystems v) (lit "fat12") = Some (Some fat12_ops) /\
  find_registered (registered_filesystems v) (lit "ext2") = Some (Some ext2_ops).

(** What one attempt changes; [b] is whether a drive has been mounted before. *)
Definition attempted (i : nat) (b : bool) (d : drive_t) s (r : bool) s' : Prop :=
  registered_filesystems (ms_vfs s') = registered_filesystems (ms_vfs s) /\ ms_count s' = ms_count s /\
  if r then
    (exists m, mount_list (ms_vfs s') = m :: mount_list (ms_vfs s) /\ mpath m = path_of b d) /\
    (exists mp, ms_drives s' = <[i := with_mount_point d mp]> (ms_drives s) /\ cstr mp = path_of b d /\ length mp = 64%nat) /\
    ms_current s' = if b then ms_current s else drive_addr i
  else mount_list (ms_vfs s') = mount_list (ms_vfs s) /\ ms_drives s' = ms_drives s /\ ms_current s' = ms_current s.

Lemma try_mount_ok i d t o b s : drive_ok d -> nonul t -> has_table o -> find_registered (registered_filesystems (ms_vfs s)) (t ++ [0]) = Some (Some o) ->
  exists r s', try_mount ops_at malloc free set_current drive_addr fresh i d (t ++ [0]) b s = Some (r, s') /\ attempted i b d s r s'.
Proof.
  intros Hd Ht (Ho & tbl & Htbl & Hum) Hf. destruct (mount_path_ok b d Hd) as (rest & Ep). destruct (path_of_ok b d Hd) as [Hp Hl].
  unfold try_mount. rewrite (lift_bind _ _ _ _ Ep).
  destruct (mount_result ops_at malloc free (ms_vfs s) t (path_of b d) rest (drive_addr i) o tbl Ht Hp ltac:(lia) (Haddr i) Hf Ho Htbl Hum) as (code & v1 & E & Hreg & Hm).
  erewrite bind_eq by (unfold mount_at; rewrite E; reflexivity). destruct (code =? VFS_OK); cbn [negb]; [|by eexists false, _].
  destruct (store_name (mount_point d) (path_of b d) rest 63 Hp (proj2 Hd)) as (mp & Emp & Hlm & _ & Hc). change (Z.of_nat 63) with 63 in Emp.
  destruct (strncpy (mount_point d) (path_of b d ++ 0 :: rest) 63) as [x|]; [|done]. cbn [mbind option_bind] in Emp.
  rewrite (lift_bind _ _ _ _ eq_refl), (lift_bind _ _ _ _ Emp), modify_bind. rewrite take_ge in Hc by lia.
  exists true. destruct b; cbn [negb]; rewrite ?modify_bind; (eexists; split; [reflexivity|]);
    (split; [done|split; [done|split; [exact Hm|split; [exists mp; by split_and!|done]]]]).
Qed.

Lemma read_boot_frame base lba m s : exists r w, read_boot disk with_disk base lba m s = Some (r, with_vfs s (with_world (ms_vfs s) w)).
Proof. unfold read_boot. destruct (BlockDev.ata_read_sector _ _ _ _) as [r d]. by eexists _, _. Qed.

Lemma attempted_frame i b d s w r s' : attempted i b d (with_vfs s (with_world (ms_vfs s) w)) r s' -> attempted i b d s r s'.
Proof. done. Qed.

Lemma is_ext2_frame base m s : exists r w, is_ext2 disk with_disk base m s = Some (r, with_vfs s (with_world (ms_vfs s) w)).
Proof.
  unfold is_ext2. destruct (read_boot_frame base 2 m s) as (r & w & E). rewrite (bind_eq _ _ _ _ _ E). destruct r; [|by eexists _, _].
  destruct (read_boot_frame base 3 m (with_vfs s (with_world (ms_vfs s) w))) as (r & w' & E'). rewrite (bind_eq _ _ _ _ _ E'). destruct r; by eexists _, _.
Qed.

Lemma mount_drive_ok i d b s : ms_drives s !! i = Some d -> drive_ok d -> drivers_found (ms_vfs s) ->
  exists r s', mount_drive disk with_disk ops_at malloc free set_current drive_addr fresh i b s = Some (r, s') /\
    attempted i b d s (match r with Some r => r | None => false end) s'.
Proof.
  intros Hi Hd (F32 & F12 & F2). unfold mount_drive. rewrite gets_bind, Hi, (lift_bind _ _ _ _ eq_refl). destruct (type d).
  - by eexists None, s.
  - destruct (read_boot_frame (base_of d) 0 (is_master d) s) as (r & w & E). rewrite (bind_eq _ _ _ _ _ E). destruct r; [|by eexists (Some false), _].
    destruct (is_ext2_frame (base_of d) (is_master d) (with_vfs s (with_world (ms_vfs s) w))) as (e & w' & E'). rewrite (bind_eq _ _ _ _ _ E').
    set (s1 := with_vfs _ _).
    assert (exists r s', try_mount ops_at malloc free set_current drive_addr fresh i d (if e then lit "ext2" else lit "fat32") b s1 = Some (r, s') /\ attempted i b d s1 r s') as (r & s' & Et & Ha).
    { destruct e; [apply (try_mount_ok i d (lit_bytes "ext2") ext2_ops)|apply (try_mount_ok i d (lit_bytes "fat32") fat32_ops)]; done || by repeat constructor. }
    rewrite (bind_eq _ _ _ _ _ Et). by exists (Some r), s'.
  - destruct (try_mount_ok i d (lit_bytes "fat12") fat12_ops b s Hd ltac:(by repeat constructor) H12 F12) as (r & s' & Et & Ha).
    change (lit_bytes "fat12" ++ [0]) with (lit "fat12") in Et. rewrite (bind_eq _ _ _ _ _ Et). by exists (Some r), s'.
Qed.

(** The path of the drive at an index, and those of a list of drives of which the first
    is at "/" unless [b]. *)
Definition drive_path (ds : list drive_t) (b : bool) (j : nat) : buf := match ds !! j with Some d => path_of b d | None => [] end.
Definition paths (ds : list drive_t) (b : bool) (l : list nat) : list buf :=
  match l with [] => [] | j :: l' => drive_path ds b j :: map (drive_path ds true) l' end.

(** The mount point that is noted in the drives. *)
Definition noted (b : bool) (l : list nat) (j : nat) (d d' : drive_t) : Prop :=
  if decide (j ∈ l) then exists mp, d' = with_mount_point d mp /\ cstr mp = path_of (b || negb (bool_decide (l !! 0%nat = Some j))) d /\ length mp = 64%nat
  else d' = d.

Lemma drive_path_insert ds i d mp b j : ds !! i = Some d -> drive_path (<[i := with_mount_point d mp]> ds) b j = drive_path ds b j.
Proof.
  intros Hi. unfold drive_path. destruct (decide (j = i)) as [->|Hne]; [|by rewrite list_lookup_insert_ne].
  rewrite list_lookup_insert_eq by (by eapply lookup_lt_Some). by rewrite Hi.
Qed.

Lemma mount_loop_ok n : forall i b mc fc s, (i + n <= length (ms_drives s))%nat -> Forall drive_ok (ms_drives s) -> drivers_found (ms_vfs s) ->
  exists l k s', mount_loop disk with_disk ops_at malloc free set_current drive_addr fresh i n b mc fc s = Some ((mc + Z.of_nat (length l), k), s') /\
    l `sublist_of` seq i n /\
    map (fun m => mpath m) (mount_list (ms_vfs s')) = rev (paths (ms_drives s) b l) ++ map (fun m => mpath m) (mount_list (ms_vfs s)) /\
    ms_current s' = (if b then ms_current s else match l with [] => ms_current s | j :: _ => drive_addr j end) /\
    forall j d, ms_drives s !! j = Some d -> exists d', ms_drives s' !! j = Some d' /\ noted b l j d d'.
Proof.
  induction n as [|n IH]; intros i b mc fc s Hn Hok Hf; cbn [mount_loop].
  { exists [], fc, s. rewrite Z.add_0_r. split; [done|]. split; [done|]. split; [done|]. split; [by destruct b|]. intros j d Hj. by exists d. }
  destruct (lookup_lt_is_Some_2 (ms_drives s) i ltac:(lia)) as (d & Hi). pose proof (proj1 (Forall_lookup _ _) Hok i d Hi) as Hd.
  destruct (mount_drive_ok i d b s Hi Hd Hf) as (r & s1 & E & Hr & Hc & Ha). rewrite (bind_eq _ _ _ _ _ E).
  assert (drivers_found (ms_vfs s1)) as Hf1 by (unfold drivers_found; by rewrite Hr).
  destruct r as [[|]|].
  2,3: destruct Ha as (Em & Ed & Ec).
  2: specialize (IH (S i) b mc (fc + 1) s1). 3: specialize (IH (S i) b mc fc s1).
  2,3: rewrite Em, Ed, Ec in IH; destruct (IH ltac:(lia) Hok Hf1) as (l & k & s' & E' & Hs & Hm & Hcur & Hdr);
    exists l, k, s'; split; [done|]; split; [by apply sublist_cons|done].
  destruct Ha as ((m & Em & Hm) & (mp & Ed & Hmp & Hlm) & Ec).
  destruct (IH (S i) true (mc + 1) fc s1) as (l & k & s' & E' & Hs & Hml & Hcur & Hdr).
  { rewrite Ed, length_insert. lia. }
  { rewrite Ed. apply Forall_insert; [done|]. destruct Hd as [Hnm _]. by split. }
  { done. }
  exists (i :: l), k, s'. split; [rewrite E'; cbn [length]; do 3 f_equal; lia|]. split; [by apply sublist_skip|].
  assert (i ∉ l) as Hni. { intros Hin. pose proof (elem_of_submseteq _ _ _ Hin (sublist_submseteq _ _ Hs)) as Hin'. apply elem_of_seq in Hin'. lia. }
  split; [|split].
  - rewrite Hml, Em, Ed. cbn [map]. rewrite Hm. cbn [paths rev]. rewrite <- app_assoc. cbn [app].
    assert (paths (<[i := with_mount_point d mp]> (ms_drives s)) true l = map (drive_path (ms_drives s) true) l) as ->.
    { destruct l as [|j l]; [done|]. cbn [paths map]. f_equal; [by apply drive_path_insert|]. apply map_ext. intros ?. by apply drive_path_insert. }
    unfold drive_path at 3. by rewrite Hi.
  - rewrite Hcur, Ec. by destruct b.
  - intros j dj Hj. unfold noted. destruct (decide (j ∈ i :: l)) as [Hin|Hnot].
    + destruct (decide (j = i)) as [->|Hne].
      * destruct (Hdr i (with_mount_point d mp)) as (d' & Hd' & Hnt); [rewrite Ed; apply list_lookup_insert_eq; by eapply lookup_lt_Some|].
        exists d'. split; [done|]. unfold noted in Hnt. rewrite decide_False in Hnt by done. subst d'. assert (dj = d) as -> by congruence.
        exists mp. split; [done|]. split; [|done]. rewrite bool_decide_true by done. by rewrite orb_false_r.
      * apply elem_of_cons in Hin as [|Hin]; [done|]. destruct (Hdr j dj) as (d' & Hd' & Hnt); [by rewrite Ed, list_lookup_insert_ne|].
        exists d'. split; [done|]. unfold noted in Hnt. rewrite decide_True in Hnt by done. destruct Hnt as (mp' & -> & Hp & Hl'). exists mp'. split; [done|]. split; [|done].
        rewrite bool_decide_false by (cbn; congruence). by rewrite orb_true_r.
    + apply not_elem_of_cons in Hnot as [Hne Hnl]. destruct (Hdr j dj) as (d' & Hd' & Hnt); [by rewrite Ed, list_lookup_insert_ne|].
      exists d'. split; [done|]. unfold noted in Hnt. by rewrite decide_False in Hnt by done.
Qed.

Lemma init_regs_ok v : length (registered_filesystems v) = 10%nat -> Forall (fun r => length (r_name r) = 32%nat) (registered_filesystems v) ->
  regs_ok (vfs_init v) /\ fs_count (vfs_init v) = 0.
Proof.
  intros Hl Hn. split; [|done]. split; [cbn; by rewrite length_map, Hl|]. split.
  - cbn. unfold count_registered. clear Hl. induction Hn as [|r l Hr Hl IH]; [done|]. cbn. exact IH.
  - cbn. apply Forall_map. eapply Forall_impl; [exact Hn|]. intros r Hr. by split.
Qed.

(** A registration that finds the name unused and a slot free. *)
Lemma register_ok s n o k : regs_ok (ms_vfs s) -> fs_count (ms_vfs s) = k -> k < MAX_FILESYSTEMS -> nonul n -> (length n <= 31)%nat -> o <> 0 ->
  find_registered (registered_filesystems (ms_vfs s)) (n ++ [0]) = Some None ->
  exists v', register (n ++ [0]) o s = Some (tt, with_vfs s v') /\ regs_ok v' /\ fs_count v' = k + 1 /\ mount_list v' = mount_list (ms_vfs s) /\
    find_registered (registered_filesystems v') (n ++ [0]) = Some (Some o) /\
    forall m x, nonul m -> n <> m -> find_registered (registered_filesystems (ms_vfs s)) (m ++ [0]) = Some x -> find_registered (registered_filesystems v') (m ++ [0]) = Some x.
Proof.
  intros Hr Hk Hlt Hn Hl Ho Hf. destruct (vfs_register_spec (ms_vfs s) n o Hr Hn Hl Ho) as (code & v' & E & Hr' & [(_ & _ & Hbad)|[(_ & _ & Hbad)|(-> & _ & Hc & Hfd & Hm)]]).
  - lia.
  - exfalso. destruct (find_registered_spec _ n [] (proj2 (proj2 Hr)) Hn) as (f & Ef & Hcase). rewrite Hf in Ef. injection Ef as <-. done.
  - exists v'. unfold register. rewrite E. split_and!; try done; [lia|]. intros m x Hm' Hne Hx. exact (register_keeps _ _ n o _ m x Hr Hn Hm' Hne Hl E Hx).
Qed.

Lemma unregistered_none l n : Forall (fun r => registered r = false) l -> find_registered l n = Some None.
Proof. induction 1 as [|r l Hr Hl IH]; [done|]. cbn [find_registered]. by rewrite Hr. Qed.

Lemma register_all s : length (registered_filesystems (ms_vfs s)) = 10%nat -> Forall (fun r => length (r_name r) = 32%nat) (registered_filesystems (ms_vfs s)) ->
  exists v', (_ ← modify (fun s => with_vfs s (vfs_init (ms_vfs s))); _ ← register (lit "fat32") fat32_ops; _ ← register (lit "fat12") fat12_ops;
    register (lit "ext2") ext2_ops) s = Some (tt, with_vfs s v') /\ drivers_found v' /\ mount_list v' = [].
Proof.
  intros Hl Hn. destruct (init_regs_ok (ms_vfs s) Hl Hn) as [Hr Hc]. rewrite modify_bind. set (s0 := with_vfs s (vfs_init (ms_vfs s))).
  assert (forall x, find_registered (registered_filesystems (ms_vfs s0)) x = Some None) as H0.
  { intros x. apply unregistered_none. cbn. apply Forall_map. by apply Forall_true. }
  destruct (register_ok s0 (lit_bytes "fat32") fat32_ops 0 Hr Hc) as (v1 & E1 & R1 & C1 & M1 & F1 & K1); [done|by repeat constructor|cbn; lia|apply H32|apply H0|].
  change (lit_bytes "fat32" ++ [0]) with (lit "fat32") in E1, F1. rewrite (bind_eq _ _ _ _ _ E1).
  destruct (register_ok (with_vfs s0 v1) (lit_bytes "fat12") fat12_ops 1 R1 C1) as (v2 & E2 & R2 & C2 & M2 & F2 & K2);
    [done|by repeat constructor|cbn; lia|apply H12|by apply K1; [repeat constructor| |apply H0]|].
  change (lit_bytes "fat12" ++ [0]) with (lit "fat12") in E2, F2. rewrite (bind_eq _ _ _ _ _ E2).
  destruct (register_ok (with_vfs s0 v2) (lit_bytes "ext2") ext2_ops 2 R2 C2) as (v3 & E3 & R3 & C3 & M3 & F3 & K3);
    [done|by repeat constructor|cbn; lia|apply H2|by apply K2; [repeat constructor| |apply K1; [repeat constructor| |apply H0]]|].
  exists v3. split; [exact E3|]. split; [|cbn in M1, M2, M3; by rewrite M3, M2, M1]. split_and!.
  - apply (K3 (lit_bytes "fat32")); [by repeat constructor|done|]. by apply (K2 (lit_bytes "fat32")); [repeat constructor| |].
  - by apply (K3 (lit_bytes "fat12")); [repeat constructor| |].
  - exact F3.
Qed.

(** C11: the mount points after start-up, whatever the drivers, the allocator and the disks
    answer: some of the drives are mounted, in their order; the first of them is at "/"
    and is the current drive, every other one is at /mnt/<name>, and each has its path
    noted in its [mount_point]; the drives that failed are unchanged; and if none could be
    mounted, there is no current drive. *)
Theorem auto_mount_points s :
  length (registered_filesystems (ms_vfs s)) = 10%nat -> Forall (fun r => length (r_name r) = 32%nat) (registered_filesystems (ms_vfs s)) ->
  Forall drive_ok (ms_drives s) -> 0 < ms_count s <= Z.of_nat (length (ms_drives s)) ->
  exists l s', auto_mount_all_drives disk with_disk ops_at malloc free set_current drive_addr fresh fat32_ops fat12_ops ext2_ops s = Some (tt, s') /\
    l `sublist_of` seq 0 (Z.to_nat (ms_count s)) /\
    map (fun m => mpath m) (mount_list (ms_vfs s')) = rev (paths (ms_drives s) false l) /\
    ms_current s' = match l with [] => 0 | j :: _ => drive_addr j end /\
    forall j d, ms_drives s !! j = Some d -> exists d', ms_drives s' !! j = Some d' /\ noted false l j d d'.
Proof.
  intros Hl Hn Hd Hc. unfold auto_mount_all_drives. rewrite gets_bind. destruct (Z.eqb_spec (ms_count s) 0); [lia|].
  destruct (register_all s Hl Hn) as (v1 & E1 & F1 & M1). set (s1 := with_vfs s v1) in *.
  destruct (mount_loop_ok (Z.to_nat (ms_count s)) 0 false 0 0 s1) as (l & k & s' & E2 & Hs & Hm & Hcur & Hdr); [cbn; lia|done|done|].
  unfold mbind, M_bind, modify in E1 |- *. destruct (register (lit "fat32") fat32_ops _) as [[[] s2]|]; [|done]. destruct (register (lit "fat12") fat12_ops s2) as [[[] s3]|]; [|done].
  rewrite E1, E2. cbn [ms_vfs s1 with_vfs ms_current ms_drives] in Hm, Hcur, Hdr. rewrite M1, app_nil_r in Hm. cbn [fst]. destruct l as [|j l].
  - cbn [length Z.of_nat Z.add Z.eqb]. exists [], (with_current_drive set_current s' 0). by split_and!.
  - destruct (Z.eqb_spec (0 + Z.of_nat (length (j :: l))) 0); [cbn in *; lia|]. exists (j :: l), s'. by split_and!.
Qed.
End AutoMount.

(** ** Witnesses *)

(** A driver that mounts the drives with an even address only. *)
Definition even_ops : vfs_ops RamDisk :=
  Mk_ops (fun w _ obj drive => (if Z.even drive then 0 else -4, obj, w)) (Some (fun w _ _ => (0, w))) None None None None None None None None None None.
Definition even_at (a : Z) : option (vfs_ops RamDisk) := if (7 <=? a) && (a <=? 9) then Some even_ops else None.
Definition named (s : string) (t : drive_type_t) : drive_t :=
  Mk_drive t 496 true (lit s ++ replicate (8 - length (lit s)) 0) (replicate 41 0) 100 0 0 0 0 (replicate 64 0).
Lemma named_ok s t : nonul (lit_bytes s) -> (length (lit_bytes s) <= 7)%nat -> drive_ok (named s t).
Proof.
  intros Hn Hl. split; [|reflexivity]. exists (lit_bytes s), (replicate (8 - length (lit s)) 0). split; [done|]. split; [|done].
  cbn [name named]. unfold lit. by rewrite <- app_assoc.
Qed.
Definition four_drives : list drive_t :=
  [named "hdd1" DRIVE_TYPE_ATA; named "hdd2" DRIVE_TYPE_ATA; named "fdd1" DRIVE_TYPE_FDD; named "hdd3" DRIVE_TYPE_ATA].
Definition before_mount : mount_state RamDisk :=
  Mk_ms (Mk_vfs (replicate 10 (Mk_reg (replicate 32 0) 0 false)) [] 0 ∅ (Mk_ramdisk ∅ false)) four_drives 4 0.

Lemma auto_mount_points_witness : exists s',
  auto_mount_all_drives (fun w => w) (fun _ d => d) even_at (fun w n => (4096 + n, w)) (fun w _ => w) (fun _ w => w) (fun i => Z.of_nat i + 1) (fun n => replicate n 0) 7 8 9 before_mount
    = Some (tt, s') /\ ms_current s' = 2 /\ map (fun m => mpath m) (mount_list (ms_vfs s')) = [lit_bytes "/mnt/hdd3"; lit_bytes "/"].
Proof.
  assert (Forall drive_ok four_drives) as Hd.
  { repeat apply Forall_cons_2; [..|apply Forall_nil_2]; (apply named_ok; [by repeat constructor|cbn; lia]). }
  assert (forall o, o = 7 \/ o = 8 \/ o = 9 -> has_table even_at o) as Ht.
  { intros o [->|[->| ->]]; (split; [done|]; exists even_ops; split; [reflexivity|by eexists]). }
  destruct (auto_mount_points (fun w => w) (fun _ d => d) even_at (fun w n => (4096 + n, w)) (fun w _ => w) (fun _ w => w) (fun i => Z.of_nat i + 1) (fun n => replicate n 0) 7 8 9
    (fun n => length_replicate n 0) ltac:(intros i; cbv beta; lia) ltac:(auto) ltac:(auto) ltac:(auto) before_mount) as (l & s' & E & _).
  - reflexivity.
  - by apply Forall_replicate.
  - exact Hd.
  - split; [done|]. cbn. lia.
  - exists s'. split; [exact E|]. vm_compute in E. injection E as <-. split; reflexivity.
Defined.

Lemma init_fs_partition_witness :
  exists d, init_fs (named "hdd1" DRIVE_TYPE_ATA) (with_dev vol100 (Mk_ramdisk
      (<[(496, true, 0) := replicate 446 0 ++ [128; 0; 0; 0; 12; 0; 0; 0] ++ le_put 4 63 ++ replicate 52 0 ++ [85; 170]]>
      (<[(496, true, 63) := replicate 82 0 ++ lit_bytes "FAT32   " ++ replicate 422 0]> ∅)) false)) = Some (tt, d) /\ partition_lba_offset d = 63.
Proof.
  match goal with |- exists d, init_fs ?x ?s = _ /\ _ => destruct (init_fs_partition x s) as (d & E & _) end.
  - reflexivity.
  - split; [|done]. split; [done|]. cbn [ram_sectors Fat32Fat.dev with_dev].
    repeat (apply map_Forall_insert_2; [split; [vm_compute; reflexivity|apply bytes_check; vm_compute; reflexivity]|]). apply map_Forall_empty.
  - vm_compute. reflexivity.
  - vm_compute. discriminate.
  - vm_compute. by split.
  - vm_compute. reflexivity.
  - eexists. split; [exact E|]. vm_compute. reflexivity.
Defined.
