(* ===== verification/System.v ===== *)
(** The storage stack as one system: the three file-system drivers with the disks, the
    floppy drives and the allocated structures that they share, mounted by
    fs/vfs/filesystem.c into one VFS.

    Each driver's table works on that driver's own state; [View] says how that state is
    a part of the whole, and [lift_ops] makes a table of the whole system of it. *)

From stdpp Require Import gmap strings.
From S2P Require Import Prelude Effects CString Vfs BlockDev Ports Ata Fat32Fat Fat32Vfs Fat12 Fat12Vfs Ext2 Ext2Vfs Mount.

Record system (D F : Type) := Mk_system {
  sy_disk : D;                              (* the ATA disks *)
  sy_fat32 : fat32 unit;                    (* the variables of the FAT32 driver *)
  sy_fat12 : fs12 F;                        (* those of the FAT12 driver, with the floppy drives *)
  sy_ext2 : gmap Z (ext2_fs unit);          (* the EXT2 volumes *)
  sy_objs : objects;
  sy_roots : gmap Z vfs_node;
  sy_files : gmap Z (fat12_file * Z)
}.
Arguments Mk_system {D F}. Arguments sy_disk {D F}. Arguments sy_fat32 {D F}. Arguments sy_fat12 {D F}. Arguments sy_ext2 {D F}.
Arguments sy_objs {D F}. Arguments sy_roots {D F}. Arguments sy_files {D F}.

(** ** The parts *)

Class View (S W : Type) := { view : S -> W; update : S -> W -> S; view_update : forall s w, view (update s w) = w }.

Definition fat32_on {D D'} (s : fat32 D) (d : D') : fat32 D' :=
  Mk_fat32 d (Fat32Fat.boot_sector s) (fsinfo s) (fsinfo_valid s) (current_directory_cluster s) (ata_base_address s)
    (Fat32Fat.ata_is_master s) (partition_lba_offset s) (drive_base s) (drive_master s).

Section Views.
Context {D F : Type}.

#[refine] Instance fat32_view : View (system D F) (fat32_world D) := {|
  view s := Mk_fworld (fat32_on (sy_fat32 s) (sy_disk s)) (sy_objs s) (sy_roots s);
  update s w := Mk_system (Fat32Fat.dev (fw_fat w)) (fat32_on (fw_fat w) tt) (sy_fat12 s) (sy_ext2 s) (fw_objs w) (fw_roots w) (sy_files s) |}.
Proof. intros s [[] ? ?]. done. Defined.

#[refine] Instance fat12_view : View (system D F) (fat12_world F) := {|
  view s := Mk_tworld (sy_fat12 s) (sy_objs s) (sy_roots s) (sy_files s);
  update s w := Mk_system (sy_disk s) (sy_fat32 s) (tw_fat w) (sy_ext2 s) (tw_objs w) (tw_roots w) (tw_files w) |}.
Proof. by intros s []. Defined.

#[refine] Instance ext2_view : View (system D F) (ext2_world D) := {|
  view s := Mk_world (sy_disk s) (sy_ext2 s) (sy_objs s);
  update s w := Mk_system (w_dev w) (sy_fat32 s) (sy_fat12 s) (w_vols w) (w_objs w) (sy_roots s) (sy_files s) |}.
Proof. by intros s []. Defined.
End Views.
#[global] Existing Instances fat32_view fat12_view ext2_view.

(** ** Tables *)

Definition zoom {S W X} `{View S W} (f : option W -> X * option W) (s : option S) : X * option S :=
  match s with
  | None => (fst (f None), None)
  | Some s => let '(x, w) := f (Some (view s)) in (x, option_map (update s) w)
  end.

Definition lift_ops {S W} `{View S W} (t : vfs_ops (option W)) : vfs_ops (option S) :=
  Mk_ops
    (fun s fs obj drive => zoom (fun w => op_mount t w fs obj drive) s)
    (option_map (fun op s fs obj => zoom (fun w => op w fs obj) s) (op_unmount t))
    (option_map (fun op s fs obj path => zoom (fun w => op w fs obj path) s) (op_open t))
    (option_map (fun op s obj node => zoom (fun w => op w obj node) s) (op_close t))
    (option_map (fun op s obj node offset size b => zoom (fun w => op w obj node offset size b) s) (op_read t))
    (option_map (fun op s obj node offset size b => zoom (fun w => op w obj node offset size b) s) (op_write t))
    (option_map (fun op s obj node index e => zoom (fun w => op w obj node index e) s) (op_readdir t))
    (option_map (fun op s fs obj path => zoom (fun w => op w fs obj path) s) (op_mkdir t))
    (option_map (fun op s fs obj path => zoom (fun w => op w fs obj path) s) (op_rmdir t))
    (option_map (fun op s fs obj path => zoom (fun w => op w fs obj path) s) (op_create t))
    (option_map (fun op s fs obj path => zoom (fun w => op w fs obj path) s) (op_delete t))
    (option_map (fun op s fs obj path st => zoom (fun w => op w fs obj path st) s) (op_stat t)).

Section Boot.
Context {D F : Type} `{BlockDev D} `{Floppy F} (alloc_ok : Z -> bool) (fresh : nat -> buf) (fuel : nat).
Abbreviation S := (option (system D F)).

(** [malloc] and [free] of vfs.c, from the same store. *)
Definition with_sy_objs (s : system D F) (o : objects) : system D F :=
  Mk_system (sy_disk s) (sy_fat32 s) (sy_fat12 s) (sy_ext2 s) o (sy_roots s) (sy_files s).
Definition sys_malloc (s : S) (n : Z) : Z * S :=
  match s with
  | None => (0, None)
  | Some s => if alloc_ok n then let '(p, o) := new_object (sy_objs s) in (p, Some (with_sy_objs s o)) else (0, Some s)
  end.
Definition sys_free (s : S) (p : Z) : S :=
  match s with None => None | Some s => option_map (with_sy_objs s) (free_object p (sy_objs s)) end.

(** The elements of [detected_drives], by their address. *)
Definition drive_addr (i : nat) : Z := Z.of_nat i + 1.
Definition drive_of (ds : list drive_t) (p : Z) : option drive_t := if 0 <? p then ds !! Z.to_nat (p - 1) else None.
Definition ata_at (ds : list drive_t) (p : Z) : option (Z * bool) := option_map (fun d => (base_of d, is_master d)) (drive_of ds p).
Definition fdd_at (ds : list drive_t) (p : Z) : option Z := option_map fdd_drive_no (drive_of ds p).

Definition set_current (ds : list drive_t) (p : Z) (s : S) : S :=
  option_map (fun s => Mk_system (sy_disk s) (with_current (default (-1, false) (ata_at ds p)) (sy_fat32 s)) (sy_fat12 s) (sy_ext2 s) (sy_objs s)
                         (sy_roots s) (sy_files s)) s.

(** The tables of the three drivers at three addresses. *)
Definition FAT32_OPS : Z := 1001.
Definition FAT12_OPS : Z := 1002.
Definition EXT2_OPS : Z := 1003.
Definition FAT12_DATA : Z := 1004.
Definition sys_ops (ds : list drive_t) (a : Z) : option (vfs_ops S) :=
  if a =? FAT32_OPS then Some (lift_ops (fat32_vfs_ops false alloc_ok fresh (ata_at ds) fuel))
  else if a =? FAT12_OPS then Some (lift_ops (fat12_vfs_ops alloc_ok fresh fuel (fdd_at ds) FAT12_DATA))
  else if a =? EXT2_OPS then Some (lift_ops (ext2_vfs_ops alloc_ok fresh (ata_at ds)))
  else None.

(** The disks of a state; after undefined behaviour there is no disk to read. *)
Context (no_disk : D).
Definition disk_of (s : S) : D := match s with Some s => sy_disk s | None => no_disk end.
Definition with_disk (s : S) (d : D) : S :=
  option_map (fun s => Mk_system d (sy_fat32 s) (sy_fat12 s) (sy_ext2 s) (sy_objs s) (sy_roots s) (sy_files s)) s.

(** Start-up: the drives that were detected are mounted. *)
Definition boot (ds : list drive_t) (v : vfs_state S) : option (unit * mount_state S) :=
  auto_mount_all_drives disk_of with_disk (sys_ops ds) sys_malloc sys_free (set_current ds) drive_addr fresh FAT32_OPS FAT12_OPS EXT2_OPS
    (Mk_ms v ds (Z.of_nat (length ds)) 0).
End Boot.

(** ** Two drives *)

(** A hard disk with a FAT32 volume that has no FSInfo sector, and a floppy disk. *)
Definition bs_plain : fat32_boot_sector := Mk_bs 512 1 2 2 0 104 1 2 0 41.
Definition hard_disk : RamDisk := Mk_ramdisk (<[(496, true, 0) := Fat32Vfs.boot_bytes bs_plain]> (ram_sectors (Fat32Fat.dev vol_kernel))) false.
Definition two_drives : list drive_t := [named "hdd1" DRIVE_TYPE_ATA; named "fdd1" DRIVE_TYPE_FDD].

Definition cold : system RamDisk image12 :=
  Mk_system hard_disk (Mk_fat32 tt (Mk_bs 0 0 0 0 0 0 0 0 0 0) fsinfo0 false 2 0 false 0 (-1) false) unmounted ∅ (Mk_objects ∅ 1) ∅ ∅.
Definition cold_vfs : vfs_state (option (system RamDisk image12)) :=
  Mk_vfs (replicate 10 (Mk_reg (replicate 32 0) 0 false)) [] 0 ∅ (Some cold).

Definition booted : vfs_state (option (system RamDisk image12)) :=
  match boot (fun _ => true) (fun n => replicate n 0) 10 (Mk_ramdisk ∅ true) two_drives cold_vfs with Some (_, s) => ms_vfs s | None => cold_vfs end.

(** What [vfs_open], [vfs_read] of up to [n] bytes and [vfs_close] give for a path. *)
Definition read_path (v : vfs_state (option (system RamDisk image12))) (path : string) (n : nat) : option (Z * option buf * Z) :=
  let ops := sys_ops (fun _ => true) (fun n => replicate n 0) 10 two_drives in
  '(r, node, v) ← vfs_open ops v (Some (lit path)) true;
  if negb (r =? VFS_OK) then Some (r, None, 0) else
  '(k, b, v) ← vfs_read ops v node 0 (Z.of_nat n) (Some (replicate n 0));
  '(c, _) ← vfs_close ops v node;
  Some (k, b, c).

(** After start-up, files of both drives can be read by their absolute paths, each
    through its own driver. *)
Theorem boot_reads_both :
  map (fun m => mpath m) (mount_list booted) = [lit_bytes "/mnt/fdd1"; lit_bytes "/"] /\
  read_path booted "/kernel.bin" 600 = Some (600, Some (replicate 512 65 ++ replicate 88 66), VFS_OK) /\
  read_path booted "/mnt/fdd1/A.TXT" 700 = Some (700, Some (replicate 512 65 ++ replicate 188 66), VFS_OK) /\
  read_path booted "/none" 10 = Some (VFS_ERR_NOT_FOUND, None, 0).
Proof. split_and!; vm_compute; reflexivity. Qed.
