(* ===== verification/CharDev.v ===== *)
(** drivers/char/rtc.c and serial.c: the real-time clock and the serial port.

    Both drivers have no state of their own; they act on the ports of Ports.v.  A loop
    that waits for the device gets fuel, and the theorems bound how much it needs by
    what the device promises. *)

From S2P Require Import Prelude Effects Ports.

(** The machine is the hardware itself. *)
#[global] Instance hw_machine H : Machine H H := {| hw h := h; with_hw _ h := h |}.

(** ** Real-time clock *)

Definition CMOS_ADDRESS : Z := 112.
Definition CMOS_DATA : Z := 113.
Definition RTC_SECONDS : Z := 0.
Definition RTC_MINUTES : Z := 2.
Definition RTC_HOURS : Z := 4.
Definition RTC_DAY_OF_MONTH : Z := 7.
Definition RTC_MONTH : Z := 8.
Definition RTC_YEAR : Z := 9.
Definition RTC_CENTURY : Z := 50.
Definition RTC_STATUS_A : Z := 10.

Definition bin_to_bcd (val : Z) : Z := u8 (Z.quot val 10 * 16 + Z.rem val 10).
Definition bcd_to_bin (val : Z) : Z := Z.quot val 16 * 10 + Z.rem val 16.

Section Rtc.
Context {H : Type} `{Ports H}.
Abbreviation A := (M H).

Definition cmos_update_in_progress : A bool :=
  _ ← outb CMOS_ADDRESS RTC_STATUS_A;
  v ← inb CMOS_DATA;
  mret (negb (Z.land v 128 =? 0)).

(** [while (cmos_update_in_progress());] *)
Fixpoint wait_update (fuel : nat) : A unit :=
  match fuel with
  | O => undef
  | S fuel' => u ← cmos_update_in_progress; if u : bool then wait_update fuel' else mret tt
  end.

Definition readFromCMOS (reg : Z) : A Z := _ ← outb CMOS_ADDRESS reg; inb CMOS_DATA.
Definition write_cmos (reg val : Z) : A unit := _ ← outb CMOS_ADDRESS reg; outb CMOS_DATA val.

Definition read_date (fuel : nat) : A (Z * Z * Z) :=
  _ ← wait_update fuel;
  y ← readFromCMOS RTC_YEAR;
  c ← readFromCMOS RTC_CENTURY;
  m ← readFromCMOS RTC_MONTH;
  d ← readFromCMOS RTC_DAY_OF_MONTH;
  mret (bcd_to_bin y + bcd_to_bin c * 100, bcd_to_bin m, bcd_to_bin d).

Definition read_time (fuel : nat) : A (Z * Z * Z) :=
  _ ← wait_update fuel;
  h ← readFromCMOS RTC_HOURS;
  m ← readFromCMOS RTC_MINUTES;
  s ← readFromCMOS RTC_SECONDS;
  mret (bcd_to_bin h, bcd_to_bin m, bcd_to_bin s).

Definition write_date (fuel : nat) (year month day : Z) : A unit :=
  _ ← wait_update fuel;
  _ ← write_cmos RTC_YEAR (bin_to_bcd (Z.rem year 100));
  _ ← write_cmos RTC_CENTURY (bin_to_bcd (Z.quot year 100));
  _ ← write_cmos RTC_MONTH (bin_to_bcd month);
  write_cmos RTC_DAY_OF_MONTH (bin_to_bcd day).

Definition write_time (fuel : nat) (hours minutes seconds : Z) : A unit :=
  _ ← wait_update fuel;
  _ ← write_cmos RTC_HOURS (bin_to_bcd hours);
  _ ← write_cmos RTC_MINUTES (bin_to_bcd minutes);
  write_cmos RTC_SECONDS (bin_to_bcd seconds).

(** ** Serial port *)

Definition SERIAL_DATA (base : Z) : Z := base.
Definition SERIAL_INT_ENABLE (base : Z) : Z := base + 1.
Definition SERIAL_FIFO_CTRL (base : Z) : Z := base + 2.
Definition SERIAL_LINE_CTRL (base : Z) : Z := base + 3.
Definition SERIAL_MODEM_CTRL (base : Z) : Z := base + 4.
Definition SERIAL_LINE_STATUS (base : Z) : Z := base + 5.

Definition serial_init (port : Z) : A unit :=
  _ ← outb (SERIAL_INT_ENABLE port) 0;
  _ ← outb (SERIAL_LINE_CTRL port) 128;
  _ ← outb (SERIAL_DATA port) 1;
  _ ← outb (SERIAL_INT_ENABLE port) 0;
  _ ← outb (SERIAL_LINE_CTRL port) 3;
  _ ← outb (SERIAL_FIFO_CTRL port) 199;
  outb (SERIAL_MODEM_CTRL port) 11.

Definition serial_is_transmit_empty (port : Z) : A bool :=
  v ← inb (SERIAL_LINE_STATUS port); mret (negb (Z.land v 32 =? 0)).

(** [while (!serial_is_transmit_empty(port));] *)
Fixpoint wait_transmit (fuel : nat) (port : Z) : A unit :=
  match fuel with
  | O => undef
  | S fuel' => e ← serial_is_transmit_empty port; if e : bool then mret tt else wait_transmit fuel' port
  end.

Definition serial_write_char (fuel : nat) (port ch : Z) : A unit :=
  _ ← wait_transmit fuel port; outb (SERIAL_DATA port) ch.

(** The string up to its terminator. *)
Fixpoint serial_write_string (fuel : nat) (port : Z) (str : buf) : A unit :=
  match str with
  | [] => undef
  | c :: str' => if c =? 0 then mret tt else _ ← serial_write_char fuel port c; serial_write_string fuel port str'
  end.
End Rtc.

(** * Properties *)

(** Two decimal digits and back. *)
Lemma bcd_roundtrip v : 0 <= v < 100 -> bcd_to_bin (bin_to_bcd v) = v /\ byte_ok (bin_to_bcd v).
Proof.
  intros Hv. unfold bcd_to_bin, bin_to_bcd. rewrite (Z.quot_div_nonneg v 10), (Z.rem_mod_nonneg v 10) by lia.
  assert (0 <= v / 10 * 16 + v mod 10 < 256) as Hr by zlia. rewrite wrap_small by lia. rewrite Z.quot_div_nonneg, Z.rem_mod_nonneg by lia.
  split; [|exact Hr]. rewrite (Z.add_comm (v / 10 * 16)), Z.div_add, Z.mod_add by lia. zlia.
Qed.

(** What the clock chip promises: the address port selects a register, the data port reads
    and writes it, and while an update is in progress -- [updating] more status reads --
    bit 7 of status register A is set.  The clock does not tick in between. *)
Class Cmos (H : Type) `{Ports H} := {
  register : H -> Z -> Z;
  selected : H -> Z;
  updating : H -> nat;
  select_law : forall h r, byte_ok r -> register (dev_outb CMOS_ADDRESS r h) = register h /\ selected (dev_outb CMOS_ADDRESS r h) = r /\
    updating (dev_outb CMOS_ADDRESS r h) = updating h;
  store_law : forall h v, byte_ok v -> selected h <> RTC_STATUS_A ->
    (forall r, register (dev_outb CMOS_DATA v h) r = if r =? selected h then v else register h r) /\ updating (dev_outb CMOS_DATA v h) = updating h;
  load_law : forall h, selected h <> RTC_STATUS_A -> exists h', dev_inb CMOS_DATA h = (register h (selected h), h') /\
    register h' = register h /\ updating h' = updating h;
  status_law : forall h, selected h = RTC_STATUS_A -> exists v h', dev_inb CMOS_DATA h = (v, h') /\
    Z.land (u8 v) 128 = (if (0 <? updating h)%nat then 128 else 0) /\ register h' = register h /\ updating h' = (updating h - 1)%nat
}.

Section Clock.
Context {H : Type} `{Cmos H}.

Lemma outb_eq p v (h : H) : 0 <= p < 65536 -> byte_ok v -> outb p v h = Some (tt, dev_outb p v h).
Proof. intros Hp Hv. unfold outb, modify. cbn. unfold byte_ok in Hv. by rewrite !wrap_small by lia. Qed.

Lemma inb_eq p v (h h' : H) : 0 <= p < 65536 -> dev_inb p h = (v, h') -> inb p h = Some (u8 v, h').
Proof. intros Hp E. unfold inb. cbn. rewrite wrap_small by lia. by rewrite E. Qed.

Lemma wait_update_ok fuel : forall h : H, (updating h < fuel)%nat ->
  exists h', wait_update fuel h = Some (tt, h') /\ register h' = register h /\ updating h' = 0%nat.
Proof.
  induction fuel as [|fuel IH]; intros h Hu; [lia|]. cbn [wait_update]. unfold cmos_update_in_progress.
  rewrite bind_assoc, (bind_eq _ _ _ _ _ (outb_eq CMOS_ADDRESS RTC_STATUS_A h ltac:(unfold CMOS_ADDRESS; lia) ltac:(done))).
  destruct (select_law h RTC_STATUS_A ltac:(done)) as (E1 & E2 & E3).
  destruct (status_law _ E2) as (v & h' & E & Hb & Hr & Hn). rewrite E3 in *.
  rewrite bind_assoc, (bind_eq _ _ _ _ _ (inb_eq CMOS_DATA v _ h' ltac:(unfold CMOS_DATA; lia) E)), Hb.
  destruct (Nat.ltb_spec 0 (updating h)).
  - change (negb (128 =? 0)) with true. rewrite (bind_eq _ _ _ _ _ eq_refl). destruct (IH h') as (h2 & E' & R' & U'); [lia|].
    exists h2. split; [done|]. split; [|done]. congruence.
  - change (negb (0 =? 0)) with false. rewrite (bind_eq _ _ _ _ _ eq_refl). exists h'. split; [done|]. split; [congruence|lia].
Qed.

Lemma write_cmos_ok r v (h : H) : byte_ok r -> r <> RTC_STATUS_A -> byte_ok v ->
  exists h', write_cmos r v h = Some (tt, h') /\ (forall q, register h' q = if q =? r then v else register h q) /\ updating h' = updating h.
Proof.
  intros Hr Hn Hv. unfold write_cmos. rewrite (bind_eq _ _ _ _ _ (outb_eq CMOS_ADDRESS r h ltac:(unfold CMOS_ADDRESS; lia) Hr)).
  destruct (select_law h r Hr) as (E1 & E2 & E3). destruct (store_law _ v Hv ltac:(by rewrite E2)) as (S1 & S2).
  eexists. split; [apply outb_eq; [unfold CMOS_DATA; lia|done]|]. split; [|congruence]. intros q. by rewrite S1, E2, E1.
Qed.

Lemma read_cmos_ok r (h : H) : byte_ok r -> r <> RTC_STATUS_A ->
  exists h', readFromCMOS r h = Some (u8 (register h r), h') /\ register h' = register h.
Proof.
  intros Hr Hn. unfold readFromCMOS. rewrite (bind_eq _ _ _ _ _ (outb_eq CMOS_ADDRESS r h ltac:(unfold CMOS_ADDRESS; lia) Hr)).
  destruct (select_law h r Hr) as (E1 & E2 & E3). destruct (load_law (dev_outb CMOS_ADDRESS r h)) as (h' & E & R & _); [by rewrite E2|].
  exists h'. rewrite E1, E2 in *. split; [|congruence]. by apply inb_eq; [unfold CMOS_DATA; lia|].
Qed.
End Clock.

Ltac cmos_write h := match goal with |- context [(write_cmos ?r ?v ≫= _) h] =>
  let x := fresh "h" in let E := fresh "E" in let R := fresh "R" in let U := fresh "U" in
  destruct (write_cmos_ok r v h ltac:(done) ltac:(done) ltac:(by apply bcd_roundtrip; zlia)) as (x & E & R & U); rewrite (bind_eq _ _ _ _ _ E) end.

Section Dates.
Context {H : Type} `{Cmos H}.

Lemma write_date_ok fuel y m d (h : H) : (updating h < fuel)%nat -> 0 <= y < 10000 -> 0 <= m < 100 -> 0 <= d < 100 ->
  exists h', write_date fuel y m d h = Some (tt, h') /\ updating h' = 0%nat /\
    register h' RTC_YEAR = bin_to_bcd (y mod 100) /\ register h' RTC_CENTURY = bin_to_bcd (y / 100) /\
    register h' RTC_MONTH = bin_to_bcd m /\ register h' RTC_DAY_OF_MONTH = bin_to_bcd d.
Proof.
  intros Hf Hy Hm Hd. unfold write_date. destruct (wait_update_ok fuel h Hf) as (h0 & E0 & R0 & U0). rewrite (bind_eq _ _ _ _ _ E0).
  rewrite Z.rem_mod_nonneg, Z.quot_div_nonneg by lia. assert (0 <= y / 100 < 100) by zlia.
  cmos_write h0. cmos_write h1. cmos_write h2.
  destruct (write_cmos_ok RTC_DAY_OF_MONTH (bin_to_bcd d) h3 ltac:(done) ltac:(done) ltac:(by apply bcd_roundtrip)) as (h4 & E4 & R4 & U4).
  exists h4. split; [done|]. split; [congruence|]. rewrite !R4, !R2, !R1, !R. done.
Qed.

(** Setting the date and reading it back gives the same date, for every year before
    10000, when the clock stands still; the waiting loops end after the update in progress. *)
Theorem date_write_read (fuel : nat) (y m d : Z) (h : H) :
  (updating h < fuel)%nat -> 0 <= y < 10000 -> 0 <= m < 100 -> 0 <= d < 100 ->
  exists h1 h2, write_date fuel y m d h = Some (tt, h1) /\ read_date fuel h1 = Some ((y, m, d), h2).
Proof.
  intros Hf Hy Hm Hd. destruct (write_date_ok fuel y m d h Hf Hy Hm Hd) as (h1 & E & U1 & Ry & Rc & Rm & Rd). assert (0 <= y / 100 < 100) as Hc by zlia.
  destruct (wait_update_ok fuel h1 ltac:(lia)) as (h2 & E2 & R2 & _).
  destruct (read_cmos_ok RTC_YEAR h2 ltac:(done) ltac:(done)) as (h3 & E3 & R3). destruct (read_cmos_ok RTC_CENTURY h3 ltac:(done) ltac:(done)) as (h4 & E4 & R4).
  destruct (read_cmos_ok RTC_MONTH h4 ltac:(done) ltac:(done)) as (h5 & E5 & R5). destruct (read_cmos_ok RTC_DAY_OF_MONTH h5 ltac:(done) ltac:(done)) as (h6 & E6 & R6).
  exists h1, h6. split; [done|]. unfold read_date.
  rewrite (bind_eq _ _ _ _ _ E2), (bind_eq _ _ _ _ _ E3), (bind_eq _ _ _ _ _ E4), (bind_eq _ _ _ _ _ E5), (bind_eq _ _ _ _ _ E6).
  rewrite R5, R4, R3, R2, Ry, Rc, Rm, Rd. pose proof (Z.mod_pos_bound y 100 ltac:(lia)) as Hmod.
  assert (forall v, 0 <= v < 100 -> u8 (bin_to_bcd v) = bin_to_bcd v) as Hu by (intros v Hv; destruct (bcd_roundtrip v Hv) as [_ Hb]; unfold byte_ok in Hb; apply wrap_small; lia).
  rewrite !Hu by lia. rewrite !(fun v Hv => proj1 (bcd_roundtrip v Hv)) by lia.
  replace (y mod 100 + y / 100 * 100) with y by zlia. done.
Qed.
End Dates.

(** ** A clock to try the driver on *)

Record clock := Mk_clock { c_regs : Z -> Z; c_sel : Z; c_upd : nat }.

#[global] Instance clock_ports : Ports clock := {|
  dev_inb p h := if p =? 113 then (if c_sel h =? 10 then (if (0 <? c_upd h)%nat then 128 else 0, Mk_clock (c_regs h) (c_sel h) (c_upd h - 1))
                                   else (c_regs h (c_sel h), h)) else (0, h);
  dev_outb p v h := if p =? 112 then Mk_clock (c_regs h) v (c_upd h)
                    else if p =? 113 then Mk_clock (fun r => if r =? c_sel h then v else c_regs h r) (c_sel h) (c_upd h) else h;
  dev_insw _ n h := (replicate (2 * n) 0, h); dev_outsw _ _ h := h; dev_delay _ h := h
|}.

#[global, refine] Instance clock_cmos : Cmos clock := {| register := c_regs; selected := c_sel; updating := c_upd |}.
Proof.
  - done.
  - done.
  - intros h Hs. cbn. destruct (Z.eqb_spec (c_sel h) 10); [done|]. by exists h.
  - intros h Hs. cbn. rewrite Hs. cbn. eexists _, _. split; [done|]. by destruct (c_upd h).
Defined.

Lemma date_write_read_witness :
  exists h1 h2, write_date 5 2024 2 29 (Mk_clock (fun _ => 0) 0 3) = Some (tt, h1) /\ read_date 5 h1 = Some ((2024, 2, 29), h2).
Proof. apply (date_write_read 5 2024 2 29 (Mk_clock (fun _ => 0) 0 3)); cbn; lia. Defined.
