(* ===== verification/Cpu.v ===== *)
(** arch/x86/cpu (gdt.c, idt.c, tss.c, irq.c, isr.c with the stubs of irq.asm and isr.asm)
    and kernel/syscall/syscall_table.c: descriptor tables, interrupts, exceptions and
    system calls.

    [cpu] is the tables in memory, the registers that say where they are, and the
    hardware with its two interrupt controllers.  [vector] is what the processor does on
    an interrupt: it reads the gate, the code segment it names, and enters the stub.
    Addresses of variables and of code are parameters; the functions that interrupt
    handlers and system calls run are parameters too. *)

From stdpp Require Import strings.
From S2P Require Import Prelude CString CStdio Vfs Effects Ports.

(** ** Data *)

Record gdt_entry := Mk_gdt_entry { limit_low : Z; base_low : Z; base_middle : Z; access : Z; granularity : Z; base_high : Z }.
(** [struct gdt_ptr] and [struct idt_ptr]. *)
Record table_ptr := Mk_table_ptr { t_limit : Z; t_base : Z }.
Record idt_entry := Mk_idt_entry { offset_low : Z; selector : Z; zero : Z; type_attr : Z; offset_high : Z }.

Record tss_entry_t := Mk_tss {
  tss_prev_tss : Z; tss_esp0 : Z; tss_ss0 : Z; tss_esp1 : Z; tss_ss1 : Z; tss_esp2 : Z; tss_ss2 : Z; tss_cr3 : Z;
  tss_eip : Z; tss_eflags : Z; tss_eax : Z; tss_ecx : Z; tss_edx : Z; tss_ebx : Z; tss_esp : Z; tss_ebp : Z; tss_esi : Z; tss_edi : Z;
  tss_es : Z; tss_cs : Z; tss_ss : Z; tss_ds : Z; tss_fs : Z; tss_gs : Z; tss_ldt : Z; tss_trap : Z; tss_iomap_base : Z
}.
(** 25 words of four bytes and two of two. *)
Definition sizeof_tss : Z := 104.
Definition sizeof_gdt_entry : Z := 8.
Definition sizeof_idt_entry : Z := 8.
Definition NUM_IDT_ENTRIES : Z := 256.

Record Registers := Mk_registers {
  r_gs : Z; r_fs : Z; r_es : Z; r_ds : Z; r_edi : Z; r_esi : Z; r_ebp : Z; r_esp : Z; r_ebx : Z; r_edx : Z; r_ecx : Z; r_eax : Z;
  r_irq_number : Z; r_error_code : Z; r_eip : Z; r_cs : Z; r_eflags : Z; r_useresp : Z; r_ss : Z
}.

(** The function pointers in [exception_handlers]; the array is zero at first. *)
Inductive exception_handler := no_handler | generic_exception | divide_by_zero.
(** How an exception handler ends: in [panic] with a message, or in an endless loop after
    a text on the console.  None of them returns. *)
Inductive ending := Panics (message : buf) | Hangs (printed : buf).
(** The code behind a gate: the stubs of irq.asm, isr.asm and syscall.asm. *)
Inductive stub := Irq_stub (n : Z) | Isr_stub (n : Z) | Page_fault_stub | Syscall_stub.
(** The functions in [syscall_table]. *)
Inductive kernel_function :=
  | f_display_putchar | f_kernel_print_number | f_pit_delay | f_kb_wait_enter | f_k_malloc | f_k_free | f_k_realloc | f_getchar
  | f_register_interrupt_handler.

Record cpu (H : Type) := Mk_cpu {
  gdt : list gdt_entry; gp : table_ptr; idt : list idt_entry; idtp : table_ptr; kernel_tss : tss_entry_t;
  irq_routines : list Z; exception_handlers : list exception_handler;
  gdtr : table_ptr; idtr : table_ptr; tr : Z;
  cpu_hw : H
}.
Arguments Mk_cpu {H}. Arguments gdt {H}. Arguments gp {H}. Arguments idt {H}. Arguments idtp {H}. Arguments kernel_tss {H}.
Arguments irq_routines {H}. Arguments exception_handlers {H}. Arguments gdtr {H}. Arguments idtr {H}. Arguments tr {H}. Arguments cpu_hw {H}.

Section Updates.
Context {H : Type}.
Implicit Types c : cpu H.
Definition with_gdt c g : cpu H := Mk_cpu g (gp c) (idt c) (idtp c) (kernel_tss c) (irq_routines c) (exception_handlers c) (gdtr c) (idtr c) (tr c) (cpu_hw c).
Definition with_gp c p : cpu H := Mk_cpu (gdt c) p (idt c) (idtp c) (kernel_tss c) (irq_routines c) (exception_handlers c) (gdtr c) (idtr c) (tr c) (cpu_hw c).
Definition with_idt c i : cpu H := Mk_cpu (gdt c) (gp c) i (idtp c) (kernel_tss c) (irq_routines c) (exception_handlers c) (gdtr c) (idtr c) (tr c) (cpu_hw c).
Definition with_idtp c p : cpu H := Mk_cpu (gdt c) (gp c) (idt c) p (kernel_tss c) (irq_routines c) (exception_handlers c) (gdtr c) (idtr c) (tr c) (cpu_hw c).
Definition with_tss c t : cpu H := Mk_cpu (gdt c) (gp c) (idt c) (idtp c) t (irq_routines c) (exception_handlers c) (gdtr c) (idtr c) (tr c) (cpu_hw c).
Definition with_routines c l : cpu H := Mk_cpu (gdt c) (gp c) (idt c) (idtp c) (kernel_tss c) l (exception_handlers c) (gdtr c) (idtr c) (tr c) (cpu_hw c).
Definition with_handlers c l : cpu H := Mk_cpu (gdt c) (gp c) (idt c) (idtp c) (kernel_tss c) (irq_routines c) l (gdtr c) (idtr c) (tr c) (cpu_hw c).
Definition with_gdtr c p : cpu H := Mk_cpu (gdt c) (gp c) (idt c) (idtp c) (kernel_tss c) (irq_routines c) (exception_handlers c) p (idtr c) (tr c) (cpu_hw c).
Definition with_idtr c p : cpu H := Mk_cpu (gdt c) (gp c) (idt c) (idtp c) (kernel_tss c) (irq_routines c) (exception_handlers c) (gdtr c) p (tr c) (cpu_hw c).
Definition with_tr c x : cpu H := Mk_cpu (gdt c) (gp c) (idt c) (idtp c) (kernel_tss c) (irq_routines c) (exception_handlers c) (gdtr c) (idtr c) x (cpu_hw c).
Definition with_cpu_hw c h : cpu H := Mk_cpu (gdt c) (gp c) (idt c) (idtp c) (kernel_tss c) (irq_routines c) (exception_handlers c) (gdtr c) (idtr c) (tr c) h.
End Updates.

#[global] Instance cpu_machine H : Machine (cpu H) H := {| hw := cpu_hw; with_hw := with_cpu_hw |}.

(** Array elements by a C index: outside of the array is undefined. *)
Definition at_index {X} (l : list X) (i : Z) : option X := if 0 <=? i then l !! Z.to_nat i else None.
Definition put_index {X} (l : list X) (i : Z) (x : X) : option (list X) :=
  match at_index l i with Some _ => Some (<[Z.to_nat i := x]> l) | None => None end.

(** ** Descriptors, as the processor reads them *)

Definition seg_base (e : gdt_entry) : Z := base_low e + 2 ^ 16 * base_middle e + 2 ^ 24 * base_high e.
Definition seg_limit (e : gdt_entry) : Z :=
  let l := limit_low e + 2 ^ 16 * (granularity e mod 16) in if Z.testbit (granularity e) 7 then l * 4096 + 4095 else l.
Definition seg_dpl (e : gdt_entry) : Z := access e / 32 mod 4.
(** A present code segment. *)
Definition seg_code (e : gdt_entry) : bool := Z.testbit (access e) 7 && Z.testbit (access e) 4 && Z.testbit (access e) 3.
Definition gate_offset (e : idt_entry) : Z := offset_low e + 2 ^ 16 * offset_high e.
(** A present 32-bit interrupt gate. *)
Definition gate_valid (e : idt_entry) : bool := Z.land (type_attr e) 159 =? 142.

Section Tables.
Context {H : Type} `{Ports H} (gdt_addr idt_addr tss_addr : Z).
Abbreviation A := (M (cpu H)).

(** ** tss.c *)

Definition zero_tss : tss_entry_t := Mk_tss 0 0 0 0 0 0 0 0 0 0 0 0 0 0 0 0 0 0 0 0 0 0 0 0 0 0 0.
Definition tss_init (kernel_stack kernel_ss : Z) : A unit :=
  modify (fun c => with_tss c (Mk_tss 0 kernel_stack kernel_ss 0 0 0 0 0 0 0 0 0 0 0 0 0 0 0 0 0 0 0 0 0 0 0 sizeof_tss)).
Definition tss_set_kernel_stack (kernel_stack : Z) : A unit :=
  modify (fun c => let t := kernel_tss c in with_tss c
    (Mk_tss (tss_prev_tss t) kernel_stack (tss_ss0 t) (tss_esp1 t) (tss_ss1 t) (tss_esp2 t) (tss_ss2 t) (tss_cr3 t) (tss_eip t) (tss_eflags t)
       (tss_eax t) (tss_ecx t) (tss_edx t) (tss_ebx t) (tss_esp t) (tss_ebp t) (tss_esi t) (tss_edi t) (tss_es t) (tss_cs t) (tss_ss t) (tss_ds t)
       (tss_fs t) (tss_gs t) (tss_ldt t) (tss_trap t) (tss_iomap_base t))).
Definition tss_get_base : Z := u32 tss_addr.
Definition tss_get_limit : Z := sizeof_tss - 1.

(** ** gdt.c *)

Definition gdt_set_gate (num base limit access gran : Z) : A unit :=
  g ← gets gdt;
  g ← lift (put_index g num
        (Mk_gdt_entry (u16 (Z.land limit 65535)) (u16 (Z.land base 65535)) (u8 (Z.land (Z.shiftr base 16) 255)) (u8 access)
           (u8 (Z.lor (u8 (Z.land (Z.shiftr limit 16) 15)) (Z.land gran 240))) (u8 (Z.land (Z.shiftr base 24) 255))));
  modify (fun c => with_gdt c g).

(** [lgdt], and the reload of the segment registers with the selectors 0x10 and 0x08. *)
Definition gdt_flush : A unit := modify (fun c => with_gdtr c (gp c)).
(** [ltr]: the descriptor must be an available TSS, and it becomes busy. *)
Definition tss_flush (sel : Z) : A unit :=
  g ← gets gdt;
  e ← lift (at_index g (sel / 8));
  if (access e =? 137) && (sel mod 8 =? 0) then
    g ← lift (put_index g (sel / 8) (Mk_gdt_entry (limit_low e) (base_low e) (base_middle e) (Z.lor (access e) 2) (granularity e) (base_high e)));
    modify (fun c => with_tr (with_gdt c g) sel)
  else undef.

Definition gdt_install : A unit :=
  _ ← modify (fun c => with_gp c (Mk_table_ptr (u16 (sizeof_gdt_entry * 6 - 1)) (u32 gdt_addr)));
  _ ← gdt_set_gate 0 0 0 0 0;
  _ ← gdt_set_gate 1 0 4294967295 154 207;
  _ ← gdt_set_gate 2 0 4294967295 146 207;
  _ ← gdt_set_gate 3 0 4294967295 250 207;
  _ ← gdt_set_gate 4 0 4294967295 242 207;
  let tss_base := tss_get_base in
  let tss_limit := tss_get_limit in
  _ ← gdt_set_gate 5 tss_base tss_limit 137 0;
  _ ← gdt_flush;
  tss_flush 40.

(** ** idt.c *)

Definition set_idt_entry (vector handler : Z) : A unit :=
  i ← gets idt;
  i ← lift (put_index i vector (Mk_idt_entry (u16 (Z.land handler 65535)) 8 0 142 (u16 (Z.land (Z.shiftr handler 16) 65535))));
  modify (fun c => with_idt c i).
Definition idt_load : A unit := modify (fun c => with_idtr c (idtp c)).
Definition idt_install : A unit :=
  _ ← modify (fun c => with_idtp c (Mk_table_ptr (u16 (sizeof_idt_entry * 256 - 1)) (u32 idt_addr)));
  _ ← modify (fun c => with_idt c (replicate 256 (Mk_idt_entry 0 0 0 0 0)));
  idt_load.

(** ** irq.c *)

Definition register_interrupt_handler (irq r : Z) : A unit :=
  l ← gets irq_routines;
  l ← lift (put_index l irq r);
  modify (fun c => with_routines c l).
Definition irq_uninstall_handler (irq : Z) : A unit :=
  l ← gets irq_routines;
  l ← lift (put_index l irq 0);
  modify (fun c => with_routines c l).

Definition irq_remap : A unit :=
  _ ← outb 32 17;
  _ ← outb 160 17;
  _ ← outb 33 32;
  _ ← outb 161 40;
  _ ← outb 33 4;
  _ ← outb 161 2;
  _ ← outb 33 1;
  _ ← outb 161 1;
  _ ← outb 33 0;
  outb 161 0.

(** The functions irq0 .. irq15, isr0 .. isr31 and the two others, by address. *)
Context (irq_at isr_at : Z -> Z) (syscall_handler_asm page_fault_handler_asm : Z).

Definition irq_install : A unit :=
  _ ← irq_remap;
  _ ← for_up 0 16 (fun n => set_idt_entry (32 + n) (irq_at n));
  set_idt_entry 128 syscall_handler_asm.

Context (call : Z -> Registers -> A unit).          (* the function at an address *)

Definition irq_handler (regs : Registers) : A unit :=
  l ← gets irq_routines;
  r ← lift (at_index l (u32 (r_irq_number regs - 32)));
  _ ← (if negb (r =? 0) then call r regs else mret tt);
  _ ← (if 40 <=? r_irq_number regs then outb 160 32 else mret tt);
  outb 32 32.
End Tables.

(** ** isr.c *)

Definition exception_messages : list buf := map lit
  ["Division By Zero"; "Debug"; "Non Maskable Interrupt"; "Breakpoint"; "Into Detected Overflow"; "Out of Bounds"; "Invalid Opcode"; "No Coprocessor";
   "Double Fault"; "Coprocessor Segment Overrun"; "Bad TSS"; "Segment Not Present"; "Stack Fault"; "General Protection Fault"; "Page Fault";
   "Unknown Interrupt"; "Coprocessor Fault"; "Alignment Check"; "Machine Check"; "Reserved"; "Reserved"; "Reserved"; "Reserved"; "Reserved"; "Reserved";
   "Reserved"; "Reserved"; "Reserved"; "Reserved"; "Reserved"; "Reserved"; "Reserved"]%string.

Section Exceptions.
Context (fresh : nat -> buf).

(** Several calls of printf, and what they print. *)
Fixpoint prints (l : list (buf * list va_word)) : option buf :=
  match l with [] => Some [] | (format, args) :: l' => t ← printf format args; t' ← prints l'; Some (t ++ t') end.
Definition nl (s : string) : buf := lit_bytes s ++ [10; 0].

Definition generic_exception_handler (r : Registers) : option ending :=
  let cpl := u16 (Z.land (r_cs r) 3) in
  m ← at_index exception_messages (r_irq_number r);
  if cpl =? 0 then
    panic_msg ← snd <$> snprintf (fresh 128) 128 (lit "Kernel exception: %s (IRQ %d) at EIP=0x%08X") [VStr (Some m); VInt (r_irq_number r); VInt (r_eip r)];
    Some (Panics panic_msg)
  else
    t ← prints [([10] ++ nl "*** USER PROCESS EXCEPTION ***", []); (nl "Exception: %s (IRQ %d)", [VStr (Some m); VInt (r_irq_number r)]);
                (nl "EIP: 0x%08X, CS: 0x%04X (Ring %d)", [VInt (r_eip r); VInt (r_cs r); VInt cpl]);
                (lit_bytes "Process terminated." ++ [10; 10; 0], []); (nl "Warning: Process termination not implemented yet.", [])];
    Some (Hangs t).

(** Returns only for numbers from 32 on. *)
Definition fault_handler (r : Registers) : option (option ending) :=
  if r_irq_number r <? 32 then e ← generic_exception_handler r; Some (Some e) else Some None.

Definition divide_by_zero_handler (r : Registers) : option ending :=
  let cpl := u16 (Z.land (r_cs r) 3) in
  if cpl =? 0 then
    panic_msg ← snd <$> snprintf (fresh 128) 128 (lit "Kernel divide by zero at EIP=0x%08X") [VInt (r_eip r)];
    Some (Panics panic_msg)
  else
    t ← prints [([10] ++ nl "*** USER PROCESS ERROR ***", []); (nl "Divide by zero exception at EIP=0x%08X", [VInt (r_eip r)]);
                (lit_bytes "Process terminated." ++ [10; 10; 0], []); (nl "Warning: Process termination not implemented yet.", [])];
    Some (Hangs t).

(** [faulting_address] is CR2, [error_code] the word at 4(%ebp), [cs] the code segment in
    which the handler itself runs. *)
Definition page_fault_handler (faulting_address error_code cs : Z) : option ending :=
  let cpl := u16 (Z.land cs 3) in
  if cpl =? 0 then
    panic_msg ← snd <$> snprintf (fresh 128) 128 (lit "Kernel page fault at address 0x%08X (error code: 0x%X)") [VInt faulting_address; VInt error_code];
    Some (Panics panic_msg)
  else
    t ← prints [([10] ++ nl "*** USER PROCESS PAGE FAULT ***", []); (nl "Faulting address: 0x%08X", [VInt faulting_address]);
                (lit "Error code: 0x%X ", [VInt error_code]); (lit "(", []);
                (lit (if Z.testbit error_code 0 then "protection violation" else "page not present"), []);
                (lit (if Z.testbit error_code 1 then ", write" else ", read"), []);
                (lit (if Z.testbit error_code 2 then ", user mode" else ", kernel mode"), []);
                (nl ")", []); (lit_bytes "Process terminated." ++ [10; 10; 0], []); (nl "Warning: Process termination not implemented yet.", [])];
    Some (Hangs t).
End Exceptions.

Section Vectors.
Context {H : Type} `{Ports H} (fresh : nat -> buf) (irq_at isr_at : Z -> Z) (syscall_handler_asm page_fault_handler_asm : Z).
Abbreviation A := (M (cpu H)).

Definition setup_exceptions : A unit :=
  _ ← for_up 1 31 (fun i =>
        l ← gets exception_handlers;
        l ← lift (put_index l i generic_exception);
        modify (fun c => with_handlers c l));
  l ← gets exception_handlers;
  l ← lift (put_index l 0 divide_by_zero);
  modify (fun c => with_handlers c l).

Definition exception_dispatcher (state : Registers) : A ending :=
  if r_irq_number state <? 32 then
    l ← gets exception_handlers;
    f ← lift (at_index l (r_irq_number state));
    match f with
    | no_handler => undef
    | generic_exception => lift (generic_exception_handler fresh state)
    | divide_by_zero => lift (divide_by_zero_handler fresh state)
    end
  else lift (generic_exception_handler fresh state).

Definition isr_install : A unit :=
  _ ← for_up 0 14 (fun n => set_idt_entry n (isr_at n));
  _ ← for_up 15 17 (fun n => set_idt_entry n (isr_at n));
  _ ← set_idt_entry 14 page_fault_handler_asm;
  setup_exceptions.

(** ** syscall_table.c *)

Definition SYS_MALLOC : Z := 4.
Definition SYS_FREE : Z := 5.
Definition SYS_REALLOC : Z := 6.
Definition SYS_TERMINAL_GETCHAR : Z := 7.
Definition SYS_INSTALL_IRQ : Z := 8.

Definition syscall_table : list (option kernel_function) :=
  [Some f_display_putchar; Some f_kernel_print_number; Some f_pit_delay; Some f_kb_wait_enter; Some f_k_malloc; Some f_k_free; Some f_k_realloc;
   Some f_getchar; Some f_register_interrupt_handler] ++ replicate 503 None.

Definition kernel_hello : option buf := printf (nl "Hello from the kernel. All engines running.") [].
Definition kernel_print_number (number : Z) : option buf := printf (nl "Kernel received number: %d") [VInt number].

(** The registers hold [int] values; [invoke] runs a function of another part with the
    arguments the call passes.  The result is the text of an error message. *)
Context (invoke : kernel_function -> list Z -> A unit).

Definition run_function (f : kernel_function) (args : list Z) : A unit :=
  match f, args with
  | f_register_interrupt_handler, [irq; r] => register_interrupt_handler irq r
  | _, _ => invoke f args
  end.

Definition syscall_handler (eax ebx ecx edx : Z) : A buf :=
  let syscall_index := s32 eax in
  let arg1 := s32 ebx in
  let arg2 := s32 ecx in
  match at_index syscall_table syscall_index with
  | Some (Some f) =>
      if (syscall_index =? 0) || (syscall_index =? 3) || (syscall_index =? SYS_FREE) then _ ← run_function f []; mret []
      else if (syscall_index =? 1) || (syscall_index =? 2) || (syscall_index =? SYS_MALLOC) then _ ← run_function f [u32 arg1]; mret []
      else if syscall_index =? SYS_REALLOC then _ ← run_function f [u32 arg1; u32 arg2]; mret []
      else if syscall_index =? SYS_INSTALL_IRQ then _ ← run_function f [arg1; u32 arg2]; mret []
      else if syscall_index =? SYS_TERMINAL_GETCHAR then _ ← run_function f []; mret []
      else lift (printf (nl "Unknown syscall index: %d") [VInt syscall_index])
  | _ => lift (printf (nl "Invalid syscall index: %d") [VInt syscall_index])
  end.

(** ** The processor *)

Context (idt_addr gdt_addr : Z) (code_at : Z -> option stub) (call : Z -> Registers -> A unit).

(** The gate of a vector, when the table register points to the table and covers it, and
    the code segment is in the descriptor table. *)
Definition gate_of (c : cpu H) (v : Z) : option idt_entry :=
  if (t_base (idtr c) =? u32 idt_addr) && (8 * v + 7 <=? t_limit (idtr c)) then
    e ← at_index (idt c) v;
    if gate_valid e && (t_base (gdtr c) =? u32 gdt_addr) && (selector e + 7 <=? t_limit (gdtr c)) then
      g ← at_index (gdt c) (selector e / 8);
      if seg_code g && (seg_base g =? 0) && (gate_offset e <=? seg_limit g) then Some e else None
    else None
  else None.

(** The frame that the stub [isr]n leaves for the handler.  The processor pushes an error
    code for the exceptions [cpu_pushes_code]; the stubs push a zero for all but six.
    Where both push, every field from the error code on is one word off. *)
Definition cpu_pushes_code (n : Z) : bool := existsb (Z.eqb n) [8; 10; 11; 12; 13; 14; 17].
Definition stub_pushes_code (n : Z) : bool := negb (existsb (Z.eqb n) [8; 10; 11; 12; 13; 14]).
Definition isr_frame (n : Z) (r : Registers) : Registers :=
  let frame := Mk_registers (r_gs r) (r_fs r) (r_es r) (r_ds r) (r_edi r) (r_esi r) (r_ebp r) (r_esp r) (r_ebx r) (r_edx r) (r_ecx r) (r_eax r) n in
  if negb (stub_pushes_code n) then frame (r_error_code r) (r_eip r) (r_cs r) (r_eflags r) (r_useresp r) (r_ss r)
  else if cpu_pushes_code n then frame 0 (r_error_code r) (r_eip r) (r_cs r) (r_eflags r) (r_useresp r)
  else frame 0 (r_eip r) (r_cs r) (r_eflags r) (r_useresp r) (r_ss r).
Definition irq_frame (n : Z) (r : Registers) : Registers :=
  Mk_registers (r_gs r) (r_fs r) (r_es r) (r_ds r) (r_edi r) (r_esi r) (r_ebp r) (r_esp r) (r_ebx r) (r_edx r) (r_ecx r) (r_eax r)
    (32 + n) 0 (r_eip r) (r_cs r) (r_eflags r) (r_useresp r) (r_ss r).

(** An interrupt or exception: [None] inside is a return to the interrupted code.  [cr2]
    and [ret] are what the page fault handler reads. *)
Definition vector (v : Z) (r : Registers) (cr2 ret : Z) : A (option ending) :=
  c ← gets id;
  e ← lift (gate_of c v);
  s ← lift (code_at (gate_offset e));
  match s with
  | Irq_stub n => _ ← irq_handler call (irq_frame n r); mret None
  | Isr_stub n => e ← exception_dispatcher (isr_frame n r); mret (Some e)
  | Page_fault_stub => e ← lift (page_fault_handler fresh cr2 ret (selector e)); mret (Some e)
  | Syscall_stub => _ ← syscall_handler (r_eax r) (r_ebx r) (r_ecx r) (r_edx r); mret None
  end.
End Vectors.

(** ** The interrupt controllers

    The 8259 as the code uses it: the four initialization words, the mask, and the
    non-specific end of interrupt.  [next] is the word that the data port expects, 0 when
    the chip is operating. *)

Record pic := Mk_pic { p_next : Z; p_vector : Z; p_cascade : Z; p_mode : Z; p_mask : Z; p_service : Z }.

(** The lowest set bit: the line of the highest priority in service. *)
Fixpoint lowest_bit (n : nat) (i x : Z) : option Z :=
  match n with O => None | S n' => if Z.testbit x i then Some i else lowest_bit n' (i + 1) x end.
Definition end_service (x : Z) : Z := match lowest_bit 8 0 x with Some i => Z.clearbit x i | None => x end.

Definition pic_command (v : Z) (p : pic) : pic :=
  if Z.testbit v 4 then Mk_pic 2 (p_vector p) (p_cascade p) (p_mode p) 0 0
  else if v =? 32 then Mk_pic (p_next p) (p_vector p) (p_cascade p) (p_mode p) (p_mask p) (end_service (p_service p))
  else p.
Definition pic_data (v : Z) (p : pic) : pic :=
  if p_next p =? 2 then Mk_pic 3 (Z.land v 248) (p_cascade p) (p_mode p) (p_mask p) (p_service p)
  else if p_next p =? 3 then Mk_pic 4 (p_vector p) v (p_mode p) (p_mask p) (p_service p)
  else if p_next p =? 4 then Mk_pic 0 (p_vector p) (p_cascade p) v (p_mask p) (p_service p)
  else Mk_pic (p_next p) (p_vector p) (p_cascade p) (p_mode p) v (p_service p).
Definition pics_out (port v : Z) (p : pic * pic) : pic * pic :=
  let '(m, s) := p in
  if port =? 32 then (pic_command v m, s) else if port =? 33 then (pic_data v m, s)
  else if port =? 160 then (m, pic_command v s) else if port =? 161 then (m, pic_data v s) else (m, s).

(** One chip answers for its line unless it is masked or a line of the same or a higher
    priority is in service. *)
Definition pic_ack (line : Z) (p : pic) : option (Z * pic) :=
  if (p_next p =? 0) && negb (Z.testbit (p_mask p) line) &&
     match lowest_bit 8 0 (p_service p) with Some i => line <? i | None => true end
  then Some (p_vector p + line, Mk_pic 0 (p_vector p) (p_cascade p) (p_mode p) (p_mask p) (Z.setbit (p_service p) line)) else None.
(** Lines 8 to 15 are those of the second chip, which is connected to line 2 of the first. *)
Definition pics_ack (line : Z) (p : pic * pic) : option (Z * (pic * pic)) :=
  let '(m, s) := p in
  if line <? 8 then '(v, m) ← pic_ack line m; Some (v, (m, s))
  else if Z.testbit (p_cascade m) 2 && (p_cascade s =? 2) then
    '(_, m) ← pic_ack 2 m; '(v, s) ← pic_ack (line - 8) s; Some (v, (m, s))
  else None.

(** Hardware with two such chips at the ports of a PC; [dev_ack] is the cycle in which
    the processor asks for the vector. *)
Class PicDevice (H : Type) `{Ports H} := {
  pics : H -> pic * pic;
  dev_ack : Z -> H -> option (Z * H);
  pics_written : forall port v h, 0 <= v < 256 -> pics (dev_outb port v h) = pics_out port v (pics h);
  pics_acked : forall line h, match dev_ack line h with
                              | Some (v, h') => pics_ack line (pics h) = Some (v, pics h')
                              | None => pics_ack line (pics h) = None
                              end
}.

(** * Properties *)

Lemma at_index_nat {X} (l : list X) (i : nat) : at_index l (Z.of_nat i) = l !! i.
Proof. unfold at_index. destruct (Z.leb_spec 0 (Z.of_nat i)); [|lia]. by rewrite Nat2Z.id. Qed.

Lemma at_index_in {X} (l : list X) (i : Z) : 0 <= i < Z.of_nat (length l) -> exists x, at_index l i = Some x.
Proof. intros Hi. unfold at_index. destruct (Z.leb_spec 0 i); [|lia]. apply lookup_lt_is_Some. lia. Qed.

Lemma put_index_in {X} (l : list X) (i : Z) x : 0 <= i < Z.of_nat (length l) -> put_index l i x = Some (<[Z.to_nat i := x]> l).
Proof. intros Hi. unfold put_index. by destruct (at_index_in l i Hi) as [y ->]. Qed.

Lemma at_index_insert {X} (l : list X) (i j : Z) x : 0 <= i < Z.of_nat (length l) ->
  at_index (<[Z.to_nat i := x]> l) j = if j =? i then Some x else at_index l j.
Proof.
  intros Hi. unfold at_index. destruct (Z.eqb_spec j i) as [->|].
  - destruct (Z.leb_spec 0 i); [|lia]. apply list_lookup_insert_eq. lia.
  - destruct (Z.leb_spec 0 j); [|done]. apply list_lookup_insert_ne. lia.
Qed.

(** ** Descriptors *)

Definition gdt_gate (base limit access gran : Z) : gdt_entry :=
  Mk_gdt_entry (u16 (Z.land limit 65535)) (u16 (Z.land base 65535)) (u8 (Z.land (Z.shiftr base 16) 255)) (u8 access)
    (u8 (Z.lor (u8 (Z.land (Z.shiftr limit 16) 15)) (Z.land gran 240))) (u8 (Z.land (Z.shiftr base 24) 255)).
Definition idt_gate (handler : Z) : idt_entry := Mk_idt_entry (u16 (Z.land handler 65535)) 8 0 142 (u16 (Z.land (Z.shiftr handler 16) 65535)).

Lemma land_mask x w : 0 <= w -> Z.land x (2 ^ w - 1) = x mod 2 ^ w.
Proof. intros Hw. rewrite <- Z.land_ones by done. by rewrite Z.ones_equiv. Qed.

Lemma granularity_value limit gran : 0 <= limit < 2 ^ 32 -> byte_ok gran ->
  u8 (Z.lor (u8 (Z.land (Z.shiftr limit 16) 15)) (Z.land gran 240)) = gran / 16 * 16 + limit / 2 ^ 16 mod 16.
Proof.
  intros Hl Hg. unfold byte_ok in Hg. change 240 with (Z.shiftl (Z.ones 4) 4). rewrite land_field by lia.
  rewrite Z.shiftr_div_pow2 by lia. change 15 with (2 ^ 4 - 1). rewrite land_mask by lia. change (2 ^ 4) with 16. change (2 ^ 16) with 65536.
  rewrite (wrap_small 8 (_ mod 16)) by (change (2 ^ 8) with 256; zlia). rewrite Z.lor_comm.
  rewrite lor_shiftl_add by (change (2 ^ 4) with 16; zlia). rewrite wrap_small; change (2 ^ 4) with 16; change (2 ^ 8) with 256; zlia.
Qed.

Lemma gdt_gate_decodes base limit acc gran : 0 <= base < 2 ^ 32 -> 0 <= limit < 2 ^ 32 -> byte_ok acc -> byte_ok gran ->
  let e := gdt_gate base limit acc gran in
  seg_base e = base /\ access e = acc /\
  seg_limit e = if Z.testbit gran 7 then limit mod 2 ^ 20 * 4096 + 4095 else limit mod 2 ^ 20.
Proof.
  intros Hb Hl Ha Hg e. pose proof (granularity_value limit gran Hl Hg) as Eg. unfold byte_ok in *.
  assert (access e = acc) as Eacc by (apply wrap_small; lia).
  assert (base_low e = base mod 2 ^ 16) as E1.
  { cbn [base_low e gdt_gate]. change 65535 with (2 ^ 16 - 1). rewrite land_mask by lia. apply Z.mod_mod. lia. }
  assert (base_middle e = base / 2 ^ 16 mod 2 ^ 8) as E2.
  { cbn [base_middle e gdt_gate]. rewrite Z.shiftr_div_pow2 by lia. change 255 with (2 ^ 8 - 1). rewrite land_mask by lia. apply Z.mod_mod. lia. }
  assert (base_high e = base / 2 ^ 24 mod 2 ^ 8) as E3.
  { cbn [base_high e gdt_gate]. rewrite Z.shiftr_div_pow2 by lia. change 255 with (2 ^ 8 - 1). rewrite land_mask by lia. apply Z.mod_mod. lia. }
  assert (limit_low e = limit mod 2 ^ 16) as E4.
  { cbn [limit_low e gdt_gate]. change 65535 with (2 ^ 16 - 1). rewrite land_mask by lia. apply Z.mod_mod. lia. }
  assert (granularity e = gran / 16 * 16 + limit / 2 ^ 16 mod 16) as E5 by exact Eg.
  assert (Z.testbit (granularity e) 7 = Z.testbit gran 7) as E6.
  { rewrite E5, !Z.testbit_odd, !Z.shiftr_div_pow2 by lia. f_equal. change (2 ^ 7) with 128. zlia. }
  split; [|split; [done|]].
  - unfold seg_base. rewrite E1, E2, E3. change (2 ^ 16) with 65536 in *. change (2 ^ 8) with 256. change (2 ^ 24) with 16777216 in *. zlia.
  - unfold seg_limit. rewrite E6, E4. assert (granularity e mod 16 = limit / 2 ^ 16 mod 16) as -> by (rewrite E5; zlia).
    assert (limit mod 2 ^ 16 + 2 ^ 16 * (limit / 2 ^ 16 mod 16) = limit mod 2 ^ 20) as ->; [|done].
    change (2 ^ 16) with 65536. change (2 ^ 20) with 1048576. zlia.
Qed.

Lemma idt_gate_decodes handler : 0 <= handler < 2 ^ 32 -> gate_offset (idt_gate handler) = handler /\ gate_valid (idt_gate handler) = true.
Proof.
  intros Hh. split; [|done]. unfold gate_offset, idt_gate. cbn [offset_low offset_high]. rewrite Z.shiftr_div_pow2 by lia.
  change 65535 with (2 ^ 16 - 1). rewrite !land_mask by lia. rewrite !wrap_small by (apply Z.mod_pos_bound; lia). change (2 ^ 16) with 65536. zlia.
Qed.

(** ** The tables keep their shape *)

(** Every field is within its width, every table has its size. *)
Record gdt_entry_ok (e : gdt_entry) : Prop := Mk_gdt_entry_ok {
  limit_low_ok : 0 <= limit_low e < 2 ^ 16; base_low_ok : 0 <= base_low e < 2 ^ 16; base_middle_ok : byte_ok (base_middle e);
  access_ok : byte_ok (access e); granularity_ok : byte_ok (granularity e); base_high_ok : byte_ok (base_high e)
}.
Record idt_entry_ok (e : idt_entry) : Prop := Mk_idt_entry_ok {
  offset_low_ok : 0 <= offset_low e < 2 ^ 16; selector_ok : 0 <= selector e < 2 ^ 16; zero_ok : byte_ok (zero e);
  type_attr_ok : byte_ok (type_attr e); offset_high_ok : 0 <= offset_high e < 2 ^ 16
}.
Record cpu_ok {H} (c : cpu H) : Prop := Mk_cpu_ok {
  gdt_len : length (gdt c) = 6%nat; gdt_ok : Forall gdt_entry_ok (gdt c);
  idt_len : length (idt c) = 256%nat; idt_ok : Forall idt_entry_ok (idt c);
  routines_len : length (irq_routines c) = 17%nat; handlers_len : length (exception_handlers c) = 32%nat
}.

Lemma gdt_gate_ok base limit acc gran : gdt_entry_ok (gdt_gate base limit acc gran).
Proof. split; cbn [limit_low base_low base_middle access granularity base_high gdt_gate]; by apply wrap_range. Qed.
Lemma idt_gate_ok handler : idt_entry_ok (idt_gate handler).
Proof. split; cbn [offset_low selector zero type_attr offset_high idt_gate]; first [by apply wrap_range | done]. Qed.

Section Typing.
Context {H : Type} `{Ports H}.
Implicit Types c : cpu H.

Definition keeps {X} (m : M (cpu H) X) : Prop := forall c x c', cpu_ok c -> m c = Some (x, c') -> cpu_ok c'.

Lemma keeps_ret {X} (x : X) : keeps (mret x).
Proof. intros c y c' Hc [= _ <-]. done. Qed.
Lemma keeps_undef {X} : keeps (undef (A := X)).
Proof. done. Qed.
Lemma keeps_lift {X} (o : option X) : keeps (lift o).
Proof. intros c x c' Hc E. unfold lift in E. destruct o; [by injection E as _ <-|done]. Qed.
Lemma keeps_gets {X} (f : cpu H -> X) : keeps (gets f).
Proof. intros c x c' Hc [= _ <-]. done. Qed.
Lemma keeps_bind {X Y} (m : M (cpu H) X) (k : X -> M (cpu H) Y) : keeps m -> (forall x, keeps (k x)) -> keeps (m ≫= k).
Proof. intros Hm Hk c y c' Hc E. apply bind_inv in E as (x & c1 & E1 & E2). eapply Hk; [|exact E2]. by eapply Hm. Qed.
Lemma keeps_modify (f : cpu H -> cpu H) : (forall c, cpu_ok c -> cpu_ok (f c)) -> keeps (modify f).
Proof. intros Hf c x c' Hc [= _ <-]. by apply Hf. Qed.
Lemma keeps_for_up n body : (forall i, keeps (body i)) -> forall i, keeps (for_up i n body).
Proof. intros Hb. induction n as [|n IH]; intros i; cbn [for_up]; [apply keeps_ret|]. apply keeps_bind; auto. Qed.

(** A table read, changed at an index and stored. *)
Lemma keeps_update {X} (get : cpu H -> list X) (set : cpu H -> list X -> cpu H) i x :
  (forall c l, cpu_ok c -> l = <[Z.to_nat i := x]> (get c) -> cpu_ok (set c l)) ->
  keeps (l ← gets get; l ← lift (put_index l i x); modify (fun c => set c l)).
Proof.
  intros Hs c y c' Hc E. rewrite gets_bind in E. apply bind_inv in E as (l & c1 & E1 & E2). unfold lift in E1.
  destruct (put_index (get c) i x) as [l'|] eqn:Ep; [|done]. injection E1 as <- <-. injection E2 as _ <-. apply Hs; [done|].
  unfold put_index in Ep. destruct (at_index (get c) i); [by injection Ep as <-|done].
Qed.

Lemma keeps_outb p v : keeps (outb p v).
Proof. apply keeps_modify. intros c []. by split. Qed.
Lemma keeps_gate num base limit acc gran : keeps (gdt_set_gate num base limit acc gran).
Proof. apply keeps_update. intros c l [] ->. split; cbn [gdt idt irq_routines exception_handlers with_gdt]; rewrite ?length_insert; try done. apply Forall_insert; [done|apply gdt_gate_ok]. Qed.
Lemma keeps_entry v h : keeps (set_idt_entry v h).
Proof. apply keeps_update. intros c l [] ->. split; cbn [gdt idt irq_routines exception_handlers with_idt]; rewrite ?length_insert; try done. apply Forall_insert; [done|apply idt_gate_ok]. Qed.
Lemma keeps_routine i r : keeps (register_interrupt_handler i r).
Proof. apply keeps_update. intros c l [] ->. split; cbn [gdt idt irq_routines exception_handlers with_routines]; by rewrite ?length_insert. Qed.
Lemma keeps_handler i f : keeps (l ← gets exception_handlers; l ← lift (put_index l i f); modify (fun c => with_handlers c l)).
Proof. apply keeps_update. intros c l [] ->. split; cbn [gdt idt irq_routines exception_handlers with_handlers]; by rewrite ?length_insert. Qed.

Lemma keeps_tss_flush sel : keeps (tss_flush sel).
Proof.
  intros c x c' Hc E. unfold tss_flush in E. rewrite gets_bind in E. apply bind_inv in E as (e & c1 & E1 & E).
  unfold lift in E1. destruct (at_index (gdt c) (sel / 8)) as [e'|] eqn:Ee; [|done]. injection E1 as -> <-.
  destruct (_ && _); [|done]. unfold put_index in E. rewrite Ee in E. injection E as _ <-.
  assert (gdt_entry_ok e) as He. { unfold at_index in Ee. destruct (0 <=? _); [|done]. destruct Hc as [? Hg ? ? ? ?]. by eapply Forall_lookup_1 in Hg. }
  destruct Hc. split; cbn [gdt idt irq_routines exception_handlers with_gdt with_tr]; rewrite ?length_insert; try done.
  apply Forall_insert; [done|]. destruct He as [? ? ? Ha ? ?]. split; cbn [limit_low base_low base_middle access granularity base_high]; try done.
  unfold byte_ok in *. split; [apply Z.lor_nonneg; lia|]. change 256 with (2 ^ 8). destruct (Z.eq_dec (Z.lor (access e) 2) 0); [lia|].
  apply Z.log2_lt_pow2; [assert (0 <= Z.lor (access e) 2) by (apply Z.lor_nonneg; lia); lia|].
  rewrite Z.log2_lor by lia. destruct (Z.eq_dec (access e) 0) as [->|]; [done|]. assert (Z.log2 (access e) < 8) by (apply Z.log2_lt_pow2; lia). change (Z.log2 2) with 1. lia.
Qed.
End Typing.

Create HintDb keeps.
#[export] Hint Resolve keeps_ret keeps_undef keeps_lift keeps_gets keeps_outb keeps_gate keeps_entry keeps_routine keeps_handler keeps_tss_flush : keeps.
Ltac keeps_step :=
  match goal with
  | |- keeps (if ?b then _ else _) => destruct b
  | |- keeps (match ?x with _ => _ end) => destruct x
  | |- keeps (for_up _ _ _) => apply keeps_for_up; intros
  | |- _ => solve [auto with keeps]
  | |- keeps (modify _) => apply keeps_modify; intros ? []; split; done
  | |- keeps (_ ≫= _) => apply keeps_bind; [|intros]
  end.
Ltac solve_keeps := repeat keeps_step.

(** ** After the set-up *)

Section Boot.
Context {H : Type} `{PicDevice H} (fresh : nat -> buf) (irq_at isr_at : Z -> Z) (syscall_handler_asm page_fault_handler_asm : Z).
Context (idt_addr gdt_addr tss_addr : Z).
Implicit Types c : cpu H.

(** The order of [early_init] in kernel/init/kernel.c. *)
Definition boot_tables (kernel_stack : Z) : M (cpu H) unit :=
  _ ← tss_init kernel_stack 16;
  _ ← gdt_install gdt_addr tss_addr;
  _ ← idt_install idt_addr;
  _ ← isr_install isr_at page_fault_handler_asm;
  irq_install irq_at syscall_handler_asm.

(** What a segment descriptor means to the processor: base, limit, access byte. *)
Definition descriptor (e : gdt_entry) : Z * Z * Z := (seg_base e, seg_limit e, access e).
Definition started_pics : pic * pic := (Mk_pic 0 32 4 1 0 0, Mk_pic 0 40 2 1 0 0).

Record cpu_ready (kernel_stack : Z) c : Prop := Mk_cpu_ready {
  ready_ok : cpu_ok c;
  ready_gdtr : gdtr c = Mk_table_ptr 47 (u32 gdt_addr);
  ready_gdt : map descriptor (gdt c) =
    [(0, 0, 0); (0, 2 ^ 32 - 1, 154); (0, 2 ^ 32 - 1, 146); (0, 2 ^ 32 - 1, 250); (0, 2 ^ 32 - 1, 242); (u32 tss_addr, 103, 139)];
  ready_tr : tr c = 40;
  ready_tss : kernel_tss c = Mk_tss 0 kernel_stack 16 0 0 0 0 0 0 0 0 0 0 0 0 0 0 0 0 0 0 0 0 0 0 0 104;
  ready_idtr : idtr c = Mk_table_ptr 2047 (u32 idt_addr);
  ready_irq : forall n, 0 <= n < 16 -> at_index (idt c) (32 + n) = Some (idt_gate (irq_at n));
  ready_isr : forall n, 0 <= n < 32 -> n <> 14 -> at_index (idt c) n = Some (idt_gate (isr_at n));
  ready_fault : at_index (idt c) 14 = Some (idt_gate page_fault_handler_asm);
  ready_syscall : at_index (idt c) 128 = Some (idt_gate syscall_handler_asm);
  ready_rest : forall v, 48 <= v < 256 -> v <> 128 -> at_index (idt c) v = Some (Mk_idt_entry 0 0 0 0 0);
  ready_handlers : exception_handlers c = divide_by_zero :: replicate 31 generic_exception;
  ready_pics : pics (cpu_hw c) = started_pics
}.

Lemma set_idt_entry_ok v h c : length (idt c) = 256%nat -> 0 <= v < 256 ->
  set_idt_entry v h c = Some (tt, with_idt c (<[Z.to_nat v := idt_gate h]> (idt c))).
Proof. intros Hl Hv. unfold set_idt_entry. rewrite gets_bind. erewrite lift_bind by (apply put_index_in; lia). done. Qed.

Lemma set_entries_ok b (f : Z -> Z) n : forall i c, length (idt c) = 256%nat -> 0 <= b + i -> b + i + Z.of_nat n <= 256 ->
  exists l, for_up i n (fun k => set_idt_entry (b + k) (f k)) c = Some (tt, with_idt c l) /\ length l = 256%nat /\
    (forall v, at_index l v = if (b + i <=? v) && (v <? b + i + Z.of_nat n) then Some (idt_gate (f (v - b))) else at_index (idt c) v).
Proof.
  induction n as [|n IH]; intros i c Hl Hi Hn; cbn [for_up].
  - exists (idt c). split; [by destruct c|]. split; [done|]. intros v. destruct (Z.leb_spec (b + i) v), (Z.ltb_spec v (b + i + Z.of_nat 0)); try done. lia.
  - rewrite (bind_eq _ _ _ _ _ (set_idt_entry_ok (b + i) (f i) c Hl ltac:(lia))).
    destruct (IH (i + 1) (with_idt c (<[Z.to_nat (b + i) := idt_gate (f i)]> (idt c)))) as (l & E & Hl' & Hv); [cbn [idt with_idt]; by rewrite length_insert|lia|lia|].
    exists l. split; [by rewrite E; destruct c|]. split; [done|]. intros v. rewrite Hv. cbn [idt with_idt]. rewrite at_index_insert by lia.
    destruct (Z.leb_spec (b + (i + 1)) v), (Z.ltb_spec v (b + (i + 1) + Z.of_nat n)), (Z.leb_spec (b + i) v), (Z.ltb_spec v (b + i + Z.of_nat (S n))), (Z.eqb_spec v (b + i)); cbn [andb]; try lia; try done.
    subst v. do 3 f_equal. lia.
Qed.

Lemma gdt_set_gate_ok n base limit acc gran c : length (gdt c) = 6%nat -> 0 <= n < 6 ->
  gdt_set_gate n base limit acc gran c = Some (tt, with_gdt c (<[Z.to_nat n := gdt_gate base limit acc gran]> (gdt c))).
Proof. intros Hl Hn. unfold gdt_set_gate. rewrite gets_bind. erewrite lift_bind by (apply put_index_in; lia). done. Qed.

Lemma tss_flush_ok b g6 c : gdt c = g6 ++ [gdt_gate b 103 137 0] -> length g6 = 5%nat ->
  tss_flush 40 c = Some (tt, with_tr (with_gdt c (g6 ++ [let e := gdt_gate b 103 137 0 in
    Mk_gdt_entry (limit_low e) (base_low e) (base_middle e) 139 (granularity e) (base_high e)])) 40).
Proof.
  intros E Hl. do 5 (destruct g6 as [|? g6]; [done|]). destruct g6; [|done]. cbn [app] in *.
  unfold tss_flush. rewrite gets_bind, E. erewrite lift_bind by reflexivity. change (access (gdt_gate b 103 137 0)) with 137. reflexivity.
Qed.

Lemma gdt_install_ok kernel_stack c : cpu_ok c ->
  exists c', (tss_init kernel_stack 16 ≫= fun _ => gdt_install gdt_addr tss_addr) c = Some (tt, c') /\
    gdtr c' = Mk_table_ptr 47 (u32 gdt_addr) /\ tr c' = 40 /\
    kernel_tss c' = Mk_tss 0 kernel_stack 16 0 0 0 0 0 0 0 0 0 0 0 0 0 0 0 0 0 0 0 0 0 0 0 104 /\
    map descriptor (gdt c') =
      [(0, 0, 0); (0, 2 ^ 32 - 1, 154); (0, 2 ^ 32 - 1, 146); (0, 2 ^ 32 - 1, 250); (0, 2 ^ 32 - 1, 242); (u32 tss_addr, 103, 139)] /\
    length (gdt c') = 6%nat /\ idt c' = idt c /\ irq_routines c' = irq_routines c /\ exception_handlers c' = exception_handlers c /\ cpu_hw c' = cpu_hw c.
Proof.
  intros [Hg _ _ _ _ _]. destruct c as [g p i ip t rs hs gr ir r h]. cbn [gdt] in Hg.
  do 6 (destruct g as [|? g]; [done|]). destruct g; [|done].
  unfold tss_init. rewrite modify_bind. unfold gdt_install. rewrite modify_bind.
  do 6 (erewrite bind_eq by (apply gdt_set_gate_ok; [reflexivity|lia])). cbv zeta.
  unfold gdt_flush. rewrite modify_bind.
  erewrite (tss_flush_ok (tss_get_base tss_addr) [_; _; _; _; _]) by reflexivity.
  eexists. split; [reflexivity|]. split; [done|]. split; [done|]. split; [done|]. split; [|repeat split].
  cbn [gdt with_tr with_gdt with_gdtr map app]. repeat (apply f_equal2; [reflexivity|]). apply f_equal2; [|done].
  pose proof (wrap_range 32 tss_addr ltac:(lia)) as Hb.
  destruct (gdt_gate_decodes (u32 tss_addr) 103 137 0) as (Eb & Ea & El); [lia|lia|done|done|].
  unfold descriptor. apply f_equal2; [apply f_equal2|]; [exact Eb|exact El|done].
Qed.

Lemma irq_remap_ok c : exists h, irq_remap c = Some (tt, with_cpu_hw c h) /\ pics h = started_pics.
Proof.
  eexists. split; [reflexivity|]. cbn [hw with_hw cpu_machine cpu_hw with_cpu_hw]. rewrite !pics_written by done. by destruct (pics (cpu_hw c)) as [[] []].
Qed.

Lemma setup_exceptions_ok c : length (exception_handlers c) = 32%nat ->
  setup_exceptions c = Some (tt, with_handlers c (divide_by_zero :: replicate 31 generic_exception)).
Proof.
  intros Hl. destruct c as [g p i ip t rs hs gr ir r h]. cbn [exception_handlers] in Hl. do 32 (destruct hs as [|? hs]; [done|]). destruct hs; [|done]. reflexivity.
Qed.

Lemma isr_install_ok c : length (idt c) = 256%nat -> length (exception_handlers c) = 32%nat ->
  exists l, isr_install isr_at page_fault_handler_asm c = Some (tt, with_handlers (with_idt c l) (divide_by_zero :: replicate 31 generic_exception)) /\
    length l = 256%nat /\
    (forall v, at_index l v = if (0 <=? v) && (v <? 32) then Some (idt_gate (if v =? 14 then page_fault_handler_asm else isr_at v)) else at_index (idt c) v).
Proof.
  intros Hl Hh. unfold isr_install.
  destruct (set_entries_ok 0 isr_at 14 0 c) as (l1 & E1 & Hl1 & Hv1); [done|lia|lia|].
  rewrite (for_up_ext _ (fun k => set_idt_entry (0 + k) (isr_at k)) 14), (bind_eq _ _ _ _ _ E1) by done.
  destruct (set_entries_ok 0 isr_at 17 15 (with_idt c l1)) as (l2 & E2 & Hl2 & Hv2); [done|lia|lia|].
  rewrite (for_up_ext _ (fun k => set_idt_entry (0 + k) (isr_at k)) 17), (bind_eq _ _ _ _ _ E2) by done.
  rewrite (bind_eq _ _ _ _ _ (set_idt_entry_ok 14 page_fault_handler_asm (with_idt (with_idt c l1) l2) Hl2 ltac:(lia))), setup_exceptions_ok by done.
  exists (<[Z.to_nat 14 := idt_gate page_fault_handler_asm]> l2). split; [by destruct c|]. split; [by rewrite length_insert|].
  intros v. rewrite at_index_insert, Hv2 by (rewrite Hl2; lia). cbn [idt with_idt]. rewrite Hv1, !Z.sub_0_r, !Z.add_0_l.
  change (15 + Z.of_nat 17) with 32. change (Z.of_nat 14) with 14. zcase; done.
Qed.

Lemma idt_install_ok c : exists l, idt_install idt_addr c =
    Some (tt, with_idtr (with_idt (with_idtp c (Mk_table_ptr 2047 (u32 idt_addr))) l) (Mk_table_ptr 2047 (u32 idt_addr))) /\ length l = 256%nat /\
    forall v, 0 <= v < 256 -> at_index l v = Some (Mk_idt_entry 0 0 0 0 0).
Proof.
  exists (replicate 256 (Mk_idt_entry 0 0 0 0 0)). split; [done|]. split; [apply length_replicate|]. intros v Hv. unfold at_index. rewrite (proj2 (Z.leb_le _ _)) by lia.
  by rewrite lookup_replicate_2 by lia.
Qed.

Lemma irq_install_ok c : length (idt c) = 256%nat ->
  exists l h, irq_install irq_at syscall_handler_asm c = Some (tt, with_idt (with_cpu_hw c h) l) /\ pics h = started_pics /\ length l = 256%nat /\
    (forall v, at_index l v = if v =? 128 then Some (idt_gate syscall_handler_asm) else if (32 <=? v) && (v <? 48) then Some (idt_gate (irq_at (v - 32))) else at_index (idt c) v).
Proof.
  intros Hl. unfold irq_install. destruct (irq_remap_ok c) as (h & E3 & Hp). rewrite (bind_eq _ _ _ _ _ E3).
  destruct (set_entries_ok 32 irq_at 16 0 (with_cpu_hw c h)) as (l2 & E4 & Hl2 & Hv2); [done|lia|lia|].
  rewrite (bind_eq _ _ _ _ _ E4), set_idt_entry_ok by first [exact Hl2 | lia].
  exists (<[Z.to_nat 128 := idt_gate syscall_handler_asm]> l2), h. split; [by destruct c|]. split; [done|]. split; [by rewrite length_insert|].
  intros v. rewrite at_index_insert, Hv2 by (rewrite Hl2; lia). done.
Qed.

Lemma boot_tables_ok kernel_stack c : cpu_ok c -> exists c', boot_tables kernel_stack c = Some (tt, c') /\ cpu_ready kernel_stack c' /\ irq_routines c' = irq_routines c.
Proof.
  intros Hc. assert (keeps (boot_tables kernel_stack)) as Hkeep.
  { unfold boot_tables. apply keeps_bind; [unfold tss_init; solve_keeps|intros _]. unfold gdt_install, gdt_flush, idt_install, idt_load, isr_install, setup_exceptions, irq_install, irq_remap.
    solve_keeps. apply keeps_modify. intros ? []. split; try done. cbn [idt with_idt]. apply Forall_replicate. by split. }
  destruct (gdt_install_ok kernel_stack c Hc) as (c1 & E1 & Hgr & Htr & Hts & Hg & Hgl & Hi & Hrs & Hhs & Hhw).
  assert (boot_tables kernel_stack c = (idt_install idt_addr ≫= fun _ => isr_install isr_at page_fault_handler_asm ≫= fun _ => irq_install irq_at syscall_handler_asm) c1) as Eb.
  { unfold boot_tables. by rewrite <- bind_assoc, (bind_eq _ _ _ _ _ E1). }
  destruct (idt_install_ok c1) as (l0 & E0 & Hl0 & Hz). rewrite (bind_eq _ _ _ _ _ E0) in Eb. set (c2 := with_idtr _ _) in *.
  destruct (isr_install_ok c2 Hl0) as (l & E2 & Hl & Hv); [by unfold c2; cbn; rewrite Hhs; destruct Hc|].
  rewrite (bind_eq _ _ _ _ _ E2) in Eb. set (c3 := with_handlers _ _) in *.
  destruct (irq_install_ok c3 Hl) as (l2 & h & E3 & Hp & Hl2 & Hv2). rewrite E3 in Eb.
  eexists. split; [exact Eb|]. split; [|exact Hrs].
  assert (forall v, 0 <= v < 32 -> at_index l2 v = Some (idt_gate (if v =? 14 then page_fault_handler_asm else isr_at v))) as Hex.
  { intros v Hr. rewrite Hv2. unfold c3. cbn [idt with_handlers with_idt]. rewrite Hv. zcase; done. }
  apply Mk_cpu_ready.
  - eapply Hkeep; [exact Hc|exact Eb].
  - exact Hgr.
  - exact Hg.
  - exact Htr.
  - exact Hts.
  - reflexivity.
  - intros n Hn. cbn [idt with_idt]. rewrite Hv2. zcase. do 3 f_equal. lia.
  - intros n Hn ?. cbn [idt with_idt]. rewrite Hex by done. zcase; done.
  - cbn [idt with_idt]. by rewrite Hex.
  - cbn [idt with_idt]. by rewrite Hv2.
  - intros v Hv1 Hv3. cbn [idt with_idt]. rewrite Hv2. unfold c3. cbn [idt with_handlers with_idt]. rewrite Hv. unfold c2. cbn [idt with_idtr with_idt]. zcase; apply Hz; lia.
  - reflexivity.
  - exact Hp.
Qed.
End Boot.

Section Delivery.
Context {H : Type} `{PicDevice H} (fresh : nat -> buf) (irq_at isr_at : Z -> Z) (syscall_handler_asm page_fault_handler_asm : Z).
Context (idt_addr gdt_addr tss_addr : Z) (code_at : Z -> option stub) (call : Z -> Registers -> M (cpu H) unit) (invoke : kernel_function -> list Z -> M (cpu H) unit).
Implicit Types c : cpu H.
Abbreviation ready := (cpu_ready irq_at isr_at syscall_handler_asm page_fault_handler_asm idt_addr gdt_addr tss_addr).
Abbreviation cpu_vector := (vector fresh invoke idt_addr gdt_addr code_at call).

(** A device raises a line: [None] when the controllers do not pass it on. *)
Definition interrupt (line : Z) (r : Registers) : M (cpu H) (option (option ending)) := fun c =>
  match dev_ack line (cpu_hw c) with
  | Some (v, h) => (e ← cpu_vector v r 0 0; mret (Some e)) (with_cpu_hw c h)
  | None => Some (None, c)
  end.

(** The code segment is flat, so the gate leads to the address that was installed. *)
Lemma gate_of_ok k c h v a : ready k c -> 0 <= v < 256 -> 0 <= a < 2 ^ 32 -> at_index (idt c) v = Some (idt_gate a) ->
  gate_of idt_addr gdt_addr (with_cpu_hw c h) v = Some (idt_gate a) /\ gate_offset (idt_gate a) = a.
Proof.
  intros [_ Hgr Hg _ _ Hir _ _ _ _ _ _ _] Hv Ha E. destruct (idt_gate_decodes a Ha) as [Ho Hvalid]. split; [|done].
  unfold gate_of. cbn [idtr gdtr idt gdt with_cpu_hw]. rewrite Hir, Hgr, E. cbn [t_base t_limit]. rewrite !Z.eqb_refl.
  destruct (Z.leb_spec (8 * v + 7) 2047); [|lia]. cbn [andb mbind option_bind]. rewrite Hvalid. cbn [andb selector idt_gate Z.add Z.leb Z.compare Pos.add Pos.compare Pos.compare_cont].
  change (8 / 8) with 1. destruct (gdt c) as [|e0 [|e1 g]]; [done|done|]. cbn [map] in Hg. injection Hg as _ _ _ Eb El Ea _.
  change (at_index (e0 :: e1 :: g) 1) with (Some e1). cbn [mbind option_bind]. unfold seg_code. rewrite Ea, Eb, El, Ho. change (2 ^ 32 - 1) with 4294967295.
  destruct (Z.leb_spec a 4294967295); [done|]. change (2 ^ 32) with 4294967296 in Ha. lia.
Qed.

(** The function that the kernel means for a vector. *)
Definition entry_for (v : Z) : option Z :=
  if v =? 14 then Some page_fault_handler_asm else if (0 <=? v) && (v <? 32) then Some (isr_at v) else if (32 <=? v) && (v <? 48) then Some (irq_at (v - 32))
  else if v =? 128 then Some syscall_handler_asm else None.

(** C29: What the processor finds in the tables of [early_init].  The descriptor table holds the
    null descriptor, flat code and data segments of the kernel and of user programs, and the
    task segment with the kernel's stack; every exception, every interrupt line and the
    system call has a valid interrupt gate in the kernel's code segment that leads to the
    entry point for it, and no other vector has one; and both interrupt controllers let all
    lines through. *)
Theorem boot_tables_decode (c0 : cpu H) (kernel_stack : Z) (Hc0 : cpu_ok c0) (Haddr : forall v a, entry_for v = Some a -> 0 <= a < 2 ^ 32) :
  exists c, boot_tables irq_at isr_at syscall_handler_asm page_fault_handler_asm idt_addr gdt_addr tss_addr kernel_stack c0 = Some (tt, c) /\
    map descriptor (gdt c) = [(0, 0, 0); (0, 2 ^ 32 - 1, 154); (0, 2 ^ 32 - 1, 146); (0, 2 ^ 32 - 1, 250); (0, 2 ^ 32 - 1, 242); (u32 tss_addr, 103, 139)] /\
    tr c = 40 /\ tss_esp0 (kernel_tss c) = kernel_stack /\ tss_ss0 (kernel_tss c) = 16 /\
    (forall v, 0 <= v < 256 -> option_map gate_offset (gate_of idt_addr gdt_addr c v) = entry_for v) /\
    p_mask (fst (pics (cpu_hw c))) = 0 /\ p_mask (snd (pics (cpu_hw c))) = 0.
Proof.
  destruct (boot_tables_ok irq_at isr_at syscall_handler_asm page_fault_handler_asm idt_addr gdt_addr tss_addr kernel_stack c0 Hc0) as (c & E & Hready & _).
  exists c. pose proof Hready as [_ Hgr Hg Htr Hts Hir Hq Hi Hf Hs Hz _ Hp]. split; [done|]. split; [done|]. split; [done|]. rewrite Hts, Hp. split; [done|]. split; [done|]. split; [|done].
  intros v Hv. assert (forall a, entry_for v = Some a -> at_index (idt c) v = Some (idt_gate a) -> option_map gate_offset (gate_of idt_addr gdt_addr c v) = Some a) as Hgate.
  { intros a Ea Ei. destruct (gate_of_ok kernel_stack c (cpu_hw c) v a Hready Hv (Haddr v a Ea) Ei) as [Eg Eo]. replace (with_cpu_hw c (cpu_hw c)) with c in Eg by (by destruct c). rewrite Eg. cbn. by rewrite Eo. }
  destruct (entry_for v) as [a|] eqn:Ea.
  - apply Hgate; [done|]. unfold entry_for in Ea. destruct (Z.eqb_spec v 14) as [->|]; [by injection Ea as <-|].
    destruct (Z.leb_spec 0 v), (Z.ltb_spec v 32), (Z.leb_spec 32 v), (Z.ltb_spec v 48), (Z.eqb_spec v 128) as [->|]; cbn [andb] in Ea; try lia; try done; injection Ea as <-; try done; try (by apply Hi).
    all: pose proof (Hq (v - 32) ltac:(lia)) as Hv'; by replace (32 + (v - 32)) with v in Hv' by lia.
  - unfold entry_for in Ea. destruct (Z.eqb_spec v 14); [done|]. destruct (Z.leb_spec 0 v), (Z.ltb_spec v 32), (Z.leb_spec 32 v), (Z.ltb_spec v 48), (Z.eqb_spec v 128); cbn [andb] in Ea; try lia; try done.
    unfold gate_of. rewrite Hz by lia. destruct (_ && _); [|done]. done.
Qed.

Lemma sixteen (P : Z -> Prop) : (forall k, (k < 16)%nat -> P (Z.of_nat k)) -> forall n, 0 <= n < 16 -> P n.
Proof. intros HP n Hn. rewrite <- (Z2Nat.id n) by lia. apply HP. lia. Qed.

(** What a handler does to the controllers: nothing, or it sends an end of interrupt to the
    first one itself, as those of the timer, the keyboard and the floppy disk do. *)
Definition handled (p q : pic * pic) : Prop := q = p \/ q = pics_out 32 32 p.

(** The controllers pass on every line with vector 32 + n, and after the end of interrupt
    they are as before. *)
Lemma ack_and_end n : 0 <= n < 16 -> exists p, pics_ack n started_pics = Some (32 + n, p) /\
  forall q, handled p q -> pics_out 32 32 (if 40 <=? 32 + n then pics_out 160 32 q else q) = started_pics.
Proof.
  revert n. apply sixteen. intros k Hk. do 16 (destruct k as [|k]; [eexists; split; [reflexivity|]; intros q [-> | ->]; reflexivity|]). lia.
Qed.

Lemma register_irq_ok n r c : cpu_ok c -> 0 <= n < 17 ->
  register_interrupt_handler n r c = Some (tt, with_routines c (<[Z.to_nat n := r]> (irq_routines c))).
Proof. intros [] Hn. unfold register_interrupt_handler. rewrite gets_bind. erewrite lift_bind by (apply put_index_in; lia). done. Qed.

Lemma ready_routines k c l : ready k c -> length l = 17%nat -> ready k (with_routines c l).
Proof. intros [[] ? ? ? ? ? ? ? ? ? ? ? ?] Hl. split; try done. Qed.

(** C27: Interrupts reach their handlers.  After the tables have been set up in the order of
    [early_init] and a function has been registered for one of the sixteen lines, a device
    that raises the line makes the processor run that function, once, with the frame of the
    line, in the state in which the controllers acknowledged it; when the function returns,
    the end of interrupt goes to the controllers that need it, and they accept all lines
    again.  The function leaves the controllers alone or sends an end of interrupt to the
    first one itself, as the handlers of the timer, the keyboard and the floppy disk do, and
    it is not itself interrupted. *)
Theorem interrupt_delivered (c0 : cpu H) (kernel_stack n r : Z) (regs : Registers) (Hc0 : cpu_ok c0) (Hn : 0 <= n < 16) (Hr : r <> 0)
  (Haddr : 0 <= irq_at n < 2 ^ 32) (Hcode : code_at (irq_at n) = Some (Irq_stub n)) :
  exists c h,
    (boot_tables irq_at isr_at syscall_handler_asm page_fault_handler_asm idt_addr gdt_addr tss_addr kernel_stack ≫=
       fun _ => register_interrupt_handler n r) c0 = Some (tt, c) /\
    dev_ack n (cpu_hw c) = Some (32 + n, h) /\
    forall c2, call r (irq_frame n regs) (with_cpu_hw c h) = Some (tt, c2) -> handled (pics h) (pics (cpu_hw c2)) ->
      exists h3, interrupt n regs c = Some (Some None, with_cpu_hw c2 h3) /\ pics h3 = pics (cpu_hw c).
Proof.
  destruct (boot_tables_ok irq_at isr_at syscall_handler_asm page_fault_handler_asm idt_addr gdt_addr tss_addr kernel_stack c0 Hc0) as (c1 & E1 & Hready & _).
  rewrite (bind_eq _ _ _ _ _ E1). pose proof (ready_ok _ _ _ _ _ _ _ _ _ Hready) as Hok. rewrite register_irq_ok by (done || lia). set (c := with_routines _ _).
  assert (ready kernel_stack c) as Hc. { apply ready_routines; [done|]. rewrite length_insert. apply Hok. }
  destruct (ack_and_end n Hn) as (p & Ep & Eend). pose proof (pics_acked n (cpu_hw c)) as Hack. rewrite (ready_pics _ _ _ _ _ _ _ _ _ Hc), Ep in Hack.
  destruct (dev_ack n (cpu_hw c)) as [[v h]|] eqn:Ea; [|done]. injection Hack as <- ->.
  exists c, h. split; [done|]. split; [done|]. intros c2 Ecall Hpics.
  unfold interrupt. rewrite Ea. unfold vector. rewrite bind_assoc, gets_bind. unfold id.
  destruct (gate_of_ok kernel_stack c h (32 + n) (irq_at n) Hc) as [Eg Eo]; [lia|done|by apply (ready_irq _ _ _ _ _ _ _ _ _ Hc)|].
  rewrite bind_assoc, (lift_bind _ _ _ _ Eg), Eo, bind_assoc, (lift_bind _ _ _ _ Hcode). rewrite bind_assoc. unfold irq_handler. rewrite bind_assoc, gets_bind.
  cbn [r_irq_number irq_frame]. replace (32 + n - 32) with n by lia. rewrite wrap_small by (change (2 ^ 32) with 4294967296; lia).
  assert (at_index (irq_routines (with_cpu_hw c h)) n = Some r) as Er.
  { cbn [irq_routines with_cpu_hw c with_routines]. rewrite at_index_insert, Z.eqb_refl; [done|]. destruct Hok. lia. }
  rewrite bind_assoc, (lift_bind _ _ _ _ Er). destruct (Z.eqb_spec r 0); [done|]. cbn [negb].
  rewrite bind_assoc, (bind_eq _ _ _ _ _ Ecall).
  set (h2 := if 40 <=? 32 + n then dev_outb 160 32 (cpu_hw c2) else cpu_hw c2).
  rewrite bind_assoc. erewrite bind_eq by (instantiate (1 := with_cpu_hw c2 h2); instantiate (1 := tt); unfold h2; destruct (40 <=? 32 + n); [done|by destruct c2]).
  exists (dev_outb 32 32 h2). split; [by destruct c2|]. rewrite (ready_pics _ _ _ _ _ _ _ _ _ Hc), <- (Eend _ Hpics), pics_written by done.
  f_equal. unfold h2. destruct (40 <=? 32 + n); [by rewrite pics_written by done|done].
Qed.
End Delivery.

(** ** Exceptions and system calls *)

Section Ends.
Context {H : Type} `{PicDevice H} (fresh : nat -> buf) (irq_at isr_at : Z -> Z) (syscall_handler_asm page_fault_handler_asm : Z).
Context (idt_addr gdt_addr tss_addr : Z) (code_at : Z -> option stub) (call : Z -> Registers -> M (cpu H) unit) (invoke : kernel_function -> list Z -> M (cpu H) unit).
Context (Hfresh : length (fresh 128) = 128%nat).
Implicit Types c : cpu H.
Abbreviation ready := (cpu_ready irq_at isr_at syscall_handler_asm page_fault_handler_asm idt_addr gdt_addr tss_addr).
Abbreviation cpu_vector := (vector fresh invoke idt_addr gdt_addr code_at call).

(** What the panic screen says about an exception in the kernel: snprintf knows no %X, and
    of the address only the letters of the conversion are left. *)
Definition exception_text (n : Z) : buf :=
  if n =? 0 then lit_bytes "Kernel divide by zero at EIP=0x8X"
  else lit_bytes "Kernel exception: " ++ cstr (default [] (at_index exception_messages n)) ++ lit_bytes " (IRQ " ++ reverse (num_digits 12 n) ++ lit_bytes ") at EIP=0x8X".

Lemma message_ok format args t : snprintf_text format args = Some t -> (length t <= 127)%nat -> forallb (fun x => (0 <? x) && (x <? 256)) t = true ->
  exists m, snprintf (fresh 128) 128 format args = Some m /\ cstr (snd m) = t.
Proof using Hfresh.
  intros E Hl Hc. assert (Forall (fun x => 0 < x < 256) t) as Hok.
  { apply Forall_forall. intros x Hx%list_elem_of_In. rewrite forallb_forall in Hc. specialize (Hc x Hx). lia. }
  destruct (snprintf_spec (fresh 128) 128 format args t) as (rest & Es & _); [lia|done|by eapply Forall_impl; [exact Hok|unfold byte_ok; lia]|].
  eexists. split; [exact Es|]. cbn [snd]. rewrite take_ge by lia. by apply cstr_app.
Qed.

(** All messages at once, whatever the address is. *)
Definition message_check (eip n : Z) : bool :=
  match at_index exception_messages n with
  | Some m => match snprintf_text (lit "Kernel exception: %s (IRQ %d) at EIP=0x%08X") [VStr (Some m); VInt n; VInt eip] with
              | Some t => bool_decide (t = exception_text n) && (length t <=? 127)%nat && forallb (fun x => (0 <? x) && (x <? 256)) t
              | None => false
              end
  | None => false
  end.
Lemma all_messages eip : forallb (message_check eip) (seqZ 1 31) = true.
Proof. vm_compute. reflexivity. Qed.

Lemma message_checked r : 0 < r_irq_number r < 32 -> message_check (r_eip r) (r_irq_number r) = true.
Proof.
  intros Hn. pose proof (all_messages (r_eip r)) as Hall. rewrite forallb_forall in Hall. apply Hall. rewrite <- list_elem_of_In, elem_of_seqZ. lia.
Qed.

Lemma generic_panics r m w str : Z.land (r_cs r) 3 = 0 -> at_index exception_messages (r_irq_number r) = Some m ->
  snprintf (fresh 128) 128 (lit "Kernel exception: %s (IRQ %d) at EIP=0x%08X") [VStr (Some m); VInt (r_irq_number r); VInt (r_eip r)] = Some (w, str) ->
  generic_exception_handler fresh r = Some (Panics str).
Proof using Type. intros Hcs Em Es. unfold generic_exception_handler. rewrite Hcs, Em. cbn [mbind option_bind]. cbv zeta. rewrite Es. reflexivity. Qed.

Lemma exception_messages_ok r : 0 < r_irq_number r < 32 -> Z.land (r_cs r) 3 = 0 ->
  exists m, generic_exception_handler fresh r = Some (Panics m) /\ cstr m = exception_text (r_irq_number r).
Proof using Hfresh.
  intros Hn Hcs. pose proof (message_checked r Hn) as Hall. unfold message_check in Hall.
  destruct (at_index exception_messages (r_irq_number r)) as [m|] eqn:Em; [|done].
  destruct (snprintf_text _ _) as [t|] eqn:Et; [|done]. apply andb_true_iff in Hall as [Hall Hc]. apply andb_true_iff in Hall as [Ht Hl].
  apply bool_decide_eq_true in Ht. apply Nat.leb_le in Hl. destruct (message_ok _ _ _ Et Hl Hc) as ([w str] & Es & Ecstr).
  exists str. split; [by eapply generic_panics|]. by rewrite <- Ht.
Qed.

Lemma division_message_ok r : Z.land (r_cs r) 3 = 0 -> exists m, divide_by_zero_handler fresh r = Some (Panics m) /\ cstr m = exception_text 0.
Proof using Hfresh.
  intros Hcs. unfold divide_by_zero_handler. rewrite Hcs. cbv zeta. change (u16 0 =? 0) with true. cbv iota.
  destruct (message_ok (lit "Kernel divide by zero at EIP=0x%08X") [VInt (r_eip r)] (lit_bytes "Kernel divide by zero at EIP=0x8X")) as ([w str] & Es & Ec);
    [vm_compute; reflexivity|vm_compute; lia|vm_compute; reflexivity|].
  exists str. rewrite Es. by split.
Qed.

Lemma isr_frame_same n r : n <> 17 -> r_irq_number (isr_frame n r) = n /\ r_cs (isr_frame n r) = r_cs r.
Proof.
  intros Hn. unfold isr_frame. destruct (stub_pushes_code n) eqn:E; cbn [negb]; [|done]. destruct (cpu_pushes_code n) eqn:E2; [|done]. exfalso.
  unfold stub_pushes_code, cpu_pushes_code in *. cbn [existsb] in *. zcase; done.
Qed.

(** C28: An exception in the kernel ends in a panic.  With the tables set up, each of the 32
    exceptions but the alignment check that happens with the kernel's code segment runs
    the handler of its number, which calls [panic] with the name of the exception and
    never returns; a page fault does so also when it happens in a user program. *)
Theorem kernel_exception_panics (k n cr2 ret : Z) (r : Registers) (c : cpu H) (Hc : ready k c) (Hn : 0 <= n < 32) (H17 : n <> 17)
  (Ha : 0 <= isr_at n < 2 ^ 32) (Hp : 0 <= page_fault_handler_asm < 2 ^ 32)
  (Hcode : code_at (isr_at n) = Some (Isr_stub n)) (Hpf : code_at page_fault_handler_asm = Some Page_fault_stub)
  (Hcs : n = 14 \/ Z.land (r_cs r) 3 = 0) :
  exists m, cpu_vector n r cr2 ret c = Some (Some (Panics m), c) /\
    cstr m = if n =? 14 then lit_bytes "Kernel page fault at address 0x8X (error code: 0x)" else exception_text n.
Proof using Hfresh.
  assert (with_cpu_hw c (cpu_hw c) = c) as Eid by (by destruct c). unfold vector. rewrite gets_bind. unfold id.
  destruct (Z.eqb_spec n 14) as [->|Hne].
  - destruct (gate_of_ok irq_at isr_at syscall_handler_asm page_fault_handler_asm idt_addr gdt_addr tss_addr k c (cpu_hw c) 14 page_fault_handler_asm Hc) as [Eg Eo];
      [lia|exact Hp|apply (ready_fault _ _ _ _ _ _ _ _ _ Hc)|]. rewrite Eid in Eg.
    rewrite (lift_bind _ _ _ _ Eg), Eo, (lift_bind _ _ _ _ Hpf). unfold page_fault_handler. change (u16 (Z.land (selector _) 3) =? 0) with true. cbv iota.
    destruct (message_ok (lit "Kernel page fault at address 0x%08X (error code: 0x%X)") [VInt cr2; VInt ret] (lit_bytes "Kernel page fault at address 0x8X (error code: 0x)"))
      as ([w str] & Es & Ec); [vm_compute; reflexivity|vm_compute; lia|vm_compute; reflexivity|].
    exists str. rewrite Es. by split.
  - destruct (gate_of_ok irq_at isr_at syscall_handler_asm page_fault_handler_asm idt_addr gdt_addr tss_addr k c (cpu_hw c) n (isr_at n) Hc) as [Eg Eo];
      [lia|exact Ha|by apply (ready_isr _ _ _ _ _ _ _ _ _ Hc)|]. rewrite Eid in Eg.
    rewrite (lift_bind _ _ _ _ Eg), Eo, (lift_bind _ _ _ _ Hcode). unfold exception_dispatcher. destruct (isr_frame_same n r H17) as [En Ecs]. rewrite En.
    destruct (Z.ltb_spec n 32); [|lia]. destruct Hcs as [?|Hcs]; [done|]. rewrite <- Ecs in Hcs.
    rewrite bind_assoc, gets_bind, (ready_handlers _ _ _ _ _ _ _ _ _ Hc). destruct (Z.eq_dec n 0) as [->|].
    + destruct (division_message_ok _ Hcs) as (m & Em & Hm). exists m. rewrite bind_assoc. erewrite lift_bind by reflexivity. cbv iota. by rewrite (lift_bind _ _ _ _ Em).
    + destruct (exception_messages_ok (isr_frame n r)) as (m & Em & Hm); [rewrite En; lia|done|]. rewrite En in Hm. exists m.
      rewrite bind_assoc, (lift_bind _ generic_exception), (lift_bind _ _ _ _ Em); [done|].
      unfold at_index. destruct (Z.leb_spec 0 n); [|lia]. rewrite <- (Nat.succ_pred (Z.to_nat n)) by lia. cbn [lookup list_lookup]. apply lookup_replicate. split; [done|lia].
Qed.

(** The frame of an alignment check is one word off, because both the processor and the
    stub push an error code: the handler takes the address of the instruction for the code
    segment and decides by its last two bits whether the kernel or a user program failed. *)
Theorem alignment_check_frame (r : Registers) :
  r_cs (isr_frame 17 r) = r_eip r /\ r_eip (isr_frame 17 r) = r_error_code r /\ r_error_code (isr_frame 17 r) = 0.
Proof using Type. done. Qed.

(** A program can install an interrupt handler.  Interrupt 0x80 with SYS_INSTALL_IRQ in
    EAX stores the address in ECX for the line in EBX and returns; the line is not
    compared with the size of the table, and a line of 17 or more is undefined behaviour. *)
Theorem install_irq_syscall (k cr2 ret : Z) (r : Registers) (c : cpu H) (Hc : ready k c)
  (Ha : 0 <= syscall_handler_asm < 2 ^ 32) (Hcode : code_at syscall_handler_asm = Some Syscall_stub)
  (Heax : r_eax r = SYS_INSTALL_IRQ) (Hebx : 0 <= r_ebx r < 2 ^ 31) (Hecx : 0 <= r_ecx r < 2 ^ 32) :
  (r_ebx r < 17 -> cpu_vector 128 r cr2 ret c = Some (None, with_routines c (<[Z.to_nat (r_ebx r) := r_ecx r]> (irq_routines c)))) /\
  (17 <= r_ebx r -> cpu_vector 128 r cr2 ret c = None).
Proof using Type.
  clear Hfresh. assert (with_cpu_hw c (cpu_hw c) = c) as Eid by (by destruct c).
  destruct (gate_of_ok irq_at isr_at syscall_handler_asm page_fault_handler_asm idt_addr gdt_addr tss_addr k c (cpu_hw c) 128 syscall_handler_asm Hc) as [Eg Eo];
    [lia|exact Ha|apply (ready_syscall _ _ _ _ _ _ _ _ _ Hc)|]. rewrite Eid in Eg. pose proof (routines_len _ (ready_ok _ _ _ _ _ _ _ _ _ Hc)) as Hl.
  assert (s32 (r_ebx r) = r_ebx r) as Eb by (apply swrap_small; lia).
  assert (u32 (s32 (r_ecx r)) = r_ecx r) as Ec.
  { unfold swrap, wrap. rewrite Zminus_mod_idemp_l, Z.add_simpl_r. apply Z.mod_small. lia. }
  assert (cpu_vector 128 r cr2 ret c = (register_interrupt_handler (r_ebx r) (r_ecx r) ≫= fun _ => mret None) c) as E.
  { unfold vector. rewrite gets_bind. unfold id. rewrite (lift_bind _ _ _ _ Eg), Eo, (lift_bind _ _ _ _ Hcode). unfold syscall_handler. rewrite Heax, Eb, Ec.
    change (s32 SYS_INSTALL_IRQ) with 8. change (at_index syscall_table 8) with (Some (Some f_register_interrupt_handler)).
    change ((8 =? 0) || (8 =? 3) || (8 =? SYS_FREE)) with false. change ((8 =? 1) || (8 =? 2) || (8 =? SYS_MALLOC)) with false.
    change (8 =? SYS_REALLOC) with false. change (8 =? SYS_INSTALL_IRQ) with true. cbv iota. cbn [run_function]. by rewrite bind_assoc. }
  rewrite E. split; intros Hb.
  - erewrite bind_eq by (apply register_irq_ok; [apply (ready_ok _ _ _ _ _ _ _ _ _ Hc)|lia]). done.
  - unfold register_interrupt_handler. rewrite bind_assoc, gets_bind, bind_assoc. unfold put_index, at_index. destruct (Z.leb_spec 0 (r_ebx r)); [|lia].
    rewrite lookup_ge_None_2 by lia. done.
Qed.
End Ends.

(** ** A machine to try it on: nothing but the two controllers *)

#[global] Instance pics_ports : Ports (pic * pic) := {|
  dev_inb _ h := (0, h); dev_outb := pics_out; dev_insw _ n h := (replicate (2 * n) 0, h); dev_outsw _ _ h := h; dev_delay _ h := h
|}.
#[global, refine] Instance pics_device : PicDevice (pic * pic) := {| pics := id; dev_ack := pics_ack |}.
Proof. - done. - intros line h. unfold id. by destruct (pics_ack line h) as [[]|]. Defined.

Definition off_cpu : cpu (pic * pic) :=
  Mk_cpu (replicate 6 (Mk_gdt_entry 0 0 0 0 0 0)) (Mk_table_ptr 0 0) (replicate 256 (Mk_idt_entry 0 0 0 0 0)) (Mk_table_ptr 0 0) zero_tss
    (replicate 17 0) (replicate 32 no_handler) (Mk_table_ptr 0 0) (Mk_table_ptr 0 0) 0 (Mk_pic 0 8 0 0 255 0, Mk_pic 0 112 0 0 255 0).
Lemma off_cpu_ok : cpu_ok off_cpu.
Proof.
  split; [done| |done| |done|done].
  - apply (Forall_replicate _ 6). by split.
  - apply (Forall_replicate _ 256). by split.
Qed.

Definition irq_addr (n : Z) : Z := 1048576 + 16 * n.
Definition isr_addr (n : Z) : Z := 1052672 + 16 * n.
Definition stub_of (a : Z) : option stub :=
  if a =? 1056768 then Some Syscall_stub else if a =? 1056800 then Some Page_fault_stub
  else if a <? 1052672 then Some (Irq_stub ((a - 1048576) / 16)) else Some (Isr_stub ((a - 1052672) / 16)).
Definition regs0 : Registers := Mk_registers 16 16 16 16 0 0 0 0 3 0 4660 8 0 0 1048700 8 518 0 0.
Definition no_call : Z -> Registers -> M (cpu (pic * pic)) unit := fun _ _ => mret tt.
Definition no_function : kernel_function -> list Z -> M (cpu (pic * pic)) unit := fun _ _ => mret tt.

Lemma boot_tables_decode_witness : exists c, boot_tables irq_addr isr_addr 1056768 1056800 8192 4096 12288 65536 off_cpu = Some (tt, c) /\
  tr c = 40 /\ option_map gate_offset (gate_of 8192 4096 c 33) = Some (irq_addr 1) /\ gate_of 8192 4096 c 200 = None.
Proof.
  destruct (boot_tables_decode (H := pic * pic) irq_addr isr_addr 1056768 1056800 8192 4096 12288 off_cpu 65536 off_cpu_ok) as (c & E & _ & Ht & _ & _ & Hg & _).
  - intros v a. unfold entry_for, irq_addr, isr_addr. repeat case_match; intros [= <-]; lia.
  - exists c. split; [exact E|]. split; [exact Ht|]. split; [exact (Hg 33 ltac:(lia))|]. pose proof (Hg 200 ltac:(lia)) as H200. destruct (gate_of 8192 4096 c 200); [discriminate H200|reflexivity].
Defined.

Lemma interrupt_delivered_witness : exists c h,
  (boot_tables irq_addr isr_addr 1056768 1056800 8192 4096 12288 65536 ≫= fun _ => register_interrupt_handler 12 4660) off_cpu = Some (tt, c) /\
  dev_ack 12 (cpu_hw c) = Some (44, h) /\
  forall c2, no_call 4660 (irq_frame 12 regs0) (with_cpu_hw c h) = Some (tt, c2) -> handled (pics h) (pics (cpu_hw c2)) ->
    exists h3, interrupt (fun n => replicate n 0) 8192 4096 stub_of no_call no_function 12 regs0 c = Some (Some None, with_cpu_hw c2 h3) /\ pics h3 = pics (cpu_hw c).
Proof. apply (interrupt_delivered (H := pic * pic)); [apply off_cpu_ok|lia|lia|vm_compute; split; congruence|reflexivity]. Defined.

Lemma off_cpu_boots : exists c, boot_tables irq_addr isr_addr 1056768 1056800 8192 4096 12288 65536 off_cpu = Some (tt, c) /\
  cpu_ready irq_addr isr_addr 1056768 1056800 8192 4096 12288 65536 c.
Proof. destruct (boot_tables_ok irq_addr isr_addr 1056768 1056800 8192 4096 12288 65536 off_cpu off_cpu_ok) as (c & E & Hc & _). exists c. split; [exact E|exact Hc]. Qed.

Lemma kernel_exception_panics_witness : exists c m, boot_tables irq_addr isr_addr 1056768 1056800 8192 4096 12288 65536 off_cpu = Some (tt, c) /\
  vector (fun n => replicate n 0) no_function 8192 4096 stub_of no_call 13 regs0 0 0 c = Some (Some (Panics m), c) /\
  cstr m = lit_bytes "Kernel exception: General Protection Fault (IRQ 13) at EIP=0x8X".
Proof.
  destruct off_cpu_boots as (c & E & Hc).
  destruct (kernel_exception_panics (fun n => replicate n 0) irq_addr isr_addr 1056768 1056800 8192 4096 12288 stub_of no_call no_function eq_refl 65536 13 0 0 regs0 c Hc)
    as (m & Em & Hm); [lia|lia|vm_compute; split; congruence|lia|reflexivity|reflexivity|by right|].
  exists c, m. split; [exact E|]. split; [exact Em|]. rewrite Hm. vm_compute. reflexivity.
Defined.

Lemma install_irq_syscall_witness : exists c, boot_tables irq_addr isr_addr 1056768 1056800 8192 4096 12288 65536 off_cpu = Some (tt, c) /\
  vector (fun n => replicate n 0) no_function 8192 4096 stub_of no_call 128 regs0 0 0 c = Some (None, with_routines c (<[3%nat := 4660]> (irq_routines c))).
Proof.
  destruct off_cpu_boots as (c & E & Hc). exists c. split; [exact E|].
  apply (install_irq_syscall (fun n => replicate n 0) irq_addr isr_addr 1056768 1056800 8192 4096 12288 stub_of no_call no_function 65536 0 0 regs0 c Hc);
    first [reflexivity | vm_compute; split; congruence | vm_compute; reflexivity].
Defined.
