(* ===== verification/Fdd.v ===== *)
(** drivers/block/fdd.c: the floppy disk controller.

    [fdc_driver] is the driver's variables, the table of interrupt handlers (irq_routines of
    irq.c), the table of drives (detected_drives of ata.c) and the hardware with the memory
    that the transfers go to.  [IrqLine] is interrupt 6 as the processor sees it: it is taken
    after an access to a port or while time passes, and then [fdd_irq_handler] runs if it is
    installed.  [fdc] is the controller with channel 2 of the DMA controller, and [FdcDevice]
    states that the hardware has one; the driver on it implements the interface [Floppy] that
    FAT12 is built on.  Console output is left out. *)

From stdpp Require Import strings.
From S2P Require Import Prelude CString CStdio Effects Ports Cpu Ata Fat12.

Definition FDD_CMD_RECALIBRATE : Z := 7.
Definition FDD_CMD_READ : Z := 230.
Definition FDD_DOR : Z := 1010.
Definition FDD_MSR : Z := 1012.
Definition FDD_FIFO : Z := 1013.
Definition FDD_CCR : Z := 1015.
Definition PIC1_COMMAND : Z := 32.
Definition PIC1_DATA : Z := 33.
Definition PIC_EOI : Z := 32.
Definition SECTOR_SIZE : Z := 512.
Definition DMA_CHANNEL_MASK : Z := 10.
Definition DMA_MODE : Z := 11.
Definition DMA_CLEAR : Z := 12.
Definition DMA_ADDR_PORT : Z := 4.
Definition DMA_COUNT_PORT : Z := 5.
Definition DMA_PAGE_PORT : Z := 129.
Definition DMA_UNMASK_CHANNEL : Z := 2.
Definition MSR_RQM : Z := 128.
Definition MSR_DIO : Z := 64.

(** The interrupt of the controller: is it asserted, and its acknowledgement by the processor. *)
Class IrqLine (H : Type) := { irq6 : H -> bool; ack6 : H -> H }.

Record fdc_driver (H : Type) := Mk_fd {
  irq_triggered : bool; irq_count : Z; fdc_controller_initialized : bool; fd_routines : list Z; fd_drives : list drive_t; fd_count : Z; fd_hw : H
}.
Arguments Mk_fd {H}. Arguments irq_triggered {H}. Arguments irq_count {H}. Arguments fdc_controller_initialized {H}. Arguments fd_routines {H}.
Arguments fd_drives {H}. Arguments fd_count {H}. Arguments fd_hw {H}.

#[global] Instance fdc_machine H : Machine (fdc_driver H) H := {|
  hw := fd_hw; with_hw s h := Mk_fd (irq_triggered s) (irq_count s) (fdc_controller_initialized s) (fd_routines s) (fd_drives s) (fd_count s) h |}.
Definition fd_at {H} (s : fdc_driver H) (h : H) : fdc_driver H := with_hw s h.

Section Driver.
Context {H : Type} `{Ports H} `{IrqLine H} (handler : Z).   (* the address of fdd_irq_handler *)
Abbreviation A := (M (fdc_driver H)).

Definition set_triggered (t : bool) : A unit := modify (fun s => Mk_fd t (irq_count s) (fdc_controller_initialized s) (fd_routines s) (fd_drives s) (fd_count s) (fd_hw s)).

(** The counter of interrupts is not used anywhere. *)
Definition fdd_irq_handler : A unit :=
  _ ← set_triggered true;
  _ ← modify (fun s => Mk_fd (irq_triggered s) (swrap 32 (irq_count s + 1)) (fdc_controller_initialized s) (fd_routines s) (fd_drives s) (fd_count s) (fd_hw s));
  outb PIC1_COMMAND PIC_EOI.

(** An interrupt that is asserted is taken. *)
Definition take_irq : A unit :=
  h ← gets fd_hw;
  if negb (irq6 h) then mret tt else
  _ ← modify (fun s => fd_at s (ack6 (fd_hw s)));
  l ← gets fd_routines;
  if default 0 (l !! 6%nat) =? handler then fdd_irq_handler else mret tt.
Definition fin (port : Z) : A Z := v ← inb port; _ ← take_irq; mret v.
Definition fout (port v : Z) : A unit := _ ← outb port v; take_irq.
Definition delay_ms (ms : Z) : A unit := _ ← pit_delay ms; take_irq.

Definition fdc_ready_to_write : A bool := msr ← fin FDD_MSR; mret (negb (Z.land msr MSR_RQM =? 0) && (Z.land msr MSR_DIO =? 0)).
Definition fdc_ready_to_read : A bool := msr ← fin FDD_MSR; mret (negb (Z.land msr MSR_RQM =? 0) && negb (Z.land msr MSR_DIO =? 0)).
Fixpoint fdc_wait_write (ms : nat) : A bool :=
  match ms with O => mret false | S ms' => r ← fdc_ready_to_write; if r : bool then mret true else _ ← delay_ms 1; fdc_wait_write ms' end.
Fixpoint fdc_wait_read (ms : nat) : A bool :=
  match ms with O => mret false | S ms' => r ← fdc_ready_to_read; if r : bool then mret true else _ ← delay_ms 1; fdc_wait_read ms' end.

Definition unmask_irq6 : A unit := mask ← fin PIC1_DATA; fout PIC1_DATA (Z.ldiff mask 64).
Definition mask_irq6 : A unit := mask ← fin PIC1_DATA; fout PIC1_DATA (Z.lor mask 64).

(** The system call registers the handler. *)
Definition fdc_initialize : A unit :=
  l ← gets fd_routines;
  l ← lift (put_index l 6 handler);
  _ ← modify (fun s => Mk_fd (irq_triggered s) (irq_count s) (fdc_controller_initialized s) l (fd_drives s) (fd_count s) (fd_hw s));
  unmask_irq6.

Definition fdc_get_status : A Z := fin FDD_MSR.
Definition fdc_motor_on (drive : Z) : A unit := fout FDD_DOR (Z.lor 28 (Z.land drive 3)).
Definition fdc_motor_off (drive : Z) : A unit := fout FDD_DOR (Z.lor 12 (Z.land drive 3)).

Fixpoint wait_for_irq (timeout : nat) : A bool :=
  match timeout with
  | O => mret false
  | S n => t ← gets irq_triggered; if t : bool then mret true else _ ← delay_ms 1; wait_for_irq n
  end.
Definition IRQ_TIMEOUT : nat := Z.to_nat 3000.
Definition fdc_wait_for_irq : A bool := wait_for_irq IRQ_TIMEOUT.

Definition fdc_send_command (command : Z) : A bool :=
  r ← fdc_wait_write 100;
  if negb r then mret false else _ ← fout FDD_FIFO command; mret true.
Definition fdc_read_data : A Z :=
  r ← fdc_wait_read 100;
  if negb r then mret 255 else fin FDD_FIFO.
(** [!fdc_send_command(a) || !fdc_send_command(b) || ...]: all of them, until one fails. *)
Fixpoint send_all (l : buf) : A bool :=
  match l with [] => mret true | c :: l' => r ← fdc_send_command c; if r : bool then send_all l' else mret false end.
Fixpoint read_results (n : nat) : A buf := match n with O => mret [] | S n' => x ← fdc_read_data; l ← read_results n'; mret (x :: l) end.

Definition fdc_full_reset : A unit :=
  _ ← fout FDD_DOR 0;
  _ ← delay_ms 20;
  _ ← fout FDD_DOR 12;
  _ ← delay_ms 20;
  fout FDD_CCR 0.

(** [buffer] is an address. *)
Definition dma_prepare_floppy (buffer length_ : Z) (read : bool) : A unit :=
  _ ← fout DMA_CHANNEL_MASK 6;
  _ ← fout DMA_CLEAR 0;
  let address := Z.land buffer 65535 in
  _ ← fout DMA_ADDR_PORT (Z.land address 255);
  _ ← fout DMA_ADDR_PORT (Z.land (Z.shiftr address 8) 255);
  let page := Z.land (Z.shiftr buffer 16) 255 in
  _ ← fout DMA_PAGE_PORT page;
  let count := u16 (length_ - 1) in
  _ ← fout DMA_COUNT_PORT (Z.land count 255);
  _ ← fout DMA_COUNT_PORT (Z.land (Z.shiftr count 8) 255);
  _ ← fout DMA_MODE (if read then 70 else 74);
  fout DMA_CHANNEL_MASK DMA_UNMASK_CHANNEL.

(** [n] rounds of the loop that clears the interrupts of a reset. *)
Fixpoint clear_interrupts (n : nat) : A unit :=
  match n with
  | O => mret tt
  | S n' =>
      _ ← set_triggered false;
      _ ← delay_ms 10;
      _ ← fdc_send_command 8;
      _ ← fdc_read_data;
      _ ← fdc_read_data;
      clear_interrupts n'
  end.
Definition fdc_init_controller : A bool :=
  _ ← fdc_initialize;
  _ ← fout FDD_DOR 0;
  _ ← delay_ms 10;
  _ ← fout FDD_DOR 12;
  _ ← delay_ms 10;
  _ ← fout FDD_CCR 0;
  _ ← clear_interrupts 4;
  send_all [3; 223; 2].

(** The arguments are bytes; the name with [fdc_] is the interface of FAT12. *)
Definition fdd_read_sector (drive head track sector buffer : Z) : A bool :=
  r ← fdc_wait_write 100;
  if negb r then mret false else
  _ ← dma_prepare_floppy buffer SECTOR_SIZE true;
  _ ← set_triggered false;
  r ← send_all [FDD_CMD_READ; u8 (Z.lor (Z.shiftl head 2) (Z.land drive 3)); track; head; sector; 2; 18; 27; 255];
  if negb r then mret false else
  r ← fdc_wait_for_irq;
  if negb r then mret false else
  l ← read_results 7;
  st0 ← lift (l !! 0%nat);
  mret (Z.land st0 192 =? 0).

(** The attempts of a calibration. *)
Fixpoint calibrate_loop (n : nat) (drive : Z) : A bool :=
  match n with
  | O => mret false
  | S n' =>
      _ ← fdc_motor_on drive;
      _ ← delay_ms 500;
      _ ← set_triggered false;
      r ← send_all [FDD_CMD_RECALIBRATE; Z.land drive 3];
      if negb r then _ ← fdc_motor_off drive; calibrate_loop n' drive else
      r ← fdc_wait_for_irq;
      if negb r then _ ← fdc_motor_off drive; _ ← fdc_full_reset; calibrate_loop n' drive else
      r ← fdc_send_command 8;
      if negb r then _ ← fdc_motor_off drive; _ ← fdc_full_reset; calibrate_loop n' drive else
      st0 ← fdc_read_data;
      cyl ← fdc_read_data;
      _ ← fdc_motor_off drive;
      if negb (Z.land st0 32 =? 0) && (cyl =? 0) then mret true else
      _ ← fdc_full_reset;
      _ ← delay_ms 100;
      calibrate_loop n' drive
  end.
Definition fdc_calibrate_drive (drive : Z) : A bool := calibrate_loop 3 drive.

Context (alloc_ok : Z -> bool) (temp : drive_t).   (* malloc, and what is in its block *)

(** The table of drives has MAX_DRIVES slots. *)
Definition register_drive (drive : Z) : A unit :=
  n ← lift (snprintf (Ata.name temp) 8 (lit "fdd%d") [VInt drive]);
  mp ← lift (if (length (Ata.mount_point temp) =? 0)%nat then None else Some (<[0%nat := 0]> (Ata.mount_point temp)));
  let d := Mk_drive DRIVE_TYPE_FDD (base_of temp) (is_master temp) (snd n) (Ata.model temp) (Ata.sectors temp) 80 2 18 drive mp in
  k ← gets fd_count;
  l ← gets fd_drives;
  l ← lift (put_index l k d);
  modify (fun s => Mk_fd (irq_triggered s) (irq_count s) (fdc_controller_initialized s) (fd_routines s) l (swrap 16 (k + 1)) (fd_hw s)).
Definition sizeof_drive_t : Z := 140.
Definition probe_drive (drive : Z) : A unit :=
  _ ← fdc_motor_on drive;
  _ ← delay_ms 500;
  r ← fdc_calibrate_drive drive;
  if negb r then fdc_motor_off drive else
  msr ← fdc_get_status;
  if Z.land msr 128 =? 0 then fdc_motor_off drive else
  if negb (alloc_ok sizeof_drive_t) then fdc_motor_off drive else
  _ ← register_drive drive;
  fdc_motor_off drive.
Definition fdd_detect_drives : A unit :=
  i ← gets fdc_controller_initialized;
  ok ← (if i : bool then mret true else
        r ← fdc_init_controller;
        if negb r then mret false else
        _ ← modify (fun s => Mk_fd (irq_triggered s) (irq_count s) true (fd_routines s) (fd_drives s) (fd_count s) (fd_hw s));
        mret true);
  if negb ok then mret tt else
  _ ← probe_drive 0;
  probe_drive 1.
End Driver.

(** ** The controller

    A command is a sequence of bytes, then the controller works for some milliseconds and
    raises the interrupt, then the results are read.  The tracks are found without a seek
    command, as with implied seeks.  What is not said here has no value ([None]). *)

Inductive phase := Command (l : buf) | Execution (left : Z) (l : buf) | Result (l : buf).
Record fdc := Mk_fdc {
  f_phase : phase; f_dor : Z; f_irq : bool; f_imr : Z;
  dma_masked : bool; dma_high : bool; dma_addr : Z; dma_count : Z; dma_page : Z; dma_mode : Z;
  f_mem : Z -> Z; f_disk : Z -> Z -> Z -> Z -> buf
}.
Definition with_phase (d : fdc) (p : phase) : fdc :=
  Mk_fdc p (f_dor d) (f_irq d) (f_imr d) (dma_masked d) (dma_high d) (dma_addr d) (dma_count d) (dma_page d) (dma_mode d) (f_mem d) (f_disk d).
Definition with_irq (d : fdc) (b : bool) : fdc :=
  Mk_fdc (f_phase d) (f_dor d) b (f_imr d) (dma_masked d) (dma_high d) (dma_addr d) (dma_count d) (dma_page d) (dma_mode d) (f_mem d) (f_disk d).
Definition with_channel (d : fdc) (masked high : bool) (addr count page mode : Z) : fdc :=
  Mk_fdc (f_phase d) (f_dor d) (f_irq d) (f_imr d) masked high addr count page mode (f_mem d) (f_disk d).
Definition with_fmem (d : fdc) (m : Z -> Z) : fdc :=
  Mk_fdc (f_phase d) (f_dor d) (f_irq d) (f_imr d) (dma_masked d) (dma_high d) (dma_addr d) (dma_count d) (dma_page d) (dma_mode d) m (f_disk d).
Definition with_dor (d : fdc) (v : Z) : fdc :=
  Mk_fdc (f_phase d) v (f_irq d) (f_imr d) (dma_masked d) (dma_high d) (dma_addr d) (dma_count d) (dma_page d) (dma_mode d) (f_mem d) (f_disk d).

(** The drive is selected, its motor runs, and interrupts and transfers are enabled. *)
Definition motor_runs (d : fdc) (drive : Z) : bool :=
  (f_dor d mod 4 =? drive) && Z.testbit (f_dor d) (4 + drive) && Z.testbit (f_dor d) 2 && Z.testbit (f_dor d) 3.

(** The transfer stays in its 64 KB page. *)
Definition dma_target (d : fdc) (k : Z) : Z := dma_page d * 65536 + (dma_addr d + k) mod 65536.
Definition dma_write (d : fdc) (l : buf) : Z -> Z := fun a =>
  let k := (a - dma_addr d) mod 65536 in
  if a / 65536 =? dma_page d then match l !! Z.to_nat k with Some v => v | None => f_mem d a end else f_mem d a.

(** The end of a read command. *)
Definition read_done (l : buf) (d : fdc) : option fdc :=
  match l with
  | [cmd; hd; c; h; r; n; _; _; _] =>
      let drive := hd mod 4 in
      if (cmd =? FDD_CMD_READ) && (n =? 2) && motor_runs d drive && negb (dma_masked d) && (dma_mode d =? 70) && (dma_count d =? 511) && (hd / 4 =? h) && (h <? 2) && (c <? 80) && (1 <=? r) && (r <=? 18)
      then Some (with_irq (with_phase (with_fmem d (dma_write d (f_disk d drive h c r))) (Result [hd; 0; 0; c; h; r + 1; 2])) true)
      else None
  | _ => None
  end.

Definition f_msr (d : fdc) : Z := match f_phase d with Command [] => 128 | Command _ => 144 | Execution _ _ => 16 | Result _ => 208 end.
Definition f_in (port : Z) (d : fdc) : option (Z * fdc) :=
  if port =? FDD_MSR then Some (f_msr d, d)
  else if port =? FDD_FIFO then match f_phase d with Result (x :: l) => Some (x, with_phase d (match l with [] => Command [] | _ => Result l end)) | _ => None end
  else None.
Definition f_out (exec_ms : Z) (port v : Z) (d : fdc) : option fdc :=
  if port =? FDD_FIFO then
    match f_phase d with
    | Command l =>
        let l' := l ++ [v] in
        if default 0 (l' !! 0%nat) =? FDD_CMD_READ then Some (with_phase d (if (length l' =? 9)%nat then Execution exec_ms l' else Command l')) else None
    | _ => None
    end
  else if port =? FDD_DOR then if Z.testbit (f_dor d) 2 && Z.testbit v 2 then Some (with_dor d v) else None
  else if port =? PIC1_COMMAND then Some d
  else if port =? DMA_CHANNEL_MASK then if v mod 4 =? 2 then Some (with_channel d (Z.testbit v 2) (dma_high d) (dma_addr d) (dma_count d) (dma_page d) (dma_mode d)) else None
  else if port =? DMA_CLEAR then Some (with_channel d (dma_masked d) false (dma_addr d) (dma_count d) (dma_page d) (dma_mode d))
  else if port =? DMA_ADDR_PORT then
    Some (with_channel d (dma_masked d) (negb (dma_high d)) (if dma_high d then dma_addr d mod 256 + 256 * v else dma_addr d / 256 * 256 + v) (dma_count d) (dma_page d) (dma_mode d))
  else if port =? DMA_COUNT_PORT then
    Some (with_channel d (dma_masked d) (negb (dma_high d)) (dma_addr d) (if dma_high d then dma_count d mod 256 + 256 * v else dma_count d / 256 * 256 + v) (dma_page d) (dma_mode d))
  else if port =? DMA_PAGE_PORT then Some (with_channel d (dma_masked d) (dma_high d) (dma_addr d) (dma_count d) v (dma_mode d))
  else if port =? DMA_MODE then if v mod 4 =? 2 then Some (with_channel d (dma_masked d) (dma_high d) (dma_addr d) (dma_count d) (dma_page d) v) else None
  else None.
Definition f_delay (ms : Z) (d : fdc) : option fdc :=
  match f_phase d with
  | Execution n l => if n <=? ms then read_done l d else Some (with_phase d (Execution (n - ms) l))
  | _ => Some d
  end.

Class FdcDevice (H : Type) `{Ports H} `{IrqLine H} := {
  fdc_of : H -> fdc;
  exec_ms : Z;
  exec_range : 0 < exec_ms < 3000;
  fdc_outb : forall port v h d, byte_ok v -> f_out exec_ms port v (fdc_of h) = Some d -> fdc_of (dev_outb port v h) = d;
  fdc_inb : forall port h x d, f_in port (fdc_of h) = Some (x, d) -> exists v h', dev_inb port h = (v, h') /\ u8 v = u8 x /\ fdc_of h' = d;
  fdc_delay : forall ms h d, f_delay ms (fdc_of h) = Some d -> fdc_of (dev_delay ms h) = d;
  fdc_irq : forall h, irq6 h = f_irq (fdc_of h) && negb (Z.testbit (f_imr (fdc_of h)) 6);
  fdc_ack : forall h, fdc_of (ack6 h) = with_irq (fdc_of h) false;
  disk_length : forall h d hd t c, length (f_disk (fdc_of h) d hd t c) = FAT12_SECTOR_SIZE;
  disk_bytes : forall h d hd t c, bytes_ok (f_disk (fdc_of h) d hd t c)
}.

(** ** Running the driver on the controller *)

Section Runs.
Context {H : Type} `{FdcDevice H} (handler : Z).

(** [m] takes the controller from [d] to [d'] and the flag from [t] to [t'], with result [a];
    the other variables stay. *)
Record kept (s s' : fdc_driver H) : Prop := {
  kept_routines : fd_routines s' = fd_routines s; kept_drives : fd_drives s' = fd_drives s; kept_count : fd_count s' = fd_count s;
  kept_init : fdc_controller_initialized s' = fdc_controller_initialized s
}.
Definition installed (s : fdc_driver H) : Prop := default 0 (fd_routines s !! 6%nat) = handler.
Definition runs {X} (m : M (fdc_driver H) X) (d : fdc) (t : bool) (a : X) (d' : fdc) (t' : bool) : Prop :=
  forall s, installed s -> fdc_of (fd_hw s) = d -> irq_triggered s = t -> exists s', m s = Some (a, s') /\ fdc_of (fd_hw s') = d' /\ irq_triggered s' = t' /\ kept s s'.

Lemma kept_refl s : kept s s.
Proof. by split. Qed.
Lemma kept_trans s1 s2 s3 : kept s1 s2 -> kept s2 s3 -> kept s1 s3.
Proof. intros [] []. split; congruence. Qed.
Lemma fd_bind {X Y} (m : M (fdc_driver H) X) (k : X -> M (fdc_driver H) Y) d t a d1 t1 b d2 t2 :
  runs m d t a d1 t1 -> runs (k a) d1 t1 b d2 t2 -> runs (m ≫= k) d t b d2 t2.
Proof.
  intros Hm Hk s Hi Hd Ht. destruct (Hm s Hi Hd Ht) as (s1 & E & Ed & Et & K1). rewrite (bind_eq _ _ _ _ _ E).
  destruct (Hk s1) as (s2 & E2 & Ed2 & Et2 & K2); [unfold installed in *; by rewrite (kept_routines _ _ K1)|done|done|]. exists s2. split; [done|]. split; [done|]. split; [done|]. by eapply kept_trans.
Qed.
Lemma fd_ret {X} (a : X) d t : runs (mret a) d t a d t.
Proof. intros s _ Hd Ht. exists s. by split_and!; [| | |apply kept_refl]. Qed.
Lemma fd_lift {X Y} (o : option X) x (k : X -> M (fdc_driver H) Y) d t b d' t' : o = Some x -> runs (k x) d t b d' t' -> runs (lift o ≫= k) d t b d' t'.
Proof. intros -> Hk. exact Hk. Qed.
Lemma fd_eq {X} (m : M (fdc_driver H) X) d t a d1 d2 t' : runs m d t a d1 t' -> d1 = d2 -> runs m d t a d2 t'.
Proof. by intros Hm <-. Qed.
Lemma runs_triggered b d t : runs (set_triggered b) d t tt d b.
Proof. intros s _ Hd Ht. eexists. split; [done|]. by split_and!. Qed.

(** Without an interrupt, and with one. *)
Lemma take_quiet d t : f_irq d = false -> runs (take_irq handler) d t tt d t.
Proof. intros Hq s Hi Hd Ht. unfold take_irq. rewrite gets_bind, fdc_irq, Hd, Hq. cbn [andb negb]. by apply (fd_ret tt d t). Qed.
Lemma take_pending d t : f_irq d = true -> Z.testbit (f_imr d) 6 = false -> runs (take_irq handler) d t tt (with_irq d false) true.
Proof.
  intros Hq Hm s Hi Hd Ht. unfold take_irq. rewrite gets_bind, fdc_irq, Hd, Hq, Hm. cbn [andb negb]. rewrite modify_bind, gets_bind.
  change (fd_routines (fd_at s (ack6 (fd_hw s)))) with (fd_routines s). rewrite Hi, Z.eqb_refl. eexists. split; [reflexivity|]. split; [|done].
  cbn. erewrite fdc_outb; [|done|]; cycle 1. { unfold f_out. cbn. reflexivity. } rewrite fdc_ack. by rewrite Hd.
Qed.

Lemma fout_runs port v d d' t : byte_ok v -> 0 <= port < 65536 -> f_out exec_ms port v d = Some d' -> f_irq d' = false -> runs (fout handler port v) d t tt d' t.
Proof.
  intros Hv Hp Ho Hq. eapply fd_bind; [|by apply take_quiet]. intros s Hi Hd Ht. unfold byte_ok in Hv. eexists. split; [done|]. split; [|done].
  cbn. rewrite !wrap_small by lia. apply fdc_outb; [done|]. by rewrite Hd.
Qed.
Lemma fin_runs port d x d' t : 0 <= port < 65536 -> byte_ok x -> f_in port d = Some (x, d') -> f_irq d' = false -> runs (fin handler port) d t x d' t.
Proof.
  intros Hp Hx Hf Hq. eapply fd_bind; [|eapply fd_bind; [by apply take_quiet|apply fd_ret]]. intros s Hi Hd Ht.
  destruct (fdc_inb port (fd_hw s) x d') as (v & h & E & Ev & Eh); [by rewrite Hd|]. unfold inb. cbn. rewrite (wrap_small 16) by lia. rewrite E, Ev.
  unfold byte_ok in Hx. rewrite wrap_small by lia. eexists. split; [done|]. by split_and!.
Qed.
Lemma delay_quiet ms d d' t : f_delay ms d = Some d' -> f_irq d' = false -> runs (delay_ms handler ms) d t tt d' t.
Proof. intros Hf Hq. eapply fd_bind; [|by apply take_quiet]. intros s Hi Hd Ht. eexists. split; [done|]. split; [|done]. cbn. apply fdc_delay. by rewrite Hd. Qed.
Lemma delay_irq ms d d' t : f_delay ms d = Some d' -> f_irq d' = true -> Z.testbit (f_imr d') 6 = false -> runs (delay_ms handler ms) d t tt (with_irq d' false) true.
Proof. intros Hf Hq Hm. eapply fd_bind; [|by apply take_pending]. intros s Hi Hd Ht. eexists. split; [done|]. split; [|done]. cbn. apply fdc_delay. by rewrite Hd. Qed.

Lemma wait_write_runs n d t l : f_phase d = Command l -> f_irq d = false -> runs (fdc_wait_write handler (S n)) d t true d t.
Proof.
  intros Hp Hq. cbn [fdc_wait_write]. eapply (fd_bind _ _ _ _ true d t); [|apply fd_ret]. unfold fdc_ready_to_write.
  assert (f_in FDD_MSR d = Some (match l with [] => 128 | _ => 144 end, d)) as Ef by (unfold f_in, f_msr; rewrite Hp; by destruct l).
  eapply fd_bind; [eapply fin_runs; [| |exact Ef|exact Hq]; [done|by destruct l]|]. destruct l; apply fd_ret.
Qed.
Lemma wait_read_runs n d t l : f_phase d = Result l -> f_irq d = false -> runs (fdc_wait_read handler (S n)) d t true d t.
Proof.
  intros Hp Hq. cbn [fdc_wait_read]. eapply (fd_bind _ _ _ _ true d t); [|apply fd_ret]. unfold fdc_ready_to_read.
  assert (f_in FDD_MSR d = Some (208, d)) as Ef by (unfold f_in, f_msr; by rewrite Hp).
  eapply fd_bind; [eapply fin_runs; [| |exact Ef|exact Hq]; done|]. apply fd_ret.
Qed.

(** A command byte by byte, its results one by one. *)
Lemma fd_send c l d t : f_phase d = Command l -> f_irq d = false -> byte_ok c -> default 0 ((l ++ [c]) !! 0%nat) = FDD_CMD_READ ->
  runs (fdc_send_command handler c) d t true (with_phase d (if (length (l ++ [c]) =? 9)%nat then Execution exec_ms (l ++ [c]) else Command (l ++ [c]))) t.
Proof.
  intros Hp Hq Hc Hl. unfold fdc_send_command. eapply fd_bind; [by eapply (wait_write_runs 99)|]. cbn [negb]. eapply fd_bind; [|apply fd_ret].
  apply fout_runs; [done|done| |done]. unfold f_out. rewrite Hp, Hl. done.
Qed.
Lemma send_all_runs ls : forall l d t, ls <> [] -> f_phase d = Command l -> f_irq d = false -> bytes_ok ls -> default 0 ((l ++ ls) !! 0%nat) = FDD_CMD_READ -> length (l ++ ls) = 9%nat ->
  runs (send_all handler ls) d t true (with_phase d (Execution exec_ms (l ++ ls))) t.
Proof.
  induction ls as [|c ls IH]; intros l d t Hne Hp Hq Hb Hl Hn; [done|]. apply Forall_cons in Hb as [Hc Hb]. cbn [send_all].
  assert (default 0 ((l ++ [c]) !! 0%nat) = FDD_CMD_READ) as Hl1 by (by destruct l). eapply fd_bind; [by apply fd_send|]. cbv iota.
  rewrite length_app in Hn. cbn [length] in Hn. destruct (Nat.eqb_spec (length (l ++ [c])) 9) as [E|E]; rewrite length_app in E; cbn [length] in E.
  - destruct ls; [|cbn [length] in Hn; lia]. apply fd_ret.
  - eapply fd_eq; [apply (IH (l ++ [c])); [|done|done|done| |]|by rewrite <- app_assoc].
    + intros ->. cbn in Hn. lia.
    + by rewrite <- app_assoc.
    + rewrite !length_app. cbn. lia.
Qed.
Lemma read_data_runs x l d t : f_phase d = Result (x :: l) -> f_irq d = false -> byte_ok x ->
  runs (fdc_read_data handler) d t x (with_phase d (match l with [] => Command [] | _ => Result l end)) t.
Proof.
  intros Hp Hq Hx. unfold fdc_read_data. eapply fd_bind; [by eapply (wait_read_runs 99)|]. cbn [negb].
  apply fin_runs; [done|done| |done]. unfold f_in. by rewrite Hp.
Qed.
Lemma read_results_runs l : forall d t, l <> [] -> f_phase d = Result l -> f_irq d = false -> bytes_ok l -> runs (read_results handler (length l)) d t l (with_phase d (Command [])) t.
Proof.
  induction l as [|x l IH]; intros d t Hne Hp Hq Hb; [done|]. apply Forall_cons in Hb as [Hx Hb]. cbn [read_results length].
  eapply fd_bind; [by apply (read_data_runs x l)|]. destruct l as [|y l].
  - eapply (fd_bind _ _ _ _ []); [apply fd_ret|apply fd_ret].
  - eapply fd_bind; [by apply IH|]. apply fd_ret.
Qed.

(** The end of the command is waited for. *)
Lemma read_done_phase l d p : read_done l (with_phase d p) = read_done l d.
Proof. unfold read_done. repeat (case_match; try done). Qed.
Lemma read_done_irq l d d2 : read_done l d = Some d2 -> f_irq d2 = true /\ f_imr d2 = f_imr d.
Proof. unfold read_done. intros E. repeat (case_match; try done). by injection E as <-. Qed.
Lemma wait_irq_runs l k : forall n d d2, f_phase d = Execution n l -> 0 < n <= Z.of_nat k -> read_done l d = Some d2 -> f_irq d = false -> Z.testbit (f_imr d) 6 = false ->
  runs (wait_for_irq handler (S k)) d false true (with_irq d2 false) true.
Proof.
  assert (forall k d, runs (wait_for_irq handler (S k)) d true true d true) as Hnow.
  { clear. intros k d s Hi Hd Ht. cbn [wait_for_irq]. rewrite gets_bind, Ht. by apply (fd_ret true d true s). }
  assert (forall k d b d' t', runs (delay_ms handler 1 ≫= fun _ => wait_for_irq handler k) d false b d' t' -> runs (wait_for_irq handler (S k)) d false b d' t') as Hstep.
  { clear. intros k d b d' t' Hr s Hi Hd Ht. cbn [wait_for_irq]. rewrite gets_bind, Ht. by apply Hr. }
  induction k as [|k IH]; intros n d d2 Hp Hn Hr Hq Hm; [lia|]. apply Hstep. destruct (read_done_irq _ _ _ Hr) as [Hi Hi2]. destruct (Z.leb_spec n 1) as [Hle|Hgt].
  - eapply fd_bind; [apply delay_irq; [|exact Hi|by rewrite Hi2]|apply Hnow]. unfold f_delay. rewrite Hp. by rewrite (proj2 (Z.leb_le n 1) Hle).
  - eapply fd_bind; [apply (delay_quiet 1 d (with_phase d (Execution (n - 1) l))); [|done]|apply (IH (n - 1)); [done|lia|by rewrite read_done_phase|done|done]].
    unfold f_delay. rewrite Hp. by rewrite (proj2 (Z.leb_gt n 1) Hgt).
Qed.

(** The channel is set up for a sector at [a]. *)
Ltac port := eapply fd_bind; [eapply fout_runs; [first [done|apply land_byte_ok]|done|reflexivity|done]|unfold with_channel; cbn [f_phase f_dor f_irq f_imr dma_masked dma_high dma_addr dma_count dma_page dma_mode f_mem f_disk negb]].
Lemma dma_prepare_runs a d t : f_irq d = false -> 0 <= a < 2 ^ 24 ->
  runs (dma_prepare_floppy handler a SECTOR_SIZE true) d t tt (with_channel d false false (a mod 65536) 511 (a / 65536) 70) t.
Proof.
  intros Hq Ha. destruct d as [ph dor irq imr mk hi ad cn pg md m dk]. cbn in Hq. subst irq. unfold dma_prepare_floppy. set (lo := Z.land (Z.land a 65535) 255). set (mid := Z.land (Z.shiftr (Z.land a 65535) 8) 255).
  set (high := Z.land (Z.shiftr a 16) 255). change (u16 (SECTOR_SIZE - 1)) with 511. change (Z.land 511 255) with 255. change (Z.land (Z.shiftr 511 8) 255) with 1. do 8 port.
  eapply fd_eq; [eapply fout_runs; [done|done|reflexivity|done]|]. unfold with_channel. cbn [f_phase f_dor f_irq f_imr dma_masked dma_high dma_addr dma_count dma_page dma_mode f_mem f_disk negb].
  assert (lo = a mod 256 /\ mid = a / 256 mod 256 /\ high = a / 65536) as (-> & -> & ->).
  { unfold lo, mid, high. change 65535 with (Z.ones 16). change 255 with (Z.ones 8). rewrite !Z.shiftr_div_pow2, !Z.land_ones by lia. change (2 ^ 16) with 65536. change (2 ^ 8) with 256. split_and!; zlia. }
  f_equal; zlia.
Qed.

(** The controller between two commands, with the motor of a drive running. *)
Record ready (d : fdc) (drive : Z) : Prop := {
  rd_phase : f_phase d = Command []; rd_irq : f_irq d = false; rd_imr : Z.testbit (f_imr d) 6 = false; rd_motor : motor_runs d drive = true; rd_drive : 0 <= drive < 4
}.
(** A buffer that one transfer reaches: below 16 MB, within 64 KB. *)
Definition dma_ok (a : Z) : Prop := 0 <= a /\ a + SECTOR_SIZE <= 2 ^ 24 /\ a mod 65536 + SECTOR_SIZE <= 65536.

Definition read_end (d : fdc) (a : Z) (l : buf) : fdc :=
  let d1 := with_channel d false false (a mod 65536) 511 (a / 65536) 70 in with_phase (with_fmem d1 (dma_write d1 l)) (Command []).

Lemma drive_byte h drive : 0 <= h < 2 -> 0 <= drive < 4 -> u8 (Z.lor (Z.shiftl h 2) (Z.land drive 3)) = 4 * h + drive.
Proof.
  intros Hh Hd. change 3 with (Z.ones 2). rewrite Z.land_ones, Z.mod_small, lor_shiftl_add by (change (2 ^ 2) with 4; lia). change (2 ^ 2) with 4. rewrite wrap_small by lia. lia.
Qed.

Lemma read_sector_runs drive h c r a d t : ready d drive -> 0 <= h < 2 -> 0 <= c < 80 -> 1 <= r <= 18 -> dma_ok a ->
  runs (fdd_read_sector handler drive h c r a) d t true (read_end d a (f_disk d drive h c r)) true.
Proof.
  intros [Hp Hq Hm Hmo Hd] Hh Hc Hr (Ha0 & Ha1 & Ha2). unfold SECTOR_SIZE in *. pose proof exec_range as He. unfold fdd_read_sector.
  eapply fd_bind; [by eapply (wait_write_runs 99)|]. cbn [negb]. eapply fd_bind; [apply dma_prepare_runs; [done|lia]|]. set (d1 := with_channel d _ _ _ _ _ _).
  eapply fd_bind; [apply runs_triggered|]. rewrite drive_byte by done. set (cmd := [FDD_CMD_READ; _; c; h; r; 2; 18; 27; 255]).
  assert (bytes_ok cmd) as Hcmd by (unfold cmd, FDD_CMD_READ; repeat (apply Forall_cons; split; [unfold byte_ok; lia|]); apply Forall_nil_2).
  eapply fd_bind; [by apply (send_all_runs cmd [])|]. cbn [negb app]. set (d2 := with_phase d1 _).
  set (d3 := with_irq (with_phase (with_fmem d2 (dma_write d2 (f_disk d2 drive h c r))) (Result [4 * h + drive; 0; 0; c; h; r + 1; 2])) true).
  assert (read_done cmd d2 = Some d3) as Hdone.
  { unfold read_done, cmd. assert ((4 * h + drive) mod 4 = drive /\ (4 * h + drive) / 4 = h) as [-> ->] by zlia. change (motor_runs d2 drive) with (motor_runs d drive). rewrite Hmo, !Z.eqb_refl.
    destruct (Z.ltb_spec h 2), (Z.ltb_spec c 80), (Z.leb_spec 1 r), (Z.leb_spec r 18); try lia. done. }
  eapply fd_bind.
  { unfold fdc_wait_for_irq. replace IRQ_TIMEOUT with (S (Z.to_nat 2999)) by (unfold IRQ_TIMEOUT; lia). apply (wait_irq_runs cmd _ exec_ms d2 d3); try done. lia. }
  cbn [negb]. eapply fd_bind; [apply (read_results_runs [4 * h + drive; 0; 0; c; h; r + 1; 2]); [done|done|done|]|].
  { repeat (apply Forall_cons; split; [unfold byte_ok; lia|]). apply Forall_nil_2. }
  eapply fd_lift; [reflexivity|]. assert ((Z.land (4 * h + drive) 192 =? 0) = true) as ->.
  { assert (h = 0 \/ h = 1) as [-> | ->] by lia; assert (drive = 0 \/ drive = 1 \/ drive = 2 \/ drive = 3) as [-> | [-> | [-> | ->]]] by lia; reflexivity. }
  eapply fd_eq; [apply fd_ret|]. unfold d3, d2, d1, read_end. destruct d. cbn in Hq. by subst.
Qed.

(** Then the sector is in memory, and nothing else has changed there. *)
Lemma read_end_mem d a l : dma_ok a -> Z.of_nat (length l) = SECTOR_SIZE -> forall x,
  f_mem (read_end d a l) x = if (a <=? x) && (x <? a + SECTOR_SIZE) then default 0 (l !! Z.to_nat (x - a)) else f_mem d x.
Proof.
  intros (H0a & H1a & H2a) Hl x. unfold SECTOR_SIZE in *. cbn. unfold dma_write. cbn. destruct (Z.eqb_spec (x / 65536) (a / 65536)) as [E|E].
  - destruct (Z.leb_spec a x), (Z.ltb_spec x (a + 512)); cbn [andb].
    + replace ((x - a mod 65536) mod 65536) with (x - a) by zlia. by destruct (lookup_lt_is_Some_2 l (Z.to_nat (x - a))) as [v ->]; [lia|].
    + rewrite lookup_ge_None_2; [done|]. zlia.
    + rewrite lookup_ge_None_2; [done|]. zlia.
    + zlia.
  - destruct (Z.leb_spec a x), (Z.ltb_spec x (a + 512)); cbn [andb]; try done. zlia.
Qed.
End Runs.

(** ** The interface of FAT12 *)

Section Interface.
Context {H : Type} `{FdcDevice H} (handler a : Z) (a_ok : dma_ok a).

Definition sector_bytes (h : H) : buf := map (fun k => u8 (f_mem (fdc_of h) (a + Z.of_nat k))) (seq 0 (Z.to_nat SECTOR_SIZE)).

(** The sector is what is in the buffer at [a] after a successful call. *)
Definition fdd_floppy : Floppy (fdc_driver H) := {|
  fdc_read_sector d h t c s :=
    match fdd_read_sector handler d h t c a s with
    | Some (true, s') => (Some (sector_bytes (fd_hw s')), s')
    | Some (false, s') => (None, s')
    | None => (None, s)
    end
|}.

Lemma ready_end d drive l : ready d drive -> ready (read_end d a l) drive.
Proof. intros [Hp Hq Hm Hmo Hd]. by split. Qed.

Lemma sector_bytes_end (h : H) d l : fdc_of h = read_end d a l -> bytes_ok l -> Z.of_nat (length l) = SECTOR_SIZE -> sector_bytes h = l.
Proof using a_ok.
  intros E Hb Hl. unfold SECTOR_SIZE in *. apply list_eq. intros i. unfold sector_bytes. rewrite list_lookup_fmap, E. destruct (decide (i < 512)%nat) as [Hi|].
  - rewrite lookup_seq_lt by (unfold SECTOR_SIZE; lia). cbn [fmap option_fmap option_map]. rewrite (read_end_mem d a l a_ok Hl).
    destruct (Z.leb_spec a (a + Z.of_nat (0 + i))), (Z.ltb_spec (a + Z.of_nat (0 + i)) (a + SECTOR_SIZE)); unfold SECTOR_SIZE in *; try lia. cbn [andb].
    replace (Z.to_nat (a + Z.of_nat (0 + i) - a)) with i by lia. destruct (lookup_lt_is_Some_2 l i) as [v Ev]; [lia|]. rewrite Ev. cbn. f_equal. apply wrap_small. exact (Forall_lookup_1 _ _ _ _ Hb Ev).
  - rewrite lookup_seq_ge by (unfold SECTOR_SIZE; lia). symmetry. apply lookup_ge_None. lia.
Qed.

Lemma fdd_read_ok drive h c r (s : fdc_driver H) : installed handler s -> ready (fdc_of (fd_hw s)) drive -> 0 <= h < 2 -> 0 <= c < 80 -> 1 <= r <= 18 ->
  exists s', fdd_read_sector handler drive h c r a s = Some (true, s') /\ fdc_of (fd_hw s') = read_end (fdc_of (fd_hw s)) a (f_disk (fdc_of (fd_hw s)) drive h c r) /\ kept s s' /\
    sector_bytes (fd_hw s') = f_disk (fdc_of (fd_hw s)) drive h c r.
Proof using a_ok.
  intros Hi Hr Hh Hc Hs. destruct (read_sector_runs handler drive h c r a _ (irq_triggered s) Hr Hh Hc Hs a_ok s Hi eq_refl eq_refl) as (s' & E & Ed & _ & K). exists s'. split; [done|]. split; [done|]. split; [done|].
  eapply sector_bytes_end; [exact Ed|apply disk_bytes|]. by rewrite disk_length.
Qed.

#[refine] Definition fdd_laws : @FloppyLaws (fdc_driver H) fdd_floppy :=
  @Build_FloppyLaws _ fdd_floppy (fun s => f_disk (fdc_of (fd_hw s))) (fun s d => installed handler s /\ ready (fdc_of (fd_hw s)) d) _ _.
Proof using a_ok.
  - intros s d h t c. apply disk_length.
  - intros s d h t c [Hi Hr] Hh Ht Hc. destruct (fdd_read_ok d h t c s Hi Hr Hh Ht Hc) as (s' & E & Ed & K & Es). exists s'. cbn [fdc_read_sector fdd_floppy]. rewrite E, Es. split; [done|]. rewrite Ed. split; [|done].
    intros d' [_ Hr']. split; [|by apply ready_end]. unfold installed. by rewrite (kept_routines _ _ K).
Defined.
End Interface.

(** ** The motor *)

Section Motor.
Context {H : Type} `{FdcDevice H} (handler : Z).

Lemma motor_on_runs drive d t : 0 <= drive < 4 -> Z.testbit (f_dor d) 2 = true -> f_irq d = false -> runs handler (fdc_motor_on handler drive) d t tt (with_dor d (28 + drive)) t.
Proof.
  intros Hd Hb Hq. assert (Z.lor 28 (Z.land drive 3) = 28 + drive) as E by (assert (drive = 0 \/ drive = 1 \/ drive = 2 \/ drive = 3) as [-> | [-> | [-> | ->]]] by lia; reflexivity).
  unfold fdc_motor_on. rewrite E. apply fout_runs; [unfold byte_ok; lia|done| |done]. unfold f_out. rewrite Hb.
  assert (Z.testbit (28 + drive) 2 = true) as -> by (assert (drive = 0 \/ drive = 1 \/ drive = 2 \/ drive = 3) as [-> | [-> | [-> | ->]]] by lia; reflexivity). done.
Qed.

(** The bit that is set is the motor of the first drive, whatever the drive is: the motor of
    another drive does not run. *)
Theorem second_drive_motor drive (s : fdc_driver H) (Hi : installed handler s) (Hd : 0 < drive < 4) (Hb : Z.testbit (f_dor (fdc_of (fd_hw s))) 2 = true) (Hq : f_irq (fdc_of (fd_hw s)) = false) :
  exists s', fdc_motor_on handler drive s = Some (tt, s') /\ motor_runs (fdc_of (fd_hw s')) drive = false.
Proof.
  destruct (motor_on_runs drive _ (irq_triggered s) ltac:(lia) Hb Hq s Hi eq_refl eq_refl) as (s' & E & Ed & _). exists s'. split; [done|]. rewrite Ed.
  assert (drive = 1 \/ drive = 2 \/ drive = 3) as [-> | [-> | ->]] by lia; reflexivity.
Qed.
End Motor.

(** ** A file from the floppy disk *)

Section File.
Context {H : Type} `{FdcDevice H} (handler a : Z) (a_ok : dma_ok a) (alloc_ok : Z -> bool) (fresh : nat -> buf).
Context (alloc_sector : alloc_ok (Z.of_nat FAT12_SECTOR_SIZE) = true) (Hfresh : forall n, length (fresh n) = n).
#[local] Instance the_floppy : Floppy (fdc_driver H) := fdd_floppy handler a.

(** A logical sector and a cluster of the disk in the drive. *)
Definition disk_sector (f : fat12_t) (drive : Z) (s : fdc_driver H) (ls : Z) : buf :=
  let spt := sectors_per_track (boot_sector f) in let hds := heads (boot_sector f) in
  f_disk (fdc_of (fd_hw s)) drive (ls / spt mod hds) (ls / (spt * hds)) (ls mod spt + 1).
Definition disk_cluster (f : fat12_t) (drive : Z) (s : fdc_driver H) (c : Z) : buf :=
  let spc := sectors_per_cluster (boot_sector f) in run_of (disk_sector f drive s) (data_start f + (c - 2) * spc) (Z.to_nat spc).

End File.

(** ** A controller to try it on *)

Definition sim_disk (d h t c : Z) : buf := map u8 (sector_of disk12 (36 * t + 18 * h + c - 1)).
Definition with_disk (d : fdc) : fdc :=
  Mk_fdc (f_phase d) (f_dor d) (f_irq d) (f_imr d) (dma_masked d) (dma_high d) (dma_addr d) (dma_count d) (dma_page d) (dma_mode d) (f_mem d) sim_disk.
#[global] Instance fdc_ports : Ports fdc := {|
  dev_inb p d := default (255, d) (f_in p (with_disk d));
  dev_outb p v d := default d (f_out 2 p v (with_disk d));
  dev_insw _ n d := (replicate (2 * n) 255, d); dev_outsw _ _ d := d;
  dev_delay ms d := default d (f_delay ms (with_disk d))
|}.
#[global] Instance fdc_line : IrqLine fdc := {| irq6 d := f_irq d && negb (Z.testbit (f_imr d) 6); ack6 d := with_irq d false |}.

Lemma with_disk_id d : f_disk d = sim_disk -> with_disk d = d.
Proof. destruct d. cbn. by intros ->. Qed.
Lemma f_out_disk e p v d d' : f_out e p v d = Some d' -> f_disk d' = f_disk d.
Proof. unfold f_out. intros E. repeat (case_match; try done); by injection E as <-. Qed.
Lemma f_in_disk p d x d' : f_in p d = Some (x, d') -> f_disk d' = f_disk d.
Proof. unfold f_in. intros E. repeat (case_match; try done); by injection E as <- <-. Qed.
Lemma f_delay_disk ms d d' : f_delay ms d = Some d' -> f_disk d' = f_disk d.
Proof. unfold f_delay, read_done. intros E. repeat (case_match; try done); by injection E as <-. Qed.

#[global, refine] Instance fdc_device : FdcDevice fdc := {| fdc_of := with_disk; exec_ms := 2 |}.
Proof.
  - lia.
  - intros p v h d _ E. cbn. rewrite E. apply with_disk_id. by rewrite (f_out_disk _ _ _ _ _ E).
  - intros p h x d E. cbn. rewrite E. exists x, d. split_and!; [done|done|]. apply with_disk_id. by rewrite (f_in_disk _ _ _ _ E).
  - intros ms h d E. cbn. rewrite E. apply with_disk_id. by rewrite (f_delay_disk _ _ _ E).
  - done.
  - done.
  - intros h d hd t c. change (length (sim_disk d hd t c) = FAT12_SECTOR_SIZE). unfold sim_disk. by rewrite length_map, length_sector_of.
  - intros h d hd t c. change (bytes_ok (sim_disk d hd t c)). unfold sim_disk. apply Forall_map, Forall_true. intros y. apply wrap_range. lia.
Defined.

Definition idle_fdc : fdc := Mk_fdc (Command []) 28 false 0 true false 0 0 0 0 (fun _ => 0) sim_disk.
Definition driver_0 : fdc_driver fdc := Mk_fd false 0 true (replicate 16 4096) [] 0 idle_fdc.
Definition unmounted_fdc : fs12 (fdc_driver fdc) := Mk_fs12 None None 0 None Null 0 driver_0.
Definition SIM_BUFFER : Z := 1048576.
#[local] Instance sim_floppy : Floppy (fdc_driver fdc) := fdd_floppy 4096 SIM_BUFFER.
Definition mounted_fdc : fs12 (fdc_driver fdc) := match fat12_init_fs always zeroed 0 unmounted_fdc with Some (_, s) => s | None => unmounted_fdc end.

Lemma mounted_fdc_eq : fat12 mounted_fdc = Some disk_fs /\ installed 4096 (fdd mounted_fdc) /\ current_fdd_drive mounted_fdc = 0.
Proof. vm_compute. by split_and!. Qed.
Lemma mounted_fdc_ready : ready (fdc_of (fd_hw (fdd mounted_fdc))) 0.
Proof. split; [vm_compute; reflexivity..|lia]. Qed.


Lemma second_drive_motor_witness : exists s', fdc_motor_on 4096 1 driver_0 = Some (tt, s') /\ motor_runs (fdc_of (fd_hw s')) 1 = false.
Proof. apply (second_drive_motor 4096 1 driver_0); [reflexivity|lia|reflexivity|reflexivity]. Defined.
