(* ===== verification/Timer.v ===== *)
(** kernel/time: the interval timer with its tick counter and delays (pit.c), the timer of
    the local APIC (apic.c), and the HPET with the search for its ACPI table (hpet.c).

    [pit_delay_ticks] is the busy waiting of [pit_delay]: a schedule says how many timer
    interrupts arrive before each round of its loop.  Physical memory is a function from
    addresses to bytes, as the code runs without paging; the registers of APIC and HPET are
    functions from their index to their contents. *)

From stdpp Require Import strings.
From S2P Require Import Prelude CString CStdlib Effects Ports CharDev Cpu.

(** ** pit.c *)

Definition PIT_FREQUENCY : Z := 1193182.
Definition PIT_COMMAND_PORT : Z := 67.
Definition PIT_CHANNEL_0_PORT : Z := 64.

(** The increment of [timer_tick_count]. *)
Definition tick (timer_tick_count : Z) : Z := u32 (timer_tick_count + 1).

Section Pit.
Context {H : Type} `{Ports H}.

(** The counter, and the end of interrupt. *)
Definition timer_irq_handler (timer_tick_count : Z) : M H Z := _ ← outb 32 32; mret (tick timer_tick_count).

Definition init_pit (frequency : Z) : M H unit :=
  if frequency =? 0 then undef else
  let divisor := u16 (PIT_FREQUENCY / frequency) in
  _ ← outb PIT_COMMAND_PORT 54;
  _ ← outb PIT_CHANNEL_0_PORT (u8 (Z.land divisor 255));
  outb PIT_CHANNEL_0_PORT (u8 (Z.land (Z.shiftr divisor 8) 255)).

Definition read_pit_counter : M H Z :=
  _ ← outb 67 0;
  lo ← inb 64;
  hi ← inb 64;
  mret (u16 (Z.lor lo (Z.shiftl hi 8))).
End Pit.

(** The handler goes to line 0 of the table; [timer_addr] is its address. *)
Definition timer_install {H} `{Ports H} (timer_addr ms : Z) : M (cpu H) unit :=
  _ ← register_interrupt_handler 0 timer_addr;
  if ms =? 0 then undef else
  fun c => match init_pit (1000 / ms) (cpu_hw c) with Some (x, h) => Some (x, with_cpu_hw c h) | None => None end.

Definition failsafe_timeout : Z := 10000.

(** The counter after [n] interrupts. *)
Fixpoint ticks (n : nat) (count : Z) : Z := match n with O => count | S n' => ticks n' (tick count) end.

(** The result is the counter at the end and whether the warning was printed. *)
Fixpoint delay_loop (arrivals : list nat) (start_tick milliseconds count : Z) : option (Z * bool) :=
  match arrivals with
  | [] => None
  | n :: rest =>
      let current_tick := ticks n count in
      if milliseconds <=? u32 (current_tick - start_tick) then Some (current_tick, false)
      else if failsafe_timeout <=? u32 (current_tick - start_tick) then Some (current_tick, true)
      else delay_loop rest start_tick milliseconds current_tick
  end.
Definition pit_delay_ticks (arrivals : list nat) (milliseconds timer_tick_count : Z) : option (Z * bool) :=
  delay_loop arrivals timer_tick_count milliseconds timer_tick_count.

(** ** apic.c *)

Definition APIC_VECTOR_BASE : Z := 34.
Definition APIC_LVT_TIMER : Z := 800.
Definition IA32_APIC_BASE_MSR : Z := 27.
Definition APIC_BASE_ENABLE : Z := 2048.
Definition TIMER_MASKED : Z := 65536.

(** The memory-mapped registers by index of their 32-bit word, and the model-specific
    registers. *)
Record apic_state := Mk_apic { apic_regs : Z -> Z; msrs : Z -> Z }.
Definition set_reg (f : Z -> Z) (i v : Z) : Z -> Z := fun j => if j =? i then v else f j.

Definition apic_eoi (a : apic_state) : apic_state := Mk_apic (set_reg (apic_regs a) (176 / 4) 0) (msrs a).
Definition apic_timer_stop (a : apic_state) : apic_state :=
  Mk_apic (set_reg (apic_regs a) (APIC_LVT_TIMER / 4) (u32 (Z.lor (apic_regs a (APIC_LVT_TIMER / 4)) TIMER_MASKED))) (msrs a).
(** Two 32-bit halves, combined and split. *)
Definition read_msr (a : apic_state) (msr : Z) : Z :=
  let low := msrs a msr mod 2 ^ 32 in let high := msrs a msr / 2 ^ 32 in u64 (Z.lor (Z.shiftl high 32) low).
Definition write_msr (a : apic_state) (msr value : Z) : apic_state :=
  let low := u32 (Z.land value 4294967295) in let high := u32 (Z.shiftr value 32) in
  Mk_apic (apic_regs a) (set_reg (msrs a) msr (high * 2 ^ 32 + low)).
Definition enable_apic (a : apic_state) : apic_state :=
  let apic_base := read_msr a IA32_APIC_BASE_MSR in
  let apic_base := Z.lor apic_base APIC_BASE_ENABLE in
  write_msr a IA32_APIC_BASE_MSR apic_base.
Definition init_apic_timer (a : apic_state) (count : Z) : apic_state :=
  let r := set_reg (apic_regs a) (992 / 4) 3 in
  let r := set_reg r (896 / 4) count in
  Mk_apic (set_reg r (800 / 4) (Z.lor 131072 APIC_VECTOR_BASE)) (msrs a).
(** The scheduler's handler runs before the end of interrupt. *)
Definition apic_timer_isr {S} (scheduler : M S unit) (apic : S -> apic_state) (put : S -> apic_state -> S) : M S unit :=
  _ ← scheduler;
  modify (fun s => put s (apic_eoi (apic s))).
Definition initialize_apic_timer {H} `{Ports H} (isr_addr : Z) (a : apic_state) : M (cpu H) apic_state :=
  let a := enable_apic a in
  _ ← register_interrupt_handler 2 isr_addr;
  mret a.

(** ** hpet.c: the ACPI tables *)

Section Acpi.
Context (mem : Z -> Z).          (* physical memory *)

Definition mem_bytes (addr : Z) (n : nat) : buf := map (fun k => mem (addr + Z.of_nat k)) (seq 0 n).
Definition mem32 (addr : Z) : Z := le_get (mem_bytes addr 4).
Definition mem64 (addr : Z) : Z := le_get (mem_bytes addr 8).

Definition map_physical_memory (physical_address size : Z) : Z := physical_address.

(** [memcmp(p, signature, n) == 0] on memory. *)
Definition signature_at (addr : Z) (s : buf) : option bool :=
  c ← memcmp (Some (mem_bytes addr (length s))) (Some s) (length s); Some (c =? 0).

Definition RSDP_SIGNATURE : buf := lit_bytes "RSD PTR ".
Definition HPET_SIGNATURE : buf := lit_bytes "HPET".
Definition APIC_SIGNATURE : buf := lit_bytes "APIC".
Definition sizeof_header : Z := 36.

(** 8192 paragraphs from 0xE0000 on; the result is the address, 0 for NULL. *)
Fixpoint rsdp_loop (n : nat) (addr : Z) : option Z :=
  match n with
  | O => Some 0
  | S n' => s ← signature_at addr RSDP_SIGNATURE; if s : bool then Some addr else rsdp_loop n' (addr + 16)
  end.
Definition bios_paragraphs : nat := Z.to_nat 8192.
Definition find_rsdp : option Z := rsdp_loop bios_paragraphs 917504.

Definition rsdt_of (rsdp : Z) : Z := mem32 (rsdp + 16).
Definition entry_count (rsdt : Z) : Z := s32 (u32 (mem32 (rsdt + 4) - sizeof_header) / 4).
Definition entry_at (rsdt i : Z) : Z := mem32 (rsdt + sizeof_header + 4 * i).

(** The first table with a signature: [for (i = 0; i < entry_count; i++)]. *)
Fixpoint table_loop (n : nat) (rsdt i : Z) (s : buf) : option (option Z) :=
  match n with
  | O => Some None
  | S n' => f ← signature_at (entry_at rsdt i) s; if f : bool then Some (Some (entry_at rsdt i)) else table_loop n' rsdt (i + 1) s
  end.

Definition check_hpet : option Z :=
  rsdp ← find_rsdp;
  if rsdp =? 0 then Some 0 else
  let rsdt := rsdt_of rsdp in
  t ← table_loop (Z.to_nat (entry_count rsdt)) rsdt 0 HPET_SIGNATURE;
  Some (match t with Some _ => 1 | None => 0 end).

Definition get_hpet_base_from_acpi : option Z :=
  rsdp ← find_rsdp;
  if rsdp =? 0 then Some 0 else
  let rsdt := rsdt_of rsdp in
  ok ← signature_at rsdt (lit_bytes "RSDT");
  if negb ok then Some 0 else
  t ← table_loop (Z.to_nat (entry_count rsdt)) rsdt 0 HPET_SIGNATURE;
  Some (match t with Some hpet_table => u32 (mem64 (hpet_table + 44)) | None => 0 end).

(** The entries of a MADT; a length of zero makes the loop run for ever. *)
Fixpoint madt_loop (fuel : nat) (ptr finish : Z) : option (option Z) :=
  match fuel with
  | O => None
  | S fuel' =>
      if ptr <? finish then
        if (mem ptr =? 2) && (mem (ptr + 2) =? 0) then Some (Some (u8 (mem32 (ptr + 3))))
        else madt_loop fuel' (ptr + mem (ptr + 1)) finish
      else Some None
  end.
(** All tables with the signature are searched, until an override of line 0 is found. *)
Fixpoint override_loop (fuel n : nat) (rsdt i : Z) : option (option Z) :=
  match n with
  | O => Some None
  | S n' =>
      let header := map_physical_memory (entry_at rsdt i) sizeof_header in
      f ← signature_at header APIC_SIGNATURE;
      r ← (if f : bool then madt_loop fuel (header + 44) (header + mem32 (header + 4)) else Some None);
      match r with Some irq => Some (Some irq) | None => override_loop fuel n' rsdt (i + 1) end
  end.
Definition get_hpet_irq_from_madt (fuel : nat) : option (Z * option Z) :=
  rsdp ← find_rsdp;
  if rsdp =? 0 then Some (-1, None) else
  let rsdt := map_physical_memory (rsdt_of rsdp) sizeof_header in
  r ← override_loop fuel (Z.to_nat (entry_count rsdt)) rsdt 0;
  Some (match r with Some irq => (0, Some irq) | None => (-1, None) end).
End Acpi.

(** ** hpet.c: the registers, by index of their 64-bit word *)

Definition HPET_CAPABILITIES : Z := 0.
Definition HPET_CONFIGURATION : Z := 16.
Definition HPET_MAIN_COUNTER : Z := 240.
Definition HPET_TIMER_CONFIG (n : Z) : Z := 256 + n * 32.
Definition HPET_TIMER_COMPARATOR (n : Z) : Z := 264 + n * 32.

Definition hpet_timer_isr (r : Z -> Z) (hpet_interrupt_count : Z) : (Z -> Z) * Z :=
  let current_counter := r (HPET_MAIN_COUNTER / 8) in
  let count := r (HPET_TIMER_COMPARATOR 0 / 8) in
  (set_reg r (HPET_TIMER_COMPARATOR 0 / 8) (u64 (current_counter + count)), u64 (hpet_interrupt_count + 1)).
Definition enable_hpet (r : Z -> Z) : Z -> Z :=
  let config := r (HPET_CONFIGURATION / 8) in
  let config := Z.lor config 1 in
  let config := Z.land config (unot 64 4) in
  set_reg r (HPET_CONFIGURATION / 8) config.
Definition get_hpet_frequency (r : Z -> Z) : Z :=
  let period_fs := Z.shiftr (r (HPET_CAPABILITIES / 8)) 32 in
  if period_fs =? 0 then 0 else 1000000000000000 / period_fs.
Definition set_hpet_timer (r : Z -> Z) (timer interval_ns : Z) (periodic : bool) : Z -> Z :=
  let frequency := get_hpet_frequency r in
  let count := u64 (frequency * interval_ns) / 1000000000 in
  let r := set_reg r (HPET_TIMER_CONFIG timer / 8) (Z.land (r (HPET_TIMER_CONFIG timer / 8)) (unot 64 1)) in
  let current_counter := r (HPET_MAIN_COUNTER / 8) in
  let r := set_reg r (HPET_TIMER_COMPARATOR timer / 8) (u64 (current_counter + count)) in
  let r := if periodic then set_reg r (HPET_TIMER_CONFIG timer / 8) (Z.lor (r (HPET_TIMER_CONFIG timer / 8)) 8) else r in
  set_reg r (HPET_TIMER_CONFIG timer / 8) (Z.lor (r (HPET_TIMER_CONFIG timer / 8)) 1).
(** [None]: the division by a period of zero. *)
Definition hpet_set_periodic_timer (r : Z -> Z) (timer interval_ns : Z) : option (Z -> Z) :=
  let period := Z.shiftr (r (HPET_CAPABILITIES / 8)) 32 in
  if period =? 0 then None else
  let frequency := 1000000000000000 / period in
  let count := u64 (frequency * interval_ns) / 1000000000 in
  let r := set_reg r (HPET_TIMER_CONFIG timer / 8) (Z.land (r (HPET_TIMER_CONFIG timer / 8)) (unot 64 1)) in
  let r := set_reg r (HPET_TIMER_COMPARATOR timer / 8) count in
  let r := set_reg r (HPET_TIMER_CONFIG timer / 8) (Z.lor (r (HPET_TIMER_CONFIG timer / 8)) 8) in
  Some (set_reg r (HPET_TIMER_CONFIG timer / 8) (Z.lor (r (HPET_TIMER_CONFIG timer / 8)) 1)).
Definition initialize_hpet_periodic_callback (r : Z -> Z) (interval_ns : Z) : option (Z -> Z) :=
  let config := r (HPET_CONFIGURATION / 8) in
  let r := set_reg r (HPET_CONFIGURATION / 8) (Z.lor config 1) in
  hpet_set_periodic_timer r 0 interval_ns.

(** [hpet_base] and the registers at each address. *)
Definition initialize_hpet (mem : Z -> Z) (regs : Z -> Z -> Z) (hpet_base : Z) : option (Z * (Z -> Z -> Z)) :=
  base ← get_hpet_base_from_acpi mem;
  if base =? 0 then Some (hpet_base, regs)
  else Some (base, fun b => if b =? base then enable_hpet (regs b) else regs b).
Definition hpet_init {H} (mem : Z -> Z) (isr_addr : Z) (regs : Z -> Z -> Z) (hpet_base : Z) : M (cpu H) (Z * (Z -> Z -> Z)) :=
  c ← lift (check_hpet mem);
  if negb (c =? 0) then
    r ← lift (initialize_hpet mem regs hpet_base);
    _ ← register_interrupt_handler 2 isr_addr;
    mret r
  else mret (hpet_base, regs).

(** * Properties *)

(** ** Delays *)

Lemma ticks_add n : forall t, ticks n t = if (n =? 0)%nat then t else u32 (t + Z.of_nat n).
Proof.
  induction n as [|n IH]; intros t; [done|]. cbn [ticks]. rewrite IH. unfold tick. destruct n as [|n]; [done|]. cbn [Nat.eqb].
  rewrite wrap_add_l. f_equal. lia.
Qed.

Lemma ticks_sum n t s : 0 <= t < 2 ^ 32 -> ticks n (u32 (t + Z.of_nat s)) = u32 (t + Z.of_nat (s + n)).
Proof.
  intros Ht. rewrite ticks_add. destruct (Nat.eqb_spec n 0) as [->|].
  - by rewrite Nat.add_0_r.
  - rewrite wrap_add_l. f_equal. lia.
Qed.

(** How many ticks had arrived when the loop stopped: the first sum of arrivals that
    reaches [m]. *)
Fixpoint first_sum (m : nat) (arrivals : list nat) (s : nat) : option nat :=
  match arrivals with [] => None | n :: rest => if (m <=? s + n)%nat then Some (s + n)%nat else first_sum m rest (s + n) end.

Lemma delay_loop_ok t ms arrivals : 0 <= t < 2 ^ 32 -> 0 <= ms < 2 ^ 32 -> forall s, Z.of_nat (s + sum_list arrivals) < 2 ^ 32 ->
  delay_loop arrivals t ms (u32 (t + Z.of_nat s)) =
    (fun k => (u32 (t + Z.of_nat k), Z.of_nat k <? ms)) <$> first_sum (Z.to_nat (Z.min ms failsafe_timeout)) arrivals s.
Proof.
  intros Ht Hms. unfold failsafe_timeout. induction arrivals as [|n rest IH]; intros s Hs; [done|]. change (sum_list (n :: rest)) with (n + sum_list rest)%nat in Hs. cbn [delay_loop first_sum].
  rewrite ticks_sum by done. assert (u32 (u32 (t + Z.of_nat (s + n)) - t) = Z.of_nat (s + n)) as E.
  { unfold wrap. rewrite Zminus_mod_idemp_l. replace (t + Z.of_nat (s + n) - t) with (Z.of_nat (s + n)) by lia. apply Z.mod_small. lia. }
  rewrite E. unfold failsafe_timeout. destruct (Z.leb_spec ms (Z.of_nat (s + n))).
  - destruct (Nat.leb_spec (Z.to_nat (Z.min ms 10000)) (s + n)); [|lia]. cbn [fmap option_fmap option_map]. destruct (Z.ltb_spec (Z.of_nat (s + n)) ms); [lia|done].
  - destruct (Z.leb_spec 10000 (Z.of_nat (s + n))), (Nat.leb_spec (Z.to_nat (Z.min ms 10000)) (s + n)); try lia.
    + cbn [fmap option_fmap option_map]. by destruct (Z.ltb_spec (Z.of_nat (s + n)) ms); [|lia].
    + apply IH. lia.
Qed.

Lemma first_sum_exists m arrivals : forall s, (m <= s + sum_list arrivals)%nat -> arrivals <> [] ->
  exists k, first_sum m arrivals s = Some k /\ (m <= k <= s + sum_list arrivals)%nat.
Proof.
  induction arrivals as [|n rest IH]; intros s Hm Hne; [done|]. change (sum_list (n :: rest)) with (n + sum_list rest)%nat in *. cbn [first_sum]. destruct (Nat.leb_spec m (s + n)).
  - exists (s + n)%nat. split; [done|]. lia.
  - destruct (IH (s + n)%nat) as (k & E & Hk); [lia|intros ->; cbn in *; lia|]. exists k. split; [done|]. lia.
Qed.

(** C30: A delay ends, and not too early: as soon as as many timer interrupts have arrived as
    milliseconds were asked for, the loop returns, also when the 32-bit tick counter wraps
    around in between; but no delay lasts longer than ten thousand ticks, and then the
    warning is printed. *)
Theorem pit_delay_waits (arrivals : list nat) (ms t : Z) (Ht : 0 <= t < 2 ^ 32) (Hms : 0 <= ms < 2 ^ 32)
  (Hsum : Z.min ms failsafe_timeout <= Z.of_nat (sum_list arrivals) < 2 ^ 32) (Hne : arrivals <> []) :
  exists k, pit_delay_ticks arrivals ms t = Some (u32 (t + Z.of_nat k), Z.of_nat k <? ms) /\ Z.min ms failsafe_timeout <= Z.of_nat k /\
    first_sum (Z.to_nat (Z.min ms failsafe_timeout)) arrivals 0 = Some k.
Proof.
  pose proof (delay_loop_ok t ms arrivals Ht Hms 0 ltac:(lia)) as El. rewrite Z.add_0_r, wrap_small in El by done.
  destruct (first_sum_exists (Z.to_nat (Z.min ms failsafe_timeout)) arrivals 0) as (k & E & Hk); [unfold failsafe_timeout in *; lia|done|].
  exists k. unfold pit_delay_ticks. rewrite El, E. split; [done|]. split; [lia|done].
Qed.

Lemma pit_delay_waits_witness : exists k, pit_delay_ticks [1; 0; 2; 1; 1]%nat 3 (2 ^ 32 - 2) = Some (u32 (2 ^ 32 - 2 + Z.of_nat k), Z.of_nat k <? 3) /\ 3 <= Z.of_nat k.
Proof.
  destruct (pit_delay_waits [1; 0; 2; 1; 1]%nat 3 (2 ^ 32 - 2)) as (k & E & Hk & _); [lia|lia|vm_compute; split; congruence|done|].
  exists k. split; [exact E|exact Hk].
Defined.

(** ** The rate of the timer

    The 8254 as the code uses it: a control word for channel 0 selects the mode and the
    order low byte, high byte of the reload value. *)
Record pit := Mk_pit { pit_mode : Z; pit_low : option Z; pit_reload : Z }.
Definition pit_out (port v : Z) (p : pit) : pit :=
  if port =? PIT_COMMAND_PORT then (if Z.shiftr v 4 =? 3 then Mk_pit (Z.land (Z.shiftr v 1) 7) None (pit_reload p) else p)
  else if port =? PIT_CHANNEL_0_PORT then
    match pit_low p with
    | None => Mk_pit (pit_mode p) (Some v) (pit_reload p)
    | Some lo => Mk_pit (pit_mode p) None (lo + 256 * v)
    end
  else p.
Class PitDevice (H : Type) `{Ports H} := {
  pit_of : H -> pit;
  pit_written : forall port v h, 0 <= v < 256 -> pit_of (dev_outb port v h) = pit_out port v (pit_of h)
}.

Section Rate.
Context {H : Type} `{PitDevice H}.

Lemma init_pit_ok frequency h : 0 < frequency -> exists h', init_pit frequency h = Some (tt, h') /\
  pit_of h' = Mk_pit 3 None (u16 (PIT_FREQUENCY / frequency)).
Proof.
  intros Hf. unfold init_pit. destruct (Z.eqb_spec frequency 0); [lia|]. cbv zeta. set (d := u16 (PIT_FREQUENCY / frequency)).
  assert (0 <= d < 2 ^ 16) as Hd by (apply wrap_range; lia).
  eexists. split; [reflexivity|]. cbn [hw with_hw hw_machine]. change 255 with (2 ^ 8 - 1). rewrite !Z.shiftr_div_pow2, !land_mask by lia.
  rewrite !pit_written by (first [done | apply wrap_range; lia]). change (u16 PIT_COMMAND_PORT) with 67. change (u16 PIT_CHANNEL_0_PORT) with 64.
  destruct (pit_of h) as [m l r]. unfold pit_out. cbn [Z.eqb Pos.eqb PIT_COMMAND_PORT PIT_CHANNEL_0_PORT pit_low pit_mode pit_reload u8 wrap]. cbn.
  f_equal. unfold wrap. rewrite !Zmod_mod. change (2 ^ 8) with 256 in *. change (2 ^ 16) with 65536 in *. zlia.
Qed.

(** The timer runs at the rate that [timer_install] is asked for, while the rate fits the
    chip: for an interval of 1 to 52 milliseconds the reload value is the clock divided by
    the number of interrupts per second; from 53 milliseconds on its upper bits are lost,
    and the timer is too fast. *)
Theorem timer_rate (addr ms : Z) (c : cpu H) (Hms : 1 <= ms < 256) (Hc : cpu_ok c) :
  exists c', timer_install addr ms c = Some (tt, c') /\ irq_routines c' = <[0%nat := addr]> (irq_routines c) /\
    (ms <= 52 -> pit_of (cpu_hw c') = Mk_pit 3 None (PIT_FREQUENCY / (1000 / ms))) /\
    (53 <= ms -> pit_reload (pit_of (cpu_hw c')) < PIT_FREQUENCY / (1000 / ms)).
Proof.
  unfold timer_install. rewrite (bind_eq _ _ _ _ _ (register_irq_ok 0 addr c Hc ltac:(lia))). destruct (Z.eqb_spec ms 0); [lia|].
  assert (0 < 1000 / ms) as Hf by (apply Z.div_str_pos; lia). destruct (init_pit_ok (1000 / ms) (cpu_hw c) Hf) as (h & E & Hp).
  eexists. split; [cbn [cpu_hw with_routines]; by rewrite E|]. split; [done|]. cbn [cpu_hw with_cpu_hw]. rewrite Hp. cbn [pit_reload].
  assert (0 <= PIT_FREQUENCY / (1000 / ms)) as Hnn by (apply Z.div_pos; unfold PIT_FREQUENCY; lia). split; intros Hm.
  - f_equal. apply wrap_small. split; [done|]. apply Z.div_lt_upper_bound; [done|].
    assert (19 <= 1000 / ms) by (apply Z.div_le_lower_bound; lia). change (2 ^ 16) with 65536. unfold PIT_FREQUENCY. lia.
  - assert (1000 / ms < 19) by (apply Z.div_lt_upper_bound; lia). assert (65536 <= PIT_FREQUENCY / (1000 / ms)).
    { apply Z.div_le_lower_bound; [done|]. unfold PIT_FREQUENCY. lia. }
    assert (u16 (PIT_FREQUENCY / (1000 / ms)) < 65536) by (apply wrap_range; lia). lia.
Qed.
End Rate.

Record pit_sim := Mk_pit_sim { sim_pit : pit; sim_pics : pic * pic }.
#[global] Instance pit_sim_ports : Ports pit_sim := {|
  dev_inb _ h := (0, h); dev_outb port v h := Mk_pit_sim (pit_out port v (sim_pit h)) (pics_out port v (sim_pics h));
  dev_insw _ n h := (replicate (2 * n) 0, h); dev_outsw _ _ h := h; dev_delay _ h := h
|}.
#[global, refine] Instance pit_sim_device : PitDevice pit_sim := {| pit_of := sim_pit |}.
Proof. done. Defined.

Definition timer_cpu : cpu pit_sim :=
  Mk_cpu (replicate 6 (Mk_gdt_entry 0 0 0 0 0 0)) (Mk_table_ptr 0 0) (replicate 256 (Mk_idt_entry 0 0 0 0 0)) (Mk_table_ptr 0 0) zero_tss
    (replicate 17 0) (replicate 32 no_handler) (Mk_table_ptr 0 0) (Mk_table_ptr 0 0) 0 (Mk_pit_sim (Mk_pit 2 None 0) started_pics).

(** At one millisecond the reload value is 1193. *)
Lemma timer_rate_witness : exists c', timer_install 4660 1 timer_cpu = Some (tt, c') /\ pit_of (cpu_hw c') = Mk_pit 3 None 1193.
Proof.
  destruct (timer_rate 4660 1 timer_cpu) as (c' & E & _ & Hp & _); [lia| |].
  - split; [done| |done| |done|done]; [apply (Forall_replicate _ 6)|apply (Forall_replicate _ 256)]; by split.
  - exists c'. split; [exact E|]. apply Hp. lia.
Defined.

(** ** The ACPI tables *)

Section Tables.
Context (mem : Z -> Z).

(** The comparison with a signature is an equality of bytes. *)
Lemma memcmp_eq s t : length s = length t -> exists c, memcmp_loop s t (length t) = Some c /\ (c =? 0) = bool_decide (s = t).
Proof using Type.
  clear mem. intros Hl. destruct (memcmp_loop_spec s t (length t)) as (c & E & Hc); [lia|lia|]. exists c. split; [done|].
  rewrite <- Hl, take_ge, Hl, take_ge in Hc by lia. destruct (Z.eqb_spec c 0); symmetry; [apply bool_decide_true|apply bool_decide_false]; tauto.
Qed.

Lemma length_mem_bytes a n : length (mem_bytes mem a n) = n.
Proof. unfold mem_bytes. by rewrite length_map, length_seq. Qed.

Lemma signature_at_ok addr s : signature_at mem addr s = Some (bool_decide (mem_bytes mem addr (length s) = s)).
Proof.
  unfold signature_at, memcmp. destruct (memcmp_eq (mem_bytes mem addr (length s)) s) as (c & E & Hc); [apply length_mem_bytes|]. rewrite E. cbn [mbind option_bind]. by rewrite Hc.
Qed.

(** The first element of a list of addresses that has a signature. *)
Definition first_with (s : buf) (l : list Z) : option Z := List.find (fun a => bool_decide (mem_bytes mem a (length s) = s)) l.

Lemma rsdp_loop_ok n : forall addr, rsdp_loop mem n addr =
  Some (default 0 (first_with RSDP_SIGNATURE (map (fun k => addr + 16 * Z.of_nat k) (seq 0 n)))).
Proof.
  induction n as [|n IH]; intros addr; [done|]. cbn [rsdp_loop seq map]. rewrite signature_at_ok. cbn [mbind option_bind].
  unfold first_with. cbn [List.find]. rewrite Z.add_0_r. destruct (bool_decide _); [done|]. rewrite IH. unfold first_with. do 3 f_equal.
  rewrite <- seq_shift, map_map. apply map_ext. intros k. lia.
Qed.

Lemma table_loop_ok rsdt s n : forall i, table_loop mem n rsdt i s = Some (first_with s (map (fun k => entry_at mem rsdt (i + Z.of_nat k)) (seq 0 n))).
Proof.
  induction n as [|n IH]; intros i; [done|]. cbn [table_loop seq map]. rewrite signature_at_ok. cbn [mbind option_bind].
  unfold first_with. cbn [List.find]. rewrite Z.add_0_r. destruct (bool_decide _); [done|]. rewrite IH. unfold first_with. do 2 f_equal.
  rewrite <- seq_shift, map_map. apply map_ext. intros k. f_equal. lia.
Qed.

(** The paragraphs of the BIOS area, and the tables the RSDT lists. *)
Definition paragraphs : list Z := map (fun k => 917504 + 16 * Z.of_nat k) (seq 0 bios_paragraphs).
Definition tables (rsdt : Z) : list Z := map (fun k => entry_at mem rsdt (Z.of_nat k)) (seq 0 (Z.to_nat (entry_count mem rsdt))).

Lemma find_rsdp_ok : find_rsdp mem = Some (default 0 (first_with RSDP_SIGNATURE paragraphs)).
Proof. exact (rsdp_loop_ok bios_paragraphs 917504). Qed.

Lemma first_of_progression s n a : first_with s (map (fun k => 917504 + 16 * Z.of_nat k) (seq 0 n)) = Some a -> (a =? 0) = false.
Proof. intros E. apply find_some in E as [Hin _]. rewrite in_map_iff in Hin. destruct Hin as (k & <- & _). apply Z.eqb_neq. lia. Qed.
Lemma first_paragraph s rsdp : first_with s paragraphs = Some rsdp -> (rsdp =? 0) = false.
Proof. exact (first_of_progression s bios_paragraphs rsdp). Qed.

(** The search of the ACPI tables always ends.  It finds the HPET that firmware describes:
    the root pointer is the first paragraph of the BIOS area with its signature, the HPET
    table the first one with its signature that the root table lists, and the base address
    is the low word of its address field; without one of them there is no HPET. *)
Theorem hpet_found :
  check_hpet mem = Some (match first_with RSDP_SIGNATURE paragraphs with
                         | Some rsdp => match first_with HPET_SIGNATURE (tables (rsdt_of mem rsdp)) with Some _ => 1 | None => 0 end
                         | None => 0
                         end) /\
  get_hpet_base_from_acpi mem =
    Some (match first_with RSDP_SIGNATURE paragraphs with
          | Some rsdp => let rsdt := rsdt_of mem rsdp in
              if bool_decide (mem_bytes mem rsdt 4 = lit_bytes "RSDT") then
                match first_with HPET_SIGNATURE (tables rsdt) with Some t => u32 (mem64 mem (t + 44)) | None => 0 end
              else 0
          | None => 0
          end).
Proof.
  unfold check_hpet, get_hpet_base_from_acpi. rewrite find_rsdp_ok. cbn [mbind option_bind].
  destruct (first_with RSDP_SIGNATURE paragraphs) as [rsdp|] eqn:E; cbn [default from_option id]; [|done].
  rewrite (first_paragraph _ _ E), !table_loop_ok, signature_at_ok. cbn [mbind option_bind]. unfold tables.
  split; [by destruct (first_with HPET_SIGNATURE _)|]. change (length (lit_bytes "RSDT")) with 4%nat. destruct (bool_decide _); cbn [negb]; [|done].
  by destruct (first_with HPET_SIGNATURE _).
Qed.

(** An entry of length zero stops the walk over the MADT for ever: no amount of rounds is
    enough. *)
Theorem madt_zero_length (ptr finish : Z) : ptr < finish -> mem (ptr + 1) = 0 -> mem ptr <> 2 -> forall fuel, madt_loop mem fuel ptr finish = None.
Proof.
  intros Hlt Hz H2. induction fuel as [|fuel IH]; [done|]. cbn [madt_loop]. destruct (Z.ltb_spec ptr finish); [|lia]. destruct (Z.eqb_spec (mem ptr) 2); [done|].
  cbn [andb]. by rewrite Hz, Z.add_0_r.
Qed.
End Tables.

Lemma madt_zero_length_witness : forall fuel, madt_loop (fun a => if a =? 48 then 1 else 0) fuel 48 60 = None.
Proof. apply (madt_zero_length (fun a => if a =? 48 then 1 else 0) 48 60); [lia|reflexivity|cbn; lia]. Defined.
