(* ===== verification/Boot.v ===== *)
(** arch/x86/boot: the boot loader's information (multiboot_parser.c, mbheader.h).

    Physical memory is a function from addresses to bytes.  The structures of mbheader.h
    are packed, so their fields are reads at fixed offsets; pointers are 32-bit numbers.
    The state is what the parser changes: the characters it prints and the counter
    [total_memory].  The loops over entries and tags follow sizes in memory and take a
    fuel: one unit per entry is enough, and a size of zero has none. *)

From stdpp Require Import strings.
From S2P Require Import Prelude CString CStdlib CStdio Printf Effects Timer.

Record boot := { out : buf; total_memory : Z }.
Definition add_total (s : boot) (n : Z) : boot := {| out := out s; total_memory := u64 (total_memory s + n) |}.
Definition add_out (s : boot) (t : buf) : boot := {| out := out s ++ t; total_memory := total_memory s |}.

(** The bytes of a string literal of C, whose only escape here is the line feed. *)
Fixpoint c_literal (s : buf) : buf :=
  match s with
  | 92 :: 110 :: s => 10 :: c_literal s
  | c :: s => c :: c_literal s
  | [] => [0]
  end.

Definition say (format : string) (args : list va_word) : M boot unit :=
  t ← lift (printf (c_literal (lit_bytes format)) args); modify (fun s => add_out s t).

(** A 64-bit argument is two words. *)
Definition VLong (v : Z) : list va_word := [VInt (u32 v); VInt (u32 (Z.shiftr v 32))].

Section Parser.
Context (mem : Z -> Z).
#[local] Abbreviation mem32 := (mem32 mem).
#[local] Abbreviation mem64 := (mem64 mem).
Definition mem16 (addr : Z) : Z := le_get (mem_bytes mem addr 2).

(** The string at an address, with its terminator. *)
Fixpoint mem_str (fuel : nat) (addr : Z) : option buf :=
  match fuel with
  | O => None
  | S fuel' => if mem addr =? 0 then Some [0] else cons (mem addr) <$> mem_str fuel' (addr + 1)
  end.
Definition str_arg (fuel : nat) (addr : Z) : option va_word :=
  if addr =? 0 then Some (VStr None) else s ← mem_str fuel addr; Some (VStr (Some s)).

(** ** Multiboot 1 *)

Definition MULTIBOOT1_FLAG_MEM : Z := 1.
Definition MULTIBOOT1_FLAG_BOOT_DEVICE : Z := 2.
Definition MULTIBOOT1_FLAG_CMDLINE : Z := 4.
Definition MULTIBOOT1_FLAG_MODS : Z := 8.
Definition MULTIBOOT1_FLAG_MMAP : Z := 64.
Definition MULTIBOOT1_FLAG_BOOTLOADER : Z := 512.
Definition MULTIBOOT1_FLAG_APM : Z := 1024.
Definition MULTIBOOT1_FLAG_VBE : Z := 2048.

(** [if (mb_info->flags & flag)] *)
Definition when_flag (flags flag : Z) (body : M boot unit) : M boot unit :=
  if Z.land flags flag =? 0 then mret tt else body.

(** The fields of an entry of the memory map. *)
Definition mm_size (e : Z) : Z := mem32 e.
Definition mm_base (e : Z) : Z := mem64 (e + 4).
Definition mm_length (e : Z) : Z := mem64 (e + 12).
Definition mm_type (e : Z) : Z := mem32 (e + 20).

Fixpoint mmap_loop (fuel : nat) (mmap mmap_end : Z) : M boot unit :=
  match fuel with
  | O => undef
  | S fuel' =>
      if mmap <? mmap_end then
        _ ← say "| %-12p " (VLong (mm_base mmap));
        _ ← say "| %-12p | " (VLong (u64 (mm_base mmap + mm_length mmap - 1)));
        _ ← say "%-13u | " (VLong (mm_length mmap));
        _ ← say "%-14u |\n" [VInt (mm_type mmap)];
        _ ← (if mm_type mmap =? 1 then modify (fun s => add_total s (mm_length mmap)) else mret tt);
        mmap_loop fuel' (u32 (mmap + mm_size mmap + 4)) mmap_end
      else mret tt
  end.

Definition print_module (fuel : nat) (mods i : Z) : M boot unit :=
  let m := mods + 16 * i in
  _ ← say "  Module %u:\n" [VInt (u32 (i + 1))];
  _ ← say "    Start Address: 0x%x\n" [VInt (mem32 m)];
  _ ← say "    End Address: 0x%x\n" [VInt (mem32 (m + 4))];
  a ← lift (if mem32 (m + 8) =? 0 then Some (VStr (Some (lit "(none)"))) else str_arg fuel (mem32 (m + 8)));
  say "    Command Line: %s\n" [a].

Definition print_mmap (fuel : nat) (mb_info : Z) : M boot unit :=
  _ ← say "Memory Map:\n" [];
  let mmap := mem32 (mb_info + 48) in
  let mmap_end := u32 (mem32 (mb_info + 48) + mem32 (mb_info + 44)) in
  _ ← say "------------------------------------------------------------\n" [];
  _ ← say "| Address                 | Length        | Type (1=Usable)|\n" [];
  _ ← say "------------------------------------------------------------\n" [];
  _ ← mmap_loop fuel mmap mmap_end;
  say "------------------------------------------------------------\n" [].

Definition parse_multiboot1_info (fuel : nat) (mb_info : Z) : M boot unit :=
  let flags := mem32 mb_info in
  _ ← say "Parsing Multiboot1 Information...\n" [];
  _ ← when_flag flags MULTIBOOT1_FLAG_MEM (
    _ ← say "Memory Information: " [];
    _ ← say "  Lower Memory: %u KB, " [VInt (mem32 (mb_info + 4))];
    say "  Upper Memory: %u KB\n" [VInt (mem32 (mb_info + 8))]);
  _ ← when_flag flags MULTIBOOT1_FLAG_BOOT_DEVICE (say "Boot Device: %p\n" [VInt (mem32 (mb_info + 12))]);
  _ ← when_flag flags MULTIBOOT1_FLAG_CMDLINE (a ← lift (str_arg fuel (mem32 (mb_info + 16))); say "Command Line: %s\n" [a]);
  _ ← when_flag flags MULTIBOOT1_FLAG_MODS (
    _ ← say "Modules:\n" [];
    for_up 0 (Z.to_nat (mem32 (mb_info + 20))) (print_module fuel (mem32 (mb_info + 24))));
  _ ← when_flag flags MULTIBOOT1_FLAG_MMAP (print_mmap fuel mb_info);
  _ ← when_flag flags MULTIBOOT1_FLAG_BOOTLOADER (a ← lift (str_arg fuel (mem32 (mb_info + 64))); say "Bootloader Name: %s\n" [a]);
  _ ← when_flag flags MULTIBOOT1_FLAG_VBE (
    _ ← say "VBE Information:\n" [];
    _ ← say "Control Info: %p " [VInt (mem32 (mb_info + 72))];
    _ ← say "Mode Info: %p " [VInt (mem32 (mb_info + 76))];
    _ ← say "Mode: %p\n" [VInt (mem16 (mb_info + 80))];
    _ ← say "Interface Segment: %p " [VInt (mem16 (mb_info + 82))];
    _ ← say "Offset: %p " [VInt (mem16 (mb_info + 84))];
    say "Length: %u\n" [VInt (mem16 (mb_info + 86))]);
  _ ← when_flag flags MULTIBOOT1_FLAG_APM (say "APM Table Address: 0x%x\n" [VInt (mem32 (mb_info + 68))]);
  say "Parsing Complete.\n" [].

(** ** Multiboot 2 *)

Definition MULTIBOOT2_INFO_TAG_END : Z := 0.
Definition MULTIBOOT2_INFO_TAG_CMDLINE : Z := 1.
Definition MULTIBOOT2_INFO_TAG_BOOT_LOADER_NAME : Z := 2.
Definition MULTIBOOT2_INFO_TAG_MODULE : Z := 3.
Definition MULTIBOOT2_INFO_TAG_BASIC_MEMINFO : Z := 4.
Definition MULTIBOOT2_INFO_TAG_MMAP : Z := 6.
Definition MULTIBOOT2_INFO_TAG_EFI_MMAP : Z := 21.

Definition tag_type (tag : Z) : Z := mem32 tag.
Definition tag_size (tag : Z) : Z := mem32 (tag + 4).

(** [while (tag->type != MULTIBOOT2_INFO_TAG_END)] with a body that returns the next value
    of what the loop computes. *)
Fixpoint tag_loop {A} (fuel : nat) (tag : Z) (body : Z -> A -> M boot A) (a : A) : M boot A :=
  match fuel with
  | O => undef
  | S fuel' =>
      if tag_type tag =? MULTIBOOT2_INFO_TAG_END then mret a
      else a ← body tag a; tag_loop fuel' (u32 (tag + tag_size tag)) body a
  end.

Fixpoint efi_loop (fuel : nat) (tag desc finish : Z) : M boot unit :=
  match fuel with
  | O => undef
  | S fuel' =>
      let descriptor_size := mem32 (tag + 8) in
      if u32 (desc + descriptor_size) <=? finish then
        _ ← say "| %4u | 0x%013llx | %15llu | 0x%016llx |\n"
              (VInt (mem32 desc) :: VLong (mem64 (desc + 4)) ++ VLong (mem64 (desc + 20)) ++ VLong (mem64 (desc + 28)));
        efi_loop fuel' tag (u32 (desc + descriptor_size)) finish
      else mret tt
  end.

Definition print_efi_memory_map (fuel : nat) (mb_info : Z) : M boot unit :=
  tag_loop fuel (mb_info + 8) (fun tag _ =>
    if tag_type tag =? MULTIBOOT2_INFO_TAG_EFI_MMAP then
      _ ← say "EFI Memory Map:\n" [];
      _ ← say "-------------------------------------------------------------\n" [];
      _ ← say "| Type | Physical Start | Number of Pages | Attributes      |\n" [];
      _ ← say "-------------------------------------------------------------\n" [];
      _ ← efi_loop fuel tag (tag + 16) (u32 (tag + tag_size tag));
      _ ← say "-------------------------------------------------------------\n" [];
      say "Debug: EFI MMap tag size: %u, Descriptor size: %u\n" [VInt (tag_size tag); VInt (mem32 (tag + 8))]
    else mret tt) tt.

Definition print_tag (fuel : nat) (mb_info tag : Z) : M boot unit :=
  let t := tag_type tag in
  if t =? MULTIBOOT2_INFO_TAG_CMDLINE then s ← lift (mem_str fuel (tag + 8)); say "Command Line: %s\n" [VStr (Some s)]
  else if t =? MULTIBOOT2_INFO_TAG_BOOT_LOADER_NAME then s ← lift (mem_str fuel (tag + 8)); say "Bootloader Name: %s\n" [VStr (Some s)]
  else if t =? MULTIBOOT2_INFO_TAG_BASIC_MEMINFO then
    say "Basic Memory Info: Lower = %u KB, Upper = %u KB\n" [VInt (mem32 (tag + 8)); VInt (mem32 (tag + 12))]
  else if t =? MULTIBOOT2_INFO_TAG_MMAP then say "Memory Map available\n" []
  else if t =? MULTIBOOT2_INFO_TAG_MODULE then say "Module available\n" []
  else if t =? MULTIBOOT2_INFO_TAG_EFI_MMAP then print_efi_memory_map fuel mb_info
  else say "Unknown tag type: %u\n" [VInt t].

Definition parse_multiboot2_info (fuel : nat) (mb_info : Z) : M boot unit :=
  tag_loop fuel (mb_info + 8) (fun tag _ => print_tag fuel mb_info tag) tt.

Fixpoint mmap2_loop (fuel : nat) (tag entry total : Z) : option Z :=
  match fuel with
  | O => None
  | S fuel' =>
      if entry <? u32 (tag + tag_size tag) then
        mmap2_loop fuel' tag (u32 (entry + mem32 (tag + 8)))
          (if mem32 (entry + 16) =? 1 then u64 (total + mem64 (entry + 8)) else total)
      else Some total
  end.

(** The loop body of [compute_total_memory]. *)
Definition total_body (fuel : nat) (tag total : Z) : M boot Z :=
  if tag_type tag =? MULTIBOOT2_INFO_TAG_MMAP then
    _ ← say "Memory map available:\n" [];
    _ ← say "Entry size: %u\n" [VInt (mem32 (tag + 8))];
    lift (mmap2_loop fuel tag (tag + 16) total)
  else mret total.
Definition compute_total_memory (fuel : nat) (mb_info : Z) : M boot Z :=
  tag_loop fuel (mb_info + 8) (total_body fuel) 0.
End Parser.

(** ** Messages *)

(** A message whose format fits its arguments is printed and changes nothing else. *)
Definition message_fits (format : string) (kinds : list va_kind) : bool :=
  let l := c_literal (lit_bytes format) in fits (S (length l)) l kinds.

Lemma say_ok format args s : message_fits format (map kind_of args) = true -> Forall terminated args ->
  exists t, say format args s = Some (tt, add_out s t).
Proof.
  intros Hf Ha. destruct (printf_loop_total _ _ _ Hf Ha) as [t E]. exists t. unfold say, printf. by rewrite (lift_bind _ _ _ _ E).
Qed.

(** [counts m n]: [m] prints something and adds [n] bytes to the memory counted. *)
Definition grow (s : boot) (n : Z) (t : buf) : boot := {| out := out s ++ t; total_memory := u64 (total_memory s + n) |}.
Definition counted (s : boot) : Prop := 0 <= total_memory s < 2 ^ 64.
Definition counts (m : M boot unit) (n : Z) : Prop := forall s, counted s -> exists t, m s = Some (tt, grow s n t).

Lemma counted_grow s n t : counted (grow s n t).
Proof. apply (wrap_range 64). lia. Qed.
Lemma grow_0 s t : counted s -> add_out s t = grow s 0 t.
Proof. intros Hs. unfold add_out, grow. rewrite Z.add_0_r. by rewrite wrap_small. Qed.

Lemma counts_ret : counts (mret tt) 0.
Proof. intros s Hs. exists []. rewrite <- grow_0 by done. unfold add_out. rewrite app_nil_r. by destruct s. Qed.
Lemma counts_say format args : message_fits format (map kind_of args) = true -> Forall terminated args -> counts (say format args) 0.
Proof. intros Hf Ha s Hs. destruct (say_ok format args s Hf Ha) as [t E]. exists t. by rewrite <- grow_0. Qed.
Lemma counts_add n : counts (modify (fun s => add_total s n)) n.
Proof. intros s Hs. exists []. unfold modify, add_total, grow. by rewrite app_nil_r. Qed.
Lemma counts_bind (m k : M boot unit) (a b : Z) : counts m a -> counts k b -> counts (_ ← m; k) (a + b).
Proof.
  intros Hm Hk s Hs. destruct (Hm s Hs) as [t E]. rewrite (bind_eq _ _ _ _ _ E).
  destruct (Hk (grow s a t) (counted_grow _ _ _)) as [t' E']. exists (t ++ t'). rewrite E'. unfold grow. cbn [out total_memory].
  rewrite app_assoc. do 3 f_equal. rewrite wrap_add_l. f_equal. lia.
Qed.
Lemma counts_then (m k : M boot unit) (b : Z) : counts m 0 -> counts k b -> counts (_ ← m; k) b.
Proof. intros Hm Hk. rewrite <- (Z.add_0_l b). by apply counts_bind. Qed.
Lemma counts_lift {A} (o : option A) (a : A) (k : A -> M boot unit) n : o = Some a -> counts (k a) n -> counts (x ← lift o; k x) n.
Proof. intros -> Hk. exact Hk. Qed.
Lemma counts_flag flags flag m n : (Z.land flags flag <> 0 -> counts m n) -> counts (when_flag flags flag m) (if Z.land flags flag =? 0 then 0 else n).
Proof. intros Hm. unfold when_flag. destruct (Z.eqb_spec (Z.land flags flag) 0); [apply counts_ret|by apply Hm]. Qed.
Lemma counts_flag_0 flags flag m : (Z.land flags flag <> 0 -> counts m 0) -> counts (when_flag flags flag m) 0.
Proof. intros Hm. pose proof (counts_flag flags flag m 0 Hm) as E. by destruct (_ =? 0). Qed.
Lemma counts_for (body : Z -> M boot unit) n : forall i, (forall j, i <= j < i + Z.of_nat n -> counts (body j) 0) -> counts (for_up i n body) 0.
Proof.
  induction n as [|n IH]; intros i Hb; cbn [for_up]; [apply counts_ret|]. apply counts_then; [apply Hb; lia|]. apply IH. intros j Hj. apply Hb. lia.
Qed.

Create HintDb boot.
#[export] Hint Resolve counts_ret counts_then counts_flag_0 : boot.
#[export] Hint Extern 4 (counts (say _ _) _) => apply counts_say; [reflexivity|repeat constructor] : boot.

(** ** What a boot loader leaves in memory *)

Definition holds (mem : Z -> Z) (addr : Z) (b : buf) : Prop := mem_bytes mem addr (length b) = b.

Lemma mem_bytes_app mem a n m : mem_bytes mem a (n + m) = mem_bytes mem a n ++ mem_bytes mem (a + Z.of_nat n) m.
Proof.
  unfold mem_bytes. rewrite seq_app, map_app. f_equal. rewrite <- (Nat.add_0_r (0 + n)), <- fmap_add_seq. rewrite map_map. apply map_ext. intros k. f_equal. lia.
Qed.
Lemma holds_app mem a u v : holds mem a (u ++ v) <-> holds mem a u /\ holds mem (a + Z.of_nat (length u)) v.
Proof.
  unfold holds. rewrite length_app, mem_bytes_app. split.
  - intros E. apply app_inj_1 in E; [done|]. by rewrite length_mem_bytes.
  - by intros [-> ->].
Qed.
Lemma holds_32 mem a v : holds mem a (le_put 4 v) -> mem32 mem a = v mod 2 ^ 32.
Proof. intros E. unfold mem32. unfold holds in E. rewrite length_le_put in E. rewrite E, le_get_put. done. Qed.
Lemma holds_64 mem a v : holds mem a (le_put 8 v) -> mem64 mem a = v mod 2 ^ 64.
Proof. intros E. unfold mem64. unfold holds in E. rewrite length_le_put in E. rewrite E, le_get_put. done. Qed.

(** A region of the memory map, as firmware reports it, and its entry. *)
Record region := { r_base : Z; r_length : Z; r_type : Z }.
Definition region_ok (r : region) : Prop := 0 <= r_base r < 2 ^ 64 /\ 0 <= r_length r < 2 ^ 64 /\ 0 <= r_type r < 2 ^ 32.
Definition usable (rs : list region) : Z :=
  foldr (fun r n => (if r_type r =? 1 then r_length r else 0) + n) 0 rs.

(** An entry of version 1: its size without the size field, then the region, then
    whatever else its version has. *)
Definition mmap_entry (r : region) (more : buf) : buf :=
  le_put 4 (20 + Z.of_nat (length more)) ++ le_put 8 (r_base r) ++ le_put 8 (r_length r) ++ le_put 4 (r_type r) ++ more.
Definition mmap_image (l : list (region * buf)) : buf := mjoin (map (fun e => mmap_entry e.1 e.2) l).

Lemma length_mmap_entry r more : length (mmap_entry r more) = (24 + length more)%nat.
Proof. unfold mmap_entry. rewrite !length_app, !length_le_put. lia. Qed.

(** The entry is read back. *)
Lemma mmap_entry_fields mem e r more : region_ok r -> holds mem e (mmap_entry r more) -> Z.of_nat (length more) < 2 ^ 31 ->
  mm_size mem e = 20 + Z.of_nat (length more) /\ mm_length mem e = r_length r /\ mm_type mem e = r_type r.
Proof.
  intros (Hb & Hl & Ht) H Hm. unfold mmap_entry in H. rewrite !holds_app, !length_le_put in H. destruct H as (H1 & H2 & H3 & H4 & _).
  unfold mm_size, mm_length, mm_type. replace (e + 12) with (e + Z.of_nat 4 + Z.of_nat 8) by lia. replace (e + 20) with (e + Z.of_nat 4 + Z.of_nat 8 + Z.of_nat 8) by lia.
  rewrite (holds_32 _ _ _ H1), (holds_64 _ _ _ H3), (holds_32 _ _ _ H4). rewrite !Z.mod_small by lia. done.
Qed.

Lemma mmap_loop_counts mem l : forall fuel addr, (length l < fuel)%nat -> Forall region_ok l.*1 -> holds mem addr (mmap_image l) ->
  0 <= addr -> addr + blen (mmap_image l) < 2 ^ 31 ->
  counts (mmap_loop mem fuel addr (addr + blen (mmap_image l))) (usable l.*1).
Proof.
  induction l as [|[r more] l IH]; intros fuel addr Hf Hok Hh Ha Hend; (destruct fuel as [|fuel]; [simpl in Hf; lia|]); cbn [mmap_loop].
  { unfold blen. cbn [mmap_image map mjoin list_join length]. destruct (Z.ltb_spec addr (addr + Z.of_nat 0)); [lia|apply counts_ret]. }
  change (mmap_image ((r, more) :: l)) with (mmap_entry r more ++ mmap_image l) in *. unfold blen in *. rewrite length_app, length_mmap_entry in *.
  apply holds_app in Hh as [He Hl]. rewrite length_mmap_entry in Hl. apply Forall_cons in Hok as [Hr Hok].
  destruct (mmap_entry_fields _ _ _ _ Hr He) as (Es & El & Et); [lia|]. rewrite Es, El, Et.
  destruct (Z.ltb_spec addr (addr + Z.of_nat (24 + length more + length (mmap_image l)))); [|lia].
  do 4 (apply counts_then; [auto with boot|]). cbn [fmap list_fmap usable foldr fst]. apply counts_bind.
  { destruct (r_type r =? 1); [apply counts_add|apply counts_ret]. }
  rewrite wrap_small by lia. replace (addr + (20 + Z.of_nat (length more)) + 4) with (addr + Z.of_nat (24 + length more)) by lia.
  replace (addr + Z.of_nat (24 + length more + length (mmap_image l))) with (addr + Z.of_nat (24 + length more) + Z.of_nat (length (mmap_image l))) by lia.
  apply IH; [simpl in Hf; lia|done|done|lia|lia].
Qed.

Lemma mem_str_chars mem fuel : forall addr s, mem_str mem fuel addr = Some s -> is_Some (chars s).
Proof.
  induction fuel as [|fuel IH]; intros addr s; [done|]. cbn [mem_str]. destruct (mem addr =? 0) eqn:E0; [intros [= <-]; by eexists|].
  destruct (mem_str mem fuel (addr + 1)) as [t|] eqn:E; [|done]. intros [= <-]. destruct (IH _ _ E) as [u Hu]. cbn [chars]. rewrite E0, Hu. by eexists.
Qed.
Lemma str_arg_ok mem fuel addr w : str_arg mem fuel addr = Some w -> kind_of w = KStr /\ terminated w.
Proof.
  unfold str_arg. destruct (addr =? 0); [by intros [= <-]|]. destruct (mem_str mem fuel addr) as [s|] eqn:E; [|done]. intros [= <-].
  split; [done|]. exact (mem_str_chars _ _ _ _ E).
Qed.
Lemma counts_str format o : message_fits format [KStr] = true -> (exists w, o = Some w /\ kind_of w = KStr /\ terminated w) ->
  counts (a ← lift o; say format [a]) 0.
Proof. intros Hf (w & -> & Hk & Ht). apply counts_say; [cbn [map]; by rewrite Hk|by repeat constructor]. Qed.

(** The strings that the information names end within [fuel] bytes, and the memory map
    is the image of [l]. *)
Record info_ok (mem : Z -> Z) (fuel : nat) (mb_info : Z) (l : list (region * buf)) : Prop := {
  ok_cmdline : Z.land (mem32 mem mb_info) MULTIBOOT1_FLAG_CMDLINE <> 0 -> is_Some (str_arg mem fuel (mem32 mem (mb_info + 16)));
  ok_modules : Z.land (mem32 mem mb_info) MULTIBOOT1_FLAG_MODS <> 0 -> forall i, 0 <= i < mem32 mem (mb_info + 20) ->
    is_Some (str_arg mem fuel (mem32 mem (mem32 mem (mb_info + 24) + 16 * i + 8)));
  ok_loader : Z.land (mem32 mem mb_info) MULTIBOOT1_FLAG_BOOTLOADER <> 0 -> is_Some (str_arg mem fuel (mem32 mem (mb_info + 64)));
  ok_mmap : Z.land (mem32 mem mb_info) MULTIBOOT1_FLAG_MMAP <> 0 ->
    mem32 mem (mb_info + 44) = blen (mmap_image l) /\ holds mem (mem32 mem (mb_info + 48)) (mmap_image l) /\ Forall region_ok l.*1 /\
    0 <= mem32 mem (mb_info + 48) /\ mem32 mem (mb_info + 48) + blen (mmap_image l) < 2 ^ 31 /\ (length l < fuel)%nat
}.

Lemma module_counts mem fuel mods i : is_Some (str_arg mem fuel (mem32 mem (mods + 16 * i + 8))) -> counts (print_module mem fuel mods i) 0.
Proof.
  intros [w E]. unfold print_module. do 3 (apply counts_then; [auto with boot|]). apply counts_str; [reflexivity|].
  destruct (mem32 mem (mods + 16 * i + 8) =? 0); [eexists; split; [reflexivity|]; by split; [|eexists]|]. exists w. split; [done|]. exact (str_arg_ok _ _ _ _ E).
Qed.

(** C31: parsing the Multiboot 1 information always ends and counts the memory right:
    whatever fields the flags announce, if the strings end and the memory map is the
    image of a list of regions (with entries of any size), the counter grows by the sum of
    the lengths of the usable regions, modulo 2^64, and by nothing without a map. *)
Theorem multiboot_memory (mem : Z -> Z) (fuel : nat) (mb_info : Z) (l : list (region * buf)) (s : boot) :
  info_ok mem fuel mb_info l -> 0 <= total_memory s < 2 ^ 64 ->
  exists text, parse_multiboot1_info mem fuel mb_info s =
    Some (tt, {| out := out s ++ text;
                 total_memory := u64 (total_memory s + (if Z.land (mem32 mem mb_info) MULTIBOOT1_FLAG_MMAP =? 0 then 0 else usable l.*1)) |}).
Proof.
  intros [Hc Hm Hl Hmap] Hs. refine ((_ : counts _ _) s Hs). unfold parse_multiboot1_info. set (n := if _ : bool then 0 else _).
  apply counts_then; [auto with boot|]. apply counts_then; [auto 6 with boot|]. apply counts_then; [auto 6 with boot|].
  apply counts_then. { apply counts_flag_0. intros Hf. destruct (Hc Hf) as [w E]. apply counts_str; [reflexivity|]. exists w. split; [done|]. exact (str_arg_ok _ _ _ _ E). }
  apply counts_then.
  { apply counts_flag_0. intros Hf. apply counts_then; [auto with boot|]. apply counts_for. intros j Hj. apply module_counts, Hm; [done|lia]. }
  rewrite <- (Z.add_0_r n). apply counts_bind.
  { apply counts_flag. intros Hf. destruct (Hmap Hf) as (El & Hh & Hr & Ha & Hb & Hfu). unfold print_mmap. do 4 (apply counts_then; [auto with boot|]).
    rewrite El, wrap_small by (unfold blen in *; lia). rewrite <- (Z.add_0_r (usable _)). apply counts_bind; [by apply mmap_loop_counts|auto with boot]. }
  apply counts_then. { apply counts_flag_0. intros Hf. destruct (Hl Hf) as [w E]. apply counts_str; [reflexivity|]. exists w. split; [done|]. exact (str_arg_ok _ _ _ _ E). }
  auto 12 with boot.
Qed.

(** A machine with 640 KB and 31 MB of usable memory around the hole below 1 MB. *)
Definition memory_from (base : Z) (b : buf) (a : Z) : Z := if a <? base then 0 else nth (Z.to_nat (a - base)) b 0.
Definition pc_regions : list (region * buf) :=
  [({| r_base := 0; r_length := 654336; r_type := 1 |}, []); ({| r_base := 983040; r_length := 65536; r_type := 2 |}, [0; 0; 0; 0]);
   ({| r_base := 1048576; r_length := 32505856; r_type := 1 |}, [])].
Definition pc_info : buf :=
  le_put 4 576 ++ replicate 40 0 ++ le_put 4 (blen (mmap_image pc_regions)) ++ le_put 4 39000 ++ replicate 12 0 ++ le_put 4 39100 ++ replicate 932 0 ++
  mmap_image pc_regions ++ replicate 24 0 ++ lit "GRUB".
Definition pc_mem : Z -> Z := memory_from 38000 pc_info.

Lemma pc_regions_ok : Forall region_ok pc_regions.*1.
Proof. repeat (apply Forall_cons; split; [unfold region_ok; simpl; lia|]). apply Forall_nil_2. Qed.
Lemma pc_info_ok : info_ok pc_mem 10 38000 pc_regions.
Proof.
  split.
  - intros H. exfalso. apply H. vm_compute. reflexivity.
  - intros H. exfalso. apply H. vm_compute. reflexivity.
  - intros _. vm_compute. by eexists.
  - intros _. split_and!; [reflexivity|vm_compute; reflexivity| |vm_compute; done|vm_compute; done|vm_compute; lia].
    exact pc_regions_ok.
Qed.

Lemma multiboot_memory_witness : exists text, parse_multiboot1_info pc_mem 10 38000 {| out := []; total_memory := 0 |} =
  Some (tt, {| out := [] ++ text; total_memory := 33160192 |}).
Proof. exact (multiboot_memory pc_mem 10 38000 pc_regions {| out := []; total_memory := 0 |} pc_info_ok (conj (Z.le_refl 0) eq_refl)). Defined.

(** ** The tags of Multiboot 2 *)

(** A tag with its size, which the specification does not round up, and the information
    structure of a list of tags, where they are laid out one right behind the other. *)
Definition tag_bytes (t : Z * buf) : buf := le_put 4 t.1 ++ le_put 4 (8 + blen t.2) ++ t.2.
Definition tags_image (l : list (Z * buf)) : buf := mjoin (map tag_bytes l) ++ tag_bytes (MULTIBOOT2_INFO_TAG_END, []).
Definition mmap2_entry (r : region) : buf := le_put 8 (r_base r) ++ le_put 8 (r_length r) ++ le_put 4 (r_type r) ++ le_put 4 0.
Definition mmap2_body (rs : list region) : buf := le_put 4 24 ++ le_put 4 0 ++ mjoin (map mmap2_entry rs).

Inductive mb2_tag := TMmap (rs : list region) | TOther (type : Z) (body : buf).
Definition tag_of (t : mb2_tag) : Z * buf := match t with TMmap rs => (MULTIBOOT2_INFO_TAG_MMAP, mmap2_body rs) | TOther type body => (type, body) end.
Definition tag_ok (t : mb2_tag) : Prop :=
  match t with
  | TMmap rs => Forall region_ok rs
  | TOther type _ => 0 < type < 2 ^ 32 /\ type <> MULTIBOOT2_INFO_TAG_MMAP
  end.
Definition tags_usable (l : list mb2_tag) : Z := foldr (fun t n => match t with TMmap rs => usable rs | TOther _ _ => 0 end + n) 0 l.
Definition tags_rounds (l : list mb2_tag) : nat := foldr (fun t n => match t with TMmap rs => Nat.max (length rs) n | TOther _ _ => n end) (length l) l.

Lemma length_tag_bytes t : length (tag_bytes t) = (8 + length t.2)%nat.
Proof. unfold tag_bytes. rewrite !length_app, !length_le_put. lia. Qed.

Lemma tag_fields mem a t : holds mem a (tag_bytes t) -> 0 <= t.1 < 2 ^ 32 -> blen t.2 < 2 ^ 31 ->
  tag_type mem a = t.1 /\ tag_size mem a = 8 + blen t.2 /\ holds mem (a + 8) t.2.
Proof.
  intros H Ht Hl. unfold tag_bytes in H. rewrite !holds_app, !length_le_put in H. destruct H as (H1 & H2 & H3).
  unfold tag_type, tag_size. change (a + 4) with (a + Z.of_nat 4). rewrite (holds_32 _ _ _ H1), (holds_32 _ _ _ H2).
  replace (a + 8) with (a + Z.of_nat 4 + Z.of_nat 4) by lia. unfold blen in *. rewrite !Z.mod_small by lia. done.
Qed.

Lemma length_mmap2_entry r : length (mmap2_entry r) = 24%nat.
Proof. unfold mmap2_entry. by rewrite !length_app, !length_le_put. Qed.
Lemma length_mmap2 rs : length (mjoin (map mmap2_entry rs)) = (24 * length rs)%nat.
Proof.
  induction rs as [|r rs IH]; [done|]. change (mjoin (map mmap2_entry (r :: rs))) with (mmap2_entry r ++ mjoin (map mmap2_entry rs)).
  rewrite length_app, IH, length_mmap2_entry. simpl. lia.
Qed.

Lemma mmap2_loop_ok mem tag : mem32 mem (tag + 8) = 24 -> forall rs fuel entry total, (length rs < fuel)%nat -> Forall region_ok rs ->
  holds mem entry (mjoin (map mmap2_entry rs)) -> 0 <= entry -> entry + 24 * Z.of_nat (length rs) < 2 ^ 31 ->
  u32 (tag + tag_size mem tag) = entry + 24 * Z.of_nat (length rs) -> 0 <= total < 2 ^ 64 ->
  mmap2_loop mem fuel tag entry total = Some (u64 (total + usable rs)).
Proof.
  intros H24. induction rs as [|r rs IH]; intros fuel entry total Hf Hok Hh He Hb Hend Ht; (destruct fuel as [|fuel]; [simpl in Hf; lia|]); cbn [mmap2_loop]; rewrite Hend.
  { cbn [length usable foldr] in *. destruct (Z.ltb_spec entry (entry + 24 * Z.of_nat 0)); [lia|]. by rewrite Z.add_0_r, wrap_small. }
  cbn [length] in *. destruct (Z.ltb_spec entry (entry + 24 * Z.of_nat (S (length rs)))); [|lia]. cbn [map mjoin list_join] in Hh.
  apply holds_app in Hh as [H1 H2]. apply Forall_cons in Hok as [(Hrb & Hrl & Hrt) Hok]. rewrite H24, (wrap_small 32) by lia.
  rewrite length_mmap2_entry in H2.
  unfold mmap2_entry in H1. rewrite !holds_app, !length_le_put in H1. destruct H1 as (_ & Hl & Hy & _).
  replace (entry + 16) with (entry + Z.of_nat 8 + Z.of_nat 8) by lia. change (entry + 8) with (entry + Z.of_nat 8). rewrite (holds_32 _ _ _ Hy), (holds_64 _ _ _ Hl), !Z.mod_small by lia.
  rewrite (IH fuel); [| lia | done | done | lia | lia | lia | destruct (r_type r =? 1); [apply (wrap_range 64); lia|done] ].
  change (usable (r :: rs)) with ((if r_type r =? 1 then r_length r else 0) + usable rs). destruct (r_type r =? 1); [rewrite wrap_add_l|]; do 2 f_equal; lia.
Qed.

Lemma rounds_le l : (length l <= tags_rounds l)%nat /\ forall rs, In (TMmap rs) l -> (length rs <= tags_rounds l)%nat.
Proof.
  unfold tags_rounds. generalize (length l) as n. intros n. induction l as [|t l [IH1 IH2]]; cbn [foldr].
  - split; [done|]. by intros rs [].
  - destruct t as [rs|ty b]; (split; [lia|]); intros rs' [E|Hin]; simplify_eq; try lia; specialize (IH2 _ Hin); lia.
Qed.

Lemma add_out_out s t u : add_out (add_out s t) u = add_out s (t ++ u).
Proof. unfold add_out. cbn [out total_memory]. by rewrite app_assoc. Qed.
Lemma add_out_nil s : add_out s [] = s.
Proof. destruct s. unfold add_out. cbn [out total_memory]. by rewrite app_nil_r. Qed.

(** One tag adds what its map has. *)
Lemma total_body_ok mem fuel tag total t s : holds mem tag (tag_bytes (tag_of t)) -> tag_ok t -> (forall rs, t = TMmap rs -> length rs < fuel)%nat ->
  0 <= tag -> tag + 8 + blen (tag_of t).2 < 2 ^ 31 -> 0 <= total < 2 ^ 64 ->
  exists text, total_body mem fuel tag total s = Some (u64 (total + match t with TMmap rs => usable rs | TOther _ _ => 0 end), add_out s text).
Proof.
  intros Hh Hok Hf H0 Hb Ht. destruct (tag_fields mem tag (tag_of t) Hh) as (Ety & Esz & Hbody).
  { destruct t as [rs|ty b]; cbn [tag_of fst tag_ok] in *; [unfold MULTIBOOT2_INFO_TAG_MMAP|]; lia. }
  { unfold blen in *. lia. }
  unfold total_body. rewrite Ety. destruct t as [rs|ty b]; cbn [tag_of fst snd tag_ok] in *.
  2: { destruct Hok as [_ Hne]. destruct (Z.eqb_spec ty MULTIBOOT2_INFO_TAG_MMAP); [done|]. exists []. rewrite add_out_nil, Z.add_0_r, wrap_small by lia. done. }
  change (MULTIBOOT2_INFO_TAG_MMAP =? MULTIBOOT2_INFO_TAG_MMAP) with true. cbv iota.
  destruct (say_ok "Memory map available:\n" [] s) as [t1 E1]; [reflexivity|constructor|]. rewrite (bind_eq _ _ _ _ _ E1).
  destruct (say_ok "Entry size: %u\n" [VInt (mem32 mem (tag + 8))] (add_out s t1)) as [t2 E2]; [reflexivity|by repeat constructor|]. rewrite (bind_eq _ _ _ _ _ E2).
  unfold mmap2_body in Hbody. rewrite !holds_app, !length_le_put in Hbody. destruct Hbody as (H24 & _ & Hrs).
  assert (blen (mmap2_body rs) = 8 + 24 * Z.of_nat (length rs)) as El.
  { unfold blen, mmap2_body. rewrite !length_app, !length_le_put, length_mmap2. lia. }
  rewrite (mmap2_loop_ok mem tag (holds_32 _ _ _ H24) rs); [exists (t1 ++ t2); by rewrite add_out_out|by apply Hf|done| |lia|lia| |done].
  - replace (tag + 16) with (tag + 8 + Z.of_nat 4 + Z.of_nat 4) by lia. exact Hrs.
  - rewrite Esz, El, wrap_small by lia. lia.
Qed.

Lemma tag_loop_ok mem fuel l : forall n tag total s, (length l < n)%nat -> (forall rs, In (TMmap rs) l -> length rs < fuel)%nat -> Forall tag_ok l ->
  holds mem tag (tags_image (map tag_of l)) -> 0 <= tag -> tag + blen (tags_image (map tag_of l)) < 2 ^ 31 -> 0 <= total < 2 ^ 64 ->
  exists text, tag_loop mem n tag (total_body mem fuel) total s = Some (u64 (total + tags_usable l), add_out s text).
Proof.
  induction l as [|t l IH]; intros n tag total s Hn Hf Hok Hh H0 Hb Ht; (destruct n as [|n]; [simpl in Hn; lia|]); cbn [tag_loop].
  { destruct (tag_fields mem tag (MULTIBOOT2_INFO_TAG_END, []) Hh) as (-> & _); [done|done|]. exists []. rewrite add_out_nil. change (tags_usable []) with 0. by rewrite Z.add_0_r, (wrap_small 64). }
  change (tags_image (map tag_of (t :: l))) with ((tag_bytes (tag_of t) ++ mjoin (map tag_bytes (map tag_of l))) ++ tag_bytes (MULTIBOOT2_INFO_TAG_END, [])) in *.
  rewrite <- app_assoc in Hh, Hb. fold (tags_image (map tag_of l)) in Hh, Hb. apply holds_app in Hh as [H1 H2]. unfold blen in *. rewrite length_app, length_tag_bytes in *.
  apply Forall_cons in Hok as [Hto Hok].
  destruct (tag_fields mem tag (tag_of t) H1) as (Ety & Esz & _).
  { destruct t as [rs|ty b]; cbn [tag_of fst tag_ok] in *; [unfold MULTIBOOT2_INFO_TAG_MMAP|]; lia. }
  { unfold blen. lia. }
  destruct (total_body_ok mem fuel tag total t s) as [t1 E1]; [done|done|intros rs ->; apply Hf; by left|done|unfold blen; lia|done|].
  rewrite Ety. destruct (Z.eqb_spec (tag_of t).1 MULTIBOOT2_INFO_TAG_END) as [E|_].
  { destruct t as [rs|ty b]; cbn [tag_of fst tag_ok] in *; unfold MULTIBOOT2_INFO_TAG_MMAP, MULTIBOOT2_INFO_TAG_END in *; lia. }
  rewrite (bind_eq _ _ _ _ _ E1), Esz. unfold blen. rewrite (wrap_small 32) by lia.
  edestruct (IH n (tag + (8 + Z.of_nat (length (tag_of t).2)))) as [t2 E2]; [simpl in Hn; lia|intros rs Hin; apply Hf; by right|done| |lia| |apply (wrap_range 64); lia|].
  - replace (tag + (8 + Z.of_nat (length (tag_of t).2))) with (tag + Z.of_nat (8 + length (tag_of t).2)) by lia. exact H2.
  - lia.
  - rewrite E2. exists (t1 ++ t2). rewrite add_out_out, wrap_add_l. cbn [tags_usable foldr]. rewrite Z.add_assoc. done.
Qed.

(** The walk over the tags of the Multiboot 2 information ends, and its result is the
    sum of the lengths of the usable regions in all memory maps among them, modulo 2^64, for
    tags that lie one right behind the other. *)
Theorem multiboot2_memory (mem : Z -> Z) (fuel : nat) (mb_info : Z) (l : list mb2_tag) (s : boot) :
  holds mem (mb_info + 8) (tags_image (map tag_of l)) -> Forall tag_ok l -> (tags_rounds l < fuel)%nat ->
  0 <= mb_info -> mb_info + 8 + blen (tags_image (map tag_of l)) < 2 ^ 31 ->
  exists text, compute_total_memory mem fuel mb_info s = Some (u64 (tags_usable l), add_out s text).
Proof.
  intros Hh Hok Hf H0 Hb. destruct (rounds_le l) as [Hl Hr].
  apply (tag_loop_ok mem fuel l fuel (mb_info + 8) 0 s); [lia|intros rs Hin; specialize (Hr rs Hin); lia|done|done|lia|done|done].
Qed.

Definition efi_tags : list mb2_tag :=
  [TOther MULTIBOOT2_INFO_TAG_CMDLINE (lit "verbose"); TMmap (pc_regions.*1); TOther MULTIBOOT2_INFO_TAG_BASIC_MEMINFO (le_put 4 640 ++ le_put 4 31744)].
Definition efi_mem : Z -> Z := memory_from 38000 (replicate 8 0 ++ tags_image (map tag_of efi_tags)).

Lemma multiboot2_memory_witness : exists text, compute_total_memory efi_mem 4 38000 {| out := []; total_memory := 0 |} =
  Some (33160192, add_out {| out := []; total_memory := 0 |} text).
Proof.
  refine (multiboot2_memory efi_mem 4 38000 efi_tags {| out := []; total_memory := 0 |} _ _ _ _ _).
  - vm_compute. reflexivity.
  - apply Forall_cons. split; [done|]. apply Forall_cons. split; [exact pc_regions_ok|]. apply Forall_cons. by split.
  - vm_compute. lia.
  - lia.
  - vm_compute. reflexivity.
Defined.

(** The specification aligns tags to 8 bytes, while [size] does not count the padding; the
    walk adds the bare size.  Behind a command line of 11 characters the memory map is
    not found where it is, though nothing else is wrong with the information. *)
Definition padded_mem : Z -> Z := memory_from 38000
  (replicate 8 0 ++ tag_bytes (MULTIBOOT2_INFO_TAG_CMDLINE, lit "root=hdd0 x") ++ replicate 4 0 ++
   tag_bytes (MULTIBOOT2_INFO_TAG_MMAP, mmap2_body pc_regions.*1) ++ tag_bytes (MULTIBOOT2_INFO_TAG_END, [])).
Theorem padding_not_skipped : exists text, compute_total_memory padded_mem 10 38000 {| out := []; total_memory := 0 |} =
  Some (0, {| out := text; total_memory := 0 |}).
Proof. eexists. vm_compute. reflexivity. Qed.

(** A tag of size zero is never left. *)
Theorem empty_tag_loops {A} (mem : Z -> Z) (tag : Z) (body : Z -> A -> M boot A) :
  0 <= tag < 2 ^ 32 -> tag_size mem tag = 0 -> tag_type mem tag <> MULTIBOOT2_INFO_TAG_END ->
  forall fuel a s, tag_loop mem fuel tag body a s = None.
Proof.
  intros Ht Hz Hne. induction fuel as [|fuel IH]; intros a s; [done|]. cbn [tag_loop]. destruct (Z.eqb_spec (tag_type mem tag) MULTIBOOT2_INFO_TAG_END); [done|].
  rewrite Hz, Z.add_0_r, wrap_small by lia. unfold mbind, M_bind. destruct (body tag a s) as [[a' s']|]; [apply IH|done].
Qed.
