(* ===== verification/Paging.v ===== *)
(** arch/x86/mm/paging.c and paging.h: the page allocator, page directories and the
    identity mapping.

    Physical memory is a function from the addresses of its 32-bit words to their values.
    The bit fields of an entry are placed as the compiler places them, from bit 0 on.
    [walk] is the translation of an address by the processor. *)

From S2P Require Import Prelude Effects.

Definition PAGE_SIZE : Z := 4096.
Definition PAGE_TABLE_ENTRIES : nat := 1024.
Definition PAGE_DIRECTORY_ENTRIES : nat := 1024.
Definition MEMORY_POOL_SIZE : Z := 1024 * 1024 * 16.
Definition BITMAP_WORDS : nat := 128.
Definition PAGE_PRESENT : Z := 1.
Definition PAGE_RW : Z := 2.
Definition CR0_PG : Z := 2147483648.
Definition USER_PAGE_START : Z := 1.

Record paging := Mk_paging { words : Z -> Z; free_page_bitmap : list Z; cr0 : Z; cr3 : Z; tlb_flushes : nat }.

Definition with_words (s : paging) (w : Z -> Z) : paging := Mk_paging w (free_page_bitmap s) (cr0 s) (cr3 s) (tlb_flushes s).
Definition with_bitmap (s : paging) (b : list Z) : paging := Mk_paging (words s) b (cr0 s) (cr3 s) (tlb_flushes s).
Definition set_word (w : Z -> Z) (a v : Z) : Z -> Z := fun x => if x =? a then v else w x.

Section Allocator.
Context (memory_pool : Z).          (* the address of the pool *)

(** The lowest bit of [w] that is clear, from bit [bit] on. *)
Fixpoint free_bit (n : nat) (bit w : Z) : option Z :=
  match n with O => None | S n' => if Z.land w (u32 (Z.shiftl 1 bit)) =? 0 then Some bit else free_bit n' (bit + 1) w end.
Fixpoint find_free_loop (l : list Z) (i : Z) : Z :=
  match l with
  | [] => -1
  | w :: l' =>
      if negb (w =? 4294967295) then
        match free_bit 32 0 w with Some bit => i * 32 + bit | None => find_free_loop l' (i + 1) end
      else find_free_loop l' (i + 1)
  end.
Definition find_free_page (s : paging) : Z := find_free_loop (free_page_bitmap s) 0.

Definition update_bitmap (s : paging) (page_index : Z) (f : Z -> Z -> Z) : option paging :=
  let i := Z.quot page_index 32 in
  if 0 <=? i then
    w ← free_page_bitmap s !! Z.to_nat i;
    Some (with_bitmap s (<[Z.to_nat i := f w (u32 (Z.shiftl 1 (Z.rem page_index 32)))]> (free_page_bitmap s)))
  else None.
Definition mark_page_used (page_index : Z) (s : paging) : option paging := update_bitmap s page_index (fun w m => Z.lor w m).
Definition mark_page_free (page_index : Z) (s : paging) : option paging := update_bitmap s page_index (fun w m => Z.land w (unot 32 m)).

(** The address of the page, 0 for NULL. *)
Definition allocate_page (s : paging) : option (Z * paging) :=
  let free_page := find_free_page s in
  if free_page =? -1 then Some (0, s) else
  s ← mark_page_used free_page s;
  Some (u32 (memory_pool + free_page * PAGE_SIZE), s).

Definition free_page (page : Z) (s : paging) : option paging :=
  if (page <? memory_pool) || (memory_pool + MEMORY_POOL_SIZE <=? page) then Some s else
  let page_index := s32 ((page - memory_pool) / PAGE_SIZE) in
  mark_page_free page_index s.

(** [memset(p, 0, n)] on [n / 4] words. *)
Fixpoint clear_words (n : nat) (a : Z) (w : Z -> Z) : Z -> Z := match n with O => w | S n' => clear_words n' (a + 4) (set_word w a 0) end.

Definition create_page_directory (s : paging) : option (Z * paging) :=
  '(pd, s) ← allocate_page s;
  if pd =? 0 then Some (0, s) else Some (pd, with_words s (clear_words 1024 pd (words s))).

(** ** Entries *)

(** A bit field of [width] bits at bit [pos]. *)
Definition get_field (pos width w : Z) : Z := Z.shiftr w pos mod 2 ^ width.
Definition set_field (pos width w v : Z) : Z := w - Z.shiftl (get_field pos width w) pos + Z.shiftl (v mod 2 ^ width) pos.

(** present : 1, rw : 1, user : 1, reserved : 2, accessed : 1, dirty : 1, unused : 2, and
    frame or table : 20. *)
Definition e_present (w : Z) : Z := get_field 0 1 w.
Definition e_frame (w : Z) : Z := get_field 9 20 w.
Definition put_present (w v : Z) : Z := set_field 0 1 w v.
Definition put_rw (w v : Z) : Z := set_field 1 1 w v.
Definition put_user (w v : Z) : Z := set_field 2 1 w v.
Definition put_frame (w v : Z) : Z := set_field 9 20 w v.

Definition page_flags (w flags : Z) : Z :=
  put_user (put_rw (put_present w 1) (Z.shiftr (Z.land flags 2) 1)) (Z.shiftr (Z.land flags 4) 2).
Definition flush_tlb (s : paging) : paging := Mk_paging (words s) (free_page_bitmap s) (cr0 s) (cr3 s) (S (tlb_flushes s)).

Definition dir_index (virtual_address : Z) : Z := Z.land (Z.shiftr virtual_address 22) 1023.
Definition table_index (virtual_address : Z) : Z := Z.land (Z.shiftr virtual_address 12) 1023.

Definition map_page (pd virtual_address physical_address flags : Z) (s : paging) : option paging :=
  let pde := pd + 4 * dir_index virtual_address in
  '(pt, s) ← (if e_present (words s pde) =? 0 then
                '(pt, s) ← allocate_page s;
                if pt =? 0 then Some (None, s) else
                let s := with_words s (clear_words 1024 pt (words s)) in
                let s := with_words s (set_word (words s) pde (page_flags (put_frame (words s pde) (Z.shiftr pt 12)) flags)) in
                Some (Some pt, s)
              else Some (Some (u32 (Z.shiftl (e_frame (words s pde)) 12)), s));
  match pt with
  | None => Some s
  | Some pt =>
      let pte := pt + 4 * table_index virtual_address in
      Some (flush_tlb (with_words s (set_word (words s) pte (page_flags (put_frame (words s pte) (Z.shiftr physical_address 12)) flags))))
  end.

Fixpoint free_tables (n : nat) (i pd : Z) (s : paging) : option paging :=
  match n with
  | O => Some s
  | S n' =>
      let entry := words s (pd + 4 * i) in
      s ← (if negb (Z.land entry PAGE_PRESENT =? 0) then free_page (Z.land entry (unot 32 4095)) s else Some s);
      free_tables n' (i + 1) pd s
  end.
Definition free_page_directory (pd : Z) (s : paging) : option paging :=
  if pd =? 0 then Some s else
  s ← free_tables 1023 USER_PAGE_START pd s;
  free_page pd s.
End Allocator.

(** ** The identity mapping *)

Section Init.
Context (page_directory page_table : Z).          (* addresses of the two arrays *)

Fixpoint identity_loop (n : nat) (i : Z) (w : Z -> Z) : Z -> Z :=
  match n with
  | O => w
  | S n' => identity_loop n' (i + 1) (set_word w (page_table + 4 * i) (Z.lor (Z.lor (u32 (i * PAGE_SIZE)) PAGE_PRESENT) PAGE_RW))
  end.

Definition init_paging (s : paging) : paging :=
  let w := clear_words 1024 page_directory (words s) in
  let w := clear_words 1024 page_table w in
  let w := identity_loop 1024 0 w in
  let w := set_word w (page_directory + 4 * 0) (Z.lor (Z.lor page_table PAGE_PRESENT) PAGE_RW) in
  Mk_paging w (free_page_bitmap s) (Z.lor (cr0 s) CR0_PG) page_directory (tlb_flushes s).
End Init.

(** The processor's translation of a virtual address. *)
Definition walk (s : paging) (va : Z) : option Z :=
  if Z.testbit (cr0 s) 31 then
    let pde := words s (cr3 s / 4096 * 4096 + 4 * (va / 2 ^ 22)) in
    if Z.testbit pde 0 then
      let pte := words s (pde / 4096 * 4096 + 4 * (va / 4096 mod 1024)) in
      if Z.testbit pte 0 then Some (pte / 4096 * 4096 + va mod 4096) else None
    else None
  else Some va.

(** A write through the mapping; without one the access faults. *)
Definition test_paging (s : paging) : option (Z * paging) :=
  pa ← walk s 4096;
  let s := with_words s (set_word (words s) pa 42) in Some (words s pa, s).

(** * Properties *)

(** ** The page allocator *)

Lemma mask_bit k : 0 <= k < 32 -> u32 (Z.shiftl 1 k) = 2 ^ k.
Proof. intros Hk. rewrite Z.shiftl_1_l. apply wrap_small. split; [lia|]. apply Z.pow_lt_mono_r; lia. Qed.

Lemma land_bit w k : 0 <= k -> (Z.land w (2 ^ k) =? 0) = negb (Z.testbit w k).
Proof.
  intros Hk. destruct (Z.testbit w k) eqn:E; cbn [negb].
  - apply Z.eqb_neq. intros H0. assert (Z.testbit (Z.land w (2 ^ k)) k = true) as Ht by (rewrite Z.land_spec, E, Z.pow2_bits_true by lia; done). by rewrite H0, Z.bits_0 in Ht.
  - apply Z.eqb_eq. apply Z.bits_inj'. intros i Hi. rewrite Z.land_spec, Z.bits_0. destruct (Z.eq_dec i k) as [->|]; [by rewrite E|].
    rewrite Z.pow2_bits_false by lia. apply andb_false_r.
Qed.

Definition page_used (b : list Z) (i : Z) : bool := match b !! Z.to_nat (i / 32) with Some w => Z.testbit w (i mod 32) | None => true end.
Definition bitmap_ok (b : list Z) : Prop := length b = BITMAP_WORDS /\ Forall (fun w => 0 <= w < 2 ^ 32) b.

Lemma free_bit_ok w n : forall bit, 0 <= bit -> bit + Z.of_nat n <= 32 ->
  match free_bit n bit w with
  | Some b => bit <= b < bit + Z.of_nat n /\ Z.testbit w b = false /\ forall j, bit <= j < b -> Z.testbit w j = true
  | None => forall j, bit <= j < bit + Z.of_nat n -> Z.testbit w j = true
  end.
Proof.
  induction n as [|n IH]; intros bit Hb Hn; cbn [free_bit]; [lia|]. rewrite mask_bit, land_bit by lia.
  destruct (Z.testbit w bit) eqn:E; cbn [negb]; [|split; [lia|]; split; [done|lia]].
  specialize (IH (bit + 1) ltac:(lia) ltac:(lia)). destruct (free_bit n (bit + 1) w) as [b|].
  - destruct IH as (Hr & Hf & Hl). split; [lia|]. split; [done|]. intros j Hj. destruct (Z.eq_dec j bit) as [->|]; [done|]. apply Hl. lia.
  - intros j Hj. destruct (Z.eq_dec j bit) as [->|]; [done|]. apply IH. lia.
Qed.

Lemma ones_bits w j : w = 4294967295 -> 0 <= j < 32 -> Z.testbit w j = true.
Proof. intros -> Hj. change 4294967295 with (Z.ones 32). apply Z.ones_spec_low. lia. Qed.

(** [p] is the lowest free page of the words from number [i] on, -1 if there is none. *)
Definition first_free (l : list Z) (i p : Z) : Prop :=
  if p =? -1 then forall k j w, l !! k = Some w -> 0 <= j < 32 -> Z.testbit w j = true
  else exists k w, l !! k = Some w /\ i * 32 <= p /\ p / 32 = i + Z.of_nat k /\ Z.testbit w (p mod 32) = false /\
         (forall k' j w', l !! k' = Some w' -> 0 <= j < 32 -> (i + Z.of_nat k') * 32 + j < p -> Z.testbit w' j = true).

Lemma find_free_loop_ok l : forall i, 0 <= i -> first_free l i (find_free_loop l i).
Proof.
  induction l as [|w l IH]; intros i Hi; cbn [find_free_loop]; [by intros k j w|].
  assert (forall p, (forall j, 0 <= j < 32 -> Z.testbit w j = true) -> first_free l (i + 1) p -> first_free (w :: l) i p) as Hstep.
  { intros p Hw. unfold first_free. destruct (p =? -1).
    - intros Hall [|k] j w' E Hj; [injection E as <-; by apply Hw|]. by eapply Hall.
    - intros (k & w' & E & Hp & Hd & Ht & Hl). exists (S k), w'. split; [done|]. split; [lia|]. split; [lia|]. split; [done|].
      intros [|k'] j w'' E' Hj Hlt; [injection E' as <-; by apply Hw|]. eapply (Hl k'); [done|done|lia]. }
  destruct (Z.eqb_spec w 4294967295) as [Ew|Ew]; cbn [negb].
  - apply Hstep; [intros j Hj; by apply ones_bits|apply IH; lia].
  - pose proof (free_bit_ok w 32 0 ltac:(lia) ltac:(lia)) as Hb. destruct (free_bit 32 0 w) as [b|]; [|apply Hstep; [done|apply IH; lia]].
    destruct Hb as (Hr & Hf & Hl). unfold first_free. destruct (Z.eqb_spec (i * 32 + b) (-1)); [lia|]. exists 0%nat, w. split; [done|]. split; [lia|].
    split; [zlia|]. split; [by replace ((i * 32 + b) mod 32) with b by zlia|].
    intros [|k'] j w' E' Hj Hlt; [injection E' as <-; apply Hl; lia|]. lia.
Qed.

Lemma page_word b i : bitmap_ok b -> 0 <= i < 4096 -> exists w, b !! Z.to_nat (i / 32) = Some w /\ 0 <= w < 2 ^ 32 /\ page_used b i = Z.testbit w (i mod 32).
Proof.
  intros [Hl Hw] Hi. destruct (lookup_lt_is_Some_2 b (Z.to_nat (i / 32))) as [w E]; [rewrite Hl; unfold BITMAP_WORDS; zlia|].
  exists w. split; [done|]. split; [by eapply Forall_lookup_1 in Hw|]. unfold page_used. by rewrite E.
Qed.

Lemma update_ok s i (f : Z -> Z -> Z) (g : bool -> bool) : bitmap_ok (free_page_bitmap s) -> 0 <= i < 4096 ->
  (forall w k, 0 <= w < 2 ^ 32 -> 0 <= k < 32 -> 0 <= f w (2 ^ k) < 2 ^ 32 /\ forall j, 0 <= j < 32 -> Z.testbit (f w (2 ^ k)) j = if j =? k then g (Z.testbit w k) else Z.testbit w j) ->
  exists b, update_bitmap s i f = Some (with_bitmap s b) /\ bitmap_ok b /\
    forall j, 0 <= j < 4096 -> page_used b j = if j =? i then g (page_used (free_page_bitmap s) i) else page_used (free_page_bitmap s) j.
Proof.
  intros Hb Hi Hf. destruct (page_word _ _ Hb Hi) as (w & E & Hw & Hu). unfold update_bitmap. rewrite Z.quot_div_nonneg, Z.rem_mod_nonneg by lia.
  assert (0 <= i / 32) by zlia. destruct (Z.leb_spec 0 (i / 32)); [|lia]. rewrite E. cbn [mbind option_bind]. rewrite mask_bit by zlia.
  destruct (Hf w (i mod 32) Hw ltac:(zlia)) as [Hr Hbits]. eexists. split; [reflexivity|]. destruct Hb as [Hl Hall]. split.
  { split; [by rewrite length_insert|]. apply Forall_insert; [done|exact Hr]. }
  intros j Hj. unfold page_used at 1. destruct (decide (Z.to_nat (j / 32) = Z.to_nat (i / 32))) as [Ej|Ej].
  - rewrite Ej, list_lookup_insert_eq by (apply lookup_lt_Some in E; done). assert (j / 32 = i / 32) as Ed by zlia.
    rewrite Hbits by zlia. unfold page_used. rewrite Ej, E. destruct (Z.eqb_spec j i) as [->|]; [by rewrite Z.eqb_refl|].
    destruct (Z.eqb_spec (j mod 32) (i mod 32)); [zlia|done].
  - rewrite list_lookup_insert_ne by done. unfold page_used. destruct (Z.eqb_spec j i) as [->|]; [done|done].
Qed.

Lemma set_bit_ok w k : 0 <= w < 2 ^ 32 -> 0 <= k < 32 -> 0 <= Z.lor w (2 ^ k) < 2 ^ 32 /\
  forall j, 0 <= j < 32 -> Z.testbit (Z.lor w (2 ^ k)) j = if j =? k then true else Z.testbit w j.
Proof.
  intros Hw Hk. split.
  - split; [apply Z.lor_nonneg; lia|]. assert (0 < 2 ^ k) by lia. destruct (Z.eq_dec w 0) as [->|]; [rewrite Z.lor_0_l; apply Z.pow_lt_mono_r; lia|].
    apply Z.log2_lt_pow2; [assert (0 <= Z.lor w (2 ^ k)) by (apply Z.lor_nonneg; lia); assert (Z.lor w (2 ^ k) <> 0) by (intros ?%Z.lor_eq_0_iff; lia); lia|].
    rewrite Z.log2_lor, Z.log2_pow2 by lia. apply Z.max_lub_lt; [apply Z.log2_lt_pow2; lia|lia].
  - intros j Hj. rewrite Z.lor_spec. destruct (Z.eqb_spec j k) as [->|]; [rewrite Z.pow2_bits_true by lia; apply orb_true_r|].
    rewrite Z.pow2_bits_false by lia. apply orb_false_r.
Qed.

Lemma clear_bit_ok w k : 0 <= w < 2 ^ 32 -> 0 <= k < 32 -> 0 <= Z.land w (unot 32 (2 ^ k)) < 2 ^ 32 /\
  forall j, 0 <= j < 32 -> Z.testbit (Z.land w (unot 32 (2 ^ k))) j = if j =? k then false else Z.testbit w j.
Proof.
  intros Hw Hk. unfold unot, wrap. split.
  - split; [apply Z.land_nonneg; lia|]. destruct (Z.eq_dec (Z.land w (Z.lnot (2 ^ k) mod 2 ^ 32)) 0) as [->|]; [lia|].
    apply Z.log2_lt_pow2; [assert (0 <= Z.land w (Z.lnot (2 ^ k) mod 2 ^ 32)) by (apply Z.land_nonneg; lia); lia|].
    destruct (Z.eq_dec w 0) as [->|]; [done|]. eapply Z.le_lt_trans; [apply Z.log2_land; [lia|apply Z.mod_pos_bound; lia]|].
    apply Z.min_lt_iff. left. apply Z.log2_lt_pow2; lia.
  - intros j Hj. rewrite Z.land_spec, Z.mod_pow2_bits_low, Z.lnot_spec by lia. destruct (Z.eqb_spec j k) as [->|].
    + rewrite Z.pow2_bits_true by lia. apply andb_false_r.
    + rewrite Z.pow2_bits_false by lia. apply andb_true_r.
Qed.

Section Pages.
Context (memory_pool : Z) (Hpool : 0 < memory_pool) (Hend : memory_pool + MEMORY_POOL_SIZE <= 2 ^ 32).
Implicit Types s : paging.

Lemma allocate_page_ok s : bitmap_ok (free_page_bitmap s) ->
  (allocate_page memory_pool s = Some (0, s) /\ forall i, 0 <= i < 4096 -> page_used (free_page_bitmap s) i = true) \/
  exists i b, 0 <= i < 4096 /\ page_used (free_page_bitmap s) i = false /\ (forall j, 0 <= j < i -> page_used (free_page_bitmap s) j = true) /\
    allocate_page memory_pool s = Some (memory_pool + 4096 * i, with_bitmap s b) /\ bitmap_ok b /\
    (forall j, 0 <= j < 4096 -> page_used b j = (j =? i) || page_used (free_page_bitmap s) j).
Proof.
  intros Hb. pose proof (find_free_loop_ok (free_page_bitmap s) 0 ltac:(lia)) as Hf. unfold allocate_page, find_free_page. unfold first_free in Hf.
  destruct (Z.eqb_spec (find_free_loop (free_page_bitmap s) 0) (-1)) as [E|E].
  - left. split; [done|]. intros i Hi. destruct (page_word _ _ Hb Hi) as (w & Ew & _ & ->). eapply Hf; [done|zlia].
  - right. set (p := find_free_loop _ _) in *. destruct Hf as (k & w & Ew & Hp & Hd & Ht & Hl). pose proof (lookup_lt_Some _ _ _ Ew) as Hk. destruct Hb as [Hlen Hall].
    rewrite Hlen in Hk. unfold BITMAP_WORDS in Hk. assert (0 <= p < 4096) as Hr by zlia.
    destruct (update_ok s p (fun w m => Z.lor w m) (fun _ => true) (conj Hlen Hall) Hr) as (b & Eu & Hb' & Hu); [intros; by apply set_bit_ok|].
    exists p, b. split; [done|]. split. { unfold page_used. replace (Z.to_nat (p / 32)) with k by lia. by rewrite Ew. }
    split. { intros j Hj. destruct (page_word _ j (conj Hlen Hall)) as (w' & Ew' & _ & ->); [lia|]. eapply Hl; [exact Ew'|zlia|zlia]. }
    split. { unfold mark_page_used. rewrite Eu. cbn [mbind option_bind]. do 2 f_equal. unfold PAGE_SIZE, MEMORY_POOL_SIZE in *. rewrite Z.mul_comm. apply wrap_small. lia. }
    split; [done|]. intros j Hj. rewrite Hu by done. by destruct (j =? p).
Qed.

Lemma free_page_ok s i : bitmap_ok (free_page_bitmap s) -> 0 <= i < 4096 ->
  exists b, free_page memory_pool (memory_pool + 4096 * i) s = Some (with_bitmap s b) /\ bitmap_ok b /\
    (forall j, 0 <= j < 4096 -> page_used b j = negb (j =? i) && page_used (free_page_bitmap s) j).
Proof using Hpool Hend.
  intros Hb Hi. unfold free_page, MEMORY_POOL_SIZE, PAGE_SIZE in *. destruct (Z.ltb_spec (memory_pool + 4096 * i) memory_pool), (Z.leb_spec (memory_pool + 1024 * 1024 * 16) (memory_pool + 4096 * i)); try lia.
  cbn [orb]. replace ((memory_pool + 4096 * i - memory_pool) / 4096) with i by zlia. rewrite swrap_small by lia.
  destruct (update_ok s i (fun w m => Z.land w (unot 32 m)) (fun _ => false) Hb Hi) as (b & Eu & Hb' & Hu); [intros; by apply clear_bit_ok|].
  exists b. split; [exact Eu|]. split; [done|]. intros j Hj. rewrite Hu by done. by destruct (j =? i).
Qed.

(** The page allocator hands out the lowest free page of the pool, as long as there is
    one, and takes exactly that page out of the free ones; releasing it brings the bitmap
    back to what it was. *)
Theorem page_allocator (s : paging) (Hb : bitmap_ok (free_page_bitmap s)) :
  (allocate_page memory_pool s = Some (0, s) /\ forall i, 0 <= i < 4096 -> page_used (free_page_bitmap s) i = true) \/
  exists i b, 0 <= i < 4096 /\ page_used (free_page_bitmap s) i = false /\ (forall j, 0 <= j < i -> page_used (free_page_bitmap s) j = true) /\
    allocate_page memory_pool s = Some (memory_pool + 4096 * i, with_bitmap s b) /\
    (forall j, 0 <= j < 4096 -> page_used b j = (j =? i) || page_used (free_page_bitmap s) j) /\
    exists b', free_page memory_pool (memory_pool + 4096 * i) (with_bitmap s b) = Some (with_bitmap s b') /\
      forall j, 0 <= j < 4096 -> page_used b' j = page_used (free_page_bitmap s) j.
Proof.
  destruct (allocate_page_ok s Hb) as [Hfull|(i & b & Hi & Hf & Hl & E & Hb' & Hu)]; [by left|]. right. exists i, b. split_and!; try done; [lia..|].
  destruct (free_page_ok (with_bitmap s b) i Hb' Hi) as (b' & Ef & _ & Hu'). exists b'. split; [exact Ef|]. intros j Hj. rewrite Hu' by done. cbn [free_page_bitmap with_bitmap].
  rewrite Hu by done. destruct (Z.eqb_spec j i) as [->|]; [done|done].
Qed.
End Pages.

(** ** The identity mapping *)

Lemma clear_words_at n : forall a w x, clear_words n a w x = if (a <=? x) && (x <? a + 4 * Z.of_nat n) && ((x - a) mod 4 =? 0) then 0 else w x.
Proof.
  induction n as [|n IH]; intros a w x; cbn [clear_words]; [zcase; lia || done|]. rewrite IH. unfold set_word. zcase; try done; try (exfalso; zlia).
Qed.

(** The flags below an aligned address. *)
Lemma lor_flags p : p mod 4096 = 0 -> Z.lor (Z.lor p PAGE_PRESENT) PAGE_RW = p + 3.
Proof.
  intros Hp. rewrite <- Z.lor_assoc. change (Z.lor PAGE_PRESENT PAGE_RW) with 3. assert (p = Z.shiftl (p / 4096) 12) as E.
  { rewrite Z.shiftl_mul_pow2 by lia. change (2 ^ 12) with 4096. zlia. }
  rewrite E at 1. rewrite lor_shiftl_add by lia. change (2 ^ 12) with 4096. zlia.
Qed.

Lemma identity_at pt n : forall i w x, 0 <= i -> i + Z.of_nat n <= 1024 ->
  identity_loop pt n i w x = if (pt + 4 * i <=? x) && (x <? pt + 4 * (i + Z.of_nat n)) && ((x - pt) mod 4 =? 0) then (x - pt) / 4 * 4096 + 3 else w x.
Proof.
  induction n as [|n IH]; intros i w x Hi Hn; cbn [identity_loop]; [zcase; lia || done|]. rewrite IH by lia. unfold set_word, PAGE_SIZE.
  rewrite wrap_small by (change (2 ^ 32) with 4294967296; lia). rewrite lor_flags by zlia.
  zcase; try done; try (exfalso; zlia). replace ((x - pt) / 4) with i by zlia. done.
Qed.

Lemma testbit_flags p : p mod 4096 = 0 -> Z.testbit (p + 3) 0 = true.
Proof. intros Hp. rewrite Z.bit0_odd, Z.odd_add. change (Z.odd 3) with true. assert (Z.odd p = false) as ->; [|done]. rewrite Zodd_mod. assert (p mod 2 = 0) as -> by zlia. done. Qed.

(** C32: Paging starts with the first 4 MB mapped to themselves: after [init_paging] the
    processor translates every address below 4 MB to itself, and none above. *)
Theorem init_paging_identity (pd pt va : Z) (s : paging) (Hpd : pd mod 4096 = 0) (Hpt : pt mod 4096 = 0) (Hr : 0 <= pd < 2 ^ 32) (Hr' : 0 <= pt < 2 ^ 32)
  (Hdis : pd <> pt) (Hva : 0 <= va < 2 ^ 32) :
  walk (init_paging pd pt s) va = if va <? 2 ^ 22 then Some va else None.
Proof.
  change (2 ^ 32) with 4294967296 in *. change (2 ^ 22) with 4194304 in *. unfold walk, init_paging. cbn [cr0 cr3 words]. unfold CR0_PG.
  rewrite Z.lor_spec. change (Z.testbit 2147483648 31) with true. rewrite orb_true_r. replace (pd / 4096 * 4096) with pd by zlia. rewrite Z.mul_0_r, Z.add_0_r, lor_flags by done.
  unfold set_word. change (2 ^ 22) with 4194304. destruct (Z.ltb_spec va 4194304).
  - replace (va / 4194304) with 0 by zlia. rewrite Z.mul_0_r, Z.add_0_r, Z.eqb_refl, testbit_flags by done. replace ((pt + 3) / 4096 * 4096) with pt by zlia.
    destruct (Z.eqb_spec (pt + 4 * (va / 4096 mod 1024)) pd); [exfalso; zlia|]. rewrite identity_at by lia. zcase; try (exfalso; zlia).
    replace ((pt + 4 * (va / 4096 mod 1024) - pt) / 4) with (va / 4096 mod 1024) by zlia. rewrite testbit_flags by zlia. f_equal. zlia.
  - assert (1 <= va / 4194304 < 1024) as Hd by zlia. set (d := va / 4194304) in *.
    assert (pd + 4096 <= pt \/ pt + 4096 <= pd) as Hfar by zlia.
    destruct (Z.eqb_spec (pd + 4 * d) pd); [lia|]. rewrite identity_at, !clear_words_at by lia. change (Z.of_nat 1024) with 1024.
    assert ((pt + 4 * 0 <=? pd + 4 * d) && (pd + 4 * d <? pt + 4 * (0 + 1024)) = false) as -> by (apply andb_false_iff; rewrite Z.leb_gt, Z.ltb_ge; lia).
    assert ((pt <=? pd + 4 * d) && (pd + 4 * d <? pt + 4 * 1024) = false) as -> by (apply andb_false_iff; rewrite Z.leb_gt, Z.ltb_ge; lia).
    cbn [andb]. replace (pd + 4 * d - pd) with (d * 4) by lia. rewrite Z.mod_mul by lia. destruct (Z.leb_spec pd (pd + 4 * d)); [|lia]. destruct (Z.ltb_spec (pd + 4 * d) (pd + 4 * 1024)); [|lia]. done.
Qed.

Lemma init_paging_identity_witness : walk (init_paging 8192 12288 (Mk_paging (fun _ => 7) [] 17 0 0)) 4195 = Some 4195.
Proof. rewrite (init_paging_identity 8192 12288 4195); [reflexivity|reflexivity|reflexivity|lia|lia|lia|lia]. Defined.

Lemma page_allocator_witness :
  let s := Mk_paging (fun _ => 0) (7 :: replicate 127 0) 17 0 0 in bitmap_ok (free_page_bitmap s) /\ exists i, 0 <= i < 4096 /\ page_used (free_page_bitmap s) i = false.
Proof.
  intros s. assert (bitmap_ok (free_page_bitmap s)) as Hb by (split; [done|]; apply Forall_cons; split; [lia|apply (Forall_replicate _ 127); lia]). split; [exact Hb|].
  destruct (page_allocator 4096 ltac:(lia) ltac:(vm_compute; congruence) s Hb) as [[_ Hfull]|(i & b & Hi & Hf & _)].
  - specialize (Hfull 5 ltac:(lia)). vm_compute in Hfull. congruence.
  - exists i. split; [exact Hi|exact Hf].
Defined.

(** ** Entries *)

(** An entry as the code fills it in a cleared table. *)
Definition new_entry (physical_address flags : Z) : Z := page_flags (put_frame 0 (Z.shiftr physical_address 12)) flags.

Lemma new_entry_value pa flags : 0 <= pa < 2 ^ 32 -> new_entry pa flags = pa / 4096 * 512 + (1 + 2 * (flags / 2 mod 2) + 4 * (flags / 4 mod 2)).
Proof.
  intros Hpa. unfold new_entry, page_flags, put_user, put_rw, put_present, put_frame, set_field, get_field.
  assert (Z.shiftr (Z.land flags 2) 1 = flags / 2 mod 2) as ->.
  { change 2 with (Z.shiftl (Z.ones 1) 1) at 1. rewrite land_field by lia. rewrite Z.shiftr_shiftl_l, Z.sub_diag, Z.shiftl_0_r by lia. done. }
  assert (Z.shiftr (Z.land flags 4) 2 = flags / 4 mod 2) as ->.
  { change 4 with (Z.shiftl (Z.ones 1) 2) at 1. rewrite land_field by lia. rewrite Z.shiftr_shiftl_l, Z.sub_diag, Z.shiftl_0_r by lia. done. }
  rewrite !Z.shiftl_mul_pow2, !Z.shiftr_div_pow2 by lia. rewrite Z.div_0_l, Z.mod_0_l by lia.
  change (2 ^ 0) with 1. change (2 ^ 1) with 2. change (2 ^ 2) with 4. change (2 ^ 9) with 512. change (2 ^ 12) with 4096. change (2 ^ 20) with 1048576. change (2 ^ 32) with 4294967296 in *.
  zlia.
Qed.

(** The bit fields of an entry add up to 29 bits: the code reads back the frame that it
    stored, but the processor takes the frame from bit 12 on and finds the address divided
    by eight.  Only the page at address 0 can be mapped. *)
Theorem entry_misplaced (pa flags : Z) : 0 <= pa < 2 ^ 32 ->
  e_frame (new_entry pa flags) = pa / 4096 /\ e_present (new_entry pa flags) = 1 /\ new_entry pa flags / 4096 * 4096 = pa / 32768 * 4096.
Proof.
  intros Hpa. rewrite new_entry_value by done. unfold e_frame, e_present, get_field. rewrite !Z.shiftr_div_pow2 by lia.
  change (2 ^ 0) with 1. change (2 ^ 1) with 2. change (2 ^ 9) with 512. change (2 ^ 20) with 1048576. change (2 ^ 32) with 4294967296 in *. split; [|split]; zlia.
Qed.

Lemma entry_misplaced_witness : e_frame (new_entry 5242880 7) = 1280 /\ e_present (new_entry 5242880 7) = 1 /\ new_entry 5242880 7 / 4096 * 4096 = 655360.
Proof. apply (entry_misplaced 5242880 7). lia. Defined.
