(* ===== verification/Pci.v ===== *)
(** drivers/bus/pci.c: the configuration space, the scan of the bus, and the matching of
    drivers with devices.

    The configuration space is behind two 32-bit ports, an address latch and a data port;
    [PciBus] says what the code relies on.  The array of devices and the array of drivers
    have their declared size, with the number of entries in use. *)

From S2P Require Import Prelude Effects Ports.

Definition PCI_CONFIG_ADDRESS : Z := 3320.
Definition PCI_CONFIG_DATA : Z := 3324.
Definition PCI_COMMAND : Z := 4.
Definition PCI_COMMAND_BUS_MASTER : Z := 4.
Definition MAX_PCI_DEVICES : Z := 256.
Definition MAX_PCI_DRIVERS : Z := 32.

Record pci_device_t := Mk_pci_device {
  vendor_id : Z; device_id : Z; pci_bus : Z; pci_slot : Z; pci_function : Z; bar : list Z; irq_line : Z; irq_pin : Z;
  header_type : Z; class_code : Z; subclass_code : Z; prog_if : Z; revision_id : Z
}.
(** [probe] is the address of the function. *)
Record pci_driver_t := Mk_pci_driver { drv_vendor_id : Z; drv_device_id : Z; probe : Z }.

Record pci (H : Type) := Mk_pci {
  pci_devices : list pci_device_t; pci_device_count : Z; pci_drivers : list pci_driver_t; pci_driver_count : Z; pci_hw : H
}.
Arguments Mk_pci {H}. Arguments pci_devices {H}. Arguments pci_device_count {H}. Arguments pci_drivers {H}. Arguments pci_driver_count {H}. Arguments pci_hw {H}.

#[global] Instance pci_machine H : Machine (pci H) H := {|
  hw := pci_hw; with_hw s h := Mk_pci (pci_devices s) (pci_device_count s) (pci_drivers s) (pci_driver_count s) h
|}.
Definition with_devices {H} (s : pci H) (l : list pci_device_t) (n : Z) : pci H := Mk_pci l n (pci_drivers s) (pci_driver_count s) (pci_hw s).
Definition with_pci_drivers {H} (s : pci H) (l : list pci_driver_t) (n : Z) : pci H := Mk_pci (pci_devices s) (pci_device_count s) l n (pci_hw s).

(** The address word of a register; the arguments are [uint8_t]. *)
Definition config_address (bus slot function offset : Z) : Z :=
  u32 (Z.lor (Z.lor (Z.lor (Z.lor (Z.shiftl bus 16) (Z.shiftl slot 11)) (Z.shiftl function 8)) (Z.land offset 252)) 2147483648).

Section Config.
Context {H : Type} `{Ports H} `{WidePorts H}.
Abbreviation A := (M (pci H)).

Definition pci_read_config_dword (bus slot function offset : Z) : A Z :=
  _ ← outl PCI_CONFIG_ADDRESS (config_address bus slot function offset);
  inl PCI_CONFIG_DATA.
Definition pci_read_config_word (bus slot function offset : Z) : A Z :=
  value ← pci_read_config_dword bus slot function offset;
  mret (u16 (Z.land (Z.shiftr value (Z.land offset 2 * 8)) 65535)).
Definition pci_read_config_byte (bus slot function offset : Z) : A Z :=
  value ← pci_read_config_dword bus slot function offset;
  mret (u8 (Z.land (Z.shiftr value (Z.land offset 3 * 8)) 255)).

(** [current_value] is a [uint16_t]. *)
Definition pci_write_config_word (bus slot function offset value : Z) : A unit :=
  _ ← outl 3320 (config_address bus slot function offset);
  v ← inl 3324;
  let current_value := u16 v in
  let current_value :=
    if negb (Z.land offset 2 =? 0) then u16 (Z.lor (Z.land current_value 65535) (Z.shiftl value 16))
    else u16 (Z.lor (Z.land current_value 4294901760) value) in
  outl 3324 current_value.

Definition pci_read (bus device function offset : Z) : A Z :=
  _ ← outl PCI_CONFIG_ADDRESS (config_address bus device function offset);
  inl PCI_CONFIG_DATA.
(** The address has no function. *)
Definition pci_write (bus slot offset size value : Z) : A unit :=
  _ ← outl PCI_CONFIG_ADDRESS (config_address bus slot 0 offset);
  if size =? 1 then outb (PCI_CONFIG_DATA + Z.land offset 3) (u8 value)
  else if size =? 2 then outw (PCI_CONFIG_DATA + Z.land offset 2) (u16 value)
  else if size =? 4 then outl PCI_CONFIG_DATA value
  else mret tt.

Definition pci_get_irq (bus device function : Z) : A Z :=
  _ ← outl PCI_CONFIG_ADDRESS (config_address bus device function 60);
  data ← inl PCI_CONFIG_DATA;
  mret (u8 (Z.land data 255)).
Definition pci_set_irq (bus device function irq : Z) : A unit :=
  _ ← outl PCI_CONFIG_ADDRESS (config_address bus device function 60);
  value ← inl PCI_CONFIG_DATA;
  let value := Z.lor (Z.land value 4294967040) irq in
  _ ← outl PCI_CONFIG_ADDRESS (config_address bus device function 60);
  outl PCI_CONFIG_DATA value.

(** The register is passed as the function, and 2 as the register. *)
Definition pci_set_bus_master (bus slot enable : Z) : A unit :=
  v ← pci_read bus slot PCI_COMMAND 2;
  let command := u16 v in
  if negb (enable =? 0) then
    if Z.land command PCI_COMMAND_BUS_MASTER =? 0 then pci_write bus slot PCI_COMMAND 2 (u16 (Z.lor command PCI_COMMAND_BUS_MASTER)) else mret tt
  else
    if negb (Z.land command PCI_COMMAND_BUS_MASTER =? 0) then pci_write bus slot PCI_COMMAND 2 (u16 (Z.land command (unot 16 PCI_COMMAND_BUS_MASTER)))
    else mret tt.

Definition get_io_base (bus device function : Z) : A Z :=
  bar0 ← pci_read bus device function 16;
  mret (if negb (Z.land bar0 1 =? 0) then Z.land bar0 (unot 32 3) else 0).

(** ** The scan *)

Context (garbage : Z).          (* [irq_pin] is never set *)

Fixpoint read_bars (n : nat) (bus slot function i : Z) : A (list Z) :=
  match n with
  | O => mret []
  | S n' => b ← pci_read_config_dword bus slot function (16 + i * 4); l ← read_bars n' bus slot function (i + 1); mret (b :: l)
  end.

(** The device at a function, if there is one. *)
Definition read_device (bus slot function : Z) : A (option pci_device_t) :=
  v ← pci_read_config_word bus slot function 0;
  if v =? 65535 then mret None else
  d ← pci_read_config_word bus slot function 2;
  c ← pci_read_config_byte bus slot function 11;
  sc ← pci_read_config_byte bus slot function 10;
  p ← pci_read_config_byte bus slot function 9;
  r ← pci_read_config_byte bus slot function 8;
  h ← pci_read_config_byte bus slot function 14;
  i ← pci_read_config_byte bus slot function 60;
  bars ← read_bars 6 bus slot function 0;
  mret (Some (Mk_pci_device v d bus slot function bars i garbage h c sc p r)).

Definition save_device (dev : pci_device_t) : A unit :=
  n ← gets pci_device_count;
  if n <? MAX_PCI_DEVICES then modify (fun s => with_devices s (<[Z.to_nat n := dev]> (pci_devices s)) (n + 1)) else mret tt.

(** The recursion of the C function goes one level deep: functions 1 to 7 of a device that
    has several. *)
Definition pci_scan_function (bus slot function : Z) : A unit :=
  dev ← read_device bus slot function;
  match dev with
  | None => mret tt
  | Some dev =>
      _ ← save_device dev;
      if (function =? 0) && negb (Z.land (header_type dev) 128 =? 0) then
        for_up 1 7 (fun func =>
          dev ← read_device bus slot func;
          match dev with Some dev => save_device dev | None => mret tt end)
      else mret tt
  end.
Definition pci_scan_slot (bus slot : Z) : A unit := pci_scan_function bus slot 0.
Definition pci_scan_bus (bus : Z) : A unit := for_up 0 32 (fun slot => pci_scan_slot bus slot).
Definition pci_init : A unit :=
  _ ← modify (fun s => with_devices s (pci_devices s) 0);
  pci_scan_bus 0.

Definition pci_enable_device (dev : pci_device_t) : A unit :=
  command ← pci_read_config_word (pci_bus dev) (pci_slot dev) (pci_function dev) 4;
  let command := u16 (Z.lor command 7) in
  pci_write_config_word (pci_bus dev) (pci_slot dev) (pci_function dev) 4 command.
Definition pci_read_bar (dev : pci_device_t) (bar_index : Z) : option Z :=
  if 6 <=? bar_index then Some 0 else if bar_index <? 0 then None else bar dev !! Z.to_nat bar_index.
Definition map_mmio (physical_address : Z) : Z := u32 physical_address.
Definition pci_configure_irq (dev : pci_device_t) : Z := irq_line dev.

(** ** Drivers *)

Definition pci_register_driver (vendor device f : Z) : A unit :=
  n ← gets pci_driver_count;
  if n <? MAX_PCI_DRIVERS then
    modify (fun s => with_pci_drivers s (<[Z.to_nat n := Mk_pci_driver vendor device f]> (pci_drivers s)) (n + 1))
  else mret tt.

Context (call_probe : Z -> pci_device_t -> A Z).

Definition matches (dev : pci_device_t) (drv : pci_driver_t) : bool :=
  (vendor_id dev =? drv_vendor_id drv) && (device_id dev =? drv_device_id drv).
(** The drivers of one device, then of all devices; both counts are read in every round. *)
Fixpoint probe_device (fuel : nat) (dev : pci_device_t) (j : Z) : A unit :=
  match fuel with
  | O => undef
  | S fuel' =>
      n ← gets pci_driver_count;
      if j <? n then
        l ← gets pci_drivers;
        drv ← lift (l !! Z.to_nat j);
        _ ← (if matches dev drv then _ ← call_probe (probe drv) dev; mret tt else mret tt);
        probe_device fuel' dev (j + 1)
      else mret tt
  end.
Fixpoint probe_loop (fuel : nat) (i : Z) : A unit :=
  match fuel with
  | O => undef
  | S fuel' =>
      n ← gets pci_device_count;
      if i <? n then
        l ← gets pci_devices;
        dev ← lift (l !! Z.to_nat i);
        _ ← probe_device 33 dev 0;
        probe_loop fuel' (i + 1)
      else mret tt
  end.
Definition pci_probe_drivers : A unit := probe_loop 257 0.

Definition pci_device_exists (vendor device : Z) : A Z :=
  l ← gets pci_devices;
  n ← gets pci_device_count;
  mret (b2z (existsb (fun d => (vendor_id d =? vendor) && (device_id d =? device)) (take (Z.to_nat n) l))).
End Config.

(** * Properties *)

(** What the code relies on of the bus: the address port is a latch, the data port reads the
    register it names, and a write changes that register, in the way the device defines. *)
Class PciBus (H : Type) `{WidePorts H} := {
  latch : H -> Z;
  space : H -> Z -> Z;
  cfg_effect : Z -> Z -> Z -> Z;          (* address, old and written value *)
  space_dword : forall h a, 0 <= space h a < 2 ^ 32;
  address_written : forall h a, 0 <= a < 2 ^ 32 -> latch (dev_outl PCI_CONFIG_ADDRESS a h) = a /\ forall x, space (dev_outl PCI_CONFIG_ADDRESS a h) x = space h x;
  data_read : forall h, (dev_inl PCI_CONFIG_DATA h).1 = space h (latch h) /\ latch (dev_inl PCI_CONFIG_DATA h).2 = latch h /\
    forall x, space (dev_inl PCI_CONFIG_DATA h).2 x = space h x;
  data_written : forall h v, 0 <= v < 2 ^ 32 -> latch (dev_outl PCI_CONFIG_DATA v h) = latch h /\
    forall x, space (dev_outl PCI_CONFIG_DATA v h) x = if x =? latch h then cfg_effect (latch h) (space h (latch h)) v else space h x
}.

(** ** Addresses *)

Lemma config_address_value bus slot function offset : byte_ok bus -> 0 <= slot < 32 -> 0 <= function < 8 -> byte_ok offset ->
  config_address bus slot function offset = 2 ^ 31 + bus * 2 ^ 16 + slot * 2 ^ 11 + function * 2 ^ 8 + offset / 4 * 4.
Proof.
  intros Hb Hs Hf Ho. unfold byte_ok in *. unfold config_address. assert (Z.land offset 252 = offset / 4 * 4) as ->.
  { change 252 with (Z.shiftl (Z.ones 6) 2). rewrite land_field, Z.shiftl_mul_pow2 by lia. change (2 ^ 2) with 4. change (2 ^ 6) with 64. zlia. }
  rewrite Z.lor_comm, <- !Z.lor_assoc, !Z.shiftl_mul_pow2 by lia.
  change (2 ^ 31) with 2147483648. change (2 ^ 16) with 65536. change (2 ^ 11) with 2048. change (2 ^ 8) with 256.
  rewrite (lor_low 8 (function * 256)), (lor_low 11 (slot * 2048)), (lor_low 16 (bus * 65536)), (lor_low 31 2147483648), wrap_small;
    change (2 ^ 32) with 4294967296; change (2 ^ 31) with 2147483648; change (2 ^ 16) with 65536; change (2 ^ 11) with 2048; change (2 ^ 8) with 256; zlia.
Qed.

(** Different registers have different addresses. *)
Lemma config_address_inj b s f o b' s' f' o' : byte_ok b -> 0 <= s < 32 -> 0 <= f < 8 -> byte_ok o -> byte_ok b' -> 0 <= s' < 32 -> 0 <= f' < 8 -> byte_ok o' ->
  config_address b s f o = config_address b' s' f' o' -> b = b' /\ s = s' /\ f = f' /\ o / 4 = o' / 4.
Proof.
  intros ? ? ? ? ? ? ? ?. rewrite !config_address_value by done. unfold byte_ok in *.
  change (2 ^ 31) with 2147483648. change (2 ^ 16) with 65536. change (2 ^ 11) with 2048. change (2 ^ 8) with 256. zlia.
Qed.

Lemma config_address_range b s f o : 0 <= config_address b s f o < 2 ^ 32.
Proof. apply wrap_range. lia. Qed.

(** ** Reading a device *)

Definition word_of (d offset : Z) : Z := u16 (Z.land (Z.shiftr d (Z.land offset 2 * 8)) 65535).
Definition byte_of (d offset : Z) : Z := u8 (Z.land (Z.shiftr d (Z.land offset 3 * 8)) 255).

(** The device that the registers at [sp] describe. *)
Definition device_at (garbage : Z) (sp : Z -> Z) (bus slot function : Z) : option pci_device_t :=
  let reg o := sp (config_address bus slot function o) in
  if word_of (reg 0) 0 =? 65535 then None else
  Some (Mk_pci_device (word_of (reg 0) 0) (word_of (reg 2) 2) bus slot function (map (fun i => reg (16 + Z.of_nat i * 4)) (seq 0 6)) (byte_of (reg 60) 60)
          garbage (byte_of (reg 14) 14) (byte_of (reg 11) 11) (byte_of (reg 10) 10) (byte_of (reg 9) 9) (byte_of (reg 8) 8)).

(** The functions of a slot, and of the bus, in the order of the scan. *)
Definition slot_devices (g : Z) (sp : Z -> Z) (bus slot : Z) : list pci_device_t :=
  match device_at g sp bus slot 0 with
  | None => []
  | Some d => d :: if negb (Z.land (header_type d) 128 =? 0) then omap (fun f => device_at g sp bus slot (Z.of_nat f)) (seq 1 7) else []
  end.
Definition bus_devices (g : Z) (sp : Z -> Z) (bus : Z) : list pci_device_t := mjoin (map (fun s => slot_devices g sp bus (Z.of_nat s)) (seq 0 32)).

(** The state with other hardware. *)
Definition pci_at {H} (s : pci H) (h : H) : pci H := with_hw s h.

Section Scan.
Context {H : Type} `{Ports H} `{PciBus H} (g : Z).
Implicit Types s : pci H.

(** [m] returns [v] and changes nothing but the latch. *)
Definition reads {X} (m : M (pci H) X) (v : (Z -> Z) -> X) : Prop := forall s sp, (forall a, space (pci_hw s) a = sp a) ->
  exists h, m s = Some (v sp, pci_at s h) /\ forall a, space h a = sp a.

Lemma reads_bind {X Y} (m : M (pci H) X) v (k : X -> M (pci H) Y) w : reads m v -> (forall sp s, (forall a, space (pci_hw s) a = sp a) ->
    exists h, k (v sp) s = Some (w sp, pci_at s h) /\ forall a, space h a = sp a) -> reads (m ≫= k) w.
Proof.
  intros Hm Hk s sp Hs. destruct (Hm s sp Hs) as (h & E & Hh). rewrite (bind_eq _ _ _ _ _ E). destruct (Hk sp (pci_at s h) Hh) as (h' & E' & Hh').
  exists h'. split; [|done]. rewrite E'. by destruct s.
Qed.

Lemma reads_ret {X} (v : (Z -> Z) -> X) s sp : (forall a, space (pci_hw s) a = sp a) -> exists h, (mret (v sp) : M (pci H) X) s = Some (v sp, pci_at s h) /\ forall a, space h a = sp a.
Proof. intros Hs. exists (pci_hw s). split; [by destruct s|done]. Qed.

Lemma dword_reads bus slot f o : reads (pci_read_config_dword bus slot f o) (fun sp => sp (config_address bus slot f o)).
Proof.
  intros s sp Hs. unfold pci_read_config_dword, outl. rewrite modify_bind. change (u16 PCI_CONFIG_ADDRESS) with PCI_CONFIG_ADDRESS.
  rewrite (wrap_small 32) by apply config_address_range. set (a := config_address bus slot f o). cbn [hw with_hw pci_machine].
  destruct (address_written (pci_hw s) a (config_address_range _ _ _ _)) as [El Es]. destruct (data_read (dev_outl PCI_CONFIG_ADDRESS a (pci_hw s))) as (Ev & _ & Esp).
  unfold inl. cbn [hw with_hw pci_machine pci_hw]. change (u16 PCI_CONFIG_DATA) with PCI_CONFIG_DATA.
  destruct (dev_inl PCI_CONFIG_DATA (dev_outl PCI_CONFIG_ADDRESS a (pci_hw s))) as [v h] eqn:E. cbn [fst snd] in *. exists h. rewrite El, Es, Hs in Ev. subst v. split.
  - rewrite wrap_small; [done|]. rewrite <- Hs. apply space_dword.
  - intros x. by rewrite Esp, Es.
Qed.

Lemma word_reads bus slot f o : reads (pci_read_config_word bus slot f o) (fun sp => word_of (sp (config_address bus slot f o)) o).
Proof. eapply reads_bind; [apply dword_reads|]. intros sp s Hs. by apply (reads_ret (fun sp => word_of (sp (config_address bus slot f o)) o)). Qed.
Lemma byte_reads bus slot f o : reads (pci_read_config_byte bus slot f o) (fun sp => byte_of (sp (config_address bus slot f o)) o).
Proof. eapply reads_bind; [apply dword_reads|]. intros sp s Hs. by apply (reads_ret (fun sp => byte_of (sp (config_address bus slot f o)) o)). Qed.

Lemma bars_reads bus slot f n : forall i, reads (read_bars n bus slot f (Z.of_nat i)) (fun sp => map (fun k => sp (config_address bus slot f (16 + Z.of_nat k * 4))) (seq i n)).
Proof.
  induction n as [|n IH]; intros i; cbn [read_bars seq map].
  - intros s sp Hs. exists (pci_hw s). split; [by destruct s|done].
  - intros s sp Hs. destruct (dword_reads bus slot f (16 + Z.of_nat i * 4) s sp Hs) as (h & E & Hh). rewrite (bind_eq _ _ _ _ _ E).
    replace (Z.of_nat i + 1) with (Z.of_nat (S i)) by lia. destruct (IH (S i) (pci_at s h) sp Hh) as (h' & E' & Hh'). rewrite (bind_eq _ _ _ _ _ E').
    exists h'. split; [by destruct s|done].
Qed.

(** The next read of a sequence, in the state it is in. *)
Ltac read_step L Hs h Hs' :=
  match goal with |- context [(_ ≫= _) ?st] =>
    let E := fresh "E" in destruct (L st _ Hs) as (h & E & Hs'); rewrite (bind_eq _ _ _ _ _ E); clear E end.

Lemma device_reads bus slot f : reads (read_device g bus slot f) (fun sp => device_at g sp bus slot f).
Proof.
  intros s sp Hs. unfold read_device, device_at. destruct (word_reads bus slot f 0 s sp Hs) as (h0 & E0 & Hs0). rewrite (bind_eq _ _ _ _ _ E0).
  destruct (_ =? 65535); [exists h0; by split|].
  read_step (word_reads bus slot f 2) Hs0 h1 Hs1. read_step (byte_reads bus slot f 11) Hs1 h2 Hs2. read_step (byte_reads bus slot f 10) Hs2 h3 Hs3.
  read_step (byte_reads bus slot f 9) Hs3 h4 Hs4. read_step (byte_reads bus slot f 8) Hs4 h5 Hs5. read_step (byte_reads bus slot f 14) Hs5 h6 Hs6.
  read_step (byte_reads bus slot f 60) Hs6 h7 Hs7. read_step (bars_reads bus slot f 6 0) Hs7 h8 Hs8.
  exists h8. split; [by destruct s|done].
Qed.

(** The devices [l] have been stored; registers and drivers are those of [s0]. *)
Record found (s0 : pci H) (l : list pci_device_t) s : Prop := Mk_found {
  found_size : length (pci_devices s) = 256%nat;
  found_count : pci_device_count s = Z.of_nat (length l);
  found_list : take (length l) (pci_devices s) = l;
  found_space : forall a, space (pci_hw s) a = space (pci_hw s0) a;
  found_drivers : pci_drivers s = pci_drivers s0 /\ pci_driver_count s = pci_driver_count s0
}.

Lemma found_at s0 l s h : found s0 l s -> (forall a, space h a = space (pci_hw s0) a) -> found s0 l (pci_at s h).
Proof. intros [] Hh. by split. Qed.

Lemma save_ok s0 l s d : found s0 l s -> (length l < 256)%nat -> exists s', save_device d s = Some (tt, s') /\ found s0 (l ++ [d]) s'.
Proof.
  intros [Hsz Hc Hl Hsp Hd] Hlt. unfold save_device, MAX_PCI_DEVICES. rewrite gets_bind, Hc. destruct (Z.ltb_spec (Z.of_nat (length l)) 256); [|lia].
  eexists. split; [reflexivity|]. rewrite Nat2Z.id. split; cbn [pci_devices pci_device_count with_devices pci_hw pci_drivers pci_driver_count]; try done.
  - by rewrite length_insert.
  - rewrite length_app. cbn. lia.
  - rewrite length_app. cbn [length]. rewrite Nat.add_1_r, (take_S_r _ _ d) by (apply list_lookup_insert_eq; lia). by rewrite take_insert_ge, Hl by lia.
Qed.

Lemma functions_ok s0 bus slot n : forall i l s, found s0 l s -> (length l + n <= 256)%nat ->
  exists s', for_up (Z.of_nat i) n (fun func => dev ← read_device g bus slot func; match dev with Some dev => save_device dev | None => mret tt end) s = Some (tt, s') /\
    found s0 (l ++ omap (fun f => device_at g (space (pci_hw s0)) bus slot (Z.of_nat f)) (seq i n)) s'.
Proof.
  induction n as [|n IH]; intros i l s Hf Hn; cbn [for_up seq].
  - exists s. split; [done|]. by rewrite app_nil_r.
  - destruct (device_reads bus slot (Z.of_nat i) s _ (found_space _ _ _ Hf)) as (h & E & Hh). rewrite bind_assoc, (bind_eq _ _ _ _ _ E).
    pose proof (found_at _ _ _ _ Hf Hh) as Hf'. replace (Z.of_nat i + 1) with (Z.of_nat (S i)) by lia. cbn [omap list_omap].
    destruct (device_at g (space (pci_hw s0)) bus slot (Z.of_nat i)) as [d|].
    + destruct (save_ok _ _ _ d Hf') as (s1 & E1 & Hf1); [lia|]. rewrite (bind_eq _ _ _ _ _ E1). destruct (IH (S i) _ _ Hf1) as (s2 & E2 & Hf2); [rewrite length_app; cbn; lia|].
      exists s2. split; [done|]. by rewrite <- app_assoc in Hf2.
    + rewrite (bind_eq _ _ _ _ _ eq_refl). apply IH; [done|lia].
Qed.

Lemma slot_ok s0 bus slot l s : found s0 l s -> (length l + 8 <= 256)%nat ->
  exists s', pci_scan_slot g bus slot s = Some (tt, s') /\ found s0 (l ++ slot_devices g (space (pci_hw s0)) bus slot) s'.
Proof.
  intros Hf Hn. unfold pci_scan_slot, pci_scan_function, slot_devices. destruct (device_reads bus slot 0 s _ (found_space _ _ _ Hf)) as (h & E & Hh).
  rewrite (bind_eq _ _ _ _ _ E). pose proof (found_at _ _ _ _ Hf Hh) as Hf'. destruct (device_at g _ bus slot 0) as [d|].
  - destruct (save_ok _ _ _ d Hf') as (s1 & E1 & Hf1); [lia|]. rewrite (bind_eq _ _ _ _ _ E1). cbn [Z.eqb andb]. destruct (negb _).
    + destruct (functions_ok s0 bus slot 7 1 _ _ Hf1) as (s2 & E2 & Hf2); [rewrite length_app; cbn; lia|]. exists s2. split; [exact E2|]. by rewrite <- app_assoc in Hf2.
    + by exists s1.
  - exists (pci_at s h). split; [done|]. by rewrite app_nil_r.
Qed.

Lemma length_slot_devices sp bus slot : (length (slot_devices g sp bus slot) <= 8)%nat.
Proof.
  unfold slot_devices. destruct (device_at g sp bus slot 0); [|cbn; lia]. cbn [length]. destruct (negb _); [|cbn; lia].
  assert (forall l : list nat, (length (omap (fun f => device_at g sp bus slot (Z.of_nat f)) l) <= length l)%nat) as Hl.
  { induction l as [|x l IH]; [done|]. cbn [omap list_omap length]. destruct (device_at g sp bus slot (Z.of_nat x)); cbn [length]; lia. }
  specialize (Hl (seq 1 7)). rewrite length_seq in Hl. lia.
Qed.

Lemma bus_ok s0 bus n : forall i l s, found s0 l s -> (length l + 8 * n <= 256)%nat ->
  exists s', for_up (Z.of_nat i) n (fun slot => pci_scan_slot g bus slot) s = Some (tt, s') /\
    found s0 (l ++ mjoin (map (fun k => slot_devices g (space (pci_hw s0)) bus (Z.of_nat k)) (seq i n))) s'.
Proof.
  induction n as [|n IH]; intros i l s Hf Hn; cbn [for_up seq map].
  - exists s. split; [done|]. by rewrite app_nil_r.
  - destruct (slot_ok s0 bus (Z.of_nat i) l s Hf) as (s1 & E1 & Hf1); [lia|]. rewrite (bind_eq _ _ _ _ _ E1). replace (Z.of_nat i + 1) with (Z.of_nat (S i)) by lia.
    pose proof (length_slot_devices (space (pci_hw s0)) bus (Z.of_nat i)) as Hl. destruct (IH (S i) _ _ Hf1) as (s2 & E2 & Hf2); [rewrite length_app; lia|].
    exists s2. split; [done|]. cbn [mjoin list_join]. by rewrite app_assoc.
Qed.

(** C33: The scan finds what is on the bus.  After [pci_init] the array holds the functions of
    bus 0 that answer, in the order of their slots: function 0, and functions 1 to 7 of
    the devices that have several; each entry holds the contents of its configuration
    registers, none is lost for want of room, and [pci_device_exists] says whether a vendor
    and device number is among them. *)
Theorem pci_scan_finds (s : pci H) (Hs : length (pci_devices s) = 256%nat) :
  let l := bus_devices g (space (pci_hw s)) 0 in
  exists s', pci_init g s = Some (tt, s') /\ take (Z.to_nat (pci_device_count s')) (pci_devices s') = l /\ pci_device_count s' = Z.of_nat (length l) /\ (length l <= 256)%nat /\
    forall v d, pci_device_exists v d s' = Some (b2z (bool_decide (Exists (fun x => vendor_id x = v /\ device_id x = d) l)), s').
Proof.
  intros l. unfold pci_init, pci_scan_bus. rewrite modify_bind. destruct (bus_ok s 0 32 0 [] (with_devices s (pci_devices s) 0)) as (s' & E & Hf); [by split|cbn; lia|].
  cbn [app] in Hf. change (found s l s') in Hf. destruct Hf as [Hsz Hc Hl _ _]. exists s'. split; [exact E|]. rewrite Hc, Nat2Z.id. split; [done|]. split; [done|].
  assert (length l <= 256)%nat. { rewrite <- Hl. rewrite length_take. lia. }
  split; [done|]. intros v d. unfold pci_device_exists. rewrite !gets_bind, Hc, Nat2Z.id, Hl.
  assert (existsb (fun x => (vendor_id x =? v) && (device_id x =? d)) l = bool_decide (Exists (fun x => vendor_id x = v /\ device_id x = d) l)) as ->; [|done].
  destruct (existsb _ l) eqn:Ee; symmetry; [apply bool_decide_true|apply bool_decide_false].
  - apply existsb_exists in Ee as (x & Hx & Ex). apply Exists_exists. exists x. split; [by apply list_elem_of_In|lia].
  - intros (x & Hx & Ex)%Exists_exists. assert (existsb (fun x => (vendor_id x =? v) && (device_id x =? d)) l = true) as Et; [|congruence].
    apply existsb_exists. exists x. split; [by apply list_elem_of_In|]. lia.
Qed.
End Scan.

(** ** Writing *)

Section Write.
Context {H : Type} `{Ports H} `{PciBus H}.
Implicit Types s : pci H.

(** A 16-bit write goes out as a 32-bit one whose upper half is zero: the word that shares
    the register is overwritten.  For a word in the upper half, the value itself is lost
    and the lower half is written back. *)
Theorem config_word_write (bus slot f offset value : Z) (s : pci H) : 0 <= value < 2 ^ 16 ->
  let a := config_address bus slot f offset in
  exists h, pci_write_config_word bus slot f offset value s = Some (tt, pci_at s h) /\
    forall x, space h x = if x =? a then cfg_effect a (space (pci_hw s) a) (if Z.land offset 2 =? 0 then value else space (pci_hw s) a mod 2 ^ 16) else space (pci_hw s) x.
Proof.
  intros Hv a. unfold pci_write_config_word. fold a. destruct (dword_reads bus slot f offset s _ (fun x => eq_refl)) as (h & E & Hh). unfold pci_read_config_dword in E. fold a in E.
  rewrite (bind_eq _ _ _ _ _ eq_refl). unfold outl in E. rewrite modify_bind in E. change (u16 3320) with PCI_CONFIG_ADDRESS. change (u16 PCI_CONFIG_ADDRESS) with PCI_CONFIG_ADDRESS in E.
  assert (latch h = a) as Hlatch.
  { unfold inl in E. cbn [hw with_hw pci_machine pci_hw] in E. change (u16 PCI_CONFIG_DATA) with PCI_CONFIG_DATA in E. rewrite (wrap_small 32) in E by apply config_address_range.
    destruct (address_written (pci_hw s) a (config_address_range _ _ _ _)) as [El _]. destruct (data_read (dev_outl PCI_CONFIG_ADDRESS a (pci_hw s))) as (_ & El' & _).
    destruct (dev_inl PCI_CONFIG_DATA _) as [v h']. injection E as _ Eh. cbn [snd] in El'. rewrite <- Eh in *. congruence. }
  change 3324 with PCI_CONFIG_DATA. rewrite (bind_eq _ _ _ _ _ E). cbv zeta. set (old := space (pci_hw s) a). pose proof (space_dword (pci_hw s) a) as Hold. fold old in Hold.
  assert (u16 (Z.lor (Z.land (u16 old) 65535) (Z.shiftl value 16)) = old mod 2 ^ 16) as E1.
  { change 65535 with (Z.ones 16). rewrite Z.land_ones by lia. unfold wrap. rewrite Zmod_mod, Z.lor_comm, lor_shiftl_add by (first [lia | apply Z.mod_pos_bound; lia]).
    rewrite Z.add_comm, Z.mod_add by lia. apply Zmod_mod. }
  assert (u16 (Z.lor (Z.land (u16 old) 4294901760) value) = value) as E2.
  { change 4294901760 with (Z.shiftl (Z.ones 16) 16). rewrite land_field by lia. rewrite (Z.div_small (u16 old)) by (apply wrap_range; lia). rewrite Z.mod_0_l, Z.shiftl_0_l by lia. by apply wrap_small. }
  set (w := if Z.land offset 2 =? 0 then value else old mod 2 ^ 16).
  assert ((if negb (Z.land offset 2 =? 0) then u16 (Z.lor (Z.land (u16 old) 65535) (Z.shiftl value 16)) else u16 (Z.lor (Z.land (u16 old) 4294901760) value)) = w) as ->.
  { unfold w. rewrite E1, E2. by destruct (Z.land offset 2 =? 0). }
  assert (0 <= w < 2 ^ 32) as Hw. { unfold w. destruct (Z.land offset 2 =? 0); [lia|]. assert (0 <= old mod 2 ^ 16 < 2 ^ 16) by (apply Z.mod_pos_bound; lia). lia. }
  exists (dev_outl PCI_CONFIG_DATA w h). split.
  { unfold outl. change (u16 PCI_CONFIG_DATA) with PCI_CONFIG_DATA. rewrite wrap_small by done. reflexivity. }
  intros x. destruct (data_written h w Hw) as [_ Hd]. rewrite Hd, Hlatch, !Hh. done.
Qed.

(** Bus mastering is never enabled: the command register is passed as the function number
    and register 2 is read, so that the test is made on the vendor number of function 4. *)
Theorem bus_master_reads_vendor (bus slot : Z) (s : pci H) : exists h,
  pci_read bus slot PCI_COMMAND 2 s = Some (space (pci_hw s) (config_address bus slot 4 0), pci_at s h).
Proof. destruct (dword_reads bus slot 4 2 s _ (fun x => eq_refl)) as (h & E & _). exists h. exact E. Qed.
End Write.

(** ** Drivers *)

Section Probe.
Context {H : Type} `{Ports H} `{WidePorts H} (call_probe : Z -> pci_device_t -> M (pci H) Z) (log : pci H -> list (Z * pci_device_t)).
Implicit Types s : pci H.

(** The tables of devices and drivers. *)
Definition same_tables s s' : Prop :=
  pci_devices s' = pci_devices s /\ pci_device_count s' = pci_device_count s /\ pci_drivers s' = pci_drivers s /\ pci_driver_count s' = pci_driver_count s.
Context (probe_logs : forall f d s, exists r s', call_probe f d s = Some (r, s') /\ same_tables s s' /\ log s' = log s ++ [(f, d)]).

Definition calls (d : pci_device_t) (l : list pci_driver_t) : list (Z * pci_device_t) := map (fun v => (probe v, d)) (filter (fun v => matches d v = true) l).

Lemma probe_device_ok d fuel : forall j s, 0 <= j -> (Z.to_nat (pci_driver_count s - j) < fuel)%nat -> Z.of_nat (length (pci_drivers s)) >= pci_driver_count s ->
  exists s', probe_device call_probe fuel d j s = Some (tt, s') /\ same_tables s s' /\
    log s' = log s ++ calls d (drop (Z.to_nat j) (take (Z.to_nat (pci_driver_count s)) (pci_drivers s))).
Proof using probe_logs.
  induction fuel as [|fuel IH]; intros j s Hj Hf Hl; [lia|]. cbn [probe_device]. rewrite gets_bind. destruct (Z.ltb_spec j (pci_driver_count s)).
  - rewrite gets_bind. destruct (lookup_lt_is_Some_2 (pci_drivers s) (Z.to_nat j)) as [v Ev]; [lia|]. rewrite (lift_bind _ _ _ _ Ev).
    assert (drop (Z.to_nat j) (take (Z.to_nat (pci_driver_count s)) (pci_drivers s)) = v :: drop (Z.to_nat (j + 1)) (take (Z.to_nat (pci_driver_count s)) (pci_drivers s))) as Ed.
    { rewrite (drop_S _ v) by (rewrite lookup_take_lt by lia; done). do 2 f_equal. lia. }
    assert (exists s1, (if matches d v then _ ← call_probe (probe v) d; mret tt else mret tt) s = Some (tt, s1) /\ same_tables s s1 /\
              log s1 = log s ++ (if matches d v then [(probe v, d)] else [])) as (s1 & E1 & Hs & Hlog).
    { destruct (matches d v); [|exists s; split; [done|]; split; [done|by rewrite app_nil_r]].
      destruct (probe_logs (probe v) d s) as (r & s1 & E & Hs & Hlog). exists s1. by rewrite (bind_eq _ _ _ _ _ E). }
    rewrite (bind_eq _ _ _ _ _ E1). destruct Hs as (Hs1 & Hs2 & Hs3 & Hs4). destruct (IH (j + 1) s1) as (s2 & E2 & (Ht1 & Ht2 & Ht3 & Ht4) & Hlog2); [lia|rewrite Hs4; lia|by rewrite Hs3, Hs4|].
    exists s2. split; [done|]. split; [split_and!; congruence|]. rewrite Hlog2, Hlog, Hs3, Hs4, Ed, <- app_assoc. f_equal. unfold calls. rewrite filter_cons.
    destruct (matches d v) eqn:Em; [by rewrite decide_True|by rewrite decide_False by congruence].
  - exists s. split; [done|]. split; [done|]. rewrite drop_ge by (rewrite length_take; lia). by rewrite app_nil_r.
Qed.

Lemma probe_loop_ok fuel : forall i s, 0 <= i -> (Z.to_nat (pci_device_count s - i) < fuel)%nat -> pci_device_count s <= Z.of_nat (length (pci_devices s)) ->
  0 <= pci_driver_count s <= 32 -> pci_driver_count s <= Z.of_nat (length (pci_drivers s)) ->
  exists s', probe_loop call_probe fuel i s = Some (tt, s') /\
    log s' = log s ++ mjoin (map (fun d => calls d (take (Z.to_nat (pci_driver_count s)) (pci_drivers s))) (drop (Z.to_nat i) (take (Z.to_nat (pci_device_count s)) (pci_devices s)))).
Proof using probe_logs.
  induction fuel as [|fuel IH]; intros i s Hi Hf Hl Hd Hdl; [lia|]. cbn [probe_loop]. rewrite gets_bind. destruct (Z.ltb_spec i (pci_device_count s)).
  - rewrite gets_bind. destruct (lookup_lt_is_Some_2 (pci_devices s) (Z.to_nat i)) as [d Ev]; [lia|]. rewrite (lift_bind _ _ _ _ Ev).
    destruct (probe_device_ok d 33 0 s) as (s1 & E1 & (Hs1 & Hs2 & Hs3 & Hs4) & Hlog); [lia|lia|lia|]. rewrite (bind_eq _ _ _ _ _ E1). rewrite drop_0 in Hlog.
    destruct (IH (i + 1) s1) as (s2 & E2 & Hlog2); [lia|rewrite Hs2; lia|by rewrite Hs1, Hs2|by rewrite Hs4|by rewrite Hs3, Hs4|].
    exists s2. split; [done|]. rewrite Hlog2, Hlog, Hs1, Hs2, Hs3, Hs4, <- app_assoc. f_equal.
    rewrite (drop_S (take _ _) d (Z.to_nat i)) by (rewrite lookup_take_lt by lia; done). cbn [map mjoin list_join]. do 4 f_equal. lia.
  - exists s. split; [done|]. rewrite drop_ge by (rewrite length_take; lia). cbn [map mjoin list_join]. by rewrite app_nil_r.
Qed.

(** Every driver is asked about every device with its vendor and device number, once, device
    by device. *)
Theorem drivers_probed s (Hl : pci_device_count s <= Z.of_nat (length (pci_devices s))) (Hc : pci_device_count s <= 256) (Hd : 0 <= pci_driver_count s <= 32)
  (Hdl : pci_driver_count s <= Z.of_nat (length (pci_drivers s))) :
  exists s', pci_probe_drivers call_probe s = Some (tt, s') /\
    log s' = log s ++ mjoin (map (fun d => calls d (take (Z.to_nat (pci_driver_count s)) (pci_drivers s))) (take (Z.to_nat (pci_device_count s)) (pci_devices s))).
Proof using probe_logs. apply (probe_loop_ok 257 0 s); lia. Qed.
End Probe.

(** ** A bus to try it on *)

(** A bridge in slot 0 and a network card with two functions in slot 3. *)
Record bus_sim := Mk_bus_sim { sim_latch : Z; sim_regs : list (Z * Z) }.
Definition sim_space (l : list (Z * Z)) (a : Z) : Z := match List.find (fun p => fst p =? a) l with Some (_, v) => u32 v | None => 4294967295 end.
#[global] Instance bus_sim_ports : Ports bus_sim := {|
  dev_inb _ h := (255, h); dev_outb _ _ h := h; dev_insw _ n h := (replicate (2 * n) 255, h); dev_outsw _ _ h := h; dev_delay _ h := h
|}.
#[global] Instance bus_sim_wide : WidePorts bus_sim := {|
  dev_inw _ h := (65535, h); dev_outw _ _ h := h;
  dev_inl p h := (if p =? PCI_CONFIG_DATA then sim_space (sim_regs h) (sim_latch h) else 4294967295, h);
  dev_outl p v h := if p =? PCI_CONFIG_ADDRESS then Mk_bus_sim v (sim_regs h)
                    else if p =? PCI_CONFIG_DATA then Mk_bus_sim (sim_latch h) ((sim_latch h, v) :: sim_regs h) else h
|}.
#[global, refine] Instance bus_sim_pci : PciBus bus_sim := {| latch := sim_latch; space h := sim_space (sim_regs h); cfg_effect _ _ v := v |}.
Proof.
  - intros h a. unfold sim_space. destruct (List.find _ _) as [[]|]; [apply wrap_range; lia|lia].
  - done.
  - done.
  - intros h v Hv. split; [done|]. intros x. unfold sim_space. cbn [dev_outl bus_sim_wide sim_regs Z.eqb Pos.eqb PCI_CONFIG_DATA PCI_CONFIG_ADDRESS List.find fst].
    rewrite Z.eqb_sym. destruct (x =? sim_latch h); [by apply wrap_small|done].
Defined.

Definition card (slot f ids class header : Z) : list (Z * Z) :=
  [(config_address 0 slot f 0, ids); (config_address 0 slot f 8, class); (config_address 0 slot f 12, header); (config_address 0 slot f 60, 11)].
Definition small_bus : bus_sim := Mk_bus_sim 0 (card 0 0 305627270 100663296 0 ++ card 3 0 2166362348 33554432 8388608 ++ card 3 1 269385862 33554432 0).
Definition no_device : pci_device_t := Mk_pci_device 0 0 0 0 0 [] 0 0 0 0 0 0 0.
Definition scan_start : pci bus_sim := Mk_pci (replicate 256 no_device) 0 (replicate 32 (Mk_pci_driver 0 0 0)) 0 small_bus.

Lemma pci_scan_finds_witness : exists s', pci_init 0 scan_start = Some (tt, s') /\ pci_device_count s' = 3 /\
  pci_device_exists 4332 33056 s' = Some (1, s') /\ pci_device_exists 4332 33057 s' = Some (0, s').
Proof.
  destruct (pci_scan_finds 0 scan_start) as (s' & E & _ & Hc & _ & Hex); [reflexivity|]. exists s'. split; [exact E|]. split; [rewrite Hc; vm_compute; reflexivity|].
  split; rewrite Hex; vm_compute; reflexivity.
Defined.
