(* ===== verification/Usb.v ===== *)
(** drivers/usb/usb_core.c: the search for USB host controllers among the devices that
    [pci_init] has found.  (core.c and xhci.c hold the same two functions again, as static
    functions that nothing calls; hub.c and hid_kb.c only print.) *)

From S2P Require Import Prelude Effects Ports Pci.

Section Usb.
Context {H : Type} `{Ports H} `{WidePorts H}.
Abbreviation A := (M (pci H)).

(** The values of the base address register and the interrupt are only printed. *)
Definition xhci_probe (dev : option pci_device_t) : A Z :=
  match dev with
  | None => mret (-1)
  | Some dev =>
      _ ← pci_enable_device dev;
      _ ← pci_set_bus_master (pci_bus dev) (pci_slot dev) 1;
      _ ← lift (pci_read_bar dev 0);
      let _ := pci_configure_irq dev in
      mret 0
  end.

(** The loop over the table, [n] more devices from [i] on; the result lists the controllers
    that were probed. *)
Fixpoint usb_loop (n : nat) (i : Z) : A (list pci_device_t) :=
  match n with
  | O => mret []
  | S n' =>
      l ← gets pci_devices;
      dev ← lift (l !! Z.to_nat i);
      here ← (if (class_code dev =? 12) && (subclass_code dev =? 3) && (prog_if dev =? 48) then _ ← xhci_probe (Some dev); mret [dev] else mret []);
      rest ← usb_loop n' (i + 1);
      mret (here ++ rest)
  end.
Definition usb_init : A (list pci_device_t) := n ← gets pci_device_count; usb_loop (Z.to_nat n) 0.

(** An operation on the bus changes only the hardware. *)
Definition on_hw {X} (m : A X) : Prop := forall s, exists x h, m s = Some (x, Mk_pci (pci_devices s) (pci_device_count s) (pci_drivers s) (pci_driver_count s) h).

Lemma on_hw_ret {X} (x : X) : on_hw (mret x).
Proof. intros s. exists x, (pci_hw s). by destruct s. Qed.
Lemma on_hw_bind {X Y} (m : A X) (k : X -> A Y) : on_hw m -> (forall x, on_hw (k x)) -> on_hw (m ≫= k).
Proof. intros Hm Hk s. destruct (Hm s) as (x & h & E). rewrite (bind_eq _ _ _ _ _ E). destruct (Hk x (Mk_pci (pci_devices s) (pci_device_count s) (pci_drivers s) (pci_driver_count s) h)) as (y & h' & E'). by exists y, h'. Qed.
Lemma on_hw_inl p : on_hw (inl p).
Proof. intros s. unfold inl. destruct (dev_inl (u16 p) (hw s)) as [v h]. by exists (u32 v), h. Qed.
Lemma on_hw_outl p v : on_hw (outl p v).
Proof. intros s. eexists _, _. done. Qed.

Lemma xhci_probe_hw dev b : bar dev !! 0%nat = Some b -> on_hw (xhci_probe (Some dev)).
Proof.
  intros Hb. unfold xhci_probe, pci_read_bar, pci_enable_device, pci_set_bus_master, pci_read_config_word, pci_write_config_word, pci_read, pci_write, pci_read_config_dword. cbn [Z.leb Z.ltb Z.compare].
  change (Z.to_nat 0) with 0%nat. rewrite Hb.
  repeat first [apply on_hw_bind; [|intros ?] | apply on_hw_ret | apply on_hw_inl | apply on_hw_outl | case_match | progress (intros ?; eexists _, _; done)].
Qed.

Definition is_xhci (dev : pci_device_t) : bool := (class_code dev =? 12) && (subclass_code dev =? 3) && (prog_if dev =? 48).

Lemma usb_loop_ok n : forall i s, 0 <= i -> (Z.to_nat i + n <= length (pci_devices s))%nat -> Forall (fun d => is_Some (bar d !! 0%nat)) (pci_devices s) ->
  exists h, usb_loop n i s = Some (List.filter is_xhci (take n (drop (Z.to_nat i) (pci_devices s))), Mk_pci (pci_devices s) (pci_device_count s) (pci_drivers s) (pci_driver_count s) h).
Proof.
  induction n as [|n IH]; intros i s Hi Hl Hb; cbn [usb_loop]; [exists (pci_hw s); by destruct s|]. rewrite gets_bind.
  destruct (lookup_lt_is_Some_2 (pci_devices s) (Z.to_nat i)) as [dev Hd]; [lia|]. rewrite (lift_bind _ _ _ _ Hd). destruct (Forall_lookup_1 _ _ _ _ Hb Hd) as [b Hbar].
  rewrite (drop_S _ _ _ Hd). cbn [take List.filter]. fold (is_xhci dev). replace (S (Z.to_nat i)) with (Z.to_nat (i + 1)) by lia.
  assert (exists h, (if is_xhci dev then _ ← xhci_probe (Some dev); mret [dev] else mret []) s = Some (if is_xhci dev then [dev] else [], Mk_pci (pci_devices s) (pci_device_count s) (pci_drivers s) (pci_driver_count s) h)) as (h & E).
  { destruct (is_xhci dev); [|exists (pci_hw s); by destruct s]. destruct (xhci_probe_hw dev b Hbar s) as (x & h & E). exists h. by rewrite (bind_eq _ _ _ _ _ E). }
  rewrite (bind_eq _ _ _ _ _ E). destruct (IH (i + 1) (Mk_pci (pci_devices s) (pci_device_count s) (pci_drivers s) (pci_driver_count s) h)) as (h' & E'); [lia|cbn; lia|done|].
  rewrite (bind_eq _ _ _ _ _ E'). exists h'. by destruct (is_xhci dev).
Qed.

(** The controllers that are probed are the xHCI controllers of the table, each of them once and in
    its order, and the table stays as it is. *)
Theorem usb_init_probes s (Hc : pci_device_count s <= Z.of_nat (length (pci_devices s))) (Hb : Forall (fun d => is_Some (bar d !! 0%nat)) (pci_devices s)) :
  exists h, usb_init s = Some (List.filter is_xhci (take (Z.to_nat (pci_device_count s)) (pci_devices s)), Mk_pci (pci_devices s) (pci_device_count s) (pci_drivers s) (pci_driver_count s) h).
Proof. apply (usb_loop_ok (Z.to_nat (pci_device_count s)) 0 s); [lia|cbn; lia|done]. Qed.
End Usb.

Definition usb_controller (prog : Z) : pci_device_t := Mk_pci_device 6966 13 0 4 0 [4026531840] 11 1 0 12 3 prog 0.
Lemma usb_init_probes_witness : exists h, usb_init (Mk_pci [usb_controller 32; usb_controller 48] 2 [] 0 small_bus) = Some ([usb_controller 48], Mk_pci [usb_controller 32; usb_controller 48] 2 [] 0 h).
Proof. apply (usb_init_probes (Mk_pci [usb_controller 32; usb_controller 48] 2 [] 0 small_bus)); [cbn; lia|repeat constructor; by eexists]. Defined.
