(* ===== verification/Video.v ===== *)
(** drivers/video/video.c, and drivers/video/display.c as the text-mode build has it:
    the VGA text console with its cursor registers, escape sequences, scrolling and
    the functions that edit a line on the screen.

    [console] is the driver's variables, the text memory and the hardware.  [screen]
    specifies it as 25 rows of 80 cells with a cursor, and the theorems show that the
    index arithmetic and the loops of the driver implement the operations on rows. *)

From S2P Require Import Prelude Effects Ports CharDev.

Definition VGA_CTRL_REGISTER : Z := 980.
Definition VGA_DATA_REGISTER : Z := 981.
Definition VGA_COLS : Z := 80.
Definition VGA_ROWS : Z := 25.
Definition SERIAL_COM1 : Z := 1016.

(** The text memory: 32 KB from 0xB8000, cells of 16 bits. *)
Definition VGA_CELLS : nat := 128 * 128.

Record console (H : Type) := Mk_console {
  con_hw : H;
  vga_buffer : list Z;
  current_color : Z;               (* a signed char *)
  ansi_state : Z; ansi_params : buf; ansi_param_idx : Z;
  saved_cursor_x : Z; saved_cursor_y : Z
}.
Arguments Mk_console {H}. Arguments con_hw {H}. Arguments vga_buffer {H}. Arguments current_color {H}. Arguments ansi_state {H}.
Arguments ansi_params {H}. Arguments ansi_param_idx {H}. Arguments saved_cursor_x {H}. Arguments saved_cursor_y {H}.

#[global] Instance console_machine H : Machine (console H) H := {|
  hw := con_hw;
  with_hw s h := Mk_console h (vga_buffer s) (current_color s) (ansi_state s) (ansi_params s) (ansi_param_idx s) (saved_cursor_x s) (saved_cursor_y s)
|}.

Definition with_cells {H} (s : console H) (b : list Z) : console H :=
  Mk_console (con_hw s) b (current_color s) (ansi_state s) (ansi_params s) (ansi_param_idx s) (saved_cursor_x s) (saved_cursor_y s).
Definition with_color {H} (s : console H) (c : Z) : console H :=
  Mk_console (con_hw s) (vga_buffer s) c (ansi_state s) (ansi_params s) (ansi_param_idx s) (saved_cursor_x s) (saved_cursor_y s).
Definition with_ansi {H} (s : console H) (st : Z) (p : buf) (i : Z) : console H :=
  Mk_console (con_hw s) (vga_buffer s) (current_color s) st p i (saved_cursor_x s) (saved_cursor_y s).
Definition with_saved {H} (s : console H) (x y : Z) : console H :=
  Mk_console (con_hw s) (vga_buffer s) (current_color s) (ansi_state s) (ansi_params s) (ansi_param_idx s) x y.

(** ** Colours and cells *)

Definition ansi_to_vga_color (current ansi_code : Z) : Z :=
  match ansi_code with
  | 30 => 0 | 31 => 4 | 32 => 2 | 33 => 6 | 34 => 1 | 35 => 5 | 36 => 3 | 37 => 7
  | 90 => 8 | 91 => 12 | 92 => 10 | 93 => 14 | 94 => 9 | 95 => 13 | 96 => 11 | 97 => 15
  | _ => Z.land current 15
  end.

(** [(unsigned short)ch | (color << 8)] in an unsigned short; [ch] is a signed char. *)
Definition cell (ch color : Z) : Z := u16 (Z.lor (u16 (s8 ch)) (Z.shiftl color 8)).
Definition blank (color : Z) : Z := u16 (Z.lor 32 (Z.shiftl color 8)).

Section Driver.
Context {H : Type} `{Ports H} (fuel : nat).
Abbreviation A := (M (console H)).

(** What acts on the hardware alone. *)
Definition on_hw {X} (m : M H X) : A X := fun s =>
  match m (con_hw s) with Some (x, h) => Some (x, with_hw s h) | None => None end.

Definition cell_at (i : Z) : A Z := b ← gets vga_buffer; lift (if 0 <=? i then b !! Z.to_nat i else None).
Definition set_cell (i v : Z) : A unit :=
  b ← gets vga_buffer;
  if (0 <=? i) && (i <? Z.of_nat (length b)) then modify (fun s => with_cells s (<[Z.to_nat i := v]> b)) else undef.

Definition set_color (color : Z) : A unit := modify (fun s => with_color s (s8 color)).

(** ** The cursor *)

Definition get_cursor_position : A (Z * Z) :=
  _ ← outb VGA_CTRL_REGISTER 14;
  hi ← inb VGA_DATA_REGISTER;
  let position := u16 (Z.shiftl hi 8) in
  _ ← outb VGA_CTRL_REGISTER 15;
  lo ← inb VGA_DATA_REGISTER;
  let position := u16 (position + lo) in
  mret (position mod 80, position / 80).

Definition set_cursor_position (x y : Z) : A unit :=
  let position := u16 (y * 80 + x) in
  _ ← outb VGA_CTRL_REGISTER 15;
  _ ← outb VGA_DATA_REGISTER (Z.land position 255);
  _ ← outb VGA_CTRL_REGISTER 14;
  outb VGA_DATA_REGISTER (Z.land (Z.shiftr position 8) 255).

(** ** Writing *)

Definition clear_screen : A unit :=
  _ ← for_up 0 25 (fun y => for_up 0 80 (fun x => set_cell (y * VGA_COLS + x) (blank 15)));
  set_cursor_position 0 0.

Definition scroll_screen : A unit :=
  _ ← for_up 0 24 (fun y => for_up 0 80 (fun x => v ← cell_at ((y + 1) * VGA_COLS + x); set_cell (y * VGA_COLS + x) v));
  c ← gets current_color;
  for_up 0 80 (fun x => set_cell ((VGA_ROWS - 1) * VGA_COLS + x) (blank c)).

(** The number in [ansi_params]; an [int] that overflows is undefined. *)
Fixpoint ansi_code (p : buf) (n : nat) (code : Z) : option Z :=
  match n with
  | O => Some code
  | S n' => match p with
            | [] => None
            | c :: p' => let v := code * 10 + (c - 48) in if v <? 2 ^ 31 then ansi_code p' n' v else None
            end
  end.

Definition sgr (code : Z) : A unit :=
  c ← gets current_color;
  if code =? 0 then set_color 15
  else if (30 <=? code) && (code <=? 37) then set_color (Z.lor (Z.land c 240) (ansi_to_vga_color c code))
  else if (90 <=? code) && (code <=? 97) then set_color (Z.lor (Z.land c 240) (ansi_to_vga_color c code))
  else mret tt.

Definition set_ansi (st : Z) : A unit := modify (fun s => with_ansi s st (ansi_params s) (ansi_param_idx s)).

(** The escape sequences: whether the character is part of one. *)
Definition ansi_step (ch : Z) : A bool :=
  st ← gets ansi_state;
  p ← gets ansi_params;
  i ← gets ansi_param_idx;
  if (st =? 0) && (ch =? 27) then _ ← set_ansi 1; mret true
  else if st =? 1 then
    if ch =? 91 then p ← lift (wr p 0 0); _ ← modify (fun s => with_ansi s 2 p 0); mret true
    else _ ← set_ansi 0; mret false
  else if st =? 2 then
    if (48 <=? ch) && (ch <=? 57) then
      if i <? 15 then
        p ← lift (wr p i ch); p ← lift (wr p (i + 1) 0);
        _ ← modify (fun s => with_ansi s st p (i + 1)); mret true
      else mret true
    else if ch =? 59 then mret true
    else if ch =? 109 then
      _ ← set_ansi 0;
      code ← lift (ansi_code p (Z.to_nat i) 0);
      _ ← sgr code; mret true
    else _ ← set_ansi 0; mret true
  else mret false.

Definition put_at_cursor (ch : Z) : A unit :=
  xy ← get_cursor_position;
  let '(cursor_x, cursor_y) := xy in
  xy ← (if ch =? 10 then mret (0, cursor_y + 1)
        else if ch =? 13 then mret (0, cursor_y)
        else
          c ← gets current_color;
          _ ← set_cell (cursor_y * VGA_COLS + cursor_x) (cell ch c);
          mret (if VGA_COLS <=? cursor_x + 1 then (0, cursor_y + 1) else (cursor_x + 1, cursor_y)));
  let '(cursor_x, cursor_y) := xy in
  cursor_y ← (if VGA_ROWS <=? cursor_y then _ ← scroll_screen; mret (VGA_ROWS - 1) else mret cursor_y);
  set_cursor_position cursor_x cursor_y.

Definition vga_write_char (ch : Z) : A unit :=
  _ ← on_hw (serial_write_char fuel SERIAL_COM1 ch);
  r ← ansi_step ch;
  if r : bool then mret tt else put_at_cursor ch.

Definition vga_backspace : A unit :=
  xy ← get_cursor_position;
  let '(cursor_x, cursor_y) := xy in
  let '(cursor_x, cursor_y) :=
    if (cursor_x =? 0) && (0 <? cursor_y) then (VGA_COLS - 1, cursor_y - 1)
    else if 0 <? cursor_x then (cursor_x - 1, cursor_y) else (cursor_x, cursor_y) in
  _ ← set_cursor_position cursor_x cursor_y;
  c ← gets current_color;
  set_cell (cursor_y * VGA_COLS + cursor_x) (blank c).

(** ** Editing a line *)

Definition vga_save_cursor : A unit := xy ← get_cursor_position; modify (fun s => with_saved s (fst xy) (snd xy)).
Definition vga_restore_cursor : A unit :=
  x ← gets saved_cursor_x; y ← gets saved_cursor_y; set_cursor_position x y.

Definition vga_clear_line : A unit :=
  xy ← get_cursor_position;
  c ← gets current_color;
  _ ← for_up 0 80 (fun x => set_cell (snd xy * VGA_COLS + x) (blank c));
  set_cursor_position 0 (snd xy).

Definition vga_clear_from_cursor : A unit :=
  xy ← get_cursor_position;
  c ← gets current_color;
  for_up (fst xy) (Z.to_nat (VGA_COLS - fst xy)) (fun x => set_cell (snd xy * VGA_COLS + x) (blank c)).

Definition vga_move_cursor_left : A unit :=
  xy ← get_cursor_position;
  if 0 <? fst xy then set_cursor_position (fst xy - 1) (snd xy) else mret tt.

Definition vga_move_cursor_right : A unit :=
  xy ← get_cursor_position;
  if fst xy <? VGA_COLS - 1 then set_cursor_position (fst xy + 1) (snd xy) else mret tt.

Definition vga_insert_char_at_cursor (ch : Z) : A unit :=
  xy ← get_cursor_position;
  let '(cursor_x, cursor_y) := xy in
  _ ← for_down (VGA_COLS - 1) (Z.to_nat (VGA_COLS - 1 - cursor_x)) (fun x =>
        v ← cell_at (cursor_y * VGA_COLS + x - 1); set_cell (cursor_y * VGA_COLS + x) v);
  c ← gets current_color;
  _ ← set_cell (cursor_y * VGA_COLS + cursor_x) (cell ch c);
  if cursor_x <? VGA_COLS - 1 then set_cursor_position (cursor_x + 1) cursor_y else mret tt.

Definition vga_delete_char_at_cursor : A unit :=
  xy ← get_cursor_position;
  let '(cursor_x, cursor_y) := xy in
  _ ← for_up cursor_x (Z.to_nat (VGA_COLS - 1 - cursor_x)) (fun x =>
        v ← cell_at (cursor_y * VGA_COLS + x + 1); set_cell (cursor_y * VGA_COLS + x) v);
  c ← gets current_color;
  set_cell (cursor_y * VGA_COLS + VGA_COLS - 1) (blank c).

(** ** display.c without USE_FRAMEBUFFER *)

Definition display_init : A unit := clear_screen.
Definition display_clear : A unit := clear_screen.
Definition display_putchar (c : Z) : A unit := vga_write_char c.
Fixpoint display_write (str : buf) : A unit :=
  match str with
  | [] => undef
  | c :: str' => if c =? 0 then mret tt else _ ← vga_write_char c; display_write str'
  end.
Definition display_get_cursor : A (Z * Z) := get_cursor_position.
Definition display_set_cursor (x y : Z) : A unit := set_cursor_position x y.
Definition display_backspace : A unit := vga_backspace.
Definition display_set_color (color : Z) : A unit := set_color color.
End Driver.

(** * Properties *)

(** ** Rows *)

Definition rows (b : buf) : list buf := map (fun y => slice b (80 * y) 80) (seq 0 25).

Lemma lookup_rows b y : (y < 25)%nat -> rows b !! y = Some (slice b (80 * y) 80).
Proof. intros. unfold rows. rewrite list_lookup_fmap, lookup_seq_lt by lia. done. Qed.

Lemma length_rows b : length (rows b) = 25%nat.
Proof. unfold rows. by rewrite length_map, length_seq. Qed.

(** Part of one row. *)
Lemma rows_part b x y r : (y < 25)%nat -> (x + length r <= 80)%nat -> (2000 <= length b)%nat ->
  rows (blit b (80 * y + x) r) = alter (fun row => blit row x r) y (rows b).
Proof.
  intros Hy Hx Hb. apply list_eq. intros k. destruct (decide (k < 25)%nat).
  - rewrite lookup_rows by done. destruct (decide (k = y)) as [->|].
    + rewrite list_lookup_alter_eq, lookup_rows by done. cbn [fmap option_fmap option_map]. f_equal. apply list_eq. intros j.
      assert (length (slice b (80 * y) 80) = 80%nat) as Hs by (apply length_slice; lia).
      rewrite lookup_blit by lia. destruct (decide (j < 80)%nat).
      * rewrite !lookup_slice, lookup_blit by lia.
        destruct (Nat.leb_spec x j); destruct (Nat.leb_spec (80 * y + x) (80 * y + j)); destruct (Nat.ltb_spec j (x + length r));
          destruct (Nat.ltb_spec (80 * y + j) (80 * y + x + length r)); cbn [andb]; try lia; try done. f_equal. lia.
      * rewrite (proj2 (Nat.ltb_ge j (x + length r))), andb_false_r by lia. rewrite !lookup_ge_None_2; rewrite ?length_slice; rewrite ?length_blit; try lia; done.
    + rewrite list_lookup_alter_ne, lookup_rows by done. f_equal. apply slice_blit_disjoint; lia.
  - rewrite !lookup_ge_None_2; rewrite ?length_alter, ?length_rows; [done|lia..].
Qed.

Lemma alter_alter (f g : buf -> buf) i (l : list buf) : alter f i (alter g i l) = alter (fun r => f (g r)) i l.
Proof. revert i. induction l as [|r l IH]; intros [|i]; cbn; [done..|]. f_equal. apply IH. Qed.

Lemma alter_rows b y (f g : buf -> buf) : (2000 <= length b)%nat -> (y < 25)%nat -> (forall r, length r = 80%nat -> f r = g r) -> alter f y (rows b) = alter g y (rows b).
Proof. intros Hb Hy E. apply list_alter_ext; [|done]. intros r Hr. rewrite lookup_rows in Hr by done. injection Hr as <-. apply E, length_slice. lia. Qed.

Lemma rows_cell b x y v : (y < 25)%nat -> (x < 80)%nat -> (2000 <= length b)%nat ->
  rows (<[(80 * y + x)%nat := v]> b) = alter (<[x := v]>) y (rows b).
Proof.
  intros Hy Hx Hb. rewrite <- blit_one by lia. rewrite rows_part by (cbn; lia). apply alter_rows; [done..|]. intros r Hr. apply blit_one. lia.
Qed.

Lemma rows_scroll b r : length r = 80%nat -> (2000 <= length b)%nat -> rows (blit b 0 (slice b 80 1920 ++ r)) = drop 1 (rows b) ++ [r].
Proof.
  intros Hr Hb. assert (length (slice b 80 1920) = 1920%nat) as Hs by (apply length_slice; lia). apply list_eq. intros k. destruct (decide (k < 25)%nat).
  - rewrite lookup_rows by done. destruct (decide (k = 24)%nat) as [->|].
    + rewrite lookup_app_r; rewrite length_drop, length_rows; [|lia]. cbn. f_equal.
      rewrite <- (blit_blit b (slice b 80 1920) r 0 1920) by lia. pose proof (slice_blit (blit b 0 (slice b 80 1920)) 1920 r) as E.
      rewrite Hr, length_blit in E by lia. apply E. lia.
    + rewrite lookup_app_l by (rewrite length_drop, length_rows; lia). rewrite lookup_drop, lookup_rows by lia. f_equal.
      apply list_eq. intros j. destruct (decide (j < 80)%nat).
      * rewrite !lookup_slice by done. unfold blit. rewrite take_0. cbn [app]. rewrite !lookup_app_l by (rewrite ?length_app; lia).
        rewrite lookup_slice by lia. f_equal. lia.
      * unfold slice at 1 3. rewrite !lookup_take_ge by lia. done.
  - rewrite !lookup_ge_None_2; rewrite ?length_app, ?length_drop, ?length_rows; cbn; [done|lia..].
Qed.

Lemma rows_blank b v : length b = VGA_CELLS -> rows (blit b 0 (replicate 2000 v)) = replicate 25 (replicate 80 v).
Proof.
  intros Hb. unfold VGA_CELLS in Hb. apply list_eq. intros k. destruct (decide (k < 25)%nat).
  - rewrite lookup_rows, lookup_replicate_2 by done. f_equal. apply list_eq. intros j. destruct (decide (j < 80)%nat).
    + rewrite lookup_slice by done. unfold blit. rewrite take_0. cbn [app]. rewrite lookup_app_l by (rewrite length_replicate; lia). rewrite !lookup_replicate_2 by lia. done.
    + rewrite !lookup_ge_None_2; rewrite ?length_replicate, ?length_slice; rewrite ?length_blit; rewrite ?length_replicate; try lia; done.
  - rewrite !lookup_ge_None_2; rewrite ?length_replicate, ?length_rows; [done|lia..].
Qed.

(** ** The loops over cells *)

Section Cells.
Context {H : Type}.
Implicit Types s : console H.

Lemma with_cells_twice s b c : with_cells (with_cells s b) c = with_cells s c.
Proof. done. Qed.
Lemma with_cells_same s : with_cells s (vga_buffer s) = s.
Proof. by destruct s. Qed.

Lemma cell_at_ok s i v : vga_buffer s !! i = Some v -> cell_at (Z.of_nat i) s = Some (v, s).
Proof. intros E. unfold cell_at, gets, lift, mbind, M_bind. rewrite (proj2 (Z.leb_le 0 _)), Nat2Z.id, E by lia. done. Qed.

Lemma set_cell_ok s i v : (i < length (vga_buffer s))%nat -> set_cell (Z.of_nat i) v s = Some (tt, with_cells s (<[i := v]> (vga_buffer s))).
Proof.
  intros Hi. unfold set_cell, gets, mbind, M_bind. rewrite (proj2 (Z.leb_le 0 _)), (proj2 (Z.ltb_lt _ _)) by lia. cbn [andb].
  by rewrite Nat2Z.id.
Qed.

Lemma cells_any (b : buf) : Forall (fun _ => True) b.
Proof. by apply Forall_true. Qed.

Lemma fill_ok (k v : Z) n i s lo : k + i = Z.of_nat lo -> (lo + n <= length (vga_buffer s))%nat ->
  for_up i n (fun x => set_cell (k + x) v) s = Some (tt, with_cells s (blit (vga_buffer s) lo (replicate n v))).
Proof. apply (fill_loop vga_buffer with_cells set_cell (fun _ => True)); try done; [apply with_cells_same|]. intros. by apply set_cell_ok. Qed.

Lemma copy_down_ok (k : Z) (d : nat) n i s lo : (0 < d)%nat -> k + i = Z.of_nat lo -> (lo + d + n <= length (vga_buffer s))%nat ->
  for_up i n (fun x => v ← cell_at (k + x + Z.of_nat d); set_cell (k + x) v) s =
    Some (tt, with_cells s (blit (vga_buffer s) lo (slice (vga_buffer s) (lo + d) n))).
Proof.
  apply (copy_down_loop vga_buffer with_cells cell_at set_cell (fun _ => True)); try done; [apply with_cells_same|apply cell_at_ok| |apply cells_any].
  intros. by apply set_cell_ok.
Qed.

Lemma copy_up_ok (k : Z) n i s hi : k + i = Z.of_nat hi -> (n <= hi)%nat -> (hi < length (vga_buffer s))%nat ->
  for_down i n (fun x => v ← cell_at (k + x - 1); set_cell (k + x) v) s =
    Some (tt, with_cells s (blit (vga_buffer s) (hi + 1 - n) (slice (vga_buffer s) (hi - n) n))).
Proof.
  apply (copy_up_loop vga_buffer with_cells cell_at set_cell (fun _ => True)); try done; [apply with_cells_same|apply cell_at_ok| |apply cells_any].
  intros. by apply set_cell_ok.
Qed.

Lemma scroll_screen_ok s : (2000 <= length (vga_buffer s))%nat ->
  scroll_screen s = Some (tt, with_cells s (blit (vga_buffer s) 0 (slice (vga_buffer s) 80 1920 ++ replicate 80 (blank (current_color s))))).
Proof.
  intros Hb. unfold scroll_screen.
  edestruct (for_up_rule (fun j s' => s' = with_cells s (blit (vga_buffer s) 0 (slice (vga_buffer s) 80 (80 * Z.to_nat j)))) (S := console H)) as (s1 & E1 & H1);
    [| |rewrite (bind_eq _ _ _ _ _ E1)].
  - unfold slice. by rewrite take_0, blit_nil, with_cells_same.
  - intros j s' Hj ->. eexists. split.
    + rewrite (for_up_ext _ (fun x => v ← cell_at (j * 80 + x + Z.of_nat 80); set_cell (j * 80 + x) v)).
      2: { intros x. unfold VGA_COLS. by replace ((j + 1) * 80 + x) with (j * 80 + x + Z.of_nat 80) by lia. }
      apply (copy_down_ok _ _ _ _ _ (80 * Z.to_nat j)); [lia..|]. cbn [vga_buffer with_cells]. rewrite length_blit; rewrite ?length_slice; lia.
    + cbn [vga_buffer with_cells]. rewrite with_cells_twice. f_equal. assert (length (slice (vga_buffer s) 80 (80 * Z.to_nat j)) = 80 * Z.to_nat j)%nat as Hl by (apply length_slice; lia).
      rewrite slice_blit_disjoint by lia. rewrite blit_blit; rewrite ?length_slice; try lia.
      rewrite (Nat.add_comm _ 80), <- slice_split. by replace (80 * Z.to_nat (j + 1))%nat with (80 * Z.to_nat j + 80)%nat by lia.
  - cbn beta in H1. subst s1. change (Z.to_nat (0 + Z.of_nat 24)) with 24%nat. change (80 * 24)%nat with 1920%nat.
    rewrite gets_bind. unfold VGA_ROWS, VGA_COLS.
    assert (length (slice (vga_buffer s) 80 1920) = 1920%nat) as Hl by (apply length_slice; lia).
    rewrite (fill_ok _ _ _ _ _ 1920); [|lia|cbn [vga_buffer with_cells]; rewrite length_blit; lia].
    cbn [vga_buffer with_cells current_color]. by rewrite with_cells_twice, blit_blit by (rewrite ?length_replicate; lia).
Qed.

(** Every cell of the visible part. *)
Lemma clear_cells_ok s v : (2000 <= length (vga_buffer s))%nat ->
  for_up 0 25 (fun y => for_up 0 80 (fun x => set_cell (y * VGA_COLS + x) v)) s = Some (tt, with_cells s (blit (vga_buffer s) 0 (replicate 2000 v))).
Proof.
  intros Hb.
  destruct (for_up_rule (S := console H) (fun j s' => s' = with_cells s (blit (vga_buffer s) 0 (replicate (80 * Z.to_nat j) v)))
    (fun y => for_up 0 80 (fun x => set_cell (y * VGA_COLS + x) v)) 25 0 s) as (s1 & -> & H1).
  - by rewrite blit_nil, with_cells_same.
  - intros j s' Hj ->. unfold VGA_COLS. eexists. split.
    + apply (fill_ok _ _ _ _ _ (80 * Z.to_nat j)); [lia|]. cbn [vga_buffer with_cells]. rewrite length_blit; rewrite ?length_replicate; lia.
    + cbn [vga_buffer with_cells]. rewrite with_cells_twice. rewrite blit_blit by (rewrite ?length_replicate; lia).
      rewrite <- replicate_add. by replace (80 * Z.to_nat (j + 1))%nat with (80 * Z.to_nat j + 80)%nat by lia.
  - cbn beta in H1. subst s1. done.
Qed.
End Cells.

(** ** The hardware *)

(** What the driver relies on: the two cursor registers of the CRT controller behind an
    address register, and a serial port that is ready again after at most [tx_max]
    status reads.  The devices do not disturb each other. *)
Class Terminal (H : Type) `{Ports H} := {
  crtc_reg : H -> Z -> Z;
  crtc_sel : H -> Z;
  sent : H -> buf;
  tx_busy : H -> nat;
  tx_max : nat;
  crtc_bytes : forall h r, byte_ok (crtc_reg h r);
  crtc_select : forall h v, byte_ok v -> let h' := dev_outb VGA_CTRL_REGISTER v h in
    (forall r, crtc_reg h' r = crtc_reg h r) /\ crtc_sel h' = v /\ sent h' = sent h /\ tx_busy h' = tx_busy h;
  crtc_store : forall h v, byte_ok v -> crtc_sel h = 14 \/ crtc_sel h = 15 -> let h' := dev_outb VGA_DATA_REGISTER v h in
    (forall r, crtc_reg h' r = if r =? crtc_sel h then v else crtc_reg h r) /\ crtc_sel h' = crtc_sel h /\ sent h' = sent h /\ tx_busy h' = tx_busy h;
  crtc_load : forall h, exists h', dev_inb VGA_DATA_REGISTER h = (crtc_reg h (crtc_sel h), h') /\
    (forall r, crtc_reg h' r = crtc_reg h r) /\ sent h' = sent h /\ tx_busy h' = tx_busy h;
  tx_status : forall h, exists v h', dev_inb (SERIAL_LINE_STATUS SERIAL_COM1) h = (v, h') /\
    Z.land (u8 v) 32 = (if (tx_busy h =? 0)%nat then 32 else 0) /\
    (forall r, crtc_reg h' r = crtc_reg h r) /\ sent h' = sent h /\ tx_busy h' = (tx_busy h - 1)%nat;
  tx_send : forall h v, byte_ok v -> tx_busy h = 0%nat -> let h' := dev_outb (SERIAL_DATA SERIAL_COM1) v h in
    (forall r, crtc_reg h' r = crtc_reg h r) /\ sent h' = sent h ++ [v] /\ (tx_busy h' <= tx_max)%nat
}.

Section Hardware.
Context {H : Type} `{Terminal H}.
Implicit Types (s : console H) (h : H).

(** The cursor address in the registers. *)
Definition position h : Z := crtc_reg h 14 * 256 + crtc_reg h 15.

(** The cursor of [h] at [p] of [h']. *)
Definition cursor_moved h h' (p : Z) : Prop := position h' = p /\ sent h' = sent h /\ tx_busy h' = tx_busy h.

Lemma con_outb s p v : 0 <= p < 65536 -> byte_ok v -> outb p v s = Some (tt, with_hw s (dev_outb p v (con_hw s))).
Proof. intros Hp Hv. unfold outb, modify. cbn. unfold byte_ok in Hv. by rewrite !wrap_small by lia. Qed.

Lemma con_inb s p v h : 0 <= p < 65536 -> byte_ok v -> dev_inb p (con_hw s) = (v, h) -> inb p s = Some (v, with_hw s h).
Proof. intros Hp Hv E. unfold inb. cbn. rewrite wrap_small by lia. rewrite E. unfold byte_ok in Hv. by rewrite wrap_small by lia. Qed.

Lemma get_cursor_ok s : exists h,
  get_cursor_position s = Some ((position (con_hw s) mod 80, position (con_hw s) / 80), with_hw s h) /\
  cursor_moved (con_hw s) h (position (con_hw s)).
Proof.
  unfold get_cursor_position. rewrite (bind_eq _ _ _ _ _ (con_outb s VGA_CTRL_REGISTER 14 ltac:(unfold VGA_CTRL_REGISTER; lia) ltac:(done))).
  destruct (crtc_select (con_hw s) 14 ltac:(done)) as (R1 & S1 & T1 & B1). destruct (crtc_load (dev_outb VGA_CTRL_REGISTER 14 (con_hw s))) as (h2 & E2 & R2 & T2 & B2).
  rewrite S1, R1 in E2. set (s1 := with_hw s _). erewrite bind_eq by (apply (con_inb s1 VGA_DATA_REGISTER _ _ ltac:(unfold VGA_DATA_REGISTER; lia) (crtc_bytes _ _) E2)).
  rewrite (bind_eq _ _ _ _ _ (con_outb _ VGA_CTRL_REGISTER 15 ltac:(unfold VGA_CTRL_REGISTER; lia) ltac:(done))). cbn [with_hw console_machine con_hw s1].
  destruct (crtc_select h2 15 ltac:(done)) as (R3 & S3 & T3 & B3). destruct (crtc_load (dev_outb VGA_CTRL_REGISTER 15 h2)) as (h4 & E4 & R4 & T4 & B4).
  rewrite S3, R3, R2, R1 in E4. set (s3 := Mk_console _ _ _ _ _ _ _ _). erewrite bind_eq by (apply (con_inb s3 VGA_DATA_REGISTER _ _ ltac:(unfold VGA_DATA_REGISTER; lia) (crtc_bytes _ _) E4)).
  exists h4. pose proof (crtc_bytes (con_hw s) 14) as K1. pose proof (crtc_bytes (con_hw s) 15) as K2. unfold byte_ok in *.
  rewrite Z.shiftl_mul_pow2 by lia. change (2 ^ 8) with 256. rewrite (wrap_small 16 (_ * 256)) by lia. rewrite wrap_small by lia. split; [done|].
  unfold cursor_moved, position. rewrite !R4, !R3, !R2, !R1. split_and!; congruence.
Qed.

Lemma set_cursor_ok s x y : 0 <= y * 80 + x < 65536 -> exists h,
  set_cursor_position x y s = Some (tt, with_hw s h) /\ cursor_moved (con_hw s) h (y * 80 + x).
Proof.
  intros Hp. unfold set_cursor_position. rewrite (wrap_small 16) by lia. set (p := y * 80 + x) in *.
  change 255 with (Z.ones 8). rewrite !Z.land_ones by lia. rewrite Z.shiftr_div_pow2 by lia. change (2 ^ 8) with 256.
  assert (byte_ok (p mod 256)) as K1 by (unfold byte_ok; zlia). assert (byte_ok (p / 256 mod 256)) as K2 by (unfold byte_ok; zlia).
  do 3 (erewrite bind_eq by (apply con_outb; [unfold VGA_CTRL_REGISTER, VGA_DATA_REGISTER; lia|done])).
  rewrite con_outb by (done || unfold VGA_DATA_REGISTER; lia). cbn [with_hw console_machine con_hw].
  set (h0 := con_hw s). set (h1 := dev_outb VGA_CTRL_REGISTER 15 h0). set (h2 := dev_outb VGA_DATA_REGISTER _ h1). set (h3 := dev_outb VGA_CTRL_REGISTER 14 h2).
  eexists. split; [done|].
  destruct (crtc_select h0 15 ltac:(done)) as (R1 & S1 & T1 & B1). destruct (crtc_store h1 _ K1 (or_intror S1)) as (R2 & S2 & T2 & B2).
  destruct (crtc_select h2 14 ltac:(done)) as (R3 & S3 & T3 & B3). destruct (crtc_store h3 _ K2 (or_introl S3)) as (R4 & S4 & T4 & B4).
  fold h1 in R1, S1, T1, B1. fold h2 in R2, S2, T2, B2. fold h3 in R3, S3, T3, B3.
  unfold cursor_moved, position. rewrite !R4, S3, !R3, !R2, S1. cbn. split_and!; [zlia|congruence..].
Qed.

Lemma serial_ok fuel v : (tx_max < fuel)%nat -> byte_ok v -> forall h, (tx_busy h <= tx_max)%nat -> exists h',
  serial_write_char fuel SERIAL_COM1 v h = Some (tt, h') /\ position h' = position h /\ sent h' = sent h ++ [v] /\ (tx_busy h' <= tx_max)%nat.
Proof.
  intros Hf Hv. unfold serial_write_char. assert (forall fuel h, (tx_busy h < fuel)%nat -> exists h', wait_transmit fuel SERIAL_COM1 h = Some (tt, h') /\
    (forall r, crtc_reg h' r = crtc_reg h r) /\ sent h' = sent h /\ tx_busy h' = 0%nat) as Hw.
  { clear. induction fuel as [|fuel IH]; intros h Hb; [lia|]. cbn [wait_transmit]. unfold serial_is_transmit_empty.
    destruct (tx_status h) as (x & h' & E & Hx & R & T & B). rewrite bind_assoc, (bind_eq _ _ _ _ _ (inb_eq (SERIAL_LINE_STATUS SERIAL_COM1) _ _ _ ltac:(unfold SERIAL_LINE_STATUS, SERIAL_COM1; lia) E)), Hx.
    destruct (Nat.eqb_spec (tx_busy h) 0); cbn.
    - rewrite (bind_eq _ _ _ _ _ eq_refl). exists h'. split_and!; [done|done|done|lia].
    - rewrite (bind_eq _ _ _ _ _ eq_refl). destruct (IH h') as (h2 & E2 & R2 & T2 & B2); [lia|]. exists h2. split; [done|]. split; [|split; [congruence|done]].
      intros r. by rewrite R2, R. }
  intros h Hb. destruct (Hw fuel h) as (h1 & E1 & R1 & T1 & B1); [lia|]. rewrite (bind_eq _ _ _ _ _ E1).
  rewrite outb_eq by (done || unfold SERIAL_DATA, SERIAL_COM1; lia). destruct (tx_send h1 v Hv B1) as (R2 & T2 & B2). eexists. split; [done|].
  unfold position. rewrite !R2, !R1. split_and!; [done|congruence|done].
Qed.
End Hardware.

(** ** The screen as rows of cells *)

Record screen := Mk_screen { sc_rows : list buf; sc_x : nat; sc_y : nat }.

(** The next line, scrolling at the bottom. *)
Definition newline (color : Z) (t : screen) : screen :=
  if (S (sc_y t) <? 25)%nat then Mk_screen (sc_rows t) 0 (S (sc_y t))
  else Mk_screen (drop 1 (sc_rows t) ++ [replicate 80 (blank color)]) 0 24.

Definition put_char (color ch : Z) (t : screen) : screen :=
  if ch =? 10 then newline color t
  else if ch =? 13 then Mk_screen (sc_rows t) 0 (sc_y t)
  else
    let r := alter (<[sc_x t := cell ch color]>) (sc_y t) (sc_rows t) in
    if (S (sc_x t) <? 80)%nat then Mk_screen r (S (sc_x t)) (sc_y t) else newline color (Mk_screen r (sc_x t) (sc_y t)).

(** The row of the cursor changed by [f], and the cursor in column [x]. *)
Definition edit_row (f : buf -> buf) (x : nat) (t : screen) : screen := Mk_screen (alter f (sc_y t) (sc_rows t)) x (sc_y t).

Definition erase_back (color : Z) (t : screen) : screen :=
  let '(x, y) := match sc_x t, sc_y t with O, S y => (79%nat, y) | O, O => (O, O) | S x, y => (x, y) end in
  Mk_screen (alter (<[x := blank color]>) y (sc_rows t)) x y.
Definition erase_line (color : Z) (t : screen) : screen := edit_row (fun _ => replicate 80 (blank color)) 0 t.
Definition erase_right (color : Z) (t : screen) : screen :=
  edit_row (fun r => take (sc_x t) r ++ replicate (80 - sc_x t) (blank color)) (sc_x t) t.
Definition go_left (t : screen) : screen := Mk_screen (sc_rows t) (sc_x t - 1) (sc_y t).
Definition go_right (t : screen) : screen := Mk_screen (sc_rows t) (Nat.min 79 (sc_x t + 1)) (sc_y t).
Definition insert_char (color ch : Z) (t : screen) : screen :=
  edit_row (fun r => take (sc_x t) r ++ cell ch color :: take (79 - sc_x t) (drop (sc_x t) r)) (Nat.min 79 (sc_x t + 1)) t.
Definition delete_char (color : Z) (t : screen) : screen :=
  edit_row (fun r => take (sc_x t) r ++ drop (S (sc_x t)) r ++ [blank color]) (sc_x t) t.

Section Screen.
Context {H : Type} `{Terminal H}.
Implicit Types (s : console H) (h : H).

Definition screen_of s : screen :=
  Mk_screen (rows (vga_buffer s)) (Z.to_nat (position (con_hw s) mod 80)) (Z.to_nat (position (con_hw s) / 80)).

(** The text memory is there, and the cursor is on the screen. *)
Record screen_ok s : Prop := Mk_screen_ok {
  cells_length : length (vga_buffer s) = VGA_CELLS;
  cursor_inside : 0 <= position (con_hw s) < 2000;
  serial_ready : (tx_busy (con_hw s) <= tx_max)%nat
}.

(** [s'] is [s] but for the text memory and the cursor. *)
Definition drawn s s' : Prop :=
  screen_ok s' /\ current_color s' = current_color s /\ ansi_state s' = ansi_state s /\ ansi_params s' = ansi_params s /\
  ansi_param_idx s' = ansi_param_idx s /\ saved_cursor_x s' = saved_cursor_x s /\ saved_cursor_y s' = saved_cursor_y s /\ sent (con_hw s') = sent (con_hw s).

Lemma drawn_intro s b h p : screen_ok s -> length b = VGA_CELLS -> 0 <= p < 2000 -> cursor_moved (con_hw s) h p -> drawn s (with_hw (with_cells s b) h).
Proof. intros [Hl Hp Ht] Hb Hp' (E & Es & Et). split_and!; try done. split; cbn; [done|lia|by rewrite Et]. Qed.

Lemma drawn_trans s1 s2 s3 : drawn s1 s2 -> drawn s2 s3 -> drawn s1 s3.
Proof. intros (? & ? & ? & ? & ? & ? & ? & ?) (? & ? & ? & ? & ? & ? & ? & ?). split_and!; congruence || done. Qed.

Lemma cursor_xy s : screen_ok s -> exists x y : nat, (x < 80)%nat /\ (y < 25)%nat /\ position (con_hw s) = Z.of_nat y * 80 + Z.of_nat x /\
  position (con_hw s) mod 80 = Z.of_nat x /\ position (con_hw s) / 80 = Z.of_nat y /\ screen_of s = Mk_screen (rows (vga_buffer s)) x y.
Proof.
  intros [_ Hp _]. unfold screen_of. exists (Z.to_nat (position (con_hw s) mod 80)), (Z.to_nat (position (con_hw s) / 80)).
  rewrite !Z2Nat.id by zlia. split_and!; [zlia..|done].
Qed.

Lemma screen_at s b h (x y : nat) : (x < 80)%nat -> position h = Z.of_nat y * 80 + Z.of_nat x -> screen_of (with_hw (with_cells s b) h) = Mk_screen (rows b) x y.
Proof. intros Hx E. unfold screen_of. cbn. rewrite E. f_equal; [|]; zlia. Qed.

Lemma length_cells_row (b r : buf) (i : nat) : length b = VGA_CELLS -> (i + length r <= 2000)%nat -> length (blit b i r) = VGA_CELLS.
Proof. intros Hb Hi. rewrite length_blit; [done|]. rewrite Hb. unfold VGA_CELLS. lia. Qed.

(** Reading the cursor, then going on. *)
Lemma with_cursor X s (k : Z * Z -> M (console H) X) : screen_ok s ->
  exists (x y : nat) h, (x < 80)%nat /\ (y < 25)%nat /\ screen_of s = Mk_screen (rows (vga_buffer s)) x y /\
    cursor_moved (con_hw s) h (Z.of_nat y * 80 + Z.of_nat x) /\
    (get_cursor_position ≫= k) s = k (Z.of_nat x, Z.of_nat y) (with_hw s h).
Proof.
  intros Hs. destruct (cursor_xy s Hs) as (x & y & Hx & Hy & Ep & Em & Ed & Es). destruct (get_cursor_ok s) as (h & E & Hm).
  exists x, y, h. rewrite Em, Ed in E. rewrite (bind_eq _ _ _ _ _ E). rewrite <- Ep. done.
Qed.

(** A function that begins with reading the cursor of [s]. *)
Ltac at_cursor s Hs x y h :=
  match goal with |- context [(get_cursor_position ≫= ?k) s] =>
    let Es := fresh "Es" in destruct (with_cursor _ s k Hs) as (x & y & h & Hx & Hy & Es & Hm & ->); rewrite Es; cbv beta iota; cbn [fst snd] end.

Lemma move_ok s b h (x y x' y' : nat) : screen_ok s -> length b = VGA_CELLS -> (x' < 80)%nat -> (y' < 25)%nat ->
  cursor_moved (con_hw s) h (Z.of_nat y * 80 + Z.of_nat x) ->
  exists s', set_cursor_position (Z.of_nat x') (Z.of_nat y') (with_hw (with_cells s b) h) = Some (tt, s') /\ drawn s s' /\ screen_of s' = Mk_screen (rows b) x' y'.
Proof.
  intros Hs Hb Hx Hy (Ep & Et & Eb). destruct (set_cursor_ok (with_hw (with_cells s b) h) (Z.of_nat x') (Z.of_nat y')) as (h' & E & Ep' & Et' & Eb'); [lia|].
  cbn in Et', Eb'. exists (with_hw (with_cells s b) h'). split; [exact E|]. split; [|by apply screen_at].
  eapply (drawn_intro s b h'); [done..| |split; [exact Ep'|split; congruence]]. lia.
Qed.

Lemma cells_2000 s : screen_ok s -> (2000 <= length (vga_buffer s))%nat.
Proof. intros [-> _ _]. unfold VGA_CELLS. lia. Qed.

Lemma store_cell_ok s b h (x y : nat) v : length b = VGA_CELLS -> (x < 80)%nat -> (y < 25)%nat ->
  set_cell (Z.of_nat y * VGA_COLS + Z.of_nat x) v (with_hw (with_cells s b) h) = Some (tt, with_hw (with_cells s (<[(80 * y + x)%nat := v]> b)) h).
Proof.
  intros Hb Hx Hy. unfold VGA_COLS. replace (Z.of_nat y * 80 + Z.of_nat x) with (Z.of_nat (80 * y + x)) by lia.
  rewrite set_cell_ok; [done|]. cbn. rewrite Hb. unfold VGA_CELLS. lia.
Qed.

Lemma put_at_cursor_ok s ch : screen_ok s ->
  exists s', put_at_cursor ch s = Some (tt, s') /\ drawn s s' /\ screen_of s' = put_char (current_color s) ch (screen_of s).
Proof.
  intros Hs. pose proof (cells_2000 s Hs) as H2. pose proof (cells_length s Hs) as Hl. unfold put_at_cursor.
  at_cursor s Hs x y h.
  (* the last steps, from any line at or just below the bottom *)
  assert (forall b (x' y' : nat), length b = VGA_CELLS -> (x' < 80)%nat -> (y' <= 25)%nat -> exists s',
    (cursor_y ← (if VGA_ROWS <=? Z.of_nat y' then _ ← scroll_screen; mret (VGA_ROWS - 1) else mret (Z.of_nat y'));
     set_cursor_position (Z.of_nat x') cursor_y) (with_hw (with_cells s b) h) = Some (tt, s') /\ drawn s s' /\
    screen_of s' = if (y' <? 25)%nat then Mk_screen (rows b) x' y' else Mk_screen (drop 1 (rows b) ++ [replicate 80 (blank (current_color s))]) x' 24) as Hend.
  { intros b x' y' Hb Hx' Hy'. unfold VGA_ROWS. destruct (Z.leb_spec 25 (Z.of_nat y')).
    - rewrite bind_assoc. erewrite bind_eq by (apply scroll_screen_ok; cbn; rewrite Hb; unfold VGA_CELLS; lia). cbn [vga_buffer with_hw with_cells console_machine current_color].
      rewrite (bind_eq _ _ _ _ _ eq_refl). change (25 - 1) with (Z.of_nat 24). set (b' := blit _ _ _).
      assert (length b' = VGA_CELLS) as Hb' by (apply length_cells_row; [done|]; rewrite length_app, length_replicate, length_slice; rewrite ?Hb; unfold VGA_CELLS; lia).
      destruct (move_ok s b' h x y x' 24 Hs Hb' Hx' ltac:(lia) Hm) as (s' & E & Hd & Hsc). exists s'. split; [exact E|]. split; [done|].
      rewrite Hsc. destruct (Nat.ltb_spec y' 25); [lia|]. f_equal. apply rows_scroll; [apply length_replicate|rewrite Hb; unfold VGA_CELLS; lia].
    - rewrite (bind_eq _ _ _ _ _ eq_refl). destruct (move_ok s b h x y x' y' Hs Hb Hx' ltac:(lia) Hm) as (s' & E & Hd & Hsc).
      exists s'. split_and!; [done..|]. rewrite Hsc. by destruct (Nat.ltb_spec y' 25); [|lia]. }
  unfold put_char, newline. destruct (ch =? 10); [|destruct (ch =? 13)].
  - rewrite (bind_eq _ _ _ _ _ eq_refl). destruct (Hend (vga_buffer s) 0%nat (S y) Hl ltac:(lia) ltac:(lia)) as (s' & E & Hd & Hsc).
    replace (Z.of_nat y + 1) with (Z.of_nat (S y)) by lia. exists s'. split_and!; [done..|exact Hsc].
  - rewrite (bind_eq _ _ _ _ _ eq_refl). destruct (Hend (vga_buffer s) 0%nat y Hl ltac:(lia) ltac:(lia)) as (s' & E & Hd & Hsc).
    exists s'. split_and!; [done..|]. rewrite Hsc. by destruct (Nat.ltb_spec y 25); [|lia].
  - rewrite !bind_assoc, gets_bind. rewrite bind_assoc. erewrite bind_eq by apply (store_cell_ok s (vga_buffer s) h x y _ Hl Hx Hy).
    rewrite (bind_eq _ _ _ _ _ eq_refl). cbn [current_color with_hw console_machine sc_rows sc_x sc_y]. unfold VGA_COLS.
    set (b := <[_ := _]> (vga_buffer s)). assert (length b = VGA_CELLS) as Hb by (unfold b; by rewrite length_insert).
    assert (rows b = alter (<[x := cell ch (current_color s)]>) y (rows (vga_buffer s))) as Er by (by apply rows_cell). rewrite <- Er.
    destruct (Nat.ltb_spec (S x) 80); destruct (Z.leb_spec 80 (Z.of_nat x + 1)); try lia.
    + destruct (Hend b (S x) y Hb ltac:(lia) ltac:(lia)) as (s' & E & Hd & Hsc). replace (Z.of_nat x + 1) with (Z.of_nat (S x)) by lia.
      exists s'. split_and!; [done..|]. rewrite Hsc. by destruct (Nat.ltb_spec y 25); [|lia].
    + destruct (Hend b 0%nat (S y) Hb ltac:(lia) ltac:(lia)) as (s' & E & Hd & Hsc). replace (Z.of_nat y + 1) with (Z.of_nat (S y)) by lia.
      exists s'. split_and!; [done..|exact Hsc].
Qed.

(** [f] implements [g] on the screen and changes nothing else. *)
Definition draws (f : M (console H) unit) (g : Z -> screen -> screen) : Prop :=
  forall s, screen_ok s -> exists s', f s = Some (tt, s') /\ drawn s s' /\ screen_of s' = g (current_color s) (screen_of s).

Lemma stay_ok s b h (x y : nat) : screen_ok s -> length b = VGA_CELLS -> (x < 80)%nat -> (y < 25)%nat ->
  cursor_moved (con_hw s) h (Z.of_nat y * 80 + Z.of_nat x) ->
  drawn s (with_hw (with_cells s b) h) /\ screen_of (with_hw (with_cells s b) h) = Mk_screen (rows b) x y.
Proof. intros Hs Hb Hx Hy Hm. split; [|apply screen_at; [done|apply Hm]]. eapply drawn_intro; [done..| |done]. lia. Qed.

Lemma clear_screen_draws : draws clear_screen (fun _ _ => Mk_screen (replicate 25 (replicate 80 (blank 15))) 0 0).
Proof.
  intros s Hs. unfold clear_screen. erewrite bind_eq by (apply clear_cells_ok; by apply cells_2000).
  destruct (cursor_xy s Hs) as (x & y & Hx & Hy & Ep & _). pose proof (cells_length s Hs) as Hl. set (b := blit _ _ _).
  assert (length b = VGA_CELLS) as Hb by (apply length_cells_row; [done|]; by rewrite length_replicate).
  destruct (move_ok s b (con_hw s) x y 0 0 Hs Hb ltac:(lia) ltac:(lia) ltac:(done)) as (s' & E & Hd & Hsc).
  exists s'. split; [exact E|]. split; [done|]. rewrite Hsc. unfold b. by rewrite (rows_blank _ _ Hl).
Qed.

Lemma backspace_draws : draws vga_backspace erase_back.
Proof.
  intros s Hs. pose proof (cells_length s Hs) as Hl. unfold vga_backspace. at_cursor s Hs x y h.
  assert (forall x' y' : nat, (x' < 80)%nat -> (y' < 25)%nat -> exists s',
    (_ ← set_cursor_position (Z.of_nat x') (Z.of_nat y'); c ← gets current_color; set_cell (Z.of_nat y' * VGA_COLS + Z.of_nat x') (blank c)) (with_hw s h) = Some (tt, s') /\
    drawn s s' /\ screen_of s' = Mk_screen (alter (<[x' := blank (current_color s)]>) y' (rows (vga_buffer s))) x' y') as Hgo.
  { intros x' y' Hx' Hy'. destruct (set_cursor_ok (with_hw (with_cells s (vga_buffer s)) h) (Z.of_nat x') (Z.of_nat y')) as (h' & E & Ep & Et & Eb); [lia|].
    rewrite with_cells_same in E. erewrite bind_eq by exact E. rewrite gets_bind. cbn in Et, Eb.
    eexists. split; [exact (store_cell_ok s (vga_buffer s) h' x' y' _ Hl Hx' Hy')|]. rewrite <- rows_cell by first [done | by apply cells_2000].
    apply stay_ok; [done|by rewrite length_insert|done..|]. destruct Hm as (_ & Ht & Hb). split; [done|split; congruence]. }
  unfold erase_back. cbn [sc_x sc_y sc_rows]. destruct x as [|x]; [destruct y as [|y]|].
  - apply (Hgo 0%nat 0%nat); lia.
  - replace (Z.of_nat (S y)) with (Z.of_nat y + 1) by lia. destruct (Z.ltb_spec 0 (Z.of_nat y + 1)); [|lia]. cbn [Z.eqb andb Z.of_nat].
    replace (Z.of_nat y + 1 - 1) with (Z.of_nat y) by lia. apply (Hgo 79%nat y); lia.
  - destruct (Z.eqb_spec (Z.of_nat (S x)) 0); [lia|]. destruct (Z.ltb_spec 0 (Z.of_nat (S x))); [|lia]. cbn [andb].
    replace (Z.of_nat (S x) - 1) with (Z.of_nat x) by lia. apply (Hgo x y); lia.
Qed.

Lemma left_draws : draws vga_move_cursor_left (fun _ => go_left).
Proof.
  intros s Hs. pose proof (cells_length s Hs) as Hl. unfold vga_move_cursor_left. at_cursor s Hs x y h. unfold go_left. cbn [sc_x sc_y sc_rows].
  destruct (Z.ltb_spec 0 (Z.of_nat x)).
  - replace (Z.of_nat x - 1) with (Z.of_nat (x - 1)) by lia. apply (move_ok s (vga_buffer s) h x y); done || lia.
  - exists (with_hw s h). split; [done|]. replace (x - 1)%nat with x by lia. apply (stay_ok s (vga_buffer s)); done.
Qed.

Lemma right_draws : draws vga_move_cursor_right (fun _ => go_right).
Proof.
  intros s Hs. pose proof (cells_length s Hs) as Hl. unfold vga_move_cursor_right. at_cursor s Hs x y h. unfold go_right, VGA_COLS. cbn [sc_x sc_y sc_rows].
  destruct (Z.ltb_spec (Z.of_nat x) (80 - 1)).
  - replace (Z.of_nat x + 1) with (Z.of_nat (x + 1)) by lia. rewrite Nat.min_r by lia. apply (move_ok s (vga_buffer s) h x y); done || lia.
  - exists (with_hw s h). split; [done|]. rewrite Nat.min_l by lia. replace 79%nat with x by lia. apply (stay_ok s (vga_buffer s)); done.
Qed.

(** The part of a row from column [x], as the code addresses it. *)
Lemma row_part_ok s b h (x y : nat) (r : buf) (f : buf -> buf) : screen_ok s -> length b = VGA_CELLS -> (x + length r <= 80)%nat -> (y < 25)%nat ->
  (forall row, length row = 80%nat -> blit row x r = f row) ->
  length (blit b (80 * y + x) r) = VGA_CELLS /\ rows (blit b (80 * y + x) r) = alter f y (rows b).
Proof.
  intros Hs Hb Hx Hy Hf. assert (2000 <= length b)%nat by (rewrite Hb; unfold VGA_CELLS; lia). split; [apply length_cells_row; [done|lia]|].
  rewrite rows_part by done. by apply alter_rows.
Qed.

Lemma clear_line_draws : draws vga_clear_line erase_line.
Proof.
  intros s Hs. pose proof (cells_length s Hs) as Hl. unfold vga_clear_line. at_cursor s Hs x y h. rewrite gets_bind. unfold VGA_COLS.
  erewrite bind_eq by (apply (fill_ok _ _ _ _ _ (80 * y + 0)); [lia|cbn; rewrite Hl; unfold VGA_CELLS; lia]).
  destruct (row_part_ok s (vga_buffer s) h 0 y (replicate 80 (blank (current_color s))) (fun _ => replicate 80 (blank (current_color s))) Hs Hl) as [Hb Hr]; [by rewrite length_replicate|done| |].
  { intros row Hrow. unfold blit. rewrite take_0, length_replicate. cbn [app Nat.add]. rewrite drop_ge by lia. apply app_nil_r. }
  destruct (move_ok s _ h x y 0 y Hs Hb ltac:(lia) Hy Hm) as (s' & E & Hd & Hsc). exists s'. split; [exact E|]. split; [done|]. by rewrite Hsc, Hr.
Qed.

Lemma clear_right_draws : draws vga_clear_from_cursor erase_right.
Proof.
  intros s Hs. pose proof (cells_length s Hs) as Hl. unfold vga_clear_from_cursor. at_cursor s Hs x y h. rewrite gets_bind. unfold VGA_COLS.
  rewrite (fill_ok _ _ _ _ _ (80 * y + x)); [|lia|cbn; rewrite Hl; unfold VGA_CELLS; lia].
  replace (Z.to_nat (80 - Z.of_nat x)) with (80 - x)%nat by lia. cbn [vga_buffer with_hw console_machine current_color].
  destruct (row_part_ok s (vga_buffer s) h x y (replicate (80 - x) (blank (current_color s)))
    (fun r => take x r ++ replicate (80 - x) (blank (current_color s))) Hs Hl) as [Hb Hr]; [rewrite length_replicate; lia|done| |].
  { intros row Hrow. unfold blit. rewrite length_replicate. rewrite (drop_ge row) by lia. by rewrite app_nil_r. }
  eexists. split; [done|]. unfold erase_right, edit_row. cbn [sc_x sc_y sc_rows]. rewrite <- Hr. by apply (stay_ok s _ h).
Qed.

Lemma insert_draws ch : draws (vga_insert_char_at_cursor ch) (fun c => insert_char c ch).
Proof.
  intros s Hs. pose proof (cells_length s Hs) as Hl. unfold vga_insert_char_at_cursor. at_cursor s Hs x y h. unfold VGA_COLS.
  erewrite bind_eq by (apply (copy_up_ok _ _ _ _ (80 * y + 79)); [lia..|cbn; rewrite Hl; unfold VGA_CELLS; lia]).
  cbn [vga_buffer with_hw console_machine]. rewrite gets_bind.
  replace (80 * y + 79 + 1 - Z.to_nat (80 - 1 - Z.of_nat x))%nat with (80 * y + (x + 1))%nat by lia.
  replace (80 * y + 79 - Z.to_nat (80 - 1 - Z.of_nat x))%nat with (80 * y + x)%nat by lia. replace (Z.to_nat (80 - 1 - Z.of_nat x)) with (79 - x)%nat by lia.
  set (u := slice (vga_buffer s) (80 * y + x) (79 - x)). assert (length u = 79 - x)%nat as Hu by (apply length_slice; rewrite Hl; unfold VGA_CELLS; lia).
  destruct (row_part_ok s (vga_buffer s) h (x + 1) y u (fun r => blit r (x + 1) u) Hs Hl ltac:(lia) Hy ltac:(done)) as [Hb Hr].
  erewrite bind_eq by exact (store_cell_ok s _ h x y (cell ch (current_color s)) Hb Hx Hy).
  set (b := <[_ := _]> _). assert (length b = VGA_CELLS) as Hlb by (unfold b; by rewrite length_insert).
  assert (rows b = alter (fun r => take x r ++ cell ch (current_color s) :: take (79 - x) (drop x r)) y (rows (vga_buffer s))) as Er.
  { unfold b. rewrite rows_cell, Hr by first [done | rewrite Hb; unfold VGA_CELLS; lia]. rewrite alter_alter.
    apply list_alter_ext; [|done]. intros r Er. rewrite lookup_rows in Er by done. apply (inj Some) in Er as <-. cbv beta.
    assert (take (79 - x) (drop x (slice (vga_buffer s) (80 * y) 80)) = u) as ->.
    { unfold u, slice. rewrite skipn_firstn_comm, drop_drop, take_take. f_equal. lia. }
    set (r := slice _ _ _). assert (length r = 80%nat) as Hrl by (apply length_slice; rewrite Hl; unfold VGA_CELLS; lia).
    unfold blit. rewrite (drop_ge r) by lia. rewrite app_nil_r. rewrite insert_app_l by list_lia. rewrite insert_take_drop by list_lia.
    rewrite take_take, (drop_ge (take _ _)) by list_lia. rewrite Nat.min_l by lia. by rewrite <- app_assoc. }
  unfold insert_char, edit_row. cbn [sc_x sc_y sc_rows]. rewrite <- Er.
  destruct (Z.ltb_spec (Z.of_nat x) (80 - 1)).
  - rewrite Nat.min_r by lia. replace (Z.of_nat x + 1) with (Z.of_nat (x + 1)) by lia. apply (move_ok s b h x y); done || lia.
  - rewrite Nat.min_l by lia. replace 79%nat with x by lia. eexists. split; [done|]. by apply stay_ok.
Qed.

Lemma delete_draws : draws vga_delete_char_at_cursor delete_char.
Proof.
  intros s Hs. pose proof (cells_length s Hs) as Hl. unfold vga_delete_char_at_cursor. at_cursor s Hs x y h. unfold VGA_COLS.
  erewrite bind_eq by (apply (copy_down_ok _ 1 _ _ _ (80 * y + x)); [lia..|cbn; rewrite Hl; unfold VGA_CELLS; lia]).
  cbn [vga_buffer with_hw console_machine]. rewrite gets_bind. replace (Z.to_nat (80 - 1 - Z.of_nat x)) with (79 - x)%nat by lia.
  set (u := slice (vga_buffer s) (80 * y + x + 1) (79 - x)). assert (length u = 79 - x)%nat as Hu by (apply length_slice; rewrite Hl; unfold VGA_CELLS; lia).
  destruct (row_part_ok s (vga_buffer s) h x y u (fun r => blit r x u) Hs Hl ltac:(lia) Hy ltac:(done)) as [Hb Hr].
  pose proof (store_cell_ok s _ h 79 y (blank (current_color s)) Hb ltac:(lia) Hy) as Est. unfold VGA_COLS in Est.
  replace (Z.of_nat y * 80 + Z.of_nat 79) with (Z.of_nat y * 80 + 80 - 1) in Est by lia. eexists. split; [exact Est|].
  set (b := <[_ := _]> _). assert (length b = VGA_CELLS) as Hlb by (unfold b; by rewrite length_insert).
  assert (rows b = alter (fun r => take x r ++ drop (S x) r ++ [blank (current_color s)]) y (rows (vga_buffer s))) as Er.
  { unfold b. rewrite rows_cell, Hr by first [done | lia | rewrite Hb; unfold VGA_CELLS; lia]. rewrite alter_alter.
    apply list_alter_ext; [|done]. intros r Er. rewrite lookup_rows in Er by done. apply (inj Some) in Er as <-. cbv beta.
    assert (drop (S x) (slice (vga_buffer s) (80 * y) 80) = u) as ->.
    { unfold u, slice. rewrite skipn_firstn_comm, drop_drop. replace (80 - S x)%nat with (79 - x)%nat by lia. by replace (80 * y + S x)%nat with (80 * y + x + 1)%nat by lia. }
    set (r := slice _ _ _). assert (length r = 80%nat) as Hrl by (apply length_slice; rewrite Hl; unfold VGA_CELLS; lia).
    unfold blit. rewrite Hu. replace (x + (79 - x))%nat with 79%nat by lia. rewrite app_assoc. rewrite insert_app_r_alt by list_lia.
    rewrite length_app, length_take, Hu. replace (79 - (x `min` length r + (79 - x)))%nat with 0%nat by lia.
    destruct (drop 79 r) as [|z [|z' l]] eqn:Ed; [apply (f_equal length) in Ed; list_lia| |apply (f_equal length) in Ed; list_lia]. cbn. by rewrite <- app_assoc. }
  unfold delete_char, edit_row. cbn [sc_x sc_y sc_rows]. rewrite <- Er. by apply stay_ok.
Qed.
End Screen.

(** ** The terminal with its escape sequences *)

Inductive mode := Text | Escape | Params (digits : buf).
Record term := Mk_term { t_screen : screen; t_color : Z; t_mode : mode }.

Definition digit (c : Z) : Prop := 48 <= c <= 57.
Definition number (ds : buf) (n : Z) : Z := fold_left (fun n d => n * 10 + (d - 48)) ds n.

(** Select graphic rendition: the colour after code [n]. *)
Definition color_after (color n : Z) : Z :=
  if n =? 0 then 15
  else if ((30 <=? n) && (n <=? 37)) || ((90 <=? n) && (n <=? 97)) then s8 (Z.lor (Z.land color 240) (ansi_to_vga_color color n))
  else color.

(** One character; [None]: the number of a sequence does not fit an [int]. *)
Definition spec_char (ch : Z) (t : term) : option term :=
  let go m := Some (Mk_term (t_screen t) (t_color t) m) in
  let print := Some (Mk_term (put_char (t_color t) ch (t_screen t)) (t_color t) Text) in
  match t_mode t with
  | Text => if ch =? 27 then go Escape else print
  | Escape => if ch =? 91 then go (Params []) else print
  | Params ds =>
      if (48 <=? ch) && (ch <=? 57) then go (Params (if (length ds <? 15)%nat then ds ++ [ch] else ds))
      else if ch =? 59 then go (Params ds)
      else if ch =? 109 then
        if number ds 0 <? 2 ^ 31 then Some (Mk_term (t_screen t) (color_after (t_color t) (number ds 0)) Text) else None
      else go Text
  end.

Fixpoint spec_text (text : buf) (t : term) : option term :=
  match text with
  | [] => Some t
  | c :: text' => match spec_char c t with Some t' => spec_text text' t' | None => None end
  end.

Lemma number_ge ds : Forall digit ds -> forall n, 0 <= n -> n <= number ds n.
Proof. induction 1 as [|d ds Hd _ IH]; intros n Hn; cbn; [lia|]. unfold digit in Hd. etransitivity; [|apply IH]; lia. Qed.

Lemma ansi_code_ok n : forall p c, (n <= length p)%nat -> Forall digit (take n p) -> 0 <= c < 2 ^ 31 ->
  ansi_code p n c = if number (take n p) c <? 2 ^ 31 then Some (number (take n p) c) else None.
Proof.
  induction n as [|n IH]; intros p c Hn Hd Hc.
  - cbn [ansi_code take number fold_left]. destruct p; cbn; by destruct (Z.ltb_spec c (2 ^ 31)); [|lia].
  - destruct p as [|d p]; [cbn in Hn; lia|]. cbn [take] in *. inversion_clear Hd. unfold digit in *. cbn in Hn.
    cbn [ansi_code]. change (number (d :: take n p) c) with (number (take n p) (c * 10 + (d - 48))). destruct (Z.ltb_spec (c * 10 + (d - 48)) (2 ^ 31)).
    + apply IH; [lia|done|lia].
    + pose proof (number_ge (take n p) ltac:(done) (c * 10 + (d - 48)) ltac:(lia)). by destruct (Z.ltb_spec (number (take n p) (c * 10 + (d - 48))) (2 ^ 31)); [lia|].
Qed.

Section Terminal.
Context {H : Type} `{Terminal H}.
Implicit Types (s : console H) (h : H).

Record ansi_ok s : Prop := Mk_ansi_ok {
  params_length : length (ansi_params s) = 16%nat;
  params_index : 0 <= ansi_param_idx s <= 15;
  params_digits : Forall digit (take (Z.to_nat (ansi_param_idx s)) (ansi_params s));
  state_range : 0 <= ansi_state s <= 2
}.
Definition con_ok s : Prop := screen_ok s /\ ansi_ok s.

Definition mode_of s : mode :=
  if ansi_state s =? 0 then Text else if ansi_state s =? 1 then Escape else Params (take (Z.to_nat (ansi_param_idx s)) (ansi_params s)).
Definition term_of s : term := Mk_term (screen_of s) (current_color s) (mode_of s).

Lemma drawn_ansi s s' : ansi_ok s -> drawn s s' -> ansi_ok s' /\ mode_of s' = mode_of s.
Proof.
  intros [] (_ & _ & E1 & E2 & E3 & _). unfold mode_of. rewrite E1, E2, E3. split; [|done]. split; rewrite ?E1, ?E2, ?E3; done.
Qed.

(** A digit behind those that are there. *)
Lemma push_digit_ok s ch : ansi_ok s -> digit ch -> ansi_param_idx s < 15 -> exists p q,
  wr (ansi_params s) (ansi_param_idx s) ch = Some q /\ wr q (ansi_param_idx s + 1) 0 = Some p /\
  take (Z.to_nat (ansi_param_idx s + 1)) p = take (Z.to_nat (ansi_param_idx s)) (ansi_params s) ++ [ch] /\ ansi_ok (with_ansi s 2 p (ansi_param_idx s + 1)).
Proof.
  intros [Hl Hi Hd Hst] Hch Hlt. unfold digit in Hch. set (i := Z.to_nat (ansi_param_idx s)) in *. replace (Z.to_nat (ansi_param_idx s + 1)) with (S i) by lia.
  exists (<[S i := 0]> (<[i := ch]> (ansi_params s))), (<[i := ch]> (ansi_params s)).
  assert (take (S i) (<[S i := 0]> (<[i := ch]> (ansi_params s))) = take i (ansi_params s) ++ [ch]) as Et.
  { rewrite take_insert_ge by lia. erewrite take_S_r by (apply list_lookup_insert_eq; lia). by rewrite take_insert_ge by lia. }
  split_and!; [| |done|].
  - unfold wr, blen. rewrite Hl, (proj2 (Z.leb_le _ _)), (proj2 (Z.ltb_lt _ _)) by lia. by rewrite wrap_small by lia.
  - unfold wr, blen. rewrite length_insert, Hl, (proj2 (Z.leb_le _ _)), (proj2 (Z.ltb_lt _ _)) by lia. cbn [andb]. by replace (Z.to_nat (ansi_param_idx s + 1)) with (S i) by lia.
  - split; cbn; [by rewrite !length_insert|lia| |lia]. replace (Z.to_nat (ansi_param_idx s + 1)) with (S i) by lia. rewrite Et. apply Forall_app. split; [done|]. by constructor.
Qed.

(** The step of the escape sequences changes no cell; it prints exactly when [spec_char] does. *)
Lemma ansi_step_ok s ch t : con_ok s -> byte_ok ch -> spec_char ch (term_of s) = Some t ->
  exists r s', ansi_step ch s = Some (r, s') /\ con_ok s' /\ con_hw s' = con_hw s /\ vga_buffer s' = vga_buffer s /\ (r = false -> ansi_state s' = 0) /\
    t = if r : bool then term_of s' else Mk_term (put_char (current_color s') ch (screen_of s')) (current_color s') Text.
Proof.
  intros [Hs Ha] Hch. pose proof Ha as [Hl Hi Hd Hst]. unfold spec_char, term_of. cbn [t_mode t_screen t_color].
  assert (forall st, 0 <= st <= 2 -> con_ok (with_ansi s st (ansi_params s) (ansi_param_idx s))) as Hset by (intros st ?; split; [by destruct Hs|by split]).
  unfold ansi_step. rewrite !gets_bind. unfold mode_of at 1. destruct (Z.eqb_spec (ansi_state s) 0) as [E0|].
  { cbn [andb]. destruct (Z.eqb_spec ch 27); intros [= <-].
    - eexists true, _. split; [done|]. split; [by apply Hset|]. done.
    - rewrite E0. eexists false, s. done. }
  cbn [andb]. destruct (Z.eqb_spec (ansi_state s) 1) as [E1|].
  { destruct (Z.eqb_spec ch 91); intros [= <-].
    - rewrite (lift_bind _ (<[0%nat := 0]> (ansi_params s))) by (unfold wr, blen; rewrite Hl; done). eexists true, _. split; [done|].
      split; [|done]. split; [by destruct Hs|]. split; cbn; [by rewrite length_insert|lia|done|lia].
    - eexists false, _. split; [done|]. split; [by apply Hset|]. done. }
  assert (ansi_state s = 2) as E2 by lia. rewrite E2. change (2 =? 2) with true. cbv iota.
  set (i := Z.to_nat (ansi_param_idx s)) in *. assert (length (take i (ansi_params s)) = i) as Hti by (rewrite length_take; lia). rewrite Hti.
  destruct ((48 <=? ch) && (ch <=? 57)) eqn:Edig.
  { intros [= <-]. apply andb_true_iff in Edig as [?%Z.leb_le ?%Z.leb_le]. destruct (Nat.ltb_spec i 15); destruct (Z.ltb_spec (ansi_param_idx s) 15); try lia.
    - destruct (push_digit_ok s ch Ha ltac:(unfold digit; lia) ltac:(lia)) as (p & q & Eq & Ep & Et & Ha').
      rewrite (lift_bind _ q), (lift_bind _ p) by done. eexists true, _. split; [done|]. unfold term_of, mode_of. cbn [ansi_state with_ansi ansi_param_idx ansi_params].
      rewrite Et. split; [|done]. split; [by destruct Hs|exact Ha'].
    - eexists true, s. split; [done|]. split; [by split|]. unfold term_of, mode_of. rewrite E2. done. }
  destruct (Z.eqb_spec ch 59).
  { intros [= <-]. eexists true, s. split; [done|]. split; [by split|]. unfold term_of, mode_of. rewrite E2. done. }
  destruct (Z.eqb_spec ch 109).
  - destruct (Z.ltb_spec (number (take i (ansi_params s)) 0) (2 ^ 31)) as [Hn|]; [|done]. intros [= <-].
    unfold set_ansi. rewrite modify_bind. rewrite (lift_bind _ (number (take i (ansi_params s)) 0)) by (rewrite ansi_code_ok by (done || lia); by rewrite (proj2 (Z.ltb_lt _ _))).
    set (code := number _ _). unfold sgr, set_color, color_after. rewrite bind_assoc, gets_bind. cbn [current_color with_ansi].
    assert (forall c, con_ok (with_color (with_ansi s 0 (ansi_params s) (ansi_param_idx s)) c)) as Hcol by (intros c; split; [by destruct Hs|by split]).
    repeat match goal with |- context [if ?b then _ else _] => destruct b; cbn [orb] end;
      (eexists true, _; split; [done|]; split; [first [apply Hcol | by apply Hset]|done]).
  - intros [= <-]. eexists true, _. split; [done|]. split; [by apply Hset|]. done.
Qed.

Lemma vga_write_char_ok fuel s ch t : con_ok s -> byte_ok ch -> (tx_max < fuel)%nat -> spec_char ch (term_of s) = Some t ->
  exists s', vga_write_char fuel ch s = Some (tt, s') /\ con_ok s' /\ term_of s' = t /\ sent (con_hw s') = sent (con_hw s) ++ [ch].
Proof.
  intros [Hs Ha] Hch Hf Ht. unfold vga_write_char, on_hw. destruct (serial_ok fuel ch Hf Hch (con_hw s) (serial_ready s Hs)) as (h & E & Ep & Es & Eb).
  erewrite bind_eq by (rewrite E; reflexivity). set (s1 := with_hw s h).
  assert (con_ok s1) as Hc1 by (split; [destruct Hs; split; cbn; [done|by rewrite Ep|done]|by destruct Ha; split]).
  assert (term_of s1 = term_of s) as E1 by (unfold term_of, screen_of; cbn; by rewrite Ep). rewrite <- E1 in Ht.
  destruct (ansi_step_ok s1 ch t Hc1 Hch Ht) as (r & s2 & E2 & Hc2 & Eh & Ec & Est & ->). rewrite (bind_eq _ _ _ _ _ E2). destruct r.
  - exists s2. split; [done|]. split; [done|]. split; [done|]. by rewrite Eh.
  - destruct (put_at_cursor_ok s2 ch (proj1 Hc2)) as (s3 & E3 & Hd & Hsc). exists s3. split; [done|].
    destruct (drawn_ansi s2 s3 (proj2 Hc2) Hd) as [Ha3 Em]. destruct Hd as (Hs3 & Hcol & _ & _ & _ & _ & _ & Hsent).
    split; [by split|]. split; [|by rewrite Hsent, Eh]. unfold term_of. rewrite Hsc, Hcol, Em. f_equal.
    unfold mode_of. by rewrite Est.
Qed.

Definition text_ok (text : buf) : Prop := Forall (fun c => byte_ok c /\ c <> 0) text.

Lemma display_write_ok fuel rest text : text_ok text -> (tx_max < fuel)%nat -> forall s t, con_ok s -> spec_text text (term_of s) = Some t ->
  exists s', display_write fuel (text ++ 0 :: rest) s = Some (tt, s') /\ con_ok s' /\ term_of s' = t /\ sent (con_hw s') = sent (con_hw s) ++ text.
Proof.
  intros Htx Hf. induction Htx as [|c text [Hc Hnz] _ IH]; intros s t Hs Ht; cbn [app spec_text display_write] in *.
  - injection Ht as <-. exists s. by rewrite app_nil_r.
  - destruct (spec_char c (term_of s)) as [t1|] eqn:E; [|done]. destruct (vga_write_char_ok fuel s c t1 Hs Hc Hf E) as (s1 & E1 & Hs1 & Et1 & Es1).
    destruct (Z.eqb_spec c 0); [done|]. rewrite (bind_eq _ _ _ _ _ E1). subst t1.
    destruct (IH s1 t Hs1 Ht) as (s2 & E2 & Hs2 & Et2 & Es2). exists s2. split_and!; [done..|]. by rewrite Es2, Es1, <- app_assoc.
Qed.
End Terminal.

(** Printable text on one row. *)
Definition printable (text : buf) : Prop := Forall (fun c => 32 <= c < 127) text.

Definition print_row (color : Z) (text : buf) (t : screen) : screen :=
  edit_row (fun r => blit r (sc_x t) (map (fun c => cell c color) text)) (sc_x t + length text) t.

Definition screen_wf (t : screen) : Prop := length (sc_rows t) = 25%nat /\ Forall (fun r => length r = 80%nat) (sc_rows t) /\ (sc_x t < 80)%nat /\ (sc_y t < 25)%nat.

Lemma alter_ext_wf t (f g : buf -> buf) : Forall (fun r => length r = 80%nat) (sc_rows t) -> (forall r, length r = 80%nat -> f r = g r) -> alter f (sc_y t) (sc_rows t) = alter g (sc_y t) (sc_rows t).
Proof. intros Hr E. apply list_alter_ext; [|done]. intros r Hl. apply E. by eapply (Forall_lookup_1 _ _ _ _ Hr). Qed.

Lemma spec_text_print text : printable text -> forall t, screen_wf (t_screen t) -> t_mode t = Text -> (sc_x (t_screen t) + length text < 80)%nat ->
  spec_text text t = Some (Mk_term (print_row (t_color t) text (t_screen t)) (t_color t) Text).
Proof.
  induction 1 as [|c text Hc _ IH]; intros [[rs x y] color m] (Hn & Hr & Hx & Hy) Hm Hlen; cbn [t_screen t_color t_mode sc_rows sc_x sc_y] in *; subst m.
  - cbn [spec_text]. unfold print_row, edit_row. cbn [sc_rows sc_x sc_y length map]. rewrite Nat.add_0_r.
    do 3 f_equal. rewrite (list_alter_ext _ id _ rs) by (done || (intros; apply blit_nil)). symmetry. by apply list_alter_id.
  - cbn [spec_text length] in *. unfold spec_char. cbn [t_mode t_screen t_color]. destruct (Z.eqb_spec c 27); [lia|].
    unfold put_char. destruct (Z.eqb_spec c 10); [lia|]. destruct (Z.eqb_spec c 13); [lia|]. cbn [sc_x sc_y sc_rows].
    destruct (Nat.ltb_spec (S x) 80); [|lia]. rewrite IH.
    + unfold print_row, edit_row. cbn [sc_rows sc_x sc_y t_screen t_color map length]. rewrite alter_alter. do 3 f_equal; [|lia].
      apply (alter_ext_wf (Mk_screen rs x y)); [done|]. intros r Hrl. apply blit_insert. rewrite length_map. lia.
    + unfold screen_wf. cbn. rewrite length_alter. split_and!; [done| |lia|lia]. apply Forall_alter; [done|]. intros r _ Hrl. by rewrite length_insert.
    + done.
    + cbn. lia.
Qed.

(** ** Hardware to try the driver on *)

Record vga_sim := Mk_vga { v_hi : Z; v_lo : Z; v_sel : Z; v_sent : buf; v_busy : nat }.

#[global] Instance vga_ports : Ports vga_sim := {|
  dev_inb p h :=
    if p =? 981 then ((if v_sel h =? 14 then u8 (v_hi h) else if v_sel h =? 15 then u8 (v_lo h) else 0), h)
    else if p =? 1021 then (if (v_busy h =? 0)%nat then 32 else 0, Mk_vga (v_hi h) (v_lo h) (v_sel h) (v_sent h) (v_busy h - 1))
    else (0, h);
  dev_outb p v h :=
    if p =? 980 then Mk_vga (v_hi h) (v_lo h) v (v_sent h) (v_busy h)
    else if p =? 981 then
      if v_sel h =? 14 then Mk_vga v (v_lo h) (v_sel h) (v_sent h) (v_busy h)
      else if v_sel h =? 15 then Mk_vga (v_hi h) v (v_sel h) (v_sent h) (v_busy h) else h
    else if p =? 1016 then Mk_vga (v_hi h) (v_lo h) (v_sel h) (v_sent h ++ [v]) 2
    else h;
  dev_insw _ n h := (replicate (2 * n) 0, h); dev_outsw _ _ h := h; dev_delay _ h := h
|}.

Lemma u8_byte v : byte_ok (u8 v).
Proof. apply (wrap_range 8). lia. Qed.

#[global, refine] Instance vga_terminal : Terminal vga_sim := {|
  crtc_reg h r := if r =? 14 then u8 (v_hi h) else if r =? 15 then u8 (v_lo h) else 0;
  crtc_sel := v_sel; sent := v_sent; tx_busy := v_busy; tx_max := 2 |}.
Proof.
  - intros h r. destruct (_ =? _); [apply u8_byte|]. destruct (_ =? _); [apply u8_byte|done].
  - done.
  - intros h v Hv [E|E]; cbn; rewrite E; cbn; (split_and!; [|done..]); intros r; rewrite (wrap_small 8 v Hv); by destruct (Z.eqb_spec r 14) as [->|]; [|destruct (Z.eqb_spec r 15) as [->|]].
  - intros h. eexists. split; [done|]. done.
  - intros h. cbn. eexists _, _. split; [done|]. split; [|done]. by destruct (v_busy h).
  - done.
Defined.

(** * Theorems *)

Section Theorems.
Context {H : Type} `{Terminal H}.
Implicit Types s : console H.

Lemma screen_of_wf s : screen_ok s -> screen_wf (screen_of s).
Proof.
  intros Hs. destruct (cursor_xy s Hs) as (x & y & Hx & Hy & _ & _ & _ & ->). pose proof (cells_2000 s Hs). split_and!; [apply length_rows| |done..].
  apply Forall_forall. intros r (i & -> & Hi%elem_of_seq)%list_elem_of_fmap. apply length_slice. lia.
Qed.

(** C40: Writing a string to the display is the terminal's specification applied to its
    characters: text goes into the rows at the cursor, lines wrap and the screen scrolls,
    escape sequences change the colour and are not printed, and every character is also
    sent on the serial port.  The cursor stays on the screen. *)
Theorem display_write_refines (fuel : nat) s (text rest : buf) (t : term) :
  con_ok s -> text_ok text -> (tx_max < fuel)%nat -> spec_text text (term_of s) = Some t ->
  exists s', display_write fuel (text ++ 0 :: rest) s = Some (tt, s') /\ con_ok s' /\ term_of s' = t /\ sent (con_hw s') = sent (con_hw s) ++ text.
Proof. intros. by apply display_write_ok. Qed.

(** The functions behind the shell's line editor do what their comments say to the row
    of the cursor, and change no other row, no colour and no escape sequence: a character
    is inserted with the rest of the line shifted right, deleted with the rest shifted
    left, the line or its rest is cleared, and the cursor moves within the row. *)
Theorem line_editing_refines :
  draws (H := H) vga_backspace erase_back /\ draws (H := H) vga_clear_line erase_line /\ draws (H := H) vga_clear_from_cursor erase_right /\
  draws (H := H) vga_move_cursor_left (fun _ => go_left) /\ draws (H := H) vga_move_cursor_right (fun _ => go_right) /\
  (forall ch, draws (H := H) (vga_insert_char_at_cursor ch) (fun color => insert_char color ch)) /\ draws (H := H) vga_delete_char_at_cursor delete_char /\
  draws (H := H) clear_screen (fun _ _ => Mk_screen (replicate 25 (replicate 80 (blank 15))) 0 0).
Proof.
  split_and!; [apply backspace_draws|apply clear_line_draws|apply clear_right_draws|apply left_draws|apply right_draws|apply insert_draws|apply delete_draws|apply clear_screen_draws].
Qed.

(** Printable text that fits stands in the row of the cursor, in the current colour. *)
Theorem printed_text (fuel : nat) s (text rest : buf) :
  con_ok s -> mode_of s = Text -> printable text -> (tx_max < fuel)%nat -> (sc_x (screen_of s) + length text < 80)%nat ->
  exists s', display_write fuel (text ++ 0 :: rest) s = Some (tt, s') /\ con_ok s' /\
    screen_of s' = print_row (current_color s) text (screen_of s) /\ current_color s' = current_color s.
Proof.
  intros Hs Hm Hp Hf Hl. pose proof (spec_text_print text Hp (term_of s) (screen_of_wf s (proj1 Hs)) Hm Hl) as E.
  destruct (display_write_ok fuel rest text) with (s := s) (3 := Hs) (4 := E) as (s' & E' & Hs' & Et & _).
  - eapply Forall_impl; [exact Hp|]. unfold byte_ok. cbn. lia.
  - done.
  - exists s'. split_and!; [done..| |]; [change (screen_of s') with (t_screen (term_of s'))|change (current_color s') with (t_color (term_of s'))]; by rewrite Et.
Qed.

(** An escape sequence whose number does not fit an [int] overflows: the behaviour of the
    code is undefined, while fifteen digits are accepted. *)
Theorem long_parameter_undefined (fuel : nat) s ds : con_ok s -> mode_of s = Params ds -> 2 ^ 31 <= number ds 0 -> vga_write_char fuel 109 s = None.
Proof.
  intros [Hs [Hl Hi Hd Hst]] Hm Hn. unfold mode_of in Hm. destruct (Z.eqb_spec (ansi_state s) 0); [done|]. destruct (Z.eqb_spec (ansi_state s) 1); [done|].
  injection Hm as <-. unfold vga_write_char, mbind, M_bind. destruct (on_hw _ s) as [[[] s1]|] eqn:E; [|done].
  unfold on_hw in E. destruct (serial_write_char _ _ _ _) as [[[] h]|]; [|done]. injection E as <-.
  unfold ansi_step. rewrite !gets_bind. cbn [ansi_state ansi_params ansi_param_idx with_hw console_machine].
  replace (ansi_state s) with 2 by lia. cbn. rewrite ansi_code_ok by (done || lia). by destruct (Z.ltb_spec (number (take (Z.to_nat (ansi_param_idx s)) (ansi_params s)) 0) (2 ^ 31)); [lia|].
Qed.
End Theorems.

(** A character from 128 on is a negative [char]: its sign bits fill the attribute byte, so
    it is shown blinking white on white whatever the current colour is. *)
Theorem high_character_attribute ch color : 128 <= ch < 256 -> cell ch color = 65280 + ch.
Proof.
  intros Hch. unfold cell. assert (s8 ch = ch - 256) as ->.
  { unfold swrap, wrap. change (2 ^ (8 - 1)) with 128. change (2 ^ 8) with 256. replace (ch + 128) with (ch - 128 + 1 * 256) by lia. rewrite Z.mod_add, Z.mod_small by lia. lia. }
  assert (u16 (ch - 256) = 65280 + ch) as ->.
  { unfold wrap. change (2 ^ 16) with 65536. replace (ch - 256) with (65280 + ch + (-1) * 65536) by lia. rewrite Z.mod_add, Z.mod_small by lia. done. }
  replace (65280 + ch) with (255 * 2 ^ 8 + ch) by lia. rewrite <- lor_shiftl_add by lia. apply Z.bits_inj'. intros i Hi. unfold wrap.
  assert (forall j, 8 <= j -> Z.testbit ch j = false) as Hc by (intros; apply (testbit_above ch 8); lia).
  assert (forall j, Z.testbit 255 j = (0 <=? j) && (j <? 8)) as H255 by (intros j; change 255 with (Z.ones 8); apply Z.testbit_ones; lia).
  destruct (Z.ltb_spec i 16).
  - rewrite Z.mod_pow2_bits_low, !Z.lor_spec, !Z.shiftl_spec, H255 by lia. destruct (Z.ltb_spec i 8).
    + rewrite (Z.testbit_neg_r color) by lia. by rewrite orb_false_r.
    + rewrite (proj2 (Z.leb_le _ _)), (proj2 (Z.ltb_lt _ _)) by lia. done.
  - rewrite Z.mod_pow2_bits_high, Z.lor_spec, Z.shiftl_spec, H255, Hc, (proj2 (Z.ltb_ge (i - 8) 8)) by lia. by rewrite andb_false_r.
Qed.

(** ** Witnesses *)

Definition boot_console : console vga_sim := Mk_console (Mk_vga 0 0 0 [] 0) (replicate VGA_CELLS 0) 15 0 (replicate 16 0) 0 0 0.

Lemma boot_console_ok : con_ok boot_console.
Proof. split; [split; [apply length_replicate|done|cbn; lia]|split; cbn; [done|lia|constructor|lia]]. Qed.

(** [ESC[31mHi] and a line feed. *)
Definition red_hi : buf := [27; 91; 51; 49; 109; 72; 105; 10].
Definition after_red_hi : term := default (term_of boot_console) (spec_text red_hi (term_of boot_console)).

Lemma red_hi_spec : spec_text red_hi (term_of boot_console) = Some after_red_hi.
Proof. unfold after_red_hi. destruct (spec_text red_hi _) eqn:E; [done|]. vm_compute in E. discriminate. Qed.

Lemma display_write_refines_witness :
  exists s', display_write 3 (red_hi ++ [0]) boot_console = Some (tt, s') /\ term_of s' = after_red_hi /\ v_sent (con_hw s') = red_hi.
Proof.
  destruct (display_write_refines 3 boot_console red_hi [] after_red_hi) as (s' & E & _ & Et & Es).
  - exact boot_console_ok.
  - repeat constructor; done.
  - cbn. lia.
  - exact red_hi_spec.
  - exists s'. split; [exact E|]. split; [exact Et|exact Es].
Defined.

(** What that shows: the two letters in red, the cursor on the second line. *)
Example red_hi_shown : t_color after_red_hi = 4 /\ (sc_x (t_screen after_red_hi), sc_y (t_screen after_red_hi)) = (0%nat, 1%nat) /\
  take 3 (default [] (sc_rows (t_screen after_red_hi) !! 0%nat)) = [4 * 256 + 72; 4 * 256 + 105; 0].
Proof. vm_compute. done. Qed.

Lemma line_editing_refines_witness : exists s', vga_insert_char_at_cursor 65 boot_console = Some (tt, s') /\ sc_x (screen_of s') = 1%nat.
Proof.
  destruct line_editing_refines as (_ & _ & _ & _ & _ & Hi & _). destruct (Hi 65 boot_console (proj1 boot_console_ok)) as (s' & E & _ & Es).
  exists s'. split; [exact E|]. rewrite Es. reflexivity.
Defined.

Definition in_sequence : console vga_sim :=
  Mk_console (Mk_vga 0 0 0 [] 0) (replicate VGA_CELLS 0) 15 2 (replicate 10 57 ++ replicate 6 0) 10 0 0.
Lemma long_parameter_undefined_witness : vga_write_char 3 109 in_sequence = None.
Proof.
  apply (long_parameter_undefined 3 in_sequence (replicate 10 57)).
  - split; [split; [apply length_replicate|done|cbn; lia]|split; cbn; [done|lia|repeat constructor; unfold digit; lia|lia]].
  - reflexivity.
  - vm_compute. discriminate.
Defined.
