(* ===== verification/History.v ===== *)
(** The command history of kernel/shell/command.c: a ring of 50 lines with a browsing
    position.

    [history] is the variables of the C code.  [newest_first] reads them as the list of the
    lines, newest first, and the theorems show that adding and browsing are operations on
    that list. *)

From S2P Require Import Prelude CString Vfs.

Definition HISTORY_SIZE : Z := 50.
Definition HISTORY_LINE_MAX : Z := 256.

Record history := Mk_history {
  history_buffer : list buf;            (* HISTORY_SIZE lines of HISTORY_LINE_MAX bytes *)
  history_count : Z; history_index : Z;
  history_current : Z                   (* -1: not browsing *)
}.

Definition line_at (h : history) (i : Z) : option buf := if 0 <=? i then history_buffer h !! Z.to_nat i else None.
Definition with_current (h : history) (c : Z) : history := Mk_history (history_buffer h) (history_count h) (history_index h) c.

(** [cmd = None] is NULL. *)
Definition history_add (h : history) (cmd : option buf) : option history :=
  match cmd with
  | None => Some h
  | Some cmd =>
      c0 ← rd cmd 0;
      if c0 =? 0 then Some h else
      same ← (if 0 <? history_count h then
                l ← line_at h (Z.rem (history_index h - 1 + HISTORY_SIZE) HISTORY_SIZE);
                z ← strcmp l cmd; Some (z =? 0)
              else Some false);
      if same : bool then Some h else
      l ← line_at h (history_index h);
      l ← strncpy l cmd (Z.to_nat (HISTORY_LINE_MAX - 1));
      l ← wr l (HISTORY_LINE_MAX - 1) 0;
      Some (Mk_history (<[Z.to_nat (history_index h) := l]> (history_buffer h))
              (if history_count h <? HISTORY_SIZE then history_count h + 1 else history_count h)
              (Z.rem (history_index h + 1) HISTORY_SIZE) (-1))
  end.

(** The result [None] inside is NULL. *)
Definition history_get_prev (h : history) : option (option buf * history) :=
  if history_count h =? 0 then Some (None, h) else
  if history_current h =? -1 then
    let c := Z.rem (history_index h - 1 + HISTORY_SIZE) HISTORY_SIZE in
    l ← line_at h c; Some (Some l, with_current h c)
  else
    let prev := Z.rem (history_current h - 1 + HISTORY_SIZE) HISTORY_SIZE in
    let oldest := Z.rem (history_index h - history_count h + HISTORY_SIZE) HISTORY_SIZE in
    if history_current h =? oldest then Some (None, h) else
    l ← line_at h prev; Some (Some l, with_current h prev).

Definition history_get_next (h : history) : option (option buf * history) :=
  if (history_current h =? -1) || (history_count h =? 0) then Some (None, h) else
  let newest := Z.rem (history_index h - 1 + HISTORY_SIZE) HISTORY_SIZE in
  if history_current h =? newest then Some (Some [0], with_current h (-1)) else
  let c := Z.rem (history_current h + 1) HISTORY_SIZE in
  l ← line_at h c; Some (Some l, with_current h c).

Definition history_reset (h : history) : history := with_current h (-1).

(** The lines that [history_list] prints after its title, oldest first, with their numbers. *)
Fixpoint list_loop (h : history) (start i : Z) (n : nat) : option (list (Z * buf)) :=
  match n with
  | O => Some []
  | S n' =>
      l ← line_at h (Z.rem (start + i) HISTORY_SIZE);
      rest ← list_loop h start (i + 1) n';
      Some ((i + 1, l) :: rest)
  end.
Definition history_list (h : history) : option (list (Z * buf)) :=
  if history_count h =? 0 then Some []
  else list_loop h (Z.rem (history_index h - history_count h + HISTORY_SIZE) HISTORY_SIZE) 0 (Z.to_nat (history_count h)).

(** * Properties *)

Record history_ok (h : history) : Prop := Mk_history_ok {
  lines_fifty : length (history_buffer h) = 50%nat;
  lines_strings : Forall (fun l => length l = 256%nat /\ terminated l) (history_buffer h);
  count_range : 0 <= history_count h <= 50;
  index_range : 0 <= history_index h < 50;
  current_range : history_current h = -1 \/ exists k, 0 <= k < history_count h /\ history_current h = (history_index h - 1 - k) mod 50
}.

(** The line [k] before the next free slot. *)
Definition nth_last (h : history) (k : Z) : buf := cstr (default [] (history_buffer h !! Z.to_nat ((history_index h - 1 - k) mod 50))).
(** The lines, newest first. *)
Definition newest_first (h : history) : list buf := map (fun k => nth_last h (Z.of_nat k)) (seq 0 (Z.to_nat (history_count h))).
(** How many lines back the browsing position is. *)
Definition browsing (h : history) : option nat :=
  if history_current h =? -1 then None else Some (Z.to_nat ((history_index h - 1 - history_current h) mod 50)).

Lemma length_newest h : length (newest_first h) = Z.to_nat (history_count h).
Proof. unfold newest_first. by rewrite length_map, length_seq. Qed.

Lemma lookup_newest h k : history_ok h -> (k < Z.to_nat (history_count h))%nat -> newest_first h !! k = Some (nth_last h (Z.of_nat k)).
Proof. intros Hh Hk. unfold newest_first. by rewrite list_lookup_fmap, lookup_seq_lt. Qed.

(** The code's [%] on a sum that is not negative. *)
Lemma rem_slot a : 0 <= a + 50 -> Z.rem (a + HISTORY_SIZE) HISTORY_SIZE = a mod 50.
Proof. intros. unfold HISTORY_SIZE. rewrite Z.rem_mod_nonneg by lia. replace (a + 50) with (a + 1 * 50) by lia. by rewrite Z.mod_add. Qed.

Lemma line_at_ok h i : history_ok h -> 0 <= i < 50 -> exists l, line_at h i = Some l /\ history_buffer h !! Z.to_nat i = Some l /\ length l = 256%nat /\ terminated l.
Proof.
  intros [Hl Hs _ _ _] Hi. destruct (lookup_lt_is_Some_2 (history_buffer h) (Z.to_nat i)) as [l E]; [lia|]. exists l.
  unfold line_at. rewrite (proj2 (Z.leb_le 0 i)) by lia. destruct (Forall_lookup_1 _ _ _ _ Hs E). done.
Qed.

Lemma line_nth h k : history_ok h -> exists l, line_at h ((history_index h - 1 - k) mod 50) = Some l /\ cstr l = nth_last h k /\ terminated l.
Proof.
  intros Hh. destruct (line_at_ok h ((history_index h - 1 - k) mod 50) Hh) as (l & E & E' & _ & Ht); [zlia|].
  exists l. unfold nth_last. by rewrite E'.
Qed.

Lemma terminated_head l : terminated l -> exists c, rd l 0 = Some c /\ (c =? 0) = bool_decide (cstr l = []).
Proof.
  intros (s & r & Hs & ->). rewrite cstr_app by done. destruct s as [|c s]; [by exists 0|]. exists c. split; [done|].
  apply nonul_cons in Hs as [Hc _]. rewrite bool_decide_false by done. apply Z.eqb_neq. lia.
Qed.

Lemma strcmp_strings l cmd : terminated l -> terminated cmd -> exists z, strcmp l cmd = Some z /\ (z =? 0) = bool_decide (cstr l = cstr cmd).
Proof. intros (s & r & Hs & ->) (t & r' & Ht & ->). rewrite !cstr_app by done. by apply strcmp_eq. Qed.

(** The slot that is written is the oldest, or free. *)
Lemma slot_distinct i k : 0 <= i < 50 -> 0 <= k < 49 -> (i - 1 - k) mod 50 <> i.
Proof. intros Hi Hk E. zlia. Qed.

Lemma index_step i : 0 <= i < 50 -> Z.rem (i + 1) HISTORY_SIZE = (i + 1) mod 50.
Proof. intros. unfold HISTORY_SIZE. by rewrite Z.rem_mod_nonneg by lia. Qed.

Lemma nth_last_stored h l c k : history_ok h -> 0 <= k < 50 ->
  nth_last (Mk_history (<[Z.to_nat (history_index h) := l]> (history_buffer h)) c ((history_index h + 1) mod 50) (-1)) k =
    if k =? 0 then cstr l else nth_last h (k - 1).
Proof.
  intros [Hl _ _ Hi _] Hk. unfold nth_last. cbn [history_index history_buffer].
  destruct (Z.eqb_spec k 0) as [->|].
  - replace (((history_index h + 1) mod 50 - 1 - 0) mod 50) with (history_index h) by zlia. by rewrite list_lookup_insert_eq by lia.
  - replace (((history_index h + 1) mod 50 - 1 - k) mod 50) with ((history_index h - 1 - (k - 1)) mod 50) by zlia.
    rewrite list_lookup_insert_ne; [done|]. pose proof (slot_distinct (history_index h) (k - 1) ltac:(lia) ltac:(lia)). zlia.
Qed.

(** Adding a line to the list. *)
Definition push_line (t : buf) (l : list buf) : list buf :=
  if bool_decide (t = []) || bool_decide (l !! 0%nat = Some t) then l else take 50 (take 255 t :: l).

Lemma newest_stored h l t : history_ok h -> cstr l = t ->
  let c := if history_count h <? HISTORY_SIZE then history_count h + 1 else history_count h in
  newest_first (Mk_history (<[Z.to_nat (history_index h) := l]> (history_buffer h)) c ((history_index h + 1) mod 50) (-1)) = take 50 (t :: newest_first h).
Proof.
  intros Hh El c. pose proof Hh as [_ _ Hc Hi _].
  assert (0 < c <= 50 /\ Z.to_nat c = Nat.min 50 (S (Z.to_nat (history_count h)))) as [Hcr Hcn] by (unfold c, HISTORY_SIZE; destruct (Z.ltb_spec (history_count h) 50); lia).
  apply list_eq. intros k. destruct (decide (k < Z.to_nat c)%nat) as [Hk|Hk].
  - unfold newest_first at 1. cbn [history_count]. rewrite list_lookup_fmap, lookup_seq_lt by done. cbn [fmap option_fmap option_map Nat.add].
    rewrite nth_last_stored by (done || lia). rewrite lookup_take_lt by lia. destruct k as [|k]; [by rewrite El|].
    destruct (Z.eqb_spec (Z.of_nat (S k)) 0); [lia|]. cbn [lookup list_lookup]. rewrite lookup_newest by (done || lia). do 2 f_equal. lia.
  - rewrite !lookup_ge_None_2; [done| |by rewrite length_newest; cbn; lia]. rewrite length_take. cbn [length]. rewrite length_newest. lia.
Qed.

Lemma history_add_ok h cmd : history_ok h -> terminated cmd ->
  exists h', history_add h (Some cmd) = Some h' /\ history_ok h' /\ newest_first h' = push_line (cstr cmd) (newest_first h).
Proof.
  intros Hh Ht. pose proof Hh as [Hl Hs Hc Hi Hcur]. unfold history_add, push_line. destruct (terminated_head cmd Ht) as (c0 & -> & E0). cbn [mbind option_bind]. rewrite E0.
  destruct (bool_decide (cstr cmd = [])) eqn:Eb; [by exists h|]. cbn [orb].
  assert (forall b, (same ← (if 0 <? history_count h then l ← line_at h (Z.rem (history_index h - 1 + HISTORY_SIZE) HISTORY_SIZE); z ← strcmp l cmd; Some (z =? 0) else Some false); b same)
    = b (bool_decide (newest_first h !! 0%nat = Some (cstr cmd))) :> option history) as ->.
  { intros b. destruct (Z.ltb_spec 0 (history_count h)).
    - rewrite rem_slot by lia. destruct (line_nth h 0 Hh) as (l & El & En & Htl). rewrite Z.sub_0_r in El. rewrite El. cbn [mbind option_bind].
      destruct (strcmp_strings l cmd Htl Ht) as (z & Ez & Eq). rewrite Ez. cbn [mbind option_bind]. rewrite Eq, En, lookup_newest by (done || lia). f_equal. apply bool_decide_ext. change (Z.of_nat 0) with 0. split; congruence.
    - cbn [mbind option_bind]. rewrite bool_decide_false; [done|]. rewrite lookup_ge_None_2; [done|]. rewrite length_newest. lia. }
  destruct (bool_decide (newest_first h !! 0%nat = _)); [by exists h|].
  destruct (line_at_ok h (history_index h) Hh Hi) as (l & -> & _ & Hll & _). cbn [mbind option_bind]. destruct Ht as (s & r & Hn & ->). rewrite cstr_app by done.
  change (Z.to_nat (HISTORY_LINE_MAX - 1)) with 255%nat. destruct (store_name l s r 255 Hn Hll) as (b & Est & Hbl & Hbt & Hbc).
  change (HISTORY_LINE_MAX - 1) with (Z.of_nat 255). destruct (strncpy l (s ++ 0 :: r) 255) as [x|]; [|done]. cbn [mbind option_bind] in *. rewrite Est.
  eexists. split; [done|]. rewrite index_step by done. split; [|by apply newest_stored].
  split; cbn; [by rewrite length_insert|by apply Forall_insert|unfold HISTORY_SIZE; destruct (Z.ltb_spec (history_count h) 50); lia|zlia|by left].
Qed.

(** ** Browsing *)

(** Going back or forth one line, on the list of lines and the position in it. *)
Definition browse_prev (l : list buf) (pos : option nat) : option buf * option nat :=
  let k := match pos with None => O | Some k => S k end in
  match l !! k with Some t => (Some t, Some k) | None => (None, pos) end.
Definition browse_next (l : list buf) (pos : option nat) : option buf * option nat :=
  match pos with None => (None, None) | Some O => (Some [], None) | Some (S k) => (l !! k, Some k) end.

(** [r] and [h'] are what [f] gives on the list. *)
Definition browses (f : list buf -> option nat -> option buf * option nat) (h : history) (res : option (option buf * history)) : Prop :=
  exists r h', res = Some (r, h') /\ history_ok h' /\ newest_first h' = newest_first h /\
    (option_map cstr r, browsing h') = f (newest_first h) (browsing h).

Lemma back_slot i k : 0 <= i < 50 -> 0 <= k < 50 -> (i - 1 - (i - 1 - k) mod 50) mod 50 = k.
Proof. intros. zlia. Qed.

Lemma at_slot h k : history_ok h -> 0 <= k < history_count h ->
  let h' := with_current h ((history_index h - 1 - k) mod 50) in
  history_ok h' /\ newest_first h' = newest_first h /\ browsing h' = Some (Z.to_nat k) /\
  exists l, line_at h ((history_index h - 1 - k) mod 50) = Some l /\ newest_first h !! Z.to_nat k = Some (cstr l).
Proof.
  intros Hh Hk h'. pose proof Hh as [Hl Hs Hc Hi _]. split_and!; [split; try done; right; by exists k|done| |].
  - unfold browsing. cbn. destruct (Z.eqb_spec ((history_index h - 1 - k) mod 50) (-1)); [zlia|]. by rewrite back_slot by lia.
  - destruct (line_nth h k Hh) as (l & E & En & _). exists l. split; [done|]. rewrite lookup_newest by (done || lia). rewrite Z2Nat.id by lia. by rewrite En.
Qed.

Lemma browsing_cases h : history_ok h -> (history_current h = -1 /\ browsing h = None) \/
  exists k, 0 <= k < history_count h /\ history_current h = (history_index h - 1 - k) mod 50 /\ history_current h <> -1 /\ browsing h = Some (Z.to_nat k).
Proof.
  intros Hh. pose proof Hh as [_ _ Hc Hi [E|(k & Hk & E)]]; [left; unfold browsing; by rewrite E|]. right. exists k. destruct (at_slot h k Hh Hk) as (_ & _ & Hb & _).
  unfold browsing in *. cbn in Hb. rewrite E. split_and!; [lia..|zlia|done].
Qed.

Lemma prev_ok h : history_ok h -> browses browse_prev h (history_get_prev h).
Proof.
  intros Hh. pose proof Hh as [_ _ Hc Hi _]. unfold browses, history_get_prev, browse_prev.
  assert (forall k, (Z.to_nat (history_count h) <= k)%nat -> newest_first h !! k = None) as Hout by (intros; apply lookup_ge_None_2; by rewrite length_newest).
  destruct (browsing_cases h Hh) as [[E Eb]|(k & Hk & E & Hne & Eb)]; rewrite Eb.
  - destruct (Z.eqb_spec (history_count h) 0) as [E0|]; [exists None, h; rewrite Hout, Eb by lia; done|]. rewrite E, rem_slot by lia. cbn [Z.eqb Pos.eqb].
    destruct (at_slot h 0 Hh ltac:(lia)) as (Hok & Hn & Hb & l & El & En). rewrite Z.sub_0_r in *. rewrite El. cbn [mbind option_bind]. eexists _, _. split; [done|].
    split_and!; [done..|]. rewrite Hb. change (Z.to_nat 0) with 0%nat in *. by rewrite En.
  - destruct (Z.eqb_spec (history_count h) 0); [lia|]. destruct (Z.eqb_spec (history_current h) (-1)); [done|].
    replace (history_index h - history_count h + HISTORY_SIZE) with (history_index h - 1 - (history_count h - 1) + HISTORY_SIZE) by lia. rewrite !rem_slot by zlia. rewrite E.
    destruct (Z.eqb_spec ((history_index h - 1 - k) mod 50) ((history_index h - 1 - (history_count h - 1)) mod 50)) as [Ek|Ek].
    + assert (k = history_count h - 1) by zlia. exists None, h. rewrite Hout, Eb by lia. done.
    + assert (k <> history_count h - 1) by (intros ->; done). replace (((history_index h - 1 - k) mod 50 - 1) mod 50) with ((history_index h - 1 - (k + 1)) mod 50) by zlia.
      destruct (at_slot h (k + 1) Hh ltac:(lia)) as (Hok & Hn & Hb & l & El & En). rewrite El. cbn [mbind option_bind]. eexists _, _. split; [done|].
      split_and!; [done..|]. rewrite Hb. replace (Z.to_nat (k + 1)) with (S (Z.to_nat k)) in * by lia. by rewrite En.
Qed.

Lemma next_ok h : history_ok h -> browses browse_next h (history_get_next h).
Proof.
  intros Hh. pose proof Hh as [_ _ Hc Hi _]. unfold browses, history_get_next, browse_next.
  destruct (browsing_cases h Hh) as [[E Eb]|(k & Hk & E & Hne & Eb)]; rewrite Eb.
  - rewrite E. cbn [Z.eqb Pos.eqb orb]. exists None, h. by rewrite Eb.
  - destruct (Z.eqb_spec (history_count h) 0); [lia|]. destruct (Z.eqb_spec (history_current h) (-1)); [done|]. cbn [orb].
    rewrite rem_slot by lia. rewrite E. destruct (Z.eqb_spec ((history_index h - 1 - k) mod 50) ((history_index h - 1) mod 50)) as [Ek|Ek].
    + assert (k = 0) as -> by zlia. eexists _, _. split; [done|]. cbn [Z.to_nat]. split_and!; [|done..]. destruct Hh. split; try done. by left.
    + assert (k <> 0) by (intros ->; rewrite Z.sub_0_r in Ek; done). rewrite index_step by zlia.
      replace (((history_index h - 1 - k) mod 50 + 1) mod 50) with ((history_index h - 1 - (k - 1)) mod 50) by zlia.
      destruct (at_slot h (k - 1) Hh ltac:(lia)) as (Hok & Hn & Hb & l & El & En). rewrite El. cbn [mbind option_bind]. eexists _, _. split; [done|].
      split_and!; [done..|]. rewrite Hb. destruct (Z.to_nat k) as [|k'] eqn:Ek'; [lia|]. replace (Z.to_nat (k - 1)) with k' in * by lia. by rewrite En.
Qed.

(** ** Listing *)

Lemma list_loop_ok h n : forall i, history_ok h -> 0 <= i -> i + Z.of_nat n = history_count h ->
  exists l, list_loop h ((history_index h - history_count h) mod 50) i n = Some l /\
    map (fun p => cstr (snd p)) l = map (fun j => nth_last h (Z.of_nat (n - 1 - j))) (seq 0 n) /\ map fst l = map (fun j => i + 1 + Z.of_nat j) (seq 0 n).
Proof.
  induction n as [|n IH]; intros i Hh Hi Hn; cbn [list_loop]; [by exists []|]. pose proof Hh as [_ _ Hc Hx _].
  unfold HISTORY_SIZE. rewrite Z.rem_mod_nonneg by zlia.
  replace (((history_index h - history_count h) mod 50 + i) mod 50) with ((history_index h - 1 - Z.of_nat n) mod 50) by zlia.
  destruct (line_nth h (Z.of_nat n) Hh) as (x & -> & Ex & _). destruct (IH (i + 1) Hh ltac:(lia) ltac:(lia)) as (l & -> & El & En).
  eexists. split; [done|]. cbn [map seq fst snd]. rewrite El, En, Ex, <- seq_shift, !map_map. split.
  - f_equal; [f_equal; lia|]. apply map_ext. intros j. do 2 f_equal. lia.
  - f_equal; [lia|]. apply map_ext. intros j. lia.
Qed.

Lemma newest_rev h : reverse (newest_first h) = map (fun j => nth_last h (Z.of_nat (Z.to_nat (history_count h) - 1 - j))) (seq 0 (Z.to_nat (history_count h))).
Proof.
  unfold newest_first. generalize (Z.to_nat (history_count h)) as n. intros n. induction n as [|n IH]; [done|].
  rewrite seq_S at 1. rewrite map_app, reverse_app, IH. cbn [map seq Nat.add app]. rewrite <- seq_shift, map_map. cbn. f_equal; [f_equal; lia|].
  apply map_ext. intros j. do 2 f_equal. lia.
Qed.

(** [history_list] prints every line once, oldest first, numbered from 1. *)
Theorem history_list_ok h : history_ok h ->
  exists l, history_list h = Some l /\ map (fun p => cstr (snd p)) l = reverse (newest_first h) /\ map fst l = map (fun j => 1 + Z.of_nat j) (seq 0 (length l)).
Proof.
  intros Hh. pose proof Hh as [_ _ Hc Hx _]. unfold history_list. destruct (Z.eqb_spec (history_count h) 0) as [E|].
  - exists []. split; [done|]. unfold newest_first. by rewrite E.
  - rewrite rem_slot by lia. destruct (list_loop_ok h (Z.to_nat (history_count h)) 0 Hh ltac:(lia) ltac:(lia)) as (l & -> & El & En).
    exists l. split; [done|]. rewrite newest_rev. split; [done|]. rewrite En. apply (f_equal length) in En. rewrite !length_map, length_seq in En. by rewrite En.
Qed.

(** * Theorems *)

(** C13: The ring of lines is the list of the last fifty commands: adding puts a line in
    front unless it is empty or the same as the last one, and drops the oldest when the
    ring is full; going back and forth walks along that list, stops at the oldest line,
    and leaves the history with an empty line after the newest. *)
Theorem history_refines (h : history) (cmd : buf) : history_ok h -> terminated cmd ->
  (exists h', history_add h (Some cmd) = Some h' /\ history_ok h' /\ newest_first h' = push_line (cstr cmd) (newest_first h)) /\
  browses browse_prev h (history_get_prev h) /\ browses browse_next h (history_get_next h).
Proof. intros Hh Ht. split; [by apply history_add_ok|]. split; [by apply prev_ok|by apply next_ok]. Qed.

Definition no_history : history := Mk_history (replicate 50 (replicate 256 0)) 0 0 (-1).
Lemma no_history_ok : history_ok no_history.
Proof.
  split; [done| |cbn; lia|cbn; lia|by left]. unfold no_history, history_buffer. apply Forall_replicate. split; [done|]. exists [], (replicate 255 0). split; [constructor|reflexivity].
Qed.

Lemma history_refines_witness :
  (exists h', history_add no_history (Some [108; 115; 0]) = Some h' /\ history_ok h' /\ newest_first h' = [[108; 115]]) /\
  browses browse_prev no_history (history_get_prev no_history).
Proof.
  destruct (history_refines no_history [108; 115; 0]) as [Ha [Hp _]].
  - exact no_history_ok.
  - exists [108; 115], []. split; [repeat constructor; lia|reflexivity].
  - split; [exact Ha|exact Hp].
Defined.
