(* ===== verification/Kb.v ===== *)
(** drivers/char/kb.c: the PS/2 keyboard driver.

    The interrupt handler turns scan codes (set 1) into characters in a ring buffer,
    which the readers empty; the serial port is a second source of characters.  The
    state of the driver is the record [kb] with the hardware in it, [kb_handler] is one
    keyboard interrupt.  A reader that waits for input is given a schedule: how many
    keyboard interrupts arrive before each round of its loop.  The queue operations run
    with interrupts off, and an interrupt between the test for an empty queue and the
    removal could only append. *)

From S2P Require Import Prelude CString Spinlock Effects Ports.

(** ** Constants *)

Definition KEYBOARD_DATA_PORT : Z := 96.
Definition SC_MAX : Z := 89.
Definition INPUT_QUEUE_SIZE : Z := 256.
Definition BUFFER_SIZE : Z := 128.
Definition SC_EXTENDED_PREFIX : Z := 224.
Definition SC_PAUSE_PREFIX : Z := 225.
Definition SC_RELEASE_MASK : Z := 128.
Definition SC_LEFT_SHIFT : Z := 42.
Definition SC_RIGHT_SHIFT : Z := 54.
Definition SC_LEFT_CTRL : Z := 29.
Definition SC_LEFT_ALT : Z := 56.
Definition SC_CAPS_LOCK : Z := 58.
Definition SC_NUM_LOCK : Z := 69.
Definition SC_SCROLL_LOCK : Z := 70.
Definition SC_BACKSPACE : Z := 14.
Definition SC_ENTER : Z := 28.
Definition SC_EXT_RIGHT_CTRL : Z := 29.
Definition SC_EXT_RIGHT_ALT : Z := 56.
Definition SERIAL_COM1 : Z := 1016.

(** The keys behind the prefix E0 whose code is passed on: up, down, left, right, home,
    end, page up, page down, insert, delete; each keeps its scan code. *)
Definition special_keys : list Z := [72; 80; 75; 77; 71; 79; 73; 81; 82; 83].

Definition scancode_to_char : buf :=
  [0; 0; 49; 50; 51; 52; 53; 54; 55; 56;
   57; 48; 45; 61; 8; 9; 113; 119; 101; 114;
   116; 121; 117; 105; 111; 112; 91; 93; 10; 0;
   97; 115; 100; 102; 103; 104; 106; 107; 108; 59;
   39; 96; 0; 92; 122; 120; 99; 118; 98; 110;
   109; 44; 46; 47; 0; 42; 0; 32; 0; 0;
   0; 0; 0; 0; 0; 0; 0; 0; 0; 0;
   0; 0; 55; 56; 57; 45; 52; 53; 54; 43;
   49; 50; 51; 48; 46; 0; 0; 0; 0].

Definition scancode_to_char_shift : buf :=
  [0; 0; 33; 64; 35; 36; 37; 94; 38; 42;
   40; 41; 95; 43; 8; 9; 81; 87; 69; 82;
   84; 89; 85; 73; 79; 80; 123; 125; 10; 0;
   65; 83; 68; 70; 71; 72; 74; 75; 76; 58;
   34; 126; 0; 124; 90; 88; 67; 86; 66; 78;
   77; 60; 62; 63; 0; 42; 0; 32; 0; 0;
   0; 0; 0; 0; 0; 0; 0; 0; 0; 0;
   0; 0; 55; 56; 57; 45; 52; 53; 54; 43;
   49; 50; 51; 48; 46; 0; 0; 0; 0].

(** ** State *)

Record kbd_state_t := Mk_kbd {
  shift_left : bool; shift_right : bool; ctrl_left : bool; ctrl_right : bool; alt_left : bool; alt_right : bool;
  caps_lock : bool; num_lock : bool; scroll_lock : bool; extended : bool
}.

Record kb (H : Type) := Mk_kb {
  kb_hw : H;
  kbd_state : kbd_state_t;
  input_queue : buf; input_queue_head : Z; input_queue_tail : Z;
  input_queue_lock : irq_lock;
  buffer_index : Z;
  enter_pressed : bool;
  echo : buf                       (* the characters passed to vga_write_char, which Video.v models *)
}.
Arguments Mk_kb {H}. Arguments kb_hw {H}. Arguments kbd_state {H}. Arguments input_queue {H}. Arguments input_queue_head {H}.
Arguments input_queue_tail {H}. Arguments input_queue_lock {H}. Arguments buffer_index {H}. Arguments enter_pressed {H}. Arguments echo {H}.

#[global] Instance kb_machine H : Machine (kb H) H := {|
  hw := kb_hw;
  with_hw s h := Mk_kb h (kbd_state s) (input_queue s) (input_queue_head s) (input_queue_tail s) (input_queue_lock s) (buffer_index s) (enter_pressed s) (echo s)
|}.

Definition with_kbd {H} (f : kbd_state_t -> kbd_state_t) (s : kb H) : kb H :=
  Mk_kb (kb_hw s) (f (kbd_state s)) (input_queue s) (input_queue_head s) (input_queue_tail s) (input_queue_lock s) (buffer_index s) (enter_pressed s) (echo s).
Definition with_queue {H} (s : kb H) (q : buf) (h t : Z) : kb H :=
  Mk_kb (kb_hw s) (kbd_state s) q h t (input_queue_lock s) (buffer_index s) (enter_pressed s) (echo s).
Definition with_lock {H} (s : kb H) (l : irq_lock) : kb H :=
  Mk_kb (kb_hw s) (kbd_state s) (input_queue s) (input_queue_head s) (input_queue_tail s) l (buffer_index s) (enter_pressed s) (echo s).
Definition with_index {H} (s : kb H) (n : Z) (e : bool) : kb H :=
  Mk_kb (kb_hw s) (kbd_state s) (input_queue s) (input_queue_head s) (input_queue_tail s) (input_queue_lock s) n e (echo s).
Definition with_echo {H} (s : kb H) (b : buf) : kb H :=
  Mk_kb (kb_hw s) (kbd_state s) (input_queue s) (input_queue_head s) (input_queue_tail s) (input_queue_lock s) (buffer_index s) (enter_pressed s) b.

Definition set_shift_left (b : bool) (k : kbd_state_t) : kbd_state_t :=
  Mk_kbd b (shift_right k) (ctrl_left k) (ctrl_right k) (alt_left k) (alt_right k) (caps_lock k) (num_lock k) (scroll_lock k) (extended k).
Definition set_shift_right (b : bool) (k : kbd_state_t) : kbd_state_t :=
  Mk_kbd (shift_left k) b (ctrl_left k) (ctrl_right k) (alt_left k) (alt_right k) (caps_lock k) (num_lock k) (scroll_lock k) (extended k).
Definition set_ctrl_left (b : bool) (k : kbd_state_t) : kbd_state_t :=
  Mk_kbd (shift_left k) (shift_right k) b (ctrl_right k) (alt_left k) (alt_right k) (caps_lock k) (num_lock k) (scroll_lock k) (extended k).
Definition set_ctrl_right (b : bool) (k : kbd_state_t) : kbd_state_t :=
  Mk_kbd (shift_left k) (shift_right k) (ctrl_left k) b (alt_left k) (alt_right k) (caps_lock k) (num_lock k) (scroll_lock k) (extended k).
Definition set_alt_left (b : bool) (k : kbd_state_t) : kbd_state_t :=
  Mk_kbd (shift_left k) (shift_right k) (ctrl_left k) (ctrl_right k) b (alt_right k) (caps_lock k) (num_lock k) (scroll_lock k) (extended k).
Definition set_alt_right (b : bool) (k : kbd_state_t) : kbd_state_t :=
  Mk_kbd (shift_left k) (shift_right k) (ctrl_left k) (ctrl_right k) (alt_left k) b (caps_lock k) (num_lock k) (scroll_lock k) (extended k).
Definition toggle_caps (k : kbd_state_t) : kbd_state_t :=
  Mk_kbd (shift_left k) (shift_right k) (ctrl_left k) (ctrl_right k) (alt_left k) (alt_right k) (negb (caps_lock k)) (num_lock k) (scroll_lock k) (extended k).
Definition toggle_num (k : kbd_state_t) : kbd_state_t :=
  Mk_kbd (shift_left k) (shift_right k) (ctrl_left k) (ctrl_right k) (alt_left k) (alt_right k) (caps_lock k) (negb (num_lock k)) (scroll_lock k) (extended k).
Definition toggle_scroll (k : kbd_state_t) : kbd_state_t :=
  Mk_kbd (shift_left k) (shift_right k) (ctrl_left k) (ctrl_right k) (alt_left k) (alt_right k) (caps_lock k) (num_lock k) (negb (scroll_lock k)) (extended k).
Definition set_extended (b : bool) (k : kbd_state_t) : kbd_state_t :=
  Mk_kbd (shift_left k) (shift_right k) (ctrl_left k) (ctrl_right k) (alt_left k) (alt_right k) (caps_lock k) (num_lock k) (scroll_lock k) b.

Definition is_ctrl (k : kbd_state_t) : bool := ctrl_left k || ctrl_right k.
Definition is_alt (k : kbd_state_t) : bool := alt_left k || alt_right k.
Definition is_shift (k : kbd_state_t) : bool := shift_left k || shift_right k.

(** ** Scan codes *)

Definition scancode_to_ascii (scancode : Z) (shift caps : bool) : option Z :=
  if SC_MAX <=? scancode then Some 0 else
  key ← (if shift then scancode_to_char_shift else scancode_to_char) !! Z.to_nat scancode;
  if caps && (97 <=? key) && (key <=? 122) then Some (key - 32)
  else if caps && (65 <=? key) && (key <=? 90) && negb shift then Some (key + 32)
  else Some key.

Definition process_ctrl_combination (ch : Z) : Z :=
  if (97 <=? ch) && (ch <=? 122) then ch - 97 + 1
  else if (65 <=? ch) && (ch <=? 90) then ch - 65 + 1 else ch.

Section Driver.
Context {H : Type} `{Ports H}.
Abbreviation A := (M (kb H)).

(** ** The input queue *)

Definition acquire : A bool := fun s =>
  match spinlock_acquire_irq (input_queue_lock s) with
  | Some (flags, l) => Some (flags, with_lock s l)
  | None => None
  end.
Definition release (flags : bool) : A unit := modify (fun s => with_lock s (spinlock_release_irq (input_queue_lock s) flags)).

(** An element of the queue array; outside of it is undefined. *)
Definition queue_at (i : Z) : A Z := q ← gets input_queue; lift (if 0 <=? i then q !! Z.to_nat i else None).

Definition input_queue_push (ch : Z) : A bool :=
  flags ← acquire;
  tail ← gets input_queue_tail;
  head ← gets input_queue_head;
  let next_tail := (tail + 1) mod INPUT_QUEUE_SIZE in
  if next_tail =? head then _ ← release flags; mret false else
  _ ← queue_at tail;
  _ ← modify (fun s => with_queue s (<[Z.to_nat tail := u8 ch]> (input_queue s)) head next_tail);
  _ ← release flags;
  mret true.

Definition input_queue_pop : A Z :=
  flags ← acquire;
  tail ← gets input_queue_tail;
  head ← gets input_queue_head;
  if head =? tail then _ ← release flags; mret 0 else
  ch ← queue_at head;
  _ ← modify (fun s => with_queue s (input_queue s) ((head + 1) mod INPUT_QUEUE_SIZE) tail);
  _ ← release flags;
  mret ch.

Definition input_queue_get_last : A Z :=
  tail ← gets input_queue_tail;
  head ← gets input_queue_head;
  if head =? tail then mret 0 else queue_at ((tail - 1 + INPUT_QUEUE_SIZE) mod INPUT_QUEUE_SIZE).

Definition input_queue_remove_last : A Z :=
  tail ← gets input_queue_tail;
  head ← gets input_queue_head;
  if head =? tail then mret 0 else
  let prev_tail := (tail - 1 + INPUT_QUEUE_SIZE) mod INPUT_QUEUE_SIZE in
  last_char ← queue_at prev_tail;
  _ ← modify (fun s => with_queue s (input_queue s) head prev_tail);
  mret last_char.

Definition input_queue_empty (s : kb H) : bool := input_queue_head s =? input_queue_tail s.

(** ** The interrupt handler *)

Definition set_key (f : kbd_state_t -> kbd_state_t) : A unit := modify (with_kbd f).

Definition handle_extended_key (scancode : Z) (released : bool) : A Z :=
  if scancode =? SC_EXT_RIGHT_CTRL then _ ← set_key (set_ctrl_right (negb released)); mret 0
  else if scancode =? SC_EXT_RIGHT_ALT then _ ← set_key (set_alt_right (negb released)); mret 0
  else if released then mret 0
  else if existsb (Z.eqb scancode) special_keys then mret scancode
  else mret 0.

Definition eoi : A unit := outb 32 32.

Definition regular_key (base_scancode : Z) : A unit :=
  n ← gets buffer_index;
  if negb (n <? BUFFER_SIZE - 1) then mret tt else
  k ← gets kbd_state;
  key ← lift (scancode_to_ascii base_scancode (is_shift k) (caps_lock k));
  if key =? 0 then mret tt else
  let key := if is_ctrl k then process_ctrl_combination key else key in
  _ ← modify (fun s => with_index s (buffer_index s + 1) (enter_pressed s));
  _ ← input_queue_push key;
  mret tt.

Definition key_press (base_scancode : Z) : A unit :=
  if base_scancode =? SC_LEFT_SHIFT then set_key (set_shift_left true)
  else if base_scancode =? SC_RIGHT_SHIFT then set_key (set_shift_right true)
  else if base_scancode =? SC_LEFT_CTRL then set_key (set_ctrl_left true)
  else if base_scancode =? SC_LEFT_ALT then set_key (set_alt_left true)
  else if base_scancode =? SC_CAPS_LOCK then set_key toggle_caps
  else if base_scancode =? SC_NUM_LOCK then set_key toggle_num
  else if base_scancode =? SC_SCROLL_LOCK then set_key toggle_scroll
  else if base_scancode =? SC_BACKSPACE then
    n ← gets buffer_index;
    if 0 <? n then
      _ ← modify (fun s => with_index s (buffer_index s - 1) (enter_pressed s));
      _ ← input_queue_push 8; mret tt
    else mret tt
  else if base_scancode =? SC_ENTER then
    _ ← input_queue_push 10;
    modify (fun s => with_index s 0 true)
  else regular_key base_scancode.

Definition key_release (base_scancode : Z) : A unit :=
  if base_scancode =? SC_LEFT_SHIFT then set_key (set_shift_left false)
  else if base_scancode =? SC_RIGHT_SHIFT then set_key (set_shift_right false)
  else if base_scancode =? SC_LEFT_CTRL then set_key (set_ctrl_left false)
  else if base_scancode =? SC_LEFT_ALT then set_key (set_alt_left false)
  else mret tt.

Definition kb_handler : A unit :=
  scancode ← inb KEYBOARD_DATA_PORT;
  if scancode =? SC_EXTENDED_PREFIX then _ ← set_key (set_extended true); eoi
  else if scancode =? SC_PAUSE_PREFIX then _ ← set_key (set_extended false); eoi
  else
    let released := negb (Z.land scancode SC_RELEASE_MASK =? 0) in
    let base_scancode := Z.land scancode (255 - SC_RELEASE_MASK) in
    k ← gets kbd_state;
    if extended k then
      _ ← set_key (set_extended false);
      special_key ← handle_extended_key base_scancode released;
      _ ← (if negb (special_key =? 0) && negb released
           then _ ← input_queue_push 27; _ ← input_queue_push 91; _ ← input_queue_push special_key; mret tt
           else mret tt);
      eoi
    else
      _ ← (if negb released then key_press base_scancode else key_release base_scancode);
      eoi.

(** ** Readers *)

Definition serial_received (port : Z) : A bool := v ← inb (port + 5); mret (negb (Z.land v 1 =? 0)).
Definition serial_read_char (port : Z) : A Z :=
  r ← serial_received port;
  if r : bool then inb port else mret 0.

(** [n] keyboard interrupts. *)
Fixpoint interrupts (n : nat) : A unit :=
  match n with O => mret tt | S n' => _ ← kb_handler; interrupts n' end.

(** [vga_write_char], recorded. *)
Definition echo_char (ch : Z) : A unit := modify (fun s => with_echo s (echo s ++ [ch])).

(** [None] inside: the schedule is over and the caller still waits. *)
Fixpoint getchar (sched : list nat) : A (option Z) :=
  match sched with
  | [] => mret None
  | n :: sched' =>
      _ ← interrupts n;
      serial_ch ← serial_read_char SERIAL_COM1;
      if negb (serial_ch =? 0) then mret (Some (if serial_ch =? 13 then 10 else serial_ch)) else
      e ← gets input_queue_empty;
      if negb e then ch ← input_queue_pop; mret (Some ch) else getchar sched'
  end.

Definition getchar_nonblocking : A Z :=
  serial_ch ← serial_read_char SERIAL_COM1;
  if negb (serial_ch =? 0) then mret (if serial_ch =? 13 then 10 else serial_ch) else
  e ← gets input_queue_empty;
  if negb e then input_queue_pop else mret 0.

(** Storing at an index of the caller's buffer. *)
Definition put (b : buf) (i ch : Z) : A buf := lift (wr b i ch).

Fixpoint get_input_line (sched : list nat) (buffer : buf) (index max_len : Z) : A (option buf) :=
  match sched with
  | [] => mret None
  | n :: sched' =>
      _ ← interrupts n;
      ch ← serial_read_char SERIAL_COM1;
      if negb (ch =? 0) then
        if (ch =? 13) || (ch =? 10) then
          buffer ← put buffer index 0; _ ← echo_char 10; mret (Some buffer)
        else if (ch =? 127) || (ch =? 8) then
          if 0 <? index then _ ← echo_char 8; get_input_line sched' buffer (index - 1) max_len
          else get_input_line sched' buffer index max_len
        else if (index <? max_len - 1) && (32 <=? ch) && (ch <? 127) then
          buffer ← put buffer index ch; _ ← echo_char ch; get_input_line sched' buffer (index + 1) max_len
        else get_input_line sched' buffer index max_len
      else
        e ← gets input_queue_empty;
        if negb e then
          ch ← input_queue_pop;
          if ch =? 10 then buffer ← put buffer index 0; mret (Some buffer)
          else if index <? max_len - 1 then buffer ← put buffer index ch; get_input_line sched' buffer (index + 1) max_len
          else get_input_line sched' buffer index max_len
        else get_input_line sched' buffer index max_len
  end.

(** [false]: the schedule is over and Enter has not been pressed. *)
Fixpoint wait_enter_loop (sched : list nat) : A bool :=
  e ← gets enter_pressed;
  if e : bool then _ ← modify (fun s => with_index s 0 (enter_pressed s)); mret true else
  match sched with
  | [] => mret false
  | n :: sched' => _ ← interrupts n; wait_enter_loop sched'
  end.
Definition kb_wait_enter (sched : list nat) : A bool :=
  _ ← modify (fun s => with_index s (buffer_index s) false);
  wait_enter_loop sched.
End Driver.

(** * Properties *)

(** ** The queue is a bounded first-in first-out list *)

Section Queue.
Context {H : Type}.
Implicit Types s : kb H.

(** The invariant of the driver: the array, the indices, and the lock free between
    operations. *)
Record kb_ok (s : kb H) : Prop := Mk_kb_ok {
  ok_length : length (input_queue s) = 256%nat;
  ok_bytes : bytes_ok (input_queue s);
  ok_head : 0 <= input_queue_head s < 256;
  ok_tail : 0 <= input_queue_tail s < 256;
  ok_lock : unlocked (input_queue_lock s);
  ok_index : 0 <= buffer_index s <= 127
}.

Definition count (s : kb H) : nat := Z.to_nat ((input_queue_tail s - input_queue_head s) mod 256).
Definition slot (q : buf) (i : Z) : Z := default 0 (q !! Z.to_nat (i mod 256)).

(** What is in the queue, oldest first. *)
Definition queued (s : kb H) : buf := map (fun i => slot (input_queue s) (input_queue_head s + Z.of_nat i)) (seq 0 (count s)).

Lemma length_queued s : length (queued s) = count s.
Proof. unfold queued. by rewrite length_map, length_seq. Qed.

Lemma count_bound s : (count s <= 255)%nat.
Proof. unfold count. pose proof (Z.mod_pos_bound (input_queue_tail s - input_queue_head s) 256). lia. Qed.

Lemma acquire_free s : unlocked (input_queue_lock s) ->
  exists l, acquire s = Some (if_flag (input_queue_lock s), with_lock s l) /\
    forall s', input_queue_lock s' = l -> release (if_flag (input_queue_lock s)) s' = Some (tt, with_lock s' (input_queue_lock s)).
Proof.
  intros Hu. destruct (acquire_release _ Hu) as (l & E & _ & _ & R). exists l. unfold acquire. rewrite E. split; [done|].
  intros s' <-. unfold release, modify. by rewrite R.
Qed.

Lemma kb_eta s : with_lock s (input_queue_lock s) = s.
Proof. by destruct s. Qed.

Lemma count_eq s : kb_ok s ->
  Z.of_nat (count s) = if input_queue_head s <=? input_queue_tail s then input_queue_tail s - input_queue_head s
                       else input_queue_tail s - input_queue_head s + 256.
Proof.
  intros [_ _ Hh Ht _ _]. unfold count. destruct (Z.leb_spec (input_queue_head s) (input_queue_tail s)).
  - rewrite Z.mod_small by lia. lia.
  - rewrite <- (Z.mod_add _ 1) by lia. rewrite Z.mod_small by lia. lia.
Qed.

(** The position behind another one. *)
Lemma next_pos i : 0 <= i < 256 -> (i + 1) mod 256 = if i =? 255 then 0 else i + 1.
Proof. intros. destruct (Z.eqb_spec i 255) as [->|]; [done|]. apply Z.mod_small. lia. Qed.

Lemma slot_insert q i j v : length q = 256%nat -> 0 <= i < 256 ->
  slot (<[Z.to_nat i := v]> q) j = if j mod 256 =? i then v else slot q j.
Proof.
  intros Hq Hi. unfold slot. pose proof (Z.mod_pos_bound j 256 ltac:(lia)). destruct (Z.eqb_spec (j mod 256) i) as [->|].
  - rewrite list_lookup_insert_eq by lia. done.
  - rewrite list_lookup_insert_ne by lia. done.
Qed.

Lemma slot_lookup q i : length q = 256%nat -> 0 <= i < 256 -> q !! Z.to_nat i = Some (slot q i).
Proof.
  intros Hq Hi. unfold slot. rewrite Z.mod_small by lia. destruct (lookup_lt_is_Some_2 q (Z.to_nat i)) as [x ->]; [lia|done].
Qed.

Lemma slot_byte q i : bytes_ok q -> byte_ok (slot q i).
Proof. intros Hb. unfold slot. destruct (q !! _) eqn:E; [|done]. by apply (Forall_lookup_1 _ _ _ _ Hb E). Qed.

Lemma queue_at_ok s i : length (input_queue s) = 256%nat -> 0 <= i < 256 -> queue_at i s = Some (slot (input_queue s) i, s).
Proof.
  intros Hl Hi. unfold queue_at. rewrite gets_bind. destruct (Z.leb_spec 0 i); [|lia]. unfold lift. by rewrite slot_lookup.
Qed.

(** Adding at the end, if one of the 255 places is free. *)
Lemma push_ok s ch : kb_ok s -> byte_ok ch ->
  exists s', input_queue_push ch s = Some (bool_decide (count s < 255)%nat, s') /\ kb_ok s' /\
    queued s' = (if bool_decide (count s < 255)%nat then queued s ++ [ch] else queued s) /\
    s' = with_queue s (input_queue s') (input_queue_head s) (input_queue_tail s').
Proof.
  intros [Hl Hb Hh Ht Hk Hi] Hc. destruct (acquire_free s Hk) as (l & E & R). unfold input_queue_push.
  rewrite (bind_eq _ _ _ _ _ E), gets_bind, gets_bind. cbn [with_lock input_queue_tail input_queue_head]. unfold INPUT_QUEUE_SIZE.
  pose proof (count_eq s ltac:(by split)) as Hn. rewrite next_pos by done.
  destruct (Z.eqb_spec (if input_queue_tail s =? 255 then 0 else input_queue_tail s + 1) (input_queue_head s)) as [Hf|Hf].
  - assert (count s = 255%nat) as -> by (destruct (Z.eqb_spec (input_queue_tail s) 255), (Z.leb_spec (input_queue_head s) (input_queue_tail s)); lia).
    exists s. rewrite (bind_eq _ _ _ _ _ (R (with_lock s l) eq_refl)). rewrite bool_decide_eq_false_2 by lia.
    split_and!; [by destruct s|by split|done|by destruct s].
  - assert (count s < 255)%nat as Hlt by (destruct (Z.eqb_spec (input_queue_tail s) 255), (Z.leb_spec (input_queue_head s) (input_queue_tail s)); lia).
    rewrite bool_decide_eq_true_2 by done. rewrite (bind_eq _ _ _ _ _ (queue_at_ok (with_lock s l) _ Hl Ht)), modify_bind.
    erewrite (bind_eq _ _ _ tt); [|apply R; reflexivity]. rewrite wrap_small by (unfold byte_ok in Hc; lia). eexists. split; [done|].
    set (t := if input_queue_tail s =? 255 then 0 else input_queue_tail s + 1) in *.
    assert (kb_ok (with_queue s (<[Z.to_nat (input_queue_tail s) := ch]> (input_queue s)) (input_queue_head s) t)) as Hok.
    { split; cbn; [by rewrite length_insert|by apply Forall_insert|done| |done|done]. subst t. destruct (Z.eqb_spec (input_queue_tail s) 255); lia. }
    pose proof (count_eq _ Hok) as Hn'. cbn in Hn'.
    split_and!; [done| |done]. unfold queued. cbn.
    replace (count _) with (S (count s)).
    2:{ apply Nat2Z.inj. change (Z.of_nat (S (count s)) = Z.of_nat (count (with_queue s (<[Z.to_nat (input_queue_tail s) := ch]> (input_queue s)) (input_queue_head s) t))).
        rewrite Hn', Nat2Z.inj_succ, Hn. subst t. destruct (Z.eqb_spec (input_queue_tail s) 255); repeat case_match; lia. }
    rewrite seq_S, map_app. cbn [map]. f_equal.
    + apply map_ext_in. intros i Hin%in_seq. rewrite slot_insert by done. destruct (Z.eqb_spec ((input_queue_head s + Z.of_nat i) mod 256) (input_queue_tail s)) as [E'|]; [|done].
      exfalso. revert E' Hn. clear - Hin Hh Ht. destruct (Z.leb_spec (input_queue_head s) (input_queue_tail s)); zlia.
    + rewrite slot_insert by done. destruct (Z.eqb_spec ((input_queue_head s + Z.of_nat (0 + count s)) mod 256) (input_queue_tail s)) as [E'|E']; [done|].
      exfalso. apply E'. cbn. rewrite Hn. destruct (Z.leb_spec (input_queue_head s) (input_queue_tail s)); zlia.
Qed.

(** Taking from the front; 0 if the queue is empty. *)
Lemma pop_ok s : kb_ok s ->
  exists s', input_queue_pop s = Some (default 0 (head (queued s)), s') /\ kb_ok s' /\ queued s' = tail (queued s) /\
    s' = with_queue s (input_queue s) (input_queue_head s') (input_queue_tail s).
Proof.
  intros [Hl Hb Hh Ht Hk Hi]. destruct (acquire_free s Hk) as (l & E & R). unfold input_queue_pop.
  rewrite (bind_eq _ _ _ _ _ E), gets_bind, gets_bind. cbn [with_lock input_queue_tail input_queue_head]. unfold INPUT_QUEUE_SIZE.
  pose proof (count_eq s ltac:(by split)) as Hn.
  destruct (Z.eqb_spec (input_queue_head s) (input_queue_tail s)) as [He|He].
  - exists s. rewrite (bind_eq _ _ _ _ _ (R (with_lock s l) eq_refl)). unfold queued. assert (count s = 0%nat) as ->.
    { destruct (Z.leb_spec (input_queue_head s) (input_queue_tail s)); lia. }
    split_and!; [by destruct s|by split|done|by destruct s].
  - rewrite (bind_eq _ _ _ _ _ (queue_at_ok (with_lock s l) _ Hl Hh)), modify_bind.
    erewrite (bind_eq _ _ _ tt); [|apply R; reflexivity]. rewrite next_pos by done. set (h := if input_queue_head s =? 255 then 0 else input_queue_head s + 1).
    assert (kb_ok (with_queue s (input_queue s) h (input_queue_tail s))) as Hok.
    { split; cbn; [done..| |done|done|done]. subst h. destruct (Z.eqb_spec (input_queue_head s) 255); lia. }
    pose proof (count_eq _ Hok) as Hn'. cbn in Hn'. exists (with_queue s (input_queue s) h (input_queue_tail s)).
    assert (count s = S (count (with_queue s (input_queue s) h (input_queue_tail s)))) as Hc.
    { apply Nat2Z.inj. rewrite Nat2Z.inj_succ, Hn', Hn. subst h. destruct (Z.eqb_spec (input_queue_head s) 255); repeat case_match; lia. }
    split_and!; [|done| |done]; unfold queued; rewrite Hc; cbn [seq map head default from_option id]; [by rewrite Z.add_0_r|].
    cbn [tl tail]. rewrite <- seq_shift, map_map. apply map_ext. intros i. cbn [with_queue input_queue input_queue_head]. unfold slot. do 3 f_equal.
    subst h. destruct (Z.eqb_spec (input_queue_head s) 255) as [->|]; [|f_equal; lia].
    rewrite <- (Z.mod_add (0 + Z.of_nat i) 1) by lia. f_equal. lia.
Qed.
End Queue.

(** ** What a scan code means *)

(** The keyboard without the ring buffer: the keys that are down, the characters waiting,
    the length of the line being typed and whether Enter has been seen. *)
Record akb := Mk_akb { a_keys : kbd_state_t; a_queue : buf; a_index : Z; a_enter : bool }.

Definition abs {H} (s : kb H) : akb := Mk_akb (kbd_state s) (queued s) (buffer_index s) (enter_pressed s).

(** A queue with 255 places; a character that finds none is lost. *)
Definition offer (ch : Z) (a : akb) : akb :=
  Mk_akb (a_keys a) (if (length (a_queue a) <? 255)%nat then a_queue a ++ [ch] else a_queue a) (a_index a) (a_enter a).
Definition on_keys (f : kbd_state_t -> kbd_state_t) (a : akb) : akb := Mk_akb (f (a_keys a)) (a_queue a) (a_index a) (a_enter a).
Definition set_line (n : Z) (e : bool) (a : akb) : akb := Mk_akb (a_keys a) (a_queue a) n e.

(** Keys that act while they are held, and keys that switch. *)
Definition modifier (b : Z) : option (bool -> kbd_state_t -> kbd_state_t) :=
  if b =? 42 then Some set_shift_left else if b =? 54 then Some set_shift_right
  else if b =? 29 then Some set_ctrl_left else if b =? 56 then Some set_alt_left else None.
Definition switch (b : Z) : option (kbd_state_t -> kbd_state_t) :=
  if b =? 58 then Some toggle_caps else if b =? 69 then Some toggle_num else if b =? 70 then Some toggle_scroll else None.

(** The character of a key: the table of the shift state, letters in capitals under caps
    lock, letters turned into control characters by Ctrl; 0 for keys without character. *)
Definition char_of (k : kbd_state_t) (b : Z) : Z :=
  let t := default 0 ((if is_shift k then scancode_to_char_shift else scancode_to_char) !! Z.to_nat b) in
  let t := if caps_lock k then toupper t else t in
  if is_ctrl k && isalpha t then Z.land t 31 else t.

Definition press (b : Z) (a : akb) : akb :=
  match modifier b, switch b with
  | Some f, _ => on_keys (f true) a
  | _, Some f => on_keys f a
  | None, None =>
      if b =? 14 then (if 0 <? a_index a then offer 8 (set_line (a_index a - 1) (a_enter a) a) else a)
      else if b =? 28 then set_line 0 true (offer 10 a)
      else if (a_index a <? 127) && negb (char_of (a_keys a) b =? 0)
      then offer (char_of (a_keys a) b) (set_line (a_index a + 1) (a_enter a) a) else a
  end.

Definition press_special (b : Z) (a : akb) : akb :=
  if b =? 29 then on_keys (set_ctrl_right true) a else if b =? 56 then on_keys (set_alt_right true) a
  else if existsb (Z.eqb b) special_keys then offer b (offer 91 (offer 27 a)) else a.

Definition release_key (special : bool) (b : Z) (a : akb) : akb :=
  if special then (if b =? 29 then on_keys (set_ctrl_right false) a else if b =? 56 then on_keys (set_alt_right false) a else a)
  else match modifier b with Some f => on_keys (f false) a | None => a end.

(** One byte from the keyboard. *)
Definition spec_code (c : Z) (a : akb) : akb :=
  if c =? 224 then on_keys (set_extended true) a
  else if c =? 225 then on_keys (set_extended false) a
  else let special := extended (a_keys a) in
       let a := on_keys (set_extended false) a in
       if c <? 128 then (if special then press_special c a else press c a) else release_key special (c - 128) a.

(** The tables of the code against [char_of], for every key and modifier. *)
Definition chars_agree (b : Z) (shift caps ctrl : bool) : bool :=
  let t := default 0 ((if shift then scancode_to_char_shift else scancode_to_char) !! Z.to_nat b) in
  let t := if caps then toupper t else t in
  let ch := if ctrl && isalpha t then Z.land t 31 else t in
  match scancode_to_ascii b shift caps with
  | Some key => (ch =? (if ctrl then process_ctrl_combination key else key)) && Bool.eqb (ch =? 0) (key =? 0) && (0 <=? ch) && (ch <? 256)
  | None => false
  end.

Lemma chars_agree_all : forallb (fun b => forallb (fun x => chars_agree b (x =? 1) false false && chars_agree b (x =? 1) false true
  && chars_agree b (x =? 1) true false && chars_agree b (x =? 1) true true) [0; 1]) (seqZ 0 128) = true.
Proof. vm_compute. reflexivity. Qed.

Lemma char_of_ok k b : 0 <= b < 128 ->
  exists key, scancode_to_ascii b (is_shift k) (caps_lock k) = Some key /\
    char_of k b = (if is_ctrl k then process_ctrl_combination key else key) /\ (char_of k b =? 0) = (key =? 0) /\ byte_ok (char_of k b).
Proof.
  intros Hb. assert (chars_agree b (is_shift k) (caps_lock k) (is_ctrl k) = true) as Hc.
  { pose proof chars_agree_all as Ha. rewrite forallb_forall in Ha. specialize (Ha b). rewrite <- list_elem_of_In, elem_of_seqZ in Ha.
    specialize (Ha ltac:(lia)). cbn [forallb] in Ha. repeat (apply andb_true_iff in Ha as [Ha ?]).
    repeat match goal with H : _ && _ = true |- _ => apply andb_true_iff in H as [? ?] end.
    destruct (is_shift k), (caps_lock k), (is_ctrl k); assumption. }
  unfold chars_agree in Hc. fold (char_of k b) in Hc. destruct (scancode_to_ascii _ _ _) as [key|]; [|done]. exists key.
  repeat (apply andb_true_iff in Hc as [Hc ?]). split; [done|]. split; [by apply Z.eqb_eq|]. split; [by apply eqb_prop|]. unfold byte_ok. lia.
Qed.

(** Bit 7 of a byte tells the release from the press. *)
Lemma release_bit c : 0 <= c < 256 -> (Z.land c 128 =? 0) = (c <? 128) /\ Z.land c 127 = if c <? 128 then c else c - 128.
Proof.
  intros Hc. assert (forallb (fun c => Bool.eqb (Z.land c 128 =? 0) (c <? 128) && (Z.land c 127 =? (if c <? 128 then c else c - 128))) (seqZ 0 256) = true) as Ha
    by (vm_compute; reflexivity).
  rewrite forallb_forall in Ha. specialize (Ha c). rewrite <- list_elem_of_In, elem_of_seqZ in Ha. specialize (Ha ltac:(lia)).
  apply andb_true_iff in Ha as [H1 H2]. split; [by apply eqb_prop|by apply Z.eqb_eq].
Qed.

(** ** The handler does what the scan codes mean *)

Section Handler.
Context {H : Type} `{Ports H}.
Implicit Types s : kb H.

Definition simulates {A} (m : M (kb H) A) (f : akb -> akb) : Prop :=
  forall s, kb_ok s -> exists r s', m s = Some (r, s') /\ kb_ok s' /\ abs s' = f (abs s) /\ kb_hw s' = kb_hw s /\ echo s' = echo s.

Lemma sim_ret {A} (a : A) : simulates (mret a) (fun x => x).
Proof. intros s Hs. by exists a, s. Qed.

Lemma sim_bind {A B} (m : M (kb H) A) (n : M (kb H) B) f g : simulates m f -> simulates n g -> simulates (_ ← m; n) (fun a => g (f a)).
Proof.
  intros Hm Hn s Hs. destruct (Hm s Hs) as (r & s1 & E1 & O1 & A1 & W1 & C1). destruct (Hn s1 O1) as (r' & s2 & E2 & O2 & A2 & W2 & C2).
  exists r', s2. rewrite (bind_eq _ _ _ _ _ E1). split_and!; [done..|by rewrite A2, A1|congruence|congruence].
Qed.

Lemma sim_ext {A} (m : M (kb H) A) f g : simulates m f -> (forall a, f a = g a) -> simulates m g.
Proof. intros Hm E s Hs. destruct (Hm s Hs) as (r & s1 & ?). exists r, s1. by rewrite <- E. Qed.

Lemma sim_key f : simulates (set_key f) (on_keys f).
Proof. intros s Hs. eexists tt, _. split; [done|]. split; [|done]. destruct Hs. by split. Qed.

Lemma sim_push ch : byte_ok ch -> simulates (input_queue_push ch) (offer ch).
Proof.
  intros Hc s Hs. destruct (push_ok s ch Hs Hc) as (s' & E & O & Q & R). eexists _, s'. split; [done|]. split; [done|].
  split; [|by rewrite R]. unfold abs, offer. cbn [a_keys a_queue a_index a_enter]. rewrite Q, length_queued.
  replace (kbd_state s') with (kbd_state s) by (by rewrite R). replace (buffer_index s') with (buffer_index s) by (by rewrite R).
  replace (enter_pressed s') with (enter_pressed s) by (by rewrite R). f_equal.
  case_bool_decide; case_match eqn:E'; [done|apply Nat.ltb_ge in E'; lia|apply Nat.ltb_lt in E'; lia|done].
Qed.

Lemma sim_index n e : 0 <= n <= 127 -> simulates (modify (fun s : kb H => with_index s n e)) (set_line n e).
Proof. intros Hn s [???? Hk ?]. eexists tt, _. split; [done|]. split; [|done]. by split. Qed.

(** The key press of the code and of the specification. *)
Lemma key_press_sim b : 0 <= b < 128 -> simulates (key_press b) (press b).
Proof.
  intros Hb. unfold key_press, press, modifier, switch, SC_LEFT_SHIFT, SC_RIGHT_SHIFT, SC_LEFT_CTRL, SC_LEFT_ALT, SC_CAPS_LOCK, SC_NUM_LOCK, SC_SCROLL_LOCK, SC_BACKSPACE, SC_ENTER.
  repeat match goal with |- context [b =? ?n] => destruct (Z.eqb_spec b n); [by apply sim_key|] end.
  destruct (Z.eqb_spec b 14); [|destruct (Z.eqb_spec b 28)].
  - intros s Hs. rewrite gets_bind. cbn [abs a_index]. pose proof (ok_index _ Hs). destruct (Z.ltb_spec 0 (buffer_index s)); [|by apply (sim_ret tt s)].
    exact (sim_bind _ _ _ _ (sim_index (buffer_index s - 1) (enter_pressed s) ltac:(lia)) (sim_bind _ _ _ _ (sim_push 8 ltac:(done)) (sim_ret tt)) s Hs).
  - apply (sim_bind _ _ _ _ (sim_push 10 ltac:(done)) (sim_index 0 true ltac:(lia))).
  - intros s Hs. unfold regular_key, BUFFER_SIZE. rewrite gets_bind. cbn [abs a_index a_keys]. pose proof (ok_index _ Hs).
    replace (128 - 1) with 127 by done. destruct (Z.ltb_spec (buffer_index s) 127); cbn [negb andb]; [|by apply (sim_ret tt s)].
    rewrite gets_bind. destruct (char_of_ok (kbd_state s) b Hb) as (key & Ek & Ec & E0 & Hc). rewrite (lift_bind _ _ _ _ Ek), E0.
    destruct (key =? 0); cbn [negb]; [by apply (sim_ret tt s)|]. rewrite <- Ec.
    exact (sim_bind _ _ _ _ (sim_index (buffer_index s + 1) (enter_pressed s) ltac:(lia)) (sim_bind _ _ _ _ (sim_push _ Hc) (sim_ret tt)) s Hs).
Qed.

Lemma key_release_sim b : simulates (key_release b) (release_key false b).
Proof.
  unfold key_release, release_key, modifier, SC_LEFT_SHIFT, SC_RIGHT_SHIFT, SC_LEFT_CTRL, SC_LEFT_ALT.
  repeat match goal with |- context [b =? ?n] => destruct (Z.eqb_spec b n); [by apply sim_key|] end. apply sim_ret.
Qed.

Definition extended_part (b : Z) (released : bool) : M (kb H) unit :=
  special_key ← handle_extended_key b released;
  if negb (special_key =? 0) && negb released
  then _ ← input_queue_push 27; _ ← input_queue_push 91; _ ← input_queue_push special_key; mret tt
  else mret tt.

Lemma extended_sim b released : 0 <= b < 128 ->
  simulates (extended_part b released) (if released then release_key true b else press_special b).
Proof.
  intros Hb. unfold extended_part, handle_extended_key, release_key, press_special, SC_EXT_RIGHT_CTRL, SC_EXT_RIGHT_ALT.
  destruct (Z.eqb_spec b 29); [|destruct (Z.eqb_spec b 56)].
  1-2: by destruct released; intros s Hs; apply (sim_bind _ _ _ _ (sim_key _) (sim_ret tt) s Hs).
  destruct released; [by intros s Hs; apply (sim_ret tt s)|]. destruct (existsb (Z.eqb b) special_keys) eqn:E; [|by intros s Hs; apply (sim_ret tt s)].
  assert (b <> 0) as Hn by (intros ->; done). intros s Hs. unfold mbind at 1, M_bind at 1, mret at 1, M_ret at 1. destruct (Z.eqb_spec b 0); [done|]. cbn [negb andb].
  exact (sim_bind _ _ _ _ (sim_push 27 ltac:(done)) (sim_bind _ _ _ _ (sim_push 91 ltac:(done)) (sim_bind _ _ _ _ (sim_push b ltac:(unfold byte_ok; lia)) (sim_ret tt))) s Hs).
Qed.

Lemma on_keys_extended (a : akb) : extended (a_keys a) = false -> on_keys (set_extended false) a = a.
Proof. destruct a as [k q n e]. destruct k. cbn. by intros ->. Qed.

Lemma eoi_ok s : exists s', eoi s = Some (tt, s') /\ s' = with_hw s (dev_outb 32 32 (kb_hw s)).
Proof. by eexists. Qed.

(** The end of the handler: a part of it, then the end-of-interrupt. *)
Lemma then_eoi (m : M (kb H) unit) f s : simulates m f -> kb_ok s ->
  exists s', (_ ← m; eoi) s = Some (tt, s') /\ kb_ok s' /\ abs s' = f (abs s) /\ kb_hw s' = dev_outb 32 32 (kb_hw s) /\ echo s' = echo s.
Proof.
  intros Hm Hs. destruct (Hm s Hs) as ([] & s1 & E & [] & A1 & W & C). eexists. rewrite (bind_eq _ _ _ _ _ E).
  split; [done|]. split; [by split|]. split; [done|]. cbn. by rewrite W.
Qed.

Lemma kb_handler_ok s c h : kb_ok s -> dev_inb KEYBOARD_DATA_PORT (kb_hw s) = (c, h) ->
  exists s', kb_handler s = Some (tt, s') /\ kb_ok s' /\ abs s' = spec_code (u8 c) (abs s) /\ kb_hw s' = dev_outb 32 32 h /\ echo s' = echo s.
Proof.
  intros Hs Hc. unfold kb_handler.
  assert (inb KEYBOARD_DATA_PORT s = Some (u8 c, with_hw s h)) as E by (unfold inb; change (u16 KEYBOARD_DATA_PORT) with KEYBOARD_DATA_PORT; cbn; by rewrite Hc).
  rewrite (bind_eq _ _ _ _ _ E). clear E Hc.
  assert (kb_ok (with_hw s h)) as Hs' by (by destruct Hs). set (s1 := with_hw s h) in *.
  change (abs s) with (abs s1). change (echo s) with (echo s1). replace h with (kb_hw s1) by done. clearbody s1. clear Hs s h.
  pose proof (wrap_range 8 c ltac:(lia)) as Hu. set (u := u8 c) in *. clearbody u. change (2 ^ 8) with 256 in Hu.
  unfold spec_code, SC_EXTENDED_PREFIX, SC_PAUSE_PREFIX, SC_RELEASE_MASK. destruct (release_bit u Hu) as [Hrel Hbase].
  destruct (Z.eqb_spec u 224); [by apply then_eoi; [apply sim_key|]|]. destruct (Z.eqb_spec u 225); [by apply then_eoi; [apply sim_key|]|].
  change (255 - 128) with 127. rewrite Hrel, Hbase. cbn zeta. rewrite gets_bind. cbn [abs a_keys]. destruct (extended (kbd_state s1)) eqn:Hx.
  - destruct (then_eoi _ _ s1 (sim_bind _ _ _ _ (sim_key (set_extended false)) (extended_sim (if u <? 128 then u else u - 128) (negb (u <? 128)) ltac:(case_match; lia))) Hs') as (s' & E & R).
    exists s'. rewrite bind_assoc in E. unfold set_key, extended_part in E. rewrite modify_bind, bind_assoc in E.
    split; [exact E|]. cbn beta in R. destruct (u <? 128); exact R.
  - destruct (then_eoi (if negb (negb (u <? 128)) then key_press (if u <? 128 then u else u - 128) else key_release (if u <? 128 then u else u - 128))
      (if u <? 128 then press u else release_key false (u - 128)) s1) as (s' & E & R); [|done|].
    { destruct (Z.ltb_spec u 128); [apply key_press_sim; lia|apply key_release_sim]. }
    exists s'. split; [exact E|]. rewrite on_keys_extended by done. destruct (u <? 128); exact R.
Qed.
End Handler.

(** ** Characters that a sequence of scan codes produces *)

Definition with_q (q : buf) (a : akb) : akb := Mk_akb (a_keys a) q (a_index a) (a_enter a).
Definition out (c : Z) (a : akb) : buf := a_queue (spec_code c (with_q [] a)).
Fixpoint outs (l : list Z) (a : akb) : buf :=
  match l with [] => [] | c :: l' => out c a ++ outs l' (spec_code c (with_q [] a)) end.

(** As long as the queue does not overflow, a code appends its characters and does not
    look at the queue. *)
Lemma spec_code_frame c q a : (length q + length (out c a) <= 255)%nat ->
  spec_code c (with_q q a) = with_q (q ++ out c a) (spec_code c (with_q [] a)).
Proof.
  destruct a as [k q0 n e]. unfold out, spec_code. cbn [a_keys with_q on_keys].
  destruct (c =? 224); [by rewrite app_nil_r|]. destruct (c =? 225); [by rewrite app_nil_r|].
  destruct (extended k), (c <? 128); unfold press_special, press, release_key, on_keys, set_line, with_q; cbn [a_keys a_queue a_index a_enter].
  all: repeat match goal with
       | |- context [if ?b =? ?n then _ else _] => destruct (b =? n)
       | |- context [match modifier ?b with _ => _ end] => destruct (modifier b)
       | |- context [match switch ?b with _ => _ end] => destruct (switch b)
       | |- context [if 0 <? ?n then _ else _] => destruct (0 <? n)
       | |- context [if existsb ?f ?l then _ else _] => destruct (existsb f l)
       | |- context [if ?x && ?y then _ else _] => destruct (x && y)
       end; unfold offer, with_q; cbn [a_keys a_queue a_index a_enter length app]; intros Hl; rewrite ?app_nil_r; try done.
  all: cbn [length Nat.ltb Nat.leb app] in *; repeat (rewrite (proj2 (Nat.leb_le (length q) 254)) by lia); try done.
  repeat (rewrite (proj2 (Nat.leb_le (length (q ++ _)) 254)) by list_lia). repeat (rewrite (proj2 (Nat.leb_le (length ((q ++ _) ++ _)) 254)) by list_lia). by rewrite <- !app_assoc.
Qed.

Lemma out_with_q c q a : out c (with_q q a) = out c a.
Proof. done. Qed.
Lemma outs_with_q l q a : outs l (with_q q a) = outs l a.
Proof. by destruct l. Qed.

Lemma outs_app l1 l2 a : outs (l1 ++ l2) a = outs l1 a ++ outs l2 (fold_left (fun a c => spec_code c (with_q [] a)) l1 a).
Proof. revert a. induction l1 as [|c l1 IH]; intros a; cbn; [done|]. by rewrite IH, app_assoc. Qed.

(** The state after a sequence of codes, apart from the queue. *)
Definition after (l : list Z) (a : akb) : akb := fold_left (fun a c => spec_code c (with_q [] a)) l a.

Lemma spec_codes_frame l : forall q a, (length q + length (outs l a) <= 255)%nat ->
  fold_left (fun a c => spec_code c a) l (with_q q a) = with_q (q ++ outs l a) (after l a).
Proof.
  induction l as [|c l IH]; intros q a Hl; cbn [fold_left outs after] in *; [by rewrite app_nil_r|].
  rewrite length_app in Hl. rewrite spec_code_frame by lia. rewrite IH by list_lia. by rewrite app_assoc.
Qed.

(** ** Typing *)

(** A key stroke: with the left shift key held or without, pressed and released. *)
Definition stroke (k : bool * Z) : list Z := if fst k then [42; snd k; snd k + 128; 170] else [snd k; snd k + 128].
Definition char_at (k : bool * Z) : Z := default 0 ((if fst k then scancode_to_char_shift else scancode_to_char) !! Z.to_nat (snd k)).
Definition plain_key (b : Z) : bool :=
  (1 <=? b) && (b <? 89) && negb (b =? 14) && negb (b =? 28) && match modifier b, switch b with None, None => true | _, _ => false end.
Definition all_strokes : list (bool * Z) := concat (map (fun b => [(false, b); (true, b)]) (List.filter plain_key (seqZ 1 88))).
(** The stroke for a character. *)
Definition key_for (ch : Z) : option (bool * Z) := List.find (fun k => char_at k =? ch) all_strokes.

Definition enter_key : list Z := [28; 156].
Definition type_text (t : buf) : list Z := concat (map (fun ch => match key_for ch with Some k => stroke k | None => [] end) t).

(** Nothing held, no caps lock, no prefix pending. *)
Definition no_keys (k : kbd_state_t) : Prop :=
  is_shift k = false /\ is_ctrl k = false /\ caps_lock k = false /\ extended k = false.

Lemma printable_keys : forallb (fun ch => match key_for ch with Some k => plain_key (snd k) && (char_at k =? ch) | None => false end) (seqZ 32 95) = true.
Proof. vm_compute. reflexivity. Qed.

(** Every printable character has a key. *)
Lemma key_for_ok ch : 32 <= ch <= 126 -> exists k, key_for ch = Some k /\ plain_key (snd k) = true /\ char_at k = ch.
Proof.
  intros Hc. pose proof printable_keys as Ha. rewrite forallb_forall in Ha. specialize (Ha ch). rewrite <- list_elem_of_In, elem_of_seqZ in Ha.
  specialize (Ha ltac:(lia)). destruct (key_for ch) as [k|]; [|done]. apply andb_true_iff in Ha as [H1 H2]. exists k. by rewrite H1, (proj1 (Z.eqb_eq _ _) H2).
Qed.

Lemma plain_key_spec b : plain_key b = true -> 1 <= b < 89 /\ b <> 14 /\ b <> 28 /\ modifier b = None /\ switch b = None.
Proof.
  unfold plain_key. rewrite !andb_true_iff. intros [Hp Hm]. destruct (modifier b), (switch b); try done. split_and!; try done; lia.
Qed.

Lemma press_plain b a : plain_key b = true -> extended (a_keys a) = false -> a_index a < 127 -> char_of (a_keys a) b <> 0 ->
  spec_code b (with_q [] a) = Mk_akb (a_keys a) [char_of (a_keys a) b] (a_index a + 1) (a_enter a).
Proof.
  intros (Hb & H1 & H2 & Hm & Hw)%plain_key_spec Hx Hi Hc. unfold spec_code. cbn zeta.
  destruct (Z.eqb_spec b 224), (Z.eqb_spec b 225), (Z.ltb_spec b 128); try lia. cbn [a_keys with_q]. rewrite Hx.
  rewrite on_keys_extended by done. unfold press. rewrite Hm, Hw. cbn [a_keys a_index with_q].
  destruct (Z.eqb_spec b 14), (Z.eqb_spec b 28), (Z.ltb_spec (a_index a) 127), (Z.eqb_spec (char_of (a_keys a) b) 0); try lia. done.
Qed.

Lemma release_plain b a : plain_key b = true -> extended (a_keys a) = false -> spec_code (b + 128) (with_q [] a) = with_q [] a.
Proof.
  intros (Hb & _ & _ & Hm & _)%plain_key_spec Hx. unfold spec_code. cbn zeta.
  destruct (Z.eqb_spec (b + 128) 224), (Z.eqb_spec (b + 128) 225), (Z.ltb_spec (b + 128) 128); try lia. cbn [a_keys with_q]. rewrite Hx.
  rewrite on_keys_extended by done. unfold release_key. replace (b + 128 - 128) with b by lia. by rewrite Hm.
Qed.

(** A stroke without other keys held produces the character on the key. *)
Lemma stroke_ok k a : plain_key (snd k) = true -> char_at k <> 0 -> no_keys (a_keys a) -> a_index a < 127 ->
  outs (stroke k) a = [char_at k] /\ no_keys (a_keys (after (stroke k) a)) /\ a_index (after (stroke k) a) = a_index a + 1.
Proof.
  destruct k as [sh b]. destruct a as [ks q n e]. intros Hp Hc (Hs & Hct & Hcp & Hx) Hn. unfold stroke, after. cbn [fst snd a_keys a_index] in *.
  destruct sh.
  - set (ks' := set_shift_left true ks). assert (is_shift ks' = true) as Hs' by done.
    assert (char_of ks' b = char_at (true, b)) as Hch.
    { unfold char_of, char_at. cbn [fst snd]. rewrite Hs'. replace (is_ctrl ks') with (is_ctrl ks) by done. replace (caps_lock ks') with (caps_lock ks) by done. by rewrite Hct, Hcp. }
    assert (spec_code 42 (with_q [] (Mk_akb ks q n e)) = Mk_akb ks' [] n e) as E1.
    { unfold spec_code. cbn -[on_keys]. rewrite Hx. by rewrite on_keys_extended. }
    assert (spec_code b (with_q [] (Mk_akb ks' [] n e)) = Mk_akb ks' [char_at (true, b)] (n + 1) e) as E2.
    { rewrite press_plain; cbn [a_keys a_index a_enter]; by rewrite ?Hch. }
    assert (spec_code (b + 128) (with_q [] (Mk_akb ks' [char_at (true, b)] (n + 1) e)) = Mk_akb ks' [] (n + 1) e) as E3 by (by apply release_plain).
    assert (spec_code 170 (with_q [] (Mk_akb ks' [] (n + 1) e)) = Mk_akb (set_shift_left false ks') [] (n + 1) e) as E4.
    { unfold spec_code. cbn -[on_keys]. rewrite Hx. by rewrite on_keys_extended. }
    cbn [outs fold_left]. unfold out. rewrite E1, E2, E3, E4. split; [done|]. split; [|done].
    unfold no_keys, is_shift in *. cbn. by destruct (shift_left ks), (shift_right ks).
  - assert (char_of ks b = char_at (false, b)) as Hch.
    { unfold char_of, char_at. cbn [fst snd]. by rewrite Hs, Hct, Hcp. }
    assert (spec_code b (with_q [] (Mk_akb ks q n e)) = Mk_akb ks [char_at (false, b)] (n + 1) e) as E2.
    { rewrite press_plain; cbn [a_keys a_index a_enter]; by rewrite ?Hch. }
    assert (spec_code (b + 128) (with_q [] (Mk_akb ks [char_at (false, b)] (n + 1) e)) = Mk_akb ks [] (n + 1) e) as E3 by (by apply release_plain).
    cbn [outs fold_left]. unfold out. rewrite E2, E3. done.
Qed.

Definition printable_text (t : buf) : Prop := Forall (fun ch => 32 <= ch <= 126) t.

Lemma type_text_ok t : printable_text t -> forall a, no_keys (a_keys a) -> a_index a + Z.of_nat (length t) <= 127 ->
  outs (type_text t ++ enter_key) a = t ++ [10].
Proof.
  induction 1 as [|ch t Hc Ht IH]; intros a Ha Hn.
  - destruct Ha as (_ & _ & _ & Hx). destruct a as [k q n e]. cbn in Hx. cbn -[on_keys]. unfold out, spec_code. cbn -[on_keys]. rewrite Hx.
    cbn. done.
  - destruct (key_for_ok ch Hc) as (k & Ek & Hp & E). cbn [length] in Hn.
    destruct (stroke_ok k a Hp ltac:(lia) Ha ltac:(lia)) as (Eo & Hk & Hi). unfold type_text. cbn [map concat]. rewrite Ek, <- app_assoc, outs_app, Eo, E.
    fold (type_text t). cbn [app]. f_equal. apply (IH (after (stroke k) a)); [done|]. lia.
Qed.

Lemma type_codes_bytes t : printable_text t -> Forall byte_ok (type_text t ++ enter_key).
Proof.
  intros Ht. apply Forall_app. split; [|by repeat constructor]. induction Ht as [|ch t Hc Ht IH]; [constructor|].
  unfold type_text. cbn [map concat]. apply Forall_app. split; [|exact IH]. destruct (key_for_ok ch Hc) as ([sh b] & -> & Hp & _).
  apply plain_key_spec in Hp as (Hb & _). cbn [snd] in Hb. unfold stroke. destruct sh; cbn [fst snd]; repeat constructor; unfold byte_ok; lia.
Qed.

(** From 127 characters on the driver takes no more, whether they have been read or not,
    until Enter is pressed. *)
Lemma stroke_ignored k a : plain_key (snd k) = true -> no_keys (a_keys a) -> 127 <= a_index a ->
  outs (stroke k) a = [] /\ no_keys (a_keys (after (stroke k) a)) /\ a_index (after (stroke k) a) = a_index a.
Proof.
  destruct k as [sh b], a as [ks q n e]. intros Hp (Hs & Hct & Hcp & Hx) Hn. unfold stroke, after. cbn [fst snd a_keys a_index] in *.
  assert (forall ks', extended ks' = false -> spec_code b (with_q [] (Mk_akb ks' [] n e)) = Mk_akb ks' [] n e) as E2.
  { intros ks' Hx'. apply plain_key_spec in Hp as (Hb & ? & ? & Hm & Hw). unfold spec_code. cbn zeta.
    destruct (Z.eqb_spec b 224), (Z.eqb_spec b 225), (Z.ltb_spec b 128); try lia. cbn [a_keys with_q]. rewrite Hx', on_keys_extended by done.
    unfold press. rewrite Hm, Hw. destruct (Z.eqb_spec b 14), (Z.eqb_spec b 28); try lia. cbn [a_index with_q].
    by destruct (Z.ltb_spec n 127); [lia|]. }
  assert (forall ks', extended ks' = false -> spec_code (b + 128) (with_q [] (Mk_akb ks' [] n e)) = Mk_akb ks' [] n e) as E3 by (intros; by apply release_plain).
  destruct sh.
  - assert (spec_code 42 (with_q [] (Mk_akb ks q n e)) = Mk_akb (set_shift_left true ks) [] n e) as E1.
    { unfold spec_code. cbn -[on_keys]. rewrite Hx. by rewrite on_keys_extended. }
    assert (spec_code 170 (with_q [] (Mk_akb (set_shift_left true ks) [] n e)) = Mk_akb (set_shift_left false (set_shift_left true ks)) [] n e) as E4.
    { unfold spec_code. cbn -[on_keys]. rewrite Hx. by rewrite on_keys_extended. }
    cbn [outs fold_left]. unfold out. rewrite E1, E2, E3, E4 by done. split; [done|]. split; [|done].
    unfold no_keys, is_shift in *. cbn. by destruct (shift_left ks), (shift_right ks).
  - cbn [outs fold_left]. unfold out. change (with_q [] (Mk_akb ks q n e)) with (with_q [] (Mk_akb ks [] n e)). rewrite E2, E3 by done. done.
Qed.

Lemma keys_ignored t : printable_text t -> forall a, no_keys (a_keys a) -> 127 <= a_index a -> outs (type_text t) a = [].
Proof.
  induction 1 as [|ch t Hc Ht IH]; intros a Ha Hn; [done|]. destruct (key_for_ok ch Hc) as (k & Ek & Hp & E).
  destruct (stroke_ignored k a Hp Ha Hn) as (Eo & Hk & Hi). unfold type_text. cbn [map concat]. rewrite Ek, outs_app, Eo. apply IH; [done|]. fold (after (stroke k) a). lia.
Qed.

(** ** Reading a line *)

(** What the driver relies on: the keyboard delivers its scan codes one per interrupt, the
    end-of-interrupt does not disturb it, and nothing arrives on the serial line. *)
Class KeyboardPorts (H : Type) `{Ports H} := {
  pending : H -> list Z -> Prop;
  pending_code : forall h c l, pending h (c :: l) -> exists h', dev_inb KEYBOARD_DATA_PORT h = (c, h') /\ pending h' l;
  pending_eoi : forall h l, pending h l -> pending (dev_outb 32 32 h) l;
  pending_serial : forall h l, pending h l -> exists v h', dev_inb (SERIAL_COM1 + 5) h = (v, h') /\ Z.land (u8 v) 1 = 0 /\ pending h' l
}.

Section Reading.
Context {H : Type} `{KeyboardPorts H}.
Implicit Types s : kb H.

Lemma interrupts_ok n : forall codes l s, length codes = n -> kb_ok s -> Forall byte_ok codes -> pending (kb_hw s) (codes ++ l) ->
  exists s', interrupts n s = Some (tt, s') /\ kb_ok s' /\ pending (kb_hw s') l /\
    abs s' = fold_left (fun a c => spec_code c a) codes (abs s) /\ echo s' = echo s.
Proof.
  induction n as [|n IH]; intros [|c codes] l s Hl Hs Hb Hp; try done; cbn [interrupts].
  { by exists s. }
  apply Forall_cons in Hb as [Hc Hb]. cbn [app] in Hp. apply pending_code in Hp as (h & E & Hp).
  destruct (kb_handler_ok s c h Hs E) as (s1 & E1 & Hs1 & A1 & W1 & C1). rewrite (bind_eq _ _ _ _ _ E1).
  destruct (IH codes l s1) as (s2 & E2 & Hs2 & P2 & A2 & C2); [cbn in Hl; lia|done|done|rewrite W1; by apply pending_eoi|].
  exists s2. split_and!; [done..| |congruence]. rewrite A2, A1. cbn [fold_left]. unfold byte_ok in Hc. by rewrite wrap_small.
Qed.

Lemma serial_silent s l : pending (kb_hw s) l ->
  exists h, serial_read_char SERIAL_COM1 s = Some (0, with_hw s h) /\ pending h l.
Proof.
  intros Hp. destruct (pending_serial _ _ Hp) as (v & h & E & Hv & Hp'). exists h. split; [|done]. unfold serial_read_char.
  rewrite (bind_eq _ _ _ false (with_hw s h)); [done|]. unfold serial_received.
  rewrite (bind_eq _ _ _ (u8 v) (with_hw s h)); [by rewrite Hv|]. unfold inb. change (u16 (SERIAL_COM1 + 5)) with (SERIAL_COM1 + 5). cbn [hw kb_machine]. by rewrite E.
Qed.

(** The characters that are in the queue or will be, from the codes still to come. *)
Definition stream (s : kb H) (codes : list Z) : buf := queued s ++ outs codes (abs s).

Lemma round_ok n codes1 codes2 s : length codes1 = n -> kb_ok s -> Forall byte_ok codes1 -> pending (kb_hw s) (codes1 ++ codes2) ->
  (length (stream s (codes1 ++ codes2)) <= 255)%nat ->
  exists s1 s2, interrupts n s = Some (tt, s1) /\ serial_read_char SERIAL_COM1 s1 = Some (0, s2) /\ kb_ok s2 /\
    pending (kb_hw s2) codes2 /\ stream s2 codes2 = stream s (codes1 ++ codes2).
Proof.
  intros Hn Hs Hb Hp Hl. destruct (interrupts_ok n codes1 codes2 s Hn Hs Hb Hp) as (s1 & E1 & Hs1 & P1 & A1 & _).
  destruct (serial_silent s1 codes2 P1) as (h & E2 & P2). exists s1, (with_hw s1 h). split_and!; [done..| |done|].
  { destruct Hs1. by split. }
  unfold stream in *. rewrite outs_app in *. fold (after codes1 (abs s)) in *. rewrite !length_app in Hl.
  replace (abs s) with (with_q (queued s) (abs s)) in A1 by done. rewrite spec_codes_frame in A1 by lia.
  change (queued (with_hw s1 h)) with (a_queue (abs s1)). change (abs (with_hw s1 h)) with (abs s1). rewrite A1. cbn [a_queue with_q]. by rewrite outs_with_q, app_assoc.
Qed.

Lemma pop_stream s codes : kb_ok s -> input_queue_empty s = false ->
  exists ch rest s', queued s = ch :: rest /\ input_queue_pop s = Some (ch, s') /\ kb_ok s' /\ kb_hw s' = kb_hw s /\ stream s codes = ch :: stream s' codes.
Proof.
  intros Hs He. destruct (pop_ok s Hs) as (s' & E & Hs' & Q & R). pose proof (count_eq s Hs) as Hc. rewrite <- length_queued in Hc.
  unfold input_queue_empty in He. apply Z.eqb_neq in He. pose proof (ok_head _ Hs). pose proof (ok_tail _ Hs).
  destruct (queued s) as [|ch rest] eqn:Eq.
  { cbn in Hc. destruct (Z.leb_spec (input_queue_head s) (input_queue_tail s)); lia. }
  exists ch, rest, s'. split_and!; [done..|by rewrite R|]. unfold stream. rewrite Eq, Q. cbn [tail app]. f_equal. f_equal.
  replace (abs s') with (with_q (queued s') (abs s)) by (by rewrite R). by rewrite outs_with_q.
Qed.

Lemma empty_queued s : kb_ok s -> input_queue_empty s = true -> queued s = [].
Proof.
  intros Hs He. apply Z.eqb_eq in He. apply nil_length_inv. rewrite length_queued. unfold count. by rewrite He, Z.sub_diag.
Qed.

(** A schedule that delivers [k] interrupts in any portions and then goes on for more than
    [n] rounds. *)
Definition delivers (sched : list nat) (k n : nat) : Prop :=
  exists a m, sched = a ++ replicate m 0%nat /\ sum_list a = k /\ (n < m)%nat.

Lemma delivers_cons x sched k n : delivers (x :: sched) k n ->
  (x <= k)%nat /\ (delivers sched (k - x) n \/ (x = 0%nat /\ k = 0%nat /\ (n = 0%nat \/ delivers sched 0 (n - 1)))).
Proof.
  intros ([|y a] & m & E & Hs & Hn); cbn in *.
  - destruct m as [|m]; [lia|]. injection E as -> ->. split; [lia|]. right. split; [done|]. split; [done|].
    destruct n as [|n]; [by left|]. right. exists [], m. split; [done|]. split; [done|lia].
  - injection E as -> ->. split; [lia|]. left. exists a, m. split; [done|]. split; [lia|done].
Qed.

Lemma delivers_le sched k n n' : delivers sched k n -> (n' <= n)%nat -> delivers sched k n'.
Proof. intros (a & m & ? & ? & ?) ?. exists a, m. split_and!; [done..|lia]. Qed.

(** Storing one more character of a line. *)
Lemma blit_step (b : buf) (i : nat) (ch : Z) (t : buf) : (i + length (ch :: t) <= length b)%nat -> blit (<[i := ch]> b) (i + 1) t = blit b i (ch :: t).
Proof.
  intros Hl. cbn [length] in Hl. unfold blit. rewrite (Nat.add_1_r i), (take_S_r (<[i:=ch]> b) i ch); [|apply list_lookup_insert_eq; lia].
  rewrite take_insert_ge by lia. rewrite drop_insert_lt by lia. rewrite <- app_assoc. cbn [app length].
  by replace (i + S (length t))%nat with (S i + length t)%nat by lia.
Qed.

Lemma blit_last (b : buf) (i : nat) (ch : Z) : (i < length b)%nat -> <[i := ch]> b = blit b i [ch].
Proof. intros Hi. rewrite insert_take_drop by done. unfold blit. cbn [length app]. by replace (i + 1)%nat with (S i) by lia. Qed.

Lemma get_line_ok (max_len : Z) : forall sched codes s buffer (i : nat) t,
  delivers sched (length codes) (length t) -> kb_ok s -> Forall byte_ok codes -> pending (kb_hw s) codes ->
  stream s codes = t ++ [10] -> Forall (fun ch => byte_ok ch /\ ch <> 10) t -> (length t < 255)%nat ->
  Z.of_nat i < max_len <= Z.of_nat (length buffer) ->
  exists s', get_input_line sched buffer (Z.of_nat i) max_len s
    = Some (Some (blit buffer i (take (Z.to_nat (max_len - 1) - i) t ++ [0])), s') /\ kb_ok s'.
Proof.
  induction sched as [|n sched IH]; intros codes s buffer i t Hd Hs Hb Hp Hst Ht Hl Hi.
  { destruct Hd as ([|] & [|m] & ? & ? & ?); cbn in *; try done; lia. }
  apply delivers_cons in Hd as [Hn Hd]. cbn [get_input_line]. rewrite <- (take_drop n codes) in Hb, Hp, Hst.
  destruct (round_ok n (take n codes) (drop n codes) s) as (s1 & s2 & E1 & E2 & Hs2 & P2 & St2); [rewrite length_take; lia|done|by apply Forall_app in Hb as []|done|rewrite Hst; list_lia|].
  rewrite Hst in St2. rewrite (bind_eq _ _ _ _ _ E1), (bind_eq _ _ _ _ _ E2). change (negb (0 =? 0)) with false. cbn iota. rewrite gets_bind.
  assert (Forall byte_ok (drop n codes)) as Hb2 by (by apply Forall_app in Hb as []).
  destruct (input_queue_empty s2) eqn:He; cbn [negb].
  - destruct Hd as [Hd|(-> & Hk & _)].
    + apply (IH (drop n codes) s2 buffer i t); try done. by rewrite length_drop.
    + apply nil_length_inv in Hk as ->. unfold stream in St2. rewrite (empty_queued _ Hs2 He) in St2. by destruct t.
  - destruct (pop_stream s2 (drop n codes) Hs2 He) as (ch & rest & s3 & _ & E3 & Hs3 & W3 & St3). rewrite (bind_eq _ _ _ _ _ E3). rewrite St2 in St3.
    destruct t as [|c t]; cbn [app] in St3; injection St3 as <- St3.
    + cbn [Z.eqb Pos.eqb]. unfold put. rewrite (lift_bind _ (<[i := 0]> buffer)).
      * exists s3. split; [|done]. rewrite take_nil. cbn [app]. rewrite blit_last by lia. done.
      * unfold wr, blen. destruct (Z.leb_spec 0 (Z.of_nat i)), (Z.ltb_spec (Z.of_nat i) (Z.of_nat (length buffer))); try lia. cbn [andb]. by rewrite Nat2Z.id.
    + apply Forall_cons in Ht as [[Hc Hne] Ht]. destruct (Z.eqb_spec c 10); [done|]. cbn [length] in *.
      assert (delivers sched (length (drop n codes)) (length t)) as Hd'.
      { rewrite length_drop. destruct Hd as [Hd|(-> & -> & [?|Hd])]; [by eapply delivers_le; [exact Hd|lia]|lia|]. by eapply delivers_le; [exact Hd|lia]. }
      destruct (Z.ltb_spec (Z.of_nat i) (max_len - 1)).
      * unfold put. rewrite (lift_bind _ (<[i := c]> buffer)).
        2:{ unfold wr, blen. destruct (Z.leb_spec 0 (Z.of_nat i)), (Z.ltb_spec (Z.of_nat i) (Z.of_nat (length buffer))); try lia. cbn [andb].
            rewrite Nat2Z.id, wrap_small by (unfold byte_ok in Hc; lia). done. }
        replace (Z.of_nat i + 1) with (Z.of_nat (i + 1)) by lia.
        destruct (IH (drop n codes) s3 (<[i := c]> buffer) (i + 1)%nat t) as (s4 & E4 & Hs4); try done; [by rewrite W3|lia|rewrite length_insert; lia|].
        exists s4. split; [|done]. rewrite E4, blit_step by (cbn; rewrite length_app, length_take; cbn; lia). do 3 f_equal.
        replace (Z.to_nat (max_len - 1) - i)%nat with (S (Z.to_nat (max_len - 1) - (i + 1))) by lia. done.
      * destruct (IH (drop n codes) s3 buffer i t) as (s4 & E4 & Hs4); try done; [by rewrite W3|lia|].
        exists s4. split; [|done]. rewrite E4. replace (Z.to_nat (max_len - 1) - i)%nat with 0%nat by lia. done.
Qed.
End Reading.

(** ** Theorems *)

Section Theorems.
Context {H : Type}.

(** C12: a keyboard interrupt.  From every state that satisfies the invariant, the handler
    reads the scan code, ends with exactly one end-of-interrupt to the controller, keeps
    the invariant (the lock free again, the indices in range), and what it has done to the
    modifier keys, the queue and the length of the line is what [spec_code] says: prefixes,
    keys that are held and keys that switch, characters under shift, caps lock and Ctrl,
    backspace, Enter, and the three-byte sequence of a special key.  A character key is
    ignored when 127 characters have been counted since the last Enter, a backspace when
    none has, and a character is lost when 255 are waiting in the queue.  With caps lock a
    letter is in upper case with shift as well as without, other than the comment in
    [scancode_to_ascii] says. *)
Theorem kb_handler_refines `{Ports H} (s : kb H) (c : Z) (h : H) :
  kb_ok s -> dev_inb KEYBOARD_DATA_PORT (kb_hw s) = (c, h) ->
  exists s', kb_handler s = Some (tt, s') /\ kb_ok s' /\ abs s' = spec_code (u8 c) (abs s) /\ kb_hw s' = dev_outb 32 32 h.
Proof. intros Hs E. destruct (kb_handler_ok s c h Hs E) as (s' & ? & ? & ? & ? & ?). by exists s'. Qed.

(** A line typed on the keyboard.  With an empty queue and no key held, the strokes for
    a printable text followed by Enter, delivered by interrupts in any portions between and
    during the rounds of the reader, make [get_input_line] return the text, cut at the size
    of the caller's buffer and terminated; at most 127 characters. *)
Theorem typed_line `{KeyboardPorts H} (s : kb H) (t buffer : buf) (max_len : Z) (sched : list nat) :
  kb_ok s -> queued s = [] -> no_keys (kbd_state s) -> printable_text t ->
  buffer_index s + Z.of_nat (length t) <= 127 ->
  pending (kb_hw s) (type_text t ++ enter_key) ->
  delivers sched (length (type_text t ++ enter_key)) (length t) ->
  0 < max_len <= Z.of_nat (length buffer) ->
  exists s', get_input_line sched buffer 0 max_len s
    = Some (Some (blit buffer 0 (take (Z.to_nat (max_len - 1)) t ++ [0])), s') /\ kb_ok s'.
Proof.
  intros Hs Hq Hk Ht Hn Hp Hd Hm. pose proof (ok_index _ Hs).
  destruct (get_line_ok max_len sched (type_text t ++ enter_key) s buffer 0 t) as (s' & E & Hs'); try done.
  - apply type_codes_bytes. done.
  - unfold stream. rewrite Hq. by apply type_text_ok.
  - eapply Forall_impl; [exact Ht|]. cbn. intros ch ?. unfold byte_ok. lia.
  - lia.
  - exists s'. rewrite Nat.sub_0_r in E. done.
Qed.
End Theorems.

(** ** A keyboard to try the driver on *)

(** The scan codes to come; the serial line is silent. *)
#[global] Instance typed_ports : Ports (list Z) := {|
  dev_inb p h := if p =? 96 then (match h with c :: _ => c | [] => 0 end, tail h) else (0, h);
  dev_outb _ _ h := h; dev_insw _ n h := (replicate (2 * n) 0, h); dev_outsw _ _ h := h; dev_delay _ h := h
|}.
#[global, refine] Instance typed_keyboard : KeyboardPorts (list Z) := {| pending h l := h = l |}.
Proof. - intros h c l ->. by exists l. - done. - intros h l ->. by exists 0, l. Defined.

Definition idle_keys : kbd_state_t := Mk_kbd false false false false false false false false false false.
Definition idle (codes : list Z) : kb (list Z) := Mk_kb codes idle_keys (replicate 256 0) 0 0 (Mk_irq_lock 0 true) 0 false [].

Lemma idle_ok codes : kb_ok (idle codes).
Proof. split; [done|by apply Forall_replicate|cbn; lia..|done|cbn; lia]. Qed.

Lemma kb_handler_refines_witness :
  exists s', kb_handler (idle [30]) = Some (tt, s') /\ kb_ok s' /\ abs s' = spec_code 30 (abs (idle [30])) /\ kb_hw s' = [].
Proof.
  destruct (kb_handler_refines (idle [30]) 30 []) as (s' & E & Hs & Ha & Hh); [apply idle_ok|reflexivity|].
  exists s'. split; [exact E|]. split; [exact Hs|]. split; [exact Ha|exact Hh].
Defined.

(** "dir A:" in three portions. *)
Definition dir_text : buf := [100; 105; 114; 32; 65; 58].

Lemma typed_line_witness :
  exists s', get_input_line ([5; 0; 10; 3]%nat ++ replicate 7 0%nat) (replicate 80 255) 0 80 (idle (type_text dir_text ++ enter_key))
    = Some (Some (dir_text ++ [0] ++ replicate 73 255), s') /\ kb_ok s'.
Proof.
  destruct (typed_line (idle (type_text dir_text ++ enter_key)) dir_text (replicate 80 255) 80 ([5; 0; 10; 3]%nat ++ replicate 7 0%nat)) as (s' & E & Hs').
  - apply idle_ok.
  - reflexivity.
  - by repeat split.
  - by repeat constructor.
  - cbn. lia.
  - reflexivity.
  - exists [5; 0; 10; 3]%nat, 7%nat. split; [reflexivity|]. split; [vm_compute; reflexivity|cbn; lia].
  - rewrite length_replicate. lia.
  - exists s'. split; [|exact Hs']. rewrite E. do 2 f_equal.
Defined.

(** A correction is not applied to the line: the backspace is stored in it. *)
Example backspace_in_line :
  match get_input_line [6; 0; 0; 0]%nat (replicate 8 0) 0 8 (idle ([30; 158; 14; 142] ++ enter_key)) with
  | Some (Some b, _) => b = [97; 8; 0; 0; 0; 0; 0; 0] | _ => False end.
Proof. vm_compute. reflexivity. Qed.
