(* ===== verification/LineEdit.v ===== *)
(** The line editor and the main loop of kernel/shell/command.c, on the console of Video.v,
    the keyboard of Kb.v and the history of History.v.

    The variables of [command_loop] are fields of the state: [input], the end of the text
    [text_end] (buffer_index in C) and [cursor_pos].  What a command does is the parameter
    [run], and the name of the current drive a function of the rest of the system [W].
    The editor is specified as a text before and a text after the cursor, shown in one row
    of the screen. *)

From stdpp Require Import strings.
From S2P Require Import Prelude Effects CString CStdio Vfs Ports CharDev Video History Kb.

Record shell (H W : Type) := Mk_shell {
  sh_con : console H;
  sh_kb : kb unit;                  (* the keyboard driver; the hardware is the console's *)
  sh_hist : history;
  sh_world : W;
  input : buf; text_end : Z; cursor_pos : Z
}.
Arguments Mk_shell {H W}. Arguments sh_con {H W}. Arguments sh_kb {H W}. Arguments sh_hist {H W}. Arguments sh_world {H W}.
Arguments input {H W}. Arguments text_end {H W}. Arguments cursor_pos {H W}.

Definition with_con {H W} (s : shell H W) (c : console H) : shell H W := Mk_shell c (sh_kb s) (sh_hist s) (sh_world s) (input s) (text_end s) (cursor_pos s).
Definition with_hist {H W} (s : shell H W) (h : history) : shell H W := Mk_shell (sh_con s) (sh_kb s) h (sh_world s) (input s) (text_end s) (cursor_pos s).
Definition with_line {H W} (s : shell H W) (b : buf) (n c : Z) : shell H W := Mk_shell (sh_con s) (sh_kb s) (sh_hist s) (sh_world s) b n c.

(** The keyboard driver on other hardware. *)
Definition kb_on {H H'} (k : kb H) (h : H') : kb H' :=
  Mk_kb h (kbd_state k) (input_queue k) (input_queue_head k) (input_queue_tail k) (input_queue_lock k) (Kb.buffer_index k) (enter_pressed k) (echo k).

(** Codes of the keys behind the [ESC \[] that the keyboard driver queues. *)
Definition KEY_UP : Z := 72.
Definition KEY_DOWN : Z := 80.
Definition KEY_LEFT : Z := 75.
Definition KEY_RIGHT : Z := 77.
Definition KEY_HOME : Z := 71.
Definition KEY_END : Z := 79.
Definition KEY_DELETE : Z := 83.

Section Editor.
Context {H W : Type} `{Ports H} (fuel : nat) (drive_name : W -> option buf).
Abbreviation A := (M (shell H W)).

Definition on_con {X} (m : M (console H) X) : A X := fun s =>
  match m (sh_con s) with Some (x, c) => Some (x, with_con s c) | None => None end.
Definition on_kb {X} (m : M (kb H) X) : A X := fun s =>
  match m (kb_on (sh_kb s) (con_hw (sh_con s))) with
  | Some (x, k) => Some (x, Mk_shell (with_hw (sh_con s) (kb_hw k)) (kb_on k tt) (sh_hist s) (sh_world s) (input s) (text_end s) (cursor_pos s))
  | None => None
  end.

(** [putchar] in the kernel, and [printf] on top of it. *)
Definition putchar (c : Z) : A unit := on_con (display_putchar fuel c).
Fixpoint put_text (t : buf) : A unit := match t with [] => mret tt | c :: t' => _ ← putchar c; put_text t' end.
Definition print (format : buf) (args : list va_word) : A unit := t ← lift (printf format args); put_text t.

(** Without a current drive, or with one without a name, the function calls itself for ever. *)
Definition show_prompt : A unit :=
  w ← gets sh_world;
  match drive_name w with
  | None => undef
  | Some name => c ← lift (rd name 0); if c =? 0 then undef else print (lit "%s> ") [VStr (Some name)]
  end.

Definition get_input (i : Z) : A Z := b ← gets input; lift (rd b i).
Definition set_input (i v : Z) : A unit :=
  b ← gets input; b ← lift (wr b i v); modify (fun s => with_line s b (text_end s) (cursor_pos s)).
Definition set_pos (n c : Z) : A unit := modify (fun s => with_line s (input s) n c).
Definition move_left (n : Z) : A unit := for_up 0 (Z.to_nat n) (fun _ => on_con vga_move_cursor_left).
(** [for (i = lo; i < hi; i++) putchar(buffer\[i\])] *)
Definition put_range (lo hi : Z) : A unit := for_up lo (Z.to_nat (hi - lo)) (fun i => c ← get_input i; putchar c).

Definition replace_current_line (new_content : buf) : A unit :=
  _ ← on_con vga_save_cursor;
  _ ← on_con vga_clear_line;
  _ ← show_prompt;
  len ← lift (strlen new_content);
  let len := if 127 <=? len then 127 else len in
  b ← gets input;
  b ← lift (strncpy b new_content (Z.to_nat len));
  _ ← modify (fun s => with_line s b (text_end s) (cursor_pos s));
  _ ← set_input len 0;
  _ ← put_range 0 len;
  set_pos len len.

(** The key behind the escape sequence; whether it was one. *)
Definition special_key (key_code : Z) : A bool :=
  n ← gets text_end;
  c ← gets cursor_pos;
  if key_code =? KEY_UP then
    h ← gets sh_hist;
    r ← lift (history_get_prev h);
    _ ← modify (fun s => with_hist s (snd r));
    _ ← match fst r with Some prev => replace_current_line prev | None => mret tt end;
    mret true
  else if key_code =? KEY_DOWN then
    h ← gets sh_hist;
    r ← lift (history_get_next h);
    _ ← modify (fun s => with_hist s (snd r));
    _ ← match fst r with Some next => replace_current_line next | None => mret tt end;
    mret true
  else if key_code =? KEY_LEFT then
    _ ← (if 0 <? c then _ ← set_pos n (c - 1); on_con vga_move_cursor_left else mret tt); mret true
  else if key_code =? KEY_RIGHT then
    _ ← (if c <? n then _ ← set_pos n (c + 1); on_con vga_move_cursor_right else mret tt); mret true
  else if key_code =? KEY_HOME then
    _ ← for_up 0 (Z.to_nat c) (fun i => _ ← set_pos n (c - i - 1); on_con vga_move_cursor_left); mret true
  else if key_code =? KEY_END then
    _ ← for_up 0 (Z.to_nat (n - c)) (fun i => _ ← set_pos n (c + i + 1); on_con vga_move_cursor_right); mret true
  else if key_code =? KEY_DELETE then
    _ ← (if c <? n then
           _ ← for_up c (Z.to_nat (n - 1 - c)) (fun i => x ← get_input (i + 1); set_input i x);
           _ ← set_pos (n - 1) c;
           _ ← set_input (n - 1) 0;
           _ ← put_range c (n - 1);
           _ ← putchar 32;
           move_left (n - 1 - c + 1)
         else mret tt);
    mret true
  else mret false.

Definition handle_escape_sequence : A bool :=
  seq1 ← on_kb input_queue_pop;
  if seq1 =? 0 then mret false else
  if negb (seq1 =? 91) then mret false else
  key_code ← on_kb input_queue_pop;
  if key_code =? 0 then mret false else special_key key_code.

Definition handle_ctrl_key (ch : Z) : A bool :=
  n ← gets text_end;
  c ← gets cursor_pos;
  if ch =? 3 then
    _ ← print (lit_bytes "^C" ++ [10; 0]) [];
    _ ← set_input 0 0;
    _ ← set_pos 0 0;
    _ ← modify (fun s => with_hist s (history_reset (sh_hist s)));
    _ ← show_prompt; mret true
  else if ch =? 4 then
    if n =? 0 then
      _ ← print (lit_bytes "^D" ++ 10 :: lit_bytes "(Ctrl+D pressed - use 'exit' to quit)" ++ [10; 0]) [];
      _ ← show_prompt; mret true
    else mret false
  else if ch =? 12 then
    _ ← on_con clear_screen;
    _ ← show_prompt;
    _ ← put_range 0 n;
    _ ← move_left (n - c); mret true
  else if ch =? 21 then
    _ ← on_con vga_clear_line;
    _ ← show_prompt;
    _ ← set_input 0 0;
    _ ← set_pos 0 0; mret true
  else if ch =? 11 then
    _ ← set_input c 0;
    _ ← set_pos c c;
    _ ← on_con vga_clear_from_cursor; mret true
  else mret false.

(** ** The main loop *)

Context (run : buf -> A unit).

Definition enter_key : A unit :=
  n ← gets text_end;
  _ ← set_input n 0;
  _ ← print [10; 0] [];
  _ ← (if 0 <? n then
         b ← gets input;
         h ← gets sh_hist;
         h ← lift (history_add h (Some b));
         _ ← modify (fun s => with_hist s h);
         run b
       else mret tt);
  _ ← set_pos 0 0;
  _ ← set_input 0 0;
  _ ← modify (fun s => with_hist s (history_reset (sh_hist s)));
  show_prompt.

Definition backspace_key : A unit :=
  n ← gets text_end;
  c ← gets cursor_pos;
  if 0 <? c then
    _ ← for_up (c - 1) (Z.to_nat (n - (c - 1))) (fun i => x ← get_input (i + 1); set_input i x);
    _ ← set_pos (n - 1) (c - 1);
    _ ← set_input (n - 1) 0;
    _ ← on_con vga_backspace;
    _ ← put_range (c - 1) (n - 1);
    _ ← putchar 32;
    move_left (n - 1 - (c - 1) + 1)
  else mret tt.

Definition insert_key (ch : Z) : A unit :=
  n ← gets text_end;
  c ← gets cursor_pos;
  if n <? 255 then
    _ ← (if c <? n then for_down n (Z.to_nat (n - c)) (fun i => x ← get_input (i - 1); set_input i x) else mret tt);
    _ ← set_input c ch;
    _ ← set_pos (n + 1) (c + 1);
    _ ← set_input (n + 1) 0;
    if c + 1 =? n + 1 then putchar ch
    else
      _ ← put_range c (n + 1);
      move_left (n + 1 - (c + 1))
  else mret tt.

(** One character; [ch] is a signed char, given as its byte. *)
Definition command_key (ch : Z) : A unit :=
  if ch =? 0 then _ ← handle_escape_sequence; mret tt
  else if (s8 ch <? 32) && negb (ch =? 10) && negb (ch =? 9) && negb (ch =? 8) then _ ← handle_ctrl_key ch; mret tt
  else if ch =? 10 then enter_key
  else if ch =? 8 then backspace_key
  else if ch =? 9 then mret tt
  else if (32 <=? s8 ch) && (s8 ch <? 127) then insert_key ch
  else mret tt.

(** Before each round of the loop [n] keyboard interrupts arrive; the loop itself never
    ends, and the schedule says how long it is watched. *)
Fixpoint command_loop (sched : list nat) : A unit :=
  match sched with
  | [] => mret tt
  | n :: sched' =>
      _ ← on_kb (interrupts n);
      ch ← on_kb getchar_nonblocking;
      _ ← (if negb (ch =? 0) then command_key ch else mret tt);
      command_loop sched'
  end.

(** The start of [command_loop]: the title, the prompt and an empty line. *)
Definition command_start (alloc : option buf) : A bool :=
  _ ← print (lit_bytes "+++Enhanced shell with line editing and history started" ++ [10; 0]) [];
  _ ← show_prompt;
  match alloc with
  | None => _ ← print (lit_bytes "Failed to allocate memory for input buffer" ++ [10; 0]) []; mret false
  | Some b => _ ← modify (fun s => with_line s b 0 0); _ ← set_input 0 0; mret true
  end.
End Editor.

(** * Properties *)

(** ** A line of text in a row of the screen *)

Definition cells (color : Z) (t : buf) : buf := map (fun c => cell c color) t.

(** The row [y] holds what is in [pre], the text and blanks; the cursor is behind [l]. *)
Definition line_row (color : Z) (pre txt : buf) : buf := pre ++ cells color txt ++ replicate (80 - length pre - length txt) (blank color).
Definition line_screen (color : Z) (rs : list buf) (y : nat) (pre l r : buf) : screen :=
  Mk_screen (<[y := line_row color pre (l ++ r)]> rs) (length pre + length l) y.

Lemma length_cells color t : length (cells color t) = length t.
Proof. apply length_map. Qed.

Lemma cell_space color : cell 32 color = blank color.
Proof. done. Qed.

(** Text over other cells of a row. *)
Lemma print_row_mid color rs y (a b c t : buf) : (y < length rs)%nat -> length b = length t ->
  print_row color t (Mk_screen (<[y := a ++ b ++ c]> rs) (length a) y) = Mk_screen (<[y := a ++ cells color t ++ c]> rs) (length a + length t) y.
Proof.
  intros Hy Hl. unfold print_row, edit_row. cbn [sc_rows sc_x sc_y]. f_equal. fold (cells color t). apply list_eq. intros j. destruct (decide (j = y)) as [->|].
  - rewrite list_lookup_alter_eq, !list_lookup_insert_eq by done. cbn [fmap option_fmap option_map]. f_equal. apply blit_mid; [done|]. by rewrite length_cells.
  - by rewrite list_lookup_alter_ne, !list_lookup_insert_ne by done.
Qed.

Lemma edit_row_insert f x' rs y row x : (y < length rs)%nat -> edit_row f x' (Mk_screen (<[y := row]> rs) x y) = Mk_screen (<[y := f row]> rs) x' y.
Proof.
  intros Hy. unfold edit_row. cbn [sc_rows sc_x sc_y]. f_equal. apply list_eq. intros j. destruct (decide (j = y)) as [->|].
  - by rewrite list_lookup_alter_eq, !list_lookup_insert_eq by done.
  - by rewrite list_lookup_alter_ne, !list_lookup_insert_ne by done.
Qed.

Lemma replicate_split {A} (n m : nat) (x : A) : (m <= n)%nat -> replicate n x = replicate m x ++ replicate (n - m) x.
Proof. intros. rewrite <- replicate_add. f_equal. lia. Qed.

(** The moves of the editor on the screen. *)
Lemma screen_append color rs y pre l ch : (y < length rs)%nat -> (length pre + length l < 80)%nat ->
  print_row color [ch] (line_screen color rs y pre l []) = line_screen color rs y pre (l ++ [ch]) [].
Proof.
  intros Hy Hl. unfold line_screen, line_row. rewrite !app_nil_r.
  rewrite (replicate_split (80 - length pre - length l) 1) by lia. rewrite app_assoc.
  replace (length pre + length l)%nat with (length (pre ++ cells color l)) by (rewrite length_app, length_cells; done).
  rewrite print_row_mid by done. f_equal; [|rewrite !length_app, length_cells; cbn; lia].
  f_equal. unfold cells at 3. rewrite map_app. fold (cells color l). rewrite <- !app_assoc. do 4 f_equal. rewrite length_app. cbn. lia.
Qed.

Lemma screen_insert color rs y pre l r ch : (y < length rs)%nat -> (length pre + length l + length r < 80)%nat ->
  print_row color (ch :: r) (line_screen color rs y pre l r) = line_screen color rs y pre (l ++ ch :: r) [].
Proof.
  intros Hy Hl. unfold line_screen, line_row. rewrite !app_nil_r.
  rewrite (replicate_split (80 - length pre - length (l ++ r)) 1) by (rewrite length_app; lia). unfold cells at 1. rewrite map_app. fold (cells color l) (cells color r).
  replace (pre ++ (cells color l ++ cells color r) ++ replicate 1 (blank color) ++ replicate (80 - length pre - length (l ++ r) - 1) (blank color))
    with ((pre ++ cells color l) ++ (cells color r ++ replicate 1 (blank color)) ++ replicate (80 - length pre - length (l ++ r) - 1) (blank color)) by (by rewrite <- !app_assoc).
  replace (length pre + length l)%nat with (length (pre ++ cells color l)) by (rewrite length_app, length_cells; done).
  rewrite print_row_mid by (rewrite ?length_app, ?length_cells; cbn; lia). f_equal; [|rewrite !length_app, length_cells; cbn; lia].
  f_equal. unfold cells at 3. rewrite map_app. fold (cells color l) (cells color (ch :: r)). rewrite <- !app_assoc. do 4 f_equal. rewrite !length_app. cbn. lia.
Qed.

(** Going left over [r]. *)
Lemma screen_left color rs y pre l r : line_screen color rs y pre l r =
  Mk_screen (sc_rows (line_screen color rs y pre (l ++ r) [])) (sc_x (line_screen color rs y pre (l ++ r) []) - length r) y.
Proof. unfold line_screen. cbn [sc_rows sc_x]. rewrite app_nil_r. f_equal. rewrite length_app. lia. Qed.

(** The rest [r] of the line printed one column further left, and a blank behind it. *)
Lemma screen_close_up color rs y pre l r v : (y < length rs)%nat -> (length pre + length l + length r < 80)%nat ->
  print_row color (r ++ [32]) (Mk_screen (<[y := pre ++ cells color l ++ v :: cells color r ++ replicate (80 - length pre - length l - length r - 1) (blank color)]> rs)
    (length pre + length l) y) = Mk_screen (sc_rows (line_screen color rs y pre l r)) (length pre + length l + length r + 1) y.
Proof.
  intros Hy Hl. set (rest := replicate _ _).
  replace (pre ++ cells color l ++ v :: cells color r ++ rest) with ((pre ++ cells color l) ++ (v :: cells color r) ++ rest) by (by rewrite <- app_assoc).
  replace (length pre + length l)%nat with (length (pre ++ cells color l)) by (rewrite length_app, length_cells; done).
  rewrite print_row_mid by (rewrite ?length_app; cbn; rewrite ?length_cells; lia). unfold line_screen. cbn [sc_rows]. f_equal; [|rewrite !length_app, length_cells; cbn; lia].
  f_equal. unfold line_row, cells. rewrite !map_app. fold (cells color l) (cells color r). cbn [map]. rewrite cell_space, <- !app_assoc. do 3 f_equal. cbn [app].
  rewrite length_app. replace (80 - length pre - (length l + length r))%nat with (S (80 - length pre - length l - length r - 1)) by lia. done.
Qed.

Lemma line_row_mid color pre l c r : line_row color pre (l ++ c :: r) =
  pre ++ cells color l ++ cell c color :: cells color r ++ replicate (80 - length pre - length l - length r - 1) (blank color).
Proof.
  unfold line_row, cells. rewrite map_app. cbn [map]. rewrite <- !app_assoc. cbn [app]. do 4 f_equal. f_equal. rewrite length_app. cbn [length]. lia.
Qed.

Lemma screen_erase_back color rs y pre l c r : (y < length rs)%nat -> (length pre + length l + length r < 80)%nat ->
  erase_back color (line_screen color rs y pre (l ++ [c]) r) =
    Mk_screen (<[y := pre ++ cells color l ++ blank color :: cells color r ++ replicate (80 - length pre - length l - length r - 1) (blank color)]> rs) (length pre + length l) y.
Proof.
  intros Hy Hl. unfold line_screen. rewrite <- app_assoc. cbn [app]. rewrite line_row_mid. unfold erase_back. cbn [sc_x sc_y sc_rows].
  rewrite length_app. cbn [length]. replace (length pre + (length l + 1))%nat with (S (length pre + length l)) by lia. cbn match.
  set (row := pre ++ _). pose proof (edit_row_insert (<[(length pre + length l)%nat := blank color]>) (length pre + length l) rs y row 0 Hy) as E.
  unfold edit_row in E. cbn [sc_rows sc_y] in E. rewrite E. do 2 f_equal. unfold row. rewrite app_assoc.
  rewrite insert_app_r_alt by (rewrite length_app, length_cells; lia). rewrite length_app, length_cells, Nat.sub_diag. cbn. by rewrite <- app_assoc.
Qed.

Lemma screen_kill color rs y pre l r : (y < length rs)%nat -> (length pre + length l + length r <= 80)%nat ->
  erase_right color (line_screen color rs y pre l r) = line_screen color rs y pre l [].
Proof.
  intros Hy Hl. unfold erase_right, line_screen. cbn [sc_x]. rewrite edit_row_insert by done. rewrite app_nil_r. do 2 f_equal.
  unfold line_row, cells. rewrite map_app. fold (cells color l) (cells color r). rewrite <- app_assoc, (app_assoc pre).
  rewrite take_app_length' by (rewrite length_app, length_cells; lia). rewrite <- app_assoc. do 3 f_equal. lia.
Qed.

Lemma screen_new_prompt color rs y pre l r p : (y < length rs)%nat -> (length p < 80)%nat ->
  print_row color p (erase_line color (line_screen color rs y pre l r)) = line_screen color rs y (cells color p) [] [].
Proof.
  intros Hy Hp. unfold erase_line, line_screen. rewrite edit_row_insert by done. rewrite (replicate_split 80 (length p)) by lia.
  pose proof (print_row_mid color rs y [] (replicate (length p) (blank color)) (replicate (80 - length p) (blank color)) p Hy ltac:(apply length_replicate)) as E.
  cbn [app length] in E. rewrite E. unfold line_row. cbn [app length]. rewrite length_cells. cbn [cells map app]. f_equal; [|by rewrite Nat.add_0_r].
  by rewrite Nat.sub_0_r.
Qed.

(** ** The console under the editor *)

Section Console.
Context {H W : Type} `{Terminal H} (fuel : nat) (Hfuel : (tx_max < fuel)%nat).
Implicit Types s : shell H W.

(** The console [c] in colour [color] shows [t], and is not inside an escape sequence. *)
Definition at_screen (c : console H) (color : Z) (t : screen) : Prop := con_ok c /\ mode_of c = Text /\ current_color c = color /\ screen_of c = t.

Lemma on_con_at (f : M (console H) unit) g s color t : draws f g -> at_screen (sh_con s) color t ->
  exists c, on_con f s = Some (tt, with_con s c) /\ at_screen c color (g color t).
Proof using Type.
  clear Hfuel.
  intros Hf ([Hs Ha] & Hm & Hc & Ht). destruct (Hf (sh_con s) Hs) as (c & E & Hd & Hsc). exists c. unfold on_con. rewrite E. split; [done|].
  destruct (drawn_ansi _ _ Ha Hd) as [Ha' Em]. destruct Hd as (Hs' & Hc' & _). rewrite Hc, Ht in Hsc. split; [by split|]. split_and!; [congruence..|done].
Qed.

Lemma put_text_at text : printable text -> forall s color t, at_screen (sh_con s) color t -> (sc_x t + length text < 80)%nat ->
  exists c, put_text fuel text s = Some (tt, with_con s c) /\ at_screen c color (print_row color text t).
Proof using Hfuel.
  intros Hp s color t (Hok & Hm & Hc & Ht) Hl. subst color t.
  pose proof (spec_text_print text Hp (term_of (sh_con s)) (screen_of_wf _ (proj1 Hok)) Hm Hl) as E. cbn [t_screen t_color term_of] in E.
  set (t' := print_row _ _ _) in *. set (color := current_color (sh_con s)) in *. clearbody t' color. clear Hl Hm.
  revert s Hok E. induction text as [|ch text IH]; intros s Hok E; cbn [put_text spec_text] in *.
  - exists (sh_con s). split; [by destruct s|]. apply (inj Some) in E. split; [done|].
    split; [exact (f_equal t_mode E)|]. split; [exact (f_equal t_color E)|exact (f_equal t_screen E)].
  - destruct (spec_char ch (term_of (sh_con s))) as [t1|] eqn:E1; [|done]. inversion_clear Hp.
    destruct (vga_write_char_ok fuel (sh_con s) ch t1 Hok ltac:(unfold byte_ok; lia) Hfuel E1) as (c & Ec & Hc & Et & _).
    erewrite bind_eq by (unfold putchar, on_con, display_putchar; rewrite Ec; reflexivity).
    subst t1. destruct (IH ltac:(done) (with_con s c) Hc E) as (c' & E' & Hc'). exists c'. done.
Qed.

Lemma move_left_at n s color t : at_screen (sh_con s) color t ->
  exists c, move_left (Z.of_nat n) s = Some (tt, with_con s c) /\ at_screen c color (Mk_screen (sc_rows t) (sc_x t - n) (sc_y t)).
Proof using Type.
  clear Hfuel.
  unfold move_left. rewrite Nat2Z.id. generalize 0. revert s t. induction n as [|n IH]; intros s t i Ht; cbn [for_up].
  - exists (sh_con s). split; [by destruct s|]. rewrite Nat.sub_0_r. by destruct t.
  - destruct (on_con_at _ _ s color t left_draws Ht) as (c & E & Hc). rewrite (bind_eq _ _ _ _ _ E).
    destruct (IH (with_con s c) _ (i + 1) Hc) as (c' & E' & Hc'). exists c'. split; [exact E'|].
    cbn [go_left sc_rows sc_x sc_y] in Hc'. by replace (sc_x t - S n)%nat with (sc_x t - 1 - n)%nat by lia.
Qed.

Lemma put_text_app a b s : put_text fuel (a ++ b) s = (_ ← put_text fuel a; put_text fuel b) s.
Proof using Type. clear Hfuel. revert s. induction a as [|c a IH]; intros s; cbn [app put_text]; [done|]. rewrite bind_assoc. unfold mbind, M_bind. destruct (putchar fuel c s) as [[[] s1]|]; [|done]. apply IH. Qed.

(** Printing part of the buffer is printing its characters: they do not change. *)
Lemma put_range_text n : forall s lo, (lo + n <= length (input s))%nat -> put_range fuel (Z.of_nat lo) (Z.of_nat (lo + n)) s = put_text fuel (slice (input s) lo n) s.
Proof using Type.
  clear Hfuel.
  unfold put_range. intros s lo. replace (Z.to_nat (Z.of_nat (lo + n) - Z.of_nat lo)) with n by lia. revert s lo. induction n as [|n IH]; intros s lo Hl; cbn [for_up]; [done|].
  destruct (lookup_lt_is_Some_2 (input s) lo) as [v Ev]; [lia|]. rewrite (slice_cons _ _ _ _ Ev). cbn [put_text].
  assert (get_input (Z.of_nat lo) s = Some (v, s)) as E.
  { unfold get_input. rewrite gets_bind. unfold rd. destruct (Z.ltb_spec (Z.of_nat lo) 0); [lia|]. rewrite Nat2Z.id, Ev. done. }
  rewrite bind_assoc, (bind_eq _ _ _ _ _ E). unfold mbind at 1 3, M_bind at 1 3. unfold putchar, on_con. destruct (display_putchar fuel v (sh_con s)) as [[x c]|]; [|done].
  replace (Z.of_nat lo + 1) with (Z.of_nat (S lo)) by lia. by rewrite IH by (cbn; lia).
Qed.
End Console.

(** ** The buffer of the line *)

Section Buffer.
Context {H W : Type}.
Implicit Types s : shell H W.

Definition with_input s (b : buf) : shell H W := with_line s b (text_end s) (cursor_pos s).

Lemma get_input_ok s i v : input s !! i = Some v -> get_input (Z.of_nat i) s = Some (v, s).
Proof. intros E. unfold get_input. rewrite gets_bind. unfold rd. destruct (Z.ltb_spec (Z.of_nat i) 0); [lia|]. by rewrite Nat2Z.id, E. Qed.

Lemma set_input_ok s i v : byte_ok v -> (i < length (input s))%nat -> set_input (Z.of_nat i) v s = Some (tt, with_input s (<[i := v]> (input s))).
Proof.
  intros Hv Hi. unfold set_input. rewrite gets_bind. unfold wr, blen. rewrite (proj2 (Z.leb_le 0 _)), (proj2 (Z.ltb_lt _ _)) by lia. cbn [andb].
  unfold byte_ok in Hv. by rewrite Nat2Z.id, wrap_small by lia.
Qed.

Lemma with_input_same s : with_input s (input s) = s.
Proof. by destruct s. Qed.

Lemma shift_down_ok s lo n : bytes_ok (input s) -> (lo + 1 + n <= length (input s))%nat ->
  for_up (Z.of_nat lo) n (fun i => x ← get_input (i + 1); set_input i x) s = Some (tt, with_input s (blit (input s) lo (slice (input s) (lo + 1) n))).
Proof.
  intros Hb Hl. rewrite (for_up_ext _ (fun i => x ← get_input (0 + i + Z.of_nat 1); set_input (0 + i) x)) by done.
  apply (copy_down_loop input with_input get_input set_input byte_ok); try done; [apply with_input_same|apply get_input_ok|apply set_input_ok|lia].
Qed.

Lemma shift_up_ok s hi n : bytes_ok (input s) -> (n <= hi)%nat -> (hi < length (input s))%nat ->
  for_down (Z.of_nat hi) n (fun i => x ← get_input (i - 1); set_input i x) s = Some (tt, with_input s (blit (input s) (hi + 1 - n) (slice (input s) (hi - n) n))).
Proof.
  intros Hb Hn Hh. rewrite (for_down_ext _ (fun i => x ← get_input (0 + i - 1); set_input (0 + i) x)) by done.
  apply (copy_up_loop input with_input get_input set_input byte_ok); try done; [apply with_input_same|apply get_input_ok|apply set_input_ok].
Qed.

(** The text of the buffer with a character more, and with one less. *)
Lemma buffer_insert (l r rest : buf) ch (b := l ++ r ++ 0 :: rest) : (1 <= length rest)%nat ->
  exists rest', <[S (length l + length r) := 0]> (<[length l := ch]> (blit b (length l + 1) r)) = l ++ ch :: r ++ 0 :: rest'.
Proof.
  intros Hr. destruct rest as [|z rest]; [cbn in Hr; lia|]. exists rest. unfold b. replace (l ++ r ++ 0 :: z :: rest) with (l ++ (r ++ [0]) ++ z :: rest) by (by rewrite <- app_assoc).
  destruct (r ++ [0]) as [|q0 q] eqn:Eq; [by destruct r|]. assert (length q = length r) as Hq by (apply (f_equal length) in Eq; rewrite length_app in Eq; cbn in Eq; lia).
  replace (l ++ (q0 :: q) ++ z :: rest) with ((l ++ [q0]) ++ q ++ z :: rest) by (rewrite <- !app_assoc; done).
  rewrite blit_mid by (rewrite ?length_app; cbn; lia). rewrite <- app_assoc. cbn [app]. rewrite insert_app_r_alt by lia. rewrite Nat.sub_diag. cbn [insert list_insert].
  rewrite insert_app_r_alt by lia. replace (S (length l + length r) - length l)%nat with (S (length r)) by lia. cbn [insert list_insert].
  rewrite (insert_app_r_alt r) by lia. by rewrite Nat.sub_diag.
Qed.

Lemma buffer_delete (l r rest : buf) c (b := l ++ c :: r ++ 0 :: rest) :
  <[(length l + length r)%nat := 0]> (blit b (length l) (slice b (length l + 1) (length r + 1))) = l ++ r ++ 0 :: 0 :: rest.
Proof.
  assert (slice b (length l + 1) (length r + 1) = r ++ [0]) as ->.
  { unfold b, slice. rewrite drop_app_ge by lia. replace (length l + 1 - length l)%nat with 1%nat by lia. cbn [drop].
    replace (r ++ 0 :: rest) with ((r ++ [0]) ++ rest) by (by rewrite <- app_assoc). apply take_app_length'. rewrite length_app. done. }
  unfold b. destruct (r ++ [0]) as [|q0 q] eqn:Eq; [by destruct r|].
  replace (l ++ c :: r ++ 0 :: rest) with (l ++ (c :: r) ++ 0 :: rest) by done. rewrite <- Eq. rewrite blit_mid by (rewrite ?length_app; cbn; lia).
  rewrite insert_app_r_alt by lia. replace (length l + length r - length l)%nat with (length r) by lia. rewrite <- app_assoc.
  rewrite insert_app_r_alt by lia. rewrite Nat.sub_diag. done.
Qed.
End Buffer.

Lemma s8_low ch : 0 <= ch < 128 -> s8 ch = ch.
Proof. intros. apply swrap_small; lia. Qed.
Lemma s8_high ch : 128 <= ch < 256 -> s8 ch = ch - 256.
Proof. intros. unfold swrap, wrap. change (2 ^ (8 - 1)) with 128. change (2 ^ 8) with 256. replace (ch + 128) with (ch - 128 + 1 * 256) by lia. rewrite Z.mod_add, Z.mod_small by lia. lia. Qed.

(** ** The keys *)

Section Keys.
Context {H W : Type} `{Terminal H} (fuel : nat) (Hfuel : (tx_max < fuel)%nat).
Implicit Types s : shell H W.

(** The line is [l ++ r] with the cursor between the two: in the buffer, in the variables
    and in row [y] of the screen behind the prompt [pre]. *)
Record editing (color : Z) (rs : list buf) (y : nat) (pre l r : buf) s : Prop := Mk_editing {
  ed_screen : at_screen (sh_con s) color (line_screen color rs y pre l r);
  ed_rows : (y < length rs)%nat;
  ed_input : exists rest, input s = l ++ r ++ 0 :: rest;
  ed_length : length (input s) = 256%nat;
  ed_bytes : bytes_ok (input s);
  ed_end : text_end s = Z.of_nat (length l + length r);
  ed_cursor : cursor_pos s = Z.of_nat (length l);
  ed_printable : printable (l ++ r);
  ed_fits : (length pre + length l + length r < 80)%nat
}.

(** What the editor does not touch. *)
Definition same_rest s s' : Prop := sh_kb s' = sh_kb s /\ sh_hist s' = sh_hist s /\ sh_world s' = sh_world s.

Lemma printable_bytes t : printable t -> bytes_ok t.
Proof. intros Ht. eapply Forall_impl; [exact Ht|]. unfold byte_ok. cbn. lia. Qed.

(** Room for a character behind [l]. *)
Lemma make_room_ok s (l r rest : buf) : input s = l ++ r ++ 0 :: rest -> bytes_ok (input s) ->
  (if Z.of_nat (length l) <? Z.of_nat (length l + length r)
   then for_down (Z.of_nat (length l + length r)) (Z.to_nat (Z.of_nat (length l + length r) - Z.of_nat (length l))) (fun i => x ← get_input (i - 1); set_input i x)
   else mret tt) s = Some (tt, with_input s (blit (input s) (length l + 1) r)).
Proof.
  intros Hin Hby. destruct (Z.ltb_spec (Z.of_nat (length l)) (Z.of_nat (length l + length r))).
  - replace (Z.to_nat (Z.of_nat (length l + length r) - Z.of_nat (length l))) with (length r) by lia.
    rewrite shift_up_ok by (done || lia || (rewrite Hin, !length_app; cbn; lia)). replace (length l + length r + 1 - length r)%nat with (length l + 1)%nat by lia.
    replace (length l + length r - length r)%nat with (length l) by lia.
    assert (slice (input s) (length l) (length r) = r) as -> by (rewrite Hin; unfold slice; rewrite drop_app_length; by apply take_app_length'). done.
  - destruct r; [|cbn in *; lia]. by rewrite blit_nil, with_input_same.
Qed.

Lemma insert_key_ok color rs y pre l r s ch : editing color rs y pre l r s -> 32 <= ch < 127 -> (length pre + length l + length r + 1 < 80)%nat ->
  exists s', insert_key fuel ch s = Some (tt, s') /\ editing color rs y pre (l ++ [ch]) r s' /\ same_rest s s'.
Proof using Hfuel.
  intros [Hsc Hrs [rest Hin] Hlen Hby Hend Hcur Hpr Hfit] Hch Hroom.
  assert (1 <= length rest)%nat as Hrest by (rewrite Hin in Hlen; rewrite !length_app in Hlen; cbn in Hlen; lia).
  unfold insert_key. rewrite !gets_bind. rewrite Hend, Hcur. destruct (Z.ltb_spec (Z.of_nat (length l + length r)) 255); [|lia].
  rewrite (bind_eq _ _ _ _ _ (make_room_ok s l r rest Hin Hby)).
  assert (length (blit (input s) (length l + 1) r) = 256%nat) as Hlb by (rewrite length_blit; lia).
  erewrite bind_eq by (apply (set_input_ok _ (length l) ch); [unfold byte_ok; lia|cbn; lia]). unfold set_pos. rewrite modify_bind.
  replace (Z.of_nat (length l + length r) + 1) with (Z.of_nat (S (length l + length r))) by lia.
  erewrite bind_eq by (apply (set_input_ok _ (S (length l + length r)) 0); [done|cbn; rewrite length_insert; lia]).
  cbn [input with_input with_line text_end cursor_pos]. destruct (buffer_insert l r rest ch Hrest) as (rest' & Eb). rewrite <- Hin in Eb. rewrite Eb.
  set (b := l ++ ch :: r ++ 0 :: rest') in *. match goal with |- context [(if _ then _ else _) ?x] => set (s1 := x) end. assert (at_screen (sh_con s1) color (line_screen color rs y pre l r)) as Hs1 by done.
  assert (forall c, at_screen c color (line_screen color rs y pre (l ++ [ch]) r) -> editing color rs y pre (l ++ [ch]) r (with_con s1 c) /\ same_rest s (with_con s1 c)) as Hdone.
  { intros c Hc. split; [|done]. split; cbn; try done.
    - exists rest'. unfold b. by rewrite <- app_assoc.
    - apply (f_equal length) in Eb. by rewrite !length_insert, Hlb in Eb.
    - rewrite <- Eb. apply Forall_insert; [|done]. apply Forall_insert; [|unfold byte_ok; lia]. apply bytes_ok_blit; [done|]. apply printable_bytes, bytes_ok_app in Hpr as [_ Hpr]. exact Hpr.
    - rewrite length_app. cbn. lia.
    - rewrite length_app. cbn. lia.
    - apply Forall_app in Hpr as [Hpl Hpr]. rewrite <- app_assoc. apply Forall_app. split; [done|]. by constructor.
    - rewrite length_app. cbn. lia. }
  destruct (Z.eqb_spec (Z.of_nat (length l) + 1) (Z.of_nat (S (length l + length r)))).
  - destruct r; [|cbn in *; lia]. destruct (put_text_at fuel Hfuel [ch] ltac:(by constructor) s1 color _ Hs1) as (c & E & Hc); [cbn; lia|].
    rewrite screen_append in Hc by (done || cbn in *; lia). exists (with_con s1 c). split; [|by apply Hdone].
    cbn [put_text] in E. destruct (putchar fuel ch s1) as [[[] ?]|] eqn:Ep; unfold mbind, M_bind in E; rewrite Ep in E; [exact E|done].
  - replace (S (length l + length r)) with (length l + (length (ch :: r)))%nat by (cbn; lia).
    assert (slice (input s1) (length l) (length (ch :: r)) = ch :: r) as Hs2.
    { change (input s1) with b. unfold b, slice. rewrite drop_app_length. change (ch :: r ++ 0 :: rest') with ((ch :: r) ++ 0 :: rest'). by apply take_app_length'. }
    assert (length b = 256%nat) as Hbl by (apply (f_equal length) in Eb; by rewrite !length_insert, Hlb in Eb).
    assert (printable (ch :: r)) as Hpc by (apply Forall_app in Hpr as [_ Hpr]; by constructor).
    destruct (put_text_at fuel Hfuel (ch :: r) Hpc s1 color _ Hs1) as (c & E & Hc); [cbn; lia|]. rewrite <- Hs2 in E.
    rewrite <- (put_range_text fuel (length (ch :: r)) s1 (length l)) in E by (change (input s1) with b; cbn; lia). rewrite (bind_eq _ _ _ _ _ E).
    rewrite screen_insert in Hc by (done || lia). replace (Z.of_nat (length l + length (ch :: r)) - (Z.of_nat (length l) + 1)) with (Z.of_nat (length r)) by (cbn; lia).
    destruct (move_left_at (length r) (with_con s1 c) color _ Hc) as (c' & E' & Hc'). rewrite (screen_left color rs y pre (l ++ [ch]) r) in Hdone. rewrite <- !app_assoc in Hdone.
    exists (with_con s1 c'). split; [exact E'|]. by apply Hdone.
Qed.

(** The rest of the line reprinted one column further left, from the cell of the removed character. *)
Lemma close_up_ok s (l r rest : buf) color rs y pre v : input s = l ++ r ++ 0 :: rest -> (y < length rs)%nat -> printable r -> (length pre + length l + length r + 1 < 80)%nat ->
  at_screen (sh_con s) color (Mk_screen (<[y := pre ++ cells color l ++ v :: cells color r ++ replicate (80 - length pre - length l - length r - 1) (blank color)]> rs) (length pre + length l) y) ->
  exists c, (_ ← put_range fuel (Z.of_nat (length l)) (Z.of_nat (length l + length r)); _ ← putchar fuel 32; move_left (Z.of_nat (length r + 1))) s = Some (tt, with_con s c) /\
    at_screen c color (line_screen color rs y pre l r).
Proof using Hfuel.
  intros Hin Hy Hp Hfit Hs. assert (slice (input s) (length l) (length r) = r) as Hsr by (rewrite Hin; unfold slice; rewrite drop_app_length; by apply take_app_length').
  assert (printable (r ++ [32])) as Hp' by (apply Forall_app; split; [done|]; by constructor).
  destruct (put_text_at fuel Hfuel (r ++ [32]) Hp' s color _ Hs) as (c & E & Hc); [rewrite length_app; cbn; lia|]. rewrite screen_close_up in Hc by (done || lia).
  rewrite put_text_app in E. apply bind_inv in E as ([] & s1 & E1 & E2). cbn [put_text] in E2. apply bind_inv in E2 as ([] & s2 & E2 & E3). injection E3 as ->.
  rewrite <- Hsr in E1. rewrite <- put_range_text in E1 by (rewrite Hin, !length_app; lia). rewrite (bind_eq _ _ _ _ _ E1), (bind_eq _ _ _ _ _ E2).
  destruct (move_left_at (length r + 1) (with_con s c) color _ Hc) as (c' & E' & Hc'). exists c'. split; [exact E'|].
  cbn [sc_x sc_rows sc_y] in Hc'. replace (length pre + length l + length r + 1 - (length r + 1))%nat with (length pre + length l)%nat in Hc' by lia. exact Hc'.
Qed.

Lemma backspace_key_ok color rs y pre l c r s : editing color rs y pre (l ++ [c]) r s ->
  exists s', backspace_key fuel s = Some (tt, s') /\ editing color rs y pre l r s' /\ same_rest s s'.
Proof using Hfuel.
  intros [Hsc Hrs [rest Hin] Hlen Hby Hend Hcur Hpr Hfit]. rewrite <- app_assoc in Hin, Hpr. cbn [app] in Hin, Hpr. rewrite length_app in *. cbn [length] in *.
  unfold backspace_key. rewrite !gets_bind, Hend, Hcur. destruct (Z.ltb_spec 0 (Z.of_nat (length l + 1))); [|lia].
  replace (Z.of_nat (length l + 1) - 1) with (Z.of_nat (length l)) by lia.
  replace (Z.to_nat (Z.of_nat (length l + 1 + length r) - Z.of_nat (length l))) with (length r + 1)%nat by lia.
  assert (length l + 1 + (length r + 1) <= 256)%nat as Hb by (rewrite <- Hlen, Hin, !length_app; cbn [length]; rewrite length_app; cbn [length]; lia).
  erewrite bind_eq by (apply shift_down_ok; [done|lia]). unfold set_pos. rewrite modify_bind.
  replace (Z.of_nat (length l + 1 + length r) - 1) with (Z.of_nat (length l + length r)) by lia.
  assert (length (blit (input s) (length l) (slice (input s) (length l + 1) (length r + 1))) = 256%nat) as Hlb by (rewrite length_blit; rewrite ?length_slice; lia).
  erewrite bind_eq by (apply (set_input_ok _ (length l + length r) 0); [done|cbn; lia]). cbn [input with_input with_line].
  pose proof (buffer_delete l r rest c) as Ebuf. cbv zeta in Ebuf. rewrite <- Hin in Ebuf. cbn [with_line input] in Ebuf |- *. rewrite Ebuf.
  match goal with |- context [(_ ≫= _) ?x] => set (s1 := x) end.
  assert (at_screen (sh_con s1) color (line_screen color rs y pre (l ++ [c]) r)) as Hs1 by done.
  destruct (on_con_at _ _ s1 color _ backspace_draws Hs1) as (c1 & E1 & Hc1). rewrite (bind_eq _ _ _ _ _ E1). rewrite screen_erase_back in Hc1 by (done || lia).
  apply Forall_app in Hpr as [Hpl Hpr]. inversion_clear Hpr.
  replace (Z.of_nat (length l + length r) - Z.of_nat (length l) + 1) with (Z.of_nat (length r + 1)) by lia.
  destruct (close_up_ok (with_con s1 c1) l r (0 :: rest) color rs y pre (blank color) eq_refl Hrs ltac:(done) ltac:(lia) Hc1) as (c2 & E2 & Hc2).
  exists (with_con s1 c2). split; [exact E2|]. split; [|done]. split; cbn; try done.
  - by exists (0 :: rest).
  - apply (f_equal length) in Ebuf. by rewrite length_insert, Hlb in Ebuf.
  - rewrite <- Ebuf. apply Forall_insert; [|done]. apply bytes_ok_blit; [done|]. by apply bytes_ok_slice.
  - apply Forall_app. done.
  - lia.
Qed.

Lemma kill_key_ok (drive_name : W -> option buf) color rs y pre l r s : editing color rs y pre l r s ->
  exists s', handle_ctrl_key fuel drive_name 11 s = Some (true, s') /\ editing color rs y pre l [] s' /\ same_rest s s'.
Proof using Type.
  clear Hfuel. intros [Hsc Hrs [rest Hin] Hlen Hby Hend Hcur Hpr Hfit]. unfold handle_ctrl_key. rewrite !gets_bind, Hcur. cbn [Z.eqb Pos.eqb].
  assert (length l < 256)%nat as Hl by (rewrite <- Hlen, Hin, !length_app; cbn; lia).
  erewrite bind_eq by (apply (set_input_ok _ (length l) 0); [done|lia]). unfold set_pos. rewrite modify_bind. match goal with |- context [(_ ≫= _) ?x] => set (s1 := x) end.
  destruct (on_con_at _ _ s1 color _ clear_right_draws Hsc) as (c & E & Hc). rewrite (bind_eq _ _ _ _ _ E). rewrite screen_kill in Hc by (done || lia).
  assert (exists rest', <[length l := 0]> (input s) = l ++ [] ++ 0 :: rest') as [rest' Er].
  { rewrite Hin. rewrite insert_app_r_alt by lia. rewrite Nat.sub_diag. destruct (r ++ 0 :: rest) as [|z q] eqn:Eq; [by destruct r|]. by exists q. }
  exists (with_con s1 c). split; [done|]. split; [|done]. split; cbn; try done.
  - by exists rest'.
  - by rewrite length_insert.
  - by apply Forall_insert.
  - lia.
  - rewrite app_nil_r. by apply Forall_app in Hpr as [Hpl _].
  - lia.
Qed.

(** ** The prompt *)

Context (drive_name : W -> option buf).
Definition prompt (nm : buf) : buf := nm ++ [62; 32].

Record has_prompt (nm : buf) s : Prop := Mk_has_prompt {
  drive_named : exists r, drive_name (sh_world s) = Some (nm ++ 0 :: r);
  name_printable : printable nm;
  name_length : (0 < length nm < 64)%nat
}.

Lemma printf_prompt nm r : nonul nm -> printf (lit "%s> ") [VStr (Some (nm ++ 0 :: r))] = Some (prompt nm).
Proof using Type.
  intros Hn. set (args := [VStr _]). assert (fmt_flags [115; 62; 32; 0] args = Some (Mk_flags false false false 0 (-1), false, [115; 62; 32; 0], args)) as E by reflexivity.
  change (lit "%s> ") with [37; 115; 62; 32; 0]. unfold printf. cbn [printf_loop length]. change (37 =? 0) with false. change (negb (37 =? 37)) with false. cbv iota.
  rewrite E. unfold args. cbn -[chars]. rewrite chars_ok by done. cbn. rewrite Nat2Z.id, firstn_all. unfold padded. cbn. by rewrite app_nil_r.
Qed.

Lemma show_prompt_ok nm s color t : has_prompt nm s -> at_screen (sh_con s) color t -> (sc_x t + length nm + 2 < 80)%nat ->
  exists c, show_prompt fuel drive_name s = Some (tt, with_con s c) /\ at_screen c color (print_row color (prompt nm) t).
Proof using Hfuel.
  intros [[r Hd] Hp Hl] Ht Hx. assert (nonul nm) as Hn by (eapply Forall_impl; [exact Hp|]; cbn; lia).
  unfold show_prompt. rewrite gets_bind, Hd. destruct nm as [|c nm]; [cbn in Hl; lia|]. rewrite (lift_bind _ c) by done.
  apply nonul_cons in Hn as Hn'. destruct (Z.eqb_spec c 0); [lia|]. unfold print. rewrite (lift_bind _ _ _ _ (printf_prompt _ r Hn)).
  apply (put_text_at fuel Hfuel); [|done|unfold prompt; rewrite length_app; cbn in *; lia].
  apply Forall_app. split; [done|]. repeat constructor; lia.
Qed.

Lemma clear_key_ok nm color rs y pre l r s : editing color rs y pre l r s -> has_prompt nm s ->
  exists s', handle_ctrl_key fuel drive_name 21 s = Some (true, s') /\ editing color rs y (cells color (prompt nm)) [] [] s' /\ same_rest s s'.
Proof using Hfuel.
  intros [Hsc Hrs [rest Hin] Hlen Hby Hend Hcur Hpr Hfit] Hp. pose proof Hp as [_ _ Hpl]. unfold handle_ctrl_key. rewrite !gets_bind. cbn [Z.eqb Pos.eqb].
  destruct (on_con_at _ _ s color _ clear_line_draws Hsc) as (c & E & Hc). rewrite (bind_eq _ _ _ _ _ E).
  destruct (show_prompt_ok nm (with_con s c) color _ ltac:(by destruct Hp) Hc) as (c2 & E2 & Hc2); [cbn; lia|]. rewrite (bind_eq _ _ _ _ _ E2).
  rewrite screen_new_prompt in Hc2 by (done || unfold prompt; rewrite length_app; cbn; lia).
  erewrite bind_eq by (apply (set_input_ok _ 0 0); [done|cbn; lia]). unfold set_pos. rewrite modify_bind. eexists. split; [done|]. split; [|done].
  split; cbn; try done.
  - destruct (input s) as [|z q]; [done|]. by exists q.
  - by rewrite length_insert.
  - by apply Forall_insert.
  - constructor.
  - rewrite length_cells. unfold prompt. rewrite length_app. cbn. lia.
Qed.

(** ** A whole line *)

(** What a key does to the text before and after the cursor. *)
Definition edit_by (ch : Z) (p : buf * buf) : buf * buf :=
  if (32 <=? ch) && (ch <? 127) then (fst p ++ [ch], snd p)
  else if ch =? 8 then (take (length (fst p) - 1) (fst p), snd p)
  else if ch =? 11 then (fst p, [])
  else if ch =? 21 then ([], [])
  else p.
(** Keys that edit the line or do nothing: not Enter, Ctrl+C, Ctrl+D and Ctrl+L. *)
Definition edit_key (ch : Z) : bool := (0 <? ch) && (ch <? 256) && negb (existsb (Z.eqb ch) [3; 4; 10; 12]).

(** Before each key there is room for one more character in [n] columns. *)
Fixpoint stays_within (n : nat) (keys : buf) (p : buf * buf) : Prop :=
  match keys with [] => True | ch :: keys' => (length (fst p) + length (snd p) + 1 < n)%nat /\ stays_within n keys' (edit_by ch p) end.

Context (run : buf -> M (shell H W) unit).

Lemma ctrl_ignored ch s : ch ∉ [3; 4; 12; 21; 11] -> handle_ctrl_key fuel drive_name ch s = Some (false, s).
Proof using Type.
  clear Hfuel. intros Hn. unfold handle_ctrl_key. rewrite !gets_bind.
  repeat match goal with |- context [ch =? ?k] => destruct (Z.eqb_spec ch k) as [->|]; [exfalso; apply Hn; set_solver|] end. done.
Qed.

Lemma command_key_ok nm color rs y l r s ch : editing color rs y (cells color (prompt nm)) l r s -> has_prompt nm s ->
  edit_key ch = true -> (length (prompt nm) + length l + length r + 1 < 80)%nat ->
  exists s', command_key fuel drive_name run ch s = Some (tt, s') /\
    editing color rs y (cells color (prompt nm)) (fst (edit_by ch (l, r))) (snd (edit_by ch (l, r))) s' /\ same_rest s s'.
Proof using Hfuel.
  intros He Hp Hk Hroom. unfold edit_key in Hk. apply andb_true_iff in Hk as [[?%Z.ltb_lt ?%Z.ltb_lt]%andb_true_iff Hn].
  cbn [existsb] in Hn. rewrite !negb_orb in Hn. repeat (apply andb_true_iff in Hn as [?%negb_true_iff%Z.eqb_neq Hn]). clear Hn.
  assert (exists s', (_ ← handle_ctrl_key fuel drive_name ch; mret tt) s = Some (tt, s') /\ editing color rs y (cells color (prompt nm)) l r s' /\ same_rest s s' \/ ch = 11 \/ ch = 21) as [s0 Hign].
  { destruct (decide (ch = 11)); [exists s; auto|]. destruct (decide (ch = 21)); [exists s; auto|]. exists s. left.
    erewrite bind_eq by (apply ctrl_ignored; rewrite !not_elem_of_cons; split_and!; done || lia || apply not_elem_of_nil). by split_and!. }
  unfold command_key, edit_by. destruct (Z.eqb_spec ch 0); [lia|]. destruct (Z.ltb_spec ch 128).
  - rewrite s8_low by lia. destruct (Z.eqb_spec ch 10); [lia|]. cbn [fst snd negb andb]. destruct (Z.leb_spec 32 ch).
    + destruct (Z.ltb_spec ch 32); [lia|]. cbn [andb]. destruct (Z.eqb_spec ch 8); [lia|]. destruct (Z.eqb_spec ch 9); [lia|]. destruct (Z.ltb_spec ch 127).
      * cbn [fst snd]. apply insert_key_ok; [done|lia|rewrite length_cells; lia].
      * destruct (Z.eqb_spec ch 11); [lia|]. destruct (Z.eqb_spec ch 21); [lia|]. exists s. by split_and!.
    + destruct (Z.ltb_spec ch 32); [|lia]. cbn [andb]. destruct (Z.eqb_spec ch 8) as [->|].
      * cbn [Z.eqb Pos.eqb negb andb]. destruct l as [|c l _] using rev_ind.
        -- pose proof (ed_cursor _ _ _ _ _ _ _ He) as Hc. unfold backspace_key. rewrite !gets_bind, Hc. exists s. by split_and!.
        -- cbn [fst snd]. rewrite length_app. cbn [length]. rewrite take_app_length' by lia. eapply backspace_key_ok. exact He.
      * destruct (Z.eqb_spec ch 9) as [->|]; [exists s; by split_and!|]. cbn [negb andb]. destruct (Z.eqb_spec ch 11) as [->|].
        -- destruct (kill_key_ok drive_name color rs y _ l r s He) as (s' & E & He' & Hr). exists s'. by rewrite (bind_eq _ _ _ _ _ E).
        -- destruct (Z.eqb_spec ch 21) as [->|]; [|destruct Hign as [?|[?|?]]; [by exists s0|lia..]].
           destruct (clear_key_ok nm color rs y _ l r s He Hp) as (s' & E & He' & Hr). exists s'. by rewrite (bind_eq _ _ _ _ _ E).
  - rewrite s8_high by lia. destruct (Z.eqb_spec ch 10); [lia|]. destruct (Z.eqb_spec ch 8); [lia|]. destruct (Z.eqb_spec ch 9); [lia|].
    destruct (Z.ltb_spec (ch - 256) 32); [|lia]. cbn [negb andb]. destruct (Z.leb_spec 32 ch); [|lia]. destruct (Z.ltb_spec ch 127); [lia|]. cbn [andb].
    destruct (Z.eqb_spec ch 11); [lia|]. destruct (Z.eqb_spec ch 21); [lia|]. destruct Hign as [?|[?|?]]; [by exists s0|lia..].
Qed.

Fixpoint command_keys (keys : buf) : M (shell H W) unit :=
  match keys with [] => mret tt | ch :: keys' => _ ← command_key fuel drive_name run ch; command_keys keys' end.

Lemma has_prompt_same nm s s' : same_rest s s' -> has_prompt nm s -> has_prompt nm s'.
Proof using Type. clear Hfuel. intros (_ & _ & E) [Hd Hp Hl]. split; [by rewrite E|done..]. Qed.

Lemma command_keys_ok nm color rs y keys : Forall (fun ch => edit_key ch = true) keys -> forall l r s,
  editing color rs y (cells color (prompt nm)) l r s -> has_prompt nm s -> stays_within (80 - length (prompt nm)) keys (l, r) ->
  let p := fold_left (fun p ch => edit_by ch p) keys (l, r) in
  exists s', command_keys keys s = Some (tt, s') /\ editing color rs y (cells color (prompt nm)) (fst p) (snd p) s' /\ same_rest s s'.
Proof using Hfuel.
  induction 1 as [|ch keys Hk _ IH]; intros l r s He Hp Hroom; cbn [command_keys fold_left fst snd length stays_within] in *; [by exists s|].
  destruct Hroom as [Hroom Hrest]. destruct (command_key_ok nm color rs y l r s ch He Hp Hk ltac:(lia)) as (s1 & E1 & He1 & Hr1). rewrite (bind_eq _ _ _ _ _ E1).
  destruct (edit_by ch (l, r)) as [l1 r1] eqn:Ee. cbn [fst snd] in *.
  destruct (IH l1 r1 s1 He1 (has_prompt_same nm s s1 Hr1 Hp) Hrest) as (s2 & E2 & He2 & Hr2). exists s2. split; [done|]. split; [done|].
  destruct Hr1 as (? & ? & ?), Hr2 as (? & ? & ?). split_and!; congruence.
Qed.

(** What follows the command. *)
Definition after_command : M (shell H W) unit :=
  _ ← set_pos 0 0;
  _ ← set_input 0 0;
  _ ← modify (fun s => with_hist s (history_reset (sh_hist s)));
  show_prompt fuel drive_name.

Lemma newline_at s color t : at_screen (sh_con s) color t -> exists c, print fuel [10; 0] [] s = Some (tt, with_con s c) /\ at_screen c color (newline color t).
Proof using Hfuel.
  intros (Hok & Hm & Hc & Ht). destruct (vga_write_char_ok fuel (sh_con s) 10 (Mk_term (newline color t) color Text) Hok ltac:(done) Hfuel) as (c & E & Hok' & Et & _).
  { unfold spec_char, term_of. rewrite Hm. cbn [t_mode t_screen t_color Z.eqb Pos.eqb]. by rewrite Hc, Ht. }
  exists c. split.
  - unfold print. change (printf [10; 0] []) with (Some [10]). rewrite (lift_bind _ [10]) by done. cbn [put_text]. erewrite bind_eq by (unfold putchar, on_con, display_putchar; rewrite E; reflexivity). done.
  - split; [done|]. split; [exact (f_equal t_mode Et)|]. split; [exact (f_equal t_color Et)|exact (f_equal t_screen Et)].
Qed.

Lemma enter_key_ok color rs y pre l r s : editing color rs y pre l r s -> history_ok (sh_hist s) -> l ++ r <> [] ->
  exists c h, at_screen c color (newline color (line_screen color rs y pre l r)) /\ history_ok h /\
    newest_first h = push_line (l ++ r) (newest_first (sh_hist s)) /\
    enter_key fuel drive_name run s = (_ ← run (input s); after_command) (with_hist (with_con s c) h).
Proof using Hfuel.
  intros [Hsc Hrs [rest Hin] Hlen Hby Hend Hcur Hpr Hfit] Hh Hne. unfold enter_key. rewrite gets_bind, Hend.
  assert (length l + length r < 256)%nat as Hl by (rewrite <- Hlen, Hin, !length_app; cbn; lia).
  erewrite bind_eq by (apply (set_input_ok _ (length l + length r) 0); [done|lia]).
  assert (<[(length l + length r)%nat := 0]> (input s) = input s) as ->.
  { apply list_insert_id. rewrite Hin, app_assoc, lookup_app_r by (rewrite length_app; lia). by rewrite length_app, Nat.sub_diag. }
  rewrite with_input_same. destruct (newline_at s color _ Hsc) as (c & E & Hc). rewrite (bind_eq _ _ _ _ _ E).
  assert (0 < length (l ++ r))%nat as Hpos by (destruct (l ++ r); [done|cbn; lia]). rewrite length_app in Hpos.
  destruct (Z.ltb_spec 0 (Z.of_nat (length l + length r))); [|lia]. rewrite bind_assoc, gets_bind, bind_assoc, gets_bind.
  assert (nonul (l ++ r)) as Hnn by (eapply Forall_impl; [exact Hpr|]; cbn; lia).
  assert (terminated (input s)) as Hterm by (exists (l ++ r), rest; split; [done|by rewrite Hin, <- app_assoc]).
  assert (cstr (input s) = l ++ r) as Ec by (rewrite Hin, app_assoc; by apply cstr_app).
  destruct (history_add_ok (sh_hist s) (input s) Hh Hterm) as (h & Eh & Hh' & En). cbn [sh_hist with_con input]. rewrite bind_assoc, (lift_bind _ h) by done.
  rewrite bind_assoc, modify_bind. exists c, h. rewrite Ec in En. split_and!; [done..|]. done.
Qed.
End Keys.

(** * Theorems *)

Section Theorems.
Context {H W : Type} `{Terminal H}.

(** C14: Typing a line and pressing Enter at the prompt, from any line with the cursor anywhere
    in it: whatever printable characters, backspaces, Ctrl+K, Ctrl+U and ignored keys are
    pressed, as long as prompt and line stay within the row, the buffer, the cursor and the
    screen behind the prompt are those of a text edited at a cursor; when the text is not
    empty, Enter moves to the next line, puts the text into the history and hands exactly
    this text to the command interpreter. *)
Theorem typed_command (fuel : nat) (drive_name : W -> option buf) (run : buf -> M (shell H W) unit) (s : shell H W)
    (nm l r keys : buf) (color : Z) (rs : list buf) (y : nat) :
  (tx_max < fuel)%nat -> editing color rs y (cells color (prompt nm)) l r s -> has_prompt drive_name nm s -> history_ok (sh_hist s) ->
  Forall (fun ch => edit_key ch = true) keys -> stays_within (80 - length (prompt nm)) keys (l, r) ->
  let p := fold_left (fun p ch => edit_by ch p) keys (l, r) in
  let line := fst p ++ snd p in
  line <> [] ->
  exists b rest s', b = line ++ 0 :: rest /\ command_keys fuel drive_name run (keys ++ [10]) s = (_ ← run b; after_command fuel drive_name) s' /\
    at_screen (sh_con s') color (newline color (line_screen color rs y (cells color (prompt nm)) (fst p) (snd p))) /\
    newest_first (sh_hist s') = push_line line (newest_first (sh_hist s)) /\ sh_world s' = sh_world s.
Proof.
  intros Hf He Hp Hh Hk Hroom p line Hne. destruct (command_keys_ok fuel Hf drive_name run nm color rs y keys Hk l r s He Hp Hroom) as (s1 & E1 & He1 & Hr). fold p in He1.
  destruct Hr as (_ & Ehist & Ew). destruct (enter_key_ok fuel Hf drive_name run color rs y _ _ _ s1 He1 ltac:(by rewrite Ehist) Hne) as (c & h & Hc & Hh' & En & E2).
  destruct (ed_input _ _ _ _ _ _ _ He1) as [rest Hin]. exists (input s1), rest, (with_hist (with_con s1 c) h). split; [by rewrite Hin, app_assoc|].
  split_and!; [|exact Hc|by rewrite <- Ehist|done]. rewrite <- E2. clear - E1.
  revert s E1. induction keys as [|ch keys IH]; intros s E1; cbn [app command_keys] in *.
  - injection E1 as <-. change (command_key fuel drive_name run 10) with (enter_key fuel drive_name run). unfold mbind, M_bind. destruct (enter_key _ _ _ s) as [[[] ?]|]; done.
  - apply bind_inv in E1 as ([] & s2 & E & E1). rewrite (bind_eq _ _ _ _ _ E). by apply IH.
Qed.

(** The keyboard driver queues [ESC \[] and a code for an arrow key.  The loop looks for the
    sequence under a condition that never holds; the first character is ignored and the
    other two are typed into the line, here for the up arrow. *)
Theorem arrow_key_types_text (fuel : nat) (drive_name : W -> option buf) (run : buf -> M (shell H W) unit) (s : shell H W)
    (nm l r : buf) (color : Z) (rs : list buf) (y : nat) :
  (tx_max < fuel)%nat -> editing color rs y (cells color (prompt nm)) l r s -> has_prompt drive_name nm s -> (length (prompt nm) + length l + length r + 3 < 80)%nat ->
  exists s', command_keys fuel drive_name run [27; 91; KEY_UP] s = Some (tt, s') /\
    editing color rs y (cells color (prompt nm)) (l ++ [91; 72]) r s' /\ sh_hist s' = sh_hist s.
Proof.
  intros Hf He Hp Hroom.
  assert (stays_within (80 - length (prompt nm)) [27; 91; KEY_UP] (l, r)) as Hw.
  { change ((length l + length r + 1 < 80 - length (prompt nm))%nat /\ (length l + length r + 1 < 80 - length (prompt nm))%nat /\ (length (l ++ [91%Z]) + length r + 1 < 80 - length (prompt nm))%nat /\ True).
    rewrite length_app. cbn [length]. lia. }
  destruct (command_keys_ok fuel Hf drive_name run nm color rs y [27; 91; KEY_UP] ltac:(repeat constructor) l r s He Hp Hw) as (s' & E & He' & _ & Eh & _).
  exists s'. split; [done|]. split; [|done]. cbn in He'. by rewrite <- app_assoc in He'.
Qed.

(** Without a current drive the prompt function calls itself for ever. *)
Theorem prompt_without_drive (fuel : nat) (drive_name : W -> option buf) (s : shell H W) : drive_name (sh_world s) = None -> show_prompt fuel drive_name s = None.
Proof. intros E. unfold show_prompt. by rewrite gets_bind, E. Qed.
End Theorems.

(** ** Witnesses *)

Definition hdd0 : buf := [104; 100; 100; 48].
Definition prompt_console : console vga_sim :=
  Mk_console (Mk_vga 0 6 0 [] 0) (line_row 15 (cells 15 (prompt hdd0)) [] ++ replicate (VGA_CELLS - 80) 32) 15 0 (replicate 16 0) 0 0 0.
Definition prompt_shell : shell vga_sim unit :=
  Mk_shell prompt_console (kb_on (idle []) tt) no_history tt (replicate 256 0) 0 0.

Lemma prompt_console_ok : con_ok prompt_console.
Proof. split; [split; [vm_compute; reflexivity|done|cbn; lia]|split; cbn; [done|lia|constructor|lia]]. Qed.

Lemma prompt_editing : editing 15 (rows (vga_buffer prompt_console)) 0 (cells 15 (prompt hdd0)) [] [] prompt_shell.
Proof.
  split; try done.
  - split; [exact prompt_console_ok|]. split; [done|]. split; [done|]. vm_compute. reflexivity.
  - rewrite length_rows. lia.
  - by exists (replicate 255 0).
  - by apply Forall_replicate.
  - constructor.
  - cbn. lia.
Qed.

(** The line [lxy] with the cursor behind the [l]. *)
Definition mid_console : console vga_sim :=
  Mk_console (Mk_vga 0 7 0 [] 0) (line_row 15 (cells 15 (prompt hdd0)) (cells 15 [108; 120; 121]) ++ replicate (VGA_CELLS - 80) 32) 15 0 (replicate 16 0) 0 0 0.
Definition mid_shell : shell vga_sim unit := Mk_shell mid_console (kb_on (idle []) tt) no_history tt ([108; 120; 121] ++ replicate 253 0) 3 1.

Lemma mid_editing : editing 15 (rows (vga_buffer mid_console)) 0 (cells 15 (prompt hdd0)) [108] [120; 121] mid_shell.
Proof.
  split; try done.
  - split; [split; [split; [vm_compute; reflexivity|done|cbn; lia]|split; cbn; [done|lia|constructor|lia]]|]. split; [done|]. split; [done|]. vm_compute. reflexivity.
  - rewrite length_rows. lia.
  - by exists (replicate 252 0).
  - apply bytes_ok_app. split; [by repeat constructor|by apply Forall_replicate].
  - repeat constructor; lia.
  - cbn. lia.
Qed.

(** [t], backspace, Ctrl+K, [s]: the text [ls]. *)
Lemma typed_command_witness : exists b rest s', b = [108; 115] ++ 0 :: rest /\
  command_keys 3 (fun _ => Some (hdd0 ++ [0])) (fun _ => mret tt) [116; 8; 11; 115; 10] mid_shell = (_ ← mret tt; after_command 3 (fun _ => Some (hdd0 ++ [0]))) s' /\
  newest_first (sh_hist s') = [[108; 115]].
Proof.
  destruct (typed_command 3 (fun _ => Some (hdd0 ++ [0])) (fun _ => mret tt) mid_shell hdd0 [108] [120; 121] [116; 8; 11; 115] 15 (rows (vga_buffer mid_console)) 0) as (b & rest & s' & Eb & E & _ & En & _).
  - cbn. lia.
  - exact mid_editing.
  - split; [by exists []|repeat constructor; lia|cbn; lia].
  - exact no_history_ok.
  - repeat constructor.
  - cbn. lia.
  - cbn. discriminate.
  - exists b, rest, s'. split; [exact Eb|]. split; [exact E|exact En].
Defined.

Lemma arrow_key_types_text_witness : exists s', command_keys 3 (fun _ => Some (hdd0 ++ [0])) (fun _ => mret tt) [27; 91; KEY_UP] prompt_shell = Some (tt, s') /\ sh_hist s' = no_history.
Proof.
  destruct (arrow_key_types_text 3 (fun _ => Some (hdd0 ++ [0])) (fun _ => mret tt) prompt_shell hdd0 [] [] 15 (rows (vga_buffer prompt_console)) 0) as (s' & E & _ & Eh).
  - cbn. lia.
  - exact prompt_editing.
  - split; [by exists []|repeat constructor; lia|cbn; lia].
  - cbn. lia.
  - exists s'. split; [exact E|exact Eh].
Defined.
