(* ===== verification/Command.v ===== *)
(** The command interpreter of kernel/shell/command.c: splitting a line into words, drive
    names and paths with a drive, the command table and its dispatch, and commands that
    change the state of the shell and the mounts.

    [session] is what the shell keeps beside the line editor: the drives and mounts of
    Mount.v, the current path, the names in the command table (they are converted to upper
    case in place) and the argument strings that are allocated.  What the other commands do
    is the parameter [execute]. *)

From stdpp Require Import strings gmap.
From S2P Require Import Prelude Effects CString CStdlib CStdio Printf Vfs BlockDev Ports Ata Mount CharDev Video History Kb LineEdit.

Definition MAX_ARGS : Z := 10.
Definition MAX_LENGTH : Z := 64.

Record session (W : Type) := Mk_session {
  ss_mount : mount_state W;
  current_path : buf;                  (* char[256] *)
  command_table : list buf;            (* the names *)
  ss_objs : objects                    (* what malloc has handed out *)
}.
Arguments Mk_session {W}. Arguments ss_mount {W}. Arguments current_path {W}. Arguments command_table {W}. Arguments ss_objs {W}.

Definition with_world_of {H W} (s : shell H (session W)) (w : session W) : shell H (session W) :=
  Mk_shell (sh_con s) (sh_kb s) (sh_hist s) w (input s) (text_end s) (cursor_pos s).

#[global, refine] Instance shell_objects H W : HasObjects (shell H (session W)) := {|
  objs s := ss_objs (sh_world s);
  with_objs s o := with_world_of s (Mk_session (ss_mount (sh_world s)) (current_path (sh_world s)) (command_table (sh_world s)) o)
|}.
Proof. done. Defined.

(** ** Words *)

Fixpoint is_null_terminated (buffer : buf) (max_length : nat) : option bool :=
  match max_length with
  | O => Some false
  | S n => match buffer with [] => None | c :: b => if c =? 0 then Some true else is_null_terminated b n end
  end.

(** [while (input\[i\] == ' ') i++], as the rest of the input. *)
Fixpoint skip_blanks (b : buf) : option buf :=
  match b with [] => None | c :: b' => if c =? 32 then skip_blanks b' else Some b end.
(** At most [room] characters up to a blank or the end: the word and the rest. *)
Fixpoint take_word (b : buf) (room : nat) : option (buf * buf) :=
  match b with
  | [] => None
  | c :: b' =>
      if (c =? 32) || (c =? 0) then Some ([], b) else
      match room with
      | O => Some ([], b)
      | S n => '(w, rest) ← take_word b' n; Some (c :: w, rest)
      end
  end.
(** The word with its terminator into an array. *)
Definition store_word (dest w : buf) : option buf := if (length w <? length dest)%nat then Some (blit dest 0 (w ++ [0])) else None.

(** The names of the command table as they are compiled in. *)
Definition command_names : list buf := map lit
  ["help"; "clear"; "echo"; "mem"; "dump"; "cls"; "ls"; "cd"; "drives"; "mount"; "mkdir"; "rmdir"; "mkfile"; "rmfile"; "run"; "exec"; "kill"; "sys"; "open";
   "datetime"; "settime"; "setdate"; "irq"; "sleep"; "exit"; "fdd"; "hdd"; "beep"; "wait"; "pid"; "rtask"; "net"; "ifconfig"; "ping"; "arp"; "history";
   "basic"; "pci"; "getip"]%string.

Section Interpreter.
Context {H W D : Type} `{Ports H} `{BlockDev D}.
Context (fuel : nat) (alloc_ok : Z -> bool) (fresh : nat -> buf) (drive_addr : nat -> Z).
Context (disk : W -> D) (with_disk : W -> D -> W) (ops_at : Z -> option (vfs_ops W)) (malloc : W -> Z -> Z * W) (free : W -> Z -> W) (set_current : Z -> W -> W).
Abbreviation A := (M (shell H (session W))).

Definition on_session {X} (m : M (session W) X) : A X := fun s =>
  match m (sh_world s) with Some (x, w) => Some (x, with_world_of s w) | None => None end.
Definition on_mount {X} (m : M (mount_state W) X) : A X := on_session (fun w =>
  match m (ss_mount w) with Some (x, ms) => Some (x, Mk_session ms (current_path w) (command_table w) (ss_objs w)) | None => None end).
Definition set_path (p : buf) : A unit := on_session (modify (fun w => Mk_session (ss_mount w) p (command_table w) (ss_objs w))).
Definition set_names (l : list buf) : A unit := on_session (modify (fun w => Mk_session (ss_mount w) (current_path w) l (ss_objs w))).
Definition printf_ (format : string) (args : list va_word) : A unit := print fuel (lit_bytes format ++ [10; 0]) args.

(** [k = 0 .. arg_count - 1: free(arguments\[k\])] *)
Fixpoint free_arguments (args : list (Z * buf)) : A unit :=
  match args with [] => mret tt | (p, _) :: args' => _ ← deallocate p; free_arguments args' end.

(** The arguments from the rest [b] of the input; [None] inside: no memory.  Every round
    takes a character, so that the length of the input is enough fuel. *)
Fixpoint split_args (rounds : nat) (b : buf) (args : list (Z * buf)) (max_length max_args : nat) : A (option (list (Z * buf))) :=
  match rounds with
  | O => undef
  | S rounds' =>
      c ← lift (rd b 0);
      if (c =? 0) || (max_args <=? length args)%nat then mret (Some args) else
      p ← allocate alloc_ok (Z.of_nat max_length);
      match p with
      | None =>
          _ ← print fuel (lit_bytes "Error: Memory allocation failed for argument %d" ++ [10; 0]) [VInt (Z.of_nat (length args))];
          _ ← free_arguments args; mret None
      | Some p =>
          r ← lift (take_word b (max_length - 1));
          a ← lift (store_word (fresh max_length) (fst r));
          b ← lift (skip_blanks (snd r));
          split_args rounds' b (args ++ [(p, a)]) max_length max_args
      end
  end.

(** The command and the arguments; [None] in place of the arguments is the result -1. *)
Definition split_input (input command : buf) (max_length max_args : nat) : A (buf * option (list (Z * buf))) :=
  b ← lift (skip_blanks input);
  r ← lift (take_word b (max_length - 1));
  command ← lift (store_word command (fst r));
  b ← lift (skip_blanks (snd r));
  args ← split_args (S (length b)) b [] max_length max_args;
  mret (command, args).

(** ** Drives *)

(** The name in the static array, and where the rest of the path begins; without a place in
    the path the rest is the literal "/". *)
Definition path_rest (path : buf) (place : option Z) : buf := match place with Some k => from path k | None => lit "/" end.

Definition extract_drive_from_path (path : option buf) : option (option (buf * option Z)) :=
  match path with
  | None => Some None
  | Some path =>
      c0 ← rd path 0;
      slash ← (if c0 =? 47 then
                 next_slash ← strchr (from path 1) 47;
                 drive_len ← match next_slash with Some k => Some k | None => strlen (from path 1) end;
                 if drive_len =? 4 then
                   h ← strncmp (from path 1) (lit "hdd") 3;
                   f ← (if h =? 0 then Some 0 else strncmp (from path 1) (lit "fdd") 3);
                   if f =? 0 then
                     n ← strncpy (replicate 16 0) (from path 1) 4;
                     n ← wr n 4 0;
                     n ← map_cstr tolower n;
                     Some (Some (n, option_map Z.succ next_slash))
                   else Some None
                 else Some None
               else Some None);
      match slash with
      | Some r => Some (Some r)
      | None =>
          len ← strlen path;
          if 5 <=? len then
            c4 ← rd path 4;
            if c4 =? 58 then
              h ← strncmp path (lit "hdd") 3;
              f ← (if h =? 0 then Some 0 else strncmp path (lit "fdd") 3);
              if f =? 0 then
                n ← strncpy (replicate 16 0) path 4;
                n ← wr n 4 0;
                n ← map_cstr tolower n;
                c5 ← rd path 5;
                Some (Some (n, if c5 =? 0 then None else Some 5))
              else Some None
            else Some None
          else Some None
      end
  end.

Definition reset_path : A unit :=
  w ← gets sh_world;
  p ← lift (strncpy (current_path w) (lit "/") 255);
  p ← lift (wr p 255 0);
  set_path p.

Definition find_drive (nm : buf) : A (option nat) :=
  ms ← gets (fun s => ss_mount (sh_world s));
  if (ms_count ms <? 0) || (MAX_DRIVES <? ms_count ms) then mret None
  else lift (find_name (ms_drives ms) nm 0 (Z.to_nat (ms_count ms))).

(** Whether the name has the form of a drive name; [dn] is the array [drive_name]. *)
Definition drive_pattern (dn : buf) : option bool :=
  h ← strncmp dn (lit "hdd") 3;
  f ← (if h =? 0 then Some 0 else strncmp dn (lit "fdd") 3);
  if f =? 0 then
    len ← strlen dn;
    if len =? 4 then c ← rd dn 3; Some ((48 <=? c) && (c <=? 57)) else Some false
  else Some false.

Definition try_switch_drive (nm : buf) : A bool :=
  dn ← lift (strncpy (fresh 16) nm 15);
  dn ← lift (wr dn 15 0);
  dn ← lift (map_cstr tolower dn);
  is_drive ← lift (drive_pattern dn);
  if is_drive : bool then
    d ← find_drive dn;
    match d with
    | Some i =>
        ms ← gets (fun s => ss_mount (sh_world s));
        _ ← on_mount (modify (fun ms => with_current_drive set_current ms (drive_addr i)));
        drive ← lift (ms_drives ms !! i);
        _ ← printf_ "Switched to drive %s" [VStr (Some (name drive))];
        _ ← reset_path;
        mret true
    | None => _ ← printf_ "Drive %s not found or not mounted" [VStr (Some dn)]; mret true
    end
  else mret false.

(** ** Commands *)

Context (drive_index : Z -> option nat).     (* the drive at an address *)

(** [current_drive], and its entry. *)
Definition get_current : A (option (nat * drive_t)) :=
  ms ← gets (fun s => ss_mount (sh_world s));
  if ms_current ms =? 0 then mret None else
  i ← lift (drive_index (ms_current ms));
  d ← lift (ms_drives ms !! i);
  mret (Some (i, d)).

Definition cmd_clear (args : list buf) : A unit := on_con clear_screen.
Definition cmd_cls (args : list buf) : A unit := on_con clear_screen.

Fixpoint echo_args (args : list buf) : A unit :=
  match args with [] => mret tt | a :: args' => _ ← print fuel (lit "%s ") [VStr (Some a)]; echo_args args' end.
Definition cmd_echo (args : list buf) : A unit :=
  match args with
  | [] => printf_ "Echo command without arguments" []
  | _ => _ ← echo_args args; print fuel [10; 0] []
  end.

Fixpoint print_lines (l : list (Z * buf)) : A unit :=
  match l with [] => mret tt | (i, line) :: l' => _ ← printf_ "  %3d: %s" [VInt i; VStr (Some line)]; print_lines l' end.
Definition cmd_history (args : list buf) : A unit :=
  h ← gets sh_hist;
  if history_count h =? 0 then printf_ "No command history." [] else
  _ ← printf_ "Command History (%d commands):" [VInt (history_count h)];
  l ← lift (history_list h);
  print_lines l.

(** Mounting the current drive at /mnt/ and its name; [list_drives] prints the drives. *)
Context (list_drives : A unit).

Definition mount_path_of (d : drive_t) : option buf := snd <$> snprintf (fresh 64) 64 (lit "/mnt/%s") [VStr (Some (name d))].

Definition note_mount (i : nat) (d : drive_t) (path : buf) : A unit :=
  mp ← lift (strncpy (mount_point d) path 63);
  mp ← lift (wr mp 63 0);
  on_mount (modify (fun ms => Mk_ms (ms_vfs ms) (<[i := with_mount_point d mp]> (ms_drives ms)) (ms_count ms) (ms_current ms))).

(** Whether the drive has been mounted. *)
Definition mount_as (i : nat) (d : drive_t) (fs_type label path : buf) : A bool :=
  result ← on_mount (mount_at ops_at malloc free (drive_addr i) fs_type path);
  if result =? VFS_OK then
    _ ← note_mount i d path;
    _ ← printf_ "Successfully mounted %s at %s (%s)" [VStr (Some (name d)); VStr (Some path); VStr (Some label)]; mret true
  else _ ← printf_ "Failed to mount %s (VFS error %d)" [VStr (Some (name d)); VInt result]; mret false.

(** EXT2 by its magic number, else FAT32. *)
Definition detect_fs (d : drive_t) : A buf :=
  r ← on_mount (read_boot disk with_disk (base_of d) 2 (is_master d));
  match r with
  | None => mret (lit "fat32")
  | Some b =>
      r ← on_mount (read_boot disk with_disk (base_of d) 3 (is_master d));
      match r with
      | None => mret (lit "fat32")
      | Some _ =>
          if le_get (slice b 56 2) =? 61267 then _ ← printf_ "Detected EXT2 filesystem" []; mret (lit "ext2")
          else _ ← printf_ "Detected FAT32 filesystem" []; mret (lit "fat32")
      end
  end.

Definition cmd_mount (args : list buf) : A unit :=
  match args with
  | [] => _ ← printf_ "Mount command without arguments" []; _ ← printf_ "Available drives:" []; list_drives
  | a :: _ =>
      a ← lift (map_cstr tolower a);
      _ ← printf_ "Try mount drive: %s" [VStr (Some a)];
      n ← gets (fun s => ms_count (ss_mount (sh_world s)));
      _ ← printf_ "Searching in %d detected drives..." [VInt n];
      found ← find_drive a;
      _ ← on_mount (modify (fun ms => with_current_drive set_current ms (match found with Some i => drive_addr i | None => 0 end)));
      match found with
      | None => _ ← printf_ "drive: %s not found" [VStr (Some a)]; _ ← printf_ "Available drives:" []; list_drives
      | Some i =>
          ms ← gets (fun s => ss_mount (sh_world s));
          d ← lift (ms_drives ms !! i);
          c0 ← lift (rd (mount_point d) 0);
          if negb (c0 =? 0) then
            _ ← printf_ "Drive %s already mounted at %s" [VStr (Some (name d)); VStr (Some (mount_point d))]; reset_path
          else
            _ ← printf_ "Mounting drive %s..." [VStr (Some (name d))];
            match type d with
            | DRIVE_TYPE_ATA =>
                b ← on_mount (read_boot disk with_disk (base_of d) 0 (is_master d));
                match b with
                | None => printf_ "Failed to read boot sector from %s" [VStr (Some (name d))]
                | Some _ =>
                    fs_type ← detect_fs d;
                    path ← lift (mount_path_of d);
                    ok ← mount_as i d fs_type fs_type path;
                    if ok : bool then reset_path else mret tt
                end
            | DRIVE_TYPE_FDD =>
                _ ← printf_ "Mounting floppy drive %s" [VStr (Some (name d))];
                path ← lift (mount_path_of d);
                ok ← mount_as i d (lit "fat12") (lit "FAT12") path;
                if ok : bool then reset_path else mret tt
            | DRIVE_TYPE_NONE => printf_ "Unsupported drive type" []
            end
      end
  end.

(** The path that [cmd_ls] lists, in [char vfs_path\[256\]]. *)
Definition ls_path (d : drive_t) (directory : buf) : option buf :=
  len ← strlen (mount_point d);
  root ← strcmp directory (lit "/");
  if 0 <? len then
    at_root ← strcmp (mount_point d) (lit "/");
    p ← (if at_root =? 0 then strncpy (fresh 256) directory 255
         else if root =? 0 then strncpy (fresh 256) (mount_point d) 255
         else snd <$> snprintf (fresh 256) 256 (lit "%s%s") [VStr (Some (mount_point d)); VStr (Some directory)]);
    wr p 255 0
  else if root =? 0 then snd <$> snprintf (fresh 256) 256 (lit "/mnt/%s") [VStr (Some (name d))]
  else snd <$> snprintf (fresh 256) 256 (lit "/mnt/%s%s") [VStr (Some (name d)); VStr (Some directory)].

Definition type_str (t : vfs_node_type) : buf :=
  match t with VFS_FILE => lit "FILE" | VFS_DIRECTORY => lit "<DIR>" | VFS_SYMLINK => lit "<LNK>" | _ => lit "????" end.

(** The rows of the table, one for each entry that [vfs_readdir] delivers; [rounds] bounds
    the length of the directory. *)
Fixpoint ls_rows (rounds : nat) (path : buf) (index : Z) (entry : vfs_dir_entry) : A Z :=
  match rounds with
  | O => undef
  | S rounds' =>
      r ← on_mount (fun ms => '(r, e, v) ← vfs_readdir ops_at (ms_vfs ms) (Some path) index (Some entry);
                              Some ((r, e), with_vfs ms v));
      if fst r =? VFS_OK then
        e ← lift (snd r);
        _ ← printf_ "%-40s %10u %-8s" [VStr (Some (de_name e)); VInt (de_size e); VStr (Some (type_str (de_type e)))];
        ls_rows rounds' path (u32 (index + 1)) e
      else mret index
  end.

Definition cmd_ls (rounds : nat) (entry : vfs_dir_entry) (args : list buf) : A unit :=
  w ← gets sh_world;
  directory ← (match args with
               | [] => mret (Some (current_path w))
               | a :: _ =>
                   r ← lift (extract_drive_from_path (Some a));
                   match r with
                   | None => mret (Some a)
                   | Some (dn, place) => ok ← try_switch_drive dn; mret (if ok : bool then Some (path_rest a place) else None)
                   end
               end);
  match directory with
  | None => mret tt
  | Some directory =>
      cur ← get_current;
      match cur with
      | None => printf_ "No drive mounted" []
      | Some (_, d) =>
          path ← lift (ls_path d directory);
          _ ← print fuel ([10] ++ lit_bytes "Directory of %s (vfs: %s)" ++ [10; 0]) [VStr (Some directory); VStr (Some path)];
          _ ← printf_ "[DEBUG] current_drive=%s, mount_point='%s'" [VStr (Some (name d)); VStr (Some (mount_point d))];
          _ ← printf_ "%-40s %-10s %-8s" [VStr (Some (lit "FILENAME")); VStr (Some (lit "SIZE")); VStr (Some (lit "TYPE"))];
          _ ← put_text fuel (replicate 80 45 ++ [10]);
          _ ← printf_ "[DEBUG] Calling vfs_readdir with path='%s', index=%u" [VStr (Some path); VInt 0];
          n ← ls_rows rounds path 0 entry;
          _ ← (if n =? 0 then printf_ "(empty directory)" [] else mret tt);
          print fuel [10; 0] []
      end
  end.

(** Changing the directory; the two functions of the file systems act on their own state
    in [W], and tell whether they succeeded. *)
Context (fat32_change_directory fat12_change_directory : buf -> M W bool).

Definition on_fs {X} (m : M W X) : A X := on_mount (fun ms =>
  match m (world (ms_vfs ms)) with Some (x, w) => Some (x, with_vfs ms (with_world (ms_vfs ms) w)) | None => None end).

Definition cd_path (cur target : buf) : option buf :=
  snd <$> snprintf (lit "/" ++ replicate 254 0) 256 (lit "%s/%s") [VStr (Some cur); VStr (Some target)].

Definition store_path (p : buf) : A unit :=
  w ← gets sh_world;
  q ← lift (strncpy (current_path w) p 255);
  q ← lift (wr q 255 0);
  set_path q.

Definition cmd_cd (args : list buf) : A unit :=
  match args with
  | [] => printf_ "CD command without arguments" []
  | a :: _ =>
      r ← lift (extract_drive_from_path (Some a));
      target ← (match r with
                | None => mret (Some a)
                | Some (dn, place) => ok ← try_switch_drive dn; mret (if ok : bool then Some (path_rest a place) else None)
                end);
      match target with
      | None => mret tt
      | Some target =>
          cur ← get_current;
          match cur with
          | None => printf_ "No drive mounted" []
          | Some (_, d) =>
              target ← lift (str_trim_end target 47);
              (* the argument, in which the target was trimmed *)
              let a := match r with None => target | Some (_, Some k) => take (Z.to_nat k) a ++ target | Some (_, None) => a end in
              w ← gets sh_world;
              new_path ← lift (cd_path (current_path w) target);
              match type d with
              | DRIVE_TYPE_ATA =>
                  ok ← on_fs (fat32_change_directory new_path);
                  if ok : bool then _ ← store_path new_path; printf_ "Set directory to: %s" [VStr (Some a)] else mret tt
              | DRIVE_TYPE_FDD =>
                  c0 ← lift (rd new_path 0);
                  len ← lift (strlen new_path);
                  let new_path := if c0 =? 47 then blit new_path 0 (slice new_path 1 (Z.to_nat len)) else new_path in
                  ok ← on_fs (fat12_change_directory a);
                  if ok : bool then _ ← store_path new_path; printf_ "Set directory to: %s" [VStr (Some a)] else mret tt
              | DRIVE_TYPE_NONE => mret tt
              end
          end
      end
  end.

(** ** Dispatch *)

Context (execute : nat -> list buf -> A unit).

(** The entry whose name, converted to upper case in place, is the command. *)
Fixpoint find_command (i : nat) (n : nat) (command : buf) : A (option nat) :=
  match n with
  | O => mret None
  | S n' =>
      names ← gets (fun s => command_table (sh_world s));
      nm ← lift (names !! i);
      nm ← lift (map_cstr toupper nm);
      _ ← set_names (<[i := nm]> names);
      c ← lift (strcmp command nm);
      if c =? 0 then mret (Some i) else find_command (S i) n' command
  end.

Definition process_command (input_buffer : buf) : A unit :=
  r ← split_input input_buffer (fresh 64) 64 10;
  let '(command, args) := r in
  match args with
  | None => printf_ "Error: Failed to parse command arguments" []
  | Some args =>
      c0 ← lift (rd command 0);
      if c0 =? 0 then free_arguments args else
      switched ← try_switch_drive command;
      if switched : bool then free_arguments args else
      command ← lift (map_cstr toupper command);
      names ← gets (fun s => command_table (sh_world s));
      found ← find_command 0 (length names) command;
      _ ← match found with
          | Some i => execute i (map snd args)
          | None => print fuel ([10] ++ lit_bytes "Unknown command: %s" ++ [10; 0]) [VStr (Some command)]
          end;
      free_arguments args
  end.
End Interpreter.

(** * Properties *)

(** ** Words *)

Definition word (w : buf) : Prop := w <> [] /\ (length w <= 63)%nat /\ Forall (fun c => 0 < c < 256 /\ c <> 32) w.

Lemma skip_blanks_ok k b c : c <> 32 -> skip_blanks (replicate k 32 ++ c :: b) = Some (c :: b).
Proof. intros Hc. induction k as [|k IH]; cbn; [by destruct (Z.eqb_spec c 32)|done]. Qed.

Lemma take_word_ok w n c rest : Forall (fun c => 0 < c < 256 /\ c <> 32) w -> (length w <= n)%nat -> c = 32 \/ c = 0 -> take_word (w ++ c :: rest) n = Some (w, c :: rest).
Proof.
  intros Hw. revert n. induction Hw as [|d w [Hd Hd'] _ IH]; intros n Hn Hc; cbn [app take_word].
  - destruct Hc as [->| ->]; done.
  - destruct (Z.eqb_spec d 32); [lia|]. destruct (Z.eqb_spec d 0); [lia|]. cbn [orb]. destruct n as [|n]; [cbn in Hn; lia|].
    rewrite IH by (done || cbn in Hn; lia). done.
Qed.

Lemma store_word_ok dest w : (length w < length dest)%nat -> exists r, store_word dest w = Some (w ++ 0 :: r).
Proof.
  intros Hl. unfold store_word. rewrite (proj2 (Nat.ltb_lt _ _)) by done. unfold blit. rewrite take_0. cbn [app].
  exists (drop (0 + length (w ++ [0])) dest). by rewrite <- app_assoc.
Qed.

(** The words behind the command, each after some blanks, and blanks at the end. *)
Fixpoint tail_of (args : list (nat * buf)) (k : nat) (rest : buf) : buf :=
  match args with
  | [] => replicate k 32 ++ 0 :: rest
  | (n, w) :: args' => replicate (S n) 32 ++ w ++ tail_of args' k rest
  end.
Definition line_of (k0 : nat) (cmd : buf) (args : list (nat * buf)) (k : nat) (rest : buf) : buf := replicate k0 32 ++ cmd ++ tail_of args k rest.

(** The tail begins with a blank or the end. *)
Lemma tail_head args k rest : exists c t, tail_of args k rest = c :: t /\ (c = 32 \/ c = 0).
Proof. destruct args as [|[n w] args]; cbn; [destruct k; cbn; eauto|]; eauto. Qed.

(** The tail without its leading blanks. *)
Definition next_words (args : list (nat * buf)) (k : nat) (rest : buf) : buf :=
  match args with [] => 0 :: rest | (_, w) :: args' => w ++ tail_of args' k rest end.

Lemma skip_tail args k rest : Forall (fun a => word (snd a)) args -> skip_blanks (tail_of args k rest) = Some (next_words args k rest).
Proof.
  intros Ha. destruct args as [|[n w] args]; cbn [tail_of next_words].
  - by apply skip_blanks_ok.
  - inversion_clear Ha as [|? ? (Hw & _ & Hc) _]. cbn in Hw, Hc. destruct w as [|c w]; [done|]. inversion_clear Hc as [|? ? [_ Hne] _]. cbn [app]. by apply (skip_blanks_ok (S n)).
Qed.

Section Splitting.
Context {H W : Type} `{Ports H} (fuel : nat) (alloc_ok : Z -> bool) (fresh : nat -> buf).
Context (Hfresh : forall n, length (fresh n) = n) (Halloc : alloc_ok 64 = true).
Implicit Types s : shell H (session W).

Definition addrs (args : list (Z * buf)) : gset Z := list_to_set (map fst args).
(** Argument strings that are allocated. *)
Definition args_live (args : list (Z * buf)) s : Prop := objects_ok (objs s) /\ NoDup (map fst args) /\ addrs args ⊆ o_live (objs s).

Lemma free_arguments_ok args : forall s, args_live args s ->
  exists o, free_arguments args s = Some (tt, with_objs s o) /\ objects_ok o /\ o_live o = o_live (objs s) ∖ addrs args.
Proof using Type.
  clear. induction args as [|[p b] args IH]; intros s (Ho & Hnd & Hin); cbn [free_arguments].
  - exists (objs s). split; [by destruct s as [? ? ? []]|]. split; [done|]. unfold addrs. set_solver.
  - unfold addrs in *. cbn [map fst] in *. rewrite list_to_set_cons in *. apply NoDup_cons in Hnd as [Hp Hnd].
    destruct (free_object_ok p (objs s) Ho) as (o & E & Ho' & El); [set_solver|]. erewrite bind_eq by (unfold deallocate; rewrite E; reflexivity).
    destruct (IH (with_objs s o)) as (o2 & E2 & Ho2 & El2).
    { split; [done|]. split; [done|]. rewrite objs_with, El. intros x Hx. assert (x <> p) by (intros ->; apply elem_of_list_to_set in Hx; done). set_solver. }
    exists o2. split; [exact E2|]. split; [done|]. rewrite El2, objs_with, El. unfold addrs. set_solver.
Qed.

Lemma split_args_ok k rest args : Forall (fun a => word (snd a)) args -> forall rounds have s, (length args < rounds)%nat -> (length have + length args <= 10)%nat ->
  args_live have s ->
  exists out o, split_args fuel alloc_ok fresh rounds (next_words args k rest) have 64 10 s = Some (Some (have ++ out), with_objs s o) /\
    map (fun a => cstr (snd a)) out = map snd args /\ args_live (have ++ out) (with_objs s o) /\ o_live o = o_live (objs s) ∪ addrs out /\ addrs out ## o_live (objs s).
Proof using Hfresh Halloc.
  induction 1 as [|[n w] args Hw Hargs IH]; intros rounds have s Hr Hmax Hlive; (destruct rounds as [|rounds]; [cbn in Hr; lia|]); cbn [split_args next_words length] in *.
  - rewrite (lift_bind _ 0) by done. cbn [Z.eqb orb]. exists [], (objs s). rewrite app_nil_r. split; [by destruct s as [? ? ? []]|]. split; [done|]. split; [by destruct s as [? ? ? []]|]. unfold addrs. set_solver.
  - destruct Hw as (Hne & Hwl & Hwc). cbn [snd] in *. destruct (tail_head args k rest) as (c & t & Et & Hc).
    assert (exists c0, rd (w ++ tail_of args k rest) 0 = Some c0 /\ c0 <> 0) as (c0 & Ec0 & Hc0).
    { destruct w as [|c0 w]; [done|]. exists c0. split; [done|]. inversion_clear Hwc. lia. }
    rewrite (lift_bind _ c0) by done. destruct (Z.eqb_spec c0 0); [done|]. rewrite (proj2 (Nat.leb_gt 10 (length have))) by lia. cbn [orb].
    unfold allocate at 1. change (Z.of_nat 64) with 64. erewrite bind_eq by (rewrite Halloc; reflexivity).
    destruct Hlive as (Ho & Hnd & Hin). destruct (new_object_ok (objs s) Ho) as (Ho' & _ & Hnew). set (p := o_next (objs s)) in *. set (o1 := Mk_objects _ _).
    rewrite Et, (lift_bind _ _ _ _ (take_word_ok w 63 c t Hwc Hwl Hc)). cbn [fst snd].
    destruct (store_word_ok (fresh 64) w) as [r Es]; [rewrite Hfresh; lia|]. rewrite (lift_bind _ _ _ _ Es). rewrite <- Et, (lift_bind _ _ _ _ (skip_tail args k rest Hargs)).
    destruct (IH rounds (have ++ [(p, w ++ 0 :: r)]) (with_objs s o1)) as (out & o & E & Em & Hl & Elive & Hdis); [lia|rewrite length_app; cbn; lia| |].
    { split; [exact Ho'|]. unfold addrs. rewrite map_app, list_to_set_app_L, objs_with. cbn. split.
      - apply NoDup_app. split; [done|]. split; [|apply NoDup_singleton]. intros x Hx. apply not_elem_of_cons. split; [|apply not_elem_of_nil].
        intros ->. apply Hnew, Hin. unfold addrs. by apply elem_of_list_to_set.
      - unfold addrs in Hin. set_solver. }
    rewrite <- app_assoc in E, Hl. exists ((p, w ++ 0 :: r) :: out), o. split; [exact E|]. cbn [map snd]. rewrite Em.
    assert (nonul w) as Hn by (eapply Forall_impl; [exact Hwc|]; cbn; lia). rewrite cstr_app by done. split; [done|]. split; [exact Hl|].
    rewrite objs_with in Elive, Hdis. rewrite Elive. unfold addrs in *. cbn [map fst]. rewrite list_to_set_cons. cbn in *. split; [set_solver|]. set_solver.
Qed.
End Splitting.

(** ** Case and names *)

Definition upper (w : buf) : buf := map (fun c => u8 (toupper (s8 c))) w.
Definition lower (w : buf) : buf := map (fun c => u8 (tolower (s8 c))) w.

Lemma map_cstr_ok f w r : nonul w -> map_cstr f (w ++ 0 :: r) = Some (map (fun c => u8 (f (s8 c))) w ++ 0 :: r).
Proof. induction 1 as [|c w Hc _ IH]; [done|]. cbn. destruct (Z.eqb_spec c 0); [lia|]. by rewrite IH. Qed.

(** Case conversion keeps a string a string. *)
Lemma case_bytes : forallb (fun c => (0 <? u8 (toupper (s8 c))) && (0 <? u8 (tolower (s8 c))) && (u8 (toupper (s8 (u8 (toupper (s8 c))))) =? u8 (toupper (s8 c)))) (seqZ 1 255) = true.
Proof. vm_compute. reflexivity. Qed.

Lemma case_byte c : 0 < c < 256 -> 0 < u8 (toupper (s8 c)) < 256 /\ 0 < u8 (tolower (s8 c)) < 256 /\ u8 (toupper (s8 (u8 (toupper (s8 c))))) = u8 (toupper (s8 c)).
Proof.
  intros Hc. pose proof case_bytes as Ha. rewrite forallb_forall in Ha. specialize (Ha c). rewrite !andb_true_iff, !Z.ltb_lt, Z.eqb_eq in Ha.
  destruct Ha as [[? ?] ?]; [apply list_elem_of_In, elem_of_seqZ; lia|]. pose proof (wrap_range 8 (toupper (s8 c)) ltac:(lia)). pose proof (wrap_range 8 (tolower (s8 c)) ltac:(lia)). lia.
Qed.

Lemma upper_nonul w : nonul w -> nonul (upper w).
Proof. intros Hw. apply Forall_map. eapply Forall_impl; [exact Hw|]. intros c Hc. by apply case_byte. Qed.
Lemma lower_nonul w : nonul w -> nonul (lower w).
Proof. intros Hw. apply Forall_map. eapply Forall_impl; [exact Hw|]. intros c Hc. by apply case_byte. Qed.
Lemma upper_upper w : nonul w -> upper (upper w) = upper w.
Proof. intros Hw. unfold upper. rewrite map_map. apply map_ext_Forall. eapply Forall_impl; [exact Hw|]. intros c Hc. by apply case_byte. Qed.

(** The name of a drive: [hdd] or [fdd] and a digit. *)
Definition is_drive_name (w : buf) : bool :=
  (bool_decide (lit_bytes "hdd" `prefix_of` w) || bool_decide (lit_bytes "fdd" `prefix_of` w)) && bool_decide (length w = 4%nat) &&
  match w !! 3%nat with Some c => (48 <=? c) && (c <=? 57) | None => false end.

Lemma drive_pattern_ok w r : nonul w -> drive_pattern (w ++ 0 :: r) = Some (is_drive_name w).
Proof.
  intros Hw. unfold drive_pattern, is_drive_name.
  destruct (strncmp_prefix w (lit_bytes "hdd") r [] Hw ltac:(repeat constructor)) as (z & E & Ez). change (strncmp (w ++ 0 :: r) (lit "hdd") 3 = Some z) in E. rewrite E. cbn [mbind option_bind]. rewrite Ez.
  destruct (strncmp_prefix w (lit_bytes "fdd") r [] Hw ltac:(repeat constructor)) as (z' & E' & Ez'). change (strncmp (w ++ 0 :: r) (lit "fdd") 3 = Some z') in E'.
  assert (forall b : bool, (if b then (len ← strlen (w ++ 0 :: r); if len =? 4 then c ← rd (w ++ 0 :: r) 3; Some ((48 <=? c) && (c <=? 57)) else Some false) else Some false) =
    Some (b && bool_decide (length w = 4%nat) && match w !! 3%nat with Some c => (48 <=? c) && (c <=? 57) | None => false end)) as Hgo.
  { intros [|]; [|done]. rewrite strlen_spec by done. cbn [mbind option_bind andb]. destruct (Z.eqb_spec (Z.of_nat (length w)) 4) as [El|El].
    - rewrite bool_decide_true by lia. destruct (lookup_lt_is_Some_2 w 3 ltac:(lia)) as [c Ec]. rewrite Ec. unfold rd. cbn [Z.ltb Z.compare]. rewrite lookup_app_l by lia. change (Z.to_nat 3) with 3%nat. by rewrite Ec.
    - by rewrite bool_decide_false by lia. }
  destruct (bool_decide (lit_bytes "hdd" `prefix_of` w)) eqn:Eh; cbn [orb].
  - apply (Hgo true).
  - rewrite E'. cbn [mbind option_bind]. rewrite Ez'. apply Hgo.
Qed.

(** ** The command table *)

Definition with_names {H W} (s : shell H (session W)) (l : list buf) : shell H (session W) :=
  with_world_of s (Mk_session (ss_mount (sh_world s)) (current_path (sh_world s)) l (ss_objs (sh_world s))).
Definition names_of {H W} (s : shell H (session W)) : list buf := command_table (sh_world s).
(** The commands as they are compared. *)
Definition keys_of (l : list buf) : list buf := map (fun n => upper (cstr n)) l.

Fixpoint first_match (key : buf) (l : list buf) (i : nat) : option nat :=
  match l with [] => None | n :: l' => if bool_decide (n = key) then Some i else first_match key l' (S i) end.

Lemma terminated_upper n : terminated n -> exists n', map_cstr toupper n = Some n' /\ terminated n' /\ cstr n' = upper (cstr n).
Proof.
  intros (t & r & Ht & ->). eexists. split; [by apply map_cstr_ok|]. pose proof (upper_nonul t Ht). split; [by exists (upper t), r|]. rewrite !cstr_app by done. done.
Qed.

Lemma find_command_ok {H W} (key r : buf) : nonul key -> forall l pre (s : shell H (session W)), names_of s = pre ++ l -> Forall terminated (pre ++ l) ->
  exists l', find_command (length pre) (length l) (key ++ 0 :: r) s = Some (first_match key (keys_of l) (length pre), with_names s (pre ++ l')) /\
    length l' = length l /\ Forall terminated l' /\ keys_of l' = keys_of l.
Proof.
  intros Hk. induction l as [|n l IH]; intros pre s En Ht; cbn [length find_command keys_of map first_match].
  - exists []. split; [|done]. unfold with_names. rewrite app_nil_r. unfold names_of in En. rewrite app_nil_r in En. rewrite <- En. by destruct s as [? ? ? []].
  - apply Forall_app in Ht as [Hpre Ht]. inversion_clear Ht as [|? ? Hn Hl]. rewrite gets_bind. unfold names_of in En. rewrite En.
    rewrite (lift_bind _ n) by (by rewrite lookup_app_r, Nat.sub_diag by lia). destruct (terminated_upper n Hn) as (n' & E & Hn' & Ec). rewrite (lift_bind _ _ _ _ E).
    rewrite insert_app_r_alt, Nat.sub_diag by lia. cbn [insert list_insert]. set (s1 := with_names s (pre ++ n' :: l)). erewrite bind_eq by (instantiate (1 := s1); reflexivity).
    destruct Hn' as (t & rt & Htn & ->). rewrite cstr_app in Ec by done. destruct (strcmp_eq key t r rt Hk Htn) as (z & Ez & Eb). rewrite (lift_bind _ _ _ _ Ez), Eb.
    assert (terminated (t ++ 0 :: rt)) as Hterm by (by exists t, rt). rewrite <- Ec.
    assert (bool_decide (t = key) = bool_decide (key = t)) as -> by (apply bool_decide_ext; done). case_bool_decide.
    + exists ((t ++ 0 :: rt) :: l). split; [done|]. split; [done|]. split; [by constructor|]. cbn. rewrite cstr_app by done. f_equal. rewrite Ec. apply upper_upper.
      destruct Hn as (u & ru & Hu & ->). by rewrite cstr_app.
    + destruct (IH (pre ++ [t ++ 0 :: rt]) s1) as (l' & E' & Hlen & Hl' & Ek); [by rewrite <- app_assoc|rewrite <- app_assoc; apply Forall_app; split; [done|by constructor]|].
      rewrite length_app in E'. cbn [length] in E'. rewrite Nat.add_1_r in E'. exists ((t ++ 0 :: rt) :: l'). rewrite E'. split; [unfold keys_of; by rewrite <- app_assoc|]. cbn. split; [by rewrite Hlen|].
      split; [by constructor|]. rewrite cstr_app by done. unfold keys_of in Ek. rewrite Ek. f_equal. rewrite Ec. apply upper_upper. destruct Hn as (u & ru & Hu & ->). by rewrite cstr_app.
Qed.

Section Processing.
Context {H W D : Type} `{Ports H} `{BlockDev D}.
Context (fuel : nat) (alloc_ok : Z -> bool) (fresh : nat -> buf) (drive_addr : nat -> Z) (set_current : Z -> W -> W).
Context (Hfresh : forall n, length (fresh n) = n) (Halloc : alloc_ok 64 = true).
Context (execute : nat -> list buf -> M (shell H (session W)) unit).
Implicit Types s : shell H (session W).

Lemma split_input_ok k0 cmd args k rest s : word cmd -> Forall (fun a => word (snd a)) args -> (length args <= 10)%nat -> objects_ok (objs s) ->
  exists r bufs o, split_input fuel alloc_ok fresh (line_of k0 cmd args k rest) (fresh 64) 64 10 s = Some ((cmd ++ 0 :: r, Some bufs), with_objs s o) /\
    map (fun a => cstr (snd a)) bufs = map snd args /\ args_live bufs (with_objs s o) /\ o_live o = o_live (objs s) ∪ addrs bufs /\ addrs bufs ## o_live (objs s).
Proof using Hfresh Halloc.
  clear execute set_current drive_addr. intros (Hne & Hl & Hc) Ha Hn Ho. unfold split_input, line_of. destruct (tail_head args k rest) as (c & t & Et & Hct).
  destruct cmd as [|c0 cmd]; [done|]. assert (c0 <> 32) as Hc0 by (inversion_clear Hc; tauto). cbn [app].
  rewrite (lift_bind _ _ _ _ (skip_blanks_ok k0 _ c0 Hc0)). rewrite Et. rewrite (lift_bind _ _ _ _ (take_word_ok (c0 :: cmd) 63 c t Hc Hl Hct)). cbn [fst snd].
  destruct (store_word_ok (fresh 64) (c0 :: cmd)) as [r Es]; [rewrite Hfresh; lia|]. rewrite (lift_bind _ _ _ _ Es), <- Et, (lift_bind _ _ _ _ (skip_tail args k rest Ha)).
  assert (length args <= length (next_words args k rest))%nat as Hlen.
  { clear - Ha. assert (forall args, (length args <= length (tail_of args k rest))%nat) as Ht.
    { clear. induction args as [|[n w] args IH]; cbn [tail_of length]; [lia|]. rewrite !length_app, length_replicate. lia. }
    destruct args as [|[n w] args]; cbn [next_words length]; [lia|]. inversion_clear Ha as [|? ? (Hw & _) _]. cbn in Hw. rewrite length_app. specialize (Ht args). destruct w; [done|]. cbn. lia. }
  destruct (split_args_ok fuel alloc_ok fresh Hfresh Halloc k rest args Ha (S (length (next_words args k rest))) [] s) as (out & o & E & Em & Hlive & El & Hd); [lia|cbn; lia| |].
  { split; [done|]. unfold addrs. cbn. split; [apply NoDup_nil_2|set_solver]. }
  rewrite (bind_eq _ _ _ _ _ E). exists r, out, o. done.
Qed.

Lemma not_a_drive s cmd r : nonul cmd -> is_drive_name (lower (take 15 cmd)) = false ->
  try_switch_drive fuel fresh drive_addr set_current (cmd ++ 0 :: r) s = Some (false, s).
Proof using Hfresh.
  intros Hn Hd. unfold try_switch_drive. destruct (store_name (fresh 16) cmd r 15 Hn (Hfresh 16)) as (b & E & _ & (t & rt & Ht & ->) & Ec). rewrite cstr_app in Ec by done. subst t.
  change (Z.of_nat 15) with 15 in E. destruct (strncpy (fresh 16) (cmd ++ 0 :: r) 15) as [x|]; [|done]. cbn [mbind option_bind] in E. rewrite (lift_bind _ _ _ _ eq_refl), (lift_bind _ _ _ _ E).
  rewrite (lift_bind _ _ _ _ (map_cstr_ok tolower _ rt Ht)). fold (lower (take 15 cmd)). rewrite (lift_bind _ _ _ _ (drive_pattern_ok _ rt (lower_nonul _ Ht))), Hd. done.
Qed.

(** [s'] is [s] but for the allocated strings and the case of the names in the table. *)
Definition same_session s s' : Prop :=
  sh_con s' = sh_con s /\ sh_kb s' = sh_kb s /\ sh_hist s' = sh_hist s /\ ss_mount (sh_world s') = ss_mount (sh_world s) /\
  current_path (sh_world s') = current_path (sh_world s) /\ keys_of (names_of s') = keys_of (names_of s) /\ Forall terminated (names_of s').

Lemma process_command_ok k0 cmd args k rest s i : word cmd -> Forall (fun a => word (snd a)) args -> (length args <= 10)%nat -> objects_ok (objs s) ->
  Forall terminated (names_of s) -> is_drive_name (lower (take 15 cmd)) = false -> first_match (upper cmd) (keys_of (names_of s)) 0 = Some i ->
  exists bufs s', process_command fuel alloc_ok fresh drive_addr set_current execute (line_of k0 cmd args k rest) s =
      (_ ← execute i (map snd bufs); free_arguments bufs) s' /\
    map (fun a => cstr (snd a)) bufs = map snd args /\ same_session s s' /\
    args_live bufs s' /\ o_live (objs s') = o_live (objs s) ∪ addrs bufs /\ addrs bufs ## o_live (objs s).
Proof using Hfresh Halloc.
  intros Hw Ha Hn Ho Hnames Hd Hi. destruct (split_input_ok k0 cmd args k rest s Hw Ha Hn Ho) as (r & bufs & o & E & Em & Hlive & El & Hdis).
  unfold process_command. rewrite (bind_eq _ _ _ _ _ E). destruct Hw as (Hne & _ & Hc). assert (nonul cmd) as Hnn by (eapply Forall_impl; [exact Hc|]; cbn; lia).
  assert (exists c0, rd (cmd ++ 0 :: r) 0 = Some c0 /\ c0 <> 0) as (c0 & Ec0 & Hc0) by (destruct cmd as [|c0 ?]; [done|]; exists c0; split; [done|]; apply nonul_cons in Hnn; lia).
  rewrite (lift_bind _ _ _ _ Ec0). destruct (Z.eqb_spec c0 0); [done|]. rewrite (bind_eq _ _ _ _ _ (not_a_drive _ cmd r Hnn Hd)).
  rewrite (lift_bind _ _ _ _ (map_cstr_ok toupper cmd r Hnn)). fold (upper cmd). rewrite gets_bind.
  destruct (find_command_ok (upper cmd) r (upper_nonul _ Hnn) (names_of s) [] (with_objs s o) ltac:(done) Hnames) as (l' & El' & Hlen & Ht & Ek).
  cbn [length app] in El'. change (command_table (sh_world (with_objs s o))) with (names_of s). rewrite (bind_eq _ _ _ _ _ El'), Hi.
  exists bufs, (with_names (with_objs s o) l'). split; [done|]. split; [done|]. split; [by split_and!|]. split; [exact Hlive|]. split; [exact El|exact Hdis].
Qed.
End Processing.

(** ** Messages *)

(** Text without an escape character. *)
Definition message (t : buf) : Prop := Forall (fun c => 0 < c < 256 /\ c <> 27) t.

Lemma spec_text_message t : message t -> forall tm, t_mode tm = Text -> exists tm', spec_text t tm = Some tm' /\ t_mode tm' = Text.
Proof.
  induction 1 as [|c t [Hc Hne] _ IH]; intros tm Hm; cbn [spec_text]; [by exists tm|]. unfold spec_char. rewrite Hm. destruct (Z.eqb_spec c 27); [done|].
  by apply IH.
Qed.

Lemma put_text_message {H W} `{Terminal H} (fuel : nat) t : (tx_max < fuel)%nat -> message t -> forall (s : shell H W), con_ok (sh_con s) -> mode_of (sh_con s) = Text ->
  exists c, put_text fuel t s = Some (tt, with_con s c) /\ con_ok c /\ mode_of c = Text.
Proof.
  intros Hf. induction 1 as [|c t [Hc Hne] _ IH]; intros s Hok Hm; cbn [put_text]; [exists (sh_con s); by destruct s|].
  destruct (spec_text_message [c] ltac:(constructor; [done|constructor]) (term_of (sh_con s)) Hm) as (tm & E & Hm'). cbn [spec_text] in E. destruct (spec_char c _) as [tm1|] eqn:E1; [|done]. injection E as ->.
  destruct (vga_write_char_ok fuel (sh_con s) c tm Hok ltac:(unfold byte_ok; lia) Hf E1) as (c1 & E2 & Hok1 & Et & _).
  erewrite bind_eq by (unfold putchar, on_con, display_putchar; rewrite E2; reflexivity). rewrite <- Et in Hm'. destruct (IH (with_con s c1) Hok1 Hm') as (c2 & E3 & Hok2 & Hm2). by exists c2.
Qed.

(** ** Switching drives *)

Lemma find_drive_name_ok w r l : nonul w -> Forall (fun d => terminated (name d)) l -> forall i n, find_name l (w ++ 0 :: r) i n = Some (first_match w (map (fun d => cstr (name d)) (take n l)) i).
Proof.
  intros Hw. induction 1 as [|d l (t & rt & Ht & Ed) _ IH]; intros i n; cbn [find_name]; [by destruct n|].
  destruct n as [|n]; [done|]. cbn [take map first_match find_name]. rewrite Ed, cstr_app by done. destruct (strcmp_eq t w rt r Ht Hw) as (z & -> & Ez). cbn [mbind option_bind].
  rewrite Ez. by case_bool_decide.
Qed.

Lemma first_match_lookup key l i j : first_match key l i = Some j -> (i <= j)%nat /\ l !! (j - i)%nat = Some key.
Proof.
  revert i. induction l as [|n l IH]; intros i; cbn; [done|]. case_bool_decide as E; [intros [= <-]; split; [lia|]; by rewrite Nat.sub_diag, E|].
  intros (Hi & Hl)%IH. split; [lia|]. by replace (j - i)%nat with (S (j - S i)) by lia.
Qed.

Section Switching.
Context {H W : Type} `{Terminal H} (fuel : nat) (fresh : nat -> buf) (drive_addr : nat -> Z) (set_current : Z -> W -> W).
Context (Hfuel : (tx_max < fuel)%nat) (Hfresh : forall n, length (fresh n) = n).
Implicit Types s : shell H (session W).

Record session_ok s : Prop := Mk_session_ok {
  so_console : con_ok (sh_con s) /\ mode_of (sh_con s) = Text;
  so_path : length (current_path (sh_world s)) = 256%nat;
  so_count : 0 <= ms_count (ss_mount (sh_world s)) <= MAX_DRIVES;
  so_drives : Forall (fun d => terminated (name d) /\ message (cstr (name d))) (ms_drives (ss_mount (sh_world s)))
}.
Definition drive_names s : list buf := map (fun d => cstr (name d)) (take (Z.to_nat (ms_count (ss_mount (sh_world s)))) (ms_drives (ss_mount (sh_world s)))).

Lemma switch_ok s cmd r i : session_ok s -> nonul cmd -> (length cmd <= 15)%nat -> is_drive_name (lower cmd) = true -> first_match (lower cmd) (drive_names s) 0 = Some i ->
  exists s', try_switch_drive fuel fresh drive_addr set_current (cmd ++ 0 :: r) s = Some (true, s') /\
    ms_current (ss_mount (sh_world s')) = drive_addr i /\ cstr (current_path (sh_world s')) = lit_bytes "/" /\
    ms_drives (ss_mount (sh_world s')) = ms_drives (ss_mount (sh_world s)) /\ objs s' = objs s /\ names_of s' = names_of s /\ con_ok (sh_con s').
Proof using Hfuel Hfresh.
  intros [[Hcon Hmode] Hp Hcnt Hdr] Hn Hl Hd Hi. unfold try_switch_drive.
  destruct (store_name (fresh 16) cmd r 15 Hn (Hfresh 16)) as (b & E & _ & (t & rt & Ht & ->) & Ec). rewrite cstr_app, take_ge in Ec by (done || lia). subst t.
  change (Z.of_nat 15) with 15 in E. destruct (strncpy (fresh 16) (cmd ++ 0 :: r) 15) as [x|]; [|done]. cbn [mbind option_bind] in E. rewrite (lift_bind _ _ _ _ eq_refl), (lift_bind _ _ _ _ E).
  rewrite (lift_bind _ _ _ _ (map_cstr_ok tolower _ rt Ht)). fold (lower cmd). rewrite (lift_bind _ _ _ _ (drive_pattern_ok _ rt (lower_nonul _ Ht))), Hd.
  unfold find_drive. rewrite bind_assoc, gets_bind. destruct (Z.ltb_spec (ms_count (ss_mount (sh_world s))) 0); [lia|]. destruct (Z.ltb_spec MAX_DRIVES (ms_count (ss_mount (sh_world s)))); [lia|]. cbn [orb].
  assert (Forall (fun d => terminated (name d)) (ms_drives (ss_mount (sh_world s)))) as Hdt by (eapply Forall_impl; [exact Hdr|]; by intros ? []).
  rewrite (lift_bind _ _ _ _ (find_drive_name_ok (lower cmd) rt _ (lower_nonul _ Ht) Hdt 0 _)). fold (drive_names s). rewrite Hi. rewrite gets_bind.
  erewrite bind_eq by reflexivity. destruct (first_match_lookup _ _ _ _ Hi) as [_ Hlk]. rewrite Nat.sub_0_r in Hlk. unfold drive_names in Hlk. rewrite list_lookup_fmap in Hlk.
  destruct (take _ _ !! i) as [d|] eqn:Ed; [|done]. injection Hlk as Hname. apply lookup_take_Some in Ed as [Ed _]. rewrite (lift_bind _ _ _ _ Ed).
  destruct (Forall_lookup_1 _ _ _ _ Hdr Ed) as [(t & rd' & Htn & En) Hmsg]. rewrite En, cstr_app in Hmsg by done. rewrite En.
  match goal with |- context [(_ ≫= _) ?x] => set (s1 := x) end. unfold printf_, print. rewrite bind_assoc.
  pose proof (printf_string (lit_bytes "Switched to drive ") [10] t rd' ltac:(repeat constructor; done) ltac:(repeat constructor; done) Htn) as Ep.
  change (lit_bytes "Switched to drive " ++ 37 :: 115 :: [10] ++ [0]) with (lit_bytes "Switched to drive %s" ++ [10; 0]) in Ep. rewrite (lift_bind _ _ _ _ Ep).
  assert (message (lit_bytes "Switched to drive " ++ t ++ [10])) as Hmt by (apply Forall_app; split; [repeat constructor; done|]; apply Forall_app; split; [done|]; repeat constructor; done).
  destruct (put_text_message fuel _ Hfuel Hmt s1 Hcon Hmode) as (c & E1 & Hc & _).
  rewrite (bind_eq _ _ _ _ _ E1). unfold reset_path. rewrite bind_assoc, gets_bind.
  destruct (store_name (current_path (sh_world s)) (lit_bytes "/") [] 255 ltac:(repeat constructor; done) Hp) as (p & Ep' & _ & _ & Ecp).
  change (Z.of_nat 255) with 255 in Ep'. change (lit_bytes "/" ++ [0]) with (lit "/") in Ep'. change (current_path (sh_world (with_con s1 c))) with (current_path (sh_world s)).
  destruct (strncpy (current_path (sh_world s)) (lit "/") 255) as [q|]; [|done]. cbn [mbind option_bind] in Ep'. rewrite bind_assoc, (lift_bind _ _ _ _ eq_refl), bind_assoc, (lift_bind _ _ _ _ Ep').
  eexists. split; [reflexivity|]. cbn. split_and!; try done. 
Qed.
End Switching.

(** * Theorems *)

Section Theorems.
Context {H W : Type} `{Terminal H}.

(** C15: A line that consists of a command of the table, in upper or lower case, and up to ten
    words, with blanks around them, runs exactly that command with exactly these words as
    strings; nothing else changes before it runs, and when it leaves the allocated objects
    alone every argument string is released again.  The words have at most 63 characters
    (a longer one would be cut into several arguments), the line does not name a drive, and
    the argument strings can be allocated. *)
Theorem command_dispatch (fuel : nat) (alloc_ok : Z -> bool) (fresh : nat -> buf) (drive_addr : nat -> Z) (set_current : Z -> W -> W)
    (execute : nat -> list buf -> M (shell H (session W)) unit) (s : shell H (session W)) (k0 k i : nat) (cmd rest : buf) (args : list (nat * buf)) :
  (forall n, length (fresh n) = n) -> alloc_ok 64 = true ->
  word cmd -> Forall (fun a => word (snd a)) args -> (length args <= 10)%nat -> objects_ok (objs s) ->
  Forall terminated (names_of s) -> is_drive_name (lower (take 15 cmd)) = false -> first_match (upper cmd) (keys_of (names_of s)) 0 = Some i ->
  exists bufs s', process_command fuel alloc_ok fresh drive_addr set_current execute (line_of k0 cmd args k rest) s =
      (_ ← execute i (map snd bufs); free_arguments bufs) s' /\
    map (fun a => cstr (snd a)) bufs = map snd args /\ same_session s s' /\
    forall s2, execute i (map snd bufs) s' = Some (tt, s2) -> objs s2 = objs s' ->
      exists o, (_ ← execute i (map snd bufs); free_arguments bufs) s' = Some (tt, with_objs s2 o) /\ o_live o = o_live (objs s).
Proof.
  intros Hfresh Halloc Hw Ha Hn Ho Hnames Hd Hi.
  destruct (process_command_ok fuel alloc_ok fresh drive_addr set_current Hfresh Halloc execute k0 cmd args k rest s i Hw Ha Hn Ho Hnames Hd Hi) as (bufs & s' & E & Em & Hs & Hlive & El & Hdis).
  exists bufs, s'. split; [exact E|]. split; [done|]. split; [done|]. intros s2 E2 Eo. rewrite (bind_eq _ _ _ _ _ E2).
  destruct (free_arguments_ok bufs s2) as (o & Ef & _ & Elo); [by unfold args_live; rewrite Eo|]. exists o. split; [done|]. rewrite Elo, Eo, El. set_solver.
Qed.

(** A drive name typed as a command makes that drive current, whatever the case of its
    letters: the entry of the drive list with this name is found and the current path is
    the root again.  The list of drives, the table and the allocated objects stay. *)
Theorem drive_switch (fuel : nat) (fresh : nat -> buf) (drive_addr : nat -> Z) (set_current : Z -> W -> W) (s : shell H (session W)) (cmd r : buf) (i : nat) :
  (tx_max < fuel)%nat -> (forall n, length (fresh n) = n) -> session_ok s -> nonul cmd -> (length cmd <= 15)%nat -> is_drive_name (lower cmd) = true ->
  first_match (lower cmd) (drive_names s) 0 = Some i ->
  exists s', try_switch_drive fuel fresh drive_addr set_current (cmd ++ 0 :: r) s = Some (true, s') /\
    ms_current (ss_mount (sh_world s')) = drive_addr i /\ cstr (current_path (sh_world s')) = lit_bytes "/" /\
    ms_drives (ss_mount (sh_world s')) = ms_drives (ss_mount (sh_world s)) /\ objs s' = objs s /\ names_of s' = names_of s /\ con_ok (sh_con s').
Proof. intros Hf Hfr. by apply switch_ok. Qed.
End Theorems.

(** [cd /] does not go to the root: the trailing slash is cut off, and the path that is
    asked for is the current one with a slash behind it. *)
Theorem cd_root_stays cur r : nonul cur ->
  extract_drive_from_path (Some (lit "/")) = Some None /\ str_trim_end (lit "/") 47 = Some [0; 0] /\
  exists p, cd_path (cur ++ 0 :: r) [0; 0] = Some p /\ cstr p = take 255 (cur ++ lit_bytes "/").
Proof.
  intros Hc. split; [reflexivity|]. split; [reflexivity|]. unfold cd_path.
  destruct (snprintf_spec (lit "/" ++ replicate 254 0) 256 (lit "%s/%s") [VStr (Some (cur ++ 0 :: r)); VStr (Some [0; 0])] (cur ++ lit_bytes "/")) as (rest & E & _).
  - cbn. lia.
  - cbn -[chars]. rewrite chars_ok by done. reflexivity.
  - apply bytes_ok_app. split; [|by repeat constructor]. eapply Forall_impl; [exact Hc|]. unfold byte_ok. cbn. lia.
  - change (Z.of_nat 256) with 256 in E. rewrite E. cbn [fmap option_fmap option_map snd]. eexists. split; [done|]. change (256 - 1)%nat with 255%nat.
    apply cstr_app, Forall_take. apply nonul_app. split; [done|]. by repeat constructor.
Qed.

(** ** Witnesses *)

Definition zeros (n : nat) : buf := replicate n 0.
Definition disk_drive (nm : buf) : drive_t := Mk_drive DRIVE_TYPE_ATA 496 true (nm ++ zeros 4) (zeros 41) 0 0 0 0 0 (zeros 64).
Definition two_drives : mount_state unit :=
  Mk_ms (Mk_vfs [] [] 0 ∅ tt) [disk_drive hdd0; disk_drive [104; 100; 100; 49]] 2 0.
Definition start_session : session unit := Mk_session two_drives (lit "/dir" ++ zeros 251) command_names (Mk_objects ∅ 1).
Definition command_shell : shell vga_sim (session unit) := Mk_shell prompt_console (kb_on (idle []) tt) no_history start_session (zeros 256) 0 0.

Lemma terminated_check b : forallb (fun c => (0 <? c) && (c <? 256)) (removelast b) && bool_decide (last b = Some 0) = true -> terminated b.
Proof.
  intros [Hf Hl%bool_decide_eq_true]%andb_true_iff. apply last_Some in Hl as [l ->]. rewrite removelast_last in Hf. exists l, []. split; [|done].
  apply Forall_forall. intros c Hc%list_elem_of_In. rewrite forallb_forall in Hf. specialize (Hf c Hc). lia.
Qed.

Lemma command_names_terminated : Forall terminated command_names.
Proof.
  assert (forallb (fun b => forallb (fun c => (0 <? c) && (c <? 256)) (removelast b) && bool_decide (last b = Some 0)) command_names = true) as Ha by (vm_compute; reflexivity).
  apply Forall_forall. intros n Hn%list_elem_of_In. rewrite forallb_forall in Ha. by apply terminated_check, Ha.
Qed.

Lemma command_dispatch_witness : exists bufs s',
  process_command 3 (fun _ => true) zeros Z.of_nat (fun _ w => w) (fun _ _ => mret tt) (lit " ECHO  hi you") command_shell =
    (_ ← mret tt; free_arguments bufs) s' /\ map (fun a => cstr (snd a)) bufs = [lit_bytes "hi"; lit_bytes "you"].
Proof.
  destruct (command_dispatch 3 (fun _ => true) zeros Z.of_nat (fun _ w => w) (fun _ _ => mret tt) command_shell 1 0 2 (lit_bytes "ECHO") [] [(1%nat, lit_bytes "hi"); (0%nat, lit_bytes "you")])
    as (bufs & s' & E & Em & _).
  - intros n. apply length_replicate.
  - reflexivity.
  - split; [discriminate|]. split; [cbn; lia|]. repeat constructor; discriminate.
  - repeat constructor; cbn; (discriminate || lia || idtac).
  - cbn. lia.
  - split; [cbn; lia|]. intros p Hp. cbn in Hp. exfalso. revert Hp. apply not_elem_of_empty.
  - exact command_names_terminated.
  - vm_compute. reflexivity.
  - vm_compute. reflexivity.
  - exists bufs, s'. split; [exact E|exact Em].
Defined.

Lemma terminated_name nm : nonul nm -> terminated (nm ++ zeros 4).
Proof. intros Hn. by exists nm, (zeros 3). Qed.

Lemma drive_switch_witness : exists s', try_switch_drive 3 zeros (fun i => Z.of_nat i + 1) (fun _ w => w) (lit "HDD1") command_shell = Some (true, s') /\
  ms_current (ss_mount (sh_world s')) = 2 /\ cstr (current_path (sh_world s')) = lit_bytes "/".
Proof.
  destruct (drive_switch 3 zeros (fun i => Z.of_nat i + 1) (fun _ w => w) command_shell (lit_bytes "HDD1") [] 1) as (s' & E & Ec & Ep & _).
  - cbn. lia.
  - intros n. apply length_replicate.
  - split; [split; [exact prompt_console_ok|reflexivity]|reflexivity|cbn; unfold MAX_DRIVES; lia|].
    repeat apply Forall_cons_2; [split; [apply terminated_name|]..|constructor]; repeat constructor; done.
  - repeat constructor.
  - cbn. lia.
  - reflexivity.
  - reflexivity.
  - exists s'. split; [exact E|]. split; [exact Ec|exact Ep].
Defined.
