(* ===== verification/Net.v ===== *)
(** drivers/net/netstack.c, netstack.h and the byte order of ethernet.c: addresses,
    checksums, ARP, ICMP echo, UDP and the DHCP client.

    Frames are lists of bytes, headers their packed fields in order; the fields of a
    received packet are read at their offsets, and a read outside the received bytes is
    undefined behaviour ([undef]), as is a write outside a packet buffer.  The network
    card is a flag, the frames handed to it, and what successive receive calls
    deliver.  Console output is left out. *)

From stdpp Require Import strings.
From S2P Require Import Prelude CString Effects.

(** ** Byte order *)

Definition htons (x : Z) : Z := u16 (Z.lor (Z.shiftl x 8) (Z.shiftr x 8)).
Definition ntohs (x : Z) : Z := htons x.
Definition htonl (x : Z) : Z :=
  Z.lor (Z.lor (Z.lor (Z.shiftl (Z.land x 255) 24) (Z.shiftl (Z.land x 65280) 8))
               (Z.shiftr (Z.land x 16711680) 8))
        (Z.shiftr (Z.land x 4278190080) 24).
Definition ntohl (x : Z) : Z := htonl x.

(** ** Addresses *)

Fixpoint parse_loop (p : buf) (out part dots : Z) : option Z :=
  match p with
  | [] => None
  | c :: p' =>
      if (48 <=? c) && (c <=? 57) then
        let d := c - 48 in
        if part <? 0 then parse_loop p' out d dots
        else let part := part * 10 + d in
             if 255 <? part then Some 0 else parse_loop p' out part dots
      else if (c =? 46) || (c =? 0) then
        if part <? 0 then Some 0 else
        let out := u32 (Z.lor (Z.shiftl out 8) part) in
        if c =? 46 then
          let dots := dots + 1 in
          if 3 <? dots then Some 0 else parse_loop p' out (-1) dots
        else Some (if dots =? 3 then out else 0)
      else Some 0
  end.

Definition parse_ipv4 (ip : option buf) : option Z :=
  match ip with None => Some 0 | Some ip => parse_loop ip 0 (-1) 0 end.

Definition u8_to_dec (v : Z) : buf :=
  if 100 <=? v then [48 + v / 100; 48 + v mod 100 / 10; 48 + v mod 100 mod 10]
  else if 10 <=? v then [48 + v / 10; 48 + v mod 10]
  else [48 + v].

Definition ipv4_text (ip : Z) : buf :=
  let a := u8 (Z.land (Z.shiftr ip 24) 255) in
  let b := u8 (Z.land (Z.shiftr ip 16) 255) in
  let c := u8 (Z.land (Z.shiftr ip 8) 255) in
  let d := u8 (Z.land ip 255) in
  u8_to_dec a ++ [46] ++ u8_to_dec b ++ [46] ++ u8_to_dec c ++ [46] ++ u8_to_dec d ++ [0].

Definition format_ipv4 (ip : Z) (buffer : buf) : option buf := put_bytes buffer (ipv4_text ip).

Definition hex_pair (m : Z) : buf := [hex_digit true (Z.land (Z.shiftr m 4) 15); hex_digit true (Z.land m 15)].

(** The text of a MAC address: a colon behind every byte but the sixth. *)
Fixpoint mac_text (mac : buf) (i : nat) : buf :=
  match mac with
  | [] => []
  | m :: mac' => hex_pair m ++ (if (i <? 5)%nat then [58] else []) ++ mac_text mac' (S i)
  end.

Definition format_mac (mac buffer : buf) : option buf :=
  if (length mac <? 6)%nat then None else put_bytes buffer (mac_text (take 6 mac) 0 ++ [0]).

(** ** Checksums *)

Fixpoint checksum_accumulate (data : buf) (sum : Z) : Z :=
  match data with
  | a :: b :: data' => checksum_accumulate data' (u32 (sum + Z.lor (Z.shiftl a 8) b))
  | [a] => u32 (sum + Z.shiftl a 8)
  | [] => sum
  end.

(** [while (sum >> 16) sum = (sum & 0xFFFF) + (sum >> 16)]; three rounds are enough
    for 32 bits. *)
Fixpoint fold_loop (fuel : nat) (sum : Z) : option Z :=
  match fuel with
  | O => None
  | S fuel' =>
      if Z.shiftr sum 16 =? 0 then Some sum
      else fold_loop fuel' (u32 (Z.land sum 65535 + Z.shiftr sum 16))
  end.

Definition fold_checksum (sum : Z) : option Z := s ← fold_loop 4 sum; Some (u16 (Z.lnot s)).

(** [data] are the [length] bytes. *)
Definition ip_checksum (data : buf) : option Z := fold_checksum (checksum_accumulate data 0).

(** ** Constants and state *)

Definition ETH_ADDR_LEN : nat := 6.
Definition ETHERTYPE_IPV4 : Z := 2048.
Definition ETHERTYPE_ARP : Z := 2054.
Definition ARP_REQUEST : Z := 1.
Definition ARP_REPLY : Z := 2.
Definition ARP_HARDWARE_ETHERNET : Z := 1.
Definition ARP_PROTOCOL_IPV4 : Z := 2048.
Definition ARP_CACHE_SIZE : nat := 32.
Definition IP_PROTOCOL_ICMP : Z := 1.
Definition IP_PROTOCOL_UDP : Z := 17.
Definition ICMP_ECHO_REPLY : Z := 0.
Definition ICMP_ECHO_REQUEST : Z := 8.
Definition IP_BROADCAST : Z := 4294967295.
Definition PACKET_SIZE : nat := 1514.

Record network_config := Mk_config {
  ip_address : Z; netmask : Z; gateway : Z; dns_server : Z; mac_address : buf
}.

Record arp_cache_entry := Mk_arp { c_ip : Z; c_mac : buf; c_timestamp : Z; c_valid : bool }.

Record net := Mk_net {
  net_config : network_config;
  arp_cache : list arp_cache_entry;
  ip_identification : Z;
  seed : Z;
  ne2000_initialized : bool;
  sent : list buf;            (* the frames that the card has sent, oldest first *)
  inbox : list buf            (* what the next receive calls deliver; empty: nothing *)
}.

Definition with_cache (s : net) (c : list arp_cache_entry) : net :=
  Mk_net (net_config s) c (ip_identification s) (seed s) (ne2000_initialized s) (sent s) (inbox s).
Definition with_sent (s : net) (l : list buf) : net :=
  Mk_net (net_config s) (arp_cache s) (ip_identification s) (seed s) (ne2000_initialized s) l (inbox s).
Definition with_inbox (s : net) (l : list buf) : net :=
  Mk_net (net_config s) (arp_cache s) (ip_identification s) (seed s) (ne2000_initialized s) (sent s) l.
Definition with_ident (s : net) (i : Z) : net :=
  Mk_net (net_config s) (arp_cache s) i (seed s) (ne2000_initialized s) (sent s) (inbox s).
Definition with_seed (s : net) (i : Z) : net :=
  Mk_net (net_config s) (arp_cache s) (ip_identification s) i (ne2000_initialized s) (sent s) (inbox s).
Definition with_config (s : net) (c : network_config) : net :=
  Mk_net c (arp_cache s) (ip_identification s) (seed s) (ne2000_initialized s) (sent s) (inbox s).

Abbreviation N := (M net).

(** [n] bytes of a packet at an offset, and a field read as a little-endian word. *)
Definition bytes_at (b : buf) (off n : nat) : option buf :=
  if (off + n <=? length b)%nat then Some (slice b off n) else None.
Definition field (b : buf) (off n : nat) : option Z := option_map le_get (bytes_at b off n).

(** ** The network card *)

(** A packet on the wire: filled up with zeros to the smallest Ethernet frame. *)
Definition wire_frame (l : buf) : buf := l ++ replicate (60 - length l) 0.

(** [ne2000_send_packet] sends a packet of at most 1500 bytes, filled up to 60, and drops a
    longer one (drivers/net/ne2000.c:365); [nic_send] reports success for both. *)
Definition nic_send (p : buf) : N bool := fun s =>
  if ne2000_initialized s
  then Some (true, if (length p <=? 1500)%nat then with_sent s (sent s ++ [wire_frame p]) else s)
  else Some (false, s).

(** The bytes delivered, [None] for a return value of 0 or less. *)
Definition nic_recv (cap : nat) : N (option buf) := fun s =>
  if ne2000_initialized s then
    match inbox s with
    | [] => Some (None, s)
    | p :: l => Some (if bool_decide (p = []) then None else Some (take cap p), with_inbox s l)
    end
  else Some (None, s).

(** ** ARP *)

(** The search loop: the entry of the address, else the first free one. *)
Fixpoint arp_slot (l : list arp_cache_entry) (i slot ip : Z) : Z :=
  match l with
  | [] => slot
  | e :: l' =>
      if c_valid e && (c_ip e =? ip) then i
      else arp_slot l' (i + 1) (if negb (c_valid e) && (slot <? 0) then i else slot) ip
  end.

Definition arp_add_entry (ip : Z) (mac : buf) : N unit :=
  m ← lift (bytes_at mac 0 ETH_ADDR_LEN);
  modify (fun s =>
    let slot := arp_slot (arp_cache s) 0 (-1) ip in
    let slot := if slot <? 0 then 0 else slot in
    with_cache s (<[Z.to_nat slot := Mk_arp ip m 0 true]> (arp_cache s))).

Fixpoint arp_find (l : list arp_cache_entry) (ip : Z) : option buf :=
  match l with
  | [] => None
  | e :: l' => if c_valid e && (c_ip e =? ip) then Some (c_mac e) else arp_find l' ip
  end.

(** The address written to [mac_out], [None] for false. *)
Definition arp_lookup (ip : Z) : N (option buf) := gets (fun s => arp_find (arp_cache s) ip).

Definition eth_header (dst src : buf) (ethertype : Z) : buf := dst ++ src ++ le_put 2 (htons ethertype).

Definition arp_packet (operation : Z) (sender_mac : buf) (sender_ip : Z) (target_mac : buf) (target_ip : Z) : buf :=
  le_put 2 (htons ARP_HARDWARE_ETHERNET) ++ le_put 2 (htons ARP_PROTOCOL_IPV4) ++ [6] ++ [4] ++
  le_put 2 (htons operation) ++ sender_mac ++ le_put 4 (htonl sender_ip) ++ target_mac ++ le_put 4 (htonl target_ip).

Definition arp_send_request (target_ip : Z) : N unit :=
  cfg ← gets net_config;
  let packet := eth_header (replicate 6 255) (mac_address cfg) ETHERTYPE_ARP ++
                arp_packet ARP_REQUEST (mac_address cfg) (ip_address cfg) (replicate 6 0) target_ip in
  _ ← nic_send packet; mret tt.

Definition arp_send_reply (target_ip : Z) (target_mac : buf) : N unit :=
  cfg ← gets net_config;
  let packet := eth_header target_mac (mac_address cfg) ETHERTYPE_ARP ++
                arp_packet ARP_REPLY (mac_address cfg) (ip_address cfg) target_mac target_ip in
  _ ← nic_send packet; mret tt.

Definition handle_arp_packet (packet : buf) (length : Z) : N unit :=
  if length <? 28 then mret tt else
  hardware_type ← lift (field packet 0 2);
  protocol_type ← lift (field packet 2 2);
  hardware_addr_len ← lift (field packet 4 1);
  protocol_addr_len ← lift (field packet 5 1);
  if negb (ntohs hardware_type =? ARP_HARDWARE_ETHERNET) || negb (ntohs protocol_type =? ARP_PROTOCOL_IPV4)
     || negb (hardware_addr_len =? 6) || negb (protocol_addr_len =? 4) then mret tt else
  operation ← lift (field packet 6 2);
  sender_mac ← lift (bytes_at packet 8 6);
  sender_ip ← lift (field packet 14 4);
  target_ip ← lift (field packet 24 4);
  _ ← arp_add_entry (ntohl sender_ip) sender_mac;
  cfg ← gets net_config;
  if (ntohs operation =? ARP_REQUEST) && (ntohl target_ip =? ip_address cfg)
  then arp_send_reply (ntohl sender_ip) sender_mac else mret tt.

(** ** IPv4 and ICMP *)

Definition ip_header_with (total_length identification protocol src dst checksum : Z) : buf :=
  [69] ++ [0] ++ le_put 2 (htons total_length) ++ le_put 2 (htons identification) ++ le_put 2 0 ++ [64] ++ [protocol] ++
  le_put 2 checksum ++ le_put 4 (htonl src) ++ le_put 4 (htonl dst).

(** The header with its checksum, which is stored in the byte order of the machine. *)
Definition ip_header (total_length identification protocol src dst : Z) : option buf :=
  c ← ip_checksum (ip_header_with total_length identification protocol src dst 0);
  Some (ip_header_with total_length identification protocol src dst c).

Definition icmp_header_with (type id seq checksum : Z) : buf :=
  [type] ++ [0] ++ le_put 2 checksum ++ le_put 2 (htons id) ++ le_put 2 (htons seq).

Definition icmp_message (type id seq : Z) (data : buf) : option buf :=
  c ← ip_checksum (icmp_header_with type id seq 0 ++ data);
  Some (icmp_header_with type id seq c ++ data).

(** The hardware address for a destination; [None]: it has to be resolved first. *)
Definition next_hop (cfg : network_config) (dst_ip : Z) : Z :=
  if (Z.land dst_ip (netmask cfg) =? Z.land (ip_address cfg) (netmask cfg)) || (dst_ip =? IP_BROADCAST)
  then dst_ip else gateway cfg.

Definition resolve_mac (dst_ip : Z) : N (option buf) :=
  cfg ← gets net_config;
  if dst_ip =? IP_BROADCAST then mret (Some (replicate 6 255)) else
  m ← arp_lookup (next_hop cfg dst_ip);
  match m with
  | Some m => mret (Some m)
  | None => _ ← arp_send_request (next_hop cfg dst_ip); mret None
  end.

Definition take_ident : N Z :=
  i ← gets ip_identification; _ ← modify (fun s => with_ident s (u16 (i + 1))); mret i.

(** The common body of [icmp_send_echo_reply], which sends the caller's [data_len] bytes at
    [data], and of [icmp_send_echo_request], which sends the four bytes of [ping]. *)
Definition icmp_send_echo (type dst_ip id seq : Z) (data : buf) (data_len : Z) : N unit :=
  m ← resolve_mac dst_ip;
  match m with
  | None => mret tt
  | Some dst_mac =>
      cfg ← gets net_config;
      i ← take_ident;
      data ← lift (bytes_at data 0 (Z.to_nat data_len));
      if Z.of_nat PACKET_SIZE <? 42 + data_len then undef else
      ip ← lift (ip_header (u16 (28 + data_len)) i IP_PROTOCOL_ICMP (ip_address cfg) dst_ip);
      icmp ← lift (icmp_message type id seq data);
      _ ← nic_send (eth_header dst_mac (mac_address cfg) ETHERTYPE_IPV4 ++ ip ++ icmp); mret tt
  end.

Definition icmp_send_echo_reply (dst_ip id seq : Z) (data : buf) (data_len : Z) : N unit :=
  icmp_send_echo ICMP_ECHO_REPLY dst_ip id seq data data_len.
Definition icmp_send_echo_request (dst_ip id seq : Z) : N unit :=
  icmp_send_echo ICMP_ECHO_REQUEST dst_ip id seq [112; 105; 110; 103] 4.

Definition handle_icmp_packet (packet : buf) (length src_ip : Z) : N unit :=
  if length <? 8 then mret tt else
  type ← lift (field packet 0 1);
  let dlen := u16 (length - 8) in
  if type =? ICMP_ECHO_REQUEST then
    id ← lift (field packet 4 2);
    seq ← lift (field packet 6 2);
    icmp_send_echo_reply src_ip (ntohs id) (ntohs seq) (drop 8 packet) dlen
  else mret tt.

(** The check that both receive paths make: the checksum over the header with the
    field set to 0 against the field. *)
Definition header_checksum_ok (packet : buf) (ihl_bytes : Z) : option bool :=
  saved ← field packet 10 2;
  header ← bytes_at packet 0 (Z.to_nat ihl_bytes);
  calc ← ip_checksum (blit header 10 [0; 0]);
  Some (saved =? calc).

Definition handle_ip_packet (packet : buf) (length : Z) : N unit :=
  if length <? 20 then mret tt else
  version_ihl ← lift (field packet 0 1);
  let ihl_bytes := Z.land version_ihl 15 * 4 in
  if (ihl_bytes <? 20) || (length <? ihl_bytes) then mret tt else
  ok ← lift (header_checksum_ok packet ihl_bytes);
  if negb ok then mret tt else
  dst ← lift (field packet 16 4);
  cfg ← gets net_config;
  if negb (ntohl dst =? ip_address cfg) && negb (ntohl dst =? IP_BROADCAST) then mret tt else
  ff ← lift (field packet 6 2);
  if negb (Z.land (ntohs ff) 16383 =? 0) then mret tt else
  total_length ← lift (field packet 2 2);
  let payload_len := u16 (ntohs total_length - ihl_bytes) in
  protocol ← lift (field packet 9 1);
  src ← lift (field packet 12 4);
  if protocol =? IP_PROTOCOL_ICMP
  then handle_icmp_packet (drop (Z.to_nat ihl_bytes) packet) payload_len (ntohl src)
  else mret tt.

Definition netstack_process_packet (packet : buf) (length : Z) : N unit :=
  if length <? 14 then mret tt else
  dst_mac ← lift (bytes_at packet 0 6);
  type ← lift (field packet 12 2);
  cfg ← gets net_config;
  let is_bcast := bool_decide (dst_mac = replicate 6 255) in
  c ← lift (if is_bcast then Some 0 else memcmp (Some dst_mac) (Some (mac_address cfg)) 6);
  if negb is_bcast && negb (c =? 0) then mret tt else
  let payload := drop 14 packet in
  let plen := u16 (length - 14) in
  if ntohs type =? ETHERTYPE_ARP then handle_arp_packet payload plen
  else if ntohs type =? ETHERTYPE_IPV4 then handle_ip_packet payload plen
  else mret tt.

(** ** UDP *)

Definition udp_header_with (src_port dst_port length checksum : Z) : buf :=
  le_put 2 (htons src_port) ++ le_put 2 (htons dst_port) ++ le_put 2 (htons length) ++ le_put 2 checksum.

(** Over the pseudo header, the UDP header with checksum 0 and the payload; [src] and
    [dst] are the fields of the IP header. *)
Definition udp_checksum (src dst : Z) (udp payload : buf) : option Z :=
  let len := Z.of_nat (length payload) in
  let pseudo := le_put 4 src ++ le_put 4 dst ++ [0] ++ [IP_PROTOCOL_UDP] ++ le_put 2 (htons (u16 (8 + len))) in
  fold_checksum (checksum_accumulate payload (checksum_accumulate udp (checksum_accumulate pseudo 0))).

(** [len] bytes at [data]; the result is 0 or -1. *)
Definition netstack_send_udp_low (dst_ip src_port dst_port : Z) (data : buf) (len : Z) (with_checksum : bool) : N Z :=
  if Z.of_nat PACKET_SIZE <? 14 + 20 + 8 + len then mret (-1) else
  m ← resolve_mac dst_ip;
  match m with
  | None => mret (-1)
  | Some dst_mac =>
      cfg ← gets net_config;
      i ← take_ident;
      ip ← lift (ip_header (u16 (28 + len)) i IP_PROTOCOL_UDP (ip_address cfg) dst_ip);
      payload ← lift (bytes_at data 0 (Z.to_nat len));
      let udp c := udp_header_with src_port dst_port (u16 (8 + len)) c in
      c ← lift (if with_checksum then udp_checksum (htonl (ip_address cfg)) (htonl dst_ip) (udp 0) payload else Some 0);
      ok ← nic_send (eth_header dst_mac (mac_address cfg) ETHERTYPE_IPV4 ++ ip ++ udp c ++ payload);
      mret (if ok : bool then 0 else -1)
  end.

Record datagram := Mk_datagram { d_copied : Z; d_buffer : buf; d_src_ip : Z; d_src_port : Z }.

(** One received frame, in the packet buffer [pkt], of which [len] bytes are new;
    [None] inside: the frame is passed over.  [buffer] is the caller's, [buflen] long. *)
Definition udp_accept (port : Z) (buffer pkt : buf) (buflen len : Z) : option (option datagram) :=
  if len <? 42 then Some None else
  hi ← field pkt 12 1;
  lo ← field pkt 13 1;
  if negb (u16 (Z.lor (Z.shiftl hi 8) lo) =? 2048) then Some None else
  let ip := drop 14 pkt in
  version_ihl ← field ip 0 1;
  let ihl_bytes := Z.land version_ihl 15 * 4 in
  if (ihl_bytes <? 20) || (len <? 14 + ihl_bytes) then Some None else
  protocol ← field ip 9 1;
  if negb (protocol =? IP_PROTOCOL_UDP) then Some None else
  ok ← header_checksum_ok ip ihl_bytes;
  if negb ok then Some None else
  let udp := drop (Z.to_nat (14 + ihl_bytes)) pkt in
  dst_port ← field udp 2 2;
  if negb (ntohs dst_port =? port) then Some None else
  udp_len ← field udp 4 2;
  let udp_pl := ntohs udp_len - 8 in
  let avail := len - (14 + ihl_bytes + 8) in
  if (udp_pl <? 0) || (avail <? udp_pl) then Some None else
  src ← field ip 12 4;
  sport ← field udp 0 2;
  let copy := if udp_pl <? buflen then udp_pl else buflen in
  data ← bytes_at udp 8 (Z.to_nat copy);
  if (length buffer <? Z.to_nat copy)%nat then None else
  Some (Some (Mk_datagram copy (blit buffer 0 data) (ntohl src) (ntohs sport))).

(** The polling loop; the packet buffer keeps the bytes of earlier frames.  [None]
    inside: -1. *)
Fixpoint netstack_receive_udp_low (port : Z) (buffer : buf) (buflen : Z) (pkt : buf) (poll_count : nat)
  : N (option datagram) :=
  match poll_count with
  | O => mret None
  | S n =>
      r ← nic_recv PACKET_SIZE;
      match r with
      | None => netstack_receive_udp_low port buffer buflen pkt n
      | Some p =>
          let pkt := blit pkt 0 p in
          d ← lift (udp_accept port buffer pkt buflen (Z.of_nat (length p)));
          match d with
          | Some d => mret (Some d)
          | None => netstack_receive_udp_low port buffer buflen pkt n
          end
      end
  end.

(** ** DHCP *)

Definition DHCP_CLIENT_PORT : Z := 68.
Definition DHCP_SERVER_PORT : Z := 67.
Definition DHCP_DISCOVER : Z := 1.
Definition DHCP_OFFER : Z := 2.
Definition DHCP_REQUEST : Z := 3.
Definition DHCP_ACK : Z := 5.
Definition DHCP_MAGIC_COOKIE : Z := 1669485411. (* 0x63825363 *)
Definition DHO_SUBNET : Z := 1.
Definition DHO_ROUTER : Z := 3.
Definition DHO_DNS : Z := 6.
Definition DHO_REQ_IP : Z := 50.
Definition DHO_LEASE_TIME : Z := 51.
Definition DHO_MSG_TYPE : Z := 53.
Definition DHO_SERVER_ID : Z := 54.
Definition DHO_PARAM_REQ : Z := 55.
Definition DHO_END : Z := 255.
Definition OPTIONS_SIZE : nat := 312.
Definition DHCP_SIZE : nat := 548.

Definition rng32 : N Z :=
  x ← gets seed;
  let x := u32 (x * 1664525 + 1013904223) in
  _ ← modify (fun s => with_seed s x); mret x.

Definition dhcp_opt_put_u8 (code v : Z) : buf := [code; 1; v].
Definition dhcp_opt_put_u32 (code v_host : Z) : buf := [code; 4] ++ le_put 4 (htonl v_host).
Definition dhcp_opt_put_list (code : Z) (lst : buf) : buf := [code; Z.of_nat (length lst)] ++ lst.

(** A client packet with the option bytes [opts], the rest zero; [None]: they do not
    fit. *)
Definition dhcp_packet (xid : Z) (mac opts : buf) : option buf :=
  if (OPTIONS_SIZE <? length opts)%nat then None else
  Some ([1; 1; 6; 0] ++ le_put 4 xid ++ le_put 2 0 ++ le_put 2 (htons 32768) ++ replicate 16 0 ++
        mac ++ replicate 10 0 ++ replicate 64 0 ++ replicate 128 0 ++
        opts ++ replicate (OPTIONS_SIZE - length opts) 0).

Record dhcp_opts := Mk_opts { o_server_id : Z; o_subnet : Z; o_router : Z; o_dns : Z; o_msgtype : Z }.

(** The effect of one option of [len] bytes at [opt]. *)
Definition dhcp_option (o : buf) (code len : Z) (opt : nat) (r : dhcp_opts) : option dhcp_opts :=
  if code =? DHO_MSG_TYPE then
    if 1 <=? len then v ← field o opt 1; Some (Mk_opts (o_server_id r) (o_subnet r) (o_router r) (o_dns r) v) else Some r
  else if code =? DHO_SERVER_ID then
    if len =? 4 then v ← field o opt 4; Some (Mk_opts v (o_subnet r) (o_router r) (o_dns r) (o_msgtype r)) else Some r
  else if code =? DHO_SUBNET then
    if len =? 4 then v ← field o opt 4; Some (Mk_opts (o_server_id r) v (o_router r) (o_dns r) (o_msgtype r)) else Some r
  else if code =? DHO_ROUTER then
    if 4 <=? len then v ← field o opt 4; Some (Mk_opts (o_server_id r) (o_subnet r) v (o_dns r) (o_msgtype r)) else Some r
  else if code =? DHO_DNS then
    if 4 <=? len then v ← field o opt 4; Some (Mk_opts (o_server_id r) (o_subnet r) (o_router r) v (o_msgtype r)) else Some r
  else Some r.

(** Every round moves on by at least one byte. *)
Fixpoint dhcp_options_loop (fuel : nat) (o : buf) (opt : nat) (r : dhcp_opts) : option dhcp_opts :=
  match fuel with
  | O => None
  | S fuel' =>
      if (OPTIONS_SIZE <=? opt)%nat then Some r else
      code ← field o opt 1;
      if code =? DHO_END then Some r
      else if code =? 0 then dhcp_options_loop fuel' o (opt + 1) r
      else if (OPTIONS_SIZE <=? opt + 1)%nat then Some r else
      len ← field o (opt + 1) 1;
      if (OPTIONS_SIZE <? opt + 2 + Z.to_nat len)%nat then Some r else
      r ← dhcp_option o code len (opt + 2) r;
      dhcp_options_loop fuel' o (opt + 2 + Z.to_nat len) r
  end.

(** [None] inside: the magic cookie is missing. *)
Definition dhcp_parse_opts (pkt : buf) (r : dhcp_opts) : option (option dhcp_opts) :=
  o ← bytes_at pkt 236 OPTIONS_SIZE;
  mc ← field o 0 4;
  if negb (ntohl mc =? DHCP_MAGIC_COOKIE) then Some None else
  r ← dhcp_options_loop (S OPTIONS_SIZE) o 4 r; Some (Some r).

Definition no_opts : dhcp_opts := Mk_opts 0 0 0 0 0.
Definition cookie : buf := le_put 4 (htonl DHCP_MAGIC_COOKIE).

Section Dhcp.
Context (fresh : nat -> buf).   (* the initial contents of arrays on the stack *)

(** A reply of the given type for the transaction. *)
Definition dhcp_await (check_op : bool) (xid mtype : Z) : N (option (buf * dhcp_opts)) :=
  d ← netstack_receive_udp_low DHCP_CLIENT_PORT (fresh DHCP_SIZE) (Z.of_nat DHCP_SIZE) (fresh PACKET_SIZE) 512;
  match d with
  | None => mret None
  | Some d =>
      if d_copied d <=? 0 then mret None else
      let pkt := d_buffer d in
      op ← lift (field pkt 0 1);
      x ← lift (field pkt 4 4);
      if (check_op && negb (op =? 2)) || negb (x =? xid) then mret None else
      r ← lift (dhcp_parse_opts pkt no_opts);
      match r with
      | None => mret None
      | Some r => if o_msgtype r =? mtype then mret (Some (pkt, r)) else mret None
      end
  end.

(** The address, mask, router and DNS server, [None] for false. *)
Definition dhcp_discover_request : N (option (Z * Z * Z * Z)) :=
  xid ← rng32;
  cfg ← gets net_config;
  pkt ← lift (dhcp_packet xid (mac_address cfg)
    (cookie ++ dhcp_opt_put_u8 DHO_MSG_TYPE DHCP_DISCOVER ++
     dhcp_opt_put_list DHO_PARAM_REQ [DHO_SUBNET; DHO_ROUTER; DHO_DNS; DHO_LEASE_TIME; DHO_SERVER_ID] ++ [DHO_END]));
  e ← netstack_send_udp_low IP_BROADCAST DHCP_CLIENT_PORT DHCP_SERVER_PORT pkt (Z.of_nat DHCP_SIZE) false;
  if negb (e =? 0) then mret None else
  offer ← dhcp_await true xid DHCP_OFFER;
  match offer with
  | None => mret None
  | Some (offer, r) =>
      yi ← lift (field offer 16 4);
      reqpkt ← lift (dhcp_packet xid (mac_address cfg)
        (cookie ++ dhcp_opt_put_u8 DHO_MSG_TYPE DHCP_REQUEST ++ dhcp_opt_put_u32 DHO_REQ_IP (ntohl yi) ++
         dhcp_opt_put_u32 DHO_SERVER_ID (ntohl (o_server_id r)) ++ [DHO_END]));
      e ← netstack_send_udp_low IP_BROADCAST DHCP_CLIENT_PORT DHCP_SERVER_PORT reqpkt (Z.of_nat DHCP_SIZE) false;
      if negb (e =? 0) then mret None else
      ack ← dhcp_await false xid DHCP_ACK;
      match ack with
      | None => mret None
      | Some (ack, r) =>
          ip ← lift (field ack 16 4);
          mret (Some (ntohl ip, ntohl (o_subnet r), ntohl (o_router r), ntohl (o_dns r)))
      end
  end.

Definition netstack_get_ip_address : N Z :=
  ip ← gets (fun s => ip_address (net_config s));
  if negb (ip =? 0) then mret ip else
  r ← dhcp_discover_request;
  match r with
  | Some (ip, mask, gw, dns) =>
      _ ← modify (fun s => with_config s (Mk_config ip mask gw dns (mac_address (net_config s)))); mret ip
  | None => mret ip
  end.
End Dhcp.

(** ** Set-up *)

(** [hw_mac] is the address of the card. *)
Definition netstack_init (hw_mac : buf) : N unit :=
  modify (fun s =>
    with_config (with_cache s (map (fun e => Mk_arp (c_ip e) (c_mac e) (c_timestamp e) false) (arp_cache s)))
      (Mk_config 0 0 0 0 (if ne2000_initialized s then hw_mac else replicate 6 0))).

Definition netstack_set_config (ip mask gw : Z) : N unit :=
  modify (fun s => with_config s (Mk_config ip mask gw (dns_server (net_config s)) (mac_address (net_config s)))).

Definition udp_send (dst_ip src_port dst_port : Z) (data : buf) (length : Z) : N Z :=
  netstack_send_udp_low dst_ip src_port dst_port data length false.

(** * Properties *)

Lemma length_wire_frame l : length (wire_frame l) = (60 `max` length l)%nat.
Proof. unfold wire_frame. rewrite length_app, length_replicate. lia. Qed.

(** ** Byte order *)

Lemma htons_sum x : 0 <= x < 65536 -> htons x = (x mod 256) * 256 + x / 256.
Proof.
  intros Hx. unfold htons. rewrite Z.shiftr_div_pow2, lor_shiftl_add by zlia. unfold wrap. zlia.
Qed.

Lemma htons_range x : 0 <= htons x < 65536.
Proof. apply wrap_range. lia. Qed.

Lemma ntohs_htons x : 0 <= x < 65536 -> ntohs (htons x) = x.
Proof. intros Hx. unfold ntohs. rewrite (htons_sum (htons x)), htons_sum by (done || apply htons_range). zlia. Qed.

(** A host value stored after [htons] has the high byte first. *)
Lemma put_htons x : 0 <= x < 65536 -> le_put 2 (htons x) = [x / 256; x mod 256].
Proof. intros Hx. rewrite htons_sum by done. cbn [le_put]. f_equal; [zlia|]. f_equal. zlia. Qed.

Lemma htonl_sum x :
  0 <= x < 2 ^ 32 ->
  htonl x = (x mod 256) * 2 ^ 24 + (x / 2 ^ 8 mod 256) * 2 ^ 16 + (x / 2 ^ 16 mod 256) * 2 ^ 8 + x / 2 ^ 24.
Proof.
  intros Hx. unfold htonl. change 255 with (Z.shiftl 255 0) at 1. change 65280 with (Z.shiftl 255 8).
  change 16711680 with (Z.shiftl 255 16). change 4278190080 with (Z.shiftl 255 24). rewrite !land_byte by lia.
  rewrite !Z.shiftl_shiftl, !Z.shiftr_shiftl_l by lia. cbn [Z.add Z.sub Z.opp Pos.add Pos.succ Z.pos_sub Pos.pred_double].
  change (2 ^ 0) with 1. rewrite Z.div_1_r.
  replace (x / 2 ^ 24 mod 256) with (x / 2 ^ 24) by (rewrite Z.mod_small; zlia).
  rewrite <- !Z.lor_assoc. change (0 + 24) with 24. change (8 + 8) with 16. change (16 - 8) with 8. change (24 - 24) with 0.
  rewrite (Z.shiftl_0_r (x / 2 ^ 24)).
  rewrite (lor_shiftl_add _ 8) by zlia. rewrite (lor_shiftl_add _ 16) by zlia. rewrite (lor_shiftl_add _ 24) by zlia. lia.
Qed.

(** A 32-bit value by its bytes. *)
Definition quad (a b c d : Z) : Z := a * 2 ^ 24 + b * 2 ^ 16 + c * 2 ^ 8 + d.

Lemma quad_bytes x :
  0 <= x < 2 ^ 32 ->
  exists a b c d, x = quad a b c d /\ byte_ok a /\ byte_ok b /\ byte_ok c /\ byte_ok d.
Proof.
  intros Hx. exists (x / 2 ^ 24), (x / 2 ^ 16 mod 256), (x / 2 ^ 8 mod 256), (x mod 256).
  unfold quad, byte_ok. split; [|split_and!; zlia].
  pose proof (Z.div_mod x 256 ltac:(lia)). pose proof (Z.div_mod (x / 2 ^ 8) 256 ltac:(lia)).
  pose proof (Z.div_mod (x / 2 ^ 16) 256 ltac:(lia)).
  assert (x / 2 ^ 8 / 256 = x / 2 ^ 16) by (by rewrite Z.div_div). assert (x / 2 ^ 16 / 256 = x / 2 ^ 24) by (by rewrite Z.div_div).
  change 256 with (2 ^ 8) in *. lia.
Qed.

Lemma quad_parts a b c d :
  byte_ok a -> byte_ok b -> byte_ok c -> byte_ok d ->
  0 <= quad a b c d < 2 ^ 32 /\ quad a b c d mod 256 = d /\ quad a b c d / 2 ^ 8 mod 256 = c /\
  quad a b c d / 2 ^ 16 mod 256 = b /\ quad a b c d / 2 ^ 24 = a.
Proof.
  unfold byte_ok, quad. intros Ha Hb Hc Hd. split; [lia|].
  assert ((a * 2 ^ 24 + b * 2 ^ 16 + c * 2 ^ 8 + d) / 2 ^ 8 = a * 2 ^ 16 + b * 2 ^ 8 + c) as -> by zlia.
  assert ((a * 2 ^ 24 + b * 2 ^ 16 + c * 2 ^ 8 + d) / 2 ^ 16 = a * 2 ^ 8 + b) as -> by zlia.
  split; [zlia|]. split; [zlia|]. split; [zlia|]. zlia.
Qed.

Lemma htonl_quad a b c d :
  byte_ok a -> byte_ok b -> byte_ok c -> byte_ok d -> htonl (quad a b c d) = quad d c b a.
Proof.
  intros Ha Hb Hc Hd. destruct (quad_parts a b c d Ha Hb Hc Hd) as (Hr & E0 & E1 & E2 & E3).
  rewrite htonl_sum, E0, E1, E2, E3 by done. reflexivity.
Qed.

Lemma htonl_range x : 0 <= x < 2 ^ 32 -> 0 <= htonl x < 2 ^ 32.
Proof.
  intros Hx. destruct (quad_bytes x Hx) as (a & b & c & d & -> & Ha & Hb & Hc & Hd).
  rewrite htonl_quad by done. by apply quad_parts.
Qed.

Lemma ntohl_htonl x : 0 <= x < 2 ^ 32 -> ntohl (htonl x) = x.
Proof.
  intros Hx. destruct (quad_bytes x Hx) as (a & b & c & d & -> & Ha & Hb & Hc & Hd).
  unfold ntohl. by rewrite !htonl_quad.
Qed.

(** ** Addresses as text *)

Lemma parse_octet v out dots rest :
  byte_ok v -> parse_loop (u8_to_dec v ++ rest) out (-1) dots = parse_loop rest out v dots.
Proof.
  intros Hv. unfold byte_ok in Hv. unfold u8_to_dec.
  destruct (Z.leb_spec 100 v); [|destruct (Z.leb_spec 10 v)]; cbn [app parse_loop].
  - destruct (Z.leb_spec 48 (48 + v / 100)), (Z.leb_spec (48 + v / 100) 57); try zlia.
    destruct (Z.leb_spec 48 (48 + v mod 100 / 10)), (Z.leb_spec (48 + v mod 100 / 10) 57); try zlia.
    destruct (Z.leb_spec 48 (48 + v mod 100 mod 10)), (Z.leb_spec (48 + v mod 100 mod 10) 57); try zlia.
    cbn [andb]. change (-1 <? 0) with true. cbn iota. destruct (Z.ltb_spec (48 + v / 100 - 48) 0); [zlia|].
    destruct (Z.ltb_spec 255 ((48 + v / 100 - 48) * 10 + (48 + v mod 100 / 10 - 48))); [zlia|].
    destruct (Z.ltb_spec ((48 + v / 100 - 48) * 10 + (48 + v mod 100 / 10 - 48)) 0); [zlia|].
    replace (((48 + v / 100 - 48) * 10 + (48 + v mod 100 / 10 - 48)) * 10 + (48 + v mod 100 mod 10 - 48)) with v by zlia.
    by destruct (Z.ltb_spec 255 v); [lia|].
  - destruct (Z.leb_spec 48 (48 + v / 10)), (Z.leb_spec (48 + v / 10) 57); try zlia.
    destruct (Z.leb_spec 48 (48 + v mod 10)), (Z.leb_spec (48 + v mod 10) 57); try zlia.
    cbn [andb]. change (-1 <? 0) with true. cbn iota. destruct (Z.ltb_spec (48 + v / 10 - 48) 0); [zlia|].
    replace ((48 + v / 10 - 48) * 10 + (48 + v mod 10 - 48)) with v by zlia.
    by destruct (Z.ltb_spec 255 v); [lia|].
  - destruct (Z.leb_spec 48 (48 + v)), (Z.leb_spec (48 + v) 57); try lia. cbn [andb].
    change (-1 <? 0) with true. cbn iota. f_equal. lia.
Qed.

Lemma parse_dot v out dots rest :
  byte_ok v -> dots < 3 ->
  parse_loop (46 :: rest) out v dots = parse_loop rest (u32 (out * 256 + v)) (-1) (dots + 1).
Proof.
  intros Hv Hd. unfold byte_ok in Hv. cbn [parse_loop]. change ((48 <=? 46) && (46 <=? 57)) with false. cbn [Z.eqb Pos.eqb orb].
  destruct (Z.ltb_spec v 0); [lia|]. destruct (Z.ltb_spec 3 (dots + 1)); [lia|]. by rewrite lor_shiftl_add by lia.
Qed.

Lemma ipv4_octet ip k : 0 <= k -> u8 (Z.land (Z.shiftr ip k) 255) = ip / 2 ^ k mod 256.
Proof.
  intros Hk. change 255 with (Z.ones 8). rewrite Z.land_ones, Z.shiftr_div_pow2 by lia. apply wrap_small.
  apply Z.mod_pos_bound. lia.
Qed.

Lemma u8_to_dec_length v : (1 <= length (u8_to_dec v) <= 3)%nat.
Proof. unfold u8_to_dec. destruct (100 <=? v); [simpl; lia|]. destruct (10 <=? v); simpl; lia. Qed.

(** An address survives being printed and parsed: [format_ipv4] fits into the 16
    bytes that the callers provide, and [parse_ipv4] reads back every 32-bit address. *)
Theorem ipv4_roundtrip (ip : Z) (buffer : buf) :
  0 <= ip < 2 ^ 32 -> length buffer = 16%nat ->
  exists b, format_ipv4 ip buffer = Some b /\ length b = 16%nat /\ parse_ipv4 (Some b) = Some ip.
Proof.
  intros Hip Hl. destruct (quad_bytes ip Hip) as (a & b & c & d & -> & Ha & Hb & Hc & Hd).
  destruct (quad_parts a b c d Ha Hb Hc Hd) as (_ & E0 & E1 & E2 & E3).
  assert (ipv4_text (quad a b c d) = u8_to_dec a ++ [46] ++ u8_to_dec b ++ [46] ++ u8_to_dec c ++ [46] ++ u8_to_dec d ++ [0]) as Et.
  { unfold ipv4_text. rewrite !ipv4_octet by lia. rewrite <- (Z.shiftr_0_r (quad a b c d)) at 4. rewrite ipv4_octet by lia.
    change (2 ^ 0) with 1. rewrite Z.div_1_r, E0, E1, E2, E3, (Z.mod_small a) by done. done. }
  pose proof (u8_to_dec_length a). pose proof (u8_to_dec_length b). pose proof (u8_to_dec_length c). pose proof (u8_to_dec_length d).
  assert (length (ipv4_text (quad a b c d)) <= 16)%nat as Hlen by (rewrite Et, !length_app; simpl; lia).
  unfold format_ipv4, put_bytes. rewrite (proj2 (Nat.leb_le _ _)) by lia. eexists. split; [reflexivity|].
  split; [rewrite length_blit; lia|]. unfold blit. rewrite take_0, Et. repeat (cbn [app]; rewrite <- app_assoc). cbn [app].
  unfold parse_ipv4. rewrite parse_octet by done. rewrite parse_dot, parse_octet by (done || lia).
  rewrite parse_dot, parse_octet by (done || lia). rewrite parse_dot, parse_octet by (done || lia).
  cbn [parse_loop]. change ((48 <=? 0) && (0 <=? 57)) with false. cbn [Z.eqb orb Z.add Pos.add Pos.succ].
  unfold byte_ok in *. destruct (Z.ltb_spec d 0); [lia|]. rewrite lor_shiftl_add by lia.
  rewrite (wrap_small 32 (0 * 256 + a)) by lia. rewrite (wrap_small 32 (_ + b)) by lia. rewrite (wrap_small 32 (_ + c)) by lia.
  rewrite (wrap_small 32) by lia. change (0 + 1 + 1 + 1 =? 3) with true. cbn iota. f_equal. unfold quad. lia.
Qed.

Lemma ipv4_roundtrip_witness :
  exists b, format_ipv4 3232235777 (replicate 16 7) = Some b /\ length b = 16%nat /\ parse_ipv4 (Some b) = Some 3232235777.
Proof. apply (ipv4_roundtrip 3232235777 (replicate 16 7)); [lia|reflexivity]. Defined.

(** ** The ARP cache *)

(** No two valid entries have the same address. *)
Definition cache_ok (l : list arp_cache_entry) : Prop :=
  forall i j e f, l !! i = Some e -> l !! j = Some f -> c_valid e = true -> c_valid f = true -> c_ip e = c_ip f -> i = j.

Definition matches (ip : Z) (e : arp_cache_entry) : bool := c_valid e && (c_ip e =? ip).

(** Where the search ends: at the entry of the address, else at the first free one. *)
Lemma arp_slot_spec l i slot ip :
  0 <= i ->
  (exists k e, l !! k = Some e /\ matches ip e = true /\ arp_slot l i slot ip = i + Z.of_nat k /\
     (forall j f, (j < k)%nat -> l !! j = Some f -> matches ip f = false)) \/
  ((forall j f, l !! j = Some f -> matches ip f = false) /\
   ((0 <= slot /\ arp_slot l i slot ip = slot) \/
    (slot < 0 /\ exists k e, l !! k = Some e /\ c_valid e = false /\ arp_slot l i slot ip = i + Z.of_nat k) \/
    (slot < 0 /\ arp_slot l i slot ip = slot /\ forall j f, l !! j = Some f -> c_valid f = true))).
Proof.
  revert i slot. induction l as [|e l IH]; intros i slot Hi; cbn [arp_slot].
  { right. split; [done|]. destruct (Z.ltb_spec slot 0); [right; right; done|left; done]. }
  destruct (c_valid e && (c_ip e =? ip)) eqn:Em.
  { left. exists 0%nat, e. split; [done|]. split; [exact Em|]. split; [lia|]. lia. }
  set (slot' := if negb (c_valid e) && (slot <? 0) then i else slot).
  destruct (IH (i + 1) slot' ltac:(lia)) as [(k & f & Hk & Hm & Hs & Hlt)|[Hno Hcase]].
  - left. exists (S k), f. split; [done|]. split; [done|]. split; [rewrite Hs; lia|].
    intros [|j] g Hj; [intros [= <-]; exact Em|]. intros Hg. apply (Hlt j g); [lia|done].
  - right. split; [intros [|j] f; [intros [= <-]; exact Em|apply Hno]|]. unfold slot' in *. clear slot'.
    destruct (c_valid e) eqn:Ev, (Z.ltb_spec slot 0) as [Hs|Hs]; cbn [negb andb] in *.
    + destruct Hcase as [[? _]|[(_ & k & f & Hk & Hf & E)|(_ & E & Hall)]]; [lia| |].
      * right. left. split; [done|]. exists (S k), f. split; [done|]. split; [done|]. rewrite E. lia.
      * right. right. split; [done|]. split; [done|]. intros [|j] f; [intros [= <-]; done|apply Hall].
    + left. destruct Hcase as [[_ E]|[(? & _)|(? & _)]]; [done|lia|lia].
    + destruct Hcase as [[_ E]|[(? & _)|(? & _)]]; [|lia|lia]. right. left. split; [done|].
      exists 0%nat, e. split; [done|]. split; [done|]. rewrite E. lia.
    + left. destruct Hcase as [[_ E]|[(? & _)|(? & _)]]; [done|lia|lia].
Qed.

Lemma arp_find_first l ip k e :
  l !! k = Some e -> matches ip e = true -> (forall j f, (j < k)%nat -> l !! j = Some f -> matches ip f = false) ->
  arp_find l ip = Some (c_mac e).
Proof.
  revert k. induction l as [|x l IH]; intros k Hk Hm Hlt; [done|]. cbn [arp_find]. fold (matches ip x).
  destruct k as [|k]; [injection Hk as ->; by rewrite Hm|]. rewrite (Hlt 0%nat x) by (lia || done).
  apply (IH k); [done|done|]. intros j f Hj Hf. apply (Hlt (S j) f); [lia|done].
Qed.

(** Replacing an entry that does not match by one that does not match is not seen. *)
Lemma arp_find_insert l ip k e :
  matches ip e = false -> (forall f, l !! k = Some f -> matches ip f = false) ->
  arp_find (<[k := e]> l) ip = arp_find l ip.
Proof.
  intros He. revert k. induction l as [|x l IH]; intros k Hk; [done|]. destruct k as [|k].
  - change (<[0%nat := e]> (x :: l)) with (e :: l). cbn [arp_find]. fold (matches ip x) (matches ip e).
    by rewrite He, (Hk x).
  - change (<[S k := e]> (x :: l)) with (x :: <[k := e]> l). cbn [arp_find]. by rewrite (IH k).
Qed.

(** The slot that is written, and what is known of the entries then. *)
Lemma add_slot l ip :
  cache_ok l -> length l = ARP_CACHE_SIZE ->
  exists k, Z.to_nat (if arp_slot l 0 (-1) ip <? 0 then 0 else arp_slot l 0 (-1) ip) = k /\ (k < length l)%nat /\
    (forall j f, j <> k -> l !! j = Some f -> matches ip f = false) /\
    (forall ip' f, ip' <> ip -> l !! k = Some f -> matches ip' f = false \/
       (Forall (fun e => c_valid e = true /\ c_ip e <> ip) l /\ exists e, l !! 0%nat = Some e /\ c_ip e = ip')).
Proof.
  intros Hok Hl.
  destruct (arp_slot_spec l 0 (-1) ip ltac:(lia)) as [(k & e & Hke & Hme & -> & Hlt)|[Hno [[? _]|[(_ & k & e & Hke & Hve & ->)|(_ & -> & Hall)]]]].
  - exists k. destruct (Z.ltb_spec (0 + Z.of_nat k) 0); [lia|]. split; [lia|]. split; [by eapply lookup_lt_Some|].
    unfold matches in Hme. apply andb_prop in Hme as [Hv He]. split.
    + intros j f Hj Hf. unfold matches. destruct (c_valid f) eqn:Ev; [|done]. destruct (Z.eqb_spec (c_ip f) ip); [|done].
      destruct Hj. apply (Hok j k f e); (done || lia).
    + intros ip' f Hne Hf. left. unfold matches. rewrite Hke in Hf. injection Hf as <-. destruct (c_valid e); [|done]. simpl. lia.
  - lia.
  - exists k. destruct (Z.ltb_spec (0 + Z.of_nat k) 0); [lia|]. split; [lia|]. split; [by eapply lookup_lt_Some|].
    split; [intros j f _; apply Hno|]. intros ip' f Hne Hf. left. rewrite Hke in Hf. injection Hf as <-. unfold matches. by rewrite Hve.
  - exists 0%nat. split; [done|]. split; [rewrite Hl; unfold ARP_CACHE_SIZE; lia|]. split; [intros j f _; apply Hno|].
    intros ip' f Hne Hf. destruct (Z.eqb_spec (c_ip f) ip') as [E|E].
    + right. split; [|by exists f]. apply Forall_lookup_2. intros j g Hg. split; [by eapply Hall|].
      specialize (Hno j g Hg). unfold matches in Hno. rewrite (Hall j g Hg) in Hno. simpl in Hno. lia.
    + left. unfold matches. destruct (Z.eqb_spec (c_ip f) ip'); [done|]. apply andb_false_r.
Qed.

(** The cache after [arp_add_entry]. *)
Lemma arp_add_ok s ip mac :
  cache_ok (arp_cache s) -> length (arp_cache s) = ARP_CACHE_SIZE -> (ETH_ADDR_LEN <= length mac)%nat ->
  exists k, (k < length (arp_cache s))%nat /\
    let cache := <[k := Mk_arp ip (take 6 mac) 0 true]> (arp_cache s) in
    arp_add_entry ip mac s = Some (tt, with_cache s cache) /\
    arp_find cache ip = Some (take 6 mac) /\ cache_ok cache /\
    forall ip', ip' <> ip ->
      arp_find cache ip' = arp_find (arp_cache s) ip' \/
      (Forall (fun e => c_valid e = true /\ c_ip e <> ip) (arp_cache s) /\
       exists e, arp_cache s !! 0%nat = Some e /\ c_ip e = ip').
Proof.
  intros Hok Hl Hm. unfold arp_add_entry, bytes_at. rewrite (proj2 (Nat.leb_le _ _)) by lia.
  rewrite (lift_bind _ (slice mac 0 ETH_ADDR_LEN)) by done. unfold modify.
  unfold slice. rewrite drop_0. set (l := arp_cache s) in *. set (new := Mk_arp ip (take ETH_ADDR_LEN mac) 0 true).
  assert (matches ip new = true) as Hnew by (unfold matches; simpl; lia).
  destruct (add_slot l ip Hok Hl) as (k & -> & Hk & Hother & Hold). exists k. split; [done|]. cbn zeta. split; [done|].
  split; [|split].
  - apply (arp_find_first _ ip k new); [by apply list_lookup_insert_eq|done|].
    intros j f Hj Hf. rewrite list_lookup_insert_ne in Hf by lia. apply (Hother j f); [lia|done].
  - intros i j e f Hi Hj Hve Hvf Heq. destruct (decide (i = k)) as [->|Hik], (decide (j = k)) as [->|Hjk]; [done| | |].
    + rewrite list_lookup_insert_eq in Hi by done. injection Hi as <-. rewrite list_lookup_insert_ne in Hj by done.
      specialize (Hother j f Hjk Hj). unfold matches in Hother. rewrite Hvf in Hother. simpl in *. lia.
    + rewrite list_lookup_insert_eq in Hj by done. injection Hj as <-. rewrite list_lookup_insert_ne in Hi by done.
      specialize (Hother i e Hik Hi). unfold matches in Hother. rewrite Hve in Hother. simpl in *. lia.
    + rewrite list_lookup_insert_ne in Hi, Hj by done. by apply (Hok i j e f).
  - intros ip' Hne. destruct (lookup_lt_is_Some_2 l k Hk) as [f Hf].
    destruct (Hold ip' f Hne Hf) as [Hm'|Hfull]; [left|by right].
    apply arp_find_insert; [unfold matches; simpl; lia|]. intros g Hg. congruence.
Qed.

(** The ARP cache works as a map: after [arp_add_entry] the address is looked up
    with the new hardware address, there is still at most one valid entry per address,
    and every other address is looked up as before, except that with 32 other
    addresses in the cache the entry in slot 0 is given up. *)
Theorem arp_add_lookup (s : net) (ip : Z) (mac : buf) :
  cache_ok (arp_cache s) -> length (arp_cache s) = ARP_CACHE_SIZE -> (ETH_ADDR_LEN <= length mac)%nat ->
  exists s', arp_add_entry ip mac s = Some (tt, s') /\ arp_lookup ip s' = Some (Some (take 6 mac), s') /\
    cache_ok (arp_cache s') /\ length (arp_cache s') = ARP_CACHE_SIZE /\
    forall ip', ip' <> ip ->
      arp_find (arp_cache s') ip' = arp_find (arp_cache s) ip' \/
      (Forall (fun e => c_valid e = true /\ c_ip e <> ip) (arp_cache s) /\
       exists e, arp_cache s !! 0%nat = Some e /\ c_ip e = ip').
Proof.
  intros Hok Hl Hm. destruct (arp_add_ok s ip mac Hok Hl Hm) as (k & Hk & E & Hf & Hc & Ho).
  eexists. split; [exact E|]. unfold arp_lookup, gets. cbn [arp_cache with_cache]. rewrite Hf.
  split; [done|]. split; [done|]. split; [by rewrite length_insert|]. exact Ho.
Qed.

Definition host (ip : Z) (mac : buf) (cache : list arp_cache_entry) : net :=
  Mk_net (Mk_config ip 4294967040 (ip + 1) 0 mac) cache 0 305419896 true [] [].
Definition no_cache : list arp_cache_entry := replicate 32 (Mk_arp 0 [] 0 false).

Lemma no_cache_ok : cache_ok no_cache.
Proof. intros i j e f Hi. apply lookup_replicate in Hi as [-> _]. done. Qed.

Lemma arp_add_lookup_witness :
  exists s', arp_add_entry 167772674 [1; 2; 3; 4; 5; 6] (host 167772673 [0; 0; 0; 0; 0; 1] no_cache) = Some (tt, s') /\
    arp_lookup 167772674 s' = Some (Some [1; 2; 3; 4; 5; 6], s').
Proof.
  destruct (arp_add_lookup (host 167772673 [0; 0; 0; 0; 0; 1] no_cache) 167772674 [1; 2; 3; 4; 5; 6] no_cache_ok eq_refl
              ltac:(unfold ETH_ADDR_LEN; simpl; lia)) as (s' & H1 & H2 & _).
  exact (ex_intro _ s' (conj H1 H2)).
Defined.

(** ** Checksums *)

(** The sum of the 16-bit words, high byte first, an odd byte padded with zero. *)
Fixpoint word_sum (data : buf) : Z :=
  match data with
  | a :: b :: data' => a * 256 + b + word_sum data'
  | [a] => a * 256
  | [] => 0
  end.

Lemma word_sum_range data : bytes_ok data -> 0 <= word_sum data <= 32768 * Z.of_nat (length data) + 32768.
Proof.
  enough (bytes_ok data -> forall x, (bytes_ok (x :: data) -> 0 <= word_sum (x :: data) <= 32768 * Z.of_nat (length data) + 65536) /\
    0 <= word_sum data <= 32768 * Z.of_nat (length data) + 32768) as H by (intros Hd; by apply (H Hd 0)).
  induction data as [|a data IH]; intros Hd x.
  - split; [|simpl; lia]. intros Hx. apply Forall_cons in Hx as [Hx _]. unfold byte_ok in Hx. simpl. lia.
  - apply Forall_cons in Hd as [Ha Hd]. destruct (IH Hd a) as [Hca Hc]. unfold byte_ok in *. split.
    + intros Hx. apply Forall_cons in Hx as [Hx _]. unfold byte_ok in Hx. cbn [word_sum length].
      destruct data; [simpl; lia|]. lia.
    + specialize (Hca (Forall_cons_2 _ _ _ Ha Hd)). cbn [length]. lia.
Qed.

Lemma accumulate_sum data sum :
  bytes_ok data -> 0 <= sum -> sum + word_sum data < 2 ^ 32 -> checksum_accumulate data sum = sum + word_sum data.
Proof.
  intros Hd. remember (length data) as n eqn:En. assert (length data <= n)%nat as Hn by lia. clear En. revert data sum Hd Hn.
  induction n as [|n IH]; intros data sum Hd Hn Hs Hlt.
  { destruct data; [simpl; lia|simpl in Hn; lia]. }
  destruct data as [|a [|b data]]; cbn [checksum_accumulate word_sum] in *.
  - lia.
  - apply Forall_cons in Hd as [Ha _]. unfold byte_ok in Ha. rewrite Z.shiftl_mul_pow2 by lia. rewrite wrap_small by lia. lia.
  - apply Forall_cons in Hd as [Ha Hd]. apply Forall_cons in Hd as [Hb Hd]. unfold byte_ok in *.
    pose proof (word_sum_range data Hd). rewrite lor_shiftl_add, wrap_small by lia.
    rewrite IH by (done || simpl in Hn; lia). lia.
Qed.

Lemma fold_step sum :
  0 <= sum < 2 ^ 32 -> u32 (Z.land sum 65535 + Z.shiftr sum 16) = sum mod 65536 + sum / 65536 /\ Z.shiftr sum 16 = sum / 65536.
Proof.
  intros Hs. change 65535 with (Z.ones 16). rewrite Z.land_ones, Z.shiftr_div_pow2 by lia.
  change (2 ^ 16) with 65536. split; [|done]. apply wrap_small. zlia.
Qed.

(** Folding keeps the value modulo 65535 and ends. *)
Lemma fold_loop_ok sum :
  0 <= sum < 2 ^ 32 ->
  exists r, fold_loop 4 sum = Some r /\ 0 <= r < 65536 /\ r mod 65535 = sum mod 65535.
Proof.
  intros Hs.
  assert (forall fuel x, 0 <= x < 65536 -> fold_loop (S fuel) x = Some x) as Hdone.
  { intros fuel x Hx. cbn [fold_loop]. rewrite Z.shiftr_div_pow2, Z.div_small by lia. done. }
  assert (forall fuel x, 65536 <= x < 2 ^ 32 -> fold_loop (S fuel) x = fold_loop fuel (x mod 65536 + x / 65536)) as Hstep.
  { intros fuel x Hx. cbn [fold_loop]. destruct (fold_step x ltac:(lia)) as [-> ->].
    by destruct (Z.eqb_spec (x / 65536) 0); [zlia|]. }
  assert (forall x, (x mod 65536 + x / 65536) mod 65535 = x mod 65535) as Hmod.
  { intros x. rewrite (Z.div_mod x 65536) at 3 by lia. replace (65536 * (x / 65536) + x mod 65536) with
      (x mod 65536 + x / 65536 + (x / 65536) * 65535) by lia. by rewrite Z.mod_add. }
  destruct (Z.ltb_spec sum 65536); [exists sum; rewrite Hdone by lia; split; [done|split; [lia|done]]|].
  rewrite (Hstep 3%nat) by lia. set (x := sum mod 65536 + sum / 65536). assert (0 <= x <= 131070) as Hx by (unfold x; zlia).
  destruct (Z.ltb_spec x 65536); [exists x; rewrite Hdone by lia; split; [done|split; [lia|apply Hmod]]|].
  rewrite (Hstep 2%nat) by lia. set (y := x mod 65536 + x / 65536). assert (0 <= y < 65536) as Hy by (unfold y; zlia).
  exists y. rewrite Hdone by done. split; [done|]. split; [done|]. unfold y. rewrite Hmod. unfold x. apply Hmod.
Qed.

Lemma fold_checksum_ok sum :
  0 <= sum < 2 ^ 32 -> exists c, fold_checksum sum = Some c /\ 0 <= c < 65536 /\ (sum + c) mod 65535 = 0.
Proof.
  intros Hs. destruct (fold_loop_ok sum Hs) as (r & Hr & Hrr & Hm). unfold fold_checksum. rewrite Hr. cbn [mbind option_bind].
  assert (u16 (Z.lnot r) = 65535 - r) as ->.
  { unfold wrap, Z.lnot. replace (Z.pred (- r)) with (65535 - r + (-1) * 2 ^ 16) by lia. rewrite Z.mod_add by lia. apply Z.mod_small. lia. }
  exists (65535 - r). split; [done|]. split; [lia|]. rewrite <- Zplus_mod_idemp_l, <- Hm, Zplus_mod_idemp_l.
  replace (r + (65535 - r)) with 65535 by lia. done.
Qed.

Lemma ip_checksum_ok data :
  bytes_ok data -> Z.of_nat (length data) <= 65535 ->
  exists c, ip_checksum data = Some c /\ 0 <= c < 65536 /\ (word_sum data + c) mod 65535 = 0.
Proof.
  intros Hd Hl. pose proof (word_sum_range data Hd). unfold ip_checksum. rewrite accumulate_sum by (done || lia).
  apply fold_checksum_ok. lia.
Qed.

(** [ip_checksum] is the Internet checksum: it always returns, a 16-bit value that
    makes the one's complement sum of the 16-bit words (high byte first, an odd byte
    padded with zero) vanish, i.e. the sum with the checksum is 0 modulo 65535. *)
Theorem ip_checksum_internet (data : buf) :
  bytes_ok data -> Z.of_nat (length data) <= 65535 ->
  exists c, ip_checksum data = Some c /\ 0 <= c < 65536 /\ (word_sum data + c) mod 65535 = 0.
Proof. apply ip_checksum_ok. Qed.

Lemma ip_checksum_internet_witness :
  exists c, ip_checksum [69; 0; 0; 60; 28] = Some c /\ 0 <= c < 65536 /\ (word_sum [69; 0; 0; 60; 28] + c) mod 65535 = 0.
Proof. apply (ip_checksum_internet [69; 0; 0; 60; 28]); [repeat constructor; lia|simpl; lia]. Defined.

(** Packets with a standard header are dropped: the sum is formed with the high
    byte first, but compared with the field read in the machine's byte order.  A header
    whose checksum field holds the Internet checksum in network byte order is ignored
    whenever the two bytes of the checksum differ. *)
Theorem standard_header_dropped (s : net) (packet header : buf) (length ihl hi lo : Z) :
  20 <= length -> field packet 0 1 = Some (64 + ihl) -> 5 <= ihl < 16 -> ihl * 4 <= length ->
  bytes_at packet 0 (Z.to_nat (ihl * 4)) = Some header ->
  field packet 10 1 = Some hi -> field packet 11 1 = Some lo -> byte_ok hi -> byte_ok lo ->
  ip_checksum (blit header 10 [0; 0]) = Some (hi * 256 + lo) -> hi <> lo ->
  handle_ip_packet packet length s = Some (tt, s).
Proof.
  intros Hl Hv Hi Hil Hh Hhi Hlo Bhi Blo Hc Hne. unfold handle_ip_packet.
  destruct (Z.ltb_spec length 20); [lia|]. rewrite (lift_bind _ _ _ _ Hv).
  assert (Z.land (64 + ihl) 15 * 4 = ihl * 4) as ->.
  { change 15 with (Z.ones 4). rewrite Z.land_ones by lia. change (2 ^ 4) with 16.
    rewrite <- (Z.mod_small ihl 16) at 2 by lia. f_equal. replace (64 + ihl) with (ihl + 4 * 16) by lia. by apply Z.mod_add. }
  destruct (Z.ltb_spec (ihl * 4) 20), (Z.ltb_spec length (ihl * 4)); try lia. cbn [orb].
  assert (field packet 10 2 = Some (hi + 256 * lo)) as Hs.
  { unfold field, bytes_at in *. destruct (Nat.leb_spec (10 + 1) (List.length packet)); [|done].
    destruct (Nat.leb_spec (11 + 1) (List.length packet)); [|done]. destruct (Nat.leb_spec (10 + 2) (List.length packet)); [|lia].
    cbn [option_map] in *. unfold slice in *. apply (inj Some) in Hhi. apply (inj Some) in Hlo.
    assert (drop 11 packet = drop 1 (drop 10 packet)) as E11 by (by rewrite drop_drop).
    rewrite E11 in Hlo. destruct (drop 10 packet) as [|x [|y r]] eqn:Ed.
    - apply (f_equal List.length) in Ed. rewrite length_drop in Ed. simpl in Ed. lia.
    - apply (f_equal List.length) in Ed. rewrite length_drop in Ed. simpl in Ed. lia.
    - simpl in *. f_equal. lia. }
  rewrite (lift_bind _ false); [done|]. unfold header_checksum_ok. rewrite Hs. cbn [mbind option_bind]. rewrite Hh.
  cbn [mbind option_bind]. rewrite Hc. cbn [mbind option_bind]. f_equal. unfold byte_ok in *. lia.
Qed.

(** An echo request as other hosts send it: checksum 0x62D1, high byte first. *)
Definition standard_packet : buf := [69; 0; 0; 28; 0; 0; 0; 0; 64; 1; 98; 209; 10; 0; 2; 2; 10; 0; 2; 15; 8; 0; 247; 255; 0; 0; 0; 0].

Lemma standard_header_dropped_witness :
  handle_ip_packet standard_packet 28 (host 167772687 [0; 0; 0; 0; 0; 1] no_cache) =
  Some (tt, host 167772687 [0; 0; 0; 0; 0; 1] no_cache).
Proof.
  apply (standard_header_dropped (host 167772687 [0; 0; 0; 0; 0; 1] no_cache) standard_packet (take 20 standard_packet) 28 5 98 209);
    (by vm_compute) || (vm_compute; lia) || (split; vm_compute; congruence).
Defined.

(** ** Frames for the drivers

    The interrupt handlers of the cards answer ARP requests for 10.0.2.15. *)
Definition OWN_IP : Z := 167772687.
Definition asks_for_us (f : buf) : bool :=
  bool_decide (slice f 12 2 = [8; 6]) && bool_decide (slice f 20 2 = [0; 1]) && bool_decide (slice f 38 4 = [10; 0; 2; 15]).

Lemma slice_prefix (f r : buf) i n : (i + n <= length f)%nat -> slice (f ++ r) i n = slice f i n.
Proof. intros Hl. unfold slice. by rewrite drop_app_le, take_app_le by (rewrite ?length_drop; lia). Qed.
(** Reading a byte of a frame at the start of a buffer. *)
Lemma rd_prefix (f r : buf) i : bytes_ok f -> 0 <= i < blen f -> exists x, rd (f ++ r) i = Some x /\ f !! Z.to_nat i = Some x /\ byte_ok x.
Proof.
  intros Hf Hi. unfold blen in Hi. destruct (lookup_lt_is_Some_2 f (Z.to_nat i)) as [x Hx]; [lia|]. exists x.
  split; [|split; [done|by apply (Forall_lookup_1 _ _ _ _ Hf Hx)]]. unfold rd. destruct (Z.ltb_spec i 0); [lia|]. by apply lookup_app_l_Some.
Qed.
Lemma put_ip l : bytes_ok l -> length l = 4%nat -> le_put 4 (htonl (ntohl (le_get l))) = l.
Proof.
  intros Hb Hl. do 4 (destruct l as [|? l]; [done|]). destruct l; [|done]. unfold bytes_ok in Hb. rewrite !Forall_cons in Hb.
  destruct Hb as (Ha & Hb & Hc & Hd & _). unfold ntohl. change (le_get [z; z0; z1; z2]) with (z + 256 * (z0 + 256 * (z1 + 256 * (z2 + 256 * 0)))).
  replace (z + 256 * (z0 + 256 * (z1 + 256 * (z2 + 256 * 0)))) with (quad z2 z1 z0 z) by (unfold quad; lia).
  rewrite !htonl_quad by done. replace (quad z2 z1 z0 z) with (le_get [z; z0; z1; z2]) by (unfold quad; cbn [le_get]; lia). apply (le_put_get [z; z0; z1; z2]). unfold bytes_ok. rewrite !Forall_cons. done.
Qed.
Lemma slice_pair (f : buf) i x y : f !! i = Some x -> f !! S i = Some y -> slice f i 2 = [x; y].
Proof. intros Hx Hy. by rewrite (slice_cons _ _ _ _ Hx), (slice_one _ _ _ Hy). Qed.
Lemma slice_quad (f : buf) i a b c d : f !! i = Some a -> f !! S i = Some b -> f !! S (S i) = Some c -> f !! S (S (S i)) = Some d -> slice f i 4 = [a; b; c; d].
Proof. intros Ha Hb Hc Hd. by rewrite (slice_cons _ _ _ _ Ha), (slice_cons _ _ _ _ Hb), (slice_pair _ _ _ _ Hc Hd). Qed.
(** A 16-bit field, high byte first. *)
Lemma field_is x y k : byte_ok x -> byte_ok y -> 0 <= k < 65536 -> (u16 (Z.lor (Z.shiftl x 8) y) =? k) = bool_decide ([x; y] = [k / 256; k mod 256]).
Proof.
  unfold byte_ok. intros Hx Hy Hk. rewrite lor_shiftl_add, wrap_small by lia. destruct (Z.eqb_spec (x * 2 ^ 8 + y) k) as [<-|Hne].
  - rewrite bool_decide_true; [done|]. f_equal; [|f_equal]; zlia.
  - rewrite bool_decide_false; [done|]. intros E. injection E as -> ->. zlia.
Qed.
