(* ===== verification/NetProto.v ===== *)
(** Exchanges between two hosts that run drivers/net/netstack.c: ARP resolution, ICMP
    echo and UDP datagrams, as frames that one host sends and the other processes. *)

From stdpp Require Import strings.
From S2P Require Import Prelude CString Effects Net.

Definition mac_ok (m : buf) : Prop := length m = ETH_ADDR_LEN /\ bytes_ok m.
Definition word_ok (x : Z) : Prop := 0 <= x < 2 ^ 32.

(** A host with a working card and sane tables. *)
Record up (s : net) : Prop := Mk_up {
  up_nic : ne2000_initialized s = true;
  up_mac : mac_ok (mac_address (net_config s));
  up_ip : word_ok (ip_address (net_config s));
  up_ident : 0 <= ip_identification s < 65536;
  up_cache : cache_ok (arp_cache s);
  up_size : length (arp_cache s) = ARP_CACHE_SIZE;
  up_macs : Forall (fun e => c_valid e = true -> mac_ok (c_mac e)) (arp_cache s)
}.

(** ** Fields *)

Lemma put_htonl a b c d :
  byte_ok a -> byte_ok b -> byte_ok c -> byte_ok d -> le_put 4 (htonl (quad a b c d)) = [a; b; c; d].
Proof.
  intros Ha Hb Hc Hd. rewrite htonl_quad by done.
  replace (quad d c b a) with (le_get [a; b; c; d]) by (unfold quad; cbn [le_get]; lia).
  apply (le_put_get [a; b; c; d]). unfold bytes_ok. rewrite !Forall_cons. done.
Qed.

Lemma ntohl_get a b c d :
  byte_ok a -> byte_ok b -> byte_ok c -> byte_ok d -> ntohl (le_get [a; b; c; d]) = quad a b c d.
Proof.
  intros Ha Hb Hc Hd. rewrite <- put_htonl by done. rewrite le_get_put.
  destruct (quad_parts a b c d) as [Hr _]; try done. pose proof (htonl_range _ Hr).
  rewrite Z.mod_small by (simpl; lia). by apply ntohl_htonl.
Qed.

(** Reading at an offset skips the parts in front of it. *)
Lemma bytes_at_app a b off n : (length a <= off)%nat -> bytes_at (a ++ b) off n = bytes_at b (off - length a) n.
Proof.
  intros H. unfold bytes_at, slice. rewrite length_app, drop_app_ge by lia.
  destruct (Nat.leb_spec (off + n) (length a + length b)), (Nat.leb_spec (off - length a + n) (length b)); (done || lia).
Qed.

Lemma bytes_at_here a b n : length a = n -> bytes_at (a ++ b) 0 n = Some a.
Proof.
  intros <-. unfold bytes_at, slice. rewrite drop_0, take_app_length, length_app.
  by rewrite (proj2 (Nat.leb_le _ _)) by lia.
Qed.

Lemma field_app a b off n : (length a <= off)%nat -> field (a ++ b) off n = field b (off - length a) n.
Proof. intros H. unfold field. by rewrite bytes_at_app. Qed.

Lemma field_here n v b : field (le_put n v ++ b) 0 n = Some (v mod 256 ^ Z.of_nat n).
Proof. unfold field. rewrite bytes_at_here by apply length_le_put. simpl. by rewrite le_get_put. Qed.

Lemma field_byte x b : field (x :: b) 0 1 = Some x.
Proof. unfold field, bytes_at, slice. simpl. f_equal. lia. Qed.

Lemma field_u16 x b : 0 <= x < 65536 -> field (le_put 2 (htons x) ++ b) 0 2 = Some (htons x).
Proof. intros Hx. rewrite field_here. f_equal. apply Z.mod_small. pose proof (htons_range x). simpl. lia. Qed.

Lemma field_u32 x b : word_ok x -> field (le_put 4 (htonl x) ++ b) 0 4 = Some (htonl x).
Proof. intros Hx. rewrite field_here. f_equal. apply Z.mod_small. pose proof (htonl_range x Hx). simpl. lia. Qed.

Lemma field_all n v : field (le_put n v) 0 n = Some (v mod 256 ^ Z.of_nat n).
Proof. rewrite <- (app_nil_r (le_put n v)). apply field_here. Qed.

(** ** ARP resolution *)

Lemma six m : mac_ok m -> exists a b c d e f, m = [a; b; c; d; e; f].
Proof.
  intros [Hl _]. unfold ETH_ADDR_LEN in Hl. do 6 (destruct m as [|? m]; [done|]). destruct m; [|done]. by do 6 eexists.
Qed.

(** The frame is for the host: its own address or broadcast. *)
Definition for_us (dst : buf) (s : net) : Prop :=
  dst = replicate 6 255 \/ dst = mac_address (net_config s).

Lemma memcmp_refl m n : (n <= length m)%nat -> memcmp (Some m) (Some m) n = Some 0.
Proof. intros H. unfold memcmp. destruct (memcmp_loop_spec m m n H H) as (r & -> & Hr). f_equal. by apply Hr. Qed.

(** The address filter lets the frames for the host through. *)
Lemma process_accepts s dst src type payload :
  for_us dst s -> length dst = 6%nat -> length src = 6%nat -> 0 <= type < 65536 ->
  netstack_process_packet (eth_header dst src type ++ payload) (14 + Z.of_nat (length payload)) s =
  (let plen := u16 (Z.of_nat (length payload)) in
   if type =? ETHERTYPE_ARP then handle_arp_packet payload plen s
   else if type =? ETHERTYPE_IPV4 then handle_ip_packet payload plen s
   else Some (tt, s)).
Proof.
  intros Hus Hd Hs Ht. unfold netstack_process_packet, eth_header.
  destruct (Z.ltb_spec (14 + Z.of_nat (length payload)) 14); [lia|]. rewrite <- !app_assoc.
  rewrite (lift_bind _ dst) by (by apply bytes_at_here).
  rewrite (lift_bind _ (htons type)) by (rewrite !field_app, Hd, Hs by (rewrite ?Hd, ?Hs; lia); by apply field_u16).
  rewrite gets_bind, (lift_bind _ 0).
  2: { case_bool_decide; [done|]. destruct Hus as [-> | ->]; [done|]. apply memcmp_refl. lia. }
  change (0 =? 0) with true. cbn [negb]. rewrite andb_false_r, ntohs_htons by done.
  replace (14 + Z.of_nat (length payload) - 14) with (Z.of_nat (length payload)) by lia.
  replace (drop 14 _) with payload; [by destruct (type =? ETHERTYPE_ARP), (type =? ETHERTYPE_IPV4)|].
  rewrite !app_assoc, drop_app_length'; [done|]. by rewrite !length_app, length_le_put, Hd, Hs.
Qed.

Lemma length_eth dst src type : length dst = 6%nat -> length src = 6%nat -> length (eth_header dst src type) = 14%nat.
Proof. intros H1 H2. unfold eth_header. by rewrite !length_app, length_le_put, H1, H2. Qed.

Lemma length_arp op smac sip tmac tip :
  length smac = 6%nat -> length tmac = 6%nat -> length (arp_packet op smac sip tmac tip) = 28%nat.
Proof. intros H1 H2. unfold arp_packet. rewrite !length_app, !length_le_put, H1, H2. done. Qed.

(** What the receiver of a well-formed ARP packet does. *)
Lemma handle_arp_ok s op smac sip tmac tip :
  0 <= op < 65536 -> mac_ok smac -> mac_ok tmac -> word_ok sip -> word_ok tip ->
  forall pad len, 28 <= len -> handle_arp_packet (arp_packet op smac sip tmac tip ++ pad) len s =
  (_ ← arp_add_entry sip smac; cfg ← gets net_config;
   if (op =? ARP_REQUEST) && (tip =? ip_address cfg) then arp_send_reply sip smac else mret tt) s.
Proof.
  intros Hop Hsm Htm Hs Ht pad len Hlen. destruct (six _ Hsm) as (m1 & m2 & m3 & m4 & m5 & m6 & ->).
  destruct (six _ Htm) as (t1 & t2 & t3 & t4 & t5 & t6 & ->).
  assert (ntohs (op / 256 + 256 * (op mod 256 + 256 * 0)) = op) as Eop.
  { transitivity (ntohs (htons op)); [|by apply ntohs_htons]. f_equal. rewrite htons_sum by done. lia. }
  destruct (quad_bytes sip Hs) as (a & b & c & d & -> & Ha & Hb & Hc & Hd).
  destruct (quad_bytes tip Ht) as (a' & b' & c' & d' & -> & Ha' & Hb' & Hc' & Hd').
  unfold arp_packet. rewrite !put_htonl by done. rewrite (put_htons op) by done. rewrite !put_htons by done.
  unfold handle_arp_packet. destruct (Z.ltb_spec len 28); [lia|]. cbn [app].
  do 4 (erewrite lift_bind by reflexivity). change (negb _ || _ || _ || _) with false. cbn iota.
  rewrite (lift_bind _ (op / 256 + 256 * (op mod 256 + 256 * 0))) by done.
  rewrite (lift_bind _ [m1; m2; m3; m4; m5; m6]) by done.
  rewrite (lift_bind _ (le_get [a; b; c; d])) by done. rewrite (lift_bind _ (le_get [a'; b'; c'; d'])) by done.
  by rewrite Eop, (ntohl_get a b c d), (ntohl_get a' b' c' d') by done.
Qed.

(** Learning an address keeps the host up. *)
Lemma arp_add_up s ip mac :
  up s -> mac_ok mac ->
  exists s', arp_add_entry ip mac s = Some (tt, s') /\ up s' /\ arp_find (arp_cache s') ip = Some mac /\
    net_config s' = net_config s /\ sent s' = sent s.
Proof.
  intros Hup [Hm Hb]. destruct Hup as [Hn Hmac Hip Hid Hc Hs Hms].
  destruct (arp_add_ok s ip mac Hc Hs ltac:(unfold ETH_ADDR_LEN in *; lia)) as (k & Hk & E & Hf & Hc' & _).
  eexists. split; [exact E|]. cbn. split; [|by split; [rewrite Hf, take_ge by (unfold ETH_ADDR_LEN in *; lia)|]].
  split; try done; cbn.
  - by rewrite length_insert.
  - apply Forall_insert; [done|]. intros _. cbn. by rewrite take_ge by (unfold ETH_ADDR_LEN in *; lia).
Qed.

(** What a packet puts on the wire. *)
Definition on_wire (p : buf) : list buf := if (length p <=? 1500)%nat then [wire_frame p] else [].

Lemma nic_send_up s p : up s -> nic_send p s = Some (true, with_sent s (sent s ++ on_wire p)).
Proof.
  intros H. unfold nic_send, on_wire. rewrite (up_nic s H). destruct (length p <=? 1500)%nat; [done|].
  rewrite app_nil_r. by destruct s.
Qed.
Lemma on_wire_fits p : (length p <= 1500)%nat -> on_wire p = [wire_frame p].
Proof. intros H. unfold on_wire. by rewrite (proj2 (Nat.leb_le _ _)). Qed.

(** The zeros stand behind the payload. *)
Lemma wire_frame_app a b : exists n, wire_frame (a ++ b) = a ++ b ++ replicate n 0.
Proof. eexists. unfold wire_frame. by rewrite <- app_assoc. Qed.

Lemma with_sent_up s l : up s -> up (with_sent s l).
Proof. by intros []. Qed.

(** A whole ARP frame. *)
Definition arp_frame (dst : buf) (op : Z) (smac : buf) (sip : Z) (tmac : buf) (tip : Z) : buf :=
  wire_frame (eth_header dst smac ETHERTYPE_ARP ++ arp_packet op smac sip tmac tip).

Lemma process_arp s dst op smac sip tmac tip :
  for_us dst s -> mac_ok dst -> mac_ok smac -> mac_ok tmac -> 0 <= op < 65536 -> word_ok sip -> word_ok tip ->
  netstack_process_packet (arp_frame dst op smac sip tmac tip) (Z.of_nat (length (arp_frame dst op smac sip tmac tip))) s =
  (_ ← arp_add_entry sip smac; cfg ← gets net_config;
   if (op =? ARP_REQUEST) && (tip =? ip_address cfg) then arp_send_reply sip smac else mret tt) s.
Proof.
  intros Hus [Hd _] Hs Ht Hop Hsip Htip. pose proof (length_arp op smac sip tmac tip (proj1 Hs) (proj1 Ht)) as Hl.
  unfold arp_frame. destruct (wire_frame_app (eth_header dst smac ETHERTYPE_ARP) (arp_packet op smac sip tmac tip)) as [n E].
  assert (length (eth_header dst smac ETHERTYPE_ARP) = 14%nat) as He by (by apply length_eth; [|apply Hs]).
  pose proof (length_wire_frame (eth_header dst smac ETHERTYPE_ARP ++ arp_packet op smac sip tmac tip)) as Lw.
  rewrite E, !length_app, He, Hl, length_replicate in Lw. rewrite E, length_app, He, Nat2Z.inj_add, process_accepts by (done || apply Hs).
  apply handle_arp_ok; try done. rewrite !length_app, Hl, length_replicate, wrap_small; lia.
Qed.

Lemma send_arp_up s dst op smac sip tmac tip : up s -> mac_ok dst -> mac_ok smac -> mac_ok tmac ->
  nic_send (eth_header dst smac ETHERTYPE_ARP ++ arp_packet op smac sip tmac tip) s =
  Some (true, with_sent s (sent s ++ [arp_frame dst op smac sip tmac tip])).
Proof.
  intros Hup [Hd _] [Hs _] [Ht _]. rewrite nic_send_up, on_wire_fits; [done|rewrite length_app, length_eth, length_arp by done; lia|done].
Qed.

(** C18: address resolution between two hosts: the request that one host sends makes
    the other learn its address and answer, and the answer makes the first host learn
    the hardware address it asked for. *)
Theorem arp_resolution (a b : net) :
  up a -> up b ->
  exists a1 b1 a2 request reply,
    arp_send_request (ip_address (net_config b)) a = Some (tt, a1) /\ sent a1 = sent a ++ [request] /\
    netstack_process_packet request (Z.of_nat (length request)) b = Some (tt, b1) /\ sent b1 = sent b ++ [reply] /\
    arp_lookup (ip_address (net_config a)) b1 = Some (Some (mac_address (net_config a)), b1) /\
    netstack_process_packet reply (Z.of_nat (length reply)) a1 = Some (tt, a2) /\ sent a2 = sent a1 /\
    arp_lookup (ip_address (net_config b)) a2 = Some (Some (mac_address (net_config b)), a2) /\ up a2 /\ up b1.
Proof.
  intros Ha Hb. pose proof (up_mac a Ha) as Hma. pose proof (up_mac b Hb) as Hmb.
  pose proof (up_ip a Ha) as Hia. pose proof (up_ip b Hb) as Hib.
  assert (mac_ok (replicate 6 0) /\ mac_ok (replicate 6 255)) as [Hz Hf] by (split; (split; [done|by repeat constructor])).
  set (ma := mac_address (net_config a)) in *. set (mb := mac_address (net_config b)) in *.
  set (ia := ip_address (net_config a)) in *. set (ib := ip_address (net_config b)) in *.
  set (request := arp_frame (replicate 6 255) ARP_REQUEST ma ia (replicate 6 0) ib).
  set (reply := arp_frame ma ARP_REPLY mb ib ma ia).
  set (a1 := with_sent a (sent a ++ [request])).
  assert (up a1) as Ha1 by (by apply with_sent_up).
  destruct (arp_add_up b ia ma Hb Hma) as (b0 & Eb & Hb0 & Fb & Cb & Sb).
  destruct (arp_add_up a1 ib mb Ha1 Hmb) as (a2 & Ea & Ha2 & Fa & Ca & Sa).
  exists a1, (with_sent b0 (sent b0 ++ [reply])), a2, request, reply.
  split; [|split; [done|split; [|split; [by cbn; rewrite Sb|split; [|split; [|split; [done|split; [|split; [done|by apply with_sent_up]]]]]]]]].
  - unfold arp_send_request. rewrite gets_bind. by rewrite (bind_eq _ _ _ _ _ (send_arp_up a _ ARP_REQUEST ma ia _ ib Ha Hf Hma Hz)).
  - unfold request. rewrite process_arp by (done || (by left) || (split; lia)). rewrite (bind_eq _ _ _ _ _ Eb), gets_bind, Cb. fold ib.
    rewrite !Z.eqb_refl. cbn [andb]. unfold arp_send_reply. rewrite gets_bind, Cb. fold mb ib.
    by rewrite (bind_eq _ _ _ _ _ (send_arp_up b0 ma ARP_REPLY mb ib ma ia Hb0 Hma Hmb Hma)).
  - unfold arp_lookup, gets. cbn. by rewrite Fb.
  - unfold reply. rewrite process_arp by (done || (by right) || (split; lia)). by rewrite (bind_eq _ _ _ _ _ Ea).
  - unfold arp_lookup, gets. by rewrite Fa.
Qed.

Definition alice : net := host 167772673 [2; 0; 0; 0; 0; 1] no_cache.
Definition bob : net := host 167772674 [2; 0; 0; 0; 0; 2] no_cache.

Lemma host_up ip mac : word_ok ip -> mac_ok mac -> up (host ip mac no_cache).
Proof.
  intros Hi Hm. split; try done; [apply no_cache_ok|]. apply Forall_replicate. done.
Qed.

Lemma alice_up : up alice.
Proof. apply host_up; [unfold word_ok; lia|]. split; [done|]. by repeat constructor. Qed.
Lemma bob_up : up bob.
Proof. apply host_up; [unfold word_ok; lia|]. split; [done|]. by repeat constructor. Qed.

Lemma arp_resolution_witness :
  exists a1 b1 a2 request reply,
    arp_send_request 167772674 alice = Some (tt, a1) /\ sent a1 = [request] /\
    netstack_process_packet request (Z.of_nat (length request)) bob = Some (tt, b1) /\ sent b1 = [reply] /\
    netstack_process_packet reply (Z.of_nat (length reply)) a1 = Some (tt, a2) /\
    arp_lookup 167772674 a2 = Some (Some [2; 0; 0; 0; 0; 2], a2).
Proof.
  destruct (arp_resolution alice bob alice_up bob_up) as (a1 & b1 & a2 & q & r & H1 & H2 & H3 & H4 & _ & H6 & _ & H8 & _).
  exists a1, b1, a2, q, r. exact (conj H1 (conj H2 (conj H3 (conj H4 (conj H6 H8))))).
Defined.

(** ** IP headers *)

Definition half_ok (x : Z) : Prop := 0 <= x < 65536.

Lemma length_header total i proto src dst sum : length (ip_header_with total i proto src dst sum) = 20%nat.
Proof. unfold ip_header_with. by rewrite !length_app, !length_le_put. Qed.

Lemma header_ok total i proto src dst sum : byte_ok proto -> bytes_ok (ip_header_with total i proto src dst sum).
Proof. intros Hp. unfold ip_header_with. rewrite !bytes_ok_app. split_and!; try apply le_put_ok; apply Forall_singleton; unfold byte_ok in *; lia. Qed.

Lemma ip_header_exists total i proto src dst :
  byte_ok proto ->
  exists sum, half_ok sum /\ ip_checksum (ip_header_with total i proto src dst 0) = Some sum /\
    ip_header total i proto src dst = Some (ip_header_with total i proto src dst sum).
Proof.
  intros Hp. destruct (ip_checksum_ok (ip_header_with total i proto src dst 0)) as (sum & E & Hr & _).
  { by apply header_ok. } { rewrite length_header. lia. }
  exists sum. split; [done|]. split; [done|]. unfold ip_header. by rewrite E.
Qed.

(** The fields of a header in front of its payload, as the receive paths read them. *)
Record header_fields (total proto src dst : Z) (packet : buf) : Prop := Mk_fields {
  hf_version : field packet 0 1 = Some 69;
  hf_total : field packet 2 2 = Some (htons total);
  hf_frag : field packet 6 2 = Some 0;
  hf_proto : field packet 9 1 = Some proto;
  hf_src : field packet 12 4 = Some (htonl src);
  hf_dst : field packet 16 4 = Some (htonl dst);
  hf_sum : header_checksum_ok packet 20 = Some true
}.

Lemma header_reset total i proto src dst sum :
  blit (ip_header_with total i proto src dst sum) 10 [0; 0] = ip_header_with total i proto src dst 0.
Proof.
  unfold ip_header_with. rewrite !(app_assoc _ _ (le_put 2 _ ++ le_put 4 (htonl src) ++ _)).
  apply blit_mid; [by rewrite !length_app, !length_le_put|done].
Qed.

Lemma checksum_intro packet n saved header calc :
  field packet 10 2 = Some saved -> bytes_at packet 0 (Z.to_nat n) = Some header ->
  ip_checksum (blit header 10 [0; 0]) = Some calc -> header_checksum_ok packet n = Some (saved =? calc).
Proof. intros E1 E2 E3. unfold header_checksum_ok. rewrite E1. cbn [mbind option_bind]. rewrite E2. cbn [mbind option_bind]. by rewrite E3. Qed.

(** Steps to the field that starts at the offset. *)
Tactic Notation "to_field" integer(n) :=
  unfold ip_header_with; rewrite <- !app_assoc;
  do n (rewrite field_app by (rewrite ?length_le_put; simpl length; lia));
  rewrite ?length_le_put; cbn [length Nat.sub].

Lemma header_fields_ok total i proto src dst sum payload :
  half_ok total -> half_ok i -> word_ok src -> word_ok dst -> half_ok sum ->
  ip_checksum (ip_header_with total i proto src dst 0) = Some sum ->
  header_fields total proto src dst (ip_header_with total i proto src dst sum ++ payload).
Proof.
  intros Ht Hi Hs Hd Hsum E. split.
  - apply field_byte.
  - to_field 2. by apply field_u16.
  - to_field 4. apply field_here.
  - to_field 6. apply field_byte.
  - to_field 8. by apply field_u32.
  - to_field 9. by apply field_u32.
  - rewrite <- (Z.eqb_refl sum). apply (checksum_intro _ _ _ (ip_header_with total i proto src dst sum)).
    + to_field 7. rewrite field_here. f_equal. by apply Z.mod_small.
    + apply bytes_at_here, length_header.
    + by rewrite header_reset.
Qed.

Lemma handle_ip_fields s total proto src dst packet len :
  header_fields total proto src dst packet -> 20 <= total < 65536 -> word_ok src -> word_ok dst -> 20 <= len ->
  dst = ip_address (net_config s) \/ dst = IP_BROADCAST ->
  handle_ip_packet packet len s =
  (if proto =? IP_PROTOCOL_ICMP then handle_icmp_packet (drop 20 packet) (total - 20) src s else Some (tt, s)).
Proof.
  intros [Hv Ht Hf Hp Hs Hd Hsum] Htot Hsrc Hdst Hl Hus. unfold handle_ip_packet.
  destruct (Z.ltb_spec len 20); [lia|]. rewrite (lift_bind _ _ _ _ Hv). change (Z.land 69 15 * 4) with 20. cbn zeta.
  destruct (Z.ltb_spec len 20); [lia|]. change ((20 <? 20) || false) with false. cbn iota.
  rewrite (lift_bind _ _ _ _ Hsum). cbn [negb]. rewrite (lift_bind _ _ _ _ Hd), gets_bind, ntohl_htonl by done.
  replace (negb (dst =? ip_address (net_config s)) && negb (dst =? IP_BROADCAST)) with false.
  2: { destruct Hus as [-> | ->]; rewrite Z.eqb_refl; cbn [negb]; [done|by rewrite andb_false_r]. }
  rewrite (lift_bind _ _ _ _ Hf). change (negb (Z.land (ntohs 0) 16383 =? 0)) with false. cbn iota.
  rewrite (lift_bind _ _ _ _ Ht), (lift_bind _ _ _ _ Hp), (lift_bind _ _ _ _ Hs), ntohs_htons, ntohl_htonl by (done || lia).
  rewrite wrap_small by lia. by destruct (proto =? IP_PROTOCOL_ICMP).
Qed.

(** ** Echo *)

Lemma resolve_known s dst mac :
  dst <> IP_BROADCAST -> arp_find (arp_cache s) (next_hop (net_config s) dst) = Some mac ->
  resolve_mac dst s = Some (Some mac, s).
Proof.
  intros Hne Hm. unfold resolve_mac. rewrite gets_bind. destruct (Z.eqb_spec dst IP_BROADCAST); [done|].
  unfold arp_lookup. rewrite gets_bind, Hm. done.
Qed.

Lemma icmp_header_ok type id seq sum : byte_ok type -> bytes_ok (icmp_header_with type id seq sum).
Proof.
  intros Hp. unfold icmp_header_with. rewrite !bytes_ok_app.
  split_and!; try apply le_put_ok; apply Forall_singleton; unfold byte_ok in *; lia.
Qed.

Lemma icmp_message_exists type id seq data :
  byte_ok type -> bytes_ok data -> Z.of_nat (length data) <= 1472 ->
  exists sum, half_ok sum /\ icmp_message type id seq data = Some (icmp_header_with type id seq sum ++ data).
Proof.
  intros Ht Hd Hl. destruct (ip_checksum_ok (icmp_header_with type id seq 0 ++ data)) as (sum & E & Hr & _).
  { apply bytes_ok_app. split; [by apply icmp_header_ok|done]. }
  { unfold icmp_header_with. rewrite !length_app, !length_le_put. simpl length. lia. }
  exists sum. split; [done|]. unfold icmp_message. by rewrite E.
Qed.

(** An IP packet before it is filled up, and on the wire. *)
Definition ip_packet (dst_mac src_mac : buf) (len i proto src dst sum : Z) (payload : buf) : buf :=
  eth_header dst_mac src_mac ETHERTYPE_IPV4 ++ ip_header_with (20 + len) i proto src dst sum ++ payload.
Definition ip_frame (dst_mac src_mac : buf) (len i proto src dst sum : Z) (payload : buf) : buf :=
  wire_frame (ip_packet dst_mac src_mac len i proto src dst sum payload).

Lemma length_ip_packet dmac smac len i proto src dst sum payload :
  length dmac = 6%nat -> length smac = 6%nat ->
  length (ip_packet dmac smac len i proto src dst sum payload) = (14 + (20 + length payload))%nat.
Proof. intros H1 H2. unfold ip_packet. rewrite !length_app, length_header, length_eth by done. lia. Qed.
Lemma length_ip_frame dmac smac len i proto src dst sum payload :
  length dmac = 6%nat -> length smac = 6%nat ->
  length (ip_frame dmac smac len i proto src dst sum payload) = (60 `max` (14 + (20 + length payload)))%nat.
Proof. intros H1 H2. unfold ip_frame. by rewrite length_wire_frame, length_ip_packet. Qed.
Lemma ip_frame_split dmac smac len i proto src dst sum payload :
  exists n, ip_frame dmac smac len i proto src dst sum payload =
    eth_header dmac smac ETHERTYPE_IPV4 ++ ip_header_with (20 + len) i proto src dst sum ++ payload ++ replicate n 0.
Proof.
  unfold ip_frame, ip_packet. eexists. unfold wire_frame. by rewrite <- !app_assoc.
Qed.

Lemma next_ident_up s : up s -> up (with_ident s (u16 (ip_identification s + 1))).
Proof. intros []. split; try done. apply wrap_range. lia. Qed.

(** The addresses in the cache are whole. *)
Lemma known_mac s ip mac : up s -> arp_find (arp_cache s) ip = Some mac -> mac_ok mac.
Proof.
  intros Hup. generalize (up_macs s Hup). induction (arp_cache s) as [|e l IH]; [done|]. intros [He Hl]%Forall_cons.
  cbn [arp_find]. destruct (c_valid e) eqn:Ev; cbn [andb]; [|by apply IH]. destruct (c_ip e =? ip); [|by apply IH].
  intros E. injection E as <-. by apply He.
Qed.

(** Sending to a host whose hardware address is known: the card takes frames of up to 1500
    bytes, 42 of them headers. *)
Lemma send_echo_ok s type dst id seq data rest mac :
  up s -> byte_ok type -> dst <> IP_BROADCAST -> arp_find (arp_cache s) (next_hop (net_config s) dst) = Some mac ->
  bytes_ok data -> Z.of_nat (length data) <= 1472 ->
  exists sum message,
    half_ok sum /\
    ip_checksum (ip_header_with (28 + Z.of_nat (length data)) (ip_identification s) IP_PROTOCOL_ICMP (ip_address (net_config s)) dst 0) = Some sum /\
    icmp_message type id seq data = Some message /\ length message = (8 + length data)%nat /\
    icmp_send_echo type dst id seq (data ++ rest) (Z.of_nat (length data)) s =
    Some (tt, with_sent (with_ident s (u16 (ip_identification s + 1)))
      (sent s ++ if Z.of_nat (length data) <=? 1458
                 then [ip_frame mac (mac_address (net_config s)) (8 + Z.of_nat (length data)) (ip_identification s) IP_PROTOCOL_ICMP
                    (ip_address (net_config s)) dst sum message] else [])).
Proof.
  intros Hup Ht Hdst Hm Hd Hl. set (len := Z.of_nat (length data)) in *.
  destruct (ip_header_exists (28 + len) (ip_identification s) IP_PROTOCOL_ICMP (ip_address (net_config s)) dst ltac:(unfold byte_ok, IP_PROTOCOL_ICMP; lia))
    as (sum & Hsum & Esum & Eip).
  destruct (icmp_message_exists type id seq data Ht Hd Hl) as (isum & Hisum & Eicmp).
  exists sum, (icmp_header_with type id seq isum ++ data). split; [done|]. split; [done|]. split; [done|].
  assert (length (icmp_header_with type id seq isum ++ data) = (8 + length data)%nat) as Lm
    by (unfold icmp_header_with; rewrite !length_app, !length_le_put; done).
  split; [exact Lm|].
  unfold icmp_send_echo. rewrite (bind_eq _ _ _ _ _ (resolve_known s dst mac Hdst Hm)), gets_bind.
  set (s1 := with_ident s (u16 (ip_identification s + 1))).
  rewrite (bind_eq _ _ _ (ip_identification s) s1) by done.
  rewrite (lift_bind _ data) by (apply bytes_at_here; unfold len; lia).
  destruct (Z.ltb_spec (Z.of_nat PACKET_SIZE) (42 + len)); [unfold PACKET_SIZE in *; lia|].
  rewrite (wrap_small 16 (28 + len)) by (unfold len in *; lia).
  rewrite (lift_bind _ _ _ _ Eip), (lift_bind _ _ _ _ Eicmp).
  rewrite (bind_eq _ _ _ _ _ (nic_send_up s1 _ (next_ident_up s Hup))). replace (28 + len) with (20 + (8 + len)) by lia.
  fold (ip_packet mac (mac_address (net_config s)) (8 + len) (ip_identification s) IP_PROTOCOL_ICMP (ip_address (net_config s)) dst sum (icmp_header_with type id seq isum ++ data)).
  unfold on_wire. rewrite length_ip_packet, Lm by (apply (known_mac s _ _ Hup Hm) || apply (up_mac s Hup)).
  destruct (Nat.leb_spec (14 + (20 + (8 + length data))) 1500), (Z.leb_spec len 1458); (done || (unfold len in *; lia)).
Qed.

(** Receiving an IP packet that a host running this code has sent. *)
Lemma process_ip s dmac smac i proto src dst sum payload :
  let len := Z.of_nat (length payload) in
  for_us dmac s -> mac_ok dmac -> mac_ok smac -> len <= 1480 -> half_ok i -> word_ok src -> word_ok dst -> half_ok sum ->
  dst = ip_address (net_config s) \/ dst = IP_BROADCAST ->
  ip_checksum (ip_header_with (20 + len) i proto src dst 0) = Some sum ->
  exists pad, netstack_process_packet (ip_frame dmac smac len i proto src dst sum payload)
    (Z.of_nat (length (ip_frame dmac smac len i proto src dst sum payload))) s =
  (if proto =? IP_PROTOCOL_ICMP then handle_icmp_packet (payload ++ pad) len src s else Some (tt, s)).
Proof.
  intros len Hus [Hd _] [Hs _] Hl Hi Hsrc Hdst Hsum Hto E. 
  destruct (ip_frame_split dmac smac len i proto src dst sum payload) as [n Ef]. exists (replicate n 0).
  pose proof (length_ip_frame dmac smac len i proto src dst sum payload Hd Hs) as Lf. rewrite Ef in Lf |- *.
  set (packet := ip_header_with (20 + len) i proto src dst sum ++ payload ++ replicate n 0) in *.
  assert (length packet = (20 + (length payload + n))%nat) as Hp by (unfold packet; by rewrite !length_app, length_header, length_replicate).
  rewrite length_app, length_eth in Lf |- * by done. rewrite Nat2Z.inj_add.
  rewrite process_accepts by done. change (ETHERTYPE_IPV4 =? ETHERTYPE_ARP) with false. rewrite Z.eqb_refl. cbn zeta iota.
  rewrite (handle_ip_fields s (20 + len) proto src dst packet).
  - replace (drop 20 packet) with (payload ++ replicate n 0) by (unfold packet; by rewrite drop_app_length' by (by rewrite length_header)).
    by replace (20 + len - 20) with len by lia.
  - apply header_fields_ok; (done || unfold half_ok; lia).
  - lia.
  - done.
  - done.
  - rewrite wrap_small; lia.
  - done.
Qed.

(** The message is answered with the same identifier, number and payload. *)
Lemma handle_request_ok s id seq data message pad src :
  half_ok id -> half_ok seq -> Z.of_nat (length data) <= 1472 -> bytes_ok data ->
  icmp_message ICMP_ECHO_REQUEST id seq data = Some message ->
  handle_icmp_packet (message ++ pad) (Z.of_nat (length message)) src s = icmp_send_echo_reply src id seq (data ++ pad) (Z.of_nat (length data)) s.
Proof.
  intros Hi Hs Hl Hd. destruct (icmp_message_exists ICMP_ECHO_REQUEST id seq data ltac:(unfold byte_ok, ICMP_ECHO_REQUEST; lia) Hd Hl) as (sum & Hsum & ->).
  intros E. apply (inj Some) in E as <-. unfold handle_icmp_packet.
  assert (length (icmp_header_with ICMP_ECHO_REQUEST id seq sum ++ data) = (8 + length data)%nat) as ->
    by (unfold icmp_header_with; rewrite !length_app, !length_le_put; done).
  destruct (Z.ltb_spec (Z.of_nat (8 + length data)) 8); [lia|]. rewrite wrap_small by lia.
  replace (Z.of_nat (8 + length data) - 8) with (Z.of_nat (length data)) by lia.
  rewrite (lift_bind _ ICMP_ECHO_REQUEST) by apply field_byte. rewrite Z.eqb_refl.
  unfold icmp_header_with. rewrite <- !app_assoc.
  rewrite (lift_bind _ (htons id)).
  2: { do 3 (rewrite field_app by (rewrite ?length_le_put; simpl length; lia)). rewrite ?length_le_put. cbn [length Nat.sub]. by apply field_u16. }
  rewrite (lift_bind _ (htons seq)).
  2: { do 4 (rewrite field_app by (rewrite ?length_le_put; simpl length; lia)). rewrite ?length_le_put. cbn [length Nat.sub]. by apply field_u16. }
  by rewrite !ntohs_htons by done.
Qed.

Lemma handle_reply_ok s id seq data message pad src :
  Z.of_nat (length data) <= 1472 -> bytes_ok data -> icmp_message ICMP_ECHO_REPLY id seq data = Some message ->
  handle_icmp_packet (message ++ pad) (Z.of_nat (length message)) src s = Some (tt, s).
Proof.
  intros Hl Hd. destruct (icmp_message_exists ICMP_ECHO_REPLY id seq data ltac:(unfold byte_ok, ICMP_ECHO_REPLY; lia) Hd Hl) as (sum & Hsum & ->).
  intros E. apply (inj Some) in E as <-. unfold handle_icmp_packet. destruct (_ <? 8); [done|].
  by rewrite (lift_bind _ ICMP_ECHO_REPLY) by apply field_byte.
Qed.

(** The hosts know each other's hardware address. *)
Definition knows (a b : net) : Prop :=
  ip_address (net_config b) <> IP_BROADCAST /\
  arp_find (arp_cache a) (next_hop (net_config a) (ip_address (net_config b))) = Some (mac_address (net_config b)).

(** The frame on the wire that carries an echo message from one host to another. *)
Definition echo_frame (a b : net) (type id seq : Z) (data : buf) : option buf :=
  header ← ip_header (28 + Z.of_nat (length data)) (ip_identification a) IP_PROTOCOL_ICMP
             (ip_address (net_config a)) (ip_address (net_config b));
  message ← icmp_message type id seq data;
  Some (wire_frame (eth_header (mac_address (net_config b)) (mac_address (net_config a)) ETHERTYPE_IPV4 ++ header ++ message)).

Lemma echo_frame_eq a b type id seq data sum message :
  ip_checksum (ip_header_with (28 + Z.of_nat (length data)) (ip_identification a) IP_PROTOCOL_ICMP (ip_address (net_config a)) (ip_address (net_config b)) 0) = Some sum ->
  icmp_message type id seq data = Some message ->
  echo_frame a b type id seq data = Some (ip_frame (mac_address (net_config b)) (mac_address (net_config a)) (8 + Z.of_nat (length data))
    (ip_identification a) IP_PROTOCOL_ICMP (ip_address (net_config a)) (ip_address (net_config b)) sum message).
Proof.
  intros E1 E2. unfold echo_frame, ip_header. rewrite E1. cbn [mbind option_bind]. rewrite E2. cbn [mbind option_bind].
  unfold ip_frame, ip_packet. by rewrite Z.add_assoc.
Qed.

(** A whole echo frame that arrives is handed to the ICMP handler. *)
Lemma process_echo a b type (data : buf) sum (message : buf) c :
  up a -> up b -> net_config c = net_config b -> byte_ok type -> Z.of_nat (length data) <= 1472 -> half_ok sum ->
  ip_checksum (ip_header_with (28 + Z.of_nat (length data)) (ip_identification a) IP_PROTOCOL_ICMP (ip_address (net_config a)) (ip_address (net_config b)) 0) = Some sum ->
  length message = (8 + length data)%nat ->
  let frame := ip_frame (mac_address (net_config b)) (mac_address (net_config a)) (8 + Z.of_nat (length data))
    (ip_identification a) IP_PROTOCOL_ICMP (ip_address (net_config a)) (ip_address (net_config b)) sum message in
  exists pad, netstack_process_packet frame (Z.of_nat (length frame)) c =
    handle_icmp_packet (message ++ pad) (Z.of_nat (length message)) (ip_address (net_config a)) c.
Proof.
  intros Ha Hb Hc Ht Hl Hsum E Lm. replace (8 + Z.of_nat (length data)) with (Z.of_nat (length message)) by lia. cbn zeta.
  destruct (process_ip c (mac_address (net_config b)) (mac_address (net_config a)) (ip_identification a) IP_PROTOCOL_ICMP
    (ip_address (net_config a)) (ip_address (net_config b)) sum message) as [pad ->].
  - right. by rewrite Hc.
  - apply (up_mac b Hb).
  - apply (up_mac a Ha).
  - lia.
  - apply (up_ident a Ha).
  - apply (up_ip a Ha).
  - apply (up_ip b Hb).
  - done.
  - left. by rewrite Hc.
  - rewrite Lm. rewrite <- E. do 2 f_equal. lia.
  - by exists pad.
Qed.

(** C17: echo between two hosts that run this stack with the NE2000 card and have resolved
    each other's hardware address (other hosts use the standard byte order of the header
    checksum).  [icmp_send_echo_request] puts one frame on the wire, an echo request with
    the payload [ping].  A frame with a request of any payload of up to 1472 bytes, all that
    Ethernet carries, is accepted; for up to 1458 bytes it is answered by one frame,
    addressed to the sender, that carries an echo reply with the same identifier, sequence
    number and payload, and for more, where the card's limit of 1500 bytes for a frame is
    exceeded, nothing is sent.  The sender accepts the reply without any further effect. *)
Theorem ping_roundtrip (a b : net) (id seq : Z) (data : buf) :
  up a -> up b -> knows a b -> knows b a -> half_ok id -> half_ok seq -> bytes_ok data -> Z.of_nat (length data) <= 1472 ->
  (exists a1 frame,
    icmp_send_echo_request (ip_address (net_config b)) id seq a = Some (tt, a1) /\
    echo_frame a b ICMP_ECHO_REQUEST id seq [112; 105; 110; 103] = Some frame /\ sent a1 = sent a ++ [frame]) /\
  exists request b1 reply,
    echo_frame a b ICMP_ECHO_REQUEST id seq data = Some request /\
    netstack_process_packet request (Z.of_nat (length request)) b = Some (tt, b1) /\
    echo_frame b a ICMP_ECHO_REPLY id seq data = Some reply /\
    sent b1 = sent b ++ (if Z.of_nat (length data) <=? 1458 then [reply] else []) /\
    forall a1, net_config a1 = net_config a -> netstack_process_packet reply (Z.of_nat (length reply)) a1 = Some (tt, a1).
Proof.
  intros Ha Hb [Nb Kb] [Na Ka] Hid Hseq Hd Hl.
  assert (byte_ok ICMP_ECHO_REQUEST /\ byte_ok ICMP_ECHO_REPLY) as [Hq Hr] by (split; unfold byte_ok, ICMP_ECHO_REQUEST, ICMP_ECHO_REPLY; lia).
  split.
  - destruct (send_echo_ok a ICMP_ECHO_REQUEST _ id seq [112; 105; 110; 103] [] _ Ha Hq Nb Kb ltac:(by repeat constructor) ltac:(simpl; lia))
      as (sum & q & Hsum & Esum & Eq & Lq & Ea).
    eexists _, _. split; [exact Ea|]. split; [by apply echo_frame_eq|]. done.
  - destruct (send_echo_ok a ICMP_ECHO_REQUEST _ id seq data [] _ Ha Hq Nb Kb Hd Hl) as (sum & q & Hsum & Esum & Eq & Lq & _).
    destruct (process_echo a b ICMP_ECHO_REQUEST data sum q b Ha Hb eq_refl Hq Hl Hsum Esum Lq) as [pad Ep].
    destruct (send_echo_ok b ICMP_ECHO_REPLY _ id seq data pad _ Hb Hr Na Ka Hd Hl) as (sum' & r & Hsum' & Esum' & Er & Lr & Eb).
    rewrite (handle_request_ok b id seq data q pad _ Hid Hseq Hl Hd Eq) in Ep. unfold icmp_send_echo_reply in Ep. rewrite Eb in Ep.
    eexists _, _, _. split; [by apply echo_frame_eq|]. split; [exact Ep|]. split; [by apply echo_frame_eq|]. split; [done|].
    intros a1 Ca. destruct (process_echo b a ICMP_ECHO_REPLY data sum' r a1 Hb Ha Ca Hr Hl Hsum' Esum' Lr) as [pad' ->].
    by apply (handle_reply_ok _ id seq data).
Qed.

(** Two hosts after address resolution. *)
Definition one_entry (ip : Z) (mac : buf) : list arp_cache_entry := Mk_arp ip mac 0 true :: replicate 31 (Mk_arp 0 [] 0 false).
Definition alice' : net := host 167772673 [2; 0; 0; 0; 0; 1] (one_entry 167772674 [2; 0; 0; 0; 0; 2]).
Definition bob' : net := host 167772674 [2; 0; 0; 0; 0; 2] (one_entry 167772673 [2; 0; 0; 0; 0; 1]).

Lemma one_valid_ok n e0 x : c_valid x = false -> cache_ok (e0 :: replicate n x).
Proof.
  intros Hx [|i] [|j] e f Hi Hj He Hf _; cbn [lookup list_lookup] in Hi, Hj; [done| | |].
  - apply lookup_replicate_1 in Hj as [-> _]. congruence.
  - apply lookup_replicate_1 in Hi as [-> _]. congruence.
  - apply lookup_replicate_1 in Hi as [-> _]. congruence.
Qed.

Lemma host_one_up ip mac ip' mac' : word_ok ip -> mac_ok mac -> mac_ok mac' -> up (host ip mac (one_entry ip' mac')).
Proof.
  intros Hi Hm Hm'. split; try done; [by apply (one_valid_ok 31)|].
  apply Forall_cons_2; [done|]. by apply (Forall_replicate _ 31).
Qed.

Lemma alice'_up : up alice'.
Proof. apply host_one_up; [unfold word_ok; lia| |]; (split; [done|by repeat constructor]). Qed.
Lemma bob'_up : up bob'.
Proof. apply host_one_up; [unfold word_ok; lia| |]; (split; [done|by repeat constructor]). Qed.
Lemma alice_knows_bob : knows alice' bob' /\ knows bob' alice'.
Proof. unfold knows. by vm_compute. Qed.

(** A request with a payload of five bytes. *)
Lemma ping_roundtrip_witness :
  (exists a1 frame, icmp_send_echo_request 167772674 7 1 alice' = Some (tt, a1) /\ sent a1 = [frame]) /\
  exists request b1 reply,
    echo_frame alice' bob' ICMP_ECHO_REQUEST 7 1 [112; 105; 110; 103; 33] = Some request /\
    netstack_process_packet request (Z.of_nat (length request)) bob' = Some (tt, b1) /\ sent b1 = [reply] /\
    echo_frame bob' alice' ICMP_ECHO_REPLY 7 1 [112; 105; 110; 103; 33] = Some reply.
Proof.
  destruct (ping_roundtrip alice' bob' 7 1 [112; 105; 110; 103; 33] alice'_up bob'_up (proj1 alice_knows_bob) (proj2 alice_knows_bob)
    ltac:(unfold half_ok; lia) ltac:(unfold half_ok; lia) ltac:(by repeat constructor) ltac:(simpl; lia))
    as [(a1 & f & H1 & _ & H2) (q & b1 & r & H3 & H4 & H5 & H6 & _)].
  split; [exact (ex_intro _ a1 (ex_intro _ f (conj H1 H2)))|]. exists q, b1, r. exact (conj H3 (conj H4 (conj H6 H5))).
Defined.

(** ** UDP *)

(** A datagram as the payload of an IP packet. *)
Definition udp_message (src_port dst_port c : Z) (data : buf) : buf :=
  udp_header_with src_port dst_port (8 + Z.of_nat (length data)) c ++ data.

Lemma length_udp sp dp c data : length (udp_message sp dp c data) = (8 + length data)%nat.
Proof. unfold udp_message, udp_header_with. by rewrite !length_app, !length_le_put. Qed.

Lemma drop_eth dmac smac type payload : length dmac = 6%nat -> length smac = 6%nat -> drop 14 (eth_header dmac smac type ++ payload) = payload.
Proof. intros H1 H2. apply drop_app_length'. unfold eth_header. by rewrite !length_app, length_le_put, H1, H2. Qed.

Lemma ethertype_bytes dmac smac payload :
  length dmac = 6%nat -> length smac = 6%nat ->
  field (eth_header dmac smac ETHERTYPE_IPV4 ++ payload) 12 1 = Some 8 /\ field (eth_header dmac smac ETHERTYPE_IPV4 ++ payload) 13 1 = Some 0.
Proof.
  intros H1 H2. unfold eth_header. rewrite <- !app_assoc. split.
  - rewrite !field_app, H1, H2 by (rewrite ?H1, ?H2; lia). done.
  - rewrite (field_app dmac), H1 by lia. rewrite (field_app smac), H2 by lia. done.
Qed.

Lemma some_bind {A B} (o : option A) a (k : A -> option B) : o = Some a -> (o ≫= k) = k a.
Proof. by intros ->. Qed.

Lemma udp_fields sp dp c data rest n :
  half_ok sp -> half_ok dp -> Z.of_nat (length data) <= 1472 -> (n <= length data)%nat ->
  let u := udp_message sp dp c data ++ rest in
  field u 2 2 = Some (htons dp) /\ field u 4 2 = Some (htons (8 + Z.of_nat (length data))) /\ field u 0 2 = Some (htons sp) /\
  bytes_at u 8 n = Some (take n data).
Proof.
  intros Hsp Hdp Hl Hn u. unfold u. clear u. split; [|split; [|split]].
  - unfold udp_message, udp_header_with. rewrite <- !app_assoc. rewrite field_app, length_le_put by (rewrite length_le_put; lia). by apply field_u16.
  - unfold udp_message, udp_header_with. rewrite <- !app_assoc. rewrite field_app, length_le_put by (rewrite length_le_put; lia).
    rewrite field_app, length_le_put by (rewrite length_le_put; lia). apply field_u16. lia.
  - unfold udp_message, udp_header_with. rewrite <- !app_assoc. by apply field_u16.
  - unfold bytes_at, slice. rewrite length_app, length_udp, (proj2 (Nat.leb_le _ _)) by lia. f_equal.
    unfold udp_message. rewrite <- !app_assoc, drop_app_length' by (unfold udp_header_with; by rewrite !length_app, !length_le_put).
    by rewrite take_app_le by lia.
Qed.

(** The receiver takes the datagram out of the frame; [rest] is what the packet buffer
    holds behind it. *)
Lemma udp_accept_ok port buffer dmac smac i src dst sum sp c data rest buflen :
  let len := Z.of_nat (length data) in
  let copy := if len <? buflen then len else buflen in
  mac_ok dmac -> mac_ok smac -> half_ok i -> word_ok src -> word_ok dst -> half_ok sum -> half_ok sp -> half_ok port ->
  len <= 1472 -> 0 <= buflen <= Z.of_nat (length buffer) ->
  ip_checksum (ip_header_with (28 + len) i IP_PROTOCOL_UDP src dst 0) = Some sum ->
  let frame := ip_frame dmac smac (8 + len) i IP_PROTOCOL_UDP src dst sum (udp_message sp port c data) in
  udp_accept port buffer (frame ++ rest) buflen (Z.of_nat (length frame)) =
  Some (Some (Mk_datagram copy (blit buffer 0 (take (Z.to_nat copy) data)) src sp)).
Proof.
  intros len copy [Hd _] [Hs _] Hi Hsrc Hdst Hsum Hsp Hport Hl Hb E frame.
  assert (0 <= copy <= len /\ copy <= buflen) as [Hcl Hcb] by (unfold copy; destruct (Z.ltb_spec len buflen); lia).
  assert (42 + len <= Z.of_nat (length frame)) as Lf by (unfold frame; rewrite length_ip_frame, length_udp by done; unfold len; lia).
  set (flen := Z.of_nat (length frame)) in *. clearbody flen. unfold frame.
  destruct (ip_frame_split dmac smac (8 + len) i IP_PROTOCOL_UDP src dst sum (udp_message sp port c data)) as [n ->].
  rewrite <- !app_assoc. replace (20 + (8 + len)) with (28 + len) by lia.
  set (h := ip_header_with (28 + len) i IP_PROTOCOL_UDP src dst sum). set (u := udp_message sp port c data ++ replicate n 0 ++ rest).
  destruct (ethertype_bytes dmac smac (h ++ u) Hd Hs) as [E12 E13].
  destruct (header_fields_ok (28 + len) i IP_PROTOCOL_UDP src dst sum u) as [Hv Htot Hfrag Hp Hsf Hdf Hck]; try done; [unfold half_ok; lia|].
  fold h in Hv, Htot, Hfrag, Hp, Hsf, Hdf, Hck.
  assert (field u 2 2 = Some (htons port) /\ field u 4 2 = Some (htons (8 + len)) /\ field u 0 2 = Some (htons sp) /\
          bytes_at u 8 (Z.to_nat copy) = Some (take (Z.to_nat copy) data)) as (Up & Ul & Us & Ud).
  { apply udp_fields; (done || lia). }
  unfold udp_accept. destruct (Z.ltb_spec flen 42); [lia|]. rewrite (some_bind _ _ _ E12), (some_bind _ _ _ E13).
  change (negb (u16 (Z.lor (Z.shiftl 8 8) 0) =? 2048)) with false. cbn iota. rewrite drop_eth by done.
  rewrite (some_bind _ _ _ Hv). change (Z.land 69 15 * 4) with 20. cbn zeta.
  destruct (Z.ltb_spec flen (14 + 20)); [lia|]. change ((20 <? 20) || false) with false. cbn iota.
  rewrite (some_bind _ _ _ Hp), Z.eqb_refl. cbn [negb]. rewrite (some_bind _ _ _ Hck). cbn [negb].
  replace (drop (Z.to_nat (14 + 20)) _) with u.
  2: { change (Z.to_nat (14 + 20)) with (14 + 20)%nat. rewrite <- drop_drop, drop_eth by done. symmetry. apply drop_app_length'. unfold h. by rewrite length_header. }
  rewrite (some_bind _ _ _ Up), ntohs_htons, Z.eqb_refl by done. cbn [negb].
  rewrite (some_bind _ _ _ Ul), ntohs_htons by lia. replace (8 + len - 8) with len by lia.
  destruct (Z.ltb_spec len 0), (Z.ltb_spec (flen - (14 + 20 + 8)) len); try lia. cbn [orb].
  rewrite (some_bind _ _ _ Hsf), (some_bind _ _ _ Us). fold copy. rewrite (some_bind _ _ _ Ud).
  destruct (Nat.ltb_spec (length buffer) (Z.to_nat copy)); [lia|]. by rewrite ntohl_htonl, ntohs_htons.
Qed.

Lemma udp_checksum_exists src dst udp payload :
  bytes_ok udp -> length udp = 8%nat -> bytes_ok payload -> Z.of_nat (length payload) <= 1472 ->
  exists c, half_ok c /\ udp_checksum src dst udp payload = Some c.
Proof.
  intros Hu Lu Hp Lp. unfold udp_checksum. set (pseudo := _ ++ _).
  assert (bytes_ok pseudo) as Hps by (unfold pseudo; rewrite !bytes_ok_app; split_and!; try apply le_put_ok; by repeat constructor).
  assert (length pseudo = 12%nat) as Lps by (unfold pseudo; by rewrite !length_app, !length_le_put).
  pose proof (word_sum_range _ Hps). pose proof (word_sum_range _ Hu). pose proof (word_sum_range _ Hp).
  rewrite Lps in *. rewrite Lu in *. rewrite (accumulate_sum pseudo), (accumulate_sum udp), (accumulate_sum payload) by (done || lia).
  match goal with |- context [fold_checksum ?x] => destruct (fold_checksum_ok x) as (c & -> & Hc & _); [lia|] end. by exists c.
Qed.

(** A destination whose hardware address the host has. *)
Definition reaches (s : net) (dst : Z) (mac : buf) : Prop :=
  resolve_mac dst s = Some (Some mac, s).

Lemma send_udp_ok s dst sp dp data rest mac (with_checksum : bool) :
  up s -> reaches s dst mac -> mac_ok mac -> bytes_ok data -> Z.of_nat (length data) <= 1458 ->
  exists sum c,
    half_ok sum /\
    ip_checksum (ip_header_with (28 + Z.of_nat (length data)) (ip_identification s) IP_PROTOCOL_UDP (ip_address (net_config s)) dst 0) = Some sum /\
    netstack_send_udp_low dst sp dp (data ++ rest) (Z.of_nat (length data)) with_checksum s =
    Some (0, with_sent (with_ident s (u16 (ip_identification s + 1)))
      (sent s ++ [ip_frame mac (mac_address (net_config s)) (8 + Z.of_nat (length data)) (ip_identification s) IP_PROTOCOL_UDP
                    (ip_address (net_config s)) dst sum (udp_message sp dp c data)])).
Proof.
  intros Hup Hm Hmac Hd Hl. set (len := Z.of_nat (length data)) in *.
  destruct (ip_header_exists (28 + len) (ip_identification s) IP_PROTOCOL_UDP (ip_address (net_config s)) dst ltac:(unfold byte_ok, IP_PROTOCOL_UDP; lia))
    as (sum & Hsum & Esum & Eip).
  assert (exists c, (if with_checksum then udp_checksum (htonl (ip_address (net_config s))) (htonl dst) (udp_header_with sp dp (8 + len) 0) data else Some 0) = Some c) as [c Ec].
  { destruct with_checksum; [|by exists 0].
    destruct (udp_checksum_exists (htonl (ip_address (net_config s))) (htonl dst) (udp_header_with sp dp (8 + len) 0) data) as (c & _ & Ec); try done; [|unfold len in *; lia|by exists c].
    unfold udp_header_with. rewrite !bytes_ok_app. split_and!; apply le_put_ok. }
  exists sum, c. split; [done|]. split; [done|]. unfold netstack_send_udp_low.
  destruct (Z.ltb_spec (Z.of_nat PACKET_SIZE) (14 + 20 + 8 + len)); [unfold PACKET_SIZE in *; lia|].
  rewrite (bind_eq _ _ _ _ _ Hm), gets_bind. set (s1 := with_ident s (u16 (ip_identification s + 1))).
  rewrite (bind_eq _ _ _ (ip_identification s) s1) by done.
  rewrite (wrap_small 16 (28 + len)), (wrap_small 16 (8 + len)) by (unfold len in *; lia).
  rewrite (lift_bind _ _ _ _ Eip), (lift_bind _ data) by (apply bytes_at_here; unfold len; lia). cbn zeta.
  rewrite (lift_bind _ _ _ _ Ec), (bind_eq _ _ _ _ _ (nic_send_up s1 _ (next_ident_up s Hup))).
  rewrite on_wire_fits; [unfold ip_frame, ip_packet, udp_message; by replace (20 + (8 + len)) with (28 + len) by lia|].
  rewrite !length_app, length_header, length_eth by (apply Hmac || apply (up_mac s Hup)).
  unfold udp_header_with. rewrite !length_app, !length_le_put. unfold len in *. lia.
Qed.

(** One round of polling that delivers a frame. *)
Lemma receive_first b port buffer buflen pkt n frame rest :
  ne2000_initialized b = true -> (0 < length frame <= PACKET_SIZE)%nat -> length pkt = PACKET_SIZE ->
  netstack_receive_udp_low port buffer buflen pkt (S n) (with_inbox b (frame :: rest)) =
  (d ← lift (udp_accept port buffer (frame ++ drop (length frame) pkt) buflen (Z.of_nat (length frame)));
   match d with
   | Some d => mret (Some d)
   | None => netstack_receive_udp_low port buffer buflen (frame ++ drop (length frame) pkt) n
   end) (with_inbox b rest).
Proof.
  intros Hn Hf Hp. cbn [netstack_receive_udp_low]. rewrite (bind_eq _ _ _ (Some frame) (with_inbox b rest)); [done|].
  unfold nic_recv. cbn [ne2000_initialized with_inbox inbox]. rewrite Hn, bool_decide_false by (by intros ->; simpl in Hf; lia).
  by rewrite take_ge by lia.
Qed.

(** A datagram arrives: what [netstack_send_udp_low] sends, with or without a UDP
    checksum, with up to 1458 bytes (what fits the card's limit of 1500), is what a host polling the port with [netstack_receive_udp_low] gets, cut
    to the size of its buffer, with the sender's address and port. *)
Theorem udp_roundtrip (a b : net) (sp dp dst : Z) (mac data buffer pkt : buf) (n : nat) (with_checksum : bool) (rest : list buf) :
  let len := Z.of_nat (length data) in
  let copy := Z.min len (Z.of_nat (length buffer)) in
  up a -> up b -> reaches a dst mac -> mac_ok mac -> word_ok dst -> half_ok sp -> half_ok dp ->
  bytes_ok data -> len <= 1458 -> length pkt = PACKET_SIZE ->
  exists a1 frame,
    netstack_send_udp_low dst sp dp data len with_checksum a = Some (0, a1) /\ sent a1 = sent a ++ [frame] /\
    netstack_receive_udp_low dp buffer (Z.of_nat (length buffer)) pkt (S n) (with_inbox b (frame :: rest)) =
    Some (Some (Mk_datagram copy (blit buffer 0 (take (Z.to_nat copy) data)) (ip_address (net_config a)) sp), with_inbox b rest).
Proof.
  intros len copy Ha Hb Hr Hmac Hdst Hsp Hdp Hd Hl Hpkt.
  destruct (send_udp_ok a dst sp dp data [] mac with_checksum Ha Hr Hmac Hd Hl) as (sum & c & Hsum & Esum & E).
  rewrite app_nil_r in E. fold len in E, Esum.
  match type of E with _ = Some (_, with_sent _ (_ ++ [?f])) => set (frame := f) in E end.
  eexists _, frame. split; [exact E|]. split; [done|].
  assert (0 < length frame <= PACKET_SIZE)%nat as Lf.
  { unfold frame, PACKET_SIZE. rewrite length_ip_frame, length_udp by (apply Hmac || apply (up_mac a Ha)). lia. }
  rewrite receive_first by (done || apply (up_nic b Hb)). unfold frame.
  rewrite (lift_bind _ _ _ _ (udp_accept_ok dp buffer mac (mac_address (net_config a)) (ip_identification a) (ip_address (net_config a))
    dst sum sp c data _ (Z.of_nat (length buffer)) Hmac (up_mac a Ha) (up_ident a Ha) (up_ip a Ha) Hdst Hsum Hsp Hdp ltac:(lia) ltac:(lia) Esum)).
  fold len. replace (if len <? Z.of_nat (length buffer) then len else Z.of_nat (length buffer)) with copy; [done|].
  unfold copy. destruct (Z.ltb_spec len (Z.of_nat (length buffer))); lia.
Qed.

Lemma udp_roundtrip_witness :
  exists a1 frame,
    netstack_send_udp_low 167772674 5000 7 [104; 105] 2 true alice' = Some (0, a1) /\ sent a1 = [frame] /\
    netstack_receive_udp_low 7 (replicate 8 0) 8 (replicate 1514 0) 3 (with_inbox bob' [frame]) =
    Some (Some (Mk_datagram 2 [104; 105; 0; 0; 0; 0; 0; 0] 167772673 5000), bob').
Proof.
  destruct (udp_roundtrip alice' bob' 5000 7 167772674 [2; 0; 0; 0; 0; 2] [104; 105] (replicate 8 0) (replicate 1514 0) 2 true []
    alice'_up bob'_up ltac:(by vm_compute) ltac:(split; [done|by repeat constructor]) ltac:(unfold word_ok; lia)
    ltac:(unfold half_ok; lia) ltac:(unfold half_ok; lia) ltac:(by repeat constructor) ltac:(simpl; lia) ltac:(by rewrite length_replicate))
    as (a1 & f & H1 & H2 & H3).
  exact (ex_intro _ a1 (ex_intro _ f (conj H1 (conj H2 H3)))).
Defined.

(** ** The length field is trusted *)

(** The payload length of an IP packet is taken from its header, not from what was
    received: an echo request that claims more than 1500 bytes makes the reply run over
    the end of the 1514-byte frame buffer on the stack, whatever was received. *)
Theorem oversized_echo_undefined (s : net) (total src dst len : Z) (packet mac : buf) :
  header_fields total IP_PROTOCOL_ICMP src dst packet -> 1500 < total < 65536 -> word_ok src -> word_ok dst -> 20 <= len ->
  dst = ip_address (net_config s) \/ dst = IP_BROADCAST -> field packet 20 1 = Some ICMP_ECHO_REQUEST ->
  reaches s src mac ->
  handle_ip_packet packet len s = None.
Proof.
  intros Hf Ht Hsrc Hdst Hl Hus Hty Hr. rewrite (handle_ip_fields s total IP_PROTOCOL_ICMP src dst) by (done || lia).
  rewrite Z.eqb_refl. unfold handle_icmp_packet. destruct (Z.ltb_spec (total - 20) 8); [lia|].
  rewrite (lift_bind _ ICMP_ECHO_REQUEST).
  2: { unfold field, bytes_at, slice in *. rewrite length_drop, drop_drop.
       destruct (Nat.leb_spec (20 + 1) (length packet)); [|done].
       destruct (Nat.leb_spec (0 + 1) (length packet - 20)); [done|lia]. }
  rewrite Z.eqb_refl. unfold mbind at 1, M_bind at 1, lift at 1. destruct (field (drop 20 packet) 4 2) as [id|]; [|done].
  unfold mbind at 1, M_bind at 1, lift at 1. destruct (field (drop 20 packet) 6 2) as [seq|]; [|done].
  unfold icmp_send_echo_reply, icmp_send_echo. rewrite (bind_eq _ _ _ _ _ Hr), gets_bind.
  rewrite (bind_eq take_ident _ s (ip_identification s) (with_ident s (u16 (ip_identification s + 1)))) by done.
  unfold mbind at 1, M_bind at 1, lift at 1. destruct (bytes_at _ 0 _); [|done].
  rewrite wrap_small by lia. destruct (Z.ltb_spec (Z.of_nat PACKET_SIZE) (42 + (total - 20 - 8))); [done|unfold PACKET_SIZE in *; lia].
Qed.

(** A request of 28 bytes that claims 60000, from a known neighbour. *)
Definition oversized : buf :=
  [69; 0; 234; 96; 0; 0; 0; 0; 64; 1; 154; 120; 10; 0; 2; 1; 10; 0; 2; 2; 8; 0; 0; 0; 0; 0; 0; 0].

Lemma oversized_echo_undefined_witness : handle_ip_packet oversized 28 bob' = None.
Proof.
  apply (oversized_echo_undefined bob' 60000 167772673 167772674 28 oversized [2; 0; 0; 0; 0; 1]).
  - split; by vm_compute.
  - lia.
  - unfold word_ok; lia.
  - unfold word_ok; lia.
  - lia.
  - by left.
  - done.
  - by vm_compute.
Defined.
