(* ===== verification/NetDhcp.v ===== *)
(** The DHCP client of drivers/net/netstack.c: the option parser against the option
    encoder, a whole lease (DISCOVER, OFFER, REQUEST, ACK) with a server that forms its
    packets as this stack does, and the client's safety whatever frames arrive. *)

From stdpp Require Import strings.
From S2P Require Import Prelude CString Effects Net NetProto.

(** ** Options *)

(** What an option with a code and a payload sets. *)
Definition apply_option (r : dhcp_opts) (o : Z * buf) : dhcp_opts :=
  let '(code, p) := o in
  if code =? DHO_MSG_TYPE then
    match p with v :: _ => Mk_opts (o_server_id r) (o_subnet r) (o_router r) (o_dns r) v | [] => r end
  else if code =? DHO_SERVER_ID then
    if (length p =? 4)%nat then Mk_opts (le_get p) (o_subnet r) (o_router r) (o_dns r) (o_msgtype r) else r
  else if code =? DHO_SUBNET then
    if (length p =? 4)%nat then Mk_opts (o_server_id r) (le_get p) (o_router r) (o_dns r) (o_msgtype r) else r
  else if code =? DHO_ROUTER then
    if (4 <=? length p)%nat then Mk_opts (o_server_id r) (o_subnet r) (le_get (take 4 p)) (o_dns r) (o_msgtype r) else r
  else if code =? DHO_DNS then
    if (4 <=? length p)%nat then Mk_opts (o_server_id r) (o_subnet r) (o_router r) (le_get (take 4 p)) (o_msgtype r) else r
  else r.

(** Neither padding nor the end mark, and a length that fits a byte. *)
Definition option_ok (o : Z * buf) : Prop := 1 <= o.1 < DHO_END /\ Z.of_nat (length o.2) < 256.

Definition put_option (o : Z * buf) : buf := dhcp_opt_put_list o.1 o.2.
Definition put_options (l : list (Z * buf)) : buf := concat (map put_option l).

(** The option bytes of a packet: cookie, options, end mark, anything behind it. *)
Definition options_area (l : list (Z * buf)) (pad : buf) : buf := cookie ++ put_options l ++ [DHO_END] ++ pad.

Lemma bytes_at_mid pre p post n :
  (n <= length p)%nat -> bytes_at (pre ++ p ++ post) (length pre) n = Some (take n p).
Proof.
  intros H. rewrite bytes_at_app, Nat.sub_diag by lia. unfold bytes_at, slice.
  rewrite length_app, (proj2 (Nat.leb_le _ _)), drop_0, take_app_le by lia. done.
Qed.

Lemma dhcp_option_ok pre p post code r :
  dhcp_option (pre ++ p ++ post) code (Z.of_nat (length p)) (length pre) r = Some (apply_option r (code, p)).
Proof.
  unfold dhcp_option, apply_option, field.
  assert ((Z.of_nat (length p) =? 4) = (length p =? 4)%nat) as Heq.
  { destruct (Z.eqb_spec (Z.of_nat (length p)) 4), (Nat.eqb_spec (length p) 4); (done || lia). }
  assert ((4 <=? Z.of_nat (length p)) = (4 <=? length p)%nat) as Hle.
  { destruct (Z.leb_spec 4 (Z.of_nat (length p))), (Nat.leb_spec 4 (length p)); (done || lia). }
  rewrite Heq, Hle.
  destruct (code =? DHO_MSG_TYPE).
  { destruct (Z.leb_spec 1 (Z.of_nat (length p))); [|by destruct p; [|simpl in *; lia]].
    rewrite bytes_at_mid by lia. destruct p; [simpl in *; lia|]. simpl. do 2 f_equal. lia. }
  destruct (code =? DHO_SERVER_ID).
  { destruct (Nat.eqb_spec (length p) 4); [|done]. rewrite bytes_at_mid by lia. cbn. by rewrite take_ge by lia. }
  destruct (code =? DHO_SUBNET).
  { destruct (Nat.eqb_spec (length p) 4); [|done]. rewrite bytes_at_mid by lia. cbn. by rewrite take_ge by lia. }
  destruct (code =? DHO_ROUTER).
  { destruct (Nat.leb_spec 4 (length p)); [|done]. by rewrite bytes_at_mid by lia. }
  destruct (code =? DHO_DNS); [|done].
  destruct (Nat.leb_spec 4 (length p)); [|done]. by rewrite bytes_at_mid by lia.
Qed.

Lemma options_loop_ok l pre pad r fuel :
  Forall option_ok l -> length (pre ++ put_options l ++ [DHO_END] ++ pad) = OPTIONS_SIZE ->
  (length l < fuel)%nat ->
  dhcp_options_loop fuel (pre ++ put_options l ++ [DHO_END] ++ pad) (length pre) r = Some (foldl apply_option r l).
Proof.
  intros Hl. revert pre r fuel. induction Hl as [|[code p] l [Hc Hlen] _ IH]; intros pre r fuel Hs Hf; (destruct fuel as [|fuel]; [lia|]).
  - cbn [dhcp_options_loop put_options map concat app foldl] in *. rewrite length_app in Hs. cbn [length] in Hs.
    destruct (Nat.leb_spec OPTIONS_SIZE (length pre)); [lia|].
    rewrite (some_bind _ DHO_END), Z.eqb_refl; [done|]. rewrite field_app, Nat.sub_diag by lia. apply field_byte.
  - cbn [fst snd] in *. cbn [dhcp_options_loop foldl].
    change (put_options ((code, p) :: l)) with (([code; Z.of_nat (length p)] ++ p) ++ put_options l) in *.
    rewrite <- !app_assoc in *. set (post := put_options l ++ [DHO_END] ++ pad) in *.
    assert (length pre + (2 + (length p + length post)) = OPTIONS_SIZE)%nat as Hs' by (rewrite !length_app in Hs; exact Hs).
    assert (1 <= length post)%nat as Hpost by (unfold post; rewrite !length_app; simpl; lia).
    destruct (Nat.leb_spec OPTIONS_SIZE (length pre)); [lia|].
    rewrite (some_bind _ code) by (rewrite field_app, Nat.sub_diag by lia; apply field_byte).
    unfold DHO_END in Hc. destruct (Z.eqb_spec code DHO_END) as [e|_]; [unfold DHO_END in e; lia|].
    destruct (Z.eqb_spec code 0); [lia|]. destruct (Nat.leb_spec OPTIONS_SIZE (length pre + 1)); [lia|].
    rewrite (some_bind _ (Z.of_nat (length p))).
    2: { rewrite field_app by lia. replace (length pre + 1 - length pre)%nat with 1%nat by lia. cbn [app].
         change (code :: ?x) with ([code] ++ x). rewrite field_app by (simpl; lia). apply field_byte. }
    rewrite Nat2Z.id. destruct (Nat.ltb_spec OPTIONS_SIZE (length pre + 2 + length p)); [lia|].
    assert (length pre + 2 = length (pre ++ [code; Z.of_nat (length p)]))%nat as Hp2 by (by rewrite length_app).
    rewrite (app_assoc pre), Hp2, (some_bind _ _ _ (dhcp_option_ok _ p post code r)).
    rewrite (app_assoc _ p). rewrite <- length_app. apply IH; [|simpl in Hf; lia].
    rewrite !length_app. cbn [length]. lia.
Qed.

Lemma length_put_options l : (length l <= length (put_options l))%nat.
Proof.
  induction l as [|o l IH]; [done|]. change (put_options (o :: l)) with (put_option o ++ put_options l).
  rewrite length_app. unfold put_option, dhcp_opt_put_list. cbn [app length]. lia.
Qed.

Lemma parse_opts_ok fixed l pad r :
  length fixed = 236%nat -> Forall option_ok l -> length (options_area l pad) = OPTIONS_SIZE ->
  dhcp_parse_opts (fixed ++ options_area l pad) r = Some (Some (foldl apply_option r l)).
Proof.
  intros Hf Hl Hs. unfold dhcp_parse_opts.
  rewrite (some_bind _ (options_area l pad)).
  2: { rewrite bytes_at_app, Hf by lia. rewrite <- (app_nil_r (options_area l pad)) at 1. by apply bytes_at_here. }
  rewrite (some_bind _ (htonl DHCP_MAGIC_COOKIE)) by (apply field_u32; unfold word_ok, DHCP_MAGIC_COOKIE; lia).
  rewrite ntohl_htonl, Z.eqb_refl by (unfold DHCP_MAGIC_COOKIE; lia). cbn [negb].
  assert (length l < S OPTIONS_SIZE)%nat as Hn.
  { pose proof (length_put_options l). unfold options_area in Hs. rewrite !length_app in Hs. lia. }
  rewrite (some_bind _ _ _ (options_loop_ok l cookie pad r (S OPTIONS_SIZE) Hl Hs Hn)).
  done.
Qed.

(** The option parser inverts the option encoder: of a packet whose options are
    written with [dhcp_opt_put_list] behind the cookie, with an end mark, the parser
    takes exactly the options of the list, in order; whatever stands behind the end
    mark is ignored. *)
Theorem dhcp_options_roundtrip (fixed pad : buf) (l : list (Z * buf)) (r : dhcp_opts) :
  length fixed = 236%nat -> Forall option_ok l -> length (options_area l pad) = OPTIONS_SIZE ->
  dhcp_parse_opts (fixed ++ options_area l pad) r = Some (Some (foldl apply_option r l)).
Proof. apply parse_opts_ok. Qed.

Lemma dhcp_options_roundtrip_witness :
  dhcp_parse_opts (replicate 236 0 ++ options_area [(53, [2]); (54, [10; 0; 2; 2]); (12, [120; 121])] (replicate 294 7)) no_opts =
  Some (Some (Mk_opts (le_get [10; 0; 2; 2]) 0 0 0 2)).
Proof.
  apply (dhcp_options_roundtrip (replicate 236 0) (replicate 294 7) [(53, [2]); (54, [10; 0; 2; 2]); (12, [120; 121])] no_opts).
  - by rewrite length_replicate.
  - repeat constructor; simpl; unfold DHO_END; lia.
  - by vm_compute.
Defined.

(** The parser is total on any packet: it never reads outside of the options. *)
Lemma dhcp_option_total o code len opt r :
  (Z.to_nat len + opt <= length o)%nat -> is_Some (dhcp_option o code len opt r).
Proof.
  intros H. unfold dhcp_option, field, bytes_at.
  destruct (code =? DHO_MSG_TYPE).
  { destruct (Z.leb_spec 1 len); [|done]. rewrite (proj2 (Nat.leb_le _ _)) by lia. done. }
  destruct (code =? DHO_SERVER_ID).
  { destruct (Z.eqb_spec len 4); [|done]. rewrite (proj2 (Nat.leb_le _ _)) by lia. done. }
  destruct (code =? DHO_SUBNET).
  { destruct (Z.eqb_spec len 4); [|done]. rewrite (proj2 (Nat.leb_le _ _)) by lia. done. }
  destruct (code =? DHO_ROUTER).
  { destruct (Z.leb_spec 4 len); [|done]. rewrite (proj2 (Nat.leb_le _ _)) by lia. done. }
  destruct (code =? DHO_DNS); [|done].
  destruct (Z.leb_spec 4 len); [|done]. rewrite (proj2 (Nat.leb_le _ _)) by lia. done.
Qed.

Lemma field_total o opt n : (opt + n <= length o)%nat -> is_Some (field o opt n).
Proof. intros H. unfold field, bytes_at. rewrite (proj2 (Nat.leb_le _ _)) by lia. done. Qed.

Lemma options_loop_total o opt r fuel :
  length o = OPTIONS_SIZE -> (opt <= OPTIONS_SIZE < opt + fuel)%nat -> is_Some (dhcp_options_loop fuel o opt r).
Proof.
  intros Ho. revert opt r. induction fuel as [|fuel IH]; intros opt r Hf; [lia|]. cbn [dhcp_options_loop].
  destruct (Nat.leb_spec OPTIONS_SIZE opt); [done|].
  destruct (field_total o opt 1) as [code Hcode]; [lia|]. rewrite (some_bind _ _ _ Hcode).
  destruct (code =? DHO_END); [done|]. destruct (code =? 0); [apply IH; lia|].
  destruct (Nat.leb_spec OPTIONS_SIZE (opt + 1)); [done|].
  destruct (field_total o (opt + 1) 1) as [len Hlen]; [lia|]. rewrite (some_bind _ _ _ Hlen).
  destruct (Nat.ltb_spec OPTIONS_SIZE (opt + 2 + Z.to_nat len)); [done|].
  destruct (dhcp_option_total o code len (opt + 2) r) as [r' Hr]; [lia|]. rewrite (some_bind _ _ _ Hr). apply IH. lia.
Qed.

Lemma parse_total (pkt : buf) (r : dhcp_opts) : (DHCP_SIZE <= length pkt)%nat -> is_Some (dhcp_parse_opts pkt r).
Proof.
  intros H. unfold dhcp_parse_opts, DHCP_SIZE in *.
  assert (bytes_at pkt 236 OPTIONS_SIZE = Some (slice pkt 236 OPTIONS_SIZE)) as E.
  { unfold bytes_at. by rewrite (proj2 (Nat.leb_le _ _)) by (unfold OPTIONS_SIZE; lia). }
  assert (length (slice pkt 236 OPTIONS_SIZE) = OPTIONS_SIZE) as Hl.
  { unfold slice, OPTIONS_SIZE. rewrite length_take, length_drop. lia. }
  rewrite (some_bind _ _ _ E). destruct (field_total (slice pkt 236 OPTIONS_SIZE) 0 4) as [mc Hmc]; [rewrite Hl; unfold OPTIONS_SIZE; lia|].
  rewrite (some_bind _ _ _ Hmc). destruct (negb _); [by eexists|].
  destruct (options_loop_total (slice pkt 236 OPTIONS_SIZE) 4 r (S OPTIONS_SIZE) Hl) as [r' Hr]; [unfold OPTIONS_SIZE; lia|].
  rewrite (some_bind _ _ _ Hr). by eexists.
Qed.

(** C25: the option parser is memory safe and ends on every packet, whatever its
    contents: it never reads outside of the 312 option bytes. *)
Theorem dhcp_parse_total (pkt : buf) (r : dhcp_opts) :
  (DHCP_SIZE <= length pkt)%nat -> exists result, dhcp_parse_opts pkt r = Some result.
Proof. apply parse_total. Qed.

Lemma dhcp_parse_total_witness : exists result, dhcp_parse_opts (replicate 548 53) no_opts = Some result.
Proof. apply (dhcp_parse_total (replicate 548 53) no_opts). rewrite length_replicate. unfold DHCP_SIZE. lia. Defined.

(** ** A lease *)

(** What a server sends: the fields that the client looks at, and the options. *)
Definition dhcp_reply (xid yi : Z) (l : list (Z * buf)) (pad : buf) : buf :=
  ([2; 1; 6; 0] ++ le_put 4 xid ++ replicate 8 0 ++ le_put 4 (htonl yi) ++ replicate 216 0) ++ options_area l pad.

(** The reply is in order: the options fit, and say the type of the message. *)
Record reply_ok (mtype yi : Z) (l : list (Z * buf)) (pad : buf) : Prop := Mk_reply_ok {
  ro_yi : word_ok yi;
  ro_opts : Forall option_ok l;
  ro_size : length (options_area l pad) = OPTIONS_SIZE;
  ro_type : o_msgtype (foldl apply_option no_opts l) = mtype
}.

(** The frame holds the datagram, for the client's port, with the checksum that the
    receive path wants. *)
Definition carries (frame data : buf) : Prop :=
  exists dmac smac i src dst sum sp c,
    mac_ok dmac /\ mac_ok smac /\ half_ok i /\ word_ok src /\ word_ok dst /\ half_ok sum /\ half_ok sp /\
    ip_checksum (ip_header_with (28 + Z.of_nat (length data)) i IP_PROTOCOL_UDP src dst 0) = Some sum /\
    frame = ip_frame dmac smac (8 + Z.of_nat (length data)) i IP_PROTOCOL_UDP src dst sum (udp_message sp DHCP_CLIENT_PORT c data).

Lemma length_reply xid yi l pad : length (options_area l pad) = OPTIONS_SIZE -> length (dhcp_reply xid yi l pad) = DHCP_SIZE.
Proof.
  intros H. unfold dhcp_reply. rewrite !length_app, H, !length_le_put, !length_replicate. done.
Qed.

Lemma reply_fields xid yi l pad :
  word_ok xid -> word_ok yi ->
  field (dhcp_reply xid yi l pad) 0 1 = Some 2 /\ field (dhcp_reply xid yi l pad) 4 4 = Some xid /\
  field (dhcp_reply xid yi l pad) 16 4 = Some (htonl yi).
Proof.
  intros Hx Hy. unfold dhcp_reply. rewrite <- !app_assoc. split; [apply field_byte|]. split.
  - rewrite field_app by (simpl; lia). cbn [length Nat.sub]. rewrite field_here. f_equal. apply Z.mod_small. exact Hx.
  - rewrite field_app by (simpl; lia). cbn [length Nat.sub]. rewrite field_app, length_le_put by (rewrite length_le_put; lia).
    rewrite field_app, length_replicate by (rewrite length_replicate; lia). cbn [Nat.sub]. by apply field_u32.
Qed.

(** ** What the client takes for an answer *)

(** A UDP payload for a port in a received frame, byte by byte: Ethernet type 0x0800, a header
    of [ihl] words with protocol 17 and its checksum (low byte first, as the receive path
    compares it), the destination port, the length, and the payload inside of the frame. *)
Definition udp_in (port : Z) (frame payload : buf) : Prop :=
  exists (ihl : nat) (v c : Z),
    (5 <= ihl)%nat /\ frame !! 12%nat = Some 8 /\ frame !! 13%nat = Some 0 /\
    frame !! 14%nat = Some v /\ v mod 16 = Z.of_nat ihl /\ frame !! 23%nat = Some IP_PROTOCOL_UDP /\
    ip_checksum (blit (slice frame 14 (4 * ihl)) 10 [0; 0]) = Some c /\
    frame !! 24%nat = Some (c mod 256) /\ frame !! 25%nat = Some (c / 256) /\
    frame !! (14 + 4 * ihl + 2)%nat = Some (port / 256) /\ frame !! (14 + 4 * ihl + 3)%nat = Some (port mod 256) /\
    frame !! (14 + 4 * ihl + 4)%nat = Some ((8 + Z.of_nat (length payload)) / 256) /\
    frame !! (14 + 4 * ihl + 5)%nat = Some ((8 + Z.of_nat (length payload)) mod 256) /\
    slice frame (14 + 4 * ihl + 8) (length payload) = payload.

Lemma field_one (b : buf) off : (off < length b)%nat -> exists x, b !! off = Some x /\ field b off 1 = Some x.
Proof.
  intros H. destruct (lookup_lt_is_Some_2 b off H) as [x Hx]. exists x. split; [done|]. unfold field, bytes_at.
  rewrite (proj2 (Nat.leb_le _ _)) by lia. rewrite (slice_one _ _ _ Hx). cbn. f_equal. lia.
Qed.
Lemma field_two (b : buf) off : (off + 1 < length b)%nat ->
  exists x y, b !! off = Some x /\ b !! (off + 1)%nat = Some y /\ field b off 2 = Some (x + 256 * y).
Proof.
  intros H. destruct (lookup_lt_is_Some_2 b off ltac:(lia)) as [x Hx]. destruct (lookup_lt_is_Some_2 b (off + 1) H) as [y Hy].
  exists x, y. split; [done|]. split; [done|]. unfold field, bytes_at. rewrite (proj2 (Nat.leb_le _ _)) by lia.
  rewrite (slice_pair b off x y) by (done || by rewrite <- Nat.add_1_r). cbn. f_equal. lia.
Qed.

Lemma ntohs_bytes x y : byte_ok x -> byte_ok y -> ntohs (x + 256 * y) = 256 * x + y.
Proof.
  unfold byte_ok. intros Hx Hy. rewrite <- (ntohs_htons (256 * x + y)) by lia. f_equal. rewrite htons_sum by lia. zlia.
Qed.

(** Splitting a byte value of the header. *)
Lemma land_nibble v : byte_ok v -> exists n : nat, Z.land v 15 = Z.of_nat n /\ v mod 16 = Z.of_nat n /\ (n <= 15)%nat.
Proof.
  intros Hv. exists (Z.to_nat (v mod 16)). change 15 with (Z.ones 4) at 1. rewrite Z.land_ones by lia. change (2 ^ 4) with 16.
  pose proof (Z.mod_pos_bound v 16 ltac:(lia)). rewrite Z2Nat.id by lia. split; [done|]. split; [done|]. lia.
Qed.

Lemma bytes_lookup (b : buf) off x : bytes_ok b -> b !! off = Some x -> byte_ok x.
Proof. intros Hb Hx. by apply (Forall_lookup_1 _ _ _ _ Hb Hx). Qed.

(** The header checksum of any bytes is computed, and compared with the low byte first. *)
Lemma header_checksum_total (ip : buf) (n : nat) :
  bytes_ok ip -> (12 <= n <= 60)%nat -> (n <= length ip)%nat ->
  exists c x y, ip_checksum (blit (slice ip 0 n) 10 [0; 0]) = Some c /\ 0 <= c < 65536 /\ ip !! 10%nat = Some x /\ ip !! 11%nat = Some y /\
    header_checksum_ok ip (Z.of_nat n) = Some (x + 256 * y =? c).
Proof.
  intros Hb Hn Hl.
  assert (length (slice ip 0 n) = n) as Ls by (unfold slice; rewrite length_take, length_drop; lia).
  assert (bytes_ok (slice ip 0 n)) as Bs by (unfold slice; apply Forall_take, Forall_drop, Hb).
  destruct (ip_checksum_ok (blit (slice ip 0 n) 10 [0; 0])) as (c & Ec & Hc & _).
  { unfold blit. rewrite !bytes_ok_app. split; [by apply Forall_take|]. split; [by repeat constructor|by apply Forall_drop]. }
  { unfold blit. rewrite !length_app, length_take, length_drop, Ls. cbn [length]. lia. }
  destruct (field_two ip 10) as (x & y & Hx & Hy & Ef); [lia|]. exists c, x, y. split; [done|]. split; [done|]. split; [done|]. split; [done|].
  apply (checksum_intro _ _ _ (slice ip 0 n)); [done| |done]. unfold bytes_at. by rewrite Nat2Z.id, (proj2 (Nat.leb_le _ _)) by lia.
Qed.

(** Any frame in the packet buffer is passed over or is a payload for the port. *)
Lemma udp_accept_inv port (buffer frame rest : buf) :
  half_ok port -> bytes_ok (frame ++ rest) -> length (frame ++ rest) = PACKET_SIZE -> Z.of_nat (length buffer) < 65536 ->
  exists o, udp_accept port buffer (frame ++ rest) (Z.of_nat (length buffer)) (Z.of_nat (length frame)) = Some o /\
    forall d, o = Some d -> exists payload, udp_in port frame payload /\
      d_copied d = Z.of_nat (length payload `min` length buffer) /\ d_buffer d = blit buffer 0 (take (length buffer) payload).
Proof.
  intros Hport Hb Hl Hbuf. set (pkt := frame ++ rest) in *. unfold udp_accept, PACKET_SIZE in *.
  assert (length frame <= 1514)%nat as Lf by (unfold pkt in Hl; rewrite length_app in Hl; lia).
  destruct (Z.ltb_spec (Z.of_nat (length frame)) 42); [by exists None|].
  assert (forall off x, (off < length frame)%nat -> pkt !! off = Some x -> frame !! off = Some x) as In.
  { intros off x Ho. unfold pkt. by rewrite lookup_app_l. }
  destruct (field_one pkt 12) as (t1 & Ht1 & ->); [lia|]. destruct (field_one pkt 13) as (t2 & Ht2 & ->); [lia|]. cbn [mbind option_bind].
  pose proof (bytes_lookup _ _ _ Hb Ht1) as B1. pose proof (bytes_lookup _ _ _ Hb Ht2) as B2. unfold byte_ok in B1, B2.
  rewrite lor_shiftl_add, wrap_small by lia. destruct (Z.eqb_spec (t1 * 2 ^ 8 + t2) 2048) as [Et|]; [|by exists None]. cbn [negb].
  assert (t1 = 8 /\ t2 = 0) as [-> ->] by lia.
  set (ip := drop 14 pkt). assert (bytes_ok ip) as Hip by (by apply Forall_drop).
  assert (length ip = 1500%nat) as Lip by (unfold ip; rewrite length_drop; lia).
  assert (forall off, ip !! off = pkt !! (14 + off)%nat) as Ip by (intros off; unfold ip; by rewrite lookup_drop).
  destruct (field_one ip 0) as (v & Hv & ->); [lia|]. cbn [mbind option_bind]. rewrite Ip in Hv.
  destruct (land_nibble v (bytes_lookup _ _ _ Hb Hv)) as (ihl & -> & Ev & Hi).
  destruct (Z.ltb_spec (Z.of_nat ihl * 4) 20); [by exists None|]. destruct (Z.ltb_spec (Z.of_nat (length frame)) (14 + Z.of_nat ihl * 4)); [by exists None|]. cbn [orb].
  destruct (field_one ip 9) as (p & Hp & ->); [lia|]. cbn [mbind option_bind]. rewrite Ip in Hp.
  destruct (Z.eqb_spec p IP_PROTOCOL_UDP) as [->|]; [|by exists None]. cbn [negb].
  destruct (header_checksum_total ip (4 * ihl)) as (c & x & y & Ec & Hc & Hx & Hy & Eok); [done|lia|lia|].
  replace (Z.of_nat ihl * 4) with (Z.of_nat (4 * ihl)) by lia. rewrite Eok. cbn [mbind option_bind]. rewrite Ip in Hx, Hy.
  destruct (Z.eqb_spec (x + 256 * y) c) as [Exy|]; [|by exists None]. cbn [negb].
  set (udp := drop (Z.to_nat (14 + Z.of_nat (4 * ihl))) pkt).
  assert (forall off, udp !! off = pkt !! (14 + 4 * ihl + off)%nat) as Up.
  { intros off. unfold udp. rewrite lookup_drop. f_equal. lia. }
  assert (length udp = 1514 - (14 + 4 * ihl))%nat as Lu by (unfold udp; rewrite length_drop; lia).
  destruct (field_two udp 2) as (p1 & p2 & Hp1 & Hp2 & ->); [lia|]. destruct (field_two udp 4) as (l1 & l2 & Hl1 & Hl2 & ->); [lia|].
  cbn [mbind option_bind]. rewrite Up in Hp1, Hp2, Hl1, Hl2.
  pose proof (bytes_lookup _ _ _ Hb Hp1) as Bp1. pose proof (bytes_lookup _ _ _ Hb Hp2) as Bp2.
  pose proof (bytes_lookup _ _ _ Hb Hl1) as Bl1. pose proof (bytes_lookup _ _ _ Hb Hl2) as Bl2. rewrite !ntohs_bytes by done.
  destruct (Z.eqb_spec (256 * p1 + p2) port) as [Ep|]; [|by exists None]. cbn [negb].
  set (len := 256 * l1 + l2 - 8). destruct (Z.ltb_spec len 0); [by exists None|].
  destruct (Z.ltb_spec (Z.of_nat (length frame) - (14 + Z.of_nat (4 * ihl) + 8)) len); [by exists None|]. cbn [orb].
  destruct (field_total ip 12 4) as [src ->]; [lia|]. destruct (field_two udp 0) as (s1 & s2 & _ & _ & ->); [lia|]. cbn [mbind option_bind].
  set (payload := slice frame (14 + 4 * ihl + 8) (Z.to_nat len)).
  assert (length payload = Z.to_nat len) as Lp by (unfold payload; apply length_slice; lia).
  set (copy := if len <? Z.of_nat (length buffer) then len else Z.of_nat (length buffer)).
  assert (Z.to_nat copy = length payload `min` length buffer)%nat as Ecopy by (unfold copy; destruct (Z.ltb_spec len (Z.of_nat (length buffer))); lia).
  assert (bytes_at udp 8 (Z.to_nat copy) = Some (take (length buffer) payload)) as ->.
  { unfold bytes_at. rewrite (proj2 (Nat.leb_le _ _)) by lia. f_equal. unfold udp, payload, slice. rewrite drop_drop, take_take.
    replace (Z.to_nat copy) with (length buffer `min` Z.to_nat len)%nat by lia. replace (Z.to_nat (14 + Z.of_nat (4 * ihl)) + 8)%nat with (14 + 4 * ihl + 8)%nat by lia.
    unfold pkt. rewrite drop_app_le, take_app_le by (rewrite ?length_drop; lia). done. }
  cbn [mbind option_bind]. destruct (Nat.ltb_spec (length buffer) (Z.to_nat copy)); [lia|].
  eexists. split; [done|]. intros d E. injection E as <-. exists payload. cbn [d_copied d_buffer].
  split; [|split; [unfold copy in *; destruct (Z.ltb_spec len (Z.of_nat (length buffer))); lia|done]]. unfold byte_ok in *.
  exists ihl, v, c. split; [lia|]. rewrite Lp. split_and!; try (apply In; [lia|]); try done.
  - rewrite <- Ec. do 2 f_equal. unfold ip, slice. rewrite drop_0. unfold pkt. by rewrite drop_app_le, take_app_le by (rewrite ?length_drop; lia).
  - etransitivity; [exact Hx|]. f_equal. apply (bytes_lookup _ _ _ Hb) in Hx, Hy. unfold byte_ok in *. zlia.
  - etransitivity; [exact Hy|]. f_equal. apply (bytes_lookup _ _ _ Hb) in Hx, Hy. unfold byte_ok in *. zlia.
  - etransitivity; [exact Hp1|]. f_equal. zlia.
  - replace (14 + 4 * ihl + 3)%nat with (14 + 4 * ihl + (2 + 1))%nat by lia. etransitivity; [exact Hp2|]. f_equal. zlia.
  - etransitivity; [exact Hl1|]. f_equal. zlia.
  - replace (14 + 4 * ihl + 5)%nat with (14 + 4 * ihl + (4 + 1))%nat by lia. etransitivity; [exact Hl2|]. f_equal. zlia.
Qed.

(** Polling a port takes frames from the card, up to the first one with a payload for it. *)
Lemma receive_inv port (buffer : buf) n : half_ok port -> Z.of_nat (length buffer) < 65536 ->
  forall s pkt, ne2000_initialized s = true -> Forall bytes_ok (inbox s) -> bytes_ok pkt -> length pkt = PACKET_SIZE ->
  exists o passed rest,
    netstack_receive_udp_low port buffer (Z.of_nat (length buffer)) pkt n s = Some (o, with_inbox s rest) /\
    inbox s = passed ++ rest /\
    forall d, o = Some d -> exists before frame payload, passed = before ++ [frame] /\ udp_in port (take PACKET_SIZE frame) payload /\
      d_copied d = Z.of_nat (length payload `min` length buffer) /\ d_buffer d = blit buffer 0 (take (length buffer) payload).
Proof.
  intros Hport Hbuf. induction n as [|n IH]; intros s pkt Hn Hq Hp Lp; cbn [netstack_receive_udp_low].
  { exists None, [], (inbox s). split; [by destruct s|]. by split. }
  unfold nic_recv, mbind at 1, M_bind at 1. rewrite Hn. destruct (inbox s) as [|f q] eqn:Eq; cbv beta iota.
  { destruct (IH s pkt Hn ltac:(by rewrite Eq) Hp Lp) as (o & passed & rest & E & Ei & Hd). rewrite Eq in Ei.
    exists o, passed, rest. by split. }
  apply Forall_cons in Hq as [Hf Hq].
  assert (forall pkt', bytes_ok pkt' -> length pkt' = PACKET_SIZE -> exists o passed rest,
    netstack_receive_udp_low port buffer (Z.of_nat (length buffer)) pkt' n (with_inbox s q) = Some (o, with_inbox s rest) /\ f :: q = passed ++ rest /\
    forall d, o = Some d -> exists before frame payload, passed = before ++ [frame] /\ udp_in port (take PACKET_SIZE frame) payload /\
      d_copied d = Z.of_nat (length payload `min` length buffer) /\ d_buffer d = blit buffer 0 (take (length buffer) payload)) as Next.
  { intros pkt' Hp' Lp'. destruct (IH (with_inbox s q) pkt' Hn Hq Hp' Lp') as (o & passed & rest & E & Ei & Hd). cbn in Ei.
    exists o, (f :: passed), rest. split; [exact E|]. split; [by rewrite Ei|]. intros d Ed. destruct (Hd d Ed) as (before & frame & payload & -> & Hu).
    by exists (f :: before), frame, payload. }
  case_bool_decide as Hf0; [by apply Next|].
  set (p := take PACKET_SIZE f). assert (bytes_ok p) as Bp by (by apply Forall_take).
  assert (length p <= PACKET_SIZE)%nat as Lt by (unfold p; rewrite length_take; lia).
  assert (blit pkt 0 p = p ++ drop (length p) pkt) as -> by (unfold blit; by rewrite take_0).
  assert (bytes_ok (p ++ drop (length p) pkt)) as Bb by (apply bytes_ok_app; split; [done|by apply Forall_drop]).
  assert (length (p ++ drop (length p) pkt) = PACKET_SIZE) as Lb by (rewrite length_app, length_drop; lia).
  destruct (udp_accept_inv port buffer p (drop (length p) pkt) Hport Bb Lb Hbuf) as (o & Eo & Ho). rewrite (lift_bind _ _ _ _ Eo).
  destruct o as [d|]; [|by apply Next]. destruct (Ho d eq_refl) as (payload & Hu). exists (Some d), [f], q. split; [done|]. split; [done|].
  intros d' E. injection E as <-. by exists [], f, payload.
Qed.

Section Lease.
Context (fresh : nat -> buf) (fresh_length : forall n, length (fresh n) = n) (fresh_bytes : forall n, bytes_ok (fresh n)).

(** Waiting for a message that is there. *)
Lemma dhcp_await_ok s check_op xid mtype yi l pad frame rest :
  ne2000_initialized s = true -> word_ok xid -> reply_ok mtype yi l pad -> carries frame (dhcp_reply xid yi l pad) ->
  dhcp_await fresh check_op xid mtype (with_inbox s (frame :: rest)) =
  Some (Some (dhcp_reply xid yi l pad, foldl apply_option no_opts l), with_inbox s rest).
Proof.
  intros Hn Hx [Hyi Hl Hs Ht] (dmac & smac & i & src & dst & sum & sp & c & Hdm & Hsm & Hi & Hsrc & Hdst & Hsum & Hsp & E & ->).
  pose proof (length_reply xid yi l pad Hs) as Hlen. pose proof (reply_fields xid yi l pad Hx Hyi) as (F0 & F4 & _).
  set (data := dhcp_reply xid yi l pad) in *. unfold dhcp_await.
  set (frame := ip_frame _ _ _ _ _ _ _ _ _).
  assert (Z.of_nat (length data) = 548) as Hz by (by rewrite Hlen).
  assert (0 < length frame <= PACKET_SIZE)%nat as Lf by (unfold frame, PACKET_SIZE; rewrite length_ip_frame, length_udp by (apply Hdm || apply Hsm); lia).
  assert (netstack_receive_udp_low DHCP_CLIENT_PORT (fresh DHCP_SIZE) (Z.of_nat DHCP_SIZE) (fresh PACKET_SIZE) 512 (with_inbox s (frame :: rest)) =
          Some (Some (Mk_datagram 548 data src sp), with_inbox s rest)) as Er.
  { rewrite receive_first; [|done|done|apply fresh_length]. unfold frame.
    rewrite (lift_bind _ _ _ _ (udp_accept_ok DHCP_CLIENT_PORT (fresh DHCP_SIZE) dmac smac i src dst sum sp c data
      _ (Z.of_nat DHCP_SIZE) Hdm Hsm Hi Hsrc Hdst Hsum Hsp
      ltac:(unfold half_ok, DHCP_CLIENT_PORT; lia) ltac:(lia) ltac:(rewrite fresh_length; lia) E)).
    rewrite Hz. change (Z.of_nat DHCP_SIZE) with 548. change (548 <? 548) with false. cbn iota.
    rewrite take_ge by lia. unfold blit. rewrite take_0, drop_ge, app_nil_r by (rewrite fresh_length, Hlen; lia). done. }
  rewrite (bind_eq _ _ _ _ _ Er). cbn [d_copied d_buffer]. change (548 <=? 0) with false. cbn iota.
  rewrite (lift_bind _ _ _ _ F0), (lift_bind _ _ _ _ F4), !Z.eqb_refl. cbn [negb]. rewrite andb_false_r. cbn [orb].
  rewrite (lift_bind _ (Some (foldl apply_option no_opts l))).
  2: { unfold data, dhcp_reply. apply parse_opts_ok; [|done|done]. by rewrite !length_app, !length_le_put, !length_replicate. }
  by rewrite Ht, Z.eqb_refl.
Qed.

Lemma dhcp_packet_exists xid mac opts :
  mac_ok mac -> bytes_ok opts -> (length opts <= OPTIONS_SIZE)%nat ->
  exists p, dhcp_packet xid mac opts = Some p /\ length p = DHCP_SIZE /\ bytes_ok p.
Proof.
  intros [Lm Hm] Ho Lo. unfold dhcp_packet. destruct (Nat.ltb_spec OPTIONS_SIZE (length opts)); [lia|].
  eexists. split; [done|]. split.
  - rewrite !length_app, !length_replicate, !length_le_put, Lm. unfold ETH_ADDR_LEN, OPTIONS_SIZE, DHCP_SIZE in *. cbn [length]. lia.
  - assert (forall n, bytes_ok (replicate n 0)) as Hz by (intros n; by apply Forall_replicate).
    rewrite !bytes_ok_app. split_and!; try apply le_put_ok; try apply Hz; try done. by repeat constructor.
Qed.

Lemma reaches_broadcast s : reaches s IP_BROADCAST (replicate 6 255).
Proof. done. Qed.

Lemma with_inbox_up s l : up s -> up (with_inbox s l).
Proof. by intros []. Qed.

(** The frame that broadcasts a client packet. *)
Definition client_frame (s : net) (pkt frame : buf) : Prop :=
  exists sum c, frame = ip_frame (replicate 6 255) (mac_address (net_config s)) (8 + Z.of_nat (length pkt)) (ip_identification s)
    IP_PROTOCOL_UDP (ip_address (net_config s)) IP_BROADCAST sum (udp_message DHCP_CLIENT_PORT DHCP_SERVER_PORT c pkt).

Lemma send_dhcp_ok s pkt :
  up s -> bytes_ok pkt -> length pkt = DHCP_SIZE ->
  exists frame, client_frame s pkt frame /\
    netstack_send_udp_low IP_BROADCAST DHCP_CLIENT_PORT DHCP_SERVER_PORT pkt (Z.of_nat DHCP_SIZE) false s =
    Some (0, with_sent (with_ident s (u16 (ip_identification s + 1))) (sent s ++ [frame])).
Proof.
  intros Hup Hp Hl.
  destruct (send_udp_ok s IP_BROADCAST DHCP_CLIENT_PORT DHCP_SERVER_PORT pkt [] _ false Hup (reaches_broadcast s) ltac:(split; [done|by repeat constructor]) Hp) as (sum & c & _ & _ & E).
  { rewrite Hl. unfold DHCP_SIZE. lia. }
  rewrite app_nil_r in E. rewrite Hl in E at 1. eexists. split; [|exact E]. by exists sum, c.
Qed.

(** The frame is an answer of the type to the transaction: a payload for the client's port;
    [pkt] is the 548-byte structure with the payload's bytes, as many as there are, and [r]
    the options in it. *)
Definition answers (xid mtype : Z) (frame pkt : buf) (r : dhcp_opts) : Prop :=
  exists payload, udp_in DHCP_CLIENT_PORT (take PACKET_SIZE frame) payload /\ payload <> [] /\
    pkt = blit (fresh DHCP_SIZE) 0 (take DHCP_SIZE payload) /\ field pkt 4 4 = Some xid /\
    dhcp_parse_opts pkt no_opts = Some (Some r) /\ o_msgtype r = mtype.

Lemma await_inv s check_op xid mtype :
  ne2000_initialized s = true -> Forall bytes_ok (inbox s) ->
  exists o passed rest, dhcp_await fresh check_op xid mtype s = Some (o, with_inbox s rest) /\ inbox s = passed ++ rest /\
    forall pkt r, o = Some (pkt, r) -> exists before frame, passed = before ++ [frame] /\ answers xid mtype frame pkt r /\
      (check_op = true -> field pkt 0 1 = Some 2) /\ length pkt = DHCP_SIZE.
Proof.
  intros Hn Hq.
  destruct (receive_inv DHCP_CLIENT_PORT (fresh DHCP_SIZE) 512 ltac:(unfold half_ok, DHCP_CLIENT_PORT; lia)
    ltac:(rewrite fresh_length; unfold DHCP_SIZE; lia) s (fresh PACKET_SIZE) Hn Hq (fresh_bytes _) (fresh_length _)) as (o & passed & rest & E & Ei & Hd).
  rewrite fresh_length in E, Hd. unfold dhcp_await. rewrite (bind_eq _ _ _ _ _ E).
  assert (exists o' passed rest', Some (@None (buf * dhcp_opts), with_inbox s rest) = Some (o', with_inbox s rest') /\ inbox s = passed ++ rest' /\
    forall pkt r, o' = Some (pkt, r) -> exists before frame, passed = before ++ [frame] /\ answers xid mtype frame pkt r /\
      (check_op = true -> field pkt 0 1 = Some 2) /\ length pkt = DHCP_SIZE) as Nothing by (by exists None, passed, rest).
  destruct o as [d|]; [|exact Nothing]. destruct (Hd d eq_refl) as (before & frame & payload & -> & Hu & Hc & Hbuf).
  destruct (Z.leb_spec (d_copied d) 0); [exact Nothing|].
  assert (payload <> []) as Hne by (intros ->; cbn in Hc; lia).
  assert (length (d_buffer d) = DHCP_SIZE) as Lb by (rewrite Hbuf, length_blit; rewrite ?length_take, ?fresh_length; lia).
  destruct (field_total (d_buffer d) 0 1) as [op Eop]; [rewrite Lb; unfold DHCP_SIZE; lia|].
  destruct (field_total (d_buffer d) 4 4) as [x Ex]; [rewrite Lb; unfold DHCP_SIZE; lia|].
  rewrite (lift_bind _ _ _ _ Eop), (lift_bind _ _ _ _ Ex). destruct (check_op && negb (op =? 2)) eqn:Ec; [exact Nothing|]. cbn [orb].
  destruct (Z.eqb_spec x xid) as [->|]; [|exact Nothing]. cbn [negb].
  destruct (parse_total (d_buffer d) no_opts) as [pr Epr]; [lia|]. rewrite (lift_bind _ _ _ _ Epr). destruct pr as [r|]; [|exact Nothing].
  destruct (Z.eqb_spec (o_msgtype r) mtype) as [Et|]; [|exact Nothing].
  exists (Some (d_buffer d, r)), (before ++ [frame]), rest. split; [done|]. split; [done|]. intros pkt r' E'. injection E' as <- <-.
  exists before, frame. split; [done|]. split; [by exists payload|]. split; [|done]. intros ->. rewrite Eop. f_equal.
  destruct (Z.eqb_spec op 2); [done|]. done.
Qed.

(** A DHCP lease: when a server that forms the header checksum as this code does answers the DISCOVER with an OFFER and the
    REQUEST with an ACK, the client, which had no address, takes over the address of
    the ACK with the mask, router and DNS server of its options; the REQUEST that it
    broadcast asks for the offered address at the server that offered it. *)
Theorem dhcp_lease (s : net) (offer ack : buf) (yi yi' : Z) (l l' : list (Z * buf)) (pad pad' : buf) (rest : list buf) :
  let xid := u32 (seed s * 1664525 + 1013904223) in
  let r := foldl apply_option no_opts l in
  let r' := foldl apply_option no_opts l' in
  up s -> ip_address (net_config s) = 0 ->
  reply_ok DHCP_OFFER yi l pad -> reply_ok DHCP_ACK yi' l' pad' ->
  carries offer (dhcp_reply xid yi l pad) -> carries ack (dhcp_reply xid yi' l' pad') ->
  exists s' s1 discover request reqpkt,
    netstack_get_ip_address fresh (with_inbox s (offer :: ack :: rest)) = Some (yi', s') /\
    net_config s' = Mk_config yi' (ntohl (o_subnet r')) (ntohl (o_router r')) (ntohl (o_dns r')) (mac_address (net_config s)) /\
    sent s' = sent s ++ [discover; request] /\ inbox s' = rest /\
    dhcp_packet xid (mac_address (net_config s))
      (cookie ++ dhcp_opt_put_u8 DHO_MSG_TYPE DHCP_REQUEST ++ dhcp_opt_put_u32 DHO_REQ_IP yi ++
       dhcp_opt_put_u32 DHO_SERVER_ID (ntohl (o_server_id r)) ++ [DHO_END]) = Some reqpkt /\
    net_config s1 = net_config s /\ client_frame s1 reqpkt request.
Proof.
  intros xid r r' Hup H0 Hr Hr' Ho Ha. assert (word_ok xid) as Hx by (apply wrap_range; lia).
  pose proof (up_mac s Hup) as Hm. set (mac := mac_address (net_config s)) in *.
  assert (bytes_ok cookie) as Hck by apply le_put_ok.
  destruct (dhcp_packet_exists xid mac (cookie ++ dhcp_opt_put_u8 DHO_MSG_TYPE DHCP_DISCOVER ++
     dhcp_opt_put_list DHO_PARAM_REQ [DHO_SUBNET; DHO_ROUTER; DHO_DNS; DHO_LEASE_TIME; DHO_SERVER_ID] ++ [DHO_END])) as (pkt & Ep & Lp & Bp); [done| |unfold OPTIONS_SIZE; simpl; lia|].
  { apply bytes_ok_app. split; [done|]. by repeat constructor. }
  destruct (dhcp_packet_exists xid mac (cookie ++ dhcp_opt_put_u8 DHO_MSG_TYPE DHCP_REQUEST ++ dhcp_opt_put_u32 DHO_REQ_IP yi ++
       dhcp_opt_put_u32 DHO_SERVER_ID (ntohl (o_server_id r)) ++ [DHO_END])) as (req & Eq & Lq & Bq); [done| |unfold OPTIONS_SIZE; simpl; lia|].
  { unfold dhcp_opt_put_u32. rewrite !bytes_ok_app. split_and!; try apply le_put_ok; by repeat constructor. }
  set (s0 := with_inbox (with_seed s xid) (offer :: ack :: rest)).
  assert (up s0) as Hup0 by (by destruct Hup).
  destruct (send_dhcp_ok s0 pkt Hup0 Bp Lp) as (f & Hf & Ef). set (s1 := with_sent _ _) in Ef.
  assert (up (with_inbox s1 (ack :: rest))) as Hup1 by (apply with_inbox_up, with_sent_up, next_ident_up; done).
  destruct (send_dhcp_ok (with_inbox s1 (ack :: rest)) req) as (g & Hg & Eg); [done..|]. set (s2 := with_sent _ _) in Eg.
  pose proof (up_nic s Hup) as Hn. destruct (reply_fields xid yi l pad Hx (ro_yi _ _ _ _ Hr)) as (_ & _ & F).
  destruct (reply_fields xid yi' l' pad' Hx (ro_yi _ _ _ _ Hr')) as (_ & _ & F').
  pose proof (dhcp_await_ok s1 true xid _ _ _ _ offer (ack :: rest) Hn Hx Hr Ho) as Ew.
  pose proof (dhcp_await_ok s2 false xid _ _ _ _ ack rest Hn Hx Hr' Ha) as Ew'.
  assert (dhcp_discover_request fresh (with_inbox s (offer :: ack :: rest)) =
    Some (Some (yi', ntohl (o_subnet r'), ntohl (o_router r'), ntohl (o_dns r')), with_inbox s2 rest)) as Ed.
  { unfold dhcp_discover_request. rewrite (bind_eq _ _ _ xid s0) by done. rewrite gets_bind.
    rewrite (lift_bind _ _ _ _ Ep), (bind_eq _ _ _ _ _ Ef). change (negb (0 =? 0)) with false. cbn iota.
    rewrite (bind_eq _ _ _ _ _ Ew). cbn iota. rewrite (lift_bind _ _ _ _ F), ntohl_htonl by apply Hr.
    fold r. rewrite (lift_bind _ _ _ _ Eq), (bind_eq _ _ _ _ _ Eg). change (negb (0 =? 0)) with false. cbn iota.
    rewrite (bind_eq _ _ _ _ _ Ew'). cbn iota. by rewrite (lift_bind _ _ _ _ F'), ntohl_htonl by apply Hr'. }
  exists (with_config (with_inbox s2 rest) (Mk_config yi' (ntohl (o_subnet r')) (ntohl (o_router r')) (ntohl (o_dns r')) mac)).
  exists (with_inbox s1 (ack :: rest)), f, g, req. split; [|split; [done|split; [|done]]].
  - unfold netstack_get_ip_address. rewrite gets_bind. cbn [net_config with_inbox]. rewrite H0. change (negb (0 =? 0)) with false. cbn iota.
    by rewrite (bind_eq _ _ _ _ _ Ed).
  - cbn. by rewrite <- app_assoc.
Qed.
(** The option bytes that the client sends. *)
Definition discover_opts : buf :=
  cookie ++ dhcp_opt_put_u8 DHO_MSG_TYPE DHCP_DISCOVER ++
  dhcp_opt_put_list DHO_PARAM_REQ [DHO_SUBNET; DHO_ROUTER; DHO_DNS; DHO_LEASE_TIME; DHO_SERVER_ID] ++ [DHO_END].
Definition request_opts (yi server : Z) : buf :=
  cookie ++ dhcp_opt_put_u8 DHO_MSG_TYPE DHCP_REQUEST ++ dhcp_opt_put_u32 DHO_REQ_IP yi ++ dhcp_opt_put_u32 DHO_SERVER_ID server ++ [DHO_END].

(** Broadcasting one of them. *)
Lemma broadcast_ok s xid opts :
  up s -> bytes_ok opts -> (length opts <= OPTIONS_SIZE)%nat ->
  exists pkt frame, dhcp_packet xid (mac_address (net_config s)) opts = Some pkt /\ client_frame s pkt frame /\
    netstack_send_udp_low IP_BROADCAST DHCP_CLIENT_PORT DHCP_SERVER_PORT pkt (Z.of_nat DHCP_SIZE) false s =
    Some (0, with_sent (with_ident s (u16 (ip_identification s + 1))) (sent s ++ [frame])).
Proof.
  intros Hup Ho Lo. destruct (dhcp_packet_exists xid _ opts (up_mac s Hup) Ho Lo) as (pkt & Ep & Lp & Bp).
  destruct (send_dhcp_ok s pkt Hup Bp Lp) as (frame & Hf & Ef). by exists pkt, frame.
Qed.
Lemma discover_opts_ok : bytes_ok discover_opts /\ (length discover_opts <= OPTIONS_SIZE)%nat.
Proof. split; [|unfold OPTIONS_SIZE; vm_compute; lia]. unfold discover_opts. apply bytes_ok_app. split; [apply le_put_ok|by repeat constructor]. Qed.
Lemma request_opts_ok yi server : bytes_ok (request_opts yi server) /\ (length (request_opts yi server) <= OPTIONS_SIZE)%nat.
Proof.
  split; [|unfold OPTIONS_SIZE; cbn; lia]. unfold request_opts, dhcp_opt_put_u32. rewrite !bytes_ok_app. split_and!; try apply le_put_ok; by repeat constructor.
Qed.

(** An exchange in which an offer [po] with options [ro] was taken, asked for, and
    acknowledged by [pa] with options [ra]. *)
Record lease_taken (s s' : net) (xid : Z) (request : buf) : Prop := Mk_lease {
  lt_frames : exists before offer between ack po ro pa ra yi yi' reqpkt,
    inbox s = before ++ offer :: between ++ ack :: inbox s' /\
    answers xid DHCP_OFFER offer po ro /\ field po 0 1 = Some 2 /\ field po 16 4 = Some yi /\
    dhcp_packet xid (mac_address (net_config s)) (request_opts (ntohl yi) (ntohl (o_server_id ro))) = Some reqpkt /\
    client_frame (with_ident s (u16 (ip_identification s + 1))) reqpkt request /\
    answers xid DHCP_ACK ack pa ra /\ field pa 16 4 = Some yi' /\
    net_config s' = Mk_config (ntohl yi') (ntohl (o_subnet ra)) (ntohl (o_router ra)) (ntohl (o_dns ra)) (mac_address (net_config s))
}.

Lemma discover_request_inv (s : net) :
  let xid := u32 (seed s * 1664525 + 1013904223) in
  up s -> Forall bytes_ok (inbox s) ->
  exists o s' pkt discover requests,
    dhcp_discover_request fresh s = Some (o, s') /\ net_config s' = net_config s /\ (length requests <= 1)%nat /\
    dhcp_packet xid (mac_address (net_config s)) discover_opts = Some pkt /\ client_frame s pkt discover /\ sent s' = sent s ++ discover :: requests /\
    forall ip mask gw dns, o = Some (ip, mask, gw, dns) -> exists request, requests = [request] /\
      lease_taken s (with_config s' (Mk_config ip mask gw dns (mac_address (net_config s)))) xid request.
Proof.
  intros xid Hup Hq. set (s0 := with_seed s xid). assert (up s0) as Hup0 by (by destruct Hup).
  destruct (broadcast_ok s0 xid discover_opts Hup0 (proj1 discover_opts_ok) (proj2 discover_opts_ok)) as (pkt & f & Ep & Hf & Ef).
  set (s1 := with_sent _ _) in Ef. assert (up s1) as Hup1 by (by apply with_sent_up, next_ident_up).
  unfold dhcp_discover_request. rewrite (bind_eq _ _ _ xid s0) by done. rewrite gets_bind. fold discover_opts.
  rewrite (lift_bind _ _ _ _ Ep), (bind_eq _ _ _ _ _ Ef). change (negb (0 =? 0)) with false. cbn iota.
  destruct (await_inv s1 true xid DHCP_OFFER (up_nic s1 Hup1) Hq) as (o & passed & rest & Ea & Ei & Ho). rewrite (bind_eq _ _ _ _ _ Ea).
  change (inbox s1) with (inbox s) in Ei.
  destruct o as [[po ro]|]; [|exists None, (with_inbox s1 rest), pkt, f, []; split_and!; [done|done|cbn; lia|done|exact Hf|done|done]].
  destruct (Ho po ro eq_refl) as (before & offer & -> & Hoff & Hop & Lpo). clear Ho.
  destruct (field_total po 16 4) as [yi Eyi]; [rewrite Lpo; unfold DHCP_SIZE; lia|]. rewrite (lift_bind _ _ _ _ Eyi).
  set (s2 := with_inbox s1 rest). assert (up s2) as Hup2 by (by apply with_inbox_up).
  pose proof (request_opts_ok (ntohl yi) (ntohl (o_server_id ro))) as [Br Lr].
  destruct (broadcast_ok s2 xid _ Hup2 Br Lr) as (reqpkt & g & Eq & Hg & Eg).
  fold (request_opts (ntohl yi) (ntohl (o_server_id ro))). change (net_config s0) with (net_config s2).
  rewrite (lift_bind _ _ _ _ Eq), (bind_eq _ _ _ _ _ Eg). change (negb (0 =? 0)) with false. cbn iota. set (s3 := with_sent _ _) in Eg |- *.
  assert (Forall bytes_ok rest) as Hq3 by (rewrite Ei in Hq; by apply Forall_app in Hq as [_ Hq]).
  destruct (await_inv s3 false xid DHCP_ACK (up_nic s Hup) Hq3) as (o & passed & rest' & Ea' & Ei' & Ho). rewrite (bind_eq _ _ _ _ _ Ea').
  change (inbox s3) with rest in Ei'. assert (sent (with_inbox s3 rest') = sent s ++ [f; g]) as Es by (cbn; by rewrite <- app_assoc).
  destruct o as [[pa ra]|]; [|exists None, (with_inbox s3 rest'), pkt, f, [g]; split_and!; [done|done|cbn; lia|done|exact Hf|done|done]].
  destruct (Ho pa ra eq_refl) as (between & ack & -> & Hack & _ & Lpa).
  destruct (field_total pa 16 4) as [yi' Eyi']; [rewrite Lpa; unfold DHCP_SIZE; lia|]. rewrite (lift_bind _ _ _ _ Eyi').
  eexists _, (with_inbox s3 rest'), pkt, f, [g]. split; [done|]. split; [done|]. split; [cbn; lia|]. split; [done|]. split; [done|]. split; [done|].
  intros ip mask gw dns E. injection E as <- <- <- <-. exists g. split; [done|]. split.
  exists before, offer, between, ack, po, ro, pa, ra, yi, yi', reqpkt. cbn [inbox with_config with_inbox net_config].
  split; [rewrite Ei, Ei', <- !app_assoc; done|]. by split_and!; try apply Hop.
Qed.

(** C19: the DHCP client is safe whatever arrives: with any frames, of any length and
    contents, in front of the card, a host without an address that asks for one comes to an
    end, reads nothing outside of its buffers, and has broadcast one DISCOVER and at most one
    REQUEST.  Its configuration then is the old one, without an address, or it is the
    address, mask, router and DNS server of an ACK that arrived behind an OFFER: both frames
    are UDP to port 68 with a right header checksum and carry the transaction's number and
    the message type, and the REQUEST asked for the offered address at the offering server.
    (The header checksum is compared with the low byte first, so that a standard server is
    heard only when its two bytes are equal; a payload shorter than the 548-byte structure
    leaves the rest of it as it was on the stack.) *)
Theorem dhcp_client_safe (s : net) :
  let xid := u32 (seed s * 1664525 + 1013904223) in
  up s -> Forall bytes_ok (inbox s) -> ip_address (net_config s) = 0 ->
  exists ip s' pkt discover requests,
    netstack_get_ip_address fresh s = Some (ip, s') /\ ip = ip_address (net_config s') /\
    dhcp_packet xid (mac_address (net_config s)) discover_opts = Some pkt /\ client_frame s pkt discover /\
    sent s' = sent s ++ discover :: requests /\ (length requests <= 1)%nat /\
    (net_config s' = net_config s \/ exists request, requests = [request] /\ lease_taken s s' xid request).
Proof.
  intros xid Hup Hq H0. destruct (discover_request_inv s Hup Hq) as (o & s' & pkt & f & l & E & Ec & Hl & Ep & Hf & Es & Ho).
  unfold netstack_get_ip_address. rewrite gets_bind, H0. change (negb (0 =? 0)) with false. cbn iota. rewrite (bind_eq _ _ _ _ _ E).
  destruct o as [[[[ip mask] gw] dns]|].
  - destruct (Ho ip mask gw dns eq_refl) as (request & -> & Hlt). rewrite <- Ec in Hlt.
    exists ip, (with_config s' (Mk_config ip mask gw dns (mac_address (net_config s')))), pkt, f, [request].
    split; [done|]. split; [done|]. split; [done|]. split; [done|]. split; [done|]. split; [done|]. right. by exists request.
  - exists 0, s', pkt, f, l. split; [done|]. split; [by rewrite Ec|]. split; [done|]. split; [done|]. split; [done|]. split; [done|]. by left.
Qed.
End Lease.

(** A server at 10.0.2.2 and a client without an address. *)
Definition server_frame (data : buf) : buf :=
  match ip_checksum (ip_header_with (28 + Z.of_nat (length data)) 9 IP_PROTOCOL_UDP 167772674 IP_BROADCAST 0) with
  | Some sum => ip_frame (replicate 6 255) [2; 0; 0; 0; 0; 9] (8 + Z.of_nat (length data)) 9 IP_PROTOCOL_UDP 167772674 IP_BROADCAST sum
                  (udp_message DHCP_SERVER_PORT DHCP_CLIENT_PORT 0 data)
  | None => []
  end.

Lemma server_frame_carries data : carries (server_frame data) data.
Proof.
  destruct (ip_header_exists (28 + Z.of_nat (length data)) 9 IP_PROTOCOL_UDP 167772674 IP_BROADCAST ltac:(unfold byte_ok, IP_PROTOCOL_UDP; lia)) as (sum & Hs & E & _).
  unfold server_frame. rewrite E. exists (replicate 6 255), [2; 0; 0; 0; 0; 9], 9, 167772674, IP_BROADCAST, sum, DHCP_SERVER_PORT, 0.
  unfold word_ok, half_ok, IP_BROADCAST, DHCP_SERVER_PORT in *.
  split; [split; [done|by repeat constructor]|]. split; [split; [done|by repeat constructor]|].
  split; [lia|]. split; [lia|]. split; [lia|]. split; [done|]. split; [lia|]. done.
Qed.

Definition client : net := host 0 [2; 0; 0; 0; 0; 1] no_cache.
Definition client_xid : Z := u32 (seed client * 1664525 + 1013904223).
Definition offer_opts : list (Z * buf) := [(DHO_MSG_TYPE, [DHCP_OFFER]); (DHO_SERVER_ID, [10; 0; 2; 2])].
Definition ack_opts : list (Z * buf) :=
  [(DHO_MSG_TYPE, [DHCP_ACK]); (DHO_SUBNET, [255; 255; 255; 0]); (DHO_ROUTER, [10; 0; 2; 2]); (DHO_DNS, [10; 0; 2; 3])].

Lemma client_replies :
  reply_ok DHCP_OFFER 167772687 offer_opts (replicate 298 0) /\ reply_ok DHCP_ACK 167772687 ack_opts (replicate 286 0).
Proof.
  split; split; try (unfold word_ok; lia); try by vm_compute.
  - unfold offer_opts. repeat constructor; simpl; unfold DHO_END, DHO_MSG_TYPE, DHO_SERVER_ID; lia.
  - unfold ack_opts. repeat constructor; simpl; unfold DHO_END, DHO_MSG_TYPE, DHO_SUBNET, DHO_ROUTER, DHO_DNS; lia.
Qed.

Lemma dhcp_lease_witness :
  exists s', netstack_get_ip_address (fun n => replicate n 0)
    (with_inbox client [server_frame (dhcp_reply client_xid 167772687 offer_opts (replicate 298 0));
                        server_frame (dhcp_reply client_xid 167772687 ack_opts (replicate 286 0))]) = Some (167772687, s') /\
    net_config s' = Mk_config 167772687 4294967040 167772674 167772675 [2; 0; 0; 0; 0; 1].
Proof.
  destruct (dhcp_lease (fun n => replicate n 0) (fun n => length_replicate n 0) client _ _ _ _ _ _ _ _ []
    (host_up 0 [2; 0; 0; 0; 0; 1] ltac:(unfold word_ok; lia) ltac:(split; [done|by repeat constructor])) eq_refl
    (proj1 client_replies) (proj2 client_replies) (server_frame_carries _) (server_frame_carries _)) as (s' & s1 & f & g & q & H1 & H2 & _).
  exact (ex_intro _ s' (conj H1 H2)).
Defined.

(** A frame of three bytes and a broadcast ARP request in front of the server's answers. *)
Definition client_frames : list buf :=
  [[1; 2; 3]; arp_frame (replicate 6 255) ARP_REQUEST [2; 0; 0; 0; 0; 9] 167772674 (replicate 6 0) 167772687;
   server_frame (dhcp_reply client_xid 167772687 offer_opts (replicate 298 0)); server_frame (dhcp_reply client_xid 167772687 ack_opts (replicate 286 0))].

Lemma dhcp_client_safe_witness :
  exists ip s', netstack_get_ip_address (fun n => replicate n 0) (with_inbox client client_frames) = Some (ip, s') /\
    ip = ip_address (net_config s') /\ ip = 167772687 /\ (exists discover requests, sent s' = discover :: requests /\ (length requests <= 1)%nat).
Proof.
  destruct (dhcp_client_safe (fun n => replicate n 0) (fun n => length_replicate n 0) (fun n => Forall_replicate _ n 0 (conj (Z.le_refl 0) eq_refl))
    (with_inbox client client_frames)) as (ip & s' & pkt & f & l & E & Ei & _ & _ & Es & Hl & _).
  - apply with_inbox_up, host_up; [unfold word_ok; lia|split; [done|by repeat constructor]].
  - repeat (apply Forall_cons_2; [apply bytes_check; vm_compute; reflexivity|]). constructor.
  - reflexivity.
  - exists ip, s'. split; [exact E|]. split; [exact Ei|]. split; [|exact (ex_intro _ f (ex_intro _ l (conj Es Hl)))].
    apply (f_equal (fun r => match r with Some (ip, _) => ip | None => -1 end)) in E. vm_compute in E. exact (eq_sym E).
Defined.
