(* ===== verification/Ne2000.v ===== *)
(** drivers/net/ne2000.c: the NE2000 network card.

    [ne2000] is the driver's variables, the table of interrupt handlers (irq_routines of
    irq.c) and the hardware.  [dp8390] is the card's controller: its registers, the 64 KB of
    its address space with the station address and the packet buffer, and the frames that
    went out.  [Ne2kDevice] states that the hardware has such a card at an address.
    Console output is left out, and so are functions that only print. *)

From S2P Require Import Prelude CString Effects Ports Cpu Pci Net.

Definition NE2000_VENDOR_ID : Z := 4332.
Definition NE2000_DEVICE_ID : Z := 32809.
Definition NE2000_CR : Z := 0.
Definition NE2000_PSTART : Z := 1.
Definition NE2000_PSTOP : Z := 2.
Definition NE2000_BNRY : Z := 3.
Definition NE2000_TSR : Z := 4.
Definition NE2000_TPSR : Z := 4.
Definition NE2000_TBCR0 : Z := 5.
Definition NE2000_TBCR1 : Z := 6.
Definition NE2000_ISR : Z := 7.
Definition NE2000_RSAR0 : Z := 8.
Definition NE2000_RSAR1 : Z := 9.
Definition NE2000_RBCR0 : Z := 10.
Definition NE2000_RBCR1 : Z := 11.
Definition NE2000_RCR : Z := 12.
Definition NE2000_TCR : Z := 13.
Definition NE2000_DCR : Z := 14.
Definition NE2000_IMR : Z := 15.
Definition NE2000_CURR : Z := 7.
Definition NE2000_PAR0 : Z := 1.
Definition NE2000_DATA : Z := 16.
Definition CR_STA : Z := 2.
Definition ISR_RDC : Z := 64.
Definition ISR_PTX : Z := 2.
Definition RX_START_PAGE : Z := 64.
Definition RX_STOP_PAGE : Z := 128.
Definition TX_START_PAGE : Z := 32.

Record ne2000 (H : Type) := Mk_ne2000 {
  io_base : Z; ne_mac : buf; ne_initialized : bool; ne_routines : list Z; ne_hw : H
}.
Arguments Mk_ne2000 {H}. Arguments io_base {H}. Arguments ne_mac {H}. Arguments ne_initialized {H}. Arguments ne_routines {H}. Arguments ne_hw {H}.

#[global] Instance ne2000_machine H : Machine (ne2000 H) H := {|
  hw := ne_hw; with_hw s h := Mk_ne2000 (io_base s) (ne_mac s) (ne_initialized s) (ne_routines s) h |}.

Definition ne_at {H} (s : ne2000 H) (h : H) : ne2000 H := with_hw s h.

Section Driver.
Context {H : Type} `{Ports H} `{WidePorts H}.
Abbreviation A := (M (ne2000 H)).

Definition set_mac (m : buf) : A unit := modify (fun s => Mk_ne2000 (io_base s) m (ne_initialized s) (ne_routines s) (ne_hw s)).
Definition set_io_base (b : Z) : A unit := modify (fun s => Mk_ne2000 b (ne_mac s) (ne_initialized s) (ne_routines s) (ne_hw s)).

Definition ne2000_write (reg value : Z) : A unit :=
  b ← gets io_base; if b =? 0 then mret tt else outb (b + reg) value.
(** Without an address the function ends without a value. *)
Definition ne2000_read (reg : Z) : A Z :=
  b ← gets io_base; if b =? 0 then undef else inb (b + reg).
Definition data_in : A Z := b ← gets io_base; inw (b + NE2000_DATA).
Definition data_out (w : Z) : A unit := b ← gets io_base; outw (b + NE2000_DATA) w.

Definition ne2000_enable_loopback (base : Z) : A unit :=
  cr ← inb (base + NE2000_CR);
  _ ← outb (base + NE2000_CR) (Z.lor cr CR_STA);
  outb (base + NE2000_TCR) 6.
Definition ne2000_disable_loopback (base : Z) : A unit := outb (base + NE2000_TCR) 0.

(** [while (!(ne2000_read(NE2000_ISR) & 0x80))]: as long as it takes. *)
Fixpoint reset_wait (fuel : nat) : A unit :=
  match fuel with
  | O => undef
  | S fuel' => isr ← ne2000_read NE2000_ISR; if Z.land isr 128 =? 0 then reset_wait fuel' else mret tt
  end.
Definition ne2000_reset (fuel : nat) : A unit :=
  v ← ne2000_read 31;
  _ ← ne2000_write 31 v;
  _ ← reset_wait fuel;
  ne2000_write NE2000_ISR 255.

(** [while (!(ne2000_read(NE2000_ISR) & mask) && timeout-- > 0)] with [timeout] at [n]: its
    value at the end. *)
Fixpoint wait_isr (mask : Z) (n : nat) : A Z :=
  isr ← ne2000_read NE2000_ISR;
  if negb (Z.land isr mask =? 0) then mret (Z.of_nat n) else
  match n with O => mret (-1) | S n' => wait_isr mask n' end.
Definition DMA_TIMEOUT : nat := Z.to_nat 10000.
Definition TX_TIMEOUT : nat := Z.to_nat 100000.

(** The remote read of [len] bytes at [offset] of a page is set up. *)
Definition start_read (page offset len : Z) : A unit :=
  _ ← ne2000_write NE2000_CR 34;
  _ ← ne2000_write NE2000_RBCR0 (Z.land len 255);
  _ ← ne2000_write NE2000_RBCR1 (Z.land (Z.shiftr len 8) 255);
  _ ← ne2000_write NE2000_RSAR0 offset;
  _ ← ne2000_write NE2000_RSAR1 page;
  ne2000_write NE2000_CR 10.

(** [n] words, as bytes. *)
Fixpoint read_words (n : nat) : A buf :=
  match n with
  | O => mret []
  | S n' => w ← data_in; l ← read_words n'; mret (Z.land w 255 :: Z.land (Z.shiftr w 8) 255 :: l)
  end.
(** [len] bytes in words; the last one alone when the length is odd. *)
Definition read_block (len : Z) : A buf :=
  l ← read_words (Z.to_nat (len / 2));
  if Z.land len 1 =? 0 then mret l else w ← data_in; mret (l ++ [Z.land w 255]).

(** The four bytes of a header. *)
Definition read_header (page : Z) : A buf :=
  _ ← start_read page 0 4;
  read_words 2.

Definition next_ring_page (page : Z) : Z :=
  let p := u8 (page + 1) in if RX_STOP_PAGE <=? p then RX_START_PAGE else p.

(** The scan for a page whose header is not zero, over at most [n] pages. *)
Fixpoint skip_empty (n : nat) (page current_page : Z) : A Z :=
  match n with
  | O => mret page
  | S n' =>
      if page =? current_page then mret page else
      test_header ← read_header page;
      _ ← wait_isr ISR_RDC DMA_TIMEOUT;
      _ ← ne2000_write NE2000_ISR ISR_RDC;
      if forallb (Z.eqb 0) test_header then skip_empty n' (next_ring_page page) current_page else mret page
  end.

(** The search for an ethertype in the first 20 bytes, and the offset it suggests for the
    start of the frame; -1 if there is none. *)
Fixpoint find_frame (n : nat) (i : Z) (b : buf) : option Z :=
  match n with
  | O => Some (-1)
  | S n' =>
      x ← rd b i; y ← rd b (i + 1);
      let val := u16 (Z.lor (Z.shiftl x 8) y) in
      if (val =? 2048) || (val =? 2054) || (val =? 34525) then
        let frame_start := i - 12 in
        if (-4 <=? frame_start) && (frame_start <? 10) then Some (if frame_start <? 0 then 4 else frame_start)
        else find_frame n' (i + 1) b
      else find_frame n' (i + 1) b
  end.

(** The packet whose header has no possible length: 64 bytes are read and searched. *)
Definition recover (page : Z) (buffer : buf) : A (Z * buf) :=
  let recovery_length := 64 in
  _ ← start_read page 0 recovery_length;
  l ← read_block recovery_length;
  buffer ← lift (put_bytes buffer l);
  _ ← wait_isr ISR_RDC DMA_TIMEOUT;
  _ ← ne2000_write NE2000_ISR ISR_RDC;
  found_offset ← lift (find_frame 20 0 buffer);
  if 0 <=? found_offset then
    let buffer := if 0 <? found_offset then blit buffer 0 (slice buffer (Z.to_nat found_offset) (Z.to_nat (recovery_length - found_offset))) else buffer in
    _ ← ne2000_write NE2000_CR 34;
    _ ← ne2000_write NE2000_BNRY page;
    mret (recovery_length - found_offset, buffer)
  else
    _ ← ne2000_write NE2000_CR 34;
    _ ← ne2000_write NE2000_BNRY page;
    mret (-1, buffer).

(** The page dump for an impossible length, byte by byte. *)
Fixpoint read_bytes (n : nat) : A buf :=
  match n with
  | O => mret []
  | S n' => b ← gets io_base; x ← inb (b + NE2000_DATA); l ← read_bytes n'; mret (x :: l)
  end.
Definition dump_page (page len : Z) : A buf :=
  _ ← start_read page 0 len;
  l ← read_bytes (Z.to_nat len);
  _ ← wait_isr ISR_RDC DMA_TIMEOUT;
  _ ← ne2000_write NE2000_ISR ISR_RDC;
  mret l.
Definition ne2000_dump_page (page_num length : Z) : A buf := dump_page page_num (if 256 <? length then 256 else length).

(** The boundary in front of [next_page]. *)
Definition boundary_before (next_page : Z) : Z :=
  let b := u8 (next_page - 1) in if b <? RX_START_PAGE then RX_STOP_PAGE - 1 else b.
Definition set_boundary (b : Z) : A unit := _ ← ne2000_write NE2000_CR 34; ne2000_write NE2000_BNRY b.

(** The packet at [page], whose header is next. *)
Definition receive_at (page : Z) (buffer : buf) (buffer_size : Z) : A (Z * buf) :=
  header ← read_header page;
  timeout ← wait_isr ISR_RDC DMA_TIMEOUT;
  if timeout <=? 0 then mret (-1, buffer) else
  _ ← ne2000_write NE2000_ISR ISR_RDC;
  status ← lift (rd header 0);
  next_page ← lift (rd header 1);
  lo ← lift (rd header 2);
  hi ← lift (rd header 3);
  let packet_length := u16 (Z.lor lo (Z.shiftl hi 8)) in
  _ ← (if 1518 <? packet_length then _ ← dump_page page 64; mret tt else mret tt);
  if Z.land status 1 =? 0 then
    _ ← set_boundary (if (RX_START_PAGE <=? next_page) && (next_page <? RX_STOP_PAGE) then boundary_before next_page else page);
    mret (-1, buffer)
  else if (next_page <? RX_START_PAGE) || (RX_STOP_PAGE <=? next_page) then
    _ ← set_boundary page;
    mret (-1, buffer)
  else if (packet_length <? 60) || (1518 <? packet_length) then recover page buffer
  else if buffer_size <? packet_length - 4 then
    _ ← set_boundary (u8 (next_page - 1));
    mret (-1, buffer)
  else
    let data_length := u16 (packet_length - 4) in
    _ ← start_read page 4 data_length;
    l ← read_block data_length;
    buffer ← lift (put_bytes buffer l);
    timeout ← wait_isr ISR_RDC DMA_TIMEOUT;
    if timeout <=? 0 then mret (-1, buffer) else
    _ ← ne2000_write NE2000_ISR ISR_RDC;
    _ ← set_boundary (boundary_before next_page);
    mret (data_length, buffer).

Definition ne2000_receive_packet (buffer : buf) (buffer_size : Z) : A (Z * buf) :=
  _ ← ne2000_write NE2000_CR 98;
  current_page ← ne2000_read NE2000_CURR;
  _ ← ne2000_write NE2000_CR 34;
  boundary ← ne2000_read NE2000_BNRY;
  let next_read := next_ring_page boundary in
  if next_read =? current_page then mret (0, buffer) else
  page ← skip_empty 5 next_read current_page;
  if page =? current_page then mret (0, buffer) else
  receive_at page buffer buffer_size.

(** The words of a packet, and zeros up to the length on the wire. *)
Fixpoint write_words (l : buf) : A unit :=
  match l with
  | x :: y :: l' => _ ← data_out (Z.lor x (Z.shiftl y 8)); write_words l'
  | [x] => data_out x
  | [] => mret tt
  end.
Fixpoint write_zeros (n : nat) : A unit := match n with O => mret tt | S n' => _ ← data_out 0; write_zeros n' end.

(** [for (i = length; i < send_length; i += 2)] runs for half of the difference, rounded up. *)
Definition ne2000_send_packet (data : buf) (length_ : Z) : A unit :=
  if 1500 <? length_ then mret tt else
  let tx_page_start := TX_START_PAGE in
  let send_length := if length_ <? 60 then 60 else length_ in
  if (length data <? Z.to_nat length_)%nat then undef else
  _ ← ne2000_write NE2000_CR 34;
  _ ← ne2000_write NE2000_RBCR0 (Z.land send_length 255);
  _ ← ne2000_write NE2000_RBCR1 (Z.shiftr send_length 8);
  _ ← ne2000_write NE2000_ISR ISR_RDC;
  _ ← ne2000_write NE2000_RSAR0 0;
  _ ← ne2000_write NE2000_RSAR1 tx_page_start;
  _ ← ne2000_write NE2000_CR 18;
  _ ← write_words (take (Z.to_nat length_) data);
  _ ← write_zeros (Z.to_nat ((send_length - length_ + 1) / 2));
  timeout ← wait_isr ISR_RDC DMA_TIMEOUT;
  if timeout <=? 0 then mret tt else
  _ ← ne2000_write NE2000_ISR ISR_RDC;
  _ ← ne2000_write NE2000_TPSR tx_page_start;
  _ ← ne2000_write NE2000_TBCR0 (Z.land send_length 255);
  _ ← ne2000_write NE2000_TBCR1 (Z.shiftr send_length 8);
  _ ← ne2000_write NE2000_CR 38;
  timeout ← wait_isr ISR_PTX TX_TIMEOUT;
  if timeout <=? 0 then _ ← ne2000_read NE2000_ISR; mret tt else
  _ ← ne2000_write NE2000_ISR ISR_PTX;
  _ ← ne2000_read NE2000_TSR;
  mret tt.

(** The reply to an ARP request for 10.0.2.15. *)
Definition arp_reply (mac request_packet : buf) : option buf :=
  if (length request_packet <? 32)%nat then None else
  Some (slice request_packet 6 6 ++ mac ++ [8; 6] ++ [0; 1; 8; 0; 6; 4; 0; 2] ++ mac ++ [10; 0; 2; 15] ++
        slice request_packet 22 6 ++ slice request_packet 28 4 ++ replicate 18 0).
Definition ne2000_send_arp_reply (request_packet : buf) : A unit :=
  m ← gets ne_mac;
  p ← lift (arp_reply m request_packet);
  ne2000_send_packet p 60.

(** What the interrupt handler does with a received packet. *)
Definition answer (packet : buf) (length_ : Z) : A unit :=
  if 14 <=? length_ then
    t1 ← lift (rd packet 12); t0 ← lift (rd packet 13);
    if (u16 (Z.lor (Z.shiftl t1 8) t0) =? 2054) && (42 <=? length_) then
      o1 ← lift (rd packet 20); o0 ← lift (rd packet 21);
      a ← lift (rd packet 38); b ← lift (rd packet 39); c ← lift (rd packet 40); d ← lift (rd packet 41);
      if (u16 (Z.lor (Z.shiftl o1 8) o0) =? 1) && (a =? 10) && (b =? 0) && (c =? 2) && (d =? 15) then ne2000_send_arp_reply packet else mret tt
    else mret tt
  else mret tt.

Context (fresh : nat -> buf).          (* arrays on the stack *)

(** Up to [n] packets. *)
Fixpoint irq_loop (n : nat) (isr : Z) : A unit :=
  match n with
  | O => mret tt
  | S n' =>
      if Z.land isr 1 =? 0 then mret tt else
      r ← ne2000_receive_packet (fresh 1500) 1500;
      if 0 <? fst r then _ ← answer (snd r) (fst r); isr ← ne2000_read NE2000_ISR; irq_loop n' isr
      else mret tt
  end.

Definition ne2000_irq_handler : A unit :=
  isr ← ne2000_read NE2000_ISR;
  if isr =? 0 then mret tt else
  _ ← (if negb (Z.land isr 16 =? 0) then
         _ ← ne2000_write NE2000_CR 33;
         _ ← ne2000_write NE2000_RBCR0 0;
         _ ← ne2000_write NE2000_RBCR1 0;
         _ ← ne2000_write NE2000_BNRY RX_START_PAGE;
         _ ← ne2000_write NE2000_CR 98;
         _ ← ne2000_write NE2000_CURR (RX_START_PAGE + 1);
         _ ← ne2000_write NE2000_CR 34;
         ne2000_write NE2000_ISR 16
       else mret tt);
  _ ← irq_loop 5 isr;
  ne2000_write NE2000_ISR 255.

(** Every second byte that the data port delivers. *)
Fixpoint read_mac (n : nat) : A buf :=
  match n with
  | O => mret []
  | S n' => b ← gets io_base; x ← inb (b + NE2000_DATA); _ ← inb (b + NE2000_DATA); l ← read_mac n'; mret (x :: l)
  end.
Definition DEFAULT_MAC : buf := [82; 84; 0; 18; 52; 86].
Fixpoint write_bytes (reg : Z) (l : buf) : A unit :=
  match l with [] => mret tt | x :: l' => _ ← ne2000_write reg x; write_bytes (reg + 1) l' end.

(** Up to the bytes of the station address, with the card stopped. *)
Definition init_stopped (fuel : nat) : A buf :=
  _ ← ne2000_reset fuel;
  _ ← ne2000_write NE2000_CR 33;
  _ ← ne2000_write NE2000_DCR 73;
  _ ← ne2000_write NE2000_RBCR0 0;
  _ ← ne2000_write NE2000_RBCR1 0;
  _ ← ne2000_write NE2000_RCR 32;
  _ ← ne2000_write NE2000_TCR 2;
  _ ← ne2000_write NE2000_PSTART RX_START_PAGE;
  _ ← ne2000_write NE2000_PSTOP RX_STOP_PAGE;
  _ ← ne2000_write NE2000_BNRY RX_START_PAGE;
  _ ← ne2000_write NE2000_ISR 255;
  _ ← ne2000_write NE2000_IMR 15;
  _ ← ne2000_write NE2000_CR 33;
  _ ← ne2000_write NE2000_RBCR0 32;
  _ ← ne2000_write NE2000_RBCR1 0;
  _ ← ne2000_write NE2000_RSAR0 0;
  _ ← ne2000_write NE2000_RSAR1 0;
  _ ← ne2000_write NE2000_CR 10;
  read_mac 6.
(** The address goes to the card, and the card starts. *)
Definition init_start (mac : buf) : A unit :=
  _ ← ne2000_write NE2000_ISR ISR_RDC;
  _ ← ne2000_write NE2000_CR 97;
  _ ← write_bytes NE2000_PAR0 mac;
  _ ← write_bytes 8 (replicate 8 255);
  _ ← ne2000_write NE2000_CURR (RX_START_PAGE + 1);
  _ ← ne2000_write NE2000_CR 34;
  _ ← ne2000_write NE2000_RCR 4;
  ne2000_write NE2000_TCR 0.
Definition ne2000_init (fuel : nat) (irq_handler_addr : Z) : A unit :=
  m ← init_stopped fuel;
  _ ← set_mac m;
  mac_timeout ← wait_isr ISR_RDC DMA_TIMEOUT;
  _ ← (if mac_timeout <=? 0 then set_mac DEFAULT_MAC else mret tt);
  m ← gets ne_mac;
  _ ← init_start m;
  l ← gets ne_routines;
  l ← lift (put_index l 11 irq_handler_addr);
  modify (fun s => Mk_ne2000 (io_base s) (ne_mac s) true l (ne_hw s)).

Definition ne2000_is_initialized : A bool := gets ne_initialized.
Definition ne2000_get_mac_address (mac : buf) : A buf := m ← gets ne_mac; lift (put_bytes mac m).
Definition ne2000_validate_init : A buf :=
  a ← ne2000_read NE2000_PSTART; b ← ne2000_read NE2000_PSTOP; c ← ne2000_read NE2000_BNRY; d ← ne2000_read NE2000_TPSR; mret [a; b; c; d].

(** The values that [ne2000_print_status] shows. *)
Definition ne2000_print_status : A (option buf) :=
  i ← gets ne_initialized;
  if negb i then mret None else
  l ← ne2000_validate_init;
  isr ← ne2000_read NE2000_ISR;
  imr ← ne2000_read NE2000_IMR;
  _ ← ne2000_write NE2000_CR 98;
  current_page ← ne2000_read NE2000_CURR;
  _ ← ne2000_write NE2000_CR 34;
  mret (Some (l ++ [isr; imr; current_page])).

(** ** Finding the card *)

(** An operation on the bus. *)
Definition on_bus {X} (m : M (pci H) X) : A X := fun s =>
  match m (Mk_pci [] 0 [] 0 (ne_hw s)) with Some (x, p) => Some (x, with_hw s (pci_hw p)) | None => None end.

(** The functions of a device, from [function] on; the result says whether to go on. *)
Fixpoint detect_functions (fuel : nat) (addr : Z) (n : nat) (bus device function : Z) : A bool :=
  match n with
  | O => mret true
  | S n' =>
      id ← on_bus (pci_read bus device function 0);
      if (Z.land id 65535 =? NE2000_VENDOR_ID) && (Z.land (Z.shiftr id 16) 65535 =? NE2000_DEVICE_ID) then
        b ← on_bus (get_io_base bus device function);
        _ ← set_io_base (u16 b);
        if u16 b =? 0 then mret false else
        _ ← ne2000_init fuel addr;
        _ ← ne2000_validate_init;
        mret false
      else detect_functions fuel addr n' bus device (function + 1)
  end.
Fixpoint detect_devices (fuel : nat) (addr : Z) (n : nat) (bus device : Z) : A bool :=
  match n with
  | O => mret true
  | S n' =>
      id ← on_bus (pci_read bus device 0 0);
      go ← (if Z.land id 65535 =? 65535 then mret true else
            h ← on_bus (pci_read bus device 0 12);
            let multifunction := negb (Z.land (Z.shiftr h 16) 128 =? 0) in
            detect_functions fuel addr (if multifunction then 8 else 1) bus device 0);
      if go : bool then detect_devices fuel addr n' bus (device + 1) else mret false
  end.
Fixpoint detect_buses (fuel : nat) (addr : Z) (n : nat) (bus : Z) : A unit :=
  match n with
  | O => mret tt
  | S n' => go ← detect_devices fuel addr 32 bus 0; if go : bool then detect_buses fuel addr n' (bus + 1) else mret tt
  end.
Definition ne2000_detect (fuel : nat) (addr : Z) : A unit := detect_buses fuel addr 256 0.

(** ** Test functions *)

Definition ne2000_test_send : A unit :=
  m ← gets ne_mac;
  ne2000_send_packet (replicate 6 255 ++ m ++ [8; 0] ++ [84; 69; 83; 84; 222; 173; 190; 239]) 22.

Definition loopback_packet : buf := replicate 6 255 ++ [0; 1; 2; 3; 4; 5] ++ [8; 0] ++ [69; 0; 0; 84] ++ [0; 1; 222; 173; 190; 239].
(** The parameter of the same name hides [io_base] but is not used. *)
Definition test_ne2000_loopback (base : Z) : A Z :=
  _ ← ne2000_write NE2000_RCR 16;
  _ ← ne2000_write NE2000_TCR 0;
  _ ← ne2000_write NE2000_ISR 255;
  _ ← ne2000_write NE2000_CR 98;
  _ ← ne2000_read NE2000_CURR;
  _ ← ne2000_write NE2000_CR 34;
  _ ← ne2000_read NE2000_BNRY;
  _ ← ne2000_read NE2000_ISR;
  _ ← ne2000_send_packet loopback_packet 24;
  _ ← ne2000_read NE2000_ISR;
  _ ← ne2000_write NE2000_CR 98;
  _ ← ne2000_read NE2000_CURR;
  _ ← ne2000_write NE2000_CR 34;
  _ ← ne2000_read NE2000_BNRY;
  r ← ne2000_receive_packet (fresh 1500) 1500;
  _ ← ne2000_write NE2000_RCR 4;
  mret (fst r).
End Driver.

(** ** The controller

    [d_regs] holds the write registers by page and number (page * 16 + number), except for
    the interrupt status and the address and count of the remote transfer, which the
    controller changes itself.  A transmission is over after [d_busy] reads of the
    status.  What the driver does not rely on has no value ([None]) when read. *)

Record dp8390 := Mk_dp {
  d_cr : Z; d_regs : Z -> Z; d_isr : Z; d_rsar : Z; d_rbcr : Z; d_mem : Z -> Z; d_wire : list buf; d_busy : nat
}.
Definition upd (f : Z -> Z) (k v : Z) : Z -> Z := fun x => if x =? k then v else f x.
Definition d_page (d : dp8390) : Z := d_cr d / 64.
Definition d_bnry (d : dp8390) : Z := d_regs d 3.
Definition d_curr (d : dp8390) : Z := d_regs d 23.
Definition word_mode (d : dp8390) : bool := Z.testbit (d_regs d 14) 0.

(** [n] bytes of the buffer memory. *)
Definition mem_at (m : Z -> Z) (a : Z) (n : nat) : buf := map (fun k => u8 (m (a + Z.of_nat k))) (seq 0 n).

Definition with_isr (d : dp8390) (v : Z) : dp8390 := Mk_dp (d_cr d) (d_regs d) v (d_rsar d) (d_rbcr d) (d_mem d) (d_wire d) (d_busy d).
Definition with_cr (d : dp8390) (v : Z) : dp8390 := Mk_dp v (d_regs d) (d_isr d) (d_rsar d) (d_rbcr d) (d_mem d) (d_wire d) (d_busy d).
Definition with_regs (d : dp8390) (f : Z -> Z) : dp8390 := Mk_dp (d_cr d) f (d_isr d) (d_rsar d) (d_rbcr d) (d_mem d) (d_wire d) (d_busy d).
Definition with_dma (d : dp8390) (a c : Z) : dp8390 := Mk_dp (d_cr d) (d_regs d) (d_isr d) a c (d_mem d) (d_wire d) (d_busy d).
Definition with_mem (d : dp8390) (m : Z -> Z) : dp8390 := Mk_dp (d_cr d) (d_regs d) (d_isr d) (d_rsar d) (d_rbcr d) m (d_wire d) (d_busy d).

(** A transfer of [n] bytes: the address wraps at the end of the receive buffer, and the
    status tells when the count is used up. *)
Definition dma_advance (n : Z) (d : dp8390) : dp8390 :=
  let a := d_rsar d + n in
  let a := if a =? d_regs d 2 * 256 then d_regs d 1 * 256 else a in
  if d_rbcr d <=? n then with_isr (with_dma d a 0) (Z.lor (d_isr d) 64) else with_dma d a (d_rbcr d - n).

Definition transmit (delay : nat) (d : dp8390) : dp8390 :=
  Mk_dp (d_cr d) (d_regs d) (d_isr d) (d_rsar d) (d_rbcr d) (d_mem d)
    (d_wire d ++ [mem_at (d_mem d) (d_regs d 4 * 256) (Z.to_nat (d_regs d 5 + 256 * d_regs d 6))]) delay.

Definition out8 (delay : nat) (r v : Z) (d : dp8390) : dp8390 :=
  if r =? 0 then let d := with_cr d v in if Z.testbit v 2 then transmit delay d else d
  else if r <? 16 then
    let k := d_page d * 16 + r in
    if k =? 7 then with_isr d (Z.ldiff (d_isr d) v)
    else if k =? 8 then with_dma d (d_rsar d / 256 * 256 + v) (d_rbcr d)
    else if k =? 9 then with_dma d (v * 256 + d_rsar d mod 256) (d_rbcr d)
    else if k =? 10 then with_dma d (d_rsar d) (d_rbcr d / 256 * 256 + v)
    else if k =? 11 then with_dma d (d_rsar d) (v * 256 + d_rbcr d mod 256)
    else with_regs d (upd (d_regs d) k v)
  else d.

(** The transmission makes progress. *)
Definition tick_tx (d : dp8390) : dp8390 :=
  match d_busy d with
  | O => d
  | S n => Mk_dp (d_cr d) (d_regs d) (if (n =? 0)%nat then Z.lor (d_isr d) 2 else d_isr d) (d_rsar d) (d_rbcr d) (d_mem d) (d_wire d) n
  end.

Definition in8 (r : Z) (d : dp8390) : option Z :=
  if r =? 0 then Some (d_cr d)
  else if r =? 16 then Some (d_mem d (d_rsar d))
  else if r <? 16 then
    let k := d_page d * 16 + r in
    if k =? 7 then Some (d_isr d) else if (k =? 3) || (k =? 23) then Some (d_regs d k) else None
  else None.
Definition in8_after (r : Z) (d : dp8390) : dp8390 :=
  if r =? 16 then dma_advance (if word_mode d then 2 else 1) d
  else if r =? 31 then with_isr d 128
  else if (r =? 7) && (d_page d =? 0) then tick_tx d
  else d.

Definition in16 (d : dp8390) : Z := u8 (d_mem d (d_rsar d)) + 256 * u8 (d_mem d (d_rsar d + 1)).
Definition out16 (v : Z) (d : dp8390) : dp8390 :=
  if d_rbcr d =? 0 then d
  else dma_advance 2 (with_mem d (upd (upd (d_mem d) (d_rsar d) (u8 v)) (d_rsar d + 1) (u8 (v / 256)))).

(** Hardware with such a card at port [base]. *)
Class Ne2kDevice (H : Type) `{Ports H} `{WidePorts H} (base : Z) := {
  nic : H -> dp8390;
  tx_delay : nat;
  base_range : 0 < base <= 65536 - 32;
  tx_delay_range : (0 < tx_delay < TX_TIMEOUT)%nat;
  nic_outb : forall r v h, 0 <= r < 32 -> byte_ok v -> nic (dev_outb (base + r) v h) = out8 tx_delay r v (nic h);
  nic_inb : forall r h, 0 <= r < 32 -> exists v h', dev_inb (base + r) h = (v, h') /\ nic h' = in8_after r (nic h) /\
    forall x, in8 r (nic h) = Some x -> u8 v = u8 x;
  nic_inw : forall h, exists v h', dev_inw (base + 16) h = (v, h') /\ nic h' = dma_advance 2 (nic h) /\ u16 v = in16 (nic h);
  nic_outw : forall v h, 0 <= v < 2 ^ 16 -> nic (dev_outw (base + 16) v h) = out16 v (nic h)
}.

(** ** Running the driver on the controller *)

Ltac dp := cbv [NE2000_CR NE2000_BNRY NE2000_TPSR NE2000_TBCR0 NE2000_TBCR1 NE2000_ISR NE2000_RSAR0 NE2000_RSAR1 NE2000_RBCR0 NE2000_RBCR1 NE2000_RCR NE2000_TCR NE2000_DCR NE2000_IMR NE2000_PSTART NE2000_PSTOP
  with_dma with_isr with_cr with_regs with_mem d_cr d_regs d_isr d_rsar d_rbcr d_mem d_wire d_busy Z.eqb Pos.eqb].

Section Runs.
Context {H : Type} (base : Z) `{Ne2kDevice H base}.

(** [m] takes the controller from [d] to [d'] with result [a], and changes no variable of
    the driver. *)
Definition runs {X} (m : M (ne2000 H) X) (d : dp8390) (a : X) (d' : dp8390) : Prop :=
  forall s, io_base s = base -> nic (ne_hw s) = d -> exists h, m s = Some (a, ne_at s h) /\ nic h = d'.

Lemma runs_bind {X Y} (m : M (ne2000 H) X) (k : X -> M (ne2000 H) Y) d a d1 b d2 : runs m d a d1 -> runs (k a) d1 b d2 -> runs (m ≫= k) d b d2.
Proof.
  intros Hm Hk s Hs Hd. destruct (Hm s Hs Hd) as (h & E & Eh). rewrite (bind_eq _ _ _ _ _ E).
  destruct (Hk (ne_at s h) Hs Eh) as (h' & E' & Eh'). exists h'. by rewrite E'.
Qed.
Lemma runs_ret {X} (a : X) d : runs (mret a) d a d.
Proof. intros s _ Hd. exists (ne_hw s). split; [by destruct s|done]. Qed.
Lemma runs_lift {X Y} (o : option X) x (k : X -> M (ne2000 H) Y) d b d' : o = Some x -> runs (k x) d b d' -> runs (lift o ≫= k) d b d'.
Proof. intros -> Hk. exact Hk. Qed.

Lemma runs_assoc {X Y Z} (m : M (ne2000 H) X) (k : X -> M (ne2000 H) Y) (l : Y -> M (ne2000 H) Z) d b d' :
  runs ((m ≫= k) ≫= l) d b d' -> runs (m ≫= fun x => k x ≫= l) d b d'.
Proof. intros Hr s Hs Hd. destruct (Hr s Hs Hd) as (h & E & Eh). exists h. by rewrite <- bind_assoc. Qed.

Lemma runs_write r v d : 0 <= r < 32 -> byte_ok v -> runs (ne2000_write r v) d tt (out8 tx_delay r v d).
Proof.
  intros Hr Hv s Hs Hd. pose proof base_range. unfold ne2000_write. rewrite gets_bind, Hs. destruct (Z.eqb_spec base 0); [lia|].
  unfold outb, modify. cbn [hw ne2000_machine]. unfold byte_ok in Hv. rewrite !wrap_small by lia. eexists. split; [done|]. rewrite nic_outb by done. by rewrite Hd.
Qed.

Lemma runs_read r d x : 0 <= r < 32 -> in8 r d = Some x -> byte_ok x -> runs (ne2000_read r) d x (in8_after r d).
Proof.
  intros Hr Hx Hb s Hs Hd. pose proof base_range. unfold ne2000_read. rewrite gets_bind, Hs. destruct (Z.eqb_spec base 0); [lia|].
  unfold inb. cbn [hw ne2000_machine]. rewrite wrap_small by lia. destruct (nic_inb r (ne_hw s) Hr) as (v & h & E & Eh & Ev). rewrite E, Hd in *.
  exists h. split; [|done]. rewrite (Ev x Hx). unfold byte_ok in Hb. by rewrite wrap_small by lia.
Qed.

(** A register read for its effect. *)
Lemma runs_read_any r d {Y} (k : Z -> M (ne2000 H) Y) b d' : 0 <= r < 32 -> (forall x, byte_ok x -> runs (k x) (in8_after r d) b d') -> runs (ne2000_read r ≫= k) d b d'.
Proof.
  intros Hr Hk s Hs Hd. pose proof base_range. unfold ne2000_read. rewrite bind_assoc, gets_bind, Hs. destruct (Z.eqb_spec base 0); [lia|].
  unfold inb at 1, mbind, M_bind. cbn [hw ne2000_machine]. rewrite wrap_small by lia. destruct (nic_inb r (ne_hw s) Hr) as (v & h & E & Eh & Ev). rewrite E, Hd in *.
  destruct (Hk (u8 v) (wrap_range 8 v ltac:(lia)) (ne_at s h) Hs Eh) as (h' & E' & Eh'). exists h'. split; [exact E'|exact Eh'].
Qed.

Lemma runs_data_in d : runs data_in d (in16 d) (dma_advance 2 d).
Proof.
  intros s Hs Hd. pose proof base_range. unfold data_in. rewrite gets_bind, Hs. unfold inw. cbn [hw ne2000_machine]. unfold NE2000_DATA. rewrite wrap_small by lia.
  destruct (nic_inw (ne_hw s)) as (v & h & E & Eh & Ev). rewrite E, Hd in *. exists h. by rewrite Ev.
Qed.
Lemma runs_data_out v d : 0 <= v < 2 ^ 16 -> runs (data_out v) d tt (out16 v d).
Proof.
  intros Hv s Hs Hd. pose proof base_range. unfold data_out. rewrite gets_bind, Hs. unfold outw, modify. cbn [hw ne2000_machine]. unfold NE2000_DATA.
  rewrite !wrap_small by lia. eexists. split; [done|]. rewrite nic_outw by done. by rewrite Hd.
Qed.

Lemma runs_eq {X} (m : M (ne2000 H) X) d a d1 d2 : runs m d a d1 -> d1 = d2 -> runs m d a d2.
Proof. by intros Hm <-. Qed.

Lemma low_byte x : Z.land x 255 = x mod 256.
Proof. change 255 with (Z.ones 8). by rewrite Z.land_ones by lia. Qed.
Lemma high_byte x : Z.land (Z.shiftr x 8) 255 = x / 256 mod 256.
Proof. rewrite low_byte, Z.shiftr_div_pow2 by lia. done. Qed.

(** The registers, one by one. *)
Lemma runs_cr v d : byte_ok v -> Z.testbit v 2 = false -> runs (ne2000_write NE2000_CR v) d tt (with_cr d v).
Proof. intros Hv Ht. eapply runs_eq; [by apply runs_write|]. unfold out8. cbn [Z.eqb NE2000_CR]. by rewrite Ht. Qed.

Lemma out8_page0 r v d : d_page d = 0 -> 0 < r < 16 -> out8 tx_delay r v d =
  if r =? 7 then with_isr d (Z.ldiff (d_isr d) v)
  else if r =? 8 then with_dma d (d_rsar d / 256 * 256 + v) (d_rbcr d)
  else if r =? 9 then with_dma d (v * 256 + d_rsar d mod 256) (d_rbcr d)
  else if r =? 10 then with_dma d (d_rsar d) (d_rbcr d / 256 * 256 + v)
  else if r =? 11 then with_dma d (d_rsar d) (v * 256 + d_rbcr d mod 256)
  else with_regs d (upd (d_regs d) r v).
Proof. intros Hp Hr. unfold out8. destruct (Z.eqb_spec r 0), (Z.ltb_spec r 16); try lia. rewrite Hp, Z.mul_0_l, Z.add_0_l. done. Qed.
Lemma runs_page0 r v d d' : d_page d = 0 -> 0 < r < 16 -> byte_ok v -> 
  (if r =? 7 then with_isr d (Z.ldiff (d_isr d) v)
   else if r =? 8 then with_dma d (d_rsar d / 256 * 256 + v) (d_rbcr d)
   else if r =? 9 then with_dma d (v * 256 + d_rsar d mod 256) (d_rbcr d)
   else if r =? 10 then with_dma d (d_rsar d) (d_rbcr d / 256 * 256 + v)
   else if r =? 11 then with_dma d (d_rsar d) (v * 256 + d_rbcr d mod 256)
   else with_regs d (upd (d_regs d) r v)) = d' -> runs (ne2000_write r v) d tt d'.
Proof. intros Hp Hr Hv <-. eapply runs_eq; [apply runs_write; [lia|done]|by apply out8_page0]. Qed.

(** One write, on a controller in normal form. *)
Ltac wr_last := first [eapply runs_eq; [by apply runs_cr|dp; reflexivity]
                      |eapply runs_page0; [done|done|first [done | apply land_byte_ok | assumption | idtac]|dp; reflexivity]].
Ltac wr := eapply runs_bind; [wr_last|].

Lemma start_read_runs page offset len d : byte_ok page -> byte_ok offset -> 0 <= len < 65536 ->
  runs (start_read page offset len) d tt (with_dma (with_cr d 10) (page * 256 + offset) len).
Proof.
  intros Hp Ho Hl. destruct d. unfold start_read. do 5 wr. eapply runs_eq; [wr_last|].
  rewrite high_byte, low_byte. unfold byte_ok in *. dp. f_equal; zlia.
Qed.

(** The status, with the controller idle. *)
Lemma wait_isr_now mask n d : d_page d = 0 -> byte_ok (d_isr d) -> d_busy d = 0%nat -> Z.land (d_isr d) mask <> 0 -> runs (wait_isr mask n) d (Z.of_nat n) d.
Proof.
  intros Hp Hi Hb Hm. destruct n; cbn [wait_isr]; (eapply runs_bind; [apply (runs_read 7 d (d_isr d)); [done| |done]; unfold in8; by rewrite Hp|]);
    unfold in8_after; rewrite Hp; change (7 =? 16) with false; change (7 =? 31) with false; change ((7 =? 7) && (0 =? 0)) with true; cbv iota; unfold tick_tx; rewrite Hb; (destruct (Z.eqb_spec (Z.land (d_isr d) mask) 0); [done|]; apply runs_ret).
Qed.

(** ** The ring

    Byte [k] behind the start of page [p], in the receive buffer that wraps. *)

Definition ra (p k : Z) : Z := 16384 + ((p - 64) * 256 + k) mod 16384.
Definition ring_bytes (m : Z -> Z) (p k : Z) (n : nat) : buf := map (fun j => u8 (m (ra p (k + Z.of_nat j)))) (seq 0 n).
Definition ring_regs (d : dp8390) : Prop := d_regs d 1 = RX_START_PAGE /\ d_regs d 2 = RX_STOP_PAGE.

Lemma length_ring_bytes m p k n : length (ring_bytes m p k n) = n.
Proof. unfold ring_bytes. by rewrite length_map, length_seq. Qed.
Lemma ring_bytes_app m p k a b : ring_bytes m p k (a + b) = ring_bytes m p k a ++ ring_bytes m p (k + Z.of_nat a) b.
Proof.
  unfold ring_bytes. rewrite seq_app, map_app. f_equal. rewrite <- (Nat.add_0_r (0 + a)), <- fmap_add_seq, map_map. apply map_ext. intros j. do 3 f_equal. lia.
Qed.
Lemma ring_bytes_1 m p k : ring_bytes m p k 1 = [u8 (m (ra p k))].
Proof. unfold ring_bytes. cbn [seq map]. by rewrite Z.add_0_r. Qed.
Lemma ra_next p k : k mod 2 = 0 -> ra p (k + 1) = ra p k + 1 /\ (if ra p k + 2 =? 128 * 256 then 64 * 256 else ra p k + 2) = ra p (k + 2).
Proof. intros Hk. unfold ra. destruct (Z.eqb_spec (16384 + ((p - 64) * 256 + k) mod 16384 + 2) (128 * 256)); zlia. Qed.
Lemma ra_page p k : 64 <= p < 128 -> 0 <= k < 256 -> ra p k = p * 256 + k.
Proof. intros Hp Hk. unfold ra. zlia. Qed.

(** After [n] words from address [a] on. *)
Definition moved (d : dp8390) (a : Z) (n : nat) : dp8390 :=
  with_isr (with_dma d a (Z.max 0 (d_rbcr d - 2 * Z.of_nat n)))
    (if (0 <? Z.of_nat n) && (d_rbcr d <=? 2 * Z.of_nat n) then Z.lor (d_isr d) 64 else d_isr d).

Lemma lor_idem a b : Z.lor (Z.lor a b) b = Z.lor a b.
Proof. by rewrite <- Z.lor_assoc, Z.lor_diag. Qed.

Lemma in16_bytes d : Z.land (in16 d) 255 = u8 (d_mem d (d_rsar d)) /\ Z.land (Z.shiftr (in16 d) 8) 255 = u8 (d_mem d (d_rsar d + 1)).
Proof.
  rewrite high_byte, low_byte. unfold in16. pose proof (wrap_range 8 (d_mem d (d_rsar d)) ltac:(lia)) as Hw1. pose proof (wrap_range 8 (d_mem d (d_rsar d + 1)) ltac:(lia)) as Hw2.
  change (2 ^ 8) with 256 in *. split; zlia.
Qed.

Lemma read_words_runs p n : forall k d, ring_regs d -> d_rsar d = ra p k -> k mod 2 = 0 -> 0 <= d_rbcr d ->
  runs (read_words n) d (ring_bytes (d_mem d) p k (2 * n)) (moved d (ra p (k + 2 * Z.of_nat n)) n).
Proof.
  induction n as [|n IH]; intros k d Hr Ha Hk Hc; cbn [read_words].
  { eapply runs_eq; [apply runs_ret|]. destruct d. unfold moved. dp. cbn [andb Z.ltb Z.compare Z.of_nat]. simpl in *. f_equal; [by rewrite Z.add_0_r|lia]. }
  eapply runs_bind; [apply runs_data_in|]. destruct (ra_next p k Hk) as [E1 E2]. destruct Hr as [R1 R2].
  assert (dma_advance 2 d = moved d (ra p (k + 2)) 1) as Ed.
  { unfold dma_advance, moved. rewrite R1, R2, Ha. unfold RX_START_PAGE, RX_STOP_PAGE. rewrite E2. change (0 <? Z.of_nat 1) with true. change (2 * Z.of_nat 1) with 2. cbn [andb].
    destruct (Z.leb_spec (d_rbcr d) 2); destruct d; cbn [d_rbcr] in *; dp; f_equal; lia. }
  rewrite Ed. eapply runs_bind; [apply (IH (k + 2)); [done|done|zlia|cbn; lia]|].
  destruct (in16_bytes d) as [-> ->]. eapply runs_eq.
  - replace (2 * S n)%nat with (1 + (1 + 2 * n))%nat by lia. rewrite !ring_bytes_app, !ring_bytes_1, Ha, <- E1.
    change (k + Z.of_nat 1) with (k + 1). replace (k + 1 + Z.of_nat 1) with (k + 2) by lia. apply runs_ret.
  - unfold moved. destruct d as [cr rg isr a c m w b]. dp. simpl in Hc. replace (k + 2 + 2 * Z.of_nat n) with (k + 2 * Z.of_nat (S n)) by lia. f_equal; [|lia].
    change (0 <? Z.of_nat 1) with true. cbn [andb]. destruct (Z.ltb_spec 0 (Z.of_nat (S n))); [|lia]. cbn [andb].
    destruct (Z.leb_spec c (2 * Z.of_nat 1)), (Z.ltb_spec 0 (Z.of_nat n)), (Z.leb_spec (Z.max 0 (c - 2 * Z.of_nat 1)) (2 * Z.of_nat n)), (Z.leb_spec c (2 * Z.of_nat (S n))); cbn [andb]; try lia; try done; apply lor_idem.
Qed.

(** The transfer is over. *)
Definition finished (d : dp8390) (a : Z) : dp8390 := with_isr (with_dma d a 0) (Z.lor (d_isr d) 64).

Lemma read_block_runs p k len d : ring_regs d -> d_rsar d = ra p k -> k mod 2 = 0 -> d_rbcr d = len -> 0 < len ->
  runs (read_block len) d (ring_bytes (d_mem d) p k (Z.to_nat len)) (finished d (ra p (k + 2 * ((len + 1) / 2)))).
Proof.
  intros Hr Ha Hk Hc Hl. unfold read_block. eapply runs_bind; [apply (read_words_runs p _ k); [done|done|done|lia]|].
  assert (Z.land len 1 = len mod 2) as -> by (change 1 with (Z.ones 1); by rewrite Z.land_ones by lia).
  destruct (Z.eqb_spec (len mod 2) 0) as [Hev|Hodd].
  - replace (2 * Z.to_nat (len / 2))%nat with (Z.to_nat len) by zlia. eapply runs_eq; [apply runs_ret|]. unfold moved, finished. destruct d. dp. simpl in Hc.
    replace ((len + 1) / 2) with (len / 2) by zlia. replace (2 * Z.of_nat (Z.to_nat (len / 2))) with len by zlia. replace (2 * (len / 2)) with len by zlia.
    f_equal; [|lia]. destruct (Z.ltb_spec 0 (Z.of_nat (Z.to_nat (len / 2)))); [|zlia]. destruct (Z.leb_spec d_rbcr0 len); [done|lia].
  - set (n := Z.to_nat (len / 2)) in *. set (d1 := moved d _ n). eapply runs_bind; [apply runs_data_in|]. destruct (in16_bytes d1) as [-> _].
    assert (d_rsar d1 = ra p (k + 2 * Z.of_nat n)) as Ea by done. destruct (ra_next p (k + 2 * Z.of_nat n)) as [_ E2]; [zlia|]. destruct Hr as [R1 R2].
    eapply runs_eq.
    + replace (Z.to_nat len) with (2 * n + 1)%nat by (unfold n; zlia). rewrite ring_bytes_app, Ea.
      rewrite ring_bytes_1. replace (k + Z.of_nat (2 * n)) with (k + 2 * Z.of_nat n) by lia. apply runs_ret.
    + unfold dma_advance. rewrite Ea. assert (d_regs d1 = d_regs d) as -> by done. rewrite R1, R2. unfold RX_START_PAGE, RX_STOP_PAGE. rewrite E2.
      assert (d_rbcr d1 = 1) as -> by (unfold d1, moved, n; cbn; zlia). change (1 <=? 2) with true. cbv iota. unfold d1, moved, finished. destruct d as [cr rg isr a c m w b]. dp. simpl in Hc.
      replace (k + 2 * Z.of_nat n + 2) with (k + 2 * ((len + 1) / 2)) by (unfold n; zlia). f_equal.
      destruct (Z.leb_spec c (2 * Z.of_nat n)); [unfold n in *; zlia|]. by rewrite andb_false_r.
Qed.
End Runs.

(** ** Frames in the ring *)

(** A frame takes its header, its bytes and the checksum, in whole pages. *)
Definition pages (f : buf) : Z := (blen f + 8 + 255) / 256.
Definition page_at (p k : Z) : Z := 64 + (p - 64 + k) mod 64.
Definition header (next : Z) (f : buf) : buf := [1; next] ++ le_put 2 (blen f + 4).
Definition entry (m : Z -> Z) (p : Z) (f : buf) : Prop := ring_bytes m p 0 (4 + length f) = header (page_at p (pages f)) f ++ f.

(** The frames from page [p] up to page [c]. *)
Fixpoint stored (m : Z -> Z) (p : Z) (fs : list buf) (c : Z) : Prop :=
  match fs with [] => c = p | f :: fs' => entry m p f /\ stored m (page_at p (pages f)) fs' c end.
Definition total (fs : list buf) : Z := foldr (fun f n => pages f + n) 0 fs.

(** What the card accepts: whole frames without their checksum. *)
Definition frame_ok (f : buf) : Prop := bytes_ok f /\ 56 <= blen f <= 1514.

(** A frame arrives: the card writes it behind the last one. *)
Definition ring_write (m : Z -> Z) (c : Z) (l : buf) : Z -> Z := fun a =>
  if (16384 <=? a) && (a <? 32768) then match l !! Z.to_nat ((a - c * 256) mod 16384) with Some v => v | None => m a end else m a.
Definition arrive (f crc : buf) (d : dp8390) : dp8390 :=
  let next := page_at (d_curr d) (pages f) in
  with_isr (with_regs (with_mem d (ring_write (d_mem d) (d_curr d) (header next f ++ f ++ crc))) (upd (d_regs d) 23 next)) (Z.lor (d_isr d) 1).

(** The driver and the card between two operations, with the frames [fs] in the buffer. *)
Record idle (d : dp8390) : Prop := {
  i_ring : ring_regs d; i_word : word_mode d = true; i_isr : byte_ok (d_isr d); i_ptx : Z.land (d_isr d) 2 = 0; i_busy : d_busy d = 0%nat;
  i_page : d_page d = 0
}.
(** The flags of a received packet (1) and of a full buffer (16). *)
Definition rx_flags (d : dp8390) : Z := Z.land (d_isr d) 17.
Record ring (d : dp8390) (fs : list buf) : Prop := {
  r_idle : idle d; r_bnry : 63 <= d_bnry d < 128; r_curr : 64 <= d_curr d < 128;
  r_stored : stored (d_mem d) (next_ring_page (d_bnry d)) fs (d_curr d); r_total : total fs <= 63; r_ok : Forall frame_ok fs
}.

Lemma page_at_range p k : 64 <= page_at p k < 128.
Proof. unfold page_at. zlia. Qed.
Lemma page_at_page_at p k j : page_at (page_at p k) j = page_at p (k + j).
Proof. unfold page_at. zlia. Qed.
Lemma page_at_0 p : 64 <= p < 128 -> page_at p 0 = p.
Proof. unfold page_at. zlia. Qed.
Lemma ra_page_at p k x : ra (page_at p k) x = ra p (256 * k + x).
Proof. unfold ra, page_at. f_equal. replace (64 + (p - 64 + k) mod 64 - 64) with ((p - 64 + k) mod 64) by lia. rewrite (Z.mod_eq (p - 64 + k) 64) by lia.
  replace ((p - 64 + k - 64 * ((p - 64 + k) / 64)) * 256 + x) with ((p - 64) * 256 + (256 * k + x) + (- ((p - 64 + k) / 64)) * 16384) by lia. by rewrite Z.mod_add by lia. Qed.
Lemma pages_pos f : 0 < pages f.
Proof. unfold pages, blen. zlia. Qed.
Lemma total_nonneg fs : 0 <= total fs.
Proof. unfold total. induction fs as [|f fs IH]; cbn [foldr]; [lia|]. pose proof (pages_pos f). lia. Qed.
Lemma total_app a b : total (a ++ b) = total a + total b.
Proof. unfold total. induction a as [|f a IH]; cbn [foldr app]; [done|]. rewrite IH. lia. Qed.
Lemma next_ring_page_at b : 63 <= b < 128 -> next_ring_page b = page_at b 1 /\ 64 <= next_ring_page b < 128.
Proof. intros Hb. unfold next_ring_page, page_at, RX_STOP_PAGE, RX_START_PAGE. rewrite wrap_small by lia. destruct (Z.leb_spec 128 (b + 1)); zlia. Qed.
Lemma boundary_next n : 64 <= n < 128 -> next_ring_page (boundary_before n) = n /\ 64 <= boundary_before n < 128.
Proof.
  intros Hn. unfold next_ring_page, boundary_before, RX_STOP_PAGE, RX_START_PAGE. rewrite (wrap_small 8 (n - 1)) by lia. destruct (Z.ltb_spec (n - 1) 64).
  - replace n with 64 by lia. done.
  - rewrite wrap_small by lia. destruct (Z.leb_spec 128 (n - 1 + 1)); lia.
Qed.

(** Frames stay when the memory that holds them does. *)
Lemma stored_same m m' c fs : forall p, (forall x, 0 <= x < 256 * total fs -> m' (ra p x) = m (ra p x)) -> stored m p fs c -> stored m' p fs c.
Proof.
  induction fs as [|f fs IH]; intros p Hm; cbn [stored]; [done|]. change (total (f :: fs)) with (pages f + total fs) in Hm. pose proof (total_nonneg fs). pose proof (pages_pos f). intros [He Hs]. split.
  - unfold entry in *. rewrite <- He. unfold ring_bytes. apply map_ext_in. intros j Hj%in_seq. f_equal. apply Hm. unfold pages, blen in *. zlia.
  - apply IH; [|done]. intros x Hx. rewrite !ra_page_at. apply Hm. lia.
Qed.

Lemma stored_app m g c c' fs : forall p, stored m p fs c -> entry m c g -> c' = page_at c (pages g) -> stored m p (fs ++ [g]) c'.
Proof. induction fs as [|f fs IH]; intros p; cbn [stored app]; [intros -> He ->; by split|]. intros [Hf Hs] He Hc. split; [done|]. by apply IH. Qed.

Lemma stored_end m fs c : forall p, 64 <= p < 128 -> stored m p fs c -> c = page_at p (total fs).
Proof.
  induction fs as [|f fs IH]; intros p Hp; cbn [stored]; [intros ->; unfold total; cbn [foldr]; by rewrite page_at_0|].
  intros [_ Hs]. rewrite (IH _ (page_at_range _ _) Hs), page_at_page_at. done.
Qed.

Lemma ring_write_at m c l k : 64 <= c < 128 -> 0 <= k < 16384 -> ring_write m c l (ra c k) = default (m (ra c k)) (l !! Z.to_nat k).
Proof.
  intros Hc Hk. unfold ring_write. assert (16384 <= ra c k < 32768) as Hr by (unfold ra; zlia).
  rewrite (proj2 (Z.leb_le _ _)), (proj2 (Z.ltb_lt _ _)) by lia. cbn [andb].
  assert ((ra c k - c * 256) mod 16384 = k) as -> by (unfold ra; zlia). by destruct (l !! Z.to_nat k).
Qed.

Lemma byte_ok_land x : byte_ok x <-> Z.land x 255 = x.
Proof.
  rewrite low_byte. unfold byte_ok. split; [intros Hx; by apply Z.mod_small|]. intros E. rewrite <- E. apply Z.mod_pos_bound. lia.
Qed.
Lemma byte_lor a b : byte_ok a -> byte_ok b -> byte_ok (Z.lor a b).
Proof. rewrite !byte_ok_land. intros Ha Hb. by rewrite Z.land_lor_distr_l, Ha, Hb. Qed.
Lemma byte_ldiff a b : byte_ok a -> byte_ok (Z.ldiff a b).
Proof.
  rewrite !byte_ok_land. intros Ha. rewrite <- Ha at 2. apply Z.bits_inj'. intros i Hi. rewrite !Z.land_spec, !Z.ldiff_spec, !Z.land_spec.
  destruct (Z.testbit a i), (Z.testbit b i), (Z.testbit 255 i); done.
Qed.

Lemma ldiff_land_comm a b c : Z.land (Z.ldiff a b) c = Z.ldiff (Z.land a c) b.
Proof. apply Z.bits_inj'. intros i Hi. rewrite Z.land_spec, !Z.ldiff_spec, Z.land_spec. destruct (Z.testbit a i), (Z.testbit b i), (Z.testbit c i); done. Qed.

(** Bits outside of a mask. *)
Lemma land_ldiff_out a b c : Z.land b c = 0 -> Z.land (Z.ldiff a b) c = Z.land a c.
Proof.
  intros E. apply Z.bits_inj'. intros i Hi. apply (f_equal (fun x => Z.testbit x i)) in E. rewrite Z.land_spec, Z.bits_0 in E. rewrite !Z.land_spec, Z.ldiff_spec.
  destruct (Z.testbit a i), (Z.testbit b i), (Z.testbit c i); done.
Qed.
Lemma land_lor_out a b c : Z.land b c = 0 -> Z.land (Z.lor a b) c = Z.land a c.
Proof. intros E. by rewrite Z.land_lor_distr_l, E, Z.lor_0_r. Qed.

Lemma header_bytes p f : frame_ok f -> bytes_ok (header (page_at p (pages f)) f ++ f).
Proof.
  intros [Hf _]. pose proof (page_at_range p (pages f)). unfold header. rewrite !bytes_ok_app. split_and!; [|apply le_put_ok|done].
  repeat (apply Forall_cons; split; [unfold byte_ok; lia|]). apply Forall_nil_2.
Qed.

Lemma entry_written m p f crc : 64 <= p < 128 -> frame_ok f -> entry (ring_write m p (header (page_at p (pages f)) f ++ f ++ crc)) p f.
Proof.
  intros Hp Hf. pose proof (header_bytes p f Hf) as Hb. destruct Hf as [_ Hl]. unfold blen in Hl. unfold entry. set (h := header _ f) in *. rewrite app_assoc.
  assert (length (h ++ f) = 4 + length f)%nat as El by done. apply list_eq. intros i. unfold ring_bytes. rewrite list_lookup_fmap.
  destruct (decide (i < 4 + length f)%nat) as [Hi|].
  - rewrite lookup_seq_lt, Nat.add_0_l by lia. cbn [fmap option_fmap option_map]. rewrite !Z.add_0_l, ring_write_at by lia. rewrite Nat2Z.id, lookup_app_l by lia.
    destruct (lookup_lt_is_Some_2 (h ++ f) i) as [v Ev]; [lia|]. rewrite Ev. cbn [default from_option id]. pose proof (Forall_lookup_1 _ _ _ _ Hb Ev) as Hv. f_equal.
    apply wrap_small. exact Hv.
  - rewrite lookup_seq_ge by lia. symmetry. cbn [fmap option_fmap option_map]. apply lookup_ge_None. lia.
Qed.

(** An arriving frame is put behind the others. *)
Lemma arrive_ring f crc d fs : ring d fs -> frame_ok f -> length crc = 4%nat -> total (fs ++ [f]) <= 63 -> ring (arrive f crc d) (fs ++ [f]).
Proof.
  intros [[Hrg Hw Hi Hpt Hbs Hpg] Hb Hc Hs Ht Hok] Hf Hcrc Hfit. rewrite total_app in Hfit. change (total [f]) with (pages f + 0) in Hfit.
  destruct (next_ring_page_at (d_bnry d) Hb) as [_ Hp]. pose proof (stored_end _ _ _ _ Hp Hs) as Hend. pose proof (total_nonneg fs). pose proof (pages_pos f).
  set (c := d_curr d) in *. set (p := next_ring_page (d_bnry d)) in *. unfold arrive. fold c. set (l := header _ f ++ f ++ crc). split.
  - split; [done|done|by apply byte_lor| |done|done]. cbn. by rewrite Z.land_lor_distr_l, Hpt.
  - exact Hb.
  - apply (page_at_range c (pages f)).
  - change (stored (ring_write (d_mem d) c l) p (fs ++ [f]) (page_at c (pages f))). eapply stored_app; [|by apply entry_written|done].
    eapply stored_same; [|exact Hs]. intros x Hx. set (k := x - 256 * total fs + 16384).
    assert (ra p x = ra c k) as -> by (rewrite Hend, ra_page_at; unfold k, ra; f_equal; replace ((p - 64) * 256 + (256 * total fs + (x - 256 * total fs + 16384))) with ((p - 64) * 256 + x + 1 * 16384) by lia; by rewrite Z.mod_add by lia).
    rewrite ring_write_at by (unfold k; lia). rewrite lookup_ge_None_2; [done|]. unfold l. rewrite !length_app, Hcrc. unfold header. cbn [length app]. rewrite length_le_put.
    unfold k, pages, blen in *. zlia.
  - rewrite total_app. change (total [f]) with (pages f + 0). lia.
  - apply Forall_app. split; [done|]. by constructor.
Qed.

Ltac wr_last := first [eapply runs_eq; [by apply runs_cr|dp; reflexivity]
                      |eapply runs_page0; [done|done|first [done | apply land_byte_ok | assumption | idtac]|dp; reflexivity]].
Ltac wr := eapply runs_bind; [wr_last|].

Section Receive.
Context {H : Type} (base : Z) `{Ne2kDevice H base}.
Abbreviation runs := (runs base).

(** The controller after a remote read, before and after the flag is cleared. *)
Definition after_read (d : dp8390) (a : Z) : dp8390 := Mk_dp 10 (d_regs d) (Z.lor (d_isr d) 64) a 0 (d_mem d) (d_wire d) (d_busy d).
Definition acked (d : dp8390) (a : Z) : dp8390 := Mk_dp 10 (d_regs d) (Z.ldiff (Z.lor (d_isr d) 64) 64) a 0 (d_mem d) (d_wire d) (d_busy d).

Lemma acked_idle d a : idle d -> idle (acked d a).
Proof.
  intros [Hr Hw Hi Hpt Hb Hpg]. split; [done|done|by apply byte_ldiff, byte_lor| |done|done]. cbn. rewrite ldiff_land_comm, Z.land_lor_distr_l, Hpt. done.
Qed.

Lemma acked_flags d a : rx_flags (acked d a) = rx_flags d.
Proof. unfold rx_flags. cbn [acked d_isr]. by rewrite land_ldiff_out, land_lor_out. Qed.

Lemma remote_read_runs p offset len d : idle d -> 64 <= p < 128 -> byte_ok offset -> offset mod 2 = 0 -> 0 < len < 65536 -> exists a,
  runs (_ ← start_read p offset len; read_block len) d (ring_bytes (d_mem d) p offset (Z.to_nat len)) (after_read d a).
Proof.
  intros [Hr Hw Hi Hpt Hb Hpg] Hp Ho He Hl. eexists. eapply runs_bind; [apply start_read_runs; [unfold byte_ok; lia|done|lia]|].
  eapply runs_eq; [apply (read_block_runs base p offset len (with_dma (with_cr d 10) (p * 256 + offset) len)); [done| |done|done|lia]|].
  - cbn. unfold byte_ok in Ho. by rewrite ra_page.
  - destruct d. unfold finished. dp. reflexivity.
Qed.

Lemma wait_after_read n d a : idle d -> runs (wait_isr ISR_RDC n) (after_read d a) (Z.of_nat n) (after_read d a).
Proof.
  intros [Hr Hw Hi Hpt Hb Hpg]. apply wait_isr_now; [done|by apply byte_lor|done|]. cbn. rewrite Z.land_lor_distr_l. unfold ISR_RDC.
  rewrite Z.land_diag. intros E%Z.lor_eq_0_iff. by destruct E.
Qed.
Lemma ack_runs d a : runs (ne2000_write NE2000_ISR ISR_RDC) (after_read d a) tt (acked d a).
Proof. destruct d. unfold after_read, acked. wr_last. Qed.

Lemma read_header_runs p d : idle d -> 64 <= p < 128 -> exists a, runs (read_header p) d (ring_bytes (d_mem d) p 0 4) (after_read d a).
Proof.
  intros Hd Hp. destruct (remote_read_runs p 0 4 d Hd Hp) as [a Ha]; [done|done|lia|]. exists a. unfold read_header.
  intros s Hs Es. destruct (Ha s Hs Es) as (h & E & Eh). exists h. split; [|done]. etrans; [|exact E]. unfold mbind, M_bind. destruct (start_read p 0 4 s) as [[[] s1]|]; [|done].
  unfold read_block. change (Z.to_nat (4 / 2)) with 2%nat. unfold mbind, M_bind. by destruct (read_words 2 s1) as [[l s2]|].
Qed.

Lemma timeout_pos : (Z.of_nat DMA_TIMEOUT <=? 0) = false.
Proof. unfold DMA_TIMEOUT. by rewrite Z2Nat.id by lia. Qed.

Lemma entry_parts m p f : entry m p f -> ring_bytes m p 0 4 = header (page_at p (pages f)) f /\ ring_bytes m p 4 (length f) = f.
Proof. unfold entry. rewrite ring_bytes_app. intros E. apply app_inj_1 in E; [|by rewrite length_ring_bytes]. exact E. Qed.

Lemma set_boundary_runs b d : idle d -> byte_ok b -> exists d', runs (set_boundary b) d tt d' /\ idle d' /\ d_mem d' = d_mem d /\ d_wire d' = d_wire d /\ d_regs d' = upd (d_regs d) 3 b /\ rx_flags d' = rx_flags d.
Proof. intros [Hr Hw Hi Hpt Hb Hpg] Hbb. destruct d. eexists. split; [unfold set_boundary; wr; wr_last|]. split; [by split|]. done. Qed.

Lemma length_field f : frame_ok f -> exists lo hi, le_put 2 (blen f + 4) = [lo; hi] /\ byte_ok lo /\ byte_ok hi /\ u16 (Z.lor lo (Z.shiftl hi 8)) = blen f + 4.
Proof.
  intros [_ Hl]. set (v := blen f + 4) in *. eexists _, _. split; [reflexivity|]. assert (0 <= v < 2 ^ 16) as Hv by (unfold v; lia). clearbody v.
  unfold byte_ok. split_and!; try zlia. rewrite Z.lor_comm, lor_shiftl_add by zlia. rewrite wrap_small; zlia.
Qed.

Lemma receive_at_runs p f d buffer size : idle d -> 64 <= p < 128 -> frame_ok f -> entry (d_mem d) p f -> blen f <= size -> (length f <= length buffer)%nat ->
  exists d', runs (receive_at p buffer size) d (blen f, f ++ drop (length f) buffer) d' /\ idle d' /\ d_mem d' = d_mem d /\ d_wire d' = d_wire d /\
    d_regs d' = upd (d_regs d) 3 (boundary_before (page_at p (pages f))) /\ rx_flags d' = rx_flags d.
Proof.
  intros Hd Hp Hf He Hs Hl. destruct (entry_parts _ _ _ He) as [E4 Ef]. destruct (length_field f Hf) as (lo & hi & Ele & Hlo & Hhi & Ev).
  set (n := page_at p (pages f)) in *. assert (64 <= n < 128) as Hn by apply page_at_range. destruct Hf as [Hfb Hfl].
  destruct (read_header_runs p d Hd Hp) as [a Ra]. pose proof (acked_idle d a Hd) as Hd1.
  destruct (remote_read_runs p 4 (blen f) (acked d a) Hd1 Hp) as [a2 Ra2]; [done|done|lia|]. pose proof (acked_idle _ a2 Hd1) as Hd2.
  destruct (set_boundary_runs (boundary_before n) (acked (acked d a) a2) Hd2) as (d' & Rb & Hd' & Em & Ewr & Eg & Efl). { destruct (boundary_next n Hn). unfold byte_ok. lia. }
  rewrite !acked_flags in Efl. exists d'. split; [|by split_and!]. unfold receive_at. eapply runs_bind; [exact Ra|]. eapply runs_bind; [by apply wait_after_read|]. rewrite timeout_pos.
  eapply runs_bind; [apply ack_runs|]. rewrite E4. unfold header. rewrite Ele. cbn [app].
  eapply runs_lift; [reflexivity|]. eapply runs_lift; [reflexivity|]. eapply runs_lift; [reflexivity|]. eapply runs_lift; [reflexivity|]. rewrite Ev.
  destruct (Z.ltb_spec 1518 (blen f + 4)); [lia|]. eapply runs_bind; [apply runs_ret|]. change (Z.land 1 1 =? 0) with false. cbv iota.
  unfold RX_START_PAGE, RX_STOP_PAGE. destruct (Z.ltb_spec n 64), (Z.leb_spec 128 n), (Z.ltb_spec (blen f + 4) 60), (Z.ltb_spec size (blen f + 4 - 4)); try lia. cbn [orb].
  replace (blen f + 4 - 4) with (blen f) by lia. rewrite (wrap_small 16) by lia.
  apply (runs_assoc base (start_read p 4 (blen f)) (fun _ => read_block (blen f))). eapply runs_bind; [exact Ra2|].
  change (d_mem (acked d a)) with (d_mem d). replace (Z.to_nat (blen f)) with (length f) by (unfold blen; lia). rewrite Ef.
  eapply runs_lift. { unfold put_bytes. rewrite (proj2 (Nat.leb_le _ _)) by lia. unfold blit. by rewrite take_0. }
  eapply runs_bind; [by apply wait_after_read|]. rewrite timeout_pos. eapply runs_bind; [apply ack_runs|]. eapply runs_bind; [exact Rb|]. apply runs_ret.
Qed.

(** The two page registers. *)
Lemma poll_runs {X} (k : Z -> Z -> M (ne2000 H) X) d b d' : idle d -> byte_ok (d_curr d) -> byte_ok (d_bnry d) ->
  runs (k (d_curr d) (d_bnry d)) (with_cr d 34) b d' ->
  runs (_ ← ne2000_write NE2000_CR 98; c ← ne2000_read NE2000_CURR; _ ← ne2000_write NE2000_CR 34; n ← ne2000_read NE2000_BNRY; k c n) d b d'.
Proof.
  intros Hd Hc Hn Hk. destruct d as [cr rg isr a c m w bs]. wr. eapply runs_bind; [apply (runs_read base 7 _ (rg 23)); [done|reflexivity|done]|].
  change (in8_after _ _) with (Mk_dp 98 rg isr a c m w bs). wr. eapply runs_bind; [apply (runs_read base 3 _ (rg 3)); [done|reflexivity|done]|]. exact Hk.
Qed.

Lemma idle_cr d : idle d -> idle (with_cr d 34).
Proof. intros [Hr Hw Hi Hpt Hb Hpg]. by split. Qed.

Lemma total_cons f fs : total (f :: fs) = pages f + total fs.
Proof. done. Qed.
Lemma curr_differs m p f fs c : 64 <= p < 128 -> stored m p (f :: fs) c -> total (f :: fs) <= 63 -> p <> c.
Proof.
  intros Hp Hs Ht. rewrite (stored_end _ _ _ _ Hp Hs). pose proof (pages_pos f). pose proof (total_nonneg fs). rewrite total_cons in *. unfold page_at. zlia.
Qed.

Lemma receive_empty d buffer size : ring d [] -> exists d', runs (ne2000_receive_packet buffer size) d (0, buffer) d' /\ ring d' [] /\ d_wire d' = d_wire d /\ rx_flags d' = rx_flags d.
Proof.
  intros [Hd Hb Hc Hs Ht Hok]. exists (with_cr d 34). split; [|split; [|done]].
  - unfold ne2000_receive_packet. apply poll_runs; [done|unfold byte_ok; lia|unfold byte_ok; lia|]. cbn [stored] in Hs. rewrite Hs, Z.eqb_refl. apply runs_ret.
  - split; try done. by apply idle_cr.
Qed.

Lemma skip_empty_runs n p c f d : idle d -> 64 <= p < 128 -> p <> c -> frame_ok f -> entry (d_mem d) p f -> exists a, runs (skip_empty (S n) p c) d p (acked d a).
Proof.
  intros Hd Hp Hpc Hf He. destruct (entry_parts _ _ _ He) as [E4 _]. destruct (read_header_runs p d Hd Hp) as [a Ra]. exists a. cbn [skip_empty].
  destruct (Z.eqb_spec p c); [done|]. eapply runs_bind; [exact Ra|]. eapply runs_bind; [by apply wait_after_read|]. eapply runs_bind; [apply ack_runs|]. rewrite E4. apply runs_ret.
Qed.

Lemma receive_frame d f fs buffer size : ring d (f :: fs) -> blen f <= size -> (length f <= length buffer)%nat ->
  exists d', runs (ne2000_receive_packet buffer size) d (blen f, f ++ drop (length f) buffer) d' /\ ring d' fs /\ d_wire d' = d_wire d /\ rx_flags d' = rx_flags d.
Proof.
  intros [Hd Hb Hc Hs Ht Hok] Hsz Hl. destruct (next_ring_page_at (d_bnry d) Hb) as [_ Hp]. set (p := next_ring_page (d_bnry d)) in *.
  pose proof (curr_differs _ _ _ _ _ Hp Hs Ht) as Hne. cbn [stored] in Hs. destruct Hs as [He Hs]. apply Forall_cons in Hok as [Hf Hok]. set (n := page_at p (pages f)) in *.
  destruct (skip_empty_runs 4 p (d_curr d) f (with_cr d 34) (idle_cr d Hd) Hp Hne Hf He) as [a Ra].
  destruct (receive_at_runs p f (acked (with_cr d 34) a) buffer size) as (d' & Rd & Hd' & Em & Ew & Eg & Efl); [by apply acked_idle, idle_cr|done|done|done|done|done|].
  rewrite acked_flags in Efl. exists d'. split; [|split; [|done]].
  - unfold ne2000_receive_packet. apply poll_runs; [done|unfold byte_ok; lia|unfold byte_ok; lia|]. fold p. destruct (Z.eqb_spec p (d_curr d)); [done|].
    eapply runs_bind; [exact Ra|]. destruct (Z.eqb_spec p (d_curr d)); [done|]. exact Rd.
  - assert (64 <= n < 128) as Hn by apply page_at_range. destruct (boundary_next n Hn) as [En Hnb]. assert (d_curr d' = d_curr d) as Ec by (unfold d_curr; by rewrite Eg).
    assert (d_bnry d' = boundary_before n) as Ebn by (unfold d_bnry; by rewrite Eg). split; [done|rewrite Ebn; lia|by rewrite Ec| | |done].
    + rewrite Ebn, En, Em, Ec. exact Hs.
    + rewrite total_cons in Ht. pose proof (pages_pos f). lia.
Qed.
(** A frame that is larger than the caller's buffer is given up. *)
Lemma receive_at_large p f d buffer size : idle d -> 64 <= p < 128 -> frame_ok f -> entry (d_mem d) p f -> size < blen f ->
  exists d', runs (receive_at p buffer size) d (-1, buffer) d' /\ idle d' /\ d_mem d' = d_mem d /\ d_wire d' = d_wire d /\
    d_regs d' = upd (d_regs d) 3 (page_at p (pages f) - 1) /\ rx_flags d' = rx_flags d.
Proof.
  intros Hd Hp Hf He Hs. destruct (entry_parts _ _ _ He) as [E4 _]. destruct (length_field f Hf) as (lo & hi & Ele & Hlo & Hhi & Ev).
  set (n := page_at p (pages f)) in *. assert (64 <= n < 128) as Hn by apply page_at_range. destruct Hf as [Hfb Hfl].
  destruct (read_header_runs p d Hd Hp) as [a Ra]. pose proof (acked_idle d a Hd) as Hd1.
  destruct (set_boundary_runs (u8 (n - 1)) (acked d a) Hd1) as (d' & Rb & Hd' & Em & Ewr & Eg & Efl). { apply (wrap_range 8); lia. }
  rewrite acked_flags in Efl. rewrite (wrap_small 8) in Eg by lia. exists d'. split; [|by split_and!]. unfold receive_at. eapply runs_bind; [exact Ra|]. eapply runs_bind; [by apply wait_after_read|]. rewrite timeout_pos.
  eapply runs_bind; [apply ack_runs|]. rewrite E4. unfold header. rewrite Ele. cbn [app].
  eapply runs_lift; [reflexivity|]. eapply runs_lift; [reflexivity|]. eapply runs_lift; [reflexivity|]. eapply runs_lift; [reflexivity|]. rewrite Ev.
  destruct (Z.ltb_spec 1518 (blen f + 4)); [lia|]. eapply runs_bind; [apply runs_ret|]. change (Z.land 1 1 =? 0) with false. cbv iota.
  unfold RX_START_PAGE, RX_STOP_PAGE. destruct (Z.ltb_spec n 64), (Z.leb_spec 128 n), (Z.ltb_spec (blen f + 4) 60), (Z.ltb_spec size (blen f + 4 - 4)); try lia. cbn [orb].
  eapply runs_bind; [exact Rb|]. apply runs_ret.
Qed.

Lemma before_next n : 64 <= n < 128 -> next_ring_page (n - 1) = n.
Proof. intros Hn. unfold next_ring_page, RX_STOP_PAGE. rewrite wrap_small by lia. destruct (Z.leb_spec 128 (n - 1 + 1)); lia. Qed.

Lemma receive_large d f fs buffer size : ring d (f :: fs) -> size < blen f ->
  exists d', runs (ne2000_receive_packet buffer size) d (-1, buffer) d' /\ ring d' fs /\ d_wire d' = d_wire d /\ rx_flags d' = rx_flags d.
Proof.
  intros [Hd Hb Hc Hs Ht Hok] Hsz. destruct (next_ring_page_at (d_bnry d) Hb) as [_ Hp]. set (p := next_ring_page (d_bnry d)) in *.
  pose proof (curr_differs _ _ _ _ _ Hp Hs Ht) as Hne. cbn [stored] in Hs. destruct Hs as [He Hs]. apply Forall_cons in Hok as [Hf Hok]. set (n := page_at p (pages f)) in *.
  destruct (skip_empty_runs 4 p (d_curr d) f (with_cr d 34) (idle_cr d Hd) Hp Hne Hf He) as [a Ra].
  destruct (receive_at_large p f (acked (with_cr d 34) a) buffer size) as (d' & Rd & Hd' & Em & Ew & Eg & Efl); [by apply acked_idle, idle_cr|done|done|done|done|].
  rewrite acked_flags in Efl. exists d'. split; [|split; [|done]].
  - unfold ne2000_receive_packet. apply poll_runs; [done|unfold byte_ok; lia|unfold byte_ok; lia|]. fold p. destruct (Z.eqb_spec p (d_curr d)); [done|].
    eapply runs_bind; [exact Ra|]. destruct (Z.eqb_spec p (d_curr d)); [done|]. exact Rd.
  - assert (64 <= n < 128) as Hn by apply page_at_range. assert (d_curr d' = d_curr d) as Ec by (unfold d_curr; by rewrite Eg).
    assert (d_bnry d' = n - 1) as Ebn by (unfold d_bnry; by rewrite Eg). split; [done|rewrite Ebn; lia|by rewrite Ec| | |done].
    + rewrite Ebn, before_next, Em, Ec by done. exact Hs.
    + rewrite total_cons in Ht. pose proof (pages_pos f). lia.
Qed.
End Receive.

(** ** Sending *)

(** The words of a packet, and the bytes of words. *)
Fixpoint pack (l : buf) : list Z := match l with x :: y :: l' => Z.lor x (Z.shiftl y 8) :: pack l' | l => l end.
Definition unpack (ws : list Z) : buf := flat_map (fun w => [u8 w; u8 (w / 256)]) ws.
Definition outs (ws : list Z) (d : dp8390) : dp8390 := fold_left (fun d w => out16 w d) ws d.
Definition word (w : Z) : Prop := 0 <= w < 2 ^ 16.

Lemma byte_pair x y : byte_ok x -> byte_ok y -> word (Z.lor x (Z.shiftl y 8)) /\ u8 (Z.lor x (Z.shiftl y 8)) = x /\ u8 (Z.lor x (Z.shiftl y 8) / 256) = y.
Proof. unfold byte_ok, word. intros Hx Hy. rewrite Z.lor_comm, lor_shiftl_add by lia. unfold wrap. split_and!; zlia. Qed.

Lemma unpack_pack l : bytes_ok l -> Forall word (pack l) /\ unpack (pack l) = l ++ replicate (length l mod 2) 0.
Proof.
  revert l. fix IH 1. intros [|x [|y l]] Hl.
  - by split.
  - apply Forall_cons in Hl as [Hx _]. unfold byte_ok in Hx. split; [repeat constructor; lia|]. cbn. rewrite wrap_small by lia. rewrite Z.div_small by lia. done.
  - apply Forall_cons in Hl as [Hx [Hy Hl]%Forall_cons]. destruct (IH l Hl) as [H1 H2]. destruct (byte_pair x y Hx Hy) as (Hw & Ex & Ey). cbn [pack]. split; [by constructor|].
    change (unpack (Z.lor x (Z.shiftl y 8) :: pack l)) with (u8 (Z.lor x (Z.shiftl y 8)) :: u8 (Z.lor x (Z.shiftl y 8) / 256) :: unpack (pack l)). rewrite Ex, Ey, H2.
    replace (length (x :: y :: l) mod 2)%nat with (length l mod 2)%nat; [done|]. cbn [length]. replace (S (S (length l))) with (length l + 1 * 2)%nat by lia. by rewrite Nat.Div0.mod_add.
Qed.
Lemma unpack_zeros n : unpack (replicate n 0) = replicate (2 * n) 0.
Proof. induction n as [|n IH]; [done|]. replace (2 * S n)%nat with (S (S (2 * n))) by lia. cbn [replicate unpack flat_map app]. by rewrite <- IH. Qed.
Lemma unpack_app a b : unpack (a ++ b) = unpack a ++ unpack b.
Proof. apply flat_map_app. Qed.
Lemma length_unpack ws : length (unpack ws) = (2 * length ws)%nat.
Proof. induction ws as [|w ws IH]; [done|]. cbn [unpack flat_map app length]. fold (unpack ws). rewrite IH. lia. Qed.

(** Words that go to the data port land in the memory until the count is used up. *)
Lemma outs_ok ws : forall d, 0 <= d_rbcr d -> d_rsar d + 2 * Z.of_nat (length ws) < d_regs d 2 * 256 ->
  d_cr (outs ws d) = d_cr d /\ d_regs (outs ws d) = d_regs d /\ d_wire (outs ws d) = d_wire d /\ d_busy (outs ws d) = d_busy d /\
  (0 < d_rbcr d <= 2 * Z.of_nat (length ws) -> d_rbcr (outs ws d) = 0 /\ d_isr (outs ws d) = Z.lor (d_isr d) 64) /\
  (forall x, ~ d_rsar d <= x < d_rsar d + 2 * Z.of_nat (length ws) -> d_mem (outs ws d) x = d_mem d x) /\
  (forall k, (Z.of_nat k < d_rbcr d) -> forall v, unpack ws !! k = Some v -> d_mem (outs ws d) (d_rsar d + Z.of_nat k) = v).
Proof.
  induction ws as [|w ws IH]; intros d Hc Ha. { cbn. split_and!; try done; lia. }
  change (outs (w :: ws) d) with (outs ws (out16 w d)). cbn [length] in Ha. unfold out16. destruct (Z.eqb_spec (d_rbcr d) 0) as [E0|].
  { destruct (IH d) as (H1 & H2 & H3 & H4 & H5 & H6 & H7); [lia|lia|]. split_and!; try done; [intros; exfalso; lia| |intros; exfalso; lia]. intros x Hx. apply H6. cbn [length] in Hx. lia. }
  set (m1 := upd _ _ (u8 (w / 256))). set (d1 := with_mem d m1).
  assert (d_rsar (dma_advance 2 d1) = d_rsar d + 2 /\ d_rbcr (dma_advance 2 d1) = Z.max 0 (d_rbcr d - 2) /\ d_mem (dma_advance 2 d1) = m1 /\ d_regs (dma_advance 2 d1) = d_regs d /\
    d_cr (dma_advance 2 d1) = d_cr d /\ d_wire (dma_advance 2 d1) = d_wire d /\ d_busy (dma_advance 2 d1) = d_busy d /\ d_isr (dma_advance 2 d1) = if d_rbcr d <=? 2 then Z.lor (d_isr d) 64 else d_isr d) as (Er & Eb & Em & Eg & Ecr & Ewr & Ebs & Ei).
  { unfold dma_advance. change (d_rsar d1) with (d_rsar d). change (d_regs d1) with (d_regs d). change (d_rbcr d1) with (d_rbcr d).
    destruct (Z.eqb_spec (d_rsar d + 2) (d_regs d 2 * 256)); [lia|]. destruct (Z.leb_spec (d_rbcr d) 2); cbn; split_and!; try done; lia. }
  set (d2 := dma_advance 2 d1) in *. destruct (IH d2) as (H1 & H2 & H3 & H4 & H5 & H6 & H7); [lia|rewrite Er, Eg; lia|].
  rewrite H1, H2, H3, H4. split_and!; [done|done|done|done| | |].
  - intros Hn. cbn [length] in Hn. rewrite Eb, Ei in *. destruct (Z.leb_spec (d_rbcr d) 2).
    + assert (forall v d, d_rbcr d = 0 -> outs v d = d) as Hz. { clear. induction v as [|y v IHv]; intros d Hd; [done|]. unfold outs. cbn [fold_left]. unfold out16. rewrite Hd. cbn [Z.eqb]. by apply IHv. }
      rewrite Hz by (rewrite Eb; lia). rewrite Eb, Ei. split; [lia|done].
    + apply H5. lia.
  - intros x Hx. cbn [length] in Hx. rewrite H6 by (rewrite Er; lia). rewrite Em. unfold m1, upd. destruct (Z.eqb_spec x (d_rsar d + 1)), (Z.eqb_spec x (d_rsar d)); lia || done.
  - intros k Hk v Hv. change (unpack (w :: ws)) with (u8 w :: u8 (w / 256) :: unpack ws) in Hv. destruct k as [|[|k]]; cbn [lookup list_lookup] in Hv.
    + injection Hv as <-. rewrite H6 by (rewrite Er; lia). rewrite Em. unfold m1, upd. destruct (Z.eqb_spec (d_rsar d + Z.of_nat 0) (d_rsar d + 1)); [lia|]. destruct (Z.eqb_spec (d_rsar d + Z.of_nat 0) (d_rsar d)); [done|lia].
    + injection Hv as <-. rewrite H6 by (rewrite Er; lia). rewrite Em. unfold m1, upd. destruct (Z.eqb_spec (d_rsar d + Z.of_nat 1) (d_rsar d + 1)); [done|lia].
    + replace (d_rsar d + Z.of_nat (S (S k))) with (d_rsar d2 + Z.of_nat k) by (rewrite Er; lia). apply H7; [rewrite Eb; lia|done].
Qed.

Section Send.
Context {H : Type} (base : Z) `{Ne2kDevice H base}.
Abbreviation runs := (runs base).

Lemma write_words_runs l : bytes_ok l -> forall d, runs (write_words l) d tt (outs (pack l) d).
Proof.
  revert l. fix IH 1. intros [|x [|y l]] Hl d; cbn [write_words pack].
  - apply runs_ret.
  - apply Forall_cons in Hl as [Hx _]. unfold byte_ok in Hx. apply runs_data_out. lia.
  - apply Forall_cons in Hl as [Hx [Hy Hl]%Forall_cons]. destruct (byte_pair x y Hx Hy) as (Hw & _). eapply runs_bind; [by apply runs_data_out|]. by apply IH.
Qed.
Lemma write_zeros_runs n : forall d, runs (write_zeros n) d tt (outs (replicate n 0) d).
Proof. induction n as [|n IH]; intros d; cbn [write_zeros]; [apply runs_ret|]. eapply runs_bind; [by apply runs_data_out|]. apply IH. Qed.

(** What is on the wire: the packet, with zeros up to 60 bytes. *)
Lemma wire_words l n : bytes_ok l -> Z.of_nat n = ((if Z.of_nat (length l) <? 60 then 60 else Z.of_nat (length l)) - Z.of_nat (length l) + 1) / 2 ->
  exists e, unpack (pack l ++ replicate n 0) = wire_frame l ++ replicate e 0.
Proof.
  intros Hl Hn. destruct (unpack_pack l Hl) as [_ E]. rewrite unpack_app, E, unpack_zeros, <- app_assoc, <- replicate_add. unfold wire_frame.
  exists (length l mod 2 + 2 * n - (60 - length l))%nat. rewrite <- app_assoc, <- replicate_add. do 2 f_equal.
  pose proof (Nat.div_mod (length l) 2 ltac:(lia)). pose proof (Nat.mod_upper_bound (length l) 2 ltac:(lia)). destruct (Z.ltb_spec (Z.of_nat (length l)) 60); zlia.
Qed.

(** The end of a transmission is waited for. *)
Lemma wait_isr_busy b : forall n d, d_page d = 0 -> byte_ok (d_isr d) -> Z.land (d_isr d) 2 = 0 -> d_busy d = S b -> (S b < n)%nat ->
  runs (wait_isr ISR_PTX n) d (Z.of_nat (n - S b)) (Mk_dp (d_cr d) (d_regs d) (Z.lor (d_isr d) 2) (d_rsar d) (d_rbcr d) (d_mem d) (d_wire d) 0).
Proof.
  induction b as [|b IH]; intros [|n] d Hp Hi Hz Hb Hn; try lia; cbn [wait_isr];
    (eapply runs_bind; [apply (runs_read base 7 d (d_isr d)); [done| |done]; unfold in8; by rewrite Hp|]); unfold ISR_PTX; rewrite Hz; cbn [negb Z.eqb];
    unfold in8_after; rewrite Hp; change (7 =? 16) with false; change (7 =? 31) with false; change ((7 =? 7) && (0 =? 0)) with true; cbv iota; unfold tick_tx; rewrite Hb; cbn [Nat.eqb]; cbv iota.
  - replace (S n - 1)%nat with n by lia. apply wait_isr_now; [done|by apply byte_lor|done|]. cbn. rewrite Z.land_lor_distr_l. intros [_ ?]%Z.lor_eq_0_iff. done.
  - replace (S n - S (S b))%nat with (n - S b)%nat by lia. apply (IH n (Mk_dp (d_cr d) (d_regs d) (d_isr d) (d_rsar d) (d_rbcr d) (d_mem d) (d_wire d) (S b))); try done. lia.
Qed.
(** The controller when the packet is in its memory, and after the transmission. *)
Definition after_send (d : dp8390) (isr a : Z) (m : Z -> Z) (n : Z) (f : buf) : dp8390 :=
  Mk_dp 38 (upd (upd (upd (d_regs d) 4 TX_START_PAGE) 5 (Z.land n 255)) 6 (Z.shiftr n 8)) (Z.ldiff (Z.lor isr 2) 2) a 0 m (d_wire d ++ [f]) 0.

Lemma transmit_runs isr a m n d : idle d -> 0 <= n < 65536 -> byte_ok isr -> Z.land isr 2 = 0 ->
  runs (_ ← ne2000_write NE2000_TPSR TX_START_PAGE;
        _ ← ne2000_write NE2000_TBCR0 (Z.land n 255);
        _ ← ne2000_write NE2000_TBCR1 (Z.shiftr n 8);
        _ ← ne2000_write NE2000_CR 38;
        timeout ← wait_isr ISR_PTX TX_TIMEOUT;
        if timeout <=? 0 then _ ← ne2000_read NE2000_ISR; mret tt else
        _ ← ne2000_write NE2000_ISR ISR_PTX;
        _ ← ne2000_read NE2000_TSR;
        mret tt) (Mk_dp 18 (d_regs d) isr a 0 m (d_wire d) 0) tt (after_send d isr a m n (mem_at m 8192 (Z.to_nat n))).
Proof.
  intros Hd Hn Hi Hp. assert (byte_ok (Z.shiftr n 8)) as Hb by (rewrite Z.shiftr_div_pow2 by lia; unfold byte_ok; zlia). unfold TX_START_PAGE. wr. wr. wr.
  eapply runs_bind; [apply (runs_write base 0 38); [lia|done]|]. unfold out8. change (0 =? 0) with true. change (Z.testbit 38 2) with true. cbv iota zeta.
  unfold transmit. dp. set (rg := upd _ 6 _).
  assert (mem_at m (rg 4 * 256) (Z.to_nat (rg 5 + 256 * rg 6)) = mem_at m 8192 (Z.to_nat n)) as ->.
  { change (rg 4) with 32. change (rg 5) with (Z.land n 255). change (rg 6) with (Z.shiftr n 8). do 2 f_equal. rewrite low_byte, Z.shiftr_div_pow2 by lia. zlia. }
  pose proof tx_delay_range as Ht. destruct tx_delay as [|b]; [lia|].
  eapply runs_bind; [apply (wait_isr_busy b); try done; lia|]. destruct (Z.leb_spec (Z.of_nat (TX_TIMEOUT - S b)) 0); [lia|]. dp. wr.
  apply runs_read_any; [done|]. intros x _. eapply runs_eq; [apply runs_ret|]. done.
Qed.

Lemma idle_after_send d isr a m n f : idle d -> byte_ok isr -> idle (after_send d isr a m n f).
Proof.
  intros [Hr Hw Hi Hpt Hb Hpg] Hs. split; [done|done|by apply byte_ldiff, byte_lor| |done|done]. cbn.
  apply Z.bits_inj'. intros i _. rewrite Z.land_spec, Z.ldiff_spec, Z.bits_0. by destruct (Z.testbit _ i), (Z.testbit 2 i).
Qed.
Lemma mem_at_eq m a f : bytes_ok f -> (forall k v, f !! k = Some v -> m (a + Z.of_nat k) = v) -> mem_at m a (length f) = f.
Proof.
  intros Hf Hm. apply list_eq. intros i. unfold mem_at. rewrite list_lookup_fmap. destruct (decide (i < length f)%nat) as [Hi|].
  - rewrite lookup_seq_lt by lia. destruct (lookup_lt_is_Some_2 f i Hi) as [v Ev]. cbn. rewrite (Hm i v Ev), Ev. pose proof (Forall_lookup_1 _ _ _ _ Hf Ev) as Hv. f_equal. apply wrap_small. exact Hv.
  - rewrite lookup_seq_ge by lia. symmetry. apply lookup_ge_None. lia.
Qed.
Lemma wire_frame_bytes l : bytes_ok l -> bytes_ok (wire_frame l).
Proof. intros Hl. apply bytes_ok_app. split; [done|]. apply Forall_replicate. done. Qed.

(** The remote write of [n] bytes to the send page is set up. *)
Lemma setup_write_runs n {X} (k : M (ne2000 H) X) d b d' : 0 <= n < 65536 -> d_busy d = 0%nat ->
  runs k (Mk_dp 18 (d_regs d) (Z.ldiff (d_isr d) 64) 8192 n (d_mem d) (d_wire d) 0) b d' ->
  runs (_ ← ne2000_write NE2000_CR 34;
        _ ← ne2000_write NE2000_RBCR0 (Z.land n 255);
        _ ← ne2000_write NE2000_RBCR1 (Z.shiftr n 8);
        _ ← ne2000_write NE2000_ISR ISR_RDC;
        _ ← ne2000_write NE2000_RSAR0 0;
        _ ← ne2000_write NE2000_RSAR1 TX_START_PAGE;
        _ ← ne2000_write NE2000_CR 18; k) d b d'.
Proof.
  intros Hn Hb Hk. assert (byte_ok (Z.shiftr n 8)) as Hs by (rewrite Z.shiftr_div_pow2 by lia; unfold byte_ok; zlia). destruct d as [cr rg isr a c m w bs]. cbn in Hb, Hk. subst bs.
  wr. wr. wr. wr. wr. wr. eapply runs_bind; [|exact Hk]. eapply runs_eq; [wr_last|]. rewrite low_byte, Z.shiftr_div_pow2 by lia. unfold ISR_RDC, TX_START_PAGE. f_equal; zlia.
Qed.

(** A packet of at most 1500 bytes goes out, and the received frames stay. *)
Lemma send_runs d fs data len : ring d fs -> bytes_ok data -> 0 <= len <= 1500 -> (Z.to_nat len <= length data)%nat ->
  exists d', runs (ne2000_send_packet data len) d tt d' /\ ring d' fs /\ d_wire d' = d_wire d ++ [wire_frame (take (Z.to_nat len) data)] /\ rx_flags d' = rx_flags d.
Proof.
  intros [Hd Hb Hc Hs Ht Hok] Hdata Hlen Hl. set (l := take (Z.to_nat len) data). assert (length l = Z.to_nat len) as El by (apply length_take_le; lia).
  assert (bytes_ok l) as Hlb by (by apply Forall_take). set (n := if len <? 60 then 60 else len). assert (60 <= n <= 1500 /\ Z.to_nat n = length (wire_frame l)) as [Hn En].
  { unfold n. rewrite length_wire_frame. destruct (Z.ltb_spec len 60); lia. }
  set (z := Z.to_nat ((n - len + 1) / 2)). destruct (wire_words l z Hlb) as [e Ee]. { rewrite El, (Z2Nat.id len) by lia. fold n. unfold z. rewrite Z2Nat.id; [done|]. unfold n. destruct (Z.ltb_spec len 60); zlia. }
  set (d1 := Mk_dp 18 (d_regs d) (Z.ldiff (d_isr d) 64) 8192 n (d_mem d) (d_wire d) 0). set (ws := pack l ++ replicate z 0) in *. set (d2 := outs ws d1).
  assert (2 * length ws = length (wire_frame l) + e)%nat as Ew by (rewrite <- length_unpack, Ee, length_app, length_replicate; done).
  pose proof Hd as [[_ R2] Hw Hi Hpt Hbs _]. unfold RX_STOP_PAGE in R2.
  assert (2 * Z.of_nat (length ws) <= n + 3) as Hws.
  { pose proof (unpack_pack l Hlb) as [_ Eu]. assert (length (unpack ws) = 2 * length ws)%nat as E1 by apply length_unpack. unfold ws in E1 at 1. rewrite unpack_app, Eu, unpack_zeros, !length_app, !length_replicate in E1.
    pose proof (Nat.mod_upper_bound (length l) 2 ltac:(lia)). unfold z in E1. unfold n in *. destruct (Z.ltb_spec len 60); zlia. }
  destruct (outs_ok ws d1) as (O1 & O2 & O3 & O4 & O5 & O6 & O7); [cbn; lia|cbn; rewrite R2; lia|]. fold d2 in O1, O2, O3, O4, O5, O6, O7.
  destruct O5 as [O5 O5']; [change (d_rbcr d1) with n; lia|].
  assert (mem_at (d_mem d2) 8192 (Z.to_nat n) = wire_frame l) as Em.
  { rewrite En. apply mem_at_eq; [by apply wire_frame_bytes|]. intros k v Hk. apply (O7 k); [pose proof (lookup_lt_Some _ _ _ Hk); cbn; lia|]. rewrite Ee. by apply lookup_app_l_Some. }
  set (isr := Z.ldiff (Z.lor (Z.ldiff (d_isr d) 64) 64) 64). assert (byte_ok isr /\ Z.land isr 2 = 0) as [Hb1 Hz1].
  { split; [apply byte_ldiff, byte_lor; [by apply byte_ldiff|done]|]. unfold isr. rewrite ldiff_land_comm, Z.land_lor_distr_l, ldiff_land_comm, Hpt. done. }
  assert (rx_flags (after_send d isr (d_rsar d2) (d_mem d2) n (wire_frame l)) = rx_flags d) as Efl by (unfold rx_flags, isr; cbn [after_send d_isr]; by rewrite !land_ldiff_out, !land_lor_out, land_ldiff_out, land_lor_out, land_ldiff_out).
  exists (after_send d isr (d_rsar d2) (d_mem d2) n (wire_frame l)). split; [|split; [|done]].
  - unfold ne2000_send_packet. destruct (Z.ltb_spec 1500 len); [lia|]. destruct (Nat.ltb_spec (length data) (Z.to_nat len)); [lia|]. fold n l z.
    apply setup_write_runs; [lia|done|]. fold d1. eapply runs_bind; [by apply write_words_runs|]. eapply runs_bind; [apply write_zeros_runs|].
    assert (outs (replicate z 0) (outs (pack l) d1) = Mk_dp 18 (d_regs d) (Z.lor (Z.ldiff (d_isr d) 64) 64) (d_rsar d2) 0 (d_mem d2) (d_wire d) 0) as ->.
    { transitivity d2; [unfold d2, ws, outs; by rewrite fold_left_app|]. destruct d2. cbn in O1, O2, O3, O4, O5, O5'. by subst. }
    eapply runs_bind; [apply wait_isr_now; [done|apply byte_lor; [by apply byte_ldiff|done]|done|]|]. { cbn. rewrite Z.land_lor_distr_l. intros [_ E0]%Z.lor_eq_0_iff. done. }
    rewrite timeout_pos. wr. rewrite <- Em. apply transmit_runs; [done|lia|done|done].
  - split; [by apply idle_after_send|done|done| |done|done]. eapply stored_same; [|exact Hs]. intros x Hx. apply O6. cbn. unfold ra. zlia.
Qed.
End Send.

(** ** Initialisation *)
Section Init.
Context {H : Type} (base : Z) `{Ne2kDevice H base}.
Abbreviation runs := (runs base).

Lemma reset_runs fuel d : d_page d = 0 -> d_busy d = 0%nat -> runs (ne2000_reset (S fuel)) d tt (with_isr d 0).
Proof.
  intros Hp Hb. unfold ne2000_reset. apply runs_read_any; [lia|]. intros x Hx. eapply runs_bind; [by apply runs_write|].
  change (in8_after 31 d) with (with_isr d 128). change (out8 _ 31 x (with_isr d 128)) with (with_isr d 128). cbn [reset_wait].
  assert (d_page (with_isr d 128) = 0) as Hp1 by done. eapply runs_bind.
  { eapply runs_bind; [apply (runs_read base 7 _ 128); [done|unfold in8; by rewrite Hp1|done]|]. change (Z.land 128 128 =? 0) with false. apply runs_ret. }
  unfold in8_after. rewrite Hp1. change (7 =? 16) with false. change (7 =? 31) with false. change ((7 =? 7) && (0 =? 0)) with true. cbv iota. unfold tick_tx.
  change (d_busy (with_isr d 128)) with (d_busy d). rewrite Hb. by apply runs_page0.
Qed.

Lemma runs_base d : runs (gets io_base) d base d.
Proof. intros s Hs Hd. exists (ne_hw s). split; [|done]. unfold gets. rewrite Hs. by destruct s. Qed.
Lemma runs_inb_data d : runs (inb (base + NE2000_DATA)) d (u8 (d_mem d (d_rsar d))) (in8_after 16 d).
Proof.
  intros s Hs Hd. pose proof base_range. unfold inb, NE2000_DATA. cbn [hw ne2000_machine]. rewrite wrap_small by lia.
  destruct (nic_inb 16 (ne_hw s)) as (v & h & E & Eh & Ev); [lia|]. rewrite E, Hd in *. exists h. split; [|done]. by rewrite (Ev _ eq_refl).
Qed.

(** Every read of the data port takes a word, so twelve of them leave the transfer open. *)
Lemma dma_advance_open d : d_rsar d + 2 < d_regs d 2 * 256 -> 2 < d_rbcr d -> dma_advance 2 d = with_dma d (d_rsar d + 2) (d_rbcr d - 2).
Proof. intros Ha Hc. unfold dma_advance. destruct (Z.eqb_spec (d_rsar d + 2) (d_regs d 2 * 256)), (Z.leb_spec (d_rbcr d) 2); lia || done. Qed.
Lemma read_mac_runs n : forall d, word_mode d = true -> d_rsar d + 4 * Z.of_nat n < d_regs d 2 * 256 -> 4 * Z.of_nat n < d_rbcr d ->
  exists l, runs (read_mac n) d l (with_dma d (d_rsar d + 4 * Z.of_nat n) (d_rbcr d - 4 * Z.of_nat n)).
Proof.
  induction n as [|n IH]; intros d Hw Ha Hc.
  - eexists. eapply runs_eq; [apply runs_ret|]. rewrite Z.mul_0_r, Z.add_0_r, Z.sub_0_r. by destruct d.
  - assert (forall d, word_mode d = true -> d_rsar d + 2 < d_regs d 2 * 256 -> 2 < d_rbcr d -> in8_after 16 d = with_dma d (d_rsar d + 2) (d_rbcr d - 2)) as Hadv.
    { clear. intros d Hw Ha Hc. unfold in8_after. change (16 =? 16) with true. cbv iota. rewrite Hw. by apply dma_advance_open. }
    set (d1 := with_dma d (d_rsar d + 2) (d_rbcr d - 2)). set (d2 := with_dma d1 (d_rsar d1 + 2) (d_rbcr d1 - 2)).
    destruct (IH d2) as [l Hl]; [done|cbn; lia|cbn; lia|]. eexists. cbn [read_mac]. eapply runs_bind; [apply runs_base|].
    eapply runs_bind; [apply runs_inb_data|]. rewrite Hadv by (done || lia). fold d1. eapply runs_bind; [apply runs_inb_data|]. rewrite Hadv by (done || cbn; lia). fold d2.
    eapply runs_bind; [exact Hl|]. eapply runs_eq; [apply runs_ret|]. unfold d2, d1. destruct d. cbn. f_equal; lia.
Qed.

Lemma wait_isr_never n d : d_page d = 0 -> byte_ok (d_isr d) -> d_busy d = 0%nat -> Z.land (d_isr d) 64 = 0 -> runs (wait_isr ISR_RDC n) d (-1) d.
Proof.
  intros Hp Hi Hb Hm. assert (in8_after 7 d = d) as E by (unfold in8_after, tick_tx; rewrite Hp, Hb; done).
  induction n as [|n IH]; cbn [wait_isr]; (eapply runs_bind; [apply (runs_read base 7 d (d_isr d)); [done| |done]; unfold in8; by rewrite Hp|]); rewrite E; unfold ISR_RDC; rewrite Hm; [apply runs_ret|apply IH].
Qed.

Lemma out8_page1 r v d : d_page d = 1 -> 0 < r < 16 -> byte_ok v -> runs (ne2000_write r v) d tt (with_regs d (upd (d_regs d) (16 + r) v)).
Proof.
  intros Hp Hr Hv. eapply runs_eq; [apply runs_write; [lia|done]|]. unfold out8. rewrite Hp. change (1 * 16) with 16.
  destruct (Z.eqb_spec r 0), (Z.ltb_spec r 16), (Z.eqb_spec (16 + r) 7), (Z.eqb_spec (16 + r) 8), (Z.eqb_spec (16 + r) 9), (Z.eqb_spec (16 + r) 10), (Z.eqb_spec (16 + r) 11); done || lia.
Qed.

(** The registers from [r] on take the bytes of [l]. *)
Fixpoint upd_list (g : Z -> Z) (k : Z) (l : buf) : Z -> Z := match l with [] => g | x :: l' => upd_list (upd g k x) (k + 1) l' end.
Lemma write_bytes_runs l : forall r d, d_page d = 1 -> 0 < r -> r + Z.of_nat (length l) <= 16 -> bytes_ok l ->
  runs (write_bytes r l) d tt (with_regs d (upd_list (d_regs d) (16 + r) l)).
Proof.
  induction l as [|x l IH]; intros r d Hp Hr Hl Hb; cbn [write_bytes upd_list]; [eapply runs_eq; [apply runs_ret|by destruct d]|]. cbn [length] in Hl.
  apply Forall_cons in Hb as [Hx Hb]. eapply runs_bind; [apply out8_page1; [done|lia|done]|]. rewrite <- Z.add_assoc. eapply runs_eq; [apply IH; [done|lia|lia|done]|]. done.
Qed.

(** The registers before the station address, and in the end. *)
Definition regs_stopped (g : Z -> Z) : Z -> Z := upd (upd (upd (upd (upd (upd (upd g 14 73) 12 32) 13 2) 1 64) 2 128) 3 64) 15 15.
Definition regs_started (g : Z -> Z) (mac : buf) : Z -> Z := upd (upd (upd (upd_list (upd_list g 17 mac) 24 (replicate 8 255)) 23 65) 12 4) 13 0.

Lemma init_stopped_runs fuel d : d_page d = 0 -> d_busy d = 0%nat -> exists l,
  runs (init_stopped (S fuel)) d l (Mk_dp 10 (regs_stopped (d_regs d)) 0 24 8 (d_mem d) (d_wire d) 0).
Proof.
  intros Hp Hb. set (d1 := Mk_dp 10 (regs_stopped (d_regs d)) 0 0 32 (d_mem d) (d_wire d) 0).
  destruct (read_mac_runs 6 d1) as [l Hl]; [done|done|done|]. exists l. unfold init_stopped. eapply runs_bind; [by apply reset_runs|].
  destruct d as [cr rg isr a c m w bs]. cbn in Hb. subst bs. unfold RX_START_PAGE, RX_STOP_PAGE. dp. do 16 wr. eapply runs_bind; [eapply runs_eq; [wr_last|]|exact Hl].
  unfold d1, regs_stopped. dp. f_equal; zlia.
Qed.

Lemma init_start_runs mac d : d_page d = 0 -> d_isr d = 0 -> bytes_ok mac -> length mac = 6%nat ->
  runs (init_start mac) d tt (with_regs (with_cr d 34) (regs_started (d_regs d) mac)).
Proof.
  intros Hp Hi Hm Hl. destruct d as [cr rg isr a c m w bs]. cbn in Hi. subst isr. unfold init_start. 
  eapply runs_bind; [by apply runs_page0|]. dp. wr. eapply runs_bind; [apply write_bytes_runs; [done|done|rewrite Hl; done|done]|].
  eapply runs_bind; [apply write_bytes_runs; [done|done|done|by repeat constructor]|]. eapply runs_bind; [by apply out8_page1|]. dp. wr. wr. wr_last.
Qed.
End Init.

Section InitOk.
Context {H : Type} (base : Z) `{Ne2kDevice H base}.

Lemma set_mac_bind {X} m (k : unit -> M (ne2000 H) X) s : (set_mac m ≫= k) s = k tt (Mk_ne2000 (io_base s) m (ne_initialized s) (ne_routines s) (ne_hw s)).
Proof. done. Qed.

(** The card after [ne2000_init]: an empty receive buffer, and the station address in the
    registers and in the driver is the built-in one. *)
Lemma init_ok fuel addr s : io_base s = base -> d_page (nic (ne_hw s)) = 0 -> d_busy (nic (ne_hw s)) = 0%nat -> (11 < length (ne_routines s))%nat ->
  exists h, ne2000_init (S fuel) addr s = Some (tt, Mk_ne2000 base DEFAULT_MAC true (<[11%nat := addr]> (ne_routines s)) h) /\
    ring (nic h) [] /\ d_wire (nic h) = d_wire (nic (ne_hw s)) /\ rx_flags (nic h) = 0 /\ map (d_regs (nic h)) (seqZ 17 6) = DEFAULT_MAC.
Proof.
  intros Hs Hp Hb Hl. set (d := nic (ne_hw s)) in *. destruct (init_stopped_runs base fuel d Hp Hb) as [l Rl]. set (d1 := Mk_dp 10 _ 0 24 8 _ _ 0) in Rl.
  destruct (Rl s Hs eq_refl) as (h1 & E1 & Eh1). unfold ne2000_init. rewrite (bind_eq _ _ _ _ _ E1). rewrite set_mac_bind.
  set (s1 := Mk_ne2000 (io_base (ne_at s h1)) l _ _ _). destruct (wait_isr_never base DMA_TIMEOUT d1 eq_refl ltac:(done) eq_refl eq_refl s1 Hs Eh1) as (h2 & E2 & Eh2).
  rewrite (bind_eq _ _ _ _ _ E2). cbv beta. change (-1 <=? 0) with true. cbv iota. rewrite set_mac_bind, gets_bind.
  set (s2 := Mk_ne2000 _ DEFAULT_MAC _ _ _). change (ne_mac s2) with DEFAULT_MAC.
  destruct (init_start_runs base DEFAULT_MAC d1 eq_refl eq_refl ltac:(by apply bytes_check) eq_refl s2 Hs Eh2) as (h3 & E3 & Eh3). rewrite (bind_eq _ _ _ _ _ E3), gets_bind.
  change (ne_routines (ne_at s2 h3)) with (ne_routines s).
  assert (put_index (ne_routines s) 11 addr = Some (<[11%nat := addr]> (ne_routines s))) as Ep.
  { unfold put_index, at_index. cbn [Z.leb Z.compare]. change (Z.to_nat 11) with 11%nat. by destruct (lookup_lt_is_Some_2 (ne_routines s) 11 Hl) as [v ->]. }
  rewrite (lift_bind _ _ _ _ Ep). exists h3. unfold modify. split; [cbn; by rewrite Hs|]. rewrite Eh3. split; [|by split].
  by split; [split| | | | |].
Qed.

(** A packet above 1500 bytes is dropped. *)
Lemma send_too_long data len (s : ne2000 H) : 1500 < len -> ne2000_send_packet data len s = Some (tt, s).
Proof. intros Hl. unfold ne2000_send_packet. by destruct (Z.ltb_spec 1500 len); [|lia]. Qed.
End InitOk.

(** ** The card that the network stack uses

    netstack.c sends and receives through [nic_send] and [nic_recv], which Net.v models by
    the frames on the wire and the frames to come.  The driver on the controller implements
    them, with its interrupt handler, which takes frames too. *)

Inductive nic_op := Arrive (f crc : buf) | Receive | Send (p : buf) | Interrupt.

(** Frames also arrive from outside. *)
Class Ne2kWire (H : Type) (base : Z) `{Ne2kDevice H base} := {
  dev_arrive : buf -> buf -> H -> H;
  nic_arrive : forall f crc h, nic (dev_arrive f crc h) = arrive f crc (nic h)
}.

Definition byte_string (l : buf) : bool := forallb (fun c => (0 <=? c) && (c <? 256)) l.
Definition frame_fits (f : buf) : bool := byte_string f && (56 <=? blen f) && (blen f <=? 1514).
Lemma frame_fits_ok f : frame_fits f = true -> frame_ok f.
Proof. unfold frame_fits. intros [[Hb H1]%andb_prop H2]%andb_prop. split; [by apply bytes_check|lia]. Qed.

(** What may happen: a frame of Ethernet's size arrives while there is room for it, and what
    is sent has a 16-bit length. *)
Definition op_fits (o : nic_op) (q : list buf) : bool :=
  match o with
  | Arrive f crc => frame_fits f && (length crc =? 4)%nat && (total (q ++ [f]) <=? 63)
  | Receive | Interrupt => true
  | Send p => byte_string p && (blen p <? 65536)
  end.

(** The reply of the interrupt handler. *)
Definition arp_answer (mac f : buf) : list buf :=
  if asks_for_us f
  then [wire_frame (eth_header (slice f 6 6) mac ETHERTYPE_ARP ++
          arp_packet ARP_REPLY mac OWN_IP (slice f 22 6) (ntohl (le_get (slice f 28 4))))]
  else [].

(** The frames that one interrupt leaves, and what it sends: up to [n] frames are taken, and
    a frame above 1500 bytes ends it. *)
Fixpoint taken (mac : buf) (n : nat) (q : list buf) : list buf * list buf :=
  match n, q with
  | S n', f :: q' =>
      if 1500 <? blen f then (q', [])
      else let '(r, w) := taken mac n' q' in (r, arp_answer mac f ++ w)
  | _, _ => (q, [])
  end.

(** The operations on the card of Net.v and a flag, which says that a frame has arrived since
    the last interrupt; the result is what is received. *)
Definition spec_op (mac : buf) (o : nic_op) : M (net * bool) (list (option buf)) := fun '(n, irq) =>
  match o with
  | Arrive f crc => Some ([], (with_inbox n (inbox n ++ [f]), true))
  | Receive => match nic_recv PACKET_SIZE n with Some (r, n') => Some ([r], (n', irq)) | None => None end
  | Send p => match nic_send p n with Some (_, n') => Some ([], (n', irq)) | None => None end
  | Interrupt =>
      let '(q, w) := taken mac 5 (inbox n) in
      Some ([], (if irq : bool then with_sent (with_inbox n q) (Net.sent n ++ w) else n, false))
  end.
Fixpoint spec_run (mac : buf) (ops : list nic_op) : M (net * bool) (list (option buf)) :=
  match ops with
  | [] => mret []
  | o :: ops' => q ← gets (fun s => inbox (fst s)); if op_fits o q then l ← spec_op mac o; l' ← spec_run mac ops'; mret (l ++ l') else undef
  end.

Section Refinement.
Context {H : Type} (base : Z) `{Ne2kWire H base} (buffer : buf) (fresh : nat -> buf) (fresh_length : forall n, length (fresh n) = n).

(** The operations on the driver, as nic_send and nic_recv of netstack.c call it, and the
    interrupt handler that [ne2000_init] installs. *)
Definition nic_step (o : nic_op) : M (ne2000 H) (list (option buf)) :=
  match o with
  | Arrive f crc => _ ← modify (fun s => ne_at s (dev_arrive f crc (ne_hw s))); mret []
  | Receive =>
      i ← ne2000_is_initialized;
      if i : bool then r ← ne2000_receive_packet buffer (u16 (Z.of_nat PACKET_SIZE)); mret [if 0 <? fst r then Some (take (Z.to_nat (fst r)) (snd r)) else None]
      else mret [None]
  | Send p => i ← ne2000_is_initialized; if i : bool then _ ← ne2000_send_packet p (u16 (blen p)); mret [] else mret []
  | Interrupt => _ ← ne2000_irq_handler fresh; mret []
  end.
Fixpoint nic_run (ops : list nic_op) : M (ne2000 H) (list (option buf)) :=
  match ops with [] => mret [] | o :: ops' => l ← nic_step o; l' ← nic_run ops'; mret (l ++ l') end.

(** *** The interrupt handler *)

Lemma arp_reply_ok mac f r : frame_ok f -> arp_reply mac (f ++ r) =
  Some (eth_header (slice f 6 6) mac ETHERTYPE_ARP ++ arp_packet ARP_REPLY mac OWN_IP (slice f 22 6) (ntohl (le_get (slice f 28 4))) ++ replicate 18 0).
Proof.
  intros [Hb Hl]. unfold blen in Hl. unfold arp_reply. rewrite length_app. destruct (Nat.ltb_spec (length f + length r) 32); [lia|]. f_equal.
  rewrite !slice_prefix by lia. unfold eth_header, arp_packet. rewrite put_ip by (by apply bytes_ok_slice || (apply length_slice; lia)).
  change (le_put 2 (htons ETHERTYPE_ARP)) with [8; 6]. change (le_put 4 (htonl OWN_IP)) with [10; 0; 2; 15]. rewrite <- !app_assoc. reflexivity.
Qed.

(** The handler answers an ARP request for the address, and nothing else. *)
Lemma answer_ok s f r mac fs : io_base s = base -> ne_mac s = mac -> bytes_ok mac -> length mac = 6%nat -> ring (nic (ne_hw s)) fs -> frame_ok f ->
  exists h, answer (f ++ r) (blen f) s = Some (tt, ne_at s h) /\ ring (nic h) fs /\ d_wire (nic h) = d_wire (nic (ne_hw s)) ++ arp_answer mac f /\
    rx_flags (nic h) = rx_flags (nic (ne_hw s)).
Proof.
  intros Hs Hm Hmb Hml Hr Hf. pose proof Hf as [Hb Hl]. unfold answer. destruct (Z.leb_spec 14 (blen f)), (Z.leb_spec 42 (blen f)); try lia.
  assert (exists h, Some (tt, s) = Some (tt, ne_at s h) /\ ring (nic h) fs /\ d_wire (nic h) = d_wire (nic (ne_hw s)) ++ [] /\ rx_flags (nic h) = rx_flags (nic (ne_hw s))) as Nothing.
  { exists (ne_hw s). rewrite app_nil_r. by destruct s. }
  destruct (rd_prefix f r 12 Hb) as (t1 & R1 & L1 & B1), (rd_prefix f r 13 Hb) as (t0 & R2 & L2 & B2), (rd_prefix f r 20 Hb) as (o1 & R3 & L3 & B3), (rd_prefix f r 21 Hb) as (o0 & R4 & L4 & B4); try lia.
  destruct (rd_prefix f r 38 Hb) as (a & R5 & L5 & B5), (rd_prefix f r 39 Hb) as (b & R6 & L6 & B6), (rd_prefix f r 40 Hb) as (c & R7 & L7 & B7), (rd_prefix f r 41 Hb) as (d & R8 & L8 & B8); try lia.
  rewrite (lift_bind _ _ _ _ R1), (lift_bind _ _ _ _ R2), andb_true_r, field_is by (done || lia).
  unfold arp_answer, asks_for_us. rewrite (slice_pair f 12 t1 t0 L1 L2), (slice_pair f 20 o1 o0 L3 L4).
  change [2054 / 256; 2054 mod 256] with [8; 6]. destruct (bool_decide ([t1; t0] = [8; 6])); [|exact Nothing].
  rewrite (lift_bind _ _ _ _ R3), (lift_bind _ _ _ _ R4), (lift_bind _ _ _ _ R5), (lift_bind _ _ _ _ R6), (lift_bind _ _ _ _ R7), (lift_bind _ _ _ _ R8), field_is by (done || lia).
  change [1 / 256; 1 mod 256] with [0; 1]. cbn [andb]. destruct (bool_decide ([o1; o0] = [0; 1])); [|exact Nothing]. cbn [andb].
  rewrite (slice_quad f 38 a b c d L5 L6 L7 L8).
  replace ((a =? 10) && (b =? 0) && (c =? 2) && (d =? 15)) with (bool_decide ([a; b; c; d] = [10; 0; 2; 15])).
  2: { destruct (Z.eqb_spec a 10), (Z.eqb_spec b 0), (Z.eqb_spec c 2), (Z.eqb_spec d 15); subst; cbn [andb]; (by apply bool_decide_eq_true_2) || (apply bool_decide_eq_false_2; congruence). }
  case_bool_decide; [|exact Nothing]. unfold ne2000_send_arp_reply. rewrite gets_bind, Hm, (lift_bind _ _ _ _ (arp_reply_ok mac f r Hf)).
  set (head := eth_header _ _ _). set (body := arp_packet _ _ _ _ _).
  assert (length (head ++ body) = 42%nat /\ bytes_ok (head ++ body)) as [L42 B42].
  { unfold head, body, eth_header, arp_packet. unfold blen in Hl. split; [rewrite !length_app, !length_le_put, !length_slice, Hml by lia; done|].
    rewrite !bytes_ok_app. split_and!; try apply le_put_ok; try apply bytes_ok_slice; try done; by repeat constructor. }
  rewrite app_assoc. destruct (send_runs base _ _ ((head ++ body) ++ replicate 18 0) 60 Hr) as (d' & Rd & Hd & Hwd & Efl).
  { apply bytes_ok_app. split; [done|]. by apply Forall_replicate. } { lia. } { rewrite length_app, L42, length_replicate. lia. }
  destruct (Rd s Hs eq_refl) as (h & E & Eh). exists h. split; [exact E|]. rewrite Eh. split; [done|]. split; [|done]. rewrite Hwd. do 2 f_equal.
  unfold wire_frame. rewrite take_ge by (rewrite length_app, L42, length_replicate; lia). rewrite length_app, L42, length_replicate. change (60 - (42 + 18))%nat with 0%nat. change (60 - 42)%nat with 18%nat. by rewrite app_nil_r.
Qed.

(** The flags decide the tests of the handler. *)
Lemma flag_tests isr : (Z.land isr 17 = 1 -> Z.land isr 1 = 1 /\ Z.land isr 16 = 0) /\ (Z.land isr 17 = 0 -> Z.land isr 1 = 0 /\ Z.land isr 16 = 0).
Proof.
  assert (Z.land isr 1 = Z.land (Z.land isr 17) 1 /\ Z.land isr 16 = Z.land (Z.land isr 17) 16) as [-> ->] by (split; by rewrite <- Z.land_assoc).
  by split; intros ->.
Qed.

Lemma read_isr_ok s fs : io_base s = base -> ring (nic (ne_hw s)) fs ->
  exists h, ne2000_read NE2000_ISR s = Some (d_isr (nic (ne_hw s)), ne_at s h) /\ nic h = nic (ne_hw s).
Proof.
  intros Hs Hr. destruct (r_idle _ _ Hr) as [_ _ Hi _ Hb Hp]. set (d := nic (ne_hw s)) in *.
  assert (in8_after 7 d = d) as E by (unfold in8_after, tick_tx; rewrite Hp, Hb; done).
  destruct (runs_read base 7 d (d_isr d) ltac:(lia) ltac:(unfold in8; by rewrite Hp) Hi s Hs eq_refl) as (h & Er & Eh). exists h. by rewrite Eh, E.
Qed.

Section Handler.
Context (mac : buf) (mac_bytes : bytes_ok mac) (mac_length : length mac = 6%nat).

Lemma irq_loop_ok n : forall s isr fs, io_base s = base -> ne_mac s = mac -> ring (nic (ne_hw s)) fs -> rx_flags (nic (ne_hw s)) = 1 -> Z.land isr 1 = 1 ->
  exists h, irq_loop fresh n isr s = Some (tt, ne_at s h) /\ ring (nic h) (fst (taken mac n fs)) /\
    d_wire (nic h) = d_wire (nic (ne_hw s)) ++ snd (taken mac n fs).
Proof.
  induction n as [|n IH]; intros s isr fs Hs Hm Hr Hfl Hi; cbn [irq_loop taken].
  { exists (ne_hw s). rewrite app_nil_r. by destruct s. }
  rewrite Hi. change (1 =? 0) with false. cbv iota. destruct fs as [|f fs].
  { destruct (receive_empty base _ (fresh 1500) 1500 Hr) as (d' & Rd & Hd & Hwd & _). destruct (Rd s Hs eq_refl) as (h & E & Eh).
    rewrite (bind_eq _ _ _ _ _ E). exists h. rewrite Eh, app_nil_r. done. }
  pose proof (r_ok _ _ Hr) as [Hf _]%Forall_cons. destruct (Z.ltb_spec 1500 (blen f)) as [Hbig|Hfit].
  { destruct (receive_large base _ f fs (fresh 1500) 1500 Hr Hbig) as (d' & Rd & Hd & Hwd & _). destruct (Rd s Hs eq_refl) as (h & E & Eh).
    rewrite (bind_eq _ _ _ _ _ E). exists h. cbn [fst snd]. rewrite Eh, app_nil_r. done. }
  destruct (receive_frame base _ f fs (fresh 1500) 1500 Hr) as (d' & Rd & Hd & Hwd & Efl); [lia|rewrite fresh_length; unfold blen in Hfit; lia|].
  destruct (Rd s Hs eq_refl) as (h & E & Eh). rewrite (bind_eq _ _ _ _ _ E). cbn [fst snd]. pose proof Hf as [_ Hfl2]. destruct (Z.ltb_spec 0 (blen f)); [|lia].
  rewrite <- Eh in Hd, Hwd, Efl.
  destruct (answer_ok (ne_at s h) f (drop (length f) (fresh 1500)) mac fs Hs Hm mac_bytes mac_length Hd Hf) as (h1 & E1 & Hr1 & Hw1 & Efl1). rewrite (bind_eq _ _ _ _ _ E1).
  destruct (read_isr_ok (ne_at (ne_at s h) h1) fs Hs Hr1) as (h2 & E2 & Eh2). rewrite (bind_eq _ _ _ _ _ E2).
  change (nic (ne_hw (ne_at (ne_at s h) h1))) with (nic h1) in Eh2 |- *.
  assert (rx_flags (nic h1) = 1) as Hfl1 by (rewrite Efl1; change (nic (ne_hw (ne_at s h))) with (nic h); by rewrite Efl).
  destruct (IH (ne_at (ne_at (ne_at s h) h1) h2) (d_isr (nic h1)) fs Hs Hm) as (h3 & E3 & Hr3 & Hw3); try (cbn; rewrite Eh2; done). { by apply flag_tests. }
  exists h3. split; [exact E3|]. destruct (taken mac n fs) as [q w]. cbn [fst snd] in *. split; [done|]. rewrite Hw3.
  change (nic (ne_hw (ne_at (ne_at (ne_at s h) h1) h2))) with (nic h2). rewrite Eh2, Hw1. change (nic (ne_hw (ne_at s h))) with (nic h). by rewrite Hwd, app_assoc.
Qed.

(** The status is cleared. *)
Lemma clear_isr_ok s fs : io_base s = base -> ring (nic (ne_hw s)) fs ->
  exists h, ne2000_write NE2000_ISR 255 s = Some (tt, ne_at s h) /\ ring (nic h) fs /\ d_wire (nic h) = d_wire (nic (ne_hw s)) /\ rx_flags (nic h) = 0.
Proof.
  intros Hs Hr. pose proof Hr as [[Hrg Hw Hi Hpt Hb Hp] Hbn Hc Hst Ht Hok]. set (d := nic (ne_hw s)) in *.
  destruct (runs_page0 base 7 255 d _ Hp ltac:(lia) ltac:(done) eq_refl s Hs eq_refl) as (h & E & Eh). change (7 =? 7) with true in Eh. cbv iota in Eh.
  exists h. split; [exact E|]. rewrite Eh. split; [|split; [done|]].
  - split; [split; try done; [by apply byte_ldiff|]|done|done|done|done|done]. cbn. rewrite ldiff_land_comm, Hpt. done.
  - unfold rx_flags. cbn. rewrite ldiff_land_comm. rewrite Z.ldiff_land, <- Z.land_assoc. change (Z.land 17 (Z.lnot 255)) with 0. apply Z.land_0_r.
Qed.

Lemma handler_ok s fs irq : io_base s = base -> ne_mac s = mac -> ring (nic (ne_hw s)) fs -> rx_flags (nic (ne_hw s)) = (if irq : bool then 1 else 0) ->
  exists h, ne2000_irq_handler fresh s = Some (tt, ne_at s h) /\ rx_flags (nic h) = 0 /\ ring (nic h) (if irq then fst (taken mac 5 fs) else fs) /\
    d_wire (nic h) = d_wire (nic (ne_hw s)) ++ (if irq then snd (taken mac 5 fs) else []).
Proof.
  intros Hs Hm Hr Hfl. unfold ne2000_irq_handler. destruct (read_isr_ok s fs Hs Hr) as (h & E & Eh). rewrite (bind_eq _ _ _ _ _ E). set (isr := d_isr (nic (ne_hw s))) in *.
  destruct (flag_tests isr) as [Hon Hoff]. change (Z.land isr 17) with (rx_flags (nic (ne_hw s))) in Hon, Hoff. rewrite Hfl in Hon, Hoff. destruct irq.
  - destruct (Hon eq_refl) as [Hi1 Hi16]. destruct (Z.eqb_spec isr 0) as [E0|_]; [rewrite E0 in Hi1; done|]. rewrite Hi16. cbn [negb Z.eqb]. rewrite (bind_eq _ _ _ tt (ne_at s h)) by done.
    destruct (irq_loop_ok 5 (ne_at s h) isr fs Hs Hm) as (h1 & E1 & Hr1 & Hw1); try (cbn; rewrite Eh; done); [done|]. rewrite (bind_eq _ _ _ _ _ E1).
    destruct (clear_isr_ok (ne_at (ne_at s h) h1) _ Hs Hr1) as (h2 & E2 & Hr2 & Hw2 & Hf2). exists h2. split; [exact E2|]. split; [done|]. split; [done|].
    rewrite Hw2. change (nic (ne_hw (ne_at (ne_at s h) h1))) with (nic h1). rewrite Hw1. cbn [ne_hw ne_at]. change (nic (ne_hw (ne_at s h))) with (nic h). by rewrite Eh.
  - destruct (Hoff eq_refl) as [Hi1 Hi16]. rewrite app_nil_r. destruct (Z.eqb_spec isr 0) as [E0|_]; [exists h; rewrite Eh; by split|]. rewrite Hi16. cbn [negb Z.eqb]. rewrite (bind_eq _ _ _ tt (ne_at s h)) by done.
    rewrite (bind_eq _ _ _ tt (ne_at s h)) by (cbn [irq_loop]; by rewrite Hi1).
    destruct (clear_isr_ok (ne_at s h) fs Hs) as (h2 & E2 & Hr2 & Hw2 & Hf2); [cbn; by rewrite Eh|]. exists h2. split; [exact E2|]. split; [done|]. split; [done|].
    rewrite Hw2. change (nic (ne_hw (ne_at s h))) with (nic h). by rewrite Eh.
Qed.
End Handler.

(** *** Any sequence of operations *)

(** The driver's state stands for the card's. *)
Record stands (w : list buf) (s : ne2000 H) (n : net) (irq : bool) : Prop := {
  st_base : io_base s = base; st_init : ne_initialized s = true; st_mac : ne_mac s = DEFAULT_MAC; st_ninit : ne2000_initialized n = true;
  st_ring : ring (nic (ne_hw s)) (inbox n); st_wire : d_wire (nic (ne_hw s)) = w ++ Net.sent n;
  st_flags : rx_flags (nic (ne_hw s)) = if irq then 1 else 0
}.

Lemma stands_at w s n irq h q irq' : stands w s n irq -> ring (nic h) (inbox q) -> ne2000_initialized q = true -> d_wire (nic h) = w ++ Net.sent q ->
  rx_flags (nic h) = (if irq' : bool then 1 else 0) -> stands w (ne_at s h) q irq'.
Proof. intros [Hb Hi Hm Hn Hr Hw Hfl] Hq Hqi Hqw Hqf. by split. Qed.

Lemma arrive_flags f crc d irq : rx_flags d = (if irq : bool then 1 else 0) -> rx_flags (arrive f crc d) = 1.
Proof. unfold rx_flags. cbn [arrive with_isr d_isr]. rewrite Z.land_lor_distr_l. intros ->. by destruct irq. Qed.

Lemma receive_stands w s n irq r n' : (1514 <= length buffer)%nat -> stands w s n irq -> nic_recv PACKET_SIZE n = Some (r, n') ->
  exists s', nic_step Receive s = Some ([r], s') /\ stands w s' n' irq.
Proof.
  intros Hbuf Hst Hop. pose proof Hst as [Hb Hi Hm Hn Hr Hw Hfl]. unfold nic_recv in Hop. rewrite Hn in Hop. cbn [nic_step]. unfold ne2000_is_initialized. rewrite gets_bind, Hi.
  destruct (inbox n) as [|f q] eqn:Eq.
  - injection Hop as <- <-. destruct (receive_empty base (nic (ne_hw s)) buffer (u16 (Z.of_nat PACKET_SIZE)) Hr) as (d' & Rd & Hd & Hwd & Ef).
    destruct (Rd s Hb eq_refl) as (h & E & Eh). rewrite (bind_eq _ _ _ _ _ E). eexists. split; [done|]. eapply stands_at; [exact Hst| |done|by rewrite Eh, Hwd|by rewrite Eh, Ef]. by rewrite Eh, Eq.
  - pose proof (r_ok _ _ Hr) as [[Hfb Hfl'] _]%Forall_cons.
    destruct (receive_frame base (nic (ne_hw s)) f q buffer (u16 (Z.of_nat PACKET_SIZE)) Hr) as (d' & Rd & Hd & Hwd & Ef); [rewrite (wrap_small 16); unfold PACKET_SIZE; lia|unfold blen in *; lia|].
    destruct (Rd s Hb eq_refl) as (h & E & Eh). rewrite (bind_eq _ _ _ _ _ E). cbn [fst snd]. destruct (Z.ltb_spec 0 (blen f)); [|lia].
    assert (bool_decide (f = []) = false) as Hne by (apply bool_decide_eq_false_2; intros ->; unfold blen in Hfl'; cbn in Hfl'; lia). rewrite Hne in Hop. injection Hop as <- <-.
    replace (take (Z.to_nat (blen f)) (f ++ drop (length f) buffer)) with (take PACKET_SIZE f); [eexists; split; [done|]; eapply stands_at; [exact Hst|by rewrite Eh|done|by rewrite Eh, Hwd|by rewrite Eh, Ef]|].
    unfold blen. rewrite Nat2Z.id, take_app_length. apply take_ge. unfold PACKET_SIZE, blen in *. lia.
Qed.

Lemma send_stands w s n irq p b n' : stands w s n irq -> bytes_ok p -> blen p < 65536 -> nic_send p n = Some (b, n') ->
  exists s', nic_step (Send p) s = Some ([], s') /\ stands w s' n' irq.
Proof.
  intros Hst Hp Hl Hop. pose proof Hst as [Hb Hi Hm Hn Hr Hw Hfl]. unfold nic_send in Hop. rewrite Hn in Hop. cbn [nic_step]. unfold ne2000_is_initialized. rewrite gets_bind, Hi.
  rewrite wrap_small by (unfold blen in *; lia). injection Hop as <- <-. destruct (Nat.leb_spec (length p) 1500) as [Hfit|Hbig].
  - destruct (send_runs base _ _ p (blen p) Hr) as (d' & Rd & Hd & Hwd & Ef); [done|unfold blen in *; lia|unfold blen; lia|].
    destruct (Rd s Hb eq_refl) as (h & E & Eh). rewrite (bind_eq _ _ _ _ _ E). eexists. split; [done|]. eapply stands_at; [exact Hst|by rewrite Eh|done| |by rewrite Eh, Ef].
    rewrite Eh, Hwd, Hw. cbn [Net.sent with_sent]. unfold blen. rewrite Nat2Z.id, take_ge by lia. by rewrite app_assoc.
  - rewrite (bind_eq _ _ _ tt s) by (apply send_too_long; unfold blen; lia). by exists s.
Qed.

(** One operation. *)
Lemma step_stands w o s n irq r n' irq' : (1514 <= length buffer)%nat -> stands w s n irq -> op_fits o (inbox n) = true -> spec_op DEFAULT_MAC o (n, irq) = Some (r, (n', irq')) ->
  exists s', nic_step o s = Some (r, s') /\ stands w s' n' irq'.
Proof.
  intros Hbuf Hst Ho Hop. pose proof Hst as [Hb Hi Hm Hn Hr Hw Hfl]. destruct o as [f crc| |p|]; cbn [op_fits spec_op] in *.
  - apply andb_prop in Ho as [[Hf Hc]%andb_prop Ht]. injection Hop as <- <- <-. eexists. split; [done|]. eapply stands_at; [exact Hst| |done| |].
    + rewrite nic_arrive. apply arrive_ring; [done|by apply frame_fits_ok|by apply Nat.eqb_eq|by apply Z.leb_le].
    + by rewrite nic_arrive.
    + rewrite nic_arrive. by eapply arrive_flags.
  - destruct (nic_recv PACKET_SIZE n) as [[x n1]|] eqn:E; [|done]. injection Hop as <- <- <-. by eapply receive_stands.
  - apply andb_prop in Ho as [Hp Hl]. destruct (nic_send p n) as [[x n1]|] eqn:E; [|done]. injection Hop as <- <- <-. eapply send_stands; [done|by apply bytes_check|by apply Z.ltb_lt|done].
  - destruct (handler_ok DEFAULT_MAC ltac:(by apply bytes_check) eq_refl s (inbox n) irq Hb Hm Hr Hfl) as (h & E & Ef & Hr' & Hw').
    destruct (taken DEFAULT_MAC 5 (inbox n)) as [q x]. injection Hop as <- <- <-. cbn [nic_step]. rewrite (bind_eq _ _ _ _ _ E). eexists. split; [done|].
    eapply stands_at; [exact Hst|by destruct irq|by destruct irq| |exact Ef]. rewrite Hw', Hw. destruct irq; cbn; [by rewrite app_assoc|by rewrite app_nil_r].
Qed.

Lemma run_stands w ops : (1514 <= length buffer)%nat -> forall s n irq r n' irq', stands w s n irq -> spec_run DEFAULT_MAC ops (n, irq) = Some (r, (n', irq')) ->
  exists s', nic_run ops s = Some (r, s') /\ stands w s' n' irq'.
Proof.
  intros Hbuf. induction ops as [|o ops IH]; intros s n irq r n' irq' Hst Hrun; cbn [spec_run nic_run] in *.
  - injection Hrun as <- <- <-. by exists s.
  - rewrite gets_bind in Hrun. cbn [fst] in Hrun. destruct (op_fits o (inbox n)) eqn:Ho; [|done]. unfold mbind, M_bind in Hrun. destruct (spec_op DEFAULT_MAC o (n, irq)) as [[l [n1 irq1]]|] eqn:E1; [|done].
    destruct (spec_run DEFAULT_MAC ops (n1, irq1)) as [[l' [n2 irq2]]|] eqn:E2; [|done]. injection Hrun as <- <- <-. destruct (step_stands w o s n irq l n1 irq1 Hbuf Hst Ho E1) as (s1 & Es1 & Hst1).
    destruct (IH s1 n1 irq1 l' n2 irq2 Hst1 E2) as (s2 & Es2 & Hst2). exists s2. split; [|done]. rewrite (bind_eq _ _ _ _ _ Es1), (bind_eq _ _ _ _ _ Es2). done.
Qed.

(** C22: From power-up, initialisation and then any sequence of arriving frames, receive
    calls, send calls and interrupts (between the calls, not inside of them) behaves as the
    card that the network stack is built on.  Frames arrive with 56 to 1514 bytes, which is
    all that Ethernet allows, and while the 16 KB receive buffer has room for them; what is
    sent has a length that fits 16 bits.  A receive call gives the oldest frame that is left,
    byte by byte, or nothing when none is left.  On the wire are, in order, the packets of up
    to 1500 bytes that were sent, filled up to 60 bytes (a longer packet is dropped), and the
    replies of the interrupt handler to ARP requests for 10.0.2.15.  An interrupt after a
    frame has arrived takes up to five of the oldest frames away from the receive calls, and
    stops at one above 1500 bytes, which is lost too; other interrupts change nothing. *)
Theorem ne2000_refines_nic fuel addr ops s n r n' irq' (Hs : io_base s = base) (Hp : d_page (nic (ne_hw s)) = 0) (Hb : d_busy (nic (ne_hw s)) = 0%nat) (Hl : (11 < length (ne_routines s))%nat)
  (Hbuf : (1514 <= length buffer)%nat) (Hn : ne2000_initialized n = true) (Hq : inbox n = []) (Hsent : Net.sent n = []) (Hrun : spec_run DEFAULT_MAC ops (n, false) = Some (r, (n', irq'))) :
  exists s', (_ ← ne2000_init (S fuel) addr; nic_run ops) s = Some (r, s') /\ ring (nic (ne_hw s')) (inbox n') /\
    d_wire (nic (ne_hw s')) = d_wire (nic (ne_hw s)) ++ Net.sent n'.
Proof.
  destruct (init_ok base fuel addr s Hs Hp Hb Hl) as (h & E & Hr & Hw & Hf & _). rewrite (bind_eq _ _ _ _ _ E).
  destruct (run_stands (d_wire (nic (ne_hw s))) ops Hbuf (Mk_ne2000 base DEFAULT_MAC true (<[11%nat := addr]> (ne_routines s)) h) n false r n' irq') as (s' & Es & [_ _ _ _ Hr' Hw' _]); [|done|by exists s'].
  split; [done|done|done|done|by rewrite Hq| |done]. rewrite Hsent, app_nil_r. exact Hw.
Qed.
End Refinement.

(** ** A card to try it on *)

Definition SIM_BASE : Z := 768.
Definition on_card (p : Z) : bool := (SIM_BASE <=? p) && (p <? SIM_BASE + 32).
#[global] Instance card_ports : Ports dp8390 := {|
  dev_inb p d := if on_card p then (default 255 (in8 (p - SIM_BASE) d), in8_after (p - SIM_BASE) d) else (255, d);
  dev_outb p v d := if on_card p then out8 3 (p - SIM_BASE) v d else d;
  dev_insw _ n d := (replicate (2 * n) 255, d); dev_outsw _ _ d := d; dev_delay _ d := d
|}.
#[global] Instance card_wide : WidePorts dp8390 := {|
  dev_inw p d := if p =? SIM_BASE + 16 then (in16 d, dma_advance 2 d) else (65535, d);
  dev_outw p v d := if p =? SIM_BASE + 16 then out16 v d else d;
  dev_inl _ d := (4294967295, d); dev_outl _ _ d := d
|}.
Lemma on_card_at r : 0 <= r < 32 -> on_card (SIM_BASE + r) = true /\ SIM_BASE + r - SIM_BASE = r.
Proof. unfold on_card, SIM_BASE. intros Hr. split; [|lia]. apply andb_true_iff. lia. Qed.
#[global, refine] Instance card_device : Ne2kDevice dp8390 SIM_BASE := {| nic d := d; tx_delay := 3 |}.
Proof.
  - unfold SIM_BASE. lia.
  - unfold TX_TIMEOUT. lia.
  - intros r v d Hr _. destruct (on_card_at r Hr) as [E1 E2]. cbn. by rewrite E1, E2.
  - intros r d Hr. destruct (on_card_at r Hr) as [E1 E2]. cbn. rewrite E1, E2. eexists _, _. split; [done|]. split; [done|]. by intros x ->.
  - intros d. eexists _, _. split; [done|]. split; [done|]. apply wrap_small. unfold in16.
    pose proof (wrap_range 8 (d_mem d (d_rsar d)) ltac:(lia)). pose proof (wrap_range 8 (d_mem d (d_rsar d + 1)) ltac:(lia)). change (2 ^ 8) with 256 in *. change (2 ^ 16) with 65536. lia.
  - done.
Defined.
#[global] Instance card_wire : Ne2kWire dp8390 SIM_BASE := {| dev_arrive := arrive; nic_arrive _ _ _ := eq_refl |}.

Definition powered_up : dp8390 := Mk_dp 33 (fun _ => 0) 128 0 0 (fun a => a mod 256) [] 0.
Definition example_driver : ne2000 dp8390 := Mk_ne2000 SIM_BASE [] false (replicate 16 0) powered_up.
Definition example_net : net := Mk_net (Mk_config 0 0 0 0 []) [] 0 0 true [] [].
(** An ARP request for the handler's address; the others are plain frames. *)
Definition question : buf := replicate 6 255 ++ [2; 0; 0; 0; 0; 9] ++ [8; 6] ++ [0; 1; 8; 0; 6; 4; 0; 1] ++ [2; 0; 0; 0; 0; 9] ++ [10; 0; 2; 2] ++ replicate 6 0 ++ [10; 0; 2; 15] ++ replicate 18 0.
Definition example_ops : list nic_op :=
  [Receive; Arrive (replicate 100 7) [1; 2; 3; 4]; Send [1; 2; 3]; Receive; Arrive question [1; 2; 3; 4]; Arrive (replicate 1514 8) [1; 2; 3; 4]; Arrive (replicate 300 9) [1; 2; 3; 4]; Interrupt; Interrupt; Receive].
Definition example_reply : buf := [2; 0; 0; 0; 0; 9] ++ DEFAULT_MAC ++ [8; 6] ++ [0; 1; 8; 0; 6; 4; 0; 2] ++ DEFAULT_MAC ++ [10; 0; 2; 15] ++ [2; 0; 0; 0; 0; 9] ++ [10; 0; 2; 2] ++ replicate 18 0.
Lemma ne2000_refines_nic_witness : exists s', (_ ← ne2000_init 1 7; nic_run SIM_BASE (replicate 1514 0) (fun n => replicate n 0) example_ops) example_driver = Some ([None; Some (replicate 100 7); Some (replicate 300 9)], s') /\
  d_wire (nic (ne_hw s')) = [1 :: 2 :: 3 :: replicate 57 0; example_reply].
Proof.
  destruct (ne2000_refines_nic SIM_BASE (replicate 1514 0) (fun n => replicate n 0) (fun n => length_replicate n 0) 0 7 example_ops example_driver example_net [None; Some (replicate 100 7); Some (replicate 300 9)]
    (with_sent example_net [1 :: 2 :: 3 :: replicate 57 0; example_reply]) false)
    as (s' & E & _ & Hw); [reflexivity|reflexivity|reflexivity|cbn; lia|rewrite length_replicate; lia|reflexivity|reflexivity|reflexivity|vm_compute; reflexivity|]. exists s'. split; [exact E|]. rewrite Hw. reflexivity.
Defined.
