(* ===== verification/E1000.v ===== *)
(** drivers/net/e1000.c: the Intel E1000 network card.

    The card is driven through registers in memory (class [Mmio]) and through rings of
    descriptors in main memory ([ram]), which the driver and the card share.  [e1000] is the
    driver's variables, the table of interrupt handlers (irq_routines of irq.c) and the
    hardware.  [e1000_card] is the card's side, and [E1000Device] states that the hardware
    has such a card.  Console output and the functions that only print registers are left out. *)

From S2P Require Import Prelude CString Effects Memory Ports Cpu Pci Net.

Definition E1000_VENDOR_ID : Z := 32902.
Definition E1000_DEVICE_ID : Z := 4110.
Definition E1000_REG_CTRL : Z := 0.
Definition E1000_REG_STATUS : Z := 8.
Definition E1000_REG_RCTL : Z := 256.
Definition E1000_REG_TCTL : Z := 1024.
Definition E1000_REG_TIPG : Z := 1040.
Definition E1000_REG_RDBAL : Z := 10240.
Definition E1000_REG_RDBAH : Z := 10244.
Definition E1000_REG_RDLEN : Z := 10248.
Definition E1000_REG_RDH : Z := 10256.
Definition E1000_REG_RDT : Z := 10264.
Definition E1000_REG_TDBAL : Z := 14336.
Definition E1000_REG_TDBAH : Z := 14340.
Definition E1000_REG_TDLEN : Z := 14344.
Definition E1000_REG_TDH : Z := 14352.
Definition E1000_REG_TDT : Z := 14360.
Definition E1000_REG_TXDCTL : Z := 14376.
Definition E1000_REG_ICR : Z := 192.
Definition E1000_REG_IMS : Z := 208.
Definition E1000_REG_RAL : Z := 21504.
Definition E1000_REG_RAH : Z := 21508.
Definition E1000_CTRL_SLU : Z := Z.shiftl 1 6.
Definition E1000_CTRL_FRCSPD : Z := Z.shiftl 1 11.
Definition E1000_CTRL_FRCDPLX : Z := Z.shiftl 1 12.
Definition E1000_CTRL_RST : Z := Z.shiftl 1 26.
Definition E1000_CTRL_PHY_RST : Z := Z.shiftl 1 31.
Definition E1000_RCTL_EN : Z := Z.shiftl 1 1.
Definition E1000_RCTL_UPE : Z := Z.shiftl 1 3.
Definition E1000_RCTL_MPE : Z := Z.shiftl 1 4.
Definition E1000_RCTL_LBM_MAC : Z := Z.shiftl 1 6.
Definition E1000_RCTL_BAM : Z := Z.shiftl 1 15.
Definition E1000_RCTL_BSIZE_8192 : Z := Z.lor (Z.shiftl 2 16) (Z.shiftl 1 25).
Definition E1000_RCTL_SECRC : Z := Z.shiftl 1 26.
Definition E1000_TCTL_EN : Z := Z.shiftl 1 1.
Definition E1000_TCTL_PSP : Z := Z.shiftl 1 3.
Definition E1000_TXD_CMD_EOP : Z := 1.
Definition E1000_TXD_CMD_IFCS : Z := 2.
Definition E1000_TXD_CMD_RS : Z := 8.
Definition E1000_TXD_CMD_IDE : Z := 128.
Definition E1000_NUM_RX_DESC : Z := 32.
Definition E1000_NUM_TX_DESC : Z := 8.
Definition RX_BUFFER_SIZE : Z := 8192.

Record e1000_tx_desc := Mk_tx { tx_addr : Z; tx_length : Z; tx_cso : Z; tx_cmd : Z; tx_status : Z; tx_css : Z; tx_special : Z }.
Record e1000_rx_desc := Mk_rx { rx_addr : Z; rx_length : Z; rx_checksum : Z; rx_status : Z; rx_errors : Z; rx_special : Z }.
Definition sizeof_desc : Z := 16.

(** Main memory: the two rings, and the bytes of the buffers. *)
Record ram := Mk_ram { rx_descs : list e1000_rx_desc; tx_descs : list e1000_tx_desc; mem : Z -> Z }.

(** Registers in memory, and the memory that the hardware works on. *)
Class Mmio (H : Type) := {
  mmio_read : Z -> H -> Z * H;
  mmio_write : Z -> Z -> H -> H;
  ram_of : H -> ram;
  put_ram : ram -> H -> H
}.

Record e1000 (H : Type) := Mk_e1000 {
  mmio_base : Z; e_irq : Z; tx_cur : Z; rx_buffers : list Z; e_routines : list Z; e_hw : H
}.
Arguments Mk_e1000 {H}. Arguments mmio_base {H}. Arguments e_irq {H}. Arguments tx_cur {H}. Arguments rx_buffers {H}. Arguments e_routines {H}. Arguments e_hw {H}.
Definition e_at {H} (s : e1000 H) (h : H) : e1000 H := Mk_e1000 (mmio_base s) (e_irq s) (tx_cur s) (rx_buffers s) (e_routines s) h.
#[global] Instance e1000_machine H : Machine (e1000 H) H := {| hw := e_hw; with_hw := e_at |}.

Section Driver.
Context {H : Type} `{Ports H} `{WidePorts H} `{Mmio H}.
Context (rx_descs_addr tx_descs_addr : Z).            (* where the two rings are *)
Abbreviation A := (M (e1000 H)).

Definition e1000_read_reg (offset : Z) : A Z := fun s =>
  let '(v, h) := mmio_read (mmio_base s + 4 * (offset / 4)) (e_hw s) in Some (u32 v, e_at s h).
Definition e1000_write_reg (offset value : Z) : A unit := modify (fun s => e_at s (mmio_write (mmio_base s + 4 * (offset / 4)) (u32 value) (e_hw s))).
Definition get_ram : A ram := gets (fun s => ram_of (e_hw s)).
Definition set_ram (r : ram) : A unit := modify (fun s => e_at s (put_ram r (e_hw s))).

(** A descriptor of a ring, and its update. *)
Definition rx_desc (i : Z) : A e1000_rx_desc := r ← get_ram; lift (at_index (rx_descs r) i).
Definition set_rx (i : Z) (d : e1000_rx_desc) : A unit := r ← get_ram; l ← lift (put_index (rx_descs r) i d); set_ram (Mk_ram l (tx_descs r) (mem r)).
Definition set_tx (i : Z) (d : e1000_tx_desc) : A unit := r ← get_ram; l ← lift (put_index (tx_descs r) i d); set_ram (Mk_ram (rx_descs r) l (mem r)).
Definition store (a : Z) (l : buf) : A unit := r ← get_ram; set_ram (Mk_ram (rx_descs r) (tx_descs r) (mem_put (mem r) a l)).

Definition e1000_enable_interrupts : A unit :=
  let ims := Z.lor (Z.lor (Z.lor (Z.shiftl 1 0) (Z.shiftl 1 2)) (Z.shiftl 1 6)) (Z.shiftl 1 7) in
  _ ← e1000_write_reg E1000_REG_IMS ims;
  _ ← e1000_read_reg E1000_REG_ICR;
  mret tt.
Definition e1000_enable_loopback : A unit :=
  e1000_write_reg E1000_REG_RCTL (foldr Z.lor 0 [E1000_RCTL_EN; E1000_RCTL_LBM_MAC; E1000_RCTL_BAM; E1000_RCTL_UPE; E1000_RCTL_MPE; E1000_RCTL_BSIZE_8192]).

Definition e1000_receive_packet (buffer : buf) (buffer_size : Z) : A (Z * buf) :=
  head ← e1000_read_reg E1000_REG_RDH;
  tail ← e1000_read_reg E1000_REG_RDT;
  let next_desc := u32 (tail + 1) mod E1000_NUM_RX_DESC in
  if next_desc =? head then mret (0, buffer) else
  d ← rx_desc next_desc;
  if Z.land (rx_status d) 1 =? 0 then mret (0, buffer) else
  let packet_length := rx_length d in
  if (packet_length =? 0) || (buffer_size <? packet_length) || (RX_BUFFER_SIZE <? packet_length) then
    _ ← set_rx next_desc (Mk_rx (rx_addr d) (rx_length d) (rx_checksum d) 0 (rx_errors d) (rx_special d));
    _ ← e1000_write_reg E1000_REG_RDT next_desc;
    mret (0, buffer)
  else
    l ← gets rx_buffers;
    a ← lift (at_index l next_desc);
    r ← get_ram;
    buffer ← lift (put_bytes buffer (ram_bytes (mem r) a (Z.to_nat packet_length)));
    _ ← set_rx next_desc (Mk_rx (rx_addr d) 0 (rx_checksum d) 0 (rx_errors d) (rx_special d));
    _ ← e1000_write_reg E1000_REG_RDT next_desc;
    mret (packet_length, buffer).

(** The packet is at an address. *)
Definition e1000_send_packet (packet length_ : Z) : A unit :=
  if (1518 <? length_) || (length_ <? 14) then mret tt else
  tail ← gets tx_cur;
  _ ← set_tx tail (Mk_tx packet (u16 length_) 0 (foldr Z.lor 0 [E1000_TXD_CMD_EOP; E1000_TXD_CMD_IFCS; E1000_TXD_CMD_RS; E1000_TXD_CMD_IDE]) 0 0 0);
  let cur := (tail + 1) mod E1000_NUM_TX_DESC in
  _ ← modify (fun s => Mk_e1000 (mmio_base s) (e_irq s) cur (rx_buffers s) (e_routines s) (e_hw s));
  _ ← e1000_write_reg E1000_REG_TDT cur;
  _ ← pit_delay 10;
  _ ← e1000_read_reg E1000_REG_TDH;
  mret tt.

Definition e1000_get_mac_address : A buf :=
  mac_low ← e1000_read_reg E1000_REG_RAL;
  mac_high ← e1000_read_reg E1000_REG_RAH;
  mret [Z.land mac_low 255; Z.land (Z.shiftr mac_low 8) 255; Z.land (Z.shiftr mac_low 16) 255; Z.land (Z.shiftr mac_low 24) 255; Z.land mac_high 255; Z.land (Z.shiftr mac_high 8) 255].

(** The reply on the stack, at address [stack]. *)
Definition e1000_arp_reply (our_mac request_packet : buf) : option buf :=
  if (length request_packet <? 32)%nat then None else
  Some (slice request_packet 6 6 ++ our_mac ++ [8; 6] ++ [0; 1; 8; 0; 6; 4; 0; 2] ++ our_mac ++ [10; 0; 2; 15] ++
        slice request_packet 6 6 ++ slice request_packet 28 4 ++ replicate 18 0).
Definition e1000_send_arp_reply (stack : Z) (request_packet : buf) : A unit :=
  our_mac ← e1000_get_mac_address;
  p ← lift (e1000_arp_reply our_mac request_packet);
  _ ← store stack p;
  e1000_send_packet stack 60.

Context (fresh : nat -> buf) (stack : Z).             (* arrays on the stack *)

Definition check_received_packet : A unit :=
  r ← e1000_receive_packet (fresh 2048) 2048;
  let '(length_, packet) := r in
  if length_ <=? 0 then mret tt else
  if length_ <? 14 then mret tt else
  t1 ← lift (rd packet 12); t0 ← lift (rd packet 13);
  if u16 (Z.lor (Z.shiftl t1 8) t0) =? 2054 then
    if length_ <? 14 + 28 then mret tt else
    o1 ← lift (rd packet 20); o0 ← lift (rd packet 21);
    if u16 (Z.lor (Z.shiftl o1 8) o0) =? 1 then
      a ← lift (rd packet 38); b ← lift (rd packet 39); c ← lift (rd packet 40); d ← lift (rd packet 41);
      if (a =? 10) && (b =? 0) && (c =? 2) && (d =? 15) then e1000_send_arp_reply stack packet else mret tt
    else mret tt
  else mret tt.

Definition e1000_isr : A unit :=
  icr ← e1000_read_reg E1000_REG_ICR;
  if icr =? 0 then mret tt else
  _ ← (if negb (Z.land icr (Z.shiftl 1 6) =? 0) then check_received_packet else mret tt);
  _ ← (if negb (Z.land icr (Z.shiftl 1 7) =? 0) then check_received_packet else mret tt);
  if negb (Z.land icr (Z.shiftl 1 2) =? 0) then _ ← e1000_read_reg E1000_REG_STATUS; mret tt else mret tt.

(** The receive ring, from [i] on, with the buffers that [aligned_alloc] returns; the flag
    tells that there was one for every descriptor, otherwise exit(1) is called. *)
Fixpoint init_rx (n : nat) (i : Z) (allocs : list Z) : A bool :=
  match n with
  | O => mret true
  | S n' =>
      match allocs with
      | [] => undef
      | a :: allocs' =>
          l ← gets rx_buffers;
          l ← lift (put_index l i a);
          _ ← modify (fun s => Mk_e1000 (mmio_base s) (e_irq s) (tx_cur s) l (e_routines s) (e_hw s));
          if a =? 0 then mret false else
          d ← rx_desc i;
          _ ← set_rx i (Mk_rx a 0 (rx_checksum d) 0 0 0);
          init_rx n' (i + 1) allocs'
      end
  end.
Fixpoint init_tx (n : nat) (i : Z) : A unit :=
  match n with O => mret tt | S n' => _ ← set_tx i (Mk_tx 0 0 0 0 255 0 0); init_tx n' (i + 1) end.
Definition initialize_rings_and_buffers (allocs : list Z) : A bool :=
  ok ← init_rx (Z.to_nat E1000_NUM_RX_DESC) 0 allocs;
  if negb ok then mret false else
  _ ← init_tx (Z.to_nat E1000_NUM_TX_DESC) 0;
  mret true.

Definition reset_e1000 : A unit :=
  ctrl ← e1000_read_reg E1000_REG_CTRL;
  _ ← e1000_write_reg E1000_REG_CTRL (Z.lor ctrl E1000_CTRL_RST);
  ctrl ← e1000_read_reg E1000_REG_CTRL;
  if negb (Z.land ctrl E1000_CTRL_RST =? 0) then mret tt else
  ctrl ← e1000_read_reg E1000_REG_CTRL;
  e1000_write_reg E1000_REG_CTRL (foldl Z.lor (Z.ldiff ctrl E1000_CTRL_PHY_RST) [E1000_CTRL_SLU; E1000_CTRL_FRCSPD; E1000_CTRL_FRCDPLX]).

(** The two rings are made known to the card. *)
Definition init_rings_regs : A unit :=
  _ ← e1000_write_reg E1000_REG_RDBAL rx_descs_addr;
  _ ← e1000_write_reg E1000_REG_RDBAH 0;
  _ ← e1000_write_reg E1000_REG_RDLEN (E1000_NUM_RX_DESC * sizeof_desc);
  _ ← e1000_write_reg E1000_REG_RDH 0;
  _ ← e1000_write_reg E1000_REG_RDT (E1000_NUM_RX_DESC - 1);
  _ ← e1000_write_reg E1000_REG_TDBAL tx_descs_addr;
  _ ← e1000_write_reg E1000_REG_TDBAH 0;
  _ ← e1000_write_reg E1000_REG_TDLEN (E1000_NUM_TX_DESC * sizeof_desc);
  _ ← e1000_write_reg E1000_REG_TDH 0;
  e1000_write_reg E1000_REG_TDT 0.
(** [for (i = ..; n more rounds; i++) e1000_write_reg(0x5200 + (i * 4), 0)] *)
Definition clear_multicast (n : nat) : A unit := for_up 0 n (fun i => e1000_write_reg (20992 + i * 4) 0).
(** Address filter, receiver and transmitter. *)
Definition init_enable : A unit :=
  txdctl ← e1000_read_reg E1000_REG_TXDCTL;
  _ ← e1000_write_reg E1000_REG_TXDCTL (Z.lor (Z.lor txdctl (Z.shiftl 1 25)) (Z.shiftl 1 22));
  ral ← e1000_read_reg E1000_REG_RAL;
  rah ← e1000_read_reg E1000_REG_RAH;
  _ ← e1000_write_reg E1000_REG_RAL ral;
  _ ← e1000_write_reg E1000_REG_RAH (Z.lor rah (Z.shiftl 1 31));
  _ ← clear_multicast 128;
  _ ← e1000_write_reg E1000_REG_RCTL (foldr Z.lor 0 [E1000_RCTL_EN; E1000_RCTL_UPE; E1000_RCTL_MPE; E1000_RCTL_BAM; E1000_RCTL_BSIZE_8192; E1000_RCTL_SECRC]);
  tctl ← e1000_read_reg E1000_REG_TCTL;
  _ ← e1000_write_reg E1000_REG_TCTL (foldl Z.lor tctl [E1000_TCTL_EN; E1000_TCTL_PSP; Z.shiftl 15 4; Z.shiftl 64 12]);
  e1000_write_reg E1000_REG_TIPG 6299658.
Definition e1000_init (isr_addr : Z) (allocs : list Z) : A unit :=
  _ ← reset_e1000;
  status ← e1000_read_reg E1000_REG_STATUS;
  if Z.land status 1 =? 0 then mret tt else
  ok ← initialize_rings_and_buffers allocs;
  if negb ok then mret tt else
  _ ← init_rings_regs;
  _ ← init_enable;
  irq ← gets e_irq;
  l ← gets e_routines;
  l ← lift (put_index l irq isr_addr);
  _ ← modify (fun s => Mk_e1000 (mmio_base s) (e_irq s) (tx_cur s) (rx_buffers s) l (e_hw s));
  e1000_enable_interrupts.

(** An operation on the bus. *)
Definition e1000_on_bus {X} (m : M (pci H) X) : A X := fun s =>
  match m (Mk_pci [] 0 [] 0 (e_hw s)) with Some (x, p) => Some (x, e_at s (pci_hw p)) | None => None end.
Definition e1000_probe (isr_addr : Z) (allocs : list Z) (pci_dev : pci_device_t) : A Z :=
  if (vendor_id pci_dev =? E1000_VENDOR_ID) && (device_id pci_dev =? E1000_DEVICE_ID) then
    _ ← e1000_on_bus (pci_enable_device pci_dev);
    _ ← e1000_on_bus (pci_set_bus_master (pci_bus pci_dev) (pci_slot pci_dev) 1);
    bar0 ← lift (pci_read_bar pci_dev 0);
    _ ← modify (fun s => Mk_e1000 (map_mmio bar0) (pci_configure_irq pci_dev) (tx_cur s) (rx_buffers s) (e_routines s) (e_hw s));
    _ ← e1000_init isr_addr allocs;
    _ ← e1000_get_mac_address;
    mret 0
  else mret (-1).
(** The driver is registered with the bus. *)
Definition e1000_detect (probe_addr : Z) : M (pci H) unit := pci_register_driver E1000_VENDOR_ID E1000_DEVICE_ID probe_addr.
Definition e1000_is_initialized : A bool := b ← gets mmio_base; mret (negb (b =? 0)).

(** The request for the gateway, in a static buffer. *)
Definition test_packet (our_mac : buf) : buf :=
  replicate 6 255 ++ our_mac ++ [8; 6] ++ [0; 1; 8; 0; 6; 4; 0; 1] ++ our_mac ++ [10; 0; 2; 15] ++ replicate 6 0 ++ [10; 0; 2; 1] ++ replicate 18 0.
Definition e1000_send_test_packet (tx_packet_buffer : Z) : A unit :=
  our_mac ← e1000_get_mac_address;
  _ ← store tx_packet_buffer (test_packet our_mac);
  e1000_send_packet tx_packet_buffer 60.
End Driver.

(** ** The card

    [g_regs] is the registers by offset.  The card works on the descriptors that its base
    registers point to: descriptor [i] of a ring is the one at the base, of which the card
    ignores the low four bits, plus 16 * [i], and the length register says after how many the
    ring starts again.  [rx_at] and [tx_at] are the addresses of the driver's two arrays; a
    ring anywhere else has no descriptors.

    The frames between the head and the tail of the transmit ring are sent when time passes:
    one descriptor is one frame (end of packet) with a checksum added by the card, and the
    card appends [padding] to a short frame.  A frame that arrives goes to the buffer of the
    descriptor at the head of the receive ring; it is lost when the head has reached the
    tail.  The receiver is described for the way the driver sets it up: all filters off,
    checksum stripped, and frames that fit one buffer. *)

Record card := Mk_card { g_regs : Z -> Z; g_ram : ram; g_wire : list buf }.
Definition set_reg (f : Z -> Z) (k v : Z) : Z -> Z := fun x => if x =? k then v else f x.
Definition with_reg (d : card) (k v : Z) : card := Mk_card (set_reg (g_regs d) k v) (g_ram d) (g_wire d).
Definition with_ram (d : card) (r : ram) : card := Mk_card (g_regs d) r (g_wire d).

Definition after_read (off : Z) (d : card) : card := if off =? E1000_REG_ICR then with_reg d E1000_REG_ICR 0 else d.
(** A reset ends by itself and stops both engines. *)
Definition write_card (off v : Z) (d : card) : card :=
  if (off =? E1000_REG_CTRL) && Z.testbit v 26 then
    foldr (fun k d => with_reg d k 0) (with_reg d E1000_REG_CTRL (Z.ldiff v E1000_CTRL_RST)) [E1000_REG_RCTL; E1000_REG_TCTL; E1000_REG_RDH; E1000_REG_RDT; E1000_REG_TDH; E1000_REG_TDT; E1000_REG_ICR; E1000_REG_IMS]
  else with_reg d off v.

(** The entry of the array at [array] that is descriptor [i] of the ring at [lo] and [hi]. *)
Definition ring_entry (array lo hi i : Z) : option nat :=
  let off := lo / 16 * 16 + 2 ^ 32 * hi + 16 * i - array in
  if (0 <=? off) && (off mod 16 =? 0) then Some (Z.to_nat (off / 16)) else None.

(** The size of a receive buffer in the control register. *)
Definition buffer_size (rctl : Z) : Z :=
  Z.shiftr 2048 (Z.land (Z.shiftr rctl 16) 3) * (if Z.testbit rctl 25 then 16 else 1).

Section Card.
Context (rx_at tx_at : Z) (padding : buf).

(** What a frame is on the wire. *)
Definition tx_padded (p : buf) : buf := p ++ take (60 - length p) padding.

Fixpoint transmit (n : nat) (d : card) : card :=
  match n with
  | O => d
  | S n' =>
      let i := g_regs d E1000_REG_TDH in
      let tctl := g_regs d E1000_REG_TCTL in
      if (i =? g_regs d E1000_REG_TDT) || negb (Z.testbit tctl 1) then d else
      match (k ← ring_entry tx_at (g_regs d E1000_REG_TDBAL) (g_regs d E1000_REG_TDBAH) i; t ← tx_descs (g_ram d) !! k; Some (k, t)) with
      | None => d
      | Some (k, t) =>
          let r := g_ram d in
          let t' := if Z.testbit (tx_cmd t) 3
                    then Mk_tx (tx_addr t) (tx_length t) (tx_cso t) (tx_cmd t) (Z.lor (tx_status t) 1) (tx_css t) (tx_special t) else t in
          let p := ram_bytes (mem r) (tx_addr t) (Z.to_nat (tx_length t)) in
          transmit n' (Mk_card (set_reg (set_reg (g_regs d) E1000_REG_TDH ((i + 1) mod (g_regs d E1000_REG_TDLEN / 16))) E1000_REG_ICR (Z.lor (g_regs d E1000_REG_ICR) 1))
            (Mk_ram (rx_descs r) (<[k := t']> (tx_descs r)) (mem r))
            (if Z.testbit (tx_cmd t) 0 && Z.testbit (tx_cmd t) 1 then g_wire d ++ [if Z.testbit tctl 3 then tx_padded p else p] else g_wire d))
      end
  end.

Definition receiver_on (rctl : Z) (f : buf) : bool := forallb (Z.testbit rctl) [1; 3; 4; 15; 26] && (blen f <=? buffer_size rctl).
Definition arrive (f : buf) (d : card) : card :=
  let i := g_regs d E1000_REG_RDH in
  let icr := g_regs d E1000_REG_ICR in
  if negb (receiver_on (g_regs d E1000_REG_RCTL) f) then d
  else if i =? g_regs d E1000_REG_RDT then with_reg d E1000_REG_ICR (Z.lor icr 64) else
  match (k ← ring_entry rx_at (g_regs d E1000_REG_RDBAL) (g_regs d E1000_REG_RDBAH) i; t ← rx_descs (g_ram d) !! k; Some (k, t)) with
  | None => d
  | Some (k, t) =>
      let r := g_ram d in
      Mk_card (set_reg (set_reg (g_regs d) E1000_REG_RDH ((i + 1) mod (g_regs d E1000_REG_RDLEN / 16))) E1000_REG_ICR (Z.lor icr 128))
        (Mk_ram (<[k := Mk_rx (rx_addr t) (blen f) (rx_checksum t) 3 0 (rx_special t)]> (rx_descs r)) (tx_descs r) (mem_put (mem r) (rx_addr t) f)) (g_wire d)
  end.
End Card.

(** The hardware has such a card.  10 ms are time enough for a full transmit ring, whatever
    the speed of the link: eight frames take less than 10 ms at 10 Mbit/s. *)
Class E1000Device (H : Type) `{Ports H} `{Mmio H} (base rx_at tx_at : Z) := {
  card_of : H -> card;
  padding : buf;
  padding_length : length padding = 60%nat;
  card_read : forall off h, 0 <= off < 131072 -> off mod 4 = 0 -> exists v h', mmio_read (base + off) h = (v, h') /\ u32 v = u32 (g_regs (card_of h) off) /\ card_of h' = after_read off (card_of h);
  card_write : forall off v h, 0 <= off < 131072 -> off mod 4 = 0 -> 0 <= v < 2 ^ 32 -> card_of (mmio_write (base + off) v h) = write_card off v (card_of h);
  card_ram : forall h, ram_of h = g_ram (card_of h);
  card_put : forall r h, card_of (put_ram r h) = with_ram (card_of h) r;
  card_delay : forall ms h, 10 <= ms -> card_of (dev_delay ms h) = transmit tx_at padding (Z.to_nat E1000_NUM_TX_DESC) (card_of h);
  dev_arrive : buf -> H -> H;
  card_arrive : forall f h, card_of (dev_arrive f h) = arrive rx_at f (card_of h)
}.

(** ** Running the driver on the card *)

Section Runs.
Context {H : Type} (base rx_at tx_at : Z) `{E1000Device H base rx_at tx_at} (B : list Z).

(** [m] takes the card from [d] to [d'] with result [a] and changes no variable; [B] are the
    buffers. *)
Definition runs {X} (m : M (e1000 H) X) (d : card) (a : X) (d' : card) : Prop :=
  forall s, mmio_base s = base -> rx_buffers s = B -> card_of (e_hw s) = d -> exists h, m s = Some (a, e_at s h) /\ card_of h = d'.

Lemma e_bind {X Y} (m : M (e1000 H) X) (k : X -> M (e1000 H) Y) d a d1 b d2 : runs m d a d1 -> runs (k a) d1 b d2 -> runs (m ≫= k) d b d2.
Proof.
  intros Hm Hk s Hs Hb Hd. destruct (Hm s Hs Hb Hd) as (h & E & Eh). rewrite (bind_eq _ _ _ _ _ E).
  destruct (Hk (e_at s h) Hs Hb Eh) as (h' & E' & Eh'). exists h'. by rewrite E'.
Qed.
Lemma e_ret {X} (a : X) d : runs (mret a) d a d.
Proof. intros s _ _ Hd. exists (e_hw s). split; [by destruct s|done]. Qed.
Lemma e_lift {X Y} (o : option X) x (k : X -> M (e1000 H) Y) d b d' : o = Some x -> runs (k x) d b d' -> runs (lift o ≫= k) d b d'.
Proof. intros -> Hk. exact Hk. Qed.
Lemma e_buffers {Y} (k : list Z -> M (e1000 H) Y) d b d' : runs (k B) d b d' -> runs (gets rx_buffers ≫= k) d b d'.
Proof. intros Hk s Hs Hb Hd. rewrite gets_bind, Hb. by apply Hk. Qed.
Lemma e_ram {Y} (k : ram -> M (e1000 H) Y) d b d' : runs (k (g_ram d)) d b d' -> runs (get_ram ≫= k) d b d'.
Proof. intros Hk s Hs Hb Hd. unfold get_ram. rewrite gets_bind, card_ram, Hd. by apply Hk. Qed.
Lemma e_set_ram r d : runs (set_ram r) d tt (with_ram d r).
Proof. intros s Hs Hb Hd. eexists. split; [done|]. by rewrite card_put, Hd. Qed.

Lemma e_read off d v : 0 <= off < 131072 -> off mod 4 = 0 -> g_regs d off = v -> 0 <= v < 2 ^ 32 -> runs (e1000_read_reg off) d v (after_read off d).
Proof.
  intros Ho Hm Hv Hr s Hs Hb Hd. unfold e1000_read_reg. rewrite Hs. replace (4 * (off / 4)) with off by zlia. destruct (card_read off (e_hw s) Ho Hm) as (x & h & E & Ex & Eh).
  rewrite E, Ex, Hd, Hv, wrap_small by lia. exists h. split; [done|]. by rewrite Eh, Hd.
Qed.
Lemma e_read_any off d : 0 <= off < 131072 -> off mod 4 = 0 -> runs (e1000_read_reg off) d (u32 (g_regs d off)) (after_read off d).
Proof.
  intros Ho Hm s Hs Hb Hd. unfold e1000_read_reg. rewrite Hs. replace (4 * (off / 4)) with off by zlia. destruct (card_read off (e_hw s) Ho Hm) as (x & h & E & Ex & Eh).
  rewrite E, Ex, Hd. exists h. split; [done|]. by rewrite Eh, Hd.
Qed.
Lemma e_write off v d : 0 <= off < 131072 -> off mod 4 = 0 -> 0 <= v < 2 ^ 32 -> runs (e1000_write_reg off v) d tt (write_card off v d).
Proof.
  intros Ho Hm Hv s Hs Hb Hd. eexists. split; [done|]. rewrite Hs. replace (4 * (off / 4)) with off by zlia. rewrite wrap_small by lia. rewrite card_write by done. by rewrite Hd.
Qed.
Lemma e_write_any off v d : 0 <= off < 131072 -> off mod 4 = 0 -> runs (e1000_write_reg off v) d tt (write_card off (u32 v) d).
Proof.
  intros Ho Hm s Hs Hb Hd. eexists. split; [done|]. rewrite Hs. replace (4 * (off / 4)) with off by zlia. rewrite card_write by (done || apply (wrap_range 32); lia). by rewrite Hd.
Qed.
Lemma e_delay d : runs (pit_delay 10) d tt (transmit tx_at padding 8 d).
Proof. intros s Hs Hb Hd. eexists. split; [done|]. rewrite <- Hd. apply (card_delay 10). lia. Qed.
Lemma e_eq {X} (m : M (e1000 H) X) d a d1 d2 : runs m d a d1 -> d1 = d2 -> runs m d a d2.
Proof. by intros Hm <-. Qed.

Lemma e_set_rx i t d t0 : 0 <= i -> rx_descs (g_ram d) !! Z.to_nat i = Some t0 ->
  runs (set_rx i t) d tt (with_ram d (Mk_ram (<[Z.to_nat i := t]> (rx_descs (g_ram d))) (tx_descs (g_ram d)) (mem (g_ram d)))).
Proof.
  intros Hi Hl. unfold set_rx. apply e_ram. eapply e_lift; [|apply e_set_ram]. unfold put_index, at_index. rewrite (proj2 (Z.leb_le _ _) Hi). by rewrite Hl.
Qed.
Lemma e_set_tx i t d t0 : 0 <= i -> tx_descs (g_ram d) !! Z.to_nat i = Some t0 ->
  runs (set_tx i t) d tt (with_ram d (Mk_ram (rx_descs (g_ram d)) (<[Z.to_nat i := t]> (tx_descs (g_ram d))) (mem (g_ram d)))).
Proof.
  intros Hi Hl. unfold set_tx. apply e_ram. eapply e_lift; [|apply e_set_ram]. unfold put_index, at_index. rewrite (proj2 (Z.leb_le _ _) Hi). by rewrite Hl.
Qed.
Lemma e_store a l d : runs (store a l) d tt (with_ram d (Mk_ram (rx_descs (g_ram d)) (tx_descs (g_ram d)) (mem_put (mem (g_ram d)) a l))).
Proof. unfold store. apply e_ram, e_set_ram. Qed.
End Runs.

(** ** The rings *)

Definition slot (t i : Z) : Z := (t + 1 + i) mod 32.
Definition frame_ok (f : buf) : Prop := bytes_ok f /\ 0 < blen f <= 2048.
Definition RDT (d : card) : Z := g_regs d E1000_REG_RDT.
Definition RDH (d : card) : Z := g_regs d E1000_REG_RDH.

(** The frame in a slot. *)
Definition holds (d : card) (B : list Z) (k : Z) (f : buf) : Prop := exists t a,
  rx_descs (g_ram d) !! Z.to_nat k = Some t /\ B !! Z.to_nat k = Some a /\ Z.land (rx_status t) 1 <> 0 /\ rx_length t = blen f /\ ram_bytes (mem (g_ram d)) a (length f) = f.

(** Buffers apart from each other and from the area for sending. *)
Record buffers_ok (B : list Z) (tx : Z) : Prop := {
  bo_length : length B = 32%nat;
  bo_apart : forall i j a b, i <> j -> B !! i = Some a -> B !! j = Some b -> a + RX_BUFFER_SIZE <= b \/ b + RX_BUFFER_SIZE <= a;
  bo_tx : forall i a, B !! i = Some a -> a + RX_BUFFER_SIZE <= tx \/ tx + 2048 <= a
}.

(** The station address in the card's registers, as [e1000_get_mac_address] reads it. *)
Definition mac_of (d : card) : buf :=
  let mac_low := u32 (g_regs d E1000_REG_RAL) in let mac_high := u32 (g_regs d E1000_REG_RAH) in
  [Z.land mac_low 255; Z.land (Z.shiftr mac_low 8) 255; Z.land (Z.shiftr mac_low 16) 255; Z.land (Z.shiftr mac_low 24) 255; Z.land mac_high 255; Z.land (Z.shiftr mac_high 8) 255].

(** What the driver writes to the receive control register. *)
Definition RCTL_VALUE : Z := foldr Z.lor 0 [E1000_RCTL_EN; E1000_RCTL_UPE; E1000_RCTL_MPE; E1000_RCTL_BAM; E1000_RCTL_BSIZE_8192; E1000_RCTL_SECRC].

(** The causes of interrupts: a frame was sent, a frame was lost, a frame arrived. *)
Definition causes (tx lost arrived : bool) : Z := Z.lor (if tx then 1 else 0) (Z.lor (if lost then 64 else 0) (if arrived then 128 else 0)).
Definition pending (d : card) (lost arrived : bool) : Prop := exists tx, g_regs d E1000_REG_ICR = causes tx lost arrived.

Section Rings.
Context (rx_at tx_at : Z) (mac : buf).

(** The card and the driver between two operations, with the frames [fs] received. *)
Record rings (d : card) (B : list Z) (cur : Z) (fs : list buf) : Prop := {
  g_rdt : 0 <= RDT d < 32; g_rdh : RDH d = slot (RDT d) (Z.of_nat (length fs)); g_room : (length fs <= 31)%nat;
  g_addr : forall i t, rx_descs (g_ram d) !! i = Some t -> B !! i = Some (rx_addr t); g_count : length (rx_descs (g_ram d)) = 32%nat;
  g_frames : forall i f, fs !! i = Some f -> holds d B (slot (RDT d) (Z.of_nat i)) f; g_ok : Forall frame_ok fs;
  g_rctl : g_regs d E1000_REG_RCTL = RCTL_VALUE; g_tctl : Z.testbit (g_regs d E1000_REG_TCTL) 1 = true; g_psp : Z.testbit (g_regs d E1000_REG_TCTL) 3 = true;
  g_rxring : g_regs d E1000_REG_RDBAL = rx_at /\ g_regs d E1000_REG_RDBAH = 0 /\ g_regs d E1000_REG_RDLEN = 512;
  g_txring : g_regs d E1000_REG_TDBAL = tx_at /\ g_regs d E1000_REG_TDBAH = 0 /\ g_regs d E1000_REG_TDLEN = 128;
  g_mac : mac_of d = mac;
  g_cur : 0 <= cur < 8; g_tdh : g_regs d E1000_REG_TDH = cur; g_tdt : g_regs d E1000_REG_TDT = cur; g_txs : length (tx_descs (g_ram d)) = 8%nat
}.

Lemma ring_entry_ok a i : a mod 16 = 0 -> 0 <= i -> ring_entry a a 0 i = Some (Z.to_nat i).
Proof.
  intros Ha Hi. unfold ring_entry. replace (a / 16 * 16 + 2 ^ 32 * 0 + 16 * i - a) with (i * 16) by zlia.
  rewrite (proj2 (Z.leb_le _ _)), Z.mod_mul, Z.div_mul by lia. done.
Qed.
Lemma receiver_accepts f : blen f <= 2048 -> receiver_on RCTL_VALUE f = true.
Proof. intros Hf. unfold receiver_on. change (buffer_size RCTL_VALUE) with 8192. rewrite (proj2 (Z.leb_le _ _)) by lia. reflexivity. Qed.

Lemma slot_range t i : 0 <= slot t i < 32.
Proof. unfold slot. zlia. Qed.
Lemma slot_next t i : slot (slot t 0) i = slot t (i + 1).
Proof. unfold slot. zlia. Qed.
Lemma slot_inj t i j : 0 <= i < 32 -> 0 <= j < 32 -> slot t i = slot t j -> i = j.
Proof. unfold slot. intros Hi Hj E. zlia. Qed.

(** The frames stay where they are when their slots and buffers do. *)
Lemma holds_same d d' B k f : holds d B k f -> rx_descs (g_ram d') !! Z.to_nat k = rx_descs (g_ram d) !! Z.to_nat k ->
  (forall a, B !! Z.to_nat k = Some a -> ram_bytes (mem (g_ram d')) a (length f) = ram_bytes (mem (g_ram d)) a (length f)) -> holds d' B k f.
Proof. intros (t & a & Ht & Ha & Hs & Hl & Hm) Hd Hmem. exists t, a. rewrite Hd, (Hmem a Ha). done. Qed.

Lemma arrive_rings d B cur tx fs f : rx_at mod 16 = 0 -> rings d B cur fs -> buffers_ok B tx -> frame_ok f -> (length fs < 31)%nat ->
  rings (arrive rx_at f d) B cur (fs ++ [f]) /\ g_wire (arrive rx_at f d) = g_wire d /\ g_regs (arrive rx_at f d) E1000_REG_ICR = Z.lor (g_regs d E1000_REG_ICR) 128.
Proof.
  intros Hal [Ht Hh Hr Ha Hc Hf Hok Hrc Htc Hps (Hrb & Hrx & Hrl) Htr Hmac Hcu Hth Htt Htx] [Hl Hap _] Hfo Hn. pose proof Hfo as [Hfb Hfl]. unfold arrive. change (g_regs d E1000_REG_RDH) with (RDH d). change (g_regs d E1000_REG_RDT) with (RDT d).
  assert (RDH d <> RDT d) as Hne. { rewrite Hh. intros E. assert (slot (RDT d) (Z.of_nat (length fs)) = slot (RDT d) 31) as E2 by (rewrite E; unfold slot; zlia). apply slot_inj in E2; lia. }
  rewrite Hrc, receiver_accepts by lia. cbn [negb]. destruct (Z.eqb_spec (RDH d) (RDT d)); [done|]. pose proof (slot_range (RDT d) (Z.of_nat (length fs))) as Hs. rewrite <- Hh in Hs. set (k := RDH d) in *.
  destruct (lookup_lt_is_Some_2 (rx_descs (g_ram d)) (Z.to_nat k)) as [t Et]; [lia|]. rewrite Hrb, Hrx, Hrl, ring_entry_ok by lia. cbn [mbind option_bind]. rewrite Et. cbn [mbind option_bind].
  pose proof (Ha _ _ Et) as Hb. split; [|done]. split; try done.
  - change (((k + 1) mod 32) = slot (RDT d) (Z.of_nat (length (fs ++ [f])))). rewrite length_app. cbn [length]. unfold slot in *. zlia.
  - rewrite length_app. cbn [length]. lia.
  - intros i t' Hi. cbn in Hi. destruct (decide (i = Z.to_nat k)) as [->|]; [rewrite list_lookup_insert_eq in Hi by lia; by injection Hi as <-|rewrite list_lookup_insert_ne in Hi by done; by apply Ha].
  - cbn. by rewrite length_insert.
  - intros i g Hi. change (RDT _) with (RDT d). apply lookup_app_Some in Hi as [Hi|[Hi1 Hi2]].
    + pose proof (lookup_lt_Some _ _ _ Hi) as Hil. pose proof (slot_range (RDT d) (Z.of_nat i)). assert (slot (RDT d) (Z.of_nat i) <> k) as Hsk. { rewrite Hh. intros E. apply slot_inj in E; lia. }
      pose proof (Forall_lookup_1 _ _ _ _ Hok Hi) as [_ Hgl]. eapply holds_same; [by apply Hf|cbn; rewrite list_lookup_insert_ne by lia; done|].
      intros a Hka. cbn. apply ram_bytes_other. destruct (Hap (Z.to_nat (slot (RDT d) (Z.of_nat i))) (Z.to_nat k) a (rx_addr t) ltac:(lia) Hka Hb); unfold RX_BUFFER_SIZE, blen in *; lia.
    + assert (i = length fs /\ g = f) as [-> ->]. { destruct (i - length fs)%nat as [|j] eqn:Ej; [cbn in Hi2; simplify_eq; split; [lia|done]|by destruct j]. }
      rewrite <- Hh. eexists _, (rx_addr t). cbn. rewrite list_lookup_insert_eq by lia. split; [done|]. split; [done|]. cbn. split; [done|]. split; [done|]. by apply ram_bytes_put.
  - apply Forall_app. split; [done|]. by constructor.
Qed.
(** With 31 frames waiting, the next one is lost. *)
Lemma arrive_full d B cur fs f : rings d B cur fs -> frame_ok f -> length fs = 31%nat -> arrive rx_at f d = with_reg d E1000_REG_ICR (Z.lor (g_regs d E1000_REG_ICR) 64).
Proof.
  intros Hr [_ Hfl] Hn. unfold arrive. rewrite (g_rctl _ _ _ _ Hr), receiver_accepts by lia. cbn [negb]. change (g_regs d E1000_REG_RDH) with (RDH d). change (g_regs d E1000_REG_RDT) with (RDT d).
  pose proof (g_rdt _ _ _ _ Hr). rewrite (g_rdh _ _ _ _ Hr), Hn. replace (slot (RDT d) (Z.of_nat 31)) with (RDT d) by (unfold slot; zlia). by rewrite Z.eqb_refl.
Qed.
(** The cause register is not part of the rings. *)
Lemma rings_icr d B cur fs v : rings d B cur fs -> rings (with_reg d E1000_REG_ICR v) B cur fs.
Proof. intros [Ht Hh Hr Ha Hc Hf Hok Hrc Htc Hps Hrr Htr Hmac Hcu Hth Htt Htx]. split; try done. Qed.
End Rings.

Section Operations.
Context {H : Type} (base rx_at tx_at : Z) `{E1000Device H base rx_at tx_at} (tx_align : tx_at mod 16 = 0) (mac : buf) (B : list Z).
Abbreviation runs := (runs base rx_at tx_at B).
Abbreviation rings := (rings rx_at tx_at mac).

Lemma read_rdh d cur fs : rings d B cur fs -> runs (e1000_read_reg E1000_REG_RDH) d (RDH d) d.
Proof. intros Hr. apply (e_read base rx_at tx_at B E1000_REG_RDH d (RDH d)); [done|done|done|]. rewrite (g_rdh _ _ _ _ _ _ _ Hr). pose proof (slot_range (RDT d) (Z.of_nat (length fs))). lia. Qed.
Lemma read_rdt d cur fs : rings d B cur fs -> runs (e1000_read_reg E1000_REG_RDT) d (RDT d) d.
Proof. intros Hr. apply (e_read base rx_at tx_at B E1000_REG_RDT d (RDT d)); [done|done|done|]. pose proof (g_rdt _ _ _ _ _ _ _ Hr). lia. Qed.
Lemma next_slot d cur fs : rings d B cur fs -> u32 (RDT d + 1) mod E1000_NUM_RX_DESC = slot (RDT d) 0.
Proof. intros Hr. pose proof (g_rdt _ _ _ _ _ _ _ Hr). rewrite wrap_small by lia. unfold slot. by rewrite Z.add_0_r. Qed.

Lemma receive_none d cur buffer size : rings d B cur [] -> runs (e1000_receive_packet buffer size) d (0, buffer) d.
Proof.
  intros Hr. unfold e1000_receive_packet. eapply e_bind; [by eapply read_rdh|]. eapply e_bind; [by eapply read_rdt|]. rewrite (next_slot _ _ _ Hr), (g_rdh _ _ _ _ _ _ _ Hr). cbn [length Z.of_nat]. rewrite Z.eqb_refl. apply e_ret.
Qed.

(** The first slot is given back to the card. *)
Lemma rings_drop d cur f fs t : rings d B cur (f :: fs) -> rx_addr t = default 0 (B !! Z.to_nat (slot (RDT d) 0)) ->
  rings (with_reg (with_ram d (Mk_ram (<[Z.to_nat (slot (RDT d) 0) := t]> (rx_descs (g_ram d))) (tx_descs (g_ram d)) (mem (g_ram d)))) E1000_REG_RDT (slot (RDT d) 0)) B cur fs.
Proof.
  intros [Ht Hh Hr Ha Hc Hf Hok Hrc Htc Hps Hrr Htr Hmac Hcu Hth Htt Htx] Hta. pose proof (slot_range (RDT d) 0) as Hs. set (k := slot (RDT d) 0) in *. set (d' := with_reg _ _ _).
  change (RDT d') with k. assert (RDT d' = k) as Ek by done. assert (RDH d' = RDH d) as Eh by done. cbn [length] in Hh, Hr. apply Forall_cons in Hok as [Hfo Hok].
  split; try done.
  - rewrite Eh, Hh, Ek. unfold k. rewrite slot_next. f_equal. lia.
  - lia.
  - intros i t' Hi. cbn in Hi. destruct (decide (i = Z.to_nat k)) as [->|]; [|rewrite list_lookup_insert_ne in Hi by done; by apply Ha].
    rewrite list_lookup_insert_eq in Hi by lia. injection Hi as <-. destruct (lookup_lt_is_Some_2 (rx_descs (g_ram d)) (Z.to_nat k)) as [t0 Et]; [lia|]. rewrite Hta. by rewrite (Ha _ _ Et).
  - cbn. by rewrite length_insert.
  - intros i g Hi. rewrite Ek. unfold k. rewrite slot_next. pose proof (lookup_lt_Some _ _ _ Hi). replace (Z.of_nat i + 1) with (Z.of_nat (S i)) by lia. pose proof (slot_range (RDT d) (Z.of_nat (S i))).
    assert (slot (RDT d) (Z.of_nat (S i)) <> k) as Hne. { intros E. unfold k in E. apply slot_inj in E; lia. }
    eapply holds_same; [by apply (Hf (S i))|cbn; rewrite list_lookup_insert_ne by lia; done|done].
Qed.

Lemma e_receive_first d cur f fs buffer size : rings d B cur (f :: fs) -> blen f <= size -> (length f <= length buffer)%nat ->
  exists d', runs (e1000_receive_packet buffer size) d (blen f, f ++ drop (length f) buffer) d' /\ rings d' B cur fs /\ g_wire d' = g_wire d /\ g_regs d' E1000_REG_ICR = g_regs d E1000_REG_ICR.
Proof.
  intros Hr Hsz Hbl. pose proof (g_frames _ _ _ _ _ _ _ Hr 0%nat f eq_refl) as (t & a & Et & Ea & Hst & Hln & Hm). pose proof (g_ok _ _ _ _ _ _ _ Hr) as [[Hfb Hfl] _]%Forall_cons.
  pose proof (slot_range (RDT d) 0) as Hs. change (Z.of_nat 0) with 0 in *. set (k := slot (RDT d) 0) in *. eexists. split; [|split; [eapply (rings_drop d cur f fs (Mk_rx (rx_addr t) 0 (rx_checksum t) 0 (rx_errors t) (rx_special t)) Hr)|done]].
  2:{ fold k. rewrite Ea. cbn. pose proof (g_addr _ _ _ _ _ _ _ Hr _ _ Et). congruence. }
  unfold e1000_receive_packet. eapply e_bind; [by eapply read_rdh|]. eapply e_bind; [by eapply read_rdt|]. rewrite (next_slot _ _ _ Hr). fold k.
  assert (k <> RDH d) as Hne. { rewrite (g_rdh _ _ _ _ _ _ _ Hr). intros E. unfold k in E. pose proof (g_room _ _ _ _ _ _ _ Hr) as Hro. cbn [length] in *. apply slot_inj in E; lia. }
  destruct (Z.eqb_spec k (RDH d)); [done|]. eapply e_bind.
  { unfold rx_desc. apply e_ram. instantiate (1 := d). instantiate (1 := t). intros s _ _ Hd. exists (e_hw s). split; [|done]. unfold lift, at_index. rewrite (proj2 (Z.leb_le 0 k)) by lia. rewrite Et. by destruct s. }
  destruct (Z.eqb_spec (Z.land (rx_status t) 1) 0); [done|]. rewrite Hln. unfold RX_BUFFER_SIZE.
  destruct (Z.eqb_spec (blen f) 0), (Z.ltb_spec size (blen f)), (Z.ltb_spec 8192 (blen f)); try lia. cbn [orb]. apply e_buffers.
  eapply e_lift; [unfold at_index; rewrite (proj2 (Z.leb_le 0 k)) by lia; exact Ea|]. apply e_ram. replace (Z.to_nat (blen f)) with (length f) by (unfold blen; lia). rewrite Hm.
  eapply e_lift. { unfold put_bytes. rewrite (proj2 (Nat.leb_le _ _)) by lia. unfold blit. by rewrite take_0. }
  eapply e_bind; [eapply e_set_rx; [lia|exact Et]|]. eapply e_bind; [apply e_write; [done|done|lia]|]. apply e_ret.
Qed.

(** One frame between head and tail is sent. *)
Definition SEND_CMD : Z := foldr Z.lor 0 [E1000_TXD_CMD_EOP; E1000_TXD_CMD_IFCS; E1000_TXD_CMD_RS; E1000_TXD_CMD_IDE].
Lemma transmit_one n d i j t : g_regs d E1000_REG_TDH = i -> g_regs d E1000_REG_TDT = j -> 0 <= i -> i <> j -> j = (i + 1) mod 8 ->
  Z.testbit (g_regs d E1000_REG_TCTL) 1 = true -> Z.testbit (g_regs d E1000_REG_TCTL) 3 = true ->
  g_regs d E1000_REG_TDBAL = tx_at /\ g_regs d E1000_REG_TDBAH = 0 /\ g_regs d E1000_REG_TDLEN = 128 ->
  tx_descs (g_ram d) !! Z.to_nat i = Some t -> tx_cmd t = SEND_CMD ->
  exists t', transmit tx_at padding (S (S n)) d = Mk_card (set_reg (set_reg (g_regs d) E1000_REG_TDH j) E1000_REG_ICR (Z.lor (g_regs d E1000_REG_ICR) 1))
    (Mk_ram (rx_descs (g_ram d)) (<[Z.to_nat i := t']> (tx_descs (g_ram d))) (mem (g_ram d)))
    (g_wire d ++ [tx_padded padding (ram_bytes (mem (g_ram d)) (tx_addr t) (Z.to_nat (tx_length t)))]).
Proof.
  intros Hi Hj Hi0 Hne E Ht Hps (Hb & Hbh & Hln) Hd Hcmd. eexists. cbn [transmit]. rewrite Hi, Hj. destruct (Z.eqb_spec i j); [done|]. rewrite Ht, Hb, Hbh, Hln, ring_entry_ok by done. cbn [mbind option_bind orb negb].
  rewrite Hd. cbn [mbind option_bind]. rewrite Hcmd, Hps. change (128 / 16) with 8. rewrite <- E. change (Z.testbit SEND_CMD 0 && Z.testbit SEND_CMD 1) with true. cbv iota.
  cbn [g_regs]. unfold set_reg at 1 2 3 4. change (E1000_REG_TDH =? E1000_REG_ICR) with false. change (E1000_REG_TDT =? E1000_REG_ICR) with false. change (E1000_REG_TDT =? E1000_REG_TDH) with false. rewrite Hj.
  change (E1000_REG_TDH =? E1000_REG_TDH) with true. cbv iota. rewrite Z.eqb_refl. cbn [orb]. reflexivity.
Qed.

(** A packet of the sending area goes out, and the received frames stay. *)
Lemma send_ok tx cur fs p (s : e1000 H) : buffers_ok B tx -> mmio_base s = base -> rx_buffers s = B -> tx_cur s = cur -> rings (card_of (e_hw s)) B cur fs -> bytes_ok p -> 14 <= blen p <= 1518 ->
  exists h, (_ ← store tx p; e1000_send_packet tx (blen p)) s = Some (tt, Mk_e1000 base (e_irq s) ((cur + 1) mod 8) B (e_routines s) h) /\
    rings (card_of h) B ((cur + 1) mod 8) fs /\ g_wire (card_of h) = g_wire (card_of (e_hw s)) ++ [tx_padded padding p] /\
    g_regs (card_of h) E1000_REG_ICR = Z.lor (g_regs (card_of (e_hw s)) E1000_REG_ICR) 1.
Proof.
  intros [Hbl Hba Hbt] Hs Hb Hcur Hr Hp Hl. set (d := card_of (e_hw s)) in *. pose proof Hr as [Ht Hh Hro Ha Hc Hf Hok Hrc Htc Hps Hrr Htr Hmac Hcu Hth Htt Htx].
  destruct (e_store base rx_at tx_at B tx p d s Hs Hb eq_refl) as (h1 & E1 & Eh1). rewrite (bind_eq _ _ _ _ _ E1). set (d1 := with_ram d _) in Eh1. unfold e1000_send_packet.
  destruct (Z.ltb_spec 1518 (blen p)), (Z.ltb_spec (blen p) 14); try lia. cbn [orb]. rewrite gets_bind. change (tx_cur (e_at s h1)) with (tx_cur s). rewrite Hcur.
  destruct (lookup_lt_is_Some_2 (tx_descs (g_ram d1)) (Z.to_nat cur)) as [t0 Et0]; [cbn; lia|]. set (t := Mk_tx tx _ 0 _ 0 0 0).
  destruct (e_set_tx base rx_at tx_at B cur t d1 t0 ltac:(lia) Et0 (e_at s h1) Hs Hb Eh1) as (h2 & E2 & Eh2). rewrite (bind_eq _ _ _ _ _ E2), modify_bind. unfold E1000_NUM_TX_DESC. set (d2 := with_ram d1 _) in Eh2.
  set (c' := (cur + 1) mod 8). assert (0 <= c' < 8 /\ c' <> cur) as [Hc' Hne] by (unfold c'; zlia). set (s2 := Mk_e1000 _ _ c' _ _ _).
  destruct (e_write base rx_at tx_at B E1000_REG_TDT c' d2 ltac:(done) ltac:(done) ltac:(lia) s2 Hs Hb Eh2) as (h3 & E3 & Eh3). rewrite (bind_eq _ _ _ _ _ E3). set (d3 := write_card _ c' d2) in Eh3.
  destruct (transmit_one 6 d3 cur c' t) as [t' Etr]; [exact Hth|reflexivity|lia|done|reflexivity|exact Htc|exact Hps|exact Htr|apply list_lookup_insert_eq; cbn; lia|reflexivity|].
  destruct (e_delay base rx_at tx_at B d3 (e_at s2 h3) Hs Hb Eh3) as (h4 & E4 & Eh4). change (transmit tx_at padding 8 d3) with (transmit tx_at padding (S (S 6)) d3) in Eh4. rewrite Etr in Eh4. clear Etr. rewrite (bind_eq _ _ _ _ _ E4). set (d4 := Mk_card _ _ _) in Eh4.
  destruct (e_read base rx_at tx_at B E1000_REG_TDH d4 c' ltac:(done) ltac:(done) eq_refl ltac:(lia) (e_at (e_at s2 h3) h4) Hs Hb Eh4) as (h5 & E5 & Eh5). rewrite (bind_eq _ _ _ _ _ E5). exists h5.
  split; [unfold s2, e_at; cbn; by rewrite Hs, Hb|]. change (after_read E1000_REG_TDH d4) with d4 in Eh5. rewrite Eh5. split; [|split; [|reflexivity]].
  - assert (forall k f, holds d B k f -> frame_ok f -> holds d4 B k f) as Hkeep.
    { intros k f Hd Hfo. eapply holds_same; [exact Hd|reflexivity|]. intros a Hka. apply ram_bytes_other. destruct (Hbt _ _ Hka), Hfo as [_ ?]; unfold RX_BUFFER_SIZE, blen in *; lia. }
    assert (RDT d4 = RDT d) as Ert by reflexivity. split; [exact Ht|exact Hh|exact Hro|exact Ha|exact Hc| |exact Hok|exact Hrc|exact Htc|exact Hps|exact Hrr|exact Htr|exact Hmac|exact Hc'|reflexivity|reflexivity|].
    + intros i f Hi. rewrite Ert. apply Hkeep; [by apply Hf|exact (Forall_lookup_1 _ _ _ _ Hok Hi)].
    + cbn. by rewrite !length_insert.
  - cbn. do 3 f_equal. rewrite wrap_small by lia. unfold blen. rewrite Nat2Z.id. by apply ram_bytes_put.
Qed.
End Operations.

(** ** Initialisation *)

Lemma u32_testbit v i : 0 <= i < 32 -> Z.testbit (u32 v) i = Z.testbit v i.
Proof. intros Hi. unfold wrap. by rewrite Z.mod_pow2_bits_low by lia. Qed.
Lemma u32_land_ldiff v b : 0 <= b < 32 -> Z.land (u32 (Z.ldiff v (Z.shiftl 1 b))) (Z.shiftl 1 b) = 0.
Proof.
  intros Hb. apply Z.bits_inj'. intros i Hi. rewrite Z.land_spec, Z.bits_0, Z.shiftl_spec by done. destruct (decide (i = b)) as [->|].
  - rewrite u32_testbit, Z.ldiff_spec, Z.shiftl_spec, Z.sub_diag by lia. by destruct (Z.testbit v b).
  - destruct (decide (i < b)); [rewrite (Z.testbit_neg_r 1) by lia; by rewrite andb_false_r|]. rewrite (Z.bits_above_log2 1) by (cbn; lia). by rewrite andb_false_r.
Qed.

Section Init.
Context {H : Type} (base rx_at tx_at : Z) `{E1000Device H base rx_at tx_at} (rx_ok : 0 <= rx_at < 2 ^ 32 /\ rx_at mod 16 = 0) (tx_ok : 0 <= tx_at < 2 ^ 32 /\ tx_at mod 16 = 0).

(** What stays while registers are written. *)
Definition same_ram (d d' : card) : Prop := g_ram d' = g_ram d /\ g_wire d' = g_wire d.

Lemma e_reset_runs B d : exists d', runs base rx_at tx_at B reset_e1000 d tt d' /\ same_ram d d' /\ mac_of d' = mac_of d /\ g_regs d' E1000_REG_STATUS = g_regs d E1000_REG_STATUS.
Proof.
  set (c0 := u32 (g_regs d E1000_REG_CTRL)). set (d1 := write_card E1000_REG_CTRL (u32 (Z.lor c0 E1000_CTRL_RST)) d).
  assert (Z.testbit (u32 (Z.lor c0 E1000_CTRL_RST)) 26 = true) as Hb by (rewrite u32_testbit, Z.lor_spec by lia; apply orb_true_r).
  assert (g_regs d1 E1000_REG_CTRL = Z.ldiff (u32 (Z.lor c0 E1000_CTRL_RST)) E1000_CTRL_RST /\ same_ram d d1 /\ mac_of d1 = mac_of d /\ g_regs d1 E1000_REG_STATUS = g_regs d E1000_REG_STATUS) as (Hc & Hs & Hmac & Hst).
  { unfold d1, write_card. rewrite Hb. by split_and!. }
  assert (runs base rx_at tx_at B (e1000_write_reg E1000_REG_CTRL (Z.lor c0 E1000_CTRL_RST)) d tt d1) as R1 by (by apply e_write_any). clearbody d1.
  set (v2 := foldl Z.lor (Z.ldiff (u32 (g_regs d1 E1000_REG_CTRL)) E1000_CTRL_PHY_RST) [E1000_CTRL_SLU; E1000_CTRL_FRCSPD; E1000_CTRL_FRCDPLX]).
  exists (write_card E1000_REG_CTRL (u32 v2) d1). split; [|unfold write_card; destruct (Z.testbit (u32 v2) 26); split_and!; first [exact Hs|exact Hmac|exact Hst]].
  unfold reset_e1000. eapply e_bind; [by apply e_read_any|]. eapply e_bind; [exact R1|]. eapply e_bind; [by apply e_read_any|]. rewrite Hc at 1.
  unfold E1000_CTRL_RST. rewrite u32_land_ldiff by lia. cbn [Z.eqb negb]. eapply e_bind; [by apply e_read_any|]. by apply e_write_any.
Qed.

Lemma multicast_runs B n : forall i d, 0 <= i -> i + Z.of_nat n <= 128 -> exists d', runs base rx_at tx_at B (for_up i n (fun i => e1000_write_reg (20992 + i * 4) 0)) d tt d' /\ same_ram d d' /\ forall k, k < 20992 \/ 21504 <= k -> g_regs d' k = g_regs d k.
Proof.
  induction n as [|n IH]; intros i d Hi Hn; cbn [for_up]; [exists d; split; [apply e_ret|by split]|].
  destruct (IH (i + 1) (write_card (20992 + i * 4) (u32 0) d)) as (d' & R & [Hr Hw] & Hg); [lia|lia|]. exists d'. split; [eapply e_bind; [apply e_write_any; zlia|exact R]|].
  assert (forall v, write_card (20992 + i * 4) v d = with_reg d (20992 + i * 4) v) as E by (intros v; unfold write_card, E1000_REG_CTRL; by destruct (Z.eqb_spec (20992 + i * 4) 0); [lia|]).
  rewrite E in *. split; [by split|]. intros k Hk. rewrite Hg by done. cbn. unfold set_reg. by destruct (Z.eqb_spec k (20992 + i * 4)); [lia|].
Qed.

(** Empty rings at the addresses of the arrays. *)
Lemma rings_regs_runs B d : exists d', runs base rx_at tx_at B (init_rings_regs rx_at tx_at) d tt d' /\ same_ram d d' /\ mac_of d' = mac_of d /\
  RDH d' = 0 /\ RDT d' = 31 /\ g_regs d' E1000_REG_TDH = 0 /\ g_regs d' E1000_REG_TDT = 0 /\
  (g_regs d' E1000_REG_RDBAL = rx_at /\ g_regs d' E1000_REG_RDBAH = 0 /\ g_regs d' E1000_REG_RDLEN = 512) /\
  (g_regs d' E1000_REG_TDBAL = tx_at /\ g_regs d' E1000_REG_TDBAH = 0 /\ g_regs d' E1000_REG_TDLEN = 128).
Proof.
  eexists. split; [unfold init_rings_regs; do 9 (eapply e_bind; [by apply e_write_any|]); by apply e_write_any|].
  assert (u32 rx_at = rx_at /\ u32 tx_at = tx_at) as [Er Et] by (split; apply wrap_small; lia). split_and!; first [reflexivity|exact Er|exact Et|split; reflexivity].
Qed.

(** The address valid flag is not part of the address. *)
Lemma mac_high v w : Z.land v 65535 = Z.land w 65535 -> Z.land v 255 = Z.land w 255 /\ Z.land (Z.shiftr v 8) 255 = Z.land (Z.shiftr w 8) 255.
Proof.
  intros E. assert (forall x, Z.land x 255 = Z.land (Z.land x 65535) 255 /\ Z.land (Z.shiftr x 8) 255 = Z.shiftr (Z.land (Z.land x 65535) 65280) 8) as Hx.
  { intros x. rewrite <- !Z.land_assoc. change (Z.land 65535 255) with 255. change (Z.land 65535 65280) with 65280. rewrite Z.shiftr_land. done. }
  destruct (Hx v) as [-> ->], (Hx w) as [-> ->]. by rewrite E.
Qed.
Lemma land_u32 v : Z.land (u32 v) 65535 = Z.land v 65535.
Proof. unfold wrap. rewrite <- Z.land_ones by lia. rewrite <- Z.land_assoc. done. Qed.
Lemma mac_same d d' : u32 (g_regs d' E1000_REG_RAL) = u32 (g_regs d E1000_REG_RAL) -> Z.land (g_regs d' E1000_REG_RAH) 65535 = Z.land (g_regs d E1000_REG_RAH) 65535 -> mac_of d' = mac_of d.
Proof. intros E1 E2. unfold mac_of. rewrite E1. destruct (mac_high (u32 (g_regs d' E1000_REG_RAH)) (u32 (g_regs d E1000_REG_RAH))) as [-> ->]; [by rewrite !land_u32|done]. Qed.

(** The registers that enabling the card leaves alone. *)
Definition ring_regs (d : card) : list Z :=
  map (g_regs d) [E1000_REG_RDH; E1000_REG_RDT; E1000_REG_TDH; E1000_REG_TDT; E1000_REG_RDBAL; E1000_REG_RDBAH; E1000_REG_RDLEN; E1000_REG_TDBAL; E1000_REG_TDBAH; E1000_REG_TDLEN].

Lemma enable_runs B d : exists d', runs base rx_at tx_at B init_enable d tt d' /\ same_ram d d' /\ mac_of d' = mac_of d /\ ring_regs d' = ring_regs d /\
  g_regs d' E1000_REG_RCTL = RCTL_VALUE /\ Z.testbit (g_regs d' E1000_REG_TCTL) 1 = true /\ Z.testbit (g_regs d' E1000_REG_TCTL) 3 = true.
Proof.
  set (w := fun k v d => write_card k (u32 v) d). set (d1 := w E1000_REG_TXDCTL (Z.lor (Z.lor (u32 (g_regs d E1000_REG_TXDCTL)) (Z.shiftl 1 25)) (Z.shiftl 1 22)) d).
  set (d2 := w E1000_REG_RAH (Z.lor (u32 (g_regs d1 E1000_REG_RAH)) (Z.shiftl 1 31)) (w E1000_REG_RAL (u32 (g_regs d1 E1000_REG_RAL)) d1)).
  destruct (multicast_runs B 128 0 d2) as (d3 & R3 & [Hr Hw] & Hg); [lia|lia|].
  assert (ring_regs d3 = ring_regs d) as G by (unfold ring_regs; cbn [map]; rewrite !Hg by (by left); reflexivity).
  assert (g_regs d3 E1000_REG_RAL = u32 (u32 (g_regs d E1000_REG_RAL)) /\ g_regs d3 E1000_REG_RAH = u32 (Z.lor (u32 (g_regs d E1000_REG_RAH)) (Z.shiftl 1 31))) as [GL GH] by (rewrite !Hg by (by right); split; reflexivity).
  set (d4 := w E1000_REG_RCTL RCTL_VALUE d3).
  set (tctl := foldl Z.lor (u32 (g_regs d4 E1000_REG_TCTL)) [E1000_TCTL_EN; E1000_TCTL_PSP; Z.shiftl 15 4; Z.shiftl 64 12]).
  assert (Z.testbit (u32 tctl) 1 = true /\ Z.testbit (u32 tctl) 3 = true) as [Ht Hp].
  { rewrite !u32_testbit by lia. unfold tctl. cbn [foldl]. rewrite !Z.lor_spec. change (Z.testbit E1000_TCTL_EN 1) with true. change (Z.testbit E1000_TCTL_PSP 3) with true. by rewrite !orb_true_r. }
  exists (w E1000_REG_TIPG 6299658 (w E1000_REG_TCTL tctl d4)). split; [|split; [by split|]].
  - unfold init_enable. eapply e_bind; [by apply e_read_any|]. eapply e_bind; [by apply e_write_any|]. eapply e_bind; [by apply e_read_any|]. eapply e_bind; [by apply e_read_any|].
    eapply e_bind; [by apply e_write_any|]. eapply e_bind; [by apply e_write_any|]. eapply e_bind; [exact R3|]. eapply e_bind; [by apply e_write_any|]. eapply e_bind; [by apply e_read_any|].
    eapply e_bind; [by apply e_write_any|]. by apply e_write_any.
  - split; [|split; [exact G|split; [reflexivity|split; [exact Ht|exact Hp]]]]. apply mac_same.
    + change (u32 (g_regs d3 E1000_REG_RAL) = u32 (g_regs d E1000_REG_RAL)). rewrite GL. unfold wrap. by rewrite !Z.mod_mod.
    + change (Z.land (g_regs d3 E1000_REG_RAH) 65535 = Z.land (g_regs d E1000_REG_RAH) 65535). rewrite GH, land_u32, Z.land_lor_distr_l, land_u32. change (Z.land (Z.shiftl 1 31) 65535) with 0. apply Z.lor_0_r.
Qed.

(** The descriptors and the buffers that belong to them. *)
Lemma init_rx_ok n : forall i allocs (s : e1000 H) D tx m, mmio_base s = base -> length (rx_buffers s) = (Z.to_nat i + n)%nat -> 0 <= i -> length allocs = n -> Forall (fun a => a <> 0) allocs ->
  g_ram (card_of (e_hw s)) = Mk_ram D tx m -> length D = length (rx_buffers s) ->
  exists h D', init_rx n i allocs s = Some (true, Mk_e1000 base (e_irq s) (tx_cur s) (take (Z.to_nat i) (rx_buffers s) ++ allocs) (e_routines s) h) /\
    card_of h = with_ram (card_of (e_hw s)) (Mk_ram D' tx m) /\ length D' = length D /\ take (Z.to_nat i) D' = take (Z.to_nat i) D /\ map rx_addr (drop (Z.to_nat i) D') = allocs.
Proof.
  induction n as [|n IH]; intros i allocs s D tx m Hs Hl Hi Ha Hz Hr Hd; cbn [init_rx].
  - destruct allocs; [|done]. exists (e_hw s), D. rewrite app_nil_r, take_ge, drop_ge by lia. split; [by destruct s; cbn in Hs; subst|]. split; [|done]. destruct (card_of (e_hw s)). cbn in *. by subst.
  - destruct allocs as [|a allocs]; [done|]. apply Forall_cons in Hz as [Hza Hz]. rewrite gets_bind. set (k := Z.to_nat i) in *. set (L := <[k := a]> (rx_buffers s)).
    assert (put_index (rx_buffers s) i a = Some L) as Ep. { unfold put_index, at_index. rewrite (proj2 (Z.leb_le _ _) Hi). fold k. by destruct (lookup_lt_is_Some_2 (rx_buffers s) k) as [v ->]; [lia|]. }
    rewrite (lift_bind _ _ _ _ Ep), modify_bind. destruct (Z.eqb_spec a 0); [done|]. set (s1 := Mk_e1000 _ _ _ L _ _).
    destruct (lookup_lt_is_Some_2 D k) as [t Et]; [lia|].
    assert (rx_desc i s1 = Some (t, s1)) as E1. { unfold rx_desc, get_ram. rewrite gets_bind, card_ram. change (e_hw s1) with (e_hw s). rewrite Hr. unfold lift, at_index. cbn [rx_descs]. rewrite (proj2 (Z.leb_le _ _) Hi). fold k. by rewrite Et. }
    rewrite (bind_eq _ _ _ _ _ E1). set (t' := Mk_rx a 0 _ 0 0 0).
    destruct (e_set_rx base rx_at tx_at L i t' (card_of (e_hw s)) t Hi) with (s := s1) as (h2 & E2 & Eh2); [by rewrite Hr|done|done|done|]. rewrite (bind_eq _ _ _ _ _ E2). rewrite Hr in Eh2. cbn [rx_descs tx_descs mem] in Eh2. fold k in Eh2.
    destruct (IH (i + 1) allocs (e_at s1 h2) (<[k := t']> D) tx m) as (h & D' & E & Eh & Hlen & Htk & Hmp); [done|cbn; unfold L; rewrite length_insert; unfold k in *; lia|lia|by injection Ha|done|cbn; by rewrite Eh2|cbn; unfold L; by rewrite !length_insert|].
    assert (Z.to_nat (i + 1) = S k) as Esk by (unfold k; lia). rewrite Esk in *. rewrite length_insert in Hlen. exists h, D'. split; [|split; [|split; [done|split]]].
    + rewrite E. cbn [rx_buffers e_at s1 e_irq tx_cur e_routines]. unfold L. rewrite (take_S_r _ _ a) by (apply list_lookup_insert_eq; lia). rewrite take_insert_ge by lia. by rewrite <- app_assoc.
    + rewrite Eh. cbn. by rewrite Eh2.
    + assert (take k (take (S k) D') = take k (take (S k) (<[k := t']> D))) as T by (by rewrite Htk). rewrite !take_take, !Nat.min_l in T by lia. by rewrite take_insert_ge in T by lia.
    + assert (D' !! k = Some t') as Ek. { rewrite <- (lookup_take_lt _ (S k)) by lia. rewrite Htk, lookup_take_lt by lia. apply list_lookup_insert_eq. lia. }
      rewrite (drop_S _ _ _ Ek). cbn [map]. by rewrite Hmp.
Qed.

Lemma init_tx_ok B n : forall i d, 0 <= i -> (Z.to_nat i + n <= length (tx_descs (g_ram d)))%nat -> exists T, runs base rx_at tx_at B (init_tx n i) d tt (with_ram d (Mk_ram (rx_descs (g_ram d)) T (mem (g_ram d)))) /\ length T = length (tx_descs (g_ram d)).
Proof.
  induction n as [|n IH]; intros i d Hi Hn; cbn [init_tx]; [exists (tx_descs (g_ram d)); split; [eapply e_eq; [apply e_ret|by destruct d as [? [] ?]]|done]|].
  destruct (lookup_lt_is_Some_2 (tx_descs (g_ram d)) (Z.to_nat i)) as [t Et]; [lia|].
  destruct (IH (i + 1) (with_ram d (Mk_ram (rx_descs (g_ram d)) (<[Z.to_nat i := Mk_tx 0 0 0 0 255 0 0]> (tx_descs (g_ram d))) (mem (g_ram d))))) as (T & R & HT); [lia|cbn; rewrite length_insert; lia|].
  exists T. split; [|by rewrite HT; cbn; rewrite length_insert]. eapply e_bind; [by eapply e_set_tx|]. exact R.
Qed.

(** After [e1000_init] both rings are empty and the handler is installed. *)
Lemma e1000_init_ok isr_addr allocs tx (s : e1000 H) : buffers_ok allocs tx -> Forall (fun a => a <> 0) allocs -> mmio_base s = base -> tx_cur s = 0 -> length (rx_buffers s) = 32%nat ->
  length (rx_descs (g_ram (card_of (e_hw s)))) = 32%nat -> length (tx_descs (g_ram (card_of (e_hw s)))) = 8%nat -> Z.testbit (g_regs (card_of (e_hw s)) E1000_REG_STATUS) 0 = true ->
  0 <= e_irq s < Z.of_nat (length (e_routines s)) ->
  exists h, e1000_init rx_at tx_at isr_addr allocs s = Some (tt, Mk_e1000 base (e_irq s) 0 allocs (<[Z.to_nat (e_irq s) := isr_addr]> (e_routines s)) h) /\
    rings rx_at tx_at (mac_of (card_of (e_hw s))) (card_of h) allocs 0 [] /\ g_wire (card_of h) = g_wire (card_of (e_hw s)) /\ g_regs (card_of h) E1000_REG_ICR = 0.
Proof.
  intros [Hbl _ _] Hz Hs Hcur Hlb Hrx Htx Hst Hirq. unfold e1000_init. destruct (e_reset_runs (rx_buffers s) (card_of (e_hw s))) as (d1 & R1 & [Hr1 Hw1] & Hmac1 & Hs1).
  destruct (R1 s Hs eq_refl eq_refl) as (h1 & E1 & Eh1). rewrite (bind_eq _ _ _ _ _ E1).
  destruct (e_read_any base rx_at tx_at (rx_buffers s) E1000_REG_STATUS d1 ltac:(done) ltac:(done) (e_at s h1) Hs eq_refl Eh1) as (h2 & E2 & Eh2). rewrite (bind_eq _ _ _ _ _ E2). change (after_read E1000_REG_STATUS d1) with d1 in Eh2.
  assert (Z.land (u32 (g_regs d1 E1000_REG_STATUS)) 1 <> 0) as Hne. { intros E. assert (Z.testbit (Z.land (u32 (g_regs d1 E1000_REG_STATUS)) 1) 0 = false) as E0 by (rewrite E; done). rewrite Z.land_spec, u32_testbit, Hs1, Hst in E0 by lia. done. }
  destruct (Z.eqb_spec (Z.land (u32 (g_regs d1 E1000_REG_STATUS)) 1) 0); [done|]. unfold initialize_rings_and_buffers. rewrite bind_assoc. set (s2 := e_at (e_at s h1) h2).
  destruct (g_ram (card_of (e_hw s))) as [D T m] eqn:Eram. cbn [rx_descs tx_descs] in Hrx, Htx.
  destruct (init_rx_ok 32 0 allocs s2 D T m Hs) as (h3 & D' & E3 & Eh3 & Hl3 & _ & Hm3); [exact Hlb|lia|done|done|change (e_hw s2) with h2; by rewrite Eh2, Hr1|change (rx_buffers s2) with (rx_buffers s); by rewrite Hlb|].
  change (Z.to_nat E1000_NUM_RX_DESC) with 32%nat. rewrite (bind_eq _ _ _ _ _ E3). cbn [negb]. change (take (Z.to_nat 0) (rx_buffers s2) ++ allocs) with allocs. change (card_of (e_hw s2)) with (card_of h2) in Eh3. rewrite Eh2 in Eh3.
  set (d3 := with_ram d1 (Mk_ram D' T m)) in Eh3. change (Z.to_nat 0) with 0%nat in Hm3. rewrite drop_0 in Hm3. set (s3 := Mk_e1000 base _ _ allocs _ h3).
  destruct (init_tx_ok allocs 8 0 d3) as (T' & R4 & HT); [lia|cbn; lia|]. destruct (R4 s3 eq_refl eq_refl Eh3) as (h4 & E4 & Eh4). change (Z.to_nat E1000_NUM_TX_DESC) with 8%nat. rewrite bind_assoc, (bind_eq _ _ _ _ _ E4).
  set (d4 := with_ram d3 _) in Eh4. unfold mbind at 1, M_bind at 1. cbn [negb mret M_ret]. destruct (rings_regs_runs allocs d4) as (d5 & R5 & [Hr5 Hw5] & Hmac5 & J1 & J2 & J3 & J4 & J5 & J6).
  destruct (R5 (e_at s3 h4) eq_refl eq_refl Eh4) as (h5 & E5 & Eh5). rewrite (bind_eq _ _ _ _ _ E5). destruct (enable_runs allocs d5) as (d6 & R6 & [Hr6 Hw6] & Hmac6 & G & G5 & G6 & G7). injection G as G1 G2 G3 G4 G8 G9 G10 G11 G12 G13.
  destruct (R6 (e_at (e_at s3 h4) h5) eq_refl eq_refl Eh5) as (h6 & E6 & Eh6). rewrite (bind_eq _ _ _ _ _ E6), !gets_bind.
  set (s6 := e_at _ h6). change (e_irq s6) with (e_irq s). change (e_routines s6) with (e_routines s).
  assert (put_index (e_routines s) (e_irq s) isr_addr = Some (<[Z.to_nat (e_irq s) := isr_addr]> (e_routines s))) as Ep.
  { unfold put_index, at_index. rewrite (proj2 (Z.leb_le _ _)) by lia. by destruct (lookup_lt_is_Some_2 (e_routines s) (Z.to_nat (e_irq s))) as [v ->]; [lia|]. }
  rewrite (lift_bind _ _ _ _ Ep), modify_bind. set (s7 := Mk_e1000 _ _ _ _ _ _). unfold e1000_enable_interrupts.
  destruct (e_write_any base rx_at tx_at allocs E1000_REG_IMS (Z.lor (Z.lor (Z.lor (Z.shiftl 1 0) (Z.shiftl 1 2)) (Z.shiftl 1 6)) (Z.shiftl 1 7)) d6 ltac:(done) ltac:(done) s7 eq_refl eq_refl Eh6) as (h8 & E8 & Eh8). rewrite (bind_eq _ _ _ _ _ E8).
  destruct (e_read_any base rx_at tx_at allocs E1000_REG_ICR (write_card E1000_REG_IMS (u32 (Z.lor (Z.lor (Z.lor (Z.shiftl 1 0) (Z.shiftl 1 2)) (Z.shiftl 1 6)) (Z.shiftl 1 7))) d6) ltac:(done) ltac:(done) (e_at s7 h8) eq_refl eq_refl Eh8) as (h9 & E9 & Eh9).
  rewrite (bind_eq _ _ _ _ _ E9). exists h9. split; [unfold s7, s6, s3, s2, e_at; cbn; by rewrite Hcur|]. rewrite Eh9. set (d9 := after_read _ _).
  assert (g_ram d9 = Mk_ram D' T' m /\ g_wire d9 = g_wire (card_of (e_hw s))) as [Er9 Ew9].
  { change (g_ram d9) with (g_ram d6). change (g_wire d9) with (g_wire d6). split; [by rewrite Hr6, Hr5|]. rewrite Hw6, Hw5. exact Hw1. }
  assert (RDT d9 = 31) as Ert by (change (g_regs d6 E1000_REG_RDT = 31); by rewrite G2).
  assert (mac_of d9 = mac_of (card_of (e_hw s))) as Em9 by (change (mac_of d6 = mac_of (card_of (e_hw s))); rewrite Hmac6, Hmac5; exact Hmac1).
  split; [|split; [exact Ew9|reflexivity]]. destruct J5 as (J5 & J5' & J5''), J6 as (J6 & J6' & J6''). split.
  - rewrite Ert. lia.
  - change (g_regs d6 E1000_REG_RDH = slot (RDT d9) 0). rewrite G1, Ert. exact J1.
  - cbn. lia.
  - intros i t Hi. rewrite Er9 in Hi. cbn in Hi. rewrite <- Hm3. rewrite list_lookup_fmap, Hi. done.
  - rewrite Er9. cbn. lia.
  - intros i f Hi. done.
  - constructor.
  - exact G5.
  - exact G6.
  - exact G7.
  - split; [exact (eq_trans G8 J5)|]. split; [exact (eq_trans G9 J5')|exact (eq_trans G10 J5'')].
  - split; [exact (eq_trans G11 J6)|]. split; [exact (eq_trans G12 J6')|exact (eq_trans G13 J6'')].
  - exact Em9.
  - lia.
  - exact (eq_trans G3 J3).
  - exact (eq_trans G4 J4).
  - rewrite Er9. change (length T' = 8%nat). rewrite HT. exact Htx.
Qed.
End Init.

(** ** The card as a queue of frames *)

Inductive card_op := Arrive (f : buf) | Receive | Send (p : buf) | Interrupt.
Definition bytes_fit (p : buf) (lo hi : Z) : bool := forallb (fun c => (0 <=? c) && (c <? 256)) p && (lo <=? blen p) && (blen p <=? hi).
Lemma bytes_fit_ok p lo hi : bytes_fit p lo hi = true -> bytes_ok p /\ lo <= blen p <= hi.
Proof. unfold bytes_fit. intros [[Hb H1]%andb_prop H2]%andb_prop. split; [by apply bytes_check|lia]. Qed.

(** What the interrupt handler sends for a frame, and the frame that it takes. *)
Definition arp_answer (mac f : buf) : list buf :=
  if asks_for_us f
  then [wire_frame (eth_header (slice f 6 6) mac ETHERTYPE_ARP ++
          arp_packet ARP_REPLY mac OWN_IP (slice f 6 6) (ntohl (le_get (slice f 28 4))))]
  else [].
Definition take_one (mac : buf) (due : bool) (q : list buf) : list buf * list buf :=
  match q with f :: q' => if due then (q', arp_answer mac f) else (q, []) | [] => ([], []) end.

(** Up to 31 frames [q] wait; [lost] and [arrived] tell what happened since the last
    interrupt, which takes one frame for each. *)
Fixpoint spec_card (mac padding : buf) (ops : list card_op) (q : list buf) (lost arrived : bool) : option (list (option buf) * list buf * list buf) :=
  match ops with
  | [] => Some ([], q, [])
  | Arrive f :: ops' =>
      if negb (bytes_fit f 1 2048) then None
      else if (length q <? 31)%nat then spec_card mac padding ops' (q ++ [f]) lost true else spec_card mac padding ops' q true arrived
  | Receive :: ops' =>
      let '(o, q) := match q with [] => (None, []) | f :: q' => (Some f, q') end in
      '(l, q, w) ← spec_card mac padding ops' q lost arrived; Some (o :: l, q, w)
  | Send p :: ops' =>
      if negb (bytes_fit p 0 2048) then None else
      '(l, q, w) ← spec_card mac padding ops' q lost arrived;
      Some (l, q, (if (14 <=? blen p) && (blen p <=? 1518) then [tx_padded padding p] else []) ++ w)
  | Interrupt :: ops' =>
      let '(q, w1) := take_one mac lost q in
      let '(q, w2) := take_one mac arrived q in
      '(l, q, w) ← spec_card mac padding ops' q false false; Some (l, q, (w1 ++ w2) ++ w)
  end.

Section Refinement.
Context {H : Type} (base rx_at tx_at : Z) `{E1000Device H base rx_at tx_at} (tx : Z) (buffer : buf) (fresh : nat -> buf) (stack : Z).
Context (rx_ok : 0 <= rx_at < 2 ^ 32 /\ rx_at mod 16 = 0) (tx_ok : 0 <= tx_at < 2 ^ 32 /\ tx_at mod 16 = 0) (fresh_length : forall n, length (fresh n) = n).

(** The operations on the driver; what is sent is put into the area at [tx], as
    [e1000_send_test_packet] does. *)
Fixpoint card_run (ops : list card_op) : M (e1000 H) (list (option buf)) :=
  match ops with
  | [] => mret []
  | Arrive f :: ops' => _ ← modify (fun s => e_at s (dev_arrive f (e_hw s))); card_run ops'
  | Receive :: ops' => r ← e1000_receive_packet buffer 2048; l ← card_run ops'; mret ((if 0 <? fst r then Some (take (Z.to_nat (fst r)) (snd r)) else None) :: l)
  | Send p :: ops' => _ ← (_ ← store tx p; e1000_send_packet tx (blen p)); card_run ops'
  | Interrupt :: ops' => _ ← e1000_isr fresh stack; card_run ops'
  end.

(** *** The interrupt handler *)

Lemma padded_long p : (60 <= length p)%nat -> tx_padded padding p = p.
Proof. intros Hp. unfold tx_padded. replace (60 - length p)%nat with 0%nat by lia. by rewrite take_0, app_nil_r. Qed.

Lemma get_mac_runs B d : runs base rx_at tx_at B e1000_get_mac_address d (mac_of d) d.
Proof. unfold e1000_get_mac_address. eapply e_bind; [by apply e_read_any|]. eapply e_bind; [by apply e_read_any|]. apply e_ret. Qed.
Lemma mac_of_ok d : bytes_ok (mac_of d) /\ length (mac_of d) = 6%nat.
Proof. split; [|done]. unfold mac_of. repeat (apply Forall_cons_2; [apply land_byte_ok|]). constructor. Qed.

Lemma e1000_reply_ok mac f r : bytes_ok f -> (42 <= length f)%nat -> bytes_ok mac -> length mac = 6%nat ->
  exists p, e1000_arp_reply mac (f ++ r) = Some p /\ bytes_ok p /\ length p = 60%nat /\
    p = wire_frame (eth_header (slice f 6 6) mac ETHERTYPE_ARP ++ arp_packet ARP_REPLY mac OWN_IP (slice f 6 6) (ntohl (le_get (slice f 28 4)))).
Proof.
  intros Hb Hl Hmb Hml. set (head := eth_header (slice f 6 6) mac ETHERTYPE_ARP). set (body := arp_packet ARP_REPLY mac OWN_IP (slice f 6 6) (ntohl (le_get (slice f 28 4)))).
  assert (length (head ++ body) = 42%nat /\ bytes_ok (head ++ body)) as [L42 B42].
  { unfold head, body, eth_header, arp_packet. split; [rewrite !length_app, !length_le_put, !length_slice, Hml by lia; done|].
    rewrite !bytes_ok_app. split_and!; try apply le_put_ok; try apply bytes_ok_slice; try done; by repeat constructor. }
  exists (wire_frame (head ++ body)). split; [|split; [|split; [rewrite length_wire_frame, L42; done|done]]].
  - unfold e1000_arp_reply. rewrite length_app. destruct (Nat.ltb_spec (length f + length r) 32); [lia|]. f_equal. unfold wire_frame. rewrite L42. change (60 - 42)%nat with 18%nat.
    rewrite !slice_prefix by lia. unfold head, body, eth_header, arp_packet. rewrite put_ip by (by apply bytes_ok_slice || (apply length_slice; lia)).
    change (le_put 2 (htons ETHERTYPE_ARP)) with [8; 6]. change (le_put 4 (htonl OWN_IP)) with [10; 0; 2; 15]. rewrite <- !app_assoc. reflexivity.
  - apply bytes_ok_app. split; [done|]. by apply Forall_replicate.
Qed.

(** After sending, the transmit flag may be set too. *)
Lemma pending_sent d d' lost arrived : pending d lost arrived -> g_regs d' E1000_REG_ICR = Z.lor (g_regs d E1000_REG_ICR) 1 -> pending d' lost arrived.
Proof. intros [b E] E'. exists true. rewrite E', E. by destruct b, lost, arrived. Qed.
Lemma pending_same d d' lost arrived : pending d lost arrived -> g_regs d' E1000_REG_ICR = g_regs d E1000_REG_ICR -> pending d' lost arrived.
Proof. intros [b E] E'. exists b. by rewrite E'. Qed.

Section Handler.
Context (mac : buf) (B : list Z) (stack_ok : buffers_ok B stack).
Abbreviation rings := (rings rx_at tx_at mac).

(** The driver's state after an operation. *)
Record after (s s' : e1000 H) (q w : list buf) (lost arrived : bool) : Prop := {
  af_base : mmio_base s' = base; af_bufs : rx_buffers s' = B; af_rings : rings (card_of (e_hw s')) B (tx_cur s') q;
  af_wire : g_wire (card_of (e_hw s')) = g_wire (card_of (e_hw s)) ++ w; af_pending : pending (card_of (e_hw s')) lost arrived
}.
Lemma after_trans s s1 s2 q1 q2 w1 w2 l1 l2 a1 a2 : after s s1 q1 w1 l1 a1 -> after s1 s2 q2 w2 l2 a2 -> after s s2 q2 (w1 ++ w2) l2 a2.
Proof. intros [Hb1 Hf1 Hr1 Hw1 Hp1] [Hb2 Hf2 Hr2 Hw2 Hp2]. split; [done|done|done| |done]. by rewrite Hw2, Hw1, app_assoc. Qed.

(** The reply to a frame that was taken into the buffer. *)
Lemma reply_ok f q s r lost arrived : after s s q [] lost arrived -> bytes_ok f -> asks_for_us f = true -> (42 <= length f)%nat ->
  exists s', e1000_send_arp_reply stack (f ++ r) s = Some (tt, s') /\ after s s' q (arp_answer mac f) lost arrived.
Proof.
  intros [Hb Hf Hr _ Hp] Hfb Ha Hl. unfold e1000_send_arp_reply. destruct (get_mac_runs B (card_of (e_hw s)) s Hb Hf eq_refl) as (h & E & Eh). rewrite (bind_eq _ _ _ _ _ E), (g_mac _ _ _ _ _ _ _ Hr).
  destruct (mac_of_ok (card_of (e_hw s))) as [Hmb Hml]. rewrite (g_mac _ _ _ _ _ _ _ Hr) in Hmb, Hml. destruct (e1000_reply_ok mac f r Hfb Hl Hmb Hml) as (p & Ep & Hpb & Hpl & Epw). rewrite (lift_bind _ _ _ _ Ep).
  destruct (send_ok base rx_at tx_at (proj2 tx_ok) mac B stack (tx_cur s) q p (e_at s h)) as (h2 & E2 & Hr2 & Hw2 & Hi2); [done|exact Hb|exact Hf|reflexivity|cbn; by rewrite Eh|done|unfold blen; lia|].
  replace (blen p) with 60 in E2 by (unfold blen; lia). rewrite E2. eexists. split; [done|]. cbn [e_at e_hw] in Hw2, Hi2. rewrite Eh in Hw2, Hi2. split; [done|done|exact Hr2| |exact (pending_sent _ _ _ _ Hp Hi2)].
  cbn [e_hw]. rewrite Hw2, padded_long by lia. unfold arp_answer. rewrite Ha, Epw. done.
Qed.

(** One frame is taken, and answered if it is an ARP request for the address. *)
Lemma check_ok s q lost arrived : after s s q [] lost arrived ->
  exists s', check_received_packet fresh stack s = Some (tt, s') /\ after s s' (fst (take_one mac true q)) (snd (take_one mac true q)) lost arrived.
Proof.
  intros Hst. pose proof Hst as [Hb Hf Hr _ Hp]. unfold check_received_packet. destruct q as [|f q].
  { destruct (receive_none base rx_at tx_at mac B _ _ (fresh 2048) 2048 Hr s Hb Hf eq_refl) as (h & E & Eh). rewrite (bind_eq _ _ _ _ _ E). eexists. split; [done|]. split; cbn; rewrite ?Eh, ?app_nil_r; done. }
  pose proof (g_ok _ _ _ _ _ _ _ Hr) as [[Hfb Hfl] _]%Forall_cons.
  destruct (e_receive_first base rx_at tx_at mac B _ _ f q (fresh 2048) 2048 Hr) as (d' & R & Hr' & Hw & Hi); [lia|rewrite fresh_length; unfold blen in *; lia|].
  destruct (R s Hb Hf eq_refl) as (h & E & Eh). rewrite (bind_eq _ _ _ _ _ E). set (r := drop (length f) (fresh 2048)). set (s1 := e_at s h). cbn [take_one fst snd].
  assert (after s s1 q [] lost arrived) as Hs1 by (split; [done|done|cbn; by rewrite Eh|cbn; by rewrite Eh, Hw, app_nil_r|apply (pending_same _ _ _ _ Hp); cbn; by rewrite Eh]).
  assert (after s1 s1 q [] lost arrived) as Hs11 by (destruct Hs1; split; try done; by rewrite app_nil_r).
  assert (asks_for_us f = false -> exists s', Some (tt, s1) = Some (tt, s') /\ after s s' q (arp_answer mac f) lost arrived) as Nothing by (intros Ha; unfold arp_answer; rewrite Ha; by exists s1).
  destruct (Z.leb_spec (blen f) 0); [lia|]. unfold blen in *.
  assert (forall i n, (length f < i + n)%nat -> length (slice f i n) <> n \/ n = 0%nat) as Hshort by (intros i n Hin; unfold slice; rewrite length_take, length_drop; lia).
  destruct (Z.ltb_spec (Z.of_nat (length f)) 14).
  { apply Nothing. unfold asks_for_us. rewrite bool_decide_false; [done|]. intros Es. destruct (Hshort 12%nat 2%nat) as [Hn|]; [lia| |done]. by rewrite Es in Hn. }
  destruct (rd_prefix f r 12 Hfb) as (t1 & R1 & L1 & B1), (rd_prefix f r 13 Hfb) as (t0 & R2 & L2 & B2); try (unfold blen; lia).
  rewrite (lift_bind _ _ _ _ R1), (lift_bind _ _ _ _ R2), field_is by (done || lia). unfold asks_for_us in Nothing. rewrite (slice_pair f 12 t1 t0 L1 L2) in Nothing.
  change [2054 / 256; 2054 mod 256] with [8; 6]. destruct (bool_decide ([t1; t0] = [8; 6])) eqn:Et; [|by apply Nothing]. cbn [andb] in Nothing.
  destruct (Z.ltb_spec (Z.of_nat (length f)) (14 + 28)).
  { apply Nothing. rewrite andb_comm, bool_decide_false; [done|]. intros Es. destruct (Hshort 38%nat 4%nat) as [Hn|]; [lia| |done]. by rewrite Es in Hn. }
  destruct (rd_prefix f r 20 Hfb) as (o1 & R3 & L3 & B3), (rd_prefix f r 21 Hfb) as (o0 & R4 & L4 & B4); try (unfold blen; lia).
  destruct (rd_prefix f r 38 Hfb) as (a & R5 & L5 & B5), (rd_prefix f r 39 Hfb) as (b & R6 & L6 & B6), (rd_prefix f r 40 Hfb) as (c & R7 & L7 & B7), (rd_prefix f r 41 Hfb) as (d & R8 & L8 & B8); try (unfold blen; lia).
  rewrite (lift_bind _ _ _ _ R3), (lift_bind _ _ _ _ R4), field_is by (done || lia). change [1 / 256; 1 mod 256] with [0; 1].
  rewrite (slice_pair f 20 o1 o0 L3 L4) in Nothing. destruct (bool_decide ([o1; o0] = [0; 1])) eqn:Eo; [|by apply Nothing]. cbn [andb] in Nothing.
  rewrite (lift_bind _ _ _ _ R5), (lift_bind _ _ _ _ R6), (lift_bind _ _ _ _ R7), (lift_bind _ _ _ _ R8). rewrite (slice_quad f 38 a b c d L5 L6 L7 L8) in Nothing.
  replace ((a =? 10) && (b =? 0) && (c =? 2) && (d =? 15)) with (bool_decide ([a; b; c; d] = [10; 0; 2; 15])).
  2: { destruct (Z.eqb_spec a 10), (Z.eqb_spec b 0), (Z.eqb_spec c 2), (Z.eqb_spec d 15); subst; cbn [andb]; (by apply bool_decide_eq_true_2) || (apply bool_decide_eq_false_2; congruence). }
  destruct (bool_decide ([a; b; c; d] = [10; 0; 2; 15])) eqn:Ed; [|by apply Nothing].
  destruct (reply_ok f q s1 r lost arrived Hs11 Hfb) as (s2 & E2 & Hs2); [|lia|].
  { unfold asks_for_us. by rewrite (slice_pair f 12 t1 t0 L1 L2), (slice_pair f 20 o1 o0 L3 L4), (slice_quad f 38 a b c d L5 L6 L7 L8), Et, Eo, Ed. }
  exists s2. split; [exact E2|]. exact (after_trans _ _ _ _ _ [] _ _ _ _ _ Hs1 Hs2).
Qed.

Lemma after_self s s' q w lost arrived : after s s' q w lost arrived -> after s' s' q [] lost arrived.
Proof. intros [Hb Hf Hr Hw Hp]. split; try done. by rewrite app_nil_r. Qed.

(** The handler reads the causes, which clears them, and takes a frame for a lost frame and
    one for an arrived frame. *)
Lemma check_if (due : bool) s q lost arrived : after s s q [] lost arrived ->
  exists s', (if due then check_received_packet fresh stack else mret tt) s = Some (tt, s') /\ after s s' (fst (take_one mac due q)) (snd (take_one mac due q)) lost arrived.
Proof. intros Hs. destruct due; [by apply check_ok|]. exists s. split; [done|]. by destruct q. Qed.

Lemma isr_ok s q lost arrived : after s s q [] lost arrived ->
  let '(q1, w1) := take_one mac lost q in let '(q2, w2) := take_one mac arrived q1 in
  exists s', e1000_isr fresh stack s = Some (tt, s') /\ after s s' q2 (w1 ++ w2) false false.
Proof.
  intros Hst. pose proof Hst as [Hb Hf Hr _ [b Hp]]. destruct (take_one mac lost q) as [q1 w1] eqn:E1, (take_one mac arrived q1) as [q2 w2] eqn:E2. unfold e1000_isr.
  destruct (e_read base rx_at tx_at B E1000_REG_ICR (card_of (e_hw s)) (causes b lost arrived) ltac:(done) ltac:(done) Hp ltac:(destruct b, lost, arrived; done) s Hb Hf eq_refl) as (h & E & Eh). rewrite (bind_eq _ _ _ _ _ E).
  assert (after s (e_at s h) q [] false false) as Hs1.
  { split; [done|done| | |]; cbn [e_at e_hw tx_cur]; rewrite Eh; change (after_read E1000_REG_ICR (card_of (e_hw s))) with (with_reg (card_of (e_hw s)) E1000_REG_ICR 0); [by apply rings_icr|by rewrite app_nil_r|by exists false]. }
  destruct (Z.eqb_spec (causes b lost arrived) 0) as [E0|_].
  { assert (lost = false /\ arrived = false) as [-> ->] by (destruct b, lost, arrived; done). assert (q1 = q /\ w1 = []) as [-> ->] by (destruct q; by injection E1 as <- <-).
    assert (q2 = q /\ w2 = []) as [-> ->] by (destruct q; by injection E2 as <- <-). by exists (e_at s h). }
  replace (negb (Z.land (causes b lost arrived) (Z.shiftl 1 6) =? 0)) with lost by (by destruct b, lost, arrived).
  replace (negb (Z.land (causes b lost arrived) (Z.shiftl 1 7) =? 0)) with arrived by (by destruct b, lost, arrived).
  replace (negb (Z.land (causes b lost arrived) (Z.shiftl 1 2) =? 0)) with false by (by destruct b, lost, arrived).
  destruct (check_if lost (e_at s h) q false false (after_self _ _ _ _ _ _ Hs1)) as (s2 & C1 & Hs2). rewrite E1 in Hs2. cbn [fst snd] in Hs2. rewrite (bind_eq _ _ _ _ _ C1).
  destruct (check_if arrived s2 q1 false false (after_self _ _ _ _ _ _ Hs2)) as (s3 & C2 & Hs3). rewrite E2 in Hs3. cbn [fst snd] in Hs3. rewrite (bind_eq _ _ _ _ _ C2).
  exists s3. split; [done|]. exact (after_trans _ _ _ _ _ [] _ _ _ _ _ Hs1 (after_trans _ _ _ _ _ _ _ _ _ _ _ Hs2 Hs3)).
Qed.

(** *** Any sequence of operations *)

(** What is put into the area for sending leaves the frames alone. *)
Lemma packet_stored p s q lost arrived : buffers_ok B tx -> blen p <= 2048 -> after s s q [] lost arrived -> exists s', store tx p s = Some (tt, s') /\ after s s' q [] lost arrived.
Proof.
  intros [_ _ Hbt] Hl [Hb Hf Hr _ Hp]. destruct (e_store base rx_at tx_at B tx p _ s Hb Hf eq_refl) as (h & E & Eh). exists (e_at s h). split; [exact E|].
  destruct Hr as [Ht Hh Hro Ha Hc Hfr Hok Hrc Htc Hps Hrr Htr Hmac Hcu Hth Htt Htx]. split; [done|done| |cbn; by rewrite Eh, app_nil_r|apply (pending_same _ _ _ _ Hp); cbn; by rewrite Eh].
  cbn [e_at e_hw tx_cur]. rewrite Eh. split; try done. intros i f Hi. eapply holds_same; [by apply Hfr|reflexivity|]. intros a Hka. apply ram_bytes_other.
  pose proof (Forall_lookup_1 _ _ _ _ Hok Hi) as [_ Hgl]. destruct (Hbt _ _ Hka); unfold RX_BUFFER_SIZE, blen in *; lia.
Qed.

Lemma send_any p s q lost arrived : buffers_ok B tx -> bytes_ok p -> blen p <= 2048 -> after s s q [] lost arrived ->
  exists s', (_ ← store tx p; e1000_send_packet tx (blen p)) s = Some (tt, s') /\ after s s' q (if (14 <=? blen p) && (blen p <=? 1518) then [tx_padded padding p] else []) lost arrived.
Proof.
  intros HB Hpb Hl Hst. pose proof Hst as [Hb Hf Hr _ Hp]. destruct (Z.leb_spec 14 (blen p)), (Z.leb_spec (blen p) 1518); cbn [andb].
  1: { destruct (send_ok base rx_at tx_at (proj2 tx_ok) mac B tx (tx_cur s) q p s HB Hb Hf eq_refl Hr Hpb ltac:(lia)) as (h & E & Hr' & Hw & Hi). eexists. split; [exact E|]. split; [done|done|done|done|exact (pending_sent _ _ _ _ Hp Hi)]. }
  all: destruct (packet_stored p s q lost arrived HB Hl Hst) as (s1 & E & Hs1); rewrite (bind_eq _ _ _ _ _ E); exists s1; split; [|done]; unfold e1000_send_packet; destruct (Z.ltb_spec 1518 (blen p)), (Z.ltb_spec (blen p) 14); try lia; done.
Qed.

Lemma arrive_ok f s q lost arrived : buffers_ok B tx -> bytes_ok f -> 1 <= blen f <= 2048 -> after s s q [] lost arrived ->
  let s' := e_at s (dev_arrive f (e_hw s)) in if (length q <? 31)%nat then after s s' (q ++ [f]) [] lost true else after s s' q [] true arrived.
Proof.
  intros HB Hfb Hfl [Hb Hf Hr _ [b Hp]]. cbn zeta. destruct (Nat.ltb_spec (length q) 31).
  - destruct (arrive_rings rx_at tx_at mac (card_of (e_hw s)) B (tx_cur s) tx q f (proj2 rx_ok) Hr HB ltac:(split; [done|lia]) ltac:(done)) as (Hr' & Hw & Hi). rewrite <- card_arrive in Hr', Hw, Hi.
    split; [done|done|exact Hr'|by rewrite app_nil_r|]. exists b. cbn [e_at e_hw]. rewrite Hi, Hp. by destruct b, lost, arrived.
  - assert (length q = 31)%nat as E31 by (pose proof (g_room _ _ _ _ _ _ _ Hr); lia).
    pose proof (arrive_full rx_at tx_at mac (card_of (e_hw s)) B (tx_cur s) q f Hr ltac:(split; [done|lia]) E31) as Ea. rewrite <- card_arrive in Ea.
    split; [done|done| | |]; cbn [e_at e_hw tx_cur]; rewrite Ea; [by apply rings_icr|by rewrite app_nil_r|]. exists b. cbn. rewrite Hp. by destruct b, lost, arrived.
Qed.

Lemma receive_ok s q lost arrived : (2048 <= length buffer)%nat -> after s s q [] lost arrived ->
  exists r s', e1000_receive_packet buffer 2048 s = Some (r, s') /\ after s s' (tail q) [] lost arrived /\
    (if 0 <? fst r then Some (take (Z.to_nat (fst r)) (snd r)) else None) = head q.
Proof.
  intros Hbuf [Hb Hf Hr _ Hp]. destruct q as [|f q].
  - destruct (receive_none base rx_at tx_at mac B _ _ buffer 2048 Hr s Hb Hf eq_refl) as (h & E & Eh). eexists _, _. split; [exact E|]. split; [|done]. split; cbn; rewrite ?Eh, ?app_nil_r; done.
  - pose proof (g_ok _ _ _ _ _ _ _ Hr) as [[Hfb Hfl] _]%Forall_cons. destruct (e_receive_first base rx_at tx_at mac B _ _ f q buffer 2048 Hr) as (d' & R & Hr' & Hw & Hi); [lia|unfold blen in *; lia|].
    destruct (R s Hb Hf eq_refl) as (h & E & Eh). eexists _, _. split; [exact E|]. split.
    + split; [done|done|cbn; by rewrite Eh|cbn; by rewrite Eh, Hw, app_nil_r|apply (pending_same _ _ _ _ Hp); cbn; by rewrite Eh].
    + cbn [fst snd head]. destruct (Z.ltb_spec 0 (blen f)); [|lia]. unfold blen. by rewrite Nat2Z.id, take_app_length.
Qed.

Lemma run_rings ops : buffers_ok B tx -> (2048 <= length buffer)%nat -> forall s q lost arrived l q' w, after s s q [] lost arrived -> spec_card mac padding ops q lost arrived = Some (l, q', w) ->
  exists s', card_run ops s = Some (l, s') /\ exists lost' arrived', after s s' q' w lost' arrived'.
Proof.
  intros HB Hbuf. induction ops as [|o ops IH]; intros s q lost arrived l q' w Hst Hsp; [cbn [spec_card card_run] in *; injection Hsp as <- <- <-; exists s; split; [done|by exists lost, arrived]|].
  assert (forall s1 q1 w1 lost1 arrived1 l2 w2, after s s1 q1 w1 lost1 arrived1 -> spec_card mac padding ops q1 lost1 arrived1 = Some (l2, q', w2) ->
    exists s', card_run ops s1 = Some (l2, s') /\ exists lost' arrived', after s s' q' (w1 ++ w2) lost' arrived') as Next.
  { intros s1 q1 w1 lost1 arrived1 l2 w2 A1 A2. destruct (IH s1 q1 lost1 arrived1 l2 q' w2 (after_self _ _ _ _ _ _ A1) A2) as (s' & E & lost' & arrived' & A3). exists s'. split; [done|]. exists lost', arrived'. exact (after_trans _ _ _ _ _ _ _ _ _ _ _ A1 A3). }
  destruct o as [f| |p|]; cbn [spec_card card_run] in *.
  - destruct (bytes_fit f 1 2048) eqn:Ef; [|done]. cbn [negb] in Hsp. apply bytes_fit_ok in Ef as [Hfb Hfl]. rewrite modify_bind. pose proof (arrive_ok f s q lost arrived HB Hfb Hfl Hst) as Ha. cbn zeta in Ha.
    destruct (length q <? 31)%nat; exact (Next _ _ [] _ _ _ _ Ha Hsp).
  - destruct (receive_ok s q lost arrived Hbuf Hst) as (r & s1 & E & Hs1 & Er). rewrite (bind_eq _ _ _ _ _ E), Er.
    replace (match q with [] => (None, []) | f :: q'0 => (Some f, q'0) end) with (head q, tail q) in Hsp by (by destruct q).
    destruct (spec_card mac padding ops (tail q) lost arrived) as [[[l0 q0] w0]|] eqn:E0; [|done]. injection Hsp as <- <- <-.
    destruct (Next _ _ [] _ _ _ _ Hs1 E0) as (s' & E' & Hn). rewrite (bind_eq _ _ _ _ _ E'). by exists s'.
  - destruct (bytes_fit p 0 2048) eqn:Ep; [|done]. cbn [negb] in Hsp. apply bytes_fit_ok in Ep as [Hpb Hpl]. destruct (spec_card mac padding ops q lost arrived) as [[[l0 q0] w0]|] eqn:E0; [|done]. injection Hsp as <- <- <-.
    destruct (send_any p s q lost arrived HB Hpb ltac:(lia) Hst) as (s1 & E & Hs1). rewrite (bind_eq _ _ _ _ _ E). exact (Next _ _ _ _ _ _ _ Hs1 E0).
  - pose proof (isr_ok s q lost arrived Hst) as Hi. destruct (take_one mac lost q) as [q1 w1], (take_one mac arrived q1) as [q2 w2]. destruct Hi as (s1 & E & Hs1). rewrite (bind_eq _ _ _ _ _ E).
    destruct (spec_card mac padding ops q2 false false) as [[[l0 q0] w0]|] eqn:E0; [|done]. injection Hsp as <- <- <-. exact (Next _ _ _ _ _ _ _ Hs1 E0).
Qed.
End Handler.

End Refinement.

(** ** A card to try it on *)

Definition CARD_BASE : Z := 4160749568.
Definition RING_A : Z := 4096.
Definition RING_B : Z := 8192.
Definition SIM_PADDING : buf := replicate 60 0.
#[global] Instance e_card_ports : Ports card := {|
  dev_inb _ d := (255, d); dev_outb _ _ d := d; dev_insw _ n d := (replicate (2 * n) 255, d); dev_outsw _ _ d := d; dev_delay _ d := transmit RING_B SIM_PADDING 8 d |}.
#[global] Instance e_card_mmio : Mmio card := {|
  mmio_read a d := (g_regs d (a - CARD_BASE), after_read (a - CARD_BASE) d); mmio_write a v d := write_card (a - CARD_BASE) v d; ram_of := g_ram; put_ram r d := with_ram d r |}.
#[global, refine] Instance e_card_device : E1000Device card CARD_BASE RING_A RING_B := {| card_of d := d; padding := SIM_PADDING; dev_arrive := arrive RING_A |}.
Proof.
  - reflexivity.
  - intros off d Ho Hm. cbn. replace (CARD_BASE + off - CARD_BASE) with off by lia. by eexists _, _.
  - intros off v d Ho Hm Hv. cbn. by replace (CARD_BASE + off - CARD_BASE) with off by lia.
  - done.
  - done.
  - done.
  - done.
Defined.

Definition example_bufs : list Z := map (fun i => 1048576 + 8192 * Z.of_nat i) (seq 0 32).
Definition example_card : card := Mk_card (fun k => if k =? E1000_REG_STATUS then 1 else 0) (Mk_ram (replicate 32 (Mk_rx 0 0 0 0 0 0)) (replicate 8 (Mk_tx 0 0 0 0 0 0 0)) (fun _ => 0)) [].
Definition example_e1000 : e1000 card := Mk_e1000 CARD_BASE 11 0 (replicate 32 0) (replicate 16 0) example_card.
(** An ARP request for the handler's address, from 02:00:00:00:00:09 at 10.0.2.2. *)
Definition e_question : buf := replicate 6 255 ++ [2; 0; 0; 0; 0; 9] ++ [8; 6] ++ [0; 1; 8; 0; 6; 4; 0; 1] ++ [2; 0; 0; 0; 0; 9] ++ [10; 0; 2; 2] ++ replicate 6 0 ++ [10; 0; 2; 15] ++ replicate 18 0.
Definition e_reply : buf := [2; 0; 0; 0; 0; 9] ++ replicate 6 0 ++ [8; 6] ++ [0; 1; 8; 0; 6; 4; 0; 2] ++ replicate 6 0 ++ [10; 0; 2; 15] ++ [2; 0; 0; 0; 0; 9] ++ [10; 0; 2; 2] ++ replicate 18 0.
Definition example_card_ops : list card_op := [Receive; Arrive e_question; Arrive (replicate 60 7); Arrive (replicate 100 9); Send (replicate 14 1); Interrupt; Interrupt; Send [1; 2; 3]; Receive; Receive; Receive].

Lemma example_bufs_at i a : example_bufs !! i = Some a -> (i < 32)%nat /\ a = 1048576 + 8192 * Z.of_nat i.
Proof. intros E. pose proof (lookup_lt_Some _ _ _ E) as Hl. change (length example_bufs) with 32%nat in Hl. unfold example_bufs in E. rewrite list_lookup_fmap, lookup_seq_lt in E by done. split; [done|]. cbn in E. by injection E as <-. Qed.
Lemma example_bufs_ok area : 0 <= area <= 1000000 -> buffers_ok example_bufs area.
Proof.
  intros Hx. split; [reflexivity| |].
  - intros i j a b Hne [Hi ->]%example_bufs_at [Hj ->]%example_bufs_at. unfold RX_BUFFER_SIZE. lia.
  - intros i a [Hi ->]%example_bufs_at. unfold RX_BUFFER_SIZE. lia.
Qed.

