(* ===== verification/Rtl8139.v ===== *)
(** drivers/net/rtl8139.c: the Realtek RTL8139 network card.

    [rtl8139] is the driver's variables and the hardware, whose memory ([DmaMem]) holds the
    buffers for sending and receiving.  [mmio_base] is a pointer to 32-bit words: an offset
    that is added to it counts words ([word_ptr]), an offset that is added to it as a number counts
    bytes.  Console output is left out; [handle_ethernet_frame] of ethernet.c only prints, and
    its result here is the protocol that it recognises. *)

From S2P Require Import Prelude CString Effects Ports Pci.

Definition RTL8139_VENDOR_ID : Z := 4332.
Definition RTL8139_DEVICE_ID : Z := 33081.
Definition REG_TRANSMIT_STATUS0 : Z := 16.
Definition REG_TRANSMIT_ADDR0 : Z := 32.
Definition REG_RECEIVE_BUFFER : Z := 48.
Definition REG_COMMAND : Z := 55.
Definition CR_RECEIVER_ENABLE : Z := Z.shiftl 1 3.
Definition CR_TRANSMITTER_ENABLE : Z := Z.shiftl 1 2.
Definition CR_WRITABLE_MASK : Z := Z.lor CR_RECEIVER_ENABLE CR_TRANSMITTER_ENABLE.
Definition REG_INTERRUPT_MASK : Z := 60.
Definition REG_INTERRUPT_STATUS : Z := 62.
Definition REG_RECEIVE_CONFIGURATION : Z := 68.
Definition CR_RESET : Z := Z.shiftl 1 4.
Definition TX_BUFFER_SIZE : Z := 2048.
Definition RX_BUFFER_SIZE : Z := 64 * 1024.
Definition MAX_DMA_ADDRESS : Z := 4294967295.

(** The memory that the card works on. *)
Class DmaMem (H : Type) := { dma_mem : H -> Z -> Z; put_dma : (Z -> Z) -> H -> H }.

Record rtl8139 (H : Type) := Mk_rtl { rtl_base : Z; rtl_irq : Z; current_tx_buffer : Z; rx_offset : Z; rtl_hw : H }.
Arguments Mk_rtl {H}. Arguments rtl_base {H}. Arguments rtl_irq {H}. Arguments current_tx_buffer {H}. Arguments rx_offset {H}. Arguments rtl_hw {H}.
Definition rtl_at {H} (s : rtl8139 H) (h : H) : rtl8139 H := Mk_rtl (rtl_base s) (rtl_irq s) (current_tx_buffer s) (rx_offset s) h.
#[global] Instance rtl_machine H : Machine (rtl8139 H) H := {| hw := rtl_hw; with_hw := rtl_at |}.

(** [handle_ethernet_frame]: nothing for a short frame, otherwise the protocol. *)
Definition handle_ethernet_frame (frame : buf) (length_ : Z) : option (option Z) :=
  if length_ <? 14 then Some None else
  hi ← rd frame 12; lo ← rd frame 13;
  let ethertype := u16 (Z.lor (Z.shiftl (lo * 256 + hi) 8) (Z.shiftr (lo * 256 + hi) 8)) in
  Some (if (ethertype =? 2048) || (ethertype =? 2054) then Some ethertype else None).

Definition is_address_valid (address : Z) : bool := address <=? MAX_DMA_ADDRESS.

Section Driver.
Context {H : Type} `{Ports H} `{WidePorts H} `{DmaMem H}.
Context (tx_buffers_at rx_buffers_at : Z).          (* where the two arrays are *)
Abbreviation A := (M (rtl8139 H)).

(** The pointer [mmio_base + k]. *)
Definition word_ptr (k : Z) : A Z := b ← gets rtl_base; mret (u32 (b + 4 * k)).

(** The value read back is compared, and a mismatch printed. *)
Definition write_and_verify_register (base offset value : Z) : A unit :=
  _ ← outl (base + offset) value; _ ← inl (base + offset); mret tt.
Definition write_and_verify_register_b (base offset value : Z) : A unit :=
  _ ← outb (base + offset) value; _ ← inb (base + offset); mret tt.
Definition write_and_verify_register_w (base offset value : Z) : A unit :=
  _ ← outw (base + offset) value; _ ← inw (base + offset); mret tt.
Definition enable_rx_tx (base : Z) : A unit :=
  write_and_verify_register_b base REG_COMMAND (Z.land (Z.lor CR_RECEIVER_ENABLE CR_TRANSMITTER_ENABLE) CR_WRITABLE_MASK).

Definition initialize_rx_buffer : A unit :=
  if 4294967295 <? rx_buffers_at then undef else          (* free of a static array *)
  b ← gets rtl_base; write_and_verify_register b REG_RECEIVE_BUFFER rx_buffers_at.
Definition initialize_tx_buffers : A unit := mret tt.

(** [while (inb(mmio_base + REG_COMMAND) & CR_RESET)]: as long as it takes. *)
Fixpoint rtl_reset_wait (fuel : nat) : A unit :=
  match fuel with
  | O => undef
  | S fuel' => p ← word_ptr REG_COMMAND; v ← inb p; if Z.land v CR_RESET =? 0 then mret tt else rtl_reset_wait fuel'
  end.
Definition rtl8139_init (fuel : nat) : A unit :=
  p ← word_ptr REG_COMMAND;
  _ ← outb p CR_RESET;
  _ ← rtl_reset_wait fuel;
  _ ← initialize_rx_buffer;
  _ ← initialize_tx_buffers;
  b ← gets rtl_base;
  _ ← write_and_verify_register b REG_RECEIVE_CONFIGURATION (Z.lor (Z.lor 15 (Z.shiftl 1 7)) (Z.shiftl 7 8));
  _ ← write_and_verify_register_w b REG_INTERRUPT_MASK 5;
  enable_rx_tx b.

(** [data] goes to the buffer, whose address and length go to the current descriptor. *)
Definition rtl8139_send_packet (data : buf) (len : Z) : A unit :=
  if TX_BUFFER_SIZE <? len then mret tt else
  if (length data <? Z.to_nat len)%nat then undef else
  io_base ← gets rtl_base;
  i ← gets current_tx_buffer;
  _ ← modify (fun s => rtl_at s (put_dma (fun a => if tx_buffers_at <=? a then default (dma_mem (rtl_hw s) a) (take (Z.to_nat len) data !! Z.to_nat (a - tx_buffers_at)) else dma_mem (rtl_hw s) a) (rtl_hw s)));
  _ ← outl (io_base + REG_TRANSMIT_ADDR0 + i * 4) tx_buffers_at;
  _ ← outl (io_base + REG_TRANSMIT_STATUS0 + i * 4) (Z.land len 8191);
  _ ← inl (io_base + REG_TRANSMIT_STATUS0 + i * 4);
  modify (fun s => Mk_rtl (rtl_base s) (rtl_irq s) ((i + 1) mod 4) (rx_offset s) (rtl_hw s)).

(** A 16-bit word of the receive array, [k] 32-bit words behind its start. *)
Definition rx_word (k : Z) : A Z := s ← gets rtl_hw; let m := dma_mem s in mret (u8 (m (rx_buffers_at + 4 * k)) + 256 * u8 (m (rx_buffers_at + 4 * k + 1))).
Definition rx_packet (k n : Z) : A buf := s ← gets rtl_hw; mret (map (fun j => u8 (dma_mem s (rx_buffers_at + 4 * k + Z.of_nat j))) (seq 0 (Z.to_nat n))).

(** The loop; the result lists what was recognised. *)
Fixpoint receive_loop (fuel : nat) : A (list (option Z)) :=
  match fuel with
  | O => undef
  | S fuel' =>
      p ← word_ptr REG_COMMAND;
      c ← inb p;
      if negb (Z.land c 1 =? 0) then mret [] else
      off ← gets rx_offset;
      status ← rx_word off;
      length_ ← rx_word (off + 2);
      if (status =? 0) || (length_ =? 0) then mret [] else
      if Z.land status 1 =? 0 then mret [] else
      if 1500 <? length_ then mret [] else
      packet ← rx_packet (off + 4) (Z.max 16 length_);
      r ← lift (handle_ethernet_frame packet length_);
      let off := Z.ldiff (off + length_ + 4 + 3) 3 in
      let off := if RX_BUFFER_SIZE <=? off then off - RX_BUFFER_SIZE else off in
      _ ← modify (fun s => Mk_rtl (rtl_base s) (rtl_irq s) (current_tx_buffer s) off (rtl_hw s));
      p ← word_ptr 56;
      _ ← outw p (off - 16);
      l ← receive_loop fuel';
      mret (r :: l)
  end.
Definition rtl8139_receive_packet (fuel : nat) : A (list (option Z)) := receive_loop fuel.

Definition rtl8139_interrupt_handler (fuel : nat) : A unit :=
  p ← word_ptr REG_INTERRUPT_STATUS;
  isr ← inw p;
  _ ← (if negb (Z.land isr 1 =? 0) then _ ← rtl8139_receive_packet fuel; mret tt else mret tt);
  outw p isr.

Fixpoint rtl_read_mac (n : nat) (i : Z) : A buf :=
  match n with O => mret [] | S n' => p ← word_ptr i; x ← inb p; l ← rtl_read_mac n' (i + 1); mret (x :: l) end.
Definition rtl8139_get_mac_address : A buf := rtl_read_mac 6 0.

Definition rtl_on_bus {X} (m : M (pci H) X) : A X := fun s =>
  match m (Mk_pci [] 0 [] 0 (rtl_hw s)) with Some (x, p) => Some (x, rtl_at s (pci_hw p)) | None => None end.
Definition rtl8139_probe (fuel : nat) (pci_dev : pci_device_t) : A unit :=
  if (vendor_id pci_dev =? RTL8139_VENDOR_ID) && (device_id pci_dev =? RTL8139_DEVICE_ID) then
    _ ← rtl_on_bus (pci_enable_device pci_dev);
    bar0 ← lift (pci_read_bar pci_dev 0);
    _ ← modify (fun s => Mk_rtl (map_mmio bar0) (pci_configure_irq pci_dev) (current_tx_buffer s) (rx_offset s) (rtl_hw s));
    _ ← rtl8139_init fuel;
    _ ← rtl8139_get_mac_address;
    mret tt
  else mret tt.
Definition rtl8139_detect (probe_addr : Z) : M (pci H) unit := pci_register_driver RTL8139_VENDOR_ID RTL8139_DEVICE_ID probe_addr.
Definition rtl8139_is_initialized : A bool := b ← gets rtl_base; mret (negb (b =? 0)).

Definition arp_request (our_mac : buf) : buf :=
  replicate 6 255 ++ our_mac ++ [8; 6] ++ [0; 1; 8; 0; 6; 4; 0; 1] ++ our_mac ++ [10; 0; 2; 15] ++ replicate 6 0 ++ [10; 0; 2; 1] ++ replicate 18 0.
Definition rtl8139_send_test_packet : A unit :=
  our_mac ← rtl8139_get_mac_address;
  rtl8139_send_packet (arp_request our_mac) 60.
End Driver.

(** ** The card

    What the driver relies on for sending: four descriptors with an address each; writing the
    length to one sends that many bytes from its address. *)
Definition from_mem (m : Z -> Z) (a : Z) (n : nat) : buf := map (fun k => u8 (m (a + Z.of_nat k))) (seq 0 n).
Class RtlDevice (H : Type) `{WidePorts H} `{DmaMem H} (base : Z) := {
  wire : H -> list buf;
  tsad : H -> Z -> Z;
  rtl_range : 0 <= base <= 65536 - 256;
  put_dma_mem : forall m h, dma_mem (put_dma m h) = m;
  put_dma_wire : forall m h, wire (put_dma m h) = wire h;
  addr_write : forall i v h, 0 <= i < 4 -> 0 <= v < 2 ^ 32 ->
    let h' := dev_outl (base + REG_TRANSMIT_ADDR0 + i * 4) v h in tsad h' i = v /\ wire h' = wire h /\ dma_mem h' = dma_mem h;
  status_write : forall i n h, 0 <= i < 4 -> 0 <= n < 8192 ->
    wire (dev_outl (base + REG_TRANSMIT_STATUS0 + i * 4) n h) = wire h ++ [from_mem (dma_mem h) (tsad h i) (Z.to_nat n)];
  status_read : forall i h, 0 <= i < 4 -> wire (snd (dev_inl (base + REG_TRANSMIT_STATUS0 + i * 4) h)) = wire h
}.

Section Sending.
Context {H : Type} (base : Z) `{Ports H} `{RtlDevice H base} (tx_at : Z) (tx_range : 0 <= tx_at < 2 ^ 32).

Lemma from_mem_put m l : bytes_ok l -> from_mem (fun a => if tx_at <=? a then default (m a) (l !! Z.to_nat (a - tx_at)) else m a) tx_at (length l) = l.
Proof.
  intros Hb. apply list_eq. intros i. unfold from_mem. rewrite list_lookup_fmap. destruct (decide (i < length l)%nat) as [Hi|].
  - rewrite lookup_seq_lt by done. cbn [fmap option_fmap option_map]. rewrite Nat.add_0_l, (proj2 (Z.leb_le _ _)) by lia. replace (Z.to_nat (tx_at + Z.of_nat i - tx_at)) with i by lia.
    destruct (lookup_lt_is_Some_2 l i Hi) as [v Ev]. rewrite Ev. cbn. f_equal. apply wrap_small. exact (Forall_lookup_1 _ _ _ _ Hb Ev).
  - rewrite lookup_seq_ge by lia. symmetry. apply lookup_ge_None. lia.
Qed.

Lemma outl_bind {X} port v (k : unit -> M (rtl8139 H) X) s : (outl port v ≫= k) s = k tt (rtl_at s (dev_outl (u16 port) (u32 v) (rtl_hw s))).
Proof. done. Qed.

Lemma rtl_send_ok p (s : rtl8139 H) : rtl_base s = base -> 0 <= current_tx_buffer s < 4 -> bytes_ok p -> blen p <= TX_BUFFER_SIZE ->
  exists h, rtl8139_send_packet tx_at p (blen p) s = Some (tt, Mk_rtl base (rtl_irq s) ((current_tx_buffer s + 1) mod 4) (rx_offset s) h) /\ wire h = wire (rtl_hw s) ++ [p].
Proof using tx_range.
  intros Hs Hi Hp Hl. pose proof (rtl_range (H := H) (base := base)) as Hb. unfold TX_BUFFER_SIZE, blen in *. unfold rtl8139_send_packet, TX_BUFFER_SIZE. rewrite Nat2Z.id.
  destruct (Z.ltb_spec 2048 (Z.of_nat (length p))); [lia|]. rewrite Nat.ltb_irrefl, !gets_bind, modify_bind, Hs. set (i := current_tx_buffer s) in *. rewrite (take_ge p) by lia.
  set (h1 := put_dma _ (rtl_hw s)). rewrite outl_bind. rewrite (wrap_small 16) by (unfold REG_TRANSMIT_ADDR0; lia). rewrite (wrap_small 32 tx_at) by lia. change (rtl_hw (rtl_at s h1)) with h1. set (h2 := dev_outl _ tx_at h1).
  destruct (addr_write i tx_at h1 Hi tx_range) as (E1 & E2 & E3). fold h2 in E1, E2, E3. rewrite outl_bind. rewrite (wrap_small 16) by (unfold REG_TRANSMIT_STATUS0; lia).
  assert (Z.land (Z.of_nat (length p)) 8191 = Z.of_nat (length p)) as El by (change 8191 with (Z.ones 13); rewrite Z.land_ones by lia; apply Z.mod_small; change (2 ^ 13) with 8192; lia). rewrite El, (wrap_small 32) by lia.
  change (rtl_hw (rtl_at (rtl_at s h1) h2)) with h2. set (h3 := dev_outl _ _ h2).
  pose proof (status_write i (Z.of_nat (length p)) h2 Hi ltac:(lia)) as E4. fold h3 in E4. pose proof (status_read i h3 Hi) as E5. unfold mbind, M_bind, inl. cbn [hw rtl_machine with_hw rtl_at rtl_hw].
  rewrite (wrap_small 16) by (unfold REG_TRANSMIT_STATUS0; lia). destruct (dev_inl _ h3) as [v h4] eqn:E6. exists h4. split; [unfold modify, rtl_at; cbn; by rewrite Hs|].
  cbn [snd] in E5. rewrite E5, E4, E2, E1, E3. unfold h1. rewrite put_dma_wire, put_dma_mem, Nat2Z.id, from_mem_put by done. done.
Qed.

(** Packets sent one after the other use the four descriptors in turn, and go out in order. *)
Fixpoint send_each (ps : list buf) : M (rtl8139 H) unit := match ps with [] => mret tt | p :: ps' => _ ← rtl8139_send_packet tx_at p (blen p); send_each ps' end.
Theorem rtl8139_sends ps : forall (s : rtl8139 H) (Hs : rtl_base s = base) (Hi : 0 <= current_tx_buffer s < 4) (Hp : Forall (fun p => bytes_ok p /\ blen p <= TX_BUFFER_SIZE) ps),
  exists s', send_each ps s = Some (tt, s') /\ wire (rtl_hw s') = wire (rtl_hw s) ++ ps /\ current_tx_buffer s' = (current_tx_buffer s + Z.of_nat (length ps)) mod 4.
Proof using tx_range.
  induction ps as [|p ps IH]; intros s Hs Hi Hp; cbn [send_each]; [exists s; rewrite app_nil_r; split_and!; [done|done|cbn; zlia]|].
  apply Forall_cons in Hp as [[Hpb Hpl] Hp]. destruct (rtl_send_ok p s Hs Hi Hpb Hpl) as (h & E & Hw). rewrite (bind_eq _ _ _ _ _ E).
  destruct (IH (Mk_rtl base (rtl_irq s) ((current_tx_buffer s + 1) mod 4) (rx_offset s) h)) as (s' & E' & W & C); [done|cbn; zlia|done|]. exists s'. split; [done|]. split; [rewrite W; cbn; by rewrite Hw, <- app_assoc|].
  rewrite C. cbn [current_tx_buffer length]. zlia.
Qed.
End Sending.

(** ** Pointers to words

    The station address is the first six bytes of the registers, but every fourth byte is read. *)
Theorem rtl8139_mac_misread {H} `{Ports H} (byte_at : Z -> Z) (s : rtl8139 H) (Hb : 0 <= rtl_base s < 65536 - 256) (Hr : forall k h, 0 <= k < 256 -> dev_inb (rtl_base s + k) h = (byte_at k, h)) :
  rtl8139_get_mac_address s = Some (map (fun k => u8 (byte_at k)) [0; 4; 8; 12; 16; 20], s).
Proof.
  assert (forall i, 0 <= i < 6 -> forall X (k : Z -> M (rtl8139 H) X), (word_ptr i ≫= fun p => inb p ≫= k) s = k (u8 (byte_at (4 * i))) s) as E.
  { intros i Hi X k. unfold word_ptr. rewrite bind_assoc, gets_bind. unfold mbind, M_bind, mret, M_ret, inb. cbn [hw rtl_machine]. rewrite (wrap_small 32 (rtl_base s + 4 * i)) by lia. rewrite (wrap_small 16 (rtl_base s + 4 * i)) by lia.
    rewrite Hr by lia. cbn. unfold rtl_at. by destruct s. }
  unfold rtl8139_get_mac_address. cbn [rtl_read_mac]. rewrite E by lia. do 5 (unfold mbind at 1, M_bind at 1; rewrite E by lia). done.
Qed.

(** The length of a packet is taken from eight bytes behind the status word, which is the
    fifth byte of the packet, and the packet from sixteen bytes behind it. *)
Theorem rtl8139_length_misread {H} `{Ports H} `{WidePorts H} `{DmaMem H} (rx_at : Z) (s : rtl8139 H) (Ho : rx_offset s = 0) :
  rx_word rx_at (rx_offset s + 2) s = Some (u8 (dma_mem (rtl_hw s) (rx_at + 8)) + 256 * u8 (dma_mem (rtl_hw s) (rx_at + 9)), s) /\
  rx_packet rx_at (rx_offset s + 4) 1 s = Some ([u8 (dma_mem (rtl_hw s) (rx_at + 16))], s).
Proof. rewrite Ho. unfold rx_word, rx_packet. rewrite !gets_bind. unfold mret, M_ret. change (Z.to_nat 1) with 1%nat. cbn [seq map]. change (4 * (0 + 2)) with 8. change (4 * (0 + 4)) with 16. change (Z.of_nat 0) with 0. rewrite Z.add_0_r, <- Z.add_assoc. done. Qed.

(** ** A card to try it on *)

Record rtl_card := Mk_rcard { rc_mem : Z -> Z; rc_addr : Z -> Z; rc_wire : list buf }.
Definition SIM_RTL : Z := 49152.
#[global] Instance rtl_card_mem : DmaMem rtl_card := {| dma_mem := rc_mem; put_dma m c := Mk_rcard m (rc_addr c) (rc_wire c) |}.
#[global] Instance rtl_card_ports : Ports rtl_card := {| dev_inb _ c := (255, c); dev_outb _ _ c := c; dev_insw _ n c := (replicate (2 * n) 255, c); dev_outsw _ _ c := c; dev_delay _ c := c |}.
#[global] Instance rtl_card_wide : WidePorts rtl_card := {|
  dev_inw _ c := (65535, c); dev_outw _ _ c := c; dev_inl _ c := (8192, c);
  dev_outl p v c :=
    let r := p - SIM_RTL in
    if (REG_TRANSMIT_ADDR0 <=? r) && (r <? REG_TRANSMIT_ADDR0 + 16) then Mk_rcard (rc_mem c) (fun i => if i =? (r - REG_TRANSMIT_ADDR0) / 4 then v else rc_addr c i) (rc_wire c)
    else if (REG_TRANSMIT_STATUS0 <=? r) && (r <? REG_TRANSMIT_STATUS0 + 16) then Mk_rcard (rc_mem c) (rc_addr c) (rc_wire c ++ [from_mem (rc_mem c) (rc_addr c ((r - REG_TRANSMIT_STATUS0) / 4)) (Z.to_nat v)])
    else c
|}.
#[global, refine] Instance rtl_card_device : RtlDevice rtl_card SIM_RTL := {| wire := rc_wire; tsad := rc_addr |}.
Proof.
  - unfold SIM_RTL. lia.
  - done.
  - done.
  - intros i v h Hi Hv. cbn. unfold REG_TRANSMIT_ADDR0. replace (SIM_RTL + 32 + i * 4 - SIM_RTL) with (32 + i * 4) by lia. destruct (Z.leb_spec 32 (32 + i * 4)), (Z.ltb_spec (32 + i * 4) (32 + 16)); try lia. cbn.
    replace ((32 + i * 4 - 32) / 4) with i by zlia. by rewrite Z.eqb_refl.
  - intros i n h Hi Hn. cbn. unfold REG_TRANSMIT_ADDR0, REG_TRANSMIT_STATUS0. replace (SIM_RTL + 16 + i * 4 - SIM_RTL) with (16 + i * 4) by lia.
    destruct (Z.leb_spec 32 (16 + i * 4)), (Z.leb_spec 16 (16 + i * 4)), (Z.ltb_spec (16 + i * 4) (16 + 16)); try lia. cbn. by replace ((16 + i * 4 - 16) / 4) with i by zlia.
  - done.
Defined.
Lemma rtl8139_sends_witness : exists s', send_each 65536 [replicate 60 1; [2; 3]; [4]] (Mk_rtl SIM_RTL 11 3 0 (Mk_rcard (fun _ => 0) (fun _ => 0) [])) = Some (tt, s') /\ wire (rtl_hw s') = [replicate 60 1; [2; 3]; [4]].
Proof.
  destruct (rtl8139_sends SIM_RTL 65536 ltac:(lia) [replicate 60 1; [2; 3]; [4]] (Mk_rtl SIM_RTL 11 3 0 (Mk_rcard (fun _ => 0) (fun _ => 0) []))) as (s' & E & W & _); [reflexivity|cbn; lia| |by exists s'].
  repeat (apply Forall_cons; split; [split; [by apply bytes_check|vm_compute; congruence]|]). apply Forall_nil_2.
Defined.
