(* ===== verification/Vmxnet3.v ===== *)
(** drivers/net/vmxnet3.c: the VMXNET3 network card.  The driver keeps two arrays of packet
    buffers of its own and tells the card the index of a packet in a register; the registers
    are in memory, as for the E1000.  Console output is left out. *)

From S2P Require Import Prelude CString Effects Ports Cpu Pci E1000.

Definition VMXNET3_VENDOR_ID : Z := 5549.
Definition VMXNET3_DEVICE_ID : Z := 1968.
Definition VMXNET3_CMD : Z := 0.
Definition VMXNET3_STATUS : Z := 8.
Definition VMXNET3_TXPROD : Z := 4096.
Definition VMXNET3_RXPROD : Z := 8192.
Definition VMXNET3_INTR_STATUS : Z := 264.
Definition VMXNET3_MAC_LO : Z := 1280.
Definition VMXNET3_MAC_HI : Z := 1284.
Definition TX_QUEUE_SIZE : Z := 256.
Definition RX_QUEUE_SIZE : Z := 256.
Definition PACKET_BUFFER_SIZE : Z := 2048.

Record vmxnet3_buffer_t := Mk_vbuf { v_data : buf; v_length : Z }.
Record vmxnet3 (H : Type) := Mk_vmx {
  v_tx_buffers : list vmxnet3_buffer_t; v_rx_buffers : list vmxnet3_buffer_t; v_base : Z; v_irq : Z; tx_producer : Z; rx_producer : Z; v_hw : H
}.
Arguments Mk_vmx {H}. Arguments v_tx_buffers {H}. Arguments v_rx_buffers {H}. Arguments v_base {H}. Arguments v_irq {H}. Arguments tx_producer {H}. Arguments rx_producer {H}. Arguments v_hw {H}.
Definition v_at {H} (s : vmxnet3 H) (h : H) : vmxnet3 H := Mk_vmx (v_tx_buffers s) (v_rx_buffers s) (v_base s) (v_irq s) (tx_producer s) (rx_producer s) h.
#[global] Instance vmx_machine H : Machine (vmxnet3 H) H := {| hw := v_hw; with_hw := v_at |}.

Section Driver.
Context {H : Type} `{Ports H} `{WidePorts H} `{Mmio H}.
Abbreviation A := (M (vmxnet3 H)).

Definition vmxnet3_write_register (offset value : Z) : A unit := modify (fun s => v_at s (mmio_write (v_base s + 4 * (offset / 4)) (u32 value) (v_hw s))).
Definition vmxnet3_read_register (offset : Z) : A Z := fun s => let '(v, h) := mmio_read (v_base s + 4 * (offset / 4)) (v_hw s) in Some (u32 v, v_at s h).

(** [while (vmxnet3_read_register(dev, VMXNET3_STATUS) & 0x1)]: as long as it takes. *)
Fixpoint vmx_reset_wait (fuel : nat) : A unit :=
  match fuel with O => undef | S fuel' => v ← vmxnet3_read_register VMXNET3_STATUS; if Z.land v 1 =? 0 then mret tt else vmx_reset_wait fuel' end.
Definition vmxnet3_init (fuel : nat) : A unit :=
  _ ← vmxnet3_write_register VMXNET3_CMD 1;
  _ ← vmx_reset_wait fuel;
  _ ← modify (fun s => Mk_vmx (v_tx_buffers s) (v_rx_buffers s) (v_base s) (v_irq s) 0 0 (v_hw s));
  vmxnet3_write_register VMXNET3_INTR_STATUS 4294967295.

Definition mac_bytes (mac_low mac_high : Z) : buf :=
  [Z.land mac_low 255; Z.land (Z.shiftr mac_low 8) 255; Z.land (Z.shiftr mac_low 16) 255; Z.land (Z.shiftr mac_low 24) 255; Z.land mac_high 255; Z.land (Z.shiftr mac_high 8) 255].
Definition vmx_on_bus {X} (m : M (pci H) X) : A X := fun s =>
  match m (Mk_pci [] 0 [] 0 (v_hw s)) with Some (x, p) => Some (x, v_at s (pci_hw p)) | None => None end.
Definition pci_get_mac_address (pci_dev : pci_device_t) : A buf :=
  mac_low ← vmx_on_bus (pci_read_config_dword (pci_bus pci_dev) (pci_slot pci_dev) (pci_function pci_dev) 80);
  mac_high ← vmx_on_bus (pci_read_config_dword (pci_bus pci_dev) (pci_slot pci_dev) (pci_function pci_dev) 84);
  mret (mac_bytes mac_low mac_high).

(** What is in the status is only printed. *)
Definition vmxnet3_handle_irq : A unit := _ ← vmxnet3_read_register 264; mret tt.

Definition vmxnet3_probe (fuel : nat) (pci_dev : pci_device_t) : A Z :=
  if (vendor_id pci_dev =? VMXNET3_VENDOR_ID) && (device_id pci_dev =? VMXNET3_DEVICE_ID) then
    _ ← vmx_on_bus (pci_enable_device pci_dev);
    bar0 ← lift (pci_read_bar pci_dev 0);
    _ ← modify (fun s => Mk_vmx (v_tx_buffers s) (v_rx_buffers s) (map_mmio bar0) (pci_configure_irq pci_dev) (tx_producer s) (rx_producer s) (v_hw s));
    _ ← vmxnet3_init fuel;
    _ ← pci_get_mac_address pci_dev;
    mret 0
  else mret (-1).
Definition vmxnet3_register_driver (probe_addr : Z) : M (pci H) unit := pci_register_driver VMXNET3_VENDOR_ID VMXNET3_DEVICE_ID probe_addr.
Definition vmxnet3_setup (probe_addr : Z) : M (pci H) unit := vmxnet3_register_driver probe_addr.

Definition vmxnet3_transmit_packet (data : buf) (length_ : Z) : A unit :=
  p ← gets tx_producer;
  let next_index := u32 (p + 1) mod TX_QUEUE_SIZE in
  if next_index =? p then mret tt else
  if (length data <? Z.to_nat length_)%nat then undef else
  l ← gets v_tx_buffers;
  b ← lift (at_index l p);
  d ← lift (put_bytes (v_data b) (take (Z.to_nat length_) data));
  l ← lift (put_index l p (Mk_vbuf d length_));
  _ ← modify (fun s => Mk_vmx l (v_rx_buffers s) (v_base s) (v_irq s) (tx_producer s) (rx_producer s) (v_hw s));
  _ ← vmxnet3_write_register VMXNET3_TXPROD p;
  modify (fun s => Mk_vmx (v_tx_buffers s) (v_rx_buffers s) (v_base s) (v_irq s) next_index (rx_producer s) (v_hw s)).

(** The packet that is printed, if there is one. *)
Definition vmxnet3_receive_packet : A (option vmxnet3_buffer_t) :=
  rx_index ← gets rx_producer;
  r ← vmxnet3_read_register VMXNET3_RXPROD;
  if r =? rx_index then mret None else
  l ← gets v_rx_buffers;
  b ← lift (at_index l rx_index);
  let next := u32 (rx_index + 1) mod RX_QUEUE_SIZE in
  _ ← modify (fun s => Mk_vmx (v_tx_buffers s) (v_rx_buffers s) (v_base s) (v_irq s) (tx_producer s) next (v_hw s));
  _ ← vmxnet3_write_register VMXNET3_RXPROD next;
  mret (Some b).

Definition vmxnet3_send_packet (data : buf) (length_ : Z) : A unit := vmxnet3_transmit_packet data length_.
Definition vmxnet3_get_mac_address : A buf :=
  mac_low ← vmxnet3_read_register VMXNET3_MAC_LO;
  mac_high ← vmxnet3_read_register VMXNET3_MAC_HI;
  mret (mac_bytes mac_low mac_high).
Definition vmx_test_packet : buf := replicate 6 255 ++ [0; 1; 2; 3; 4; 5] ++ [8; 0] ++ [69; 0; 0; 84] ++ [0; 1; 222; 173; 190; 239].
Definition test_vmxnet3 : A (option vmxnet3_buffer_t) :=
  _ ← vmxnet3_get_mac_address;
  _ ← vmxnet3_transmit_packet vmx_test_packet 24;
  _ ← pit_delay 100;
  vmxnet3_receive_packet.

(** The test for a full queue compares the index with its successor and never holds: every
    packet that fits a buffer is stored at the index, announced, and the index moves on, also
    when the card has sent nothing of the packets before. *)
Theorem vmxnet3_never_full p (s : vmxnet3 H) (Hp : 0 <= tx_producer s < TX_QUEUE_SIZE) (Hl : blen p <= PACKET_BUFFER_SIZE) (Hn : length (v_tx_buffers s) = 256%nat)
  (Hb : Forall (fun b => blen (v_data b) = PACKET_BUFFER_SIZE) (v_tx_buffers s)) :
  exists s', vmxnet3_transmit_packet p (blen p) s = Some (tt, s') /\ tx_producer s' = (tx_producer s + 1) mod 256 /\
    exists b, v_tx_buffers s' !! Z.to_nat (tx_producer s) = Some b /\ v_length b = blen p /\ take (length p) (v_data b) = p.
Proof.
  unfold TX_QUEUE_SIZE, PACKET_BUFFER_SIZE, blen in *. unfold vmxnet3_transmit_packet, TX_QUEUE_SIZE. rewrite gets_bind, (wrap_small 32) by lia. set (k := tx_producer s) in *.
  destruct (Z.eqb_spec ((k + 1) mod 256) k); [zlia|]. rewrite Nat2Z.id, Nat.ltb_irrefl, gets_bind. destruct (lookup_lt_is_Some_2 (v_tx_buffers s) (Z.to_nat k)) as [b Eb]; [lia|].
  assert (at_index (v_tx_buffers s) k = Some b) as E1 by (unfold at_index; by rewrite (proj2 (Z.leb_le 0 k)) by lia). rewrite (lift_bind _ _ _ _ E1), (take_ge p) by lia.
  pose proof (Forall_lookup_1 _ _ _ _ Hb Eb) as Hbl. cbn in Hbl.
  assert (put_bytes (v_data b) p = Some (p ++ drop (length p) (v_data b))) as E2 by (unfold put_bytes, blit; rewrite (proj2 (Nat.leb_le _ _)) by lia; by rewrite take_0). rewrite (lift_bind _ _ _ _ E2).
  set (b' := Mk_vbuf _ _). assert (put_index (v_tx_buffers s) k b' = Some (<[Z.to_nat k := b']> (v_tx_buffers s))) as E3 by (unfold put_index; by rewrite E1). rewrite (lift_bind _ _ _ _ E3).
  eexists. split; [done|]. split; [done|]. exists b'. cbn. split; [apply list_lookup_insert_eq; lia|]. split; [done|]. apply take_app_length.
Qed.
End Driver.
