(* ===== verification/Framebuffer.v ===== *)
(** drivers/video/framebuffer.c, and drivers/video/display.c as the frame-buffer build has
    it: the text console drawn in a linear frame buffer.

    [framebuffer] is the driver's variables and the memory the pixels are in.  [tty]
    specifies the console as a grid of 128 by 48 characters with their colours;
    [shows] relates the pixels to it through the font. *)

From S2P Require Import Prelude CString Memory Font.

Definition FB_WIDTH : Z := 1024.
Definition FB_HEIGHT : Z := 768.
Definition FONT_WIDTH : Z := 8.
Definition FONT_HEIGHT : Z := 16.
Definition TERM_COLS : Z := FB_WIDTH / FONT_WIDTH.
Definition TERM_ROWS : Z := FB_HEIGHT / FONT_HEIGHT.

Definition FB_COLOR_BLACK : Z := 0xFF000000.
Definition FB_COLOR_WHITE : Z := 0xFFFFFFFF.

Record framebuffer := Mk_fb {
  fb_address : Z;              (* 0 is NULL *)
  fb_width : Z; fb_height : Z; fb_pitch : Z; fb_bpp : Z;
  cursor_x : Z; cursor_y : Z;
  fg_color : Z; bg_color : Z;
  fb_mem : Z -> Z
}.

(** The static variables before [framebuffer_init]. *)
Definition fb_static (m : Z -> Z) : framebuffer := Mk_fb 0 0 0 0 0 0 0 FB_COLOR_WHITE FB_COLOR_BLACK m.

Definition with_fb_mem (s : framebuffer) (m : Z -> Z) : framebuffer :=
  Mk_fb (fb_address s) (fb_width s) (fb_height s) (fb_pitch s) (fb_bpp s) (cursor_x s) (cursor_y s) (fg_color s) (bg_color s) m.
Definition with_cursor (s : framebuffer) (x y : Z) : framebuffer :=
  Mk_fb (fb_address s) (fb_width s) (fb_height s) (fb_pitch s) (fb_bpp s) x y (fg_color s) (bg_color s) (fb_mem s).

Record multiboot_framebuffer_info_t := Mk_fb_info {
  framebuffer_addr : Z; framebuffer_pitch : Z; framebuffer_width : Z; framebuffer_height : Z; framebuffer_bpp : Z; framebuffer_type : Z
}.

(** * The driver *)

Definition framebuffer_available (s : framebuffer) : bool := negb (fb_address s =? 0).

(** [(uint8_t* )fb_address + y * fb_pitch + x * (fb_bpp / 8)]: the product with the pitch
    is unsigned, and so is the sum of a pointer and it. *)
Definition pixel_address (s : framebuffer) (x y : Z) : Z := u32 (fb_address s + u32 (y * fb_pitch s) + x * (fb_bpp s / 8)).

Definition fb_set_pixel (x y color : Z) (s : framebuffer) : framebuffer :=
  if (x <? 0) || (s32 (fb_width s) <=? x) || (y <? 0) || (s32 (fb_height s) <=? y) then s
  else with_fb_mem s (store32 (fb_mem s) (pixel_address s x y) color).

Definition fb_draw_char (c x y fg bg : Z) (s : framebuffer) : framebuffer :=
  rounds 0 16 (fun row s =>
    let line := glyph (u8 c) row in
    rounds 0 8 (fun col s =>
      let pixel_x := x * FONT_WIDTH + col in
      let pixel_y := y * FONT_HEIGHT + row in
      if negb (Z.land line (Z.shiftr 128 col) =? 0) then fb_set_pixel pixel_x pixel_y fg s
      else fb_set_pixel pixel_x pixel_y bg s) s) s.

Definition framebuffer_clear (s : framebuffer) : framebuffer :=
  if fb_address s =? 0 then s
  else
    let s := rounds 0 (Z.to_nat (fb_height s)) (fun y s =>
               rounds 0 (Z.to_nat (fb_width s)) (fun x s => fb_set_pixel (s32 x) (s32 y) (bg_color s) s) s) s in
    with_cursor s 0 0.

Definition copy_pixel (x src_y dst_y : Z) (s : framebuffer) : framebuffer :=
  with_fb_mem s (store32 (fb_mem s) (pixel_address s x dst_y) (load32 (fb_mem s) (pixel_address s x src_y))).

Definition framebuffer_scroll (s : framebuffer) : framebuffer :=
  if fb_address s =? 0 then s
  else
    let s := rounds 0 (Z.to_nat (TERM_ROWS - 1)) (fun y =>
               rounds 0 (Z.to_nat TERM_COLS) (fun x =>
                 rounds 0 16 (fun row =>
                   rounds 0 8 (fun col => copy_pixel (x * FONT_WIDTH + col) ((y + 1) * FONT_HEIGHT + row) (y * FONT_HEIGHT + row))))) s in
    rounds 0 (Z.to_nat TERM_COLS) (fun x s => fb_draw_char 32 x (TERM_ROWS - 1) (fg_color s) (bg_color s) s) s.

(** [c] is a byte: the characters compared are below 128. *)
Definition framebuffer_putchar (c : Z) (s : framebuffer) : framebuffer :=
  if fb_address s =? 0 then s
  else
    let s :=
      if c =? 10 then with_cursor s 0 (cursor_y s + 1)
      else if c =? 13 then with_cursor s 0 (cursor_y s)
      else if c =? 9 then with_cursor s (Z.land (cursor_x s + 8) (-8)) (cursor_y s)
      else if c =? 8 then
        if 0 <? cursor_x s then
          let s := with_cursor s (cursor_x s - 1) (cursor_y s) in
          fb_draw_char 32 (cursor_x s) (cursor_y s) (fg_color s) (bg_color s) s
        else s
      else
        let s := fb_draw_char c (cursor_x s) (cursor_y s) (fg_color s) (bg_color s) s in
        with_cursor s (cursor_x s + 1) (cursor_y s) in
    let s := if TERM_COLS <=? cursor_x s then with_cursor s 0 (cursor_y s + 1) else s in
    if TERM_ROWS <=? cursor_y s then
      let s := framebuffer_scroll s in with_cursor s (cursor_x s) (TERM_ROWS - 1)
    else s.

(** [None]: the string has no terminator. *)
Fixpoint framebuffer_write_string (str : buf) (s : framebuffer) : option framebuffer :=
  match str with
  | [] => None
  | c :: str' => if c =? 0 then Some s else framebuffer_write_string str' (framebuffer_putchar c s)
  end.

Definition framebuffer_set_color (fg bg : Z) (s : framebuffer) : framebuffer :=
  Mk_fb (fb_address s) (fb_width s) (fb_height s) (fb_pitch s) (fb_bpp s) (cursor_x s) (cursor_y s) (u32 fg) (u32 bg) (fb_mem s).

Definition framebuffer_get_cursor (s : framebuffer) : Z * Z := (cursor_x s, cursor_y s).

Definition framebuffer_set_cursor (x y : Z) (s : framebuffer) : framebuffer :=
  let s := if (0 <=? x) && (x <? TERM_COLS) then with_cursor s x (cursor_y s) else s in
  if (0 <=? y) && (y <? TERM_ROWS) then with_cursor s (cursor_x s) y else s.

Definition framebuffer_init (fb_info : option multiboot_framebuffer_info_t) (s : framebuffer) : framebuffer :=
  match fb_info with
  | None => s
  | Some i => framebuffer_clear (Mk_fb (framebuffer_addr i) (framebuffer_width i) (framebuffer_height i) (framebuffer_pitch i) (framebuffer_bpp i)
                                       0 0 (fg_color s) (bg_color s) (fb_mem s))
  end.

(** * display.c in the frame-buffer build *)

Definition color_map : list Z :=
  [0xFF000000; 0xFF0000AA; 0xFF00AA00; 0xFF00AAAA; 0xFFAA0000; 0xFFAA00AA; 0xFFAA5500; 0xFFAAAAAA;
   0xFF555555; 0xFF5555FF; 0xFF55FF55; 0xFF55FFFF; 0xFFFF5555; 0xFFFF55FF; 0xFFFFFF55; 0xFFFFFFFF].
Definition vga_to_fb_color (vga_color : Z) : Z := nth (Z.to_nat (Z.land vga_color 15)) color_map 0.

Definition fb_display_init (s : framebuffer) : framebuffer := if framebuffer_available s then framebuffer_clear s else s.
Definition fb_display_clear (s : framebuffer) : framebuffer := framebuffer_clear s.
Definition fb_display_putchar (c : Z) (s : framebuffer) : framebuffer := framebuffer_putchar c s.
Definition fb_display_write (str : buf) (s : framebuffer) : option framebuffer := framebuffer_write_string str s.
Definition fb_display_backspace (s : framebuffer) : framebuffer := framebuffer_putchar 8 s.
Definition fb_display_get_cursor (s : framebuffer) : Z * Z := framebuffer_get_cursor s.
Definition fb_display_set_cursor (x y : Z) (s : framebuffer) : framebuffer := framebuffer_set_cursor x y s.
(** [color] is a signed char: the shift keeps its sign, the mask drops it. *)
Definition fb_display_set_color (color : Z) (s : framebuffer) : framebuffer :=
  framebuffer_set_color (vga_to_fb_color (Z.land (s8 color) 15)) (vga_to_fb_color (Z.land (Z.shiftr (s8 color) 4) 15)) s.

(** * The specification: a grid of characters *)

(** A character with its two colours, and a console: the cells by column and row, the
    cursor and the colours in use. *)
Record cell_t := Mk_cell { ch_code : Z; ch_fg : Z; ch_bg : Z }.
Record tty := Mk_tty { t_cells : Z -> Z -> cell_t; t_x : Z; t_y : Z; t_fg : Z; t_bg : Z }.

Definition t_blank (t : tty) : cell_t := Mk_cell 32 (t_fg t) (t_bg t).
Definition t_move (t : tty) (x y : Z) : tty := Mk_tty (t_cells t) x y (t_fg t) (t_bg t).
Definition t_put (t : tty) (x y : Z) (c : cell_t) : tty :=
  Mk_tty (fun i j => if (i =? x) && (j =? y) then c else t_cells t i j) (t_x t) (t_y t) (t_fg t) (t_bg t).
(** Every line one up, and a blank one at the bottom. *)
Definition t_scroll (t : tty) : tty :=
  Mk_tty (fun i j => if j <? 47 then t_cells t i (j + 1) else t_blank t) (t_x t) (t_y t) (t_fg t) (t_bg t).
Definition t_clear (t : tty) : tty := Mk_tty (fun _ _ => t_blank t) 0 0 (t_fg t) (t_bg t).

(** The end of a line, and the end of the screen. *)
Definition t_wrap (t : tty) : tty :=
  let t := if 128 <=? t_x t then t_move t 0 (t_y t + 1) else t in
  if 48 <=? t_y t then t_move (t_scroll t) (t_x t) 47 else t.

Definition t_char (c : Z) (t : tty) : tty :=
  t_wrap (match c with
          | 10 => t_move t 0 (t_y t + 1)
          | 13 => t_move t 0 (t_y t)
          | 9 => t_move t (8 * (t_x t / 8 + 1)) (t_y t)
          | 8 => if 0 <? t_x t then t_put (t_move t (t_x t - 1) (t_y t)) (t_x t - 1) (t_y t) (t_blank t) else t
          | _ => t_move (t_put t (t_x t) (t_y t) (Mk_cell c (t_fg t) (t_bg t))) (t_x t + 1) (t_y t)
          end).
Fixpoint t_text (text : buf) (t : tty) : tty :=
  match text with [] => t | c :: text' => t_text text' (t_char c t) end.

(** The colour of a pixel of a character: the bit of the glyph, the leftmost highest. *)
Definition cell_pixel (c : cell_t) (row col : Z) : Z := if Z.testbit (glyph (ch_code c) row) (7 - col) then ch_fg c else ch_bg c.

(** The pixel [row], [col] of the cell [X], [Y] in the memory. *)
Definition pixel_of (s : framebuffer) (X Y row col : Z) : Z := load32 (fb_mem s) (fb_address s + (16 * Y + row) * fb_pitch s + 4 * (8 * X + col)).

Definition in_cell (row col : Z) : Prop := 0 <= row < 16 /\ 0 <= col < 8.
Definition on_grid (X Y : Z) : Prop := 0 <= X < 128 /\ 0 <= Y < 48.

(** The layout of 32-bit pixels whose lines do not overlap, and the mode of 1024 by 768. *)
Definition layout_ok (s : framebuffer) : Prop :=
  fb_bpp s = 32 /\ 4096 <= fb_pitch s /\ 0 < fb_address s /\ fb_address s + 768 * fb_pitch s <= 2 ^ 32.
Definition mode_ok (s : framebuffer) : Prop := layout_ok s /\ fb_width s = 1024 /\ fb_height s = 768.

(** The memory that is not of the frame buffer is left alone. *)
Definition rest_same (s s' : framebuffer) : Prop :=
  forall a, a < fb_address s \/ fb_address s + 768 * fb_pitch s <= a -> fb_mem s' a = fb_mem s a.

Definition colors_ok (s : framebuffer) : Prop := 0 <= fg_color s < 2 ^ 32 /\ 0 <= bg_color s < 2 ^ 32.

(** The pixels are those of the console [t]; its cursor is on the grid between two characters. *)
Record paints (s : framebuffer) (t : tty) : Prop := {
  paints_mode : mode_ok s;
  paints_colors : colors_ok s;
  paints_cursor : cursor_x s = t_x t /\ cursor_y s = t_y t;
  paints_color : fg_color s = t_fg t /\ bg_color s = t_bg t;
  paints_pixels : forall X Y row col, on_grid X Y -> in_cell row col -> pixel_of s X Y row col = cell_pixel (t_cells t X Y) row col
}.
Definition shows (s : framebuffer) (t : tty) : Prop := paints s t /\ on_grid (t_x t) (t_y t).

(** * Loops and pixels *)

(** The pixels that a step has drawn: the memory alone has changed, inside the frame
    buffer, and [f] gives the pixels of the cells. *)
Record drawn (s s' : framebuffer) (f : Z -> Z -> Z -> Z -> Z) : Prop := {
  drawn_frame : s' = with_fb_mem s (fb_mem s');
  drawn_rest : rest_same s s';
  drawn_pixels : forall X Y row col, on_grid X Y -> in_cell row col -> pixel_of s' X Y row col = f X Y row col
}.

Lemma drawn_refl s : drawn s s (pixel_of s).
Proof. split; [by destruct s|by intros a _|done]. Qed.

Lemma drawn_ext s s' f g : drawn s s' f -> (forall X Y row col, on_grid X Y -> in_cell row col -> f X Y row col = g X Y row col) -> drawn s s' g.
Proof. intros [Hf Hr Hp] E. split; [done|done|]. intros. rewrite Hp by done. by apply E. Qed.

Lemma drawn_fields s s' f : drawn s s' f ->
  fb_address s' = fb_address s /\ fb_width s' = fb_width s /\ fb_height s' = fb_height s /\ fb_pitch s' = fb_pitch s /\ fb_bpp s' = fb_bpp s /\
  cursor_x s' = cursor_x s /\ cursor_y s' = cursor_y s /\ fg_color s' = fg_color s /\ bg_color s' = bg_color s.
Proof. intros [Hf _ _]. rewrite Hf. done. Qed.

Lemma fb_drawn_trans s s1 s2 f g : drawn s s1 f -> drawn s1 s2 g -> drawn s s2 g.
Proof.
  intros H1 H2. pose proof (drawn_fields _ _ _ H1) as (Ea & _ & _ & Ep & _). destruct H1 as [F1 R1 _], H2 as [F2 R2 P2]. split; [by rewrite F2, F1| |done].
  intros a Ha. rewrite R2 by (rewrite Ea, Ep; exact Ha). by apply R1.
Qed.

Lemma drawn_layout s s' f : drawn s s' f -> layout_ok s -> layout_ok s'.
Proof. intros Hd. pose proof (drawn_fields _ _ _ Hd) as (Ea & _ & _ & Ep & Eb & _). unfold layout_ok. by rewrite Ea, Ep, Eb. Qed.
Lemma drawn_mode s s' f : drawn s s' f -> mode_ok s -> mode_ok s'.
Proof. intros Hd [Hl Hm]. split; [by apply (drawn_layout _ _ _ Hd)|]. pose proof (drawn_fields _ _ _ Hd) as (_ & Ew & Eh & _). by rewrite Ew, Eh. Qed.

(** The pixels with one replaced. *)
Definition set_px (f : Z -> Z -> Z -> Z -> Z) (X Y row col v : Z) : Z -> Z -> Z -> Z -> Z :=
  fun X' Y' row' col' => if (X' =? X) && (Y' =? Y) && (row' =? row) && (col' =? col) then v else f X' Y' row' col'.

Lemma address_ok s X Y row col : layout_ok s -> on_grid X Y -> in_cell row col ->
  pixel_address s (X * 8 + col) (Y * 16 + row) = fb_address s + (16 * Y + row) * fb_pitch s + 4 * (8 * X + col).
Proof.
  intros (Hb & Hp & Ha & He) [HX HY] [Hr Hc]. unfold pixel_address. rewrite Hb. change (32 / 8) with 4.
  assert (0 <= (Y * 16 + row) * fb_pitch s <= 767 * fb_pitch s) by nia.
  rewrite (wrap_small 32 ((Y * 16 + row) * fb_pitch s)) by lia. rewrite wrap_small by lia. lia.
Qed.

Lemma store_pixel_ok s X Y row col v : layout_ok s -> on_grid X Y -> in_cell row col -> 0 <= v < 2 ^ 32 ->
  drawn s (with_fb_mem s (store32 (fb_mem s) (pixel_address s (X * 8 + col) (Y * 16 + row)) v)) (set_px (pixel_of s) X Y row col v).
Proof.
  intros Hl HG HC Hv. rewrite (address_ok s) by done. destruct Hl as (Hb & Hp & Ha & He), HG as [HX HY], HC as [Hr Hc].
  split; [done| |].
  - intros a Hout. cbn. apply store32_out. assert (0 <= (16 * Y + row) * fb_pitch s <= 767 * fb_pitch s) by nia. lia.
  - intros X' Y' row' col' [HX' HY'] [Hr' Hc']. unfold pixel_of, set_px. cbn [fb_mem fb_address fb_pitch with_fb_mem].
    destruct ((X' =? X) && (Y' =? Y) && (row' =? row) && (col' =? col)) eqn:E.
    + repeat (apply andb_prop in E as [E ?]). replace X' with X by lia. replace Y' with Y by lia. replace row' with row by lia. replace col' with col by lia.
      by apply load_store_same.
    + apply load_store_other. assert (16 * Y' + row' <> 16 * Y + row \/ 8 * X' + col' <> 8 * X + col) as Hne.
      { destruct (decide (16 * Y' + row' = 16 * Y + row)); [right|by left]. intros E2. assert (X' = X /\ Y' = Y /\ row' = row /\ col' = col) as (-> & -> & -> & ->) by lia.
        rewrite !Z.eqb_refl in E. done. }
      clear E. set (u := 16 * Y' + row') in *. set (v' := 16 * Y + row) in *. set (p := fb_pitch s) in *. destruct (Z.lt_trichotomy u v') as [Hlt|[Heq|Hgt]]; [right|subst u; rewrite Heq; lia|left].
      * assert (u * p + p <= v' * p) by nia. lia.
      * assert (v' * p + p <= u * p) by nia. lia.
Qed.

(** ** A cell, a line of cells, lines *)

Definition cell_drawn (f : Z -> Z -> Z -> Z -> Z) (X Y : Z) (V : Z -> Z -> Z) : Z -> Z -> Z -> Z -> Z :=
  fun X' Y' row col => if (X' =? X) && (Y' =? Y) then V row col else f X' Y' row col.

(** [s'] shows the pixels of [s] except in the cell [X], [Y]. *)
Definition but_cell (s s' : framebuffer) (X Y : Z) : Prop :=
  exists f, drawn s s' f /\ forall X' Y' row col, (X' =? X) && (Y' =? Y) = false -> f X' Y' row col = pixel_of s X' Y' row col.

Lemma cell_loop s X Y V (body : Z -> Z -> framebuffer -> framebuffer) : on_grid X Y ->
  (forall row col s', in_cell row col -> but_cell s s' X Y -> drawn s' (body row col s') (set_px (pixel_of s') X Y row col (V row col))) ->
  drawn s (rounds 0 16 (fun row s => rounds 0 8 (fun col s => body row col s) s) s) (cell_drawn (pixel_of s) X Y V).
Proof.
  intros HG Hbody.
  set (done_to := fun r c X' Y' row col => if (X' =? X) && (Y' =? Y) && ((row <? r) || ((row =? r) && (col <? c))) then V row col else pixel_of s X' Y' row col).
  assert (forall r s', 0 <= r < 16 -> drawn s s' (done_to r 0) -> drawn s (rounds 0 8 (fun col s => body r col s) s') (done_to r 8)) as Hrow.
  { intros r s' Hr Hs. apply (rounds_rule (fun c s' => drawn s s' (done_to r c))); [done|]. intros c s1 Hc H1. change (0 <= c < 8) in Hc.
    pose proof (Hbody r c s1 (conj Hr Hc)) as Hd. eapply fb_drawn_trans; [exact H1|]. eapply drawn_ext; [apply Hd|].
    - exists (done_to r c). split; [done|]. intros X' Y' row col E. unfold done_to. by rewrite E.
    - intros X' Y' row col HG' HC'. unfold set_px. rewrite (drawn_pixels _ _ _ H1) by done. unfold done_to.
      destruct ((X' =? X) && (Y' =? Y)); cbn [andb]; [|done]. destruct (Z.ltb_spec row r), (Z.eqb_spec row r), (Z.eqb_spec col c), (Z.ltb_spec col c), (Z.ltb_spec col (c + 1)); subst; cbn; try done; lia. }
  eapply drawn_ext; [apply (rounds_rule (fun r s' => drawn s s' (done_to r 0)))|].
  - eapply drawn_ext; [apply drawn_refl|]. intros X' Y' row col _ [Hr Hc]. unfold done_to. destruct (Z.ltb_spec row 0), (Z.ltb_spec col 0); try lia. by rewrite andb_false_r, andb_false_r.
  - intros r s1 Hr H1. eapply drawn_ext; [by apply Hrow|]. intros X' Y' row col _ [_ Hc]. unfold done_to.
    destruct (Z.ltb_spec row r), (Z.eqb_spec row r), (Z.ltb_spec col 8), (Z.ltb_spec row (r + 1)), (Z.ltb_spec col 0); try lia; cbn; try done; by rewrite ?andb_false_r.
  - intros X' Y' row col _ [Hr Hc]. unfold done_to, cell_drawn. change (0 + Z.of_nat 16) with 16. destruct (Z.ltb_spec row 16); [|lia]. cbn. by rewrite andb_true_r.
Qed.

(** A line of 128 cells from left to right. *)
Definition set_line (f : Z -> Z -> Z -> Z -> Z) (Y : Z) (V : Z -> Z -> Z -> Z) : Z -> Z -> Z -> Z -> Z :=
  fun X' Y' row col => if Y' =? Y then V X' row col else f X' Y' row col.

Definition but_line (s s' : framebuffer) (Y : Z) : Prop :=
  exists f, drawn s s' f /\ forall X' Y' row col, Y' <> Y -> f X' Y' row col = pixel_of s X' Y' row col.

Lemma line_loop s Y V (body : Z -> framebuffer -> framebuffer) : 0 <= Y < 48 ->
  (forall x s', 0 <= x < 128 -> but_line s s' Y -> drawn s' (body x s') (cell_drawn (pixel_of s') x Y (V x))) ->
  drawn s (rounds 0 128 body s) (set_line (pixel_of s) Y V).
Proof.
  intros HY Hbody.
  set (done_to := fun x X' Y' row col => if (Y' =? Y) && (X' <? x) then V X' row col else pixel_of s X' Y' row col).
  eapply drawn_ext; [apply (rounds_rule (fun x s' => drawn s s' (done_to x)))|].
  - eapply drawn_ext; [apply drawn_refl|]. intros X' Y' row col [HX _] _. unfold done_to. destruct (Z.ltb_spec X' 0); [lia|]. by rewrite andb_false_r.
  - intros x s1 Hx H1. change (0 <= x < 128) in Hx. eapply fb_drawn_trans; [exact H1|]. eapply drawn_ext; [apply Hbody; [lia|]|].
    + exists (done_to x). split; [done|]. intros X' Y' row col E. unfold done_to. destruct (Z.eqb_spec Y' Y); [lia|done].
    + intros X' Y' row col HG HC. unfold cell_drawn. rewrite (drawn_pixels _ _ _ H1) by done. unfold done_to.
      destruct (Z.eqb_spec Y' Y), (Z.eqb_spec X' x), (Z.ltb_spec X' x), (Z.ltb_spec X' (x + 1)); subst; cbn; try done; lia.
  - intros X' Y' row col [HX _] _. unfold done_to, set_line. change (0 + Z.of_nat 128) with 128. destruct (Z.ltb_spec X' 128); [|lia]. by rewrite andb_true_r.
Qed.

Lemma but_cell_layout s s' X Y : but_cell s s' X Y -> layout_ok s -> layout_ok s'.
Proof. intros (f & Hd & _). by apply (drawn_layout _ _ _ Hd). Qed.
Lemma but_cell_mode s s' X Y : but_cell s s' X Y -> mode_ok s -> mode_ok s'.
Proof. intros (f & Hd & _). by apply (drawn_mode _ _ _ Hd). Qed.

(** * What the driver draws *)

Lemma set_pixel_ok s X Y row col v : mode_ok s -> on_grid X Y -> in_cell row col -> 0 <= v < 2 ^ 32 ->
  drawn s (fb_set_pixel (X * 8 + col) (Y * 16 + row) v s) (set_px (pixel_of s) X Y row col v).
Proof.
  intros (Hl & Hw & Hh) HG HC Hv. unfold fb_set_pixel. rewrite Hw, Hh. change (s32 1024) with 1024. change (s32 768) with 768.
  destruct HG as [HX HY], HC as [Hr Hc].
  destruct (Z.ltb_spec (X * 8 + col) 0), (Z.leb_spec 1024 (X * 8 + col)), (Z.ltb_spec (Y * 16 + row) 0), (Z.leb_spec 768 (Y * 16 + row)); try lia.
  cbn [orb]. by apply store_pixel_ok.
Qed.

(** The bit that the mask picks. *)
Lemma glyph_bit line col : 0 <= col < 8 -> negb (Z.land line (Z.shiftr 128 col) =? 0) = Z.testbit line (7 - col).
Proof.
  intros Hc. assert (Z.shiftr 128 col = 2 ^ (7 - col)) as ->.
  { rewrite Z.shiftr_div_pow2 by lia. change 128 with (2 ^ 7). rewrite <- Z.pow_sub_r by lia. done. }
  destruct (Z.testbit line (7 - col)) eqn:E.
  - apply negb_true_iff, Z.eqb_neq. intros E0. assert (Z.testbit (Z.land line (2 ^ (7 - col))) (7 - col) = true) as Ht by (rewrite Z.land_spec, Z.pow2_bits_true, E by lia; done).
    rewrite E0, Z.bits_0 in Ht. done.
  - apply negb_false_iff, Z.eqb_eq. apply Z.bits_inj'. intros k Hk. rewrite Z.land_spec, Z.bits_0. destruct (decide (k = 7 - col)) as [->|Hne].
    + by rewrite E.
    + rewrite Z.pow2_bits_false by lia. apply andb_false_r.
Qed.

Lemma draw_char_ok s c X Y fg bg : mode_ok s -> on_grid X Y -> byte_ok c -> 0 <= fg < 2 ^ 32 -> 0 <= bg < 2 ^ 32 ->
  drawn s (fb_draw_char c X Y fg bg s) (cell_drawn (pixel_of s) X Y (cell_pixel (Mk_cell c fg bg))).
Proof.
  intros Hm HG Hc Hfg Hbg. unfold fb_draw_char, FONT_WIDTH, FONT_HEIGHT.
  apply (cell_loop s X Y (cell_pixel (Mk_cell c fg bg)) (fun row col s => if negb (Z.land (glyph (u8 c) row) (Z.shiftr 128 col) =? 0) then fb_set_pixel (X * 8 + col) (Y * 16 + row) fg s else fb_set_pixel (X * 8 + col) (Y * 16 + row) bg s)); [done|].
  intros row col s' [Hr Hcl] Hb. rewrite wrap_small by exact Hc. rewrite glyph_bit by done. unfold cell_pixel. cbn [ch_code ch_fg ch_bg].
  destruct (Z.testbit _ _); apply set_pixel_ok; try done; by apply (but_cell_mode _ _ _ _ Hb).
Qed.

Lemma copy_pixel_ok s X Y row col : layout_ok s -> on_grid X Y -> Y < 47 -> in_cell row col ->
  drawn s (copy_pixel (X * 8 + col) ((Y + 1) * 16 + row) (Y * 16 + row) s) (set_px (pixel_of s) X Y row col (pixel_of s X (Y + 1) row col)).
Proof.
  intros Hl [HX HY] HY' HC. unfold copy_pixel. rewrite (address_ok s X (Y + 1)) by (try done; split; lia).
  apply store_pixel_ok; [done|done|done|apply load32_range].
Qed.

Lemma copy_cell_ok s X Y : layout_ok s -> on_grid X Y -> Y < 47 ->
  drawn s (rounds 0 16 (fun row => rounds 0 8 (fun col => copy_pixel (X * 8 + col) ((Y + 1) * 16 + row) (Y * 16 + row))) s)
          (cell_drawn (pixel_of s) X Y (pixel_of s X (Y + 1))).
Proof.
  intros Hl HG HY. apply (cell_loop s X Y _ (fun row col => copy_pixel (X * 8 + col) ((Y + 1) * 16 + row) (Y * 16 + row))); [done|].
  intros row col s' HC (f & Hd & Ho). eapply drawn_ext; [apply copy_pixel_ok; try done; by apply (drawn_layout _ _ _ Hd)|].
  intros X' Y' row' col' HG' HC'. unfold set_px. destruct (_ && _); [|done]. rewrite (drawn_pixels _ _ _ Hd) by (try done; destruct HG; split; lia).
  apply Ho. destruct (Z.eqb_spec (Y + 1) Y); [lia|]. apply andb_false_r.
Qed.

Lemma copy_line_ok s Y : layout_ok s -> 0 <= Y < 47 ->
  drawn s (rounds 0 128 (fun x => rounds 0 16 (fun row => rounds 0 8 (fun col => copy_pixel (x * 8 + col) ((Y + 1) * 16 + row) (Y * 16 + row)))) s)
          (set_line (pixel_of s) Y (fun x => pixel_of s x (Y + 1))).
Proof.
  intros Hl HY. apply line_loop; [lia|]. intros x s' Hx (f & Hd & Ho).
  eapply drawn_ext; [apply copy_cell_ok; [by apply (drawn_layout _ _ _ Hd)|split; lia|lia]|].
  intros X' Y' row col HG' HC'. unfold cell_drawn. destruct (_ && _); [|done]. rewrite (drawn_pixels _ _ _ Hd) by (try done; split; lia). apply Ho. lia.
Qed.

(** The lines 1 to 47 moved up. *)
Definition moved_up (f : Z -> Z -> Z -> Z -> Z) : Z -> Z -> Z -> Z -> Z := fun X Y => if Y <? 47 then f X (Y + 1) else f X Y.

Lemma copy_lines_ok s : layout_ok s ->
  drawn s (rounds 0 47 (fun y => rounds 0 128 (fun x => rounds 0 16 (fun row => rounds 0 8 (fun col => copy_pixel (x * 8 + col) ((y + 1) * 16 + row) (y * 16 + row))))) s)
          (moved_up (pixel_of s)).
Proof.
  intros Hl. set (done_to := fun y X' Y' => if Y' <? y then pixel_of s X' (Y' + 1) else pixel_of s X' Y').
  apply (rounds_rule (fun y s' => drawn s s' (done_to y))).
  - eapply drawn_ext; [apply drawn_refl|]. intros X Y row col [_ HY] _. unfold done_to. destruct (Z.ltb_spec Y 0); [lia|done].
  - intros y s1 Hy H1. change (0 <= y < 47) in Hy. eapply fb_drawn_trans; [exact H1|]. eapply drawn_ext; [apply copy_line_ok; [by apply (drawn_layout _ _ _ H1)|lia]|].
    intros X Y row col HG HC. unfold set_line. destruct (Z.eqb_spec Y y) as [->|Hne]; rewrite (drawn_pixels _ _ _ H1) by (try done; destruct HG; split; lia); unfold done_to.
    + destruct (Z.ltb_spec (y + 1) y), (Z.ltb_spec y (y + 1)); try lia; done.
    + destruct (Z.ltb_spec Y y), (Z.ltb_spec Y (y + 1)); try lia; done.
Qed.

Lemma scroll_ok s : mode_ok s -> colors_ok s ->
  drawn s (framebuffer_scroll s) (fun X Y => if Y <? 47 then pixel_of s X (Y + 1) else cell_pixel (Mk_cell 32 (fg_color s) (bg_color s))).
Proof.
  intros Hm [Hfg Hbg]. pose proof Hm as ((_ & _ & Ha & _) & _). unfold framebuffer_scroll. destruct (Z.eqb_spec (fb_address s) 0); [lia|].
  change (Z.to_nat (TERM_ROWS - 1)) with 47%nat. change (Z.to_nat TERM_COLS) with 128%nat. change FONT_WIDTH with 8. change FONT_HEIGHT with 16. change (TERM_ROWS - 1) with 47.
  cbv zeta. pose proof (copy_lines_ok s (proj1 Hm)) as Hc. revert Hc. generalize (rounds 0 47 (fun y : Z => rounds 0 128 (fun x => rounds 0 16 (fun row => rounds 0 8 (fun col => copy_pixel (x * 8 + col) ((y + 1) * 16 + row) (y * 16 + row))))) s).
  intros s1 Hc. pose proof (drawn_fields _ _ _ Hc) as (_ & _ & _ & _ & _ & _ & _ & Ef & Eb). eapply fb_drawn_trans; [exact Hc|].
  eapply drawn_ext; [apply (line_loop s1 47 (fun _ => cell_pixel (Mk_cell 32 (fg_color s) (bg_color s)))); [lia|]|].
  - intros x s' Hx (f & Hd & _). pose proof (drawn_fields _ _ _ Hd) as (_ & _ & _ & _ & _ & _ & _ & Ef' & Eb'). rewrite Ef', Eb', Ef, Eb.
    apply draw_char_ok; try done. apply (drawn_mode _ _ _ Hd). by apply (drawn_mode _ _ _ Hc).
  - intros X Y row col [HX HY] HC. unfold set_line. destruct (Z.eqb_spec Y 47) as [->|]; [done|]. rewrite (drawn_pixels _ _ _ Hc) by (try done; by split). unfold moved_up.
    destruct (Z.ltb_spec Y 47); [done|lia].
Qed.

(** Every pixel of a clear screen has the background colour, which is what a space looks like. *)
Lemma space_pixel fg bg row col : in_cell row col -> cell_pixel (Mk_cell 32 fg bg) row col = bg.
Proof. intros [Hr Hc]. unfold cell_pixel. cbn [ch_code ch_fg ch_bg]. by rewrite space_blank, Z.bits_0 by done. Qed.

Lemma clear_ok s : mode_ok s -> colors_ok s -> exists s1, framebuffer_clear s = with_cursor s1 0 0 /\ drawn s s1 (fun _ _ _ _ => bg_color s).
Proof.
  intros Hm [_ Hbg]. pose proof Hm as ((_ & _ & Ha & _) & Hw & Hh). unfold framebuffer_clear. destruct (Z.eqb_spec (fb_address s) 0); [lia|].
  eexists. split; [reflexivity|]. rewrite Hh. change (Z.to_nat 768) with 768%nat.
  set (done_to := fun y x X Y row col => if (16 * Y + row <? y) || ((16 * Y + row =? y) && (8 * X + col <? x)) then bg_color s else pixel_of s X Y row col).
  eapply drawn_ext; [apply (rounds_rule (fun y s' => drawn s s' (done_to y 0)))|].
  - eapply drawn_ext; [apply drawn_refl|]. intros X Y row col [HX HY] [Hr Hc]. unfold done_to. destruct (Z.ltb_spec (16 * Y + row) 0), (Z.ltb_spec (8 * X + col) 0); try lia. by rewrite andb_false_r.
  - intros y s1 Hy H1. change (0 <= y < 768) in Hy. pose proof (drawn_fields _ _ _ H1) as (_ & Ew & _). rewrite Ew, Hw. change (Z.to_nat 1024) with 1024%nat.
    eapply drawn_ext; [apply (rounds_rule (fun x s' => drawn s s' (done_to y x))); [exact H1|]|].
    + intros x s2 Hx H2. change (0 <= x < 1024) in Hx. pose proof (drawn_fields _ _ _ H2) as (_ & _ & _ & _ & _ & _ & _ & _ & Eb). rewrite Eb.
      rewrite !swrap_small by lia.
      pose proof (Z.div_mod x 8) as Dx. pose proof (Z.div_mod y 16) as Dy. pose proof (Z.mod_pos_bound x 8) as Bx. pose proof (Z.mod_pos_bound y 16) as By.
      replace x with (x / 8 * 8 + x mod 8) at 1 by lia. replace y with (y / 16 * 16 + y mod 16) at 1 by lia.
      eapply fb_drawn_trans; [exact H2|]. eapply drawn_ext; [apply set_pixel_ok; [by apply (drawn_mode _ _ _ H2)|split; lia|split; lia|done]|].
      intros X Y row col HG HC. unfold set_px. rewrite (drawn_pixels _ _ _ H2) by done. unfold done_to. destruct HG as [HX HY], HC as [Hr Hc].
      destruct (Z.eqb_spec X (x / 8)), (Z.eqb_spec Y (y / 16)), (Z.eqb_spec row (y mod 16)), (Z.eqb_spec col (x mod 8)), (Z.ltb_spec (16 * Y + row) y), (Z.eqb_spec (16 * Y + row) y), (Z.ltb_spec (8 * X + col) x), (Z.ltb_spec (8 * X + col) (x + 1)); cbn; try done; lia.
    + intros X Y row col [HX HY] [Hr Hc]. unfold done_to. change (0 + Z.of_nat 1024) with 1024. destruct (Z.ltb_spec (16 * Y + row) y), (Z.eqb_spec (16 * Y + row) y), (Z.ltb_spec (8 * X + col) 1024), (Z.ltb_spec (16 * Y + row) (y + 1)), (Z.ltb_spec (8 * X + col) 0); cbn; try done; try lia; by rewrite andb_false_r.
  - intros X Y row col [HX HY] [Hr Hc]. unfold done_to. change (0 + Z.of_nat 768) with 768. destruct (Z.ltb_spec (16 * Y + row) 768); [done|lia].
Qed.

(** * The console that the pixels show *)

Lemma paints_drawn s t s1 f x y t' : paints s t -> drawn s s1 f -> t_x t' = x -> t_y t' = y -> t_fg t' = t_fg t -> t_bg t' = t_bg t ->
  (forall X Y row col, on_grid X Y -> in_cell row col -> f X Y row col = cell_pixel (t_cells t' X Y) row col) -> paints (with_cursor s1 x y) t'.
Proof.
  intros [Hm Hc Hxy [Ef Eb] Hp] Hd Ex Ey Ef' Eb' E. pose proof (drawn_fields _ _ _ Hd) as (_ & _ & _ & _ & _ & _ & _ & Ef1 & Eb1). pose proof (drawn_mode _ _ _ Hd Hm) as Hm1.
  split; [exact Hm1| |by split| |].
  - unfold colors_ok. cbn. rewrite Ef1, Eb1. exact Hc.
  - cbn. by rewrite Ef1, Eb1, Ef', Eb'.
  - intros X Y row col HG HC. change (pixel_of (with_cursor s1 x y) X Y row col) with (pixel_of s1 X Y row col). rewrite (drawn_pixels _ _ _ Hd) by done. by apply E.
Qed.

Lemma paints_move s t x y : paints s t -> paints (with_cursor s x y) (t_move t x y).
Proof. intros Hs. apply (paints_drawn s t s (pixel_of s)); try done; [apply drawn_refl|]. intros. by apply (paints_pixels _ _ Hs). Qed.

Lemma paints_put s t c X Y x y : paints s t -> on_grid X Y -> byte_ok c ->
  paints (with_cursor (fb_draw_char c X Y (fg_color s) (bg_color s) s) x y) (t_move (t_put t X Y (Mk_cell c (t_fg t) (t_bg t))) x y) /\
  drawn s (fb_draw_char c X Y (fg_color s) (bg_color s) s) (cell_drawn (pixel_of s) X Y (cell_pixel (Mk_cell c (fg_color s) (bg_color s)))).
Proof.
  intros Hs HG Hc. pose proof (paints_color _ _ Hs) as [Ef Eb]. pose proof (paints_colors _ _ Hs) as [Hf Hb].
  pose proof (draw_char_ok s c X Y _ _ (paints_mode _ _ Hs) HG Hc Hf Hb) as Hd. split; [|done].
  apply (paints_drawn s t _ _ _ _ _ Hs Hd); try done. intros X' Y' row col HG' HC'. unfold cell_drawn. cbn [t_cells t_move t_put].
  destruct (_ && _); [by rewrite Ef, Eb|by apply (paints_pixels _ _ Hs)].
Qed.

(** What stays: the layout, and the memory outside the frame buffer. *)
Definition kept (s s' : framebuffer) : Prop := fb_address s' = fb_address s /\ fb_pitch s' = fb_pitch s /\ rest_same s s'.

Lemma fb_kept_trans s s1 s2 : kept s s1 -> kept s1 s2 -> kept s s2.
Proof.
  intros (Ea & Ep & R1) (Ea' & Ep' & R2). split_and!; [congruence|congruence|]. intros a Ha. rewrite R2 by (rewrite Ea, Ep; exact Ha). by apply R1.
Qed.
Lemma kept_drawn s s1 f x y : drawn s s1 f -> kept s (with_cursor s1 x y).
Proof. intros Hd. pose proof (drawn_fields _ _ _ Hd) as (Ea & _ & _ & Ep & _). split_and!; [done|done|exact (drawn_rest _ _ _ Hd)]. Qed.
Lemma kept_cursor s x y : kept s (with_cursor s x y).
Proof. apply (kept_drawn s s _ x y (drawn_refl s)). Qed.
#[local] Hint Resolve kept_cursor : core.

Lemma wrap_ok s t : paints s t -> 0 <= t_x t <= 128 -> 0 <= t_y t <= 48 -> t_y t < 48 \/ t_x t < 128 ->
  let s1 := if TERM_COLS <=? cursor_x s then with_cursor s 0 (cursor_y s + 1) else s in
  let s2 := if TERM_ROWS <=? cursor_y s1 then with_cursor (framebuffer_scroll s1) (cursor_x (framebuffer_scroll s1)) (TERM_ROWS - 1) else s1 in
  shows s2 (t_wrap t) /\ kept s s2.
Proof.
  intros Hs Hx Hy Hxy. cbv zeta. change TERM_COLS with 128. change TERM_ROWS with 48. unfold t_wrap. pose proof (paints_cursor _ _ Hs) as [-> ->].
  set (s1 := if 128 <=? t_x t then with_cursor s 0 (t_y t + 1) else s). set (t1 := if 128 <=? t_x t then t_move t 0 (t_y t + 1) else t).
  assert (paints s1 t1 /\ 0 <= t_x t1 < 128 /\ 0 <= t_y t1 <= 48 /\ kept s s1) as (H1 & Hx1 & Hy1 & K1).
  { subst s1 t1. destruct (Z.leb_spec 128 (t_x t)); [|by split_and!; try lia; destruct s]. split_and!; cbn; try lia; [by apply paints_move|done]. }
  pose proof (paints_cursor _ _ H1) as [_ ->]. destruct (Z.leb_spec 48 (t_y t1)) as [H48|].
  - pose proof (scroll_ok s1 (paints_mode _ _ H1) (paints_colors _ _ H1)) as Hd. pose proof (drawn_fields _ _ _ Hd) as (_ & _ & _ & _ & _ & Ex & _).
    change (48 - 1) with 47. split; [|eapply fb_kept_trans; [exact K1|by eapply kept_drawn]]. split; [|split; cbn; lia].
    apply (paints_drawn s1 t1 _ _ _ _ _ H1 Hd); try done; [by rewrite Ex, (proj1 (paints_cursor _ _ H1))|].
    intros X Y row col HG HC. cbn [t_cells t_move t_scroll]. pose proof (paints_color _ _ H1) as [Ef Eb].
    destruct (Z.ltb_spec Y 47); [|by rewrite Ef, Eb]. apply (paints_pixels _ _ H1); [destruct HG; split; lia|done].
  - split; [|done]. split; [done|]. split; lia.
Qed.

(** The mask of a tab stop. *)
Lemma tab_stop x : Z.land (x + 8) (-8) = 8 * (x / 8 + 1).
Proof.
  change (-8) with (Z.lnot (Z.ones 3)). rewrite <- Z.ldiff_land, Z.ldiff_ones_r by lia. rewrite Z.shiftl_mul_pow2, Z.shiftr_div_pow2 by lia.
  change (2 ^ 3) with 8. replace (x + 8) with (x + 1 * 8) by lia. rewrite Z.div_add by lia. lia.
Qed.

Lemma putchar_ok s t c : shows s t -> byte_ok c -> shows (framebuffer_putchar c s) (t_char c t) /\ kept s (framebuffer_putchar c s).
Proof.
  intros [Hs HG] Hc. pose proof (paints_mode _ _ Hs) as ((_ & _ & Ha & _) & _). unfold framebuffer_putchar. destruct (Z.eqb_spec (fb_address s) 0); [lia|].
  pose proof (paints_cursor _ _ Hs) as [Ex Ey]. unfold t_char. pose proof HG as [Gx Gy].
  match goal with |- context [t_wrap ?tt] => set (t1 := tt) end.
  match goal with |- context [if c =? 10 then ?a else ?b] => set (s1 := if c =? 10 then a else b) end.
  assert (paints s1 t1 /\ kept s s1 /\ 0 <= t_x t1 <= 128 /\ 0 <= t_y t1 <= 48 /\ (t_y t1 < 48 \/ t_x t1 < 128)) as (H1 & K1 & Hx1 & Hy1 & Hxy1).
  { subst s1 t1. rewrite Ex, Ey. cbn [cursor_x cursor_y fg_color bg_color with_cursor].
    destruct (Z.eqb_spec c 10) as [->|N10]; [split_and!; cbn [t_x t_y t_move t_put]; try lia; [by apply paints_move|done]|].
    destruct (Z.eqb_spec c 13) as [->|N13]; [split_and!; cbn [t_x t_y t_move t_put]; try lia; [by apply paints_move|done]|].
    destruct (Z.eqb_spec c 9) as [->|N9].
    { rewrite tab_stop. split_and!; cbn [t_x t_y t_move t_put]; try zlia; [by apply paints_move|done]. }
    destruct (Z.eqb_spec c 8) as [->|N8].
    { destruct (Z.ltb_spec 0 (t_x t)); [|split_and!; try lia; [done|by destruct s]].
      pose proof (paints_move s t (t_x t - 1) (t_y t) Hs) as Hm.
      destruct (paints_put _ _ 32 (t_x t - 1) (t_y t) (t_x t - 1) (t_y t) Hm) as [Hp Hd]; [split; lia|done|].
      cbn [fg_color bg_color with_cursor] in *. pose proof (drawn_fields _ _ _ Hd) as (_ & _ & _ & _ & _ & Ex1 & Ey1 & _). cbn [cursor_x cursor_y with_cursor] in Ex1, Ey1.
      assert (forall u, cursor_x u = t_x t - 1 -> cursor_y u = t_y t -> with_cursor u (t_x t - 1) (t_y t) = u) as Hsame by (intros [] ; cbn [cursor_x cursor_y]; intros -> ->; done).
      rewrite (Hsame _ Ex1 Ey1) in Hp. split_and!; cbn [t_x t_y t_move t_put]; try lia; [exact Hp|]. rewrite <- (Hsame _ Ex1 Ey1). eapply fb_kept_trans; [apply kept_cursor|by eapply kept_drawn]. }
    destruct (paints_put s t c (t_x t) (t_y t) (t_x t + 1) (t_y t) Hs HG Hc) as [Hp Hd]. pose proof (drawn_fields _ _ _ Hd) as (_ & _ & _ & _ & _ & Ex1 & Ey1 & _).
    rewrite Ex1, Ey1, Ex, Ey.
    assert (forall A (a b d e f : A), match c with 10 => a | 13 => b | 9 => d | 8 => e | _ => f end = f) as Hmatch.
    { intros. destruct c as [|p|p]; try done. do 4 (destruct p; try done). }
    rewrite Hmatch. split_and!; cbn [t_x t_y t_move t_put]; try lia; [exact Hp|by eapply kept_drawn]. }
  destruct (wrap_ok s1 t1 H1 Hx1 Hy1 Hxy1) as [Hw Kw]. split; [exact Hw|]. by eapply fb_kept_trans.
Qed.

(** The mode that the boot loader hands over. *)
Definition info_ok (i : multiboot_framebuffer_info_t) : Prop :=
  framebuffer_bpp i = 32 /\ framebuffer_width i = 1024 /\ framebuffer_height i = 768 /\ 4096 <= framebuffer_pitch i /\
  0 < framebuffer_addr i /\ framebuffer_addr i + 768 * framebuffer_pitch i <= 2 ^ 32.

Lemma clear_shows s t : mode_ok s -> colors_ok s -> fg_color s = t_fg t -> bg_color s = t_bg t -> shows (framebuffer_clear s) (t_clear t) /\ kept s (framebuffer_clear s).
Proof.
  intros Hm Hc Ef Eb. destruct (clear_ok s Hm Hc) as (s1 & -> & Hd). split; [|by eapply kept_drawn].
  pose proof (drawn_fields _ _ _ Hd) as (_ & _ & _ & _ & _ & _ & _ & Ef1 & Eb1). split; [|split; cbn; lia]. split; [by apply (drawn_mode _ _ _ Hd)| |done| |].
  - unfold colors_ok. cbn. by rewrite Ef1, Eb1.
  - cbn. by rewrite Ef1, Eb1.
  - intros X Y row col HG HC. change (pixel_of (with_cursor s1 0 0) X Y row col) with (pixel_of s1 X Y row col). rewrite (drawn_pixels _ _ _ Hd) by done.
    cbn [t_cells t_clear]. unfold t_blank. by rewrite space_pixel.
Qed.

Lemma init_shows s i t : info_ok i -> colors_ok s -> fg_color s = t_fg t -> bg_color s = t_bg t -> shows (framebuffer_init (Some i) s) (t_clear t).
Proof. intros (Hb & Hw & Hh & Hp & Ha & He) Hc Ef Eb. by apply clear_shows. Qed.

Lemma write_string_ok text rest : nonul text -> forall s t, shows s t -> exists s',
  framebuffer_write_string (text ++ 0 :: rest) s = Some s' /\ shows s' (t_text text t) /\ kept s s'.
Proof.
  induction 1 as [|c text Hc Hn IH]; intros s t Hs; cbn [app framebuffer_write_string t_text].
  - eexists. split; [done|]. split; [done|]. split_and!; done.
  - destruct (Z.eqb_spec c 0); [lia|]. destruct (putchar_ok s t c Hs) as [H1 K1]; [unfold byte_ok; lia|].
    destruct (IH _ _ H1) as (s' & E & H2 & K2). exists s'. split; [done|]. split; [done|]. by eapply fb_kept_trans.
Qed.

(** The cursor and the colours. *)
Lemma set_cursor_shows s t x y : shows s t -> shows (framebuffer_set_cursor x y s)
  (t_move t (if (0 <=? x) && (x <? 128) then x else t_x t) (if (0 <=? y) && (y <? 48) then y else t_y t)).
Proof.
  intros [Hs [Hx Hy]]. pose proof (paints_cursor _ _ Hs) as [Ex Ey]. unfold framebuffer_set_cursor. change TERM_COLS with 128. change TERM_ROWS with 48.
  assert (forall a b, a = cursor_x s -> b = cursor_y s -> with_cursor s a b = s) as Hsame by (intros ?? -> ->; by destruct s).
  destruct ((0 <=? x) && (x <? 128)) eqn:E1, ((0 <=? y) && (y <? 48)) eqn:E2; cbn [cursor_x cursor_y with_cursor]; rewrite ?Ex, ?Ey;
    (split; [|split; cbn; lia]); first [by apply (paints_move _ _ _ _ Hs) | idtac].
  rewrite <- (Hsame (t_x t) (t_y t)) by done. by apply paints_move.
Qed.

Lemma set_color_shows s t fg bg : shows s t -> 0 <= fg < 2 ^ 32 -> 0 <= bg < 2 ^ 32 ->
  shows (framebuffer_set_color fg bg s) (Mk_tty (t_cells t) (t_x t) (t_y t) fg bg).
Proof.
  intros [[Hm Hc Hxy He Hp] HG] Hf Hb. unfold framebuffer_set_color. rewrite !wrap_small by done. split; [|exact HG]. by split.
Qed.

(** * Theorems *)

(** C20: on a frame buffer of 1024 by 768 pixels of 32 bits, writing a string draws exactly
    the characters, line ends, tabs, backspaces, wrapped lines and scrolled screens of a
    console of 128 by 48 characters: every pixel afterwards is that of the font's glyph in
    the colours its cell has in the specification, the cursor stays on the grid, and no
    byte outside the frame buffer is written. *)
Theorem framebuffer_text_refines s t (text rest : buf) : shows s t -> nonul text -> exists s',
  framebuffer_write_string (text ++ 0 :: rest) s = Some s' /\ shows s' (t_text text t) /\ kept s s'.
Proof. intros Hs Hn. by apply write_string_ok. Qed.

(** What the screen shows determines the text: two consoles with printable characters in
    the same two different colours that look alike have the same character in every cell. *)
Theorem screen_determines_text s t t' X Y : shows s t -> shows s t' -> on_grid X Y ->
  32 <= ch_code (t_cells t X Y) < 127 -> 32 <= ch_code (t_cells t' X Y) < 127 ->
  ch_fg (t_cells t X Y) = ch_fg (t_cells t' X Y) -> ch_bg (t_cells t X Y) = ch_bg (t_cells t' X Y) -> ch_fg (t_cells t X Y) <> ch_bg (t_cells t X Y) ->
  ch_code (t_cells t X Y) = ch_code (t_cells t' X Y).
Proof.
  intros [Hs _] [Hs' _] HG Hc Hc' Ef Eb Hne. apply glyphs_distinct; [done|done|]. intros row Hr. apply Z.bits_inj'. intros k Hk.
  destruct (decide (k < 8)) as [Hk8|Hk8].
  - pose proof (paints_pixels _ _ Hs X Y row (7 - k) HG ltac:(split; lia)) as E. rewrite (paints_pixels _ _ Hs' X Y row (7 - k) HG) in E by (split; lia).
    unfold cell_pixel in E. replace (7 - (7 - k)) with k in E by lia. rewrite <- Ef, <- Eb in E.
    destruct (Z.testbit (glyph (ch_code (t_cells t' X Y)) row) k), (Z.testbit (glyph (ch_code (t_cells t X Y)) row) k); congruence.
  - assert (forall v, byte_ok v -> Z.testbit v k = false) as Hhigh.
    { intros v Hv. destruct (decide (v = 0)) as [->|]; [apply Z.bits_0|]. apply Z.bits_above_log2; [unfold byte_ok in Hv; lia|]. apply Z.lt_le_trans with 8; [|lia].
      apply Z.log2_lt_pow2; unfold byte_ok in Hv; lia. }
    by rewrite !Hhigh by apply glyph_byte.
Qed.

(** The console always has 48 lines: in a mode with fewer, such as 1280 by 720, scrolling
    copies lines that lie behind the frame buffer, and the last line is not cleared. *)
Theorem small_mode_scroll s X row col : layout_ok s -> 0 <= fb_height s <= 752 -> 0 <= X < 128 -> in_cell row col ->
  pixel_of (framebuffer_scroll s) X 46 row col = pixel_of s X 47 row col /\ pixel_of (framebuffer_scroll s) X 47 row col = pixel_of s X 47 row col /\
  fb_address s + fb_height s * fb_pitch s <= fb_address s + (16 * 47 + row) * fb_pitch s.
Proof.
  intros Hl Hh HX HC. pose proof Hl as (_ & Hp & Ha & _). unfold framebuffer_scroll. destruct (Z.eqb_spec (fb_address s) 0); [lia|].
  change (Z.to_nat (TERM_ROWS - 1)) with 47%nat. change (Z.to_nat TERM_COLS) with 128%nat. change FONT_WIDTH with 8. change FONT_HEIGHT with 16. change (TERM_ROWS - 1) with 47.
  cbv zeta. pose proof (copy_lines_ok s Hl) as Hc. revert Hc. generalize (rounds 0 47 (fun y : Z => rounds 0 128 (fun x => rounds 0 16 (fun row => rounds 0 8 (fun col => copy_pixel (x * 8 + col) ((y + 1) * 16 + row) (y * 16 + row))))) s).
  intros s1 Hc. pose proof (drawn_fields _ _ _ Hc) as (_ & _ & Eh & _).
  assert (forall x, fb_draw_char 32 x 47 (fg_color s1) (bg_color s1) s1 = s1) as Hno.
  { intros x. apply rounds_same. intros r Hr. apply rounds_same. intros c _. assert (forall v, fb_set_pixel (x * FONT_WIDTH + c) (47 * FONT_HEIGHT + r) v s1 = s1) as Hs.
    { intros v. unfold fb_set_pixel. rewrite Eh, (swrap_small 32 (fb_height s)) by lia. unfold FONT_HEIGHT. destruct (Z.leb_spec (fb_height s) (47 * 16 + r)); [|lia]. by rewrite orb_true_r. }
    by destruct (negb _); rewrite Hs. }
  rewrite rounds_same by (intros; apply Hno). destruct HC as [Hr Hcol].
  rewrite !(drawn_pixels _ _ _ Hc) by (split; lia). split_and!; [done|done|nia].
Qed.

(** ** Witnesses *)

Definition vesa_info : multiboot_framebuffer_info_t := Mk_fb_info 0xFD000000 4096 1024 768 32 1.
Definition vesa_console : framebuffer := framebuffer_init (Some vesa_info) (fb_static (fun _ => 0)).
Definition blank_tty : tty := t_clear (Mk_tty (fun _ _ => Mk_cell 32 FB_COLOR_WHITE FB_COLOR_BLACK) 0 0 FB_COLOR_WHITE FB_COLOR_BLACK).

Lemma vesa_shows : shows vesa_console blank_tty.
Proof. apply init_shows; [|by vm_compute|done|done]. by vm_compute. Qed.

(** "Hi" and a line end: the two characters, and the cursor on the next line. *)
Lemma framebuffer_text_refines_witness : exists s',
  framebuffer_write_string ([72; 105; 10] ++ [0]) vesa_console = Some s' /\ shows s' (t_text [72; 105; 10] blank_tty) /\ kept vesa_console s'.
Proof. apply (framebuffer_text_refines vesa_console blank_tty [72; 105; 10] []); [apply vesa_shows|]. repeat constructor; lia. Defined.

Example hi_cells : let t := t_text [72; 105; 10] blank_tty in
  ch_code (t_cells t 0 0) = 72 /\ ch_code (t_cells t 1 0) = 105 /\ ch_code (t_cells t 2 0) = 32 /\ t_x t = 0 /\ t_y t = 1.
Proof. by vm_compute. Qed.

Lemma small_mode_scroll_witness : let s := Mk_fb 0xFD000000 1280 720 5120 32 0 47 FB_COLOR_WHITE FB_COLOR_BLACK (fun _ => 0) in
  pixel_of (framebuffer_scroll s) 5 47 3 4 = pixel_of s 5 47 3 4.
Proof.
  intros s. apply (small_mode_scroll s 5 3 4); [by vm_compute|by vm_compute|lia|split; lia].
Defined.
