(* ===== verification/Loader.v ===== *)
(** kernel/init/prg.c and the program loading of kernel/proc/process.c: programs with the
    kernel's own header, loaded from a FAT32 volume and relocated, and ELF files.

    The memory is that of Memory.v.  A load or store of the code that crosses the end of the
    address space is left out of the theorems by their hypotheses. *)

From S2P Require Import Prelude CString Effects Memory BlockDev Fat32Fat Fat32Dir Fat32Vol Fat32Vfs.

Definition PROGRAM_LOAD_ADDRESS : Z := 0x01100000.
Definition PT_LOAD : Z := 1.

Definition load16 (m : Z -> Z) (a : Z) : Z := le_get (ram_bytes m a 2).

(** * Headers in memory *)

Record program_header_t := Mk_program_header {
  identifier : buf; magic_number : Z; entry_point : Z; program_size : Z; base_address : Z; relocation_offset : Z; relocation_size : Z
}.
Definition program_header (m : Z -> Z) (a : Z) : program_header_t :=
  Mk_program_header (ram_bytes m a 4) (load32 m (a + 4)) (load32 m (a + 8)) (load32 m (a + 12)) (load32 m (a + 16)) (load32 m (a + 20)) (load32 m (a + 24)).

(** The fields that the loader reads, of 52 bytes. *)
Record Elf32_Ehdr := Mk_ehdr { e_ident : buf; e_entry : Z; e_phoff : Z; e_phnum : Z }.
Definition elf_header (m : Z -> Z) (a : Z) : Elf32_Ehdr := Mk_ehdr (ram_bytes m a 16) (load32 m (a + 24)) (load32 m (a + 28)) (load16 m (a + 44)).

Record Elf32_Phdr := Mk_phdr { p_type : Z; p_offset : Z; p_vaddr : Z; p_filesz : Z; p_memsz : Z }.
Definition prog_header (m : Z -> Z) (a : Z) : Elf32_Phdr :=
  Mk_phdr (load32 m a) (load32 m (a + 4)) (load32 m (a + 8)) (load32 m (a + 16)) (load32 m (a + 20)).

(** * The loader for ELF files *)

(** What is printed. *)
Inductive loader_message := Not_elf | Loaded_segment (addr size : Z) | Jumping (addr : Z) | Hex_dump (addr n : Z).

Definition elf_magic : buf := [127; 69; 76; 70].

(** Every field is read when it is used: the memory may change in between. *)
Definition load_segment (elf_data phdr : Z) (st : (Z -> Z) * list loader_message) : (Z -> Z) * list loader_message :=
  let '(m, out) := st in
  if p_type (prog_header m phdr) =? PT_LOAD then
    let segment_address := p_vaddr (prog_header m phdr) in
    let m := mem_memcpy m segment_address (u32 (elf_data + p_offset (prog_header m phdr))) (p_filesz (prog_header m phdr)) in
    let h := prog_header m phdr in
    let m := if p_filesz h <? p_memsz h then mem_memset m (u32 (segment_address + p_filesz h)) 0 (p_memsz h - p_filesz h) else m in
    (m, out ++ [Loaded_segment segment_address (p_memsz (prog_header m phdr))])
  else (m, out).

(** The bound of the loop is read again in every round. *)
Fixpoint load_segments (fuel : nat) (elf_data phdr i : Z) (st : (Z -> Z) * list loader_message) : option ((Z -> Z) * list loader_message) :=
  match fuel with
  | O => None
  | S fuel' => if i <? e_phnum (elf_header (fst st) elf_data) then load_segments fuel' elf_data phdr (i + 1) (load_segment elf_data (u32 (phdr + 32 * i)) st)
               else Some st
  end.

(** [None]: more rounds than the fuel.  The number of segments has 16 bits. *)
Definition load_elf (fuel : nat) (elf_data : Z) (m : Z -> Z) : option (Z * list loader_message * (Z -> Z)) :=
  match memcmp (if elf_data =? 0 then None else Some (take 4 (e_ident (elf_header m elf_data)))) (Some elf_magic) 4 with
  | None => None
  | Some c =>
      if negb (c =? 0) then Some (-1, [Not_elf], m)
      else
        let phdr := u32 (elf_data + e_phoff (elf_header m elf_data)) in
        match load_segments fuel elf_data phdr 0 (m, []) with
        | None => None
        | Some (m', out) => let entry := e_entry (elf_header m' elf_data) in Some (0, out ++ [Jumping entry; Hex_dump entry 512], m')
        end
  end.

(** * Programs with the kernel's header *)

Fixpoint apply_relocation (m : Z -> Z) (relocation_table : Z) (relocation_count : nat) (offset : Z) : Z -> Z :=
  match relocation_count with
  | O => m
  | S n =>
      let address := load32 m relocation_table in
      apply_relocation (store32 m address (u32 (load32 m address + offset))) (u32 (relocation_table + 4)) n offset
  end.

Section Programs.
Context {D : Type} `{BD : BlockDev D} (alloc_ok : Z -> bool).
Abbreviation F := (M (fat32 D)).

(** The result is the address that is called, if any, and the memory then. *)
Definition load_and_execute_program (fuel : nat) (program_name : buf) (m : Z -> Z) : F (option Z * (Z -> Z)) :=
  data ← fat32_load_file alloc_ok fuel program_name;
  let m := mem_put m PROGRAM_LOAD_ADDRESS data in
  if 0 <? s32 (blen data) then
    let header := program_header m PROGRAM_LOAD_ADDRESS in
    let relocation_table := u32 (PROGRAM_LOAD_ADDRESS + relocation_offset header) in
    let relocation_count := relocation_size header / 4 in
    let m := apply_relocation m relocation_table (Z.to_nat relocation_count) PROGRAM_LOAD_ADDRESS in
    mret (Some (u32 (entry_point (program_header m PROGRAM_LOAD_ADDRESS) + PROGRAM_LOAD_ADDRESS)), m)
  else mret (None, m).

(** The result is what is printed: the entry point, or that there is no such file. *)
Definition load_program_into_memory (fuel : nat) (program_name : buf) (address : Z) (m : Z -> Z) : F (option Z * (Z -> Z)) :=
  data ← fat32_load_file alloc_ok fuel program_name;
  let m := mem_put m address data in
  if 0 <? s32 (blen data) then mret (Some (u32 (address + entry_point (program_header m address))), m) else mret (None, m).
End Programs.

(** * ELF files: the segments end up in memory *)

(** A file of [len] bytes at [E] with [n] program headers: every part that is used lies in
    the file, the segments lie apart from it and from each other, and [memcpy] can copy
    them. *)
Definition phdr_at (m : Z -> Z) (E i : Z) : Elf32_Phdr := prog_header m (E + e_phoff (elf_header m E) + 32 * i).
Definition seg_size (h : Elf32_Phdr) : Z := Z.max (p_filesz h) (p_memsz h).
Definition loads (m : Z -> Z) (E i : Z) : Prop := 0 <= i < e_phnum (elf_header m E) /\ p_type (phdr_at m E i) = PT_LOAD.
Definition apart (a n b k : Z) : Prop := a + n <= b \/ b + k <= a.

Record elf_file (m : Z -> Z) (E len : Z) : Prop := {
  elf_is : ram_bytes m E 4 = elf_magic;
  elf_space : 0 < E /\ E + len < 2 ^ 32;
  elf_headers : 52 <= len /\ e_phoff (elf_header m E) + 32 * e_phnum (elf_header m E) <= len;
  elf_segment : forall i, loads m E i -> let h := phdr_at m E i in
    0 < p_vaddr h /\ p_vaddr h + seg_size h <= 2 ^ 32 /\ p_filesz h < 65536 /\ p_offset h + p_filesz h <= len /\ apart (p_vaddr h) (seg_size h) E len;
  elf_apart : forall i j, loads m E i -> loads m E j -> i <> j ->
    apart (p_vaddr (phdr_at m E i)) (seg_size (phdr_at m E i)) (p_vaddr (phdr_at m E j)) (seg_size (phdr_at m E j))
}.

Lemma load32_ext m m' a : (forall x, a <= x < a + 4 -> m x = m' x) -> load32 m a = load32 m' a.
Proof. intros E. unfold load32, ram_bytes. f_equal. apply map_ext_in. intros k Hk%in_seq. rewrite E by lia. done. Qed.
Lemma load16_ext m m' a : (forall x, a <= x < a + 2 -> m x = m' x) -> load16 m a = load16 m' a.
Proof. intros E. unfold load16, ram_bytes. f_equal. apply map_ext_in. intros k Hk%in_seq. rewrite E by lia. done. Qed.
Lemma prog_header_ext m m' a : (forall x, a <= x < a + 32 -> m x = m' x) -> prog_header m a = prog_header m' a.
Proof. intros E. unfold prog_header. f_equal; apply load32_ext; intros; apply E; lia. Qed.
Lemma elf_header_ext m m' a : (forall x, a <= x < a + 52 -> m x = m' x) -> elf_header m a = elf_header m' a.
Proof.
  intros E. unfold elf_header. f_equal; [|apply load32_ext; intros; apply E; lia..|apply load16_ext; intros; apply E; lia].
  apply map_ext_in. intros k Hk%in_seq. rewrite E by lia. done.
Qed.

Lemma load16_range m a : 0 <= load16 m a < 2 ^ 16.
Proof. pose proof (le_get_range _ (ram_bytes_ok m a 2)) as Hr. rewrite length_ram_bytes in Hr. exact Hr. Qed.

(** One segment. *)
Lemma load_segment_ok m out E a : let h := prog_header m a in
  p_type h = PT_LOAD -> 0 < E -> 0 < p_vaddr h -> p_vaddr h + seg_size h <= 2 ^ 32 -> p_filesz h < 65536 -> E + p_offset h + p_filesz h < 2 ^ 32 ->
  apart (p_vaddr h) (seg_size h) (E + p_offset h) (p_filesz h) -> apart (p_vaddr h) (seg_size h) a 32 ->
  exists m', load_segment E a (m, out) = (m', out ++ [Loaded_segment (p_vaddr h) (p_memsz h)]) /\
    forall x, m' x = if within (p_vaddr h) (p_filesz h) x then u8 (m (E + p_offset h + (x - p_vaddr h)))
                     else if within (p_vaddr h) (p_memsz h) x then 0 else m x.
Proof.
  intros h Ht HE Hv Hve Hf Hoe Hd Hda. unfold load_segment. fold h. rewrite Ht, Z.eqb_refl.
  pose proof (load32_range m (a + 16)) as Rf. pose proof (load32_range m (a + 20)) as Rm. pose proof (load32_range m (a + 4)) as Ro.
  change (load32 m (a + 16)) with (p_filesz h) in Rf. change (load32 m (a + 20)) with (p_memsz h) in Rm. change (load32 m (a + 4)) with (p_offset h) in Ro.
  unfold seg_size, apart in *.
  rewrite (wrap_small 32 (E + p_offset h)) by lia. unfold mem_memcpy. destruct (Z.eqb_spec (p_vaddr h) 0), (Z.eqb_spec (E + p_offset h) 0); try lia. cbn [orb].
  rewrite (wrap_small 16) by lia. set (m1 := copy_bytes m (p_vaddr h) (E + p_offset h) (Z.to_nat (p_filesz h))).
  assert (forall x, m1 x = if within (p_vaddr h) (p_filesz h) x then u8 (m (E + p_offset h + (x - p_vaddr h))) else m x) as H1.
  { intros x. unfold m1. rewrite copy_bytes_spec by lia. by rewrite Z2Nat.id by lia. }
  assert (prog_header m1 a = h) as Eh.
  { apply prog_header_ext. intros x Hx. rewrite H1. destruct (within _ _ x) eqn:W; [|done]. apply within_spec in W. lia. }
  rewrite Eh. destruct (Z.ltb_spec (p_filesz h) (p_memsz h)) as [Hlt|Hge].
  - rewrite (wrap_small 32 (p_vaddr h + p_filesz h)) by lia. unfold mem_memset. destruct (Z.eqb_spec (p_vaddr h + p_filesz h) 0); [lia|].
    rewrite (wrap_small 32 (p_memsz h - p_filesz h)) by lia.
    set (m2 := set_bytes m1 (p_vaddr h + p_filesz h) 0 (Z.to_nat (p_memsz h - p_filesz h))).
    assert (forall x, m2 x = if within (p_vaddr h) (p_filesz h) x then u8 (m (E + p_offset h + (x - p_vaddr h))) else if within (p_vaddr h) (p_memsz h) x then 0 else m x) as H2.
    { intros x. unfold m2. rewrite set_bytes_spec by lia. rewrite H1, Z2Nat.id by lia. unfold within.
      destruct (Z.leb_spec (p_vaddr h + p_filesz h) x), (Z.ltb_spec x (p_vaddr h + p_filesz h + (p_memsz h - p_filesz h))), (Z.leb_spec (p_vaddr h) x), (Z.ltb_spec x (p_vaddr h + p_filesz h)), (Z.ltb_spec x (p_vaddr h + p_memsz h)); try lia; done. }
    assert (prog_header m2 a = h) as Eh2.
    { apply prog_header_ext. intros x Hx. rewrite H2. unfold within. destruct (Z.leb_spec (p_vaddr h) x), (Z.ltb_spec x (p_vaddr h + p_filesz h)), (Z.ltb_spec x (p_vaddr h + p_memsz h)); try lia; done. }
    rewrite Eh2. by exists m2.
  - rewrite Eh. exists m1. split; [done|]. intros x. rewrite H1. unfold within.
    destruct (Z.leb_spec (p_vaddr h) x), (Z.ltb_spec x (p_vaddr h + p_filesz h)), (Z.ltb_spec x (p_vaddr h + p_memsz h)); try lia; done.
Qed.

(** The byte at [x] of a segment: from the file, or zero behind it. *)
Definition segment_byte (m : Z -> Z) (E : Z) (h : Elf32_Phdr) (x : Z) : Z :=
  if x <? p_vaddr h + p_filesz h then u8 (m (E + p_offset h + (x - p_vaddr h))) else 0.
Definition in_segment (h : Elf32_Phdr) (x : Z) : Prop := p_vaddr h <= x < p_vaddr h + seg_size h.

(** The memory after the first [i] headers. *)
Record loaded (m : Z -> Z) (E len i : Z) (m' : Z -> Z) : Prop := {
  ld_file : forall x, E <= x < E + len -> m' x = m x;
  ld_segment : forall j x, j < i -> loads m E j -> in_segment (phdr_at m E j) x -> m' x = segment_byte m E (phdr_at m E j) x;
  ld_rest : forall x, (forall j, j < i -> loads m E j -> ~ in_segment (phdr_at m E j) x) -> m' x = m x
}.

Lemma phdr_range m E i : let h := phdr_at m E i in 0 <= p_type h < 2 ^ 32 /\ 0 <= p_offset h < 2 ^ 32 /\ 0 <= p_filesz h < 2 ^ 32 /\ 0 <= p_memsz h < 2 ^ 32.
Proof. cbn. split_and!; apply load32_range. Qed.

Lemma loaded_header m E len i m' : elf_file m E len -> loaded m E len i m' -> elf_header m' E = elf_header m E.
Proof. intros Hf Hl. apply elf_header_ext. intros x Hx. apply (ld_file _ _ _ _ _ Hl). pose proof (elf_headers _ _ _ Hf). lia. Qed.

Lemma load_step m E len i m' out : elf_file m E len -> loaded m E len i m' -> 0 <= i < e_phnum (elf_header m E) ->
  exists m'' out', load_segment E (u32 (u32 (E + e_phoff (elf_header m E)) + 32 * i)) (m', out) = (m'', out') /\ loaded m E len (i + 1) m''.
Proof.
  intros Hf Hl Hi. destruct (elf_space _ _ _ Hf) as [HE He]. destruct (elf_headers _ _ _ Hf) as [H52 Hph]. pose proof (load32_range m (E + 28)) as Rp. change (load32 m (E + 28)) with (e_phoff (elf_header m E)) in Rp.
  rewrite (wrap_small 32 (E + _)) by lia. rewrite wrap_small by lia. set (a := E + e_phoff (elf_header m E) + 32 * i).
  assert (prog_header m' a = phdr_at m E i) as Eh by (apply prog_header_ext; intros x Hx; apply (ld_file _ _ _ _ _ Hl); unfold a in Hx; lia).
  pose proof (phdr_range m E i) as (_ & Ro & Rf & Rm).
  destruct (decide (p_type (phdr_at m E i) = PT_LOAD)) as [Ht|Ht].
  - assert (loads m E i) as Hld by done. destruct (elf_segment _ _ _ Hf i Hld) as (Hv & Hve & H64 & Hoff & Hap). cbv zeta in *.
    destruct (load_segment_ok m' out E a) as (m'' & Es & Hm); rewrite ?Eh; try done; try (unfold apart, seg_size in *; unfold a; lia).
    rewrite Es. eexists _, _. split; [done|]. rewrite Eh in Hm. set (h := phdr_at m E i) in *.
    assert (forall x, in_segment h x -> m'' x = segment_byte m E h x) as Hin.
    { intros x Hx. unfold in_segment, seg_size in Hx. rewrite Hm. unfold within, segment_byte.
      destruct (Z.leb_spec (p_vaddr h) x), (Z.ltb_spec x (p_vaddr h + p_filesz h)), (Z.ltb_spec x (p_vaddr h + p_memsz h)); try lia; cbn [andb]; try done.
      all: f_equal; apply (ld_file _ _ _ _ _ Hl); lia. }
    assert (forall x, ~ in_segment h x -> m'' x = m' x) as Hout.
    { intros x Hx. unfold in_segment, seg_size in Hx. rewrite Hm. unfold within.
      destruct (Z.leb_spec (p_vaddr h) x), (Z.ltb_spec x (p_vaddr h + p_filesz h)), (Z.ltb_spec x (p_vaddr h + p_memsz h)); try lia; done. }
    split.
    + intros x Hx. rewrite Hout by (unfold in_segment, apart in *; lia). by apply (ld_file _ _ _ _ _ Hl).
    + intros j x Hj Hlj Hx. destruct (decide (j = i)) as [->|Hne]; [by apply Hin|]. rewrite Hout.
      * apply (ld_segment _ _ _ _ _ Hl); [lia|done|done].
      * pose proof (elf_apart _ _ _ Hf j i Hlj Hld Hne) as Ha. fold h in Ha. unfold in_segment, apart in *. lia.
    + intros x Hx. rewrite Hout by (apply Hx; [lia|done]). apply (ld_rest _ _ _ _ _ Hl). intros j Hj. apply Hx. lia.
  - exists m', out. unfold load_segment. rewrite Eh. destruct (Z.eqb_spec (p_type (phdr_at m E i)) PT_LOAD); [done|]. split; [done|]. split.
    + apply (ld_file _ _ _ _ _ Hl).
    + intros j x Hj Hlj Hx. apply (ld_segment _ _ _ _ _ Hl); [|done|done]. destruct (decide (j = i)) as [->|]; [by destruct Hlj|lia].
    + intros x Hx. apply (ld_rest _ _ _ _ _ Hl). intros j Hj. apply Hx. lia.
Qed.

Lemma load_segments_ok m E len : elf_file m E len -> forall fuel i m' out, loaded m E len i m' -> 0 <= i <= e_phnum (elf_header m E) -> e_phnum (elf_header m E) - i < Z.of_nat fuel ->
  exists m'' out', load_segments fuel E (u32 (E + e_phoff (elf_header m E))) i (m', out) = Some (m'', out') /\ loaded m E len (e_phnum (elf_header m E)) m''.
Proof.
  intros Hf. induction fuel as [|fuel IH]; intros i m' out Hl Hi Hfuel; [lia|]. cbn [load_segments fst]. rewrite (loaded_header _ _ _ _ _ Hf Hl).
  destruct (Z.ltb_spec i (e_phnum (elf_header m E))).
  - destruct (load_step m E len i m' out Hf Hl ltac:(lia)) as (m1 & out1 & -> & H1). apply IH; [done|lia|lia].
  - replace (e_phnum (elf_header m E)) with i by lia. by exists m', out.
Qed.

Lemma load_elf_magic fuel m E : 0 < E -> load_elf fuel E m =
  if decide (ram_bytes m E 4 = elf_magic) then
    match load_segments fuel E (u32 (E + e_phoff (elf_header m E))) 0 (m, []) with
    | None => None
    | Some (m', out) => let entry := e_entry (elf_header m' E) in Some (0, out ++ [Jumping entry; Hex_dump entry 512], m')
    end
  else Some (-1, [Not_elf], m).
Proof.
  intros HE. unfold load_elf. destruct (Z.eqb_spec E 0); [lia|].
  assert (take 4 (e_ident (elf_header m E)) = ram_bytes m E 4) as -> by done. pose proof (length_ram_bytes m E 4) as Hlen.
  destruct (ram_bytes m E 4) as [|a [|b [|c [|d [|]]]]]; try done. cbn [memcmp memcmp_loop elf_magic]. clear Hlen.
  destruct (Z.eqb_spec a 127), (Z.eqb_spec b 69), (Z.eqb_spec c 76), (Z.eqb_spec d 70); cbn [negb];
    (case_decide as Hd; [injection Hd; intros; try lia; done|]); subst; try done.
  all: match goal with |- (if negb (?x - ?y =? 0) then _ else _) = _ => destruct (Z.eqb_spec (x - y) 0); [lia|done] end.
Qed.

(** C24: loading an ELF file puts its image into memory.  For a file whose headers and
    segments lie inside it, whose loadable segments lie apart from it and from each other
    and are shorter than 64 KB, [load_elf] returns 0 within as many rounds as there are
    program headers; every byte of a loadable segment is then the file's byte, or zero
    between the size in the file and the size in memory, and nothing else has changed.
    Without the magic number it returns -1 and changes nothing. *)
Theorem load_elf_image (m : Z -> Z) (E len : Z) (fuel : nat) : 0 < E ->
  (ram_bytes m E 4 <> elf_magic -> load_elf fuel E m = Some (-1, [Not_elf], m)) /\
  (elf_file m E len -> e_phnum (elf_header m E) < Z.of_nat fuel ->
   exists out m', load_elf fuel E m = Some (0, out ++ [Jumping (e_entry (elf_header m E)); Hex_dump (e_entry (elf_header m E)) 512], m') /\
     (forall i x, loads m E i -> in_segment (phdr_at m E i) x -> m' x = segment_byte m E (phdr_at m E i) x) /\
     (forall x, (forall i, loads m E i -> ~ in_segment (phdr_at m E i) x) -> m' x = m x)).
Proof.
  intros HE. rewrite load_elf_magic by done. split; [intros; by rewrite decide_False|]. intros Hf Hfuel. rewrite decide_True by apply Hf.
  pose proof (load16_range m (E + 44)) as Rn. change (load16 m (E + 44)) with (e_phnum (elf_header m E)) in Rn.
  assert (loaded m E len 0 m) as H0 by (split; [done| |done]; intros j x Hj [Hj' _]; lia).
  destruct (load_segments_ok m E len Hf fuel 0 m [] H0 ltac:(lia) ltac:(lia)) as (m' & out & -> & Hl). rewrite (loaded_header _ _ _ _ _ Hf Hl).
  exists out, m'. split; [done|]. split.
  - intros i x Hi Hx. apply (ld_segment _ _ _ _ _ Hl); [apply Hi|done|done].
  - intros x Hx. apply (ld_rest _ _ _ _ _ Hl). intros j _. apply Hx.
Qed.

(** A segment of 64 KB or more is cut: the parameter of [memcpy] has 16 bits, so of a
    segment of exactly 64 KB nothing is copied at all. *)
Theorem large_segment_lost m E a out : let h := prog_header m a in
  p_type h = PT_LOAD -> p_filesz h = 65536 -> p_memsz h = 65536 -> load_segment E a (m, out) = (m, out ++ [Loaded_segment (p_vaddr h) 65536]).
Proof.
  intros h Ht Hf Hm. unfold load_segment. fold h. rewrite Ht, Z.eqb_refl, Hf. unfold mem_memcpy. change (Z.to_nat (u16 65536)) with O. cbn [copy_bytes].
  destruct (_ || _); fold h; rewrite Hf, Hm, Z.ltb_irrefl; fold h; by rewrite Hm.
Qed.

(** * Loading a file from a FAT32 volume *)

(** The size of a file in whole sectors: the loader does not stop within one. *)
Definition whole_sectors (size : Z) : nat := Z.to_nat (512 * ((size + 511) / 512)).

Lemma whole_sectors_at size k : 512 * k < size <= 512 * (k + 1) -> 0 <= k -> whole_sectors size = Z.to_nat (512 * (k + 1)).
Proof. intros Hs Hk. unfold whole_sectors. f_equal. zlia. Qed.

Section From_disk.
Context {D : Type} `{BD : BlockDev D} (alloc_ok : Z -> bool) (alloc_all : forall n, alloc_ok n = true).
Implicit Types s : fat32 D.
#[local] Abbreviation clusters s := (get_total_clusters (boot_sector s)).
#[local] Abbreviation spc s := (Z.to_nat (sectors_per_cluster (boot_sector s))).

Lemma load_sectors_ok n : forall s lba out size k,
  dev_ok (dev s) (drive_base s) -> 0 <= lba -> lba + Z.of_nat n <= LBA_LIMIT -> 0 < size < 2 ^ 31 -> Z.of_nat (length out) = 512 * k -> 512 * k < size ->
  exists d, load_sectors lba n out size s = Some ((take (whole_sectors size) (out ++ sectors s lba n), true), with_dev s d) /\
    dev_ok d (drive_base s) /\ dev_equiv (dev s) d.
Proof.
  induction n as [|n IH]; intros s lba out size k Hd Hlo Hhi Hsz Hk Hlt; cbn [load_sectors sectors].
  { exists (dev s). split; [|done]. rewrite app_nil_r, take_ge; [by destruct s|]. unfold whole_sectors. zlia. }
  unfold LBA_LIMIT in Hhi. rewrite (wrap_small 32) by lia.
  destruct (read_lba_ok s lba Hd ltac:(unfold LBA_LIMIT; lia)) as (d & Hr & Hd1 & He). rewrite (bind_eq _ _ _ _ _ Hr).
  destruct (sec_size s lba Hd) as [Hsl _]. unfold SECTOR_SIZE in Hsl.
  assert (Z.of_nat (length (out ++ sec s lba)) = 512 * (k + 1)) as Hl by (rewrite length_app, Hsl; lia).
  rewrite Hl, (wrap_small 32) by lia. rewrite app_assoc. destruct (Z.leb_spec size (512 * (k + 1))).
  - exists d. split; [|done]. rewrite take_full; [done|]. rewrite (whole_sectors_at size k); lia.
  - destruct (IH (with_dev s d) (lba + 1) (out ++ sec s lba) size (k + 1) Hd1 ltac:(lia) ltac:(unfold LBA_LIMIT; lia) Hsz Hl ltac:(lia)) as (d2 & Hrec & Hd2 & He2).
    exists d2. rewrite Hrec. rewrite (sectors_ext s (with_dev s d)) by (intros; by apply sec_equiv). split; [done|]. split; [done|by eapply dev_equiv_trans].
Qed.

Lemma valid_cluster s c : volume_ok s -> 2 <= c < clusters s -> is_valid_cluster (boot_sector s) c = true.
Proof.
  intros Hok Hc. pose proof (ok_cl _ (vol_fat s Hok)) as Hcl. unfold is_valid_cluster.
  destruct (Z.ltb_spec c 2); [lia|]. destruct (FAT32_EOC_MIN <=? c); [done|]. destruct (Z.leb_spec (clusters s) c); [lia|done].
Qed.

Lemma load_loop_ok fuel : forall s c l out size k, volume_ok s -> chain s (c :: l) -> (S (length l) < fuel)%nat -> 0 < size < 2 ^ 31 ->
  Z.of_nat (length out) = 512 * k -> (length out <= whole_sectors size <= length (out ++ concat (map (data s) (c :: l))))%nat ->
  exists d, load_loop fuel c out size s = Some (take (whole_sectors size) (out ++ concat (map (data s) (c :: l))), with_dev s d) /\
    dev_ok d (drive_base s) /\ dev_equiv (dev s) d.
Proof.
  induction fuel as [|fuel IH]; intros s c l out size k Hok Hch Hfuel Hsz Hk Hout; [lia|]. cbn [load_loop].
  assert (with_dev s (dev s) = s) as Es by (by destruct s). pose proof (ok_dev _ (vol_fat s Hok)) as Hdev.
  assert (Z.of_nat (length out) < 2 ^ 32) by (unfold whole_sectors in Hout; zlia).
  rewrite (wrap_small 32) by lia. destruct (Z.leb_spec size (Z.of_nat (length out))).
  { exists (dev s). split; [|done]. rewrite take_full, Es; [done|]. unfold whole_sectors in *. zlia. }
  pose proof Hch as (Hrng & Hlk & Hlast). apply Forall_cons in Hrng as [Hc Hl].
  destruct (cluster_sector s c Hok Hc) as (_ & Hcs & _). destruct (data_range s c Hok Hc) as [Hlo Hhi].
  rewrite !gets_bind, valid_cluster by done. cbn [negb]. rewrite Hcs.
  destruct (load_sectors_ok (spc s) s (data_lba s c) out size k Hdev ltac:(lia) Hhi Hsz Hk ltac:(lia)) as (d1 & Hr & Hd1 & He1).
  rewrite (bind_eq _ _ _ _ _ Hr). cbn [negb]. fold (data s c).
  pose proof (volume_equiv s d1 Hok Hd1 He1) as Hok1.
  destruct (get_next_ok (with_dev s d1) c (vol_fat _ Hok1) Hc) as (d2 & Hn & Hd2 & He2). rewrite (bind_eq _ _ _ _ _ Hn).
  rewrite fat_equiv by done. cbn [map concat]. assert (dev_equiv (dev s) d2) as He12 by (by eapply dev_equiv_trans).
  change (with_dev (with_dev s d1) d2) with (with_dev s d2). pose proof (volume_equiv s d2 Hok Hd2 He12) as Hok2.
  set (out1 := take (whole_sectors size) (out ++ data s c)).
  assert (exists k1, Z.of_nat (length out1) = 512 * k1) as (k1 & Hk1).
  { unfold out1. rewrite length_take, length_app. destruct (data_length s c Hok) as [-> _]. unfold whole_sectors, SECTOR_SIZE.
    exists (Z.min ((size + 511) / 512) (k + Z.of_nat (spc s))). zlia. }
  destruct l as [|y l].
  - specialize (Hlast c eq_refl). destruct (Z.leb_spec FAT32_EOC_MIN (fat s c)); [|lia].
    change (is_end_of_cluster_chain INVALID_CLUSTER) with false. cbn [map concat]. rewrite app_nil_r. exists d2. split; [|done].
    destruct fuel as [|fuel]; [simpl in Hfuel; lia|]. cbn [load_loop]. fold out1. cbn [map concat] in Hout. rewrite app_nil_r in Hout.
    assert (length out1 = whole_sectors size) as Hl1 by (unfold out1; rewrite length_take; lia).
    rewrite (wrap_small 32) by (rewrite Hl1; unfold whole_sectors; zlia). destruct (Z.leb_spec size (Z.of_nat (length out1))) as [|Hs]; [done|].
    rewrite Hl1 in Hs. unfold whole_sectors in Hs. zlia.
  - destruct Hlk as [Hy Hlk]. apply Forall_cons in Hl as [Hyr Hl]. pose proof (ok_cl _ (vol_fat s Hok)) as Hcl. rewrite Hy.
    destruct (Z.leb_spec FAT32_EOC_MIN y); [lia|]. unfold is_end_of_cluster_chain.
    destruct (Z.leb_spec FAT32_EOC_MIN y); [lia|]. cbn [andb].
    assert (chain (with_dev s d2) (y :: l)) as Hch2.
    { apply chain_equiv; [done|]. split; [by constructor|]. split; [done|]. intros x Hx. apply Hlast. exact Hx. }
    destruct (IH (with_dev s d2) y l out1 size k1 Hok2 Hch2 ltac:(simpl in Hfuel; lia) Hsz Hk1) as (d3 & Hrec & Hd3 & He3).
    { rewrite (map_ext (data (with_dev s d2)) (data s)) by (intros; by apply data_equiv). cbn [map concat] in Hout |- *. unfold out1. rewrite !length_app, length_take in *. rewrite length_app in *. lia. }
    exists d3. rewrite Hrec. split; [|split; [done|by eapply dev_equiv_trans]].
    rewrite (map_ext (data (with_dev s d2)) (data s)) by (intros; by apply data_equiv).
    do 2 f_equal. cbn [map concat]. rewrite (app_assoc out). unfold out1. generalize (out ++ data s c) as u. intros u.
    destruct (decide (length u <= whole_sectors size)%nat).
    + by rewrite (take_ge u).
    + rewrite (take_app_le u) by lia. rewrite take_full by (rewrite length_take; lia). done.
Qed.

Lemma load_file_ok s (fuel : nat) (name e : buf) (l : list Z) :
  volume_ok s -> 2 <= current_directory_cluster s < clusters s ->
  scan_entries false (data s (current_directory_cluster s)) name 0 (Z.to_nat (sectors_per_cluster (boot_sector s)) * 16) = Some (ScanFound e) ->
  chain s (read_start_cluster e :: l) -> (S (length l) < fuel)%nat -> 0 < e_size e < 2 ^ 31 ->
  (whole_sectors (e_size e) <= length (concat (map (data s) (read_start_cluster e :: l))))%nat ->
  exists d, fat32_load_file alloc_ok fuel name s = Some (take (whole_sectors (e_size e)) (concat (map (data s) (read_start_cluster e :: l))), with_dev s d) /\ dev_equiv (dev s) d.
Proof using alloc_all.
  intros Hok Hcwd Hscan Hch Hfuel Hsz Hlen. unfold fat32_load_file. rewrite gets_bind. pose proof (vol_spc s Hok) as Hspc. pose proof (ok_bps _ (vol_fat s Hok)) as Hbps.
  destruct (Z.eqb_spec (bytes_per_sector (boot_sector s)) 0); [lia|]. destruct (Z.eqb_spec (sectors_per_cluster (boot_sector s)) 0) as [|Hne]; [lia|]. cbn [orb].
  destruct (find_file_ok alloc_ok alloc_all s name (ScanFound e) Hok Hcwd Hscan) as (d1 & Ef & Hd1 & He1). rewrite (bind_eq _ _ _ _ _ Ef).
  pose proof (Forall_inv (proj1 Hch)) as Hc. cbn beta in Hc. destruct (Z.ltb_spec (read_start_cluster e) 2); [lia|].
  unfold read_file_data_to_address. destruct (Z.eqb_spec (e_size e) 0); [lia|]. rewrite gets_bind. cbn [boot_sector with_dev].
  rewrite (proj2 (Z.eqb_neq _ _) Hne).
  destruct (load_loop_ok fuel (with_dev s d1) (read_start_cluster e) l [] (e_size e) 0 (volume_equiv s d1 Hok Hd1 He1) (chain_equiv s d1 _ He1 Hch) Hfuel Hsz eq_refl) as (d2 & El & Hd2 & He2).
  { split; [simpl; lia|]. rewrite (map_ext (data (with_dev s d1)) (data s)) by (intros; by apply data_equiv). exact Hlen. }
  rewrite El. rewrite (map_ext (data (with_dev s d1)) (data s)) by (intros; by apply data_equiv). exists d2. split; [done|by eapply dev_equiv_trans].
Qed.
End From_disk.

(** * Relocation *)

(** The words that a relocation table at [T] lists: apart from each other, from the table
    and from [n] bytes at [base]. *)
Record reloc_table (m : Z -> Z) (T : Z) (words : list Z) : Prop := {
  rt_entries : forall i a, words !! i = Some a -> load32 m (T + 4 * Z.of_nat i) = a;
  rt_space : 0 <= T /\ T + 4 * Z.of_nat (length words) < 2 ^ 32;
  rt_words : forall a, a ∈ words -> a + 4 <= 2 ^ 32 /\ apart a 4 T (4 * Z.of_nat (length words));
  rt_apart : forall i j a b, words !! i = Some a -> words !! j = Some b -> i <> j -> apart a 4 b 4
}.

Lemma reloc_rest m T a words v : reloc_table m T (a :: words) -> reloc_table (store32 m a v) (T + 4) words.
Proof.
  intros [He Hs Hw Ha]. cbn [length] in *. destruct (Hw a ltac:(by left)) as [_ Hap]. split.
  - intros i b Hi. pose proof (He (S i) b Hi) as E. apply lookup_lt_Some in Hi. unfold apart in Hap. rewrite load_store_other by lia. rewrite <- E. f_equal. lia.
  - lia.
  - intros b Hb. destruct (Hw b ltac:(by right)). split; [done|]. unfold apart in *. lia.
  - intros i j b c Hi Hj Hne. apply (Ha (S i) (S j)); [done|done|lia].
Qed.

Lemma relocate_ok offset words : forall m T, reloc_table m T words ->
  let m' := apply_relocation m T (length words) offset in
  (forall a, a ∈ words -> load32 m' a = u32 (load32 m a + offset)) /\ (forall x, (forall a, a ∈ words -> ~ a <= x < a + 4) -> m' x = m x).
Proof.
  induction words as [|a words IH]; intros m T Ht; cbn [length apply_relocation]; [split; [by intros a ?%not_elem_of_nil|done]|].
  pose proof (rt_entries _ _ _ Ht 0%nat a eq_refl) as E0. rewrite Z.add_0_r in E0. rewrite E0. pose proof (rt_space _ _ _ Ht) as [HT HTe]. cbn [length] in HTe.
  rewrite (wrap_small 32 (T + 4)) by lia. set (m1 := store32 m a (u32 (load32 m a + offset))).
  destruct (IH m1 (T + 4) (reloc_rest m T a words _ Ht)) as [H1 H2]. pose proof (rt_apart _ _ _ Ht) as Hap.
  assert (forall b, b ∈ words -> apart a 4 b 4) as Hab.
  { intros b (j & Hj)%list_elem_of_lookup. apply (Hap 0%nat (S j)); [done|done|lia]. }
  split.
  - intros b [->|Hb]%elem_of_cons.
    + rewrite <- (load_store_same m a (u32 (load32 m a + offset))) by (unfold wrap; zlia). apply load32_ext. intros x Hx. apply H2. intros b Hb Hxb. destruct (Hab b Hb); lia.
    + rewrite H1 by done. unfold m1. rewrite load_store_other; [done|]. destruct (Hab b Hb); lia.
  - intros x Hx. rewrite H2 by (intros b Hb; apply Hx; by right). unfold m1. apply store32_out. pose proof (Hx a ltac:(by left)). lia.
Qed.

Lemma ram_bytes_part m a (b : buf) (k n : nat) : bytes_ok b -> (k + n <= length b)%nat -> ram_bytes (mem_put m a b) (a + Z.of_nat k) n = slice b k n.
Proof.
  intros Hb Hk. apply list_eq. intros i. unfold ram_bytes, slice. rewrite list_lookup_fmap. destruct (decide (i < n)%nat).
  - rewrite lookup_seq_lt by done. cbn [fmap option_fmap option_map]. rewrite lookup_take_lt by done. rewrite lookup_drop.
    destruct (lookup_lt_is_Some_2 b (k + i)) as [v Ev]; [lia|]. rewrite Ev. f_equal.
    replace (a + Z.of_nat k + Z.of_nat (0 + i)) with (a + Z.of_nat (k + i)) by lia. rewrite (mem_put_in _ _ _ _ v Ev). apply wrap_small. exact (Forall_lookup_1 _ _ _ _ Hb Ev).
  - rewrite lookup_seq_ge by lia. rewrite lookup_take_ge by lia. done.
Qed.

(** * Starting a program *)

Section Start.
Context {D : Type} `{BD : BlockDev D} (alloc_ok : Z -> bool) (alloc_all : forall n, alloc_ok n = true).
Implicit Types s : fat32 D.

(** A file of the current directory, by the format of the volume: the first entry in use
    with the name in the directory's first cluster, and the clusters, which hold all of the
    file. *)
Record program_file s (fuel : nat) (b x e : buf) (l : list Z) : Prop := {
  pf_volume : volume_ok s;
  pf_cwd : 2 <= current_directory_cluster s < get_total_clusters (boot_sector s);
  pf_name : short_name b x;
  pf_entry : names_entry (data s (current_directory_cluster s)) (Z.to_nat (sectors_per_cluster (boot_sector s)) * 16) b x e;
  pf_chain : chain s (read_start_cluster e :: l);
  pf_fuel : (S (length l) < fuel)%nat;
  pf_size : 28 <= e_size e < 2 ^ 31 - 512;
  pf_whole : (whole_sectors (e_size e) <= length (concat (map (data s) (read_start_cluster e :: l))))%nat
}.
(** The file's content in whole sectors. *)
Definition file_image s (e : buf) (l : list Z) : buf := take (whole_sectors (e_size e)) (concat (map (data s) (read_start_cluster e :: l))).

Lemma image_ok s fuel b x e l : program_file s fuel b x e l -> bytes_ok (file_image s e l) /\ (28 <= length (file_image s e l) <= whole_sectors (e_size e))%nat /\ 0 < s32 (blen (file_image s e l)).
Proof.
  intros Hp. pose proof (pf_whole _ _ _ _ _ _ Hp) as Hw. pose proof (pf_size _ _ _ _ _ _ Hp) as Hs. unfold file_image.
  split; [|assert (28 <= whole_sectors (e_size e))%nat by (unfold whole_sectors; zlia); assert (Z.of_nat (whole_sectors (e_size e)) < 2 ^ 31) by (unfold whole_sectors; zlia)].
  - apply Forall_take. apply Forall_concat, Forall_map, Forall_true. intros c. apply (data_length s c (pf_volume _ _ _ _ _ _ Hp)).
  - unfold blen. rewrite length_take. split; [lia|]. rewrite swrap_small; lia.
Qed.

(** C21: a program is started from disk.  For a file that begins with the kernel's program
    header, found under its 8.3 name in the first cluster of the current directory, when
    allocations succeed and the words that its relocation table lists overlap neither each
    other nor the table nor the header: [load_and_execute_program] puts the contents of the
    file's cluster chain at the load address, adds that address to every word that the
    relocation table lists, changes nothing else in memory or on the disk, and calls the
    header's entry point relative to the load address. *)
Theorem program_started s (fuel : nat) (b x e : buf) (l : list Z) (m : Z -> Z) (words : list Z) :
  program_file s fuel b x e l ->
  let image := file_image s e l in let m1 := mem_put m PROGRAM_LOAD_ADDRESS image in
  let T := PROGRAM_LOAD_ADDRESS + le_get (slice image 20 4) in
  reloc_table m1 T words -> le_get (slice image 24 4) / 4 = Z.of_nat (length words) -> (forall a, a ∈ words -> apart a 4 PROGRAM_LOAD_ADDRESS 28) ->
  exists m' d, load_and_execute_program alloc_ok fuel (name_str b x) m s = Some ((Some (u32 (le_get (slice image 8 4) + PROGRAM_LOAD_ADDRESS)), m'), with_dev s d) /\ dev_equiv (dev s) d /\
    (forall a, a ∈ words -> load32 m' a = u32 (load32 m1 a + PROGRAM_LOAD_ADDRESS)) /\
    (forall x, (forall a, a ∈ words -> ~ a <= x < a + 4) -> m' x = m1 x).
Proof using alloc_all.
  intros Hp image m1 T Ht Hn Hh. destruct (image_ok _ _ _ _ _ _ Hp) as (Hb & Hlen & Hpos). fold image in Hb, Hlen, Hpos.
  destruct Hp as [Hok Hcwd Hnm Hent Hch Hfuel Hsz Hwh]. pose proof (directory_finds s b x e Hok Hnm Hent) as Hscan.
  destruct (load_file_ok alloc_ok alloc_all s fuel (name_str b x) e l Hok Hcwd Hscan Hch Hfuel ltac:(lia) Hwh) as (d & El & He). fold (file_image s e l) image in El.
  unfold load_and_execute_program. rewrite (bind_eq _ _ _ _ _ El). fold m1. rewrite (proj2 (Z.ltb_lt _ _) Hpos).
  assert (forall k : nat, (k + 4 <= 28)%nat -> load32 m1 (PROGRAM_LOAD_ADDRESS + Z.of_nat k) = le_get (slice image k 4)) as Hfield.
  { intros k Hk. unfold load32, m1. by rewrite ram_bytes_part by (try done; lia). }
  change (relocation_offset (program_header m1 PROGRAM_LOAD_ADDRESS)) with (load32 m1 (PROGRAM_LOAD_ADDRESS + 20)). change (relocation_size (program_header m1 PROGRAM_LOAD_ADDRESS)) with (load32 m1 (PROGRAM_LOAD_ADDRESS + 24)).
  rewrite (Hfield 20%nat ltac:(lia) : load32 m1 (PROGRAM_LOAD_ADDRESS + 20) = _), (Hfield 24%nat ltac:(lia) : load32 m1 (PROGRAM_LOAD_ADDRESS + 24) = _), Hn, Nat2Z.id.
  fold T. rewrite (wrap_small 32 T) by (pose proof (rt_space _ _ _ Ht); lia).
  destruct (relocate_ok PROGRAM_LOAD_ADDRESS words m1 T Ht) as [H1 H2]. set (m' := apply_relocation m1 T (length words) PROGRAM_LOAD_ADDRESS) in *.
  exists m', d. split; [|done]. unfold mret, M_ret. do 4 f_equal. f_equal. cbn [entry_point program_header].
  rewrite <- (Hfield 8%nat ltac:(lia)). f_equal. apply (load32_ext m' m1 (PROGRAM_LOAD_ADDRESS + 8)). intros y Hy. apply H2. intros a Ha Hya. destruct (Hh a Ha); unfold PROGRAM_LOAD_ADDRESS in *; lia.
Qed.
End Start.

(** The table of the programs' linker script lists addresses from 0x100000 on, where the
    programs are linked; they are not moved to the load address.  Relocation leaves a
    program whose table lists such addresses as it is and adds the load address to words
    of the memory below it, where the kernel is. *)
Theorem relocation_below_program (m : Z -> Z) (T : Z) (words : list Z) : reloc_table m T words -> (forall a, a ∈ words -> a + 4 <= PROGRAM_LOAD_ADDRESS) ->
  let m' := apply_relocation m T (length words) PROGRAM_LOAD_ADDRESS in
  (forall x, PROGRAM_LOAD_ADDRESS <= x -> m' x = m x) /\ (forall a, a ∈ words -> load32 m' a <> load32 m a).
Proof.
  intros Ht Hlow. destruct (relocate_ok PROGRAM_LOAD_ADDRESS words m T Ht) as [H1 H2]. split.
  - intros x Hx. apply H2. intros a Ha. pose proof (Hlow a Ha). lia.
  - intros a Ha. rewrite H1 by done. pose proof (load32_range m a). unfold wrap, PROGRAM_LOAD_ADDRESS. zlia.
Qed.

(** ** Witnesses *)

(** A program of 600 bytes: the entry point behind the header, and a relocation table at 40
    that lists the words at 60 and 64. *)
Definition prog_head : buf :=
  [77; 89; 80; 82] ++ le_put 4 0xDEADBEEF ++ le_put 4 28 ++ le_put 4 572 ++ le_put 4 0 ++ le_put 4 40 ++ le_put 4 8 ++ zeros 12 ++
  le_put 4 (PROGRAM_LOAD_ADDRESS + 60) ++ le_put 4 (PROGRAM_LOAD_ADDRESS + 64) ++ zeros 12 ++ le_put 4 100 ++ le_put 4 200.
Definition prog_page : buf := Eval vm_compute in prog_head ++ zeros (512 - length prog_head).
Definition prog_vol : fat32 RamDisk := vol_with fat_file [(2, kernel_dir); (5, prog_page); (7, page 66)].

Lemma prog_vol_ok : volume_ok prog_vol.
Proof.
  apply vol_with_ok; [apply fat_file_ok..|]. repeat apply Forall_cons_2; [..|apply Forall_nil_2]; try (apply page_ok; unfold byte_ok; lia).
  all: split; [reflexivity|]; apply bytes_check; vm_compute; reflexivity.
Qed.

Lemma prog_file : program_file prog_vol 3 kernel_b bin_e kernel_entry [7].
Proof.
  split; [exact prog_vol_ok|by vm_compute|exact (dos_short _ _ kernel_bin)|exact kernel_named| |cbn; lia|by vm_compute|].
  - replace (read_start_cluster kernel_entry) with 5 by (vm_compute; reflexivity).
    split; [repeat constructor; (lia || reflexivity)|]. split; [split; [vm_compute; reflexivity|done]|].
    intros c Hc. injection Hc as <-. vm_compute. discriminate.
  - apply Nat.leb_le. by vm_compute.
Qed.

Definition prog_image : buf := Eval vm_compute in file_image prog_vol kernel_entry [7].
Lemma prog_image_eq : file_image prog_vol kernel_entry [7] = prog_image.
Proof. by vm_compute. Qed.

Definition prog_words : list Z := [PROGRAM_LOAD_ADDRESS + 60; PROGRAM_LOAD_ADDRESS + 64].

Lemma prog_table : reloc_table (mem_put (fun _ => 0) PROGRAM_LOAD_ADDRESS prog_image) (PROGRAM_LOAD_ADDRESS + 40) prog_words.
Proof.
  split.
  - intros [|[|i]] a Hi; [injection Hi as <-; by vm_compute..|done].
  - by vm_compute.
  - intros a [->|[->|[]%not_elem_of_nil]%elem_of_cons]%elem_of_cons; unfold apart, PROGRAM_LOAD_ADDRESS; cbn; lia.
  - intros [|[|i]] [|[|j]] a b Hi Hj Hne; try done; injection Hi as <-; injection Hj as <-; unfold apart, PROGRAM_LOAD_ADDRESS; lia.
Qed.

Lemma program_started_witness : exists m' d,
  load_and_execute_program granted 3 (kernel_name ++ [0]) (fun _ => 0) prog_vol = Some ((Some (PROGRAM_LOAD_ADDRESS + 28), m'), with_dev prog_vol d) /\
  load32 m' (PROGRAM_LOAD_ADDRESS + 60) = PROGRAM_LOAD_ADDRESS + 100 /\ load32 m' (PROGRAM_LOAD_ADDRESS + 64) = PROGRAM_LOAD_ADDRESS + 200.
Proof.
  pose proof (program_started granted (fun _ => eq_refl) prog_vol 3 kernel_b bin_e kernel_entry [7] (fun _ => 0) prog_words prog_file) as H.
  rewrite prog_image_eq in H. cbv zeta in H. replace (PROGRAM_LOAD_ADDRESS + le_get (slice prog_image 20 4)) with (PROGRAM_LOAD_ADDRESS + 40) in H by (vm_compute; reflexivity).
  destruct (H prog_table) as (m' & d & E & _ & Hw & _); [by vm_compute| |].
  { intros a [->|[->|[]%not_elem_of_nil]%elem_of_cons]%elem_of_cons; unfold apart, PROGRAM_LOAD_ADDRESS; lia. }
  exists m', d. split; [|split].
  - change (kernel_name ++ [0]) with (name_str kernel_b bin_e). rewrite E. do 4 f_equal.
  - rewrite Hw by (by left). by vm_compute.
  - rewrite Hw by (by right; left). by vm_compute.
Defined.

(** An ELF file of 120 bytes at 4096 with one loadable segment: 4 bytes, and 4 of zeros, to
    address 8192. *)
Definition elf_bytes : buf := Eval vm_compute in
  elf_magic ++ zeros 12 ++ le_put 2 2 ++ le_put 2 3 ++ le_put 4 1 ++ le_put 4 8192 ++ le_put 4 52 ++ zeros 8 ++ le_put 2 52 ++ le_put 2 32 ++ le_put 2 1 ++ zeros 6 ++
  le_put 4 1 ++ le_put 4 100 ++ le_put 4 8192 ++ le_put 4 8192 ++ le_put 4 4 ++ le_put 4 8 ++ le_put 4 5 ++ le_put 4 4096 ++ zeros 16 ++ [1; 2; 3; 4] ++ zeros 16.
Definition elf_mem : Z -> Z := mem_put (fun _ => 9) 4096 elf_bytes.

Lemma elf_bytes_file : elf_file elf_mem 4096 120.
Proof.
  assert (forall i, loads elf_mem 4096 i -> i = 0) as H0 by (intros i [Hi _]; change (e_phnum (elf_header elf_mem 4096)) with 1 in Hi; lia).
  split; [by vm_compute|by vm_compute|by vm_compute| |].
  - intros i Hi. rewrite (H0 i Hi). vm_compute. split_and!; try done. by right.
  - intros i j Hi Hj Hne. destruct Hne. by rewrite (H0 i Hi), (H0 j Hj).
Qed.

Lemma elf_mem_values : loads elf_mem 4096 0 /\ e_entry (elf_header elf_mem 4096) = 8192 /\ e_phnum (elf_header elf_mem 4096) = 1 /\
  phdr_at elf_mem 4096 0 = Mk_phdr 1 100 8192 4 8 /\ segment_byte elf_mem 4096 (Mk_phdr 1 100 8192 4 8) 8194 = 3 /\ elf_mem 8200 = 9.
Proof. by vm_compute. Qed.

Lemma load_elf_image_witness : exists out m', load_elf 2 4096 elf_mem = Some (0, out ++ [Jumping 8192; Hex_dump 8192 512], m') /\ m' 8194 = 3 /\ m' 8196 = 0 /\ m' 8200 = 9.
Proof.
  destruct elf_mem_values as (L0 & Ee & En & Eh & E3 & E9).
  destruct (proj2 (load_elf_image elf_mem 4096 120 2 eq_refl) elf_bytes_file) as (out & m' & E & Hs & Hr); [rewrite En; lia|]. rewrite Ee in E. exists out, m'.
  pose proof (Hs 0 8194 L0) as H3. pose proof (Hs 0 8196 L0) as H4. rewrite Eh in H3, H4. split; [exact E|]. split; [|split].
  - rewrite H3; [exact E3|]. unfold in_segment, seg_size. cbn [p_vaddr p_filesz p_memsz]. lia.
  - rewrite H4; [reflexivity|]. unfold in_segment, seg_size. cbn [p_vaddr p_filesz p_memsz]. lia.
  - rewrite Hr; [exact E9|]. intros i [Hi _]. rewrite En in Hi. replace i with 0 by lia. rewrite Eh. unfold in_segment, seg_size. cbn [p_vaddr p_filesz p_memsz]. lia.
Defined.
