(* ===== verification/NetCmd.v ===== *)
(** The network commands of kernel/shell/command.c: ifconfig, ping, arp, net and get-ip, and
    the listing of the PCI devices.

    A command prints and acts on the network stack of Net.v and on the cards; [netshell] is
    these three, with the static variable of [cmd_ping].  A card is the operations that the
    commands use of its driver ([card]), on the stack's state, which has the NE2000, and on
    the state [X] of the other cards. *)

From stdpp Require Import strings.
From S2P Require Import Prelude Effects CString CStdlib CStdio Printf Net Ports Cpu Pci.

Record netshell (X : Type) := Mk_nsh { nh_out : buf; nh_seq : Z; nh_net : net; nh_cards : X }.
Arguments Mk_nsh {X}. Arguments nh_out {X}. Arguments nh_seq {X}. Arguments nh_net {X}. Arguments nh_cards {X}.

Record card (X : Type) := Mk_card {
  is_initialized : net * X -> bool;
  get_mac_address : M (net * X) buf;
  send_test_packet : M (net * X) unit;
  receive_packet : nat -> M (net * X) (option buf)     (* [None]: a result of 0 or less *)
}.
Arguments Mk_card {X}. Arguments is_initialized {X}. Arguments get_mac_address {X}. Arguments send_test_packet {X}. Arguments receive_packet {X}.

Section Commands.
Context {X : Type} (rtl8139 e1000 ne2000 : card X) (fresh : nat -> buf).
Context (e1000_debug_registers : M (net * X) unit).        (* prints registers of the card *)
Abbreviation A := (M (netshell X)).

Definition on_net {Y} (m : M net Y) : A Y := fun s =>
  match m (nh_net s) with Some (y, n) => Some (y, Mk_nsh (nh_out s) (nh_seq s) n (nh_cards s)) | None => None end.
Definition on_cards {Y} (m : M (net * X) Y) : A Y := fun s =>
  match m (nh_net s, nh_cards s) with Some (y, (n, c)) => Some (y, Mk_nsh (nh_out s) (nh_seq s) n c) | None => None end.
Definition ready (c : card X) : A bool := gets (fun s => is_initialized c (nh_net s, nh_cards s)).

(** [printf], with and without a line end. *)
Definition emit (t : buf) : A unit := modify (fun s => Mk_nsh (nh_out s ++ t) (nh_seq s) (nh_net s) (nh_cards s)).
Definition print (format : buf) (args : list va_word) : A unit := t ← lift (printf format args); emit t.
Definition nsay (format : string) (args : list va_word) : A unit := print (lit_bytes format ++ [10; 0]) args.
Definition nsay_ (format : string) (args : list va_word) : A unit := print (lit format) args.

Definition is_word (a : buf) (upper lower : string) : option bool :=
  c ← strcmp a (lit upper);
  if c =? 0 then Some true else d ← strcmp a (lit lower); Some (d =? 0).

(** * The network stack *)

Definition cmd_ifconfig (args : list buf) : A unit :=
  match args with
  | [] =>
      _ ← nsay "IFCONFIG - Configure network interface" [];
      _ ← nsay "Usage: ifconfig <ip> <netmask> <gateway>" [];
      nsay "Example: ifconfig 10.0.2.15 255.255.255.0 10.0.2.1" []
  | a0 :: a1 :: a2 :: _ =>
      ip ← lift (parse_ipv4 (Some a0));
      netmask ← lift (parse_ipv4 (Some a1));
      gateway ← lift (parse_ipv4 (Some a2));
      if (ip =? 0) || (netmask =? 0) || (gateway =? 0) then nsay "Error: Invalid IP address format" []
      else
        _ ← on_net (netstack_set_config ip netmask gateway);
        nsay "Network interface configured successfully" []
  | _ => nsay "Error: Requires 3 arguments (IP, netmask, gateway)" []
  end.

Definition ping_id : Z := 0x1234.

Definition cmd_ping (args : list buf) : A unit :=
  match args with
  | [] =>
      _ ← nsay "PING - Send ICMP echo request" [];
      _ ← nsay "Usage: ping <ip_address>" [];
      nsay "Example: ping 10.0.2.1" []
  | a0 :: _ =>
      target_ip ← lift (parse_ipv4 (Some a0));
      if target_ip =? 0 then nsay "Error: Invalid IP address" []
      else
        seq ← gets nh_seq;
        _ ← nsay "PING %s (id=0x%04X, seq=%d)..." [VStr (Some a0); VInt ping_id; VInt seq];
        mac ← on_net (arp_lookup target_ip);
        match mac with
        | None =>
            _ ← nsay "No ARP entry for %s, sending ARP request..." [VStr (Some a0)];
            _ ← on_net (arp_send_request target_ip);
            nsay "Try again after ARP reply is received." []
        | Some _ =>
            _ ← on_net (icmp_send_echo_request target_ip (htons ping_id) (htons seq));
            modify (fun s => Mk_nsh (nh_out s) (u16 (seq + 1)) (nh_net s) (nh_cards s))
        end
  end.

Definition cmd_arp (args : list buf) : A unit :=
  _ ← nsay "ARP - Address Resolution Protocol" [];
  _ ← nsay "Commands:" [];
  _ ← nsay "  arp scan <ip> - Send ARP request to IP" [];
  _ ← nsay "  arp cache     - Show ARP cache (not yet implemented)" [];
  match args with
  | [] => mret tt
  | a0 :: rest =>
      c ← lift (strcmp a0 (lit "scan"));
      if negb (c =? 0) then mret tt else
      match rest with
      | [] => nsay "Usage: arp scan <ip_address>" []
      | a1 :: _ =>
          target_ip ← lift (parse_ipv4 (Some a1));
          if target_ip =? 0 then nsay "Error: Invalid IP address" []
          else
            _ ← nsay "Sending ARP request to %s..." [VStr (Some a1)];
            on_net (arp_send_request target_ip)
      end
  end.

Definition cmd_get_ip : A unit :=
  ip ← on_net (netstack_get_ip_address fresh);
  str ← lift (format_ipv4 ip (fresh 16));
  text ← lift (chars str);
  _ ← emit text;
  emit [10].

(** * The cards *)

Definition print_mac (mac : buf) : A unit :=
  match mac with
  | [a; b; c; d; e; f] => nsay "  MAC Address: %02X:%02X:%02X:%02X:%02X:%02X" [VInt a; VInt b; VInt c; VInt d; VInt e; VInt f]
  | _ => undef
  end.

Definition net_usage : A unit :=
  _ ← nsay "NET command - Network interface management" [];
  _ ← nsay "Usage:" [];
  _ ← nsay "  NET STATUS  - Show network interface status" [];
  _ ← nsay "  NET SEND    - Send test packet" [];
  _ ← nsay "  NET INFO    - Show detailed network information" [];
  _ ← nsay "  NET DEBUG   - Show E1000 register dump" [];
  _ ← nsay "  NET LISTEN [n] - Listen for incoming packets (n=count, default 10)" [];
  nsay "  NET RECV    - Try to receive one packet" [].

Definition card_status (c : card X) (title : string) : A bool :=
  r ← ready c;
  if r : bool then _ ← nsay title []; mac ← on_cards (get_mac_address c); _ ← print_mac mac; mret true else mret false.

Definition net_status : A unit :=
  a ← card_status rtl8139 "Network card: Realtek RTL8139 (initialized)";
  b ← card_status e1000 "Network card: Intel E1000 (initialized)";
  c ← card_status ne2000 "Network card: NE2000 compatible (initialized)";
  if a || b || c then mret tt else nsay "No network card initialized" [].

(** [has_info]: a card has been printed before. *)
Definition card_info (c : card X) (title driver : string) (has_info : bool) : A bool :=
  r ← ready c;
  if r : bool then
    _ ← (if has_info then nsay "" [] else mret tt);
    _ ← nsay title [];
    mac ← on_cards (get_mac_address c);
    _ ← print_mac mac;
    _ ← nsay "  Status: Initialized and ready" [];
    _ ← nsay driver []; mret true
  else mret has_info.

Definition net_info : A unit :=
  i ← card_info rtl8139 "RTL8139 Network Adapter Info:" "  Driver: Realtek RTL8139 (PCI 10EC:8139)" false;
  i ← card_info e1000 "E1000 Network Adapter Info:" "  Driver: Intel E1000 (PCI 8086:100E)" i;
  i ← card_info ne2000 "NE2000 Network Adapter Info:" "  Driver: NE2000 compatible (PCI 10EC:8029)" i;
  if i : bool then mret tt else nsay "No network card initialized" [].

(** [n] bytes in rows of sixteen; [sep] is what ends a row. *)
Fixpoint print_bytes (data : buf) (i : Z) (n : nat) (sep : buf) : A unit :=
  match n with
  | O => mret tt
  | S n' =>
      v ← lift (rd data i);
      _ ← nsay_ "%02X " [VInt v];
      _ ← (if Z.rem (i + 1) 16 =? 0 then emit sep else mret tt);
      print_bytes data (i + 1) n' sep
  end.

Definition net_debug : A unit :=
  r ← ready rtl8139;
  if r : bool then
    _ ← nsay "RTL8139 Debug Info:" [];
    mac ← on_cards (get_mac_address rtl8139);
    _ ← print_mac mac;
    nsay "  (Register dump not yet implemented for RTL8139)" []
  else
    r ← ready e1000;
    if r : bool then
      _ ← on_cards e1000_debug_registers;
      _ ← emit [10]; _ ← nsay "Manually checking for packets..." [];
      p ← on_cards (receive_packet e1000 2048);
      match p with
      | Some p =>
          _ ← nsay "Found packet! Length: %d bytes" [VInt (blen p)];
          _ ← nsay_ "Data: " [];
          _ ← print_bytes p 0 (Nat.min (length p) 64) ([10] ++ replicate 6 32);
          nsay "" []
      | None => nsay "No packets in RX ring" []
      end
    else nsay "E1000 not initialized" [].

Definition send_test (c : card X) (title : string) : A unit :=
  _ ← nsay title []; _ ← on_cards (send_test_packet c); nsay "Test packet sent." [].

Definition net_send : A unit :=
  r ← ready rtl8139;
  if r : bool then send_test rtl8139 "Sending test packet via RTL8139..."
  else
    r ← ready e1000;
    if r : bool then send_test e1000 "Sending test packet via E1000..."
    else
      r ← ready ne2000;
      if r : bool then send_test ne2000 "Sending test packet via NE2000..."
      else nsay "Network card not initialized. Cannot send packet." [].

(** The card that is listened on. *)
Definition receive_any : A (option buf) :=
  r ← ready e1000;
  if r : bool then on_cards (receive_packet e1000 1500)
  else r ← ready ne2000; if r : bool then on_cards (receive_packet ne2000 1500) else mret None.

(** What is done with a packet that lies at the start of the buffer. *)
Definition show_packet (buffer : buf) (len packets_received : Z) : A unit :=
  _ ← emit [10]; _ ← nsay "[Packet %d] Received %d bytes:" [VInt packets_received; VInt len];
  _ ← on_net (netstack_process_packet buffer (u16 len));
  _ ← (if 14 <=? len then
         match buffer with
         | d0 :: d1 :: d2 :: d3 :: d4 :: d5 :: s0 :: s1 :: s2 :: s3 :: s4 :: s5 :: t0 :: t1 :: _ =>
             _ ← nsay "  Dst MAC: %02X:%02X:%02X:%02X:%02X:%02X" [VInt d0; VInt d1; VInt d2; VInt d3; VInt d4; VInt d5];
             _ ← nsay "  Src MAC: %02X:%02X:%02X:%02X:%02X:%02X" [VInt s0; VInt s1; VInt s2; VInt s3; VInt s4; VInt s5];
             nsay "  EtherType: 0x%04X" [VInt (Z.lor (Z.shiftl t0 8) t1)]
         | _ => undef
         end
       else mret tt);
  _ ← nsay_ "  Data: " [];
  _ ← print_bytes buffer 0 (Z.to_nat (if len <? 64 then len else 64)) ([10] ++ replicate 8 32);
  nsay "" [].

(** [rounds] more rounds from [i] on; the result is the number of packets. *)
Fixpoint listen_loop (rounds : nat) (i : Z) (buffer : buf) (packets_received max_packets : Z) : A Z :=
  match rounds with
  | O => mret packets_received
  | S n =>
      p ← receive_any;
      match p with
      | Some p =>
          let buffer := blit buffer 0 p in
          let packets_received := packets_received + 1 in
          _ ← show_packet buffer (blen p) packets_received;
          if max_packets <=? packets_received then mret packets_received
          else _ ← (if Z.rem i 10000 =? 0 then nsay_ "." [] else mret tt); listen_loop n (i + 1) buffer packets_received max_packets
      | None => _ ← (if Z.rem i 10000 =? 0 then nsay_ "." [] else mret tt); listen_loop n (i + 1) buffer packets_received max_packets
      end
  end.

(** The number of packets to wait for. *)
Definition listen_count (args : list buf) : A Z :=
  match args with
  | [] => mret 10
  | a1 :: _ =>
      n ← lift (atoi (Some a1));
      if (n <=? 0) || (100 <? n) then _ ← nsay "Invalid packet count. Using default (10)." []; mret 10 else mret n
  end.

Definition net_listen (args : list buf) : A unit :=
  e ← ready e1000;
  n ← ready ne2000;
  if negb (e || n) then nsay "Network card not initialized." []
  else
    _ ← (if e : bool then nsay "Using E1000 adapter" [] else nsay "Using NE2000 adapter" []);
    max_packets ← listen_count args;
    _ ← nsay "Listening for up to %d packets... (Press Ctrl+C to stop)" [VInt max_packets];
    _ ← nsay "Waiting for network traffic..." [];
    k ← listen_loop (Z.to_nat (max_packets * 100000)) 0 (fresh 1500) 0 max_packets;
    _ ← emit [10]; nsay "%d packet(s) received." [VInt k].

Definition show_received (p : option buf) : A unit :=
  match p with
  | Some p =>
      _ ← nsay "Received %d bytes:" [VInt (blen p)];
      _ ← print_bytes p 0 (Nat.min (length p) 128) [10];
      nsay "" []
  | None => nsay "No packet available." []
  end.

Definition net_recv : A unit :=
  r ← ready e1000;
  if r : bool then p ← on_cards (receive_packet e1000 1500); show_received p
  else
    r ← ready ne2000;
    if r : bool then p ← on_cards (receive_packet ne2000 1500); show_received p
    else nsay "Network card not initialized." [].

Definition cmd_net (args : list buf) : A unit :=
  match args with
  | [] => net_usage
  | a0 :: rest =>
      b ← lift (is_word a0 "STATUS" "status"); if b : bool then net_status else
      b ← lift (is_word a0 "INFO" "info"); if b : bool then net_info else
      b ← lift (is_word a0 "DEBUG" "debug"); if b : bool then net_debug else
      b ← lift (is_word a0 "SEND" "send"); if b : bool then net_send else
      b ← lift (is_word a0 "LISTEN" "listen"); if b : bool then net_listen rest else
      b ← lift (is_word a0 "RECV" "recv"); if b : bool then net_recv else
      _ ← nsay "Unknown NET command: %s" [VStr (Some a0)];
      nsay "Type 'NET' without arguments for help" []
  end.

(** * The PCI devices *)

Fixpoint print_bars (l : list Z) (b : Z) : A unit :=
  match l with
  | [] => mret tt
  | v :: l' => _ ← (if negb (v =? 0) then nsay "     BAR%-1d: 0x%08X" [VInt b; VInt v] else mret tt); print_bars l' (b + 1)
  end.

Fixpoint print_devices (l : list pci_device_t) (i : Z) : A unit :=
  match l with
  | [] => mret tt
  | d :: l' =>
      _ ← nsay "[%02u] Bus %u Slot %u Func %u  Vendor:0x%04X Device:0x%04X" [VInt i; VInt (pci_bus d); VInt (pci_slot d); VInt (pci_function d); VInt (vendor_id d); VInt (device_id d)];
      _ ← nsay "     Class: 0x%02X Subclass: 0x%02X ProgIF: 0x%02X Rev: 0x%02X Header: 0x%02X IRQ: %u"
            [VInt (class_code d); VInt (subclass_code d); VInt (prog_if d); VInt (revision_id d); VInt (header_type d); VInt (irq_line d)];
      _ ← print_bars (bar d) 0;
      _ ← nsay "" [];
      print_devices l' (i + 1)
  end.

Definition cmd_pci {H} (p : pci H) : A unit :=
  if pci_device_count p =? 0 then nsay "No PCI devices detected" []
  else
    _ ← emit [10]; _ ← nsay "Detected PCI devices: %u" [VInt (pci_device_count p)];
    print_devices (take (Z.to_nat (pci_device_count p)) (pci_devices p)) 0.
End Commands.

(** * What the commands do *)

Section Behaviour.
Context {X : Type} (rtl8139 e1000 ne2000 : card X) (fresh : nat -> buf).
Implicit Types s : netshell X.

(** Only text has been printed. *)
Definition printed s s' : Prop := nh_seq s' = nh_seq s /\ nh_net s' = nh_net s /\ nh_cards s' = nh_cards s.

Lemma printed_refl s : printed s s.
Proof. done. Qed.
Lemma printed_trans s1 s2 s3 : printed s1 s2 -> printed s2 s3 -> printed s1 s3.
Proof. intros (?&?&?) (?&?&?). split_and!; congruence. Qed.

Lemma emit_bind {B} t (k : unit -> M (netshell X) B) s : (emit t ≫= k) s = k tt (Mk_nsh (nh_out s ++ t) (nh_seq s) (nh_net s) (nh_cards s)).
Proof. done. Qed.

Lemma print_ok {B} format args (k : unit -> M (netshell X) B) s : fits (S (length format)) format (map kind_of args) = true -> Forall terminated args ->
  exists s', (print format args ≫= k) s = k tt s' /\ printed s s'.
Proof.
  intros Hf Ha. destruct (printf_loop_total _ format args Hf Ha) as [t Et]. eexists. unfold print. rewrite bind_assoc.
  rewrite (lift_bind (printf format args) t) by exact Et. rewrite emit_bind. split; [reflexivity|done].
Qed.

Lemma nsay_last format args s : fits (S (length (lit_bytes format ++ [10; 0]))) (lit_bytes format ++ [10; 0]) (map kind_of args) = true -> Forall terminated args ->
  exists s', nsay format args s = Some (tt, s') /\ printed s s'.
Proof.
  intros Hf Ha. destruct (printf_loop_total _ _ args Hf Ha) as [t Et]. eexists. unfold nsay, print.
  rewrite (lift_bind (printf _ args) t) by exact Et. split; [reflexivity|done].
Qed.

Lemma nsay_ok {B} format args (k : unit -> M (netshell X) B) s :
  fits (S (length (lit_bytes format ++ [10; 0]))) (lit_bytes format ++ [10; 0]) (map kind_of args) = true -> Forall terminated args ->
  exists s', (nsay format args ≫= k) s = k tt s' /\ printed s s'.
Proof. apply print_ok. Qed.
Lemma nsay__ok {B} format args (k : unit -> M (netshell X) B) s :
  fits (S (length (lit format))) (lit format) (map kind_of args) = true -> Forall terminated args ->
  exists s', (nsay_ format args ≫= k) s = k tt s' /\ printed s s'.
Proof. apply print_ok. Qed.

(** A message in front of something: its format is checked by evaluation. *)
Ltac printing s' :=
  let E := fresh "E" in let P := fresh "P" in
  lazymatch goal with
  | |- context [@mbind _ _ _ _ ?k (nsay ?f ?a) ?s] => destruct (nsay_ok f a k s) as (s' & E & P); [by vm_compute| |rewrite E; clear E]
  | |- context [@mbind _ _ _ _ ?k (nsay_ ?f ?a) ?s] => destruct (nsay__ok f a k s) as (s' & E & P); [by vm_compute| |rewrite E; clear E]
  end.

Lemma on_net_bind {Y B} (m : M net Y) y n (k : Y -> M (netshell X) B) s : m (nh_net s) = Some (y, n) ->
  (on_net m ≫= k) s = k y (Mk_nsh (nh_out s) (nh_seq s) n (nh_cards s)).
Proof. intros E. unfold on_net, mbind, M_bind. by rewrite E. Qed.

Lemma on_cards_bind {Y B} (m : M (net * X) Y) y n c (k : Y -> M (netshell X) B) s : m (nh_net s, nh_cards s) = Some (y, (n, c)) ->
  (on_cards m ≫= k) s = k y (Mk_nsh (nh_out s) (nh_seq s) n c).
Proof. intros E. unfold on_cards, mbind, M_bind. by rewrite E. Qed.

(** ** ifconfig *)

Lemma ifconfig_ok s (a0 a1 a2 : buf) (ip mask gw : Z) (more : list buf) :
  parse_ipv4 (Some a0) = Some ip -> parse_ipv4 (Some a1) = Some mask -> parse_ipv4 (Some a2) = Some gw -> ip <> 0 -> mask <> 0 -> gw <> 0 ->
  exists out, cmd_ifconfig (a0 :: a1 :: a2 :: more) s = Some (tt, Mk_nsh out (nh_seq s)
    (with_config (nh_net s) (Mk_config ip mask gw (dns_server (net_config (nh_net s))) (mac_address (net_config (nh_net s))))) (nh_cards s)).
Proof.
  intros E0 E1 E2 N0 N1 N2. unfold cmd_ifconfig. rewrite (lift_bind _ _ _ _ E0), (lift_bind _ _ _ _ E1), (lift_bind _ _ _ _ E2).
  rewrite (proj2 (Z.eqb_neq _ _) N0), (proj2 (Z.eqb_neq _ _) N1), (proj2 (Z.eqb_neq _ _) N2). cbn [orb].
  erewrite on_net_bind by reflexivity.
  destruct (nsay_last "Network interface configured successfully" [] (Mk_nsh (nh_out s) (nh_seq s)
    (with_config (nh_net s) (Mk_config ip mask gw (dns_server (net_config (nh_net s))) (mac_address (net_config (nh_net s))))) (nh_cards s))) as (s' & E & Hs & Hn & Hc); [by vm_compute|constructor|].
  exists (nh_out s'). rewrite E. destruct s'. cbn in *. by subst.
Qed.

(** ** ping *)

Lemma ping_ok s (a : buf) (ip : Z) n' : parse_ipv4 (Some a) = Some ip -> ip <> 0 -> is_Some (chars a) ->
  let known := arp_find (arp_cache (nh_net s)) ip in
  (if known is Some _ then icmp_send_echo_request ip (htons ping_id) (htons (nh_seq s)) (nh_net s) else arp_send_request ip (nh_net s)) = Some (tt, n') ->
  exists out, cmd_ping [a] s = Some (tt, Mk_nsh out (if known is Some _ then u16 (nh_seq s + 1) else nh_seq s) n' (nh_cards s)).
Proof.
  intros Ep N0 Ha known Hn. unfold cmd_ping. rewrite (lift_bind _ _ _ _ Ep), (proj2 (Z.eqb_neq _ _) N0), gets_bind.
  printing s1; [repeat constructor; exact Ha|]. destruct P as (P1 & P2 & P3).
  erewrite on_net_bind by (rewrite P2; reflexivity). fold known. destruct known as [mac|].
  - erewrite on_net_bind by (cbn [nh_net]; exact Hn). eexists. cbn. rewrite P3. reflexivity.
  - printing s2; [repeat constructor; exact Ha|]. destruct P as (Q1 & Q2 & Q3). cbn in Q1, Q2, Q3. erewrite on_net_bind by (rewrite Q2; exact Hn).
    destruct (nsay_last "Try again after ARP reply is received." [] (Mk_nsh (nh_out s2) (nh_seq s2) n' (nh_cards s2))) as (s3 & E & R1 & R2 & R3); [by vm_compute|constructor|].
    exists (nh_out s3). rewrite E. destruct s3. cbn in *. subst. by rewrite Q1, Q3, P1, P3.
Qed.

(** ** net listen *)

(** The E1000 as a queue of frames that [receive_packet] takes from. *)
Context (queue : X -> list buf) (queue_ready : forall n x, is_initialized e1000 (n, x) = true).
Context (queue_receive : forall n x, exists x', receive_packet e1000 1500 (n, x) = Some (head (queue x), (n, x')) /\ queue x' = tail (queue x)).

Definition frame_ok (p : buf) : Prop := bytes_ok p /\ (1 <= length p <= 1500)%nat.

(** The frames through the network stack, each at the start of the one buffer. *)
Fixpoint process_frames (buffer : buf) (l : list buf) (n : net) : option net :=
  match l with
  | [] => Some n
  | p :: l' => match netstack_process_packet (blit buffer 0 p) (u16 (blen p)) n with Some (_, n') => process_frames (blit buffer 0 p) l' n' | None => None end
  end.

Lemma print_bytes_ok {B} data sep n : forall i (k : unit -> M (netshell X) B) s, 0 <= i -> i + Z.of_nat n <= blen data ->
  exists s', (print_bytes data i n sep ≫= k) s = k tt s' /\ printed s s'.
Proof.
  induction n as [|n IH]; intros i k s Hi Hn; [by exists s|]. cbn [print_bytes]. rewrite bind_assoc.
  destruct (lookup_lt_is_Some_2 data (Z.to_nat i)) as [v Ev]; [unfold blen in Hn; lia|].
  rewrite (lift_bind (rd data i) v) by (unfold rd; destruct (Z.ltb_spec i 0); [lia|done]).
  rewrite bind_assoc. printing s1; [repeat constructor|]. rewrite bind_assoc. destruct (Z.rem (i + 1) 16 =? 0).
  - rewrite emit_bind. destruct (IH (i + 1) k (Mk_nsh (nh_out s1 ++ sep) (nh_seq s1) (nh_net s1) (nh_cards s1)) ltac:(lia) ltac:(lia)) as (s2 & E & P2). exists s2. split; [exact E|].
    by eapply printed_trans; [exact P|].
  - destruct (IH (i + 1) k s1 ltac:(lia) ltac:(lia)) as (s2 & E & P2). exists s2. split; [exact E|by eapply printed_trans].
Qed.

Lemma show_packet_ok {B} buffer len count n' (k : unit -> M (netshell X) B) s : length buffer = 1500%nat -> 1 <= len <= 1500 ->
  netstack_process_packet buffer (u16 len) (nh_net s) = Some (tt, n') ->
  exists s', (show_packet buffer len count ≫= k) s = k tt s' /\ nh_seq s' = nh_seq s /\ nh_net s' = n' /\ nh_cards s' = nh_cards s.
Proof.
  intros Hb Hlen Hn. unfold show_packet. rewrite bind_assoc, emit_bind, bind_assoc. printing s1; [repeat constructor|]. destruct P as (P1 & P2 & P3).
  rewrite bind_assoc. rewrite (on_net_bind _ tt n') by (rewrite P2; exact Hn). set (s2 := Mk_nsh _ _ n' _). rewrite bind_assoc.
  match goal with |- context [(?m ≫= ?k') s2] => assert (exists s3, (m ≫= k') s2 = k' tt s3 /\ printed s2 s3) as (s3 & -> & Q1 & Q2 & Q3) end.
  { destruct (14 <=? len); [|by exists s2]. do 14 (destruct buffer as [|? buffer]; [done|]).
    rewrite bind_assoc. printing t1; [repeat constructor|]. rewrite bind_assoc. printing t2; [repeat constructor|]. printing t3; [repeat constructor|].
    exists t3. split; [done|]. by repeat (eapply printed_trans; [eassumption|]). }
  rewrite bind_assoc. printing s4; [repeat constructor|]. rewrite bind_assoc.
  match goal with |- context [(print_bytes buffer 0 ?n ?sep ≫= ?k') s4] => destruct (print_bytes_ok buffer sep n 0 k' s4) as (s5 & -> & R1 & R2 & R3) end.
  { lia. } { unfold blen. rewrite Hb. destruct (Z.ltb_spec len 64); lia. }
  printing s6; [repeat constructor|]. exists s6. split; [done|]. destruct P as (T1 & T2 & T3), P0 as (U1 & U2 & U3). cbn in *. split_and!; congruence.
Qed.

Lemma receive_any_bind {B} (k : option buf -> M (netshell X) B) s : exists x', (receive_any e1000 ne2000 ≫= k) s =
  k (head (queue (nh_cards s))) (Mk_nsh (nh_out s) (nh_seq s) (nh_net s) x') /\ queue x' = tail (queue (nh_cards s)).
Proof using queue_ready queue_receive.
  destruct (queue_receive (nh_net s) (nh_cards s)) as (x' & E & Hq). exists x'. split; [|done]. unfold receive_any. rewrite bind_assoc. unfold ready. rewrite gets_bind, queue_ready.
  by rewrite (on_cards_bind _ _ _ _ _ _ E).
Qed.

Lemma dot_ok {B} i (k : unit -> M (netshell X) B) s : exists s', ((if Z.rem i 10000 =? 0 then nsay_ "." [] else mret tt) ≫= k) s = k tt s' /\ printed s s'.
Proof. destruct (_ =? 0); [|by exists s]. printing s1; [repeat constructor|]. by exists s1. Qed.

Lemma listen_loop_ok rounds : forall i buffer got max s n', length buffer = 1500%nat -> 0 <= got < max -> max - got <= Z.of_nat rounds ->
  let frames := take (Z.to_nat (max - got)) (queue (nh_cards s)) in Forall frame_ok frames -> process_frames buffer frames (nh_net s) = Some n' ->
  exists s', listen_loop e1000 ne2000 rounds i buffer got max s = Some (got + Z.of_nat (length frames), s') /\
    nh_seq s' = nh_seq s /\ nh_net s' = n' /\ queue (nh_cards s') = drop (Z.to_nat (max - got)) (queue (nh_cards s)).
Proof using queue_ready queue_receive.
  induction rounds as [|rounds IH]; intros i buffer got max s n' Hb Hg Hr frames Hf Hp; [lia|]. cbn [listen_loop].
  match goal with |- context [(receive_any e1000 ne2000 ≫= ?k) s] => destruct (receive_any_bind k s) as (x' & -> & Hx) end.
  destruct (queue (nh_cards s)) as [|p q] eqn:Eq; cbn [head tail] in Hx |- *.
  - unfold frames in *. rewrite take_nil in *. cbn [length process_frames] in *. rewrite drop_nil. injection Hp as <-. clear IH.
    set (s1 := Mk_nsh _ _ _ x'). assert (queue (nh_cards s1) = []) as H0 by exact Hx. assert (nh_seq s1 = nh_seq s /\ nh_net s1 = nh_net s) as [H1 H2] by done.
    match goal with |- context [((if _ then _ else _) ≫= ?k) s1] => destruct (dot_ok i k s1) as (s2 & -> & P1 & P2 & P3) end.
    rewrite <- H1, <- H2, <- P1, <- P2. rewrite <- P3 in H0. clear -H0 queue_ready queue_receive. revert i s2 H0.
    induction rounds as [|rounds IH]; intros i s H0; cbn [listen_loop]; [exists s; by rewrite Z.add_0_r|].
    match goal with |- context [(receive_any e1000 ne2000 ≫= ?k) s] => destruct (receive_any_bind k s) as (x & -> & Hx) end. rewrite H0 in *. cbn [head tail] in *.
    match goal with |- context [((if _ then _ else _) ≫= ?k) ?u] => destruct (dot_ok (i + 1) k u) as (s2 & -> & P1 & P2 & P3) end.
    destruct (IH (i + 1) s2) as (s3 & E & A1 & A2 & A3); [by rewrite P3|]. exists s3. rewrite E. cbn in *. split_and!; congruence.
  - assert (frames = p :: take (Z.to_nat (max - (got + 1))) q) as Efr.
    { unfold frames. replace (Z.to_nat (max - got)) with (S (Z.to_nat (max - (got + 1)))) by lia. done. }
    rewrite Efr in Hf, Hp |- *. apply Forall_cons in Hf as [[Hpb Hpl] Hf]. cbn [process_frames] in Hp.
    destruct (netstack_process_packet (blit buffer 0 p) (u16 (blen p)) (nh_net s)) as [[[] n1]|] eqn:En; [|done].
    assert (length (blit buffer 0 p) = 1500%nat) as Hb' by (rewrite length_blit; lia).
    match goal with |- context [(show_packet ?b ?l ?c ≫= ?k) ?u] => destruct (show_packet_ok b l c n1 k u Hb') as (s1 & -> & S1 & S2 & S3) end; [unfold blen; lia|exact En|].
    cbn [nh_seq nh_cards] in S1, S3. replace (Z.to_nat (max - got)) with (S (Z.to_nat (max - (got + 1)))) by lia. cbn [drop length].
    destruct (Z.leb_spec max (got + 1)).
    + replace (Z.to_nat (max - (got + 1))) with O in * by lia. cbn [take length process_frames] in *. injection Hp as <-. exists s1. split_and!; try done; first [by rewrite S3 | do 2 f_equal; lia].
    + match goal with |- context [((if _ then _ else _) ≫= ?k) ?u] => destruct (dot_ok i k u) as (s2 & -> & P1 & P2 & P3) end.
      assert (queue (nh_cards s2) = q) as Hq2 by (by rewrite P3, S3).
      destruct (IH (i + 1) (blit buffer 0 p) (got + 1) max s2 n' Hb' ltac:(lia) ltac:(lia)) as (s3 & E & A1 & A2 & A3); rewrite ?Hq2, ?P2, ?S2; [done|done|].
      exists s3. rewrite E, A1, A2, A3, Hq2. split_and!; try done; first [congruence | do 2 f_equal; lia].
Qed.
End Behaviour.

(** * Theorems *)

(** [ifconfig] with three addresses as they are printed sets exactly these. *)
Theorem ifconfig_configures {X} (s : netshell X) (ip mask gw : Z) (buffer : buf) :
  0 < ip < 2 ^ 32 -> 0 < mask < 2 ^ 32 -> 0 < gw < 2 ^ 32 -> length buffer = 16%nat ->
  exists a0 a1 a2 out, format_ipv4 ip buffer = Some a0 /\ format_ipv4 mask buffer = Some a1 /\ format_ipv4 gw buffer = Some a2 /\
    cmd_ifconfig [a0; a1; a2] s = Some (tt, Mk_nsh out (nh_seq s)
      (with_config (nh_net s) (Mk_config ip mask gw (dns_server (net_config (nh_net s))) (mac_address (net_config (nh_net s))))) (nh_cards s)).
Proof.
  intros Hi Hm Hg Hb. destruct (ipv4_roundtrip ip buffer ltac:(lia) Hb) as (a0 & F0 & _ & P0). destruct (ipv4_roundtrip mask buffer ltac:(lia) Hb) as (a1 & F1 & _ & P1).
  destruct (ipv4_roundtrip gw buffer ltac:(lia) Hb) as (a2 & F2 & _ & P2). exists a0, a1, a2.
  destruct (ifconfig_ok s a0 a1 a2 ip mask gw [] P0 P1 P2 ltac:(lia) ltac:(lia) ltac:(lia)) as (out & E). by exists out.
Qed.

(** [ping]: with a hardware address for the target an echo request with the next sequence
    number is sent; without one, an ARP request, and the number stays. *)
Theorem ping_command {X} (s : netshell X) (a : buf) (ip : Z) (n' : net) : parse_ipv4 (Some a) = Some ip -> ip <> 0 -> is_Some (chars a) ->
  let known := arp_find (arp_cache (nh_net s)) ip in
  (if known is Some _ then icmp_send_echo_request ip (htons ping_id) (htons (nh_seq s)) (nh_net s) else arp_send_request ip (nh_net s)) = Some (tt, n') ->
  exists out, cmd_ping [a] s = Some (tt, Mk_nsh out (if known is Some _ then u16 (nh_seq s + 1) else nh_seq s) n' (nh_cards s)).
Proof. apply ping_ok. Qed.

(** [net listen] hands the frames that the E1000 has received to the network stack, in
    order and at most as many as asked for, and ends also when fewer arrive: the stack is
    then in the state that it reaches with these frames, and the others are still queued. *)
Theorem net_listen_processes {X} (e1000 ne2000 : card X) (fresh : nat -> buf) (queue : X -> list buf) (s : netshell X) (args : list buf) (k : Z) (n' : net) :
  (forall n x, is_initialized e1000 (n, x) = true) ->
  (forall n x, exists x', receive_packet e1000 1500%nat (n, x) = Some (head (queue x), (n, x')) /\ queue x' = tail (queue x)) ->
  length (fresh 1500%nat) = 1500%nat -> match args with [] => k = 10 | a :: _ => atoi (Some a) = Some k /\ 1 <= k <= 100 end ->
  let frames := take (Z.to_nat k) (queue (nh_cards s)) in Forall frame_ok frames -> process_frames (fresh 1500%nat) frames (nh_net s) = Some n' ->
  exists out x', net_listen e1000 ne2000 fresh args s = Some (tt, Mk_nsh out (nh_seq s) n' x') /\ queue x' = drop (Z.to_nat k) (queue (nh_cards s)).
Proof.
  intros Hi Hq Hb Hk frames Hf Hp. assert (1 <= k <= 100) as Hk1 by (destruct args; [lia|apply Hk]).
  unfold net_listen, ready. rewrite !gets_bind, Hi. cbn [orb negb].
  destruct (nsay_ok "Using E1000 adapter" [] (fun _ => max_packets ← listen_count args;
    _ ← nsay "Listening for up to %d packets... (Press Ctrl+C to stop)" [VInt max_packets]; _ ← nsay "Waiting for network traffic..." [];
    k ← listen_loop e1000 ne2000 (Z.to_nat (max_packets * 100000)) 0 (fresh 1500%nat) 0 max_packets; _ ← emit [10]; nsay "%d packet(s) received." [VInt k]) s) as (s1 & -> & P1 & P2 & P3); [by vm_compute|constructor|].
  assert (listen_count args s1 = Some (k, s1)) as El.
  { destruct args as [|a args]; cbn [listen_count]; [by rewrite Hk|]. destruct Hk as [Ea _]. rewrite (lift_bind _ _ _ _ Ea).
    destruct (Z.leb_spec k 0), (Z.ltb_spec 100 k); try lia. done. }
  rewrite (bind_eq _ _ _ _ _ El).
  match goal with |- context [@mbind _ _ _ _ ?c (nsay ?f ?a) ?u] => destruct (nsay_ok f a c u) as (s2 & -> & Q1 & Q2 & Q3) end; [by vm_compute|repeat constructor|].
  match goal with |- context [@mbind _ _ _ _ ?c (nsay ?f ?a) ?u] => destruct (nsay_ok f a c u) as (s3 & -> & R1 & R2 & R3) end; [by vm_compute|constructor|].
  assert (queue (nh_cards s3) = queue (nh_cards s)) as Hqs by congruence.
  destruct (listen_loop_ok e1000 ne2000 queue Hi Hq (Z.to_nat (k * 100000)) 0 (fresh 1500%nat) 0 k s3 n' Hb ltac:(lia) ltac:(lia)) as (s4 & E & A1 & A2 & A3);
    rewrite ?Hqs, ?Z.sub_0_r, ?R2, ?Q2, ?P2; [done|done|].
  rewrite (bind_eq _ _ _ _ _ E), emit_bind.
  match goal with |- context [nsay ?f ?a ?u] => destruct (nsay_last f a u) as (s5 & -> & B1 & B2 & B3) end; [by vm_compute|repeat constructor|].
  exists (nh_out s5), (nh_cards s5). cbn in B1, B2, B3. split; [|rewrite B3, A3, Hqs, Z.sub_0_r; done]. destruct s5. cbn in *. subst. by rewrite A1, R1, Q1, P1.
Qed.

(** [ping] looks for the hardware address of the target itself: a host behind the gateway is
    never sent an echo request, also when the gateway's address is known and the stack could
    send it. *)
Theorem remote_ping_unresolved {X} (s : netshell X) (a : buf) (ip : Z) : parse_ipv4 (Some a) = Some ip -> ip <> 0 -> is_Some (chars a) ->
  ne2000_initialized (nh_net s) = true -> length (mac_address (net_config (nh_net s))) = ETH_ADDR_LEN -> arp_find (arp_cache (nh_net s)) ip = None ->
  exists out sender, cmd_ping [a] s = Some (tt, Mk_nsh out (nh_seq s) (with_sent (nh_net s) (sent (nh_net s) ++
    [wire_frame (eth_header (replicate 6 255) sender ETHERTYPE_ARP ++ arp_packet ARP_REQUEST sender (ip_address (net_config (nh_net s))) (replicate 6 0) ip)])) (nh_cards s)).
Proof.
  intros Ep Hn Ha Hi Hm Hf. set (sender := mac_address (net_config (nh_net s))) in *.
  set (request := eth_header (replicate 6 255) sender ETHERTYPE_ARP ++ arp_packet ARP_REQUEST sender (ip_address (net_config (nh_net s))) (replicate 6 0) ip).
  assert (length request <= 1500)%nat as Hl by (unfold request, eth_header, arp_packet; rewrite !length_app, !length_le_put, Hm; cbn; lia).
  destruct (ping_ok s a ip (with_sent (nh_net s) (sent (nh_net s) ++ [wire_frame request])) Ep Hn Ha) as (out & E).
  { rewrite Hf. unfold arp_send_request. rewrite gets_bind. fold sender request. rewrite (bind_eq _ _ _ true (with_sent (nh_net s) (sent (nh_net s) ++ [wire_frame request]))); [done|].
    unfold nic_send. by rewrite Hi, (proj2 (Nat.leb_le _ _)). }
  rewrite Hf in E. by exists out, sender.
Qed.

(** The identifier and the sequence number are swapped by the command and once more by the
    stack: they are sent with the low byte first. *)
Theorem ping_numbers_swapped (seq c : Z) : 0 <= seq < 65536 ->
  icmp_header_with ICMP_ECHO_REQUEST (htons ping_id) (htons seq) c = [8; 0] ++ le_put 2 c ++ [0x34; 0x12] ++ [seq mod 256; seq / 256].
Proof.
  intros Hs. unfold icmp_header_with. change (htons (htons seq)) with (ntohs (htons seq)). change (htons (htons ping_id)) with 0x1234. rewrite (ntohs_htons seq) by done. cbn [le_put].
  rewrite (Z.mod_small (seq / 256)) by zlia. done.
Qed.

(** ** Witnesses *)

Definition net_shell : netshell (list buf) := Mk_nsh [] 1 (host 0 [2; 0; 0; 0; 0; 1] no_cache) [[1; 2; 3]; replicate 60 255; [7]].
(** A card that delivers the frames of a list. *)
Definition list_card : card (list buf) :=
  Mk_card (fun _ => true) (fun s => Some ([2; 0; 0; 0; 0; 1], s)) (fun s => Some (tt, s)) (fun _ '(n, x) => Some (head x, (n, tail x))).

Lemma ifconfig_configures_witness : exists a0 a1 a2 out, cmd_ifconfig [a0; a1; a2] net_shell = Some (tt, Mk_nsh out 1
  (with_config (nh_net net_shell) (Mk_config 167772687 4294967040 167772674 0 [2; 0; 0; 0; 0; 1])) (nh_cards net_shell)).
Proof.
  destruct (ifconfig_configures net_shell 167772687 4294967040 167772674 (replicate 16 0)) as (a0 & a1 & a2 & out & _ & _ & _ & E); [lia|lia|lia|reflexivity|].
  exists a0, a1, a2, out. exact E.
Defined.

Lemma ping_command_witness : exists out, cmd_ping [lit "10.0.2.2"] net_shell = Some (tt, Mk_nsh out 1
  (with_sent (nh_net net_shell) [wire_frame (eth_header (replicate 6 255) [2; 0; 0; 0; 0; 1] ETHERTYPE_ARP ++ arp_packet ARP_REQUEST [2; 0; 0; 0; 0; 1] 0 (replicate 6 0) 167772674)]) (nh_cards net_shell)).
Proof. apply (ping_command net_shell (lit "10.0.2.2") 167772674); [by vm_compute|done|by eexists|by vm_compute]. Defined.

(** Two of the three frames: one too short for a header, and a broadcast of an unknown type. *)
Lemma net_listen_processes_witness : exists out x', net_listen list_card list_card (fun n => replicate n 0) [lit "2"] net_shell = Some (tt, Mk_nsh out 1 (nh_net net_shell) x') /\ x' = [[7]].
Proof.
  apply (net_listen_processes list_card list_card (fun n => replicate n 0) id net_shell [lit "2"] 2).
  - done.
  - intros n x. by exists (tail x).
  - apply length_replicate.
  - by vm_compute.
  - repeat constructor; cbn; unfold byte_ok; lia.
  - by vm_compute.
Defined.
