(* ===== verification/Kernel.v ===== *)
(** kernel/init: panic.c and banner.c on the VGA console of Video.v, and the start-up of
    kernel.c as the order of its stages.

    [kstate] is what a panic changes: the interrupt flag, the guard against a second panic
    and the console.  A function that does not return yields the state in which the
    processor is halted. *)

From stdpp Require Import strings.
From S2P Require Import Prelude Effects CString CStdlib CStdio Printf Ports CharDev Video.

Definition RED : Z := 4.
Definition WHITE : Z := 15.
Definition GREEN : Z := 2.

(** * Printing on the console *)

Section Print.
Context {H : Type} `{Ports H} (fuel : nat).
Abbreviation A := (M (console H)).

Fixpoint con_text (t : buf) : A unit := match t with [] => mret tt | c :: t' => _ ← vga_write_char fuel c; con_text t' end.
Definition con_printf (format : buf) (args : list va_word) : A unit := t ← lift (printf format args); con_text t.
(** A line of text without conversions and with a line end, and without. *)
Definition con_line (text : string) : A unit := con_printf (lit_bytes text ++ [10; 0]) [].
Definition con_word (text : string) : A unit := con_printf (lit text) [].

Fixpoint con_printfs (l : list (buf * list va_word)) : A unit :=
  match l with [] => mret tt | (format, args) :: l' => _ ← con_printf format args; con_printfs l' end.

(** * banner.c *)

Definition print_welcome_message (total_memory : Z) (drives : list (bool * buf)) : A unit :=
  _ ← display_set_color WHITE;
  _ ← con_line "";
  _ ← con_line "      *------------------------------------------------------------*";
  _ ← con_line "      |        Welcome to the Rudolf Stepan x86 Micro Kernel       |";
  _ ← con_line "      |      Type 'HELP' for a list of commands and instructions   |";
  _ ← con_line "      *------------------------------------------------------------*";
  _ ← con_printf (lit_bytes "        Total Memory: %d MB" ++ [10; 0]) [VInt (total_memory / 1024 / 1024)];
  _ ← con_printf (lit "        Detected Drives (%d): ") [VInt (Z.of_nat (length drives))];
  _ ← con_printfs (map (fun '(ata, nm) => (lit " %s: %s ", [VStr (Some (lit (if ata : bool then "ATA" else "FDD"))); VStr (Some nm)])) drives);
  _ ← con_line ""; _ ← con_line "";
  _ ← con_line "    Enter a Command or help for a complete list of supported commands.";
  display_set_color WHITE.

Fixpoint color_words (color : Z) (l : list string) : A unit :=
  match l with [] => mret tt | w :: l' => _ ← display_set_color color; _ ← con_word w; color_words (color + 1) l' end.

(** The colours in the order of their codes. *)
Definition display_color_test : A unit :=
  _ ← con_line ""; _ ← con_word "Color Test: ";
  _ ← color_words 0 ["Black "; "Blue "; "Green "; "Cyan "; "Red "; "Magenta "; "Brown "; "Light Grey "; "Dark Grey "; "Light Blue "; "Light Green "; "Light Cyan ";
                     "Light Red "; "Light Magenta "; "Yellow "];
  _ ← display_set_color WHITE; _ ← con_line "White"; _ ← con_line "";
  display_set_color WHITE.

(** With and without a drive the same is printed. *)
Definition print_fancy_prompt (current_drive : Z) : A unit :=
  _ ← display_set_color GREEN;
  if current_drive =? 0 then _ ← con_word ">"; display_set_color WHITE
  else _ ← con_word ">"; display_set_color WHITE.
End Print.

(** * panic.c *)

Record kstate (H : Type) := Mk_kstate { k_if : bool; k_halted : bool; panic_in_progress : Z; k_con : console H }.
Arguments Mk_kstate {H}. Arguments k_if {H}. Arguments k_halted {H}. Arguments panic_in_progress {H}. Arguments k_con {H}.

Definition rule80 : buf := replicate 80 61.                 (* ===...=== *)
Definition closing : list (buf * list va_word) :=
  [(rule80 ++ [10; 0], []); (lit_bytes "System Halted. Please restart your computer." ++ [10; 0], []); (rule80 ++ [10; 0], [])].

(** [message ? message : "Unknown error"] *)
Definition or_else (s : option buf) (t : string) : va_word := VStr (Some (default (lit t) s)).

Definition panic_lines (message : option buf) : list (buf * list va_word) :=
  [([10; 0], []); (rule80 ++ [10; 0], []); (replicate 26 32 ++ lit_bytes "*** KERNEL PANIC ***" ++ replicate 33 32 ++ [10; 0], []); (rule80 ++ [10; 0], []); ([10; 0], []);
   (lit_bytes "An unrecoverable error has occurred. The system has been halted." ++ [10; 0], []); ([10; 0], []);
   (lit_bytes "Error: " ++ [37; 115; 10; 0], [or_else message "Unknown error"]); ([10; 0], [])] ++ closing.

Definition assert_lines (expr file : option buf) (line : Z) (func : option buf) : list (buf * list va_word) :=
  [([10; 0], []); (rule80 ++ [10; 0], []); (replicate 23 32 ++ lit_bytes "*** ASSERTION FAILED ***" ++ replicate 32 32 ++ [10; 0], []); (rule80 ++ [10; 0], []); ([10; 0], []);
   (lit_bytes "Assertion:  " ++ [37; 115; 10; 0], [or_else expr "Unknown"]);
   (lit_bytes "File:       " ++ [37; 115; 10; 0], [or_else file "Unknown"]);
   (lit_bytes "Line:       " ++ [37; 100; 10; 0], [VInt line]);
   (lit_bytes "Function:   " ++ [37; 115; 10; 0], [or_else func "Unknown"]); ([10; 0], []);
   (lit_bytes "The kernel has detected an internal consistency error and cannot continue." ++ [10; 0], []); ([10; 0], [])] ++ closing.

Section Panic.
Context {H : Type} `{Ports H} (fuel : nat).

(** [cpu_halt_forever] *)
Definition halt (s : kstate H) : kstate H := Mk_kstate false true (panic_in_progress s) (k_con s).

(** The two functions differ in what they print. *)
Definition stop_with (lines : list (buf * list va_word)) (s : kstate H) : option (kstate H) :=
  let s := Mk_kstate false (k_halted s) (panic_in_progress s) (k_con s) in
  if negb (panic_in_progress s =? 0) then Some (halt s)
  else
    match (_ ← set_color (Z.lor (Z.shiftl RED 4) WHITE); _ ← clear_screen; con_printfs fuel lines) (k_con s) with
    | Some (_, con) => Some (halt (Mk_kstate false (k_halted s) 1 con))
    | None => None
    end.

Definition panic (message : option buf) (s : kstate H) : option (kstate H) := stop_with (panic_lines message) s.
Definition kassert_fail (expr file : option buf) (line : Z) (func : option buf) (s : kstate H) : option (kstate H) := stop_with (assert_lines expr file line func) s.
End Panic.

(** ** What a panic shows *)

(** Text without an escape character: every such text can be shown. *)
Definition plain (t : buf) : Prop := Forall (fun c => 0 < c < 256 /\ c <> 27) t.

Lemma spec_plain t : plain t -> forall u, t_mode u = Text -> exists u', spec_text t u = Some u' /\ t_mode u' = Text.
Proof.
  induction 1 as [|c t [Hc Hne] _ IH]; intros u Hm; cbn [spec_text]; [by exists u|]. unfold spec_char. rewrite Hm. destruct (Z.eqb_spec c 27); [done|]. by apply IH.
Qed.

Lemma spec_app t1 t2 : forall u u1, spec_text t1 u = Some u1 -> spec_text (t1 ++ t2) u = spec_text t2 u1.
Proof.
  induction t1 as [|c t1 IH]; intros u u1 E; cbn [spec_text app] in *; [by injection E as ->|]. destruct (spec_char c u) as [v|]; [|done]. by apply IH.
Qed.

(** What the calls print, one after the other. *)
Fixpoint outputs (l : list (buf * list va_word)) : option buf :=
  match l with [] => Some [] | (format, args) :: l' => t ← printf format args; r ← outputs l'; Some (t ++ r) end.

Section Show.
Context {H : Type} `{Terminal H} (fuel : nat) (Hfuel : (tx_max < fuel)%nat).
Implicit Types s : console H.

Lemma con_text_ok t : plain t -> forall s u, con_ok s -> spec_text t (term_of s) = Some u ->
  exists s', con_text fuel t s = Some (tt, s') /\ con_ok s' /\ term_of s' = u /\ sent (con_hw s') = sent (con_hw s) ++ t.
Proof using Hfuel.
  induction 1 as [|c t [Hc Hne] _ IH]; intros s u Hs Hu; cbn [con_text spec_text] in *.
  - injection Hu as <-. exists s. by rewrite app_nil_r.
  - destruct (spec_char c (term_of s)) as [v|] eqn:E; [|done]. destruct (vga_write_char_ok fuel s c v Hs ltac:(unfold byte_ok; lia) Hfuel E) as (s1 & E1 & K1 & T1 & S1).
    rewrite (bind_eq _ _ _ _ _ E1). subst v. destruct (IH s1 u K1 Hu) as (s2 & E2 & K2 & T2 & S2). exists s2. split_and!; try done. by rewrite S2, S1, <- app_assoc.
Qed.

Lemma con_printfs_ok l : forall s t u, con_ok s -> outputs l = Some t -> plain t -> spec_text t (term_of s) = Some u ->
  exists s', con_printfs fuel l s = Some (tt, s') /\ con_ok s' /\ term_of s' = u /\ sent (con_hw s') = sent (con_hw s) ++ t.
Proof using Hfuel.
  induction l as [|[format args] l IH]; intros s t u Hs Ho Hp Hu; cbn [con_printfs outputs] in *.
  - injection Ho as <-. injection Hu as <-. exists s. by rewrite app_nil_r.
  - destruct (printf format args) as [t1|] eqn:E1; [|done]. cbn [mbind option_bind] in Ho. destruct (outputs l) as [t2|] eqn:E2; [|done]. cbn [mbind option_bind] in Ho. injection Ho as <-.
    apply Forall_app in Hp as [Hp1 Hp2]. unfold con_printf. rewrite bind_assoc, (lift_bind _ _ _ _ E1).
    destruct (spec_text t1 (term_of s)) as [u1|] eqn:Eu; [rewrite (spec_app _ _ _ _ Eu) in Hu|].
    + destruct (con_text_ok t1 Hp1 s u1 Hs Eu) as (s1 & C1 & K1 & T1 & S1). rewrite (bind_eq _ _ _ _ _ C1). subst u1.
      destruct (IH s1 t2 u K1 eq_refl Hp2 Hu) as (s2 & C2 & K2 & T2 & S2). exists s2. split_and!; try done. by rewrite S2, S1, <- app_assoc.
    + exfalso. assert (forall a b v, spec_text a v = None -> spec_text (a ++ b) v = None) as Hnone.
      { clear. induction a as [|c a IHa]; intros b v E; [done|]. cbn [app spec_text] in *. destruct (spec_char c v); [by apply IHa|done]. }
      by rewrite (Hnone _ _ _ Eu) in Hu.
Qed.

(** The blank screen, and the colours of an error. *)
Definition cleared : screen := Mk_screen (replicate 25 (replicate 80 (blank 15))) 0 0.
Definition error_color : Z := 79.

Lemma stop_with_ok lines t (s : kstate H) : con_ok (k_con s) -> mode_of (k_con s) = Text -> panic_in_progress s = 0 -> outputs lines = Some t -> plain t ->
  exists con, stop_with fuel lines s = Some (Mk_kstate false true 1 con) /\ con_ok con /\ spec_text t (Mk_term cleared error_color Text) = Some (term_of con) /\
    sent (con_hw con) = sent (con_hw (k_con s)) ++ t.
Proof using Hfuel.
  intros [Hs Ha] Hm Hp Ho Hpl. unfold stop_with. cbn [panic_in_progress k_halted k_con]. rewrite Hp. cbn [Z.eqb negb].
  change (Z.lor (Z.shiftl RED 4) WHITE) with 79. unfold set_color. rewrite modify_bind. change (s8 79) with error_color.
  set (c1 := with_color (k_con s) error_color). assert (con_ok c1) as [Hs1 Ha1] by (split; [by destruct Hs|by destruct Ha]).
  destruct (clear_screen_draws c1 Hs1) as (c2 & E2 & Hd & Hsc). rewrite (bind_eq _ _ _ _ _ E2). destruct (drawn_ansi c1 c2 Ha1 Hd) as [Ha2 Em]. destruct Hd as (Hs2 & Ec & _ & _ & _ & _ & _ & Es).
  assert (term_of c2 = Mk_term cleared error_color Text) as Et.
  { unfold term_of. rewrite Hsc, Ec, Em. f_equal. exact Hm. }
  destruct (spec_plain t Hpl (Mk_term cleared error_color Text) eq_refl) as (u & Eu & _). rewrite <- Et in Eu.
  destruct (con_printfs_ok lines c2 t u (conj Hs2 Ha2) Ho Hpl Eu) as (c3 & E3 & K3 & T3 & S3). rewrite E3. exists c3. split; [done|]. split; [done|].
  rewrite <- Et, Eu, T3. split; [done|]. by rewrite S3, Es.
Qed.
End Show.

Lemma outputs_app l1 l2 t1 t2 : outputs l1 = Some t1 -> outputs l2 = Some t2 -> outputs (l1 ++ l2) = Some (t1 ++ t2).
Proof.
  revert t1. induction l1 as [|[f a] l1 IH]; intros t1 E1 E2; cbn [outputs app] in *; [by injection E1 as <-|].
  destruct (printf f a) as [t|]; [|done]. cbn [mbind option_bind] in *. destruct (outputs l1) as [r|]; [|done]. injection E1 as <-. rewrite (IH r eq_refl E2). cbn. by rewrite app_assoc.
Qed.

Lemma outputs_string pre m r : Forall (fun c => c <> 0 /\ c <> 37) pre -> nonul m -> outputs [(pre ++ [37; 115; 10; 0], [VStr (Some (m ++ 0 :: r))])] = Some (pre ++ m ++ [10]).
Proof. intros Hp Hm. cbn [outputs]. change [37; 115; 10; 0] with (37 :: 115 :: [10] ++ [0]). rewrite (printf_string pre [10] m r Hp ltac:(repeat constructor; done) Hm). cbn [mbind option_bind]. by rewrite app_nil_r. Qed.

(** The text of a panic around its message. *)
Definition panic_head : list (buf * list va_word) := Eval cbn [panic_lines take app] in take 7 (panic_lines None).
Definition panic_tail : list (buf * list va_word) := Eval cbn [panic_lines drop app] in drop 8 (panic_lines None).
Definition said (l : list (buf * list va_word)) : buf := default [] (outputs l).
Definition panic_text (m : buf) : buf := said panic_head ++ (lit_bytes "Error: " ++ m ++ [10]) ++ said panic_tail.

Lemma panic_outputs m r : nonul m -> outputs (panic_lines (Some (m ++ 0 :: r))) = Some (panic_text m).
Proof.
  intros Hm. change (panic_lines (Some (m ++ 0 :: r))) with (panic_head ++ [(lit_bytes "Error: " ++ [37; 115; 10; 0], [VStr (Some (m ++ 0 :: r))])] ++ panic_tail).
  apply outputs_app; [by vm_compute|]. apply outputs_app; [|by vm_compute]. apply outputs_string; [|done]. apply (bool_decide_unpack _). vm_compute. exact I.
Qed.

Lemma panic_outputs_null : outputs (panic_lines None) = Some (panic_text (lit_bytes "Unknown error")).
Proof. by vm_compute. Qed.

Lemma panic_plain m : plain m -> plain (panic_text m).
Proof.
  intros Hm. unfold panic_text, plain. rewrite !Forall_app. split_and!; try done; apply (bool_decide_unpack _); vm_compute; exact I.
Qed.

(** * Theorems *)

Section Theorems.
Context {H : Type} `{Terminal H} (fuel : nat) (Hfuel : (tx_max < fuel)%nat).

(** A panic stops the machine and says why: interrupts are off and the processor is halted,
    the screen is cleared and shows the text with the message, and the same goes out on the
    serial line; a panic during a panic only halts. *)
Theorem panic_shows (s : kstate H) (message : option (buf * buf)) : con_ok (k_con s) -> mode_of (k_con s) = Text -> from_option (fun mr => plain (fst mr)) True message ->
  let m := from_option fst (lit_bytes "Unknown error") message in
  if panic_in_progress s =? 0 then
    exists con, panic fuel ((fun mr => fst mr ++ 0 :: snd mr) <$> message) s = Some (Mk_kstate false true 1 con) /\ con_ok con /\
      spec_text (panic_text m) (Mk_term cleared error_color Text) = Some (term_of con) /\ sent (con_hw con) = sent (con_hw (k_con s)) ++ panic_text m
  else panic fuel ((fun mr => fst mr ++ 0 :: snd mr) <$> message) s = Some (Mk_kstate false true (panic_in_progress s) (k_con s)).
Proof using Hfuel.
  intros Hs Hm Hp m. destruct (Z.eqb_spec (panic_in_progress s) 0) as [E|E].
  - unfold panic. destruct message as [[msg r]|]; cbn [fmap option_fmap option_map from_option fst snd] in *.
    + apply (stop_with_ok fuel Hfuel _ _ s Hs Hm E); [|by apply panic_plain]. apply panic_outputs. eapply Forall_impl; [exact Hp|]. by intros c [? _].
    + apply (stop_with_ok fuel Hfuel _ _ s Hs Hm E); [apply panic_outputs_null|]. apply panic_plain. apply (bool_decide_unpack _). vm_compute. exact I.
  - unfold panic, stop_with. cbn [panic_in_progress]. rewrite (proj2 (Z.eqb_neq _ _) E). done.
Qed.
End Theorems.

(** The screen is cleared in the colours of ordinary text: white on red appears behind the
    characters of the message alone, and the rows below are black. *)
Theorem panic_screen_black : exists t, spec_text (panic_text (lit_bytes "Out of memory")) (Mk_term cleared error_color Text) = Some t /\
  sc_rows (t_screen t) !! 24%nat = Some (replicate 80 (blank 15)) /\
  take 20 (default [] (sc_rows (t_screen t) !! 9%nat)) = map (fun c => cell c error_color) (lit_bytes "Error: Out of memory").
Proof. eexists. split; [vm_compute; reflexivity|]. split; vm_compute; reflexivity. Qed.

Lemma panic_shows_witness : exists con, panic 3 (Some (lit "Out of memory")) (Mk_kstate true false 0 boot_console) = Some (Mk_kstate false true 1 con) /\
  sent (con_hw con) = panic_text (lit_bytes "Out of memory").
Proof.
  assert (tx_max (H := vga_sim) < 3)%nat as Hf by (cbn; lia).
  destruct (panic_shows 3 Hf (Mk_kstate true false 0 boot_console) (Some (lit_bytes "Out of memory", [])) boot_console_ok eq_refl) as (con & E & _ & _ & Hs).
  - apply (bool_decide_unpack _). vm_compute. exact I.
  - exists con. split; [exact E|exact Hs].
Defined.

(** * kernel.c: the order of the start-up

    The functions that the stages call are names, a printf with its format; a machine [S]
    says what a call does.  The
    keyboard and the floppy driver make system calls, whose entry code enables interrupts. *)

Inductive kfun :=
| K_parse_multiboot1_info | K_framebuffer_init | K_display_init | K_initialize_memory_system
| K_serial_init_default | K_tss_init | K_gdt_install | K_idt_install | K_isr_install | K_irq_install | K_timer_install
| K_kb_install | K_register_kb_irq | K_fdc_init_controller | K_fdc_delay
| K_test_memory | K_initialize_apic_timer | K_pci_init | K_usb_init | K_register_scheduler_irq
| K_e1000_detect | K_rtl8139_detect | K_ne2000_detect | K_pci_probe_drivers | K_pit_delay
| K_ata_detect_drives | K_fdd_detect_drives | K_auto_mount_all_drives | K_netstack_init | K_command_loop
| K_printf (format : string).
#[global] Instance kfun_eq : EqDecision kfun.
Proof. solve_decision. Defined.

Inductive outcome := Bad_magic | No_info | Shell_left.

Section Start.
Context {S : Type} (call : kfun -> M S unit) (flag : S -> bool) (set_flag : bool -> S -> S).
Context (pci_device_exists : Z -> Z -> M S bool) (ne2000_is_initialized : M S bool).
Context (read_cpu_cycle_counter : M S Z) (set_cpu_frequency : Z -> M S unit).
Abbreviation A := (M S).

Definition irq_disable : A unit := modify (set_flag false).
Definition irq_enable : A unit := modify (set_flag true).
(** syscall_handler_asm: [sti], the function, and the flags of the caller by [iretd]. *)
Definition syscall (f : kfun) : A unit := old ← gets flag; _ ← modify (set_flag true); _ ← call f; modify (set_flag old).

Definition early_init : A unit :=
  _ ← irq_disable;
  _ ← call K_serial_init_default;
  _ ← call K_tss_init;
  _ ← call K_gdt_install;
  _ ← call K_idt_install;
  _ ← call K_isr_install;
  _ ← call K_irq_install;
  _ ← call K_timer_install;
  _ ← call K_kb_install; _ ← syscall K_register_kb_irq;
  _ ← call K_fdc_init_controller; _ ← syscall K_fdc_delay;
  _ ← irq_enable;
  _ ← call (K_printf "Early initialization complete (interrupts enabled)");
  call (K_printf "TSS initialized with kernel stack at 0x%08X").

Definition hardware_init : A unit :=
  _ ← call K_test_memory;
  _ ← call K_initialize_apic_timer;
  _ ← call K_pci_init;
  _ ← call K_usb_init;
  _ ← call K_register_scheduler_irq;
  call (K_printf "Hardware initialization complete").

Definition detect (vendor device : Z) (line : string) (driver : kfun) : A unit :=
  b ← pci_device_exists vendor device;
  if b : bool then _ ← call (K_printf line); call driver else mret tt.

Definition driver_init : A unit :=
  _ ← call (K_printf "Detecting network hardware...");
  _ ← detect 0x8086 0x100E "  - Intel E1000 detected, registering driver" K_e1000_detect;
  _ ← detect 0x10EC 0x8139 "  - Realtek RTL8139 detected, registering driver" K_rtl8139_detect;
  _ ← detect 0x10EC 0x8029 "  - NE2000 compatible detected, registering driver" K_ne2000_detect;
  _ ← call K_pci_probe_drivers;
  _ ← irq_enable;
  start_cycles ← read_cpu_cycle_counter;
  _ ← call K_pit_delay;
  end_cycles ← read_cpu_cycle_counter;
  _ ← set_cpu_frequency (u64 (end_cycles - start_cycles));
  _ ← call K_ata_detect_drives;
  _ ← call K_fdd_detect_drives;
  call K_auto_mount_all_drives.

Definition system_ready : A unit :=
  _ ← call (K_printf "=== System Ready ===");
  _ ← call (K_printf "CPU Frequency: %llu Hz");
  _ ← call (K_printf "Total Memory: %llu MB");
  _ ← call (K_printf "Drives Detected: %d");
  b ← ne2000_is_initialized;
  _ ← (if b : bool then _ ← call K_netstack_init; call (K_printf "Network stack initialized") else mret tt);
  call (K_printf "====================").

Definition MULTIBOOT_MAGIC : Z := 0x36d76289.

(** [use_framebuffer] is the build, [fb_addr] the field of the boot information; the shell
    does not return. *)
Definition kernel_main (use_framebuffer : bool) (multiboot_magic multiboot_info fb_addr : Z) : A outcome :=
  if negb (multiboot_magic =? MULTIBOOT_MAGIC) then _ ← call (K_printf "Error: Invalid Multiboot magic number: 0x%x"); mret Bad_magic
  else if multiboot_info =? 0 then _ ← call (K_printf "Error: Multiboot information structure is NULL."); mret No_info
  else
    _ ← call K_parse_multiboot1_info;
    _ ← (if use_framebuffer then
           if negb (fb_addr =? 0) then _ ← call K_framebuffer_init; _ ← call K_display_init; call (K_printf "Framebuffer initialized: %ux%ux%u at 0x%x")
           else call (K_printf "Warning: Framebuffer not available, using VGA text mode")
         else call K_display_init);
    _ ← call K_initialize_memory_system;
    _ ← early_init;
    _ ← hardware_init;
    _ ← driver_init;
    _ ← system_ready;
    _ ← call K_command_loop;
    mret Shell_left.
End Start.

(** ** The calls in their order *)

(** A machine that records the calls, each with the interrupt flag at that time. *)
Record boot_log := Mk_log { b_if : bool; b_calls : list (kfun * bool); b_cycles : Z; b_frequency : Z }.

Definition boot_run (use_fb : bool) (fb_addr : Z) (e1000 rtl8139 ne2000_card ne2000_up : bool) (s : boot_log) : option (outcome * boot_log) :=
  kernel_main (fun f s => Some (tt, Mk_log (b_if s) (b_calls s ++ [(f, b_if s)]) (b_cycles s) (b_frequency s)))
    b_if (fun b s => Mk_log b (b_calls s) (b_cycles s) (b_frequency s))
    (fun v d s => Some (if d =? 0x100E then e1000 else if d =? 0x8139 then rtl8139 else ne2000_card, s)) (fun s => Some (ne2000_up, s))
    (fun s => Some (b_cycles s, Mk_log (b_if s) (b_calls s) (u64 (b_cycles s + 5000)) (b_frequency s))) (fun f s => Some (tt, Mk_log (b_if s) (b_calls s) (b_cycles s) f))
    use_fb MULTIBOOT_MAGIC 65536 fb_addr s.

Definition power_on : boot_log := Mk_log false [] 0 0.

(** What a function needs to have been set up before it runs. *)
Definition needs (f : kfun) : list kfun :=
  match f with
  | K_gdt_install => [K_tss_init]
  | K_isr_install | K_irq_install => [K_idt_install; K_gdt_install]
  | K_timer_install | K_kb_install => [K_irq_install]
  | K_register_kb_irq => [K_isr_install; K_irq_install]
  | K_fdc_delay => [K_timer_install; K_isr_install]
  | K_pit_delay => [K_timer_install]
  | K_test_memory => [K_initialize_memory_system]
  | K_usb_init => [K_pci_init]
  | K_e1000_detect | K_rtl8139_detect | K_ne2000_detect => [K_pci_init]
  | K_pci_probe_drivers => [K_pci_init; K_initialize_memory_system]
  | K_auto_mount_all_drives => [K_ata_detect_drives; K_fdd_detect_drives; K_initialize_memory_system]
  | K_netstack_init => [K_pci_probe_drivers]
  | K_command_loop => [K_kb_install; K_auto_mount_all_drives; K_display_init]
  | _ => []
  end.

(** The tables are set up without interrupts. *)
Definition wants_masked (f : kfun) : bool :=
  bool_decide (f ∈ [K_tss_init; K_gdt_install; K_idt_install; K_isr_install; K_irq_install; K_timer_install]).

Fixpoint ordered (seen : list kfun) (l : list (kfun * bool)) : bool :=
  match l with
  | [] => true
  | (f, b) :: l' => forallb (fun g => bool_decide (g ∈ seen)) (needs f) && (negb (wants_masked f) || negb b) && ordered (f :: seen) l'
  end.

Lemma ordered_spec l : forall seen, ordered seen l = true -> forall i f b, l !! i = Some (f, b) ->
  (wants_masked f = true -> b = false) /\ forall g, g ∈ needs f -> g ∈ seen \/ exists j, (j < i)%nat /\ fst <$> l !! j = Some g.
Proof.
  induction l as [|[h c] l IH]; intros seen Ho i f b Hi; [done|]. cbn [ordered] in Ho. apply andb_prop in Ho as [Ho1 Ho]. apply andb_prop in Ho1 as [Hn Hw].
  destruct i as [|i].
  - injection Hi as -> ->. split; [by destruct (wants_masked f), b|]. intros g Hg. left. rewrite forallb_forall in Hn. apply list_elem_of_In in Hg. apply Hn in Hg. by apply bool_decide_eq_true in Hg.
  - destruct (IH _ Ho i f b Hi) as [H1 H2]. split; [done|]. intros g Hg. destruct (H2 g Hg) as [[->|Hs]%elem_of_cons|(j & Hj & Ej)].
    + right. exists 0%nat. split; [lia|done].
    + by left.
    + right. exists (S j). split; [lia|exact Ej].
Qed.

(** In the text-mode build the start-up reaches the shell, whatever cards are there, and
    calls everything in an order in which each function finds set up what it needs; the
    descriptor tables and the timer are set up with interrupts off, and the driver of a
    network card is registered only if the card is there. *)
Theorem boot_in_order (e1000 rtl8139 ne2000_card ne2000_up : bool) : exists s, boot_run false 0 e1000 rtl8139 ne2000_card ne2000_up power_on = Some (Shell_left, s) /\
  (forall i f b, b_calls s !! i = Some (f, b) -> (wants_masked f = true -> b = false) /\ forall g, g ∈ needs f -> exists j, (j < i)%nat /\ fst <$> b_calls s !! j = Some g) /\
  ((K_e1000_detect, true) ∈ b_calls s <-> e1000 = true) /\ ((K_rtl8139_detect, true) ∈ b_calls s <-> rtl8139 = true) /\ ((K_ne2000_detect, true) ∈ b_calls s <-> ne2000_card = true) /\
  last (b_calls s) = Some (K_command_loop, true) /\ b_frequency s = 5000.
Proof.
  assert (forall l, ordered [] l = true -> forall i f b, l !! i = Some (f, b) -> (wants_masked f = true -> b = false) /\ forall g, g ∈ needs f -> exists j, (j < i)%nat /\ fst <$> l !! j = Some g) as Hord.
  { intros l Hl i f b Hi. destruct (ordered_spec l [] Hl i f b Hi) as [H1 H2]. split; [done|]. intros g Hg. destruct (H2 g Hg) as [[]%not_elem_of_nil|Hj]; exact Hj. }
  destruct e1000, rtl8139, ne2000_card, ne2000_up; (eexists; split; [vm_compute; reflexivity|]; split; [apply Hord; vm_compute; reflexivity|]);
    (split_and!; [apply (bool_decide_unpack _); vm_compute; exact I..|vm_compute; reflexivity|vm_compute; reflexivity]).
Qed.

(** [n] calls from the one with number [i] on. *)
Definition slice_calls (i n : nat) (l : list (kfun * bool)) : list (kfun * bool) := take n (drop i l).

(** The comment at [early_init] says that interrupts stay disabled during it; the system
    calls of the keyboard and of the floppy driver enable them. *)
Theorem early_init_not_masked : exists s, boot_run false 0 false false false false power_on = Some (Shell_left, s) /\
  slice_calls 9 5 (b_calls s) = [(K_timer_install, false); (K_kb_install, false); (K_register_kb_irq, true); (K_fdc_init_controller, false); (K_fdc_delay, true)].
Proof. eexists. split; [vm_compute; reflexivity|vm_compute; reflexivity]. Qed.

(** Without the magic number, or without boot information, nothing is initialised. *)
Theorem bad_boot_halts {S} (call : kfun -> M S unit) flag set_flag pci ne tsc setf (use_fb : bool) (magic info fb : Z) (s s' : S) :
  magic <> MULTIBOOT_MAGIC \/ info = 0 -> (forall format, call (K_printf format) s = Some (tt, s')) ->
  exists o, kernel_main call flag set_flag pci ne tsc setf use_fb magic info fb s = Some (o, s') /\ o <> Shell_left.
Proof.
  intros Hb E. unfold kernel_main. destruct (Z.eqb_spec magic MULTIBOOT_MAGIC); cbn [negb].
  - destruct Hb as [?| ->]; [done|]. cbn [Z.eqb]. rewrite (bind_eq _ _ _ _ _ (E _)). by exists No_info.
  - rewrite (bind_eq _ _ _ _ _ (E _)). by exists Bad_magic.
Qed.
