(* ===== verification/SelfTest.v ===== *)
(** mm/kmalloc.c, the self tests at start-up: [test_memory] runs ten tests of the heap and of
    the functions on memory blocks.  The first three are in Kmalloc.v; here are the others,
    the sequence of all ten on one heap, and what it reports. *)

From stdpp Require Import strings.
From S2P Require Import Prelude CString Memory Spinlock Kmalloc.

(** [n] bytes at [p] are [v]. *)
Definition all_bytes (mem : Z -> Z) (p v : Z) (n : nat) : bool := forallb (fun k => u8 (mem (p + Z.of_nat k)) =? v) (seq 0 n).

(** [test_set_memory] and [test_set_zero] differ in the value. *)
Definition test_set (v : Z) (fuel : nat) (h : kheap) (mem : Z -> Z) : option (bool * kheap * (Z -> Z)) :=
  '(buffer, h) ← k_malloc fuel h 10;
  if buffer =? 0 then Some (false, h, mem) else
  let mem := mem_memset mem buffer v 10 in
  let ok := all_bytes mem buffer v 10 in
  h ← k_free h buffer; Some (ok, h, mem).
Definition test_set_memory := test_set 65.
Definition test_set_zero := test_set 0.

Definition digits_string : buf := [49; 50; 51; 52; 53; 54; 55; 56; 57; 0].     (* "123456789" *)

Definition test_null_pointer_memset : option bool := r ← memset None 0 10; Some (bool_decide (r = None)).
(** [dest] is on the stack, with any contents. *)
Definition test_copy_non_overlapping (dest : buf) : option bool :=
  r ← memcpy (Some dest) (Some digits_string) 10; Some (match r with Some d => bool_decide (take 10 d = digits_string) | None => false end).
Definition test_null_pointer_src (dest : buf) : option bool := r ← memcpy (Some dest) None 10; Some (bool_decide (r = None)).
Definition test_null_pointer_dest : option bool := r ← memcpy None (Some digits_string) 10; Some (bool_decide (r = None)).

(** The loop of [memcpy] when source and destination are in the same array. *)
Fixpoint copy_within (b : buf) (d s n : nat) : option buf :=
  match n with
  | O => Some b
  | S n' => v ← b !! s; if (d <? length b)%nat then copy_within (<[d := v]> b) (S d) (S s) n' else None
  end.

Definition overlap_buffer : buf := digits_string ++ replicate 10 0.
Definition test_copy_overlapping : option bool :=
  b ← copy_within overlap_buffer 4 0 10; Some (forallb (fun i => nth (i + 4) b 0 =? nth i b 0) (seq 0 10)).

(** The results in the order in which they are printed. *)
Definition test_memory (fuel : nat) (stack : buf) (h : kheap) (mem : Z -> Z) : option (list (string * bool) * kheap * (Z -> Z)) :=
  '(r1, h, mem) ← test_realloc fuel h mem;
  '(r2, h) ← test_reset_after_free fuel h;
  '(r3, h) ← test_multiple_frees fuel h;
  '(r4, h, mem) ← test_set_memory fuel h mem;
  '(r5, h, mem) ← test_set_zero fuel h mem;
  r6 ← test_null_pointer_memset;
  r7 ← test_copy_non_overlapping stack;
  r8 ← test_copy_overlapping;
  r9 ← test_null_pointer_src stack;
  r10 ← test_null_pointer_dest;
  Some ([("Realloc", r1); ("Reset After Free", r2); ("Multiple Frees", r3); ("Set Memory", r4); ("Set Zero", r5); ("Null Pointer Memset", r6);
         ("Copy Non-Overlapping", r7); ("Copy Overlapping", r8); ("Null Pointer Src", r9); ("Null Pointer Dest", r10)]%string, h, mem).

(** "All tests passed (%d/%d)" or not. *)
Definition passed (l : list (string * bool)) : Z := Z.of_nat (length (List.filter snd l)).

(** * Theorems *)

(** Setting ten bytes of a fresh block and giving the block back passes, and the heap has
    the tiles it had. *)
Lemma test_set_passes v fuel h l mem l' off :
  0 <= v < 256 -> heap_rep h l -> ff_alloc l 10 = Some (l', off) ->
  exists h' mem', test_set v (S fuel) h mem = Some (true, h', mem') /\ heap_rep h' l.
Proof.
  intros Hv Hrep Hff. pose proof Hrep as (_ & Hp & _ & Hco & _).
  destruct (k_malloc_found fuel h l 10 l' off Hrep ltac:(lia) Hff) as (m1 & Hm & Ht1 & Hrep1 & Hso).
  destruct (ff_alloc_disjoint _ _ _ _ Hso Hff) as (s1 & Hat & Hs1 & _).
  destruct (tile_at_lookup _ _ _ _ _ _ Ht1 Hat) as (Hoff & _ & Hend & _).
  assert (free_list h + off + BLOCK_SIZE <> 0) as Hnz%Z.eqb_neq by (unfold BLOCK_SIZE; lia).
  unfold test_set. rewrite Hm. cbn [mbind option_bind]. rewrite Hnz.
  destruct (k_free_tile _ _ off s1 false Hrep1 Hat) as (l2 & m2 & Hf & Hk & Hrep2). cbn [free_list with_blocks] in Hk. rewrite Hk. cbn [mbind option_bind].
  rewrite (ff_alloc_free _ 10 _ _ Hso Hco ltac:(lia) Hff) in Hf. injection Hf as <-.
  eexists _, _. split; [|exact Hrep2]. do 3 f_equal. apply forallb_forall. intros k Hk'%in_seq. apply Z.eqb_eq.
  unfold mem_memset. rewrite Hnz. change (Z.to_nat (u32 10)) with 10%nat. rewrite set_bytes_spec by (unfold BLOCK_SIZE, HEAP_END in *; lia).
  rewrite (proj2 (within_spec _ _ _)) by lia. rewrite !(wrap_small 8); [done|lia|]. rewrite wrap_small; lia.
Qed.

(** Allocating once more behind a used byte. *)
Lemma ff_alloc_behind S size :
  0 <= size -> size + BLOCK_SIZE < S ->
  ff_alloc [(1, false); (S, true)] size = Some ([(1, false); (size, false); (S - size - BLOCK_SIZE, true)], BLOCK_SIZE + 1).
Proof. unfold BLOCK_SIZE. intros. cbn [ff_alloc andb mbind option_bind]. unfold BLOCK_SIZE. by zcase. Qed.
Lemma ff_alloc_behind2 S size :
  0 <= size -> size + BLOCK_SIZE < S ->
  ff_alloc [(1, false); (1, false); (S, true)] size =
    Some ([(1, false); (1, false); (size, false); (S - size - BLOCK_SIZE, true)], 0 + (BLOCK_SIZE + 1) + (BLOCK_SIZE + 1)).
Proof. unfold BLOCK_SIZE. intros. cbn [ff_alloc andb mbind option_bind]. unfold BLOCK_SIZE. by zcase. Qed.

Lemma test_multiple_frees_used fuel h S :
  heap_rep h [(1, false); (S, true)] -> 13 < S ->
  exists h', test_multiple_frees (Datatypes.S fuel) h = Some (true, h') /\ heap_rep h' [(1, false); (1, false); (S - 13, true)].
Proof.
  intros Hrep HS. pose proof Hrep as (_ & Hp & _).
  destruct (k_malloc_found fuel h _ 1 _ _ Hrep ltac:(lia) (ff_alloc_behind S 1 ltac:(lia) ltac:(unfold BLOCK_SIZE; lia))) as (m1 & Hm & _ & Hrep1 & _).
  exists (with_blocks h m1). unfold test_multiple_frees. do 2 (change (k_free h 0) with (Some h); cbn [mbind option_bind]). rewrite Hm. cbn [mbind option_bind].
  rewrite (proj2 (Z.eqb_neq (free_list h + (BLOCK_SIZE + 1) + BLOCK_SIZE) 0)) by (unfold BLOCK_SIZE; lia).
  split; [done|]. replace (S - 13) with (S - 1 - BLOCK_SIZE) by (unfold BLOCK_SIZE; lia). done.
Qed.

(** The tests on arrays: ten bytes arrive whatever the destination held. *)
Lemma copy_non_overlapping stack : length stack = 10%nat -> test_copy_non_overlapping stack = Some true.
Proof. intros Hl. do 11 (destruct stack as [|? stack]; try discriminate Hl). done. Qed.

(** The start-up tests on a fresh heap of at least 200 bytes: all ten pass, so the line
    "All tests passed (10/10)" is printed, and the heap is left with the two bytes that the
    second and the third test do not give back. *)
Theorem selftests_all_pass (fuel : nat) (stack : buf) (h : kheap) (S : Z) (mem : Z -> Z) :
  heap_rep h [(S, true)] -> 200 <= S -> length stack = 10%nat ->
  exists results h' mem', test_memory (Datatypes.S fuel) stack h mem = Some (results, h', mem') /\
    passed results = 10 /\ heap_rep h' [(1, false); (1, false); (S - 26, true)].
Proof.
  intros Hrep HS Hl. destruct (heap_selftests_pass fuel h S mem Hrep ltac:(lia)) as ((h1 & mem1 & l1 & E1 & Hrep1 & ->) & _).
  destruct (heap_selftests_pass fuel h1 S mem1 Hrep1 ltac:(lia)) as (_ & (h2 & E2 & Hrep2) & _).
  destruct (test_multiple_frees_used fuel h2 _ Hrep2 ltac:(unfold BLOCK_SIZE; lia)) as (h3 & E3 & Hrep3).
  destruct (test_set_passes 65 fuel h3 _ mem1 _ _ ltac:(lia) Hrep3 (ff_alloc_behind2 (S - 1 - BLOCK_SIZE - 13) 10 ltac:(lia) ltac:(unfold BLOCK_SIZE; lia))) as (h4 & mem4 & E4 & Hrep4).
  destruct (test_set_passes 0 fuel h4 _ mem4 _ _ ltac:(lia) Hrep4 (ff_alloc_behind2 (S - 1 - BLOCK_SIZE - 13) 10 ltac:(lia) ltac:(unfold BLOCK_SIZE; lia))) as (h5 & mem5 & E5 & Hrep5).
  unfold test_memory, test_set_memory, test_set_zero. rewrite E1. cbn [mbind option_bind]. rewrite E2. cbn [mbind option_bind].
  rewrite E3. cbn [mbind option_bind]. rewrite E4. cbn [mbind option_bind]. rewrite E5. cbn [mbind option_bind].
  rewrite (copy_non_overlapping stack Hl). eexists _, h5, mem5. split; [reflexivity|]. split; [reflexivity|].
  replace (S - 26) with (S - 1 - BLOCK_SIZE - 13) by (unfold BLOCK_SIZE; lia). done.
Qed.

Lemma selftests_all_pass_witness :
  exists results h' mem', test_memory 1 (replicate 10 0) heap1 (fun _ => 0) = Some (results, h', mem') /\ passed results = 10.
Proof.
  destruct (selftests_all_pass 0 (replicate 10 0) heap1 (HEAP_END - 1012) (fun _ => 0)) as (r & h' & mem' & E & Hp & _);
    [split_and!; simpl; split_and?; done|done|done|]. exists r, h', mem'. exact (conj E Hp).
Defined.

(** The test "Copy Overlapping" compares the two regions after the copy, so it passes
    although [memcpy] goes forward and overwrites bytes it has yet to read: the first four
    bytes are repeated and the rest of the text is lost. *)
Theorem overlapping_copy_corrupts :
  test_copy_overlapping = Some true /\
  copy_within overlap_buffer 4 0 10 = Some ([49; 50; 51; 52; 49; 50; 51; 52; 49; 50; 51; 52; 49; 50] ++ replicate 6 0) /\
  take 10 (drop 4 ([49; 50; 51; 52; 49; 50; 51; 52; 49; 50; 51; 52; 49; 50] ++ replicate 6 0)) <> digits_string.
Proof. split_and!; [reflexivity..|discriminate]. Qed.
