(* ===== verification/KbSetup.v ===== *)
(** drivers/char/kb.c, [kb_install]: the keyboard controller is told to enable the keyboard,
    the keyboard to send scan codes, and the handler goes to interrupt line 1 by a system
    call.

    The controller (8042) is the class [KbcDevice]: a status port whose bits say that it is
    still busy with a command and that a byte is there to be read, and a keyboard that
    answers a command some time later. *)

From stdpp Require Import strings.
From S2P Require Import Prelude Effects CString CStdlib CStdio Ports Cpu Kb.

Definition KEYBOARD_STATUS_PORT : Z := 100.

Section Install.
Context {H : Type} `{Ports H}.
Abbreviation A := (M (cpu H)).

(** [while (inb(KEYBOARD_STATUS_PORT) & bit)] and the loop with the condition negated. *)
Fixpoint wait_status (fuel : nat) (bit : Z) (set : bool) : A unit :=
  match fuel with
  | O => undef
  | S fuel =>
      v ← inb KEYBOARD_STATUS_PORT;
      if eqb (negb (Z.land v bit =? 0)) set then mret tt else wait_status fuel bit set
  end.

(** [invoke] runs the other functions of the system call table; the result is what is
    printed. *)
Definition kb_install (invoke : kernel_function -> list Z -> A unit) (fuel : nat) (kb_handler_addr : Z) : A buf :=
  _ ← wait_status fuel 2 false;
  _ ← outb KEYBOARD_STATUS_PORT 174;
  _ ← wait_status fuel 2 false;
  _ ← outb KEYBOARD_DATA_PORT 244;
  _ ← wait_status fuel 1 true;
  _ ← inb KEYBOARD_DATA_PORT;
  t ← syscall_handler invoke SYS_INSTALL_IRQ 1 kb_handler_addr 0;
  lift (u ← prints [(nl "Keyboard driver installed (enhanced mode)", []); (nl "  - Extended scancode support: YES", []); (nl "  - Ctrl/Alt tracking: YES", []);
                    (nl "  - Arrow keys: YES", []); (nl "  - Function keys: YES", []); (nl "  - VMware compatible: YES", [])];
        Some (t ++ u)).
End Install.

(** * The controller *)

(** [kc_busy] more status reads show it busy; [kc_coming] is the answer on its way, with the
    number of status reads until it arrives. *)
Record kbc := Mk_kbc { kc_busy : nat; kc_coming : option (nat * Z); kc_output : option Z; kc_enabled : bool; kc_scanning : bool }.

Definition kbc_status (k : kbc) : Z := (if (kc_busy k =? 0)%nat then 0 else 2) + (match kc_output k with Some _ => 1 | None => 0 end).
(** Time passes with a status read. *)
Definition kbc_tick (k : kbc) : kbc :=
  match kc_coming k, kc_output k with
  | Some (O, b), None => Mk_kbc (pred (kc_busy k)) None (Some b) (kc_enabled k) (kc_scanning k)
  | Some (S n, b), _ => Mk_kbc (pred (kc_busy k)) (Some (n, b)) (kc_output k) (kc_enabled k) (kc_scanning k)
  | _, _ => Mk_kbc (pred (kc_busy k)) (kc_coming k) (kc_output k) (kc_enabled k) (kc_scanning k)
  end.
Definition kbc_taken (k : kbc) : kbc := Mk_kbc (kc_busy k) (kc_coming k) None (kc_enabled k) (kc_scanning k).

(** A command is accepted when the controller is not busy; it is busy for [busy] reads then,
    and the answer of the keyboard comes after [delay] reads. *)
Class KbcDevice (H : Type) `{Ports H} := {
  kbc_of : H -> kbc;
  kbc_read_status : forall h, exists h', dev_inb KEYBOARD_STATUS_PORT h = (kbc_status (kbc_of h), h') /\ kbc_of h' = kbc_tick (kbc_of h);
  kbc_read_data : forall h v, kc_output (kbc_of h) = Some v -> exists h', dev_inb KEYBOARD_DATA_PORT h = (v, h') /\ kbc_of h' = kbc_taken (kbc_of h);
  kbc_latency : H -> nat * nat;
  kbc_enable : forall h, kc_busy (kbc_of h) = 0%nat -> let k := kbc_of h in
    kbc_of (dev_outb KEYBOARD_STATUS_PORT 174 h) = Mk_kbc (fst (kbc_latency h)) (kc_coming k) (kc_output k) true (kc_scanning k);
  kbc_scan : forall h, kc_busy (kbc_of h) = 0%nat -> kc_enabled (kbc_of h) = true -> let k := kbc_of h in
    kbc_of (dev_outb KEYBOARD_DATA_PORT 244 h) = Mk_kbc (fst (kbc_latency h)) (Some (snd (kbc_latency h), 250)) (kc_output k) true true
}.

Section Installed.
Context {H : Type} `{KbcDevice H}.
Implicit Types c : cpu H.

Lemma status_read c : exists h, inb KEYBOARD_STATUS_PORT c = Some (kbc_status (kbc_of (cpu_hw c)), with_cpu_hw c h) /\ kbc_of h = kbc_tick (kbc_of (cpu_hw c)).
Proof.
  destruct (kbc_read_status (cpu_hw c)) as (h & E & Ek). exists h. split; [|done]. unfold inb. cbn [hw with_hw cpu_machine].
  change (u16 KEYBOARD_STATUS_PORT) with KEYBOARD_STATUS_PORT. rewrite E. do 2 f_equal. unfold kbc_status. by destruct (_ =? 0)%nat, (kc_output _).
Qed.

(** Waiting until the controller takes a command, when no byte is there. *)
Lemma wait_ready fuel : forall c, (kc_busy (kbc_of (cpu_hw c)) < fuel)%nat -> kc_coming (kbc_of (cpu_hw c)) = None ->
  exists h, wait_status fuel 2 false c = Some (tt, with_cpu_hw c h) /\
    kbc_of h = Mk_kbc 0 None (kc_output (kbc_of (cpu_hw c))) (kc_enabled (kbc_of (cpu_hw c))) (kc_scanning (kbc_of (cpu_hw c))).
Proof.
  induction fuel as [|fuel IH]; intros c Hb Hc; [lia|]. cbn [wait_status]. destruct (status_read c) as (h & E & Ek). rewrite (bind_eq _ _ _ _ _ E).
  assert (negb (Z.land (kbc_status (kbc_of (cpu_hw c))) 2 =? 0) = negb (kc_busy (kbc_of (cpu_hw c)) =? 0)%nat) as ->
    by (unfold kbc_status; destruct (_ =? 0)%nat, (kc_output _); done).
  unfold kbc_tick in Ek. rewrite Hc in Ek. destruct (Nat.eqb_spec (kc_busy (kbc_of (cpu_hw c))) 0) as [Ez|Hz]; cbn [negb eqb].
  - exists h. split; [done|]. by rewrite Ek, Ez.
  - destruct (IH (with_cpu_hw c h)) as (h2 & E2 & Ek2); cbn [cpu_hw with_cpu_hw] in *; [rewrite Ek; cbn; lia|by rewrite Ek|].
    exists h2. rewrite E2, Ek2, Ek. done.
Qed.

(** Waiting for the answer. *)
Lemma wait_answer fuel : forall c n b, kc_coming (kbc_of (cpu_hw c)) = Some (n, b) -> kc_output (kbc_of (cpu_hw c)) = None -> (S n < fuel)%nat ->
  exists h busy, wait_status fuel 1 true c = Some (tt, with_cpu_hw c h) /\
    kbc_of h = Mk_kbc busy None (Some b) (kc_enabled (kbc_of (cpu_hw c))) (kc_scanning (kbc_of (cpu_hw c))).
Proof.
  induction fuel as [|fuel IH]; intros c n b Hc Ho Hf; [lia|]. cbn [wait_status]. destruct (status_read c) as (h & E & Ek). rewrite (bind_eq _ _ _ _ _ E).
  assert (eqb (negb (Z.land (kbc_status (kbc_of (cpu_hw c))) 1 =? 0)) true = false) as ->
    by (unfold kbc_status; rewrite Ho; destruct (_ =? 0)%nat; done).
  unfold kbc_tick in Ek. rewrite Hc, Ho in Ek. destruct n as [|n].
  - destruct fuel as [|fuel]; [lia|]. cbn [wait_status]. destruct (status_read (with_cpu_hw c h)) as (h2 & E2 & Ek2). rewrite (bind_eq _ _ _ _ _ E2). cbn [cpu_hw with_cpu_hw] in *.
    assert (eqb (negb (Z.land (kbc_status (kbc_of h)) 1 =? 0)) true = true) as -> by (rewrite Ek; unfold kbc_status; cbn; by destruct (_ =? 0)%nat).
    eexists h2, _. split; [done|]. rewrite Ek2, Ek. reflexivity.
  - destruct (IH (with_cpu_hw c h) n b) as (h2 & busy & E2 & Ek2); cbn [cpu_hw with_cpu_hw] in *; [by rewrite Ek|by rewrite Ek|lia|].
    exists h2, busy. rewrite E2, Ek2, Ek. done.
Qed.

Lemma out_eq port v c : 0 <= port < 65536 -> byte_ok v -> outb port v c = Some (tt, with_cpu_hw c (dev_outb port v (cpu_hw c))).
Proof. intros Hp Hv. unfold outb, modify. cbn [hw with_hw cpu_machine]. unfold byte_ok in Hv. by rewrite !wrap_small by lia. Qed.

(** The start of the keyboard.  With a controller that answers, from a state in which nothing
    is under way and no byte is waiting, [kb_install] returns: the keyboard is enabled and
    sends scan codes, its answer has been read, so that the first interrupt brings a scan
    code, and the handler is that of line 1 and of no other. *)
Theorem keyboard_started (invoke : kernel_function -> list Z -> M (cpu H) unit) (fuel : nat) (handler : Z) (c : cpu H) :
  cpu_ok c -> 0 <= handler < 2 ^ 32 -> kc_coming (kbc_of (cpu_hw c)) = None -> kc_output (kbc_of (cpu_hw c)) = None -> (kc_busy (kbc_of (cpu_hw c)) < fuel)%nat ->
  (forall h, (fst (kbc_latency h) < fuel)%nat /\ (S (snd (kbc_latency h)) < fuel)%nat) ->
  exists text h busy, kb_install invoke fuel handler c = Some (text, with_routines (with_cpu_hw c h) (<[1%nat := handler]> (irq_routines c))) /\
    kbc_of h = Mk_kbc busy None None true true.
Proof.
  intros Hok Hh Hc Ho Hb Hlat. unfold kb_install.
  destruct (wait_ready fuel c Hb Hc) as (h1 & E1 & K1). rewrite (bind_eq _ _ _ _ _ E1).
  rewrite (bind_eq _ _ _ _ _ (out_eq KEYBOARD_STATUS_PORT 174 (with_cpu_hw c h1) ltac:(done) ltac:(done))). cbn [cpu_hw with_cpu_hw].
  pose proof (kbc_enable h1 ltac:(by rewrite K1)) as K2. rewrite K1 in K2. cbn in K2. set (h2 := dev_outb _ _ h1) in *.
  destruct (wait_ready fuel (with_cpu_hw c h2)) as (h3 & E3 & K3); cbn [cpu_hw with_cpu_hw] in *; [rewrite K2; apply Hlat|by rewrite K2|].
  change (with_cpu_hw (with_cpu_hw c h1) h2) with (with_cpu_hw c h2). rewrite (bind_eq _ _ _ _ _ E3).
  rewrite K2, Ho in K3. cbn in K3. change (with_cpu_hw (with_cpu_hw c h2) h3) with (with_cpu_hw c h3).
  rewrite (bind_eq _ _ _ _ _ (out_eq KEYBOARD_DATA_PORT 244 (with_cpu_hw c h3) ltac:(done) ltac:(done))). cbn [cpu_hw with_cpu_hw].
  pose proof (kbc_scan h3 ltac:(by rewrite K3) ltac:(by rewrite K3)) as K4. rewrite K3 in K4. cbn in K4. set (h4 := dev_outb _ _ h3) in *.
  change (with_cpu_hw (with_cpu_hw c h3) h4) with (with_cpu_hw c h4).
  destruct (wait_answer fuel (with_cpu_hw c h4) (snd (kbc_latency h3)) 250) as (h5 & busy & E5 & K5); cbn [cpu_hw with_cpu_hw] in *; [by rewrite K4|by rewrite K4|apply Hlat|].
  rewrite (bind_eq _ _ _ _ _ E5). change (with_cpu_hw (with_cpu_hw c h4) h5) with (with_cpu_hw c h5).
  destruct (kbc_read_data h5 250 ltac:(by rewrite K5)) as (h6 & E6 & K6). rewrite K5, K4 in K6. cbn in K6.
  assert (inb KEYBOARD_DATA_PORT (with_cpu_hw c h5) = Some (250, with_cpu_hw c h6)) as Ein.
  { unfold inb. cbn [hw with_hw cpu_machine cpu_hw with_cpu_hw]. change (u16 KEYBOARD_DATA_PORT) with KEYBOARD_DATA_PORT. by rewrite E6. }
  rewrite (bind_eq _ _ _ _ _ Ein). assert (cpu_ok (with_cpu_hw c h6)) as Hok6 by (by destruct Hok).
  assert (syscall_handler invoke SYS_INSTALL_IRQ 1 handler 0 (with_cpu_hw c h6) = Some ([], with_routines (with_cpu_hw c h6) (<[1%nat := handler]> (irq_routines c)))) as Es.
  { unfold syscall_handler. change (at_index syscall_table (s32 SYS_INSTALL_IRQ)) with (Some (Some f_register_interrupt_handler)). cbn [run_function].
    change (s32 SYS_INSTALL_IRQ) with 8. cbn [Z.eqb Pos.eqb orb SYS_FREE SYS_MALLOC SYS_REALLOC SYS_INSTALL_IRQ]. unfold run_function.
    assert (u32 (s32 handler) = handler) as -> by (unfold swrap, wrap; rewrite Zminus_mod_idemp_l, Z.add_simpl_r; apply Z.mod_small; lia). change (s32 1) with 1.
    rewrite (bind_eq _ _ _ _ _ (register_irq_ok 1 handler _ Hok6 ltac:(lia))). done. }
  rewrite (bind_eq _ _ _ _ _ Es). eexists _, h6, busy. split; [reflexivity|exact K6].
Qed.
End Installed.

(** ** A controller to try it on *)

#[global] Instance kbc_ports : Ports kbc := {|
  dev_inb p k := if p =? 100 then (kbc_status k, kbc_tick k) else if p =? 96 then (default 0 (kc_output k), kbc_taken k) else (0, k);
  dev_outb p v k :=
    if (p =? 100) && (v =? 174) then Mk_kbc 2 (kc_coming k) (kc_output k) true (kc_scanning k)
    else if (p =? 96) && (v =? 244) then Mk_kbc 2 (Some (3%nat, 250)) (kc_output k) true true else k;
  dev_insw _ n k := (replicate (2 * n) 0, k); dev_outsw _ _ k := k; dev_delay _ k := k
|}.
#[global, refine] Instance kbc_device : KbcDevice kbc := {| kbc_of k := k; kbc_latency _ := (2, 3)%nat |}.
Proof.
  - intros k. by exists (kbc_tick k).
  - intros k v Hv. exists (kbc_taken k). cbn. by rewrite Hv.
  - done.
  - done.
Defined.

Definition kbc_cpu (k : kbc) : cpu kbc :=
  Mk_cpu (replicate 6 (Mk_gdt_entry 0 0 0 0 0 0)) (Mk_table_ptr 0 0) (replicate 256 (Mk_idt_entry 0 0 0 0 0)) (Mk_table_ptr 0 0) zero_tss
    (replicate 17 0) (replicate 32 no_handler) (Mk_table_ptr 0 0) (Mk_table_ptr 0 0) 0 k.

Lemma keyboard_started_witness : exists text c', kb_install (fun _ _ => undef) 9 4660 (kbc_cpu (Mk_kbc 5 None None false false)) = Some (text, c') /\
  at_index (irq_routines c') 1 = Some 4660 /\ kc_scanning (cpu_hw c') = true.
Proof.
  destruct (keyboard_started (fun _ _ => undef) 9 4660 (kbc_cpu (Mk_kbc 5 None None false false))) as (text & h & busy & E & K); [|lia|done|done|cbn; lia|cbn; lia|].
  - split; [done| |done| |done|done]; [apply (Forall_replicate _ 6)|apply (Forall_replicate _ 256)]; by split.
  - eexists _, _. split; [exact E|]. cbn in K. split; [done|]. cbn. by rewrite K.
Defined.

(** A byte that is already waiting, such as a key pressed during the start, is taken for the
    answer, and the answer itself stays in the way as the first "scan code". *)
Theorem waiting_key_lost : exists text c', kb_install (fun _ _ => undef) 9 4660 (kbc_cpu (Mk_kbc 0 None (Some 30) false false)) = Some (text, c') /\
  kc_output (cpu_hw c') = None /\ kc_coming (cpu_hw c') = Some (2%nat, 250).
Proof. eexists _, _. split; [vm_compute; reflexivity|]. split; reflexivity. Qed.
