(* ===== verification/Stdio.v ===== *)
(** lib/libc/stdio.c, the functions besides printf: the dumps of memory, the speaker, and
    the file functions, which go to FAT32 or FAT12 when the caller runs in the kernel.

    A dump is a sequence of events: text on the console, and waiting for the Enter key. *)

From stdpp Require Import strings.
From S2P Require Import Prelude Effects CString CStdlib CStdio Printf Ports CharDev BlockDev Fat32Fat Fat32Dir Fat12.

(** * Dumps *)

Inductive event := Shown (text : buf) | Wait_enter.

Definition LINES_PER_PAGE : Z := 20.

(** The hexadecimal column of a line: [n] cells from [j] on. *)
Fixpoint hex_cells (data : buf) (size i j : Z) (n : nat) : option buf :=
  match n with
  | O => Some []
  | S n' =>
      t ← (if u32 (i + j) <? size then b ← rd data (u32 (i + j)); printf (lit "%02X ") [VInt b] else printf (lit "   ") []);
      rest ← hex_cells data size i (j + 1) n';
      Some (t ++ rest)
  end.
(** The characters. *)
Fixpoint ascii_cells (data : buf) (size i j : Z) (n : nat) : option buf :=
  match n with
  | O => Some []
  | S n' =>
      t ← (if u32 (i + j) <? size then c ← rd data (u32 (i + j)); printf (lit "%c") [VInt (if isprint c then c else 46)] else Some []);
      rest ← ascii_cells data size i (j + 1) n';
      Some (t ++ rest)
  end.
Definition hex_line (data : buf) (size i : Z) : option buf :=
  a ← printf (lit "%08X  ") [VInt i];
  h ← hex_cells data size i 0 16;
  s ← printf (lit " ") [];
  c ← ascii_cells data size i 0 16;
  e ← printf [10; 0] [];
  Some (a ++ h ++ s ++ c ++ e).

Fixpoint hex_lines (fuel : nat) (data : buf) (size i line_count : Z) : option (list event) :=
  match fuel with
  | O => None
  | S fuel =>
      if i <? size then
        t ← hex_line data size i;
        let line_count := line_count + 1 in
        if LINES_PER_PAGE <=? line_count
        then rest ← hex_lines fuel data size (u32 (i + 16)) 0; Some (Shown t :: Wait_enter :: rest)
        else rest ← hex_lines fuel data size (u32 (i + 16)) line_count; Some (Shown t :: rest)
      else Some []
  end.
Definition hex_dump (fuel : nat) (data : buf) (size : Z) : option (list event) := hex_lines fuel data size 0 0.

Definition BYTES_PER_LINE : Z := 16.
Definition MAX_LINES : Z := 20.

(** The cells of a line of [memory_dump]: the text and the array [ascii]. *)
Fixpoint dump_cells (mem : Z -> Z) (ptr end_address i : Z) (n : nat) (ascii : buf) : option (buf * buf) :=
  match n with
  | O => Some ([], ascii)
  | S n' =>
      let a := u32 (ptr + i) in
      '(t, c) ← (if a <? end_address then t ← printf (lit "%02X ") [VInt (u8 (mem a))]; Some (t, if is_printable (s8 (mem a)) then u8 (mem a) else 46)
                 else t ← printf (lit "   ") []; Some (t, 32));
      ascii ← wr ascii i c;
      '(rest, ascii) ← dump_cells mem ptr end_address (i + 1) n' ascii;
      Some (t ++ rest, ascii)
  end.
(** [ascii] has room for a terminator, which is not written; [fresh] is what the stack holds. *)
Definition dump_line (fresh : nat -> buf) (mem : Z -> Z) (ptr end_address : Z) : option buf :=
  a ← printf (lit "%08X: ") [VInt ptr];
  '(h, ascii) ← dump_cells mem ptr end_address 0 16 (fresh 17%nat);
  e ← printf (lit_bytes " |%s|" ++ [10; 0]) [VStr (Some ascii)];
  Some (a ++ h ++ e).

Fixpoint dump_lines (fuel : nat) (fresh : nat -> buf) (mem : Z -> Z) (ptr end_address line_count : Z) : option (list event) :=
  match fuel with
  | O => None
  | S fuel =>
      if ptr <? end_address then
        t ← dump_line fresh mem ptr end_address;
        let ptr := u32 (ptr + BYTES_PER_LINE) in
        let line_count := line_count + 1 in
        if MAX_LINES <=? line_count
        then rest ← dump_lines fuel fresh mem ptr end_address 0; Some (Shown t :: Wait_enter :: rest)
        else rest ← dump_lines fuel fresh mem ptr end_address line_count; Some (Shown t :: rest)
      else Some []
  end.
Definition memory_dump (fuel : nat) (fresh : nat -> buf) (mem : Z -> Z) (start_address end_address : Z) : option (list event) :=
  let end_address := if end_address =? 0 then u32 (start_address + BYTES_PER_LINE * MAX_LINES) else end_address in
  dump_lines fuel fresh mem start_address end_address 0.

(** * The speaker

    The bodies stand between [#ifdef __kernel__] and [#endif]; [kernel] says whether the
    build defines the name.  No file of the repository does. *)

Section Speaker.
Context {H : Type} `{Ports H} (kernel : bool).
Abbreviation A := (M H).

Definition PIT_CONTROL_PORT : Z := 67.
Definition PIT_CHANNEL_2_PORT : Z := 66.
Definition PC_SPEAKER_PORT : Z := 97.

(** A frequency of zero divides by zero. *)
Definition set_pit_frequency (frequency : Z) : A unit :=
  if negb kernel then mret tt
  else if frequency =? 0 then undef
  else
    let divisor := 1193180 / frequency in
    _ ← outb PIT_CONTROL_PORT 182;
    _ ← outb PIT_CHANNEL_2_PORT (u8 (Z.land divisor 255));
    outb PIT_CHANNEL_2_PORT (u8 (Z.land (Z.shiftr divisor 8) 255)).
Definition enable_pc_speaker : A unit :=
  if negb kernel then mret tt
  else
    tmp ← inb PC_SPEAKER_PORT;
    if Z.land tmp 3 =? 0 then outb PC_SPEAKER_PORT (Z.lor tmp 3) else mret tt.
Definition disable_pc_speaker : A unit :=
  if negb kernel then mret tt
  else tmp ← inb PC_SPEAKER_PORT; outb PC_SPEAKER_PORT (Z.land tmp 252).
Definition beep (frequency duration_ms : Z) : A unit :=
  if negb kernel then mret tt
  else
    _ ← set_pit_frequency frequency;
    _ ← enable_pc_speaker;
    _ ← pit_delay duration_ms;
    disable_pc_speaker.
End Speaker.

(** * Files *)

(** The privilege level of the code segment. *)
Definition is_kernel_context (cs : Z) : bool := Z.land cs 3 =? 0.
Definition in_kernel {S X} (cs : Z) (m : M S X) (otherwise : X) : M S X := if is_kernel_context cs then m else mret otherwise.
Definition as_int {S} (m : M S bool) : M S Z := b ← m; mret (if b : bool then 1 else 0).

Section Files.
Context {D : Type} `{BlockDev D} (alloc_ok : Z -> bool) (fresh : nat -> buf) (fuel : nat) (clock : nat -> rtc) (cs : Z).
Abbreviation F := (M (fat32 D)).

Definition mkdir (path : buf) : F Z := in_kernel cs (as_int (fat32_create_dir fresh fuel path clock)) (-1).
Definition rmdir (path : buf) : F Z := in_kernel cs (as_int (fat32_delete_dir alloc_ok fresh fuel path)) (-1).
Definition mkfile (path : buf) : F Z := in_kernel cs (as_int (fat32_create_file fresh fuel path clock)) (-1).
Definition remove (path : buf) : F Z := in_kernel cs (as_int (fat32_delete_file alloc_ok fresh fuel path)) (-1).
Definition fopen (filename mode : buf) : F (option FILE) := in_kernel cs (fat32_open_file alloc_ok filename mode) None.
Definition fread (size count : Z) (stream : FILE) : F buf := in_kernel cs (fat32_read_file fuel stream size count) [].

(** The directory of either drive; the result carries the rows that FAT32 prints.  [dt] is
    a [drive_type_t] as a number: none, hard disk, floppy. *)
Context {FD : Type} `{Floppy FD}.
Definition first {S T X} (m : M S X) : M (S * T) X := fun '(s, t) => match m s with Some (x, s) => Some (x, (s, t)) | None => None end.
Definition second {S T X} (m : M T X) : M (S * T) X := fun '(s, t) => match m t with Some (x, t) => Some (x, (s, t)) | None => None end.
Definition readdir (path : buf) (dt : Z) : M (fat32 D * fs12 FD) (Z * list row) :=
  if negb (is_kernel_context cs) then mret (-1, [])
  else if dt =? 0 then mret (-1, [])
  else if dt =? 1 then r ← first (fat32_read_dir fuel path); mret (match r with Some rows => (1, rows) | None => (0, []) end)
  else if dt =? 2 then b ← second (fat12_read_dir alloc_ok fresh fuel); mret (if b : bool then (1, []) else (0, []))
  else mret (-1, []).
End Files.

(** * What a dump shows *)

Definition hex_char (d : Z) : Z := if d <? 10 then 48 + d else 55 + d.
Definition hex2 (b : Z) : buf := [hex_char (b / 16); hex_char (b mod 16); 32].
Definition shown_char (c : Z) : Z := if isprint c then c else 46.

Lemma cell_texts : forall b, 0 <= b < 256 -> printf (lit "%02X ") [VInt b] = Some (hex2 b) /\ printf (lit "%c") [VInt (shown_char b)] = Some [shown_char b].
Proof.
  assert (forallb (fun k => bool_decide (printf (lit "%02X ") [VInt (Z.of_nat k)] = Some (hex2 (Z.of_nat k)) /\
    printf (lit "%c") [VInt (shown_char (Z.of_nat k))] = Some [shown_char (Z.of_nat k)])) (seq 0 256) = true) as Hall by (vm_compute; reflexivity).
  intros b Hb. rewrite forallb_forall in Hall. specialize (Hall (Z.to_nat b)). rewrite in_seq in Hall. specialize (Hall ltac:(lia)).
  apply bool_decide_eq_true in Hall. rewrite Z2Nat.id in Hall by lia. exact Hall.
Qed.

(** The line of 16 bytes from [i] on, of which [chunk] are there. *)
Definition offset_text (i : Z) : buf := default [] (printf (lit "%08X  ") [VInt i]).
Definition line_text (i : Z) (chunk : buf) : buf :=
  offset_text i ++ (mjoin (map hex2 chunk) ++ replicate (3 * (16 - length chunk)) 32) ++ [32] ++ map shown_char chunk ++ [10].

Lemma hex_cells_ok data n : forall i j, bytes_ok data -> 0 <= i -> 0 <= j -> blen data + 16 <= 2 ^ 32 -> i < blen data -> j + Z.of_nat n <= 16 ->
  hex_cells data (blen data) i j n =
    Some (mjoin (map hex2 (take n (drop (Z.to_nat (i + j)) data))) ++ replicate (3 * (n - length (drop (Z.to_nat (i + j)) data))) 32) /\
  ascii_cells data (blen data) i j n = Some (map shown_char (take n (drop (Z.to_nat (i + j)) data))).
Proof.
  induction n as [|n IH]; intros i j Hb Hi Hj Hlen Hid Hn; [by rewrite take_0|]. cbn [hex_cells ascii_cells].
  destruct (IH i (j + 1) Hb Hi ltac:(lia) Hlen Hid ltac:(lia)) as [-> ->]. rewrite (wrap_small 32) by lia.
  replace (Z.to_nat (i + (j + 1))) with (S (Z.to_nat (i + j))) by lia.
  destruct (Z.ltb_spec (i + j) (blen data)) as [Hlt|Hge].
  - destruct (lookup_lt_is_Some_2 data (Z.to_nat (i + j)) ltac:(unfold blen in Hlt; lia)) as [b Eb].
    assert (rd data (i + j) = Some b) as -> by (unfold rd; rewrite (proj2 (Z.ltb_ge _ _)) by lia; done).
    destruct (cell_texts b ltac:(exact (Forall_lookup_1 _ _ _ _ Hb Eb))) as [Ex Ec]. unfold shown_char in Ec at 1. cbn [mbind option_bind]. rewrite Ex, Ec. cbn [mbind option_bind].
    rewrite (drop_S data b _ Eb). cbn [take map mjoin list_join length]. split; [|done]. by rewrite <- app_assoc.
  - assert (length data <= Z.to_nat (i + j))%nat by (unfold blen in Hge; lia). rewrite !drop_ge by lia. rewrite !take_nil. cbn [map mjoin list_join length].
    change (printf (lit "   ") []) with (Some [32; 32; 32]). cbn [mbind option_bind]. split; [|done].
    replace (3 * (S n - 0))%nat with (3 + 3 * (n - 0))%nat by lia. done.
Qed.

Lemma hex_line_ok data i : bytes_ok data -> 0 <= i -> blen data + 16 <= 2 ^ 32 -> i < blen data ->
  hex_line data (blen data) i = Some (line_text i (take 16 (drop (Z.to_nat i) data))).
Proof.
  intros Hb Hi Hlen Hid. unfold hex_line, line_text, offset_text. destruct (printf_loop_total (S (length (lit "%08X  "))) (lit "%08X  ") [VInt i] eq_refl ltac:(repeat constructor)) as [a Ea].
  change (printf (lit "%08X  ") [VInt i]) with (printf_loop (S (length (lit "%08X  "))) (lit "%08X  ") [VInt i]). rewrite Ea. cbn [mbind option_bind default].
  destruct (hex_cells_ok data 16 i 0 Hb Hi ltac:(lia) Hlen Hid ltac:(lia)) as [-> ->]. rewrite Z.add_0_r. cbn [mbind option_bind].
  change (printf (lit " ") []) with (Some [32]). change (printf [10; 0] []) with (Some [10]). cbn [mbind option_bind].
  rewrite length_take. do 4 f_equal. f_equal. lia.
Qed.

(** After every twentieth line the dump waits. *)
Definition line_events (data : buf) (k : nat) : list event :=
  Shown (line_text (16 * Z.of_nat k) (take 16 (drop (16 * k) data))) :: (if (S k mod 20 =? 0)%nat then [Wait_enter] else []).
Definition lines_of (data : buf) : nat := (length data + 15) / 16.
Definition dump_events (data : buf) : list event := mjoin (map (line_events data) (seq 0 (lines_of data))).

Lemma hex_lines_ok data (Hb : bytes_ok data) (Hlen : blen data + 16 <= 2 ^ 32) n : forall fuel k, (n < fuel)%nat -> (k + n = lines_of data)%nat ->
  hex_lines fuel data (blen data) (16 * Z.of_nat k) (Z.of_nat (k mod 20)) = Some (mjoin (map (line_events data) (seq k n))).
Proof.
  unfold lines_of. induction n as [|n IH]; intros fuel k Hf Hk; (destruct fuel as [|fuel]; [lia|]); cbn [hex_lines].
  - destruct (Z.ltb_spec (16 * Z.of_nat k) (blen data)) as [Hlt|_]; [|done]. unfold blen in Hlt. pose proof (Nat.div_mod_eq (length data + 15) 16). pose proof (Nat.mod_upper_bound (length data + 15) 16 ltac:(lia)). lia.
  - assert (16 * Z.of_nat k < blen data) as Hlt.
    { unfold blen. pose proof (Nat.div_mod_eq (length data + 15) 16). pose proof (Nat.mod_upper_bound (length data + 15) 16 ltac:(lia)). lia. }
    rewrite (proj2 (Z.ltb_lt _ _) Hlt), hex_line_ok by (done || lia). cbn [mbind option_bind]. replace (Z.to_nat (16 * Z.of_nat k)) with (16 * k)%nat by lia.
    rewrite (wrap_small 32) by lia. replace (16 * Z.of_nat k + 16) with (16 * Z.of_nat (S k)) by lia.
    specialize (IH fuel (S k) ltac:(lia) ltac:(lia)). unfold LINES_PER_PAGE. cbn [seq map mjoin list_join]. unfold line_events at 1.
    pose proof (Nat.div_mod_eq k 20). pose proof (Nat.mod_upper_bound k 20 ltac:(lia)). pose proof (Nat.div_mod_eq (S k) 20). pose proof (Nat.mod_upper_bound (S k) 20 ltac:(lia)).
    destruct (Z.leb_spec 20 (Z.of_nat (k mod 20) + 1)).
    + assert (S k mod 20 = 0)%nat as Em by nia. rewrite Em in IH |- *. cbn [Nat.eqb]. change (Z.of_nat 0) with 0 in IH. rewrite IH. done.
    + assert (S k mod 20 = S (k mod 20))%nat as Em by nia. rewrite Em in IH |- *. cbn [Nat.eqb].
      replace (Z.of_nat (k mod 20) + 1) with (Z.of_nat (S (k mod 20))) by lia. rewrite IH. done.
Qed.

(** A dump ends and shows every byte: line by line 16 of them in hexadecimal and as
    characters, those that cannot be printed as dots, with the offset in front, and after
    every twenty lines it waits for the Enter key. *)
Theorem hex_dump_shows (data : buf) (fuel : nat) :
  bytes_ok data -> blen data + 16 <= 2 ^ 32 -> (lines_of data < fuel)%nat -> hex_dump fuel data (blen data) = Some (dump_events data).
Proof. intros Hb Hlen Hf. exact (hex_lines_ok data Hb Hlen (lines_of data) fuel 0 Hf eq_refl). Qed.

Lemma hex_dump_shows_witness : hex_dump 4 (lit "Hello, world! 0123456789") 25 = Some (dump_events (lit "Hello, world! 0123456789")).
Proof. apply (hex_dump_shows (lit "Hello, world! 0123456789") 4); [repeat constructor; lia|vm_compute; congruence|vm_compute; lia]. Defined.

(** ** The two flaws of [memory_dump] *)

(** A dump of the top of the address space does not end: the pointer wraps to zero before
    it reaches the end address. *)
Lemma dump_lines_endless fresh mem end_address fuel : 2 ^ 32 - 16 < end_address -> forall ptr n,
  0 <= ptr < 2 ^ 32 -> ptr mod 16 = 0 -> dump_lines fuel fresh mem ptr end_address n = None.
Proof.
  intros He. induction fuel as [|fuel IH]; intros ptr n Hp Hm; [done|]. cbn [dump_lines].
  assert (ptr < end_address) as Hlt by zlia. rewrite (proj2 (Z.ltb_lt _ _) Hlt). destruct (dump_line _ _ _ _); [|done]. cbn [mbind option_bind].
  assert (0 <= u32 (ptr + BYTES_PER_LINE) < 2 ^ 32 /\ u32 (ptr + BYTES_PER_LINE) mod 16 = 0) as [H1 H2].
  { unfold wrap, BYTES_PER_LINE. change (2 ^ 32) with 4294967296 in *. zlia. }
  rewrite !(IH _ _ H1 H2). by destruct (_ <=? _).
Qed.

Theorem memory_dump_endless (fuel : nat) (fresh : nat -> buf) (mem : Z -> Z) (start_address end_address : Z) :
  0 <= start_address < 2 ^ 32 -> start_address mod 16 = 0 -> 2 ^ 32 - 16 < end_address < 2 ^ 32 ->
  memory_dump fuel fresh mem start_address end_address = None.
Proof. intros Hs Hm He. unfold memory_dump. rewrite (proj2 (Z.eqb_neq _ _)) by lia. apply dump_lines_endless; [lia|done|done]. Qed.

(** The characters of a line are kept in an array without a terminator: when the stack holds
    no zero where the array is, printing the line reads behind the array. *)
Lemma dump_cells_nonzero mem ptr end_address n : forall i ascii t ascii', Forall (fun c => c <> 0) ascii ->
  dump_cells mem ptr end_address i n ascii = Some (t, ascii') -> Forall (fun c => c <> 0) ascii'.
Proof.
  induction n as [|n IH]; intros i ascii t ascii' Hn E; cbn [dump_cells] in E; [by injection E as _ <-|].
  set (cell := if _ <? _ then _ else _) in E. destruct cell as [[t1 c]|] eqn:Ec; [|done]. cbn [mbind option_bind] in E.
  destruct (wr ascii i c) as [ascii1|] eqn:Ew; [|done]. cbn [mbind option_bind] in E. destruct (dump_cells _ _ _ _ _ _) as [[rest a2]|] eqn:E2; [|done]. injection E as _ <-.
  apply (IH _ _ _ _) in E2; [done|]. unfold wr in Ew. destruct (_ && _); [|done]. injection Ew as <-. apply Forall_insert; [done|].
  assert (32 <= c <= 126) as Hc; [|rewrite wrap_small; change (2 ^ 8) with 256; lia]. subst cell. destruct (_ <? _); destruct (printf _ _); try done; injection Ec as _ <-; [|lia].
  unfold is_printable, swrap, wrap. change (2 ^ 8) with 256. change (2 ^ (8 - 1)) with 128. zcase; zlia.
Qed.

Lemma chars_unterminated a : Forall (fun c => c <> 0) a -> chars a = None.
Proof. induction 1 as [|c a Hc _ IH]; [done|]. cbn [chars]. rewrite (proj2 (Z.eqb_neq _ _) Hc). by rewrite IH. Qed.

Lemma printf_unterminated a : chars a = None -> printf (lit_bytes " |%s|" ++ [10; 0]) [VStr (Some a)] = None.
Proof.
  intros E. set (args := [VStr _]). change (printf (lit_bytes " |%s|" ++ [10; 0]) args) with (printf_loop (length [32; 124] + 6) ([32; 124] ++ [37; 115; 124; 10; 0]) args).
  rewrite printf_plain by (repeat constructor; done). set (n := 5%nat). change 6%nat with (S n). cbn [printf_loop]. change (37 =? 0) with false. change (negb (37 =? 37)) with false. cbv iota.
  assert (fmt_flags [115; 124; 10; 0] args = Some (Mk_flags false false false 0 (-1), false, [115; 124; 10; 0], args)) as -> by reflexivity.
  cbn [mbind option_bind]. change (115 =? 37) with false. cbv iota. unfold conversion. change (115 =? 99) with false. change (115 =? 115) with true. cbv iota.
  unfold conv_s, args, va_str. cbn [mbind option_bind]. by rewrite E.
Qed.

Theorem memory_dump_unterminated (fuel : nat) (fresh : nat -> buf) (mem : Z -> Z) (start_address end_address : Z) :
  0 <= start_address < end_address -> Forall (fun c => c <> 0) (fresh 17%nat) -> memory_dump fuel fresh mem start_address end_address = None.
Proof.
  intros Hs Hf. unfold memory_dump. rewrite (proj2 (Z.eqb_neq _ _)) by lia. destruct fuel as [|fuel]; [done|]. cbn [dump_lines].
  rewrite (proj2 (Z.ltb_lt _ _)) by lia. assert (dump_line fresh mem start_address end_address = None) as ->; [|done]. unfold dump_line.
  destruct (printf _ [VInt start_address]); [|done]. cbn [mbind option_bind]. destruct (dump_cells _ _ _ _ _ _) as [[h a]|] eqn:E; [|done]. cbn [mbind option_bind].
  apply dump_cells_nonzero in E; [|done]. apply chars_unterminated in E. by rewrite (printf_unterminated a E).
Qed.

Lemma memory_dump_unterminated_witness : memory_dump 3 (fun n => replicate n 65) (fun _ => 0) 4096 4112 = None.
Proof. apply memory_dump_unterminated; [lia|]. apply Forall_replicate. lia. Defined.
Lemma memory_dump_endless_witness : memory_dump 30 (fun n => replicate n 0) (fun _ => 0) 4294967040 4294967295 = None.
Proof. apply memory_dump_endless; [lia|reflexivity|lia]. Defined.

(** No build defines [__kernel__], so that a beep makes no sound. *)
Theorem beep_silent {H} `{Ports H} (frequency duration : Z) (h : H) : beep false frequency duration h = Some (tt, h).
Proof. done. Qed.
