(* ===== verification/ShellCmd.v ===== *)
(** kernel/shell/command.c, the commands that call one other part: files, processes, the
    clock, waiting, dumps and the list of commands.

    [world] is what they change: the console as a sequence of events, the hardware with the
    clock, the speaker and the time that passes, the FAT32 volume, the floppy disk and the
    processes.  A command gets its words; the drives and the memory it only reads are
    arguments.  What [malloc] hands out is given back by each command and not tracked. *)

From stdpp Require Import strings.
From S2P Require Import Sched Prelude Effects CString CStdlib CStdio Printf Ports CharDev BlockDev Ata Fat32Fat Fat32Dir Fat12 Stdio.

Record world (D FD H : Type) := Mk_world { w_out : list event; w_hw : H; w_fat : fat32 D; w_fdd : fs12 FD; w_kernel : Sched.kernel }.
Arguments Mk_world {D FD H}. Arguments w_out {D FD H}. Arguments w_hw {D FD H}. Arguments w_fat {D FD H}. Arguments w_fdd {D FD H}. Arguments w_kernel {D FD H}.

Section Commands.
Context {D FD H : Type} `{BlockDev D} `{Floppy FD} `{Ports H}.
Context (alloc_ok : Z -> bool) (fresh : nat -> buf) (fuel : nat) (clock : nat -> rtc) (slot_addr : Z -> Z).
Abbreviation A := (M (world D FD H)).

Definition on_hw {X} (m : M H X) : A X := fun w =>
  match m (w_hw w) with Some (x, h) => Some (x, Mk_world (w_out w) h (w_fat w) (w_fdd w) (w_kernel w)) | None => None end.
Definition on_fat {X} (m : M (fat32 D) X) : A X := fun w =>
  match m (w_fat w) with Some (x, f) => Some (x, Mk_world (w_out w) (w_hw w) f (w_fdd w) (w_kernel w)) | None => None end.
Definition on_fdd {X} (m : M (fs12 FD) X) : A X := fun w =>
  match m (w_fdd w) with Some (x, f) => Some (x, Mk_world (w_out w) (w_hw w) (w_fat w) f (w_kernel w)) | None => None end.
Definition on_kernel {X} (m : Sched.kernel -> option (X * Sched.kernel)) : A X := fun w =>
  match m (w_kernel w) with Some (x, k) => Some (x, Mk_world (w_out w) (w_hw w) (w_fat w) (w_fdd w) k) | None => None end.
Definition shows (l : list event) : A unit := modify (fun w => Mk_world (w_out w ++ l) (w_hw w) (w_fat w) (w_fdd w) (w_kernel w)).
Definition cprintf (format : buf) (args : list va_word) : A unit := t ← lift (printf format args); shows [Shown t].
Definition line (format : string) (args : list va_word) : A unit := cprintf (lit_bytes format ++ [10; 0]) args.
Definition part (format : string) (args : list va_word) : A unit := cprintf (lit format) args.

(** [strtoul(s, NULL, base)], and its conversion to [int]. *)
Definition number (base : Z) (s : buf) : A Z := r ← lift (strtoul s base); mret (fst r).
Definition int_of (s : buf) : A Z := n ← number 10 s; mret (s32 n).

(** * The list of commands *)

Definition help_cols (cmd_count : Z) : Z := if cmd_count <? 6 then 1 else if cmd_count <? 20 then 2 else 3.
Definition help_rows (cmd_count : Z) : Z := Z.quot (cmd_count + help_cols cmd_count - 1) (help_cols cmd_count).

Fixpoint help_row (names : list buf) (rows r c : Z) (n : nat) : A unit :=
  match n with
  | O => line "" []
  | S n' =>
      _ ← (match names !! Z.to_nat (c * rows + r) with Some nm => part "  %-20s" [VStr (Some nm)] | None => mret tt end);
      help_row names rows r (c + 1) n'
  end.
Fixpoint help_table (names : list buf) (cols rows r : Z) (n : nat) : A unit :=
  match n with
  | O => mret tt
  | S n' => _ ← help_row names rows r 0 (Z.to_nat cols); help_table names cols rows (r + 1) n'
  end.
Fixpoint lines (l : list string) : A unit := match l with [] => mret tt | t :: l' => _ ← line t []; lines l' end.

Definition help_head : list string :=
  [""; "=== Rudolf Stepan x86 Microkernel Shell ==="; ""; "Enhanced shell with line editing and command history"; ""; "Keyboard Shortcuts:";
   "  Up Arrow    - Previous command in history"; "  Down Arrow  - Next command in history"; "  Ctrl+C      - Cancel current line"; "  Ctrl+L      - Clear screen";
   "  Ctrl+U      - Clear entire line"; "  Ctrl+K      - Clear from cursor to end of line"; "  Backspace   - Delete character before cursor";
   "  Delete      - Delete character at cursor"; ""; "Available Commands:"]%string.
Definition help_tail : list string := [""; "Tip: Use 'history' to see previous commands"; "     Use arrow keys to navigate through history"; ""]%string.

(** [names] are the entries of [command_table] in front of the one without a name. *)
Definition cmd_help (names : list buf) : A unit :=
  _ ← lines help_head;
  let cmd_count := Z.of_nat (length names) in
  _ ← help_table names (help_cols cmd_count) (help_rows cmd_count) 0 (Z.to_nat (help_rows cmd_count));
  lines help_tail.

(** * Memory and drives *)

(** [getchar] is the keyboard's. *)
Definition cmd_mem (getchar : A Z) : A unit :=
  _ ← part "Enter a value: " [];
  c ← getchar;
  line "You entered: %c" [VInt c].

Definition cmd_dump (mem : Z -> Z) (args : list buf) : A unit :=
  start_address ← (match args with a :: _ => number 16 a | [] => mret 0x80000000 end);
  end_address ← (match args with _ :: b :: _ => number 16 b | _ => mret 0x80000100 end);
  l ← lift (memory_dump fuel fresh mem start_address end_address);
  shows l.

Definition type_code (t : drive_type_t) : Z := match t with DRIVE_TYPE_NONE => 0 | DRIVE_TYPE_ATA => 1 | DRIVE_TYPE_FDD => 2 end.

Fixpoint drive_lines (l : list drive_t) (i : Z) : A unit :=
  match l with
  | [] => mret tt
  | d :: l' =>
      _ ← part "  [%d] " [VInt i];
      _ ← match type d with
          | DRIVE_TYPE_ATA => line "%s: %s, Sectors: %u" [VStr (Some (name d)); VStr (Some (model d)); VInt (sectors d)]
          | DRIVE_TYPE_FDD => line "%s: Floppy Drive (CHS: %u/%u/%u)" [VStr (Some (name d)); VInt (cylinder d); VInt (head d); VInt (sector_ d)]
          | DRIVE_TYPE_NONE => line "%s: Unknown type %d" [VStr (Some (name d)); VInt (type_code (type d))]
          end;
      drive_lines l' (i + 1)
  end.
(** [count_addr] and [drives_addr] are the addresses of the two variables; the drives are
    the first [drive_count] of the array. *)
Definition list_detected_drives (count_addr drives_addr : Z) (drives : list drive_t) : A unit :=
  let drive_count := Z.of_nat (length drives) in
  _ ← line "=== Drive List Debug ===" [];
  _ ← line "drive_count variable address: %p, value: %d" [VInt count_addr; VInt drive_count];
  _ ← line "detected_drives array address: %p" [VInt drives_addr];
  _ ← line "Total drives detected: %d" [VInt drive_count];
  _ ← drive_lines drives 0;
  line "======================" [].

Definition cmd_drives (count_addr drives_addr : Z) (drives : list drive_t) : A unit :=
  _ ← line "Available drives:" [];
  list_detected_drives count_addr drives_addr drives.

(** * Files *)

(** A command with one word. *)
Definition with_word (message : string) (f : buf -> A unit) (args : list buf) : A unit :=
  match args with [] => line message [] | a :: _ => f a end.

(** The commands run in the kernel: the code segment is 8. *)
Definition kernel_cs : Z := 8.
Definition cmd_mkdir := with_word "MKDIR command without arguments" (fun a => _ ← on_fat (mkdir fresh fuel clock kernel_cs a); mret tt).
Definition cmd_rmdir := with_word "RMDIR command without arguments" (fun a => _ ← on_fat (rmdir alloc_ok fresh fuel kernel_cs a); mret tt).
Definition cmd_mkfile := with_word "MKFILE command without arguments" (fun a => _ ← on_fat (mkfile fresh fuel clock kernel_cs a); mret tt).
Definition cmd_rmfile := with_word "RMFILE command without arguments" (fun a => _ ← on_fat (remove alloc_ok fresh fuel kernel_cs a); mret tt).

(** The block is one byte longer than the file; the byte is not written. *)
Definition open_on_disk (path : buf) : A unit :=
  file ← on_fat (fat32_open_file alloc_ok path (lit "r"));
  match file with
  | None => line "File not found: %s" [VStr (Some path)]
  | Some file =>
      _ ← line "Name: %s" [VStr (Some (Fat32Dir.f_name file))];
      _ ← line "Size: %zu" [VInt (Fat32Dir.f_size file)];
      let buffer_size := Fat32Dir.f_size file in
      if negb (alloc_ok (u32 (buffer_size + 1))) then line "Failed to allocate memory for file buffer" []
      else
        data ← on_fat (fat32_read_file fuel file buffer_size buffer_size);
        let buffer := blit (fresh (Z.to_nat (u32 (buffer_size + 1)))) 0 data in
        if (length data =? 0)%nat then line "Failed to read file" []
        else
          _ ← line "Result: %d" [VInt (blen data)];
          _ ← line "File contents:" [];
          line "%s" [VStr (Some buffer)]
  end.
(** The block has the size of the file. *)
Definition open_on_floppy (path : buf) : A unit :=
  file ← on_fdd (fat12_open_file alloc_ok fresh fuel (Some path) (Some (lit "r")));
  match file with
  | None => line "File not found: %s" [VStr (Some path)]
  | Some file =>
      let buffer_size := Fat12.f_size file in
      if negb (alloc_ok buffer_size) then line "Failed to allocate memory for file buffer" []
      else
        r ← on_fdd (fat12_read_file alloc_ok fresh fuel file (fresh (Z.to_nat buffer_size)) buffer_size buffer_size);
        let '(result, file, buffer) := r in
        if result =? 0 then line "Failed to read file" []
        else
          _ ← line "File contents:" [];
          _ ← line "%s" [VStr (Some buffer)];
          l ← lift (hex_dump fuel buffer (Fat12.f_size file));
          shows l
  end.
(** [current] is the drive that [current_drive] points to. *)
Definition open_file (current : option drive_t) (path : buf) : A unit :=
  _ ← line "Opening file: %s" [VStr (Some path)];
  match current with
  | None => undef
  | Some d => match type d with DRIVE_TYPE_ATA => open_on_disk path | DRIVE_TYPE_FDD => open_on_floppy path | DRIVE_TYPE_NONE => mret tt end
  end.
Definition cmd_open (current : option drive_t) := with_word "OPEN command without arguments" (open_file current).

(** * Processes *)

(** [load] as in Sched.v. *)
Definition cmd_exec (load : buf -> Z) := with_word "EXEC command without arguments" (fun a =>
  _ ← on_kernel (fun k => Sched.create_process_for_file slot_addr load fuel k a); mret tt).
Definition cmd_kill := with_word "KILL command without arguments" (fun a =>
  pid ← int_of a;
  on_kernel (fun k => k' ← Sched.terminate_process k pid; Some (tt, k'))).
(** The entry point is the address of the word. *)
Definition cmd_run (address_of : buf -> Z) := with_word "RUN command without arguments" (fun program_name =>
  pid ← on_kernel (fun k => Sched.create_process slot_addr fuel k (address_of program_name));
  if pid =? -1 then line "Failed to start program '%s'." [VStr (Some program_name)] else mret tt).
Definition cmd_start_task := with_word "RTASK command without arguments" (fun a =>
  task_id ← int_of a;
  if (task_id <? 0) || (Sched.MAX_TASKS <=? task_id) then line "Invalid task ID: %d" [VInt task_id] else mret tt).

(** * The clock, waiting and the rest *)

Definition cmd_read_datetime : A unit :=
  t ← on_hw (read_time fuel);
  d ← on_hw (read_date fuel);
  let '(hour, minute, second) := t in
  let '(year, month, day) := d in
  line "Current date and time: %d-%02d-%02d %02d:%02d:%02d" [VInt year; VInt month; VInt day; VInt hour; VInt minute; VInt second].
Definition cmd_set_time (args : list buf) : A unit :=
  match args with
  | a :: b :: c :: _ => hour ← int_of a; minute ← int_of b; second ← int_of c; on_hw (write_time fuel hour minute second)
  | _ => line "SETTIME command requires hour, minute, and second" []
  end.
Definition cmd_set_date (args : list buf) : A unit :=
  match args with
  | a :: b :: c :: _ => year ← int_of a; month ← int_of b; day ← int_of c; on_hw (write_date fuel year month day)
  | _ => line "SETDATE command requires year, month, and day" []
  end.

(** [int43] is interrupt 0x2b with the number in EAX. *)
Definition cmd_irq (int43 : Z -> A unit) := with_word "IRQ command without arguments" (fun a => irq ← int_of a; int43 irq).

Definition delay_ms (ms : Z) : A unit := on_hw (pit_delay (u32 ms)).
(** The product is an [int]. *)
Definition cmd_sleep := with_word "SLEEP command without arguments" (fun a =>
  seconds ← int_of a;
  _ ← line "Sleeping for %d seconds" [VInt seconds];
  _ ← (if s32 (seconds * 1000) =? seconds * 1000 then delay_ms (seconds * 1000) else undef);
  line "Sleeping for %d seconds finished." [VInt seconds]).
Definition cmd_wait := with_word "WAIT command without arguments" (fun a =>
  ticks ← int_of a;
  _ ← line "Sleeping for %d ticks..." [VInt ticks];
  _ ← delay_ms ticks;
  line "Done sleeping!" []).
Definition cmd_beep (kernel : bool) (args : list buf) : A unit :=
  match args with
  | a :: b :: _ => frequency ← number 10 a; duration ← number 10 b; on_hw (beep kernel frequency duration)
  | _ => on_hw (beep kernel 1000 1000)
  end.

Definition cmd_sys : A unit := line "Program execution continues..." [].
(** The function [exit] is empty. *)
Definition exit (status : Z) : A unit := mret tt.
Definition cmd_exit : A unit := _ ← line "Exiting command interpreter" []; exit 0.
End Commands.

(** * What they do *)

Section Behaviour.
Context {D FD H : Type} `{BlockDev D} `{Floppy FD} `{Ports H}.
Context (alloc_ok : Z -> bool) (fresh : nat -> buf) (fuel : nat).
Implicit Types w : world D FD H.

Definition put_out w (l : list event) : world D FD H := Mk_world (w_out w ++ l) (w_hw w) (w_fat w) (w_fdd w) (w_kernel w).

Lemma put_put w l l' : put_out (put_out w l) l' = put_out w (l ++ l').
Proof. unfold put_out. cbn. by rewrite app_assoc. Qed.

(** A printf whose format fits its arguments. *)
Definition text_of (format : buf) (args : list va_word) : buf := default [] (printf format args).
Lemma cprintf_eq format args w : fits (S (length format)) format (map kind_of args) = true -> Forall terminated args ->
  cprintf format args w = Some (tt, put_out w [Shown (text_of format args)]).
Proof.
  intros Hf Ht. destruct (printf_loop_total _ _ _ Hf Ht) as [t E]. unfold cprintf, text_of, printf. rewrite E, (lift_bind _ t _ _ eq_refl). done.
Qed.

Definition shown_lines (l : list string) : list event := map (fun t => Shown (text_of (lit_bytes t ++ [10; 0]) [])) l.
Lemma lines_eq l : forall w, forallb (fun t => fits (S (length (lit_bytes t ++ [10; 0]))) (lit_bytes t ++ [10; 0]) []) l = true ->
  lines l w = Some (tt, put_out w (shown_lines l)).
Proof.
  induction l as [|t l IH]; intros w Hl; cbn [lines map]; [unfold put_out; rewrite app_nil_r; by destruct w|]. apply andb_prop in Hl as [Ht Hl].
  unfold line. rewrite (bind_eq _ _ _ _ _ (cprintf_eq (lit_bytes t ++ [10; 0]) [] w Ht ltac:(constructor))), (IH _ Hl), put_put. done.
Qed.

(** ** The list of commands *)

(** The numbers of the commands in the order in which they are printed. *)
Definition help_index (n rows r : Z) (c : nat) : list nat := let i := Z.to_nat (Z.of_nat c * rows + r) in if (i <? Z.to_nat n)%nat then [i] else [].
Definition help_order (n : Z) : list nat :=
  mjoin (map (fun r => mjoin (map (help_index n (help_rows n) (Z.of_nat r)) (seq 0 (Z.to_nat (help_cols n))))) (seq 0 (Z.to_nat (help_rows n)))).

Lemma help_order_elem n i : 0 <= n -> i ∈ help_order n <-> (i < Z.to_nat n)%nat.
Proof.
  intros Hn. unfold help_order. rewrite list_elem_of_join. split.
  - intros (l & Hi & Hl). apply list_elem_of_fmap in Hl as (r & -> & _). apply list_elem_of_join in Hi as (l2 & Hi & Hl2).
    apply list_elem_of_fmap in Hl2 as (c & -> & _). unfold help_index in Hi. destruct (Nat.ltb_spec (Z.to_nat (Z.of_nat c * help_rows n + Z.of_nat r)) (Z.to_nat n)); [|by apply not_elem_of_nil in Hi].
    apply list_elem_of_singleton in Hi. lia.
  - intros Hi. assert (1 <= help_cols n /\ n <= help_cols n * help_rows n /\ 0 < help_rows n) as (Hc & Hrc & Hr).
    { unfold help_rows, help_cols. destruct (n <? 6), (n <? 20); rewrite Z.quot_div_nonneg by lia; zlia. }
    set (rows := help_rows n) in *. set (z := Z.of_nat i). assert (0 <= z < n) by lia.
    assert (0 <= z mod rows < rows) by (apply Z.mod_pos_bound; lia). assert (0 <= z / rows < help_cols n) by (split; [apply Z.div_pos; lia|apply Z.div_lt_upper_bound; lia]).
    pose proof (Z.div_mod z rows ltac:(lia)). eexists. split; [|apply list_elem_of_fmap; exists (Z.to_nat (z mod rows)); split; [reflexivity|apply elem_of_seq; lia]].
    apply list_elem_of_join. exists [i]. split; [by apply list_elem_of_singleton|]. apply list_elem_of_fmap. exists (Z.to_nat (z / rows)). split; [|apply elem_of_seq; lia].
    unfold help_index. rewrite !Z2Nat.id by lia. replace (z / rows * rows + z mod rows) with z by lia. replace (Z.to_nat z) with i by lia.
    by rewrite (proj2 (Nat.ltb_lt _ _) Hi).
Qed.

Lemma NoDup_join {X Y} (f : X -> list Y) l : NoDup l -> (forall x, x ∈ l -> NoDup (f x)) -> (forall x y i, x ∈ l -> y ∈ l -> i ∈ f x -> i ∈ f y -> x = y) -> NoDup (mjoin (map f l)).
Proof.
  induction 1 as [|x l Hx _ IH]; intros Hf Hd; cbn [map mjoin list_join]; [constructor|]. apply NoDup_app. split; [apply Hf; left|]. split.
  - intros i Hi Hj. apply list_elem_of_join in Hj as (l2 & Hi2 & Hl2). apply list_elem_of_fmap in Hl2 as (y & -> & Hy).
    assert (x = y) as -> by (apply (Hd x y i); [left|by right|done|done]). done.
  - apply IH; [intros y Hy; apply Hf; by right|]. intros y z i Hy Hz. apply Hd; by right.
Qed.

Lemma help_index_elem n rows r c i : i ∈ help_index n rows r c -> i = Z.to_nat (Z.of_nat c * rows + r).
Proof. unfold help_index. destruct (_ <? _)%nat; intros Hi; [by apply list_elem_of_singleton in Hi|by apply not_elem_of_nil in Hi]. Qed.

Lemma help_order_NoDup n : 0 <= n -> NoDup (help_order n).
Proof.
  intros Hn. unfold help_order. set (rows := help_rows n). apply NoDup_join; [apply NoDup_seq| |].
  - intros r Hr%elem_of_seq. apply NoDup_join; [apply NoDup_seq| |].
    + intros c _. unfold help_index. destruct (_ <? _)%nat; [apply NoDup_singleton|constructor].
    + intros c c' i _ _ Hi%help_index_elem Hi'%help_index_elem. nia.
  - intros r r' i Hr%elem_of_seq Hr'%elem_of_seq Hi Hi'. apply list_elem_of_join in Hi as (l & Hi & Hl). apply list_elem_of_join in Hi' as (l' & Hi' & Hl').
    apply list_elem_of_fmap in Hl as (c & -> & _). apply list_elem_of_fmap in Hl' as (c' & -> & _). apply help_index_elem in Hi, Hi'.
    assert (Z.of_nat c * rows + Z.of_nat r = Z.of_nat c' * rows + Z.of_nat r') as E by lia.
    assert (0 < rows) by lia. apply (f_equal (fun x => x mod rows)) in E. rewrite !(Z.add_comm (_ * rows)), !Z_mod_plus_full, !Z.mod_small in E by lia. lia.
Qed.

(** The events of the table: the names in the order of [help_order], with a line end behind
    every row. *)
Definition name_cell (nm : buf) : event := Shown (text_of (lit "  %-20s") [VStr (Some nm)]).
Definition row_end : event := Shown [10].
Definition row_cells (names : list buf) (rows r : Z) (cs : list nat) : list event :=
  map (fun i => name_cell (nth i names [])) (mjoin (map (help_index (Z.of_nat (length names)) rows r) cs)).

Lemma help_row_eq names rows r (Hs : Forall (fun nm => terminated (VStr (Some nm))) names) n : forall c w, help_row names rows r (Z.of_nat c) n w =
  Some (tt, put_out w (row_cells names rows r (seq c n) ++ [row_end])).
Proof.
  induction n as [|n IH]; intros c w; cbn [help_row seq]; [unfold line; by rewrite cprintf_eq by done|].
  replace (Z.of_nat c + 1) with (Z.of_nat (S c)) by lia. unfold row_cells. cbn [map mjoin list_join]. rewrite map_app. unfold help_index at 1.
  rewrite Nat2Z.id. destruct (Nat.ltb_spec (Z.to_nat (Z.of_nat c * rows + r)) (length names)) as [Hlt|Hge].
  - destruct (lookup_lt_is_Some_2 names _ Hlt) as [nm E]. rewrite E. unfold part.
    rewrite (bind_eq _ _ _ _ _ (cprintf_eq (lit "  %-20s") [VStr (Some nm)] w eq_refl ltac:(constructor; [exact (Forall_lookup_1 _ _ _ _ Hs E)|constructor]))).
    rewrite IH, put_put. cbn [map]. by rewrite (nth_lookup_Some _ _ _ _ E).
  - rewrite lookup_ge_None_2 by done. rewrite (bind_eq _ _ _ _ _ eq_refl). by rewrite IH.
Qed.

Lemma help_table_eq names cols rows (Hs : Forall (fun nm => terminated (VStr (Some nm))) names) n : forall r w, help_table names cols rows (Z.of_nat r) n w =
  Some (tt, put_out w (mjoin (map (fun k => row_cells names rows (Z.of_nat k) (seq 0 (Z.to_nat cols)) ++ [row_end]) (seq r n)))).
Proof.
  induction n as [|n IH]; intros r w; cbn [help_table seq map mjoin list_join]; [unfold put_out; rewrite app_nil_r; by destruct w|].
  rewrite (bind_eq _ _ _ _ _ (help_row_eq names rows (Z.of_nat r) Hs (Z.to_nat cols) 0 w)). replace (Z.of_nat r + 1) with (Z.of_nat (S r)) by lia.
  by rewrite IH, put_put.
Qed.
Definition help_grid (names : list buf) : list (list buf) :=
  let n := Z.of_nat (length names) in
  map (fun r => map (fun i => nth i names []) (mjoin (map (help_index n (help_rows n) (Z.of_nat r)) (seq 0 (Z.to_nat (help_cols n)))))) (seq 0 (Z.to_nat (help_rows n))).

Lemma mjoin_map_map {X Y} (f : X -> Y) (l : list (list X)) : mjoin (map (map f) l) = map f (mjoin l).
Proof. induction l as [|x l IH]; [done|]. cbn [map mjoin list_join]. rewrite map_app. f_equal. exact IH. Qed.

Lemma nth_seq_all {X} (l : list X) d : map (fun i => nth i l d) (seq 0 (length l)) = l.
Proof.
  apply list_eq. intros i. rewrite list_lookup_fmap. destruct (decide (i < length l)%nat) as [Hi|Hi].
  - rewrite lookup_seq_lt by done. cbn. destruct (lookup_lt_is_Some_2 l i Hi) as [x E]. by rewrite E, (nth_lookup_Some _ _ _ _ E).
  - rewrite lookup_seq_ge by lia. symmetry. apply lookup_ge_None. lia.
Qed.

Lemma help_grid_all names : mjoin (help_grid names) ≡ₚ names.
Proof.
  unfold help_grid. set (n := Z.of_nat (length names)).
  rewrite <- (map_map (fun r => mjoin (map (help_index n (help_rows n) (Z.of_nat r)) (seq 0 (Z.to_nat (help_cols n))))) (map (fun i => nth i names []))).
  rewrite mjoin_map_map. change (mjoin (map _ (seq 0 (Z.to_nat (help_rows n))))) with (help_order n).
  transitivity (map (fun i => nth i names []) (seq 0 (length names))); [|by rewrite nth_seq_all]. apply Permutation_map. apply NoDup_Permutation; [apply help_order_NoDup; lia|apply NoDup_seq|].
  intros i. rewrite help_order_elem, elem_of_seq by lia. lia.
Qed.

(** [help] lists every command exactly once, however many there are: the names stand in a
    grid of one, two or three columns, filled column by column, a line for each row. *)
Theorem help_lists_commands (names : list buf) w : Forall (fun nm => terminated (VStr (Some nm))) names ->
  exists grid before after, cmd_help names w = Some (tt, put_out w (before ++ mjoin (map (fun row => map name_cell row ++ [row_end]) grid) ++ after)) /\ mjoin grid ≡ₚ names /\
    Z.of_nat (length grid) = help_rows (Z.of_nat (length names)) /\ Forall (fun row => Z.of_nat (length row) <= help_cols (Z.of_nat (length names))) grid.
Proof.
  intros Hs. exists (help_grid names), (shown_lines help_head), (shown_lines help_tail). unfold cmd_help. split.
  - rewrite (bind_eq _ _ _ _ _ (lines_eq help_head w ltac:(vm_compute; reflexivity))). cbv zeta.
    rewrite (bind_eq _ _ _ _ _ (help_table_eq names _ _ Hs (Z.to_nat (help_rows (Z.of_nat (length names)))) 0 _)). rewrite (lines_eq help_tail _ ltac:(vm_compute; reflexivity)), !put_put. do 5 f_equal.
    unfold help_grid, row_cells. cbv zeta. rewrite map_map. f_equal. apply map_ext. intros r. by rewrite map_map.
  - split; [apply help_grid_all|]. split.
    + unfold help_grid. rewrite length_map, length_seq. set (n := Z.of_nat (length names)). assert (0 <= n) by lia. unfold help_rows, help_cols. destruct (n <? 6), (n <? 20); rewrite Z.quot_div_nonneg by lia; zlia.
    + apply Forall_map, Forall_true. intros r. rewrite length_map. set (n := Z.of_nat (length names)).
      assert (forall cs, (length (mjoin (map (help_index n (help_rows n) (Z.of_nat r)) cs)) <= length cs)%nat) as Hle.
      { induction cs as [|c cs IH]; [done|]. cbn [map mjoin list_join length]. rewrite length_app. unfold help_index at 1. destruct (_ <? _)%nat; [apply le_n_S; exact IH|apply le_S; exact IH]. }
      specialize (Hle (seq 0 (Z.to_nat (help_cols n)))). rewrite length_seq in Hle. assert (0 <= help_cols n) by (unfold help_cols; destruct (n <? 6), (n <? 20); lia). lia.
Qed.
End Behaviour.
